(* ===== verification/_CoqProject ===== *)
-Q . S2P
Prelude.v
Abi.v
Tasks.v
Queues.v
Scheduler.v
SchedulerInv.v
SchedulerSteps.v
SchedulerSpec.v
WaitQueues.v
Memory.v
Frames.v
UserCopy.v
Syscall.v
Elf.v
LoadPlan.v
Loader.v
AddressSpaceBuilder.v
Populate.v
Process.v
ProcessInv.v
Binding.v
Execution.v
UserExecution.v
KernelTask.v
Runtime.v
Dispatch.v
SystemRuntime.v
SystemInv.v
SystemProps.v
ProcessRuntime.v
Apic.v
InterruptEntry.v
Hello.v
Contracts.v
KernelManager.v
KernelSleep.v
Rotation.v
Acknowledge.v
CriticalSection.v
KernelSystem.v
Sleeper.v
PageWalk.v
PageTable.v
Acpi.v
Timers.v
Descriptors.v
Serial.v
Heap.v
Boot.v
BootHeap.v
BootTasks.v
Asm.v
AsmProps.v
Masking.v
BootMasking.v
VoluntarySwitch.v
TestKit.v
TestsScheduler.v
TestsMemory.v
TestsProcess.v
TestsKernel.v
TestsArch.v
Unlinked.v
Conformance.v
