(* ===== verification/Prelude.v ===== *)
(** * X11-OS: a verification library of the kernel

    X11-OS is a single-CPU x86_64 kernel in Rust: a bootloader stage hands it a
    memory map and a ramdisk with one ELF program; it builds processes from ELF
    images, schedules them together with kernel tasks, and serves three system
    calls (write, exit, yield) through interrupt vector 0x80 and preemption through
    the timer interrupt.  This library models the kernel, from [kernel_main] to the
    naked assembly, and its first user program as executable functions, and proves what
    they rely on.

    ** Parts, files and source

    Paths are below [kernel/src/] unless they start with another directory; [x86/]
    stands for [arch/x86_64/].

    - [Prelude]: [Result] with panics, the [let?] and [let!] notations of the [?]
      operator, checked 64- and 32-bit arithmetic, [binary_search]-style partition,
      slices, little-endian reads, the tactics [ulia], [case_if], [to_prop] and the
      hint database [x11].
    - [Abi]: [abi/src/lib.rs], numbers and error codes of the system calls.
    - [Tasks]: [scheduler/task.rs], [execution.rs].  [Queues]: [run_queue.rs],
      [wait_queue.rs], [sleep_queue.rs], [reschedule.rs].  [Scheduler]: every
      operation of [scheduler/mod.rs] on a record of the slot table, the
      generations, the ready queue and the current task.  [SchedulerInv]: an abstract
      scheduler (a state per task, a FIFO queue, an owner), the invariant of the
      table and what each operation does to the abstraction.  [SchedulerSteps]: the
      operations as a step relation, and the theorems.  [SchedulerSpec]: the abstract
      scheduler as a machine that answers each call, and the table against it.
      [WaitQueues]: the scheduler together with wait queues and the sleep queue.
    - [Memory]: [memory/address_space.rs], [page.rs], [physical.rs], [region.rs],
      [user.rs], [user_stack.rs], [page_table.rs].  [Frames]: [boot.rs], [frame.rs].
      [UserCopy]: [user_copy.rs] and [x86/user_copy.rs].
    - [Syscall]: [syscall.rs].
    - [Elf]: [process/image.rs].  [LoadPlan]: [load_plan.rs], [stack.rs],
      [initial_context.rs], [address_space.rs], [image_state.rs], [ramdisk_image.rs],
      [loaded_address_space.rs].  [Loader]: [loader.rs].  [AddressSpaceBuilder]: [address_space_builder.rs].
      [Populate]: [populate.rs], [populated_address_space.rs], [x86/image_writer.rs].
    - [Process]: [process/manager.rs], [identity.rs], [state.rs], [user_launch.rs];
      [ProcessInv] its transition system; [Binding]: [scheduler_binding.rs].
    - [Execution]: [x86/context_switch.rs] (data and bootstrap), [interrupted_state.rs],
      [interrupt_entry.rs] (frames), [execution.rs], [execution_registry.rs],
      [activation.rs], [preemption_plan.rs].  [UserExecution]: [x86/user_execution.rs],
      [user_launch.rs], [user_return.rs], [user_return_transfer.rs] and the root
      address of [address_space.rs].  [KernelTask]:
      [x86/cpu_local.rs], [gdt.rs] (kernel stack), [dispatch.rs], [kernel_task.rs].
      [Runtime]: the timer side of [x86/runtime.rs].  [Dispatch]: its voluntary side,
      with [yield_switch.rs].  [ProcessRuntime]: [x86/process_runtime.rs].
    - [SystemRuntime]: [x86/system_runtime.rs], [user_successor.rs]; [SystemInv] the
      invariant across its four owners; [SystemProps] the theorems.
    - [InterruptEntry]: the handlers of [x86/interrupt_entry.rs], with
      [user_transfer.rs] and the counters and fault handlers of [idt.rs].  [Hello]:
      [userspace/hello/src/main.rs], as a client of these handlers.  [Contracts]:
      [x86/user_context.rs], [preemption.rs], [preemption_contract.rs],
      [interrupt_frame.rs], [user_activation.rs].  [KernelManager]: what the operations
      of the runtime leave alone; [KernelSleep]: kernel tasks that sleep or exit;
      [Rotation]: kernel tasks that share the CPU through the timer; [CriticalSection]: the
      preemption guard of [x86/runtime.rs] across ticks; [Acknowledge]: the end of
      interrupt of every arrival;
      [KernelSystem]: the transition system of the handlers, kernel tasks and processes
      together; [Sleeper]: every tick from a task's call to sleep to its return.
    - [PageWalk]: [x86/user_memory.rs], the walk of the active page tables over a
      physical memory.  [PageTable]: [x86/page_table.rs], the new roots of
      [address_space.rs] and [process_loader.rs].
    - [Acpi]: [x86/acpi.rs], [irq_routing.rs].  [Apic]: [interrupts.rs],
      [interrupt_controller.rs], [x86/apic.rs], [ioapic.rs], [local_apic.rs],
      [pic.rs].  [Timers]: [timer.rs], [x86/tsc.rs], [lapic_timer.rs].
    - [Descriptors]: [x86/gdt.rs], the table of [idt.rs], [mod.rs].  [Serial]:
      [serial.rs].  [Heap]: [heap/mod.rs].  [Boot]: [main.rs], [ramdisk.rs],
      [hello.rs] and the start of [physical.rs]; [BootHeap]: the heap it makes and the
      frames left over; [BootTasks]: the kernel tasks it starts.
    - [Asm]: a machine with the instructions of the [naked_asm!] bodies, and those
      bodies ([x86/interrupt_entry.rs], [context_switch.rs], [user_entry.rs],
      [preempt_return.rs]); [AsmProps] what they do; [Masking] what they do to the
      interrupt flag; [BootMasking]: kernel and machine run together, with ticks as the
      CPU delivers them.  [VoluntarySwitch]:
      [x86/voluntary_switch.rs] on that machine.
    - [TestKit], [TestsScheduler], [TestsMemory], [TestsProcess], [TestsKernel],
      [TestsArch]: the repository's unit tests, one boolean per test function, under its
      name; [Unlinked]: the files no [mod] declaration names, with their tests;
      [Conformance]: all of them run in the model.

    ** How the code is modelled

    A [&mut self] method is a function from the state to the result and the state:
    the state comes back on every path, so that what an error leaves behind can be
    stated.  A Rust error is a constructor of the error type; [Panic] stands for a
    failed index, [expect], [unwrap] or assertion.  Machine integers are [Z] with
    checked, wrapping or truncating operations written out.  Fixed-capacity arrays
    and [Vec]s are lists with the bounds checks of the source.  The one aliased
    object, the system runtime behind the pointers of the CPU-local state, is one
    component of the state of [InterruptEntry].  Device code is a function of the list
    of accesses made so far: each access is appended, and a read is answered by the
    class [Hardware] from that list, so any device behaviour is covered.  The assembly
    runs on registers and a memory of 64-bit words; a call of compiled code in it is a
    function on the machine.

    What is outside the repository is a parameter.  The classes are:
    [BootRegion] (the bootloader's region descriptor), [UserMemoryView] (discharged by
    [PageWalk]) and [PageTableMapper] with the laws [LawfulMapper] (discharged by
    [PageTable] over [OffsetPageTable] with [OffsetLaws], the mapper of the x86_64
    crate), [PagingCrate] with [PagingLaws] and [PhysAddrCrate] (entry bits and
    physical addresses of that crate), [GdtCrate] with [GdtLaws] (its descriptor
    table), [HeapCrate] with [HeapLaws] (the heap allocator crate, with a bump
    allocator as instance), [Hardware] and [ApicBaseCrate] (devices and model-specific
    registers), [ImagePageWriter] with [LawfulWriter] (discharged by the model
    of [image_writer.rs]), [UserCopyBackend] with [CopiesUserMemory] (discharged by
    the model of [x86/user_copy.rs] under the contract [x86_view_ok] of the page
    walk), [WriteSink], [ProcessSyscallControl] (discharged by the system runtime)
    and [VirtAddrCrate] with [VirtAddrLaw] (for which addresses [VirtAddr::new] returns);
    [Clocksource] and [TimerDevice] are traits of the kernel with their one
    implementation each; the record
    [KernelMemory] gives the addresses at which the heap places a stack.  Each
    theorem with such a parameter has a witness on a concrete instance.

    ** What the theorems show

    - The whole kernel ([KernelSystem]): in every state reached by spawning and starting
      processes, spawning, dispatching, blocking, waking, putting to sleep and ending kernel
      tasks, trapping and ticking, the invariant across all owners holds and nothing panics; once a process owns the CPU,
      only processes ever do.
    - Preemption ([Rotation], [BootTasks]): any number of kernel tasks rotate through the
      timer interrupt as an abstract queue of continuations does, each resumed exactly as
      it was interrupted; the two tasks boot starts are such a rotation.
    - Critical sections ([CriticalSection]): while the guard is held every tick returns to the
      task it interrupted and only leaves a request, which the tick after the drop consumes.
    - Acknowledgement ([Acknowledge]): over any sequence of ticks and traps, one end of
      interrupt per tick that reaches the counter and none for a trap.
    - The interrupt flag ([Masking], [BootMasking]): a task that a tick starts runs with the
      flag clear; so, whenever the timer raises its line, the tasks boot starts do not
      alternate.
    - Blocking ([WaitQueues]): each task of the table is in exactly one place, new, ready,
      on the CPU, in one wait queue or asleep, and a wake-up takes the head of its queue.
    - Sleeping ([Sleeper], [KernelSleep]): a kernel task that sleeps while another one is
      ready keeps its place through every tick and is resumed by the one at its deadline,
      exactly where it was interrupted; what
      goes wrong when it is alone, when it gives the CPU up itself, and when it exits.
    - Kernel entry ([InterruptEntry]): the same for processes alone, where moreover no
      snapshot is ever left behind; a write trap delivers exactly the user's bytes; an exit trap leaves for
      the next process; a yield takes effect at the next tick and saves exactly the
      interrupted state; and the exit of the only process is not carried out.
    - Assembly ([AsmProps]): an interrupt is transparent up to what the handler does to
      the saved registers, a system call changes nothing of its process but [rax], a
      preempted task resumes as it was, a new task reaches its entry.
    - The boot self-test ([VoluntarySwitch]) runs A, B, A in order, and which verdict it
      then gives depends on how the compiler addresses its locals.
    - The first program ([Hello]): whatever else the system does, its four traps return
      what the ABI promises and its messages reach the serial port.
    - System runtime ([SystemProps]): scheduler, process registry and both execution
      registries agree in every reachable state; spawning, exiting and yielding are
      atomic across them; a process that yields resumes where it stopped.
    - Scheduler: in every run the table gives the answers of the specification, which
      determines them but for the choice of a new identifier; the invariant of every
      reachable state; round-robin progress; identifiers never come back; sleepers
      wake exactly on time; sorted sleep queue, task lifecycle.
    - Building a process: ELF parsing never reads out of bounds and enforces W^X; the
      load plan covers each segment, inside user space, without overlap; mapping is
      transactional; population writes exactly the bytes of the image and zeros.
    - Page tables ([PageWalk], [PageTable]): what a process can read is exactly what
      present user entries map, and the walk keeps the contract of the copies; the
      mapper keeps the contract of the loader; a new root shares the kernel half and
      nothing else.
    - User memory and calls: slices are accepted exactly when they lie in user space;
      a range is readable exactly when each byte is; copies are exact across pages;
      results and errors of a call are never confused.
    - Registries: process identifiers never come back, exit codes are kept until
      reaped once; a captured interrupt is kept and consumed once; binding a process
      to the scheduler leaves nothing behind when it fails; a timer interrupt of a
      kernel task loses no state; a voluntary dispatch hands the CPU over completely or
      changes nothing.
    - Hardware tables and devices: ACPI discovery never panics and trusts only summed
      tables, the MADT parser terminates and inverts the encoding; vectors are handed
      out once; a redirection entry is written whole or not at all; the clock is exact
      and monotone; calibration terminates; every printed number is the number.
    - Heap ([BootHeap]): the heap boot makes lies in usable memory, and no frame
      handed out later touches a block it holds.
    - Frames: the allocator hands out each free page of the usable regions once, in
      order, and contiguous requests stay inside a region.
    - The unit tests ([Conformance]): the model meets the expectations of 234 of them;
      the six of linked files it does not meet contradict the code they test, and five
      need a CPU with a task-state segment.
    - What the code does not do as it means to: [exit_alone_returns],
      [boot_tasks_starve], [started_task_masked], [tick_unacknowledged],
      [lone_sleeper_restarts], [sleeper_context_not_saved],
      [exited_task_stops_preemption], [self_test_verdict], the lost yield of
      [yield_then_timer], the prefix sent by [write_trap_delivers],
      [restarted_process_cannot_yield],
      [timer_capture_stuck], [allocate_frame_overruns_region],
      [user_stack_not_canonical], the exit code 0 in [exit_protocol_atomic],
      [noncanonical_write_panics], [load_process_image_never_loads],
      [switch_back_low_stack], [resume_user_restores], [yielded_task_blocks_queue],
      [owner_exit_effect], [deadline_never_arms], [deadline_late], [arch_init_panics]
      and so [kernel_main_panics].

    ** Fuel

    Loops without a structural measure take fuel, and running out is [Panic] (or
    [None] in [Frames] and [Serial]), which the theorems exclude.  [readable_fuel] is the page
    count of the range plus two; [alloc_fuel] is the region count plus two; the copy
    loops take one more than the buffer length, since each round copies a byte;
    [map_range] takes one more than [MAX_MAPPED_PAGES], after which the code stops
    with an error; [populate_loop] takes the page count of the segment plus three; the
    stack loop takes one more than its 16 pages; [partition_loop] takes the length,
    since each round halves the range; [madt_loop] takes one more than the table's
    length; [digit_loop] takes one more than its buffer.  The two loops that wait for a
    device, [wait_empty] of the serial port and [spin] of calibration, take their fuel
    as an argument, and the theorems say how much is enough for which device.

    ** Not modelled

    The boot image builder ([boot/]) and the module lists; two files no [mod] declaration names and which do not
    match the functions they call ([x86/scheduler.rs], [user_activation_tests.rs]); what
    the compiler makes of Rust code between two switches of the self-test, and between two
    pieces of assembly in [BootMasking], which are arguments with a contract; assertions of the tests on sizes, alignment and offsets of
    compiled types; segment checks of [iretq] and status flags of the arithmetic in [Asm]. *)

From Stdlib Require Import ZArith Lia.
From stdpp Require Import base numbers list options.

Local Open Scope Z_scope.

(** ** Fallible computations

    [Ok]/[Err] are Rust's [Result]; [Panic] is a failed bounds check, [expect]
    or [unwrap].  A function of type [&mut self -> Result<A, E>] is a function
    from the state to [result E A * S]: the state is returned on every path, so
    that what an error path leaves behind can be stated. *)
Inductive result (E A : Type) : Type :=
| Ok (a : A)
| Err (e : E)
| Panic.
Global Arguments Ok {E A} a.
Global Arguments Err {E A} e.
Global Arguments Panic {E A}.

Global Instance result_eq_dec `{EqDecision E} `{EqDecision A} : EqDecision (result E A).
Proof. solve_decision. Defined.

Declare Scope rust_scope.
Delimit Scope rust_scope with rust.

(** [let? x := e in k] is [let x = e?; k]. *)
Notation "'let?' x := e 'in' k" :=
  (match e with Ok x => k | Err err => Err err | Panic => Panic end)
  (at level 10, x pattern, e at level 100, k at level 200)
  : rust_scope.

(** [let! x , s := e in k]: the same in state-passing style; an error leaves
    with the state reached so far. *)
Notation "'let!' x ',' s ':=' e 'in' k" :=
  (match e with (Ok x, s) => k | (Err err, s) => (Err err, s) | (Panic, s) => (Panic, s) end)
  (at level 10, x pattern, s name, e at level 100, k at level 200)
  : rust_scope.

Definition map_err {E F A} (f : E -> F) (r : result E A) : result F A :=
  match r with Ok a => Ok a | Err e => Err (f e) | Panic => Panic end.

(** A call without an error of its own that may still panic. *)
Definition never {E A} (r : result Empty_set A) : result E A :=
  match r with Ok a => Ok a | Err e => match e with end | Panic => Panic end.

Definition ok_or {E A} (o : option A) (e : E) : result E A :=
  match o with Some a => Ok a | None => Err e end.

Definition is_ok {E A} (r : result E A) : bool :=
  match r with Ok _ => true | _ => false end.

(** The error of one component seen through a [map_err] wrapper, with state. *)
Definition map_err_st {E F A S} (f : E -> F) (r : result E A * S) : result F A * S :=
  (map_err f r.1, r.2).

(** ** Machine integers: [uN] values are [Z]s in range *)
Definition U8_MAX : Z := 255.
Definition U16_MAX : Z := 65535.
Definition U32_MAX : Z := 4294967295.
Definition U64_MAX : Z := 18446744073709551615.

Definition is_u8 (x : Z) : Prop := 0 <= x <= U8_MAX.
Definition is_u32 (x : Z) : Prop := 0 <= x <= U32_MAX.
Definition is_u64 (x : Z) : Prop := 0 <= x <= U64_MAX.

Definition checked_add_u8 (a b : Z) : option Z := if a + b <=? U8_MAX then Some (a + b) else None.
Definition checked_mul_u8 (a b : Z) : option Z := if a * b <=? U8_MAX then Some (a * b) else None.
Definition checked_add_u32 (a b : Z) : option Z := if a + b <=? U32_MAX then Some (a + b) else None.
Definition checked_add (a b : Z) : option Z := if a + b <=? U64_MAX then Some (a + b) else None.
Definition checked_sub (a b : Z) : option Z := if b <=? a then Some (a - b) else None.
Definition checked_mul (a b : Z) : option Z := if a * b <=? U64_MAX then Some (a * b) else None.
Definition saturating_add (a b : Z) : Z := Z.min (a + b) U64_MAX.
Definition saturating_sub (a b : Z) : Z := Z.max (a - b) 0.
Definition wrapping_sub (a b : Z) : Z := (a - b) mod (U64_MAX + 1).
(** [x as u32] of a wider value. *)
Definition as_u32 (x : Z) : Z := x mod (U32_MAX + 1).
(** [!x] on [u64]. *)
Definition not_u64 (x : Z) : Z := U64_MAX - x.

Ltac unfold_ints :=
  unfold is_u8, is_u32, is_u64, U8_MAX, U16_MAX, U32_MAX, U64_MAX in *.

(** Linear arithmetic over machine integers. *)
Ltac ulia := unfold_ints; lia.

(** Splits the first boolean test or [decide] of the goal or a hypothesis. *)
Ltac case_if :=
  match goal with
  | |- context [if decide ?b then _ else _] => destruct (decide b)
  | |- context [if ?b then _ else _] => destruct b eqn:?
  | H : context [if decide ?b then _ else _] |- _ => destruct (decide b)
  | H : context [if ?b then _ else _] |- _ => destruct b eqn:?
  end.

Ltac to_prop :=
  repeat match goal with
  | H : (_ && _) = true |- _ => apply andb_true_iff in H as [? ?]
  | H : (_ || _) = false |- _ => apply orb_false_iff in H as [? ?]
  | H : negb _ = true |- _ => apply negb_true_iff in H
  | H : negb _ = false |- _ => apply negb_false_iff in H
  | H : (_ <=? _) = true |- _ => apply Z.leb_le in H
  | H : (_ <=? _) = false |- _ => apply Z.leb_gt in H
  | H : (_ <? _) = true |- _ => apply Z.ltb_lt in H
  | H : (_ <? _) = false |- _ => apply Z.ltb_ge in H
  | H : (_ =? _) = true |- _ => apply Z.eqb_eq in H
  | H : (_ =? _) = false |- _ => apply Z.eqb_neq in H
  | H : bool_decide _ = true |- _ => apply bool_decide_eq_true in H
  | H : bool_decide _ = false |- _ => apply bool_decide_eq_false in H
  end.

Lemma checked_add_Some a b c : checked_add a b = Some c <-> c = a + b /\ a + b <= U64_MAX.
Proof. unfold checked_add. case_if; to_prop; split; intros; simplify_eq; lia || (f_equal; lia). Qed.

Lemma checked_add_None a b : checked_add a b = None <-> U64_MAX < a + b.
Proof. unfold checked_add. case_if; to_prop; split; intros; simplify_eq; lia || done. Qed.

Lemma checked_sub_Some a b c : checked_sub a b = Some c <-> c = a - b /\ b <= a.
Proof. unfold checked_sub. case_if; to_prop; split; intros; simplify_eq; lia || (f_equal; lia). Qed.

Lemma checked_mul_Some a b c : checked_mul a b = Some c <-> c = a * b /\ a * b <= U64_MAX.
Proof. unfold checked_mul. case_if; to_prop; split; intros; simplify_eq; lia || (f_equal; lia). Qed.

Lemma checked_add_u32_Some a b c :
  checked_add_u32 a b = Some c <-> c = a + b /\ a + b <= U32_MAX.
Proof. unfold checked_add_u32. case_if; to_prop; split; intros; simplify_eq; lia || (f_equal; lia). Qed.

Lemma as_u32_id x : is_u32 x -> as_u32 x = x.
Proof. intros. unfold as_u32. apply Z.mod_small. ulia. Qed.

(** [x & !(2^k - 1)] rounds down to a multiple of [2^k]. *)
Lemma land_mask x k : is_u64 x -> 0 <= k <= 64 -> Z.land x (not_u64 (Z.ones k)) = x - x mod 2 ^ k.
Proof.
  intros Hx Hk. unfold not_u64. change U64_MAX with (Z.ones 64).
  rewrite Z.sub_nocarry_ldiff.
  2: { apply Z.bits_inj'. intros n Hn. rewrite Z.ldiff_spec, Z.bits_0.
       destruct (Z.ltb_spec n k); [rewrite Z.ones_spec_low, (Z.ones_spec_low 64); [done|lia..]|].
       by rewrite Z.ones_spec_high by lia. }
  assert (Hld : Z.land x (Z.ldiff (Z.ones 64) (Z.ones k)) = Z.ldiff x (Z.ones k)).
  { apply Z.bits_inj'. intros n Hn.
    rewrite Z.land_spec, !Z.ldiff_spec.
    destruct (Z.testbit x n) eqn:Hb; [|done].
    rewrite andb_true_l.
    destruct (Z.ltb_spec n 64).
    - by rewrite (Z.ones_spec_low 64) by lia.
    - exfalso. rewrite (Z.bits_above_log2 x n) in Hb; [done|ulia|].
      destruct (Z.eq_dec x 0) as [->|]; [simpl; lia|].
      apply Z.log2_lt_pow2; [ulia|].
      apply Z.lt_le_trans with (2 ^ 64); [ulia|]. apply Z.pow_le_mono_r; lia. }
  rewrite Hld, Z.ldiff_ones_r by lia.
  rewrite Z.shiftl_mul_pow2, Z.shiftr_div_pow2 by lia.
  pose proof (Z.div_mod x (2 ^ k)). lia.
Qed.

(** [x & !(4096 - 1)] rounds down to a page boundary. *)
Lemma land_page_mask x : is_u64 x -> Z.land x (not_u64 4095) = x - x mod 4096.
Proof. intros Hx. by apply (land_mask x 12). Qed.

(** A single flag test [x & (1 << n) != 0]. *)
Lemma land_bit x n : 0 <= n -> (Z.land x (2 ^ n) =? 0) = negb (Z.testbit x n).
Proof.
  intros Hn. destruct (Z.testbit x n) eqn:Hb; simpl.
  - apply Z.eqb_neq. intros H0.
    assert (Ht : Z.testbit (Z.land x (2 ^ n)) n = false) by (rewrite H0; apply Z.bits_0).
    rewrite Z.land_spec, Hb, Z.pow2_bits_true in Ht by lia. done.
  - apply Z.eqb_eq. apply Z.bits_inj'. intros m Hm.
    rewrite Z.land_spec, Z.bits_0, Z.pow2_bits_eqb by lia.
    destruct (Z.eqb_spec n m); [subst; by rewrite Hb|apply andb_false_r].
Qed.

(** ** Sequences: [VecDeque], [Vec] and slices are lists *)
Section Sequences.
Context {A : Type}.
Implicit Types (l : list A) (p : A -> bool).

(** [iter().position(p)] *)
Fixpoint position p l : option nat :=
  match l with
  | [] => None
  | x :: l => if p x then Some O else S <$> position p l
  end.

(** [get(a..b)] of a slice. *)
Definition slice_get l (a b : nat) : option (list A) :=
  if bool_decide (a <= b <= length l)%nat then Some (take (b - a) (drop a l)) else None.

(** [slice::partition_point]: the binary search of the standard library.  The
    loop halves [size], so [length l] steps are enough. *)
Fixpoint partition_loop (fuel : nat) p l (base size : nat) : nat :=
  match fuel with
  | O => base
  | S fuel =>
      if bool_decide (1 < size)%nat then
        let half := (size / 2)%nat in
        let mid := (base + half)%nat in
        let ok := match l !! mid with Some x => p x | None => false end in
        partition_loop fuel p l (if ok then mid else base) (size - half)
      else
        match l !! base with
        | Some x => if p x then S base else base
        | None => base
        end
  end.

Definition partition_point p l : nat :=
  match l with [] => O | _ => partition_loop (length l) p l 0 (length l) end.

(** [l] is a run of elements satisfying [p] followed by a run of others. *)
Definition partitioned_at p l (k : nat) : Prop :=
  (k <= length l)%nat /\
  (forall i x, l !! i = Some x -> p x = bool_decide (i < k)%nat).

Lemma partition_loop_correct fuel p l k base size :
  partitioned_at p l k ->
  (0 < size <= fuel)%nat -> (base + size <= length l)%nat ->
  (base = 0 \/ base < k)%nat -> (base <= k <= base + size)%nat ->
  partition_loop fuel p l base size = k.
Proof.
  intros [Hk Hp]. revert base size.
  induction fuel as [|fuel IH]; intros base size Hsz Hlen Hb Hbk; [lia|].
  cbn [partition_loop]. case_bool_decide as Hs.
  - pose proof (Nat.Div0.div_le_mono 2 size 2 ltac:(lia)) as Hd1.
    change (2 / 2)%nat with 1%nat in Hd1.
    pose proof (Nat.div_mod_eq size 2) as Hdm.
    pose proof (Nat.mod_upper_bound size 2 ltac:(lia)).
    destruct (lookup_lt_is_Some_2 l (base + size / 2)) as [x Hx]; [lia|].
    rewrite Hx, (Hp _ _ Hx).
    case_bool_decide; apply IH; lia.
  - assert (size = 1)%nat as -> by lia.
    destruct (lookup_lt_is_Some_2 l base) as [x Hx]; [lia|].
    rewrite Hx, (Hp _ _ Hx). case_bool_decide; lia.
Qed.

Lemma partition_point_correct p l k : partitioned_at p l k -> partition_point p l = k.
Proof.
  intros [Hk Hp]. destruct l as [|x l]; [simpl in *; lia|].
  apply partition_loop_correct; [done|simpl..]; simpl in *; lia.
Qed.

Lemma position_Some p l i :
  position p l = Some i <->
  (exists x, l !! i = Some x /\ p x = true) /\
  (forall j y, (j < i)%nat -> l !! j = Some y -> p y = false).
Proof.
  revert i. induction l as [|x l IH]; intros i; simpl.
  - split; [done|]. intros [(y & Hy & _) _]. by rewrite lookup_nil in Hy.
  - destruct (p x) eqn:Hx.
    + split.
      * intros [= <-]. split; [by exists x|]. intros; lia.
      * intros [_ Hno]. destruct i; [done|].
        specialize (Hno O x ltac:(lia) eq_refl). congruence.
    + rewrite fmap_Some. split.
      * intros (j & Hj & ->). apply IH in Hj as [Hex Hno]. split; [done|].
        intros [|k] y Hk Hy; simpl in *; [congruence|]. apply (Hno k); [lia|done].
      * intros [(y & Hy & Hpy) Hno]. destruct i as [|i]; [simpl in *; congruence|].
        exists i. split; [|done]. apply IH. split; [by exists y|].
        intros j z Hj Hz. apply (Hno (S j)); [lia|done].
Qed.

Lemma position_None p l : position p l = None <-> forall x, x ∈ l -> p x = false.
Proof.
  induction l as [|x l IH]; simpl.
  - split; [|done]. intros _ y Hy. by apply not_elem_of_nil in Hy.
  - destruct (p x) eqn:Hx.
    + split; [done|]. intros H. specialize (H x ltac:(left)). congruence.
    + rewrite fmap_None, IH. split.
      * intros H y [->|Hy]%elem_of_cons; auto.
      * intros H y Hy. apply H. by right.
Qed.

Lemma NoDup_snoc l x : NoDup l -> x ∉ l -> NoDup (l ++ [x]).
Proof.
  intros Hl Hx. apply NoDup_app. split_and!; [done| |apply NoDup_singleton].
  intros y Hy ->%list_elem_of_singleton. done.
Qed.

Lemma app_cons_inj_notin (q1 q2 p1 p2 : list A) x :
  q1 ++ x :: q2 = p1 ++ x :: p2 -> x ∉ q1 -> x ∉ p1 -> p1 = q1 /\ p2 = q2.
Proof.
  revert p1. induction q1 as [|y q1 IH]; intros [|z p1] Heq Hq Hp; simpl in Heq.
  - by injection Heq as ->.
  - injection Heq as -> _. by destruct Hp; left.
  - injection Heq as -> _. by destruct Hq; left.
  - injection Heq as -> Heq. apply not_elem_of_cons in Hq as [_ Hq], Hp as [_ Hp].
    by destruct (IH p1 Heq Hq Hp) as [-> ->].
Qed.

Lemma filter_Forall_all (P : A -> Prop) `{!forall x, Decision (P x)} l :
  Forall P l -> filter P l = l.
Proof. induction 1; [done|]. rewrite filter_cons_True by done. by f_equal. Qed.

Lemma filter_Forall_none (P : A -> Prop) `{!forall x, Decision (P x)} l :
  Forall (fun x => ~ P x) l -> filter P l = [].
Proof. induction 1; [done|]. by rewrite filter_cons_False. Qed.

Lemma filter_ext_elem (P Q : A -> Prop) `{!forall x, Decision (P x)} `{!forall x, Decision (Q x)} l :
  (forall x, x ∈ l -> P x <-> Q x) -> filter P l = filter Q l.
Proof.
  induction l as [|x l IH]; intros Hpq; [done|].
  assert (IHl : filter P l = filter Q l) by (apply IH; intros y Hy; apply Hpq; by right).
  destruct (decide (P x)) as [HP|HP].
  - rewrite !filter_cons_True; [by rewrite IHl| |done]. apply Hpq; [left|done].
  - rewrite !filter_cons_False; [done| |done]. rewrite <- Hpq; [done|left].
Qed.

Lemma slice_get_length l a b r : slice_get l a b = Some r -> length r = (b - a)%nat.
Proof.
  unfold slice_get. case_bool_decide; [|done]. intros [= <-].
  rewrite length_take, length_drop. lia.
Qed.
End Sequences.

(** ** Fixed-size arrays [\[Option<T>; N\]] with a fill count *)
Section Arrays.
Context {A : Type}.

(** [array\[index\] = Some(x)]; out of bounds is the panic. *)
Definition array_set {E} (array : list (option A)) (index : nat) (x : A) : result E (list (option A)) :=
  if bool_decide (index < length array)%nat then Ok (<[index := Some x]> array) else Panic.

(** The first [length l] cells filled, the others [None]. *)
Definition filled (n : nat) (l : list A) : list (option A) :=
  (Some <$> l) ++ replicate (n - length l) None.

(** [array.iter().flatten()] *)
Definition array_flatten (array : list (option A)) : list A := omap id array.

Lemma filled_set {E} n l x :
  (length l < n)%nat -> array_set (E := E) (filled n l) (length l) x = Ok (filled n (l ++ [x])).
Proof.
  intros Hn. unfold array_set, filled.
  rewrite bool_decide_true by (rewrite length_app, length_fmap, length_replicate; lia).
  f_equal. rewrite insert_app_r_alt by (rewrite length_fmap; lia).
  rewrite length_fmap, Nat.sub_diag, fmap_app, length_app. simpl.
  replace (n - length l)%nat with (S (n - (length l + 1))) by lia. simpl.
  by rewrite <- app_assoc.
Qed.

Lemma filled_lookup n l i : (i < length l)%nat -> filled n l !! i = Some (l !! i).
Proof.
  intros Hi. unfold filled. rewrite lookup_app_l by (by rewrite length_fmap).
  rewrite list_lookup_fmap. by destruct (lookup_lt_is_Some_2 l i Hi) as [x ->].
Qed.

Lemma filled_flatten n l : array_flatten (filled n l) = l.
Proof.
  unfold array_flatten, filled. rewrite omap_app.
  assert (forall k, omap id (replicate k (@None A)) = []) as -> by (induction k; done).
  rewrite app_nil_r. induction l as [|x l IH]; [done|]. simpl. by f_equal.
Qed.

Lemma filled_nil n : filled n [] = replicate n None.
Proof. unfold filled. by rewrite Nat.sub_0_r. Qed.
End Arrays.

(** ** Little-endian decoding ([uN::from_le_bytes]) *)
Fixpoint from_le_bytes (bs : list Z) : Z :=
  match bs with
  | [] => 0
  | b :: bs => b + 256 * from_le_bytes bs
  end.

Lemma from_le_bytes_bound bs :
  Forall is_u8 bs -> 0 <= from_le_bytes bs < 256 ^ Z.of_nat (length bs).
Proof.
  induction 1 as [|b bs Hb _ IH]; [simpl; lia|].
  cbn [from_le_bytes length]. rewrite Nat2Z.inj_succ, Z.pow_succ_r by lia. ulia.
Qed.

(** [get(a..b)] with machine-integer bounds, without converting large offsets. *)
Definition slice_getZ {A} (l : list A) (a b : Z) : option (list A) :=
  if (a <=? b) && (b <=? Z.of_nat (length l))
  then Some (take (Z.to_nat (b - a)) (drop (Z.to_nat a) l)) else None.

(** [uN::from_le_bytes(bytes.get(offset..offset + n)?)] *)
Definition read_le (n : Z) (bytes : list Z) (offset : Z) : option Z :=
  end_ ← checked_add offset n; bs ← slice_getZ bytes offset end_; Some (from_le_bytes bs).

Lemma read_le_bound n bytes offset v :
  Forall is_u8 bytes -> 0 <= n -> read_le n bytes offset = Some v -> 0 <= v < 256 ^ n.
Proof.
  intros Hb Hn Hr. unfold read_le, slice_getZ in Hr.
  destruct (checked_add offset n) as [e|] eqn:He; [|done]. simpl in Hr.
  destruct (_ && _) eqn:Hc; [|done]. simpl in Hr. injection Hr as <-. to_prop.
  apply checked_add_Some in He as [-> _].
  set (bs := take _ _). assert (Hbs : Forall is_u8 bs) by (by apply Forall_take, Forall_drop).
  pose proof (from_le_bytes_bound bs Hbs) as Hv.
  assert (Z.of_nat (length bs) <= n) by (unfold bs; rewrite length_take; lia).
  split; [lia|]. apply Z.lt_le_trans with (256 ^ Z.of_nat (length bs)); [lia|].
  apply Z.pow_le_mono_r; lia.
Qed.

(** ** The [x86_64] crate's [VirtAddr::new]: whether it returns *)
Class VirtAddrCrate := { virt_addr_new_ok : Z -> bool }.

(** ** The development's hint database *)
Create HintDb x11 discriminated.
#[export] Hint Resolve NoDup_snoc : x11.
