(* ===== verification/Abi.v ===== *)
(** * The syscall ABI shared by kernel and userspace ([abi/src/lib.rs])

    Syscall numbers, error codes and their encoding in a return register, and
    the user slice descriptor, with the round trips both sides rely on. *)

From stdpp Require Import base numbers list options.
From S2P Require Import Prelude.

Local Open Scope Z_scope.

Definition ABI_MAJOR : Z := 0.
Definition ABI_MINOR : Z := 2.

Inductive Syscall := Write | Exit | Yield.

Global Instance Syscall_eq_dec : EqDecision Syscall.
Proof. solve_decision. Defined.

Definition Syscall_number (s : Syscall) : Z :=
  match s with Write => 0 | Exit => 1 | Yield => 2 end.

Definition Syscall_from_number (number : Z) : option Syscall :=
  match number with
  | 0 => Some Write
  | 1 => Some Exit
  | 2 => Some Yield
  | _ => None
  end.

(** [x11_os_abi::SyscallError], imported by the kernel as [AbiSyscallError]. *)
Inductive AbiSyscallError :=
| AbiUnknownSyscall
| AbiNotImplemented
| AbiInvalidArguments
| AbiInvalidUserRange
| AbiInvalidUserMemory
| AbiWriteFailed.

Global Instance AbiSyscallError_eq_dec : EqDecision AbiSyscallError.
Proof. solve_decision. Defined.

(** The [repr(u64)] discriminants. *)
Definition abi_error_code (e : AbiSyscallError) : Z :=
  match e with
  | AbiUnknownSyscall => 1
  | AbiNotImplemented => 2
  | AbiInvalidArguments => 3
  | AbiInvalidUserRange => 4
  | AbiInvalidUserMemory => 5
  | AbiWriteFailed => 6
  end.

Definition return_value (e : AbiSyscallError) : Z := wrapping_sub 0 (abi_error_code e).

Definition from_return_value (value : Z) : option AbiSyscallError :=
  match wrapping_sub 0 value with
  | 1 => Some AbiUnknownSyscall
  | 2 => Some AbiNotImplemented
  | 3 => Some AbiInvalidArguments
  | 4 => Some AbiInvalidUserRange
  | 5 => Some AbiInvalidUserMemory
  | 6 => Some AbiWriteFailed
  | _ => None
  end.

Record UserSlice := mkUserSlice { slice_ptr : Z; slice_len : Z }.

Global Instance UserSlice_eq_dec : EqDecision UserSlice.
Proof. solve_decision. Defined.

Definition UserSlice_empty : UserSlice := mkUserSlice 0 0.
Definition UserSlice_is_empty (s : UserSlice) : bool := slice_len s =? 0.

(** ** Round trips *)
Lemma Syscall_number_from_number s : Syscall_from_number (Syscall_number s) = Some s.
Proof. by destruct s. Qed.

Lemma Syscall_from_number_inv n s : Syscall_from_number n = Some s -> n = Syscall_number s.
Proof.
  unfold Syscall_from_number, Syscall_number.
  destruct n as [|[[]|[]|]|]; intros; simplify_eq; done.
Qed.

Lemma wrapping_neg_small k :
  0 < k <= U64_MAX -> wrapping_sub 0 (U64_MAX + 1 - k) = k.
Proof.
  intros. unfold wrapping_sub.
  replace (0 - (U64_MAX + 1 - k)) with (k + (-1) * (U64_MAX + 1)) by lia.
  rewrite Z.mod_add by ulia. apply Z.mod_small. ulia.
Qed.

Lemma return_value_eq e : return_value e = U64_MAX + 1 - abi_error_code e.
Proof. by destruct e. Qed.

(** A register value below the six topmost [u64] values is never an error. *)
Lemma from_return_value_None v : 0 <= v <= U64_MAX - 6 -> from_return_value v = None.
Proof.
  intros Hv. unfold from_return_value.
  destruct (decide (v = 0)) as [->|Hne]; [done|].
  replace v with (U64_MAX + 1 - (U64_MAX + 1 - v)) by lia.
  rewrite wrapping_neg_small by ulia.
  destruct (U64_MAX + 1 - v) as [|p|p] eqn:Hp; [done| |done].
  assert (6 < Z.pos p) by lia.
  do 3 (destruct p as [p|p|]; try done; try lia).
Qed.

Lemma from_return_value_Some v e :
  is_u64 v -> from_return_value v = Some e -> v = return_value e.
Proof.
  intros Hv He. rewrite return_value_eq.
  destruct (decide (v <= U64_MAX - 6)) as [Hle|Hgt].
  { rewrite from_return_value_None in He by ulia. done. }
  assert (Hk : v = U64_MAX + 1 - (U64_MAX + 1 - v)) by lia.
  unfold from_return_value in He. rewrite Hk, wrapping_neg_small in He by ulia.
  rewrite Hk. f_equal.
  destruct (U64_MAX + 1 - v) as [|p|p]; [done| |done].
  do 3 (destruct p as [p|p|]; simplify_eq/=; try done).
Qed.

(** Encoding an error in the return register and decoding it gives the same
    error back; every [u64] register value that decodes as an error is the
    encoding of that error; and the encoded error is negative as an [i64]. *)
Theorem abi_error_roundtrip :
  (forall e, from_return_value (return_value e) = Some e) /\
  (forall v e, is_u64 v -> from_return_value v = Some e -> v = return_value e) /\
  (forall e, is_u64 (return_value e) /\ 2 ^ 63 <= return_value e).
Proof.
  split; [by intros []|]. split; [apply from_return_value_Some|].
  intros e. rewrite return_value_eq. destruct e; simpl; ulia.
Qed.
