(* ===== verification/Tasks.v ===== *)
(** * Task identity, lifecycle and execution handles

    [kernel/src/scheduler/task.rs] and [kernel/src/scheduler/execution.rs]:
    generational task identifiers, the control block and its state machine, and
    the architecture-independent execution binding contract. *)

From stdpp Require Import base numbers countable relations list options.
From S2P Require Import Prelude.

Local Open Scope Z_scope.

(** ** Identity *)
Record TaskId := mkTaskId { task_index : Z; task_generation : Z }.

Global Instance TaskId_eq_dec : EqDecision TaskId.
Proof. solve_decision. Defined.

Global Instance TaskId_countable : Countable TaskId.
Proof.
  apply (inj_countable' (fun t => (task_index t, task_generation t))
                        (fun p => mkTaskId p.1 p.2)).
  by intros [].
Defined.

(** The derived [Ord] is lexicographic: index first, then generation. *)
Definition TaskId_leb (a b : TaskId) : bool :=
  (task_index a <? task_index b) ||
  ((task_index a =? task_index b) && (task_generation a <=? task_generation b)).

(** ** Execution handles and the binding contract *)
Record ExecutionHandle := ExecutionHandle_for_task { handle_task_id : TaskId }.

Global Instance ExecutionHandle_eq_dec : EqDecision ExecutionHandle.
Proof. solve_decision. Defined.

(** [trait ExecutionBinding]: what an architecture promises about the
    execution state of a task. *)
Class ExecutionBinding (B Error : Type) := {
  binding_task_id : B -> TaskId;
  binding_is_bootstrapped : B -> bool;
  binding_validate : B -> result Error unit;
}.

Record ExecutionState := mkExecutionState {
  es_task_id : TaskId;
  es_bootstrapped : bool;
}.

Definition ExecutionState_new (task_id : TaskId) : ExecutionState :=
  mkExecutionState task_id false.

Definition mark_bootstrapped (s : ExecutionState) : ExecutionState :=
  mkExecutionState (es_task_id s) true.

Global Instance ExecutionState_binding : ExecutionBinding ExecutionState Empty_set := {
  binding_task_id := es_task_id;
  binding_is_bootstrapped := es_bootstrapped;
  binding_validate := fun _ => Ok tt;
}.

(** ** Control blocks *)
Inductive TaskKind := Kernel | Userspace.
Inductive TaskState := Created | Ready | Running | Blocked | Exited.

Global Instance TaskKind_eq_dec : EqDecision TaskKind.
Proof. solve_decision. Defined.
Global Instance TaskState_eq_dec : EqDecision TaskState.
Proof. solve_decision. Defined.

(** [Priority(u8)] *)
Record Priority := Priority_new { priority_value : Z }.
Definition Priority_MIN : Priority := Priority_new 0.
Definition Priority_DEFAULT : Priority := Priority_new 128.
Definition Priority_MAX : Priority := Priority_new U8_MAX.

Global Instance Priority_eq_dec : EqDecision Priority.
Proof. solve_decision. Defined.

Inductive ExecutionAttachError := AlreadyAttached.

Record TaskControlBlock := mkTCB {
  tcb_id : TaskId;
  tcb_kind : TaskKind;
  tcb_state : TaskState;
  tcb_priority : Priority;
  tcb_execution : option ExecutionHandle;
}.

Global Instance TaskControlBlock_eq_dec : EqDecision TaskControlBlock.
Proof. solve_decision. Defined.

Definition TaskControlBlock_new (id : TaskId) (priority : Priority) : TaskControlBlock :=
  mkTCB id Kernel Created priority None.

Definition TaskControlBlock_new_userspace (id : TaskId) (priority : Priority)
  : TaskControlBlock := mkTCB id Userspace Created priority None.

Definition with_state (t : TaskControlBlock) (s : TaskState) : TaskControlBlock :=
  mkTCB (tcb_id t) (tcb_kind t) s (tcb_priority t) (tcb_execution t).

Definition with_execution (t : TaskControlBlock) (e : option ExecutionHandle)
  : TaskControlBlock :=
  mkTCB (tcb_id t) (tcb_kind t) (tcb_state t) (tcb_priority t) e.

Definition tcb_attach_execution (t : TaskControlBlock)
  : result ExecutionAttachError ExecutionHandle * TaskControlBlock :=
  match tcb_execution t with
  | Some _ => (Err AlreadyAttached, t)
  | None =>
      let handle := ExecutionHandle_for_task (tcb_id t) in
      (Ok handle, with_execution t (Some handle))
  end.

Definition tcb_detach_execution (t : TaskControlBlock)
  : option ExecutionHandle * TaskControlBlock :=
  (tcb_execution t, with_execution t None).

Definition transition_valid (old new : TaskState) : bool :=
  match old, new with
  | Created, Ready | Ready, Running | Running, Ready | Running, Blocked
  | Blocked, Ready | Running, Exited | Blocked, Exited => true
  | _, _ => false
  end.

Definition transition (t : TaskControlBlock) (s : TaskState) : bool * TaskControlBlock :=
  if transition_valid (tcb_state t) s then (true, with_state t s) else (false, t).

(** ** The state machine *)
Lemma with_state_id t s : tcb_id (with_state t s) = tcb_id t.
Proof. done. Qed.

Lemma with_state_same t : with_state t (tcb_state t) = t.
Proof. by destruct t. Qed.

Lemma transition_true t s t' :
  transition t s = (true, t') -> transition_valid (tcb_state t) s = true /\ t' = with_state t s.
Proof. unfold transition. case_if; intros; by simplify_eq. Qed.

Lemma transition_false t s t' : transition t s = (false, t') -> t' = t.
Proof. unfold transition. case_if; intros; by simplify_eq. Qed.

(** One lifecycle step of a control block, and its closure. *)
Inductive lifecycle_step : TaskControlBlock -> TaskControlBlock -> Prop :=
| lifecycle_transition t s t' : transition t s = (true, t') -> lifecycle_step t t'
| lifecycle_attach t h t' : tcb_attach_execution t = (Ok h, t') -> lifecycle_step t t'
| lifecycle_detach t : lifecycle_step t (tcb_detach_execution t).2.

Lemma lifecycle_step_keeps t t' :
  lifecycle_step t t' ->
  tcb_id t' = tcb_id t /\ tcb_kind t' = tcb_kind t /\ tcb_priority t' = tcb_priority t.
Proof.
  destruct 1 as [t s t' [_ ->]%transition_true|t h t' H|t]; [done| |done].
  unfold tcb_attach_execution in H. case_match; by simplify_eq.
Qed.

Lemma lifecycle_created_final t t' :
  rtc lifecycle_step t t' ->
  (tcb_state t' = Created -> tcb_state t = Created) /\
  (tcb_state t = Exited -> tcb_state t' = Exited).
Proof.
  induction 1 as [t|t1 t2 t3 H12 _ [IH1 IH2]]; [done|].
  assert (tcb_state t2 = Created -> tcb_state t1 = Created) as Hc.
  { destruct H12 as [t s t' [Hv ->]%transition_true|t h t' H|t]; simpl; auto.
    - intros ->. by destruct (tcb_state t).
    - unfold tcb_attach_execution in H. case_match; by simplify_eq. }
  assert (tcb_state t1 = Exited -> tcb_state t2 = Exited) as He.
  { destruct H12 as [t s t' [Hv ->]%transition_true|t h t' H|t]; simpl; auto.
    - intros Ht. rewrite Ht in Hv. done.
    - unfold tcb_attach_execution in H. case_match; by simplify_eq. }
  split; auto.
Qed.

Lemma lifecycle_handle t t' :
  rtc lifecycle_step t t' ->
  (forall h, tcb_execution t = Some h -> handle_task_id h = tcb_id t) ->
  forall h, tcb_execution t' = Some h -> handle_task_id h = tcb_id t'.
Proof.
  induction 1 as [t|t1 t2 t3 H12 _ IH]; [done|]. intros Ht1. apply IH.
  destruct H12 as [t s t' [Hv ->]%transition_true|t h t' H|t]; simpl; auto; [|done].
  unfold tcb_attach_execution in H. case_match; simplify_eq/=. by intros ? [= <-].
Qed.

(** Along any sequence of transitions, attachments and detachments starting
    from a fresh control block, identity, kind and priority never change, the
    [Created] state is never re-entered, [Exited] is terminal, and an attached
    execution handle names the task itself. *)
Theorem task_lifecycle_sound id prio kind t :
  rtc lifecycle_step
    (match kind with Kernel => TaskControlBlock_new id prio
                   | Userspace => TaskControlBlock_new_userspace id prio end) t ->
  tcb_id t = id /\ tcb_kind t = kind /\ tcb_priority t = prio /\
  (forall h, tcb_execution t = Some h -> handle_task_id h = id) /\
  (forall t', rtc lifecycle_step t t' ->
     (tcb_state t = Exited -> tcb_state t' = Exited) /\
     (tcb_state t <> Created -> tcb_state t' <> Created)).
Proof.
  intros H.
  assert (tcb_id t = id /\ tcb_kind t = kind /\ tcb_priority t = prio) as (Hi & Hk & Hp).
  { revert H. set (t0 := match kind with Kernel => _ | Userspace => _ end). intros H.
    assert (tcb_id t0 = id /\ tcb_kind t0 = kind /\ tcb_priority t0 = prio) as Ht0
      by by destruct kind.
    clearbody t0. induction H as [|t0 t1 t2 H01 _ IH]; [done|].
    apply IH. apply lifecycle_step_keeps in H01. destruct_and!. split_and!; congruence. }
  split_and!; [done..| |].
  - intros h Hh. rewrite <- Hi. eapply lifecycle_handle; [exact H| |exact Hh].
    by destruct kind.
  - intros t' [Hc He]%lifecycle_created_final. split; auto.
Qed.

Lemma task_lifecycle_sound_witness :
  tcb_id (with_state (TaskControlBlock_new (mkTaskId 3 7) Priority_DEFAULT) Ready)
  = mkTaskId 3 7.
Proof.
  refine (proj1 (task_lifecycle_sound (mkTaskId 3 7) Priority_DEFAULT Kernel _ _)).
  apply rtc_once. apply (lifecycle_transition _ Ready). reflexivity.
Defined.
