(* ===== verification/Queues.v ===== *)
(** * Scheduler queues and reschedule state

    [kernel/src/scheduler/run_queue.rs], [wait_queue.rs], [sleep_queue.rs] and
    [reschedule.rs].  The run and wait queues are FIFO lists without
    duplicates, the sleep queue is a list sorted by deadline and then task. *)

From stdpp Require Import base numbers sets sorting list options.
From S2P Require Import Prelude Tasks.

Local Open Scope Z_scope.

(** ** Run queue *)
Abbreviation RunQueue := (list TaskId).

Definition RunQueue_new : RunQueue := [].

Definition run_contains (q : RunQueue) (id : TaskId) : bool := bool_decide (id ∈ q).

Definition run_push (q : RunQueue) (id : TaskId) : bool * RunQueue :=
  if run_contains q id then (false, q) else (true, q ++ [id]).

Definition run_peek (q : RunQueue) : option TaskId := head q.

Definition run_pop (q : RunQueue) : option TaskId * RunQueue :=
  match q with [] => (None, []) | id :: q => (Some id, q) end.

Definition run_rotate (q : RunQueue) (running : TaskId) : option TaskId * RunQueue :=
  let q' :=
    if bool_decide (head q = Some running)
    then match q with [] => q | id :: q => q ++ [id] end
    else q in
  (head q', q').

Definition run_remove (q : RunQueue) (id : TaskId) : bool * RunQueue :=
  match position (fun c => bool_decide (c = id)) q with
  | None => (false, q)
  | Some i => (true, delete i q)
  end.

Definition run_len (q : RunQueue) : nat := length q.
Definition run_is_empty (q : RunQueue) : bool := bool_decide (q = []).
Definition run_snapshot (q : RunQueue) : list TaskId := q.

(** ** Wait queue *)
Abbreviation WaitQueue := (list TaskId).

Definition WaitQueue_new : WaitQueue := [].

Inductive WaitQueueError := AlreadyQueued.

Definition wait_contains (q : WaitQueue) (task : TaskId) : bool := bool_decide (task ∈ q).

Definition wait_enqueue (q : WaitQueue) (task : TaskId) : result WaitQueueError unit * WaitQueue :=
  if wait_contains q task then (Err AlreadyQueued, q) else (Ok tt, q ++ [task]).

Definition wait_dequeue (q : WaitQueue) : option TaskId * WaitQueue :=
  match q with [] => (None, []) | id :: q => (Some id, q) end.

Definition wait_remove (q : WaitQueue) (task : TaskId) : bool * WaitQueue :=
  match position (fun c => bool_decide (c = task)) q with
  | None => (false, q)
  | Some i => (true, delete i q)
  end.

Definition wait_peek (q : WaitQueue) : option TaskId := head q.
Definition wait_len (q : WaitQueue) : nat := length q.
Definition wait_is_empty (q : WaitQueue) : bool := bool_decide (q = []).
Definition wait_snapshot (q : WaitQueue) : list TaskId := q.

(** ** Sleep queue *)
Record SleepEntry := SleepEntry_new { entry_deadline : Z; entry_task : TaskId }.

Global Instance SleepEntry_eq_dec : EqDecision SleepEntry.
Proof. solve_decision. Defined.

Abbreviation SleepQueue := (list SleepEntry).

Definition SleepQueue_new : SleepQueue := [].

(** [(a.deadline, a.task) <= (b.deadline, b.task)] *)
Definition entry_leb (a b : SleepEntry) : bool :=
  (entry_deadline a <? entry_deadline b) ||
  ((entry_deadline a =? entry_deadline b) && TaskId_leb (entry_task a) (entry_task b)).

Definition sleep_contains (q : SleepQueue) (task : TaskId) : bool :=
  existsb (fun c => bool_decide (entry_task c = task)) q.

Definition sleep_insert (q : SleepQueue) (entry : SleepEntry) : bool * SleepQueue :=
  if existsb (fun c => bool_decide (entry_task c = entry_task entry)) q then (false, q)
  else
    let pos := partition_point (fun c => entry_leb c entry) q in
    (true, take pos q ++ entry :: drop pos q).

Definition sleep_next_deadline (q : SleepQueue) : option Z := entry_deadline <$> head q.

Definition sleep_expire_until (q : SleepQueue) (now : Z) : list TaskId * SleepQueue :=
  let split := partition_point (fun e => entry_deadline e <=? now) q in
  (entry_task <$> take split q, drop split q).

Definition sleep_remove (q : SleepQueue) (task : TaskId) : bool * SleepQueue :=
  match position (fun e => bool_decide (entry_task e = task)) q with
  | None => (false, q)
  | Some i => (true, delete i q)
  end.

Definition sleep_len (q : SleepQueue) : nat := length q.
Definition sleep_is_empty (q : SleepQueue) : bool := bool_decide (q = []).
Definition sleep_snapshot (q : SleepQueue) : list SleepEntry := q.

(** ** Reschedule request and preemption gate *)
Record RescheduleRequest := mkReschedule { pending : bool }.

Definition RescheduleRequest_new : RescheduleRequest := mkReschedule false.
Definition resched_request (r : RescheduleRequest) : RescheduleRequest := mkReschedule true.
Definition resched_take (r : RescheduleRequest) : bool * RescheduleRequest :=
  (pending r, mkReschedule false).

Definition resched_is_pending (r : RescheduleRequest) : bool := pending r.

Record PreemptionGate := mkGate { disabled_depth : Z }.

Definition PreemptionGate_new : PreemptionGate := mkGate 0.
Definition gate_disable (g : PreemptionGate) : PreemptionGate :=
  mkGate (saturating_add (disabled_depth g) 1).
Definition gate_is_enabled (g : PreemptionGate) : bool := disabled_depth g =? 0.
Definition gate_depth (g : PreemptionGate) : Z := disabled_depth g.
(** Dropping a guard; the debug assertion and the overflow check fail at zero. *)
Definition gate_enable_one {E} (g : PreemptionGate) : result E PreemptionGate :=
  if 0 <? disabled_depth g then Ok (mkGate (disabled_depth g - 1)) else Panic.

(** ** FIFO queues *)
Lemma run_contains_true q id : run_contains q id = true <-> id ∈ q.
Proof. apply bool_decide_eq_true. Qed.

Lemma run_contains_false q id : run_contains q id = false <-> id ∉ q.
Proof. apply bool_decide_eq_false. Qed.

Lemma run_push_fresh q id : id ∉ q -> run_push q id = (true, q ++ [id]).
Proof. intros H. unfold run_push. by rewrite (proj2 (run_contains_false q id)). Qed.

Lemma run_push_present q id : id ∈ q -> run_push q id = (false, q).
Proof. intros H. unfold run_push. by rewrite (proj2 (run_contains_true q id)). Qed.

Lemma run_push_NoDup q id : NoDup q -> NoDup (run_push q id).2.
Proof.
  intros H. unfold run_push, run_contains. case_bool_decide; simpl; auto with x11.
Qed.

(** Removing a member by value, first occurrence. *)
Lemma position_delete (q : list TaskId) (id : TaskId) :
  match position (fun c => bool_decide (c = id)) q with
  | None => id ∉ q
  | Some i => exists q1 q2, q = q1 ++ (id :: q2) /\ (id ∉ q1) /\ delete i q = q1 ++ q2
  end.
Proof.
  induction q as [|x q IH]; simpl; [by apply not_elem_of_nil|].
  case_bool_decide as Hx.
  - subst. exists [], q. split_and!; [done|apply not_elem_of_nil|done].
  - destruct (position _ q) as [i|]; simpl.
    + destruct IH as (q1 & q2 & -> & Hn & Hd). exists (x :: q1), q2.
      split_and!; [done|by rewrite not_elem_of_cons|]. simpl. by rewrite Hd.
    + by rewrite not_elem_of_cons.
Qed.

(** The run queue is a FIFO queue without duplicates: a push appends
    exactly when the task is absent, [rotate] moves a running head to the back
    and otherwise changes nothing, and [remove] deletes the one occurrence of
    the task without reordering the others. *)
Theorem run_queue_fifo q id :
  NoDup q ->
  NoDup (run_push q id).2 /\
  run_push q id = (bool_decide (id ∉ q), if bool_decide (id ∈ q) then q else q ++ [id]) /\
  (forall q', q = id :: q' -> run_rotate q id = (head (q' ++ [id]), q' ++ [id])) /\
  (head q <> Some id -> run_rotate q id = (head q, q)) /\
  (id ∉ q -> run_remove q id = (false, q)) /\
  (forall q1 q2, q = q1 ++ id :: q2 -> run_remove q id = (true, q1 ++ q2)).
Proof.
  intros Hnd. split_and!.
  - by apply run_push_NoDup.
  - unfold run_push, run_contains. repeat case_bool_decide; done.
  - intros q' ->. unfold run_rotate. simpl. by rewrite bool_decide_true.
  - intros Hh. unfold run_rotate. by rewrite bool_decide_false.
  - intros Hn. unfold run_remove. pose proof (position_delete q id) as Hp.
    destruct (position _ q); [|done]. destruct Hp as (? & ? & -> & _). set_solver.
  - intros q1 q2 ->. unfold run_remove.
    pose proof (position_delete (q1 ++ id :: q2) id) as Hp.
    destruct (position _ _); [|set_solver].
    destruct Hp as (p1 & p2 & Heq & Hn & ->). f_equal.
    assert (Hq1 : id ∉ q1).
    { apply NoDup_app in Hnd as (_ & Hd & _). intros Hin. by apply (Hd id Hin); left. }
    by destruct (app_cons_inj_notin _ _ _ _ _ Heq Hq1 Hn) as [-> ->].
Qed.

Lemma run_queue_fifo_witness :
  let a := mkTaskId 0 1 in let b := mkTaskId 1 1 in let c := mkTaskId 2 1 in
  run_rotate [a; b; c] a = (Some b, [b; c; a]).
Proof.
  intros a b c.
  refine (proj1 (proj2 (proj2 (run_queue_fifo [a; b; c] a _))) [b; c] eq_refl).
  apply (bool_decide_unpack _). vm_compute. exact I.
Defined.

(** The wait queue behaves like the run queue, with the refusal as an error. *)
Lemma wait_enqueue_spec q task :
  wait_enqueue q task = (if bool_decide (task ∈ q) then (Err AlreadyQueued, q) else (Ok tt, q ++ [task])).
Proof. done. Qed.

Lemma wait_enqueue_fresh q task : task ∉ q -> wait_enqueue q task = (Ok tt, q ++ [task]).
Proof. intros. rewrite wait_enqueue_spec. by rewrite bool_decide_false. Qed.

(** ** The sleep queue is sorted *)
Definition entry_le (a b : SleepEntry) : Prop := entry_leb a b = true.

Lemma entry_le_iff a b :
  entry_le a b <->
  entry_deadline a < entry_deadline b \/
  (entry_deadline a = entry_deadline b /\
   (task_index (entry_task a) < task_index (entry_task b) \/
    (task_index (entry_task a) = task_index (entry_task b) /\
     task_generation (entry_task a) <= task_generation (entry_task b)))).
Proof.
  unfold entry_le, entry_leb, TaskId_leb.
  rewrite orb_true_iff, andb_true_iff, orb_true_iff, andb_true_iff, !Z.ltb_lt, !Z.eqb_eq, Z.leb_le. lia.
Qed.

Global Instance entry_le_trans : Transitive entry_le.
Proof. intros a b c. rewrite !entry_le_iff. lia. Qed.

Global Instance entry_le_total : Total entry_le.
Proof. intros a b. rewrite !entry_le_iff. lia. Qed.

Definition sleep_sorted (q : SleepQueue) : Prop := StronglySorted entry_le q.
Definition sleep_inv (q : SleepQueue) : Prop := sleep_sorted q /\ NoDup (entry_task <$> q).

(** Linear reference definition of an ordered insertion. *)
Fixpoint sorted_insert (e : SleepEntry) (q : SleepQueue) : SleepQueue :=
  match q with
  | [] => [e]
  | c :: q' => if entry_leb c e then c :: sorted_insert e q' else e :: q
  end.

Fixpoint prefix_len {A} (p : A -> bool) (l : list A) : nat :=
  match l with [] => O | x :: l => if p x then S (prefix_len p l) else O end.

Lemma sorted_partitioned {A} (R : A -> A -> Prop) (p : A -> bool) (l : list A) :
  StronglySorted R l -> (forall a b, R a b -> p b = true -> p a = true) ->
  partitioned_at p l (prefix_len p l).
Proof.
  intros Hs Hp. induction Hs as [|x l Hs IH HR]; [split; [done|]; intros i y Hy; by rewrite lookup_nil in Hy|].
  destruct IH as [Hle IH]. simpl. destruct (p x) eqn:Hx.
  - split; [simpl; lia|]. intros [|i] y Hy; simplify_eq/=; [done|].
    rewrite (IH i y Hy). apply bool_decide_ext. lia.
  - split; [simpl; lia|]. intros i y Hy. rewrite bool_decide_false by lia.
    destruct i; simplify_eq/=; [done|].
    destruct (p y) eqn:Hpy; [|done].
    rewrite Forall_lookup in HR. specialize (HR _ _ Hy). by rewrite (Hp _ _ HR Hpy) in Hx.
Qed.

Lemma sorted_insert_take_drop e q :
  take (prefix_len (fun c => entry_leb c e) q) q ++
  e :: drop (prefix_len (fun c => entry_leb c e) q) q = sorted_insert e q.
Proof. induction q as [|c q IH]; [done|]. simpl. destruct (entry_leb c e); simpl; by rewrite ?IH. Qed.

Lemma sleep_insert_eq q e :
  sleep_sorted q ->
  sleep_insert q e =
    if bool_decide (entry_task e ∈ entry_task <$> q) then (false, q) else (true, sorted_insert e q).
Proof.
  intros Hs. unfold sleep_insert.
  replace (existsb _ q) with (bool_decide (entry_task e ∈ entry_task <$> q)).
  2: { symmetry. case_bool_decide as Hin.
       - apply existsb_exists. apply list_elem_of_fmap in Hin as (c & Hc & Hin).
         exists c. rewrite bool_decide_eq_true. by rewrite <- list_elem_of_In.
       - apply not_true_iff_false. intros (c & Hc & Hb)%existsb_exists. apply Hin.
         apply bool_decide_eq_true in Hb. apply list_elem_of_fmap. exists c.
         by rewrite list_elem_of_In. }
  case_bool_decide; [done|]. f_equal.
  rewrite (partition_point_correct _ _ _
             (sorted_partitioned entry_le (fun c => entry_leb c e) q Hs
                (fun a b Hab Hb => transitivity (y := b) Hab Hb))).
  apply sorted_insert_take_drop.
Qed.

Lemma elem_of_sorted_insert x e q : x ∈ sorted_insert e q <-> x = e \/ x ∈ q.
Proof.
  induction q as [|c q IH]; simpl.
  - rewrite list_elem_of_singleton, elem_of_nil. tauto.
  - case_if; rewrite !elem_of_cons, ?IH; tauto.
Qed.

Lemma sorted_insert_perm e q : sorted_insert e q ≡ₚ e :: q.
Proof.
  induction q as [|c q IH]; simpl; [done|]. case_if; [|done].
  rewrite IH. apply Permutation_swap.
Qed.

Lemma sorted_insert_sorted e q : sleep_sorted q -> sleep_sorted (sorted_insert e q).
Proof.
  induction 1 as [|c q Hs IH HR]; simpl; [repeat constructor|].
  case_if.
  - constructor; [done|]. apply Forall_forall. intros x [->|Hx]%elem_of_sorted_insert; [done|].
    rewrite Forall_forall in HR. auto.
  - assert (entry_le e c) as Hec by (destruct (total entry_le e c) as [|Hce]; [done|];
      unfold entry_le in Hce; congruence).
    constructor; [by constructor|]. constructor; [done|].
    eapply Forall_impl; [exact HR|]. intros x Hx. by transitivity c.
Qed.

Lemma sleep_insert_inv q e : sleep_inv q -> sleep_inv (sleep_insert q e).2.
Proof.
  intros [Hs Hn]. rewrite sleep_insert_eq by done. case_bool_decide; [done|]. simpl.
  split; [by apply sorted_insert_sorted|].
  rewrite (sorted_insert_perm e q). simpl. by apply NoDup_cons.
Qed.

Lemma prefix_len_filter (q : SleepQueue) now :
  sleep_sorted q ->
  take (prefix_len (fun e => entry_deadline e <=? now) q) q
    = filter (fun e => entry_deadline e <= now) q /\
  drop (prefix_len (fun e => entry_deadline e <=? now) q) q
    = filter (fun e => now < entry_deadline e) q.
Proof.
  induction 1 as [|c q Hs [IH1 IH2] HR]; [done|].
  cbn [prefix_len]. destruct (entry_deadline c <=? now) eqn:Hc; to_prop.
  - cbn [take drop]. rewrite filter_cons_True, filter_cons_False by lia. by rewrite IH1, IH2.
  - cbn [take drop]. rewrite filter_cons_False, filter_cons_True by lia.
    assert (Hall : Forall (fun e => now < entry_deadline e) q).
    { eapply Forall_impl; [exact HR|]. intros e He%entry_le_iff. lia. }
    split.
    + symmetry. apply filter_Forall_none. eapply Forall_impl; [exact Hall|]. simpl. lia.
    + f_equal. symmetry. by apply filter_Forall_all.
Qed.

Lemma sleep_expire_eq q now :
  sleep_sorted q ->
  sleep_expire_until q now =
    (entry_task <$> filter (fun e => entry_deadline e <= now) q,
     filter (fun e => now < entry_deadline e) q).
Proof.
  intros Hs. unfold sleep_expire_until.
  rewrite (partition_point_correct _ _ _
             (sorted_partitioned entry_le (fun e => entry_deadline e <=? now) q Hs
                ltac:(intros a b Hab%entry_le_iff Hb; cbv beta in *; to_prop; apply Z.leb_le; lia))).
  by destruct (prefix_len_filter q now Hs) as [-> ->].
Qed.

Lemma sleep_expire_inv q now : sleep_inv q -> sleep_inv (sleep_expire_until q now).2.
Proof.
  intros [Hs Hn]. unfold sleep_expire_until. simpl.
  set (k := partition_point _ q). rewrite <- (take_drop k q) in Hs, Hn. split.
  - apply StronglySorted_app in Hs as (_ & _ & ?). done.
  - rewrite fmap_app in Hn. apply NoDup_app in Hn. tauto.
Qed.

Lemma StronglySorted_delete {A} (R : A -> A -> Prop) (l : list A) i :
  StronglySorted R l -> StronglySorted R (delete i l).
Proof.
  intros Hs. revert i. induction Hs as [|x l Hs IH HR]; intros [|i]; simpl; [constructor..|done|].
  constructor; [apply IH|]. rewrite Forall_forall in HR |- *. intros y Hy. apply HR.
  eapply elem_of_sublist; [exact Hy|]. apply sublist_delete.
Qed.

Lemma fmap_delete {A B} (f : A -> B) (l : list A) i : f <$> delete i l = delete i (f <$> l).
Proof. revert i. induction l as [|x l IH]; intros [|i]; [done..|]. simpl. f_equal. apply IH. Qed.

Lemma sleep_remove_inv q task : sleep_inv q -> sleep_inv (sleep_remove q task).2.
Proof.
  intros [Hs Hn]. unfold sleep_remove. destruct (position _ q) as [i|]; [|done]. simpl.
  split; [by apply StronglySorted_delete|].
  rewrite fmap_delete. eapply sublist_NoDup; [exact Hn|]. apply sublist_delete.
Qed.

Lemma sleep_remove_contains q task :
  sleep_inv q ->
  (task ∉ entry_task <$> (sleep_remove q task).2) /\
  (forall t, t <> task -> t ∈ entry_task <$> (sleep_remove q task).2 <-> t ∈ entry_task <$> q).
Proof.
  intros [_ Hn]. unfold sleep_remove. destruct (position _ q) as [i|] eqn:Hp; simpl.
  - apply position_Some in Hp as [(e & He & Ht) _]. apply bool_decide_eq_true in Ht.
    assert (Hq : entry_task <$> q = (entry_task <$> take i q) ++ task :: (entry_task <$> drop (S i) q))
      by (by rewrite <- Ht, <- fmap_cons, <- fmap_app, take_drop_middle).
    rewrite delete_take_drop, fmap_app, Hq. rewrite Hq in Hn.
    apply NoDup_app in Hn as (_ & Hd1 & Hd2). apply NoDup_cons in Hd2 as [Hd2 _]. split.
    + rewrite elem_of_app. intros [Hin|Hin]; [apply (Hd1 _ Hin); left|done].
    + intros t Hne. rewrite !elem_of_app, elem_of_cons. tauto.
  - split; [|done]. rewrite position_None in Hp. intros (e & -> & Hin)%list_elem_of_fmap.
    specialize (Hp e Hin). by apply bool_decide_eq_false in Hp.
Qed.

(** On a sorted, duplicate-free sleep queue the binary search of [insert]
    computes the linear ordered insertion and refuses a task that already
    sleeps; [expire_until] returns exactly the tasks whose deadline has passed,
    in deadline order, and keeps exactly the others; [remove] deletes that task
    only; and all three keep the queue sorted and duplicate-free. *)
Theorem sleep_queue_correct q e now task :
  sleep_inv q ->
  sleep_insert q e =
    (if bool_decide (entry_task e ∈ entry_task <$> q) then (false, q)
     else (true, sorted_insert e q)) /\
  sleep_expire_until q now =
    (entry_task <$> filter (fun e => entry_deadline e <= now) q,
     filter (fun e => now < entry_deadline e) q) /\
  (task ∉ entry_task <$> (sleep_remove q task).2) /\
  (forall t, t <> task -> t ∈ entry_task <$> (sleep_remove q task).2 <-> t ∈ entry_task <$> q) /\
  sleep_inv (sleep_insert q e).2 /\
  sleep_inv (sleep_expire_until q now).2 /\
  sleep_inv (sleep_remove q task).2.
Proof.
  intros Hinv. pose proof (sleep_remove_contains q task Hinv) as [Hr1 Hr2].
  split_and!; auto using sleep_insert_inv, sleep_expire_inv, sleep_remove_inv.
  - apply sleep_insert_eq, Hinv.
  - apply sleep_expire_eq, Hinv.
Qed.

Lemma sleep_queue_correct_witness :
  let q := [SleepEntry_new 10 (mkTaskId 1 1); SleepEntry_new 30 (mkTaskId 0 1)] in
  sleep_expire_until q 10 = ([mkTaskId 1 1], [SleepEntry_new 30 (mkTaskId 0 1)]) /\
  sleep_inv (sleep_insert q (SleepEntry_new 20 (mkTaskId 2 1))).2.
Proof.
  intros q.
  assert (Hq : sleep_inv q).
  { split; [repeat constructor|apply (bool_decide_unpack _); vm_compute; exact I]. }
  pose proof (sleep_queue_correct q (SleepEntry_new 20 (mkTaskId 2 1)) 10 (mkTaskId 0 1) Hq)
    as (_ & H2 & _ & _ & H5 & _).
  split; [rewrite H2; reflexivity|exact H5].
Defined.

(** ** Nested preemption sections *)
Fixpoint gate_enter (n : nat) (g : PreemptionGate) : PreemptionGate :=
  match n with O => g | S n => gate_enter n (gate_disable g) end.

Fixpoint gate_leave {E} (n : nat) (g : PreemptionGate) : result E PreemptionGate :=
  match n with
  | O => Ok g
  | S n => match gate_enable_one g with Ok g => gate_leave n g | Err e => Err e | Panic => Panic end
  end.

Lemma gate_enter_depth n g :
  0 <= disabled_depth g -> disabled_depth g + Z.of_nat n <= U64_MAX ->
  gate_enter n g = mkGate (disabled_depth g + Z.of_nat n).
Proof.
  revert g. induction n as [|n IH]; intros g H0 Hn; simpl.
  - destruct g; simpl. f_equal. lia.
  - rewrite IH; unfold gate_disable, saturating_add; simpl; [f_equal; lia|lia..].
Qed.

Lemma gate_leave_depth {E} n d :
  0 <= d -> gate_leave (E := E) n (mkGate (d + Z.of_nat n)) = Ok (mkGate d).
Proof.
  intros Hd. induction n as [|n IH]; [simpl; do 2 f_equal; lia|].
  cbn [gate_leave]. unfold gate_enable_one. simpl disabled_depth.
  rewrite (proj2 (Z.ltb_lt _ _)) by lia.
  replace (d + Z.of_nat (S n) - 1) with (d + Z.of_nat n) by lia. done.
Qed.

(** Entering [n] nested preemption-disabled sections and dropping the [n]
    guards restores the gate without panicking, preemption is off inside every
    section, and a drop without a matching disable panics; a reschedule
    request is consumed exactly once. *)
Theorem preemption_gate_balanced (E : Type) n g :
  0 <= disabled_depth g -> disabled_depth g + Z.of_nat n <= U64_MAX ->
  gate_leave (E := E) n (gate_enter n g) = Ok g /\
  (gate_is_enabled (gate_enter n g) = true <-> n = O /\ gate_is_enabled g = true) /\
  gate_enable_one (E := E) PreemptionGate_new = Panic /\
  (forall r, let '(b1, r1) := resched_take (resched_request r) in
             let '(b2, _) := resched_take r1 in b1 = true /\ b2 = false).
Proof.
  intros H0 Hn. rewrite gate_enter_depth by done. split_and!; [|split|done|done].
  - rewrite gate_leave_depth by done. by destruct g.
  - unfold gate_is_enabled. simpl. rewrite !Z.eqb_eq. lia.
  - unfold gate_is_enabled. simpl. rewrite !Z.eqb_eq. lia.
Qed.

Lemma preemption_gate_balanced_witness :
  gate_leave (E := Empty_set) 2 (gate_enter 2 PreemptionGate_new) = Ok PreemptionGate_new.
Proof. apply (preemption_gate_balanced Empty_set 2 PreemptionGate_new); vm_compute; discriminate. Defined.
