(* ===== verification/Scheduler.v ===== *)
(** * The scheduler ([kernel/src/scheduler/mod.rs])

    The task table with its generations, the ready queue and the CPU owner, and
    every operation of [impl Scheduler] as a function on that state.  A
    [&mut TaskControlBlock] obtained from [task_mut] is modelled by reading the
    block, changing it and writing it back with [put_task]. *)

From stdpp Require Import base numbers list options.
From S2P Require Import Prelude Tasks Queues.

Local Open Scope Z_scope.
Local Open Scope rust_scope.

Record DispatchDecision := mkDecision { previous : option TaskId; next : option TaskId }.

Inductive SchedulerError :=
| TaskNotFound
| ExecutionAlreadyAttached
| TaskNotCreated
| WaitQueueAlreadyContainsTask
| SleepQueueAlreadyContainsTask
| CurrentTaskMismatch
| SuccessorNotReady.

Record Scheduler := mkScheduler {
  tasks : list (option TaskControlBlock);
  generations : list Z;
  ready : RunQueue;
  current : option TaskId;
}.

Definition Scheduler_new : Scheduler := mkScheduler [] [] [] None.

Definition set_tasks (s : Scheduler) ts := mkScheduler ts (generations s) (ready s) (current s).
Definition set_generations (s : Scheduler) gs := mkScheduler (tasks s) gs (ready s) (current s).
Definition set_ready (s : Scheduler) q := mkScheduler (tasks s) (generations s) q (current s).
Definition set_current (s : Scheduler) c := mkScheduler (tasks s) (generations s) (ready s) c.

(** ** Table access *)
Definition slot_of (id : TaskId) : nat := Z.to_nat (task_index id).

(** [task] and [task_mut]: the block in the slot, if it is this generation's. *)
Definition task (s : Scheduler) (id : TaskId) : option TaskControlBlock :=
  match tasks s !! slot_of id with
  | Some (Some t) => if decide (tcb_id t = id) then Some t else None
  | _ => None
  end.

Definition put_task (s : Scheduler) (id : TaskId) (t : TaskControlBlock) : Scheduler :=
  set_tasks s (<[slot_of id := Some t]> (tasks s)).

Definition clear_task (s : Scheduler) (id : TaskId) : Scheduler :=
  set_tasks s (<[slot_of id := None]> (tasks s)).

Definition state (s : Scheduler) (id : TaskId) : option TaskState := tcb_state <$> task s id.
Definition task_kind (s : Scheduler) (id : TaskId) : option TaskKind := tcb_kind <$> task s id.
Definition execution (s : Scheduler) (id : TaskId) : option ExecutionHandle :=
  t ← task s id; tcb_execution t.
Definition next_ready (s : Scheduler) : option TaskId := run_peek (ready s).
Definition ready_len (s : Scheduler) : nat := length (ready s).
Definition task_count (s : Scheduler) : nat := length (filter is_Some (tasks s)).

(** ** Creation and destruction *)
Definition new_tcb (kind : TaskKind) (id : TaskId) (priority : Priority) : TaskControlBlock :=
  match kind with
  | Kernel => TaskControlBlock_new id priority
  | Userspace => TaskControlBlock_new_userspace id priority
  end.

(** [find(|(index, slot)| slot.is_none() && generations[index] != u32::MAX)];
    the bounds check of [generations[index]] is the panic. *)
Fixpoint find_free_slot {E} (i : nat) (ts : list (option TaskControlBlock)) (gs : list Z)
  : result E (option nat) :=
  match ts with
  | [] => Ok None
  | Some _ :: ts => find_free_slot (S i) ts gs
  | None :: ts =>
      match gs !! i with
      | None => Panic
      | Some g => if bool_decide (g = U32_MAX) then find_free_slot (S i) ts gs else Ok (Some i)
      end
  end.

Definition create_task_with_kind {E} (s : Scheduler) (priority : Priority) (kind : TaskKind)
  : result E TaskId * Scheduler :=
  match find_free_slot 0 (tasks s) (generations s) with
  | Ok (Some index) =>
      match generations s !! index ≫= fun g => checked_add_u32 g 1 with
      | None => (Panic, s)
      | Some generation =>
          let id := mkTaskId (as_u32 (Z.of_nat index)) generation in
          (Ok id, mkScheduler (<[index := Some (new_tcb kind id priority)]> (tasks s))
                              (<[index := generation]> (generations s)) (ready s) (current s))
      end
  | Ok None =>
      let id := mkTaskId (as_u32 (Z.of_nat (length (tasks s)))) 1 in
      (Ok id, mkScheduler (tasks s ++ [Some (new_tcb kind id priority)])
                          (generations s ++ [1]) (ready s) (current s))
  | Err e => (Err e, s)
  | Panic => (Panic, s)
  end.

Definition create_task {E} (s : Scheduler) (priority : Priority) : result E TaskId * Scheduler :=
  create_task_with_kind s priority Kernel.

Definition create_user_task {E} (s : Scheduler) (priority : Priority) : result E TaskId * Scheduler :=
  create_task_with_kind s priority Userspace.

Definition attach_execution (s : Scheduler) (id : TaskId)
  : result SchedulerError ExecutionHandle * Scheduler :=
  match task s id with
  | None => (Err TaskNotFound, s)
  | Some t =>
      match tcb_attach_execution t with
      | (Ok handle, t') => (Ok handle, put_task s id t')
      | (Err AlreadyAttached, t') => (Err ExecutionAlreadyAttached, put_task s id t')
      | (Panic, _) => (Panic, s)
      end
  end.

Definition destroy_created (s : Scheduler) (id : TaskId)
  : result SchedulerError ExecutionHandle * Scheduler :=
  match tasks s !! slot_of id with
  | None | Some None => (Err TaskNotFound, s)
  | Some (Some t) =>
      if negb (bool_decide (tcb_id t = id)) || negb (bool_decide (tcb_state t = Created))
      then (Err TaskNotCreated, s)
      else match tcb_detach_execution t with
           | (None, t') => (Err TaskNotCreated, put_task s id t')
           | (Some handle, _) => (Ok handle, clear_task s id)
           end
  end.

(** ** Readiness and dispatch *)
Definition make_ready (s : Scheduler) (id : TaskId) : bool * Scheduler :=
  if run_contains (ready s) id then (false, s)
  else match task s id with
       | None => (false, s)
       | Some t =>
           let '(transitioned, t') := transition t Ready in
           let s := put_task s id t' in
           if transitioned
           then let '(pushed, q) := run_push (ready s) id in (pushed, set_ready s q)
           else (false, s)
       end.

Definition slot_is (s : Scheduler) (id : TaskId) (st : TaskState) : bool :=
  match tasks s !! slot_of id with
  | Some (Some t) => bool_decide (tcb_id t = id) && bool_decide (tcb_state t = st)
  | _ => false
  end.

Definition terminate_current_to (s : Scheduler) (successor : TaskId)
  : result SchedulerError TaskId * Scheduler :=
  match current s with
  | None => (Err TaskNotFound, s)
  | Some cur =>
      if bool_decide (cur = successor) then (Err CurrentTaskMismatch, s) else
      if negb (bool_decide (run_peek (ready s) = Some successor))
         || negb (bool_decide (state s successor = Some Ready))
      then (Err SuccessorNotReady, s) else
      if negb (slot_is s cur Running) then (Err TaskNotFound, s) else
      if negb (slot_is s successor Ready) then (Err SuccessorNotReady, s) else
      match tasks s !! slot_of cur with
      | None => (Panic, s)
      | Some None => (Err TaskNotFound, s)
      | Some (Some current_task) =>
          let '(ok, t1) := transition current_task Exited in
          let s := put_task s cur t1 in
          if negb ok then (Err TaskNotFound, s) else
          let s := put_task s cur (tcb_detach_execution t1).2 in
          let s := clear_task s cur in
          let '(queued, q) := run_pop (ready s) in
          let s := set_ready s q in
          if negb (bool_decide (queued = Some successor)) then (Err SuccessorNotReady, s) else
          match tasks s !! slot_of successor with
          | None => (Panic, s)
          | Some None => (Err SuccessorNotReady, s)
          | Some (Some successor_task) =>
              let '(ok, t2) := transition successor_task Running in
              let s := put_task s successor t2 in
              if negb ok then (Err SuccessorNotReady, s)
              else (Ok successor, set_current s (Some successor))
          end
      end
  end.

(** The first half of [schedule_next]: a running owner goes to the back. *)
Definition requeue_previous (s : Scheduler) : Scheduler :=
  match current s with
  | None => s
  | Some prev =>
      match task s prev with
      | None => s
      | Some t =>
          if bool_decide (tcb_state t = Running) then
            let s := put_task s prev (transition t Ready).2 in
            set_ready s (run_push (ready s) prev).2
          else s
      end
  end.

Definition dispatch_head (s : Scheduler) : Scheduler :=
  let '(nxt, q) := run_pop (ready s) in
  let s := set_ready s q in
  match nxt with
  | None => set_current s None
  | Some next_id =>
      match task s next_id with
      | None => set_current s None
      | Some t =>
          let '(ok, t') := transition t Running in
          let s := put_task s next_id t' in
          if ok then set_current s (Some next_id) else set_current s None
      end
  end.

Definition schedule_next (s : Scheduler) : DispatchDecision * Scheduler :=
  let prev := current s in
  let s := requeue_previous s in
  match prev with
  | Some prev_id =>
      if bool_decide (length (ready s) = 1%nat) && bool_decide (run_peek (ready s) = Some prev_id)
      then
        let s := set_ready s (run_pop (ready s)).2 in
        let s := match task s prev_id with
                 | Some t => put_task s prev_id (transition t Running).2
                 | None => s
                 end in
        (mkDecision prev None, set_current s (Some prev_id))
      else let s := dispatch_head s in (mkDecision prev (current s), s)
  | None => let s := dispatch_head s in (mkDecision prev (current s), s)
  end.

(** ** Blocking, sleeping, waking *)
Definition block_current_on (s : Scheduler) (waiters : WaitQueue)
  : result SchedulerError TaskId * Scheduler * WaitQueue :=
  match current s with
  | None => (Err TaskNotFound, s, waiters)
  | Some id =>
      if wait_contains waiters id then (Err WaitQueueAlreadyContainsTask, s, waiters) else
      match task s id with
      | None => (Err TaskNotFound, s, waiters)
      | Some t =>
          let '(transitioned, t') := transition t Blocked in
          let s := put_task s id t' in
          if negb transitioned then (Err TaskNotFound, s, waiters) else
          match wait_enqueue waiters id with
          | (Err AlreadyQueued, waiters) =>
              let s := match task s id with
                       | Some t => put_task s id (transition t Running).2
                       | None => s
                       end in
              (Err WaitQueueAlreadyContainsTask, s, waiters)
          | (Ok _, waiters) => (Ok id, set_current s None, waiters)
          | (Panic, waiters) => (Panic, s, waiters)
          end
      end
  end.

Definition block_current (s : Scheduler) : bool * Scheduler :=
  match current s with
  | None => (false, s)
  | Some id =>
      match task s id with
      | None => (false, s)
      | Some t =>
          let '(changed, t') := transition t Blocked in
          let s := put_task s id t' in
          (changed, if changed then set_current s None else s)
      end
  end.

(** The [while let Some(id) = waiters.dequeue()] loop consumes the queue, so the
    recursion is structural. *)
Fixpoint wake_one (s : Scheduler) (waiters : WaitQueue) : option TaskId * Scheduler * WaitQueue :=
  match waiters with
  | [] => (None, s, [])
  | id :: waiters =>
      match task s id with
      | None => wake_one s waiters
      | Some t =>
          if negb (bool_decide (tcb_state t = Blocked)) then wake_one s waiters else
          let '(rdy, t') := transition t Ready in
          let s := put_task s id t' in
          if negb rdy then wake_one s waiters else
          let '(pushed, q) := run_push (ready s) id in
          if pushed then (Some id, set_ready s q, waiters)
          else
            let s := match task s id with
                     | Some t => put_task s id (transition t Blocked).2
                     | None => s
                     end in
            (None, s, (wait_enqueue waiters id).2)
      end
  end.

Definition sleep_current_until (s : Scheduler) (deadline : Z) (sleepers : SleepQueue)
  : result SchedulerError TaskId * Scheduler * SleepQueue :=
  match current s with
  | None => (Err TaskNotFound, s, sleepers)
  | Some id =>
      if sleep_contains sleepers id then (Err SleepQueueAlreadyContainsTask, s, sleepers) else
      match task s id with
      | None => (Err TaskNotFound, s, sleepers)
      | Some t =>
          let '(transitioned, t') := transition t Blocked in
          let s := put_task s id t' in
          if negb transitioned then (Err TaskNotFound, s, sleepers) else
          let '(inserted, sleepers) := sleep_insert sleepers (SleepEntry_new deadline id) in
          if negb inserted then
            let s := match task s id with
                     | Some t => put_task s id (transition t Running).2
                     | None => s
                     end in
            (Err SleepQueueAlreadyContainsTask, s, sleepers)
          else (Ok id, set_current s None, sleepers)
      end
  end.

Fixpoint wake_expired (s : Scheduler) (expired : list TaskId) (woken : list TaskId)
  : list TaskId * Scheduler :=
  match expired with
  | [] => (woken, s)
  | id :: expired =>
      match task s id with
      | None => wake_expired s expired woken
      | Some t =>
          if negb (bool_decide (tcb_state t = Blocked)) then wake_expired s expired woken else
          let '(transitioned, t') := transition t Ready in
          let s := put_task s id t' in
          if transitioned then
            let '(pushed, q) := run_push (ready s) id in
            wake_expired (set_ready s q) expired (if pushed then woken ++ [id] else woken)
          else wake_expired s expired woken
      end
  end.

Definition expire_sleepers (s : Scheduler) (now : Z) (sleepers : SleepQueue)
  : list TaskId * Scheduler * SleepQueue :=
  let '(expired, sleepers) := sleep_expire_until sleepers now in
  (wake_expired s expired [], sleepers).

Definition exit_current (s : Scheduler) : bool * Scheduler :=
  match current s with
  | None => (false, s)
  | Some id =>
      match tasks s !! slot_of id with
      | Some (Some t) =>
          if negb (bool_decide (tcb_id t = id)) then (false, s) else
          let '(ok, t') := transition t Exited in
          let s := put_task s id t' in
          if negb ok then (false, s) else
          let s := put_task s id (tcb_detach_execution t').2 in
          (true, set_current (clear_task s id) None)
      | _ => (false, s)
      end
  end.

(** ** The table as a map from identifiers *)
Lemma task_Some s id t :
  task s id = Some t <-> tasks s !! slot_of id = Some (Some t) /\ tcb_id t = id.
Proof.
  unfold task. destruct (tasks s !! slot_of id) as [[t0|]|] eqn:E; [|naive_solver..].
  case_decide; split; intros; destruct_and?; simplify_eq; naive_solver.
Qed.

Lemma task_put s id t t' id' :
  task s id = Some t -> tcb_id t' = id ->
  task (put_task s id t') id' = if decide (id' = id) then Some t' else task s id'.
Proof.
  intros [Hl Hid]%task_Some Hid'. unfold task, put_task. simpl.
  destruct (decide (slot_of id' = slot_of id)) as [Hs|Hs].
  - rewrite Hs, list_lookup_insert_eq by (by eapply lookup_lt_Some).
    rewrite Hl. repeat case_decide; congruence.
  - rewrite list_lookup_insert_ne by done. case_decide; [congruence|done].
Qed.

Lemma task_clear s id t id' :
  task s id = Some t ->
  task (clear_task s id) id' = if decide (id' = id) then None else task s id'.
Proof.
  intros [Hl Hid]%task_Some. unfold task, clear_task. simpl.
  destruct (decide (slot_of id' = slot_of id)) as [Hs|Hs].
  - rewrite Hs, list_lookup_insert_eq by (by eapply lookup_lt_Some).
    rewrite Hl. repeat case_decide; congruence.
  - rewrite list_lookup_insert_ne by done. case_decide; [congruence|done].
Qed.

Lemma task_id s id t : task s id = Some t -> tcb_id t = id.
Proof. by intros [_ ?]%task_Some. Qed.

Lemma task_set_ready s q id : task (set_ready s q) id = task s id.
Proof. done. Qed.

Lemma task_set_current s c id : task (set_current s c) id = task s id.
Proof. done. Qed.

Lemma state_set_ready s q id : state (set_ready s q) id = state s id.
Proof. done. Qed.

Lemma state_set_current s c id : state (set_current s c) id = state s id.
Proof. done. Qed.

#[export] Hint Rewrite task_set_ready task_set_current state_set_ready state_set_current : x11_state.

Lemma state_Some s id st : state s id = Some st <-> exists t, task s id = Some t /\ tcb_state t = st.
Proof. unfold state. rewrite fmap_Some. naive_solver. Qed.

Lemma slot_is_spec s id st : slot_is s id st = true <-> state s id = Some st.
Proof.
  unfold slot_is, state, task. destruct (tasks s !! slot_of id) as [[t|]|]; [|done..].
  rewrite andb_true_iff, !bool_decide_eq_true. case_decide; naive_solver.
Qed.

Lemma put_put s id t t' : put_task (put_task s id t) id t' = put_task s id t'.
Proof. unfold put_task. simpl. by rewrite list_insert_insert_eq. Qed.

Lemma clear_put s id t : clear_task (put_task s id t) id = clear_task s id.
Proof. unfold put_task, clear_task. simpl. by rewrite list_insert_insert_eq. Qed.

Lemma put_same s id t : task s id = Some t -> put_task s id t = s.
Proof.
  intros [Hl _]%task_Some. unfold put_task, set_tasks. rewrite list_insert_id by done.
  by destruct s.
Qed.

Lemma put_transition_false s id t st :
  task s id = Some t -> transition_valid (tcb_state t) st = false ->
  put_task s id (transition t st).2 = s.
Proof. intros Ht Hv. unfold transition. rewrite Hv. by apply put_same. Qed.
