(* ===== verification/SchedulerInv.v ===== *)
(** * Scheduler invariants, refinement and liveness

    An abstract scheduler (a state per task identifier, a FIFO queue and a CPU
    owner), the invariant that ties it to the slot table, its preservation by
    every operation of [kernel/src/scheduler/mod.rs], and the round-robin
    guarantees that follow. *)

From stdpp Require Import base numbers relations sets list options.
From S2P Require Import Prelude Tasks Queues Scheduler.

Local Open Scope Z_scope.

(** ** The abstract scheduler *)
Record AbsSched := mkAbs {
  a_state : TaskId -> option TaskState;
  a_queue : list TaskId;
  a_cpu : option TaskId;
}.

(** Two abstract schedulers are the same when they agree pointwise. *)
Global Instance AbsSched_equiv : Equiv AbsSched := fun a b =>
  (forall id, a_state a id = a_state b id) /\ a_queue a = a_queue b /\ a_cpu a = a_cpu b.

Global Instance AbsSched_equivalence : Equivalence (≡@{AbsSched}).
Proof.
  split.
  - intros a. done.
  - intros a b (H1 & H2 & H3). split_and!; [by intros id; rewrite H1|done..].
  - intros a b c (H1 & H2 & H3) (H4 & H5 & H6).
    split_and!; [by intros id; rewrite H1, H4|congruence..].
Qed.

Definition abs (s : Scheduler) : AbsSched := mkAbs (state s) (ready s) (current s).

Definition a_set (f : TaskId -> option TaskState) (id : TaskId) (st : option TaskState)
  : TaskId -> option TaskState :=
  fun id' => if decide (id' = id) then st else f id'.

(** The moves of the abstract machine. *)
Definition a_create (id : TaskId) (a : AbsSched) : AbsSched :=
  mkAbs (a_set (a_state a) id (Some Created)) (a_queue a) (a_cpu a).
Definition a_enqueue (id : TaskId) (a : AbsSched) : AbsSched :=
  mkAbs (a_set (a_state a) id (Some Ready)) (a_queue a ++ [id]) (a_cpu a).
Definition a_block (id : TaskId) (a : AbsSched) : AbsSched :=
  mkAbs (a_set (a_state a) id (Some Blocked)) (a_queue a) None.
Definition a_forget (id : TaskId) (cpu : option TaskId) (a : AbsSched) : AbsSched :=
  mkAbs (a_set (a_state a) id None) (a_queue a) cpu.
Definition a_run (id : TaskId) (q : list TaskId) (a : AbsSched) : AbsSched :=
  mkAbs (a_set (a_state a) id (Some Running)) q (Some id).

(** What the scheduler promises: the queue holds exactly the ready tasks, once
    each; at most the CPU owner runs; the owner is running or, after being made
    ready explicitly, queued; and no exited task is visible. *)
Record a_inv (a : AbsSched) : Prop := mk_a_inv {
  inv_nodup : NoDup (a_queue a);
  inv_ready : forall id, id ∈ a_queue a <-> a_state a id = Some Ready;
  inv_running : forall id, a_state a id = Some Running -> a_cpu a = Some id;
  inv_cpu : forall id, a_cpu a = Some id ->
              a_state a id = Some Running \/ a_state a id = Some Ready;
  inv_live : forall id, a_state a id <> Some Exited;
}.

Global Instance a_inv_proper : Proper ((≡) ==> iff) a_inv.
Proof.
  assert (Hw : forall a b, a ≡ b -> a_inv a -> a_inv b).
  { intros a b (H1 & H2 & H3) [Hn Hr Hrun Hc Hl].
    split; intros *; rewrite <- ?H1, <- ?H2, <- ?H3; auto. }
  intros a b H. split; apply Hw; [done|by symmetry].
Qed.

Lemma a_set_eq f id st : a_set f id st id = st.
Proof. unfold a_set. by rewrite decide_True. Qed.

Lemma a_set_ne f id st id' : id' <> id -> a_set f id st id' = f id'.
Proof. intros. unfold a_set. by rewrite decide_False. Qed.

Ltac a_cases :=
  simpl; unfold a_set in *;
  repeat match goal with
  | |- context [decide (?x = ?y)] => destruct (decide (x = y)) as [->|]
  | H : context [decide (?x = ?y)] |- _ => destruct (decide (x = y)) as [->|]
  end; simplify_eq/=.

Section Moves.
Context (a : AbsSched) (Ha : a_inv a).

Lemma a_create_inv id : a_state a id = None -> a_inv (a_create id a).
Proof using Ha.
  intros Hid. destruct Ha as [Hn Hr Hrun Hc Hl]. split; [done|..]; simpl.
  - intros id'. rewrite Hr. a_cases; [rewrite Hid|]; done.
  - intros id' Hst'. a_cases. auto.
  - intros id' Hcur. specialize (Hc id' Hcur). a_cases; [|done]. rewrite Hid in Hc. by destruct Hc.
  - intros id'. a_cases; [done|auto].
Qed.

Lemma a_enqueue_inv id :
  id ∉ a_queue a -> a_inv (a_enqueue id a).
Proof using Ha.
  intros Hid. destruct Ha as [Hn Hr Hrun Hc Hl]. split; simpl.
  - by apply NoDup_snoc.
  - intros id'. rewrite elem_of_app, list_elem_of_singleton, Hr. a_cases; [|naive_solver].
    split; [done|]. by right.
  - intros id' Hst'. a_cases. auto.
  - intros id' Hcur. a_cases; auto.
  - intros id'. a_cases; [done|auto].
Qed.

Lemma a_block_inv id :
  a_cpu a = Some id -> a_state a id = Some Running -> a_inv (a_block id a).
Proof using Ha.
  intros Hcur Hst. destruct Ha as [Hn Hr Hrun Hc Hl]. split; simpl; [done|..].
  - intros id'. rewrite Hr. a_cases; [rewrite Hst|]; done.
  - intros id' Hst'. a_cases. apply Hrun in Hst'. congruence.
  - done.
  - intros id'. a_cases; [done|auto].
Qed.

Lemma a_forget_created_inv id :
  a_state a id = Some Created -> a_inv (a_forget id (a_cpu a) a).
Proof using Ha.
  intros Hst. destruct Ha as [Hn Hr Hrun Hc Hl]. split; simpl; [done|..].
  - intros id'. rewrite Hr. a_cases; [rewrite Hst|]; done.
  - intros id' Hst'. a_cases. auto.
  - intros id' Hcur. specialize (Hc id' Hcur). a_cases; [|done]. rewrite Hst in Hc. by destruct Hc.
  - intros id'. a_cases; [done|auto].
Qed.

Lemma a_forget_running_inv id :
  a_cpu a = Some id -> a_state a id = Some Running -> a_inv (a_forget id None a).
Proof using Ha.
  intros Hcur Hst. destruct Ha as [Hn Hr Hrun Hc Hl]. split; simpl; [done|..].
  - intros id'. rewrite Hr. a_cases; [rewrite Hst|]; done.
  - intros id' Hst'. a_cases. apply Hrun in Hst'. congruence.
  - done.
  - intros id'. a_cases; [done|auto].
Qed.

Lemma a_run_inv id q :
  a_queue a = id :: q -> (forall id', a_state a id' <> Some Running) -> a_inv (a_run id q a).
Proof using Ha.
  intros Hq Hno. destruct Ha as [Hn Hr Hrun Hc Hl]. rewrite Hq in Hn, Hr.
  apply NoDup_cons in Hn as [Hid Hn]. split; simpl; [done|..].
  - intros id'. a_cases; [done|]. rewrite <- Hr, elem_of_cons. naive_solver.
  - intros id'. a_cases; [done|]. intros H. by destruct (Hno id').
  - intros id' [= <-]. left. apply a_set_eq.
  - intros id'. a_cases; [done|auto].
Qed.

Lemma a_idle_inv : (forall id, a_state a id <> Some Running) -> a_inv (mkAbs (a_state a) (a_queue a) None).
Proof using Ha.
  intros Hno. destruct Ha as [Hn Hr Hrun Hc Hl]. split; simpl; auto; [|done].
  intros id H. by destruct (Hno id).
Qed.
End Moves.

(** ** The slot table *)
Record table_wf (s : Scheduler) : Prop := mk_table_wf {
  tw_len : length (tasks s) = length (generations s);
  tw_bound : Z.of_nat (length (tasks s)) <= U32_MAX + 1;
  tw_gen : Forall (fun g => 1 <= g <= U32_MAX) (generations s);
  tw_slot : forall i t, tasks s !! i = Some (Some t) ->
              exists g, generations s !! i = Some g /\ tcb_id t = mkTaskId (Z.of_nat i) g;
  tw_handle : forall id t h, task s id = Some t -> tcb_execution t = Some h ->
                h = ExecutionHandle_for_task id;
}.

Definition sched_inv (s : Scheduler) : Prop := table_wf s /\ a_inv (abs s).

Lemma table_wf_ready s q : table_wf s -> table_wf (set_ready s q).
Proof. by intros []. Qed.

Lemma table_wf_current s c : table_wf s -> table_wf (set_current s c).
Proof. by intros []. Qed.

Lemma table_put s id t t' :
  table_wf s -> task s id = Some t -> tcb_id t' = id ->
  (forall h, tcb_execution t' = Some h -> h = ExecutionHandle_for_task id) ->
  table_wf (put_task s id t').
Proof.
  intros [Hlen Hb Hg Hs Hh] Ht Hid Hex.
  pose proof Ht as [Hl Hidt]%task_Some. split; simpl.
  - by rewrite length_insert.
  - by rewrite length_insert.
  - done.
  - intros i u Hi. apply list_lookup_insert_Some in Hi as [(<- & [= <-] & _)|[_ Hi]]; [|eauto].
    destruct (Hs _ _ Hl) as (g & Hgi & Heq). exists g. split; [done|]. congruence.
  - intros id' u h Hu. rewrite (task_put s id t) in Hu by done. case_decide; simplify_eq; eauto.
Qed.

Lemma with_state_tcb_id s id t st : task s id = Some t -> tcb_id (with_state t st) = id.
Proof. intros Ht. rewrite with_state_id. by eapply task_id. Qed.

Lemma table_put_state s id t st :
  table_wf s -> task s id = Some t -> table_wf (put_task s id (with_state t st)).
Proof.
  intros Hw Ht. eapply table_put; [done|done|by eapply with_state_tcb_id|].
  intros h Hh. by apply (tw_handle s Hw id t).
Qed.

Lemma table_clear s id t : table_wf s -> task s id = Some t -> table_wf (clear_task s id).
Proof.
  intros [Hlen Hb Hg Hs Hh] Ht. split; simpl.
  - by rewrite length_insert.
  - by rewrite length_insert.
  - done.
  - intros i u Hi. apply list_lookup_insert_Some in Hi as [(_ & ? & _)|[_ Hi]]; [done|eauto].
  - intros id' u h Hu. rewrite (task_clear s id t) in Hu by done. case_decide; simplify_eq. eauto.
Qed.

Lemma state_put s id t t' id' :
  task s id = Some t -> tcb_id t' = id ->
  state (put_task s id t') id' = a_set (state s) id (Some (tcb_state t')) id'.
Proof.
  intros. unfold state at 1. rewrite (task_put s id t) by done. unfold a_set. by case_decide.
Qed.

Lemma state_clear s id t id' :
  task s id = Some t -> state (clear_task s id) id' = a_set (state s) id None id'.
Proof.
  intros. unfold state at 1. rewrite (task_clear s id t) by done. unfold a_set. by case_decide.
Qed.

#[export] Hint Resolve table_wf_ready table_wf_current table_put_state table_clear
  with_state_tcb_id task_id : x11.

(** ** Creation *)
Lemma find_free_slot_spec {E} (ts : list (option TaskControlBlock)) gs i :
  (i + length ts <= length gs)%nat ->
  match find_free_slot (E := E) i ts gs with
  | Ok (Some k) => (i <= k)%nat /\ ts !! (k - i)%nat = Some None /\
                   exists g, gs !! k = Some g /\ g <> U32_MAX
  | Ok None => forall j, ts !! j = Some None -> gs !! (i + j)%nat = Some U32_MAX
  | Err _ | Panic => False
  end.
Proof.
  revert i. induction ts as [|[t|] ts IH]; intros i Hlen; simpl in *.
  - intros j Hj. by rewrite lookup_nil in Hj.
  - specialize (IH (S i) ltac:(lia)). destruct (find_free_slot _ _ _) as [[k|]| |]; [|..|done|done].
    + destruct IH as (? & Hk & ?). split_and!; [lia| |done].
      by replace (k - i)%nat with (S (k - S i)) by lia.
    + intros [|j] Hj; simplify_eq/=. rewrite Nat.add_succ_r. by apply IH.
  - destruct (lookup_lt_is_Some_2 gs i) as [g Hg]; [lia|]. rewrite Hg. case_bool_decide as Hm.
    + specialize (IH (S i) ltac:(lia)). destruct (find_free_slot _ _ _) as [[k|]| |]; [|..|done|done].
      * destruct IH as (? & Hk & ?). split_and!; [lia| |done].
        by replace (k - i)%nat with (S (k - S i)) by lia.
      * intros [|j] Hj; simplify_eq/=; [by rewrite Nat.add_0_r|].
        rewrite Nat.add_succ_r. by apply IH.
    + split_and!; [lia|by rewrite Nat.sub_diag|eauto].
Qed.

Lemma new_tcb_fields kind id prio :
  tcb_id (new_tcb kind id prio) = id /\ tcb_kind (new_tcb kind id prio) = kind /\
  tcb_state (new_tcb kind id prio) = Created /\ tcb_execution (new_tcb kind id prio) = None /\
  tcb_priority (new_tcb kind id prio) = prio.
Proof. by destruct kind. Qed.

(** A slot of the table written with a fresh block (and its generation). *)
Lemma fresh_slot_wf s ts gs i id tcb :
  table_wf s -> Z.of_nat i <= U32_MAX -> is_Some (ts !! i) ->
  length ts = length gs -> Z.of_nat (length ts) <= U32_MAX + 1 ->
  (forall j, j <> i -> ts !! j = tasks s !! j /\ gs !! j = generations s !! j) ->
  (forall t, tasks s !! i <> Some (Some t)) ->
  ts !! i = Some (Some tcb) -> gs !! i = Some (task_generation id) ->
  1 <= task_generation id <= U32_MAX ->
  task_index id = Z.of_nat i -> tcb_id tcb = id -> tcb_state tcb = Created ->
  tcb_execution tcb = None ->
  let s' := mkScheduler ts gs (ready s) (current s) in
  table_wf s' /\ task s id = None /\ task s' id = Some tcb /\
  (forall id', id' <> id -> task s' id' = task s id') /\
  abs s' ≡ a_create id (abs s).
Proof.
  intros Hw Hi His Hlen Hb Hoth Hold Hti Hgi Hgr Hidx Hid Hst Hex s'.
  assert (Hslot : slot_of id = i) by (unfold slot_of; lia).
  assert (Hnone : task s id = None).
  { unfold task. rewrite Hslot. destruct (tasks s !! i) as [[t|]|] eqn:E; [|done..].
    by destruct (Hold t). }
  assert (Hself : task s' id = Some tcb) by (apply task_Some; by rewrite Hslot).
  assert (Hne : forall id', id' <> id -> task s' id' = task s id').
  { intros id' Hne. unfold task. simpl. destruct (decide (slot_of id' = i)) as [->|Hs].
    - rewrite Hti. rewrite decide_False by congruence.
      destruct (tasks s !! i) as [[t|]|] eqn:E; [|done..]. by destruct (Hold t).
    - by destruct (Hoth _ Hs) as [-> _]. }
  split_and!; try done.
  - split; simpl; [done|done| | |].
    + apply Forall_lookup. intros j g Hj. destruct (decide (j = i)) as [->|Hj'].
      * by simplify_eq.
      * destruct (Hoth j Hj') as [_ Heq]. rewrite Heq in Hj.
        by apply (Forall_lookup_1 _ _ _ _ (tw_gen s Hw) Hj).
    + intros j t Hj. destruct (decide (j = i)) as [->|Hj'].
      * assert (t = tcb) as -> by congruence. exists (task_generation id). split; [done|].
        rewrite Hid, <- Hidx. by destruct id.
      * destruct (Hoth j Hj') as [Heq1 Heq2]. rewrite Heq1 in Hj. rewrite Heq2.
        by apply (tw_slot s Hw).
    + intros id' t h Ht Hh. destruct (decide (id' = id)) as [->|Hn].
      * congruence.
      * rewrite Hne in Ht by done. by apply (tw_handle s Hw id' t).
  - split; [|done]. intros id'. simpl. unfold a_set. case_decide as Hd.
    + subst id'. unfold state. rewrite Hself. simpl. by rewrite Hst.
    + unfold state. by rewrite Hne.
Qed.

(** Generations never go back. *)
Definition gens_le (s s' : Scheduler) : Prop :=
  forall i g, generations s !! i = Some g -> exists g', generations s' !! i = Some g' /\ g <= g'.

Lemma create_task_spec {E} s prio kind :
  sched_inv s -> Z.of_nat (length (tasks s)) <= U32_MAX ->
  exists id s',
    create_task_with_kind (E := E) s prio kind = (Ok id, s') /\ table_wf s' /\
    task s id = None /\ task s' id = Some (new_tcb kind id prio) /\
    (forall id', id' <> id -> task s' id' = task s id') /\
    abs s' ≡ a_create id (abs s) /\ gens_le s s' /\
    (forall g, generations s !! slot_of id = Some g -> g < task_generation id).
Proof.
  intros [Hw Ha] Hroom. unfold create_task_with_kind.
  pose proof (find_free_slot_spec (E := E) (tasks s) (generations s) 0) as Hf.
  rewrite (tw_len s Hw) in Hf. specialize (Hf ltac:(lia)).
  destruct (find_free_slot 0 _ _) as [[k|]| |]; [|..|done|done].
  - destruct Hf as (_ & Hk & g & Hg & Hmax). rewrite Nat.sub_0_r in Hk.
    pose proof (Forall_lookup_1 _ _ _ _ (tw_gen s Hw) Hg) as Hgr. simpl in Hgr.
    pose proof (lookup_lt_Some _ _ _ Hk) as Hlt. pose proof (tw_len s Hw) as Hlen.
    rewrite Hg. simpl. assert (checked_add_u32 g 1 = Some (g + 1)) as ->
      by (apply checked_add_u32_Some; lia).
    rewrite as_u32_id by ulia. set (id := mkTaskId (Z.of_nat k) (g + 1)).
    destruct (new_tcb_fields kind id prio) as (F1 & _ & F2 & F3 & _).
    destruct (fresh_slot_wf s (<[k := Some (new_tcb kind id prio)]> (tasks s))
                (<[k := g + 1]> (generations s)) k id (new_tcb kind id prio))
      as (W1 & W2 & W3 & W4 & W5); try done.
    + lia.
    + rewrite list_lookup_insert_eq by done. done.
    + by rewrite !length_insert.
    + rewrite length_insert. apply Hw.
    + intros j Hj. by rewrite !list_lookup_insert_ne.
    + congruence.
    + by apply list_lookup_insert_eq.
    + apply list_lookup_insert_eq. lia.
    + simpl. lia.
    + eexists _, _. split; [done|]. split_and!; try done.
      * intros j gj Hj. simpl. destruct (decide (j = k)) as [->|Hjk].
        -- exists (g + 1). rewrite list_lookup_insert_eq by lia. split; [done|]. simplify_eq. lia.
        -- exists gj. rewrite list_lookup_insert_ne by done. done.
      * intros g'. unfold slot_of. simpl. rewrite Nat2Z.id, Hg. intros [= <-]. lia.
  - pose proof (tw_len s Hw) as Hlen.
    rewrite as_u32_id by ulia. set (id := mkTaskId (Z.of_nat (length (tasks s))) 1).
    destruct (new_tcb_fields kind id prio) as (F1 & _ & F2 & F3 & _).
    destruct (fresh_slot_wf s (tasks s ++ [Some (new_tcb kind id prio)]) (generations s ++ [1])
                (length (tasks s)) id (new_tcb kind id prio))
      as (W1 & W2 & W3 & W4 & W5); try done.
    + apply lookup_lt_is_Some_2. rewrite length_app. simpl. lia.
    + rewrite !length_app. simpl. lia.
    + rewrite length_app. simpl. lia.
    + intros j Hj. destruct (decide (j < length (tasks s))%nat).
      * by rewrite !lookup_app_l by lia.
      * rewrite !lookup_ge_None_2; rewrite ?length_app; simpl; try done; lia.
    + intros t Ht. apply lookup_lt_Some in Ht. lia.
    + by rewrite lookup_app_r, Nat.sub_diag by lia.
    + by rewrite lookup_app_r, Hlen, Nat.sub_diag by lia.
    + eexists _, _. split; [done|]. split_and!; try done.
      * intros j gj Hj. exists gj. simpl. split; [by apply lookup_app_l_Some|lia].
      * intros g Hg. exfalso. apply lookup_lt_Some in Hg. unfold slot_of in Hg. simpl in Hg. lia.
Qed.

(** ** The other operations, as abstract moves *)
Lemma attach_execution_spec s id :
  sched_inv s ->
  table_wf (attach_execution s id).2 /\ abs (attach_execution s id).2 ≡ abs s /\
  match attach_execution s id with
  | (Ok h, s') => h = ExecutionHandle_for_task id /\
      exists t, task s id = Some t /\ tcb_execution t = None /\
                s' = put_task s id (with_execution t (Some h))
  | (Err _, s') => s' = s
  | (Panic, _) => False
  end.
Proof.
  intros [Hw Ha]. unfold attach_execution, tcb_attach_execution.
  destruct (task s id) as [t|] eqn:Ht; [|done].
  destruct (tcb_execution t) eqn:He; simpl; [by rewrite put_same|].
  pose proof (task_id _ _ _ Ht) as Hid. split_and!.
  - eapply table_put; [done|done|done|]. simpl. intros h [= <-]. by rewrite Hid.
  - split; [|done]. intros id'. simpl. rewrite (state_put s id t) by done. simpl.
    unfold a_set. case_decide; [subst id'|done]. symmetry. apply state_Some. by exists t.
  - by rewrite Hid.
  - exists t. done.
Qed.

Lemma destroy_created_spec s id :
  sched_inv s ->
  match destroy_created s id with
  | (Ok h, s') => state s id = Some Created /\ h = ExecutionHandle_for_task id /\
                  table_wf s' /\ abs s' ≡ a_forget id (current s) (abs s) /\ s' = clear_task s id
  | (Err _, s') => s' = s
  | (Panic, _) => False
  end.
Proof.
  intros [Hw Ha]. unfold destroy_created, tcb_detach_execution.
  destruct (tasks s !! slot_of id) as [[t|]|] eqn:Hl; [|done..].
  destruct (negb _ || negb _) eqn:Hb; [done|]. to_prop.
  assert (Ht : task s id = Some t) by (by apply task_Some).
  destruct (tcb_execution t) as [h|] eqn:He.
  - split_and!; [apply state_Some; eauto|by eapply tw_handle|by eapply table_clear| |done].
    split; [|done]. intros id'. simpl. by rewrite (state_clear s id t).
  - apply put_same. rewrite Ht. f_equal. unfold with_execution. rewrite <- He. by destruct t.
Qed.

Lemma abs_put_state s id t st :
  task s id = Some t ->
  abs (put_task s id (with_state t st)) ≡ mkAbs (a_set (state s) id (Some st)) (ready s) (current s).
Proof.
  intros Ht. split; [|done]. intros id'. simpl.
  rewrite (state_put s id t); [done..|]. by eapply with_state_tcb_id.
Qed.

Lemma make_ready_spec s id :
  sched_inv s ->
  match make_ready s id with
  | (true, s') => id ∉ ready s /\ table_wf s' /\ abs s' ≡ a_enqueue id (abs s) /\
                  exists t, task s id = Some t /\ transition_valid (tcb_state t) Ready = true /\
                  s' = set_ready (put_task s id (with_state t Ready)) (ready s ++ [id])
  | (false, s') => s' = s
  end.
Proof.
  intros [Hw Ha]. unfold make_ready. destruct (run_contains (ready s) id) eqn:Hc; [done|].
  apply run_contains_false in Hc.
  destruct (task s id) as [t|] eqn:Ht; [|done].
  unfold transition. destruct (transition_valid (tcb_state t) Ready) eqn:Hv.
  - simpl. rewrite run_push_fresh by done.
    split_and!; [done|eauto with x11| |eauto].
    split; [|done]. intros id'. simpl. rewrite state_set_ready, (state_put s id t); eauto with x11.
  - by apply put_same.
Qed.

(** [terminate_current_to] either commits completely or changes nothing; no
    invariant is needed for that. *)
Lemma terminate_current_to_cases s successor :
  match terminate_current_to s successor with
  | (Ok id, s') =>
      id = successor /\
      exists cur tc ts q, current s = Some cur /\ cur <> successor /\
        task s cur = Some tc /\ tcb_state tc = Running /\
        task s successor = Some ts /\ tcb_state ts = Ready /\
        ready s = successor :: q /\
        s' = set_current (put_task (set_ready (clear_task s cur) q) successor
                            (with_state ts Running)) (Some successor)
  | (Err _, s') => s' = s
  | (Panic, _) => False
  end.
Proof.
  unfold terminate_current_to. destruct (current s) as [cur|] eqn:Hcur; [|done].
  case_bool_decide as Hne; [done|].
  destruct (negb _ || negb _) eqn:Hb; [done|]. to_prop.
  destruct (slot_is s cur Running) eqn:Hrun; [|done].
  destruct (slot_is s successor Ready) eqn:Hrdy; [|done].
  apply slot_is_spec, state_Some in Hrun as (tc & Htc & Hsc).
  apply slot_is_spec, state_Some in Hrdy as (ts & Hts & Hss).
  pose proof Htc as [Hlc _]%task_Some. cbn [negb]. rewrite Hlc.
  unfold transition at 1. rewrite Hsc. cbn [transition_valid negb].
  rewrite put_put, clear_put.
  destruct (ready s) as [|x q] eqn:Hq; [done|]. simplify_eq/=.
  rewrite Hq. simpl. rewrite bool_decide_true by done. cbn [negb].
  assert (Hts' : task (clear_task s cur) successor = Some ts)
    by (rewrite (task_clear s cur tc) by done; by rewrite decide_False).
  pose proof Hts' as [Hls _]%task_Some. simpl in Hls. rewrite Hls.
  unfold transition. rewrite Hss. simpl.
  split; [done|]. exists cur, tc, ts, q. done.
Qed.

Lemma terminate_abs s cur tc successor ts q :
  task s cur = Some tc -> task s successor = Some ts -> cur <> successor ->
  abs (set_current (put_task (set_ready (clear_task s cur) q) successor (with_state ts Running))
         (Some successor))
  ≡ a_run successor q (a_forget cur None (abs s)).
Proof.
  intros Htc Hts Hne. split; [|done]. intros id'. simpl. rewrite state_set_current.
  rewrite (state_put _ successor ts).
  - unfold a_set. case_decide; [done|]. rewrite state_set_ready, (state_clear s cur tc) by done.
    unfold a_set. done.
  - rewrite task_set_ready, (task_clear s cur tc) by done. by rewrite decide_False.
  - by eapply with_state_tcb_id.
Qed.

Lemma terminate_inv s successor : sched_inv s -> sched_inv (terminate_current_to s successor).2.
Proof.
  intros [Hw Ha]. pose proof (terminate_current_to_cases s successor) as Hc.
  destruct (terminate_current_to s successor) as [[id|e|] s']; [|by subst|done].
  destruct Hc as (-> & cur & tc & ts & q & Hcur & Hne & Htc & Hsc & Hts & Hss & Hq & ->). simpl.
  assert (Hts' : task (set_ready (clear_task s cur) q) successor = Some ts)
    by (rewrite task_set_ready, (task_clear s cur tc) by done; by rewrite decide_False).
  split; [eauto with x11|]. rewrite (terminate_abs s cur tc) by done.
  apply a_run_inv; [|done|].
  - apply a_forget_running_inv; [done|done|]. apply state_Some. eauto.
  - intros id'. a_cases; [done|]. intros Hr%(inv_running _ Ha). simpl in Hr. congruence.
Qed.

(** The abstract dispatcher: requeue a running owner, run the head. *)
Definition a_requeue (a : AbsSched) : AbsSched :=
  match a_cpu a with
  | Some p => if decide (a_state a p = Some Running) then a_enqueue p a else a
  | None => a
  end.

(** A dispatch that would hand the CPU back to its owner reports no switch. *)
Definition a_next (cpu : option TaskId) (x : TaskId) (q : list TaskId) : option TaskId :=
  if decide (cpu = Some x /\ q = []) then None else Some x.
Arguments a_next : simpl never.

Lemma a_next_self x : a_next (Some x) x [] = None.
Proof. unfold a_next. by rewrite decide_True. Qed.

Lemma a_next_other cpu x q : ~ (cpu = Some x /\ q = []) -> a_next cpu x q = Some x.
Proof. intros. unfold a_next. by rewrite decide_False. Qed.

Definition a_schedule (a : AbsSched) : DispatchDecision * AbsSched :=
  let a1 := a_requeue a in
  match a_queue a1 with
  | [] => (mkDecision (a_cpu a) None, mkAbs (a_state a1) [] None)
  | x :: q => (mkDecision (a_cpu a) (a_next (a_cpu a) x q),
               a_run x q a1)
  end.

Lemma requeue_previous_spec s :
  sched_inv s ->
  table_wf (requeue_previous s) /\ abs (requeue_previous s) ≡ a_requeue (abs s) /\
  a_inv (abs (requeue_previous s)) /\
  (forall id, state (requeue_previous s) id <> Some Running) /\
  current (requeue_previous s) = current s.
Proof.
  intros [Hw Ha]. unfold requeue_previous, a_requeue. simpl.
  destruct (current s) as [p|] eqn:Hc.
  2: { split_and!; [done|done|done| |done]. intros id Hr%(inv_running _ Ha). simpl in Hr. congruence. }
  destruct (inv_cpu _ Ha p Hc) as [Hr|Hr]; simpl in Hr; pose proof Hr as (t & Ht & Hst)%state_Some;
    rewrite Ht.
  - rewrite bool_decide_true, decide_True by done.
    unfold transition. rewrite Hst. cbn [transition_valid snd].
    assert (Hnq : p ∉ ready s) by (intros Hin%(inv_ready _ Ha); simpl in Hin; congruence).
    rewrite run_push_fresh by done. cbn [snd].
    change (ready (put_task s p (with_state t Ready)) ++ [p]) with (ready s ++ [p]).
    assert (Heq : abs (set_ready (put_task s p (with_state t Ready)) (ready s ++ [p]))
                  ≡ a_enqueue p (abs s)).
    { split; [|done]. intros id'. simpl. rewrite state_set_ready, (state_put s p t); eauto with x11. }
    split_and!; [eauto with x11|done| | |done].
    + rewrite Heq. by apply a_enqueue_inv.
    + intros id'. destruct Heq as [Heq _]. specialize (Heq id'). simpl in Heq. rewrite Heq.
      a_cases; [done|]. intros H%(inv_running _ Ha). simpl in H. congruence.
  - rewrite bool_decide_false, decide_False by congruence.
    split_and!; [done|done|done| |done]. intros id Hrun. pose proof (inv_running _ Ha id Hrun) as H.
    simpl in H. congruence.
Qed.

Lemma dispatch_head_spec s :
  table_wf s -> a_inv (abs s) -> (forall id, state s id <> Some Running) ->
  table_wf (dispatch_head s) /\
  match ready s with
  | [] => dispatch_head s = set_current s None
  | x :: q => abs (dispatch_head s) ≡ a_run x q (abs s)
  end.
Proof.
  intros Hw Ha Hno. unfold dispatch_head. destruct (ready s) as [|x q] eqn:Hq; simpl.
  - split; [eauto with x11|]. unfold set_current, set_ready. simpl. by rewrite Hq.
  - assert (Hx : state s x = Some Ready) by (apply (inv_ready _ Ha); simpl; rewrite Hq; left).
    apply state_Some in Hx as (t & Ht & Hst). rewrite task_set_ready, Ht.
    unfold transition. rewrite Hst. simpl. split; [eauto with x11|].
    split; [|done]. intros id'. simpl. rewrite state_set_current, (state_put _ x t); eauto with x11.
Qed.

Lemma schedule_next_spec s :
  sched_inv s ->
  (schedule_next s).1 = (a_schedule (abs s)).1 /\
  abs (schedule_next s).2 ≡ (a_schedule (abs s)).2 /\
  sched_inv (schedule_next s).2.
Proof.
  intros Hinv. pose proof (requeue_previous_spec s Hinv) as (Hw1 & Heq & Ha1 & Hno & Hcur).
  unfold schedule_next, a_schedule. set (s1 := requeue_previous s) in *.
  pose proof Heq as (_ & Hq & _). simpl in Hq. rewrite <- Hq. simpl.
  assert (Hdisp : forall x q, ready s1 = x :: q ->
    abs (dispatch_head s1) ≡ a_run x q (a_requeue (abs s)) /\ sched_inv (dispatch_head s1) /\
    current (dispatch_head s1) = Some x).
  { intros x q Hr. pose proof (dispatch_head_spec s1 Hw1 Ha1 Hno) as [Hw2 Hd]. rewrite Hr in Hd.
    assert (abs (dispatch_head s1) ≡ a_run x q (a_requeue (abs s))) as He.
    { rewrite Hd. destruct Heq as (Hs & _). split; [|done]. intros id'. simpl. unfold a_set.
      case_decide; [done|]. apply Hs. }
    split_and!; [done|split; [done|]|by destruct Hd as (_ & _ & Hd)].
    rewrite Hd. by apply a_run_inv. }
  assert (Hidle : ready s1 = [] ->
    abs (dispatch_head s1) ≡ mkAbs (a_state (a_requeue (abs s))) [] None /\
    sched_inv (dispatch_head s1) /\ current (dispatch_head s1) = None).
  { intros Hr. pose proof (dispatch_head_spec s1 Hw1 Ha1 Hno) as [Hw2 Hd]. rewrite Hr in Hd.
    rewrite Hd in Hw2 |- *. split_and!; [|split; [done|]|done].
    - destruct Heq as (Hs & _). split; [|done]. exact Hs.
    - apply (a_idle_inv (abs s1)); done. }
  destruct (current s) as [p|] eqn:Hc.
  - destruct (bool_decide (length (ready s1) = 1%nat) && _) eqn:Hb.
    + to_prop. destruct (ready s1) as [|x [|y q]] eqn:Hr; try done. simplify_eq/=.
      rewrite a_next_self.
      assert (Hp : state s1 p = Some Ready) by (apply (inv_ready _ Ha1); simpl; rewrite Hr; left).
      apply state_Some in Hp as (t & Ht & Hst). rewrite task_set_ready, Ht.
      unfold transition. rewrite Hst. simpl. split; [done|].
      assert (Hab : abs (set_current (put_task (set_ready s1 []) p (with_state t Running)) (Some p))
                    ≡ a_run p [] (abs s1)).
      { split; [|done]. intros id'. simpl. rewrite state_set_current, (state_put _ p t); eauto with x11. }
      split_and!.
      * rewrite Hab. destruct Heq as (Hs & _). split; [|done]. intros id'. simpl. unfold a_set.
        case_decide; [done|]. apply Hs.
      * split; [eauto with x11|]. rewrite Hab. by apply a_run_inv.
    + destruct (ready s1) as [|x q] eqn:Hr.
      * destruct (Hidle eq_refl) as (? & ? & ->). done.
      * destruct (Hdisp x q eq_refl) as (? & ? & ->). simpl. split; [|done].
        rewrite a_next_other; [done|]. intros [[= ->] ->]. by rewrite !bool_decide_true in Hb.
  - destruct (ready s1) as [|x q] eqn:Hr.
    + destruct (Hidle eq_refl) as (? & ? & ->). done.
    + destruct (Hdisp x q eq_refl) as (? & ? & ->). simpl. split; [|done].
      rewrite a_next_other; [done|]. by intros [? _].
Qed.
