(* ===== verification/SchedulerSteps.v ===== *)
(** * The scheduler as a transition system

    Every public operation of [kernel/src/scheduler/mod.rs] as a step, and what holds
    in every reachable state: the invariant, identifiers that never come back, FIFO
    wake-ups and round-robin progress. *)

From stdpp Require Import base numbers relations sets list options.
From S2P Require Import Prelude Tasks Queues Scheduler SchedulerInv.

Local Open Scope Z_scope.

(** ** Blocking, waking and exiting *)
Lemma transition_blocked_iff st : transition_valid st Blocked = true <-> st = Running.
Proof. by destruct st. Qed.

Lemma enqueue_spec s id t :
  sched_inv s -> task s id = Some t -> id ∉ ready s ->
  let s' := set_ready (put_task s id (with_state t Ready)) (ready s ++ [id]) in
  sched_inv s' /\ abs s' ≡ a_enqueue id (abs s).
Proof.
  intros [Hw Ha] Ht Hn s'.
  assert (Heq : abs s' ≡ a_enqueue id (abs s)).
  { split; [|done]. intros id'. unfold s'. simpl.
    rewrite state_set_ready, (state_put s id t); eauto with x11. }
  split; [|done]. split; [unfold s'; eauto with x11|]. rewrite Heq. by apply a_enqueue_inv.
Qed.

Lemma block_spec s id t :
  sched_inv s -> current s = Some id -> task s id = Some t -> tcb_state t = Running ->
  let s' := set_current (put_task s id (with_state t Blocked)) None in
  sched_inv s' /\ abs s' ≡ a_block id (abs s).
Proof.
  intros [Hw Ha] Hc Ht Hst s'.
  assert (Heq : abs s' ≡ a_block id (abs s)).
  { split; [|done]. intros id'. unfold s'. simpl.
    rewrite state_set_current, (state_put s id t); eauto with x11. }
  split; [|done]. split; [unfold s'; eauto with x11|]. rewrite Heq.
  apply a_block_inv; [done|done|]. apply state_Some. eauto.
Qed.

(** The three blocking operations do the same to the scheduler. *)
Definition blocked_from (s s' : Scheduler) (id : TaskId) : Prop :=
  exists t, current s = Some id /\ task s id = Some t /\ tcb_state t = Running /\
            s' = set_current (put_task s id (with_state t Blocked)) None.

Lemma block_current_cases s :
  match block_current s with
  | (true, s') => exists id, blocked_from s s' id
  | (false, s') => s' = s
  end.
Proof.
  unfold block_current. destruct (current s) as [id|] eqn:Hc; [|done].
  destruct (task s id) as [t|] eqn:Ht; [|done]. unfold transition.
  destruct (transition_valid _ _) eqn:Hv; [|by apply put_same].
  apply transition_blocked_iff in Hv. exists id, t. done.
Qed.

Lemma block_current_on_cases s waiters :
  match block_current_on s waiters with
  | (Ok id, s', waiters') => blocked_from s s' id /\ (id ∉ waiters) /\ waiters' = waiters ++ [id]
  | (Err _, s', waiters') => s' = s /\ waiters' = waiters
  | (Panic, _, _) => False
  end.
Proof.
  unfold block_current_on, wait_contains. destruct (current s) as [id|] eqn:Hc; [|done].
  case_bool_decide as Hin; [done|]. destruct (task s id) as [t|] eqn:Ht; [|done].
  unfold transition at 1. destruct (transition_valid _ _) eqn:Hv; cbn [negb].
  - apply transition_blocked_iff in Hv. rewrite wait_enqueue_fresh by done.
    split; [|done]. exists t. done.
  - by rewrite put_same.
Qed.

Lemma sleep_current_until_cases s deadline sleepers :
  sleep_inv sleepers ->
  match sleep_current_until s deadline sleepers with
  | (Ok id, s', sleepers') =>
      blocked_from s s' id /\ (id ∉ entry_task <$> sleepers) /\
      sleepers' = sorted_insert (SleepEntry_new deadline id) sleepers
  | (Err _, s', sleepers') => s' = s /\ sleepers' = sleepers
  | (Panic, _, _) => False
  end.
Proof.
  intros [Hs _]. unfold sleep_current_until. destruct (current s) as [id|] eqn:Hc; [|done].
  destruct (sleep_contains sleepers id) eqn:Hin; [done|].
  assert (Hn : id ∉ entry_task <$> sleepers).
  { intros (e & -> & He)%list_elem_of_fmap. unfold sleep_contains in Hin.
    apply not_true_iff_false in Hin. apply Hin. apply existsb_exists. exists e.
    rewrite <- list_elem_of_In. split; [done|]. by apply bool_decide_eq_true. }
  destruct (task s id) as [t|] eqn:Ht; [|done].
  unfold transition at 1. destruct (transition_valid _ _) eqn:Hv; cbn [negb].
  - apply transition_blocked_iff in Hv. rewrite sleep_insert_eq by done. simpl.
    rewrite bool_decide_false by done. cbn [negb]. split_and!; [|done|done]. exists t. done.
  - by rewrite put_same.
Qed.

Lemma blocked_from_inv s s' id :
  sched_inv s -> blocked_from s s' id ->
  sched_inv s' /\ abs s' ≡ a_block id (abs s) /\ state s id = Some Running.
Proof.
  intros Hi (t & Hc & Ht & Hst & ->). pose proof (block_spec s id t Hi Hc Ht Hst) as [??].
  split_and!; [done|done|]. apply state_Some. eauto.
Qed.

Lemma exit_current_cases s :
  match exit_current s with
  | (true, s') => exists id t, current s = Some id /\ task s id = Some t /\
                  (tcb_state t = Running \/ tcb_state t = Blocked) /\
                  s' = set_current (clear_task s id) None
  | (false, s') => s' = s
  end.
Proof.
  unfold exit_current. destruct (current s) as [id|] eqn:Hc; [|done].
  destruct (tasks s !! slot_of id) as [[t|]|] eqn:Hl; [|done..].
  case_bool_decide as Hid; cbn [negb]; [|done].
  assert (Ht : task s id = Some t) by (by apply task_Some).
  unfold transition. destruct (transition_valid _ _) eqn:Hv; cbn [negb].
  - exists id, t. rewrite put_put, clear_put. split_and!; [done|done| |done].
    destruct (tcb_state t); try done; auto.
  - by apply put_same.
Qed.

Lemma exit_current_inv s s' :
  sched_inv s -> exit_current s = (true, s') ->
  exists id, current s = Some id /\ state s id = Some Running /\
             abs s' ≡ a_forget id None (abs s) /\ sched_inv s'.
Proof.
  intros [Hw Ha] He. pose proof (exit_current_cases s) as Hx. rewrite He in Hx.
  destruct Hx as (id & t & Hc & Ht & Hst & ->). exists id.
  assert (Hr : state s id = Some Running).
  { destruct (inv_cpu _ Ha id Hc) as [H|H]; [done|]. simpl in H.
    apply state_Some in H as (t' & Ht' & Hst'). simplify_eq. destruct Hst; congruence. }
  assert (Heq : abs (set_current (clear_task s id) None) ≡ a_forget id None (abs s)).
  { split; [|done]. intros id'. simpl. by rewrite state_set_current, (state_clear s id t). }
  split_and!; [done|done|done|]. split; [eauto with x11|]. rewrite Heq.
  by apply a_forget_running_inv.
Qed.

Lemma exit_current_running s t :
  sched_inv s -> current s = Some t -> state s t = Some Running ->
  exists s', exit_current s = (true, s') /\ current s' = None /\ task s' t = None /\
             (forall t', t' <> t -> task s' t' = task s t').
Proof.
  intros Hi Hc Hst. destruct (state_Some s t Running) as [Hs _]. destruct (Hs Hst) as (tcb & Ht & Hrun).
  pose proof (exit_current_cases s) as He. destruct (exit_current s) as [[] s'] eqn:Hx.
  - destruct He as (id & t' & Hid & Ht' & _ & ->). rewrite Hc in Hid. injection Hid as <-.
    eexists. split; [done|]. split; [done|]. split.
    + change (task (clear_task s t) t = None). rewrite (task_clear s t tcb) by done. by rewrite decide_True.
    + intros t2 Hne. change (task (clear_task s t) t2 = task s t2). rewrite (task_clear s t tcb) by done.
      by rewrite decide_False.
  - exfalso. unfold exit_current in Hx. rewrite Hc in Hx. apply task_Some in Ht as [Hl Hid]. rewrite Hl in Hx.
    rewrite bool_decide_true in Hx by done. cbn [negb] in Hx. unfold transition in Hx. rewrite Hrun in Hx.
    vm_compute in Hx. discriminate.
Qed.

(** ** Wake-ups *)
Definition woken_from (s s' : Scheduler) (id : TaskId) : Prop :=
  exists t, task s id = Some t /\ tcb_state t = Blocked /\
            s' = set_ready (put_task s id (with_state t Ready)) (ready s ++ [id]).

Lemma woken_from_inv s s' id :
  sched_inv s -> woken_from s s' id -> sched_inv s' /\ abs s' ≡ a_enqueue id (abs s).
Proof.
  intros Hi (t & Ht & Hst & ->). apply enqueue_spec; [done|done|].
  intros Hin%(inv_ready _ (proj2 Hi)). simpl in Hin.
  apply state_Some in Hin as (t' & Ht' & ?). congruence.
Qed.

Lemma not_blocked_skip s id t :
  task s id = Some t -> tcb_state t <> Blocked -> state s id <> Some Blocked.
Proof. intros Ht Hst (t' & ? & ?)%state_Some. congruence. Qed.

Lemma wake_one_spec s q :
  sched_inv s ->
  match wake_one s q with
  | (Some id, s', q') =>
      woken_from s s' id /\
      exists q1, q = q1 ++ id :: q' /\ Forall (fun w => state s w <> Some Blocked) q1
  | (None, s', q') => s' = s /\ q' = [] /\ Forall (fun w => state s w <> Some Blocked) q
  end.
Proof.
  intros Hi. induction q as [|id q IH]; [done|]. cbn [wake_one].
  assert (Hskip : state s id <> Some Blocked ->
    match wake_one s q with
    | (Some w, s', q') => woken_from s s' w /\
        exists q1, id :: q = q1 ++ w :: q' /\ Forall (fun w => state s w <> Some Blocked) q1
    | (None, s', q') => s' = s /\ q' = [] /\ Forall (fun w => state s w <> Some Blocked) (id :: q)
    end).
  { intros Hn. destruct (wake_one s q) as [[[w|] s'] q'].
    - destruct IH as (? & q1 & -> & ?). split; [done|]. exists (id :: q1). split; [done|by constructor].
    - destruct IH as (-> & -> & ?). by repeat constructor. }
  destruct (task s id) as [t|] eqn:Ht.
  2: { apply Hskip. unfold state. by rewrite Ht. }
  case_bool_decide as Hst; cbn [negb]; [|by eapply Hskip, not_blocked_skip].
  unfold transition at 1. rewrite Hst. cbn [transition_valid negb].
  assert (Hn : id ∉ ready s).
  { intros Hin%(inv_ready _ (proj2 Hi)). simpl in Hin.
    apply state_Some in Hin as (t' & ? & ?). congruence. }
  rewrite run_push_fresh by done. split; [by exists t|]. exists []. split; [done|constructor].
Qed.

(** One expired sleeper. *)
Lemma wake_expired_cons s id ids woken :
  sched_inv s ->
  (state s id <> Some Blocked /\ wake_expired s (id :: ids) woken = wake_expired s ids woken) \/
  (exists s', woken_from s s' id /\
     wake_expired s (id :: ids) woken = wake_expired s' ids (woken ++ [id])).
Proof.
  intros Hi. cbn [wake_expired]. destruct (task s id) as [t|] eqn:Ht.
  2: { left. split; [|done]. unfold state. by rewrite Ht. }
  case_bool_decide as Hst; cbn [negb].
  2: { left. split; [|done]. by eapply not_blocked_skip. }
  right. unfold transition. rewrite Hst. cbn [transition_valid].
  assert (Hn : id ∉ ready s).
  { intros Hin%(inv_ready _ (proj2 Hi)). simpl in Hin.
    apply state_Some in Hin as (t' & ? & ?). congruence. }
  rewrite run_push_fresh by done. eexists. split; [by exists t|done].
Qed.

(** With distinct sleepers the loop wakes exactly the blocked ones, in order. *)
Lemma wake_expired_spec s ids woken :
  sched_inv s -> NoDup ids ->
  let '(woken', s') := wake_expired s ids woken in
  let due := filter (fun id => state s id = Some Blocked) ids in
  woken' = woken ++ due /\ ready s' = ready s ++ due /\ current s' = current s /\
  (forall id, state s' id = if decide (id ∈ due) then Some Ready else state s id) /\
  sched_inv s'.
Proof.
  revert s woken. induction ids as [|id ids IH]; intros s woken Hi Hnd.
  - simpl. rewrite !app_nil_r. split_and!; try done.
  - apply NoDup_cons in Hnd as [Hid Hnd].
    destruct (wake_expired_cons s id ids woken Hi) as [[Hn ->]|(s1 & Hw & ->)].
    + specialize (IH s woken Hi Hnd). rewrite filter_cons_False by done. exact IH.
    + pose proof (woken_from_inv s s1 id Hi Hw) as [Hi1 (Hst & Hq & Hc)].
      destruct Hw as (t & Ht & Hb & _).
      specialize (IH s1 (woken ++ [id]) Hi1 Hnd). simpl in Hst, Hq, Hc.
      rewrite filter_cons_True by (apply state_Some; eauto).
      replace (filter (fun id => state s id = Some Blocked) ids)
        with (filter (fun id => state s1 id = Some Blocked) ids).
      2: { apply filter_ext_elem. intros x Hx. rewrite Hst, a_set_ne; [done|].
           by intros ->. }
      destruct (wake_expired s1 ids _) as [woken' s']. destruct IH as (-> & Hr & Hcur & Hs' & Hi').
      split_and!; [by rewrite <- app_assoc|by rewrite Hr, Hq, <- app_assoc|congruence| |done].
      intros x. rewrite Hs', Hst. destruct (decide (x = id)) as [->|Hne].
      * rewrite a_set_eq, (decide_True (P := id ∈ id :: _)) by left. by case_decide.
      * rewrite a_set_ne by done. do 2 case_decide; set_solver.
Qed.

(** ** What an operation other than creation does to the abstract state *)
Inductive a_move : AbsSched -> AbsSched -> Prop :=
| move_enqueue a b id st : a_state a id = Some st -> transition_valid st Ready = true ->
    id ∉ a_queue a -> b ≡ a_enqueue id a -> a_move a b
| move_block a b id : a_cpu a = Some id -> a_state a id = Some Running ->
    b ≡ a_block id a -> a_move a b
| move_destroy a b id : a_state a id = Some Created -> b ≡ a_forget id (a_cpu a) a -> a_move a b
| move_exit a b id : a_cpu a = Some id -> a_state a id = Some Running ->
    b ≡ a_forget id None a -> a_move a b
| move_dispatch a b : b ≡ (a_schedule a).2 -> a_move a b
| move_hand_over a b id next q : a_cpu a = Some id -> a_state a id = Some Running ->
    a_queue a = next :: q -> b ≡ a_run next q (a_forget id None a) -> a_move a b
| move_stutter a b : b ≡ a -> a_move a b.

(** None of them makes an absent task appear. *)
Lemma a_move_absent a b id :
  a_move a b -> a_inv a -> a_state a id = None -> a_state b id = None.
Proof.
  intros Hs Ha Hn.
  destruct Hs as [a b x st Hx _ _ [-> _]|a b x _ Hx [-> _]|a b x Hx [-> _]|a b x _ Hx [-> _]
                 |a b [-> _]|a b x y q _ Hx Hq [-> _]|a b [-> _]]; simpl.
  1-4: rewrite a_set_ne; congruence.
  - assert (Hreq : forall y, y ∈ a_queue (a_requeue a) -> a_state a y <> None).
    { unfold a_requeue. intros y. destruct (a_cpu a) as [p|]; [case_decide|];
        simpl; rewrite ?elem_of_app, ?list_elem_of_singleton; try (intros ->%(inv_ready _ Ha); done).
      intros [->%(inv_ready _ Ha)| ->]; [done|congruence]. }
    assert (Hid : a_state (a_requeue a) id = None).
    { unfold a_requeue. destruct (a_cpu a) as [p|]; [case_decide|]; simpl; [|done..].
      rewrite a_set_ne; congruence. }
    unfold a_schedule. destruct (a_queue (a_requeue a)) as [|y q] eqn:Hq; simpl; [done|].
    rewrite a_set_ne; [done|]. intros ->. by apply (Hreq y); [left|].
  - assert (a_state a y = Some Ready) by (apply (inv_ready _ Ha); rewrite Hq; left).
    rewrite !a_set_ne; congruence.
  - done.
Qed.

(** A public operation, with its arguments. *)
Inductive SchedOp :=
| OpCreate (priority : Priority) (kind : TaskKind)
| OpAttach (id : TaskId)
| OpDestroyCreated (id : TaskId)
| OpMakeReady (id : TaskId)
| OpTerminateTo (successor : TaskId)
| OpSchedule
| OpBlock
| OpBlockOn (waiters : WaitQueue)
| OpWake (waiters : WaitQueue)
| OpSleep (deadline : Z) (sleepers : SleepQueue)
| OpExpire (now : Z) (sleepers : SleepQueue)
| OpExit.

Definition run_op (op : SchedOp) (s : Scheduler) : Scheduler :=
  match op with
  | OpCreate prio kind => (create_task_with_kind (E := Empty_set) s prio kind).2
  | OpAttach id => (attach_execution s id).2
  | OpDestroyCreated id => (destroy_created s id).2
  | OpMakeReady id => (make_ready s id).2
  | OpTerminateTo id => (terminate_current_to s id).2
  | OpSchedule => (schedule_next s).2
  | OpBlock => (block_current s).2
  | OpBlockOn q => (block_current_on s q).1.2
  | OpWake q => (wake_one s q).1.2
  | OpSleep d q => (sleep_current_until s d q).1.2
  | OpExpire now q => (expire_sleepers s now q).1.2
  | OpExit => (exit_current s).2
  end.

(** Creation needs a slot number that fits [u32]; sleep queues are the sorted
    ones [SleepQueue] maintains. *)
Definition op_enabled (op : SchedOp) (s : Scheduler) : Prop :=
  match op with
  | OpCreate _ _ => Z.of_nat (length (tasks s)) <= U32_MAX
  | OpSleep _ q | OpExpire _ q => sleep_inv q
  | _ => True
  end.

Inductive sched_step : Scheduler -> Scheduler -> Prop :=
| sched_step_op op s : op_enabled op s -> sched_step s (run_op op s).

(** ** Every operation is sound *)
Lemma gens_le_refl s s' : generations s' = generations s -> gens_le s s'.
Proof. intros He i g Hg. exists g. rewrite He. split; [done|lia]. Qed.

Lemma schedule_next_generations s : generations (schedule_next s).2 = generations s.
Proof.
  assert (Hr : generations (requeue_previous s) = generations s).
  { unfold requeue_previous. repeat case_match; done. }
  assert (Hd : forall s, generations (dispatch_head s) = generations s).
  { intros s'. unfold dispatch_head. repeat case_match; done. }
  unfold schedule_next. repeat case_match; simpl; rewrite ?Hd; try done.
  all: cbv zeta; case_match; done.
Qed.

(** An identifier that appears is newer than its slot's recorded generation. *)
Definition appears_fresh (s s' : Scheduler) : Prop :=
  forall id g, task s id = None -> task s' id <> None ->
               generations s !! slot_of id = Some g -> g < task_generation id.

(** What one operation guarantees: the invariant, generations that never go back, fresh
    identifiers. *)
Record sound_step (s s' : Scheduler) : Prop := mk_sound {
  sound_inv : sched_inv s';
  sound_gens : gens_le s s';
  sound_fresh : appears_fresh s s';
}.

Lemma sound_trans s1 s2 s3 : sound_step s1 s2 -> sound_step s2 s3 -> sound_step s1 s3.
Proof.
  intros [Hi2 Hg2 Hf2] [Hi3 Hg3 Hf3]. split; [done|..].
  - intros i g Hg. destruct (Hg2 i g Hg) as (g2 & Hg2' & ?).
    destruct (Hg3 i g2 Hg2') as (g3 & ? & ?). exists g3. split; [done|lia].
  - intros id g Hn1 Hn3 Hg. destruct (task s2 id) eqn:Hn2; [by eapply Hf2; [|rewrite Hn2|]|].
    destruct (Hg2 _ _ Hg) as (g2 & Hg2' & ?). specialize (Hf3 id g2 Hn2 Hn3 Hg2'). lia.
Qed.

Lemma state_None s id : state s id = None <-> task s id = None.
Proof. apply fmap_None. Qed.

Section SoundSteps.
Context (s : Scheduler) (Hi : sched_inv s).

Lemma sound_once s' :
  sched_inv s' -> a_move (abs s) (abs s') -> generations s' = generations s -> sound_step s s'.
Proof using Hi.
  intros Hi' Hm Hg. split; [done|by apply gens_le_refl|].
  intros id g Hn Hn'. destruct Hn'. apply state_None in Hn. apply state_None.
  by apply (a_move_absent (abs s) (abs s')); [|apply Hi|].
Qed.

Lemma sound_refl : sound_step s s.
Proof using Hi. apply sound_once; [done|by apply move_stutter|done]. Qed.

Lemma sound_blocked id s' : blocked_from s s' id -> sound_step s s'.
Proof using Hi.
  intros Hb. pose proof (blocked_from_inv s s' id Hi Hb) as (? & ? & ?).
  destruct Hb as (t & Hc & _ & _ & ->). apply sound_once; [done| |done]. by eapply move_block.
Qed.

Lemma sound_woken id s' : woken_from s s' id -> sound_step s s'.
Proof using Hi.
  intros Hw. pose proof (woken_from_inv s s' id Hi Hw) as [Hi' Heq].
  destruct Hw as (t & Ht & Hb & ->). apply sound_once; [done| |done].
  apply (move_enqueue _ _ id Blocked); [apply state_Some; eauto|done| |done].
  intros Hin%(inv_ready _ (proj2 Hi)). simpl in Hin.
  apply state_Some in Hin as (? & ? & ?). congruence.
Qed.

Lemma sound_create prio kind :
  Z.of_nat (length (tasks s)) <= U32_MAX ->
  sound_step s (create_task_with_kind (E := Empty_set) s prio kind).2.
Proof using Hi.
  intros Hroom. destruct (create_task_spec (E := Empty_set) s prio kind Hi Hroom)
    as (id & s' & -> & Hw & Hn & _ & Hoth & Heq & Hg & Hgen).
  assert (Hns : state s id = None) by (by apply state_None).
  split; [split; [done|]|done|].
  - simpl. rewrite Heq. by apply a_create_inv; [apply Hi|].
  - intros id' g Hn1 Hn2 Hgi. destruct (decide (id' = id)) as [->|Hne]; [by apply Hgen|].
    simpl in Hn2. by rewrite Hoth in Hn2.
Qed.

Lemma sound_attach id : sound_step s (attach_execution s id).2.
Proof using Hi.
  pose proof (attach_execution_spec s id Hi) as (Hw & Heq & Hc).
  apply sound_once; [split; [done|]; rewrite Heq; apply Hi|by apply move_stutter|].
  destruct (attach_execution s id) as [[h|e|] s']; [|by subst|done].
  by destruct Hc as (_ & t & _ & _ & ->).
Qed.

Lemma sound_destroy id : sound_step s (destroy_created s id).2.
Proof using Hi.
  pose proof (destroy_created_spec s id Hi) as Hc.
  destruct (destroy_created s id) as [[h|e|] s']; [|subst; apply sound_refl|done]. simpl.
  destruct Hc as (Hst & _ & Hw & Heq & ->).
  apply sound_once; [split; [done|]|by apply (move_destroy _ _ id)|done].
  rewrite Heq. apply a_forget_created_inv; [apply Hi|done].
Qed.

Lemma sound_make_ready id : sound_step s (make_ready s id).2.
Proof using Hi.
  pose proof (make_ready_spec s id Hi) as Hc.
  destruct (make_ready s id) as [[] s']; [|subst; apply sound_refl]. simpl.
  destruct Hc as (Hn & Hw & Heq & t & Ht & Hv & ->).
  apply sound_once; [split; [done|]| |done].
  - rewrite Heq. apply a_enqueue_inv; [apply Hi|done].
  - eapply (move_enqueue _ _ id); [|exact Hv|done|done]. apply state_Some. eauto.
Qed.

Lemma sound_terminate id : sound_step s (terminate_current_to s id).2.
Proof using Hi.
  pose proof (terminate_inv s id Hi) as Hi'. pose proof (terminate_current_to_cases s id) as Hc.
  destruct (terminate_current_to s id) as [[?|?|] s']; [|subst; apply sound_refl|done].
  destruct Hc as (-> & cur & tc & ts & q & Hcur & Hne & Htc & Hsc & Hts & Hss & Hq & ->).
  apply sound_once; [done| |done].
  eapply (move_hand_over _ _ cur id q); [done|apply state_Some; eauto|done|].
  by apply (terminate_abs s cur tc).
Qed.

Lemma sound_exit : sound_step s (exit_current s).2.
Proof using Hi.
  pose proof (exit_current_cases s) as Hc.
  destruct (exit_current s) as [[] s'] eqn:He; [|subst; apply sound_refl].
  destruct (exit_current_inv s s' Hi He) as (id & ? & ? & ? & ?).
  destruct Hc as (? & ? & _ & _ & _ & ->). apply sound_once; [done| |done].
  by apply (move_exit _ _ id).
Qed.

End SoundSteps.

Lemma wake_expired_sound s ids woken : sched_inv s -> sound_step s (wake_expired s ids woken).2.
Proof.
  revert s woken. induction ids as [|id ids IH]; intros s woken Hi; [by apply sound_refl|].
  destruct (wake_expired_cons s id ids woken Hi) as [[_ ->]|(s1 & Hw & ->)]; [by apply IH|].
  pose proof (sound_woken s Hi id s1 Hw) as Hs. eapply sound_trans; [done|]. apply IH, Hs.
Qed.

Lemma run_op_sound s op : sched_inv s -> op_enabled op s -> sound_step s (run_op op s).
Proof.
  intros Hi Hen. destruct op as [prio kind|id|id|id|id| | |q|q|d q|now q|]; simpl in *;
    auto using sound_create, sound_attach, sound_destroy, sound_make_ready, sound_terminate, sound_exit.
  - pose proof (schedule_next_spec s Hi) as (_ & Heq & Hi').
    apply sound_once; [done|done|by apply move_dispatch|apply schedule_next_generations].
  - pose proof (block_current_cases s) as Hc.
    destruct (block_current s) as [[] s']; [|subst; by apply sound_refl].
    destruct Hc as [id Hc]. by apply (sound_blocked s Hi id).
  - pose proof (block_current_on_cases s q) as Hc.
    destruct (block_current_on s q) as [[[id|e|] s'] q']; [|destruct Hc as [-> _]; by apply sound_refl|done].
    apply (sound_blocked s Hi id), Hc.
  - pose proof (wake_one_spec s q Hi) as Hc.
    destruct (wake_one s q) as [[[id|] s'] q']; [|destruct Hc as [-> _]; by apply sound_refl].
    apply (sound_woken s Hi id), Hc.
  - pose proof (sleep_current_until_cases s d q Hen) as Hc.
    destruct (sleep_current_until s d q) as [[[id|e|] s'] q']; [|destruct Hc as [-> _]; by apply sound_refl|done].
    apply (sound_blocked s Hi id), Hc.
  - by apply wake_expired_sound.
Qed.

(** ** What every reachable scheduler satisfies *)
Lemma Scheduler_new_inv : sched_inv Scheduler_new.
Proof.
  assert (Hn : forall id, task Scheduler_new id = None) by done.
  split; [split|split].
  - done.
  - simpl. ulia.
  - constructor.
  - intros i t Hi. simpl in Hi. by rewrite lookup_nil in Hi.
  - intros id t h Ht. by rewrite Hn in Ht.
  - constructor.
  - intros id. simpl. rewrite elem_of_nil. unfold state. by rewrite Hn.
  - done.
  - done.
  - done.
Qed.

Lemma steps_sound s s' : sched_inv s -> rtc sched_step s s' -> sound_step s s'.
Proof.
  intros Hi Hr. revert Hi.
  induction Hr as [s|s1 s2 s3 [op s Hen] _ IH]; intros Hi; [by apply sound_refl|].
  pose proof (run_op_sound s op Hi Hen) as H2. eapply sound_trans; [exact H2|]. apply IH, H2.
Qed.

(** C18: from an empty scheduler, after any sequence of operations that keeps the table
    below 2^32 slots: the ready
    queue holds exactly the [Ready] tasks, each once; at most one task is
    [Running] and it owns the CPU; the CPU owner is a live task; no [Exited] task
    stays in the table; and each block's identifier matches its slot and the
    slot's current generation. *)
Theorem scheduler_reachable_inv s :
  rtc sched_step Scheduler_new s ->
  NoDup (ready s) /\
  (forall id, id ∈ ready s <-> state s id = Some Ready) /\
  (forall id, state s id = Some Running -> current s = Some id) /\
  (forall id, current s = Some id -> state s id = Some Running \/ state s id = Some Ready) /\
  (forall id, state s id <> Some Exited) /\
  (forall i t, tasks s !! i = Some (Some t) ->
     exists g, generations s !! i = Some g /\ tcb_id t = mkTaskId (Z.of_nat i) g).
Proof.
  intros Hr. destruct (steps_sound _ _ Scheduler_new_inv Hr) as [[Hw [Hn Hq Hrun Hc Hl]] _ _].
  split_and!; try done. apply Hw.
Qed.

(** Two tasks created, made ready and dispatched. *)
Definition demo_ids : list TaskId := [mkTaskId 0 1; mkTaskId 1 1].
Definition demo_ops : list SchedOp :=
  [OpCreate Priority_DEFAULT Kernel; OpCreate Priority_DEFAULT Userspace;
   OpMakeReady (mkTaskId 0 1); OpMakeReady (mkTaskId 1 1); OpSchedule].
Definition run_ops (ops : list SchedOp) (s : Scheduler) : Scheduler :=
  foldl (fun s op => run_op op s) s ops.
Definition demo : Scheduler := run_ops demo_ops Scheduler_new.

Fixpoint ops_enabled (ops : list SchedOp) (s : Scheduler) : Prop :=
  match ops with
  | [] => True
  | op :: ops => op_enabled op s /\ ops_enabled ops (run_op op s)
  end.

Lemma run_ops_steps ops s : ops_enabled ops s -> rtc sched_step s (run_ops ops s).
Proof.
  revert s. induction ops as [|op ops IH]; intros s; [done|]. intros [Hen Hens].
  eapply rtc_l; [by apply sched_step_op|]. by apply IH.
Qed.

Lemma demo_reachable : rtc sched_step Scheduler_new demo.
Proof. apply run_ops_steps. vm_compute. repeat split; discriminate. Qed.

Lemma scheduler_reachable_inv_witness :
  NoDup (ready demo) /\ state demo (mkTaskId 0 1) = Some Running /\ ready demo = [mkTaskId 1 1].
Proof.
  split; [exact (proj1 (scheduler_reachable_inv demo demo_reachable))|]. split; reflexivity.
Defined.

(** ** Dispatch order *)
Lemma schedule_next_head s x q :
  sched_inv s -> ready s = x :: q ->
  let s' := (schedule_next s).2 in
  current s' = Some x /\ state s' x = Some Running /\
  ready s' = q ++ match current s with
                  | Some p => if decide (state s p = Some Running) then [p] else []
                  | None => []
                  end.
Proof.
  intros Hi Hq s'. destruct (schedule_next_spec s Hi) as (_ & (Hst & Hr & Hc) & _).
  fold s' in Hst, Hr, Hc. simpl in Hst, Hr, Hc. specialize (Hst x).
  unfold a_schedule, a_requeue in *. simpl in *.
  destruct (current s) as [p|]; simpl in *; [case_decide; simpl in *|];
    rewrite Hq in Hst, Hr, Hc; simpl in *; rewrite a_set_eq in Hst; rewrite ?app_nil_r; done.
Qed.

Fixpoint schedule_n (n : nat) (s : Scheduler) : Scheduler :=
  match n with O => s | S n => schedule_n n (schedule_next s).2 end.

(** One dispatch.  A running owner with an empty queue keeps the CPU and the
    decision reports no switch; with a queue, the head runs and the owner goes
    to the back; a blocked or exited owner (no CPU owner) is simply replaced;
    with nothing to run the CPU becomes idle. *)
Theorem schedule_next_dispatch s :
  sched_inv s ->
  let '(d, s') := schedule_next s in
  sched_inv s' /\ previous d = current s /\
  match current s, ready s with
  | None, [] => next d = None /\ current s' = None /\ ready s' = []
  | None, x :: q => next d = Some x /\ current s' = Some x /\ state s' x = Some Running /\
                    ready s' = q
  | Some p, [] => next d = None /\ abs s' ≡ abs s
  | Some p, x :: q =>
      current s' = Some x /\ state s' x = Some Running /\
      (state s p = Some Running ->
         next d = Some x /\ ready s' = q ++ [p] /\ state s' p = Some Ready)
  end.
Proof.
  intros Hi. pose proof (schedule_next_spec s Hi) as (Hd & Heq & Hi').
  pose proof (fun x q => schedule_next_head s x q Hi) as Hh.
  destruct (schedule_next s) as [d s']. cbn [fst snd] in *. split; [done|].
  unfold a_schedule, a_requeue in *. cbn [abs a_cpu a_state a_queue] in *.
  assert (Hp : previous d = current s) by (subst d; repeat case_match; done). split; [done|].
  destruct (current s) as [p|] eqn:Hc, (ready s) as [|x q] eqn:Hq.
  - assert (Hr : state s p = Some Running).
    { destruct (inv_cpu _ (proj2 Hi) p Hc) as [|Hr]; [done|].
      apply (inv_ready _ (proj2 Hi)) in Hr. simpl in Hr. rewrite Hq in Hr. by apply elem_of_nil in Hr. }
    rewrite decide_True in Hd, Heq by done. simpl in Hd, Heq. rewrite Hq in Hd, Heq.
    simpl in Hd, Heq. rewrite a_next_self in Hd. split; [by subst d|]. rewrite Heq.
    split; [|simpl; by rewrite Hq, Hc]. intros id. simpl. a_cases; done.
  - destruct (Hh x q eq_refl) as (Hc' & Hx & Hr'). split_and!; [done..|]. intros Hrun.
    rewrite decide_True in Hr' by done. rewrite decide_True in Hd, Heq by done. simpl in Hd, Heq. rewrite Hq in Hd, Heq.
    simpl in Hd, Heq. rewrite a_next_other in Hd by (intros [_ H]; by apply app_nil in H as [_ ?]).
    split_and!; [by subst d|done|]. destruct Heq as [Hst _]. specialize (Hst p). simpl in Hst.
    rewrite Hst. assert (p <> x).
    { intros ->. pose proof (proj1 (inv_ready _ (proj2 Hi) x)) as H. simpl in H. rewrite Hq in H.
      specialize (H ltac:(left)). congruence. }
    rewrite a_set_ne, a_set_eq by done. done.
  - simpl in Hd, Heq. rewrite Hq in Hd, Heq. destruct Heq as (_ & ? & ?). by subst d.
  - destruct (Hh x q eq_refl) as (Hc' & Hx & Hr'). rewrite app_nil_r in Hr'.
    split_and!; [|done..]. simpl in Hd. rewrite Hq in Hd. subst d. simpl. by apply a_next_other; intros [? _].
Qed.

Lemma demo_inv : sched_inv demo.
Proof. exact (sound_inv _ _ (steps_sound _ _ Scheduler_new_inv demo_reachable)). Qed.

Lemma schedule_next_dispatch_witness :
  sched_inv (schedule_next demo).2 /\ next (schedule_next demo).1 = Some (mkTaskId 1 1) /\
  ready (schedule_next demo).2 = [mkTaskId 0 1].
Proof.
  split; [exact (proj1 (schedule_next_dispatch demo demo_inv))|]. split; reflexivity.
Defined.

(** C20: round-robin progress.  A task at position [k] of the ready queue owns the
    CPU after exactly [k+1] dispatches, whatever the other tasks are; between
    them it only moves towards the head, so no ready task starves. *)
Theorem round_robin_progress s k id :
  sched_inv s -> ready s !! k = Some id ->
  current (schedule_n (S k) s) = Some id /\
  state (schedule_n (S k) s) id = Some Running /\
  (forall j, (j <= k)%nat -> ready (schedule_n j s) !! (k - j)%nat = Some id).
Proof.
  revert s. induction k as [|k IH]; intros s Hi Hk.
  - destruct (ready s) as [|x q] eqn:Hq; [done|]. simplify_eq/=.
    destruct (schedule_next_head s id q Hi Hq) as (? & ? & _). split_and!; [done..|].
    intros j Hj. assert (j = 0)%nat as -> by lia. simpl. by rewrite Hq.
  - destruct (ready s) as [|x q] eqn:Hq; [done|]. simpl in Hk.
    destruct (schedule_next_head s x q Hi Hq) as (_ & _ & Hr).
    destruct (schedule_next_spec s Hi) as (_ & _ & Hi').
    destruct (IH _ Hi') as (H1 & H2 & H3).
    { rewrite Hr. by apply lookup_app_l_Some. }
    split_and!; [exact H1|exact H2|]. intros [|j] Hj; [simpl; by rewrite Hq|].
    apply H3. lia.
Qed.

Lemma round_robin_progress_witness : current (schedule_n 1 demo) = Some (mkTaskId 1 1).
Proof. exact (proj1 (round_robin_progress demo 0 (mkTaskId 1 1) demo_inv eq_refl)). Defined.

(** ** Identifiers are never reused *)
Lemma live_generation s id t :
  table_wf s -> task s id = Some t -> generations s !! slot_of id = Some (task_generation id).
Proof.
  intros Hw [Hl Hid]%task_Some. destruct (tw_slot s Hw _ _ Hl) as (g & Hg & Heq).
  rewrite Hg. f_equal. by rewrite <- Hid, Heq.
Qed.

(** C21: a task identifier never comes back.  Once a task that existed has left
    the table (destroyed or exited), no sequence of operations (on a table of less than 2^32 slots) makes its
    identifier valid again, so a stale [TaskId] can never name another task. *)
Theorem task_id_never_reused s1 s2 s3 id :
  rtc sched_step Scheduler_new s1 -> rtc sched_step s1 s2 -> rtc sched_step s2 s3 ->
  task s1 id <> None -> task s2 id = None -> task s3 id = None.
Proof.
  intros H1 H12 H23 Hlive Hgone.
  pose proof (steps_sound _ _ Scheduler_new_inv H1) as [Hi1 _ _].
  pose proof (steps_sound _ _ Hi1 H12) as [Hi2 Hg12 _].
  pose proof (steps_sound _ _ Hi2 H23) as [_ _ Hf23].
  destruct (task s1 id) as [t|] eqn:Ht; [|done].
  pose proof (live_generation s1 id t (proj1 Hi1) Ht) as Hg.
  destruct (Hg12 _ _ Hg) as (g2 & Hg2 & Hle).
  destruct (task s3 id) as [t3|] eqn:Ht3; [|done].
  specialize (Hf23 id g2 Hgone ltac:(by rewrite Ht3) Hg2). lia.
Qed.

Lemma task_id_never_reused_witness :
  let s2 := run_ops [OpExit] demo in
  let s3 := run_ops [OpCreate Priority_MIN Kernel] s2 in
  task s3 (mkTaskId 0 1) = None /\ task s3 (mkTaskId 0 2) <> None.
Proof.
  intros s2 s3. split; [|vm_compute; discriminate].
  apply (task_id_never_reused demo s2 s3); [apply demo_reachable| | |vm_compute; discriminate|reflexivity].
  - apply run_ops_steps. vm_compute. done.
  - apply run_ops_steps. vm_compute. split; [discriminate|done].
Defined.

(** [terminate_current_to] is all or nothing, in any scheduler state.  It
    either leaves the scheduler untouched and reports an error, or removes the
    running owner, takes the expected successor from the head of the queue and
    makes it the running owner; it never panics and never picks another task. *)
Theorem terminate_current_to_atomic s successor :
  match terminate_current_to s successor with
  | (Ok id, s') =>
      id = successor /\ current s' = Some successor /\ state s' successor = Some Running /\
      head (ready s) = Some successor /\ ready s' = tail (ready s) /\
      (exists cur, current s = Some cur /\ state s cur = Some Running /\ task s' cur = None /\
         (forall id', id' <> cur -> id' <> successor -> task s' id' = task s id'))
  | (Err _, s') => s' = s
  | (Panic, _) => False
  end.
Proof.
  pose proof (terminate_current_to_cases s successor) as Hc.
  destruct (terminate_current_to s successor) as [[id|e|] s']; [|done..].
  destruct Hc as (-> & cur & tc & ts & q & Hcur & Hne & Htc & Hsc & Hts & Hss & Hq & ->).
  assert (Hts' : task (set_ready (clear_task s cur) q) successor = Some ts)
    by (rewrite task_set_ready, (task_clear s cur tc) by done; by rewrite decide_False).
  assert (Hall : forall id', task (set_current (put_task (set_ready (clear_task s cur) q) successor
      (with_state ts Running)) (Some successor)) id' =
      if decide (id' = successor) then Some (with_state ts Running)
      else if decide (id' = cur) then None else task s id').
  { intros id'. rewrite task_set_current, (task_put _ successor ts) by eauto with x11.
    by rewrite task_set_ready, (task_clear s cur tc) by done. }
  split_and!; [done|done| |by rewrite Hq|by rewrite Hq|].
  - unfold state. by rewrite Hall, decide_True.
  - exists cur. split_and!; [done|apply state_Some; eauto| |].
    + by rewrite Hall, decide_False, decide_True by done.
    + intros id' ??. by rewrite Hall, !decide_False by done.
Qed.

(** Waking is FIFO.  [wake_one] skips waiters that are gone or not blocked,
    wakes the first blocked one, appends it to the ready queue and keeps the
    waiters behind it; a task blocked by [block_current_on] on a queue of dead
    waiters is the one woken. *)
Theorem wake_one_fifo s q :
  sched_inv s ->
  match wake_one s q with
  | (Some id, s', q') =>
      exists q1, q = q1 ++ id :: q' /\ Forall (fun w => state s w <> Some Blocked) q1 /\
      state s id = Some Blocked /\ state s' id = Some Ready /\ ready s' = ready s ++ [id] /\
      (forall id', id' <> id -> state s' id' = state s id') /\ sched_inv s'
  | (None, s', q') => s' = s /\ q' = [] /\ Forall (fun w => state s w <> Some Blocked) q
  end.
Proof.
  intros Hi. pose proof (wake_one_spec s q Hi) as Hc.
  destruct (wake_one s q) as [[[id|] s'] q']; [|done].
  destruct Hc as [Hw (q1 & -> & Hq1)].
  pose proof (woken_from_inv s s' id Hi Hw) as [Hi' (Hst & Hr & _)]. simpl in Hst, Hr.
  destruct Hw as (t & Ht & Hb & _). exists q1. split_and!; try done.
  - apply state_Some. eauto.
  - by rewrite Hst, a_set_eq.
  - intros id' Hne. by rewrite Hst, a_set_ne.
Qed.

Lemma wake_one_fifo_witness :
  let s := (block_current_on demo []).1.2 in
  let q := (block_current_on demo []).2 in
  sched_inv s /\ wake_one s q = (Some (mkTaskId 0 1), (wake_one s q).1.2, []) /\
  sched_inv (wake_one s q).1.2.
Proof.
  intros s q.
  assert (Hi : sched_inv s) by exact (sound_inv _ _ (run_op_sound demo (OpBlockOn []) demo_inv I)).
  pose proof (wake_one_fifo s q Hi) as Hw. split; [exact Hi|]. split; [reflexivity|].
  assert (Hq : wake_one s q = (Some (mkTaskId 0 1), (wake_one s q).1.2, [])) by reflexivity.
  rewrite Hq in Hw. destruct Hw as (q1 & _ & _ & _ & _ & _ & _ & Hi'). exact Hi'.
Defined.

Lemma expire_sleepers_spec s now q :
  sched_inv s -> sleep_inv q ->
  let '(woken, s', q') := expire_sleepers s now q in
  woken = filter (fun id => state s id = Some Blocked)
            (entry_task <$> filter (fun e => entry_deadline e <= now) q) /\
  q' = filter (fun e => now < entry_deadline e) q /\
  ready s' = ready s ++ woken /\ current s' = current s /\
  (forall id, state s' id = if decide (id ∈ woken) then Some Ready else state s id) /\
  sched_inv s' /\ sleep_inv q'.
Proof.
  intros Hi Hq. pose proof (sleep_expire_inv q now Hq) as Hq'.
  unfold expire_sleepers. rewrite (sleep_expire_eq q now) in Hq' |- * by apply Hq. simpl in Hq'.
  set (ids := entry_task <$> _).
  assert (Hnd : NoDup ids).
  { eapply sublist_NoDup; [apply Hq|]. by apply fmap_sublist, sublist_filter. }
  pose proof (wake_expired_spec s ids [] Hi Hnd) as Hw.
  destruct (wake_expired s ids []) as [woken s']. destruct Hw as (-> & ? & ? & ? & ?).
  split_and!; try done.
Qed.

(** Expiry.  [expire_sleepers] wakes exactly the sleepers whose deadline
    has passed and that are still blocked, in deadline order, appends them to
    the ready queue in that order, changes no other task, and keeps exactly
    the later deadlines asleep. *)
Theorem expire_sleepers_exact s now q :
  sched_inv s -> sleep_inv q ->
  let '(woken, s', q') := expire_sleepers s now q in
  woken = filter (fun id => state s id = Some Blocked)
            (entry_task <$> filter (fun e => entry_deadline e <= now) q) /\
  q' = filter (fun e => now < entry_deadline e) q /\
  ready s' = ready s ++ woken /\ current s' = current s /\
  (forall id, state s' id = if decide (id ∈ woken) then Some Ready else state s id) /\
  sched_inv s' /\ sleep_inv q'.
Proof. apply expire_sleepers_spec. Qed.

Lemma expire_sleepers_exact_witness :
  let s := (sleep_current_until demo 50 []).1.2 in
  let q := (sleep_current_until demo 50 []).2 in
  (expire_sleepers s 49 q).1.1 = [] /\ (expire_sleepers s 50 q).1.1 = [mkTaskId 0 1] /\
  sched_inv (expire_sleepers s 50 q).1.2.
Proof.
  intros s q.
  assert (Hq0 : sleep_inv []) by (split; constructor).
  assert (Hq : sleep_inv q) by (split; [repeat constructor|apply (bool_decide_unpack _); vm_compute; exact I]).
  assert (Hi : sched_inv s) by exact (sound_inv _ _ (run_op_sound demo (OpSleep 50 []) demo_inv Hq0)).
  pose proof (expire_sleepers_exact s 50 q Hi Hq) as Hw.
  split; [reflexivity|]. split; [reflexivity|].
  destruct (expire_sleepers s 50 q) as [[woken s'] q']. apply Hw.
Defined.

(** ** Fresh tasks: creation, attachment, and the two ways on *)
Definition fresh_task (kind : TaskKind) (id : TaskId) (prio : Priority) : TaskControlBlock :=
  with_execution (new_tcb kind id prio) (Some (ExecutionHandle_for_task id)).

(** [s'] is [s] with one task created and its execution handle attached. *)
Record fresh_in (s s' : Scheduler) (id : TaskId) (kind : TaskKind) (prio : Priority) : Prop := mk_fresh_in {
  fi_inv : sched_inv s';
  fi_new : task s id = None;
  fi_task : task s' id = Some (fresh_task kind id prio);
  fi_others : forall id', id' <> id -> task s' id' = task s id';
  fi_ready : ready s' = ready s;
  fi_current : current s' = current s;
}.

(** The same tasks, queue and owner; only retired generations may differ. *)
Record same_tasks (s s' : Scheduler) : Prop := mk_same_tasks {
  st_inv : sched_inv s';
  st_task : forall id, task s' id = task s id;
  st_ready : ready s' = ready s;
  st_current : current s' = current s;
}.

Lemma same_tasks_refl s : sched_inv s -> same_tasks s s.
Proof. by split. Qed.

Lemma fresh_task_state kind id prio : tcb_state (fresh_task kind id prio) = Created.
Proof. apply (new_tcb_fields kind id prio). Qed.

Lemma fresh_task_kind kind id prio : tcb_kind (fresh_task kind id prio) = kind.
Proof. apply (new_tcb_fields kind id prio). Qed.

Lemma created_attached {E} s prio kind :
  sched_inv s -> Z.of_nat (length (tasks s)) <= U32_MAX ->
  exists id s1 s2,
    create_task_with_kind (E := E) s prio kind = (Ok id, s1) /\
    attach_execution s1 id = (Ok (ExecutionHandle_for_task id), s2) /\ fresh_in s s2 id kind prio.
Proof.
  intros Hi Hroom.
  destruct (create_task_spec (E := E) s prio kind Hi Hroom)
    as (id & s1 & Hc & Hw1 & Hn & Ht1 & Hoth & Heq & _).
  assert (Hi1 : sched_inv s1).
  { split; [done|]. rewrite Heq. apply a_create_inv; [apply Hi|]. by apply state_None. }
  destruct Heq as (_ & Hr & Hcur). simpl in Hr, Hcur.
  destruct (new_tcb_fields kind id prio) as (F1 & _ & F3 & F4 & _).
  assert (Hat : attach_execution s1 id = (Ok (ExecutionHandle_for_task id),
    put_task s1 id (fresh_task kind id prio))).
  { unfold attach_execution. rewrite Ht1. unfold tcb_attach_execution. by rewrite F4, F1. }
  pose proof (attach_execution_spec s1 id Hi1) as (Hw2 & Heq2 & _). rewrite Hat in Hw2, Heq2.
  cbn [snd] in Hw2, Heq2. eexists id, s1, _. split; [done|]. split; [exact Hat|].
  split; [split; [done|]; rewrite Heq2; apply Hi1|done| | |done|done].
  - rewrite (task_put s1 id (new_tcb kind id prio)) by done. by rewrite decide_True.
  - intros id' Hne. rewrite (task_put s1 id (new_tcb kind id prio)) by done.
    rewrite decide_False by done. by apply Hoth.
Qed.

(** It can be destroyed, which leaves nothing behind, *)
Lemma destroy_fresh s s' id kind prio :
  fresh_in s s' id kind prio ->
  exists s'', destroy_created s' id = (Ok (ExecutionHandle_for_task id), s'') /\ same_tasks s s''.
Proof.
  intros [Hi Hn Ht Hoth Hr Hc].
  destruct (new_tcb_fields kind id prio) as (F1 & _ & F3 & _ & _).
  pose proof Ht as [Hl _]%task_Some.
  assert (Hd : destroy_created s' id = (Ok (ExecutionHandle_for_task id), clear_task s' id)).
  { unfold destroy_created, fresh_task in *. rewrite Hl. cbn [tcb_id tcb_state with_execution].
    rewrite F1, F3. rewrite !bool_decide_true by done. done. }
  pose proof (destroy_created_spec s' id Hi) as Hspec. rewrite Hd in Hspec |- *.
  destruct Hspec as (Hst & _ & Hw & Heq & _). exists (clear_task s' id). split; [done|].
  split; [|intros id'|done|done].
  - split; [done|]. rewrite Heq. apply a_forget_created_inv; [apply Hi|done].
  - rewrite (task_clear s' id _) by done. case_decide as Hd'; [by subst|by apply Hoth].
Qed.

(** or queued, behind every other ready task. *)
Lemma ready_fresh s s' id kind prio :
  fresh_in s s' id kind prio ->
  exists s'', make_ready s' id = (true, s'') /\ sched_inv s'' /\
    task s'' id = Some (with_state (fresh_task kind id prio) Ready) /\
    (forall id', id' <> id -> task s'' id' = task s id') /\
    ready s'' = ready s ++ [id] /\ current s'' = current s.
Proof.
  intros [Hi Hn Ht Hoth Hr Hc].
  assert (Hcr : state s' id = Some Created).
  { apply state_Some. eexists. split; [done|]. apply fresh_task_state. }
  assert (Hnq : id ∉ ready s').
  { intros Hin%(inv_ready _ (proj2 Hi)). simpl in Hin. congruence. }
  destruct (make_ready s' id) as [ok s3] eqn:Hm. pose proof (make_ready_spec s' id Hi) as Hspec.
  rewrite Hm in Hspec. destruct ok.
  2: { exfalso. unfold make_ready in Hm. rewrite (proj2 (run_contains_false _ _) Hnq), Ht in Hm.
       unfold transition in Hm. rewrite fresh_task_state in Hm. cbn [transition_valid] in Hm.
       rewrite run_push_fresh in Hm by done. done. }
  destruct Hspec as (_ & Hw3 & Heq3 & t & Ht' & _ & ->).
  rewrite Ht in Ht'. injection Ht' as <-. eexists. split; [done|].
  assert (Htask : forall id', task (set_ready (put_task s' id (with_state (fresh_task kind id prio) Ready))
      (ready s' ++ [id])) id' = if decide (id' = id) then Some (with_state (fresh_task kind id prio) Ready)
                                else task s' id').
  { intros id'. rewrite task_set_ready. by rewrite (task_put s' id _) by (done || eauto with x11). }
  split; [split; [done|]; rewrite Heq3; apply a_enqueue_inv; [apply Hi|done]|].
  split_and!; [| | |done].
  - by rewrite Htask, decide_True.
  - intros id' Hne. rewrite Htask, decide_False by done. by apply Hoth.
  - cbn. by rewrite Hr.
Qed.

(** ** What a dispatch leaves alone: kinds and execution handles *)
Definition attrs (s : Scheduler) (id : TaskId) : option (TaskKind * option ExecutionHandle) :=
  (fun t => (tcb_kind t, tcb_execution t)) <$> task s id.

Lemma attrs_kind s id : task_kind s id = fst <$> attrs s id.
Proof. unfold task_kind, attrs. by destruct (task s id). Qed.

Lemma attrs_execution s id : execution s id = attrs s id ≫= snd.
Proof. unfold execution, attrs. by destruct (task s id). Qed.

Lemma attrs_put_transition s id t st id' :
  task s id = Some t -> attrs (put_task s id (transition t st).2) id' = attrs s id'.
Proof.
  intros Ht. pose proof (task_id _ _ _ Ht) as Hid. unfold attrs.
  rewrite (task_put s id t) by (done || (unfold transition; by case_if)).
  case_decide as Hd; [|done]. subst id'. rewrite Ht. simpl. unfold transition. by case_if.
Qed.

Lemma attrs_put_state s id t st t' :
  task s id = Some t -> attrs (put_task s id (with_state t st)) t' = attrs s t'.
Proof.
  intros Ht. unfold attrs. rewrite (task_put s id t) by (done || by eapply with_state_tcb_id). case_decide as Hd; [|done]. by subst; rewrite Ht.
Qed.

Lemma blocked_from_attrs s s' id t : blocked_from s s' id -> attrs s' t = attrs s t.
Proof. intros (tcb & _ & Ht & _ & ->). by apply (attrs_put_state s). Qed.

Lemma woken_from_attrs s s' id t : woken_from s s' id -> attrs s' t = attrs s t.
Proof. intros (tcb & Ht & _ & ->). by apply (attrs_put_state s). Qed.

Lemma wake_expired_attrs s ids woken t : attrs (wake_expired s ids woken).2 t = attrs s t.
Proof.
  revert s woken. induction ids as [|id ids IH]; intros s woken; [done|]. cbn [wake_expired].
  destruct (task s id) as [tcb|] eqn:Ht; [|apply IH]. destruct (negb _); [apply IH|].
  pose proof (attrs_put_transition s id tcb Ready t Ht) as Ha.
  destruct (transition tcb Ready) as [[] tcb']; [|by rewrite IH].
  destruct (run_push _ _) as [pushed q]. by rewrite IH.
Qed.

Lemma requeue_previous_attrs s id : attrs (requeue_previous s) id = attrs s id.
Proof.
  unfold requeue_previous. destruct (current s) as [p|]; [|done].
  destruct (task s p) as [t|] eqn:Ht; [|done]. case_bool_decide; [|done].
  etransitivity; [|by eapply attrs_put_transition]. done.
Qed.

Lemma dispatch_head_attrs s id : attrs (dispatch_head s) id = attrs s id.
Proof.
  unfold dispatch_head. destruct (run_pop (ready s)) as [[x|] q]; [|done].
  destruct (task (set_ready s q) x) as [t|] eqn:Ht; [|done].
  pose proof (attrs_put_transition (set_ready s q) x t Running id Ht) as Ha.
  destruct (transition t Running) as [ok t']. cbn [snd] in Ha. by destruct ok.
Qed.

Lemma schedule_next_attrs s id : attrs (schedule_next s).2 id = attrs s id.
Proof.
  unfold schedule_next. rewrite <- (requeue_previous_attrs s).
  set (s1 := requeue_previous s).
  destruct (current s) as [p|]; [case_if|]; cbn [snd]; try apply dispatch_head_attrs.
  destruct (task (set_ready s1 (run_pop (ready s1)).2) p) as [t|] eqn:Ht; [|done].
  etransitivity; [|by eapply (attrs_put_transition (set_ready s1 (run_pop (ready s1)).2))]. done.
Qed.

Lemma attrs_task s s' id : task s' id = task s id -> attrs s' id = attrs s id.
Proof. unfold attrs. by intros ->. Qed.

(** A dispatch with a running or absent owner runs the head of the queue. *)
Lemma schedule_next_runs_head s x :
  sched_inv s -> (forall p, current s = Some p -> state s p = Some Running) -> next_ready s = Some x ->
  let '(d, s') := schedule_next s in
  next d = Some x /\ previous d = current s /\ current s' = Some x /\ state s' x = Some Running /\
  sched_inv s' /\ (forall id, attrs s' id = attrs s id) /\
  ready s' = tail (ready s) ++ match current s with Some p => [p] | None => [] end /\
  (forall id, id <> x -> Some id <> current s -> state s' id = state s id).
Proof.
  intros Hi Hrun Hx. unfold next_ready, run_peek in Hx. destruct (ready s) as [|y q] eqn:Hq; [done|].
  injection Hx as ->.
  pose proof (schedule_next_head s x q Hi Hq) as (Hc & Hst & Hr).
  destruct (schedule_next_spec s Hi) as (Hd & (Habs & _ & _) & Hi').
  pose proof (schedule_next_attrs s) as Hat.
  destruct (schedule_next s) as [d s'] eqn:Hs. cbn [fst snd] in *.
  unfold a_schedule, a_requeue in *. simpl in Hd, Habs.
  destruct (current s) as [p|] eqn:Hcur.
  - pose proof (Hrun p eq_refl) as Hp. rewrite (decide_True _ _ Hp) in Hr.
    destruct (decide (state s p = Some Running)); [|done]. simpl in Hd, Habs. rewrite Hq in Hd, Habs.
    simpl in Hd, Habs. subst d. cbn [next previous]. split_and!; try done.
    + rewrite a_next_other; [done|]. intros [_ Hnil]. by destruct q.
    + intros id Hne Hnp. rewrite Habs. rewrite !a_set_ne by congruence. done.
  - simpl in Hd, Habs. rewrite Hq in Hd, Habs. simpl in Hd, Habs. subst d. cbn [next previous]. split_and!; try done.
    + intros id Hne _. rewrite Habs. by rewrite a_set_ne.
Qed.

(** The running owner goes back to the queue when another task takes the CPU. *)
Lemma schedule_next_requeues s p x :
  sched_inv s -> current s = Some p -> state s p = Some Running -> next_ready s = Some x -> x <> p ->
  state (schedule_next s).2 p = Some Ready.
Proof.
  intros Hi Hc Hrun Hx Hne. pose proof (schedule_next_runs_head s x Hi) as Hs.
  assert (Hall : forall q, current s = Some q -> state s q = Some Running) by congruence.
  specialize (Hs Hall Hx). destruct (schedule_next s) as [d s'].
  destruct Hs as (_ & _ & _ & _ & Hi' & _ & Hr & _). rewrite Hc in Hr.
  apply (inv_ready _ (proj2 Hi')). simpl. rewrite Hr. apply elem_of_app. right. left.
Qed.
