(* ===== verification/SchedulerSpec.v ===== *)
(** * The scheduler as its callers see it

    A specification of [kernel/src/scheduler/mod.rs] without slots and generations: a state,
    a kind and an execution handle per task, a FIFO queue of ready tasks and the owner of
    the CPU.  Every operation is a function on that state with one answer; only the name of
    a new task is left to the implementation.  The theorem says that the slot table, driven
    by any sequence of operations, gives the answers of the specification. *)

From stdpp Require Import base numbers relations sets list options.
From S2P Require Import Prelude Tasks Queues Scheduler SchedulerInv SchedulerSteps.

Local Open Scope Z_scope.

(** ** Answers *)

(** What an operation returns, with the queue it was given as it leaves it. *)
Inductive Answer :=
| AnsTask (r : result SchedulerError TaskId)
| AnsHandle (r : result SchedulerError ExecutionHandle)
| AnsDestroyed (handle : option ExecutionHandle)
| AnsFlag (b : bool)
| AnsDecision (d : DispatchDecision)
| AnsWaits (r : result SchedulerError TaskId) (waiters : WaitQueue)
| AnsWoken (id : option TaskId) (waiters : WaitQueue)
| AnsSleeps (r : result SchedulerError TaskId) (sleepers : SleepQueue)
| AnsExpired (ids : list TaskId) (sleepers : SleepQueue).

(** An operation of the implementation, with its answer.  Which of its two errors
    [destroy_created] returns depends on whether the slot was reused, and is left out. *)
Definition perform (op : SchedOp) (s : Scheduler) : Answer * Scheduler :=
  match op with
  | OpCreate prio kind => let '(r, s) := create_task_with_kind s prio kind in (AnsTask r, s)
  | OpAttach id => let '(r, s) := attach_execution s id in (AnsHandle r, s)
  | OpDestroyCreated id =>
      let '(r, s) := destroy_created s id in (AnsDestroyed (match r with Ok h => Some h | _ => None end), s)
  | OpMakeReady id => let '(b, s) := make_ready s id in (AnsFlag b, s)
  | OpTerminateTo id => let '(r, s) := terminate_current_to s id in (AnsTask r, s)
  | OpSchedule => let '(d, s) := schedule_next s in (AnsDecision d, s)
  | OpBlock => let '(b, s) := block_current s in (AnsFlag b, s)
  | OpBlockOn q => let '(r, s, q) := block_current_on s q in (AnsWaits r q, s)
  | OpWake q => let '(w, s, q) := wake_one s q in (AnsWoken w q, s)
  | OpSleep d q => let '(r, s, q) := sleep_current_until s d q in (AnsSleeps r q, s)
  | OpExpire now q => let '(ids, s, q) := expire_sleepers s now q in (AnsExpired ids q, s)
  | OpExit => let '(b, s) := exit_current s in (AnsFlag b, s)
  end.

(** ** The specification *)
Record Spec := mkSpec {
  sp_sched : AbsSched;
  sp_attrs : TaskId -> option (TaskKind * option ExecutionHandle);
}.

Global Instance Spec_equiv : Equiv Spec := fun a b =>
  sp_sched a ≡ sp_sched b /\ forall id, sp_attrs a id = sp_attrs b id.

Definition spec (s : Scheduler) : Spec := mkSpec (abs s) (attrs s).

Definition sp_state (a : Spec) (id : TaskId) : option TaskState := a_state (sp_sched a) id.
Definition set_attr (f : TaskId -> option (TaskKind * option ExecutionHandle)) (id : TaskId) v : TaskId -> _ :=
  fun id' => if decide (id' = id) then v else f id'.

(** A move of tasks that keep their kinds and handles, and the loss of a task. *)
Definition sp_move (a : Spec) (b : AbsSched) : Spec := mkSpec b (sp_attrs a).
Definition sp_forget (a : Spec) (id : TaskId) (b : AbsSched) : Spec := mkSpec b (set_attr (sp_attrs a) id None).

(** The first blocked waiter, and those behind it. *)
Fixpoint first_blocked (f : TaskId -> option TaskState) (q : list TaskId) : option (TaskId * list TaskId) :=
  match q with
  | [] => None
  | id :: q => if bool_decide (f id = Some Blocked) then Some (id, q) else first_blocked f q
  end.

(** All of [ids] ready, at the end of the queue. *)
Definition a_wake (ids : list TaskId) (a : AbsSched) : AbsSched :=
  mkAbs (fun id => if decide (id ∈ ids) then Some Ready else a_state a id) (a_queue a ++ ids) (a_cpu a).

(** The owner of the CPU when it runs. *)
Definition running_owner (a : Spec) : option TaskId :=
  id ← a_cpu (sp_sched a); if bool_decide (sp_state a id = Some Running) then Some id else None.

Arguments running_owner : simpl never.

Definition spec_op (op : SchedOp) (a : Spec) : option (Answer * Spec) :=
  let s := sp_sched a in
  match op with
  | OpCreate _ _ => None
  | OpAttach id => Some
      match sp_attrs a id with
      | None => (AnsHandle (Err TaskNotFound), a)
      | Some (_, Some _) => (AnsHandle (Err ExecutionAlreadyAttached), a)
      | Some (kind, None) =>
          let h := ExecutionHandle_for_task id in
          (AnsHandle (Ok h), mkSpec s (set_attr (sp_attrs a) id (Some (kind, Some h))))
      end
  | OpDestroyCreated id => Some
      match sp_state a id, sp_attrs a id with
      | Some Created, Some (_, Some h) => (AnsDestroyed (Some h), sp_forget a id (a_forget id (a_cpu s) s))
      | _, _ => (AnsDestroyed None, a)
      end
  | OpMakeReady id => Some
      match sp_state a id with
      | Some (Created | Running | Blocked) => (AnsFlag true, sp_move a (a_enqueue id s))
      | _ => (AnsFlag false, a)
      end
  | OpTerminateTo successor => Some
      match a_cpu s with
      | None => (AnsTask (Err TaskNotFound), a)
      | Some owner =>
          if bool_decide (owner = successor) then (AnsTask (Err CurrentTaskMismatch), a) else
          if negb (bool_decide (head (a_queue s) = Some successor)) then (AnsTask (Err SuccessorNotReady), a) else
          match running_owner a with
          | None => (AnsTask (Err TaskNotFound), a)
          | Some _ =>
              (AnsTask (Ok successor), sp_forget a owner (a_run successor (tail (a_queue s)) (a_forget owner None s)))
          end
      end
  | OpSchedule => Some (let '(d, b) := a_schedule s in (AnsDecision d, sp_move a b))
  | OpBlock => Some
      match running_owner a with
      | Some id => (AnsFlag true, sp_move a (a_block id s))
      | None => (AnsFlag false, a)
      end
  | OpBlockOn q => Some
      match a_cpu s with
      | None => (AnsWaits (Err TaskNotFound) q, a)
      | Some owner =>
          if bool_decide (owner ∈ q) then (AnsWaits (Err WaitQueueAlreadyContainsTask) q, a) else
          match running_owner a with
          | Some id => (AnsWaits (Ok id) (q ++ [id]), sp_move a (a_block id s))
          | None => (AnsWaits (Err TaskNotFound) q, a)
          end
      end
  | OpWake q => Some
      match first_blocked (a_state s) q with
      | Some (id, q) => (AnsWoken (Some id) q, sp_move a (a_enqueue id s))
      | None => (AnsWoken None [], a)
      end
  | OpSleep deadline q => Some
      match a_cpu s with
      | None => (AnsSleeps (Err TaskNotFound) q, a)
      | Some owner =>
          if bool_decide (owner ∈ entry_task <$> q) then (AnsSleeps (Err SleepQueueAlreadyContainsTask) q, a) else
          match running_owner a with
          | Some id => (AnsSleeps (Ok id) (sorted_insert (SleepEntry_new deadline id) q), sp_move a (a_block id s))
          | None => (AnsSleeps (Err TaskNotFound) q, a)
          end
      end
  | OpExpire now q => Some
      (let due := filter (fun id => a_state s id = Some Blocked)
                    (entry_task <$> filter (fun e => entry_deadline e <= now) q) in
       (AnsExpired due (filter (fun e => now < entry_deadline e) q), sp_move a (a_wake due s)))
  | OpExit => Some
      match running_owner a with
      | Some id => (AnsFlag true, sp_forget a id (a_forget id None s))
      | None => (AnsFlag false, a)
      end
  end.

(** A step: an operation, its answer, and the state after it.  A new task has a name no
    task has, nothing attached, and is neither ready nor running. *)
Inductive spec_step : Spec -> SchedOp * Answer -> Spec -> Prop :=
| spec_creates a b prio kind id :
    sp_state a id = None ->
    b ≡ mkSpec (a_create id (sp_sched a)) (set_attr (sp_attrs a) id (Some (kind, None))) ->
    spec_step a (OpCreate prio kind, AnsTask (Ok id)) b
| spec_does a op answer c b : spec_op op a = Some (answer, c) -> b ≡ c -> spec_step a (op, answer) b.

Inductive spec_trace : Spec -> list (SchedOp * Answer) -> Spec -> Prop :=
| spec_done a : spec_trace a [] a
| spec_next a e b l c : spec_step a e b -> spec_trace b l c -> spec_trace a (e :: l) c.

(** The implementation on a sequence of operations. *)
Fixpoint perform_all (ops : list SchedOp) (s : Scheduler) : list (SchedOp * Answer) * Scheduler :=
  match ops with
  | [] => ([], s)
  | op :: ops =>
      let '(answer, s) := perform op s in
      let '(l, s) := perform_all ops s in ((op, answer) :: l, s)
  end.

Fixpoint performable (ops : list SchedOp) (s : Scheduler) : Prop :=
  match ops with
  | [] => True
  | op :: ops => op_enabled op s /\ performable ops (perform op s).2
  end.

(** ** Kinds and handles *)
Lemma attrs_put s id t t' id' :
  task s id = Some t -> tcb_id t' = id ->
  attrs (put_task s id t') id' = set_attr (attrs s) id (Some (tcb_kind t', tcb_execution t')) id'.
Proof. intros Ht Hid. unfold attrs at 1. rewrite (task_put s id t) by done. unfold set_attr. by case_decide. Qed.

Lemma attrs_clear s id t id' : task s id = Some t -> attrs (clear_task s id) id' = set_attr (attrs s) id None id'.
Proof. intros Ht. unfold attrs at 1. rewrite (task_clear s id t) by done. unfold set_attr. by case_decide. Qed.

(** ** Each operation gives the answer of the specification *)
Definition refines (op : SchedOp) (s : Scheduler) : Prop :=
  sched_inv (perform op s).2 /\ spec_step (spec s) (op, (perform op s).1) (spec (perform op s).2).

(** How a refinement is shown for an operation other than creation. *)
Lemma refines_by op s answer s' c :
  perform op s = (answer, s') -> sched_inv s' -> spec_op op (spec s) = Some (answer, c) -> spec s' ≡ c -> refines op s.
Proof. intros Hp Hi Ho He. unfold refines. rewrite Hp. split; [done|]. by eapply spec_does. Qed.

Lemma refines_same op s answer :
  perform op s = (answer, s) -> sched_inv s -> spec_op op (spec s) = Some (answer, spec s) -> refines op s.
Proof. intros Hp Hi Ho. by apply (refines_by op s answer s (spec s)). Qed.

(** The owner of the CPU, under the invariant. *)
Lemma running_owner_Some s id : running_owner (spec s) = Some id <-> current s = Some id /\ state s id = Some Running.
Proof.
  unfold running_owner. cbn. destruct (current s) as [o|]; cbn; [|naive_solver]. unfold sp_state. cbn.
  case_bool_decide; naive_solver.
Qed.

Lemma running_owner_None s : running_owner (spec s) = None <-> forall id, current s = Some id -> state s id <> Some Running.
Proof.
  unfold running_owner. cbn. destruct (current s) as [o|]; cbn; [|naive_solver]. unfold sp_state. cbn.
  case_bool_decide; naive_solver.
Qed.

Lemma blocked_from_owner s s' id : blocked_from s s' id -> running_owner (spec s) = Some id.
Proof. intros (t & Hc & Ht & Hst & _). apply running_owner_Some. split; [done|]. apply state_Some. eauto. Qed.

Lemma blocked_from_spec s s' id :
  sched_inv s -> blocked_from s s' id -> sched_inv s' /\ spec s' ≡ sp_move (spec s) (a_block id (abs s)).
Proof.
  intros Hi Hb. destruct (blocked_from_inv s s' id Hi Hb) as (Hi' & He & _). split; [done|]. split; [done|].
  intros id'. by apply (blocked_from_attrs s s' id).
Qed.

Section Refinement.
Context (s : Scheduler) (Hi : sched_inv s).

Lemma create_refines prio kind : Z.of_nat (length (tasks s)) <= U32_MAX -> refines (OpCreate prio kind) s.
Proof using Hi.
  intros Hroom. destruct (create_task_spec (E := SchedulerError) s prio kind Hi Hroom)
    as (id & s' & Hc & Hw & Hn & Ht & Hoth & Heq & _).
  unfold refines. cbn [perform]. rewrite Hc. cbn [fst snd].
  assert (Hns : state s id = None) by (by apply state_None).
  split; [split; [done|]; rewrite Heq; apply a_create_inv; [apply Hi|done]|].
  apply spec_creates; [done|]. split; [done|]. intros id'. cbn. unfold set_attr, attrs at 1. case_decide as Hd.
  - subst. rewrite Ht. cbn. destruct (new_tcb_fields kind id prio) as (_ & -> & _ & -> & _). done.
  - unfold attrs. by rewrite Hoth.
Qed.

Lemma attach_refines id : refines (OpAttach id) s.
Proof using Hi.
  destruct (attach_execution_spec s id Hi) as (Hw & He & Hc). destruct (attach_execution s id) as [r s'] eqn:Ha.
  assert (Hi' : sched_inv s') by (split; [done|]; rewrite He; apply Hi). unfold attach_execution in Ha.
  destruct (task s id) as [t|] eqn:Ht.
  2: { injection Ha as <- <-. apply (refines_same _ _ (AnsHandle (Err TaskNotFound))); [|done|].
       - cbn. unfold attach_execution. by rewrite Ht.
       - cbn. unfold attrs. by rewrite Ht. }
  unfold tcb_attach_execution in Ha. destruct (tcb_execution t) as [h|] eqn:Hx.
  - injection Ha as <- <-. apply (refines_same _ _ (AnsHandle (Err ExecutionAlreadyAttached))); [|done|].
    + cbn. unfold attach_execution, tcb_attach_execution. rewrite Ht, Hx. by rewrite put_same.
    + cbn. unfold attrs. by rewrite Ht; cbn; rewrite Hx.
  - injection Ha as <- <-. rewrite (task_id _ _ _ Ht) in *.
    eapply (refines_by _ _ (AnsHandle (Ok (ExecutionHandle_for_task id)))); [|exact Hi'| |].
    + cbn. unfold attach_execution, tcb_attach_execution. rewrite Ht, Hx. by rewrite (task_id _ _ _ Ht).
    + cbn. unfold attrs at 1. rewrite Ht. cbn. by rewrite Hx.
    + split; [done|]. intros id'. cbn. rewrite (attrs_put s id t); [done|done|]. by apply task_id in Ht.
Qed.

Lemma destroy_refines id : refines (OpDestroyCreated id) s.
Proof using Hi.
  pose proof (destroy_created_spec s id Hi) as Hc. destruct (destroy_created s id) as [[h|e|] s'] eqn:Hd; [| |done].
  - destruct Hc as (Hst & Hh & Hw & He & Hs'). pose proof Hst as (t & Ht & _)%state_Some.
    assert (Hx : attrs s id = Some (tcb_kind t, Some h)).
    { unfold destroy_created in Hd. pose proof Ht as [Hl _]%task_Some. rewrite Hl in Hd. case_if; [done|].
      unfold tcb_detach_execution in Hd. unfold attrs. rewrite Ht. cbn. destruct (tcb_execution t); by simplify_eq. }
    eapply (refines_by _ _ (AnsDestroyed (Some h))); [cbn; by rewrite Hd| | |].
    + split; [done|]. rewrite He. apply a_forget_created_inv; [apply Hi|done].
    + cbn. unfold sp_state. cbn. by rewrite Hst, Hx.
    + split; [done|]. intros id'. cbn. rewrite Hs'. by apply (attrs_clear s id t).
  - subst s'. apply (refines_same _ _ (AnsDestroyed None)); [cbn; by rewrite Hd|done|]. cbn. unfold sp_state. cbn.
    unfold destroy_created in Hd. destruct (state s id) as [st|] eqn:Hst; [|done].
    pose proof Hst as (t & Ht & Hts)%state_Some. pose proof Ht as [Hl Hid]%task_Some. rewrite Hl in Hd.
    rewrite (bool_decide_true (tcb_id t = id)) in Hd by done. cbn [negb orb] in Hd.
    destruct st; try done. rewrite Hts, bool_decide_true in Hd by done. cbn [negb] in Hd.
    unfold attrs. rewrite Ht. cbn. unfold tcb_detach_execution in Hd. by destruct (tcb_execution t).
Qed.

Lemma make_ready_refines id : refines (OpMakeReady id) s.
Proof using Hi.
  pose proof (make_ready_spec s id Hi) as Hc. destruct (make_ready s id) as [[] s'] eqn:Hm.
  - destruct Hc as (Hn & Hw & He & t & Ht & Hv & Hs'). assert (Hst : state s id = Some (tcb_state t)) by (apply state_Some; eauto).
    eapply (refines_by _ _ (AnsFlag true)); [cbn; by rewrite Hm| | |].
    + split; [done|]. rewrite He. apply a_enqueue_inv; [apply Hi|done].
    + cbn. unfold sp_state. cbn. rewrite Hst. by destruct (tcb_state t).
    + split; [done|]. intros id'. cbn. rewrite Hs'. exact (attrs_put_state s id t Ready id' Ht).
  - subst s'. apply (refines_same _ _ (AnsFlag false)); [cbn; by rewrite Hm|done|]. cbn. unfold sp_state. cbn.
    unfold make_ready in Hm. destruct (state s id) as [st|] eqn:Hst; [|done]. pose proof Hst as (t & Ht & Hts)%state_Some.
    destruct st; try done; exfalso.
    all: assert (Hnq : id ∉ ready s) by (intros Hin%(inv_ready _ (proj2 Hi)); cbn in Hin; congruence).
    all: rewrite (proj2 (run_contains_false _ _) Hnq), Ht in Hm; unfold transition in Hm; rewrite Hts in Hm; cbn in Hm.
    all: by rewrite run_push_fresh in Hm.
Qed.

Lemma terminate_refines successor : refines (OpTerminateTo successor) s.
Proof using Hi.
  pose proof (terminate_current_to_cases s successor) as Hc. pose proof (terminate_inv s successor Hi) as Hi'.
  destruct (terminate_current_to s successor) as [[id|e|] s'] eqn:Hd; [| |done].
  - destruct Hc as (-> & cur & tc & ts & q & Hcur & Hne & Htc & Hsc & Hts & Hss & Hq & ->).
    eapply (refines_by _ _ (AnsTask (Ok successor))); [cbn; by rewrite Hd|exact Hi'| |].
    + cbn. rewrite Hcur, bool_decide_false, Hq by done. cbn. rewrite bool_decide_true by done. cbn.
      rewrite (proj2 (running_owner_Some s cur)); [done|]. split; [done|]. apply state_Some. eauto.
    + split; [by apply (terminate_abs s cur tc)|]. intros id'. cbn.
      assert (Hts' : task (clear_task s cur) successor = Some ts) by (rewrite (task_clear s cur tc) by done; by rewrite decide_False).
      rewrite <- (attrs_clear s cur tc) by done. exact (attrs_put_state (clear_task s cur) successor ts Running id' Hts').
  - subst s'. apply (refines_same _ _ (AnsTask (Err e))); [cbn; by rewrite Hd|done|]. cbn.
    unfold terminate_current_to in Hd. destruct (current s) as [cur|] eqn:Hcur; [|by injection Hd as <-].
    case_bool_decide as Hne; [by injection Hd as <-|]. unfold run_peek in Hd.
    destruct (bool_decide (head (ready s) = Some successor)) eqn:Hh; cbn [negb orb] in Hd |- *; [|by injection Hd as <-].
    apply bool_decide_eq_true in Hh. destruct (ready s) as [|x q] eqn:Hq; [done|]. injection Hh as ->.
    assert (Hst : state s successor = Some Ready) by (apply (inv_ready _ (proj2 Hi)); cbn; rewrite Hq; left).
    rewrite bool_decide_true in Hd by done. cbn [negb] in Hd. destruct (slot_is s cur Running) eqn:Hrun; cbn [negb] in Hd.
    + exfalso. rewrite (proj2 (slot_is_spec s successor Ready)) in Hd by done. cbn [negb] in Hd.
      apply slot_is_spec, state_Some in Hrun as (tc & Htc & Hsc). pose proof Htc as [Hlc _]%task_Some. rewrite Hlc in Hd.
      unfold transition at 1 in Hd. rewrite Hsc in Hd. cbn [transition_valid negb] in Hd. rewrite put_put, clear_put in Hd.
      change (ready (clear_task s cur)) with (ready s) in Hd. rewrite Hq in Hd. cbn [run_pop] in Hd.
      rewrite bool_decide_true in Hd by done. cbn [negb] in Hd. pose proof Hst as (ts & Hts & Hss)%state_Some.
      assert (Hts' : task (clear_task s cur) successor = Some ts) by (rewrite (task_clear s cur tc) by done; by rewrite decide_False).
      pose proof Hts' as [Hls _]%task_Some. change (tasks (set_ready (clear_task s cur) q)) with (tasks (clear_task s cur)) in Hd.
      rewrite Hls in Hd. unfold transition in Hd. rewrite Hss in Hd. done.
    + injection Hd as <-. rewrite (proj2 (running_owner_None s)); [done|]. intros id. rewrite Hcur. intros [= <-] Hr.
      apply slot_is_spec in Hr. congruence.
Qed.

Lemma schedule_refines : refines OpSchedule s.
Proof using Hi.
  destruct (schedule_next_spec s Hi) as (Hd & He & Hi'). pose proof (schedule_next_attrs s) as Ha.
  destruct (schedule_next s) as [d s'] eqn:Hs. cbn [fst snd] in *.
  apply (refines_by _ _ (AnsDecision d) s' (sp_move (spec s) (a_schedule (abs s)).2)); [cbn; by rewrite Hs|done| |].
  - cbn. rewrite Hd. by destruct (a_schedule (abs s)).
  - by split.
Qed.

Lemma block_refines : refines OpBlock s.
Proof using Hi.
  pose proof (block_current_cases s) as Hc. destruct (block_current s) as [[] s'] eqn:Hb.
  - destruct Hc as [id Hf]. destruct (blocked_from_spec s s' id Hi Hf) as [Hi' He].
    eapply (refines_by _ _ (AnsFlag true)); [cbn; by rewrite Hb|done| |exact He]. cbn. by rewrite (blocked_from_owner _ _ _ Hf).
  - subst s'. apply (refines_same _ _ (AnsFlag false)); [cbn; by rewrite Hb|done|]. cbn.
    rewrite (proj2 (running_owner_None s)); [done|]. intros id Hc (t & Ht & Hst)%state_Some.
    unfold block_current in Hb. rewrite Hc, Ht in Hb. unfold transition in Hb. by rewrite Hst in Hb.
Qed.

Lemma block_on_refines q : refines (OpBlockOn q) s.
Proof using Hi.
  pose proof (block_current_on_cases s q) as Hc. destruct (block_current_on s q) as [[[id|e|] s'] q'] eqn:Hb; [| |done].
  - destruct Hc as (Hf & Hn & ->). destruct (blocked_from_spec s s' id Hi Hf) as [Hi' He].
    eapply (refines_by _ _ (AnsWaits (Ok id) (q ++ [id]))); [cbn; by rewrite Hb|done| |exact He]. cbn.
    rewrite (blocked_from_owner _ _ _ Hf). destruct Hf as (t & -> & _). by rewrite bool_decide_false.
  - destruct Hc as [-> ->]. apply (refines_same _ _ (AnsWaits (Err e) q)); [cbn; by rewrite Hb|done|]. cbn.
    unfold block_current_on in Hb. destruct (current s) as [id|] eqn:Hcur; [|by injection Hb as <-].
    unfold wait_contains in Hb. case_bool_decide as Hin; [by injection Hb as <-|].
    destruct (running_owner (spec s)) as [o|] eqn:Ho.
    + exfalso. apply running_owner_Some in Ho as [Hco (t & Ht & Hst)%state_Some]. rewrite Hcur in Hco. injection Hco as <-.
      rewrite Ht in Hb. unfold transition at 1 in Hb. rewrite Hst in Hb. cbn [transition_valid negb] in Hb.
      by rewrite wait_enqueue_fresh in Hb.
    + destruct (task s id) as [t|] eqn:Ht; [|by injection Hb as <-]. unfold transition at 1 in Hb.
      destruct (transition_valid _ _) eqn:Hv; cbn [negb] in Hb; [|by injection Hb as <-]. exfalso.
      apply transition_blocked_iff in Hv. apply (proj1 (running_owner_None s) Ho id Hcur). apply state_Some. eauto.
Qed.

Lemma sleep_refines deadline q : sleep_inv q -> refines (OpSleep deadline q) s.
Proof using Hi.
  intros Hq. pose proof (sleep_current_until_cases s deadline q Hq) as Hc.
  assert (Hcon : forall id, sleep_contains q id = bool_decide (id ∈ entry_task <$> q)).
  { intros id. unfold sleep_contains. apply eq_true_iff_eq. rewrite existsb_exists, bool_decide_eq_true, list_elem_of_fmap.
    split; intros (e & H1 & H2); exists e; rewrite ?list_elem_of_In in *; revert H1 H2; rewrite ?bool_decide_eq_true; naive_solver. }
  destruct (sleep_current_until s deadline q) as [[[id|e|] s'] q'] eqn:Hb; [| |done].
  - destruct Hc as (Hf & Hn & ->). destruct (blocked_from_spec s s' id Hi Hf) as [Hi' He].
    eapply (refines_by _ _ (AnsSleeps (Ok id) (sorted_insert (SleepEntry_new deadline id) q))); [cbn; by rewrite Hb|done| |exact He]. cbn.
    rewrite (blocked_from_owner _ _ _ Hf). destruct Hf as (t & -> & _). by rewrite bool_decide_false.
  - destruct Hc as [-> ->]. apply (refines_same _ _ (AnsSleeps (Err e) q)); [cbn; by rewrite Hb|done|]. cbn.
    pose proof Hb as Hb'. unfold sleep_current_until in Hb'. destruct (current s) as [id|] eqn:Hcur; [|by injection Hb' as <-].
    rewrite Hcon in Hb'. case_bool_decide as Hin; [by injection Hb' as <-|].
    destruct (running_owner (spec s)) as [o|] eqn:Ho.
    + exfalso. apply running_owner_Some in Ho as [Hco (t & Ht & Hst)%state_Some]. rewrite Hcur in Hco. injection Hco as <-.
      rewrite Ht in Hb'. unfold transition at 1 in Hb'. rewrite Hst in Hb'. cbn [transition_valid negb] in Hb'.
      rewrite sleep_insert_eq in Hb' by apply Hq. simpl in Hb'. by rewrite bool_decide_false in Hb'.
    + destruct (task s id) as [t|] eqn:Ht; [|by injection Hb' as <-]. unfold transition at 1 in Hb'.
      destruct (transition_valid _ _) eqn:Hv; cbn [negb] in Hb'; [|by injection Hb' as <-]. exfalso.
      apply transition_blocked_iff in Hv. apply (proj1 (running_owner_None s) Ho id Hcur). apply state_Some. eauto.
Qed.

Lemma first_blocked_skip f q1 q :
  Forall (fun w => f w <> Some Blocked) q1 -> first_blocked f (q1 ++ q) = first_blocked f q.
Proof using Type. induction 1 as [|w q1 Hw _ IH]; [done|]. cbn. by rewrite bool_decide_false. Qed.

Lemma wake_refines q : refines (OpWake q) s.
Proof using Hi.
  pose proof (wake_one_spec s q Hi) as Hc. destruct (wake_one s q) as [[[id|] s'] q'] eqn:Hw.
  - destruct Hc as (Hf & q1 & -> & Hq1). destruct (woken_from_inv s s' id Hi Hf) as [Hi' He].
    eapply (refines_by _ _ (AnsWoken (Some id) q')); [cbn; by rewrite Hw|done| |].
    + cbn. rewrite first_blocked_skip by done. cbn. destruct Hf as (t & Ht & Hst & _).
      by rewrite bool_decide_true by (apply state_Some; eauto).
    + split; [done|]. intros id'. by apply (woken_from_attrs s s' id).
  - destruct Hc as (-> & -> & Hq). apply (refines_same _ _ (AnsWoken None [])); [cbn; by rewrite Hw|done|]. cbn.
    pose proof (first_blocked_skip (state s) q [] Hq) as Hn. rewrite app_nil_r in Hn. by rewrite Hn.
Qed.

Lemma expire_refines now q : sleep_inv q -> refines (OpExpire now q) s.
Proof using Hi.
  intros Hq. pose proof (expire_sleepers_spec s now q Hi Hq) as He. destruct (expire_sleepers s now q) as [[ids s'] q'] eqn:Hx.
  destruct He as (Hids & Hq' & Hr & Hc & Hst & Hi' & _).
  apply (refines_by _ _ (AnsExpired ids q') s' (sp_move (spec s) (a_wake ids (abs s))));
    [cbn [perform]; by rewrite Hx|done|cbn [spec_op]; by rewrite Hids, Hq'|].
  split; [split; [exact Hst|by split]|]. intros id'. cbn. unfold expire_sleepers in Hx.
  destruct (sleep_expire_until q now) as [expired z]. pose proof (wake_expired_attrs s expired [] id') as Ha.
  destruct (wake_expired s expired []) as [? ?]. by simplify_eq/=.
Qed.

Lemma exit_refines : refines OpExit s.
Proof using Hi.
  pose proof (exit_current_cases s) as Hc. destruct (exit_current s) as [[] s'] eqn:Hx.
  - destruct (exit_current_inv s s' Hi Hx) as (id & Hcur & Hr & He & Hi'). destruct Hc as (id' & t & Hcur' & Ht & _ & Hs').
    rewrite Hcur in Hcur'. injection Hcur' as <-.
    eapply (refines_by _ _ (AnsFlag true)); [cbn; by rewrite Hx|done|cbn; by rewrite (proj2 (running_owner_Some s id))|].
    split; [done|]. intros id'. rewrite Hs'. exact (attrs_clear s id t id' Ht).
  - subst s'. apply (refines_same _ _ (AnsFlag false)); [cbn; by rewrite Hx|done|]. cbn.
    rewrite (proj2 (running_owner_None s)); [done|]. intros id Hcur Hr.
    destruct (exit_current_running s id Hi Hcur Hr) as (s1 & Hx1 & _). congruence.
Qed.

Lemma op_refines op : op_enabled op s -> refines op s.
Proof using Hi.
  destruct op; cbn; auto using create_refines, attach_refines, destroy_refines, make_ready_refines, terminate_refines,
    schedule_refines, block_refines, block_on_refines, wake_refines, sleep_refines, expire_refines, exit_refines.
Qed.
End Refinement.

(** ** Theorem *)

(** C19: The scheduler answers as its specification does.  Driven by any sequence of
    operations from any state that satisfies the invariant, the slot table returns at each
    operation exactly what the specification returns, errors included (but for which of two
    errors [destroy_created] gives), leaves the queues it is given as the specification
    does, and stays in the state the specification computes: a dispatch runs the head of
    the ready queue and requeues the owner, a wake-up takes the first blocked waiter, a
    hand-over needs the head of the queue, no task but the one named appears, changes or
    is lost.  Only the identifier of a new task is the implementation's choice, and no task
    has it.  The table stays below 2^32 slots, and sleep queues are given sorted. *)
Theorem scheduler_refines ops s :
  sched_inv s -> performable ops s ->
  spec_trace (spec s) (perform_all ops s).1 (spec (perform_all ops s).2) /\ sched_inv (perform_all ops s).2.
Proof.
  revert s. induction ops as [|op ops IH]; intros s Hi Hp; [split; [constructor|done]|]. destruct Hp as [Hen Hp].
  destruct (op_refines s Hi op Hen) as [Hi' Hs]. cbn [perform_all]. destruct (perform op s) as [answer s'].
  cbn [fst snd] in *. destruct (IH s' Hi' Hp) as [Ht Hi'']. destruct (perform_all ops s') as [l s'']. cbn [fst snd] in *.
  split; [by eapply spec_next|done].
Qed.

Definition demo_refined : list SchedOp :=
  [OpCreate Priority_DEFAULT Kernel; OpCreate Priority_DEFAULT Kernel; OpMakeReady (mkTaskId 0 1);
   OpMakeReady (mkTaskId 1 1); OpSchedule; OpBlockOn []; OpWake [mkTaskId 0 1]; OpSchedule; OpExit].

Lemma scheduler_refines_witness :
  exists l s, perform_all demo_refined Scheduler_new = (l, s) /\ spec_trace (spec Scheduler_new) l (spec s) /\
    last l.*2 = Some (AnsFlag true) /\ ready s = [mkTaskId 0 1].
Proof.
  exists (perform_all demo_refined Scheduler_new).1, (perform_all demo_refined Scheduler_new).2.
  split; [reflexivity|]. split; [|split; reflexivity].
  apply (scheduler_refines demo_refined Scheduler_new); [exact Scheduler_new_inv|].
  vm_compute. repeat split; discriminate.
Defined.
