(* ===== verification/WaitQueues.v ===== *)
(** * Blocking and waking

    Several wait queues and the sleep queue over one scheduler ([scheduler/mod.rs],
    [wait_queue.rs], [sleep_queue.rs]).  The queues hold identifiers only; the scheduler
    holds the states.  The transition system runs all operations in any order, and the
    theorem says that the two never disagree: every blocked task waits in exactly one place,
    so no task is lost and no wake-up is wasted on a task that does not wait. *)

From stdpp Require Import base numbers sets relations list options.
From S2P Require Import Prelude Tasks Queues Scheduler SchedulerInv SchedulerSteps.

Local Open Scope Z_scope.

(** ** State and steps *)
Record Blocking := mkBlocking {
  bl_scheduler : Scheduler;
  bl_queues : list WaitQueue;
  bl_sleepers : SleepQueue;
}.

(** Operations that take no queue.  [make_ready] is for new tasks: on a blocked one it
    would leave the task in its queue. *)
Definition plain (op : SchedOp) (s : Scheduler) : Prop :=
  match op with
  | OpCreate _ _ => Z.of_nat (length (tasks s)) <= U32_MAX
  | OpMakeReady id => state s id <> Some Blocked
  | OpAttach _ | OpDestroyCreated _ | OpTerminateTo _ | OpSchedule | OpExit => True
  | OpBlock | OpBlockOn _ | OpWake _ | OpSleep _ _ | OpExpire _ _ => False
  end.

Inductive blocking_step : Blocking -> Blocking -> Prop :=
| bs_plain op s Q z : plain op s -> blocking_step (mkBlocking s Q z) (mkBlocking (run_op op s) Q z)
| bs_block i q s Q z : Q !! i = Some q ->
    blocking_step (mkBlocking s Q z) (mkBlocking (block_current_on s q).1.2 (<[i := (block_current_on s q).2]> Q) z)
| bs_wake i q s Q z : Q !! i = Some q ->
    blocking_step (mkBlocking s Q z) (mkBlocking (wake_one s q).1.2 (<[i := (wake_one s q).2]> Q) z)
| bs_sleep deadline s Q z :
    blocking_step (mkBlocking s Q z) (mkBlocking (sleep_current_until s deadline z).1.2 Q (sleep_current_until s deadline z).2)
| bs_expire now s Q z :
    blocking_step (mkBlocking s Q z) (mkBlocking (expire_sleepers s now z).1.2 Q (expire_sleepers s now z).2).

(** Everyone who waits, in one list. *)
Definition waiters (Q : list WaitQueue) (z : SleepQueue) : list TaskId := mjoin Q ++ (entry_task <$> z).

Record blocking_inv (b : Blocking) : Prop := mk_blocking_inv {
  bi_scheduler : sched_inv (bl_scheduler b);
  bi_sleepers : sleep_inv (bl_sleepers b);
  bi_once : NoDup (waiters (bl_queues b) (bl_sleepers b));
  bi_blocked : forall id, state (bl_scheduler b) id = Some Blocked <-> id ∈ waiters (bl_queues b) (bl_sleepers b);
}.

(** ** Plain operations *)

(** A move from one unblocked state to another one. *)
Lemma set_unblocked f id st id' :
  f id <> Some Blocked -> st <> Some Blocked -> a_set f id st id' = Some Blocked <-> f id' = Some Blocked.
Proof. intros Hf Hst. unfold a_set. case_decide; [subst; naive_solver|done]. Qed.

Lemma schedule_blocked s id :
  sched_inv s -> state (schedule_next s).2 id = Some Blocked <-> state s id = Some Blocked.
Proof.
  intros Hi. destruct (schedule_next_spec s Hi) as (_ & (Hst & _ & _) & _). cbn in Hst. rewrite Hst. clear Hst.
  assert (Hq : forall id, a_state (a_requeue (abs s)) id = Some Blocked <-> state s id = Some Blocked).
  { intros id'. unfold a_requeue. cbn. destruct (current s) as [p|]; [|done]. case_decide as Hp; [|done]. cbn.
    apply set_unblocked; congruence. }
  unfold a_schedule. destruct (a_queue (a_requeue (abs s))) as [|x q] eqn:Hr; cbn; [apply Hq|]. rewrite <- Hq.
  apply set_unblocked; [|done].
  assert (Hx : a_state (a_requeue (abs s)) x = Some Ready); [|by rewrite Hx].
  destruct (requeue_previous_spec s Hi) as (_ & Heq & Ha & _). apply (inv_ready (a_requeue (abs s))); [by rewrite <- Heq|].
  rewrite Hr. left.
Qed.

Lemma plain_blocked op s id :
  sched_inv s -> plain op s -> state (run_op op s) id = Some Blocked <-> state s id = Some Blocked.
Proof.
  intros Hi Hp. destruct op as [prio kind|t|t|t|t| | |q|q|d q|now q|]; try done; cbn [run_op].
  - destruct (create_task_spec (E := Empty_set) s prio kind Hi Hp) as (t & s' & -> & _ & Hn & _ & _ & (Hst & _) & _).
    cbn in Hst |- *. rewrite Hst. apply set_unblocked; [|done]. rewrite (proj2 (state_None s t) Hn). done.
  - destruct (attach_execution_spec s t Hi) as (_ & (Hst & _) & _). cbn in Hst. by rewrite Hst.
  - pose proof (destroy_created_spec s t Hi) as Hc. destruct (destroy_created s t) as [[h|e|] s']; [|by subst|done].
    destruct Hc as (Hs & _ & _ & (Hst & _) & _). cbn in Hst |- *. rewrite Hst. apply set_unblocked; congruence.
  - pose proof (make_ready_spec s t Hi) as Hc. destruct (make_ready s t) as [[] s']; [|by subst].
    destruct Hc as (_ & _ & (Hst & _) & _). cbn in Hst |- *. rewrite Hst. by apply set_unblocked.
  - pose proof (terminate_current_to_cases s t) as Hc. destruct (terminate_current_to s t) as [[?|?|] s']; [|by subst|done].
    destruct Hc as (_ & cur & tc & ts & q & _ & Hne & Htc & Hsc & Hts & Hss & _ & ->).
    destruct (terminate_abs s cur tc t ts q Htc Hts Hne) as (Hst & _). cbn in Hst |- *. rewrite Hst.
    assert (Hcur : state s cur = Some Running) by (apply state_Some; eauto).
    assert (Ht : state s t = Some Ready) by (apply state_Some; eauto).
    rewrite set_unblocked; [apply set_unblocked; congruence| |done]. rewrite a_set_ne by done. congruence.
  - by apply schedule_blocked.
  - destruct (exit_current s) as [[] s'] eqn:He; [|pose proof (exit_current_cases s) as Hc; rewrite He in Hc; by subst].
    destruct (exit_current_inv s s' Hi He) as (t & _ & Hr & (Hst & _) & _). cbn in Hst |- *. rewrite Hst.
    apply set_unblocked; congruence.
Qed.

(** ** Queue operations *)
Lemma join_update {A} (Q : list (list A)) i q q' :
  Q !! i = Some q -> exists rest, mjoin Q ≡ₚ q ++ rest /\ mjoin (<[i := q']> Q) ≡ₚ q' ++ rest.
Proof.
  intros Hi. exists (mjoin (take i Q) ++ mjoin (drop (S i) Q)). split.
  - rewrite <- (take_drop_middle Q i q Hi) at 1. rewrite join_app. cbn. solve_Permutation.
  - rewrite insert_take_drop by (by eapply lookup_lt_Some). rewrite join_app. cbn. solve_Permutation.
Qed.

Lemma NoDup_fmap_eq {A B} (f : A -> B) l x y : NoDup (f <$> l) -> x ∈ l -> y ∈ l -> f x = f y -> x = y.
Proof.
  intros Hn (i & Hx)%list_elem_of_lookup (j & Hy)%list_elem_of_lookup Hf.
  assert (i = j) as ->; [|congruence]. apply (NoDup_lookup (f <$> l) i j (f x)); [done|..]; rewrite list_lookup_fmap.
  - by rewrite Hx.
  - by rewrite Hy, Hf.
Qed.

(** The scheduler and the queues change by one waiter. *)
Lemma blocking_grow s s' Q z Q' z' id :
  blocking_inv (mkBlocking s Q z) -> blocked_from s s' id -> sleep_inv z' -> waiters Q' z' ≡ₚ id :: waiters Q z ->
  blocking_inv (mkBlocking s' Q' z').
Proof.
  intros [Hi Hz Hn Hb] Hf Hz' Hw. cbn in *. destruct (blocked_from_inv s s' id Hi Hf) as (Hi' & (Hst & _) & Hrun).
  cbn in Hst. split; cbn; [done|done| |].
  - rewrite Hw. apply NoDup_cons. split; [|done]. rewrite <- Hb. congruence.
  - intros id'. rewrite Hw, Hst, elem_of_cons, <- Hb. unfold a_set. case_decide; [subst; split; [by left|done]|].
    split; [by right|by intros [?|?]].
Qed.

Lemma blocking_shrink s s' Q z Q' z' id :
  blocking_inv (mkBlocking s Q z) -> woken_from s s' id -> sleep_inv z' -> waiters Q z ≡ₚ id :: waiters Q' z' ->
  blocking_inv (mkBlocking s' Q' z').
Proof.
  intros [Hi Hz Hn Hb] Hf Hz' Hw. cbn in *. destruct (woken_from_inv s s' id Hi Hf) as (Hi' & Hst & _). cbn in Hst.
  rewrite Hw in Hn. apply NoDup_cons in Hn as [Hid Hn]. split; cbn; [done|done|done|].
  intros id'. rewrite Hst. unfold a_set. case_decide as Hd; [subst; split; [done|by intros ?%Hid]|]. rewrite Hb, Hw, elem_of_cons. split; [by intros [?|?]|by right].
Qed.

(** In a queue of the system everybody is blocked, so a wake-up takes the head. *)
Lemma wake_takes_head s Q z i x q :
  blocking_inv (mkBlocking s Q z) -> Q !! i = Some (x :: q) ->
  exists s', wake_one s (x :: q) = (Some x, s', q) /\ woken_from s s' x.
Proof.
  intros [Hi _ _ Hb] Hq. cbn [bl_scheduler bl_queues bl_sleepers] in *. pose proof (wake_one_spec s (x :: q) Hi) as Hw.
  assert (Hall : forall w, w ∈ x :: q -> state s w = Some Blocked).
  { intros w Hin. apply Hb, elem_of_app. left. apply list_elem_of_join. exists (x :: q). split; [done|].
    by eapply list_elem_of_lookup_2. }
  destruct (wake_one s (x :: q)) as [[[id|] s'] q'].
  - destruct Hw as (Hw & q1 & Hsplit & Hno). destruct q1 as [|y q1]; cbn in Hsplit; simplify_eq; [by exists s'|]. apply Forall_cons in Hno as [Hy _]. destruct Hy. apply Hall. left.
  - destruct Hw as (_ & _ & Hno). apply Forall_cons in Hno as [Hx _]. destruct Hx. apply Hall. left.
Qed.

Lemma blocking_block s Q z i q :
  blocking_inv (mkBlocking s Q z) -> Q !! i = Some q ->
  blocking_inv (mkBlocking (block_current_on s q).1.2 (<[i := (block_current_on s q).2]> Q) z).
Proof.
  intros Hinv Hq. pose proof (block_current_on_cases s q) as Hc.
  destruct (block_current_on s q) as [[[id|e|] s'] q']; [| |done]; cbn [fst snd].
  - destruct Hc as (Hf & _ & ->). apply (blocking_grow s s' Q z _ _ id); [done|done|apply Hinv|].
    destruct (join_update Q i q (q ++ [id]) Hq) as (rest & H1 & H2). unfold waiters. rewrite H1, H2. solve_Permutation.
  - destruct Hc as [-> ->]. by rewrite list_insert_id.
Qed.

Lemma blocking_wake s Q z i q :
  blocking_inv (mkBlocking s Q z) -> Q !! i = Some q ->
  blocking_inv (mkBlocking (wake_one s q).1.2 (<[i := (wake_one s q).2]> Q) z).
Proof.
  intros Hinv Hq. destruct q as [|x q]; [cbn; by rewrite list_insert_id|].
  destruct (wake_takes_head s Q z i x q Hinv Hq) as (s' & -> & Hw). cbn [fst snd].
  apply (blocking_shrink s s' Q z _ _ x); [done|done|apply Hinv|].
  destruct (join_update Q i (x :: q) q Hq) as (rest & H1 & H2). unfold waiters. rewrite H1, H2. solve_Permutation.
Qed.

Lemma blocking_sleep s Q z deadline :
  blocking_inv (mkBlocking s Q z) ->
  blocking_inv (mkBlocking (sleep_current_until s deadline z).1.2 Q (sleep_current_until s deadline z).2).
Proof.
  intros Hinv. pose proof (bi_sleepers _ Hinv) as Hz. cbn in Hz. pose proof (sleep_current_until_cases s deadline z Hz) as Hc.
  destruct (sleep_current_until s deadline z) as [[[id|e|] s'] z']; [| |done]; cbn [fst snd].
  - destruct Hc as (Hf & Hn & ->). apply (blocking_grow s s' Q z _ _ id); [done|done| |].
    + split; [apply sorted_insert_sorted, Hz|]. rewrite sorted_insert_perm. cbn. apply NoDup_cons. split; [done|apply Hz].
    + unfold waiters. rewrite sorted_insert_perm. cbn. solve_Permutation.
  - by destruct Hc as [-> ->].
Qed.

Lemma blocking_expire s Q z now :
  blocking_inv (mkBlocking s Q z) ->
  blocking_inv (mkBlocking (expire_sleepers s now z).1.2 Q (expire_sleepers s now z).2).
Proof.
  intros [Hi Hz Hn Hb]. cbn [bl_scheduler bl_queues bl_sleepers] in *. pose proof (expire_sleepers_spec s now z Hi Hz) as He.
  destruct (expire_sleepers s now z) as [[woken s'] z']. destruct He as (Hwk & -> & _ & _ & Hst & Hi' & Hz').
  cbn [fst snd]. split; cbn [bl_scheduler bl_queues bl_sleepers]; [done|done| |].
  - unfold waiters in *. apply (sublist_NoDup _ _ Hn). apply sublist_app; [done|]. by apply fmap_sublist, sublist_filter.
  - intros id. rewrite Hst. case_decide as Hin.
    + split; [done|]. intros Hw. exfalso. subst woken. apply list_elem_of_filter in Hin as [_ Hin].
      apply list_elem_of_fmap in Hin as (e & -> & Hd%list_elem_of_filter). destruct Hd as [Hd He].
      unfold waiters in *. apply NoDup_app in Hn as (_ & Hdis & Hnz). apply elem_of_app in Hw as [Hw|Hw].
      * apply (Hdis _ Hw). apply list_elem_of_fmap. by exists e.
      * apply list_elem_of_fmap in Hw as (e' & Heq & [Hd' He']%list_elem_of_filter).
        assert (e' = e) as ->; [|lia]. by apply (NoDup_fmap_eq entry_task z).
    + rewrite Hb. unfold waiters. rewrite !elem_of_app. split; [|intros [?|Hw]; [by left|right]].
      * intros [?|Hw]; [by left|]. right. pose proof Hw as (e & -> & He)%list_elem_of_fmap.
        apply list_elem_of_fmap. exists e. split; [done|]. apply list_elem_of_filter. split; [|done].
        destruct (decide (entry_deadline e <= now)) as [Hd|]; [|lia]. exfalso. apply Hin. subst woken.
        apply list_elem_of_filter. split; [apply Hb, elem_of_app; by right|]. apply list_elem_of_fmap. exists e.
        split; [done|]. by apply list_elem_of_filter.
      * apply list_elem_of_fmap in Hw as (e & -> & [_ He]%list_elem_of_filter). apply list_elem_of_fmap. by exists e.
Qed.

Lemma blocking_step_inv b b' : blocking_step b b' -> blocking_inv b -> blocking_inv b'.
Proof.
  intros [op s Q z Hp|i q s Q z Hq|i q s Q z Hq|deadline s Q z|now s Q z] Hinv;
    auto using blocking_block, blocking_wake, blocking_sleep, blocking_expire.
  destruct Hinv as [Hi Hz Hn Hb]. cbn in *. split; cbn; [|done|done|].
  - apply (run_op_sound s op Hi). by destruct op.
  - intros id. rewrite <- Hb. by apply plain_blocked.
Qed.

Lemma blocking_new_inv n : blocking_inv (mkBlocking Scheduler_new (replicate n []) []).
Proof.
  assert (Hw : waiters (replicate n []) [] = []) by (unfold waiters; by induction n).
  split; cbn [bl_scheduler bl_queues bl_sleepers]; rewrite ?Hw.
  - exact Scheduler_new_inv.
  - split; constructor.
  - constructor.
  - intros id. by rewrite elem_of_nil.
Qed.

Lemma blocking_steps_inv b b' : rtc blocking_step b b' -> blocking_inv b -> blocking_inv b'.
Proof. induction 1; eauto using blocking_step_inv. Qed.

(** ** Theorem *)

(** Where a task is. *)
Inductive place := New | InReady | OnCpu | InQueue (i : nat) | Asleep.

Definition is_at (b : Blocking) (id : TaskId) (p : place) : Prop :=
  match p with
  | New => state (bl_scheduler b) id = Some Created
  | InReady => id ∈ ready (bl_scheduler b)
  | OnCpu => state (bl_scheduler b) id = Some Running /\ current (bl_scheduler b) = Some id
  | InQueue i => exists q, bl_queues b !! i = Some q /\ id ∈ q
  | Asleep => id ∈ entry_task <$> bl_sleepers b
  end.

Lemma join_disjoint {A} (Q : list (list A)) i j q r x :
  NoDup (mjoin Q) -> Q !! i = Some q -> Q !! j = Some r -> x ∈ q -> x ∈ r -> i = j.
Proof.
  revert i j. induction Q as [|l Q IH]; intros i j Hn; [done|]. apply NoDup_app in Hn as (_ & Hdis & Hn).
  assert (Hj : forall k s, Q !! k = Some s -> x ∈ s -> x ∈ mjoin Q).
  { intros k s Hk Hx. apply list_elem_of_join. exists s. split; [done|by eapply list_elem_of_lookup_2]. }
  destruct i as [|i], j as [|j]; cbn; intros Hi Hj' Hq Hr; simplify_eq; [done|..].
  - destruct (Hdis x); eauto.
  - destruct (Hdis x); eauto.
  - f_equal. eauto.
Qed.

(** The state a place stands for. *)
Definition place_state (p : place) : TaskState :=
  match p with New => Created | InReady => Ready | OnCpu => Running | InQueue _ | Asleep => Blocked end.

Lemma queued_waits (Q : list WaitQueue) i q id : Q !! i = Some q -> id ∈ q -> id ∈ mjoin Q.
Proof. intros Hq Hin. apply list_elem_of_join. exists q. split; [done|by eapply list_elem_of_lookup_2]. Qed.

Lemma is_at_state b id p : blocking_inv b -> is_at b id p -> state (bl_scheduler b) id = Some (place_state p).
Proof.
  intros [Hi _ _ Hb]. destruct p as [| | |i|]; cbn [is_at place_state].
  - done.
  - apply (inv_ready _ (proj2 Hi)).
  - by intros [? _].
  - intros (q & Hq & Hin). apply Hb, elem_of_app. left. by eapply queued_waits.
  - intros Hin. apply Hb, elem_of_app. by right.
Qed.

Lemma placed b id : blocking_inv b -> is_Some (state (bl_scheduler b) id) -> exists p, is_at b id p.
Proof.
  intros [Hi _ _ Hb] [st Hst]. pose proof (proj2 Hi) as [_ Hready Hrun _ Hlive]. cbn in Hready, Hrun, Hlive.
  destruct st.
  - by exists New.
  - exists InReady. by apply Hready.
  - exists OnCpu. split; [done|by apply Hrun].
  - apply Hb, elem_of_app in Hst as [(q & Hin & Hq)%list_elem_of_join|?]; [|by exists Asleep].
    apply list_elem_of_lookup in Hq as [i Hq]. exists (InQueue i). by exists q.
  - by destruct (Hlive id).
Qed.

Lemma placed_once b id p p' : blocking_inv b -> is_at b id p -> is_at b id p' -> p' = p.
Proof.
  intros Hinv Hp Hp'. pose proof (is_at_state b id p Hinv Hp) as H1. pose proof (is_at_state b id p' Hinv Hp') as H2.
  pose proof (bi_once b Hinv) as (Hnq & Hdis & _)%NoDup_app.
  assert (Hno : forall i, is_at b id (InQueue i) -> is_at b id Asleep -> False).
  { intros i (q & Hq & Hin) Hs. apply (Hdis id); [by eapply queued_waits|done]. }
  rewrite H1 in H2. destruct p, p'; try done; try (exfalso; by eauto).
  destruct Hp as (q & ? & ?), Hp' as (q' & ? & ?). f_equal. by eapply (join_disjoint (bl_queues b)).
Qed.

(** C4: No task is ever lost, and none is in two places.  In every state reached from an empty
    scheduler with any number of wait queues, by any sequence of creating, readying,
    scheduling, blocking, waking, sleeping, expiring, handing over and exiting, every task
    of the table is in exactly one place: new, in the ready queue, on the CPU, in one wait
    queue or asleep; and a wake-up of a queue with waiters takes its head and puts it at the
    end of the ready queue.  The callers keep two rules: tasks block through a queue, never
    through the bare [block_current], and [make_ready] is not called on a blocked task; and
    the table stays below 2^32 slots. *)
Theorem no_task_lost n b :
  rtc blocking_step (mkBlocking Scheduler_new (replicate n []) []) b ->
  (forall id, is_Some (state (bl_scheduler b) id) -> exists p, is_at b id p /\ forall p', is_at b id p' -> p' = p) /\
  (forall i x q, bl_queues b !! i = Some (x :: q) ->
     exists s', wake_one (bl_scheduler b) (x :: q) = (Some x, s', q) /\ ready s' = ready (bl_scheduler b) ++ [x]).
Proof.
  intros Hr. pose proof (blocking_steps_inv _ _ Hr (blocking_new_inv n)) as Hinv. destruct b as [s Q z].
  pose proof Hinv as [Hi Hz Hn Hb]. cbn [bl_scheduler bl_queues bl_sleepers] in *. split.
  - intros id Hid. destruct (placed _ id Hinv Hid) as [p Hp]. exists p. split; [done|]. intros p' Hp'.
    by apply (placed_once _ id _ _ Hinv).
  - intros i x q Hq. destruct (wake_takes_head s Q z i x q Hinv Hq) as (s' & Hw & Hf). exists s'. split; [done|].
    by destruct Hf as (t & _ & _ & ->).
Qed.

(** ** Three tasks: one waits, one sleeps, one runs *)
Definition demo_blocking : Blocking :=
  let s := run_ops [OpCreate Priority_DEFAULT Kernel; OpCreate Priority_DEFAULT Kernel; OpCreate Priority_DEFAULT Kernel;
                    OpMakeReady (mkTaskId 0 1); OpMakeReady (mkTaskId 1 1); OpMakeReady (mkTaskId 2 1); OpSchedule] Scheduler_new in
  let '(_, s, q) := block_current_on s [] in
  let s := (schedule_next s).2 in
  let '(_, s, z) := sleep_current_until s 9 [] in
  mkBlocking (schedule_next s).2 [[]; q] z.

Lemma demo_blocking_reachable : rtc blocking_step (mkBlocking Scheduler_new [[]; []] []) demo_blocking.
Proof.
  do 3 (eapply rtc_l; [apply (bs_plain (OpCreate Priority_DEFAULT Kernel)); vm_compute; discriminate|]).
  eapply rtc_l; [apply (bs_plain (OpMakeReady (mkTaskId 0 1))); vm_compute; discriminate|].
  eapply rtc_l; [apply (bs_plain (OpMakeReady (mkTaskId 1 1))); vm_compute; discriminate|].
  eapply rtc_l; [apply (bs_plain (OpMakeReady (mkTaskId 2 1))); vm_compute; discriminate|].
  eapply rtc_l; [by apply (bs_plain OpSchedule)|].
  eapply rtc_l; [apply (bs_block 1 []); reflexivity|]. eapply rtc_l; [by apply (bs_plain OpSchedule)|].
  eapply rtc_l; [apply (bs_sleep 9)|]. eapply rtc_l; [by apply (bs_plain OpSchedule)|]. vm_compute. apply rtc_refl.
Qed.

Lemma no_task_lost_witness :
  (exists p, is_at demo_blocking (mkTaskId 0 1) p /\ p = InQueue 1) /\
  exists s', wake_one (bl_scheduler demo_blocking) [mkTaskId 0 1] = (Some (mkTaskId 0 1), s', []) /\
    ready s' = [mkTaskId 0 1].
Proof.
  destruct (no_task_lost 2 demo_blocking demo_blocking_reachable) as [Hat Hw]. split.
  - destruct (Hat (mkTaskId 0 1)) as (p & Hp & Hone); [vm_compute; eauto|]. exists p. split; [exact Hp|]. symmetry.
    apply Hone. exists [mkTaskId 0 1]. split; [reflexivity|left].
  - exact (Hw 1%nat (mkTaskId 0 1) [] eq_refl).
Defined.

(** Why [make_ready] is left to new tasks: a task blocked on one queue and made ready from
    outside stays in that queue; when it then blocks on another one, a wake-up of the first
    queue takes it from there, and the second queue keeps a task that does not wait. *)
Example make_ready_leaves_waiter :
  let t := mkTaskId 0 1 in
  let '(_, s, q1) := block_current_on demo [] in
  let '(ok, s) := make_ready s t in
  let s := (schedule_next (schedule_next s).2).2 in
  let '(_, s, q2) := block_current_on s [] in
  let '(woken, s, q1) := wake_one s q1 in
  ok = true /\ woken = Some t /\ q1 = [] /\ q2 = [t] /\ state s t = Some Ready.
Proof. vm_compute. repeat split. Qed.
