(* ===== verification/Memory.v ===== *)
(** * Memory policy and primitives ([kernel/src/memory/])

    Virtual and physical ranges, pages and frames, the user-space layout, user
    pointer validation and page permissions, and the interfaces of a page-table
    view and a page-table mapper. *)

From stdpp Require Import base numbers sets list options.
From S2P Require Import Prelude Abi.

Local Open Scope Z_scope.
Local Open Scope rust_scope.

(** ** Address-space layout ([address_space.rs], [user_stack.rs]) *)
Definition PAGE_SIZE_4K : Z := 4096.
Definition USER_SPACE_START : Z := 65536.
Definition KERNEL_SPACE_START : Z := 18446603336221196288.
Definition USER_STACK_PAGES : Z := 16.
Definition USER_STACK_SIZE : Z := USER_STACK_PAGES * PAGE_SIZE_4K.
Definition USER_STACK_GUARD_SIZE : Z := PAGE_SIZE_4K.
Definition USER_STACK_TOP : Z := KERNEL_SPACE_START - 4096.
Definition LAYOUT_STACK_SIZE : Z := 16 * 4096.
Definition LAYOUT_STACK_TOP : Z := KERNEL_SPACE_START - 1048576.
Definition USER_IMAGE_BASE : Z := USER_SPACE_START + 1048576.

Record VirtRange := mkVirtRange { vr_start : Z; vr_end : Z }.

Global Instance VirtRange_eq_dec : EqDecision VirtRange.
Proof. solve_decision. Defined.

Definition VirtRange_new (start end_ : Z) : option VirtRange :=
  if start <=? end_ then Some (mkVirtRange start end_) else None.
Definition vr_len (r : VirtRange) : Z := vr_end r - vr_start r.
Definition vr_is_empty (r : VirtRange) : bool := vr_start r =? vr_end r.
Definition vr_contains (r : VirtRange) (address : Z) : bool :=
  (vr_start r <=? address) && (address <? vr_end r).
Definition vr_is_user (r : VirtRange) : bool :=
  (USER_SPACE_START <=? vr_start r) && (vr_end r <=? KERNEL_SPACE_START).
Definition vr_is_kernel (r : VirtRange) : bool := KERNEL_SPACE_START <=? vr_start r.

Record UserAddressSpaceLayout := mkLayout {
  layout_user : VirtRange;
  layout_stack : VirtRange;
  layout_guard : VirtRange;
  layout_image_base : Z;
}.

Definition UserAddressSpaceLayout_default : UserAddressSpaceLayout :=
  let stack_start := LAYOUT_STACK_TOP - LAYOUT_STACK_SIZE in
  let guard_start := stack_start - USER_STACK_GUARD_SIZE in
  mkLayout (mkVirtRange USER_SPACE_START KERNEL_SPACE_START)
           (mkVirtRange stack_start LAYOUT_STACK_TOP)
           (mkVirtRange guard_start stack_start) USER_IMAGE_BASE.

Definition layout_stack_top (l : UserAddressSpaceLayout) : Z := vr_end (layout_stack l).
Definition is_stack_address (l : UserAddressSpaceLayout) (address : Z) : bool := vr_contains (layout_stack l) address.
Definition is_guard_address (l : UserAddressSpaceLayout) (address : Z) : bool := vr_contains (layout_guard l) address.

Definition user_stack_range : option VirtRange :=
  data_start ← checked_sub USER_STACK_TOP USER_STACK_SIZE;
  VirtRange_new data_start USER_STACK_TOP.

Definition user_stack_guard_range : option VirtRange :=
  range ← user_stack_range;
  guard_start ← checked_sub (vr_start range) USER_STACK_GUARD_SIZE;
  VirtRange_new guard_start (vr_start range).

Definition is_valid_user_stack_pointer (rsp : Z) : bool :=
  match user_stack_range with
  | None => false
  | Some range => (vr_start range <=? rsp) && (rsp <=? vr_end range) && (rsp mod 16 =? 0)
  end.

(** ** Pages ([page.rs]) and physical ranges ([region.rs], [physical.rs]) *)
Record Page4K := mkPage { page_start : Z }.

Global Instance Page4K_eq_dec : EqDecision Page4K.
Proof. solve_decision. Defined.

Definition Page4K_from_start_address (address : Z) : option Page4K :=
  if address mod PAGE_SIZE_4K =? 0 then Some (mkPage address) else None.
Definition page_end_address (p : Page4K) : option Z := checked_add (page_start p) PAGE_SIZE_4K.
Definition page_range (p : Page4K) : option VirtRange :=
  match page_end_address p with
  | None => None
  | Some e => VirtRange_new (page_start p) e
  end.

Record PhysRange := mkPhysRange { pr_start : Z; pr_end : Z }.

Definition PhysRange_new (start end_ : Z) : option PhysRange :=
  if start <=? end_ then Some (mkPhysRange start end_) else None.
Definition pr_len (r : PhysRange) : Z := pr_end r - pr_start r.
Definition pr_contains (r : PhysRange) (address : Z) : bool :=
  (pr_start r <=? address) && (address <? pr_end r).
Definition page_count_4k (r : PhysRange) : option Z :=
  if negb (pr_start r mod 4096 =? 0) || negb (pr_end r mod 4096 =? 0) then None
  else Some (pr_len r / 4096).

Record PhysicalMemoryMapping := mkMapping { mapping_offset : Z }.

Definition phys_translate (m : PhysicalMemoryMapping) (physical_address : Z) : option Z :=
  checked_add (mapping_offset m) physical_address.
Definition translate_range (m : PhysicalMemoryMapping) (range : PhysRange) : option VirtRange :=
  start ← phys_translate m (pr_start range);
  end_ ← phys_translate m (pr_end range);
  VirtRange_new start end_.

Global Instance PhysicalMemoryMapping_eq_dec : EqDecision PhysicalMemoryMapping.
Proof. solve_decision. Defined.

(** [install_global] on the [Once] cell: the first installation wins, a second
    one is accepted only if it is the same mapping. *)
Definition install_global (m : PhysicalMemoryMapping) (cell : option PhysicalMemoryMapping)
  : result PhysicalMemoryMapping unit * option PhysicalMemoryMapping :=
  let installed := default m cell in
  (if bool_decide (installed = m) then Ok tt else Err installed, Some installed).

(** ** User pointers ([user.rs]) *)
Inductive UserRangeError := NullPointer | AddressOverflow | OutsideUserSpace.

Definition validate_slice (slice : UserSlice) : result UserRangeError VirtRange :=
  if slice_len slice =? 0 then
    match VirtRange_new (slice_ptr slice) (slice_ptr slice) with
    | Some r => Ok r
    | None => Panic
    end
  else if slice_ptr slice =? 0 then Err NullPointer
  else
    let? end_ := ok_or (checked_add (slice_ptr slice) (slice_len slice)) AddressOverflow in
    let? range := ok_or (VirtRange_new (slice_ptr slice) end_) AddressOverflow in
    if (vr_start range <? USER_SPACE_START) || (KERNEL_SPACE_START <? vr_end range)
    then Err OutsideUserSpace
    else Ok range.

(** ** Page-table contract ([page_table.rs]) *)
Inductive MappingError :=
| InvalidVirtualAddress
| InvalidPhysicalAddress
| OutsideAddressSpace
| AlreadyMapped
| NotMapped
| ParentEntryHugePage
| FrameAllocationFailed
| InvalidMappedFrame
| BackendFailure.

Global Instance MappingError_eq_dec : EqDecision MappingError.
Proof. solve_decision. Defined.

Record MappingFlags := mkFlags { flag_bits : Z }.

Global Instance MappingFlags_eq_dec : EqDecision MappingFlags.
Proof. solve_decision. Defined.

Definition FLAG_READ : Z := Z.shiftl 1 0.
Definition FLAG_WRITE : Z := Z.shiftl 1 1.
Definition FLAG_EXECUTE : Z := Z.shiftl 1 2.
Definition flags_read_only : MappingFlags := mkFlags FLAG_READ.
Definition flags_read_write : MappingFlags := mkFlags (Z.lor FLAG_READ FLAG_WRITE).
Definition flags_read_execute : MappingFlags := mkFlags (Z.lor FLAG_READ FLAG_EXECUTE).
Definition flags_read_write_execute : MappingFlags :=
  mkFlags (Z.lor (Z.lor FLAG_READ FLAG_WRITE) FLAG_EXECUTE).
Definition flags_readable (f : MappingFlags) : bool := negb (Z.land (flag_bits f) FLAG_READ =? 0).
Definition flags_writable (f : MappingFlags) : bool := negb (Z.land (flag_bits f) FLAG_WRITE =? 0).
Definition flags_executable (f : MappingFlags) : bool :=
  negb (Z.land (flag_bits f) FLAG_EXECUTE =? 0).
Definition is_writable_executable (f : MappingFlags) : bool :=
  flags_writable f && flags_executable f.

Record PageAccess := mkAccess {
  pa_mapped : bool;
  pa_user : bool;
  pa_readable : bool;
  pa_writable : bool;
  pa_executable : bool;
}.

Global Instance PageAccess_eq_dec : EqDecision PageAccess.
Proof. solve_decision. Defined.

Definition PageAccess_unmapped : PageAccess := mkAccess false false false false false.
Definition PageAccess_user_read_only : PageAccess := mkAccess true true true false false.
Definition PageAccess_user_read_write : PageAccess := mkAccess true true true true false.
Definition PageAccess_user_read_execute : PageAccess := mkAccess true true true false true.

(** [trait UserMemoryView]; an implementation may panic on an address. *)
Class UserMemoryView (M : Type) := {
  um_translate : M -> Z -> result Empty_set (option Z);
  um_page_access : M -> Z -> result Empty_set PageAccess;
  um_address_space : M -> VirtRange;
}.

(** [trait PageTableMapper]; the flush tokens carry no data and only order TLB
    invalidations, so they are not part of the results. *)
Class PageTableMapper (M : Type) `{UserMemoryView M} := {
  ptm_allocate_frame : M -> option Z * M;
  ptm_map_page : M -> Page4K -> Z -> MappingFlags -> result MappingError unit * M;
  ptm_unmap_page : M -> Page4K -> result MappingError Z * M;
}.

Definition KERNEL_ADDRESS_SPACE : VirtRange := mkVirtRange KERNEL_SPACE_START U64_MAX.

(** ** Ranges *)
Lemma VirtRange_new_Some a b r : VirtRange_new a b = Some r <-> r = mkVirtRange a b /\ a <= b.
Proof. unfold VirtRange_new. case_if; to_prop; split; intros; destruct_and?; simplify_eq; done || lia. Qed.

Lemma PhysRange_new_Some a b r : PhysRange_new a b = Some r <-> r = mkPhysRange a b /\ a <= b.
Proof. unfold PhysRange_new. case_if; to_prop; split; intros; destruct_and?; simplify_eq; done || lia. Qed.

Lemma vr_contains_spec r a : vr_contains r a = true <-> vr_start r <= a < vr_end r.
Proof. unfold vr_contains. rewrite andb_true_iff, Z.leb_le, Z.ltb_lt. lia. Qed.

Lemma vr_is_user_spec r :
  vr_is_user r = true <-> USER_SPACE_START <= vr_start r /\ vr_end r <= KERNEL_SPACE_START.
Proof. unfold vr_is_user. by rewrite andb_true_iff, !Z.leb_le. Qed.

(** Two ranges without a common address. *)
Definition ranges_disjoint (a b : VirtRange) : Prop := vr_end a <= vr_start b \/ vr_end b <= vr_start a.

Lemma ranges_disjoint_spec a b x :
  ranges_disjoint a b -> vr_contains a x = true -> vr_contains b x = false.
Proof.
  unfold ranges_disjoint. intros Hd Ha%vr_contains_spec. apply not_true_iff_false.
  intros Hb%vr_contains_spec. lia.
Qed.

Lemma user_stack_range_eq :
  user_stack_range = Some (mkVirtRange (USER_STACK_TOP - USER_STACK_SIZE) USER_STACK_TOP).
Proof. reflexivity. Qed.

(** The exact acceptance condition of [validate_slice]. *)
Lemma validate_slice_cases sl :
  is_u64 (slice_ptr sl) -> is_u64 (slice_len sl) ->
  match validate_slice sl with
  | Ok r => r = mkVirtRange (slice_ptr sl) (slice_ptr sl + slice_len sl) /\
            (slice_len sl = 0 \/
             (USER_SPACE_START <= slice_ptr sl /\ slice_ptr sl + slice_len sl <= KERNEL_SPACE_START))
  | Err NullPointer => slice_ptr sl = 0 /\ 0 < slice_len sl
  | Err AddressOverflow => U64_MAX < slice_ptr sl + slice_len sl
  | Err OutsideUserSpace =>
      0 < slice_len sl /\
      (slice_ptr sl < USER_SPACE_START \/ KERNEL_SPACE_START < slice_ptr sl + slice_len sl)
  | Panic => False
  end.
Proof.
  intros Hp Hl. unfold validate_slice. destruct (Z.eqb_spec (slice_len sl) 0) as [He|He].
  - unfold VirtRange_new. rewrite Z.leb_refl, He, Z.add_0_r. auto.
  - destruct (Z.eqb_spec (slice_ptr sl) 0) as [Hz|Hz]; [ulia|].
    destruct (checked_add (slice_ptr sl) (slice_len sl)) as [e|] eqn:Hc; simpl.
    + apply checked_add_Some in Hc as [-> Hc].
      destruct (VirtRange_new _ _) as [r|] eqn:Hr; simpl.
      * apply VirtRange_new_Some in Hr as [-> _]. simpl. case_if.
        -- split; [ulia|]. apply orb_true_iff in Heqb as [H|H]; to_prop; lia.
        -- to_prop. split; [done|]. lia.
      * unfold VirtRange_new in Hr. case_if; [done|]. to_prop. ulia.
    + by apply checked_add_None in Hc.
Qed.

Lemma validate_slice_ok sl :
  is_u64 (slice_ptr sl) -> is_u64 (slice_len sl) ->
  slice_len sl = 0 \/
    (USER_SPACE_START <= slice_ptr sl /\ slice_ptr sl + slice_len sl <= KERNEL_SPACE_START) ->
  validate_slice sl = Ok (mkVirtRange (slice_ptr sl) (slice_ptr sl + slice_len sl)).
Proof.
  intros Hp Hl Hc. pose proof (validate_slice_cases sl Hp Hl) as Hv.
  assert (0 < USER_SPACE_START /\ KERNEL_SPACE_START < U64_MAX) as [HU HK] by (by vm_compute).
  destruct (validate_slice sl) as [r|[]|]; [by destruct Hv as [-> _]|ulia..|done].
Qed.

(** A user slice is accepted exactly when it is empty or lies wholly between
    [USER_SPACE_START] and [KERNEL_SPACE_START]; the returned range is the slice, no
    accepted byte is a kernel address, and validation never panics, whatever 64-bit
    pointer and length userspace supplies. *)
Theorem validate_slice_exact sl :
  is_u64 (slice_ptr sl) -> is_u64 (slice_len sl) ->
  (is_ok (validate_slice sl) = true <->
     slice_len sl = 0 \/
     (USER_SPACE_START <= slice_ptr sl /\ slice_ptr sl + slice_len sl <= KERNEL_SPACE_START)) /\
  (forall r, validate_slice sl = Ok r ->
     vr_start r = slice_ptr sl /\ vr_len r = slice_len sl /\
     (forall a, vr_contains r a = true -> USER_SPACE_START <= a < KERNEL_SPACE_START)) /\
  validate_slice sl <> Panic.
Proof.
  intros Hp Hl. pose proof (validate_slice_cases sl Hp Hl) as Hc.
  assert (0 < USER_SPACE_START /\ KERNEL_SPACE_START < U64_MAX) as [HU HK] by (by vm_compute).
  split_and!.
  - destruct (validate_slice sl) as [r|[]|]; simpl; (split; [|]; intros; first [done|tauto|ulia]).
  - intros r Hr. rewrite Hr in Hc. destruct Hc as [-> Hc]. unfold vr_len. simpl.
    split_and!; [done|lia|]. intros a Ha%vr_contains_spec. simpl in Ha. lia.
  - intros Hr. by rewrite Hr in Hc.
Qed.

Lemma validate_slice_exact_witness :
  is_ok (validate_slice (mkUserSlice 65536 4096)) = true /\
  is_ok (validate_slice (mkUserSlice 18446744073709551612 8)) = false.
Proof.
  split; [|reflexivity].
  apply (validate_slice_exact (mkUserSlice 65536 4096)); [split; vm_compute; discriminate..|].
  right. split; vm_compute; discriminate.
Defined.
