(* ===== verification/Frames.v ===== *)
(** * Boot memory map and early frame allocation

    [kernel/src/memory/boot.rs] and [kernel/src/memory/frame.rs].  The
    bootloader's [MemoryRegion] is a parameter: a type with the start, the end
    and whether its kind is [Usable].  The allocator is shown to be a list of
    the page addresses of the usable regions, consumed from the front. *)

From stdpp Require Import base numbers sets list options.
From S2P Require Import Prelude Memory.

Local Open Scope Z_scope.

Definition FRAME_SIZE : Z := 4096.

Class BootRegion (R : Type) := {
  region_start : R -> Z;
  region_end : R -> Z;
  region_usable : R -> bool;
}.

(** ** Boot summary *)
Record MemorySummary := mkSummary {
  usable_bytes : Z;
  reserved_bytes : Z;
  malformed_regions : Z;
}.

Definition MemorySummary_default : MemorySummary := mkSummary 0 0 0.

Section Boot.
Context {R : Type} `{BootRegion R}.

Definition account_region (summary : MemorySummary) (region : R) : MemorySummary :=
  match PhysRange_new (region_start region) (region_end region) with
  | None => mkSummary (usable_bytes summary) (reserved_bytes summary)
                      (saturating_add (malformed_regions summary) 1)
  | Some range =>
      if region_usable region
      then mkSummary (saturating_add (usable_bytes summary) (pr_len range))
                     (reserved_bytes summary) (malformed_regions summary)
      else mkSummary (usable_bytes summary)
                     (saturating_add (reserved_bytes summary) (pr_len range))
                     (malformed_regions summary)
  end.

Definition summarize (regions : list R) : MemorySummary :=
  foldl account_region MemorySummary_default regions.

(** ** The allocator *)
Record Frame := mkFrame { frame_start : Z }.

Definition Frame_from_start_address (address : Z) : option Frame :=
  if address mod FRAME_SIZE =? 0 then Some (mkFrame address) else None.

Record ContiguousFrames := mkContiguous { cf_start : Z; cf_count : Z }.

Definition cf_byte_len (c : ContiguousFrames) : option Z := checked_mul (cf_count c) FRAME_SIZE.
Definition cf_byte_end (c : ContiguousFrames) : option Z :=
  bytes ← checked_mul (cf_count c) FRAME_SIZE; checked_add (cf_start c) bytes.
Definition cf_physical_range (c : ContiguousFrames) : option PhysRange :=
  e ← cf_byte_end c; PhysRange_new (cf_start c) e.

Record EarlyFrameAllocator := mkEarly {
  fa_regions : list R;
  fa_current_end : Z;
  fa_next_address : Z;
}.

Definition EarlyFrameAllocator_new (regions : list R) : EarlyFrameAllocator := mkEarly regions 0 0.
Definition fa_checkpoint (a : EarlyFrameAllocator) : EarlyFrameAllocator := a.
Definition fa_rollback (a checkpoint : EarlyFrameAllocator) : EarlyFrameAllocator := checkpoint.

Definition align_up (address : Z) : option Z :=
  let mask := FRAME_SIZE - 1 in
  (fun value => Z.land value (not_u64 mask)) <$> checked_add address mask.

(** The [for region in &mut self.regions] loop advances the iterator past every
    region it looks at. *)
Fixpoint select_loop (regions : list R) (a : EarlyFrameAllocator) : bool * EarlyFrameAllocator :=
  match regions with
  | [] => (false, mkEarly [] (fa_current_end a) (fa_next_address a))
  | region :: regions =>
      if negb (region_usable region) then select_loop regions a else
      match PhysRange_new (region_start region) (region_end region) with
      | None => select_loop regions a
      | Some range =>
          match align_up (pr_start range) with
          | None => select_loop regions a
          | Some start =>
              if pr_end range <=? start then select_loop regions a
              else (true, mkEarly regions (pr_end range) start)
          end
      end
  end.

Definition select_next_usable_region (a : EarlyFrameAllocator) : bool * EarlyFrameAllocator :=
  select_loop (fa_regions a) a.

(** The allocation loops, with fuel; [None] means the fuel ran out. *)
Fixpoint allocate_frame_loop (fuel : nat) (a : EarlyFrameAllocator)
  : option (option Frame * EarlyFrameAllocator) :=
  match fuel with
  | O => None
  | S fuel =>
      if fa_next_address a <? fa_current_end a then
        match Frame_from_start_address (fa_next_address a) with
        | None => Some (None, a)
        | Some frame =>
            match checked_add (fa_next_address a) FRAME_SIZE with
            | None => Some (None, a)
            | Some next => Some (Some frame, mkEarly (fa_regions a) (fa_current_end a) next)
            end
        end
      else
        let '(found, a) := select_next_usable_region (mkEarly (fa_regions a) 0 0) in
        if found then allocate_frame_loop fuel a else Some (None, a)
  end.

Fixpoint allocate_contiguous_loop (fuel : nat) (frame_count bytes : Z) (a : EarlyFrameAllocator)
  : option (option ContiguousFrames * EarlyFrameAllocator) :=
  match fuel with
  | O => None
  | S fuel =>
      let retry :=
        let '(found, a) := select_next_usable_region (mkEarly (fa_regions a) 0 0) in
        if found then allocate_contiguous_loop fuel frame_count bytes a else Some (None, a) in
      if fa_next_address a <? fa_current_end a then
        match checked_add (fa_next_address a) bytes with
        | None => Some (None, a)
        | Some end_ =>
            if end_ <=? fa_current_end a
            then Some (Some (mkContiguous (fa_next_address a) frame_count),
                       mkEarly (fa_regions a) (fa_current_end a) end_)
            else retry
        end
      else retry
  end.

(** Each iteration but the last consumes a region. *)
Definition alloc_fuel (a : EarlyFrameAllocator) : nat := S (S (length (fa_regions a))).

Definition allocate_frame (a : EarlyFrameAllocator) : option (option Frame * EarlyFrameAllocator) :=
  allocate_frame_loop (alloc_fuel a) a.

Definition allocate_contiguous (frame_count : Z) (a : EarlyFrameAllocator)
  : option (option ContiguousFrames * EarlyFrameAllocator) :=
  if frame_count =? 0 then Some (None, a)
  else match checked_mul frame_count FRAME_SIZE with
       | None => Some (None, a)
       | Some bytes => allocate_contiguous_loop (alloc_fuel a) frame_count bytes a
       end.
End Boot.
Arguments EarlyFrameAllocator : clear implicits.

(** ** The allocator as a list of page addresses *)

(** [start, start + 4096, ...] below [end]. *)
Fixpoint pages_from (n : nat) (start : Z) : list Z :=
  match n with O => [] | S n => start :: pages_from n (start + FRAME_SIZE) end.

Definition pages_between (start end_ : Z) : list Z :=
  pages_from (Z.to_nat ((end_ - start + (FRAME_SIZE - 1)) / FRAME_SIZE)) start.

Definition page_ceil (x : Z) : Z := (x + (FRAME_SIZE - 1)) / FRAME_SIZE * FRAME_SIZE.

Lemma pages_between_nil start end_ : end_ <= start -> pages_between start end_ = [].
Proof.
  intros Hse. unfold pages_between.
  replace (Z.to_nat _) with O; [done|].
  assert ((end_ - start + (FRAME_SIZE - 1)) / FRAME_SIZE < 1) by (apply Z.div_lt_upper_bound; unfold FRAME_SIZE in *; lia).
  lia.
Qed.

Lemma pages_between_cons start end_ :
  start < end_ -> pages_between start end_ = start :: pages_between (start + FRAME_SIZE) end_.
Proof.
  intros Hse. unfold pages_between.
  replace (end_ - start + (FRAME_SIZE - 1))
    with (end_ - (start + FRAME_SIZE) + (FRAME_SIZE - 1) + 1 * FRAME_SIZE) by lia.
  rewrite Z.div_add by done.
  assert (0 <= (end_ - (start + FRAME_SIZE) + (FRAME_SIZE - 1)) / FRAME_SIZE)
    by (apply Z.div_pos; unfold FRAME_SIZE in *; lia).
  rewrite Z2Nat.inj_add by lia. rewrite Nat.add_comm. done.
Qed.

Lemma elem_of_pages_from n start x :
  x ∈ pages_from n start <-> exists k, (k < n)%nat /\ x = start + Z.of_nat k * FRAME_SIZE.
Proof.
  revert start. induction n as [|n IH]; intros start; simpl.
  - rewrite elem_of_nil. split; [done|]. intros (k & ? & _). lia.
  - rewrite elem_of_cons, IH. split.
    + intros [->|(k & Hk & ->)]; [exists O; lia|exists (S k); lia].
    + intros (k & Hk & ->). destruct k as [|k]; [left; lia|right]. exists k. lia.
Qed.

Lemma pages_from_NoDup n start : NoDup (pages_from n start).
Proof.
  revert start. induction n as [|n IH]; intros start; simpl; constructor; [|done].
  rewrite elem_of_pages_from. intros (k & _ & Hk). unfold FRAME_SIZE in Hk. lia.
Qed.

Lemma elem_of_pages_between start end_ x :
  x ∈ pages_between start end_ -> start <= x < end_ /\ (x - start) mod FRAME_SIZE = 0.
Proof.
  unfold pages_between. rewrite elem_of_pages_from. intros (k & Hk & ->).
  assert (Z.of_nat k < (end_ - start + (FRAME_SIZE - 1)) / FRAME_SIZE) as Hlt by lia.
  assert (FRAME_SIZE * (Z.of_nat k + 1) <= end_ - start + (FRAME_SIZE - 1)).
  { etrans; [|apply (Z.mul_div_le _ FRAME_SIZE); done]. apply Z.mul_le_mono_nonneg_l; [done|lia]. }
  split; [unfold FRAME_SIZE in *; lia|].
  replace (start + Z.of_nat k * FRAME_SIZE - start) with (Z.of_nat k * FRAME_SIZE) by lia.
  by apply Z.mod_mul.
Qed.

Lemma align_up_spec x :
  0 <= x -> x + FRAME_SIZE <= U64_MAX ->
  exists y, align_up x = Some y /\ y mod FRAME_SIZE = 0 /\ x <= y < x + FRAME_SIZE.
Proof.
  intros H0 H1. unfold align_up, FRAME_SIZE in *.
  assert (checked_add x (4096 - 1) = Some (x + 4095)) as -> by (apply checked_add_Some; lia).
  simpl. exists (x + 4095 - (x + 4095) mod 4096). rewrite land_page_mask by ulia.
  pose proof (Z.mod_pos_bound (x + 4095) 4096 ltac:(lia)).
  pose proof (Z.div_mod (x + 4095) 4096 ltac:(lia)) as Hdm. split_and!; [done| |lia|lia].
  replace (x + 4095 - (x + 4095) mod 4096) with ((x + 4095) / 4096 * 4096) by lia.
  by apply Z.mod_mul.
Qed.

Section Refinement.
Context {R : Type} `{BootRegion R}.

(** A region that ends at least a page below 2{^64}. *)
Definition region_ok (r : R) : Prop :=
  0 <= region_start r /\ 0 <= region_end r /\ region_end r + FRAME_SIZE <= U64_MAX.

Definition region_pages (r : R) : list Z :=
  if region_usable r && (region_start r <=? region_end r) then
    match align_up (region_start r) with
    | Some s => pages_between s (region_end r)
    | None => []
    end
  else [].

(** The frames the allocator still has to give, in order. *)
Definition free_frames (a : EarlyFrameAllocator R) : list Z :=
  pages_between (fa_next_address a) (fa_current_end a) ++ concat (region_pages <$> fa_regions a).

Record fa_wf (a : EarlyFrameAllocator R) : Prop := mk_fa_wf {
  fw_aligned : fa_next_address a mod FRAME_SIZE = 0;
  fw_next : 0 <= fa_next_address a;
  fw_end : fa_current_end a + FRAME_SIZE <= U64_MAX;
  fw_regions : Forall region_ok (fa_regions a);
}.

Lemma EarlyFrameAllocator_new_wf regions :
  Forall region_ok regions -> fa_wf (EarlyFrameAllocator_new regions).
Proof using Type. intros Hr. by split. Qed.

Lemma select_loop_spec regions a :
  Forall region_ok regions ->
  match select_loop regions a with
  | (true, a') =>
      fa_wf a' /\ fa_next_address a' < fa_current_end a' /\
      (length (fa_regions a') < length regions)%nat /\
      concat (region_pages <$> regions) = free_frames a'
  | (false, a') =>
      concat (region_pages <$> regions) = [] /\
      a' = mkEarly [] (fa_current_end a) (fa_next_address a)
  end.
Proof using Type.
  intros Hok. induction Hok as [|r regions (H0 & H1 & H2) Hok IH]; simpl; [done|].
  assert (Hskip : region_pages r = [] ->
    match select_loop regions a with
    | (true, a') => fa_wf a' /\ fa_next_address a' < fa_current_end a' /\
        (length (fa_regions a') < S (length regions))%nat /\
        region_pages r ++ concat (region_pages <$> regions) = free_frames a'
    | (false, a') => region_pages r ++ concat (region_pages <$> regions) = [] /\
        a' = mkEarly [] (fa_current_end a) (fa_next_address a)
    end).
  { intros ->. simpl. destruct (select_loop regions a) as [[] a']; [|done].
    destruct IH as (? & ? & ? & ?). split_and!; [done|done|lia|done]. }
  destruct (region_usable r) eqn:Hu; simpl; [|apply Hskip; unfold region_pages; by rewrite Hu].
  unfold PhysRange_new. destruct (region_start r <=? region_end r) eqn:Hse; simpl.
  2: { apply Hskip. unfold region_pages. by rewrite Hu, Hse. }
  to_prop. destruct (align_up_spec (region_start r) H0) as (y & Hy & Hal & Hb); [lia|].
  assert (Hp : region_pages r = pages_between y (region_end r)).
  { unfold region_pages. rewrite Hu, (proj2 (Z.leb_le _ _)) by done. simpl. by rewrite Hy. }
  rewrite Hy. destruct (region_end r <=? y) eqn:Hye; to_prop.
  - apply Hskip. rewrite Hp. by apply pages_between_nil.
  - split_and!; simpl; [split; simpl; [done|lia|done|done]|done|lia|]. by rewrite Hp.
Qed.

Lemma free_frames_next a :
  fa_wf a -> fa_next_address a < fa_current_end a ->
  free_frames a = fa_next_address a ::
    free_frames (mkEarly (fa_regions a) (fa_current_end a) (fa_next_address a + FRAME_SIZE)) /\
  fa_wf (mkEarly (fa_regions a) (fa_current_end a) (fa_next_address a + FRAME_SIZE)).
Proof using Type.
  intros [Ha Hn He Hr] Hlt. split.
  - unfold free_frames. simpl. by rewrite pages_between_cons.
  - split; simpl; [|unfold FRAME_SIZE; lia|done|done].
    rewrite <- Z.add_mod_idemp_l, Ha by done. done.
Qed.

(** One frame: the head of the free list, or nothing when it is empty. *)
Lemma allocate_frame_loop_spec fuel a :
  fa_wf a -> (S (length (fa_regions a)) < fuel)%nat ->
  exists a', allocate_frame_loop fuel a = Some (mkFrame <$> head (free_frames a), a') /\
             free_frames a' = tail (free_frames a) /\ fa_wf a'.
Proof using Type.
  revert a. induction fuel as [|fuel IH]; intros a Hw Hf; [lia|]. simpl.
  destruct (fa_next_address a <? fa_current_end a) eqn:Hlt; to_prop.
  - destruct (free_frames_next a Hw Hlt) as [-> Hw']. destruct Hw as [Ha Hn He Hr].
    unfold Frame_from_start_address. rewrite Ha. simpl.
    assert (checked_add (fa_next_address a) FRAME_SIZE = Some (fa_next_address a + FRAME_SIZE)) as ->
      by (apply checked_add_Some; lia).
    eexists. split; [done|]. done.
  - unfold select_next_usable_region.
    pose proof (select_loop_spec (fa_regions a) (mkEarly (fa_regions a) 0 0) (fw_regions a Hw)) as Hs.
    assert (free_frames a = concat (region_pages <$> fa_regions a)) as ->
      by (unfold free_frames; by rewrite pages_between_nil).
    simpl.
    destruct (select_loop _ _) as [[] a1].
    + destruct Hs as (Hw1 & Hlt1 & Hlen & ->). apply IH; [done|lia].
    + destruct Hs as [-> ->]. eexists. split; [done|]. split; [done|]. split; simpl; try done.
Qed.

(** A run of [n] pages carved off the front of the current region; regions too
    small for it are skipped and lost. *)
Lemma pages_between_split n start end_ :
  start + Z.of_nat n * FRAME_SIZE <= end_ ->
  pages_between start end_ =
    pages_from n start ++ pages_between (start + Z.of_nat n * FRAME_SIZE) end_.
Proof using Type.
  revert start. induction n as [|n IH]; intros start Hle; simpl; [f_equal; lia|].
  rewrite pages_between_cons by (unfold FRAME_SIZE in *; lia). rewrite IH by lia. simpl.
  do 3 f_equal. lia.
Qed.

Lemma allocate_contiguous_loop_spec fuel count a :
  fa_wf a -> (S (length (fa_regions a)) < fuel)%nat -> 0 < count ->
  exists r a', allocate_contiguous_loop fuel count (count * FRAME_SIZE) a = Some (r, a') /\ fa_wf a' /\
  match r with
  | Some c => cf_count c = count /\ exists skipped,
      free_frames a = skipped ++ pages_from (Z.to_nat count) (cf_start c) ++ free_frames a' /\
      cf_start c mod FRAME_SIZE = 0 /\ 0 <= cf_start c
  | None => True
  end.
Proof using Type.
  intros Hw Hf Hc. revert a Hw Hf. induction fuel as [|fuel IH]; intros a Hw Hf; [lia|].
  assert (Hretry : exists r a',
    (let '(found, a0) := select_next_usable_region (mkEarly (fa_regions a) 0 0) in
     if found then allocate_contiguous_loop fuel count (count * FRAME_SIZE) a0 else Some (None, a0))
    = Some (r, a') /\ fa_wf a' /\
    match r with
    | Some c => cf_count c = count /\ exists skipped,
        free_frames a = skipped ++ pages_from (Z.to_nat count) (cf_start c) ++ free_frames a' /\
        cf_start c mod FRAME_SIZE = 0 /\ 0 <= cf_start c
    | None => True
    end).
  { unfold select_next_usable_region.
    pose proof (select_loop_spec (fa_regions a) (mkEarly (fa_regions a) 0 0) (fw_regions a Hw)) as Hs.
    simpl. destruct (select_loop _ _) as [[] a1].
    - destruct Hs as (Hw1 & Hlt1 & Hlen & Hff). destruct (IH a1 Hw1) as (r & a' & Heq & Hw' & Hr); [lia|].
      exists r, a'. split_and!; [done|done|]. destruct r as [c|]; [|done].
      destruct Hr as (? & skipped & Hsk & ?). split; [done|].
      exists (pages_between (fa_next_address a) (fa_current_end a) ++ skipped).
      split; [|done]. unfold free_frames at 1. rewrite Hff, Hsk. by rewrite <- app_assoc.
    - destruct Hs as [_ ->]. eexists None, _. split; [done|]. split; [split; simpl; done|done]. }
  cbn [allocate_contiguous_loop]. destruct (fa_next_address a <? fa_current_end a) eqn:Hlt; [|done].
  destruct (checked_add _ _) as [e|] eqn:He; [|by eexists None, a].
  apply checked_add_Some in He as [-> He].
  destruct (_ <=? fa_current_end a) eqn:Hle; [|done]. to_prop.
  eexists (Some _), _. split; [done|]. destruct Hw as [Ha Hn Hend Hr]. split.
  - split; simpl; [|unfold FRAME_SIZE; lia|done|done]. by rewrite Z.mod_add.
  - split; [done|]. exists []. simpl. split; [|done]. unfold free_frames. simpl.
    rewrite (pages_between_split (Z.to_nat count)); rewrite Z2Nat.id by lia; [|done].
    by rewrite <- app_assoc.
Qed.
End Refinement.

(** ** Sequences of allocations *)
Section Allocations.
Context {R : Type} `{BootRegion R}.

Fixpoint allocate_frames (n : nat) (a : EarlyFrameAllocator R)
  : option (list Z * EarlyFrameAllocator R) :=
  match n with
  | O => Some ([], a)
  | S n =>
      r ← allocate_frame a;
      match r with
      | (None, a) => Some ([], a)
      | (Some f, a) => '(fs, a) ← allocate_frames n a; Some (frame_start f :: fs, a)
      end
  end.

Lemma allocate_frame_spec a :
  fa_wf a ->
  exists a', allocate_frame a = Some (mkFrame <$> head (free_frames a), a') /\
             free_frames a' = tail (free_frames a) /\ fa_wf a'.
Proof using Type. intros Hw. apply allocate_frame_loop_spec; [done|]. unfold alloc_fuel. lia. Qed.

Lemma allocate_frames_spec n a :
  fa_wf a ->
  exists a', allocate_frames n a = Some (take n (free_frames a), a') /\
             free_frames a' = drop n (free_frames a) /\ fa_wf a'.
Proof using Type.
  revert a. induction n as [|n IH]; intros a Hw; cbn [allocate_frames]; [eauto|].
  destruct (allocate_frame_spec a Hw) as (a1 & -> & Hf & Hw1). simpl.
  destruct (free_frames a) as [|x fs]; simpl in *; [exists a1; done|].
  destruct (IH a1 Hw1) as (a2 & -> & Hd & Hw2). exists a2. simpl. rewrite Hf in *. done.
Qed.

(** Usable regions share no address. *)
Definition usable_disjoint (r1 r2 : R) : Prop :=
  region_usable r1 = true -> region_usable r2 = true ->
  region_end r1 <= region_start r2 \/ region_end r2 <= region_start r1.

Lemma elem_of_region_pages r x :
  region_ok r -> x ∈ region_pages r ->
  region_usable r = true /\ region_start r <= x < region_end r /\ x mod FRAME_SIZE = 0.
Proof using Type.
  intros (H0 & H1 & H2) Hx. unfold region_pages in Hx.
  destruct (region_usable r && _) eqn:Hb; [|by apply elem_of_nil in Hx]. to_prop.
  destruct (align_up_spec (region_start r)) as (y & Hy & Hal & Hb); [done|lia|]. rewrite Hy in Hx.
  apply elem_of_pages_between in Hx as [Hr Hm]. split_and!; [done|lia|lia|].
  replace x with (x - y + y) by lia. rewrite <- Z.add_mod_idemp_l, Hm by done. done.
Qed.

Lemma region_pages_NoDup r : NoDup (region_pages r).
Proof using Type.
  unfold region_pages, pages_between. repeat case_match; auto using pages_from_NoDup, NoDup_nil_2.
Qed.

Lemma elem_of_all_pages regions x :
  Forall region_ok regions -> x ∈ concat (region_pages <$> regions) ->
  exists r, r ∈ regions /\ region_usable r = true /\
            region_start r <= x < region_end r /\ x mod FRAME_SIZE = 0.
Proof using Type.
  intros Hok. induction Hok as [|r regions Hr Hok IH]; simpl; [by intros ?%elem_of_nil|].
  rewrite elem_of_app. intros [Hx|Hx].
  - apply elem_of_region_pages in Hx; [|done]. exists r. split; [left|done].
  - destruct (IH Hx) as (r' & ? & ?). exists r'. split; [by right|done].
Qed.

Lemma all_pages_NoDup regions :
  Forall region_ok regions -> ForallOrdPairs usable_disjoint regions ->
  NoDup (concat (region_pages <$> regions)).
Proof using Type.
  intros Hok Hd. induction Hd as [|r regions Hr Hd IH]; simpl; [constructor|].
  apply Forall_cons in Hok as [Hokr Hok]. apply NoDup_app.
  split_and!; [apply region_pages_NoDup| |by apply IH].
  intros x Hx1 Hx2. apply elem_of_region_pages in Hx1 as (Hu1 & Hb1 & _); [|done].
  apply elem_of_all_pages in Hx2 as (r2 & Hin & Hu2 & Hb2 & _); [|done].
  apply List.Forall_forall with (x := r2) in Hr; [|by apply list_elem_of_In].
  destruct (Hr Hu1 Hu2); lia.
Qed.
End Allocations.

(** C36: the early frame allocator never hands out a frame twice, never hands
    out memory outside the usable regions, and never skips a usable page.  For
    any number [n] of allocations over regions of which the usable ones do not
    overlap and end on page boundaries, and all end at least a page below 2{^64}, the
    frames are the first [n] pages of the usable regions in order; they are
    distinct, aligned, and each lies wholly inside a usable region.  The loops
    terminate (the fuel suffices). *)
Theorem frame_allocator_sound {R} `{BootRegion R} (regions : list R) n :
  Forall region_ok regions -> ForallOrdPairs usable_disjoint regions ->
  Forall (fun r => region_usable r = true -> region_end r mod FRAME_SIZE = 0) regions ->
  exists fs a', allocate_frames n (EarlyFrameAllocator_new regions) = Some (fs, a') /\
    fs = take n (concat (region_pages <$> regions)) /\ NoDup fs /\
    Forall (fun f => exists r, r ∈ regions /\ region_usable r = true /\
              region_start r <= f /\ f + FRAME_SIZE <= region_end r /\ f mod FRAME_SIZE = 0) fs.
Proof.
  intros Hok Hd Hal.
  destruct (allocate_frames_spec n _ (EarlyFrameAllocator_new_wf regions Hok)) as (a' & Heq & _ & _).
  eexists _, a'. split; [exact Heq|]. split; [done|].
  pose proof (all_pages_NoDup regions Hok Hd) as Hnd. unfold free_frames. simpl. split.
  - eapply sublist_NoDup; [exact Hnd|]. apply sublist_take.
  - apply Forall_forall. intros f Hf.
    assert (Hin : f ∈ concat (region_pages <$> regions))
      by (eapply elem_of_sublist; [exact Hf|apply sublist_take]).
    apply elem_of_all_pages in Hin as (r & Hr & Hu & Hb & Hm); [|done].
    exists r. split_and!; [done|done|lia| |done].
    rewrite Forall_forall in Hal. specialize (Hal r Hr Hu). cbv beta in Hal.
    pose proof (Z.div_mod f FRAME_SIZE ltac:(done)).
    pose proof (Z.div_mod (region_end r) FRAME_SIZE ltac:(done)). unfold FRAME_SIZE in *. lia.
Qed.

(** A concrete region descriptor. *)
Record DemoRegion := mkRegion { dr_start : Z; dr_end : Z; dr_usable : bool }.
Global Instance DemoRegion_region : BootRegion DemoRegion :=
  {| region_start := dr_start; region_end := dr_end; region_usable := dr_usable |}.

Definition demo_map : list DemoRegion :=
  [mkRegion 0 8192 false; mkRegion 12289 24576 true; mkRegion 28672 32768 true].

Lemma demo_map_ok :
  Forall region_ok demo_map /\ ForallOrdPairs usable_disjoint demo_map /\
  Forall (fun r => region_usable r = true -> region_end r mod FRAME_SIZE = 0) demo_map.
Proof.
  split_and!; repeat constructor; vm_compute; try discriminate; try tauto.
Qed.

Lemma frame_allocator_sound_witness :
  exists fs a', allocate_frames 4 (EarlyFrameAllocator_new demo_map) = Some (fs, a') /\
                fs = [16384; 20480; 28672] /\ NoDup fs.
Proof.
  destruct demo_map_ok as (H1 & H2 & H3).
  destruct (frame_allocator_sound demo_map 4 H1 H2 H3) as (fs & a' & Heq & Hfs & Hnd & _).
  exists fs, a'. split; [exact Heq|]. split; [rewrite Hfs; reflexivity|exact Hnd].
Defined.

(** [allocate_contiguous] returns, and a run it gives consists of
    consecutive free pages taken off the free list in one piece: the run is
    disjoint from everything handed out before and after it, page aligned, and
    its byte range does not overflow. *)
Theorem allocate_contiguous_sound {R} `{BootRegion R} (a : EarlyFrameAllocator R) count :
  fa_wf a -> 0 <= count ->
  exists r a', allocate_contiguous count a = Some (r, a') /\ fa_wf a' /\
  match r with
  | Some c =>
      0 < count /\ cf_count c = count /\ cf_start c mod FRAME_SIZE = 0 /\
      cf_byte_len c = Some (count * FRAME_SIZE) /\
      (exists skipped, free_frames a =
         skipped ++ pages_from (Z.to_nat count) (cf_start c) ++ free_frames a')
  | None => True
  end.
Proof.
  intros Hw Hc. unfold allocate_contiguous. destruct (Z.eqb_spec count 0); [by eexists None, a|].
  destruct (checked_mul count FRAME_SIZE) as [bytes|] eqn:Hm; [|by eexists None, a].
  pose proof Hm as [-> Hmax]%checked_mul_Some.
  destruct (allocate_contiguous_loop_spec (alloc_fuel a) count a Hw) as (r & a' & Heq & Hw' & Hr);
    [unfold alloc_fuel; lia|lia|].
  exists r, a'. split_and!; [done|done|]. destruct r as [c|]; [|done].
  destruct Hr as (Hcc & skipped & Hsk & Hal & _). split_and!; [lia|done|done| |eauto].
  unfold cf_byte_len. by rewrite Hcc.
Qed.

Lemma allocate_contiguous_sound_witness :
  exists r a', allocate_contiguous 2 (EarlyFrameAllocator_new demo_map) = Some (r, a') /\
               r = Some (mkContiguous 16384 2).
Proof.
  destruct (allocate_contiguous_sound (EarlyFrameAllocator_new demo_map) 2) as (r & a' & Heq & _).
  - apply EarlyFrameAllocator_new_wf, demo_map_ok.
  - discriminate.
  - exists r, a'. split; [exact Heq|]. vm_compute in Heq. by injection Heq as <- _.
Defined.

(** Where a usable region does not end on a page boundary, [allocate_frame]
    hands out a frame that reaches past the region's end, while
    [allocate_contiguous] of one frame refuses the same region. *)
Theorem allocate_frame_overruns_region {R} `{BootRegion R} (r : R) :
  region_ok r -> region_usable r = true -> region_start r mod FRAME_SIZE = 0 ->
  region_start r < region_end r < region_start r + FRAME_SIZE ->
  (exists a', allocate_frame (EarlyFrameAllocator_new [r]) = Some (Some (mkFrame (region_start r)), a')) /\
  region_end r < region_start r + FRAME_SIZE /\
  (exists a', allocate_contiguous 1 (EarlyFrameAllocator_new [r]) = Some (None, a')).
Proof.
  intros (H0 & H1 & H2) Hu Hal Hlt.
  destruct (align_up_spec (region_start r)) as (y & Hy & Hyal & Hb); [done|lia|].
  assert (y = region_start r) as ->.
  { pose proof (Z.div_mod y FRAME_SIZE ltac:(done)).
    pose proof (Z.div_mod (region_start r) FRAME_SIZE ltac:(done)). unfold FRAME_SIZE in *. lia. }
  assert (Hsel : forall a, select_loop [r] a = (true, mkEarly [] (region_end r) (region_start r))).
  { intros a. simpl. unfold PhysRange_new. rewrite Hu, (proj2 (Z.leb_le _ _)) by lia. simpl.
    rewrite Hy. by rewrite (proj2 (Z.leb_gt _ _)) by lia. }
  split_and!; [|lia|].
  - eexists. unfold allocate_frame, alloc_fuel. cbn [allocate_frame_loop length fa_regions EarlyFrameAllocator_new
      fa_next_address fa_current_end]. rewrite Z.ltb_irrefl.
    unfold select_next_usable_region. cbn [fa_regions]. rewrite Hsel. cbn [fa_next_address fa_current_end].
    rewrite (proj2 (Z.ltb_lt _ _)) by lia. unfold Frame_from_start_address. rewrite Hal. simpl.
    assert (checked_add (region_start r) FRAME_SIZE = Some (region_start r + FRAME_SIZE)) as ->
      by (apply checked_add_Some; lia). done.
  - eexists. unfold allocate_contiguous, alloc_fuel. cbn [allocate_contiguous_loop length fa_regions
      EarlyFrameAllocator_new fa_next_address fa_current_end]. rewrite Z.ltb_irrefl. simpl (1 =? 0).
    change (checked_mul 1 FRAME_SIZE) with (Some FRAME_SIZE). cbv iota.
    unfold select_next_usable_region. cbn [fa_regions]. rewrite Hsel. cbn [fa_next_address fa_current_end fa_regions].
    rewrite (proj2 (Z.ltb_lt _ _)) by lia.
    assert (checked_add (region_start r) FRAME_SIZE = Some (region_start r + FRAME_SIZE)) as ->
      by (apply checked_add_Some; lia).
    by rewrite (proj2 (Z.leb_gt _ _)) by lia.
Qed.

Lemma allocate_frame_overruns_region_witness :
  exists a', allocate_frame (EarlyFrameAllocator_new [mkRegion 4096 6144 true]) =
             Some (Some (mkFrame 4096), a').
Proof.
  refine (proj1 (allocate_frame_overruns_region (mkRegion 4096 6144 true) _ _ _ _));
    [split_and!; vm_compute; discriminate|reflexivity|reflexivity|split; reflexivity].
Defined.
