(* ===== verification/UserCopy.v ===== *)
(** * Validated copies from user memory

    [kernel/src/memory/user_copy.rs] and its x86_64 backend
    [kernel/src/arch/x86_64/user_copy.rs].  What the syscall layer needs from a
    backend is the class [CopiesUserMemory]; the x86_64 backend discharges it. *)

From stdpp Require Import base numbers sets list options.
From S2P Require Import Prelude Abi Memory.

Local Open Scope Z_scope.
Local Open Scope rust_scope.

Inductive UserReadError :=
| InvalidRange (e : UserRangeError)
| PageAddressOverflow
| InvalidPageAddress
| Unmapped
| NotUserAccessible
| NotReadable
| CopyBackendFailure.

(** [trait UserCopyBackend]: fills the destination in place. *)
Class UserCopyBackend (B : Type) := {
  ucb_copy_from_user : B -> Z -> list Z -> result UserReadError unit * list Z;
}.

Section Validate.
Context {M : Type} `{UserMemoryView M}.

Definition page_readable (mapper : M) (page : Z) : result UserReadError unit :=
  let? access := never (um_page_access mapper page) in
  if negb (pa_mapped access) then Err Unmapped
  else if negb (pa_user access) then Err NotUserAccessible
  else if negb (pa_readable access) then Err NotReadable
  else Ok tt.

(** The page loop.  Every round moves one page towards the end of the range, so
    a page count bounds it; running out of fuel is [Panic]. *)
Fixpoint readable_loop (fuel : nat) (mapper : M) (range : VirtRange) (page_start : Z)
  : result UserReadError unit :=
  match fuel with
  | O => Panic
  | S fuel =>
      let? page := ok_or (Page4K_from_start_address page_start) InvalidPageAddress in
      let? _ := page_readable mapper (Memory.page_start page) in
      let? next := ok_or (checked_add page_start PAGE_SIZE_4K) PageAddressOverflow in
      if vr_end range <=? next then Ok tt else readable_loop fuel mapper range next
  end.

Definition readable_fuel (range : VirtRange) : nat := Z.to_nat (vr_len range / PAGE_SIZE_4K + 2).

Definition validate_readable_range (mapper : M) (slice : UserSlice) : result UserReadError unit :=
  let? range := map_err InvalidRange (validate_slice slice) in
  if vr_is_empty range then Ok tt
  else readable_loop (readable_fuel range) mapper range
         (vr_start range / PAGE_SIZE_4K * PAGE_SIZE_4K).

Definition copy_from_user {B} `{UserCopyBackend B} (mapper : M) (backend : B) (slice : UserSlice)
    (dst : list Z) : result UserReadError unit * list Z :=
  if negb (slice_len slice =? Z.of_nat (length dst)) then (Err (InvalidRange AddressOverflow), dst)
  else match validate_readable_range mapper slice with
       | Ok _ => ucb_copy_from_user backend (slice_ptr slice) dst
       | Err e => (Err e, dst)
       | Panic => (Panic, dst)
       end.

Definition access_readable (access : PageAccess) : Prop :=
  pa_mapped access = true /\ pa_user access = true /\ pa_readable access = true.

(** A byte a user task may read through this view. *)
Definition user_readable (mapper : M) (a : Z) : Prop :=
  exists access, um_page_access mapper (a / PAGE_SIZE_4K * PAGE_SIZE_4K) = Ok access /\ access_readable access.

(** The view panics on the page of [a]. *)
Definition view_panics (mapper : M) (a : Z) : Prop :=
  um_page_access mapper (a / PAGE_SIZE_4K * PAGE_SIZE_4K) = Panic.

Definition slice_returns (mapper : M) (sl : UserSlice) : Prop :=
  forall a, slice_ptr sl <= a < slice_ptr sl + slice_len sl -> ~ view_panics mapper a.

Lemma page_readable_Ok mapper p :
  page_readable mapper p = Ok tt <->
  exists access, um_page_access mapper p = Ok access /\ access_readable access.
Proof using Type.
  unfold page_readable, access_readable. destruct (um_page_access mapper p) as [access|[]|]; simpl.
  - split.
    + intros Hr. exists access. split; [done|]. repeat case_if; to_prop; done.
    + intros (? & [= <-] & -> & -> & ->). done.
  - split; [done|]. by intros (? & ? & _).
Qed.

Lemma page_readable_Panic mapper p : page_readable mapper p = Panic <-> um_page_access mapper p = Panic.
Proof using Type.
  unfold page_readable. destruct (um_page_access mapper p) as [access|[]|]; simpl; [|done].
  split; [|done]. repeat case_if; done.
Qed.

Lemma page_of a k : k * PAGE_SIZE_4K <= a < (k + 1) * PAGE_SIZE_4K -> a / PAGE_SIZE_4K = k.
Proof using Type. unfold PAGE_SIZE_4K. intros. symmetry. apply (Z.div_unique a 4096 k (a - k * 4096)); lia. Qed.

(** The loop started at page number [k] checks the pages up to the end, in order. *)
Lemma readable_loop_spec fuel mapper range k :
  0 <= k -> vr_end range + PAGE_SIZE_4K <= U64_MAX -> k * PAGE_SIZE_4K < vr_end range ->
  vr_end range <= (k + Z.of_nat fuel) * PAGE_SIZE_4K -> (0 < fuel)%nat ->
  (readable_loop fuel mapper range (k * PAGE_SIZE_4K) = Panic <->
   exists a, k * PAGE_SIZE_4K <= a < vr_end range /\ view_panics mapper a /\
     forall b, k * PAGE_SIZE_4K <= b < a / PAGE_SIZE_4K * PAGE_SIZE_4K -> user_readable mapper b) /\
  (readable_loop fuel mapper range (k * PAGE_SIZE_4K) = Ok tt <->
   forall a, k * PAGE_SIZE_4K <= a < vr_end range -> user_readable mapper a).
Proof using Type.
  intros Hk Hend. revert k Hk. induction fuel as [|fuel IH]; intros k Hk Hlt Hf Hpos; [lia|].
  cbn [readable_loop]. unfold Page4K_from_start_address. rewrite Z.mod_mul by done. simpl.
  assert (checked_add (k * PAGE_SIZE_4K) PAGE_SIZE_4K = Some ((k + 1) * PAGE_SIZE_4K)) as ->
    by (apply checked_add_Some; unfold PAGE_SIZE_4K in *; lia).
  simpl ok_or. cbv iota beta.
  pose proof (page_readable_Ok mapper (k * PAGE_SIZE_4K)) as Hpage.
  pose proof (page_readable_Panic mapper (k * PAGE_SIZE_4K)) as Hpanic.
  assert (Hin : forall a, k * PAGE_SIZE_4K <= a < (k + 1) * PAGE_SIZE_4K ->
            a / PAGE_SIZE_4K * PAGE_SIZE_4K = k * PAGE_SIZE_4K) by (intros a Ha; by rewrite (page_of a k Ha)).
  assert (Hsame : forall a, k * PAGE_SIZE_4K <= a < (k + 1) * PAGE_SIZE_4K ->
            user_readable mapper a <-> page_readable mapper (k * PAGE_SIZE_4K) = Ok tt).
  { intros a Ha. unfold user_readable. by rewrite (Hin a Ha), Hpage. }
  assert (Hpk : forall a, k * PAGE_SIZE_4K <= a < (k + 1) * PAGE_SIZE_4K ->
            view_panics mapper a <-> page_readable mapper (k * PAGE_SIZE_4K) = Panic).
  { intros a Ha. unfold view_panics. by rewrite (Hin a Ha), Hpanic. }
  assert (Hlater : forall a, (k + 1) * PAGE_SIZE_4K <= a ->
            (k + 1) * PAGE_SIZE_4K <= a / PAGE_SIZE_4K * PAGE_SIZE_4K).
  { intros a Ha. apply Z.mul_le_mono_nonneg_r; [done|]. by apply Z.div_le_lower_bound; [done|lia]. }
  assert (HP : 0 < PAGE_SIZE_4K) by done.
  destruct (page_readable mapper (k * PAGE_SIZE_4K)) as [[]|e|] eqn:Hp.
  - destruct (vr_end range <=? (k + 1) * PAGE_SIZE_4K) eqn:Hle; to_prop.
    + split; [|split; [intros _ a Ha; apply Hsame; [lia|done]|done]].
      split; [done|]. intros (a & Ha & Hpa & _). apply Hpk in Hpa; [done|lia].
    + destruct (decide (fuel = O)) as [->|Hf0]; [unfold PAGE_SIZE_4K in *; lia|].
      destruct (IH (k + 1)) as [IH1 IH2]; [lia|lia|unfold PAGE_SIZE_4K in *; lia|lia|].
      split.
      * rewrite IH1. split; intros (a & Ha & Hpa & Hb).
        -- exists a. split; [lia|]. split; [done|]. intros b Hbr.
           destruct (decide (b < (k + 1) * PAGE_SIZE_4K)); [by apply Hsame; [lia|]|apply Hb; lia].
        -- destruct (decide (a < (k + 1) * PAGE_SIZE_4K)); [apply Hpk in Hpa; [done|lia]|].
           exists a. split; [lia|]. split; [done|]. intros b Hbr. apply Hb. lia.
      * rewrite IH2. split; intros Hall a Ha; [|apply Hall; lia].
        destruct (decide (a < (k + 1) * PAGE_SIZE_4K)); [by apply Hsame; [lia|]|apply Hall; lia].
  - split; [|split; [done|]].
    + split; [done|]. intros (a & Ha & Hpa & Hb).
      destruct (decide (a < (k + 1) * PAGE_SIZE_4K)); [apply Hpk in Hpa; [done|lia]|].
      assert (Err e = Ok tt) as Hx; [|done]. apply (Hsame (k * PAGE_SIZE_4K)); [lia|]. apply Hb.
      specialize (Hlater a ltac:(lia)). lia.
    + intros Hall. apply (Hsame (k * PAGE_SIZE_4K)); [lia|]. apply Hall. lia.
  - split; [|split; [done|]].
    + split; [intros _|done]. exists (k * PAGE_SIZE_4K). split; [lia|]. split; [apply Hpk; [lia|done]|].
      intros b Hb. rewrite (Hin (k * PAGE_SIZE_4K)) in Hb by lia. lia.
    + intros Hall. apply (Hsame (k * PAGE_SIZE_4K)); [lia|]. apply Hall. lia.
Qed.

Lemma validate_readable_range_spec mapper sl :
  is_u64 (slice_ptr sl) -> is_u64 (slice_len sl) ->
  (validate_readable_range mapper sl = Panic <->
   is_ok (validate_slice sl) = true /\
   exists a, slice_ptr sl <= a < slice_ptr sl + slice_len sl /\ view_panics mapper a /\
     forall b, slice_ptr sl <= b < a / PAGE_SIZE_4K * PAGE_SIZE_4K -> user_readable mapper b) /\
  (validate_readable_range mapper sl = Ok tt <->
   is_ok (validate_slice sl) = true /\
   forall a, slice_ptr sl <= a < slice_ptr sl + slice_len sl -> user_readable mapper a).
Proof using Type.
  intros Hp Hl. pose proof (validate_slice_cases sl Hp Hl) as Hc. unfold validate_readable_range.
  destruct (validate_slice sl) as [r|e|]; simpl; [|by split; (split; [done|intros [? _]; done])|done].
  destruct Hc as [-> Hr]. unfold vr_is_empty. simpl.
  destruct (Z.eqb_spec (slice_ptr sl) (slice_ptr sl + slice_len sl)) as [He|He].
  - split; [split; [done|]|split; [|done]]; [intros (_ & a & Ha & _); lia|].
    intros _. split; [done|]. intros a Ha. lia.
  - destruct Hr as [?|[Hlo Hhi]]; [lia|].
    assert (KERNEL_SPACE_START + PAGE_SIZE_4K <= U64_MAX) by (by vm_compute).
    set (range := mkVirtRange _ _).
    pose proof (Z.mul_div_le (slice_ptr sl) PAGE_SIZE_4K ltac:(done)) as Hfloor.
    pose proof (Z.mul_succ_div_gt (slice_ptr sl) PAGE_SIZE_4K ltac:(done)) as Hfloor2.
    pose proof (Z.mul_succ_div_gt (slice_len sl) PAGE_SIZE_4K ltac:(done)) as Hlen2.
    assert (0 <= slice_ptr sl / PAGE_SIZE_4K) by (apply Z.div_pos; [ulia|done]).
    assert (0 <= slice_len sl / PAGE_SIZE_4K) by (apply Z.div_pos; [ulia|done]).
    assert (Hfuel : Z.of_nat (readable_fuel range) = slice_len sl / PAGE_SIZE_4K + 2).
    { unfold readable_fuel, vr_len. simpl.
      replace (slice_ptr sl + slice_len sl - slice_ptr sl) with (slice_len sl) by lia. lia. }
    destruct (readable_loop_spec (readable_fuel range) mapper range (slice_ptr sl / PAGE_SIZE_4K))
      as [Hl1 Hl2]; simpl; [lia|lia|unfold PAGE_SIZE_4K, is_u64 in *; lia|rewrite Hfuel; unfold PAGE_SIZE_4K in *; lia|lia|].
    set (k := slice_ptr sl / PAGE_SIZE_4K) in *.
    assert (Hfirst : forall a, k * PAGE_SIZE_4K <= a < slice_ptr sl -> a / PAGE_SIZE_4K = k)
      by (intros a Ha; apply page_of; lia).
    assert (Hread : forall a, k * PAGE_SIZE_4K <= a < slice_ptr sl ->
              user_readable mapper a <-> user_readable mapper (slice_ptr sl))
      by (intros a Ha; unfold user_readable; by rewrite (Hfirst a Ha)).
    split.
    + rewrite Hl1. simpl. split.
      * intros (a & Ha & Hpa & Hb). split; [done|].
        destruct (decide (slice_ptr sl <= a)).
        -- exists a. split; [lia|]. split; [done|]. intros b Hbr. apply Hb. lia.
        -- exists (slice_ptr sl). split; [unfold is_u64 in *; lia|]. unfold view_panics in *.
           rewrite (Hfirst a) in Hpa by lia. split; [done|]. intros b Hbr. fold k in Hbr. lia.
      * intros (_ & a & Ha & Hpa & Hb). exists a. split; [lia|]. split; [done|]. intros b Hbr.
        destruct (decide (slice_ptr sl <= b)); [apply Hb; lia|]. apply Hread; [lia|]. apply Hb.
        split; [lia|]. assert (k * PAGE_SIZE_4K < a / PAGE_SIZE_4K * PAGE_SIZE_4K) by lia.
        assert (k + 1 <= a / PAGE_SIZE_4K) by (unfold PAGE_SIZE_4K in *; lia). unfold PAGE_SIZE_4K in *. lia.
    + rewrite Hl2. simpl. split.
      * intros Hall. split; [done|]. intros a Ha. apply Hall. lia.
      * intros [_ Hall] a Ha. destruct (decide (slice_ptr sl <= a)); [apply Hall; lia|].
        apply Hread; [lia|]. apply Hall. unfold is_u64 in *. lia.
Qed.

Lemma slice_returns_no_panic mapper sl :
  is_u64 (slice_ptr sl) -> is_u64 (slice_len sl) -> slice_returns mapper sl ->
  validate_readable_range mapper sl <> Panic.
Proof using Type.
  intros Hp Hl Hr Hpanic. apply validate_readable_range_spec in Hpanic as (_ & a & Ha & Hpa & _); [|done|done].
  by apply (Hr a).
Qed.
End Validate.

(** [n] bytes of memory from [src] on. *)
Fixpoint bytes_at (mem : Z -> Z) (src : Z) (n : nat) : list Z :=
  match n with O => [] | S n => mem src :: bytes_at mem (src + 1) n end.

Lemma bytes_at_length mem src n : length (bytes_at mem src n) = n.
Proof. revert src. induction n as [|n IH]; intros src; simpl; [done|]. by rewrite IH. Qed.

Lemma bytes_at_app mem src n m :
  bytes_at mem src (n + m) = bytes_at mem src n ++ bytes_at mem (src + Z.of_nat n) m.
Proof.
  revert src. induction n as [|n IH]; intros src; simpl; [f_equal; lia|].
  rewrite IH. do 3 f_equal. lia.
Qed.

Lemma bytes_at_ext mem mem' src src' n :
  (forall i, (i < n)%nat -> mem (src + Z.of_nat i) = mem' (src' + Z.of_nat i)) ->
  bytes_at mem src n = bytes_at mem' src' n.
Proof.
  revert src src'. induction n as [|n IH]; intros src src' Hm; simpl; [done|]. f_equal.
  - specialize (Hm O ltac:(lia)). by rewrite !Z.add_0_r in Hm.
  - apply IH. intros i Hi. specialize (Hm (S i) ltac:(lia)).
    by replace (src + 1 + Z.of_nat i) with (src + Z.of_nat (S i)) by lia;
       replace (src' + 1 + Z.of_nat i) with (src' + Z.of_nat (S i)) by lia.
Qed.

(** What a correct backend promises to the syscall layer: over bytes the view
    declares readable, a copy succeeds and delivers the user's bytes. *)
Class CopiesUserMemory {M B} `{UserMemoryView M} `{UserCopyBackend B}
    (mapper : M) (backend : B) (umem : Z -> Z) : Prop := {
  copies_exactly : forall src dst,
    0 <= src -> src + Z.of_nat (length dst) <= KERNEL_SPACE_START ->
    (forall a, src <= a < src + Z.of_nat (length dst) -> user_readable mapper a) ->
    ucb_copy_from_user backend src dst = (Ok tt, bytes_at umem src (length dst));
}.

(** ** The x86_64 backend *)
Record X86UserCopyBackend (M : Type) := mkX86Copy {
  x86_mapper : M;
  x86_physical_memory : PhysicalMemoryMapping;
  (** The kernel's view of its own memory, which the raw copy reads. *)
  x86_kernel_memory : Z -> Z;
}.
Arguments mkX86Copy {M}.
Arguments x86_mapper {M}.
Arguments x86_physical_memory {M}.
Arguments x86_kernel_memory {M}.

Section X86Copy.
Context {M : Type} `{UserMemoryView M}.

(** [dst\[copied..copied + chunk_len\]] overwritten by the raw copy. *)
Definition write_at (dst : list Z) (at_ : nat) (bytes : list Z) : list Z :=
  take at_ dst ++ bytes ++ drop (at_ + length bytes) dst.

(** The copy loop; each round copies at least one byte. *)
Fixpoint x86_copy_loop (fuel : nat) (b : X86UserCopyBackend M) (src : Z) (dst : list Z) (copied : nat)
  : result UserReadError unit * list Z :=
  match fuel with
  | O => (Panic, dst)
  | S fuel =>
      if bool_decide (copied < length dst)%nat then
        match checked_add src (Z.of_nat copied) with
        | None => (Err PageAddressOverflow, dst)
        | Some virtual_address =>
            match um_translate (x86_mapper b) virtual_address with
            | Panic => (Panic, dst)
            | Err e => match e with end
            | Ok None => (Err Unmapped, dst)
            | Ok (Some physical_address) =>
                match phys_translate (x86_physical_memory b) physical_address with
                | None => (Err CopyBackendFailure, dst)
                | Some kernel_address =>
                    let page_offset := Z.to_nat (virtual_address mod PAGE_SIZE_4K) in
                    let remaining_in_page := (Z.to_nat PAGE_SIZE_4K - page_offset)%nat in
                    let chunk_len := Nat.min remaining_in_page (length dst - copied) in
                    let dst := write_at dst copied
                                 (bytes_at (x86_kernel_memory b) kernel_address chunk_len) in
                    x86_copy_loop fuel b src dst (copied + chunk_len)
                end
            end
        end
      else (Ok tt, dst)
  end.

Definition x86_copy_from_user (b : X86UserCopyBackend M) (src : Z) (dst : list Z)
  : result UserReadError unit * list Z :=
  x86_copy_loop (S (length dst)) b src dst 0.

#[export] Instance x86_copy_backend : UserCopyBackend (X86UserCopyBackend M) :=
  {| ucb_copy_from_user := x86_copy_from_user |}.

(** The page-table view the backend reads through: readable bytes translate,
    page by page, to physical memory the direct map covers.  This is the
    documented contract of the hardware page walk behind [translate]. *)
Record x86_view_ok (b : X86UserCopyBackend M) (umem : Z -> Z) : Prop := mk_x86_view_ok {
  view_translates : forall a, user_readable (x86_mapper b) a ->
    exists pa, um_translate (x86_mapper b) a = Ok (Some pa) /\ 0 <= pa /\
    forall j, 0 <= j -> a mod PAGE_SIZE_4K + j < PAGE_SIZE_4K ->
      mapping_offset (x86_physical_memory b) + pa + j <= U64_MAX /\
      umem (a + j) = x86_kernel_memory b (mapping_offset (x86_physical_memory b) + pa + j);
  view_offset : 0 <= mapping_offset (x86_physical_memory b);
}.

Lemma write_at_length dst i bytes :
  (i + length bytes <= length dst)%nat -> length (write_at dst i bytes) = length dst.
Proof using Type. intros Hi. unfold write_at. rewrite !length_app, length_take, length_drop. lia. Qed.

Lemma write_at_prefix dst i bytes :
  (i + length bytes <= length dst)%nat ->
  take (i + length bytes) (write_at dst i bytes) = take i dst ++ bytes.
Proof using Type.
  intros Hi. unfold write_at. rewrite app_assoc, take_app_length'; [done|].
  rewrite length_app, length_take. lia.
Qed.

Lemma x86_copy_loop_spec fuel b umem src dst copied :
  x86_view_ok b umem -> 0 <= src -> src + Z.of_nat (length dst) <= KERNEL_SPACE_START ->
  (forall a, src <= a < src + Z.of_nat (length dst) -> user_readable (x86_mapper b) a) ->
  (copied <= length dst)%nat -> (length dst - copied < fuel)%nat ->
  take copied dst = bytes_at umem src copied ->
  x86_copy_loop fuel b src dst copied = (Ok tt, bytes_at umem src (length dst)).
Proof using Type.
  intros [Hv Hoff] Hsrc Hend Hread. revert dst copied Hend Hread.
  induction fuel as [|fuel IH]; intros dst copied Hend Hread Hle Hf Htake; [lia|].
  cbn [x86_copy_loop]. case_bool_decide as Hlt.
  2: { assert (copied = length dst) as -> by lia. rewrite take_ge in Htake by lia. by rewrite <- Htake. }
  assert (KERNEL_SPACE_START <= U64_MAX) by (by vm_compute).
  assert (checked_add src (Z.of_nat copied) = Some (src + Z.of_nat copied)) as ->
    by (apply checked_add_Some; lia).
  destruct (Hv (src + Z.of_nat copied)) as (pa & Htr & Hpa & Hmem); [apply Hread; lia|].
  rewrite Htr. unfold phys_translate. set (va := src + Z.of_nat copied) in *.
  pose proof (Z.mod_pos_bound va PAGE_SIZE_4K ltac:(done)) as Hmod.
  destruct (Hmem 0) as [Hov _]; [lia|lia|].
  assert (checked_add (mapping_offset (x86_physical_memory b)) pa
          = Some (mapping_offset (x86_physical_memory b) + pa)) as -> by (apply checked_add_Some; lia).
  cbv zeta. set (chunk := Nat.min _ _).
  assert (Hchunk : (1 <= chunk <= length dst - copied)%nat) by (unfold chunk, PAGE_SIZE_4K in *; lia).
  assert (Hchunk2 : va mod PAGE_SIZE_4K + Z.of_nat chunk <= PAGE_SIZE_4K)
    by (unfold chunk, PAGE_SIZE_4K in *; lia).
  set (bytes := bytes_at _ _ chunk).
  assert (Hbl : length bytes = chunk) by apply bytes_at_length.
  assert (Hwl : length (write_at dst copied bytes) = length dst) by (apply write_at_length; lia).
  rewrite IH; rewrite ?Hwl; try done; [lia|lia|].
  rewrite <- Hbl at 1. rewrite write_at_prefix by lia. rewrite Htake, bytes_at_app. f_equal.
  apply bytes_at_ext. intros i Hi. fold va. destruct (Hmem (Z.of_nat i)) as [_ ->]; [lia|lia|]. done.
Qed.

(** The backend keeps its promise. *)
#[export] Instance x86_copies_user_memory b umem (Hv : x86_view_ok b umem) :
  CopiesUserMemory (x86_mapper b) b umem.
Proof using Type.
  split. intros src dst Hsrc Hend Hread. simpl. unfold x86_copy_from_user.
  apply x86_copy_loop_spec; [done..|lia|lia|done].
Qed.
End X86Copy.

(** A range is accepted for reading exactly when the slice is a valid user
    slice and every byte of it lies in a page that is mapped, user accessible
    and readable; pages outside the slice are irrelevant, and the page loop
    terminates.  It panics exactly when the view panics on a page of the slice and
    all bytes of the slice before that page are readable. *)
Theorem validate_readable_exact {M} `{UserMemoryView M} (mapper : M) sl :
  is_u64 (slice_ptr sl) -> is_u64 (slice_len sl) ->
  (validate_readable_range mapper sl = Panic <->
   is_ok (validate_slice sl) = true /\
   exists a, slice_ptr sl <= a < slice_ptr sl + slice_len sl /\ view_panics mapper a /\
     forall b, slice_ptr sl <= b < a / PAGE_SIZE_4K * PAGE_SIZE_4K -> user_readable mapper b) /\
  (validate_readable_range mapper sl = Ok tt <->
   is_ok (validate_slice sl) = true /\
   forall a, slice_ptr sl <= a < slice_ptr sl + slice_len sl -> user_readable mapper a).
Proof. apply validate_readable_range_spec. Qed.

(** A small page table: virtual page to physical page, all user readable. *)
Record DemoView := mkDemoView { dv_pages : list (Z * Z) }.

Fixpoint demo_lookup (pages : list (Z * Z)) (page : Z) : option Z :=
  match pages with
  | [] => None
  | (v, p) :: pages => if v =? page then Some p else demo_lookup pages page
  end.

Global Instance DemoView_view : UserMemoryView DemoView := {|
  um_translate m a :=
    Ok ((fun p => p + a mod PAGE_SIZE_4K) <$> demo_lookup (dv_pages m) (a / PAGE_SIZE_4K * PAGE_SIZE_4K));
  um_page_access m a :=
    Ok (match demo_lookup (dv_pages m) (a / PAGE_SIZE_4K * PAGE_SIZE_4K) with
        | Some _ => PageAccess_user_read_only
        | None => PageAccess_unmapped
        end);
  um_address_space m := mkVirtRange USER_SPACE_START KERNEL_SPACE_START;
|}.

(** Two adjacent virtual pages backed by non-adjacent frames. *)
Definition demo_view : DemoView := mkDemoView [(65536, 20480); (69632, 8192)].
Definition demo_backend : X86UserCopyBackend DemoView :=
  mkX86Copy demo_view (mkMapping 1048576) (fun a => a mod 251).
Definition demo_umem (a : Z) : Z :=
  (1048576 + (if a / PAGE_SIZE_4K * PAGE_SIZE_4K =? 65536 then 20480 else 8192) + a mod PAGE_SIZE_4K) mod 251.

Lemma demo_readable a :
  user_readable demo_view a <-> 65536 <= a < 73728.
Proof.
  unfold user_readable. cbn [um_page_access DemoView_view demo_view dv_pages demo_lookup].
  rewrite Z.div_mul by done.
  assert (Hp : forall k, (k * 4096 = a / 4096 * 4096) <-> k * 4096 <= a < (k + 1) * 4096).
  { intros k. pose proof (Z.div_mod a 4096 ltac:(lia)). pose proof (Z.mod_pos_bound a 4096 ltac:(lia)). lia. }
  pose proof (Hp 16) as H1. pose proof (Hp 17) as H2. unfold PAGE_SIZE_4K.
  destruct (Z.eqb_spec 65536 (a / 4096 * 4096)); [split; [intros _; lia|by eexists]|].
  destruct (Z.eqb_spec 69632 (a / 4096 * 4096)); [split; [intros _; lia|by eexists]|].
  split; [by intros (? & [= <-] & ? & _)|lia].
Qed.

(** The two pages show the memory behind them, whatever it holds. *)
Lemma demo_view_memory_ok memory :
  x86_view_ok (mkX86Copy demo_view (mkMapping 1048576) memory)
    (fun a => memory (1048576 + (if a / PAGE_SIZE_4K * PAGE_SIZE_4K =? 65536 then 20480 else 8192) + a mod PAGE_SIZE_4K)).
Proof.
  split; [|done]. intros a Ha%demo_readable.
  cbn [um_translate DemoView_view demo_view dv_pages demo_lookup x86_mapper
       x86_physical_memory x86_kernel_memory mapping_offset].
  assert (Hp : forall k, (k * 4096 = a / 4096 * 4096) <-> k * 4096 <= a < (k + 1) * 4096).
  { intros k. pose proof (Z.div_mod a 4096 ltac:(lia)). pose proof (Z.mod_pos_bound a 4096 ltac:(lia)). lia. }
  pose proof (Hp 16) as H1. pose proof (Hp 17) as H2.
  assert (Hpage : forall j, 0 <= j -> a mod 4096 + j < 4096 ->
    (a + j) / 4096 = a / 4096 /\ (a + j) mod 4096 = a mod 4096 + j).
  { intros j Hj Hlt. pose proof (Z.div_mod a 4096 ltac:(lia)).
    pose proof (Z.mod_pos_bound a 4096 ltac:(lia)).
    assert ((a + j) / 4096 = a / 4096) as Hd
      by (symmetry; apply (Z.div_unique _ 4096 _ (a mod 4096 + j)); lia).
    split; [done|]. pose proof (Z.div_mod (a + j) 4096 ltac:(lia)). lia. }
  pose proof (Z.mod_pos_bound a 4096 ltac:(lia)) as Hb. unfold PAGE_SIZE_4K.
  destruct (Z.eqb_spec 65536 (a / 4096 * 4096)) as [He|He]; [|
    destruct (Z.eqb_spec 69632 (a / 4096 * 4096)) as [He'|He']; [|lia]];
    (eexists; split; [done|]; split; [lia|]; intros j Hj Hlt; destruct (Hpage j Hj Hlt) as [Hd Hm];
     split; [ulia|]; rewrite Hd, Hm).
  - rewrite <- He, Z.eqb_refl. f_equal. lia.
  - rewrite (proj2 (Z.eqb_neq _ _)) by lia. f_equal. lia.
Qed.

Lemma demo_view_ok : x86_view_ok demo_backend demo_umem.
Proof. apply demo_view_memory_ok. Qed.

Lemma validate_readable_exact_witness :
  validate_readable_range demo_view (mkUserSlice 69000 1000) = Ok tt /\
  validate_readable_range demo_view (mkUserSlice 73000 1000) = Err Unmapped.
Proof.
  split; [|reflexivity].
  apply (validate_readable_exact demo_view (mkUserSlice 69000 1000)); [split; vm_compute; discriminate..|].
  split; [reflexivity|]. intros a Ha. apply demo_readable. simpl in Ha. lia.
Defined.

(** C30: the x86_64 copy loop, which translates page by page and copies through
    the direct map, delivers exactly the user's bytes for any buffer length and
    any placement of the buffer across pages, whenever the validated range is
    readable through the page table; it never reads past the page a
    translation is for. *)
Theorem x86_copy_exact {M} `{UserMemoryView M} (b : X86UserCopyBackend M) umem src dst :
  x86_view_ok b umem -> 0 <= src -> src + Z.of_nat (length dst) <= KERNEL_SPACE_START ->
  (forall a, src <= a < src + Z.of_nat (length dst) -> user_readable (x86_mapper b) a) ->
  x86_copy_from_user b src dst = (Ok tt, bytes_at umem src (length dst)).
Proof. intros Hv. by apply (copies_exactly (CopiesUserMemory := x86_copies_user_memory b umem Hv)). Qed.

Lemma x86_copy_exact_witness :
  x86_copy_from_user demo_backend 69630 [0; 0; 0; 0] = (Ok tt, bytes_at demo_umem 69630 4).
Proof.
  apply (x86_copy_exact demo_backend demo_umem 69630 [0; 0; 0; 0] demo_view_ok);
    [discriminate|vm_compute; discriminate|].
  intros a Ha. apply demo_readable. simpl in Ha. lia.
Defined.
