(* ===== verification/Syscall.v ===== *)
(** * Syscall dispatch ([kernel/src/syscall.rs])

    Requests, the error taxonomy, and the dispatchers.  The write sink and the
    process control object are classes, as the traits are in the source. *)

From stdpp Require Import base numbers sets list options.
From S2P Require Import Prelude Abi Memory UserCopy.

Local Open Scope Z_scope.
Local Open Scope rust_scope.

Record SyscallRequest := mkRequest { req_number : Z; req_arg0 : Z; req_arg1 : Z; req_arg2 : Z }.

Definition SyscallRequest_write (slice : UserSlice) : SyscallRequest :=
  mkRequest (Syscall_number Write) (slice_ptr slice) (slice_len slice) 0.
Definition SyscallRequest_exit (code : Z) : SyscallRequest := mkRequest (Syscall_number Exit) code 0 0.
Definition SyscallRequest_yield_now : SyscallRequest := mkRequest (Syscall_number Yield) 0 0 0.
Definition req_syscall (r : SyscallRequest) : option Syscall := Syscall_from_number (req_number r).
Definition req_user_slice (r : SyscallRequest) : UserSlice := mkUserSlice (req_arg0 r) (req_arg1 r).

Inductive SyscallError :=
| UnknownNumber
| NotImplemented
| InvalidArguments
| InvalidUserRange (e : UserRangeError)
| InvalidUserMemory (e : UserReadError)
| WriteFailed.

Definition abi_error (e : SyscallError) : AbiSyscallError :=
  match e with
  | UnknownNumber => AbiUnknownSyscall
  | NotImplemented => AbiNotImplemented
  | InvalidArguments => AbiInvalidArguments
  | InvalidUserRange _ => AbiInvalidUserRange
  | InvalidUserMemory _ => AbiInvalidUserMemory
  | WriteFailed => AbiWriteFailed
  end.

Definition abi_return_value (e : SyscallError) : Z := return_value (abi_error e).

Inductive SyscallReturnAction := Return | Reschedule | Terminate.

Abbreviation SyscallResult := (result SyscallError Z).

Record SyscallDispatch := mkDispatch { sd_result : SyscallResult; sd_action : SyscallReturnAction }.

Definition SyscallDispatch_returned (r : SyscallResult) : SyscallDispatch := mkDispatch r Return.
Definition SyscallDispatch_reschedule (value : Z) : SyscallDispatch := mkDispatch (Ok value) Reschedule.
Definition SyscallDispatch_terminate (value : Z) : SyscallDispatch := mkDispatch (Ok value) Terminate.

(** [trait WriteSink] *)
Class WriteSink (S : Type) := {
  sink_write : S -> list Z -> result SyscallError unit * S;
}.

(** [trait ProcessSyscallControl] *)
Class ProcessSyscallControl (C : Type) := {
  control_exit : C -> Z -> result SyscallError unit * C;
  control_yield_now : C -> result SyscallError unit * C;
}.

Definition dispatch (request : SyscallRequest) : SyscallResult :=
  let? _ := map_err InvalidUserRange (validate_slice (req_user_slice request)) in
  let? call := ok_or (req_syscall request) UnknownNumber in
  match call with
  | Write => Err NotImplemented
  | Exit | Yield => Err NotImplemented
  end.

(** The arms for [Exit] and [Yield] that two dispatchers share. *)
Definition dispatch_exit {C} `{ProcessSyscallControl C} (request : SyscallRequest) (control : C)
  : SyscallDispatch * C :=
  match control_exit control (req_arg0 request) with
  | (Ok _, control) => (SyscallDispatch_terminate 0, control)
  | (Err e, control) => (SyscallDispatch_returned (Err e), control)
  | (Panic, control) => (SyscallDispatch_returned Panic, control)
  end.

Definition dispatch_yield {C} `{ProcessSyscallControl C} (control : C) : SyscallDispatch * C :=
  match control_yield_now control with
  | (Ok _, control) => (SyscallDispatch_reschedule 0, control)
  | (Err e, control) => (SyscallDispatch_returned (Err e), control)
  | (Panic, control) => (SyscallDispatch_returned Panic, control)
  end.

Definition dispatch_with_control_action {C} `{ProcessSyscallControl C}
    (request : SyscallRequest) (control : C) : SyscallDispatch * C :=
  match req_syscall request with
  | None => (SyscallDispatch_returned (Err UnknownNumber), control)
  | Some Exit => dispatch_exit request control
  | Some Yield => dispatch_yield control
  | Some Write => (SyscallDispatch_returned (Err NotImplemented), control)
  end.

Definition dispatch_with_control {C} `{ProcessSyscallControl C}
    (request : SyscallRequest) (control : C) : SyscallResult * C :=
  let '(d, control) := dispatch_with_control_action request control in (sd_result d, control).

Section WithMemory.
Context {M B S : Type} `{UserMemoryView M} `{UserCopyBackend B} `{WriteSink S}.

Definition BUFFER_LEN : nat := 256.

(** The chunk loop.  Every round moves [offset] by at least one byte, so the
    slice length bounds it; running out of fuel is [Panic]. *)
Fixpoint write_loop (fuel : nat) (slice : UserSlice) (mapper : M) (backend : B)
    (buffer : list Z) (offset : Z) (sink : S) : SyscallResult * S :=
  match fuel with
  | O => (Panic, sink)
  | Datatypes.S fuel =>
      if offset <? slice_len slice then
        let remaining := slice_len slice - offset in
        let chunk_len := Z.to_nat (Z.min remaining (Z.of_nat (length buffer))) in
        match checked_add (slice_ptr slice) offset with
        | None => (Err (InvalidUserRange AddressOverflow), sink)
        | Some chunk_ptr =>
            let chunk := mkUserSlice chunk_ptr (Z.of_nat chunk_len) in
            match copy_from_user mapper backend chunk (take chunk_len buffer) with
            | (Err e, _) => (Err (InvalidUserMemory e), sink)
            | (Panic, _) => (Panic, sink)
            | (Ok _, filled) =>
                let buffer := filled ++ drop chunk_len buffer in
                let! _ , sink := sink_write sink (take chunk_len buffer) in
                match checked_add offset (Z.of_nat chunk_len) with
                | None => (Err InvalidArguments, sink)
                | Some offset => write_loop fuel slice mapper backend buffer offset sink
                end
            end
        end
      else (Ok (slice_len slice), sink)
  end.

Definition sys_write_with_memory (slice : UserSlice) (mapper : M) (backend : B) (sink : S)
  : SyscallResult * S :=
  match validate_slice slice with
  | Err e => (Err (InvalidUserRange e), sink)
  | Panic => (Panic, sink)
  | Ok _ =>
      if UserSlice_is_empty slice then (Ok 0, sink)
      else write_loop (Datatypes.S (Z.to_nat (slice_len slice))) slice mapper backend
             (replicate BUFFER_LEN 0) 0 sink
  end.

Definition dispatch_with_memory (request : SyscallRequest) (mapper : M) (backend : B) (sink : S)
  : SyscallResult * S :=
  match req_syscall request with
  | None => (Err UnknownNumber, sink)
  | Some Write =>
      if negb (req_arg2 request =? 0) then (Err InvalidArguments, sink)
      else sys_write_with_memory (req_user_slice request) mapper backend sink
  | Some Exit | Some Yield => (Err NotImplemented, sink)
  end.

Definition dispatch_with_memory_and_control_action {C} `{ProcessSyscallControl C}
    (request : SyscallRequest) (mapper : M) (backend : B) (sink : S) (control : C)
  : SyscallDispatch * S * C :=
  match req_syscall request with
  | None => (SyscallDispatch_returned (Err UnknownNumber), sink, control)
  | Some Write =>
      if negb (req_arg2 request =? 0)
      then (SyscallDispatch_returned (Err InvalidArguments), sink, control)
      else let '(r, sink) := sys_write_with_memory (req_user_slice request) mapper backend sink in
           (SyscallDispatch_returned r, sink, control)
  | Some Exit => let '(d, control) := dispatch_exit request control in (d, sink, control)
  | Some Yield => let '(d, control) := dispatch_yield control in (d, sink, control)
  end.

Definition dispatch_with_memory_and_control {C} `{ProcessSyscallControl C}
    (request : SyscallRequest) (mapper : M) (backend : B) (sink : S) (control : C)
  : SyscallResult * S * C :=
  let '(d, sink, control) :=
    dispatch_with_memory_and_control_action request mapper backend sink control in
  (sd_result d, sink, control).
End WithMemory.

(** ** Writes deliver the user's bytes *)

(** A sink that accepts everything it is given; [log] is what it received. *)
Class AppendSink (S : Type) `{WriteSink S} (log : S -> list Z) : Prop := {
  sink_appends : forall s bytes, exists s', sink_write s bytes = (Ok tt, s') /\ log s' = log s ++ bytes;
}.

Section Delivery.
Context {M B S : Type} `{UserMemoryView M} `{UserCopyBackend B} `{WriteSink S}.
Context (mapper : M) (backend : B) (umem : Z -> Z) (log : S -> list Z).
Context `{!CopiesUserMemory mapper backend umem} `{!AppendSink S log}.

Definition all_readable (lo hi : Z) : Prop := forall a, lo <= a < hi -> user_readable mapper a.

(** One chunk, wholly inside user space. *)
Lemma copy_chunk ptr dst :
  USER_SPACE_START <= ptr -> ptr + Z.of_nat (length dst) <= KERNEL_SPACE_START ->
  slice_returns mapper (mkUserSlice ptr (Z.of_nat (length dst))) ->
  let n := length dst in
  (all_readable ptr (ptr + Z.of_nat n) /\
   copy_from_user mapper backend (mkUserSlice ptr (Z.of_nat n)) dst = (Ok tt, bytes_at umem ptr n)) \/
  (~ all_readable ptr (ptr + Z.of_nat n) /\
   exists e, copy_from_user mapper backend (mkUserSlice ptr (Z.of_nat n)) dst = (Err e, dst)).
Proof using CopiesUserMemory0.
  intros Hlo Hhi Hret n. unfold copy_from_user. simpl. rewrite Z.eqb_refl. simpl.
  assert (0 < USER_SPACE_START /\ KERNEL_SPACE_START < U64_MAX) as [HU HK] by (by vm_compute).
  destruct (validate_readable_range_spec mapper (mkUserSlice ptr (Z.of_nat n))) as [_ Hok];
    [unfold is_u64; simpl; lia..|].
  pose proof (slice_returns_no_panic mapper (mkUserSlice ptr (Z.of_nat n))
                ltac:(unfold is_u64; simpl; lia) ltac:(unfold is_u64; simpl; lia) Hret) as Hnp.
  simpl in Hok. rewrite validate_slice_ok in Hok by (unfold is_u64; simpl; lia || auto).
  destruct (validate_readable_range mapper _) as [[]|e|]; [left|right|done].
  - assert (Hall : all_readable ptr (ptr + Z.of_nat n)) by exact (proj2 (proj1 Hok eq_refl)).
    split; [done|]. apply copies_exactly; [lia|done|done].
  - split; [|eauto]. intros Hall. assert (Err e = Ok tt) as Hx; [|done]. apply Hok. done.
Qed.

Lemma write_loop_spec fuel slice buffer offset sink :
  USER_SPACE_START <= slice_ptr slice -> slice_ptr slice + slice_len slice <= KERNEL_SPACE_START ->
  slice_returns mapper slice -> length buffer = BUFFER_LEN -> 0 <= offset <= slice_len slice ->
  (Z.to_nat (slice_len slice - offset) < fuel)%nat ->
  exists r sink' n, write_loop fuel slice mapper backend buffer offset sink = (r, sink') /\
    offset <= n <= slice_len slice /\
    log sink' = log sink ++ bytes_at umem (slice_ptr slice + offset) (Z.to_nat (n - offset)) /\
    all_readable (slice_ptr slice + offset) (slice_ptr slice + n) /\
    (r = Ok (slice_len slice) /\ n = slice_len slice \/
     exists e, r = Err (InvalidUserMemory e) /\ n < slice_len slice /\
               ~ all_readable (slice_ptr slice + offset) (slice_ptr slice + slice_len slice)).
Proof using CopiesUserMemory0 AppendSink0.
  intros Hlo Hhi Hret. revert buffer offset sink.
  induction fuel as [|fuel IH]; intros buffer offset sink Hbuf Hoff Hf; [lia|].
  cbn [write_loop]. destruct (offset <? slice_len slice) eqn:Hlt; to_prop.
  2: { exists (Ok (slice_len slice)), sink, offset. split_and!; [done|lia|lia| | |left; split; [done|lia]].
       - rewrite Z.sub_diag. simpl. by rewrite app_nil_r.
       - intros a Ha. lia. }
  assert (0 < USER_SPACE_START /\ KERNEL_SPACE_START < U64_MAX) as [HU HK] by (by vm_compute).
  assert (checked_add (slice_ptr slice) offset = Some (slice_ptr slice + offset)) as ->
    by (apply checked_add_Some; lia).
  rewrite Hbuf. set (c := Z.to_nat (Z.min (slice_len slice - offset) (Z.of_nat BUFFER_LEN))).
  assert (Hc : (0 < c <= BUFFER_LEN)%nat /\ Z.of_nat c <= slice_len slice - offset)
    by (unfold c, BUFFER_LEN; lia). cbv zeta.
  assert (Hdl : length (take c buffer) = c) by (rewrite length_take; lia).
  assert (HP : slice_ptr slice + offset + Z.of_nat (length (take c buffer)) <= KERNEL_SPACE_START)
    by (rewrite Hdl; lia).
  assert (Hr1 : slice_returns mapper (mkUserSlice (slice_ptr slice + offset) (Z.of_nat (length (take c buffer))))).
  { intros a Ha. cbn in Ha. rewrite Hdl in Ha. apply Hret. lia. }
  destruct (copy_chunk (slice_ptr slice + offset) (take c buffer) ltac:(lia) HP Hr1) as [[Hall Hcp]|[Hnall (e & Hcp)]];
    rewrite Hdl in *; rewrite Hcp.
  - pose proof (bytes_at_length umem (slice_ptr slice + offset) c) as Hbl.
    rewrite take_app_length' by done.
    destruct (sink_appends sink (bytes_at umem (slice_ptr slice + offset) c)) as (s1 & -> & Hlog).
    assert (checked_add offset (Z.of_nat c) = Some (offset + Z.of_nat c)) as ->
      by (apply checked_add_Some; lia).
    destruct (IH (bytes_at umem (slice_ptr slice + offset) c ++ drop c buffer) (offset + Z.of_nat c) s1)
      as (r & s' & n & Heq & Hn & Hlog' & Hall' & Hr).
    { rewrite length_app, length_drop, Hbl. lia. }
    { lia. }
    { lia. }
    exists r, s', n. split_and!; [done|lia|lia| | |].
    + rewrite Hlog', Hlog, <- app_assoc. f_equal.
      replace (Z.to_nat (n - offset)) with (c + Z.to_nat (n - (offset + Z.of_nat c)))%nat by lia.
      rewrite bytes_at_app. do 2 f_equal. lia.
    + intros a Ha. destruct (decide (a < slice_ptr slice + offset + Z.of_nat c)); [apply Hall; lia|].
      apply Hall'. lia.
    + destruct Hr as [?|(e & -> & Hlt' & Hnr)]; [by left|right]. exists e. split_and!; [done|done|].
      intros Hx. apply Hnr. intros a Ha. apply Hx. lia.
  - exists (Err (InvalidUserMemory e)), sink, offset. split_and!; [done|lia|lia| | |].
    + rewrite Z.sub_diag. simpl. by rewrite app_nil_r.
    + intros a Ha. lia.
    + right. exists e. split_and!; [done|lia|]. intros Hx. apply Hnall. intros a Ha. apply Hx. lia.
Qed.

Lemma sys_write_spec slice sink :
  is_u64 (slice_ptr slice) -> is_u64 (slice_len slice) -> is_ok (validate_slice slice) = true ->
  slice_returns mapper slice ->
  exists r sink' n, sys_write_with_memory slice mapper backend sink = (r, sink') /\
    0 <= n <= slice_len slice /\
    log sink' = log sink ++ bytes_at umem (slice_ptr slice) (Z.to_nat n) /\
    all_readable (slice_ptr slice) (slice_ptr slice + n) /\
    (r = Ok (slice_len slice) /\ n = slice_len slice \/
     exists e, r = Err (InvalidUserMemory e) /\ n < slice_len slice /\
               ~ all_readable (slice_ptr slice) (slice_ptr slice + slice_len slice)).
Proof using CopiesUserMemory0 AppendSink0.
  intros Hp Hl Hok Hret. pose proof (validate_slice_cases slice Hp Hl) as Hc.
  unfold sys_write_with_memory. destruct (validate_slice slice) as [r| |]; try done.
  destruct Hc as [_ Hc]. unfold UserSlice_is_empty.
  destruct (Z.eqb_spec (slice_len slice) 0) as [He|He].
  - exists (Ok 0), sink, 0. split_and!; [done|lia|lia| | |left; split; [by rewrite He|done]].
    + simpl. by rewrite app_nil_r.
    + intros a Ha. lia.
  - destruct Hc as [?|[Hlo Hhi]]; [done|].
    destruct (write_loop_spec (Datatypes.S (Z.to_nat (slice_len slice))) slice (replicate BUFFER_LEN 0)
                0 sink) as (r' & s' & n & Heq & Hn & Hlog & Hall & Hr); [done|done|done| | | |].
    + apply length_replicate.
    + unfold is_u64 in *. lia.
    + rewrite Z.sub_0_r. lia.
    + rewrite Z.add_0_r, Z.sub_0_r in *. by exists r', s', n.
Qed.
End Delivery.

(** ** The return register ([arch/x86_64/interrupt_entry.rs]) *)
Definition syscall_result_abi_value (r : SyscallResult) : option Z :=
  match r with
  | Ok value => Some value
  | Err e => Some (abi_return_value e)
  | Panic => None
  end.

(** A write through a correct backend to a sink that accepts its input, over
    pages on which the page-table view returns,
    delivers exactly the user's bytes, in order, without loss or duplication
    across the 256-byte chunks.  If every byte of the slice is readable the call
    returns the slice length; otherwise it fails, and what reached the sink is a
    readable prefix of the slice, never anything else.  The chunk loop terminates. *)
Theorem sys_write_delivers {M B S} `{UserMemoryView M} `{UserCopyBackend B} `{WriteSink S}
    (mapper : M) (backend : B) (umem : Z -> Z) (log : S -> list Z) slice sink :
  CopiesUserMemory mapper backend umem -> AppendSink S log ->
  is_u64 (slice_ptr slice) -> is_u64 (slice_len slice) -> is_ok (validate_slice slice) = true ->
  slice_returns mapper slice ->
  exists r sink' n, sys_write_with_memory slice mapper backend sink = (r, sink') /\
    0 <= n <= slice_len slice /\
    log sink' = log sink ++ bytes_at umem (slice_ptr slice) (Z.to_nat n) /\
    (all_readable mapper (slice_ptr slice) (slice_ptr slice + slice_len slice) ->
       r = Ok (slice_len slice) /\ n = slice_len slice) /\
    (~ all_readable mapper (slice_ptr slice) (slice_ptr slice + slice_len slice) ->
       (exists e, r = Err (InvalidUserMemory e)) /\ n < slice_len slice /\
       all_readable mapper (slice_ptr slice) (slice_ptr slice + n)).
Proof.
  intros Hb Hs Hp Hl Hok Hret.
  destruct (sys_write_spec mapper backend umem log slice sink Hp Hl Hok Hret)
    as (r & sink' & n & Heq & Hn & Hlog & Hall & Hr).
  exists r, sink', n. split_and!; [done|lia|lia|done| |].
  - intros Hx. by destruct Hr as [?|(e & _ & _ & Hnr)].
  - intros Hx. destruct Hr as [[_ ->]|(e & -> & Hlt & _)]; [done|]. eauto.
Qed.

(** A sink that records everything. *)
Global Instance list_sink : WriteSink (list Z) := {| sink_write s bytes := (Ok tt, s ++ bytes) |}.
Global Instance list_append_sink : AppendSink (list Z) (fun s => s).
Proof. split. intros s bytes. by eexists. Qed.

Lemma sys_write_delivers_witness :
  exists r sink' n,
    sys_write_with_memory (mkUserSlice 69000 1000) demo_view demo_backend [] = (r, sink') /\
    sink' = bytes_at demo_umem 69000 1000 /\ r = Ok 1000 /\ n = 1000.
Proof.
  destruct (sys_write_delivers demo_view demo_backend demo_umem (fun s => s)
              (mkUserSlice 69000 1000) [] (x86_copies_user_memory demo_backend demo_umem demo_view_ok)
              list_append_sink) as (r & sink' & n & Heq & _ & Hlog & Hok & _);
    [split; vm_compute; discriminate..|reflexivity|by intros a _|].
  destruct Hok as [-> ->].
  { intros a Ha. apply demo_readable. simpl in Ha. lia. }
  exists (Ok 1000), sink', 1000. split; [exact Heq|]. split; [exact Hlog|]. split; reflexivity.
Defined.

Section ControlAndMemory.
Context {M B S C : Type} `{UserMemoryView M} `{UserCopyBackend B} `{WriteSink S} `{ProcessSyscallControl C}.

(** Every value a dispatcher reports as success is small: a written length
    inside user space, or zero. *)
Lemma write_loop_value fuel slice (mapper : M) (backend : B) buffer offset (sink : S) v :
  (write_loop fuel slice mapper backend buffer offset sink).1 = Ok v -> v = slice_len slice.
Proof using Type.
  revert buffer offset sink. induction fuel as [|fuel IH]; intros buffer offset sink Hv; [done|].
  cbn [write_loop] in Hv. destruct (offset <? slice_len slice); [|by injection Hv].
  destruct (checked_add _ _); [|done]. destruct (copy_from_user _ _ _ _) as [[[]|e|] filled]; try done.
  cbv zeta in Hv. destruct (sink_write _ _) as [[[]|e|] s']; try done.
  destruct (checked_add _ _); [|done]. by apply IH in Hv.
Qed.

Lemma sys_write_value slice (mapper : M) (backend : B) (sink : S) v :
  is_u64 (slice_ptr slice) -> is_u64 (slice_len slice) ->
  (sys_write_with_memory slice mapper backend sink).1 = Ok v -> 0 <= v <= KERNEL_SPACE_START.
Proof using Type.
  intros Hp Hl. pose proof (validate_slice_cases slice Hp Hl) as Hc. unfold sys_write_with_memory.
  assert (0 < USER_SPACE_START /\ 0 < KERNEL_SPACE_START) as [??] by (by vm_compute).
  destruct (validate_slice slice); [|done..]. destruct Hc as [_ Hc]. unfold UserSlice_is_empty.
  destruct (Z.eqb_spec (slice_len slice) 0) as [He|He]; [intros [= <-]; lia|].
  intros ->%write_loop_value. ulia.
Qed.
End ControlAndMemory.

(** Userspace can always tell success from failure.  For every request and
    every state of memory, sink and process control, the register value written
    for a successful syscall never decodes as an error, and the value written
    for a failed one decodes as exactly the ABI class of the kernel's error;
    only a successful [Exit] asks to terminate and only a successful [Yield] to
    reschedule. *)
Theorem syscall_result_unambiguous {M B S C} `{UserMemoryView M} `{UserCopyBackend B}
    `{WriteSink S} `{ProcessSyscallControl C} request (mapper : M) (backend : B) (sink : S) (control : C) :
  is_u64 (req_arg0 request) -> is_u64 (req_arg1 request) ->
  let d := (dispatch_with_memory_and_control_action request mapper backend sink control).1.1 in
  (forall v, sd_result d = Ok v ->
     syscall_result_abi_value (sd_result d) = Some v /\ from_return_value v = None) /\
  (forall e, sd_result d = Err e ->
     exists v, syscall_result_abi_value (sd_result d) = Some v /\ from_return_value v = Some (abi_error e)) /\
  (sd_action d = Terminate <-> req_syscall request = Some Exit /\ is_ok (sd_result d) = true) /\
  (sd_action d = Reschedule <-> req_syscall request = Some Yield /\ is_ok (sd_result d) = true).
Proof.
  intros H0' H1' d. split_and!.
  - intros v Hv. rewrite Hv. split; [done|]. apply from_return_value_None. revert Hv. unfold d.
    assert (0 < KERNEL_SPACE_START < U64_MAX - 6) by (by vm_compute).
    unfold dispatch_with_memory_and_control_action, dispatch_exit, dispatch_yield.
    destruct (req_syscall request) as [[]|]; [|..|done].
    + destruct (negb _); [done|].
      pose proof (sys_write_value (req_user_slice request) mapper backend sink v H0' H1') as Hsv.
      destruct (sys_write_with_memory _ _ _ _) as [r s']. simpl in *. intros Hr. apply Hsv in Hr. lia.
    + destruct (control_exit _ _) as [[]]; simpl; intros [= <-]; ulia.
    + destruct (control_yield_now _) as [[]]; simpl; intros [= <-]; ulia.
  - intros e He. rewrite He. eexists. split; [done|]. by destruct e.
  - unfold d, dispatch_with_memory_and_control_action, dispatch_exit, dispatch_yield.
    destruct (req_syscall request) as [[]|]; [destruct (negb _); [|destruct (sys_write_with_memory _ _ _ _)]
      |destruct (control_exit _ _) as [[]]|destruct (control_yield_now _) as [[]]|];
      simpl; split; try done; by intros [? ?].
  - unfold d, dispatch_with_memory_and_control_action, dispatch_exit, dispatch_yield.
    destruct (req_syscall request) as [[]|]; [destruct (negb _); [|destruct (sys_write_with_memory _ _ _ _)]
      |destruct (control_exit _ _) as [[]]|destruct (control_yield_now _) as [[]]|];
      simpl; split; try done; by intros [? ?].
Qed.

(** A control object that records the exit code. *)
Global Instance option_control : ProcessSyscallControl (option Z) :=
  {| control_exit c code := (Ok tt, Some code); control_yield_now c := (Err InvalidArguments, c) |}.

Lemma syscall_result_unambiguous_witness :
  sd_action (dispatch_with_memory_and_control_action (SyscallRequest_exit 7) demo_view demo_backend
               (@nil Z) (@None Z)).1.1 = Terminate.
Proof.
  apply (syscall_result_unambiguous (SyscallRequest_exit 7) demo_view demo_backend (@nil Z) (@None Z));
    [split; vm_compute; discriminate..|split; reflexivity].
Defined.
