(* ===== verification/Elf.v ===== *)
(** * ELF image validation ([kernel/src/process/image.rs])

    The parser over a byte list.  [usize] offsets are [Z]; additions the source
    leaves unchecked stay below the checked table end, hence below the slice
    length. *)

From stdpp Require Import base numbers sets list options.
From S2P Require Import Prelude Memory.

Local Open Scope Z_scope.
Local Open Scope rust_scope.

Definition ELF_MAGIC : list Z := [127; 69; 76; 70].
Definition ELFCLASS64 : Z := 2.
Definition ELFDATA2LSB : Z := 1.
Definition ET_EXEC : Z := 2.
Definition EM_X86_64 : Z := 62.
Definition PT_LOAD : Z := 1.
Definition PF_X : Z := 1.
Definition PF_W : Z := 2.
Definition PF_R : Z := 4.
Definition MAX_SEGMENTS : nat := 8.

Inductive ElfError :=
| TooSmall
| BadMagic
| UnsupportedClass
| UnsupportedEndian
| UnsupportedType
| UnsupportedMachine
| InvalidProgramTable
| InvalidSegmentRange
| InvalidSegmentPermissions
| InvalidEntry.

Record LoadSegment := mkSegment {
  seg_range : VirtRange;
  seg_flags : Z;
  seg_file_offset : Z;
  seg_file_size : Z;
  seg_memory_size : Z;
}.

Definition seg_executable (s : LoadSegment) : bool := negb (Z.land (seg_flags s) PF_X =? 0).
Definition seg_writable (s : LoadSegment) : bool := negb (Z.land (seg_flags s) PF_W =? 0).
Definition seg_readable (s : LoadSegment) : bool := negb (Z.land (seg_flags s) PF_R =? 0).

Record ElfImage := mkImage {
  img_bytes : list Z;
  img_entry : Z;
  img_segments : list (option LoadSegment);
  img_segment_count : nat;
}.

Definition img_segment (i : ElfImage) (index : nat) : option LoadSegment :=
  if bool_decide (img_segment_count i <= index)%nat then None
  else img_segments i !! index ≫= id.

Definition read_u16 (bytes : list Z) (offset : Z) : option Z := read_le 2 bytes offset.
Definition read_u32 (bytes : list Z) (offset : Z) : option Z := read_le 4 bytes offset.
Definition read_u64 (bytes : list Z) (offset : Z) : option Z := read_le 8 bytes offset.

(** The checks on one [PT_LOAD] header at [base]. *)
Definition parse_segment (bytes : list Z) (base : Z) : result ElfError LoadSegment :=
  let? flags := ok_or (read_u32 bytes (base + 4)) InvalidProgramTable in
  let? file_offset := ok_or (read_u64 bytes (base + 8)) InvalidSegmentRange in
  let? virtual_address := ok_or (read_u64 bytes (base + 16)) InvalidSegmentRange in
  let? file_size := ok_or (read_u64 bytes (base + 32)) InvalidSegmentRange in
  let? memory_size := ok_or (read_u64 bytes (base + 40)) InvalidSegmentRange in
  if negb (Z.land flags PF_W =? 0) && negb (Z.land flags PF_X =? 0)
  then Err InvalidSegmentPermissions else
  if memory_size <? file_size then Err InvalidSegmentRange else
  let? file_end := ok_or (checked_add file_offset file_size) InvalidSegmentRange in
  if Z.of_nat (length bytes) <? file_end then Err InvalidSegmentRange else
  let? virtual_end := ok_or (checked_add virtual_address memory_size) InvalidSegmentRange in
  let? range := ok_or (VirtRange_new virtual_address virtual_end) InvalidSegmentRange in
  if (vr_len range =? 0) || negb (vr_is_user range) then Err InvalidSegmentRange
  else Ok (mkSegment range flags file_offset file_size memory_size).

(** The state of the program-header loop. *)
Record ParseState := mkParse {
  ps_segments : list (option LoadSegment);
  ps_count : nat;
  ps_entry_is_loaded : bool;
}.

(** [for index in 0..phnum], with [n] headers left. *)
Fixpoint parse_headers (n : nat) (bytes : list Z) (entry phoff phentsize index : Z) (st : ParseState)
  : result ElfError ParseState :=
  match n with
  | O => Ok st
  | S n =>
      let base := phoff + index * phentsize in
      let? kind := ok_or (read_u32 bytes base) InvalidProgramTable in
      if negb (kind =? PT_LOAD) then parse_headers n bytes entry phoff phentsize (index + 1) st
      else
        let? segment := parse_segment bytes base in
        let? segments := array_set (ps_segments st) (ps_count st) segment in
        parse_headers n bytes entry phoff phentsize (index + 1)
          (mkParse segments (S (ps_count st))
             (vr_contains (seg_range segment) entry || ps_entry_is_loaded st))
  end.

Definition ElfImage_parse (bytes : list Z) : result ElfError ElfImage :=
  let len := Z.of_nat (length bytes) in
  if len <? 64 then Err TooSmall else
  if negb (bool_decide (take 4 bytes = ELF_MAGIC)) then Err BadMagic else
  if negb (bool_decide (bytes !! 4%nat = Some ELFCLASS64)) then Err UnsupportedClass else
  if negb (bool_decide (bytes !! 5%nat = Some ELFDATA2LSB)) then Err UnsupportedEndian else
  let? kind := ok_or (read_u16 bytes 16) TooSmall in
  if negb (kind =? ET_EXEC) then Err UnsupportedType else
  let? machine := ok_or (read_u16 bytes 18) TooSmall in
  if negb (machine =? EM_X86_64) then Err UnsupportedMachine else
  let? entry := ok_or (read_u64 bytes 24) TooSmall in
  let? phoff := ok_or (read_u64 bytes 32) TooSmall in
  let? phentsize := ok_or (read_u16 bytes 54) TooSmall in
  let? phnum := ok_or (read_u16 bytes 56) TooSmall in
  if (phentsize <? 56) || (phnum =? 0) || (8 <? phnum) then Err InvalidProgramTable else
  let? table_size := ok_or (checked_mul phentsize phnum) InvalidProgramTable in
  let? table_end := ok_or (checked_add phoff table_size) InvalidProgramTable in
  if len <? table_end then Err InvalidProgramTable else
  let? st := parse_headers (Z.to_nat phnum) bytes entry phoff phentsize 0
               (mkParse (replicate MAX_SEGMENTS None) 0 false) in
  if bool_decide (ps_count st = 0)%nat || negb (ps_entry_is_loaded st) then Err InvalidEntry
  else Ok (mkImage bytes entry (ps_segments st) (ps_count st)).

(** ** What a parsed image guarantees *)
Record segment_ok (bytes : list Z) (s : LoadSegment) : Prop := mk_segment_ok {
  so_user : USER_SPACE_START <= vr_start (seg_range s) /\ vr_end (seg_range s) <= KERNEL_SPACE_START;
  so_nonempty : vr_start (seg_range s) < vr_end (seg_range s);
  so_memory : vr_len (seg_range s) = seg_memory_size s;
  so_file : seg_file_size s <= seg_memory_size s /\
            seg_file_offset s + seg_file_size s <= Z.of_nat (length bytes);
  so_wx : ~ (seg_writable s = true /\ seg_executable s = true);
  so_nonneg : Forall is_u8 bytes -> 0 <= seg_file_offset s /\ 0 <= seg_file_size s;
}.

Lemma parse_segment_Ok bytes base s : parse_segment bytes base = Ok s -> segment_ok bytes s.
Proof.
  unfold parse_segment. intros Hp.
  repeat match type of Hp with
  | match ok_or ?o _ with _ => _ end = _ => destruct o eqn:?; simpl in Hp; [|discriminate Hp]
  | (if ?b then _ else _) = _ => destruct b eqn:?; [discriminate Hp|]
  end.
  injection Hp as <-. to_prop.
  match goal with H : VirtRange_new _ _ = Some _ |- _ => apply VirtRange_new_Some in H as [-> ?] end.
  repeat match goal with H : checked_add _ _ = Some _ |- _ => apply checked_add_Some in H as [-> ?] end.
  match goal with H : vr_is_user _ = true |- _ => apply vr_is_user_spec in H as [? ?] end.
  unfold vr_len in *. simpl in *. split; unfold vr_len, seg_writable, seg_executable; simpl; [lia..| |].
  - intros [Hw Hx]. by rewrite Hw, Hx in *.
  - intros Hu8. split.
    + eapply (read_le_bound 8 bytes (base + 8)); [done|lia|eassumption].
    + eapply (read_le_bound 8 bytes (base + 32)); [done|lia|eassumption].
Qed.

Lemma parse_segment_no_panic bytes base : parse_segment bytes base <> Panic.
Proof.
  unfold parse_segment.
  repeat match goal with
  | |- match ok_or ?o _ with _ => _ end <> _ => destruct o; simpl; [|discriminate]
  | |- (if ?b then _ else _) <> _ => destruct b; [discriminate|]
  end. done.
Qed.

(** The loop keeps a filled prefix of valid segments. *)
Definition parse_inv (bytes : list Z) (entry : Z) (st : ParseState) (segs : list LoadSegment) : Prop :=
  ps_segments st = filled MAX_SEGMENTS segs /\ ps_count st = length segs /\
  Forall (segment_ok bytes) segs /\
  (ps_entry_is_loaded st = true <-> Exists (fun s => vr_contains (seg_range s) entry = true) segs).

Lemma parse_headers_spec n bytes entry phoff phentsize index st segs :
  parse_inv bytes entry st segs -> (length segs + n <= MAX_SEGMENTS)%nat ->
  match parse_headers n bytes entry phoff phentsize index st with
  | Ok st' => exists segs', parse_inv bytes entry st' segs' /\ (length segs' <= MAX_SEGMENTS)%nat
  | Err _ => True
  | Panic => False
  end.
Proof.
  revert index st segs. induction n as [|n IH]; intros index st segs Hinv Hlen; simpl.
  { exists segs. split; [done|lia]. }
  destruct (read_u32 _ _) as [kind|]; simpl; [|done].
  destruct (negb _); [apply (IH _ _ segs); [done|lia]|].
  pose proof (parse_segment_no_panic bytes (phoff + index * phentsize)) as Hnp.
  destruct (parse_segment _ _) as [s|e|] eqn:Hs; [|done..].
  destruct Hinv as (Harr & Hcnt & Hok & Hent). rewrite Harr, Hcnt, filled_set by lia.
  apply (IH _ _ (segs ++ [s])); [|rewrite length_app; simpl; lia].
  split_and!; simpl; [done|rewrite length_app; simpl; lia| |].
  - apply Forall_app. split; [done|]. apply Forall_singleton. by eapply parse_segment_Ok.
  - rewrite orb_true_iff, Hent, Exists_app, Exists_cons, Exists_nil. tauto.
Qed.

Lemma ElfImage_parse_spec bytes :
  match ElfImage_parse bytes with
  | Ok img => img_bytes img = bytes /\ exists segs,
      img_segments img = filled MAX_SEGMENTS segs /\ img_segment_count img = length segs /\
      (0 < length segs <= MAX_SEGMENTS)%nat /\ Forall (segment_ok bytes) segs /\
      Exists (fun s => vr_contains (seg_range s) (img_entry img) = true) segs
  | Err _ => True
  | Panic => False
  end.
Proof.
  unfold ElfImage_parse.
  repeat match goal with
  | |- match (match ok_or ?o _ with _ => _ end) with _ => _ end => destruct o eqn:?; simpl; [|done]
  | |- match (if ?b then _ else _) with _ => _ end => destruct b eqn:?; [done|]
  end.
  to_prop. match goal with |- context [parse_headers ?n ?b ?e ?o ?s ?i ?st] =>
    unshelve epose proof (parse_headers_spec n b e o s i st [] _ _) as Hs end.
  - split_and!; simpl; [by rewrite filled_nil|done|constructor|]. split; [done|]. by intros ?%Exists_nil.
  - simpl. unfold MAX_SEGMENTS. lia.
  - destruct (parse_headers _ _ _ _ _ _ _) as [st|e|]; [|done..].
    destruct Hs as (segs & (Harr & Hcnt & Hok & Hent) & Hlen).
    destruct (_ || _) eqn:Hb; [done|]. to_prop. split; [done|]. exists segs. simpl.
    split_and!; [done|done|lia|done|done|]. by apply Hent.
Qed.

Lemma img_segment_filled img segs i :
  img_segments img = filled MAX_SEGMENTS segs -> img_segment_count img = length segs ->
  img_segment img i = segs !! i.
Proof.
  intros Ha Hc. unfold img_segment. rewrite Ha, Hc. case_bool_decide as Hi.
  - symmetry. by apply lookup_ge_None.
  - rewrite filled_lookup by lia. by destruct (segs !! i).
Qed.

(** C28: the ELF parser is total and safe on arbitrary bytes: it never panics
    (no out-of-bounds index, no array overflow), and an image it accepts has one
    to eight load segments, each non-empty, wholly in user space, with its file
    data inside the image and no larger than its memory size, never both
    writable and executable, and the entry point inside one of them. *)
Theorem elf_parse_safe bytes :
  ElfImage_parse bytes <> Panic /\
  forall img, ElfImage_parse bytes = Ok img ->
    img_bytes img = bytes /\ (1 <= img_segment_count img <= 8)%nat /\
    (forall i, (i < img_segment_count img)%nat ->
       exists s, img_segment img i = Some s /\ segment_ok bytes s) /\
    (exists i s, img_segment img i = Some s /\ vr_contains (seg_range s) (img_entry img) = true).
Proof.
  pose proof (ElfImage_parse_spec bytes) as Hs.
  destruct (ElfImage_parse bytes) as [img|e|]; [|split; [done|]; intros; done|done].
  split; [done|]. intros img' [= <-].
  destruct Hs as (Hb & segs & Ha & Hc & Hlen & Hok & Hent). unfold MAX_SEGMENTS in Hlen.
  pose proof (fun i => img_segment_filled img segs i Ha Hc) as Hseg.
  split_and!; [done|lia|lia| |].
  - intros i Hi. rewrite Hc in Hi. destruct (lookup_lt_is_Some_2 segs i Hi) as [s Hi'].
    exists s. rewrite Hseg. split; [done|]. by eapply Forall_lookup_1.
  - apply Exists_exists in Hent as (s & Hin & He). apply list_elem_of_lookup in Hin as [i Hi].
    exists i, s. by rewrite Hseg.
Qed.

(** ** A minimal executable, for evaluation *)
Fixpoint to_le_bytes (n : nat) (v : Z) : list Z :=
  match n with O => [] | S n => v mod 256 :: to_le_bytes n (v / 256) end.

Definition demo_phdr (flags offset vaddr filesz memsz : Z) : list Z :=
  to_le_bytes 4 PT_LOAD ++ to_le_bytes 4 flags ++ to_le_bytes 8 offset ++ to_le_bytes 8 vaddr ++
  to_le_bytes 8 vaddr ++ to_le_bytes 8 filesz ++ to_le_bytes 8 memsz ++ to_le_bytes 8 4096.

Definition demo_elf (entry : Z) (phdrs : list (list Z)) (data : list Z) : list Z :=
  ELF_MAGIC ++ [ELFCLASS64; ELFDATA2LSB] ++ replicate 10 0 ++
  to_le_bytes 2 ET_EXEC ++ to_le_bytes 2 EM_X86_64 ++ to_le_bytes 4 1 ++ to_le_bytes 8 entry ++
  to_le_bytes 8 64 ++ to_le_bytes 8 0 ++ to_le_bytes 4 0 ++ to_le_bytes 2 64 ++ to_le_bytes 2 56 ++
  to_le_bytes 2 (Z.of_nat (length phdrs)) ++ replicate 6 0 ++ concat phdrs ++ data.

(** Text at the image base and a data segment with a zero tail. *)
Definition demo_bytes : list Z :=
  demo_elf (USER_IMAGE_BASE + 16)
    [demo_phdr 5 176 USER_IMAGE_BASE 32 32; demo_phdr 6 208 (USER_IMAGE_BASE + 8192) 8 64]
    (replicate 32 144 ++ [1; 2; 3; 4; 5; 6; 7; 8]).

Example demo_elf_accepted :
  match ElfImage_parse demo_bytes with
  | Ok img => img_segment_count img = 2%nat /\ img_entry img = USER_IMAGE_BASE + 16
  | _ => False
  end.
Proof. vm_compute. split; reflexivity. Qed.

Example demo_elf_truncated : ElfImage_parse (take 200 demo_bytes) = Err InvalidSegmentRange.
Proof. vm_compute. reflexivity. Qed.
