(* ===== verification/LoadPlan.v ===== *)
(** * Load planning

    [kernel/src/process/address_space.rs], [load_plan.rs], [stack.rs],
    [initial_context.rs], [image_state.rs], [ramdisk_image.rs] and
    [loaded_address_space.rs]: from a validated ELF image to the page ranges,
    stack pages and entry state a process is built from. *)

From stdpp Require Import base numbers sets list options.
From S2P Require Import Prelude Memory Elf.

Local Open Scope Z_scope.
Local Open Scope rust_scope.

(** ** Address-space policy *)
Record AddressSpaceId := mkAsId { asid_raw : Z }.

Global Instance AddressSpaceId_eq_dec : EqDecision AddressSpaceId.
Proof. solve_decision. Defined.

Definition AddressSpaceId_new (raw : Z) : option AddressSpaceId :=
  if raw =? 0 then None else Some (mkAsId raw).

Record AddressSpaceSpec := mkSpec { spec_id : AddressSpaceId; spec_layout : UserAddressSpaceLayout }.

Definition AddressSpaceSpec_new (id : AddressSpaceId) : AddressSpaceSpec :=
  mkSpec id UserAddressSpaceLayout_default.

Inductive AddressSpaceError :=
| InvalidUserRange
| ImageOutsideUserSpace
| StackOutsideUserSpace
| StackOverlapsGuard.

Definition validate_user_range (spec : AddressSpaceSpec) (range : VirtRange)
  : result AddressSpaceError unit :=
  let layout := spec_layout spec in
  if negb (vr_is_user range) then Err InvalidUserRange else
  if (vr_start range <? vr_start (layout_user layout))
     || (vr_end (layout_user layout) <? vr_end range)
  then Err InvalidUserRange else
  if (vr_start (layout_guard layout) <? vr_end range)
     && (vr_start range <? vr_end (layout_guard layout))
  then Err StackOverlapsGuard
  else Ok tt.

Definition validate_image_range (spec : AddressSpaceSpec) (range : VirtRange)
  : result AddressSpaceError unit :=
  let? _ := validate_user_range spec range in
  let layout := spec_layout spec in
  if (vr_start range <? layout_image_base layout)
     || (vr_start (layout_stack layout) <=? vr_start range)
  then Err ImageOutsideUserSpace
  else Ok tt.

Definition validate_stack_range (spec : AddressSpaceSpec) (range : VirtRange)
  : result AddressSpaceError unit :=
  let layout := spec_layout spec in
  if negb (vr_is_user range)
     || (vr_start range <? vr_start (layout_stack layout))
     || (vr_end (layout_stack layout) <? vr_end range)
  then Err StackOutsideUserSpace
  else Ok tt.

(** ** Load plan *)
Inductive LoadPlanError :=
| AddressSpaceErr (e : AddressSpaceError)
| SegmentOverlap
| WritableExecutableSegment
| LoadPlanInvalidEntry
| TooManySegments.

Record SegmentMapping := mkSegMap { sm_range : VirtRange; sm_flags : Z }.

Record LoadPlan := mkPlan {
  plan_entry : Z;
  plan_segments : list (option SegmentMapping);
  plan_count : nat;
}.

Definition plan_segment (p : LoadPlan) (index : nat) : option SegmentMapping :=
  if bool_decide (plan_count p <= index)%nat then None
  else plan_segments p !! index ≫= id.

Definition map_span (segment : LoadSegment) : result LoadPlanError VirtRange :=
  let range := seg_range segment in
  let start := Z.land (vr_start range) (not_u64 (4096 - 1)) in
  let? end_ := ok_or ((fun value => Z.land value (not_u64 (4096 - 1))) <$>
                        checked_add (vr_end range) (4096 - 1))
                     (AddressSpaceErr InvalidUserRange) in
  ok_or (VirtRange_new start end_) (AddressSpaceErr InvalidUserRange).

Definition ranges_overlap (left right : VirtRange) : bool :=
  (vr_start left <? vr_end right) && (vr_start right <? vr_end left).

(** The loop state: the array, its fill count, whether the entry was seen in an
    executable span. *)
Record PlanState := mkPlanState {
  pl_segments : list (option SegmentMapping);
  pl_count : nat;
  pl_entry_executable : bool;
}.

Fixpoint plan_loop (n index : nat) (spec : AddressSpaceSpec) (image : ElfImage) (st : PlanState)
  : result LoadPlanError PlanState :=
  match n with
  | O => Ok st
  | S n =>
      let? segment := ok_or (img_segment image index) TooManySegments in
      let? mapped := map_span segment in
      let? _ := map_err AddressSpaceErr (validate_image_range spec mapped) in
      if seg_writable segment && seg_executable segment then Err WritableExecutableSegment else
      let entry_executable :=
        (seg_executable segment && vr_contains mapped (img_entry image)) || pl_entry_executable st in
      if existsb (fun prior => ranges_overlap mapped (sm_range prior)) (array_flatten (pl_segments st))
      then Err SegmentOverlap else
      let? segments := array_set (pl_segments st) (pl_count st) (mkSegMap mapped (seg_flags segment)) in
      plan_loop n (S index) spec image (mkPlanState segments (S (pl_count st)) entry_executable)
  end.

Definition LoadPlan_build (spec : AddressSpaceSpec) (image : ElfImage) : result LoadPlanError LoadPlan :=
  if bool_decide (8 < img_segment_count image)%nat then Err TooManySegments else
  let? st := plan_loop (img_segment_count image) 0 spec image
               (mkPlanState (replicate MAX_SEGMENTS None) 0 false) in
  if negb (pl_entry_executable st) then Err LoadPlanInvalidEntry
  else Ok (mkPlan (img_entry image) (pl_segments st) (pl_count st)).

(** ** User stack plan *)
Inductive StackPlanError := StackInvalidRange | StackInvalidPage.

Record UserStackPlan := mkStackPlan {
  usp_pages : list (option Page4K);
  usp_count : nat;
  usp_initial_rsp : Z;
}.

Definition usp_page (p : UserStackPlan) (index : nat) : option Page4K :=
  if bool_decide (usp_count p <= index)%nat then None else usp_pages p !! index ≫= id.

(** [while address < range.end()]; one page per round. *)
Fixpoint stack_loop (fuel : nat) (range : VirtRange) (address : Z) (pages : list (option Page4K))
    (count : nat) : result StackPlanError (list (option Page4K) * nat) :=
  match fuel with
  | O => Panic
  | S fuel =>
      if address <? vr_end range then
        let? page := ok_or (Page4K_from_start_address address) StackInvalidPage in
        let? pages := array_set pages count page in
        let? address := ok_or (checked_add address PAGE_SIZE_4K) StackInvalidRange in
        stack_loop fuel range address pages (S count)
      else Ok (pages, count)
  end.

Definition UserStackPlan_build : result StackPlanError UserStackPlan :=
  let? range := ok_or user_stack_range StackInvalidRange in
  let? (pages, count) := stack_loop (S (Z.to_nat USER_STACK_PAGES)) range (vr_start range)
                            (replicate (Z.to_nat USER_STACK_PAGES) None) 0 in
  if negb (bool_decide (count = Z.to_nat USER_STACK_PAGES)) then Err StackInvalidRange
  else Ok (mkStackPlan pages count (vr_end range)).

(** ** Initial context and the validated image *)
Record InitialContext := mkContext { ctx_entry : Z; ctx_stack_pointer : Z }.

Inductive InitialContextError := ContextInvalidEntry | ContextInvalidStackPointer.

Definition InitialContext_new (entry stack_pointer : Z) : result InitialContextError InitialContext :=
  if (entry <? USER_SPACE_START) || (KERNEL_SPACE_START <=? entry) then Err ContextInvalidEntry else
  if negb (is_valid_user_stack_pointer stack_pointer) then Err ContextInvalidStackPointer
  else Ok (mkContext entry stack_pointer).

Record ProcessImage := mkProcessImage {
  pi_address_space : AddressSpaceSpec;
  pi_load_plan : LoadPlan;
  pi_stack_plan : UserStackPlan;
  pi_context : InitialContext;
}.

Inductive ProcessImageError := InvalidContext.

Definition ProcessImage_build (address_space : AddressSpaceSpec) (load_plan : LoadPlan)
    (stack_plan : UserStackPlan) : result ProcessImageError ProcessImage :=
  let? context := map_err (fun _ => InvalidContext)
                    (InitialContext_new (plan_entry load_plan) (usp_initial_rsp stack_plan)) in
  Ok (mkProcessImage address_space load_plan stack_plan context).

Inductive RamdiskImageError :=
| RamdiskElf (e : ElfError)
| RamdiskLoadPlan (e : LoadPlanError)
| RamdiskStack (e : StackPlanError)
| RamdiskImage (e : ProcessImageError).

Definition build_process_image (bytes : list Z) (address_space : AddressSpaceSpec)
  : result RamdiskImageError ProcessImage :=
  let? image := map_err RamdiskElf (ElfImage_parse bytes) in
  let? load_plan := map_err RamdiskLoadPlan (LoadPlan_build address_space image) in
  let? stack_plan := map_err RamdiskStack UserStackPlan_build in
  map_err RamdiskImage (ProcessImage_build address_space load_plan stack_plan).

Inductive LoadedAddressSpaceError := AddressSpaceMismatch | ImageNotValidated.

Record LoadedAddressSpace := mkLoaded { las_spec : AddressSpaceSpec; las_image : ProcessImage }.

Definition LoadedAddressSpace_build (spec : AddressSpaceSpec) (image : ProcessImage)
  : result LoadedAddressSpaceError LoadedAddressSpace :=
  if negb (bool_decide (spec_id (pi_address_space image) = spec_id spec)) then Err AddressSpaceMismatch
  else Ok (mkLoaded spec image).

(** ** The stack plan is a constant *)
Lemma UserStackPlan_build_Ok :
  exists pages, UserStackPlan_build =
    Ok (mkStackPlan (filled 16 pages) 16 USER_STACK_TOP) /\
    length pages = 16%nat /\
    forall i, (i < 16)%nat ->
      pages !! i = Some (mkPage (USER_STACK_TOP - USER_STACK_SIZE + Z.of_nat i * PAGE_SIZE_4K)).
Proof.
  exists ((fun i => mkPage (USER_STACK_TOP - USER_STACK_SIZE + Z.of_nat i * PAGE_SIZE_4K)) <$> seq 0 16).
  split; [vm_compute; reflexivity|]. split; [done|].
  intros i Hi. rewrite list_lookup_fmap, lookup_seq_lt by lia. done.
Qed.

(** ** Page spans *)
Definition aligned (x : Z) : Prop := x mod PAGE_SIZE_4K = 0.

(** The tight page hull of a range. *)
Record page_hull (r m : VirtRange) : Prop := mk_hull {
  hull_start : aligned (vr_start m) /\ vr_start m <= vr_start r < vr_start m + PAGE_SIZE_4K;
  hull_end : aligned (vr_end m) /\ vr_end m - PAGE_SIZE_4K < vr_end r <= vr_end m;
}.

Lemma aligned_floor x : aligned (x - x mod PAGE_SIZE_4K).
Proof.
  unfold aligned. rewrite Zminus_mod_idemp_r, Z.sub_diag. done.
Qed.

Lemma map_span_spec bytes s :
  segment_ok bytes s -> exists m, map_span s = Ok m /\ page_hull (seg_range s) m.
Proof.
  intros [[Hlo Hhi] Hne _ _ _ _]. unfold map_span.
  assert (0 < USER_SPACE_START /\ KERNEL_SPACE_START + 4096 < U64_MAX) as [HU HK] by (by vm_compute).
  assert (checked_add (vr_end (seg_range s)) (4096 - 1) = Some (vr_end (seg_range s) + 4095)) as ->
    by (apply checked_add_Some; lia).
  simpl. change (4096 - 1) with 4095. rewrite !land_page_mask by ulia.
  pose proof (Z.mod_pos_bound (vr_start (seg_range s)) 4096 ltac:(lia)).
  pose proof (Z.mod_pos_bound (vr_end (seg_range s) + 4095) 4096 ltac:(lia)).
  eexists. split.
  - match goal with |- ok_or ?o _ = _ => destruct o eqn:Hr end.
    + apply VirtRange_new_Some in Hr as [-> _]. done.
    + unfold VirtRange_new in Hr. case_if; [done|]. to_prop. lia.
  - split; simpl; (split; [apply aligned_floor|unfold PAGE_SIZE_4K; lia]).
Qed.

Lemma hull_contains r m a : page_hull r m -> vr_contains r a = true -> vr_contains m a = true.
Proof. intros [[_ Hs] [_ He]] Ha%vr_contains_spec. apply vr_contains_spec. lia. Qed.

Lemma ranges_overlap_false a b :
  vr_start a < vr_end a -> vr_start b < vr_end b ->
  ranges_overlap a b = false <-> ranges_disjoint a b.
Proof.
  intros Ha Hb. unfold ranges_overlap, ranges_disjoint.
  rewrite andb_false_iff, !Z.ltb_ge. lia.
Qed.

(** The area of the default layout that images may occupy. *)
Definition IMAGE_LIMIT : Z := vr_start (layout_guard UserAddressSpaceLayout_default).

Definition in_image_area (m : VirtRange) : Prop :=
  USER_IMAGE_BASE <= vr_start m /\ vr_start m < vr_end m <= IMAGE_LIMIT.

Lemma validate_image_range_cases id m :
  vr_start m < vr_end m ->
  match validate_image_range (AddressSpaceSpec_new id) m with
  | Ok _ => in_image_area m
  | Err _ => ~ in_image_area m
  | Panic => False
  end.
Proof.
  intros Hne. unfold validate_image_range, validate_user_range, in_image_area.
  assert (USER_SPACE_START < USER_IMAGE_BASE /\ IMAGE_LIMIT < KERNEL_SPACE_START /\
          IMAGE_LIMIT < vr_start (layout_stack UserAddressSpaceLayout_default)) as (H1 & H2 & H3)
    by (by vm_compute).
  cbn [AddressSpaceSpec_new spec_layout]. unfold IMAGE_LIMIT in *.
  cbn [layout_user layout_guard layout_stack layout_image_base UserAddressSpaceLayout_default
       vr_start vr_end] in *.
  destruct (vr_is_user m) eqn:Hu; cbn [negb].
  2: { apply not_true_iff_false in Hu. rewrite vr_is_user_spec in Hu. lia. }
  apply vr_is_user_spec in Hu as [Hu1 Hu2].
  destruct ((vr_start m <? USER_SPACE_START) || _) eqn:Hb1; [apply orb_true_iff in Hb1 as [Hb|Hb]; to_prop; lia|].
  destruct (_ && _) eqn:Hb2; [to_prop; lia|]. apply andb_false_iff in Hb2.
  destruct ((vr_start m <? USER_IMAGE_BASE) || _) eqn:Hb3; [apply orb_true_iff in Hb3 as [Hb|Hb]; to_prop; lia|].
  to_prop. destruct Hb2; to_prop; lia.
Qed.

(** ** What an accepted plan guarantees *)
Definition planned (s : LoadSegment) (m : SegmentMapping) : Prop :=
  page_hull (seg_range s) (sm_range m) /\ sm_flags m = seg_flags s /\ in_image_area (sm_range m).

Definition maps_disjoint (m1 m2 : SegmentMapping) : Prop := ranges_disjoint (sm_range m1) (sm_range m2).

Record plan_inv (entry : Z) (segs : list LoadSegment) (st : PlanState) (maps : list SegmentMapping)
  : Prop := mk_plan_inv {
  pinv_array : pl_segments st = filled MAX_SEGMENTS maps;
  pinv_count : pl_count st = length maps;
  pinv_planned : Forall2 planned segs maps;
  pinv_disjoint : forall i j m1 m2, maps !! i = Some m1 -> maps !! j = Some m2 -> i <> j ->
                    maps_disjoint m1 m2;
  pinv_entry : pl_entry_executable st = true ->
    exists i s m, segs !! i = Some s /\ maps !! i = Some m /\ seg_executable s = true /\
                  vr_contains (sm_range m) entry = true;
}.

Lemma plan_inv_snoc entry segs st maps s m e :
  plan_inv entry segs st maps -> planned s m -> (length maps < MAX_SEGMENTS)%nat ->
  (forall m', m' ∈ maps -> maps_disjoint m m') ->
  (e = true -> (seg_executable s = true /\ vr_contains (sm_range m) entry = true) \/
               pl_entry_executable st = true) ->
  plan_inv entry (segs ++ [s])
    (mkPlanState (filled MAX_SEGMENTS (maps ++ [m])) (S (length maps)) e) (maps ++ [m]).
Proof.
  intros [Ha Hc Hp Hd He] Hm Hl Hdis Hent. pose proof (Forall2_length _ _ _ Hp) as Hlen. split; simpl.
  - done.
  - rewrite length_app. simpl. lia.
  - by apply Forall2_app; [|constructor].
  - intros i j m1 m2 Hi Hj Hij.
    apply lookup_snoc_Some in Hi as [[? Hi]|[? <-]], Hj as [[? Hj]|[? <-]].
    + by apply (Hd i j).
    + unfold maps_disjoint, ranges_disjoint in *.
      specialize (Hdis m1 ltac:(by eapply list_elem_of_lookup_2)). lia.
    + apply Hdis. by eapply list_elem_of_lookup_2.
    + congruence.
  - intros [[Hx Hy]|Hold]%Hent.
    + exists (length segs), s, m. rewrite !lookup_app_r by lia.
      rewrite Nat.sub_diag, Hlen, Nat.sub_diag. done.
    + destruct (He Hold) as (i & s' & m' & ? & ? & ?). exists i, s', m'.
      split_and!; [by apply lookup_app_l_Some|by apply lookup_app_l_Some|tauto..].
Qed.

Lemma plan_loop_spec n id bytes image segs st pre post maps :
  segs = pre ++ post -> length post = n -> (length segs <= MAX_SEGMENTS)%nat ->
  (forall i, img_segment image i = segs !! i) -> Forall (segment_ok bytes) segs ->
  plan_inv (img_entry image) pre st maps ->
  match plan_loop n (length pre) (AddressSpaceSpec_new id) image st with
  | Ok st' => exists maps', plan_inv (img_entry image) segs st' maps'
  | Err _ => True
  | Panic => False
  end.
Proof.
  intros Hseg Hn Hmax Himg Hok. revert pre post st maps Hseg Hn.
  induction n as [|n IH]; intros pre post st maps Hseg Hn Hinv; cbn [plan_loop].
  { destruct post; [|done]. rewrite app_nil_r in Hseg. subst. by exists maps. }
  destruct post as [|s post]; [done|]. simpl in Hn.
  assert (Hsi : segs !! length pre = Some s) by (by rewrite Hseg, lookup_app_r, Nat.sub_diag by lia).
  rewrite Himg, Hsi. simpl.
  pose proof (Forall_lookup_1 _ _ _ _ Hok Hsi) as Hsok.
  destruct (map_span_spec bytes s Hsok) as (m & -> & Hhull).
  assert (Hmne : vr_start m < vr_end m).
  { destruct Hhull as [[_ ?] [_ ?]], Hsok as [_ ? _ _ _ _]. lia. }
  pose proof (validate_image_range_cases id m Hmne) as Hv.
  destruct (validate_image_range _ m) as [[]|e|]; simpl; [|done..].
  destruct (seg_writable s && seg_executable s); [done|].
  pose proof Hinv as [Ha Hc Hp _ _]. rewrite Ha, filled_flatten.
  destruct (existsb _ maps) eqn:Hov; [done|].
  pose proof (Forall2_length _ _ _ Hp) as Hlen.
  assert (Hroom : (length maps < MAX_SEGMENTS)%nat).
  { apply (f_equal length) in Hseg. rewrite length_app in Hseg. simpl in Hseg. lia. }
  rewrite Hc, filled_set by done.
  replace (S (length pre)) with (length (pre ++ [s])) by (rewrite length_app; simpl; lia).
  apply (IH (pre ++ [s]) post _ (maps ++ [mkSegMap m (seg_flags s)])).
  - by rewrite <- app_assoc.
  - lia.
  - apply (plan_inv_snoc _ _ st); [done|done|done| |].
    + intros m' Hm'. apply ranges_overlap_false; simpl; [done| |].
      * apply list_elem_of_lookup in Hm' as [i Hi].
        destruct (Forall2_lookup_r _ _ _ _ _ Hp Hi) as (s' & _ & _ & _ & [_ ?]). lia.
      * apply not_true_iff_false. intros Hx. apply not_true_iff_false in Hov. apply Hov.
        apply existsb_exists. exists m'. by rewrite <- list_elem_of_In.
    + intros He. apply orb_true_iff in He as [He|He]; [left|by right].
      by apply andb_true_iff in He.
Qed.

Lemma LoadPlan_build_spec id bytes image :
  ElfImage_parse bytes = Ok image ->
  match LoadPlan_build (AddressSpaceSpec_new id) image with
  | Ok plan => exists segs maps st,
      (forall i, img_segment image i = segs !! i) /\ Forall (segment_ok bytes) segs /\
      Exists (fun s => vr_contains (seg_range s) (img_entry image) = true) segs /\
      plan_inv (img_entry image) segs st maps /\ pl_entry_executable st = true /\
      plan = mkPlan (img_entry image) (filled MAX_SEGMENTS maps) (length maps)
  | Err _ => True
  | Panic => False
  end.
Proof.
  intros Hparse. pose proof (ElfImage_parse_spec bytes) as Hs. rewrite Hparse in Hs.
  destruct Hs as (_ & segs & Ha & Hc & Hlen & Hok & Hent).
  unfold LoadPlan_build. rewrite Hc. case_bool_decide; [done|].
  pose proof (fun i => img_segment_filled image segs i Ha Hc) as Himg.
  pose proof (plan_loop_spec (length segs) id bytes image segs
                (mkPlanState (replicate MAX_SEGMENTS None) 0 false) [] segs []) as Hl.
  simpl in Hl. destruct (plan_loop _ _ _ _ _) as [st|e|]; [|done|].
  - destruct Hl as (maps & Hinv); [done|done|lia|done|done| |].
    { split; simpl; [by rewrite filled_nil|done|constructor| |done].
      intros i j m1 m2 Hi. by rewrite lookup_nil in Hi. }
    destruct (pl_entry_executable st) eqn:He; simpl; [|done].
    exists segs, maps, st. destruct Hinv as [Ha' Hc' Hp Hd Hen].
    split_and!; [done|done|done|done|done|]. by rewrite Ha', Hc'.
  - apply Hl; [done|done|lia|done|done|].
    split; simpl; [by rewrite filled_nil|done|constructor| |done].
    intros i j m1 m2 Hi. by rewrite lookup_nil in Hi.
Qed.

Lemma plan_segment_filled entry maps i :
  plan_segment (mkPlan entry (filled MAX_SEGMENTS maps) (length maps)) i = maps !! i.
Proof.
  unfold plan_segment. simpl. case_bool_decide as Hi.
  - symmetry. by apply lookup_ge_None.
  - rewrite filled_lookup by lia. by destruct (maps !! i).
Qed.

(** The entry of an accepted plan lies in an executable segment itself, not only
    in the padding of its pages: page hulls are disjoint, so the executable hull
    that contains the entry is the hull of the segment that contains it. *)
Lemma plan_entry_in_segment entry segs st maps :
  plan_inv entry segs st maps -> pl_entry_executable st = true ->
  Exists (fun s => vr_contains (seg_range s) entry = true) segs ->
  exists i s, segs !! i = Some s /\ seg_executable s = true /\ vr_contains (seg_range s) entry = true.
Proof.
  intros [_ _ Hp Hd He] Hent (s & Hin & Hs)%Exists_exists.
  destruct (He Hent) as (i & si & mi & Hsi & Hmi & Hx & Hc).
  apply list_elem_of_lookup in Hin as [j Hj].
  destruct (Forall2_lookup_l _ _ _ _ _ Hp Hj) as (mj & Hmj & Hhull & _).
  destruct (decide (i = j)) as [->|Hij]; [exists j, s; by simplify_eq|].
  pose proof (hull_contains _ _ _ Hhull Hs) as Hmc.
  pose proof (ranges_disjoint_spec _ _ _ (Hd i j mi mj Hmi Hmj Hij) Hc). congruence.
Qed.

(** C29: planning an image never panics, and an accepted plan maps every segment
    into its tight page hull with its own permissions; the hulls are pairwise
    disjoint, lie above the image base and end below the stack guard, none is
    writable and executable, and the entry point lies inside an executable
    segment. *)
Theorem load_plan_safe id bytes image :
  ElfImage_parse bytes = Ok image ->
  LoadPlan_build (AddressSpaceSpec_new id) image <> Panic /\
  forall plan, LoadPlan_build (AddressSpaceSpec_new id) image = Ok plan ->
    plan_entry plan = img_entry image /\
    (forall i s, img_segment image i = Some s ->
       exists m, plan_segment plan i = Some m /\ page_hull (seg_range s) (sm_range m) /\
                 sm_flags m = seg_flags s /\ in_image_area (sm_range m) /\
                 ~ (seg_writable s = true /\ seg_executable s = true)) /\
    (forall i j mi mj, plan_segment plan i = Some mi -> plan_segment plan j = Some mj -> i <> j ->
       ranges_disjoint (sm_range mi) (sm_range mj)) /\
    (exists i s, img_segment image i = Some s /\ seg_executable s = true /\
                 vr_contains (seg_range s) (plan_entry plan) = true).
Proof.
  intros Hparse. pose proof (LoadPlan_build_spec id bytes image Hparse) as Hs.
  destruct (LoadPlan_build _ image) as [plan|e|]; [|done..]. split; [done|].
  intros plan' [= <-].
  destruct Hs as (segs & maps & st & Himg & Hok & Hent & Hinv & Hx & ->).
  pose proof Hinv as [_ _ Hp Hd _]. simpl. split_and!; [done| | |].
  - intros i s Hi. rewrite Himg in Hi.
    destruct (Forall2_lookup_l _ _ _ _ _ Hp Hi) as (m & Hm & Hh & Hf & Ha).
    exists m. rewrite plan_segment_filled. split_and!; [done|done|done|apply Ha..|].
    by apply (so_wx bytes), (Forall_lookup_1 _ _ _ _ Hok Hi).
  - intros i j mi mj. rewrite !plan_segment_filled. apply Hd.
  - destruct (plan_entry_in_segment _ _ _ _ Hinv Hx Hent) as (i & s & Hi & ? & ?).
    exists i, s. by rewrite Himg.
Qed.

Definition demo_spec : AddressSpaceSpec := AddressSpaceSpec_new (mkAsId 1).

Lemma load_plan_safe_witness :
  exists image plan, ElfImage_parse demo_bytes = Ok image /\
    LoadPlan_build demo_spec image = Ok plan /\ plan_entry plan = USER_IMAGE_BASE + 16 /\
    exists i s, img_segment image i = Some s /\ seg_executable s = true.
Proof.
  destruct (ElfImage_parse demo_bytes) as [image|e|] eqn:Hp; [|vm_compute in Hp; discriminate..].
  destruct (LoadPlan_build demo_spec image) as [plan|e|] eqn:Hb.
  - exists image, plan. split; [reflexivity|]. split; [exact Hb|].
    destruct (load_plan_safe (mkAsId 1) demo_bytes image Hp) as [_ Hs].
    destruct (Hs plan Hb) as (He & _ & _ & i & s & Hi & Hx & _). split; [|eauto].
    rewrite He. vm_compute in Hp. injection Hp as <-. reflexivity.
  - exfalso. vm_compute in Hp. injection Hp as <-. vm_compute in Hb. discriminate.
  - exfalso. vm_compute in Hp. injection Hp as <-. vm_compute in Hb. discriminate.
Defined.

(** The byte ranges of the stack and of its guard page. *)
Definition STACK_RANGE : VirtRange := mkVirtRange (USER_STACK_TOP - USER_STACK_SIZE) USER_STACK_TOP.
Definition GUARD_RANGE : VirtRange :=
  mkVirtRange (USER_STACK_TOP - USER_STACK_SIZE - USER_STACK_GUARD_SIZE) (USER_STACK_TOP - USER_STACK_SIZE).

Lemma image_area_below_guard m :
  in_image_area m -> ranges_disjoint m STACK_RANGE /\ ranges_disjoint m GUARD_RANGE.
Proof.
  intros [_ [_ He]]. unfold ranges_disjoint, STACK_RANGE, GUARD_RANGE. simpl.
  assert (IMAGE_LIMIT <= USER_STACK_TOP - USER_STACK_SIZE - USER_STACK_GUARD_SIZE /\
          USER_STACK_TOP - USER_STACK_SIZE - USER_STACK_GUARD_SIZE <= USER_STACK_TOP - USER_STACK_SIZE)
    as [??] by (by vm_compute). lia.
Qed.

(** Building a process image from arbitrary bytes never panics.  An accepted
    image starts at an entry inside user space with its stack pointer at the top
    of sixteen contiguous stack pages, 16-byte aligned; every mapped segment is
    disjoint from the stack and from the guard page below it, and the guard page
    is not one of the stack pages. *)
Theorem process_image_safe id bytes :
  build_process_image bytes (AddressSpaceSpec_new id) <> Panic /\
  forall image, build_process_image bytes (AddressSpaceSpec_new id) = Ok image ->
    ctx_entry (pi_context image) = plan_entry (pi_load_plan image) /\
    USER_SPACE_START <= ctx_entry (pi_context image) < KERNEL_SPACE_START /\
    ctx_stack_pointer (pi_context image) = USER_STACK_TOP /\
    is_valid_user_stack_pointer (ctx_stack_pointer (pi_context image)) = true /\
    (forall i m, plan_segment (pi_load_plan image) i = Some m ->
       ranges_disjoint (sm_range m) STACK_RANGE /\ ranges_disjoint (sm_range m) GUARD_RANGE) /\
    usp_count (pi_stack_plan image) = 16%nat /\
    (forall i, (i < 16)%nat -> exists p, usp_page (pi_stack_plan image) i = Some p /\
       page_start p = vr_start STACK_RANGE + Z.of_nat i * PAGE_SIZE_4K /\
       ~ (vr_start GUARD_RANGE <= page_start p < vr_end GUARD_RANGE)).
Proof.
  unfold build_process_image.
  destruct UserStackPlan_build_Ok as (pages & -> & Hlen & Hpages).
  pose proof (ElfImage_parse_spec bytes) as Hparse.
  destruct (ElfImage_parse bytes) as [img|e|] eqn:Hp; simpl; [|done..].
  pose proof (LoadPlan_build_spec id bytes img Hp) as Hs.
  destruct (LoadPlan_build _ img) as [plan|e|]; simpl; [|done..].
  destruct Hs as (segs & maps & st & _ & _ & _ & [_ _ Hpl _ _] & _ & ->).
  unfold ProcessImage_build, InitialContext_new. cbn [plan_entry usp_initial_rsp].
  destruct (_ || _) eqn:Hent; cbn [map_err]; [done|]. to_prop.
  destruct (negb _) eqn:Hsp; cbn [map_err]; [done|]. to_prop. split; [done|].
  intros image [= <-]. cbn [pi_context pi_load_plan pi_stack_plan ctx_entry ctx_stack_pointer plan_entry].
  split_and!; try done.
  - intros i m Hm. rewrite plan_segment_filled in Hm.
    destruct (Forall2_lookup_r _ _ _ _ _ Hpl Hm) as (s & _ & _ & _ & Ha). by apply image_area_below_guard.
  - intros i Hi. specialize (Hpages i Hi).
    exists (mkPage (USER_STACK_TOP - USER_STACK_SIZE + Z.of_nat i * PAGE_SIZE_4K)).
    split; [|split; [reflexivity|]].
    + unfold usp_page. cbn [usp_count usp_pages]. rewrite bool_decide_false by lia.
      rewrite filled_lookup by lia. by rewrite Hpages.
    + unfold GUARD_RANGE. cbn [page_start vr_start vr_end]. unfold PAGE_SIZE_4K. lia.
Qed.

Example demo_process_image :
  is_ok (build_process_image demo_bytes demo_spec) = true.
Proof. vm_compute. reflexivity. Qed.

(** Bits 47 to 63 of a canonical x86_64 address are equal. *)
Definition canonical (a : Z) : Prop := a < 2 ^ 47 \/ 2 ^ 64 - 2 ^ 47 <= a.

(** Every page of the planned user stack is a non-canonical x86_64 address:
    the stack sits right below [KERNEL_SPACE_START], in the address hole between
    the two canonical halves, where [VirtAddr::new] (used by [map_page]) panics
    and no CPU access can succeed. *)
Theorem user_stack_not_canonical :
  exists plan, UserStackPlan_build = Ok plan /\
    ~ canonical (usp_initial_rsp plan - 8) /\
    forall i p, usp_page plan i = Some p -> ~ canonical (page_start p).
Proof.
  destruct UserStackPlan_build_Ok as (pages & Hb & Hlen & Hpages). eexists. split; [exact Hb|].
  assert (2 ^ 47 < USER_STACK_TOP - USER_STACK_SIZE /\ USER_STACK_TOP < 2 ^ 64 - 2 ^ 47) as [H1 H2]
    by (by vm_compute).
  assert (USER_STACK_SIZE = 65536) as Hsz by reflexivity. unfold canonical. split; [simpl; lia|].
  intros i p Hp. unfold usp_page in Hp. cbn [usp_count usp_pages] in Hp. case_bool_decide; [done|].
  rewrite filled_lookup, Hpages in Hp by lia. injection Hp as <-. simpl. unfold PAGE_SIZE_4K. lia.
Qed.
