(* ===== verification/Loader.v ===== *)
(** * Mapping a process image ([kernel/src/process/loader.rs])

    The transactional mapping of the load plan through the [PageTableMapper]
    interface, and the laws [LawfulMapper] it relies on. *)

From stdpp Require Import base numbers gmap sets list options.
From S2P Require Import Prelude Memory Frames Elf LoadPlan.

Local Open Scope Z_scope.
Local Open Scope rust_scope.

Inductive LoadError :=
| LoadInvalidPage
| LoadMapping (e : MappingError)
| TooManyPages
| InvalidFlags
| LoadRollbackFailed.

Definition MAX_MAPPED_PAGES : nat := 128.

Record MappedPage := mkMapped { mp_virtual_address : Z; mp_physical_address : Z }.

Record LoadResult := mkLoadResult {
  lr_mapped_pages : nat;
  lr_entry : Z;
  lr_pages : list (option MappedPage);
}.

Definition lr_page (r : LoadResult) (index : nat) : option MappedPage :=
  if bool_decide (lr_mapped_pages r <= index)%nat then None else lr_pages r !! index ≫= id.

Definition page_base (virtual_address : Z) : Z := Z.land virtual_address (not_u64 (PAGE_SIZE_4K - 1)).

Definition lr_contains_page (r : LoadResult) (virtual_address : Z) : bool :=
  existsb (fun index =>
             match lr_page r index with
             | Some mapped => mp_virtual_address mapped =? page_base virtual_address
             | None => false
             end) (seq 0 (lr_mapped_pages r)).

Definition flags_from_elf (flags : Z) : option MappingFlags :=
  let writable := negb (Z.land flags 2 =? 0) in
  let executable := negb (Z.land flags 1 =? 0) in
  if writable && executable then None else
  match writable, executable with
  | false, false => Some flags_read_only
  | true, false => Some flags_read_write
  | false, true => Some flags_read_execute
  | true, true => None
  end.

Section Mapping.
Context {M : Type} `{PageTableMapper M}.

(** [for index in (0..count).rev()] *)
Fixpoint rollback (mapper : M) (pages : list (option MappedPage)) (count : nat)
  : result LoadError unit * M :=
  match count with
  | O => (Ok tt, mapper)
  | S index =>
      match pages !! index with
      | None => (Panic, mapper)
      | Some None => rollback mapper pages index
      | Some (Some mapped) =>
          match Page4K_from_start_address (mp_virtual_address mapped) with
          | None => (Err LoadInvalidPage, mapper)
          | Some page =>
              match ptm_unmap_page mapper page with
              | (Ok _, mapper) => rollback mapper pages index
              | (Err _, mapper) => (Err LoadRollbackFailed, mapper)
              | (Panic, mapper) => (Panic, mapper)
              end
          end
      end
  end.

(** [rollback(...)?; return Err(e)] *)
Definition fail_load {A} (mapper : M) (pages : list (option MappedPage)) (count : nat) (e : LoadError)
  : result LoadError A * M :=
  let! _ , mapper := rollback mapper pages count in (Err e, mapper).

(** The page loop of one segment.  Every round maps a page and [count] is
    bounded, so [MAX_MAPPED_PAGES + 1] rounds are enough. *)
Fixpoint map_range (fuel : nat) (mapper : M) (flags : MappingFlags) (range : VirtRange) (address : Z)
    (pages : list (option MappedPage)) (count : nat)
  : result LoadError (list (option MappedPage) * nat) * M :=
  match fuel with
  | O => (Panic, mapper)
  | S fuel =>
      if address <? vr_end range then
        if bool_decide (count = MAX_MAPPED_PAGES) then fail_load mapper pages count TooManyPages else
        match Page4K_from_start_address address with
        | None => fail_load mapper pages count LoadInvalidPage
        | Some page =>
            match ptm_allocate_frame mapper with
            | (None, mapper) => fail_load mapper pages count (LoadMapping FrameAllocationFailed)
            | (Some frame, mapper) =>
                match ptm_map_page mapper page frame flags with
                | (Err error, mapper) => fail_load mapper pages count (LoadMapping error)
                | (Panic, mapper) => (Panic, mapper)
                | (Ok _, mapper) =>
                    match array_set pages count (mkMapped address frame) with
                    | Ok pages =>
                        let count := S count in
                        match checked_add address PAGE_SIZE_4K with
                        | None => fail_load mapper pages count LoadInvalidPage
                        | Some address => map_range fuel mapper flags range address pages count
                        end
                    | Err e => (Err e, mapper)
                    | Panic => (Panic, mapper)
                    end
                end
            end
        end
      else (Ok (pages, count), mapper)
  end.

(** [for index in 0..plan.count()], with [n] segments left. *)
Fixpoint map_segments (n index : nat) (mapper : M) (plan : LoadPlan)
    (pages : list (option MappedPage)) (count : nat)
  : result LoadError (list (option MappedPage) * nat) * M :=
  match n with
  | O => (Ok (pages, count), mapper)
  | S n =>
      match plan_segment plan index with
      | None => (Err LoadInvalidPage, mapper)
      | Some segment =>
          match flags_from_elf (sm_flags segment) with
          | None => (Err InvalidFlags, mapper)
          | Some flags =>
              let range := sm_range segment in
              match map_range (S MAX_MAPPED_PAGES) mapper flags range (vr_start range) pages count with
              | (Ok (pages, count), mapper) => map_segments n (S index) mapper plan pages count
              | (Err e, mapper) => (Err e, mapper)
              | (Panic, mapper) => (Panic, mapper)
              end
          end
      end
  end.

Definition map_load_plan (mapper : M) (plan : LoadPlan) : result LoadError LoadResult * M :=
  match map_segments (plan_count plan) 0 mapper plan (replicate MAX_MAPPED_PAGES None) 0 with
  | (Ok (pages, count), mapper) => (Ok (mkLoadResult count (plan_entry plan) pages), mapper)
  | (Err e, mapper) => (Err e, mapper)
  | (Panic, mapper) => (Panic, mapper)
  end.
End Mapping.

(** ** The mapper's laws *)

(** The permissions the loader maps pages with. *)
Definition segment_flags (flags : MappingFlags) : Prop :=
  flags = flags_read_only \/ flags = flags_read_write \/ flags = flags_read_execute.

Lemma flags_from_elf_segment flags f : flags_from_elf flags = Some f -> segment_flags f.
Proof. unfold flags_from_elf, segment_flags. repeat case_match; intros; simplify_eq; auto. Qed.

(** What the loader relies on from a page-table backend: the table is a finite
    map from page addresses to frames and flags; frame allocation leaves it
    alone; a mapping is installed only where there was none, a failed one
    changes nothing; an installed page can be unmapped. *)
Class LawfulMapper (M : Type) `{PageTableMapper M} (table : M -> gmap Z (Z * MappingFlags)) : Prop := {
  law_allocate : forall m r m', ptm_allocate_frame m = (r, m') -> table m' = table m;
  law_map_ok : forall m page frame flags m', segment_flags flags ->
    ptm_map_page m page frame flags = (Ok tt, m') ->
    table m !! page_start page = None /\ table m' = <[page_start page := (frame, flags)]> (table m);
  law_map_err : forall m page frame flags e m', segment_flags flags ->
    ptm_map_page m page frame flags = (Err e, m') ->
    table m' = table m;
  law_unmap : forall m page frame flags, table m !! page_start page = Some (frame, flags) ->
    exists m', ptm_unmap_page m page = (Ok frame, m') /\ table m' = delete (page_start page) (table m);
}.

(** The backend itself panics on some call. *)
Definition mapper_panics (M : Type) `{PageTableMapper M} : Prop :=
  (exists (m : M) page frame flags, (ptm_map_page m page frame flags).1 = Panic) \/
  (exists (m : M) a, um_page_access m a = Panic).

(** The table reached from [t0] by installing the pages [l], in order, each on
    a free page. *)
Inductive installed (t0 : gmap Z (Z * MappingFlags)) : list MappedPage -> gmap Z (Z * MappingFlags) -> Prop :=
| installed_nil : installed t0 [] t0
| installed_snoc l t p flags :
    installed t0 l t -> t !! mp_virtual_address p = None -> aligned (mp_virtual_address p) ->
    installed t0 (l ++ [p]) (<[mp_virtual_address p := (mp_physical_address p, flags)]> t).

Lemma Page4K_aligned a : aligned a -> Page4K_from_start_address a = Some (mkPage a).
Proof. unfold aligned, Page4K_from_start_address. by intros ->. Qed.

Lemma lr_page_filled n l entry i :
  lr_page (mkLoadResult (length l) entry (filled n l)) i = l !! i.
Proof.
  unfold lr_page. simpl. case_bool_decide as Hi.
  - symmetry. by apply lookup_ge_None.
  - rewrite filled_lookup by lia. by destruct (l !! i).
Qed.

Section LawfulMapping.
Context {M : Type} `{LawfulMapper M table}.

(** Rolling back undoes exactly the installed pages. *)
Lemma rollback_spec t0 l t m pages :
  installed t0 l t -> table m = t ->
  (forall i p, l !! i = Some p -> pages !! i = Some (Some p)) ->
  exists m', rollback m pages (length l) = (Ok tt, m') /\ table m' = t0.
Proof using Type*.
  intros Hi. revert m. induction Hi as [|l t p flags Hi IH Hn Hal]; intros m Hm Hp; simpl; [eauto|].
  rewrite length_app, Nat.add_comm. simpl.
  assert (Hl : (l ++ [p]) !! length l = Some p) by (by rewrite lookup_app_r, Nat.sub_diag by lia).
  rewrite (Hp _ _ Hl), (Page4K_aligned _ Hal).
  destruct (law_unmap m (mkPage (mp_virtual_address p)) (mp_physical_address p) flags)
    as (m1 & -> & Hm1).
  { rewrite Hm. simpl. by rewrite lookup_insert_eq. }
  apply IH.
  - rewrite Hm1, Hm. simpl. by rewrite delete_insert_id.
  - intros i q Hq. apply Hp. by apply lookup_app_l_Some.
Qed.

(** The loader's state: an array of the pages installed so far. *)
Definition loading (t0 : gmap Z (Z * MappingFlags)) (l : list MappedPage) (m : M)
    (pages : list (option MappedPage)) (count : nat) : Prop :=
  installed t0 l (table m) /\ pages = filled MAX_MAPPED_PAGES l /\ count = length l /\
  (length l <= MAX_MAPPED_PAGES)%nat.

Lemma fail_load_spec {A} t0 l m pages count e :
  loading t0 l m pages count ->
  exists m', fail_load (A := A) m pages count e = (Err e, m') /\ table m' = t0.
Proof using Type*.
  intros (Hi & -> & -> & Hle). unfold fail_load.
  destruct (rollback_spec t0 l _ m (filled MAX_MAPPED_PAGES l) Hi eq_refl) as (m' & -> & Ht).
  - intros i p Hp. rewrite filled_lookup by (by eapply lookup_lt_Some). by rewrite Hp.
  - eauto.
Qed.

(** One segment: the pages of the range are installed with the segment's flags,
    or everything is undone. *)
Lemma map_range_spec fuel m flags range address t0 l pages count :
  loading t0 l m pages count -> (MAX_MAPPED_PAGES < fuel + count)%nat ->
  aligned address -> vr_end range + PAGE_SIZE_4K <= U64_MAX -> segment_flags flags ->
  match map_range fuel m flags range address pages count with
  | (Ok (pages', count'), m') => exists l',
      loading t0 (l ++ l') m' pages' count' /\
      mp_virtual_address <$> l' = pages_between address (vr_end range) /\
      (forall p, p ∈ l' -> table m' !! mp_virtual_address p = Some (mp_physical_address p, flags)) /\
      (forall a x, table m !! a = Some x -> table m' !! a = Some x)
  | (Err _, m') => table m' = t0
  | (Panic, _) => mapper_panics M
  end.
Proof using Type*.
  intros Hload Hfuel Hal Hend Hsf. revert m address l pages count Hload Hfuel Hal.
  induction fuel as [|fuel IH]; intros m address l pages count Hload Hfuel Hal.
  { destruct Hload as (_ & _ & -> & ?). lia. }
  cbn [map_range]. destruct (address <? vr_end range) eqn:Hlt; to_prop.
  2: { exists []. rewrite app_nil_r, pages_between_nil by done. split_and!; [done|done| |done].
       by intros p Hp%elem_of_nil. }
  case_bool_decide as Hfull.
  { by destruct (fail_load_spec (A := list (option MappedPage) * nat) t0 l m pages count TooManyPages Hload) as (m' & -> & ?). }
  rewrite (Page4K_aligned _ Hal).
  destruct (ptm_allocate_frame m) as [[frame|] m1] eqn:Ha; pose proof (law_allocate _ _ _ Ha) as Ht1.
  2: { destruct (fail_load_spec (A := list (option MappedPage) * nat) t0 l m1 pages count
         (LoadMapping FrameAllocationFailed)) as (m' & -> & ?); [|done].
       unfold loading in *. by rewrite Ht1. }
  destruct (ptm_map_page m1 (mkPage address) frame flags) as [[[]|e|] m2] eqn:Hmap.
  - destruct (law_map_ok _ _ _ _ _ Hsf Hmap) as [Hfree Ht2]. simpl in Hfree, Ht2. rewrite Ht1 in Hfree, Ht2.
    destruct Hload as (Hi & -> & -> & Hle).
    assert (Hroom : (length l < MAX_MAPPED_PAGES)%nat) by lia.
    rewrite filled_set by done. cbv zeta.
    assert (Hload' : loading t0 (l ++ [mkMapped address frame]) m2
                       (filled MAX_MAPPED_PAGES (l ++ [mkMapped address frame])) (S (length l))).
    { split_and!; [|done|rewrite length_app; simpl; lia|rewrite length_app; simpl; lia].
      rewrite Ht2. by apply (installed_snoc t0 l _ (mkMapped address frame)). }
    assert (checked_add address PAGE_SIZE_4K = Some (address + PAGE_SIZE_4K)) as ->
      by (apply checked_add_Some; lia).
    assert (Hal' : aligned (address + PAGE_SIZE_4K)).
    { unfold aligned in *. rewrite <- Z.add_mod_idemp_l, Hal by done. done. }
    specialize (IH m2 _ _ _ _ Hload' ltac:(lia) Hal').
    destruct (map_range fuel m2 flags range _ _ _) as [[[pages' count']|e|] m']; [|done..].
    destruct IH as (l' & Hl' & Hva & Hpages & Hkeep).
    exists (mkMapped address frame :: l').
    replace (l ++ mkMapped address frame :: l') with ((l ++ [mkMapped address frame]) ++ l')
      by (by rewrite <- app_assoc).
    split_and!; [done| | |].
    + rewrite fmap_cons, Hva. by rewrite (pages_between_cons address) by done.
    + intros p [->|Hp]%elem_of_cons; [|by apply Hpages]. apply Hkeep. simpl.
      by rewrite Ht2, lookup_insert_eq.
    + intros a x Hx. apply Hkeep. rewrite Ht2, lookup_insert_ne by congruence. done.
  - pose proof (law_map_err _ _ _ _ _ _ Hsf Hmap) as Ht2.
    destruct (fail_load_spec (A := list (option MappedPage) * nat) t0 l m2 pages count (LoadMapping e))
      as (m' & -> & ?); [|done].
    unfold loading in *. by rewrite Ht2, Ht1.
  - left. exists m1, (mkPage address), frame, flags. by rewrite Hmap.
Qed.
(** The pages of the segments from [index] on, with their flags. *)
Definition plan_ok (maps : list SegmentMapping) : Prop :=
  Forall (fun m => aligned (vr_start (sm_range m)) /\ vr_end (sm_range m) + PAGE_SIZE_4K <= U64_MAX /\
                   is_Some (flags_from_elf (sm_flags m))) maps.

Definition plan_pages (maps : list SegmentMapping) : list Z :=
  concat ((fun m => pages_between (vr_start (sm_range m)) (vr_end (sm_range m))) <$> maps).

(** Every page of a segment is mapped with that segment's flags. *)
Definition segments_mapped (t : gmap Z (Z * MappingFlags)) (maps : list SegmentMapping) : Prop :=
  forall s a, s ∈ maps -> a ∈ pages_between (vr_start (sm_range s)) (vr_end (sm_range s)) ->
    exists frame flags, t !! a = Some (frame, flags) /\ flags_from_elf (sm_flags s) = Some flags.

Lemma map_segments_spec n index m plan t0 l pages count maps pre post :
  maps = pre ++ post -> length pre = index -> length post = n ->
  (forall i, plan_segment plan i = maps !! i) -> plan_ok maps ->
  loading t0 l m pages count -> segments_mapped (table m) pre ->
  mp_virtual_address <$> l = plan_pages pre ->
  match map_segments n index m plan pages count with
  | (Ok (pages', count'), m') => exists l',
      loading t0 l' m' pages' count' /\ mp_virtual_address <$> l' = plan_pages maps /\
      segments_mapped (table m') maps
  | (Err _, m') => table m' = t0
  | (Panic, _) => mapper_panics M
  end.
Proof using Type*.
  intros Hmaps Hidx Hn Hplan Hok. revert index m l pages count pre post Hmaps Hidx Hn.
  induction n as [|n IH]; intros index m l pages count pre post Hmaps Hidx Hn Hload Hseg Hva;
    cbn [map_segments].
  { destruct post; [|done]. rewrite app_nil_r in Hmaps. subst pre. by exists l. }
  destruct post as [|s post]; [done|]. simpl in Hn.
  assert (Hs : maps !! index = Some s) by (by rewrite Hmaps, lookup_app_r, Hidx, Nat.sub_diag by lia).
  rewrite Hplan, Hs. destruct (Forall_lookup_1 _ _ _ _ Hok Hs) as (Hal & Hend & [flags Hflags]).
  rewrite Hflags. cbv zeta.
  pose proof (map_range_spec (S MAX_MAPPED_PAGES) m flags (sm_range s) (vr_start (sm_range s)) t0 l
                pages count Hload ltac:(lia) Hal Hend (flags_from_elf_segment _ _ Hflags)) as Hr.
  destruct (map_range _ _ _ _ _ _ _) as [[[pages' count']|e|] m']; [|done..].
  destruct Hr as (l' & Hload' & Hva' & Hnew & Hkeep).
  apply (IH (S index) m' (l ++ l') pages' count' (pre ++ [s]) post).
  - by rewrite <- app_assoc.
  - rewrite length_app. simpl. lia.
  - lia.
  - done.
  - intros s' a [Hin| ->%list_elem_of_singleton]%elem_of_app Ha.
    + destruct (Hseg s' a Hin Ha) as (f & fl & Hl & Hf). exists f, fl. split; [by apply Hkeep|done].
    + rewrite <- Hva' in Ha. apply list_elem_of_fmap in Ha as (p & -> & Hp).
      exists (mp_physical_address p), flags. split; [by apply Hnew|done].
  - unfold plan_pages. rewrite !fmap_app, Hva, Hva', concat_app. simpl. by rewrite app_nil_r.
Qed.

(** The whole plan is mapped, or the table is as before. *)
Lemma map_load_plan_spec m entry maps :
  plan_ok maps ->
  match map_load_plan m (mkPlan entry (filled MAX_SEGMENTS maps) (length maps)) with
  | (Ok r, m') => exists l,
      r = mkLoadResult (length l) entry (filled MAX_MAPPED_PAGES l) /\
      installed (table m) l (table m') /\ (length l <= MAX_MAPPED_PAGES)%nat /\
      mp_virtual_address <$> l = plan_pages maps /\ segments_mapped (table m') maps
  | (Err _, m') => table m' = table m
  | (Panic, _) => mapper_panics M
  end.
Proof using Type*.
  intros Hok. unfold map_load_plan. cbn [plan_count plan_entry].
  pose proof (map_segments_spec (length maps) 0 m (mkPlan entry (filled MAX_SEGMENTS maps) (length maps))
                (table m) [] (replicate MAX_MAPPED_PAGES None) 0 maps [] maps) as Hs.
  specialize (Hs eq_refl eq_refl eq_refl (plan_segment_filled entry maps) Hok).
  assert (Hload : loading (table m) [] m (replicate MAX_MAPPED_PAGES None) 0).
  { split_and!; [constructor|by rewrite filled_nil|done|simpl; lia]. }
  specialize (Hs Hload ltac:(by intros s a ?%elem_of_nil) eq_refl).
  destruct (map_segments _ _ _ _ _ _) as [[[pages count]|e|] m']; [|done..].
  destruct Hs as (l & (Hi & -> & -> & Hle) & Hva & Hseg). by exists l.
Qed.
End LawfulMapping.
