(* ===== verification/AddressSpaceBuilder.v ===== *)
(** * Building a process address space

    [kernel/src/process/address_space_builder.rs]: the load plan and the user
    stack mapped through one page-table mapper, verified, or undone. *)

From stdpp Require Import base numbers gmap sets list options.
From S2P Require Import Prelude Memory Frames Elf LoadPlan Loader.

Local Open Scope Z_scope.
Local Open Scope rust_scope.

Inductive AddressSpaceBuildError :=
| BuildAddressSpaceMismatch
| BuildImage (e : LoadError)
| StackMappingFailed
| EntryUnmapped
| EntryNotExecutable
| StackUnmapped
| StackNotWritable
| StackExecutable
| InvalidStackPage
| BuildRollbackFailed.

Record MappedStackPage := mkStackPage { msp_virtual_page : Page4K; msp_physical_address : Z }.

Record BuiltAddressSpace := mkBuilt {
  bas_image : ProcessImage;
  bas_load : LoadResult;
  bas_stack_pages : list (option MappedStackPage);
  bas_stack_count : nat;
  bas_entry_executable : bool;
  bas_stack_writable : bool;
  bas_stack_executable : bool;
}.

Definition bas_stack_page (b : BuiltAddressSpace) (index : nat) : option MappedStackPage :=
  if bool_decide (bas_stack_count b <= index)%nat then None else bas_stack_pages b !! index ≫= id.

Definition STACK_PAGES : nat := Z.to_nat USER_STACK_PAGES.

Section Builder.
Context {M : Type} `{PageTableMapper M}.

(** [for index in (0..load.mapped_pages).rev()], with [n] indices left. *)
Fixpoint rollback_load_loop (n : nat) (mapper : M) (load : LoadResult)
  : result AddressSpaceBuildError unit * M :=
  match n with
  | O => (Ok tt, mapper)
  | S index =>
      match lr_page load index with
      | None => (Err BuildRollbackFailed, mapper)
      | Some mapped =>
          match Page4K_from_start_address (mp_virtual_address mapped) with
          | None => (Err BuildRollbackFailed, mapper)
          | Some page =>
              match ptm_unmap_page mapper page with
              | (Ok _, mapper) => rollback_load_loop index mapper load
              | (Err _, mapper) => (Err BuildRollbackFailed, mapper)
              | (Panic, mapper) => (Panic, mapper)
              end
          end
      end
  end.

Definition rollback_load (mapper : M) (load : LoadResult) : result AddressSpaceBuildError unit * M :=
  rollback_load_loop (lr_mapped_pages load) mapper load.

Fixpoint rollback_stack (mapper : M) (pages : list (option MappedStackPage)) (count : nat)
  : result AddressSpaceBuildError unit * M :=
  match count with
  | O => (Ok tt, mapper)
  | S index =>
      match pages !! index with
      | None => (Panic, mapper)
      | Some None => (Err BuildRollbackFailed, mapper)
      | Some (Some mapped) =>
          match ptm_unmap_page mapper (msp_virtual_page mapped) with
          | (Ok _, mapper) => rollback_stack mapper pages index
          | (Err _, mapper) => (Err BuildRollbackFailed, mapper)
          | (Panic, mapper) => (Panic, mapper)
          end
      end
  end.

(** [rollback_stack(...)?; rollback_load(...)?; return Err(e)] *)
Definition fail_build {A} (mapper : M) (load : LoadResult) (pages : list (option MappedStackPage))
    (count : nat) (e : AddressSpaceBuildError) : result AddressSpaceBuildError A * M :=
  let! _ , mapper := rollback_stack mapper pages count in
  let! _ , mapper := rollback_load mapper load in
  (Err e, mapper).

(** The stack loop, with [n] pages left. *)
Fixpoint map_stack (n index : nat) (mapper : M) (stack : UserStackPlan) (load : LoadResult)
    (pages : list (option MappedStackPage)) (count : nat)
  : result AddressSpaceBuildError (list (option MappedStackPage) * nat) * M :=
  match n with
  | O => (Ok (pages, count), mapper)
  | S n =>
      match usp_page stack index with
      | None => (Err InvalidStackPage, mapper)
      | Some page =>
          match ptm_allocate_frame mapper with
          | (None, mapper) => fail_build mapper load pages count StackMappingFailed
          | (Some frame, mapper) =>
              match ptm_map_page mapper page frame flags_read_write with
              | (Err _, mapper) => fail_build mapper load pages count StackMappingFailed
              | (Panic, mapper) => (Panic, mapper)
              | (Ok _, mapper) =>
                  match array_set pages count (mkStackPage page frame) with
                  | Ok pages => map_stack n (S index) mapper stack load pages (S count)
                  | Err e => (Err e, mapper)
                  | Panic => (Panic, mapper)
                  end
              end
          end
      end
  end.

(** The access checks after both mappings. *)
Definition verify_mappings (mapper : M) (image : ProcessImage) (load : LoadResult)
    (pages : list (option MappedStackPage)) (count : nat)
  : result AddressSpaceBuildError BuiltAddressSpace * M :=
  match um_page_access mapper (lr_entry load) with
  | Panic => (Panic, mapper)
  | Err e => match e with end
  | Ok entry_access =>
  if negb (pa_mapped entry_access) || negb (pa_user entry_access)
  then fail_build mapper load pages count EntryUnmapped else
  if negb (pa_executable entry_access)
  then fail_build mapper load pages count EntryNotExecutable else
  match checked_sub (usp_initial_rsp (pi_stack_plan image)) 1 with
  | None => (Err StackUnmapped, mapper)
  | Some stack_top_minus_one =>
      match um_page_access mapper stack_top_minus_one with
      | Panic => (Panic, mapper)
      | Err e => match e with end
      | Ok stack_access =>
      if negb (pa_mapped stack_access) || negb (pa_user stack_access)
      then fail_build mapper load pages count StackUnmapped else
      if negb (pa_writable stack_access)
      then fail_build mapper load pages count StackNotWritable else
      if pa_executable stack_access
      then fail_build mapper load pages count StackExecutable
      else (Ok (mkBuilt image load pages count (pa_executable entry_access)
                  (pa_writable stack_access) (pa_executable stack_access)), mapper)
      end
  end
  end.

Definition build_address_space (mapper : M) (spec : AddressSpaceSpec) (image : ProcessImage)
  : result AddressSpaceBuildError BuiltAddressSpace * M :=
  if negb (bool_decide (spec_id (pi_address_space image) = spec_id spec))
  then (Err BuildAddressSpaceMismatch, mapper) else
  match map_load_plan mapper (pi_load_plan image) with
  | (Err e, mapper) => (Err (BuildImage e), mapper)
  | (Panic, mapper) => (Panic, mapper)
  | (Ok load, mapper) =>
      let stack := pi_stack_plan image in
      match map_stack (usp_count stack) 0 mapper stack load (replicate STACK_PAGES None) 0 with
      | (Err e, mapper) => (Err e, mapper)
      | (Panic, mapper) => (Panic, mapper)
      | (Ok (pages, count), mapper) => verify_mappings mapper image load pages count
      end
  end.
End Builder.

(** ** Installed pages *)
Lemma installed_keeps t0 l t a x : installed t0 l t -> t0 !! a = Some x -> t !! a = Some x.
Proof.
  induction 1 as [|l t p flags Hi IH Hn Hal]; [done|]. intros Ha. specialize (IH Ha).
  rewrite lookup_insert_ne; [done|]. congruence.
Qed.

Lemma installed_only t0 l t a x :
  installed t0 l t -> t !! a = Some x -> t0 !! a = Some x \/ a ∈ mp_virtual_address <$> l.
Proof.
  induction 1 as [|l t p flags Hi IH Hn Hal]; [by left|].
  rewrite fmap_app, elem_of_app. destruct (decide (a = mp_virtual_address p)) as [->|Hne].
  - intros _. right. right. simpl. by apply list_elem_of_singleton.
  - rewrite lookup_insert_ne by done. intros Ha. destruct (IH Ha); tauto.
Qed.

Definition as_mapped (p : MappedStackPage) : MappedPage :=
  mkMapped (page_start (msp_virtual_page p)) (msp_physical_address p).

Section LawfulBuilder.
Context {M : Type} `{LawfulMapper M table}.

Lemma rollback_load_spec t0 l m entry :
  installed t0 l (table m) -> (length l <= MAX_MAPPED_PAGES)%nat ->
  exists m', rollback_load m (mkLoadResult (length l) entry (filled MAX_MAPPED_PAGES l)) = (Ok tt, m') /\
             table m' = t0.
Proof using Type*.
  intros Hi Hle. unfold rollback_load. cbn [lr_mapped_pages].
  set (load := mkLoadResult _ _ _).
  assert (Hpage : forall i p, l !! i = Some p -> lr_page load i = Some p)
    by (intros i p Hp; unfold load; by rewrite lr_page_filled).
  clearbody load. clear Hle. remember (table m) as t eqn:Ht. revert m Ht.
  induction Hi as [|l t p flags Hi IH Hn Hal]; intros m Hm; [by exists m|].
  rewrite length_app, Nat.add_comm. cbn [length Nat.add rollback_load_loop].
  rewrite (Hpage (length l) p) by (by rewrite lookup_app_r, Nat.sub_diag by lia).
  rewrite (Page4K_aligned _ Hal).
  destruct (law_unmap m (mkPage (mp_virtual_address p)) (mp_physical_address p) flags) as (m1 & -> & Hm1).
  { rewrite <- Hm. simpl. by rewrite lookup_insert_eq. }
  apply IH; [|by rewrite Hm1, <- Hm; simpl; rewrite delete_insert_id].
  intros i q Hq. apply Hpage. by apply lookup_app_l_Some.
Qed.

Lemma rollback_stack_spec t0 l t m pages :
  installed t0 (as_mapped <$> l) t -> table m = t ->
  (forall i p, l !! i = Some p -> pages !! i = Some (Some p)) ->
  exists m', rollback_stack m pages (length l) = (Ok tt, m') /\ table m' = t0.
Proof using Type*.
  revert t m. induction l as [|p l IH] using rev_ind; intros t m Hi Hm Hp.
  - inversion Hi as [Heq|l' t' p' flags Hi' Hn Hal Heq]; [|by destruct l']. exists m. by subst.
  - rewrite fmap_app in Hi. simpl in Hi. inversion Hi as [Heq|l' t' p' flags Hi' Hn Hal Heq];
      [by destruct (as_mapped <$> l)|]. apply app_inj_tail in Heq as [-> ->].
    match goal with Hx : <[_ := _]> _ = t |- _ => rewrite <- Hx in Hm end.
    rewrite length_app, Nat.add_comm. cbn [length Nat.add rollback_stack].
    rewrite (Hp (length l) p) by (by rewrite lookup_app_r, Nat.sub_diag by lia).
    destruct (law_unmap m (msp_virtual_page p) (msp_physical_address p) flags) as (m1 & -> & Hm1).
    { rewrite Hm. simpl. by rewrite lookup_insert_eq. }
    apply (IH t'); [done| |].
    + rewrite Hm1, Hm. simpl. by rewrite delete_insert_id.
    + intros i q Hq. apply Hp. by apply lookup_app_l_Some.
Qed.

(** The builder's state between the two mappings and the checks. *)
Record building (t0 : gmap Z (Z * MappingFlags)) (m : M) (load : LoadResult) (l : list MappedPage)
    (pages : list (option MappedStackPage)) (ls : list MappedStackPage) : Prop := mk_building {
  bld_load : load = mkLoadResult (length l) (lr_entry load) (filled MAX_MAPPED_PAGES l);
  bld_len : (length l <= MAX_MAPPED_PAGES)%nat;
  bld_pages : pages = filled STACK_PAGES ls;
  bld_installed : exists t1, installed t0 l t1 /\ installed t1 (as_mapped <$> ls) (table m);
}.

Lemma fail_build_spec {A} t0 m load l pages ls e :
  building t0 m load l pages ls ->
  exists m', fail_build (A := A) m load pages (length ls) e = (Err e, m') /\ table m' = t0.
Proof using Type*.
  intros [Hload Hlen -> (t1 & Hi1 & Hi2)]. unfold fail_build.
  destruct (rollback_stack_spec t1 ls _ m (filled STACK_PAGES ls) Hi2 eq_refl) as (m1 & -> & Hm1).
  { intros i p Hp. rewrite filled_lookup by (by eapply lookup_lt_Some). by rewrite Hp. }
  rewrite Hload. destruct (rollback_load_spec t0 l m1 (lr_entry load)) as (m2 & -> & Hm2);
    [by rewrite Hm1|done|]. eauto.
Qed.

(** The stack pages [ps], in order, each read-write. *)
Lemma map_stack_spec n index m t0 load l pages ls stack ps pre post :
  ps = pre ++ post -> length pre = index -> length post = n -> (length ps <= STACK_PAGES)%nat ->
  (forall i, usp_page stack i = ps !! i) -> Forall (fun p => aligned (page_start p)) ps ->
  building t0 m load l pages ls -> msp_virtual_page <$> ls = pre ->
  (forall p, p ∈ ls -> table m !! page_start (msp_virtual_page p)
                        = Some (msp_physical_address p, flags_read_write)) ->
  match map_stack n index m stack load pages (length ls) with
  | (Ok (pages', count'), m') => exists ls',
      building t0 m' load l pages' ls' /\ count' = length ls' /\ msp_virtual_page <$> ls' = ps /\
      (forall p, p ∈ ls' -> table m' !! page_start (msp_virtual_page p)
                             = Some (msp_physical_address p, flags_read_write)) /\
      (forall a x, table m !! a = Some x -> table m' !! a = Some x)
  | (Err _, m') => table m' = t0
  | (Panic, _) => mapper_panics M
  end.
Proof using Type*.
  intros Hps Hidx Hn Hmax Hpage Hal. revert index m pages ls pre post Hps Hidx Hn.
  induction n as [|n IH]; intros index m pages ls pre post Hps Hidx Hn Hb Hvp Hrw; cbn [map_stack].
  { destruct post; [|done]. rewrite app_nil_r in Hps. subst pre. exists ls. split_and!; done. }
  destruct post as [|p post]; [done|]. simpl in Hn.
  assert (Hp : ps !! index = Some p) by (by rewrite Hps, lookup_app_r, Hidx, Nat.sub_diag by lia).
  rewrite Hpage, Hp. pose proof (Forall_lookup_1 _ _ _ _ Hal Hp) as Hpal. cbv beta in Hpal.
  destruct (ptm_allocate_frame m) as [[frame|] m1] eqn:Ha; pose proof (law_allocate _ _ _ Ha) as Ht1.
  2: { destruct (fail_build_spec (A := list (option MappedStackPage) * nat) t0 m1 load l pages ls
         StackMappingFailed) as (m' & -> & ?); [|done].
       destruct Hb as [? ? ? (t1 & ? & ?)]. split; [done..|]. exists t1. by rewrite Ht1. }
  destruct (ptm_map_page m1 p frame flags_read_write) as [[[]|e|] m2] eqn:Hmap.
  - destruct (law_map_ok _ _ _ _ _ (or_intror (or_introl eq_refl)) Hmap) as [Hfree Ht2]. rewrite Ht1 in Hfree, Ht2.
    assert (Hlen : length ls = length pre) by (by rewrite <- Hvp, length_fmap).
    assert (Hroom : (length ls < STACK_PAGES)%nat).
    { apply (f_equal length) in Hps. rewrite length_app in Hps. simpl in Hps. lia. }
    destruct Hb as [Hload Hll -> (t1 & Hi1 & Hi2)]. rewrite filled_set by done.
    replace (S (length ls)) with (length (ls ++ [mkStackPage p frame])) by (rewrite length_app; simpl; lia).
    pose proof (IH (S index) m2 (filled STACK_PAGES (ls ++ [mkStackPage p frame]))
             (ls ++ [mkStackPage p frame]) (pre ++ [p]) post) as IH'.
    specialize (IH' ltac:(by rewrite <- app_assoc) ltac:(rewrite length_app; simpl; lia) ltac:(lia)).
    assert (Hb' : building t0 m2 load l (filled STACK_PAGES (ls ++ [mkStackPage p frame]))
                    (ls ++ [mkStackPage p frame])).
    { split; [done..|]. exists t1. split; [done|]. rewrite fmap_app, Ht2.
      by apply (installed_snoc t1 (as_mapped <$> ls) _ (as_mapped (mkStackPage p frame))). }
    specialize (IH' Hb' ltac:(by rewrite fmap_app, Hvp)).
    assert (Hk : forall a x, table m !! a = Some x -> table m2 !! a = Some x).
    { intros a x Hx. rewrite Ht2, lookup_insert_ne by congruence. done. }
    assert (Hrw' : forall q, q ∈ ls ++ [mkStackPage p frame] ->
      table m2 !! page_start (msp_virtual_page q) = Some (msp_physical_address q, flags_read_write)).
    { intros q [Hq| ->%list_elem_of_singleton]%elem_of_app; [by apply Hk, Hrw|].
      simpl. by rewrite Ht2, lookup_insert_eq. }
    specialize (IH' Hrw').
    destruct (map_stack n (S index) m2 stack load _ _) as [[[pages' count']|e|] m']; [|done..].
    destruct IH' as (ls' & ? & ? & ? & ? & Hk'). exists ls'. split_and!; auto.
  - pose proof (law_map_err _ _ _ _ _ _ (or_intror (or_introl eq_refl)) Hmap) as Ht2.
    destruct (fail_build_spec (A := list (option MappedStackPage) * nat) t0 m2 load l pages ls
       StackMappingFailed) as (m' & -> & ?); [|done].
    destruct Hb as [? ? ? (t1 & ? & ?)]. split; [done..|]. exists t1. by rewrite Ht2, Ht1.
  - left. exists m1, p, frame, flags_read_write. by rewrite Hmap.
Qed.

Lemma verify_mappings_spec t0 m image load l pages ls :
  building t0 m load l pages ls -> 1 <= usp_initial_rsp (pi_stack_plan image) ->
  match verify_mappings m image load pages (length ls) with
  | (Ok b, m') => m' = m /\ b = mkBuilt image load pages (length ls) true true false
  | (Err _, m') => table m' = t0
  | (Panic, _) => mapper_panics M
  end.
Proof using Type*.
  intros Hb Hrsp. unfold verify_mappings.
  pose proof (fun e => fail_build_spec (A := BuiltAddressSpace) t0 m load l pages ls e Hb) as Hf.
  destruct (um_page_access m (lr_entry load)) as [entry_access|[]|] eqn:Hea; [|right; eauto].
  destruct (_ || _); [by destruct (Hf EntryUnmapped) as (m' & -> & ?)|].
  destruct (pa_executable _); cbn [negb]; [|by destruct (Hf EntryNotExecutable) as (m' & -> & ?)].
  destruct (checked_sub _ _) as [top|] eqn:Hs.
  2: { unfold checked_sub in Hs. case_if; [done|]. to_prop. lia. }
  destruct (um_page_access m top) as [stack_access|[]|] eqn:Hsa; [|right; eauto].
  destruct (_ || _); [by destruct (Hf StackUnmapped) as (m' & -> & ?)|].
  destruct (pa_writable _); cbn [negb]; [|by destruct (Hf StackNotWritable) as (m' & -> & ?)].
  destruct (pa_executable _); [by destruct (Hf StackExecutable) as (m' & -> & ?)|]. done.
Qed.
End LawfulBuilder.

(** ** From a validated image *)
Lemma planned_flags bytes s m :
  segment_ok bytes s -> planned s m ->
  is_Some (flags_from_elf (sm_flags m)).
Proof.
  intros [_ _ _ _ Hwx _] (_ & -> & _). unfold flags_from_elf.
  unfold seg_writable, seg_executable, PF_W, PF_X in Hwx.
  destruct (negb (Z.land (seg_flags s) 2 =? 0)), (negb (Z.land (seg_flags s) 1 =? 0)); simpl; eauto.
  by destruct Hwx.
Qed.

Lemma planned_plan_ok bytes segs maps :
  Forall (segment_ok bytes) segs -> Forall2 planned segs maps -> plan_ok maps.
Proof.
  intros Hok Hpl. apply Forall_lookup. intros i m Hm.
  destruct (Forall2_lookup_r _ _ _ _ _ Hpl Hm) as (s & Hsi & Hplan).
  pose proof (Forall_lookup_1 _ _ _ _ Hok Hsi) as Hsok.
  pose proof Hplan as ([[Ha _] _] & _ & [_ [_ Hend]]). split_and!; [done| |by eapply planned_flags].
  assert (IMAGE_LIMIT + PAGE_SIZE_4K <= U64_MAX) by (by vm_compute). lia.
Qed.

Lemma process_image_parts id bytes image :
  build_process_image bytes (AddressSpaceSpec_new id) = Ok image ->
  exists entry maps pages,
    pi_load_plan image = mkPlan entry (filled MAX_SEGMENTS maps) (length maps) /\ plan_ok maps /\
    Forall (fun m => in_image_area (sm_range m)) maps /\
    pi_stack_plan image = mkStackPlan (filled 16 pages) 16 USER_STACK_TOP /\
    length pages = 16%nat /\
    (forall i, (i < 16)%nat -> pages !! i = Some (mkPage (vr_start STACK_RANGE + Z.of_nat i * PAGE_SIZE_4K))) /\
    spec_id (pi_address_space image) = id.
Proof.
  unfold build_process_image. destruct UserStackPlan_build_Ok as (pages & -> & Hlen & Hpages).
  destruct (ElfImage_parse bytes) as [img|e|] eqn:Hp; cbn [map_err]; [|done..].
  pose proof (LoadPlan_build_spec id bytes img Hp) as Hs.
  destruct (LoadPlan_build _ img) as [plan|e|]; cbn [map_err]; [|done..].
  destruct Hs as (segs & maps & st & _ & Hok & _ & [_ _ Hpl _ _] & _ & ->).
  unfold ProcessImage_build. destruct (InitialContext_new _ _) as [ctx|e|]; cbn [map_err]; [|done..].
  intros [= <-]. cbn [pi_load_plan pi_stack_plan pi_address_space]. exists (img_entry img), maps, pages.
  split_and!; [done|by eapply planned_plan_ok| |done|done|done|done].
  - apply Forall_lookup. intros i m Hm.
    by destruct (Forall2_lookup_r _ _ _ _ _ Hpl Hm) as (s & _ & _ & _ & ?).
Qed.

(** The pages an image asks for: those of its segments and the sixteen of its stack. *)
Definition image_page (image : ProcessImage) (a : Z) : Prop :=
  (exists i s, plan_segment (pi_load_plan image) i = Some s /\
     a ∈ pages_between (vr_start (sm_range s)) (vr_end (sm_range s))) \/
  (exists i, (i < 16)%nat /\ a = vr_start STACK_RANGE + Z.of_nat i * PAGE_SIZE_4K).

(** Installing image pages and stack pages changes no other page. *)
Lemma others_untouched t0 l t1 ls t2 maps ps a :
  installed t0 l t1 -> installed t1 (as_mapped <$> ls) t2 ->
  mp_virtual_address <$> l = plan_pages maps -> msp_virtual_page <$> ls = ps ->
  a ∉ plan_pages maps -> a ∉ page_start <$> ps -> t2 !! a = t0 !! a.
Proof.
  intros Hi1 Hi2 Hva Hvp Hnm Hnp. destruct (t2 !! a) as [x|] eqn:Ht2.
  - destruct (installed_only _ _ _ _ _ Hi2 Ht2) as [Ht1|Hin].
    + destruct (installed_only _ _ _ _ _ Hi1 Ht1) as [Ht|Hin]; [done|exfalso]. by rewrite Hva in Hin.
    + exfalso. apply Hnp. rewrite <- Hvp, <- list_fmap_compose. by rewrite <- list_fmap_compose in Hin.
  - symmetry. destruct (t0 !! a) as [x|] eqn:Ht0; [|done].
    rewrite (installed_keeps _ _ _ _ _ Hi2 (installed_keeps _ _ _ _ _ Hi1 Ht0)) in Ht2. done.
Qed.

Lemma elem_of_plan_pages maps a :
  a ∈ plan_pages maps <-> exists s, s ∈ maps /\ a ∈ pages_between (vr_start (sm_range s)) (vr_end (sm_range s)).
Proof.
  unfold plan_pages. rewrite list_elem_of_In, in_concat. split.
  - intros (pgs & Hpgs%list_elem_of_In & Hin%list_elem_of_In). apply list_elem_of_fmap in Hpgs as (s & -> & Hs). eauto.
  - intros (s & Hs & Ha). eexists. rewrite <- !list_elem_of_In. split; [|exact Ha]. apply list_elem_of_fmap. eauto.
Qed.

(** The guard page is none of them. *)
Lemma guard_not_stack a i : vr_contains GUARD_RANGE a = true -> a <> vr_start STACK_RANGE + Z.of_nat i * PAGE_SIZE_4K.
Proof.
  intros Ha%vr_contains_spec ->. unfold GUARD_RANGE, STACK_RANGE in Ha. cbn [vr_start vr_end] in Ha.
  unfold PAGE_SIZE_4K in Ha. lia.
Qed.

Lemma guard_not_segment s a :
  vr_contains GUARD_RANGE a = true -> in_image_area (sm_range s) ->
  a ∉ pages_between (vr_start (sm_range s)) (vr_end (sm_range s)).
Proof.
  intros Ha%vr_contains_spec Hs [Hin _]%elem_of_pages_between.
  destruct (image_area_below_guard _ Hs) as [_ [Hd|Hd]]; lia.
Qed.

(** C27: building the address space of a validated image is transactional over
    any lawful page table.  If it fails at any point (frame exhaustion, a page
    already mapped, more than 128 image pages, a failed access check), the page
    table is exactly as before.  If it succeeds, every page of every segment is
    mapped with that segment's permissions, the sixteen stack pages are mapped
    read-write, existing mappings are untouched, and every page that is neither a
    segment's nor a stack page is mapped after exactly as before; in particular
    nothing is mapped at the guard page below the stack that was not.  It panics only if the
    page-table backend does. *)
Theorem build_address_space_transactional {M} `{LawfulMapper M table} m id bytes image :
  build_process_image bytes (AddressSpaceSpec_new id) = Ok image ->
  match build_address_space m (AddressSpaceSpec_new id) image with
  | (Ok b, m') =>
      (forall i s a, plan_segment (pi_load_plan image) i = Some s ->
         a ∈ pages_between (vr_start (sm_range s)) (vr_end (sm_range s)) ->
         exists frame flags, table m' !! a = Some (frame, flags) /\
                             flags_from_elf (sm_flags s) = Some flags) /\
      (forall i, (i < 16)%nat -> exists p, bas_stack_page b i = Some p /\
         page_start (msp_virtual_page p) = vr_start STACK_RANGE + Z.of_nat i * PAGE_SIZE_4K /\
         table m' !! page_start (msp_virtual_page p) = Some (msp_physical_address p, flags_read_write)) /\
      (forall a x, table m !! a = Some x -> table m' !! a = Some x) /\
      (forall a, ~ image_page image a -> table m' !! a = table m !! a) /\
      (forall a, vr_contains GUARD_RANGE a = true -> table m' !! a = table m !! a) /\
      bas_entry_executable b = true /\ bas_stack_writable b = true /\ bas_stack_executable b = false
  | (Err _, m') => table m' = table m
  | (Panic, _) => mapper_panics M
  end.
Proof.
  intros Himage.
  destruct (process_image_parts id bytes image Himage)
    as (entry & maps & ps & Hplan & Hpok & Harea & Hstack & Hlen & Hps & Hid).
  unfold build_address_space. rewrite Hid. simpl spec_id. rewrite bool_decide_true by done. cbn [negb].
  rewrite Hplan. pose proof (map_load_plan_spec m entry maps Hpok) as Hl.
  destruct (map_load_plan m _) as [[load|e|] m1]; [|done..].
  destruct Hl as (l & Hload & Hi & Hle & Hva & Hseg). rewrite Hstack. cbv zeta. cbn [usp_count].
  set (stack := mkStackPlan _ _ _).
  assert (Hb : building (table := table) (table m) m1 load l (replicate STACK_PAGES None) []).
  { split; [by rewrite Hload|done|by rewrite filled_nil|]. exists (table m1). split; [done|constructor]. }
  assert (Hpage : forall i, usp_page stack i = ps !! i).
  { intros i. unfold usp_page, stack. cbn [usp_count usp_pages]. case_bool_decide.
    - symmetry. apply lookup_ge_None. lia.
    - rewrite filled_lookup by lia. by destruct (ps !! i). }
  assert (Hal : Forall (fun p => aligned (page_start p)) ps).
  { apply Forall_lookup. intros i p Hp. pose proof (lookup_lt_Some _ _ _ Hp) as Hlt.
    rewrite Hps in Hp by lia. injection Hp as <-. simpl. unfold aligned. rewrite Z.mod_add by done. done. }
  pose proof (map_stack_spec 16 0 m1 (table m) load l (replicate STACK_PAGES None) [] stack ps [] ps
                eq_refl eq_refl Hlen ltac:(by rewrite Hlen) Hpage Hal Hb eq_refl
                ltac:(by intros p ?%elem_of_nil)) as Hms.
  cbn [length] in Hms.
  destruct (map_stack 16 0 m1 stack load _ 0) as [[[pages count]|e|] m2]; [|done..].
  destruct Hms as (ls & Hb2 & -> & Hvp & Hrw & Hkeep).
  pose proof (verify_mappings_spec (table m) m2 image load l pages ls Hb2) as Hv.
  specialize (Hv ltac:(by rewrite Hstack)).
  destruct (verify_mappings m2 image load pages _) as [[b|e|] m3]; [|done..].
  destruct Hv as [-> ->]. destruct Hb2 as [_ _ -> (t1 & Hi1 & Hi2)].
  assert (Hlsl : length ls = 16%nat) by (by rewrite <- (length_fmap msp_virtual_page ls), Hvp).
  assert (Hoth : forall a, ~ image_page image a -> table m2 !! a = table m !! a).
  { intros a Hn. apply (others_untouched _ _ _ _ _ maps ps _ Hi1 Hi2); [done|done|..].
    - intros (s & Hs & Ha)%elem_of_plan_pages. apply Hn. left. apply list_elem_of_lookup in Hs as [i Hs].
      exists i, s. rewrite Hplan, plan_segment_filled. done.
    - intros (p & -> & Hp)%list_elem_of_fmap. apply Hn. right. apply list_elem_of_lookup in Hp as [i Hp].
      pose proof (lookup_lt_Some _ _ _ Hp). exists i. split; [lia|]. rewrite Hps in Hp by lia. by injection Hp as <-. }
  split_and!; try done.
  - intros i s a Hs Ha. rewrite plan_segment_filled in Hs.
    destruct (Hseg s a) as (frame & flags & Hx & Hf); [by eapply list_elem_of_lookup_2|done|].
    exists frame, flags. split; [by apply Hkeep|done].
  - intros j Hj. destruct (lookup_lt_is_Some_2 ls j) as [p Hp]; [lia|]. exists p.
    split_and!.
    + unfold bas_stack_page. cbn [bas_stack_count bas_stack_pages].
      rewrite bool_decide_false, filled_lookup by lia. by rewrite Hp.
    + assert (Hq : ps !! j = Some (msp_virtual_page p)) by (rewrite <- Hvp, list_lookup_fmap, Hp; done).
      rewrite Hps in Hq by lia. by injection Hq as <-.
    + apply Hrw. by eapply list_elem_of_lookup_2.
  - intros a x Hx. by eapply installed_keeps, installed_keeps.
  - intros a Ha. apply Hoth. intros [(i & s & Hs & Hin)|(i & _ & Hsp)]; [|by apply (guard_not_stack a i)].
    rewrite Hplan, plan_segment_filled in Hs. apply (guard_not_segment s a Ha); [|done].
    exact (Forall_lookup_1 _ _ _ _ Harea Hs).
Qed.

(** ** A finite-map page table, for evaluation *)
Record MapTable := mkMapTable { mt_table : gmap Z (Z * MappingFlags); mt_frames : list Z }.

Global Instance MapTable_view : UserMemoryView MapTable := {|
  um_translate m a := Ok ((fun x : Z * MappingFlags => x.1 + a mod PAGE_SIZE_4K) <$>
                            (mt_table m !! (a / PAGE_SIZE_4K * PAGE_SIZE_4K)));
  um_page_access m a :=
    Ok (match mt_table m !! (a / PAGE_SIZE_4K * PAGE_SIZE_4K) with
        | Some (_, flags) => mkAccess true true true (flags_writable flags) (flags_executable flags)
        | None => PageAccess_unmapped
        end);
  um_address_space m := mkVirtRange USER_SPACE_START KERNEL_SPACE_START;
|}.

Global Instance MapTable_mapper : PageTableMapper MapTable := {|
  ptm_allocate_frame m :=
    match mt_frames m with
    | [] => (None, m)
    | f :: fs => (Some f, mkMapTable (mt_table m) fs)
    end;
  ptm_map_page m page frame flags :=
    match mt_table m !! page_start page with
    | Some _ => (Err AlreadyMapped, m)
    | None => (Ok tt, mkMapTable (<[page_start page := (frame, flags)]> (mt_table m)) (mt_frames m))
    end;
  ptm_unmap_page m page :=
    match mt_table m !! page_start page with
    | Some (frame, _) => (Ok frame, mkMapTable (delete (page_start page) (mt_table m)) (mt_frames m))
    | None => (Err NotMapped, m)
    end;
|}.

Global Instance MapTable_lawful : LawfulMapper MapTable mt_table.
Proof.
  split; simpl.
  - intros [t [|f fs]] r m' Heq; simpl in *; by simplify_eq.
  - intros m page frame flags m' _ Heq. destruct (mt_table m !! page_start page); by simplify_eq.
  - intros m page frame flags e m' _ Heq. destruct (mt_table m !! page_start page); by simplify_eq.
  - intros m page frame flags ->. by eexists.
Qed.

Definition demo_table (frames : nat) : MapTable :=
  mkMapTable ∅ ((fun i => Z.of_nat i * 4096) <$> seq 1 frames).

Definition demo_image : result RamdiskImageError ProcessImage := build_process_image demo_bytes demo_spec.

Lemma build_address_space_transactional_witness :
  match demo_image with
  | Ok image =>
      is_ok (build_address_space (demo_table 32) demo_spec image).1 = true /\
      is_ok (build_address_space (demo_table 9) demo_spec image).1 = false /\
      mt_table (build_address_space (demo_table 9) demo_spec image).2 = ∅
  | _ => False
  end.
Proof.
  destruct demo_image as [image|e|] eqn:Himg; [|vm_compute in Himg; discriminate..].
  pose proof (build_address_space_transactional (table := mt_table) (demo_table 9) (mkAsId 1) demo_bytes
                image Himg) as Ht.
  change (AddressSpaceSpec_new (mkAsId 1)) with demo_spec in Ht.
  assert (H1 : is_ok (build_address_space (demo_table 32) demo_spec image).1 = true).
  { clear Ht. vm_compute in Himg. injection Himg as <-. vm_compute. reflexivity. }
  assert (H2 : is_ok (build_address_space (demo_table 9) demo_spec image).1 = false).
  { clear Ht. vm_compute in Himg. injection Himg as <-. vm_compute. reflexivity. }
  split; [exact H1|]. split; [exact H2|].
  destruct (build_address_space (demo_table 9) demo_spec image) as [[b|e|] m']; [discriminate|exact Ht|].
  destruct Ht as [(m & page & frame & flags & Hx)|(m & a & Hx)]; [|discriminate].
  cbn in Hx. destruct (mt_table m !! page_start page); discriminate.
Defined.
