(* ===== verification/Populate.v ===== *)
(** * Populating a process image

    [kernel/src/process/populate.rs] and [populated_address_space.rs] over the
    [ImagePageWriter] interface, with the x86_64 writer
    [kernel/src/arch/x86_64/image_writer.rs] as the implementation of its laws:
    afterwards every mapped page holds exactly the bytes the ELF image
    prescribes, and zero elsewhere. *)

From stdpp Require Import base numbers gmap sets list options.
From S2P Require Import Prelude Memory Frames Elf LoadPlan Loader AddressSpaceBuilder.

Local Open Scope Z_scope.
Local Open Scope rust_scope.

Inductive PopulateError :=
| MissingMappedPage
| SegmentOutsideMapping
| FileRangeInvalid
| PopulateAddressOverflow.

(** [trait ImagePageWriter]; the writer's own error is dropped by every caller. *)
Class ImagePageWriter (W : Type) := {
  iw_copy_into_page : W -> Z -> Z -> list Z -> result unit unit * W;
  iw_zero_page_range : W -> Z -> Z -> Z -> result unit unit * W;
}.

Definition find_mapped_page (loaded : LoadResult) (virtual_address : Z) : option nat :=
  position (fun index =>
              match lr_page loaded index with
              | Some page => mp_virtual_address page =? virtual_address
              | None => false
              end) (seq 0 (lr_mapped_pages loaded)).

Section Populate.
Context {W : Type} `{ImagePageWriter W}.

(** One segment's [while offset < memory_size] loop.  A round finishes a page,
    so the page count bounds it; out of fuel is [Panic]. *)
Fixpoint populate_loop (fuel : nat) (writer : W) (segment : LoadSegment) (file_bytes : list Z)
    (memory_end : Z) (loaded : LoadResult) (offset : Z) : result PopulateError unit * W :=
  match fuel with
  | O => (Panic, writer)
  | S fuel =>
      if offset <? seg_memory_size segment then
        match checked_add (vr_start (seg_range segment)) offset with
        | None => (Err PopulateAddressOverflow, writer)
        | Some virtual_address =>
            if (vr_end (seg_range segment) <=? virtual_address) || (memory_end <=? virtual_address)
            then (Err SegmentOutsideMapping, writer) else
            let base := Z.land virtual_address (not_u64 (PAGE_SIZE_4K - 1)) in
            let page_offset := virtual_address - base in
            let remaining_memory := seg_memory_size segment - offset in
            let page_room := PAGE_SIZE_4K - page_offset in
            let chunk := Z.min remaining_memory page_room in
            match find_mapped_page loaded base with
            | None => (Err MissingMappedPage, writer)
            | Some mapped_index =>
                match lr_page loaded mapped_index with
                | None => (Err MissingMappedPage, writer)
                | Some mapped =>
                    let physical := mp_physical_address mapped in
                    match iw_zero_page_range writer physical 0 PAGE_SIZE_4K with
                    | (Err _, writer) => (Err FileRangeInvalid, writer)
                    | (Panic, writer) => (Panic, writer)
                    | (Ok _, writer) =>
                        let file_chunk_start := Z.min offset (seg_file_size segment) in
                        let file_remaining := saturating_sub (Z.of_nat (length file_bytes)) file_chunk_start in
                        let copy_len := Z.min file_remaining chunk in
                        let! _ , writer :=
                          (if negb (copy_len =? 0) then
                             match checked_add file_chunk_start copy_len with
                             | None => (Err FileRangeInvalid, writer)
                             | Some source_end =>
                                 match slice_getZ file_bytes file_chunk_start source_end with
                                 | None => (Panic, writer)
                                 | Some bytes =>
                                     map_err_st (fun _ => FileRangeInvalid)
                                       (iw_copy_into_page writer physical page_offset bytes)
                                 end
                             end
                           else (Ok tt, writer)) in
                        match checked_add offset chunk with
                        | None => (Err PopulateAddressOverflow, writer)
                        | Some offset =>
                            populate_loop fuel writer segment file_bytes memory_end loaded offset
                        end
                    end
                end
            end
        end
      else (Ok tt, writer)
  end.

Definition populate_segment (writer : W) (image : ElfImage) (loaded : LoadResult) (segment : LoadSegment)
  : result PopulateError unit * W :=
  match checked_add (seg_file_offset segment) (seg_file_size segment) with
  | None => (Err FileRangeInvalid, writer)
  | Some file_end =>
      match slice_getZ (img_bytes image) (seg_file_offset segment) file_end with
      | None => (Err FileRangeInvalid, writer)
      | Some file_bytes =>
          match checked_add (vr_start (seg_range segment)) (seg_memory_size segment) with
          | None => (Err PopulateAddressOverflow, writer)
          | Some memory_end =>
              populate_loop (Z.to_nat (seg_memory_size segment / PAGE_SIZE_4K + 3)) writer segment
                file_bytes memory_end loaded 0
          end
      end
  end.

(** [for segment_index in 0..image.segment_count()], with [n] segments left. *)
Fixpoint populate_segments (n index : nat) (writer : W) (image : ElfImage) (loaded : LoadResult)
  : result PopulateError unit * W :=
  match n with
  | O => (Ok tt, writer)
  | S n =>
      match img_segment image index with
      | None => (Err SegmentOutsideMapping, writer)
      | Some segment =>
          let! _ , writer := populate_segment writer image loaded segment in
          populate_segments n (S index) writer image loaded
      end
  end.

Definition populate_image (writer : W) (image : ElfImage) (loaded : LoadResult)
  : result PopulateError unit * W :=
  populate_segments (img_segment_count image) 0 writer image loaded.

(** ** [populated_address_space.rs] *)
Inductive PopulationError := PopulationImage (e : PopulateError) | StackWriteFailed.

Fixpoint zero_stack (n index : nat) (writer : W) (built : BuiltAddressSpace)
  : result PopulationError unit * W :=
  match n with
  | O => (Ok tt, writer)
  | S n =>
      match bas_stack_page built index with
      | None => (Err StackWriteFailed, writer)
      | Some mapped =>
          let! _ , writer :=
            map_err_st (fun _ => StackWriteFailed)
              (iw_zero_page_range writer (msp_physical_address mapped) 0 PAGE_SIZE_4K) in
          zero_stack n (S index) writer built
      end
  end.

(** [PopulatedAddressSpace] is the built address space, tagged. *)
Definition PopulatedAddressSpace_populate (writer : W) (image : ElfImage) (built : BuiltAddressSpace)
  : result PopulationError BuiltAddressSpace * W :=
  let! _ , writer := map_err_st PopulationImage (populate_image writer image (bas_load built)) in
  let! _ , writer := zero_stack (bas_stack_count built) 0 writer built in
  (Ok built, writer).
End Populate.

(** ** The writer's laws *)

(** [bytes] written at [start]. *)
Definition overwrite (mem : Z -> Z) (start : Z) (bytes : list Z) : Z -> Z :=
  fun a => if (start <=? a) && (a <? start + Z.of_nat (length bytes))
           then default 0 (bytes !! Z.to_nat (a - start)) else mem a.

(** Over frames it can reach, a writer changes exactly the bytes it is told to. *)
Class LawfulWriter (W : Type) `{ImagePageWriter W} (mem : W -> Z -> Z) (reachable : W -> Z -> Prop) : Prop := {
  law_zero : forall w pa off len, reachable w pa -> 0 <= off -> 0 < len -> off + len <= PAGE_SIZE_4K ->
    exists w', iw_zero_page_range w pa off len = (Ok tt, w') /\
               (forall a, mem w' a = overwrite (mem w) (pa + off) (replicate (Z.to_nat len) 0) a) /\
               (forall pa', reachable w' pa' <-> reachable w pa');
  law_copy : forall w pa off bytes, reachable w pa -> 0 <= off -> (0 < length bytes)%nat ->
    off + Z.of_nat (length bytes) <= PAGE_SIZE_4K ->
    exists w', iw_copy_into_page w pa off bytes = (Ok tt, w') /\
               (forall a, mem w' a = overwrite (mem w) (pa + off) bytes a) /\
               (forall pa', reachable w' pa' <-> reachable w pa');
}.

(** ** The x86_64 writer *)
Record X86ImagePageWriter := mkX86Writer {
  xw_mapping : PhysicalMemoryMapping;
  (** Kernel memory, which the raw writes change. *)
  xw_memory : Z -> Z;
}.

Inductive ImageWriteError := ImageAddressOverflow | EmptyRange.

Definition mapped_address (w : X86ImagePageWriter) (physical_address page_offset length : Z)
  : result ImageWriteError Z :=
  if length =? 0 then Err EmptyRange else
  let? physical_start := ok_or (checked_add physical_address page_offset) ImageAddressOverflow in
  let? physical_end := ok_or (checked_add physical_start length) ImageAddressOverflow in
  let? virtual_start := ok_or (phys_translate (xw_mapping w) physical_start) ImageAddressOverflow in
  let? virtual_end := ok_or (phys_translate (xw_mapping w) physical_end) ImageAddressOverflow in
  if (virtual_end <? virtual_start) || (U64_MAX <? virtual_start)
     || (saturating_add U64_MAX 1 <? virtual_end)
  then Err ImageAddressOverflow
  else Ok virtual_start.

Definition x86_copy_into_page (w : X86ImagePageWriter) (physical_address page_offset : Z) (bytes : list Z)
  : result ImageWriteError unit * X86ImagePageWriter :=
  match mapped_address w physical_address page_offset (Z.of_nat (length bytes)) with
  | Ok destination => (Ok tt, mkX86Writer (xw_mapping w) (overwrite (xw_memory w) destination bytes))
  | Err e => (Err e, w)
  | Panic => (Panic, w)
  end.

Definition x86_zero_page_range (w : X86ImagePageWriter) (physical_address page_offset length : Z)
  : result ImageWriteError unit * X86ImagePageWriter :=
  match mapped_address w physical_address page_offset length with
  | Ok destination =>
      (Ok tt, mkX86Writer (xw_mapping w) (overwrite (xw_memory w) destination (replicate (Z.to_nat length) 0)))
  | Err e => (Err e, w)
  | Panic => (Panic, w)
  end.

Global Instance x86_image_writer : ImagePageWriter X86ImagePageWriter := {|
  iw_copy_into_page w pa off bytes := map_err_st (fun _ => tt) (x86_copy_into_page w pa off bytes);
  iw_zero_page_range w pa off len := map_err_st (fun _ => tt) (x86_zero_page_range w pa off len);
|}.

(** Physical memory through the direct map, and the frames it covers. *)
Definition xw_mem (w : X86ImagePageWriter) (pa : Z) : Z := xw_memory w (mapping_offset (xw_mapping w) + pa).
Definition xw_reachable (w : X86ImagePageWriter) (pa : Z) : Prop :=
  0 <= pa /\ 0 <= mapping_offset (xw_mapping w) /\
  mapping_offset (xw_mapping w) + pa + PAGE_SIZE_4K <= U64_MAX.

Lemma mapped_address_Ok w pa off len :
  xw_reachable w pa -> 0 <= off -> 0 < len -> off + len <= PAGE_SIZE_4K ->
  mapped_address w pa off len = Ok (mapping_offset (xw_mapping w) + (pa + off)).
Proof.
  intros (H0 & H1 & H2) Hoff Hlen Hle. unfold mapped_address, phys_translate.
  rewrite (proj2 (Z.eqb_neq _ _)) by lia.
  assert (checked_add pa off = Some (pa + off)) as -> by (apply checked_add_Some; lia). simpl.
  assert (checked_add (pa + off) len = Some (pa + off + len)) as -> by (apply checked_add_Some; lia). simpl.
  assert (checked_add (mapping_offset (xw_mapping w)) (pa + off)
          = Some (mapping_offset (xw_mapping w) + (pa + off))) as -> by (apply checked_add_Some; lia).
  assert (checked_add (mapping_offset (xw_mapping w)) (pa + off + len)
          = Some (mapping_offset (xw_mapping w) + (pa + off + len))) as -> by (apply checked_add_Some; lia).
  simpl ok_or. cbv iota. unfold saturating_add.
  destruct (_ || _) eqn:Hb; [|done]. exfalso. apply orb_true_iff in Hb as [Hb|Hb]; [|to_prop; lia].
  apply orb_true_iff in Hb as [Hb|Hb]; to_prop; lia.
Qed.

Lemma overwrite_shift mem o start bytes a :
  overwrite mem (o + start) bytes (o + a) = overwrite (fun x => mem (o + x)) start bytes a.
Proof.
  unfold overwrite. replace (o + a - (o + start)) with (a - start) by lia.
  destruct (Z.leb_spec (o + start) (o + a)), (Z.leb_spec start a); try lia; simpl; [|done].
  destruct (Z.ltb_spec (o + a) (o + start + Z.of_nat (length bytes))),
    (Z.ltb_spec a (start + Z.of_nat (length bytes))); try lia; done.
Qed.

Global Instance x86_writer_lawful : LawfulWriter X86ImagePageWriter xw_mem xw_reachable.
Proof.
  split.
  - intros w pa off len Hr H0 Hlen Hle. simpl. unfold x86_zero_page_range.
    rewrite mapped_address_Ok by done. eexists. split; [done|]. split; [|done].
    intros a. apply overwrite_shift.
  - intros w pa off bytes Hr H0 Hlen Hle. simpl. unfold x86_copy_into_page.
    rewrite mapped_address_Ok by (done || lia). eexists. split; [done|]. split; [|done].
    intros a. apply overwrite_shift.
Qed.

(** ** What a populated page holds *)

(** The byte the ELF image prescribes at [va] in the pages of segment [s]: file
    data where the segment has it, zero in the BSS and in the page padding. *)
Definition seg_byte (bytes : list Z) (s : LoadSegment) (va : Z) : Z :=
  if (vr_start (seg_range s) <=? va) && (va <? vr_start (seg_range s) + seg_file_size s)
  then default 0 (bytes !! Z.to_nat (seg_file_offset s + (va - vr_start (seg_range s))))
  else 0.

(** The frame of [p] holds segment [s]. *)
Definition holds (mem : Z -> Z) (bytes : list Z) (s : LoadSegment) (p : MappedPage) : Prop :=
  forall o, 0 <= o < PAGE_SIZE_4K ->
    mem (mp_physical_address p + o) = seg_byte bytes s (mp_virtual_address p + o).

(** Pages of the hull of [s] not finished when the loop is at [offset]. *)
Definition covers (s : LoadSegment) (offset : Z) (p : MappedPage) : Prop :=
  offset < seg_memory_size s /\
  vr_start (seg_range s) + offset - PAGE_SIZE_4K < mp_virtual_address p < vr_end (seg_range s).

Record load_ok {W} (reachable : W -> Z -> Prop) (l : list MappedPage) (w : W) : Prop := mk_load_ok {
  lo_nodup : NoDup (mp_virtual_address <$> l);
  lo_aligned : forall p, p ∈ l -> aligned (mp_virtual_address p);
  lo_frames : forall p q, p ∈ l -> q ∈ l -> p <> q ->
    mp_physical_address p + PAGE_SIZE_4K <= mp_physical_address q \/
    mp_physical_address q + PAGE_SIZE_4K <= mp_physical_address p;
  lo_reachable : forall p, p ∈ l -> reachable w (mp_physical_address p);
}.

Lemma overwrite_zero mem start n a :
  0 <= n ->
  overwrite mem start (replicate (Z.to_nat n) 0) a =
    if (start <=? a) && (a <? start + n) then 0 else mem a.
Proof.
  intros Hn. unfold overwrite. rewrite length_replicate, Z2Nat.id by lia.
  destruct (_ && _) eqn:Hb; [|done]. to_prop.
  rewrite lookup_replicate_2; [done|]. lia.
Qed.

Lemma find_mapped_page_spec l n entry p :
  NoDup (mp_virtual_address <$> l) -> (length l <= n)%nat -> p ∈ l ->
  let loaded := mkLoadResult (length l) entry (filled n l) in
  exists i, find_mapped_page loaded (mp_virtual_address p) = Some i /\ lr_page loaded i = Some p.
Proof.
  intros Hnd Hn Hp loaded.
  pose proof (lr_page_filled n l entry) as Hpage. fold loaded in Hpage.
  apply list_elem_of_lookup in Hp as [i Hi]. pose proof (lookup_lt_Some _ _ _ Hi) as Hlt.
  exists i. split; [|by rewrite Hpage]. unfold find_mapped_page. apply position_Some. split.
  - exists i. rewrite lookup_seq_lt by done. split; [done|]. rewrite Hpage, Hi. apply Z.eqb_refl.
  - intros j y Hj Hy. apply lookup_seq in Hy as [-> _]. simpl. rewrite Hpage.
    destruct (lookup_lt_is_Some_2 l j) as [q Hq]; [lia|]. rewrite Hq. apply Z.eqb_neq. intros Heq.
    assert (j = i); [|lia]. apply (NoDup_lookup _ _ _ (mp_virtual_address p) Hnd).
    + rewrite list_lookup_fmap, Hq. simpl. by rewrite Heq.
    + by rewrite list_lookup_fmap, Hi.
Qed.

Lemma slice_getZ_lookup {A} (l r : list A) a b :
  0 <= a -> slice_getZ l a b = Some r ->
  Z.of_nat (length r) = b - a /\
  forall k, 0 <= k -> r !! Z.to_nat k = if k <? b - a then l !! Z.to_nat (a + k) else None.
Proof.
  intros Ha Hs. unfold slice_getZ in Hs. destruct (_ && _) eqn:Hb; [|done]. to_prop.
  injection Hs as <-. split; [rewrite length_take, length_drop; lia|].
  intros k Hk. destruct (Z.ltb_spec k (b - a)).
  - rewrite lookup_take_lt, lookup_drop by lia. f_equal. lia.
  - apply lookup_ge_None. rewrite length_take. lia.
Qed.

Lemma slice_getZ_Some {A} (l : list A) a b :
  0 <= a <= b -> b <= Z.of_nat (length l) -> is_Some (slice_getZ l a b).
Proof.
  intros Hab Hb. unfold slice_getZ. rewrite (proj2 (Z.leb_le a b)), (proj2 (Z.leb_le b _)) by lia. eauto.
Qed.

(** The bytes of one round are the prescribed ones for the page at [base]. *)
Lemma chunk_content bytes s fb bs offset base o :
  0 <= seg_file_offset s -> 0 <= seg_file_size s <= seg_memory_size s ->
  slice_getZ bytes (seg_file_offset s) (seg_file_offset s + seg_file_size s) = Some fb ->
  0 <= offset < seg_memory_size s ->
  base <= vr_start (seg_range s) + offset < base + PAGE_SIZE_4K ->
  (offset = 0 \/ base = vr_start (seg_range s) + offset) ->
  let page_offset := vr_start (seg_range s) + offset - base in
  let chunk := Z.min (seg_memory_size s - offset) (PAGE_SIZE_4K - page_offset) in
  let fcs := Z.min offset (seg_file_size s) in
  let copy_len := Z.min (saturating_sub (Z.of_nat (length fb)) fcs) chunk in
  slice_getZ fb fcs (fcs + copy_len) = Some bs -> 0 <= o < PAGE_SIZE_4K ->
  default 0 (if page_offset <=? o then bs !! Z.to_nat (o - page_offset) else None) =
  seg_byte bytes s (base + o).
Proof.
  intros Hfo Hfs Hfb Hoff Hbase Hal page_offset chunk fcs copy_len Hbs Ho.
  destruct (slice_getZ_lookup _ _ _ _ Hfo Hfb) as [Hlen Hlook].
  replace (seg_file_offset s + seg_file_size s - seg_file_offset s) with (seg_file_size s) in * by lia.
  assert (Hfcs : 0 <= fcs) by (unfold fcs; lia).
  destruct (slice_getZ_lookup _ _ _ _ Hfcs Hbs) as [_ Hlook2].
  replace (fcs + copy_len - fcs) with copy_len in Hlook2 by lia.
  assert (Hcl : copy_len = Z.min (seg_file_size s - fcs) chunk)
    by (unfold copy_len, saturating_sub; rewrite Hlen; unfold fcs; lia).
  clearbody copy_len. unfold seg_byte.
  destruct (Z.leb_spec page_offset o) as [Hpo|Hpo].
  - rewrite Hlook2 by lia.
    destruct (Z.ltb_spec (o - page_offset) copy_len) as [Hc|Hc].
    + assert (Hk : fcs + (o - page_offset) = base + o - vr_start (seg_range s))
        by (unfold fcs, page_offset in *; lia).
      rewrite (proj2 (Z.leb_le _ _)), (proj2 (Z.ltb_lt _ _)) by (unfold fcs, chunk in *; lia). simpl.
      rewrite Hk, Hlook by (unfold fcs, chunk in *; lia).
      rewrite (proj2 (Z.ltb_lt _ _)) by (unfold fcs, chunk in *; lia). done.
    + destruct (_ && _) eqn:Hb; [|done]. to_prop. exfalso. unfold fcs, chunk, page_offset in *. lia.
  - destruct (_ && _) eqn:Hb; [|done]. to_prop. exfalso. unfold page_offset in *. lia.
Qed.

Section Contents.
Context {W : Type} `{LawfulWriter W mem reachable}.

Lemma load_ok_step l w w' :
  load_ok reachable l w -> (forall pa, reachable w' pa <-> reachable w pa) -> load_ok reachable l w'.
Proof using Type. intros [? ? ? Hr] He. split; [done..|]. intros p Hp. apply He. auto. Qed.

(** Zeroing a page and copying [bs] into it at [off]. *)
Lemma zero_then_copy w pa off (bs : list Z) w1 :
  reachable w pa -> 0 <= off -> off + Z.of_nat (length bs) <= PAGE_SIZE_4K ->
  iw_zero_page_range w pa 0 PAGE_SIZE_4K = (Ok tt, w1) ->
  exists w2, (if negb (Z.of_nat (length bs) =? 0) then iw_copy_into_page w1 pa off bs else (Ok tt, w1))
             = (Ok tt, w2) /\
  (forall a, mem w2 a = if (pa <=? a) && (a <? pa + PAGE_SIZE_4K)
                        then default 0 (if (pa + off <=? a) then bs !! Z.to_nat (a - (pa + off)) else None)
                        else mem w a) /\
  (forall pa', reachable w2 pa' <-> reachable w pa').
Proof using Type*.
  intros Hr Hoff Hlen Hz.
  destruct (law_zero w pa 0 PAGE_SIZE_4K Hr) as (w1' & Hz' & Hm1 & Hr1); [lia|done|lia|].
  rewrite Hz in Hz'. injection Hz' as <-.
  assert (Hmem : forall m a, (forall x, m x = overwrite (mem w1) (pa + off) bs x) ->
    m a = if (pa <=? a) && (a <? pa + PAGE_SIZE_4K)
          then default 0 (if (pa + off <=? a) then bs !! Z.to_nat (a - (pa + off)) else None)
          else mem w a).
  { intros m a Hm. rewrite Hm. unfold overwrite at 1. rewrite Hm1, Z.add_0_r, overwrite_zero by done.
    destruct (Z.leb_spec (pa + off) a), (Z.ltb_spec a (pa + off + Z.of_nat (length bs)));
      destruct (Z.leb_spec pa a), (Z.ltb_spec a (pa + PAGE_SIZE_4K)); simpl; try lia; try done.
    by rewrite (proj2 (lookup_ge_None bs _)) by lia. }
  destruct (Z.eqb_spec (Z.of_nat (length bs)) 0) as [He|He]; simpl.
  - exists w1. split; [done|]. split; [|done]. intros a. apply (Hmem (mem w1)).
    intros x. unfold overwrite. rewrite He. destruct (Z.leb_spec (pa + off) x), (Z.ltb_spec x (pa + off + 0)); simpl; done || lia.
  - destruct (law_copy w1 pa off bs) as (w2 & Hc & Hm2 & Hr2); [by apply Hr1|done|lia|done|].
    exists w2. split; [done|]. split; [by intros a; apply (Hmem (mem w2))|].
    intros pa'. by rewrite Hr2, Hr1.
Qed.

(** Everything the loop over one segment needs to know. *)
Record segment_ready (bytes : list Z) (s : LoadSegment) (fb : list Z) (l : list MappedPage) : Prop :=
  mk_segment_ready {
  sr_ok : segment_ok bytes s;
  sr_offset : 0 <= seg_file_offset s;
  sr_size : 0 <= seg_file_size s;
  sr_file : slice_getZ bytes (seg_file_offset s) (seg_file_offset s + seg_file_size s) = Some fb;
  sr_covered : forall a, aligned a ->
    vr_start (seg_range s) - PAGE_SIZE_4K < a < vr_end (seg_range s) ->
    exists p, p ∈ l /\ mp_virtual_address p = a;
  sr_len : Z.of_nat (length bytes) <= U64_MAX;
}.

(** Aligned addresses in the page of [x]. *)
Lemma aligned_page_unique a b : aligned a -> aligned b -> a - PAGE_SIZE_4K < b < a + PAGE_SIZE_4K -> a = b.
Proof using Type.
  unfold aligned, PAGE_SIZE_4K. intros Ha Hb Hab.
  pose proof (Z.div_mod a 4096 ltac:(lia)). pose proof (Z.div_mod b 4096 ltac:(lia)). lia.
Qed.

(** The copy of one round, as the loop writes it. *)
Lemma round_copy w1 w2 pa page_offset (fb bs : list Z) fcs copy_len :
  0 <= fcs -> 0 <= copy_len -> fcs + copy_len <= U64_MAX ->
  slice_getZ fb fcs (fcs + copy_len) = Some bs ->
  (if negb (Z.of_nat (length bs) =? 0) then iw_copy_into_page w1 pa page_offset bs else (Ok tt, w1))
    = (Ok tt, w2) ->
  (if negb (copy_len =? 0) then
     match checked_add fcs copy_len with
     | None => (Err FileRangeInvalid, w1)
     | Some source_end =>
         match slice_getZ fb fcs source_end with
         | None => (Panic, w1)
         | Some bytes => map_err_st (fun _ => FileRangeInvalid) (iw_copy_into_page w1 pa page_offset bytes)
         end
     end
   else (Ok tt, w1)) = (Ok tt, w2).
Proof using Type.
  intros Hf Hc Hmax Hbs Hcopy. destruct (slice_getZ_lookup fb bs _ _ Hf Hbs) as [Hbsl _].
  replace (Z.of_nat (length bs)) with copy_len in Hcopy by lia.
  assert (checked_add fcs copy_len = Some (fcs + copy_len)) as -> by (by apply checked_add_Some).
  rewrite Hbs. destruct (negb (copy_len =? 0)); [unfold map_err_st; by rewrite Hcopy|].
  by injection Hcopy as <-.
Qed.

(** One round finishes the page that contains [start + offset]. *)
Lemma populate_round fuel w bytes s fb l n entry offset :
  let loaded := mkLoadResult (length l) entry (filled n l) in
  let start := vr_start (seg_range s) in
  segment_ready bytes s fb l -> (length l <= n)%nat -> load_ok reachable l w ->
  0 <= offset < seg_memory_size s -> (offset = 0 \/ aligned (start + offset)) ->
  exists w2 p0, p0 ∈ l /\ aligned (mp_virtual_address p0) /\
    mp_virtual_address p0 <= start + offset < mp_virtual_address p0 + PAGE_SIZE_4K /\
    (let chunk := Z.min (seg_memory_size s - offset)
                        (mp_virtual_address p0 + PAGE_SIZE_4K - (start + offset)) in
     populate_loop (S fuel) w s fb (start + seg_memory_size s) loaded offset =
     populate_loop fuel w2 s fb (start + seg_memory_size s) loaded (offset + chunk)) /\
    load_ok reachable l w2 /\ holds (mem w2) bytes s p0 /\
    (forall q o, q ∈ l -> q <> p0 -> 0 <= o < PAGE_SIZE_4K ->
       mem w2 (mp_physical_address q + o) = mem w (mp_physical_address q + o)).
Proof using Type*.
  intros loaded start [[[Hlo Hhi] Hne Hml [Hfm Hfl] _ _] Hfo Hfs Hfb Hcov _] Hn Hlok Hoff Hal.
  unfold vr_len in Hml.
  assert (0 < USER_SPACE_START /\ KERNEL_SPACE_START < U64_MAX) as [HU HK] by (by vm_compute).
  set (base := start + offset - (start + offset) mod PAGE_SIZE_4K).
  pose proof (Z.mod_pos_bound (start + offset) PAGE_SIZE_4K ltac:(done)) as Hmod.
  assert (Hbal : aligned base) by apply aligned_floor.
  assert (Hbase : base <= start + offset < base + PAGE_SIZE_4K) by (unfold base; lia).
  assert (Hob : offset = 0 \/ base = start + offset).
  { destruct Hal as [?|Ha]; [by left|right]. symmetry. apply aligned_page_unique; [done|done|lia]. }
  destruct (Hcov base Hbal) as (p0 & Hp0 & Hva0); [lia|].
  destruct (find_mapped_page_spec l n entry p0 (lo_nodup _ _ _ Hlok) Hn Hp0) as (ix & Hfind & Hpage).
  fold loaded in Hfind, Hpage. set (pa := mp_physical_address p0) in *.
  set (page_offset := start + offset - base).
  set (chunk := Z.min (seg_memory_size s - offset) (PAGE_SIZE_4K - page_offset)).
  set (fcs := Z.min offset (seg_file_size s)).
  set (copy_len := Z.min (saturating_sub (Z.of_nat (length fb)) fcs) chunk).
  assert (Hreach : reachable w pa) by (by apply (lo_reachable _ _ _ Hlok)).
  destruct (law_zero w pa 0 PAGE_SIZE_4K Hreach) as (w1 & Hz & _ & _); [lia|done|lia|].
  destruct (slice_getZ_lookup _ _ _ _ Hfo Hfb) as [Hfbl _].
  assert (Hcl : 0 <= copy_len <= chunk /\ 0 <= fcs /\ fcs + copy_len <= Z.of_nat (length fb))
    by (unfold copy_len, saturating_sub, fcs, chunk, page_offset in *; lia).
  destruct (slice_getZ_Some fb fcs (fcs + copy_len)) as [bs Hbs]; [lia|lia|].
  destruct (slice_getZ_lookup fb bs fcs (fcs + copy_len)) as [Hbsl _]; [lia|done|].
  destruct (zero_then_copy w pa page_offset bs w1) as (w2 & Hcopy & Hm2 & Hr2);
    [done|unfold page_offset; lia|unfold chunk, page_offset in *; lia|done|].
  exists w2, p0. split_and!; [done|by rewrite Hva0|lia|lia| |by eapply load_ok_step| |].
  - intros chunk'. assert (chunk' = chunk) as -> by (unfold chunk', chunk, page_offset; rewrite Hva0; lia).
    cbn [populate_loop]. fold start. rewrite (proj2 (Z.ltb_lt _ _)) by lia.
    assert (checked_add start offset = Some (start + offset)) as -> by (apply checked_add_Some; lia).
    assert ((vr_end (seg_range s) <=? start + offset) || (start + seg_memory_size s <=? start + offset) = false)
      as -> by (apply orb_false_iff; split; apply Z.leb_gt; lia).
    cbv zeta. change (PAGE_SIZE_4K - 1) with 4095. rewrite land_page_mask by ulia.
    change 4096 with PAGE_SIZE_4K. fold base. rewrite <- Hva0 at 1. rewrite Hfind, Hpage.
    fold pa page_offset. fold chunk fcs. fold copy_len. rewrite Hz.
    rewrite (round_copy w1 w2 pa page_offset fb bs fcs copy_len) by (done || lia).
    assert (checked_add offset chunk = Some (offset + chunk)) as ->
      by (apply checked_add_Some; unfold chunk in *; lia). done.
  - intros o Ho. fold pa. rewrite Hm2, (proj2 (Z.leb_le _ _)), (proj2 (Z.ltb_lt _ _)) by lia. simpl andb.
    cbv iota. rewrite Hva0.
    replace (pa + page_offset <=? pa + o) with (page_offset <=? o)
      by (destruct (Z.leb_spec page_offset o), (Z.leb_spec (pa + page_offset) (pa + o)); lia || done).
    replace (pa + o - (pa + page_offset)) with (o - page_offset) by lia.
    by apply (chunk_content bytes s fb bs offset base o).
  - intros q o Hq Hne' Ho. rewrite Hm2. destruct (_ && _) eqn:Hb; [|done]. to_prop. exfalso.
    destruct (lo_frames _ _ _ Hlok q p0 Hq Hp0 Hne') as [Hd|Hd]; fold pa in Hd; lia.
Qed.

Lemma populate_loop_spec fuel w bytes s fb l n entry offset :
  let loaded := mkLoadResult (length l) entry (filled n l) in
  let start := vr_start (seg_range s) in
  segment_ready bytes s fb l -> (length l <= n)%nat -> load_ok reachable l w ->
  0 <= offset <= seg_memory_size s ->
  (offset = seg_memory_size s /\ (0 < fuel)%nat) \/
  (aligned (start + offset) /\ seg_memory_size s - offset <= (Z.of_nat fuel - 1) * PAGE_SIZE_4K) \/
  (offset = 0 /\ seg_memory_size s <= (Z.of_nat fuel - 2) * PAGE_SIZE_4K) ->
  exists w', populate_loop fuel w s fb (start + seg_memory_size s) loaded offset = (Ok tt, w') /\
    load_ok reachable l w' /\
    forall p, p ∈ l ->
      (covers s offset p -> holds (mem w') bytes s p) /\
      (~ covers s offset p -> forall o, 0 <= o < PAGE_SIZE_4K ->
         mem w' (mp_physical_address p + o) = mem w (mp_physical_address p + o)).
Proof using Type*.
  intros loaded start Hsr Hn. revert w offset.
  pose proof Hsr as [[_ Hne Hml _ _ _] _ _ _ _ _]. unfold vr_len in Hml. fold start in Hml, Hne.
  induction fuel as [|fuel IH]; intros w offset Hlok Hoff Hfuel; [unfold PAGE_SIZE_4K in *; lia|].
  destruct (decide (offset = seg_memory_size s)) as [->|Hlt].
  { exists w. cbn [populate_loop]. rewrite Z.ltb_irrefl. split_and!; [done|done|].
    intros p Hp. split; [intros [? _]; lia|done]. }
  destruct (populate_round fuel w bytes s fb l n entry offset Hsr Hn Hlok)
    as (w2 & p0 & Hp0 & Hal0 & Hb0 & Hstep & Hlok2 & Hhold & Hkeep); [lia|tauto|].
  fold start loaded in Hstep, Hb0. cbv zeta in Hstep. rewrite Hstep. clear Hstep.
  set (base := mp_virtual_address p0) in *.
  set (chunk := Z.min (seg_memory_size s - offset) (base + PAGE_SIZE_4K - (start + offset))).
  assert (Hchunk : 0 < chunk) by (unfold chunk; lia).
  destruct (IH w2 (offset + chunk)) as (w' & Heq & Hlok' & Hpages); [done|unfold chunk; lia| |].
  { destruct (decide (offset + chunk = seg_memory_size s)) as [He|He].
    - left. split; [done|]. unfold PAGE_SIZE_4K in *. lia.
    - right. left. assert (start + (offset + chunk) = base + PAGE_SIZE_4K) as Hnext by (unfold chunk in *; lia).
      rewrite Hnext. split.
      + unfold aligned in *. rewrite <- Z.add_mod_idemp_l, Hal0 by done. done.
      + destruct Hfuel as [[? _]|[[Ha ?]|[? ?]]]; [lia| |lia].
        assert (base = start + offset) by (symmetry; apply aligned_page_unique; [done|done|lia]). lia. }
  exists w'. split_and!; [done|done|]. intros p Hp. destruct (Hpages p Hp) as [Hin Hout].
  pose proof (lo_aligned _ _ _ Hlok p Hp) as Halp.
  assert (Hnot0 : ~ covers s (offset + chunk) p0).
  { intros [Hc1 [Hc2 _]]. fold base start in Hc2. unfold chunk in *. lia. }
  destruct (decide (mp_virtual_address p = base)) as [Hvb|Hvb].
  - assert (p = p0) as ->.
    { apply list_elem_of_lookup in Hp as [i Hi], Hp0 as [k Hk].
      assert (i = k) as ->; [|by simplify_eq].
      apply (NoDup_lookup _ _ _ base (lo_nodup _ _ _ Hlok)); rewrite list_lookup_fmap;
        [rewrite Hi|rewrite Hk]; simpl; by f_equal. }
    split; [|intros Hn0; destruct Hn0; split; fold base start; lia].
    intros _ o Ho. rewrite Hout by done. by apply Hhold.
  - assert (Hiff : covers s offset p <-> covers s (offset + chunk) p).
    { unfold covers. fold start. split.
      - intros [_ Hc]. destruct (decide (base < mp_virtual_address p)) as [Hgt|Hgt].
        + assert (base + PAGE_SIZE_4K <= mp_virtual_address p).
          { destruct (decide (base + PAGE_SIZE_4K <= mp_virtual_address p)); [done|].
            destruct Hvb. symmetry. apply aligned_page_unique; [done|done|lia]. }
          unfold chunk. lia.
        + destruct Hvb. symmetry. apply aligned_page_unique; [done|done|lia].
      - intros [Hc1 Hc2]. split; [lia|]. lia. }
    rewrite Hiff. split; [done|]. intros Hnc o Ho. rewrite Hout by done. apply Hkeep; [done| |done].
    intros ->. done.
Qed.

Lemma populate_segment_spec w image s l n entry fb :
  let loaded := mkLoadResult (length l) entry (filled n l) in
  segment_ready (img_bytes image) s fb l -> (length l <= n)%nat -> load_ok reachable l w ->
  exists w', populate_segment w image loaded s = (Ok tt, w') /\ load_ok reachable l w' /\
    forall p, p ∈ l ->
      (covers s 0 p -> holds (mem w') (img_bytes image) s p) /\
      (~ covers s 0 p -> forall o, 0 <= o < PAGE_SIZE_4K ->
         mem w' (mp_physical_address p + o) = mem w (mp_physical_address p + o)).
Proof using Type*.
  intros loaded Hsr Hn Hlok. pose proof Hsr as [[[Hlo Hhi] Hne Hml [Hfm Hfl] _ _] Hfo Hfs Hfb _ Hbl].
  unfold vr_len in Hml.
  assert (0 < USER_SPACE_START /\ KERNEL_SPACE_START < U64_MAX) as [HU HK] by (by vm_compute).
  unfold populate_segment.
  destruct (checked_add (seg_file_offset s) (seg_file_size s)) as [fe|] eqn:He.
  - pose proof He as [-> _]%checked_add_Some. rewrite Hfb.
    assert (checked_add (vr_start (seg_range s)) (seg_memory_size s)
            = Some (vr_start (seg_range s) + seg_memory_size s)) as -> by (apply checked_add_Some; lia).
    apply populate_loop_spec; [done|done|done|lia|]. right. right. split; [done|].
    pose proof (Z.mul_succ_div_gt (seg_memory_size s) PAGE_SIZE_4K ltac:(done)).
    assert (0 <= seg_memory_size s / PAGE_SIZE_4K) by (apply Z.div_pos; [lia|done]).
    unfold PAGE_SIZE_4K in *. lia.
  - exfalso. apply checked_add_None in He. lia.
Qed.

(** All segments, whose hulls share no page. *)
Lemma populate_segments_spec m index w image segs l n entry pre post :
  let loaded := mkLoadResult (length l) entry (filled n l) in
  segs = pre ++ post -> length pre = index -> length post = m ->
  (forall i, img_segment image i = segs !! i) ->
  (forall s, s ∈ segs -> exists fb, segment_ready (img_bytes image) s fb l) ->
  (forall i j si sj p, segs !! i = Some si -> segs !! j = Some sj -> i <> j -> p ∈ l ->
     covers si 0 p -> ~ covers sj 0 p) ->
  (length l <= n)%nat -> load_ok reachable l w ->
  (forall s p, s ∈ pre -> p ∈ l -> covers s 0 p -> holds (mem w) (img_bytes image) s p) ->
  exists w', populate_segments m index w image loaded = (Ok tt, w') /\ load_ok reachable l w' /\
    (forall s p, s ∈ segs -> p ∈ l -> covers s 0 p -> holds (mem w') (img_bytes image) s p) /\
    (forall p, p ∈ l -> (forall s, s ∈ segs -> ~ covers s 0 p) -> forall o, 0 <= o < PAGE_SIZE_4K ->
       mem w' (mp_physical_address p + o) = mem w (mp_physical_address p + o)).
Proof using Type*.
  intros loaded Hsegs Hidx Hm Himg Hready Hdis Hn. revert index w pre post Hsegs Hidx Hm.
  induction m as [|m IH]; intros index w pre post Hsegs Hidx Hm Hlok Hdone; cbn [populate_segments].
  { destruct post; [|done]. rewrite app_nil_r in Hsegs. subst pre. exists w. split_and!; auto. }
  destruct post as [|s post]; [done|]. simpl in Hm.
  assert (Hs : segs !! index = Some s) by (by rewrite Hsegs, lookup_app_r, Hidx, Nat.sub_diag by lia).
  rewrite Himg, Hs. destruct (Hready s) as [fb Hsr]; [by eapply list_elem_of_lookup_2|].
  destruct (populate_segment_spec w image s l n entry fb Hsr Hn Hlok) as (w1 & Hp & Hlok1 & Hpages).
  fold loaded in Hp. rewrite Hp.
  destruct (IH (S index) w1 (pre ++ [s]) post) as (w' & Heq & Hlok' & Hall & Hrest).
  - by rewrite <- app_assoc.
  - rewrite length_app. simpl. lia.
  - lia.
  - done.
  - intros s' p [Hin| ->%list_elem_of_singleton]%elem_of_app Hpl Hc; [|by apply Hpages].
    intros o Ho. rewrite (proj2 (Hpages p Hpl)); [by apply Hdone| |done].
    apply list_elem_of_lookup in Hin as [k Hk]. pose proof (lookup_lt_Some _ _ _ Hk).
    apply (Hdis k index s' s p); [|done|lia|done|done]. rewrite Hsegs. by apply lookup_app_l_Some.
  - exists w'. split_and!; [done|done|done|]. intros p Hpl Hnone o Ho.
    rewrite Hrest by done. apply (Hpages p Hpl); [|done]. apply Hnone. by eapply list_elem_of_lookup_2.
Qed.

Lemma zero_stack_spec m index w built ls pre post :
  ls = pre ++ post -> length pre = index -> length post = m ->
  (forall i, bas_stack_page built i = ls !! i) ->
  (forall p, p ∈ ls -> reachable w (msp_physical_address p)) ->
  (forall p o, p ∈ pre -> 0 <= o < PAGE_SIZE_4K -> mem w (msp_physical_address p + o) = 0) ->
  exists w', zero_stack m index w built = (Ok tt, w') /\
    (forall p o, p ∈ ls -> 0 <= o < PAGE_SIZE_4K -> mem w' (msp_physical_address p + o) = 0) /\
    (forall a, (forall p, p ∈ ls -> ~ (msp_physical_address p <= a < msp_physical_address p + PAGE_SIZE_4K)) ->
       mem w' a = mem w a).
Proof using Type*.
  intros Hls Hidx Hm Hpage. revert index w pre post Hls Hidx Hm.
  induction m as [|m IH]; intros index w pre post Hls Hidx Hm Hr Hz; cbn [zero_stack].
  { destruct post; [|done]. rewrite app_nil_r in Hls. subst pre. exists w. split_and!; auto. }
  destruct post as [|p post]; [done|]. simpl in Hm.
  assert (Hp : ls !! index = Some p) by (by rewrite Hls, lookup_app_r, Hidx, Nat.sub_diag by lia).
  rewrite Hpage, Hp. assert (Hpin : p ∈ ls) by (by eapply list_elem_of_lookup_2).
  destruct (law_zero w (msp_physical_address p) 0 PAGE_SIZE_4K (Hr p Hpin)) as (w1 & Hz1 & Hm1 & Hr1);
    [lia|done|lia|]. unfold map_err_st. rewrite Hz1. cbn [map_err fst snd].
  assert (Hmem : forall a, mem w1 a =
    if (msp_physical_address p <=? a) && (a <? msp_physical_address p + PAGE_SIZE_4K) then 0 else mem w a).
  { intros a. by rewrite Hm1, Z.add_0_r, overwrite_zero by done. }
  destruct (IH (S index) w1 (pre ++ [p]) post) as (w' & Heq & Hzero & Hrest).
  - by rewrite <- app_assoc.
  - rewrite length_app. simpl. lia.
  - lia.
  - intros q Hq. apply Hr1, Hr, Hq.
  - intros q o [Hq| ->%list_elem_of_singleton]%elem_of_app Ho; rewrite Hmem.
    + destruct (_ && _); [done|]. by apply Hz.
    + rewrite (proj2 (Z.leb_le _ _)), (proj2 (Z.ltb_lt _ _)) by lia. done.
  - exists w'. split_and!; [done|done|]. intros a Ha. rewrite Hrest, Hmem by done.
    destruct (_ && _) eqn:Hb; [|done]. to_prop. exfalso. apply (Ha p Hpin). lia.
Qed.
End Contents.

(** ** From the loader to memory contents *)
Lemma pages_between_complete start end_ a :
  aligned start -> aligned a -> start <= a < end_ -> a ∈ pages_between start end_.
Proof.
  unfold aligned, pages_between. change PAGE_SIZE_4K with FRAME_SIZE. intros Hs Ha Hr.
  apply elem_of_pages_from. exists (Z.to_nat ((a - start) / FRAME_SIZE)).
  assert (Hd : a - start = (a - start) / FRAME_SIZE * FRAME_SIZE).
  { pose proof (Z.div_mod (a - start) FRAME_SIZE ltac:(done)) as Hdm.
    rewrite Zminus_mod, Ha, Hs in Hdm. rewrite Z.mod_0_l in Hdm by done. lia. }
  assert (0 <= (a - start) / FRAME_SIZE) by (apply Z.div_pos; [lia|done]).
  split; [|rewrite Z2Nat.id by done; lia]. apply Z2Nat.inj_lt; [done|apply Z.div_pos; [unfold FRAME_SIZE; lia|done]|].
  apply Z.lt_le_trans with ((a - start) / FRAME_SIZE + 1); [lia|].
  replace ((a - start) / FRAME_SIZE + 1) with ((a - start + 1 * FRAME_SIZE) / FRAME_SIZE)
    by (by rewrite Z.div_add). apply Z.div_le_mono; [done|]. unfold FRAME_SIZE. lia.
Qed.

Lemma installed_pages t0 l t :
  installed t0 l t -> NoDup (mp_virtual_address <$> l) /\ (forall p, p ∈ l -> aligned (mp_virtual_address p)).
Proof.
  induction 1 as [|l t p flags Hi [IH1 IH2] Hn Hal].
  - split; [constructor|]. by intros p ?%elem_of_nil.
  - split.
    + rewrite fmap_app. simpl. apply NoDup_snoc; [done|]. intros Hin.
      assert (is_Some (t !! mp_virtual_address p)) as [x Hx]; [|congruence].
      clear Hn Hal IH1 IH2. revert Hin. induction Hi as [|l' t' q fl Hi' IH' Hn' Hal']; [by intros ?%elem_of_nil|].
      rewrite fmap_app, elem_of_app. intros [Hin|Hin].
      * destruct (decide (mp_virtual_address q = mp_virtual_address p)) as [->|Hne];
          [rewrite lookup_insert_eq; eauto|rewrite lookup_insert_ne by done; auto].
      * simpl in Hin. apply list_elem_of_singleton in Hin as ->. rewrite lookup_insert_eq. eauto.
    + intros q [Hq| ->%list_elem_of_singleton]%elem_of_app; [auto|done].
Qed.

(** A page that a segment covers lies in the segment's planned hull. *)
Lemma covers_in_hull s m p :
  planned s m -> aligned (mp_virtual_address p) -> covers s 0 p ->
  vr_contains (sm_range m) (mp_virtual_address p) = true.
Proof.
  intros ([[Ha1 Hs] [Ha2 He]] & _ & _) Hal [_ Hc]. apply vr_contains_spec. split; [|lia].
  destruct (decide (vr_start (sm_range m) <= mp_virtual_address p)); [done|].
  exfalso. assert (vr_start (sm_range m) = mp_virtual_address p) by (apply aligned_page_unique; [done|done|lia]).
  lia.
Qed.

Lemma segment_ready_from_plan bytes s m l maps :
  Forall is_u8 bytes -> Z.of_nat (length bytes) <= U64_MAX ->
  segment_ok bytes s -> planned s m -> m ∈ maps -> mp_virtual_address <$> l = plan_pages maps ->
  exists fb, segment_ready bytes s fb l.
Proof.
  intros Hu8 Hlen Hok Hpl Hm Hva. pose proof Hok as [_ _ _ [Hfm Hfl] _ Hnn].
  destruct (Hnn Hu8) as [Hfo Hfs].
  destruct (slice_getZ_Some bytes (seg_file_offset s) (seg_file_offset s + seg_file_size s)) as [fb Hfb];
    [lia|lia|]. exists fb. split; [done..| |done].
  intros a Ha Hr. destruct Hpl as ([[Ha1 Hs] [Ha2 He]] & _ & _).
  assert (Hin : a ∈ plan_pages maps).
  { unfold plan_pages. apply list_elem_of_In, in_concat.
    exists (pages_between (vr_start (sm_range m)) (vr_end (sm_range m))). split.
    - apply list_elem_of_In, list_elem_of_fmap. eauto.
    - apply list_elem_of_In, pages_between_complete; [done|done|]. split; [|lia].
      destruct (decide (vr_start (sm_range m) <= a)); [done|].
      assert (vr_start (sm_range m) = a) by (apply aligned_page_unique; [done|done|lia]). lia. }
  rewrite <- Hva in Hin. apply list_elem_of_fmap in Hin as (p & -> & Hp). eauto.
Qed.

(** C26: loading a program puts its bytes where they belong.  For any image the
    parser and planner accept, once the loader has mapped its pages onto distinct
    frames the writer can reach, population succeeds, and afterwards every byte
    of every page of every segment is the prescribed one: file data where the
    segment has it, zero in the BSS and in the padding before and after the
    segment, so no stale frame contents leak into the process. *)
Theorem populate_image_exact {W} `{LawfulWriter W mem reachable} {M} `{LawfulMapper M table}
    id bytes img plan (m m' : M) load (w : W) :
  Forall is_u8 bytes -> Z.of_nat (length bytes) <= U64_MAX ->
  ElfImage_parse bytes = Ok img ->
  LoadPlan_build (AddressSpaceSpec_new id) img = Ok plan ->
  map_load_plan m plan = (Ok load, m') ->
  (forall i j p q, lr_page load i = Some p -> lr_page load j = Some q -> i <> j ->
     mp_physical_address p + PAGE_SIZE_4K <= mp_physical_address q \/
     mp_physical_address q + PAGE_SIZE_4K <= mp_physical_address p) ->
  (forall i p, lr_page load i = Some p -> reachable w (mp_physical_address p)) ->
  exists w', populate_image w img load = (Ok tt, w') /\
    forall i s va, img_segment img i = Some s ->
      vr_start (seg_range s) - PAGE_SIZE_4K < va - va mod PAGE_SIZE_4K < vr_end (seg_range s) ->
      exists k p, lr_page load k = Some p /\ mp_virtual_address p = va - va mod PAGE_SIZE_4K /\
                  mem w' (mp_physical_address p + va mod PAGE_SIZE_4K) = seg_byte bytes s va.
Proof.
  intros Hu8 Hlen Hparse Hplan Hmap Hframes Hreach.
  pose proof (LoadPlan_build_spec id bytes img Hparse) as Hs. rewrite Hplan in Hs.
  destruct Hs as (segs & maps & st & Himg & Hok & _ & [_ _ Hpl Hdis _] & _ & ->).
  pose proof (ElfImage_parse_spec bytes) as Hp. rewrite Hparse in Hp.
  destruct Hp as (Hb & segs' & Ha' & Hc' & _).
  assert (Hcount : img_segment_count img = length segs).
  { assert (segs' = segs) as <-; [|done]. apply list_eq. intros i.
    by rewrite <- Himg, (img_segment_filled img segs' i Ha' Hc'). }
  pose proof (map_load_plan_spec m (img_entry img) maps (planned_plan_ok bytes segs maps Hok Hpl)) as Hl. rewrite Hmap in Hl.
  destruct Hl as (l & -> & Hi & Hle & Hva & _). destruct (installed_pages _ _ _ Hi) as [Hnd Hal].
  set (loaded := mkLoadResult _ _ _) in *.
  pose proof (lr_page_filled MAX_MAPPED_PAGES l (img_entry img)) as Hpage. fold loaded in Hpage.
  assert (Hlok : load_ok reachable l w).
  { split; [done|done| |].
    - intros p q [i Hpi]%list_elem_of_lookup [j Hqj]%list_elem_of_lookup Hne.
      apply (Hframes i j); rewrite ?Hpage; [done|done|congruence].
    - intros p [i Hpi]%list_elem_of_lookup. apply (Hreach i). by rewrite Hpage. }
  unfold populate_image. rewrite Hcount.
  destruct (populate_segments_spec (length segs) 0 w img segs l MAX_MAPPED_PAGES (img_entry img) [] segs)
    as (w' & Heq & _ & Hall & _); [done|done|done|done| | |done|done|by intros s p ?%elem_of_nil|].
  - intros s [i Hsi]%list_elem_of_lookup. destruct (Forall2_lookup_l _ _ _ _ _ Hpl Hsi) as (mm & Hmm & Hpm).
    rewrite Hb. eapply (segment_ready_from_plan bytes s mm l maps); try done.
    + by eapply Forall_lookup_1.
    + by eapply list_elem_of_lookup_2.
  - intros i j si sj p Hsi Hsj Hij Hpl' Hci Hcj.
    destruct (Forall2_lookup_l _ _ _ _ _ Hpl Hsi) as (mi & Hmi & Hpi).
    destruct (Forall2_lookup_l _ _ _ _ _ Hpl Hsj) as (mj & Hmj & Hpj).
    pose proof (covers_in_hull si mi p Hpi (Hal p Hpl') Hci) as Hx.
    pose proof (covers_in_hull sj mj p Hpj (Hal p Hpl') Hcj) as Hy.
    by rewrite (ranges_disjoint_spec _ _ _ (Hdis i j mi mj Hmi Hmj Hij) Hx) in Hy.
  - exists w'. split; [exact Heq|]. intros i s va Hsi Hr. rewrite Himg in Hsi.
    destruct (Forall2_lookup_l _ _ _ _ _ Hpl Hsi) as (mm & Hmm & Hpm).
    pose proof (Forall_lookup_1 _ _ _ _ Hok Hsi) as Hsok.
    destruct (segment_ready_from_plan bytes s mm l maps Hu8 Hlen Hsok Hpm) as [fb [_ _ _ _ Hcov _]];
      [by eapply list_elem_of_lookup_2|done|].
    destruct (Hcov (va - va mod PAGE_SIZE_4K)) as (p & Hp & Hvap); [apply aligned_floor|done|].
    apply list_elem_of_lookup in Hp as Hk. destruct Hk as [k Hk].
    exists k, p. rewrite Hpage. split; [done|]. split; [done|].
    pose proof (Z.mod_pos_bound va PAGE_SIZE_4K ltac:(done)) as Hmod.
    rewrite <- Hb. rewrite (Hall s p); [f_equal; lia|by eapply list_elem_of_lookup_2|done| |lia].
    destruct Hsok as [_ Hne Hml _ _ _]. unfold vr_len in Hml. split; [lia|].
    rewrite Z.add_0_r. rewrite Hvap. done.
Qed.

Definition demo_writer : X86ImagePageWriter := mkX86Writer (mkMapping 1048576) (fun a => a mod 200).

(** Frames of a small load, checked pairwise. *)
Definition frames_apart (pages : list MappedPage) : bool :=
  forallb (fun i => forallb (fun j =>
    match pages !! i, pages !! j with
    | Some p, Some q => bool_decide (i = j) ||
        (mp_physical_address p + PAGE_SIZE_4K <=? mp_physical_address q) ||
        (mp_physical_address q + PAGE_SIZE_4K <=? mp_physical_address p)
    | _, _ => true
    end) (seq 0 (length pages))) (seq 0 (length pages)).

Lemma frames_apart_spec pages i j p q :
  frames_apart pages = true -> pages !! i = Some p -> pages !! j = Some q -> i <> j ->
  mp_physical_address p + PAGE_SIZE_4K <= mp_physical_address q \/
  mp_physical_address q + PAGE_SIZE_4K <= mp_physical_address p.
Proof.
  intros Hf Hi Hj Hij. unfold frames_apart in Hf. rewrite forallb_forall in Hf.
  assert (Hii : In i (seq 0 (length pages))) by (apply in_seq; apply lookup_lt_Some in Hi; lia).
  assert (Hjj : In j (seq 0 (length pages))) by (apply in_seq; apply lookup_lt_Some in Hj; lia).
  specialize (Hf i Hii). rewrite forallb_forall in Hf. specialize (Hf j Hjj). rewrite Hi, Hj in Hf.
  rewrite bool_decide_false in Hf by done. cbn [orb] in Hf. apply orb_true_iff in Hf as [Hf|Hf]; to_prop; [left|right]; done.
Qed.

Definition demo_loaded : option (ElfImage * LoadPlan * LoadResult * MapTable) :=
  match ElfImage_parse demo_bytes with
  | Ok img =>
      match LoadPlan_build demo_spec img with
      | Ok plan =>
          match map_load_plan (demo_table 32) plan with
          | (Ok load, m) => Some (img, plan, load, m)
          | _ => None
          end
      | _ => None
      end
  | _ => None
  end.

Definition demo_pages : list MappedPage :=
  [mkMapped USER_IMAGE_BASE 4096; mkMapped (USER_IMAGE_BASE + 8192) 8192].

Lemma populate_image_exact_witness :
  match demo_loaded with
  | Some (img, _, load, _) =>
      exists w', populate_image demo_writer img load = (Ok tt, w') /\
        exists k p, lr_page load k = Some p /\
          xw_mem w' (mp_physical_address p + 3) = seg_byte demo_bytes (mkSegment
            (mkVirtRange (USER_IMAGE_BASE + 8192) (USER_IMAGE_BASE + 8256)) 6 208 8 64)
            (USER_IMAGE_BASE + 8195)
  | None => False
  end.
Proof.
  destruct demo_loaded as [[[[img plan] load] m']|] eqn:Hd; [|vm_compute in Hd; discriminate].
  unfold demo_loaded in Hd.
  destruct (ElfImage_parse demo_bytes) as [img0|e|] eqn:Hparse; [|discriminate..].
  destruct (LoadPlan_build demo_spec img0) as [plan0|e|] eqn:Hplan; [|discriminate..].
  destruct (map_load_plan (demo_table 32) plan0) as [[load0|e|] m0] eqn:Hload; [|discriminate..].
  injection Hd as <- <- <- <-.
  assert (Hl : load0 = mkLoadResult (length demo_pages) (USER_IMAGE_BASE + 16) (filled 128 demo_pages)).
  { clear -Hparse Hplan Hload. vm_compute in Hparse. injection Hparse as <-.
    vm_compute in Hplan. injection Hplan as <-. vm_compute in Hload. injection Hload as <- _.
    vm_compute. reflexivity. }
  assert (Hseg : img_segment img0 1 = Some (mkSegment
            (mkVirtRange (USER_IMAGE_BASE + 8192) (USER_IMAGE_BASE + 8256)) 6 208 8 64)).
  { clear -Hparse. vm_compute in Hparse. injection Hparse as <-. vm_compute. reflexivity. }
  destruct (populate_image_exact (mem := xw_mem) (reachable := xw_reachable) (table := mt_table)
              (mkAsId 1) demo_bytes img0 plan0 (demo_table 32) m0 load0 demo_writer)
    as (w' & Heq & Hall).
  - apply (bool_decide_unpack (Forall (fun x => 0 <= x <= 255) demo_bytes)). vm_compute. exact I.
  - vm_compute. discriminate.
  - exact Hparse.
  - exact Hplan.
  - exact Hload.
  - intros i j p q Hi Hj. rewrite Hl, lr_page_filled in Hi, Hj.
    apply (frames_apart_spec demo_pages i j p q); [vm_compute; reflexivity|exact Hi|exact Hj].
  - intros i p Hi. rewrite Hl, lr_page_filled in Hi.
    destruct i as [|[|i]]; simpl in Hi; [..|discriminate]; injection Hi as <-;
      (split; [|split]; vm_compute; discriminate).
  - exists w'. split; [exact Heq|].
    destruct (Hall 1%nat _ (USER_IMAGE_BASE + 8195) Hseg) as (k & p & Hp & _ & Hm).
    { split; vm_compute; reflexivity. }
    exists k, p. split; [exact Hp|exact Hm].
Defined.
