(* ===== verification/Process.v ===== *)
(** * Processes

    [kernel/src/process/identity.rs], [state.rs], [manager.rs] and
    [user_launch.rs]: process identities and bindings, the bounded registry of
    processes with generations, exit codes and explicit reaping, and the launch
    plan of a populated image. *)

From stdpp Require Import base numbers sets relations list options.
From S2P Require Import Prelude Tasks Memory Elf LoadPlan Loader AddressSpaceBuilder Populate.

Local Open Scope Z_scope.
Local Open Scope rust_scope.

(** ** Launch plans ([user_launch.rs]) *)
Inductive UserLaunchError :=
| EntryOutsideImage
| LaunchEntryNotExecutable
| StackOutsideImage
| LaunchStackNotWritable
| LaunchStackExecutable.

Record UserLaunchPlan := mkLaunchPlan {
  ulp_address_space : AddressSpaceId;
  ulp_entry : Z;
  ulp_stack_pointer : Z;
}.

Definition stack_page_contains (page : MappedStackPage) (stack_pointer : Z) : bool :=
  let start := page_start (msp_virtual_page page) in
  let end_ := default U64_MAX (page_end_address (msp_virtual_page page)) in
  (start <? stack_pointer) && (stack_pointer <=? end_) && (end_ - start =? PAGE_SIZE_4K).

Definition UserLaunchPlan_from_populated (built : BuiltAddressSpace) : result UserLaunchError UserLaunchPlan :=
  let context := pi_context (bas_image built) in
  let entry := ctx_entry context in
  if negb (lr_contains_page (bas_load built) entry) then Err EntryOutsideImage else
  if negb (bas_entry_executable built) then Err LaunchEntryNotExecutable else
  let stack_pointer := ctx_stack_pointer context in
  let stack_ok :=
    negb (stack_pointer =? 0) &&
    existsb (fun index =>
               match bas_stack_page built index with
               | Some page => stack_page_contains page stack_pointer
               | None => false
               end) (seq 0 (bas_stack_count built)) in
  if negb stack_ok then Err StackOutsideImage else
  if negb (bas_stack_writable built) then Err LaunchStackNotWritable else
  if bas_stack_executable built then Err LaunchStackExecutable else
  Ok (mkLaunchPlan (spec_id (pi_address_space (bas_image built))) entry stack_pointer).

(** ** Identities and bindings ([identity.rs]) *)
Record ProcessId := mkProcessId { pid_index : Z; pid_generation : Z }.

Global Instance ProcessId_eq_dec : EqDecision ProcessId.
Proof. solve_decision. Defined.

Record ProcessExecutionBinding := mkBinding {
  peb_process : ProcessId;
  peb_task : TaskId;
  peb_execution : ExecutionHandle;
  peb_address_space : AddressSpaceId;
}.

Definition ProcessExecutionBinding_new (process : ProcessId) (task : TaskId)
    (execution : ExecutionHandle) (address_space : AddressSpaceId) : option ProcessExecutionBinding :=
  let execution_task := handle_task_id execution in
  if negb (task_index execution_task =? task_index task)
     || negb (task_generation execution_task =? task_generation task)
  then None
  else Some (mkBinding process task execution address_space).

(** ** Typed lifecycle ([state.rs]) *)
Inductive ProcessState := Constructing | ProcReady | ProcRunning | ProcExited.

Global Instance ProcessState_eq_dec : EqDecision ProcessState.
Proof. solve_decision. Defined.

Record ReadyProcess := mkReadyProcess { rp_image : ProcessImage; rp_state : ProcessState }.
Record RunningProcess := mkRunningProcess { run_image : ProcessImage; run_state : ProcessState }.
Record ExitedProcess := mkExitedProcess { ex_image : ProcessImage; ex_state : ProcessState }.
Inductive ProcessTransitionError := ProcInvalidTransition.

Definition ReadyProcess_from_image (image : ProcessImage) : ReadyProcess := mkReadyProcess image ProcReady.
Definition ready_start (p : ReadyProcess) : result ProcessTransitionError RunningProcess :=
  if negb (bool_decide (rp_state p = ProcReady)) then Err ProcInvalidTransition
  else Ok (mkRunningProcess (rp_image p) ProcRunning).
Definition running_exit (p : RunningProcess) : ExitedProcess := mkExitedProcess (run_image p) ProcExited.

(** ** The registry ([manager.rs]) *)
Definition MAX_PROCESSES : nat := 256.

Inductive ProcessManagerError :=
| Full
| InvalidProcess
| InvalidTransition
| GenerationExhausted
| AlreadyBound
| BindingMismatch.

Global Instance ProcessManagerError_eq_dec : EqDecision ProcessManagerError.
Proof. solve_decision. Defined.

Record Slot := mkSlot {
  sl_generation : Z;
  sl_image : option ProcessImage;
  sl_state : option ProcessState;
  sl_binding : option ProcessExecutionBinding;
  sl_exit_code : option Z;
}.

Definition Slot_EMPTY : Slot := mkSlot 0 None None None None.
(** [Slot { generation, ..Slot::EMPTY }] *)
Definition Slot_cleared (generation : Z) : Slot := mkSlot generation None None None None.

Record SpawnedProcess := mkSpawned { sp_id : ProcessId; sp_binding : ProcessExecutionBinding }.

Record ReapedProcess := mkReaped {
  rd_id : ProcessId;
  rd_image : ProcessImage;
  rd_binding : option ProcessExecutionBinding;
  rd_exit_code : Z;
}.

Record ProcessManager := mkManager { pm_slots : list Slot; pm_next_hint : nat }.

Definition ProcessManager_new : ProcessManager := mkManager (replicate MAX_PROCESSES Slot_EMPTY) 0.

Definition pid_slot (id : ProcessId) : nat := Z.to_nat (pid_index id).

(** [slot] and [slot_mut]: the slot of a live identifier. *)
Definition pm_slot (m : ProcessManager) (id : ProcessId) : result ProcessManagerError Slot :=
  match pm_slots m !! pid_slot id with
  | None => Err InvalidProcess
  | Some slot =>
      if negb (sl_generation slot =? pid_generation id) || bool_decide (sl_state slot = None)
      then Err InvalidProcess else Ok slot
  end.

Definition put_slot (m : ProcessManager) (id : ProcessId) (slot : Slot) : ProcessManager :=
  mkManager (<[pid_slot id := slot]> (pm_slots m)) (pm_next_hint m).

(** [for offset in 0..MAX_PROCESSES], with [n] offsets left. *)
Fixpoint register_loop (n : nat) (offset : nat) (m : ProcessManager) (image : ProcessImage)
  : result ProcessManagerError ProcessId * ProcessManager :=
  match n with
  | O => (Err Full, m)
  | S n =>
      let index := ((pm_next_hint m + offset) mod MAX_PROCESSES)%nat in
      match pm_slots m !! index with
      | None => (Panic, m)
      | Some slot =>
          if bool_decide (sl_state slot <> None) then register_loop n (S offset) m image else
          match checked_add_u32 (sl_generation slot) 1 with
          | None => (Err GenerationExhausted, m)
          | Some generation =>
              let id := mkProcessId (as_u32 (Z.of_nat index)) generation in
              (Ok id, mkManager (<[index := mkSlot generation (Some image) (Some ProcReady) None None]> (pm_slots m))
                                ((index + 1) mod MAX_PROCESSES)%nat)
          end
      end
  end.

Definition register_ready (m : ProcessManager) (image : ProcessImage)
  : result ProcessManagerError ProcessId * ProcessManager :=
  register_loop MAX_PROCESSES 0 m image.

Definition pm_state (m : ProcessManager) (id : ProcessId) : result ProcessManagerError ProcessState :=
  let? slot := pm_slot m id in ok_or (sl_state slot) InvalidProcess.
Definition pm_image (m : ProcessManager) (id : ProcessId) : result ProcessManagerError ProcessImage :=
  let? slot := pm_slot m id in ok_or (sl_image slot) InvalidProcess.
Definition pm_binding (m : ProcessManager) (id : ProcessId)
  : result ProcessManagerError (option ProcessExecutionBinding) :=
  let? slot := pm_slot m id in Ok (sl_binding slot).
Definition pm_exit_code (m : ProcessManager) (id : ProcessId) : result ProcessManagerError (option Z) :=
  let? slot := pm_slot m id in Ok (sl_exit_code slot).
Definition pm_contains (m : ProcessManager) (id : ProcessId) : bool := is_ok (pm_slot m id).

Definition pm_attach_execution (m : ProcessManager) (id : ProcessId) (task : TaskId)
    (execution : ExecutionHandle) (address_space : AddressSpaceId)
  : result ProcessManagerError ProcessExecutionBinding * ProcessManager :=
  match pm_slot m id with
  | Err e => (Err e, m)
  | Panic => (Panic, m)
  | Ok slot =>
      if bool_decide (sl_binding slot <> None) then (Err AlreadyBound, m) else
      match sl_image slot with
      | None => (Err InvalidProcess, m)
      | Some image =>
          if negb (bool_decide (spec_id (pi_address_space image) = address_space))
          then (Err BindingMismatch, m) else
          match ProcessExecutionBinding_new id task execution address_space with
          | None => (Err BindingMismatch, m)
          | Some binding =>
              (Ok binding, put_slot m id (mkSlot (sl_generation slot) (sl_image slot) (sl_state slot)
                                            (Some binding) (sl_exit_code slot)))
          end
      end
  end.

Definition remove_registered (m : ProcessManager) (id : ProcessId)
  : result ProcessManagerError unit * ProcessManager :=
  match pm_slot m id with
  | Err e => (Err e, m)
  | Panic => (Panic, m)
  | Ok slot => (Ok tt, put_slot m id (Slot_cleared (sl_generation slot)))
  end.

Definition spawn_ready (m : ProcessManager) (image : ProcessImage) (task : TaskId)
    (execution : ExecutionHandle) (address_space : AddressSpaceId)
  : result ProcessManagerError SpawnedProcess * ProcessManager :=
  let! id , m := register_ready m image in
  match pm_attach_execution m id task execution address_space with
  | (Ok binding, m) => (Ok (mkSpawned id binding), m)
  | (Err error, m) => (Err error, (remove_registered m id).2)
  | (Panic, m) => (Panic, m)
  end.

Definition with_pstate (slot : Slot) (st : ProcessState) : Slot :=
  mkSlot (sl_generation slot) (sl_image slot) (Some st) (sl_binding slot) (sl_exit_code slot).

Definition pm_start (m : ProcessManager) (id : ProcessId) : result ProcessManagerError unit * ProcessManager :=
  match pm_slot m id with
  | Err e => (Err e, m)
  | Panic => (Panic, m)
  | Ok slot =>
      if negb (bool_decide (sl_state slot = Some ProcReady)) then (Err InvalidTransition, m) else
      if bool_decide (sl_binding slot = None) then (Err BindingMismatch, m) else
      (Ok tt, put_slot m id (with_pstate slot ProcRunning))
  end.

Definition yield_to (m : ProcessManager) (current successor : ProcessId)
  : result ProcessManagerError unit * ProcessManager :=
  if bool_decide (current = successor) then (Err InvalidTransition, m) else
  match pm_state m current, pm_state m successor with
  | Err e, _ => (Err e, m)
  | Panic, _ => (Panic, m)
  | Ok _, Err e => (Err e, m)
  | Ok _, Panic => (Panic, m)
  | Ok current_state, Ok successor_state =>
      if negb (bool_decide (current_state = ProcRunning)) || negb (bool_decide (successor_state = ProcReady))
      then (Err InvalidTransition, m) else
      match pm_slot m current, pm_slot m successor with
      | Ok cs, Ok ss =>
          if bool_decide (sl_binding cs = None) || bool_decide (sl_binding ss = None)
          then (Err BindingMismatch, m) else
          let m := put_slot m current (with_pstate cs ProcReady) in
          match pm_slots m !! pid_slot successor with
          | None => (Panic, m)
          | Some ss =>
              if negb (bool_decide (sl_state ss = Some ProcReady))
              then (Err InvalidTransition, put_slot m current (with_pstate cs ProcRunning))
              else (Ok tt, put_slot m successor (with_pstate ss ProcRunning))
          end
      | Err e, _ | _, Err e => (Err e, m)
      | _, _ => (Panic, m)
      end
  end.

Definition request_exit (m : ProcessManager) (id : ProcessId) (code : Z)
  : result ProcessManagerError unit * ProcessManager :=
  match pm_slot m id with
  | Err e => (Err e, m)
  | Panic => (Panic, m)
  | Ok slot =>
      if negb (bool_decide (sl_state slot = Some ProcReady) || bool_decide (sl_state slot = Some ProcRunning))
      then (Err InvalidTransition, m)
      else (Ok tt, put_slot m id (mkSlot (sl_generation slot) (sl_image slot) (Some ProcExited)
                                    (sl_binding slot) (Some code)))
  end.

Definition pm_exit (m : ProcessManager) (id : ProcessId) : result ProcessManagerError unit * ProcessManager :=
  request_exit m id 0.

Definition reap (m : ProcessManager) (id : ProcessId)
  : result ProcessManagerError ReapedProcess * ProcessManager :=
  match pm_slot m id with
  | Err e => (Err e, m)
  | Panic => (Panic, m)
  | Ok slot =>
      if negb (bool_decide (sl_state slot = Some ProcExited)) then (Err InvalidTransition, m) else
      match sl_image slot, sl_exit_code slot with
      | Some image, Some exit_code =>
          (Ok (mkReaped id image (sl_binding slot) exit_code),
           mkManager (<[pid_slot id := Slot_cleared (sl_generation slot)]> (pm_slots m)) (pid_slot id))
      | _, _ => (Err InvalidProcess, m)
      end
  end.

Definition abort_ready (m : ProcessManager) (id : ProcessId)
  : result ProcessManagerError unit * ProcessManager :=
  match pm_slot m id with
  | Err e => (Err e, m)
  | Panic => (Panic, m)
  | Ok slot =>
      if negb (bool_decide (sl_state slot = Some ProcReady)) then (Err InvalidTransition, m)
      else remove_registered m id
  end.
