(* ===== verification/ProcessInv.v ===== *)
(** * Invariants of the process registry

    The registry of [Process] as a transition system: its well-formedness, fresh
    identifiers that never come back, atomic yields, exact exit codes and reaping
    exactly once. *)

From stdpp Require Import base numbers sets relations list options.
From S2P Require Import Prelude Tasks Memory Elf LoadPlan AddressSpaceBuilder Process.

Local Open Scope Z_scope.

Lemma pm_slot_Ok m id slot :
  pm_slot m id = Ok slot <->
  pm_slots m !! pid_slot id = Some slot /\ sl_generation slot = pid_generation id /\ sl_state slot <> None.
Proof.
  unfold pm_slot. destruct (pm_slots m !! pid_slot id) as [s|]; [|split; [done|by intros [? _]]].
  destruct (_ || _) eqn:Hb.
  - split; [done|]. intros ([= ->] & Hg & Hs). exfalso. apply orb_true_iff in Hb as [Hb|Hb]; to_prop; done.
  - to_prop. split; [intros [= ->]; done|]. by intros ([= ->] & _).
Qed.

Lemma pm_slot_cases m id :
  (exists slot, pm_slot m id = Ok slot) \/ pm_slot m id = Err InvalidProcess.
Proof. unfold pm_slot. repeat case_match; eauto. Qed.

(** ** Well-formedness *)
Record slot_wf (i : nat) (s : Slot) : Prop := mk_slot_wf {
  sw_gen : 0 <= sl_generation s <= U32_MAX;
  sw_empty : sl_state s = None -> sl_image s = None /\ sl_binding s = None /\ sl_exit_code s = None;
  sw_live : sl_state s <> None -> is_Some (sl_image s) /\ 1 <= sl_generation s;
  sw_binding : forall b, sl_binding s = Some b ->
    peb_process b = mkProcessId (Z.of_nat i) (sl_generation s) /\
    handle_task_id (peb_execution b) = peb_task b /\
    exists image, sl_image s = Some image /\ peb_address_space b = spec_id (pi_address_space image);
  sw_running : sl_state s = Some ProcRunning -> sl_binding s <> None;
  sw_exit : sl_state s = Some ProcExited <-> is_Some (sl_exit_code s);
  sw_constructing : sl_state s <> Some Constructing;
}.

Record pm_wf (m : ProcessManager) : Prop := mk_pm_wf {
  pw_len : length (pm_slots m) = MAX_PROCESSES;
  pw_hint : (pm_next_hint m < MAX_PROCESSES)%nat;
  pw_slot : forall i s, pm_slots m !! i = Some s -> slot_wf i s;
}.

Lemma Slot_cleared_wf i g : 0 <= g <= U32_MAX -> slot_wf i (Slot_cleared g).
Proof.
  intros Hg. split; simpl; try done.
Qed.

Lemma ProcessManager_new_wf : pm_wf ProcessManager_new.
Proof.
  split; [done|cbn; unfold MAX_PROCESSES; lia|].
  intros i s [-> _]%lookup_replicate. apply (Slot_cleared_wf i 0). ulia.
Qed.

(** ** Registration *)
Definition fresh_slot (generation : Z) (image : ProcessImage) : Slot :=
  mkSlot generation (Some image) (Some ProcReady) None None.

Lemma fresh_process_slot_wf i g image : 1 <= g <= U32_MAX -> slot_wf i (fresh_slot g image).
Proof. intros Hg. split; simpl; try done; [lia|]. intros _. split; [eauto|lia]. Qed.

Lemma register_loop_spec n offset m image :
  pm_wf m ->
  match register_loop n offset m image with
  | (Ok id, m') => exists index slot,
      (index < MAX_PROCESSES)%nat /\ pm_slots m !! index = Some slot /\ sl_state slot = None /\
      sl_generation slot < U32_MAX /\ id = mkProcessId (Z.of_nat index) (sl_generation slot + 1) /\
      m' = mkManager (<[index := fresh_slot (sl_generation slot + 1) image]> (pm_slots m))
                     ((index + 1) mod MAX_PROCESSES)
  | (Err e, m') => m' = m /\
      (e = Full /\ (forall k s, (offset <= k < offset + n)%nat ->
          pm_slots m !! ((pm_next_hint m + k) mod MAX_PROCESSES)%nat = Some s -> sl_state s <> None) \/
       e = GenerationExhausted /\ exists index slot, pm_slots m !! index = Some slot /\
          sl_state slot = None /\ sl_generation slot = U32_MAX)
  | (Panic, _) => False
  end.
Proof.
  intros Hw. revert offset. induction n as [|n IH]; intros offset; cbn [register_loop].
  { split; [done|]. left. split; [done|]. lia. }
  set (index := ((pm_next_hint m + offset) mod MAX_PROCESSES)%nat).
  assert (Hidx : (index < MAX_PROCESSES)%nat) by (apply Nat.mod_upper_bound; done).
  destruct (lookup_lt_is_Some_2 (pm_slots m) index) as [slot Hs]; [by rewrite (pw_len m Hw)|].
  rewrite Hs. pose proof (pw_slot m Hw index slot Hs) as Hsw. case_bool_decide as Hst.
  - specialize (IH (S offset)). destruct (register_loop n (S offset) m image) as [[id|e|] m']; [done| |done].
    destruct IH as [-> IH]. split; [done|]. destruct IH as [[-> Hall]|?]; [left|by right]. split; [done|].
    intros k s Hk Hks. destruct (decide (k = offset)) as [->|Hne]; [fold index in Hks; congruence|].
    apply (Hall k); [lia|done].
  - assert (Hnone : sl_state slot = None) by (destruct (sl_state slot); [by destruct Hst|done]).
    destruct (checked_add_u32 (sl_generation slot) 1) as [g|] eqn:Hg.
    + apply checked_add_u32_Some in Hg as [-> Hg]. exists index, slot.
      split_and!; [done|done|done|lia| |done]. rewrite as_u32_id; [done|]. unfold MAX_PROCESSES in *. ulia.
    + split; [done|]. right. split; [done|]. exists index, slot. split_and!; [done|done|].
      unfold checked_add_u32 in Hg. case_if; [done|]. to_prop. pose proof (sw_gen _ _ Hsw). lia.
Qed.

Lemma register_ready_spec m image :
  pm_wf m ->
  match register_ready m image with
  | (Ok id, m') => exists index slot,
      (index < MAX_PROCESSES)%nat /\ pm_slots m !! index = Some slot /\ sl_state slot = None /\
      sl_generation slot < U32_MAX /\ id = mkProcessId (Z.of_nat index) (sl_generation slot + 1) /\
      m' = mkManager (<[index := fresh_slot (sl_generation slot + 1) image]> (pm_slots m))
                     ((index + 1) mod MAX_PROCESSES)
  | (Err e, m') => m' = m /\
      (e = Full /\ (forall i s, pm_slots m !! i = Some s -> sl_state s <> None) \/
       e = GenerationExhausted /\ exists index slot, pm_slots m !! index = Some slot /\
          sl_state slot = None /\ sl_generation slot = U32_MAX)
  | (Panic, _) => False
  end.
Proof.
  intros Hw. pose proof (register_loop_spec MAX_PROCESSES 0 m image Hw) as Hr. unfold register_ready.
  destruct (register_loop _ _ _ _) as [[id|e|] m']; [done| |done].
  destruct Hr as [-> [[-> Hall]|?]]; split; [done|left|done|by right]. split; [done|].
  intros i s Hi. pose proof (lookup_lt_Some _ _ _ Hi) as Hlt. rewrite (pw_len m Hw) in Hlt.
  pose proof (pw_hint m Hw) as Hh.
  set (k := if bool_decide (pm_next_hint m <= i)%nat then (i - pm_next_hint m)%nat
            else (i + MAX_PROCESSES - pm_next_hint m)%nat).
  apply (Hall k s).
  - unfold k. case_bool_decide; lia.
  - replace ((pm_next_hint m + k) mod MAX_PROCESSES)%nat with i; [done|]. unfold k. case_bool_decide.
    + replace (pm_next_hint m + (i - pm_next_hint m))%nat with i by lia. by rewrite Nat.mod_small.
    + replace (pm_next_hint m + (i + MAX_PROCESSES - pm_next_hint m))%nat
        with (i + 1 * MAX_PROCESSES)%nat by lia.
      rewrite Nat.Div0.mod_add. by rewrite Nat.mod_small.
Qed.

(** ** Steps *)
Record psound (m m' : ProcessManager) : Prop := mk_psound {
  ps_wf : pm_wf m';
  ps_gens : forall i s, pm_slots m !! i = Some s ->
    exists s', pm_slots m' !! i = Some s' /\ sl_generation s <= sl_generation s';
  ps_fresh : forall id s, pm_contains m id = false -> pm_contains m' id = true ->
    pm_slots m !! pid_slot id = Some s -> sl_generation s < pid_generation id;
}.

Lemma psound_refl m : pm_wf m -> psound m m.
Proof. intros Hw. split; [done| |congruence]. intros i s Hi. exists s. split; [done|lia]. Qed.

Lemma pm_contains_true m id : pm_contains m id = true <-> exists s, pm_slot m id = Ok s.
Proof. unfold pm_contains. destruct (pm_slot_cases m id) as [[s ->]| ->]; simpl; naive_solver. Qed.

Lemma psound_trans m1 m2 m3 : psound m1 m2 -> psound m2 m3 -> psound m1 m3.
Proof.
  intros [W2 G2 F2] [W3 G3 F3]. split; [done|..].
  - intros i s Hi. destruct (G2 i s Hi) as (s2 & Hs2 & ?). destruct (G3 i s2 Hs2) as (s3 & ? & ?).
    exists s3. split; [done|lia].
  - intros id s Hn Hc Hs. destruct (G2 _ _ Hs) as (s2 & Hs2 & ?).
    destruct (pm_contains m2 id) eqn:Hm2; [by apply (F2 id s)|].
    pose proof (F3 id s2 Hm2 Hc Hs2). lia.
Qed.

(** Updating the slot of a live process without touching its generation. *)
Lemma psound_update m id slot slot' hint :
  pm_wf m -> pm_slot m id = Ok slot -> sl_generation slot' = sl_generation slot ->
  slot_wf (pid_slot id) slot' -> (hint < MAX_PROCESSES)%nat ->
  psound m (mkManager (<[pid_slot id := slot']> (pm_slots m)) hint).
Proof.
  intros [Hlen Hh Hs] Hid Hg Hw' Hhint. apply pm_slot_Ok in Hid as (Hl & Hgid & Hst).
  assert (Hlt := lookup_lt_Some _ _ _ Hl). split; [split; cbn [pm_slots pm_next_hint]|..].
  - by rewrite length_insert.
  - done.
  - intros i s Hi. apply list_lookup_insert_Some in Hi as [(<- & <- & _)|[_ Hi]]; [done|auto].
  - intros i s Hi. simpl. destruct (decide (i = pid_slot id)) as [->|Hne].
    + exists slot'. rewrite list_lookup_insert_eq by done. split; [done|]. simplify_eq. lia.
    + exists s. rewrite list_lookup_insert_ne by done. split; [done|lia].
  - intros id' s Hn Hc Hs'. exfalso. apply not_true_iff_false in Hn. apply Hn. apply pm_contains_true.
    apply pm_contains_true in Hc as [s' (Hs'' & Hg' & Hst')%pm_slot_Ok]. simpl in Hs''.
    destruct (decide (pid_slot id' = pid_slot id)) as [He|Hne].
    + rewrite He, list_lookup_insert_eq in Hs'' by done. injection Hs'' as <-.
      exists slot. apply pm_slot_Ok. rewrite He. split_and!; [done|congruence|done].
    + rewrite list_lookup_insert_ne in Hs'' by done. exists s'. by apply pm_slot_Ok.
Qed.

Lemma psound_register m image : pm_wf m -> psound m (register_ready m image).2.
Proof.
  intros Hw. pose proof (register_ready_spec m image Hw) as Hr.
  destruct (register_ready m image) as [[id|e|] m']; [|destruct Hr as [-> _]; by apply psound_refl|done].
  destruct Hr as (index & slot & Hidx & Hs & Hst & Hg & -> & ->). cbn [snd].
  pose proof (pw_slot m Hw _ _ Hs) as Hsw. pose proof (sw_gen _ _ Hsw) as Hgr.
  assert (Hlt := lookup_lt_Some _ _ _ Hs). split; [split; cbn [pm_slots pm_next_hint]|..].
  - rewrite length_insert. apply Hw.
  - by apply Nat.mod_upper_bound.
  - intros i s Hi. apply list_lookup_insert_Some in Hi as [(<- & <- & _)|[_ Hi]]; [|by apply Hw].
    apply fresh_process_slot_wf. lia.
  - intros i s Hi. simpl. destruct (decide (i = index)) as [->|Hne].
    + eexists. rewrite list_lookup_insert_eq by done. split; [done|]. simplify_eq/=. lia.
    + exists s. rewrite list_lookup_insert_ne by done. split; [done|lia].
  - intros id' s Hn Hc Hs'. apply pm_contains_true in Hc as [s' (Hs'' & Hg' & Hst')%pm_slot_Ok].
    simpl in Hs''. destruct (decide (pid_slot id' = index)) as [He|Hne].
    + rewrite He, list_lookup_insert_eq in Hs'' by (by rewrite He in *). injection Hs'' as <-.
      simplify_eq/=. lia.
    + exfalso. rewrite list_lookup_insert_ne in Hs'' by done. apply not_true_iff_false in Hn. apply Hn.
      apply pm_contains_true. exists s'. by apply pm_slot_Ok.
Qed.

Definition pid_ok (id : ProcessId) : Prop := 0 <= pid_index id.

Lemma live_slot_wf m id slot :
  pm_wf m -> pm_slot m id = Ok slot -> slot_wf (pid_slot id) slot.
Proof. intros Hw (Hl & _ & _)%pm_slot_Ok. by apply Hw. Qed.

Lemma psound_put m id slot slot' :
  pm_wf m -> pm_slot m id = Ok slot -> sl_generation slot' = sl_generation slot ->
  slot_wf (pid_slot id) slot' -> psound m (put_slot m id slot').
Proof. intros Hw. intros. eapply psound_update; eauto. apply Hw. Qed.

Lemma binding_new_spec id task execution space b :
  ProcessExecutionBinding_new id task execution space = Some b ->
  b = mkBinding id task execution space /\ handle_task_id execution = task.
Proof.
  unfold ProcessExecutionBinding_new. destruct (_ || _) eqn:Hb; [done|]. to_prop. intros [= <-].
  split; [done|]. destruct (handle_task_id execution), task. simpl in *. by subst.
Qed.

(** Attaching an execution: refused without a change, or recorded. *)
Lemma attach_cases m id task execution space :
  match pm_attach_execution m id task execution space with
  | (Ok b, m') => exists slot image,
      pm_slot m id = Ok slot /\ sl_binding slot = None /\ sl_image slot = Some image /\
      spec_id (pi_address_space image) = space /\ handle_task_id execution = task /\
      b = mkBinding id task execution space /\
      m' = put_slot m id (mkSlot (sl_generation slot) (sl_image slot) (sl_state slot) (Some b) (sl_exit_code slot))
  | (Err _, m') => m' = m
  | (Panic, _) => False
  end.
Proof.
  unfold pm_attach_execution. destruct (pm_slot_cases m id) as [[slot Hs]| ->]; [rewrite Hs|done].
  case_bool_decide as Hb; [done|]. destruct (sl_image slot) as [image|] eqn:Hi; [|done].
  case_bool_decide as Hsp; cbn [negb]; [|done].
  destruct (ProcessExecutionBinding_new _ _ _ _) as [b|] eqn:Hn; [|done].
  apply binding_new_spec in Hn as [-> Ht]. exists slot, image.
  split_and!; try done. by rewrite Hi.
Qed.

Lemma psound_attach m id task execution space :
  pm_wf m -> pid_ok id -> psound m (pm_attach_execution m id task execution space).2.
Proof.
  intros Hw Hid. pose proof (attach_cases m id task execution space) as Hc.
  destruct (pm_attach_execution _ _ _ _ _) as [[b|e|] m']; [|subst; by apply psound_refl|done].
  destruct Hc as (slot & image & Hs & Hb & Hi & Hsp & Ht & -> & ->).
  pose proof (live_slot_wf m id slot Hw Hs) as [G E L B R X C].
  pose proof Hs as (_ & Hg & Hst)%pm_slot_Ok.
  eapply psound_put; [done|done|done|]. split; simpl; try done.
  intros b' [= <-]. simpl. rewrite Hi. split_and!; [|done|eauto].
  unfold pid_slot, pid_ok in *. rewrite Z2Nat.id by done. rewrite Hg. by destruct id.
Qed.

Lemma psound_remove m id : pm_wf m -> psound m (remove_registered m id).2.
Proof.
  intros Hw. unfold remove_registered. destruct (pm_slot_cases m id) as [[slot Hs]| ->];
    [rewrite Hs|by apply psound_refl].
  eapply psound_put; [done|done|done|]. apply Slot_cleared_wf. apply (live_slot_wf m id slot Hw Hs).
Qed.

Lemma psound_spawn m image task execution space :
  pm_wf m -> psound m (spawn_ready m image task execution space).2.
Proof.
  intros Hw. unfold spawn_ready. pose proof (psound_register m image Hw) as Hr.
  pose proof (register_ready_spec m image Hw) as Hs.
  destruct (register_ready m image) as [[id|e|] m1]; [|done..]. cbn [snd] in Hr.
  destruct Hs as (index & slot & _ & _ & _ & _ & -> & _).
  pose proof (psound_attach m1 (mkProcessId (Z.of_nat index) (sl_generation slot + 1)) task execution space
                (ps_wf _ _ Hr) ltac:(unfold pid_ok; simpl; lia)) as Ha.
  destruct (pm_attach_execution _ _ _ _ _) as [[b|e|] m2]; cbn [snd] in *; eauto using psound_trans.
  eapply psound_trans; [exact Hr|]. eapply psound_trans; [exact Ha|]. apply psound_remove, Ha.
Qed.

(** A state change between live states of a bound process. *)
Lemma with_pstate_wf i s st :
  slot_wf i s -> sl_state s <> None -> sl_state s <> Some ProcExited ->
  (st = ProcReady \/ st = ProcRunning) -> (st = ProcRunning -> sl_binding s <> None) ->
  slot_wf i (with_pstate s st).
Proof.
  intros [G E L B R X C] Hne Hnx Hst Hb. split; simpl; try done.
  - intros _. auto.
  - intros [= ->]. auto.
  - rewrite <- X. split; [|done]. intros [= ->]. by destruct Hst.
  - by destruct Hst as [-> | ->].
Qed.

Lemma start_cases m id :
  match pm_start m id with
  | (Ok _, m') => exists slot, pm_slot m id = Ok slot /\ sl_state slot = Some ProcReady /\
                  sl_binding slot <> None /\ m' = put_slot m id (with_pstate slot ProcRunning)
  | (Err _, m') => m' = m
  | (Panic, _) => False
  end.
Proof.
  unfold pm_start. destruct (pm_slot_cases m id) as [[slot Hs]| ->]; [rewrite Hs|done].
  case_bool_decide as H1; cbn [negb]; [|done]. case_bool_decide as H2; [done|]. eauto.
Qed.

Lemma psound_start m id : pm_wf m -> psound m (pm_start m id).2.
Proof.
  intros Hw. pose proof (start_cases m id) as Hc.
  destruct (pm_start m id) as [[[]|e|] m']; [|subst; by apply psound_refl|done].
  destruct Hc as (slot & Hs & Hst & Hb & ->). eapply psound_put; [done|done|done|].
  apply with_pstate_wf; [by eapply live_slot_wf|by rewrite Hst|by rewrite Hst|by right|done].
Qed.

(** Distinct live identifiers have distinct slots. *)
Lemma live_slots_distinct m id id' s s' :
  pid_ok id -> pid_ok id' -> pm_slot m id = Ok s -> pm_slot m id' = Ok s' -> id <> id' ->
  pid_slot id <> pid_slot id'.
Proof.
  intros H1 H2 (Hl & Hg & _)%pm_slot_Ok (Hl' & Hg' & _)%pm_slot_Ok Hne He. apply Hne.
  rewrite He in Hl. simplify_eq. destruct id as [i g], id' as [i' g']. unfold pid_slot, pid_ok in *.
  simpl in *. f_equal; [lia|congruence].
Qed.

Lemma yield_cases m cur succ :
  pid_ok cur -> pid_ok succ ->
  match yield_to m cur succ with
  | (Ok _, m') => exists cs ss,
      cur <> succ /\ pm_slot m cur = Ok cs /\ pm_slot m succ = Ok ss /\
      sl_state cs = Some ProcRunning /\ sl_state ss = Some ProcReady /\
      sl_binding cs <> None /\ sl_binding ss <> None /\
      m' = put_slot (put_slot m cur (with_pstate cs ProcReady)) succ (with_pstate ss ProcRunning)
  | (Err _, m') => m' = m
  | (Panic, _) => False
  end.
Proof.
  intros Hpc Hps. unfold yield_to. case_bool_decide as Hne; [done|]. unfold pm_state.
  destruct (pm_slot_cases m cur) as [[cs Hc]| ->]; [rewrite Hc|done].
  pose proof Hc as (Hlc & _ & Hstc)%pm_slot_Ok.
  destruct (sl_state cs) as [cst|] eqn:Hcs; [|done]. cbn [ok_or].
  destruct (pm_slot_cases m succ) as [[ss Hs]| ->]; [rewrite Hs|done].
  pose proof Hs as (Hls & _ & Hsts)%pm_slot_Ok.
  destruct (sl_state ss) as [sst|] eqn:Hss; [|done]. cbn [ok_or].
  destruct (negb _ || negb _) eqn:Hb; [done|]. to_prop. subst cst sst.
  destruct (bool_decide _ || bool_decide _) eqn:Hb; [done|]. to_prop. cbv zeta.
  pose proof (live_slots_distinct m cur succ cs ss Hpc Hps Hc Hs Hne) as Hd.
  cbn [put_slot pm_slots]. rewrite list_lookup_insert_ne, Hls by done.
  rewrite bool_decide_true by done. cbn [negb]. by exists cs, ss.
Qed.

(** Nothing else can make a yield fail. *)
Lemma yield_complete m cur succ cb sb :
  pid_ok cur -> pid_ok succ -> cur <> succ ->
  pm_state m cur = Ok ProcRunning -> pm_state m succ = Ok ProcReady ->
  pm_binding m cur = Ok (Some cb) -> pm_binding m succ = Ok (Some sb) ->
  exists m', yield_to m cur succ = (Ok tt, m').
Proof.
  intros Hpc Hps Hne Hcs Hss Hcb Hsb. unfold yield_to. rewrite bool_decide_false, Hcs, Hss by done.
  rewrite !bool_decide_true by done. cbn [negb orb]. unfold pm_state, pm_binding in *.
  destruct (pm_slot_cases m cur) as [[cs Hc]|Hc]; rewrite Hc in *; [|done].
  destruct (pm_slot_cases m succ) as [[ss Hs]|Hs]; rewrite Hs in *; [|done].
  injection Hcb as Hcb. injection Hsb as Hsb. rewrite Hcb, Hsb, !bool_decide_false by done. cbn [orb].
  pose proof (live_slots_distinct m cur succ cs ss Hpc Hps Hc Hs Hne) as Hd.
  pose proof Hs as (Hls & _ & _)%pm_slot_Ok. cbn [put_slot pm_slots].
  rewrite list_lookup_insert_ne, Hls by done.
  destruct (sl_state ss) as [st|]; simpl in Hss; [|done]. injection Hss as ->.
  rewrite bool_decide_true by done. cbn [negb]. eauto.
Qed.

Lemma put_slot_ne m id slot id' :
  pid_slot id' <> pid_slot id -> pm_slot (put_slot m id slot) id' = pm_slot m id'.
Proof. intros Hne. unfold pm_slot, put_slot. simpl. by rewrite list_lookup_insert_ne. Qed.

Lemma put_slot_eq m id slot slot' :
  pm_slot m id = Ok slot -> sl_generation slot' = sl_generation slot -> sl_state slot' <> None ->
  pm_slot (put_slot m id slot') id = Ok slot'.
Proof.
  intros (Hl & Hg & _)%pm_slot_Ok Hg' Hst. apply pm_slot_Ok. simpl.
  rewrite list_lookup_insert_eq by (by eapply lookup_lt_Some). split_and!; [done|congruence|done].
Qed.

Lemma psound_yield m cur succ : pm_wf m -> pid_ok cur -> pid_ok succ -> psound m (yield_to m cur succ).2.
Proof.
  intros Hw Hpc Hps. pose proof (yield_cases m cur succ Hpc Hps) as Hc.
  destruct (yield_to m cur succ) as [[[]|e|] m']; [|subst; by apply psound_refl|done].
  destruct Hc as (cs & ss & Hne & Hc & Hs & Hcst & Hsst & Hcb & Hsb & ->).
  assert (H1 : psound m (put_slot m cur (with_pstate cs ProcReady))).
  { eapply psound_put; [done|done|done|].
    apply with_pstate_wf; [by eapply live_slot_wf|by rewrite Hcst|by rewrite Hcst|by left|done]. }
  eapply psound_trans; [exact H1|]. eapply (psound_put _ succ ss); [apply H1| |done|].
  - rewrite put_slot_ne; [done|]. intros He. by apply (live_slots_distinct m cur succ cs ss).
  - apply with_pstate_wf; [by eapply live_slot_wf|by rewrite Hsst|by rewrite Hsst|by right|done].
Qed.

Lemma exit_cases m id code :
  match request_exit m id code with
  | (Ok _, m') => exists slot, pm_slot m id = Ok slot /\
      (sl_state slot = Some ProcReady \/ sl_state slot = Some ProcRunning) /\
      m' = put_slot m id (mkSlot (sl_generation slot) (sl_image slot) (Some ProcExited)
                            (sl_binding slot) (Some code))
  | (Err _, m') => m' = m
  | (Panic, _) => False
  end.
Proof.
  unfold request_exit. destruct (pm_slot_cases m id) as [[slot Hs]| ->]; [rewrite Hs|done].
  destruct (negb _) eqn:Hb; [done|]. to_prop. exists slot. split_and!; [done| |done].
  apply orb_true_iff in Hb as [Hb|Hb]; to_prop; auto.
Qed.

Lemma psound_exit m id code : pm_wf m -> psound m (request_exit m id code).2.
Proof.
  intros Hw. pose proof (exit_cases m id code) as Hc.
  destruct (request_exit m id code) as [[[]|e|] m']; [|subst; by apply psound_refl|done].
  destruct Hc as (slot & Hs & Hst & ->). pose proof (live_slot_wf m id slot Hw Hs) as [G E L B R X C].
  pose proof Hs as (_ & _ & Hne)%pm_slot_Ok. eapply psound_put; [done|done|done|]. split; simpl; try done.
  intros _. auto.
Qed.

Lemma reap_cases m id :
  pm_wf m ->
  match reap m id with
  | (Ok r, m') => exists slot image code,
      pm_slot m id = Ok slot /\ sl_state slot = Some ProcExited /\ sl_image slot = Some image /\
      sl_exit_code slot = Some code /\ r = mkReaped id image (sl_binding slot) code /\
      m' = mkManager (<[pid_slot id := Slot_cleared (sl_generation slot)]> (pm_slots m)) (pid_slot id)
  | (Err e, m') => m' = m /\ (forall slot, pm_slot m id = Ok slot -> sl_state slot <> Some ProcExited)
  | (Panic, _) => False
  end.
Proof.
  intros Hw. unfold reap. destruct (pm_slot_cases m id) as [[slot Hs]|Hn].
  2: { rewrite Hn. done. }
  rewrite Hs. case_bool_decide as Hst; cbn [negb]; [|split; [done|]; intros s' [= <-]; done].
  pose proof (live_slot_wf m id slot Hw Hs) as [G E L B R X C].
  destruct L as [[image Hi] _]; [by rewrite Hst|]. destruct (proj1 X Hst) as [code Hcode].
  rewrite Hi, Hcode. exists slot, image, code. done.
Qed.

Lemma psound_reap m id : pm_wf m -> psound m (reap m id).2.
Proof.
  intros Hw. pose proof (reap_cases m id Hw) as Hc.
  destruct (reap m id) as [[r|e|] m']; [|destruct Hc as [-> _]; by apply psound_refl|done].
  destruct Hc as (slot & image & code & Hs & _ & _ & _ & _ & ->). simpl.
  pose proof Hs as (Hl & _ & _)%pm_slot_Ok.
  eapply psound_update; [done|done|done| |].
  - apply Slot_cleared_wf. apply (live_slot_wf m id slot Hw Hs).
  - rewrite <- (pw_len m Hw). by eapply lookup_lt_Some.
Qed.

Lemma psound_abort m id : pm_wf m -> psound m (abort_ready m id).2.
Proof.
  intros Hw. unfold abort_ready. destruct (pm_slot_cases m id) as [[slot Hs]| ->];
    [rewrite Hs|by apply psound_refl].
  case_bool_decide; cbn [negb]; [by apply psound_remove|by apply psound_refl].
Qed.

(** ** The registry as a transition system *)
Inductive ProcOp :=
| PRegister (image : ProcessImage)
| PSpawn (image : ProcessImage) (task : TaskId) (execution : ExecutionHandle) (space : AddressSpaceId)
| PAttach (id : ProcessId) (task : TaskId) (execution : ExecutionHandle) (space : AddressSpaceId)
| PStart (id : ProcessId)
| PYield (current successor : ProcessId)
| PRequestExit (id : ProcessId) (code : Z)
| PReap (id : ProcessId)
| PAbort (id : ProcessId).

Definition run_proc (op : ProcOp) (m : ProcessManager) : ProcessManager :=
  match op with
  | PRegister image => (register_ready m image).2
  | PSpawn image task execution space => (spawn_ready m image task execution space).2
  | PAttach id task execution space => (pm_attach_execution m id task execution space).2
  | PStart id => (pm_start m id).2
  | PYield cur succ => (yield_to m cur succ).2
  | PRequestExit id code => (request_exit m id code).2
  | PReap id => (reap m id).2
  | PAbort id => (abort_ready m id).2
  end.

(** Identifier indices are unsigned. *)
Definition proc_enabled (op : ProcOp) : Prop :=
  match op with
  | PRegister _ | PSpawn _ _ _ _ => True
  | PAttach id _ _ _ | PStart id | PRequestExit id _ | PReap id | PAbort id => pid_ok id
  | PYield cur succ => pid_ok cur /\ pid_ok succ
  end.

Inductive proc_step : ProcessManager -> ProcessManager -> Prop :=
| proc_step_op op m : proc_enabled op -> proc_step m (run_proc op m).

Lemma run_proc_sound op m : pm_wf m -> proc_enabled op -> psound m (run_proc op m).
Proof.
  intros Hw Hen. destruct op; simpl in *; destruct_and?;
    auto using psound_register, psound_spawn, psound_attach, psound_start, psound_yield, psound_exit,
      psound_reap, psound_abort.
Qed.

Lemma proc_steps_sound m m' : pm_wf m -> rtc proc_step m m' -> psound m m'.
Proof.
  intros Hw Hr. revert Hw. induction Hr as [m|m1 m2 m3 [op m Hen] _ IH]; intros Hw; [by apply psound_refl|].
  pose proof (run_proc_sound op m Hw Hen) as H2. eapply psound_trans; [exact H2|]. apply IH, H2.
Qed.

Definition run_procs (ops : list ProcOp) (m : ProcessManager) : ProcessManager :=
  foldl (fun m op => run_proc op m) m ops.

Lemma run_procs_steps ops m : Forall proc_enabled ops -> rtc proc_step m (run_procs ops m).
Proof.
  intros Hen. revert m. induction Hen as [|op ops Hop _ IH]; intros m; [done|].
  eapply rtc_l; [by apply proc_step_op|]. apply IH.
Qed.

(** C31: in every reachable registry a live process has an image; a binding names
    the process itself, its own task and the image's address space; only bound
    processes run; an exit code exists exactly for exited processes; a slot
    without a process holds nothing of its former one, no image, binding or exit code, only
    its generation; and every other slot is found under its index and generation. *)
Theorem process_registry_inv m :
  rtc proc_step ProcessManager_new m ->
  length (pm_slots m) = MAX_PROCESSES /\
  (forall id slot, pid_ok id -> pm_slot m id = Ok slot ->
    is_Some (sl_image slot) /\ 1 <= pid_generation id <= U32_MAX /\
    (forall b, sl_binding slot = Some b ->
       peb_process b = id /\ handle_task_id (peb_execution b) = peb_task b /\
       exists image, sl_image slot = Some image /\ peb_address_space b = spec_id (pi_address_space image)) /\
    (sl_state slot = Some ProcRunning -> sl_binding slot <> None) /\
    (sl_state slot = Some ProcExited <-> is_Some (sl_exit_code slot))) /\
  (forall i slot, pm_slots m !! i = Some slot -> sl_state slot = None -> slot = Slot_cleared (sl_generation slot)) /\
  (forall i slot, pm_slots m !! i = Some slot -> sl_state slot <> None ->
     pm_slot m (mkProcessId (Z.of_nat i) (sl_generation slot)) = Ok slot).
Proof.
  intros Hr. pose proof (ps_wf _ _ (proc_steps_sound _ _ ProcessManager_new_wf Hr)) as Hw.
  split; [apply Hw|]. split; [|split].
  2: { intros i slot Hi Hst. destruct (sw_empty _ _ (pw_slot m Hw i slot Hi) Hst) as (H1 & H2 & H3).
       destruct slot. cbn in *. by subst. }
  2: { intros i slot Hi Hst. apply pm_slot_Ok. unfold pid_slot. cbn. by rewrite Nat2Z.id. }
  intros id slot Hid Hs. pose proof (live_slot_wf m id slot Hw Hs) as [G E L B R X C].
  pose proof Hs as (_ & Hg & Hst)%pm_slot_Ok. destruct (L Hst) as [Hi Hge].
  split_and!; [done|lia|lia| |done|apply X..].
  intros b Hb. destruct (B b Hb) as (Hp & Ht & Hsp). split_and!; [|done|done].
  rewrite Hp, Hg. unfold pid_slot, pid_ok in *. rewrite Z2Nat.id by done. by destruct id.
Qed.

(** A concrete image, as the loader builds it. *)
Definition any_image : ProcessImage :=
  mkProcessImage (AddressSpaceSpec_new (mkAsId 7)) (mkPlan 0 [] 0) (mkStackPlan [] 0 0) (mkContext 0 0).
Definition task_a : TaskId := mkTaskId 0 1.
Definition task_b : TaskId := mkTaskId 1 1.
Definition proc_a : ProcessId := mkProcessId 0 1.
Definition proc_b : ProcessId := mkProcessId 1 1.
Definition demo_procs : list ProcOp :=
  [PSpawn any_image task_a (ExecutionHandle_for_task task_a) (mkAsId 7);
   PSpawn any_image task_b (ExecutionHandle_for_task task_b) (mkAsId 7); PStart proc_a].
Definition demo_pm : ProcessManager := run_procs demo_procs ProcessManager_new.

Lemma demo_pm_reachable : rtc proc_step ProcessManager_new demo_pm.
Proof. apply run_procs_steps. repeat constructor; vm_compute; discriminate. Qed.

Lemma demo_pm_wf : pm_wf demo_pm.
Proof. exact (ps_wf _ _ (proc_steps_sound _ _ ProcessManager_new_wf demo_pm_reachable)). Qed.

Lemma process_registry_inv_witness :
  length (pm_slots demo_pm) = MAX_PROCESSES /\ pm_state demo_pm proc_a = Ok ProcRunning /\
  pm_state demo_pm proc_b = Ok ProcReady.
Proof.
  split; [exact (proj1 (process_registry_inv demo_pm demo_pm_reachable))|]. split; vm_compute; reflexivity.
Defined.

(** A process identifier never comes back.  Once a process that existed has
    been reaped or aborted, no sequence of operations makes its identifier valid
    again, so a stale identifier can never reach another process. *)
Theorem process_id_never_reused m1 m2 m3 id :
  rtc proc_step ProcessManager_new m1 -> rtc proc_step m1 m2 -> rtc proc_step m2 m3 ->
  pm_contains m1 id = true -> pm_contains m2 id = false -> pm_contains m3 id = false.
Proof.
  intros H1 H12 H23 Hlive Hgone.
  pose proof (proc_steps_sound _ _ ProcessManager_new_wf H1) as [W1 _ _].
  pose proof (proc_steps_sound _ _ W1 H12) as [W2 G12 _].
  pose proof (proc_steps_sound _ _ W2 H23) as [_ _ F23].
  apply pm_contains_true in Hlive as [s (Hl & Hg & _)%pm_slot_Ok].
  destruct (G12 _ _ Hl) as (s2 & Hs2 & Hle).
  destruct (pm_contains m3 id) eqn:Hc; [|done]. pose proof (F23 id s2 Hgone Hc Hs2). lia.
Qed.

Lemma process_id_never_reused_witness :
  let m2 := run_procs [PRequestExit proc_a 3; PReap proc_a] demo_pm in
  let m3 := run_procs [PRegister any_image; PRegister any_image] m2 in
  pm_contains m3 proc_a = false /\ pm_contains m3 (mkProcessId 0 2) = true.
Proof.
  intros m2 m3. split; [|vm_compute; reflexivity].
  apply (process_id_never_reused demo_pm m2 m3);
    [apply demo_pm_reachable| | |vm_compute; reflexivity|vm_compute; reflexivity].
  - apply run_procs_steps. repeat constructor; vm_compute; discriminate.
  - apply run_procs_steps. repeat constructor.
Defined.

(** Exit codes are kept until reaping, and reaping happens exactly once.
    After [request_exit id code] on a ready or running process, the process cannot
    be started, exited again or aborted, its exit code reads back as [code], and
    [reap] returns that code with the process's image and binding and frees the
    slot; after that the identifier is invalid for every operation. *)
Theorem exit_then_reap_once m id code m1 :
  pm_wf m -> request_exit m id code = (Ok tt, m1) ->
  exists slot image m2,
    pm_slot m id = Ok slot /\ sl_image slot = Some image /\
    pm_state m1 id = Ok ProcExited /\ pm_exit_code m1 id = Ok (Some code) /\
    pm_start m1 id = (Err InvalidTransition, m1) /\
    (forall code', request_exit m1 id code' = (Err InvalidTransition, m1)) /\
    abort_ready m1 id = (Err InvalidTransition, m1) /\
    reap m1 id = (Ok (mkReaped id image (sl_binding slot) code), m2) /\
    pm_contains m2 id = false /\ reap m2 id = (Err InvalidProcess, m2) /\
    (forall id', pid_slot id' <> pid_slot id -> pm_slot m2 id' = pm_slot m id').
Proof.
  intros Hw He. pose proof (exit_cases m id code) as Hc. rewrite He in Hc.
  destruct Hc as (slot & Hs & _ & ->).
  pose proof Hs as (Hl & Hg & Hne)%pm_slot_Ok.
  destruct (sw_live _ _ (live_slot_wf m id slot Hw Hs) Hne) as [[image Hi] _].
  set (slot' := mkSlot _ _ _ _ _). set (m1 := put_slot m id slot').
  assert (Hs1 : pm_slot m1 id = Ok slot') by (by apply (put_slot_eq m id slot)).
  set (m2 := mkManager (<[pid_slot id := Slot_cleared (sl_generation slot)]> (pm_slots m1)) (pid_slot id)).
  assert (Hs2 : pm_slot m2 id = Err InvalidProcess).
  { unfold pm_slot. cbn [m2 pm_slots]. rewrite list_lookup_insert_eq; [by rewrite orb_true_r|].
    unfold m1. cbn [put_slot pm_slots]. rewrite length_insert. by eapply lookup_lt_Some. }
  exists slot, image, m2. split_and!; try done.
  - unfold pm_state. by rewrite Hs1.
  - unfold pm_exit_code. by rewrite Hs1.
  - unfold pm_start. by rewrite Hs1.
  - intros code'. unfold request_exit. by rewrite Hs1.
  - unfold abort_ready. by rewrite Hs1.
  - unfold reap. rewrite Hs1. simpl. by rewrite Hi.
  - unfold pm_contains. by rewrite Hs2.
  - unfold reap. by rewrite Hs2.
  - intros id' Hne'. unfold pm_slot, m2, m1, put_slot. cbn [pm_slots].
    by rewrite !list_lookup_insert_ne by done.
Qed.

Lemma exit_then_reap_once_witness :
  let m1 := (request_exit demo_pm proc_a 42).2 in
  pm_exit_code m1 proc_a = Ok (Some 42) /\ exists image b m2,
    reap m1 proc_a = (Ok (mkReaped proc_a image b 42), m2).
Proof.
  intros m1.
  destruct (exit_then_reap_once demo_pm proc_a 42 m1 demo_pm_wf) as (slot & image & m2 & _ & _ & _ & H1 & _ & _ & _ & H2 & _);
    [vm_compute; reflexivity|]. split; [exact H1|]. exists image, (sl_binding slot), m2. exact H2.
Defined.

(** A userspace yield is atomic in the registry: it succeeds exactly when the
    current process runs, the successor is ready and both are bound; then the two
    exchange states and every other process is untouched; otherwise nothing
    changes. *)
Theorem yield_to_atomic m cur succ :
  pm_wf m -> pid_ok cur -> pid_ok succ ->
  match yield_to m cur succ with
  | (Ok _, m') =>
      cur <> succ /\ pm_state m cur = Ok ProcRunning /\ pm_state m succ = Ok ProcReady /\
      pm_state m' cur = Ok ProcReady /\ pm_state m' succ = Ok ProcRunning /\
      pm_binding m' cur = pm_binding m cur /\ pm_binding m' succ = pm_binding m succ /\
      (forall id, pid_slot id <> pid_slot cur -> pid_slot id <> pid_slot succ ->
         pm_slot m' id = pm_slot m id)
  | (Err _, m') => m' = m /\
      (forall cb sb, cur <> succ -> pm_state m cur = Ok ProcRunning -> pm_state m succ = Ok ProcReady ->
         pm_binding m cur = Ok (Some cb) -> pm_binding m succ = Ok (Some sb) -> False)
  | (Panic, _) => False
  end.
Proof.
  intros Hw Hpc Hps. pose proof (yield_cases m cur succ Hpc Hps) as Hc.
  pose proof (fun cb sb => yield_complete m cur succ cb sb Hpc Hps) as Hcomp.
  destruct (yield_to m cur succ) as [[[]|e|] m']; [| |done].
  2: { split; [done|]. intros cb sb H1 H2 H3 H4 H5. by destruct (Hcomp cb sb H1 H2 H3 H4 H5). }
  clear Hcomp.
  destruct Hc as (cs & ss & Hne & Hc & Hs & Hcst & Hsst & Hcb & Hsb & ->).
  pose proof (live_slots_distinct m cur succ cs ss Hpc Hps Hc Hs Hne) as Hd.
  set (m1 := put_slot m cur (with_pstate cs ProcReady)).
  assert (H1 : pm_slot m1 cur = Ok (with_pstate cs ProcReady)) by (by apply (put_slot_eq m cur cs)).
  assert (H2 : pm_slot m1 succ = Ok ss) by (unfold m1; rewrite put_slot_ne by congruence; done).
  assert (H3 : pm_slot (put_slot m1 succ (with_pstate ss ProcRunning)) succ
               = Ok (with_pstate ss ProcRunning)) by (by apply (put_slot_eq m1 succ ss)).
  assert (H4 : pm_slot (put_slot m1 succ (with_pstate ss ProcRunning)) cur = Ok (with_pstate cs ProcReady))
    by (by rewrite put_slot_ne).
  unfold pm_state, pm_binding. rewrite H3, H4, Hc, Hs. simpl. rewrite Hcst, Hsst.
  split_and!; try done. intros id Hid1 Hid2. unfold m1. by rewrite !put_slot_ne.
Qed.

Lemma yield_to_atomic_witness :
  pm_state (yield_to demo_pm proc_a proc_b).2 proc_a = Ok ProcReady /\
  pm_state (yield_to demo_pm proc_a proc_b).2 proc_b = Ok ProcRunning.
Proof.
  pose proof (yield_to_atomic demo_pm proc_a proc_b demo_pm_wf) as Hy.
  specialize (Hy ltac:(vm_compute; discriminate) ltac:(vm_compute; discriminate)).
  assert (Hok : is_ok (yield_to demo_pm proc_a proc_b).1 = true) by (vm_compute; reflexivity).
  destruct (yield_to demo_pm proc_a proc_b) as [[[]|e|] m']; [|discriminate..].
  split; apply Hy.
Defined.
