(* ===== verification/Binding.v ===== *)
(** * Binding a process to the scheduler ([kernel/src/process/scheduler_binding.rs])

    The boundary between the process registry and the scheduler: a task is
    created, given an execution handle, recorded in the registry and queued, or
    nothing is left behind. *)

From stdpp Require Import base numbers sets relations list options.
From S2P Require Import Prelude Tasks Queues Scheduler SchedulerInv SchedulerSteps.
From S2P Require Import Memory LoadPlan Process ProcessInv.

Local Open Scope Z_scope.
Local Open Scope rust_scope.

Inductive ProcessSchedulerBindError :=
| BindProcess (e : ProcessManagerError)
| BindScheduler (e : SchedulerError)
| CleanupFailed.

Definition cleanup_created_task (scheduler : Scheduler) (task : TaskId)
  : result ProcessSchedulerBindError unit * Scheduler :=
  match destroy_created scheduler task with
  | (Ok _, s) => (Ok tt, s)
  | (Err _, s) => (Err CleanupFailed, s)
  | (Panic, s) => (Panic, s)
  end.

(** [cleanup_created_task(...)?; return Err(e)] *)
Definition fail_bind (manager : ProcessManager) (scheduler : Scheduler) (task : TaskId)
    (e : ProcessSchedulerBindError)
  : result ProcessSchedulerBindError TaskId * ProcessManager * Scheduler :=
  match cleanup_created_task scheduler task with
  | (Ok _, s) => (Err e, manager, s)
  | (Err e', s) => (Err e', manager, s)
  | (Panic, s) => (Panic, manager, s)
  end.

Definition bind_and_ready (manager : ProcessManager) (scheduler : Scheduler) (process : ProcessId)
    (priority : Priority) : result ProcessSchedulerBindError TaskId * ProcessManager * Scheduler :=
  match pm_image manager process with
  | Err e => (Err (BindProcess e), manager, scheduler)
  | Panic => (Panic, manager, scheduler)
  | Ok image =>
      let address_space := spec_id (pi_address_space image) in
      match create_task scheduler priority with
      | (Err e, s) => (Err e, manager, s)
      | (Panic, s) => (Panic, manager, s)
      | (Ok task, scheduler) =>
          match attach_execution scheduler task with
          | (Err error, scheduler) => fail_bind manager scheduler task (BindScheduler error)
          | (Panic, scheduler) => (Panic, manager, scheduler)
          | (Ok execution, scheduler) =>
              match pm_attach_execution manager process task execution address_space with
              | (Err error, manager) => fail_bind manager scheduler task (BindProcess error)
              | (Panic, manager) => (Panic, manager, scheduler)
              | (Ok _, manager) =>
                  let '(ready, scheduler) := make_ready scheduler task in
                  if negb ready
                  then fail_bind (pm_exit manager process).2 scheduler task CleanupFailed
                  else (Ok task, manager, scheduler)
              end
          end
      end
  end.

(** Binding a process is all or nothing across both subsystems.  On success
    the returned task is new, queued last and ready, carries its own execution
    handle, and the registry's binding of the process names exactly that task,
    handle and the image's address space.  On failure the registry is unchanged
    and the scheduler has the same tasks, queue and CPU owner as before: no orphan
    task remains, and cleanup itself cannot fail. *)
Theorem bind_and_ready_transactional m s pid prio :
  sched_inv s -> Z.of_nat (length (tasks s)) <= U32_MAX -> pm_wf m -> pid_ok pid ->
  match bind_and_ready m s pid prio with
  | (Ok id, m', s') =>
      task s id = None /\ state s' id = Some Ready /\ ready s' = ready s ++ [id] /\
      execution s' id = Some (ExecutionHandle_for_task id) /\
      (forall id', id' <> id -> task s' id' = task s id') /\ sched_inv s' /\ pm_wf m' /\
      (exists image, pm_image m pid = Ok image /\ pm_binding m pid = Ok None /\
         pm_binding m' pid = Ok (Some (mkBinding pid id (ExecutionHandle_for_task id)
                                         (spec_id (pi_address_space image)))))
  | (Err e, m', s') =>
      m' = m /\ ready s' = ready s /\ current s' = current s /\ sched_inv s' /\
      (forall id, task s' id = task s id) /\ (exists pe, e = BindProcess pe)
  | (Panic, _, _) => False
  end.
Proof.
  intros Hi Hroom Hw Hid. unfold bind_and_ready.
  destruct (pm_image m pid) as [image|e|] eqn:Him.
  2: { split_and!; try apply Hi; eauto. }
  2: { unfold pm_image in Him. destruct (pm_slot_cases m pid) as [[slot Hs]|Hs]; rewrite Hs in Him; [|done].
       by destruct (sl_image slot). }
  cbv zeta. unfold create_task.
  destruct (created_attached (E := ProcessSchedulerBindError) s prio Kernel Hi Hroom)
    as (id & s1 & s2 & -> & -> & Hf).
  pose proof (attach_cases m pid id (ExecutionHandle_for_task id) (spec_id (pi_address_space image))) as Ha.
  pose proof (psound_attach m pid id (ExecutionHandle_for_task id) (spec_id (pi_address_space image)) Hw Hid)
    as [Hw' _ _].
  destruct (pm_attach_execution _ _ _ _ _) as [[b|e|] m1]; [| |done].
  - destruct Ha as (slot & image' & Hs & Hb & Himg & _ & _ & -> & ->). cbn [snd] in Hw'.
    assert (image' = image) as ->.
    { unfold pm_image in Him. rewrite Hs, Himg in Him. by injection Him. }
    destruct (ready_fresh s s2 id Kernel prio Hf) as (s3 & -> & Hi3 & Ht3 & Hoth & Hr3 & _). cbn [negb].
    split; [apply Hf|]. split; [apply state_Some; eexists; by split|]. split; [done|].
    split; [unfold execution; by rewrite Ht3|]. split; [done|]. split; [done|]. split; [done|].
    exists image. split; [done|]. unfold pm_binding. rewrite Hs, Hb. split; [done|].
    rewrite (put_slot_eq m pid slot); [done|done|done|]. by apply pm_slot_Ok in Hs as (_ & _ & ?).
  - subst m1. unfold fail_bind, cleanup_created_task.
    destruct (destroy_fresh s s2 id Kernel prio Hf) as (s3 & -> & [Hi3 Hall Hr3 Hc3]).
    split; [done|]. split; [done|]. split; [done|]. eauto.
Qed.

Lemma bind_and_ready_transactional_witness :
  let m := (register_ready ProcessManager_new any_image).2 in
  exists id m' s', bind_and_ready m Scheduler_new (mkProcessId 0 1) Priority_DEFAULT = (Ok id, m', s') /\
                   ready s' = [id].
Proof.
  intros m.
  assert (Hw : pm_wf m) by (apply psound_register, ProcessManager_new_wf).
  pose proof (bind_and_ready_transactional m Scheduler_new (mkProcessId 0 1) Priority_DEFAULT
                Scheduler_new_inv ltac:(vm_compute; discriminate) Hw ltac:(vm_compute; discriminate)) as Hb.
  assert (Hok : is_ok (bind_and_ready m Scheduler_new (mkProcessId 0 1) Priority_DEFAULT).1.1 = true)
    by (vm_compute; reflexivity).
  destruct (bind_and_ready m Scheduler_new (mkProcessId 0 1) Priority_DEFAULT) as [[[id|e|] m'] s'];
    [|discriminate..].
  exists id, m', s'. split; [reflexivity|]. apply Hb.
Defined.
