(* ===== verification/Execution.v ===== *)
(** * Execution state of tasks on x86_64

    [Context] and the bootstrap frame of [arch/x86_64/context_switch.rs], the
    interrupted-CPU snapshots of [interrupted_state.rs] read through the return
    frame of [interrupt_entry.rs], the kernel execution bindings of
    [execution.rs] and their registry [execution_registry.rs].

    What the code takes from outside is an argument: the addresses at which the
    heap places a stack and an activation record, and the address of the naked
    entry trampoline. *)

From stdpp Require Import base numbers sets list options.
From S2P Require Import Prelude Tasks.

Local Open Scope Z_scope.
Local Open Scope rust_scope.

(** ** Slots keyed by a task: the shape both execution registries share *)
Section Keyed.
Context {A : Type} (key : A -> TaskId).
Implicit Types (l : list (option A)) (b : A) (t : TaskId).

Definition slot_matches t (entry : option A) : bool :=
  match entry with Some b => bool_decide (key b = t) | None => false end.

(** [entries.iter().flatten().find(|b| b.task() == t)] *)
Fixpoint reg_find l t : option A :=
  match l with
  | [] => None
  | Some b :: l => if bool_decide (key b = t) then Some b else reg_find l t
  | None :: l => reg_find l t
  end.

(** A write through the [&mut] that [find] returns. *)
Definition reg_update l t (f : A -> A) : list (option A) :=
  match position (slot_matches t) l with Some i => alter (fmap f) i l | None => l end.

Definition reg_clear l t : list (option A) :=
  match position (slot_matches t) l with Some i => <[i := None]> l | None => l end.

Definition slot_free (entry : option A) : bool := match entry with None => true | Some _ => false end.

(** The first free slot, or a new one at the end. *)
Definition reg_fill l b : list (option A) :=
  match position slot_free l with Some i => <[i := Some b]> l | None => l ++ [Some b] end.

Definition reg_wf l : Prop := NoDup (key <$> omap id l).

Lemma reg_find_key l t b : reg_find l t = Some b -> key b = t.
Proof using Type.
  induction l as [|[b'|] l IH]; simpl; [done| |done]. case_bool_decide; [|done]. by intros [= <-].
Qed.

Lemma reg_find_None l t : reg_find l t = None <-> t ∉ (key <$> omap id l).
Proof using Type.
  induction l as [|[b|] l IH]; simpl.
  - split; [|done]. intros _. apply not_elem_of_nil.
  - case_bool_decide as Hb.
    + split; [done|]. intros []. subst. left.
    + rewrite IH, not_elem_of_cons. split; [|tauto]. intros ?. split; [congruence|done].
  - done.
Qed.

Lemma reg_position_None l t : position (slot_matches t) l = None <-> reg_find l t = None.
Proof using Type.
  induction l as [|[b|] l IH]; simpl; [done| |].
  - case_bool_decide; [done|]. by rewrite fmap_None.
  - by rewrite fmap_None.
Qed.

Lemma reg_position_Some l t i :
  position (slot_matches t) l = Some i -> exists b, l !! i = Some (Some b) /\ reg_find l t = Some b.
Proof using Type.
  revert i. induction l as [|[b|] l IH]; intros i; simpl; [done|..].
  - case_bool_decide; [intros [= <-]; by exists b|]. intros (j & Hj & ->)%fmap_Some. by apply IH.
  - intros (j & Hj & ->)%fmap_Some. by apply IH.
Qed.

Lemma reg_update_cons e l t f :
  reg_update (e :: l) t f = if slot_matches t e then (f <$> e) :: l else e :: reg_update l t f.
Proof using Type.
  unfold reg_update. simpl. destruct (slot_matches t e); [done|].
  by destruct (position (slot_matches t) l).
Qed.

Lemma reg_clear_cons e l t :
  reg_clear (e :: l) t = if slot_matches t e then None :: l else e :: reg_clear l t.
Proof using Type.
  unfold reg_clear. simpl. destruct (slot_matches t e); [done|].
  by destruct (position (slot_matches t) l).
Qed.

Lemma reg_fill_cons e l b : reg_fill (e :: l) b = if slot_free e then Some b :: l else e :: reg_fill l b.
Proof using Type.
  unfold reg_fill. simpl. destruct (slot_free e); [done|]. by destruct (position slot_free l).
Qed.

(** The slots implement a partial map from tasks. *)
Lemma reg_find_update l t f t' :
  (forall b, key (f b) = key b) ->
  reg_find (reg_update l t f) t' = if bool_decide (t' = t) then f <$> reg_find l t else reg_find l t'.
Proof using Type.
  intros Hf. induction l as [|e l IH]; [by case_bool_decide|]. rewrite reg_update_cons.
  destruct e as [b|]; cbn [slot_matches].
  - destruct (bool_decide (key b = t)) eqn:Hb; simpl.
    + rewrite Hf, Hb. apply bool_decide_eq_true in Hb. repeat case_bool_decide; (done || congruence).
    + rewrite IH, Hb. apply bool_decide_eq_false in Hb. repeat case_bool_decide; (done || congruence).
  - cbn [reg_find]. by rewrite IH.
Qed.

Lemma reg_update_same l t b : reg_find l t = Some b -> reg_update l t (fun _ => b) = l.
Proof using Type.
  induction l as [|e l IH]; [done|]. rewrite reg_update_cons.
  destruct e as [b'|]; simpl; [case_bool_decide|]; intros Hf; [by simplify_eq| |]; by rewrite IH.
Qed.

Lemma reg_find_set l t b b' t' :
  key b' = t -> reg_find l t = Some b ->
  reg_find (reg_update l t (fun _ => b')) t' = if bool_decide (t' = t) then Some b' else reg_find l t'.
Proof using Type.
  intros Hk. induction l as [|e l IH]; intros Hf; [done|]. rewrite reg_update_cons.
  destruct e as [b0|]; cbn [slot_matches reg_find] in *.
  - destruct (bool_decide (key b0 = t)) eqn:Hb; simpl.
    + apply bool_decide_eq_true in Hb. repeat case_bool_decide; (done || congruence).
    + rewrite IH by done. apply bool_decide_eq_false in Hb. repeat case_bool_decide; (done || congruence).
  - by apply IH.
Qed.

Lemma reg_find_fill l b t :
  reg_find l (key b) = None ->
  reg_find (reg_fill l b) t = if bool_decide (t = key b) then Some b else reg_find l t.
Proof using Type.
  induction l as [|e l IH]; intros Hn.
  - cbn. repeat case_bool_decide; (done || congruence).
  - rewrite reg_fill_cons. destruct e as [b'|]; cbn [slot_free].
    + cbn [reg_find] in *. destruct (bool_decide (key b' = key b)) eqn:Hk; [done|]. rewrite IH by done.
      apply bool_decide_eq_false in Hk. repeat case_bool_decide; (done || congruence).
    + cbn [reg_find]. repeat case_bool_decide; (done || congruence).
Qed.

Lemma reg_find_snoc l b t :
  reg_find l (key b) = None ->
  reg_find (l ++ [Some b]) t = if bool_decide (t = key b) then Some b else reg_find l t.
Proof using Type.
  induction l as [|e l IH]; intros Hn.
  - cbn. repeat case_bool_decide; (done || congruence).
  - destruct e as [b'|]; cbn [app reg_find] in *; [|by apply IH].
    destruct (bool_decide (key b' = key b)) eqn:Hk; [done|]. rewrite IH by done.
    apply bool_decide_eq_false in Hk. repeat case_bool_decide; (done || congruence).
Qed.

Lemma reg_find_clear l t t' :
  reg_wf l -> reg_find (reg_clear l t) t' = if bool_decide (t' = t) then None else reg_find l t'.
Proof using Type.
  induction l as [|e l IH]; intros Hw; [by case_bool_decide|]. rewrite reg_clear_cons.
  destruct e as [b|]; cbn [slot_matches reg_find].
  - apply NoDup_cons in Hw as [Hb Hw].
    destruct (bool_decide (key b = t)) eqn:Hk; cbn [reg_find].
    + apply bool_decide_eq_true in Hk as <-. apply reg_find_None in Hb.
      repeat case_bool_decide; (done || congruence).
    + rewrite IH by done. apply bool_decide_eq_false in Hk. repeat case_bool_decide; (done || congruence).
  - by rewrite IH.
Qed.

Lemma reg_wf_update l t f : (forall b, key (f b) = key b) -> reg_wf l -> reg_wf (reg_update l t f).
Proof using Type.
  intros Hf. unfold reg_wf. enough (key <$> omap id (reg_update l t f) = key <$> omap id l) as -> by done.
  induction l as [|[b|] l IH]; [done|..]; rewrite reg_update_cons; cbn [slot_matches].
  - case_bool_decide; simpl; [by rewrite Hf|by f_equal].
  - done.
Qed.

Lemma reg_wf_set l t b b' : key b' = t -> reg_find l t = Some b -> reg_wf l -> reg_wf (reg_update l t (fun _ => b')).
Proof using Type.
  intros Hk Hf. unfold reg_wf.
  enough (key <$> omap id (reg_update l t (fun _ => b')) = key <$> omap id l) as -> by done.
  induction l as [|[b0|] l IH]; [done|..]; rewrite reg_update_cons; cbn [slot_matches reg_find] in *.
  - case_bool_decide as Hb; simpl; [congruence|]. f_equal. by apply IH.
  - by apply IH.
Qed.

Lemma reg_wf_clear l t : reg_wf l -> reg_wf (reg_clear l t).
Proof using Type.
  unfold reg_wf. assert (Hsub : (key <$> omap id (reg_clear l t)) `sublist_of` (key <$> omap id l)).
  { induction l as [|[b|] l IH]; [done|..]; rewrite reg_clear_cons; cbn [slot_matches].
    - case_bool_decide; simpl; [by apply sublist_cons|by apply sublist_skip].
    - done. }
  intros Hnd. by eapply sublist_NoDup.
Qed.

Lemma reg_wf_fill l b : reg_find l (key b) = None -> reg_wf l -> reg_wf (reg_fill l b).
Proof using Type.
  unfold reg_wf. intros Hn%reg_find_None Hw.
  assert (Hp : key <$> omap id (reg_fill l b) ≡ₚ key b :: (key <$> omap id l)).
  { clear Hn Hw. induction l as [|[b'|] l IH]; [done|..]; rewrite reg_fill_cons; cbn [slot_free].
    - simpl. rewrite IH. apply Permutation_swap.
    - done. }
  rewrite Hp. by apply NoDup_cons.
Qed.

Lemma reg_wf_snoc l b : reg_find l (key b) = None -> reg_wf l -> reg_wf (l ++ [Some b]).
Proof using Type.
  unfold reg_wf. intros Hn%reg_find_None Hw. rewrite omap_app, fmap_app. by apply NoDup_snoc.
Qed.
End Keyed.

(** ** Saved CPU state *)
Record SavedRegisters := mkRegs {
  sr_rax : Z; sr_rcx : Z; sr_rdx : Z; sr_rbx : Z; sr_rbp : Z; sr_rsi : Z; sr_rdi : Z;
  sr_r8 : Z; sr_r9 : Z; sr_r10 : Z; sr_r11 : Z; sr_r12 : Z; sr_r13 : Z; sr_r14 : Z; sr_r15 : Z;
}.

#[export] Instance SavedRegisters_eq_dec : EqDecision SavedRegisters.
Proof. solve_decision. Defined.

(** The address of the CPU's return frame and the words found there. *)
Record InterruptReturnFrame := mkReturnFrame { irf_raw : Z; irf_word : nat -> Z }.

Definition SAME_CPL_FRAME_BYTES : Z := 3 * 8.
Definition CROSS_CPL_FRAME_BYTES : Z := 5 * 8.

Definition irf_rip (f : InterruptReturnFrame) : Z := irf_word f 0.
Definition irf_cs (f : InterruptReturnFrame) : Z := irf_word f 1.
Definition irf_rflags (f : InterruptReturnFrame) : Z := irf_word f 2.
Definition irf_rsp (f : InterruptReturnFrame) : option Z :=
  if Z.land (irf_cs f) 3 =? 0 then None else Some (irf_word f 3).
Definition irf_ss (f : InterruptReturnFrame) : option Z :=
  if Z.land (irf_cs f) 3 =? 0 then None else Some (irf_word f 4).
Definition irf_resume_rsp (f : InterruptReturnFrame) : option Z :=
  checked_add (irf_raw f)
    (if Z.land (irf_cs f) 3 =? 0 then SAME_CPL_FRAME_BYTES else CROSS_CPL_FRAME_BYTES).

Record ReturnState := mkReturnState {
  rs_rip : Z;
  rs_cs : Z;
  rs_rflags : Z;
  rs_resume_rsp : Z;
  rs_rsp : option Z;
  rs_ss : option Z;
}.

#[export] Instance ReturnState_eq_dec : EqDecision ReturnState.
Proof. solve_decision. Defined.

Definition ReturnState_capture (frame : InterruptReturnFrame) : option ReturnState :=
  match irf_resume_rsp frame with
  | None => None
  | Some resume_rsp =>
      Some (mkReturnState (irf_rip frame) (irf_cs frame) (irf_rflags frame) resume_rsp
              (irf_rsp frame) (irf_ss frame))
  end.

Definition rs_is_kernel (r : ReturnState) : bool := Z.land (rs_cs r) 3 =? 0.
Definition rs_is_user (r : ReturnState) : bool := Z.land (rs_cs r) 3 =? 3.

Definition kernel_iret_words (r : ReturnState) : option (list Z) :=
  if negb (rs_is_kernel r) || (rs_rip r =? 0) || (Z.land (rs_rflags r) 2 =? 0) || (rs_resume_rsp r =? 0)
  then None else Some [rs_rip r; rs_cs r; rs_rflags r].

Record InterruptedState := mkInterrupted { is_registers : SavedRegisters; is_return_state : ReturnState }.

#[export] Instance InterruptedState_eq_dec : EqDecision InterruptedState.
Proof. solve_decision. Defined.

Definition InterruptedState_capture {E} (registers : SavedRegisters) (frame : InterruptReturnFrame)
  : result E InterruptedState :=
  match ReturnState_capture frame with
  | Some return_state => Ok (mkInterrupted registers return_state)
  | None => Panic
  end.

Definition is_valid (s : InterruptedState) : bool :=
  let r := is_return_state s in
  negb (rs_rip r =? 0) && negb (Z.land (rs_rflags r) 2 =? 0) && negb (rs_resume_rsp r =? 0) &&
  (rs_is_kernel r || (bool_decide (is_Some (rs_rsp r)) && bool_decide (is_Some (rs_ss r)))).

Definition is_user_valid (s : InterruptedState) : bool :=
  let r := is_return_state s in
  if negb (is_valid s) || negb (rs_is_user r) || negb (bool_decide (is_Some (rs_rsp r))) then false
  else match rs_ss r with
       | None => false
       | Some ss => (Z.land (rs_cs r) 3 =? 3) && (Z.land ss 3 =? 3)
       end.

(** ** Kernel contexts *)
Record Context := mkCtx {
  c_rsp : Z; c_rbp : Z; c_rbx : Z; c_r12 : Z; c_r13 : Z; c_r14 : Z; c_r15 : Z; c_rip : Z;
}.

#[export] Instance Context_eq_dec : EqDecision Context.
Proof. solve_decision. Defined.

Definition Context_empty : Context := mkCtx 0 0 0 0 0 0 0 0.
Definition is_initialized (c : Context) : bool := negb (c_rsp c =? 0) && negb (c_rip c =? 0).

(** The boxed record and the address it lives at. *)
Record ActivationRecord := mkActivation { act_task_id : TaskId; act_entry : Z; act_pointer : Z }.

Definition bootstrap_context (stack_top : Z) (activation : ActivationRecord) (trampoline : Z)
  : option Context :=
  match checked_sub stack_top 8 with
  | None => None
  | Some below =>
      let aligned := Z.land below (not_u64 15) in
      match checked_add aligned 8 with
      | None => None
      | Some entry_rsp =>
          if (entry_rsp =? 0) || (stack_top <? entry_rsp) || negb (Z.land entry_rsp 15 =? 8) then None
          else Some (mkCtx entry_rsp 0 0 (act_pointer activation) 0 0 0 trampoline)
      end
  end.

(** ** Kernel execution bindings *)
Definition KERNEL_STACK_SIZE : Z := 32 * 1024.

Inductive ExecutionError := StackAllocationFailed | InvalidStack | InterruptedStateAlreadyPresent.

Record X86ExecutionBinding := mkXBinding {
  xb_task_id : TaskId;
  (** The stack [Vec]: where it lives and how long it is. *)
  xb_stack_base : Z;
  xb_stack_len : Z;
  xb_activation : ActivationRecord;
  xb_context : Context;
  xb_interrupted : option InterruptedState;
}.

(** What the heap and the linker contribute to a new binding. *)
Record KernelMemory := mkKernelMemory {
  km_stack : option Z;
  km_activation : Z;
  km_trampoline : Z;
}.

Definition X86ExecutionBinding_new (memory : KernelMemory) (task_id : TaskId) (entry : Z)
  : result ExecutionError X86ExecutionBinding :=
  let? stack := ok_or (km_stack memory) StackAllocationFailed in
  let activation := mkActivation task_id entry (km_activation memory) in
  let? stack_top := ok_or (checked_add stack KERNEL_STACK_SIZE) InvalidStack in
  let? context := ok_or (bootstrap_context stack_top activation (km_trampoline memory)) InvalidStack in
  Ok (mkXBinding task_id stack KERNEL_STACK_SIZE activation context None).

Definition xb_stack_top (b : X86ExecutionBinding) : option Z := checked_add (xb_stack_base b) (xb_stack_len b).

Definition with_interrupted (b : X86ExecutionBinding) (i : option InterruptedState) : X86ExecutionBinding :=
  mkXBinding (xb_task_id b) (xb_stack_base b) (xb_stack_len b) (xb_activation b) (xb_context b) i.

Definition install_interrupted (b : X86ExecutionBinding) (snapshot : InterruptedState)
  : result ExecutionError unit * X86ExecutionBinding :=
  if bool_decide (is_Some (xb_interrupted b)) then (Err InterruptedStateAlreadyPresent, b)
  else if negb (is_valid snapshot) then (Err InvalidStack, b)
  else (Ok tt, with_interrupted b (Some snapshot)).

Definition capture_interrupted (b : X86ExecutionBinding) (registers : SavedRegisters)
    (frame : InterruptReturnFrame) (_resume_rsp : Z) : result ExecutionError unit * X86ExecutionBinding :=
  if bool_decide (is_Some (xb_interrupted b)) then (Err InterruptedStateAlreadyPresent, b)
  else match InterruptedState_capture registers frame with
       | Ok snapshot => install_interrupted b snapshot
       | Err e => (Err e, b)
       | Panic => (Panic, b)
       end.

Definition take_interrupted (b : X86ExecutionBinding) : option InterruptedState * X86ExecutionBinding :=
  (xb_interrupted b, with_interrupted b None).

Definition xb_is_bootstrapped (b : X86ExecutionBinding) : bool :=
  is_initialized (xb_context b) && (xb_stack_len b =? KERNEL_STACK_SIZE) &&
  bool_decide (act_task_id (xb_activation b) = xb_task_id b).

Definition xb_validate (b : X86ExecutionBinding) : result ExecutionError unit :=
  if negb (xb_stack_len b =? KERNEL_STACK_SIZE) || negb (is_initialized (xb_context b)) ||
     negb (bool_decide (act_task_id (xb_activation b) = xb_task_id b)) ||
     negb (c_r12 (xb_context b) =? act_pointer (xb_activation b)) ||
     match xb_interrupted b with Some state => negb (is_valid state) | None => false end ||
     negb (bool_decide (is_Some (xb_stack_top b)))
  then Err InvalidStack else Ok tt.

#[export] Instance x86_binding : ExecutionBinding X86ExecutionBinding ExecutionError := {|
  binding_task_id := xb_task_id;
  binding_is_bootstrapped := xb_is_bootstrapped;
  binding_validate := xb_validate;
|}.

(** ** The registry of kernel execution bindings *)
Inductive RegistryInsertError := RegAlreadyBound | RegAllocation.
Inductive InterruptCaptureError := CaptureTaskNotFound | CaptureExecution (e : ExecutionError).

Inductive PreemptionPlan :=
| ReturnToContext (task_id : TaskId) (context : Context)
| IretKernel (task_id : TaskId) (state : InterruptedState).

Definition plan_task_id (p : PreemptionPlan) : TaskId :=
  match p with ReturnToContext task_id _ | IretKernel task_id _ => task_id end.
Definition is_kernel_iret (p : PreemptionPlan) : bool :=
  match p with IretKernel _ _ => true | ReturnToContext _ _ => false end.

Abbreviation ExecutionRegistry := (list (option X86ExecutionBinding)).

Definition ExecutionRegistry_new : ExecutionRegistry := [].
Definition er_get (r : ExecutionRegistry) (task_id : TaskId) : option X86ExecutionBinding :=
  reg_find xb_task_id r task_id.

Definition er_insert (memory : KernelMemory) (r : ExecutionRegistry) (handle : ExecutionHandle) (entry : Z)
  : result RegistryInsertError unit * ExecutionRegistry :=
  let task_id := handle_task_id handle in
  if bool_decide (is_Some (er_get r task_id)) then (Err RegAlreadyBound, r)
  else match X86ExecutionBinding_new memory task_id entry with
       | Ok binding => (Ok tt, reg_fill r binding)
       | Err _ => (Err RegAllocation, r)
       | Panic => (Panic, r)
       end.

Definition er_remove (r : ExecutionRegistry) (handle : ExecutionHandle) : bool * ExecutionRegistry :=
  let task_id := handle_task_id handle in
  match position (slot_matches xb_task_id task_id) r with
  | None => (false, r)
  | Some i => (true, <[i := None]> r)
  end.

Definition er_kernel_stack_top (r : ExecutionRegistry) (task_id : TaskId) : option Z :=
  er_get r task_id ≫= xb_stack_top.

Definition er_capture_interrupted (r : ExecutionRegistry) (task_id : TaskId) (registers : SavedRegisters)
    (frame : InterruptReturnFrame) (resume_rsp : Z)
  : result InterruptCaptureError InterruptedState * ExecutionRegistry :=
  match er_get r task_id with
  | None => (Err CaptureTaskNotFound, r)
  | Some binding =>
      let '(res, binding') := capture_interrupted binding registers frame resume_rsp in
      let r' := reg_update xb_task_id r task_id (fun _ => binding') in
      match res with
      | Ok _ => (ok_or (xb_interrupted binding') (CaptureExecution InvalidStack), r')
      | Err e => (Err (CaptureExecution e), r')
      | Panic => (Panic, r')
      end
  end.

Definition preemption_plan (r : ExecutionRegistry) (task_id : TaskId) : option PreemptionPlan :=
  match er_get r task_id with
  | None => None
  | Some binding =>
      let fallback :=
        if is_initialized (xb_context binding)
        then Some (ReturnToContext task_id (xb_context binding)) else None in
      match xb_interrupted binding with
      | Some state =>
          match kernel_iret_words (is_return_state state) with
          | Some _ => Some (IretKernel task_id state)
          | None => fallback
          end
      | None => fallback
      end
  end.

Definition take_kernel_preempt_state (r : ExecutionRegistry) (task_id : TaskId)
  : option InterruptedState * ExecutionRegistry :=
  match er_get r task_id with
  | None => (None, r)
  | Some binding =>
      match xb_interrupted binding with
      | None => (None, r)
      | Some state =>
          match kernel_iret_words (is_return_state state) with
          | None => (None, r)
          | Some _ =>
              let '(taken, binding') := take_interrupted binding in
              (taken, reg_update xb_task_id r task_id (fun _ => binding'))
          end
      end
  end.

(** [split_at_mut], the two indexings and the two [as_deref]s; an index out of
    bounds is the panic. *)
Definition context_pair {E} (r : ExecutionRegistry) (current next : TaskId)
  : result E (option (Context * Context)) :=
  if bool_decide (current = next) then Ok None
  else match position (slot_matches xb_task_id current) r, position (slot_matches xb_task_id next) r with
       | Some current_index, Some next_index =>
           let both (c n : option (option X86ExecutionBinding)) :=
             match c, n with
             | Some (Some c), Some (Some n) => Ok (Some (xb_context c, xb_context n))
             | Some _, Some _ => Ok None
             | _, _ => Panic
             end in
           if bool_decide (current_index < next_index)%nat
           then both (take next_index r !! current_index) (drop next_index r !! O)
           else both (drop current_index r !! O) (take current_index r !! next_index)
       | _, _ => Ok None
       end.

Definition er_contains (r : ExecutionRegistry) (handle : ExecutionHandle) : bool :=
  bool_decide (is_Some (er_get r (handle_task_id handle))).
Definition er_count (r : ExecutionRegistry) : nat := length (filter is_Some r).
Definition er_is_valid (r : ExecutionRegistry) (handle : ExecutionHandle) : bool :=
  match er_get r (handle_task_id handle) with
  | Some binding => is_ok (binding_validate binding)
  | None => false
  end.

Abbreviation er_wf := (reg_wf xb_task_id).

(** *** Lemmas *)
Lemma land_15 x : Z.land x 15 = x mod 16.
Proof. apply (Z.land_ones x 4). lia. Qed.

(** The initial stack pointer keeps the ABI alignment inside the stack. *)
Lemma bootstrap_context_spec stack_top activation trampoline :
  16 <= stack_top <= U64_MAX ->
  exists c, bootstrap_context stack_top activation trampoline = Some c /\
    c_rsp c mod 16 = 8 /\ stack_top - 16 < c_rsp c <= stack_top /\ c_rip c = trampoline /\
    c_r12 c = act_pointer activation.
Proof.
  intros Ht. unfold bootstrap_context.
  assert (checked_sub stack_top 8 = Some (stack_top - 8)) as -> by (apply checked_sub_Some; lia).
  cbv zeta. change 15 with (Z.ones 4) at 1. rewrite (land_mask _ 4) by ulia. change (2 ^ 4) with 16.
  set (a := stack_top - 8 - (stack_top - 8) mod 16).
  pose proof (Z.mod_pos_bound (stack_top - 8) 16 ltac:(lia)).
  assert (Ha : a mod 16 = 0).
  { unfold a. pose proof (Z.div_mod (stack_top - 8) 16 ltac:(lia)).
    replace (_ - _) with (((stack_top - 8) / 16) * 16) by lia. apply Z.mod_mul. lia. }
  assert (checked_add a 8 = Some (a + 8)) as -> by (apply checked_add_Some; lia).
  assert (Hm : (a + 8) mod 16 = 8) by (rewrite Z.add_mod, Ha by lia; done).
  rewrite land_15, Hm. cbn [Z.eqb Pos.eqb negb].
  destruct ((a + 8 =? 0) || (stack_top <? a + 8) || false) eqn:Hb.
  - exfalso. rewrite orb_false_r in Hb. apply orb_true_iff in Hb as [Hb|Hb]; to_prop; lia.
  - eexists. split; [done|]. cbn. split_and!; [done|lia|lia|done|done].
Qed.

(** What the heap must provide for a fresh binding to be usable. *)
Record memory_ok (memory : KernelMemory) : Prop := mk_memory_ok {
  mo_stack : forall base, km_stack memory = Some base ->
    0 <= base /\ base + KERNEL_STACK_SIZE <= U64_MAX;
  mo_trampoline : km_trampoline memory <> 0;
}.

Lemma binding_new_valid memory task_id entry :
  memory_ok memory ->
  match X86ExecutionBinding_new memory task_id entry with
  | Ok b => xb_task_id b = task_id /\ xb_validate b = Ok tt /\ xb_interrupted b = None /\
            xb_stack_top b = (fun base => base + KERNEL_STACK_SIZE) <$> km_stack memory /\
            is_Some (km_stack memory)
  | Err e => e = StackAllocationFailed /\ km_stack memory = None
  | Panic => False
  end.
Proof.
  intros [Hs Ht]. unfold X86ExecutionBinding_new. destruct (km_stack memory) as [base|]; [|done].
  destruct (Hs base eq_refl) as [Hb Hm]. cbn [ok_or]. unfold KERNEL_STACK_SIZE in *.
  assert (Hca : checked_add base (32 * 1024) = Some (base + 32 * 1024)) by (apply checked_add_Some; lia).
  rewrite Hca. cbn [ok_or].
  destruct (bootstrap_context_spec (base + 32 * 1024) (mkActivation task_id entry (km_activation memory))
              (km_trampoline memory)) as (c & -> & Hal & Hr & Hrip & Hr12); [lia|].
  cbn [ok_or]. split_and!; [done| |done| |eauto].
  - unfold xb_validate, xb_stack_top, is_initialized, KERNEL_STACK_SIZE. cbn [xb_stack_len xb_context
      xb_activation xb_task_id xb_interrupted xb_stack_base act_task_id]. rewrite Hca, Hr12, Hrip.
    rewrite (proj2 (Z.eqb_neq (km_trampoline memory) 0)), (proj2 (Z.eqb_neq (c_rsp c) 0)) by lia || done.
    rewrite !bool_decide_true by done || eauto. rewrite !Z.eqb_refl. done.
  - unfold xb_stack_top. cbn [xb_stack_base xb_stack_len]. by rewrite Hca.
Qed.

Lemma er_remove_clear r handle :
  er_remove r handle = (bool_decide (is_Some (er_get r (handle_task_id handle))),
                        reg_clear xb_task_id r (handle_task_id handle)).
Proof.
  unfold er_remove, reg_clear, er_get.
  destruct (position _ r) as [i|] eqn:Hp.
  - apply reg_position_Some in Hp as (b & _ & ->). by rewrite bool_decide_true by eauto.
  - apply reg_position_None in Hp. rewrite Hp. rewrite bool_decide_false; [done|]. by intros [? ?].
Qed.

Lemma context_pair_spec {E} r current next :
  context_pair (E := E) r current next =
  Ok (if bool_decide (current = next) then None
      else match er_get r current, er_get r next with
           | Some c, Some n => Some (xb_context c, xb_context n)
           | _, _ => None
           end).
Proof.
  unfold context_pair, er_get. case_bool_decide as Hne; [done|].
  destruct (position (slot_matches xb_task_id current) r) as [i|] eqn:Hi.
  2: { apply reg_position_None in Hi. by rewrite Hi. }
  destruct (position (slot_matches xb_task_id next) r) as [j|] eqn:Hj.
  2: { apply reg_position_None in Hj. rewrite Hj. by case_match. }
  apply reg_position_Some in Hi as (c & Hi & Hc), Hj as (n & Hj & Hn). rewrite Hc, Hn.
  assert (i <> j).
  { intros ->. rewrite Hi in Hj. injection Hj as ->.
    apply reg_find_key in Hc, Hn. congruence. }
  case_bool_decide.
  - rewrite lookup_take_lt by lia. rewrite lookup_drop, Nat.add_0_r, Hi, Hj. done.
  - rewrite lookup_drop, Nat.add_0_r. rewrite lookup_take_lt by lia. by rewrite Hi, Hj.
Qed.

Lemma er_insert_spec memory r handle entry :
  memory_ok memory ->
  match er_insert memory r handle entry with
  | (Ok _, r') =>
      er_get r (handle_task_id handle) = None /\ is_Some (km_stack memory) /\
      exists b, X86ExecutionBinding_new memory (handle_task_id handle) entry = Ok b /\ r' = reg_fill r b /\
                xb_task_id b = handle_task_id handle /\ xb_validate b = Ok tt /\ xb_interrupted b = None /\
                xb_stack_top b = (fun base => base + KERNEL_STACK_SIZE) <$> km_stack memory
  | (Err RegAlreadyBound, r') => r' = r /\ is_Some (er_get r (handle_task_id handle))
  | (Err RegAllocation, r') => r' = r /\ er_get r (handle_task_id handle) = None /\ km_stack memory = None
  | (Panic, _) => False
  end.
Proof.
  intros Hm. unfold er_insert. cbv zeta. case_bool_decide as Hg; [done|].
  assert (Hn : er_get r (handle_task_id handle) = None) by (destruct (er_get _ _); [by destruct Hg|done]).
  pose proof (binding_new_valid memory (handle_task_id handle) entry Hm) as Hb.
  destruct (X86ExecutionBinding_new _ _ _) as [b|e|] eqn:Hnew; [|by destruct Hb|done].
  destruct Hb as (? & ? & ? & ? & ?). split_and!; [done|done|]. by exists b.
Qed.

(** The execution registry is a partial map from tasks to bindings.  An insert
    adds a binding that validates for a task that had none, and only a missing stack
    or an existing binding refuses it, leaving the registry unchanged; a remove
    deletes that binding only; both keep one binding per task.  The pair of contexts
    for a switch exists exactly for two distinct bound tasks, whichever of the two
    slots comes first, and picking it never panics. *)
Theorem execution_registry_map memory r handle entry :
  memory_ok memory -> er_wf r ->
  let t := handle_task_id handle in
  match er_insert memory r handle entry with
  | (Ok _, r') => er_get r t = None /\ er_is_valid r' handle = true /\ er_wf r' /\
                  (forall t', t' <> t -> er_get r' t' = er_get r t')
  | (Err RegAlreadyBound, r') => r' = r /\ is_Some (er_get r t)
  | (Err RegAllocation, r') => r' = r /\ km_stack memory = None
  | (Panic, _) => False
  end /\
  (let '(removed, r') := er_remove r handle in
   removed = er_contains r handle /\ er_get r' t = None /\ er_wf r' /\
   (forall t', t' <> t -> er_get r' t' = er_get r t')) /\
  (forall next, context_pair (E := Empty_set) r t next =
     Ok (if bool_decide (t = next) then None
         else match er_get r t, er_get r next with
              | Some c, Some n => Some (xb_context c, xb_context n)
              | _, _ => None
              end)).
Proof.
  intros Hm Hw t. split; [|split; [|intros next; apply context_pair_spec]].
  - pose proof (er_insert_spec memory r handle entry Hm) as Hi. fold t in Hi.
    destruct (er_insert memory r handle entry) as [[[]|[]|] r']; [|done|tauto|done].
    destruct Hi as (Hn & _ & b & _ & -> & Hk & Hv & _). unfold er_get in Hn |- *.
    assert (Hn' : reg_find xb_task_id r (xb_task_id b) = None) by by rewrite Hk.
    split_and!; [done| |by apply reg_wf_fill|].
    + unfold er_is_valid, er_get. fold t. rewrite reg_find_fill by done.
      rewrite bool_decide_true by done. cbn. by rewrite Hv.
    + intros t' Hne. rewrite reg_find_fill by done. by rewrite bool_decide_false by congruence.
  - rewrite er_remove_clear. fold t. unfold er_contains, er_get. fold t.
    split_and!; [done|by rewrite reg_find_clear, bool_decide_true|by apply reg_wf_clear|].
    intros t' Hne. by rewrite reg_find_clear, bool_decide_false by done.
Qed.

Definition demo_memory : KernelMemory := mkKernelMemory (Some 1048576) 4096 8192.

Lemma demo_memory_ok : memory_ok demo_memory.
Proof. split; [|done]. intros base [= <-]. unfold KERNEL_STACK_SIZE. ulia. Qed.

Lemma execution_registry_map_witness :
  let h := ExecutionHandle_for_task (mkTaskId 0 1) in
  let r := (er_insert demo_memory [] h 77).2 in
  er_is_valid r h = true /\ er_get (er_remove r h).2 (mkTaskId 0 1) = None.
Proof.
  intros h r.
  assert (Hok : er_insert demo_memory [] h 77 = (Ok tt, r)) by (vm_compute; reflexivity).
  assert (Hw : er_wf r) by (vm_compute; repeat constructor; apply not_elem_of_nil).
  destruct (execution_registry_map demo_memory [] h 77 demo_memory_ok ltac:(constructor)) as [Hi _].
  destruct (execution_registry_map demo_memory r h 77 demo_memory_ok Hw) as (_ & Hr & _).
  rewrite Hok in Hi. split; [exact (proj1 (proj2 Hi))|].
  destruct (er_remove r h) as [removed r']. exact (proj1 (proj2 Hr)).
Defined.

Lemma with_interrupted_id b i : xb_interrupted b = i -> with_interrupted b i = b.
Proof. by destruct b; simpl; intros ->. Qed.

(** The two outcomes of a capture. *)
Lemma er_capture_cases r t registers frame rsp :
  match er_capture_interrupted r t registers frame rsp with
  | (Ok st, r') => exists b rs, er_get r t = Some b /\ xb_interrupted b = None /\
      ReturnState_capture frame = Some rs /\ st = mkInterrupted registers rs /\ is_valid st = true /\
      r' = reg_update xb_task_id r t (fun _ => with_interrupted b (Some st))
  | (Err e, r') => r' = r
  | (Panic, r') => r' = r /\ irf_resume_rsp frame = None
  end.
Proof.
  unfold er_capture_interrupted. destruct (er_get r t) as [b|] eqn:Hb; [|done].
  unfold capture_interrupted. case_bool_decide as Hi; [by apply reg_update_same|].
  assert (Hnone : xb_interrupted b = None) by (destruct (xb_interrupted b); [by destruct Hi|done]).
  unfold InterruptedState_capture.
  destruct (ReturnState_capture frame) as [rs|] eqn:Hrs.
  - unfold install_interrupted. rewrite bool_decide_false by done. destruct (negb (is_valid _)) eqn:Hv.
    + by apply reg_update_same.
    + apply negb_false_iff in Hv. cbn [xb_interrupted with_interrupted ok_or]. exists b, rs. done.
  - split; [by apply reg_update_same|]. unfold ReturnState_capture in Hrs. by case_match.
Qed.

(** A task's interrupted CPU state is neither lost nor overwritten.  A capture
    stores exactly the saved registers and the CPU's return frame; a second capture
    before it is consumed is refused and changes nothing.  A kernel snapshot is what
    the preemption plan returns to, and taking it returns that snapshot once and
    restores the registry to what it was; a userspace snapshot is never consumed by
    the kernel return path.  A failed capture changes nothing, and the only panic is a
    return frame at the very top of the address space. *)
Theorem interrupted_snapshot_kept_once r t registers frame rsp :
  match er_capture_interrupted r t registers frame rsp with
  | (Ok st, r') =>
      is_registers st = registers /\ rs_rip (is_return_state st) = irf_rip frame /\
      rs_cs (is_return_state st) = irf_cs frame /\ rs_rflags (is_return_state st) = irf_rflags frame /\
      rs_rsp (is_return_state st) = irf_rsp frame /\ is_valid st = true /\
      (forall registers' frame' rsp', er_capture_interrupted r' t registers' frame' rsp' =
         (Err (CaptureExecution InterruptedStateAlreadyPresent), r')) /\
      (if rs_is_kernel (is_return_state st)
       then preemption_plan r' t = Some (IretKernel t st) /\
            exists r'', take_kernel_preempt_state r' t = (Some st, r'') /\
                        take_kernel_preempt_state r'' t = (None, r'') /\
                        forall t', er_get r'' t' = er_get r t'
       else take_kernel_preempt_state r' t = (None, r'))
  | (Err _, r') => r' = r
  | (Panic, r') => r' = r /\ irf_resume_rsp frame = None
  end.
Proof.
  pose proof (er_capture_cases r t registers frame rsp) as Hc.
  destruct (er_capture_interrupted r t registers frame rsp) as [[st|e|] r']; [|done|done].
  destruct Hc as (b & rs & Hb & Hnone & Hrs & -> & Hv & ->).
  assert (Hk : xb_task_id b = t) by by apply reg_find_key in Hb.
  set (st := mkInterrupted registers rs) in *. set (b' := with_interrupted b (Some st)).
  assert (Hb' : forall t', er_get (reg_update xb_task_id r t (fun _ => b')) t' =
                           if bool_decide (t' = t) then Some b' else er_get r t').
  { intros t'. by apply (reg_find_set _ _ _ b). }
  set (r' := reg_update xb_task_id r t (fun _ => b')) in *.
  assert (Hg : er_get r' t = Some b') by by rewrite Hb', bool_decide_true.
  unfold ReturnState_capture in Hrs. destruct (irf_resume_rsp frame) as [rr|]; [|done]. injection Hrs as <-.
  do 6 (split; [done|]). split.
  - intros. unfold er_capture_interrupted. rewrite Hg. unfold capture_interrupted.
    rewrite bool_decide_true by (cbn; eauto). f_equal. by apply reg_update_same.
  - set (rs := mkReturnState _ _ _ _ _ _) in *.
    assert (Hwords : is_Some (kernel_iret_words rs) <-> rs_is_kernel rs = true).
    { unfold kernel_iret_words. unfold is_valid in Hv. cbn [is_return_state st] in Hv. to_prop.
      repeat match goal with H : (_ =? _) = false |- _ => rewrite H; clear H end.
      repeat match goal with H : (_ <> _) |- _ => apply Z.eqb_neq in H; rewrite H; clear H end.
      destruct (rs_is_kernel rs); simpl; split; [done|eauto|by intros [? ?]|done]. }
    unfold preemption_plan, take_kernel_preempt_state at 1 3. rewrite Hg.
    cbn [xb_interrupted with_interrupted b' is_return_state st].
    destruct (rs_is_kernel rs) eqn:Hker.
    + destruct (proj2 Hwords eq_refl) as [w ->]. split; [done|]. cbn [take_interrupted].
      eexists. split; [done|]. set (r'' := reg_update _ r' t _).
      assert (Hb'' : forall t', er_get r'' t' = er_get r t').
      { intros t'. etransitivity; [by apply (reg_find_set _ _ _ b')|].
        change (reg_find xb_task_id r' t') with (er_get r' t'). rewrite Hb'.
        case_bool_decide as Ht; [|done]. rewrite Ht, Hb. f_equal. by apply (with_interrupted_id b None). }
      split; [|done]. unfold take_kernel_preempt_state. by rewrite Hb'', Hb, Hnone.
    + destruct (kernel_iret_words rs); [|done].
      exfalso. assert (false = true) by (apply Hwords; eauto). done.
Qed.
