(* ===== verification/UserExecution.v ===== *)
(** * Userspace execution state

    The return frame of [arch/x86_64/user_return.rs], the launch adapter
    [arch/x86_64/user_launch.rs], the bindings and registry of
    [arch/x86_64/user_execution.rs] and the transfer plan of
    [arch/x86_64/user_return_transfer.rs]. *)

From stdpp Require Import base numbers sets list options.
From S2P Require Import Prelude Tasks Memory LoadPlan Process Execution.

Local Open Scope Z_scope.
Local Open Scope rust_scope.

(** ** Return frames *)
Definition USER_DATA_SELECTOR : Z := 19.
Definition USER_CODE_SELECTOR : Z := 27.

Record UserReturnFrame := mkUserFrame {
  uf_rip : Z; uf_cs : Z; uf_rflags : Z; uf_rsp : Z; uf_ss : Z;
}.

Inductive UserReturnError := KernelSelector | InvalidRflags.

Definition UserReturnFrame_from_initial (context : InitialContext) (user_code user_data : Z)
  : result UserReturnError UserReturnFrame :=
  if negb (Z.land user_code 3 =? 3) || negb (Z.land user_data 3 =? 3) then Err KernelSelector
  else
    let rflags := 514 in
    if (Z.land rflags 2 =? 0) || (Z.land rflags (2 ^ 9) =? 0) then Err InvalidRflags
    else Ok (mkUserFrame (ctx_entry context) user_code rflags (ctx_stack_pointer context) user_data).

(** ** Launches *)
(** The level-4 table of an address space, by the physical address of its frame. *)
Record AddressSpaceRoot := mkRoot { root_physical_address : Z }.

Inductive UserLaunchAdapterError := InvalidReturnFrame (e : UserReturnError).

Record PreparedUserLaunch := mkLaunch {
  pl_address_space : AddressSpaceId;
  pl_root : AddressSpaceRoot;
  pl_frame : UserReturnFrame;
}.

Definition prepare_launch (root : AddressSpaceRoot) (plan : UserLaunchPlan)
  : result UserLaunchAdapterError PreparedUserLaunch :=
  let? context := map_err (fun _ => InvalidReturnFrame InvalidRflags)
                    (InitialContext_new (ulp_entry plan) (ulp_stack_pointer plan)) in
  let? frame := map_err InvalidReturnFrame
                  (UserReturnFrame_from_initial context USER_CODE_SELECTOR USER_DATA_SELECTOR) in
  Ok (mkLaunch (ulp_address_space plan) root frame).

(** ** Bindings *)
Record UserExecutionBinding := mkUserBinding {
  ub_process : ProcessId;
  ub_task : TaskId;
  ub_address_space : AddressSpaceId;
  ub_launch : PreparedUserLaunch;
  ub_resume : option InterruptedState;
}.

Inductive UserExecutionBindingError :=
| UserAddressSpaceMismatch | ResumeStateAlreadyPresent | InvalidResumeState.

Definition UserExecutionBinding_new (process : ProcessId) (task : TaskId) (address_space : AddressSpaceId)
    (launch : PreparedUserLaunch) : result UserExecutionBindingError UserExecutionBinding :=
  if negb (bool_decide (pl_address_space launch = address_space)) then Err UserAddressSpaceMismatch
  else Ok (mkUserBinding process task address_space launch None).

Definition with_resume (b : UserExecutionBinding) (r : option InterruptedState) : UserExecutionBinding :=
  mkUserBinding (ub_process b) (ub_task b) (ub_address_space b) (ub_launch b) r.

Definition ub_install_resume (b : UserExecutionBinding) (state : InterruptedState)
  : result UserExecutionBindingError unit * UserExecutionBinding :=
  if bool_decide (is_Some (ub_resume b)) then (Err ResumeStateAlreadyPresent, b)
  else if negb (is_user_valid state) then (Err InvalidResumeState, b)
  else (Ok tt, with_resume b (Some state)).

Definition ub_clear_resume (b : UserExecutionBinding) : option InterruptedState * UserExecutionBinding :=
  (ub_resume b, with_resume b None).

(** ** The registry *)
Inductive UserExecutionRegistryError :=
| UserAlreadyBound | UserNotFound | UserBindingError (e : UserExecutionBindingError).

Abbreviation UserExecutionRegistry := (list (option UserExecutionBinding)).

Definition UserExecutionRegistry_new : UserExecutionRegistry := [].
Definition ur_get (r : UserExecutionRegistry) (task : TaskId) : option UserExecutionBinding :=
  reg_find ub_task r task.

Definition ur_insert (r : UserExecutionRegistry) (binding : UserExecutionBinding)
  : result UserExecutionRegistryError unit * UserExecutionRegistry :=
  if bool_decide (is_Some (ur_get r (ub_task binding))) then (Err UserAlreadyBound, r)
  else (Ok tt, r ++ [Some binding]).

Definition ur_remove (r : UserExecutionRegistry) (task : TaskId)
  : result UserExecutionRegistryError UserExecutionBinding * UserExecutionRegistry :=
  match position (slot_matches ub_task task) r with
  | None => (Err UserNotFound, r)
  | Some i =>
      match r !! i with
      | Some (Some binding) => (Ok binding, <[i := None]> r)
      | _ => (Err UserNotFound, r)
      end
  end.

Definition ur_install_resume (r : UserExecutionRegistry) (task : TaskId) (state : InterruptedState)
  : result UserExecutionRegistryError unit * UserExecutionRegistry :=
  match ur_get r task with
  | None => (Err UserNotFound, r)
  | Some binding =>
      let '(res, binding') := ub_install_resume binding state in
      (map_err UserBindingError res, reg_update ub_task r task (fun _ => binding'))
  end.

Definition ur_clear_resume (r : UserExecutionRegistry) (task : TaskId)
  : result UserExecutionRegistryError (option InterruptedState) * UserExecutionRegistry :=
  match ur_get r task with
  | None => (Err UserNotFound, r)
  | Some binding =>
      let '(taken, binding') := ub_clear_resume binding in
      (Ok taken, reg_update ub_task r task (fun _ => binding'))
  end.

Definition ur_count (r : UserExecutionRegistry) : nat := length (filter is_Some r).

Abbreviation ur_wf := (reg_wf ub_task).

(** ** Transfers *)
Record UserReturnTransfer := mkTransfer {
  ut_process : ProcessId; ut_task : TaskId; ut_binding : UserExecutionBinding;
}.

Inductive UserReturnTransferError :=
| CurrentTask | TransferInvalidSelectors | TransferInvalidRflags | TransferInvalidResumeState.

Definition UserReturnTransfer_new (binding : UserExecutionBinding) : UserReturnTransfer :=
  mkTransfer (ub_process binding) (ub_task binding) binding.

Definition ut_root (t : UserReturnTransfer) : AddressSpaceRoot := pl_root (ub_launch (ut_binding t)).
Definition ut_frame (t : UserReturnTransfer) : UserReturnFrame := pl_frame (ub_launch (ut_binding t)).
Definition ut_resume (t : UserReturnTransfer) : option InterruptedState := ub_resume (ut_binding t).

Definition ut_validate (t : UserReturnTransfer) (current_task : option TaskId)
  : result UserReturnTransferError UserReturnTransfer :=
  if bool_decide (current_task = Some (ut_task t)) then Err CurrentTask
  else match ut_resume t with
       | Some state => if negb (is_user_valid state) then Err TransferInvalidResumeState else Ok t
       | None =>
           let frame := ut_frame t in
           if negb (Z.land (uf_cs frame) 3 =? 3) || negb (Z.land (uf_ss frame) 3 =? 3)
           then Err TransferInvalidSelectors
           else if (Z.land (uf_rflags frame) 2 =? 0) || (Z.land (uf_rflags frame) (2 ^ 9) =? 0)
           then Err TransferInvalidRflags
           else Ok t
       end.

(** ** Lemmas *)
Lemma ut_validate_cases t current :
  (exists e, ut_validate t current = Err e) \/
  ut_validate t current = Ok t /\ current <> Some (ut_task t).
Proof.
  unfold ut_validate. case_bool_decide; [eauto|].
  repeat (case_match || case_if); eauto; right; eauto.
Qed.

Lemma ur_remove_clear r task :
  ur_remove r task = (ok_or (ur_get r task) UserNotFound, reg_clear ub_task r task).
Proof.
  unfold ur_remove, reg_clear, ur_get. destruct (position _ r) as [i|] eqn:Hp.
  - apply reg_position_Some in Hp as (b & -> & ->). done.
  - apply reg_position_None in Hp. by rewrite Hp.
Qed.

Lemma ur_get_task r t b : ur_get r t = Some b -> ub_task b = t.
Proof. apply reg_find_key. Qed.

(** The frame a launch is prepared with is one the transfer check accepts. *)
Definition frame_ok (f : UserReturnFrame) : Prop :=
  Z.land (uf_cs f) 3 = 3 /\ Z.land (uf_ss f) 3 = 3 /\ Z.land (uf_rflags f) 2 <> 0 /\
  Z.land (uf_rflags f) (2 ^ 9) <> 0.

Lemma prepare_launch_ok root plan launch :
  prepare_launch root plan = Ok launch ->
  frame_ok (pl_frame launch) /\ pl_address_space launch = ulp_address_space plan /\
  pl_root launch = root /\ uf_rip (pl_frame launch) = ulp_entry plan /\
  uf_rsp (pl_frame launch) = ulp_stack_pointer plan.
Proof.
  unfold prepare_launch. destruct (InitialContext_new _ _) as [c|e|] eqn:Hc; [|done|done].
  cbn. intros [= <-]. cbn. unfold InitialContext_new in Hc.
  repeat case_if; try done. injection Hc as <-. cbn. by split_and!.
Qed.

Lemma ut_validate_fresh b current :
  frame_ok (pl_frame (ub_launch b)) -> (forall st, ub_resume b = Some st -> is_user_valid st = true) ->
  current <> Some (ub_task b) ->
  ut_validate (UserReturnTransfer_new b) current = Ok (UserReturnTransfer_new b).
Proof.
  intros (Hcs & Hss & Hr1 & Hr2) Hres Hne. unfold ut_validate, ut_resume, ut_frame. cbn [ut_task ut_binding
    UserReturnTransfer_new]. rewrite bool_decide_false by done.
  destruct (ub_resume b) as [st|]; [by rewrite (Hres st eq_refl)|].
  rewrite Hcs, Hss. rewrite (proj2 (Z.eqb_neq _ _) Hr1), (proj2 (Z.eqb_neq _ _) Hr2). done.
Qed.
