(* ===== verification/KernelTask.v ===== *)
(** * The CPU's handoff state and kernel tasks

    [arch/x86_64/cpu_local.rs], the kernel entry stack of [arch/x86_64/gdt.rs],
    the transition check of [arch/x86_64/dispatch.rs] and the kernel-task manager
    of [arch/x86_64/kernel_task.rs], which owns the scheduler, the execution
    registry and the sleep queue together.

    [VirtAddr::new] belongs to the [x86_64] crate and is a parameter: a predicate
    saying for which addresses it returns instead of panicking. *)

From stdpp Require Import base numbers sets relations list options.
From S2P Require Import Prelude Tasks Queues Scheduler SchedulerInv SchedulerSteps Syscall Execution.

Local Open Scope Z_scope.
Local Open Scope rust_scope.

(** ** Architecture-local state *)
Record CpuLocalState := mkCpuLocal {
  cl_current_task : option TaskId;
  cl_runtime : option Z;
  cl_system_runtime : option Z;
  cl_syscall_action : option SyscallReturnAction;
  cl_interrupted : option (TaskId * InterruptedState);
}.

Inductive RuntimeBindingError := BindNull | BindAlreadyBound.
Inductive CaptureError := NoCurrentTask | AlreadyPending | InvalidState.

Definition CpuLocalState_new : CpuLocalState := mkCpuLocal None None None None None.

Definition set_current_task (c : CpuLocalState) (task : option TaskId) : CpuLocalState :=
  mkCpuLocal task (cl_runtime c) (cl_system_runtime c) (cl_syscall_action c) (cl_interrupted c).
Definition publish_syscall_action (c : CpuLocalState) (action : SyscallReturnAction) : CpuLocalState :=
  mkCpuLocal (cl_current_task c) (cl_runtime c) (cl_system_runtime c) (Some action) (cl_interrupted c).
Definition take_syscall_action (c : CpuLocalState) : option SyscallReturnAction * CpuLocalState :=
  (cl_syscall_action c,
   mkCpuLocal (cl_current_task c) (cl_runtime c) (cl_system_runtime c) None (cl_interrupted c)).

Definition bind_runtime (c : CpuLocalState) (runtime : Z) : result RuntimeBindingError unit * CpuLocalState :=
  if bool_decide (is_Some (cl_runtime c)) then (Err BindAlreadyBound, c)
  else if runtime =? 0 then (Err BindNull, c)
  else (Ok tt, mkCpuLocal (cl_current_task c) (Some runtime) (cl_system_runtime c) (cl_syscall_action c)
                 (cl_interrupted c)).

Definition bind_system_runtime (c : CpuLocalState) (runtime : Z)
  : result RuntimeBindingError unit * CpuLocalState :=
  if bool_decide (is_Some (cl_system_runtime c)) then (Err BindAlreadyBound, c)
  else if runtime =? 0 then (Err BindNull, c)
  else (Ok tt, mkCpuLocal (cl_current_task c) (cl_runtime c) (Some runtime) (cl_syscall_action c)
                 (cl_interrupted c)).

Definition unbind_runtime (c : CpuLocalState) : CpuLocalState :=
  mkCpuLocal (cl_current_task c) None (cl_system_runtime c) (cl_syscall_action c) (cl_interrupted c).
Definition unbind_system_runtime (c : CpuLocalState) : CpuLocalState :=
  mkCpuLocal (cl_current_task c) (cl_runtime c) None (cl_syscall_action c) (cl_interrupted c).

Definition cl_capture_interrupted (c : CpuLocalState) (registers : SavedRegisters)
    (frame : InterruptReturnFrame) (_resume_rsp : Z) : result CaptureError TaskId * CpuLocalState :=
  match cl_current_task c with
  | None => (Err NoCurrentTask, c)
  | Some task =>
      if bool_decide (is_Some (cl_interrupted c)) then (Err AlreadyPending, c)
      else match InterruptedState_capture registers frame with
           | Ok snapshot =>
               if negb (is_valid snapshot) then (Err InvalidState, c)
               else (Ok task, mkCpuLocal (cl_current_task c) (cl_runtime c) (cl_system_runtime c)
                                (cl_syscall_action c) (Some (task, snapshot)))
           | Err e => (Err e, c)
           | Panic => (Panic, c)
           end
  end.

Definition cl_take_interrupted (c : CpuLocalState) : option (TaskId * InterruptedState) * CpuLocalState :=
  (cl_interrupted c,
   mkCpuLocal (cl_current_task c) (cl_runtime c) (cl_system_runtime c) (cl_syscall_action c) None).

Definition runtime_ptr (c : CpuLocalState) : option Z := cl_runtime c.
Definition system_runtime_ptr (c : CpuLocalState) : option Z := cl_system_runtime c.
Definition interrupted (c : CpuLocalState) : option (TaskId * InterruptedState) := cl_interrupted c.
Definition interrupted_task (c : CpuLocalState) : option TaskId := fst <$> interrupted c.
Definition has_interrupted (c : CpuLocalState) : bool := bool_decide (is_Some (interrupted c)).

(** The CPU: its local state, the kernel entry stack of the installed TSS (if
    [gdt::init] ran) and the timer cells of [idt.rs]. *)
Record Cpu := mkCpu {
  cpu_local : CpuLocalState;
  cpu_rsp0 : option Z;
  cpu_timer_ticks : Z;
  cpu_timer_pending : bool;
}.

Definition with_local (c : Cpu) (l : CpuLocalState) : Cpu :=
  mkCpu l (cpu_rsp0 c) (cpu_timer_ticks c) (cpu_timer_pending c).

Section KernelTask.
Context `{VirtAddrCrate}.

Definition set_kernel_stack_top {E} (c : Cpu) (stack_top : Z) : result E unit * Cpu :=
  match cpu_rsp0 c with
  | None => (Panic, c)
  | Some _ =>
      if virt_addr_new_ok stack_top
      then (Ok tt, mkCpu (cpu_local c) (Some stack_top) (cpu_timer_ticks c) (cpu_timer_pending c))
      else (Panic, c)
  end.

(** ** Dispatch validation *)
Inductive DispatchError := MissingExecution | InvalidExecution | SameTask.

Definition validate_transition (registry : ExecutionRegistry) (previous : option TaskId) (next : TaskId)
  : result DispatchError unit :=
  let? next_binding := ok_or (er_get registry next) MissingExecution in
  if negb (is_ok (binding_validate next_binding)) then Err InvalidExecution
  else if bool_decide (previous = Some next) then Err SameTask
  else Ok tt.

(** ** The manager *)
Inductive KernelTaskError :=
| KtScheduler (e : SchedulerError)
| KtRegistry (e : RegistryInsertError)
| KtDispatch (e : DispatchError)
| KtDispatchMismatch
| KtKernelStackUnavailable.

Record KernelTaskManager := mkTaskManager {
  ktm_scheduler : Scheduler;
  ktm_executions : ExecutionRegistry;
  ktm_sleepers : SleepQueue;
}.

Definition KernelTaskManager_new : KernelTaskManager := mkTaskManager Scheduler_new ExecutionRegistry_new [].

Definition ktm_set_scheduler (m : KernelTaskManager) (s : Scheduler) : KernelTaskManager :=
  mkTaskManager s (ktm_executions m) (ktm_sleepers m).
Definition ktm_set_executions (m : KernelTaskManager) (r : ExecutionRegistry) : KernelTaskManager :=
  mkTaskManager (ktm_scheduler m) r (ktm_sleepers m).

Definition ktm_spawn (memory : KernelMemory) (m : KernelTaskManager) (priority : Priority) (entry : Z)
  : result KernelTaskError TaskId * KernelTaskManager :=
  match create_task (ktm_scheduler m) priority with
  | (Err e, s) => (Err e, ktm_set_scheduler m s)
  | (Panic, s) => (Panic, ktm_set_scheduler m s)
  | (Ok task_id, s) =>
      match attach_execution s task_id with
      | (Err error, s) =>
          (Err (KtScheduler error), ktm_set_scheduler m (destroy_created s task_id).2)
      | (Panic, s) => (Panic, ktm_set_scheduler m s)
      | (Ok handle, s) =>
          match er_insert memory (ktm_executions m) handle entry with
          | (Err error, r) =>
              (Err (KtRegistry error), mkTaskManager (destroy_created s task_id).2 r (ktm_sleepers m))
          | (Panic, r) => (Panic, mkTaskManager s r (ktm_sleepers m))
          | (Ok _, r) =>
              let '(ready, s) := make_ready s task_id in
              if negb ready
              then (Err (KtScheduler TaskNotCreated),
                    mkTaskManager (destroy_created s task_id).2 (er_remove r handle).2 (ktm_sleepers m))
              else (Ok task_id, mkTaskManager s r (ktm_sleepers m))
          end
      end
  end.

Definition prepare_dispatch (m : KernelTaskManager) (c : Cpu)
  : result KernelTaskError DispatchDecision * KernelTaskManager * Cpu :=
  let previous := current (ktm_scheduler m) in
  match next_ready (ktm_scheduler m) with
  | None => (Ok (mkDecision previous None), m, c)
  | Some candidate =>
      if bool_decide (Some candidate = previous) then (Ok (mkDecision previous None), m, c)
      else match validate_transition (ktm_executions m) previous candidate with
           | Err e => (Err (KtDispatch e), m, c)
           | Panic => (Panic, m, c)
           | Ok _ =>
               match er_kernel_stack_top (ktm_executions m) candidate with
               | None => (Err KtKernelStackUnavailable, m, c)
               | Some stack_top =>
                   let '(decision, s) := schedule_next (ktm_scheduler m) in
                   let m := ktm_set_scheduler m s in
                   if negb (bool_decide (next decision = Some candidate))
                   then (Err KtDispatchMismatch, m, c)
                   else match set_kernel_stack_top c stack_top with
                        | (Ok _, c) => (Ok decision, m, c)
                        | (Err e, c) => (Err e, m, c)
                        | (Panic, c) => (Panic, m, c)
                        end
               end
           end
  end.

Definition ktm_sleep_current_until (m : KernelTaskManager) (deadline : Z)
  : result KernelTaskError TaskId * KernelTaskManager :=
  let '(r, s, q) := sleep_current_until (ktm_scheduler m) deadline (ktm_sleepers m) in
  (map_err KtScheduler r, mkTaskManager s (ktm_executions m) q).

Definition ktm_expire_sleepers (m : KernelTaskManager) (now : Z) : nat * KernelTaskManager :=
  let '(woken, s, q) := expire_sleepers (ktm_scheduler m) now (ktm_sleepers m) in
  (length woken, mkTaskManager s (ktm_executions m) q).

Definition next_sleep_deadline (m : KernelTaskManager) : option Z := sleep_next_deadline (ktm_sleepers m).
Definition ktm_task_count (m : KernelTaskManager) : nat := task_count (ktm_scheduler m).

Definition is_executable (m : KernelTaskManager) (task_id : TaskId) : bool :=
  match execution (ktm_scheduler m) task_id with
  | None => false
  | Some handle => er_is_valid (ktm_executions m) handle
  end.

Definition ktm_exit_current (m : KernelTaskManager) : bool * KernelTaskManager :=
  match current (ktm_scheduler m) with
  | None => (false, m)
  | Some task_id =>
      match execution (ktm_scheduler m) task_id with
      | None => (false, m)
      | Some handle =>
          let q := (sleep_remove (ktm_sleepers m) task_id).2 in
          let '(exited, s) := exit_current (ktm_scheduler m) in
          if negb exited then (false, mkTaskManager s (ktm_executions m) q)
          else let '(removed, r) := er_remove (ktm_executions m) handle in
               (removed, mkTaskManager s r q)
      end
  end.
End KernelTask.

(** ** A concrete CPU

    [VirtAddr::new] as documented: it panics on non-canonical addresses. *)
Definition canonical_virt_addr : VirtAddrCrate :=
  {| virt_addr_new_ok := fun a => (a <? 2 ^ 47) || (2 ^ 64 - 2 ^ 47 <=? a) |}.

Definition demo_cpu : Cpu := mkCpu CpuLocalState_new (Some 0) 0 false.
