(* ===== verification/Runtime.v ===== *)
(** * The kernel runtime ([arch/x86_64/runtime.rs])

    The single-CPU owner of the task manager, and its timer path: what the
    interrupt handler does with the snapshot captured on entry.  The voluntary
    switch itself ([dispatch_once], through the naked [context_switch::switch]) is
    in [Dispatch] and [Asm]. *)

From stdpp Require Import base numbers sets relations list options.
From S2P Require Import Prelude Tasks Queues Scheduler SchedulerInv SchedulerSteps Syscall Execution KernelTask.

Local Open Scope Z_scope.
Local Open Scope rust_scope.

Inductive YieldError := NullCurrent | NullNext | SameContext | CurrentUninitialized | NextUninitialized.

Inductive RuntimeError :=
| RtTask (e : KernelTaskError)
| NoRunnableTask
| MissingExecutionPair
| UserspaceTaskRequiresSystemRuntime
| RtYield (e : YieldError)
| PreemptionDisabled
| RtInterruptedState (e : ExecutionError)
| CpuBinding (e : RuntimeBindingError)
| InterruptedTaskRequiresIret.

Inductive InterruptPreemption :=
| ResumeCurrent
| PreemptToContext (context : Context)
| PreemptToKernel (state : InterruptedState).

Record KernelRuntime := mkRuntime {
  kr_manager : KernelTaskManager;
  kr_boot_context : Context;
  kr_reschedule : RescheduleRequest;
  kr_preemption : PreemptionGate;
}.

Definition KernelRuntime_new : KernelRuntime :=
  mkRuntime KernelTaskManager_new Context_empty RescheduleRequest_new PreemptionGate_new.

Definition kr_set_manager (k : KernelRuntime) (m : KernelTaskManager) : KernelRuntime :=
  mkRuntime m (kr_boot_context k) (kr_reschedule k) (kr_preemption k).

Definition request_reschedule (k : KernelRuntime) : KernelRuntime :=
  mkRuntime (kr_manager k) (kr_boot_context k) (resched_request (kr_reschedule k)) (kr_preemption k).

(** [let _ = self.reschedule.take()] *)
Definition clear_reschedule (k : KernelRuntime) : KernelRuntime :=
  mkRuntime (kr_manager k) (kr_boot_context k) (resched_take (kr_reschedule k)).2 (kr_preemption k).

Definition kr_bind_cpu (c : Cpu) (self : Z) : result RuntimeError unit * Cpu :=
  let '(r, l) := bind_runtime (cpu_local c) self in (map_err CpuBinding r, with_local c l).

Definition discard_interrupted_state (c : Cpu) : Cpu := with_local c (cl_take_interrupted (cpu_local c)).2.

Definition take_timer_pending (c : Cpu) : bool * Cpu :=
  (cpu_timer_pending c, mkCpu (cpu_local c) (cpu_rsp0 c) (cpu_timer_ticks c) false).

Definition commit_interrupted_state (k : KernelRuntime) (c : Cpu)
  : result RuntimeError unit * KernelRuntime * Cpu :=
  let l := cpu_local c in
  match cl_current_task l with
  | None => (if bool_decide (is_Some (cl_interrupted l)) then Err MissingExecutionPair else Ok tt, k, c)
  | Some task_id =>
      match er_get (ktm_executions (kr_manager k)) task_id with
      | None => (Err MissingExecutionPair, k, c)
      | Some binding =>
          if bool_decide (is_Some (xb_interrupted binding))
          then (Err (RtInterruptedState InterruptedStateAlreadyPresent), k, c)
          else match fst <$> cl_interrupted l with
               | None => (Ok tt, k, c)
               | Some captured_task =>
                   if negb (bool_decide (captured_task = task_id)) then (Err MissingExecutionPair, k, c)
                   else match cl_take_interrupted l with
                        | (None, l') => (Err MissingExecutionPair, k, with_local c l')
                        | (Some (captured_task, snapshot), l') =>
                            if negb (bool_decide (captured_task = task_id))
                            then (Err MissingExecutionPair, k, with_local c l')
                            else
                              let '(r, binding') := install_interrupted binding snapshot in
                              (map_err RtInterruptedState r,
                               kr_set_manager k (ktm_set_executions (kr_manager k)
                                 (reg_update xb_task_id (ktm_executions (kr_manager k)) task_id
                                    (fun _ => binding'))),
                               with_local c l')
                        end
               end
      end
  end.

Section Runtime.
Context `{VirtAddrCrate}.

Definition kr_spawn (memory : KernelMemory) (k : KernelRuntime) (priority : Priority) (entry : Z)
  : result RuntimeError TaskId * KernelRuntime :=
  let '(r, m) := ktm_spawn memory (kr_manager k) priority entry in
  (map_err RtTask r, kr_set_manager k m).

Definition prepare_run (k : KernelRuntime) (c : Cpu) : result RuntimeError TaskId * KernelRuntime * Cpu :=
  match prepare_dispatch (kr_manager k) c with
  | (Err e, m, c) => (Err (RtTask e), kr_set_manager k m, c)
  | (Panic, m, c) => (Panic, kr_set_manager k m, c)
  | (Ok decision, m, c) =>
      let k := kr_set_manager k m in
      match next decision with
      | None => (Err NoRunnableTask, k, c)
      | Some nxt =>
          if bool_decide (task_kind (ktm_scheduler m) nxt = Some Userspace)
          then (Err UserspaceTaskRequiresSystemRuntime, k, c)
          else (Ok nxt, k, c)
      end
  end.

Definition prepare_preemption (k : KernelRuntime) : result RuntimeError PreemptionPlan :=
  let s := ktm_scheduler (kr_manager k) in
  let? nxt := ok_or (next_ready s) NoRunnableTask in
  if bool_decide (task_kind s nxt = Some Userspace) then Err UserspaceTaskRequiresSystemRuntime
  else ok_or (preemption_plan (ktm_executions (kr_manager k)) nxt) MissingExecutionPair.

(** The last part of [handle_timer_preemption]: the dispatch of the validated
    candidate and the consumption of its plan. *)
Definition commit_preemption (k : KernelRuntime) (c : Cpu) (candidate : TaskId) (plan : PreemptionPlan)
  : result RuntimeError InterruptPreemption * KernelRuntime * Cpu :=
  match prepare_dispatch (kr_manager k) c with
  | (Err error, m, c) => (Err (RtTask error), request_reschedule (kr_set_manager k m), c)
  | (Panic, m, c) => (Panic, kr_set_manager k m, c)
  | (Ok decision, m, c) =>
      let k := kr_set_manager k m in
      if negb (bool_decide (next decision = Some candidate))
      then (Err MissingExecutionPair, request_reschedule k, c)
      else match plan with
           | ReturnToContext _ context =>
               (Ok (PreemptToContext context), clear_reschedule k,
                with_local c (set_current_task (cpu_local c) (Some candidate)))
           | IretKernel _ _ =>
               match take_kernel_preempt_state (ktm_executions (kr_manager k)) candidate with
               | (Some state, r) =>
                   (Ok (PreemptToKernel state),
                    clear_reschedule (kr_set_manager k (ktm_set_executions (kr_manager k) r)),
                    with_local c (set_current_task (cpu_local c) (Some candidate)))
               | (None, r) =>
                   (Err MissingExecutionPair,
                    request_reschedule (kr_set_manager k (ktm_set_executions (kr_manager k) r)), c)
               end
           end
  end.

Definition handle_timer_preemption (k : KernelRuntime) (c : Cpu)
  : result RuntimeError InterruptPreemption * KernelRuntime * Cpu :=
  let c := (take_timer_pending c).2 in
  if negb (gate_is_enabled (kr_preemption k))
  then (Ok ResumeCurrent, request_reschedule k, discard_interrupted_state c)
  else
    let k := kr_set_manager k (ktm_expire_sleepers (kr_manager k) (cpu_timer_ticks c)).2 in
    let s := ktm_scheduler (kr_manager k) in
    match next_ready s with
    | None => (Ok ResumeCurrent, request_reschedule k, discard_interrupted_state c)
    | Some candidate =>
        if bool_decide (task_kind s candidate = Some Userspace)
        then (Err UserspaceTaskRequiresSystemRuntime, request_reschedule k, c)
        else if bool_decide (Some candidate = current s)
        then (Ok ResumeCurrent, k, discard_interrupted_state c)
        else match preemption_plan (ktm_executions (kr_manager k)) candidate with
             | None => (Err MissingExecutionPair, request_reschedule k, discard_interrupted_state c)
             | Some plan =>
                 match commit_interrupted_state k c with
                 | (Err error, k, c) => (Err error, request_reschedule k, c)
                 | (Panic, k, c) => (Panic, k, c)
                 | (Ok _, k, c) => commit_preemption k c candidate plan
                 end
             end
    end.

Definition service_timer (k : KernelRuntime) (now : Z) : nat * KernelRuntime :=
  let '(woken, m) := ktm_expire_sleepers (kr_manager k) now in
  (woken, request_reschedule (kr_set_manager k m)).

Definition service_pending_timer (k : KernelRuntime) (c : Cpu) (now : Z) : nat * KernelRuntime * Cpu :=
  match take_timer_pending c with
  | (false, c) => (O, k, c)
  | (true, c) => (service_timer k now, c)
  end.
End Runtime.

(** ** Preparing a dispatch *)
Section RuntimeProofs.
Context `{VirtAddrCrate}.

(** Every registered kernel stack is one the TSS accepts. *)
Definition stacks_ok (r : ExecutionRegistry) : Prop :=
  forall t top, er_kernel_stack_top r t = Some top -> virt_addr_new_ok top = true.

Lemma stacks_ok_forallb r :
  forallb (fun e => match e ≫= xb_stack_top with Some top => virt_addr_new_ok top | None => true end) r = true ->
  stacks_ok r.
Proof using Type.
  intros Hall t top. unfold er_kernel_stack_top, er_get.
  induction r as [|[b|] r IH]; [done|..]; cbn [forallb mbind option_bind reg_find] in *; to_prop; [|by auto].
  case_bool_decide; [|by auto]. cbn. intros Htop. by rewrite Htop in *.
Qed.

Lemma prepare_dispatch_spec m c p x :
  let s := ktm_scheduler m in
  sched_inv s -> current s = Some p -> state s p = Some Running -> next_ready s = Some x -> x <> p ->
  is_Some (cpu_rsp0 c) -> stacks_ok (ktm_executions m) ->
  match prepare_dispatch m c with
  | (Ok d, m', c') =>
      next d = Some x /\ m' = ktm_set_scheduler m (schedule_next s).2 /\
      current (ktm_scheduler m') = Some x /\ state (ktm_scheduler m') x = Some Running /\
      state (ktm_scheduler m') p = Some Ready /\ sched_inv (ktm_scheduler m') /\
      cpu_local c' = cpu_local c /\ cpu_rsp0 c' = er_kernel_stack_top (ktm_executions m) x /\
      is_Some (er_kernel_stack_top (ktm_executions m) x)
  | (Err _, m', c') => m' = m /\ c' = c
  | (Panic, _, _) => False
  end.
Proof using Type.
  intros s Hi Hc Hrun Hx Hne [r0 Hr0] Hst. unfold prepare_dispatch. fold s. rewrite Hx.
  rewrite bool_decide_false by congruence.
  destruct (validate_transition _ _ _) as [[]|e|] eqn:Hv; [|done|].
  2: { unfold validate_transition in Hv. destruct (er_get _ _); [|done]. cbn [ok_or] in Hv. repeat case_if; done. }
  destruct (er_kernel_stack_top _ x) as [top|] eqn:Htop; [|done].
  pose proof (schedule_next_runs_head s x Hi ltac:(congruence) Hx) as Hs.
  pose proof (schedule_next_requeues s p x Hi Hc Hrun Hx Hne) as Hp.
  destruct (schedule_next s) as [d s']. destruct Hs as (Hd & _ & Hcur & Hrun' & Hi' & _).
  rewrite Hd, bool_decide_true by done. cbn [negb]. unfold set_kernel_stack_top. rewrite Hr0, (Hst x top Htop).
  split_and!; try done; eauto.
Qed.

(** ** The timer interrupt *)
(** The CPU holds a valid snapshot of the task [p] it names, and the binding of [p] has
    room for it. *)
Record captured (k : KernelRuntime) (c : Cpu) (p : TaskId) (snap : InterruptedState)
    (bp : X86ExecutionBinding) : Prop := mk_captured {
  ca_cpu : cl_current_task (cpu_local c) = Some p;
  ca_snapshot : cl_interrupted (cpu_local c) = Some (p, snap);
  ca_valid : is_valid snap = true;
  ca_binding : er_get (ktm_executions (kr_manager k)) p = Some bp;
  ca_free : xb_interrupted bp = None;
}.

(** The kernel task [p] was interrupted and its snapshot captured. *)
Record timer_entry (k : KernelRuntime) (c : Cpu) (p : TaskId) (snap : InterruptedState)
    (bp : X86ExecutionBinding) : Prop := mk_timer_entry {
  te_sched : sched_inv (ktm_scheduler (kr_manager k));
  te_sleep : sleep_inv (ktm_sleepers (kr_manager k));
  te_current : current (ktm_scheduler (kr_manager k)) = Some p;
  te_running : state (ktm_scheduler (kr_manager k)) p = Some Running;
  te_cpu : cl_current_task (cpu_local c) = Some p;
  te_snapshot : cl_interrupted (cpu_local c) = Some (p, snap);
  te_valid : is_valid snap = true;
  te_binding : er_get (ktm_executions (kr_manager k)) p = Some bp;
  te_free : xb_interrupted bp = None;
  te_rsp0 : is_Some (cpu_rsp0 c);
  te_stacks : stacks_ok (ktm_executions (kr_manager k));
}.

(** The CPU went from [p] to the kernel task [x]: [p] is queued with its snapshot
    stored, [x] owns the CPU, and the capture slot is free again. *)
Record preempted (k k' : KernelRuntime) (c' : Cpu) (p x : TaskId) (snap : InterruptedState)
    (bp : X86ExecutionBinding) : Prop := mk_preempted {
  pt_other : x <> p;
  pt_current : current (ktm_scheduler (kr_manager k')) = Some x;
  pt_running : state (ktm_scheduler (kr_manager k')) x = Some Running;
  pt_ready : state (ktm_scheduler (kr_manager k')) p = Some Ready;
  pt_saved : er_get (ktm_executions (kr_manager k')) p = Some (with_interrupted bp (Some snap));
  pt_cpu : cl_current_task (cpu_local c') = Some x;
  pt_free : cl_interrupted (cpu_local c') = None;
  pt_stack : cpu_rsp0 c' = er_kernel_stack_top (ktm_executions (kr_manager k)) x;
  pt_inv : sched_inv (ktm_scheduler (kr_manager k'));
}.

Lemma expire_keeps_owner k c p snap bp now :
  timer_entry k c p snap bp ->
  timer_entry (kr_set_manager k (ktm_expire_sleepers (kr_manager k) now).2) c p snap bp.
Proof using Type.
  intros [Hi Hq Hc Hrun Hcpu Hsnap Hv Hb Hf Hr0 Hst].
  pose proof (expire_sleepers_spec _ now _ Hi Hq) as He. unfold ktm_expire_sleepers.
  destruct (expire_sleepers _ now _) as [[woken s'] q']. destruct He as (Hw & _ & _ & Hc' & Hs' & Hi' & Hq').
  split; cbn; try done; [congruence|]. rewrite Hs', decide_False; [done|].
  intros Hin. rewrite Hw in Hin. apply list_elem_of_filter in Hin as [Hbl _]. congruence.
Qed.

Lemma timer_entry_captured_state k c p snap bp : timer_entry k c p snap bp -> captured k c p snap bp.
Proof using Type. by intros []. Qed.

Lemma commit_interrupted_spec k c p snap bp :
  captured k c p snap bp ->
  exists k' c', commit_interrupted_state k c = (Ok tt, k', c') /\
    k' = kr_set_manager k (ktm_set_executions (kr_manager k)
           (reg_update xb_task_id (ktm_executions (kr_manager k)) p
              (fun _ => with_interrupted bp (Some snap)))) /\
    (forall t, er_get (ktm_executions (kr_manager k')) t =
               if bool_decide (t = p) then Some (with_interrupted bp (Some snap))
               else er_get (ktm_executions (kr_manager k)) t) /\
    cl_current_task (cpu_local c') = Some p /\ cl_interrupted (cpu_local c') = None /\ cpu_rsp0 c' = cpu_rsp0 c.
Proof using Type.
  intros [Hcpu Hsnap Hv Hb Hf]. unfold commit_interrupted_state.
  rewrite Hcpu, Hb, Hf, Hsnap. rewrite bool_decide_false by (by intros [? ?]).
  cbn [fmap option_fmap option_map fst]. rewrite bool_decide_true by done. cbn [negb].
  unfold cl_take_interrupted. rewrite Hsnap. rewrite bool_decide_true by done. cbn [negb].
  unfold install_interrupted. rewrite Hf, Hv, bool_decide_false by (by intros [? ?]). cbn [negb map_err].
  eexists _, _. split; [done|]. split; [done|]. split; [|done].
  intros t. apply (reg_find_set _ _ _ bp); [|done]. cbn. by apply reg_find_key in Hb.
Qed.

(** The dispatch after the snapshot has been stored. *)
Lemma commit_preemption_spec k0 k c p x snap bp plan :
  timer_entry k0 c p snap bp -> next_ready (ktm_scheduler (kr_manager k0)) = Some x -> x <> p ->
  preemption_plan (ktm_executions (kr_manager k0)) x = Some plan ->
  forall c1,
  k = kr_set_manager k0 (ktm_set_executions (kr_manager k0)
        (reg_update xb_task_id (ktm_executions (kr_manager k0)) p (fun _ => with_interrupted bp (Some snap)))) ->
  (forall t, er_get (ktm_executions (kr_manager k)) t =
             if bool_decide (t = p) then Some (with_interrupted bp (Some snap))
             else er_get (ktm_executions (kr_manager k0)) t) ->
  cl_current_task (cpu_local c1) = Some p -> cl_interrupted (cpu_local c1) = None -> cpu_rsp0 c1 = cpu_rsp0 c ->
  match commit_preemption k c1 x plan with
  | (Ok ResumeCurrent, _, _) => False
  | (Ok (PreemptToContext ctx), k', c') => exists bx,
      preempted k0 k' c' p x snap bp /\ er_get (ktm_executions (kr_manager k0)) x = Some bx /\
      ctx = xb_context bx /\ is_initialized ctx = true /\
      attrs (ktm_scheduler (kr_manager k')) x = attrs (ktm_scheduler (kr_manager k0)) x
  | (Ok (PreemptToKernel st), k', c') => exists bx,
      preempted k0 k' c' p x snap bp /\ er_get (ktm_executions (kr_manager k0)) x = Some bx /\
      xb_interrupted bx = Some st /\ rs_is_kernel (is_return_state st) = true /\
      er_get (ktm_executions (kr_manager k')) x = Some (with_interrupted bx None) /\
      attrs (ktm_scheduler (kr_manager k')) x = attrs (ktm_scheduler (kr_manager k0)) x
  | (Err _, k', c') =>
      ktm_scheduler (kr_manager k') = ktm_scheduler (kr_manager k0) /\
      cl_current_task (cpu_local c') = Some p /\ cl_interrupted (cpu_local c') = None
  | (Panic, _, _) => False
  end.
Proof using Type.
  intros [Hi Hq Hc Hrun Hcpu Hsnap Hv Hb Hf Hr0 Hst] Hx Hne Hplan c1 -> Heg Hcl Hci Hrsp.
  set (k := kr_set_manager _ _) in *.
  assert (Htops : forall t, er_kernel_stack_top (ktm_executions (kr_manager k)) t =
                            er_kernel_stack_top (ktm_executions (kr_manager k0)) t).
  { intros t. unfold er_kernel_stack_top. rewrite Heg. case_bool_decide as Hd; [|done]. subst t. by rewrite Hb. }
  unfold commit_preemption.
  pose proof (prepare_dispatch_spec (kr_manager k) c1 p x Hi Hc Hrun Hx Hne ltac:(by rewrite Hrsp)
                ltac:(intros t top; rewrite Htops; apply Hst)) as Hd.
  destruct (prepare_dispatch (kr_manager k) c1) as [[[d|e|] m'] c']; [| |done].
  2: { destruct Hd as [-> ->]. done. }
  destruct Hd as (Hnext & -> & Hcur & Hrx & Hrp & Hi' & Hl & Hrsp' & _).
  rewrite Hnext, bool_decide_true by done. cbn [negb]. rewrite Htops in Hrsp'.
  pose proof (schedule_next_attrs (ktm_scheduler (kr_manager k0)) x) as Hat.
  assert (Hex : er_get (ktm_executions (kr_manager k)) x = er_get (ktm_executions (kr_manager k0)) x)
    by (rewrite Heg; by rewrite bool_decide_false).
  assert (Hpx : er_get (ktm_executions (kr_manager k)) p = Some (with_interrupted bp (Some snap)))
    by (rewrite Heg; by rewrite bool_decide_true).
  unfold preemption_plan in Hplan.
  destruct (er_get (ktm_executions (kr_manager k0)) x) as [bx|] eqn:Hbx; [|done].
  destruct plan as [t' ctx|t' st].
  - exists bx. split; [split; cbn; try done; by rewrite Hl|].
    assert (Hctx : ctx = xb_context bx /\ is_initialized (xb_context bx) = true).
    { repeat case_match; simplify_eq; done. }
    destruct Hctx as [-> ?]. done.
  - assert (Hst' : xb_interrupted bx = Some st /\ is_Some (kernel_iret_words (is_return_state st))).
    { repeat case_match; simplify_eq; eauto. }
    destruct Hst' as [Hint [w Hw]]. unfold take_kernel_preempt_state.
    change (ktm_executions (kr_manager (kr_set_manager k (ktm_set_scheduler (kr_manager k)
      (schedule_next (ktm_scheduler (kr_manager k))).2)))) with (ktm_executions (kr_manager k)).
    rewrite Hex, Hint, Hw. cbn [take_interrupted]. rewrite Hint.
    assert (Hbxk : xb_task_id bx = x) by by apply reg_find_key in Hbx.
    assert (Hg : forall t, er_get (reg_update xb_task_id (ktm_executions (kr_manager k)) x
        (fun _ => with_interrupted bx None)) t =
        if bool_decide (t = x) then Some (with_interrupted bx None) else er_get (ktm_executions (kr_manager k)) t).
    { intros t. by apply (reg_find_set _ _ _ bx). }
    exists bx. split.
    { split; cbn; try done; [|by rewrite Hl]. unfold er_get in Hg |- *. rewrite Hg, bool_decide_false by congruence.
      done. }
    split; [done|]. split; [done|]. split.
    { unfold kernel_iret_words in Hw. case_if; [done|]. by to_prop. }
    split; [|done]. cbn. unfold er_get in Hg |- *. by rewrite Hg, bool_decide_true.
Qed.
End RuntimeProofs.

(** A timer interrupt taken by a kernel task loses no CPU state and never
    switches to a userspace task.  Either the task goes on and its capture slot is
    free again; or another kernel task takes the CPU, the interrupted one is queued
    with exactly the captured snapshot stored in its execution binding, the kernel
    entry stack is the successor's, and the successor continues from its cooperative
    context or from its own stored kernel snapshot, which is consumed.  On an error
    the interrupted task keeps the CPU. *)
Theorem timer_preemption_sound `{VirtAddrCrate} k c p snap bp :
  timer_entry k c p snap bp ->
  match handle_timer_preemption k c with
  | (Ok ResumeCurrent, k', c') =>
      current (ktm_scheduler (kr_manager k')) = Some p /\
      state (ktm_scheduler (kr_manager k')) p = Some Running /\
      cl_current_task (cpu_local c') = Some p /\ cl_interrupted (cpu_local c') = None /\
      ktm_executions (kr_manager k') = ktm_executions (kr_manager k)
  | (Ok (PreemptToContext ctx), k', c') => exists x bx,
      preempted k k' c' p x snap bp /\ er_get (ktm_executions (kr_manager k)) x = Some bx /\
      ctx = xb_context bx /\ is_initialized ctx = true /\
      task_kind (ktm_scheduler (kr_manager k')) x <> Some Userspace
  | (Ok (PreemptToKernel st), k', c') => exists x bx,
      preempted k k' c' p x snap bp /\ er_get (ktm_executions (kr_manager k)) x = Some bx /\
      xb_interrupted bx = Some st /\ rs_is_kernel (is_return_state st) = true /\
      er_get (ktm_executions (kr_manager k')) x = Some (with_interrupted bx None) /\
      task_kind (ktm_scheduler (kr_manager k')) x <> Some Userspace
  | (Err _, k', c') =>
      current (ktm_scheduler (kr_manager k')) = Some p /\
      state (ktm_scheduler (kr_manager k')) p = Some Running /\ cl_current_task (cpu_local c') = Some p
  | (Panic, _, _) => False
  end.
Proof.
  intros Ht. unfold handle_timer_preemption.
  assert (Ht0 : timer_entry k (take_timer_pending c).2 p snap bp) by (destruct Ht; by split).
  destruct (negb (gate_is_enabled (kr_preemption k))); [destruct Ht; by split_and!|].
  set (c0 := (take_timer_pending c).2) in *.
  pose proof (expire_keeps_owner k c0 p snap bp (cpu_timer_ticks c0) Ht0) as Ht1.
  set (k1 := kr_set_manager k _) in *.
  assert (He : ktm_executions (kr_manager k1) = ktm_executions (kr_manager k)).
  { unfold k1, ktm_expire_sleepers.
    by destruct (expire_sleepers (ktm_scheduler (kr_manager k)) _ _) as [[? ?] ?]. }
  destruct (next_ready _) as [x|] eqn:Hx; [|destruct Ht1; by split_and!].
  case_bool_decide as Hk; [destruct Ht1; by split_and!|].
  case_bool_decide as Hxp; [destruct Ht1; by split_and!|].
  assert (Hne : x <> p) by (rewrite (te_current _ _ _ _ _ Ht1) in Hxp; congruence).
  destruct (preemption_plan _ x) as [plan|] eqn:Hplan; [|destruct Ht1; by split_and!].
  destruct (commit_interrupted_spec k1 c0 p snap bp (timer_entry_captured_state _ _ _ _ _ Ht1)) as (k2 & c2 & -> & Hk2 & Heg & Hcl & Hci & Hrsp).
  pose proof (commit_preemption_spec k1 k2 c0 p x snap bp plan Ht1 Hx Hne Hplan c2 Hk2 Heg Hcl Hci Hrsp) as Hs.
  rewrite <- He.
  assert (Hpre : forall k' c', preempted k1 k' c' p x snap bp -> preempted k k' c' p x snap bp).
  { intros k' c' []. split; try done. by rewrite <- He. }
  destruct (commit_preemption k2 c2 x plan) as [[[[|ctx|st]|e|] k'] c']; [done|..|done].
  - destruct Hs as (bx & Hp & Hbx & Hctx & Hini & Hat). exists x, bx. split_and!; auto.
    by rewrite attrs_kind, Hat, <- attrs_kind.
  - destruct Hs as (bx & Hp & Hbx & Hint & Hker & Hcons & Hat). exists x, bx. split_and!; auto.
    by rewrite attrs_kind, Hat, <- attrs_kind.
  - destruct Hs as (-> & Hc' & _). destruct Ht1. by split_and!.
Qed.

(** A pending userspace task stops preemption.  When the head of the ready queue
    is a userspace task, the timer handler returns an error and leaves the captured
    snapshot in the CPU's capture slot, so that on every later tick the capture is
    refused, which is where the interrupt entry gives up. *)
Theorem timer_capture_stuck `{VirtAddrCrate} k c p snap bp x :
  timer_entry k c p snap bp -> gate_is_enabled (kr_preemption k) = true ->
  next_ready (ktm_scheduler (kr_manager k)) = Some x ->
  ktm_sleepers (kr_manager k) = [] -> task_kind (ktm_scheduler (kr_manager k)) x = Some Userspace ->
  exists k' c', handle_timer_preemption k c = (Err UserspaceTaskRequiresSystemRuntime, k', c') /\
    cl_interrupted (cpu_local c') = Some (p, snap) /\
    forall registers frame rsp,
      cl_capture_interrupted (cpu_local c') registers frame rsp = (Err AlreadyPending, cpu_local c').
Proof.
  intros Ht Hg Hx Hq Hk. unfold handle_timer_preemption. rewrite Hg. cbn [negb].
  unfold ktm_expire_sleepers, expire_sleepers. rewrite Hq. cbn. rewrite Hx, Hk, bool_decide_true by done.
  eexists _, _. split; [reflexivity|]. cbn. split; [apply Ht|].
  intros. unfold cl_capture_interrupted. rewrite (te_cpu _ _ _ _ _ Ht), (te_snapshot _ _ _ _ _ Ht).
  by rewrite bool_decide_true by eauto.
Qed.

(** Two kernel tasks, the first interrupted while it runs. *)
#[local] Existing Instance canonical_virt_addr.

Definition demo_memory2 : KernelMemory := mkKernelMemory (Some 2097152) 4160 8192.
Definition demo_kernel : KernelRuntime * Cpu :=
  let k := (kr_spawn demo_memory KernelRuntime_new Priority_DEFAULT 77).2 in
  let k := (kr_spawn demo_memory2 k Priority_DEFAULT 88).2 in
  let '(_, k, c) := prepare_run k demo_cpu in
  let l := set_current_task (cpu_local c) (Some (mkTaskId 0 1)) in
  let frame := mkReturnFrame 1060000 (fun i => nth i [4660; 8; 514] 0) in
  (k, with_local c (cl_capture_interrupted l (mkRegs 1 2 3 4 5 6 7 8 9 10 11 12 13 14 15) frame 0).2).

Definition demo_kernel_ops : list SchedOp :=
  [OpCreate Priority_DEFAULT Kernel; OpAttach (mkTaskId 0 1); OpMakeReady (mkTaskId 0 1);
   OpCreate Priority_DEFAULT Kernel; OpAttach (mkTaskId 1 1); OpMakeReady (mkTaskId 1 1); OpSchedule].

Definition demo_kernel_snap : InterruptedState :=
  mkInterrupted (mkRegs 1 2 3 4 5 6 7 8 9 10 11 12 13 14 15) (mkReturnState 4660 8 514 1060024 None None).
Definition demo_kernel_binding : X86ExecutionBinding :=
  mkXBinding (mkTaskId 0 1) 1048576 KERNEL_STACK_SIZE (mkActivation (mkTaskId 0 1) 77 4096)
    (mkCtx 1081336 0 0 4096 0 0 0 8192) None.

Lemma demo_timer_entry :
  timer_entry demo_kernel.1 demo_kernel.2 (mkTaskId 0 1) demo_kernel_snap demo_kernel_binding.
Proof.
  assert (Hs : ktm_scheduler (kr_manager demo_kernel.1) = run_ops demo_kernel_ops Scheduler_new)
    by (vm_compute; reflexivity).
  assert (Hq : ktm_sleepers (kr_manager demo_kernel.1) = []) by (vm_compute; reflexivity).
  split; [|rewrite Hq; split; constructor|vm_compute; reflexivity..|by exists 1081344|].
  - rewrite Hs. assert (Hr : rtc sched_step Scheduler_new (run_ops demo_kernel_ops Scheduler_new)).
    { apply run_ops_steps. vm_compute. repeat split; discriminate. }
    exact (sound_inv _ _ (steps_sound _ _ Scheduler_new_inv Hr)).
  - apply stacks_ok_forallb. vm_compute. reflexivity.
Qed.

Lemma timer_preemption_sound_witness :
  exists ctx k' c', handle_timer_preemption demo_kernel.1 demo_kernel.2 = (Ok (PreemptToContext ctx), k', c') /\
    xb_interrupted <$> er_get (ktm_executions (kr_manager k')) (mkTaskId 0 1) = Some (Some demo_kernel_snap).
Proof.
  pose proof (timer_preemption_sound demo_kernel.1 demo_kernel.2 (mkTaskId 0 1) demo_kernel_snap
                demo_kernel_binding demo_timer_entry) as Hs.
  assert (Hok : (fun r => match r with Ok (PreemptToContext _) => true | _ => false end)
    (handle_timer_preemption demo_kernel.1 demo_kernel.2).1.1 = true) by (vm_compute; reflexivity).
  destruct (handle_timer_preemption demo_kernel.1 demo_kernel.2) as [[[[|ctx|st]|e|] k'] c']; try discriminate Hok.
  exists ctx, k', c'. split; [reflexivity|]. destruct Hs as (x & bx & Hp & _).
  rewrite (pt_saved _ _ _ _ _ _ _ Hp). reflexivity.
Defined.

(** The same kernel task with a userspace task next in the queue. *)
Definition demo_stuck_ops : list SchedOp :=
  [OpCreate Priority_DEFAULT Kernel; OpAttach (mkTaskId 0 1); OpMakeReady (mkTaskId 0 1);
   OpCreate Priority_DEFAULT Userspace; OpAttach (mkTaskId 1 1); OpMakeReady (mkTaskId 1 1); OpSchedule].
Definition demo_stuck : KernelRuntime :=
  kr_set_manager demo_kernel.1
    (ktm_set_scheduler (kr_manager demo_kernel.1) (run_ops demo_stuck_ops Scheduler_new)).

Lemma demo_stuck_entry :
  timer_entry demo_stuck demo_kernel.2 (mkTaskId 0 1) demo_kernel_snap demo_kernel_binding.
Proof.
  destruct demo_timer_entry. split; [|done|vm_compute; reflexivity|vm_compute; reflexivity|done..].
  assert (Hr : rtc sched_step Scheduler_new (run_ops demo_stuck_ops Scheduler_new)).
  { apply run_ops_steps. vm_compute. repeat split; discriminate. }
  exact (sound_inv _ _ (steps_sound _ _ Scheduler_new_inv Hr)).
Qed.

Lemma timer_capture_stuck_witness :
  exists k' c', handle_timer_preemption demo_stuck demo_kernel.2
                  = (Err UserspaceTaskRequiresSystemRuntime, k', c') /\
    cl_interrupted (cpu_local c') = Some (mkTaskId 0 1, demo_kernel_snap).
Proof.
  destruct (timer_capture_stuck demo_stuck demo_kernel.2 (mkTaskId 0 1) demo_kernel_snap demo_kernel_binding
              (mkTaskId 1 1) demo_stuck_entry ltac:(vm_compute; reflexivity) ltac:(vm_compute; reflexivity)
              ltac:(vm_compute; reflexivity) ltac:(vm_compute; reflexivity)) as (k' & c' & Hr & Hs & _).
  exists k', c'. split; [exact Hr|exact Hs].
Defined.
