(* ===== verification/Dispatch.v ===== *)
(** * Voluntary dispatch

    [arch/x86_64/yield_switch.rs] and the voluntary half of [arch/x86_64/runtime.rs]:
    [dispatch_once], [safe_reschedule_point], [yield_current].

    The naked switch (modelled in [Asm]) leaves in the middle of [dispatch_once] and comes
    back when the task that called it is resumed.  The function is therefore two
    definitions: [dispatch_begin], everything up to the switch, which names the two
    contexts involved, and [dispatch_end], what the resumed call does. *)

From stdpp Require Import base numbers sets relations list options.
From S2P Require Import Prelude Tasks Queues Scheduler SchedulerInv SchedulerSteps Syscall Execution KernelTask Runtime.

Local Open Scope Z_scope.
Local Open Scope rust_scope.

(** ** Contexts by reference ([yield_switch.rs]) *)

(** Where a [Context] lives: in the runtime, or in the boxed binding of a task. *)
Inductive ContextRef := BootContext | TaskContext (t : TaskId).

Global Instance ContextRef_eq_dec : EqDecision ContextRef.
Proof. solve_decision. Defined.

(** [validate]; [None] is the null pointer, [at_] reads a live context. *)
Definition yield_validate (at_ : ContextRef -> Context) (current next : option ContextRef) : result YieldError unit :=
  match current, next with
  | None, _ => Err NullCurrent
  | _, None => Err NullNext
  | Some current, Some next =>
      if bool_decide (current = next) then Err SameContext
      else if negb (is_initialized (at_ current)) then Err CurrentUninitialized
      else if negb (is_initialized (at_ next)) then Err NextUninitialized
      else Ok tt
  end.

(** The checks of [activate_first]. *)
Definition activate_first_check (at_ : ContextRef -> Context) (current next : option ContextRef) : result YieldError unit :=
  match current, next with
  | None, _ => Err NullCurrent
  | _, None => Err NullNext
  | Some current, Some next =>
      if bool_decide (current = next) then Err SameContext
      else if negb (is_initialized (at_ next)) then Err NextUninitialized
      else Ok tt
  end.

(** The contexts of a runtime; [Context_empty] stands where there is none. *)
Definition context_at (k : KernelRuntime) (ref : ContextRef) : Context :=
  match ref with
  | BootContext => kr_boot_context k
  | TaskContext t => default Context_empty (xb_context <$> er_get (ktm_executions (kr_manager k)) t)
  end.

(** What the switch stores in the context of the task that leaves. *)
Definition with_context (b : X86ExecutionBinding) (c : Context) : X86ExecutionBinding :=
  mkXBinding (xb_task_id b) (xb_stack_base b) (xb_stack_len b) (xb_activation b) c (xb_interrupted b).
Definition save_context (k : KernelRuntime) (ref : ContextRef) (saved : Context) : KernelRuntime :=
  match ref with
  | BootContext => mkRuntime (kr_manager k) saved (kr_reschedule k) (kr_preemption k)
  | TaskContext t =>
      kr_set_manager k (ktm_set_executions (kr_manager k)
        (reg_update xb_task_id (ktm_executions (kr_manager k)) t (fun b => with_context b saved)))
  end.

(** ** [dispatch_once] *)
Inductive Dispatched :=
| DispatchFailed (e : RuntimeError)
| DispatchPanicked
| DispatchSwitch (leaving entering : ContextRef) (back : option TaskId).

Section Dispatch.
Context `{VirtAddrCrate}.

Definition set_cpu_task (c : Cpu) (t : option TaskId) : Cpu := with_local c (set_current_task (cpu_local c) t).

(** The [match decision.previous] of [dispatch_once]. *)
Definition dispatch_handover (k : KernelRuntime) (c : Cpu) (prev : option TaskId) (nxt : TaskId)
  : Dispatched * KernelRuntime * Cpu :=
  let executions := ktm_executions (kr_manager k) in
  match prev with
  | None =>
      match er_get executions nxt with
      | None => (DispatchFailed MissingExecutionPair, k, c)
      | Some _ =>
          let c := set_cpu_task c (Some nxt) in
          match activate_first_check (context_at k) (Some BootContext) (Some (TaskContext nxt)) with
          | Ok _ => (DispatchSwitch BootContext (TaskContext nxt) None, k, c)
          | Err e => (DispatchFailed (RtYield e), k, set_cpu_task c None)
          | Panic => (DispatchPanicked, k, c)
          end
      end
  | Some prev =>
      match context_pair (E := Empty_set) executions prev nxt with
      | Ok (Some _) =>
          let c := set_cpu_task c (Some nxt) in
          match yield_validate (context_at k) (Some (TaskContext prev)) (Some (TaskContext nxt)) with
          | Ok _ => (DispatchSwitch (TaskContext prev) (TaskContext nxt) (Some prev), k, c)
          | Err e => (DispatchFailed (RtYield e), k, set_cpu_task c (Some prev))
          | Panic => (DispatchPanicked, k, c)
          end
      | Ok None => (DispatchFailed MissingExecutionPair, k, c)
      | _ => (DispatchPanicked, k, c)
      end
  end.

Definition dispatch_begin (k : KernelRuntime) (c : Cpu) : Dispatched * KernelRuntime * Cpu :=
  let s := ktm_scheduler (kr_manager k) in
  let refused :=
    match next_ready s with
    | Some candidate =>
        if bool_decide (task_kind s candidate = Some Userspace) then Some UserspaceTaskRequiresSystemRuntime
        else match preemption_plan (ktm_executions (kr_manager k)) candidate with
             | Some (IretKernel _ _) => Some InterruptedTaskRequiresIret
             | _ => None
             end
    | None => None
    end in
  match refused with
  | Some e => (DispatchFailed e, k, c)
  | None =>
      match prepare_dispatch (kr_manager k) c with
      | (Err e, m, c) => (DispatchFailed (RtTask e), kr_set_manager k m, c)
      | (Panic, m, c) => (DispatchPanicked, kr_set_manager k m, c)
      | (Ok decision, m, c) =>
          let k := kr_set_manager k m in
          match next decision with
          | None => (DispatchFailed NoRunnableTask, k, c)
          | Some nxt =>
              if bool_decide (task_kind (ktm_scheduler m) nxt = Some Userspace)
              then (DispatchFailed UserspaceTaskRequiresSystemRuntime, k, c)
              else dispatch_handover k c (previous decision) nxt
          end
      end
  end.

(** After the switch came back to the task that called it. *)
Definition dispatch_end (back : option TaskId) (c : Cpu) : Cpu := set_cpu_task c back.

(** [safe_reschedule_point] up to the switch; [None] is [Ok(false)]. *)
Definition safe_reschedule_point (k : KernelRuntime) (c : Cpu) : option Dispatched * KernelRuntime * Cpu :=
  if negb (gate_is_enabled (kr_preemption k)) then (Some (DispatchFailed PreemptionDisabled), k, c)
  else if negb (resched_take (kr_reschedule k)).1 then (None, clear_reschedule k, c)
  else match commit_interrupted_state (clear_reschedule k) c with
       | (Err e, k, c) => (Some (DispatchFailed e), k, c)
       | (Panic, k, c) => (Some DispatchPanicked, k, c)
       | (Ok _, k, c) =>
           match dispatch_begin k c with
           | (DispatchFailed InterruptedTaskRequiresIret, k, c) =>
               (Some (DispatchFailed InterruptedTaskRequiresIret), request_reschedule k, c)
           | (d, k, c) => (Some d, k, c)
           end
       end.

(** [yield_current]; [runtimes] finds the bound runtime behind its pointer. *)
Definition yield_current (runtimes : Z -> KernelRuntime) (c : Cpu) : Dispatched * option KernelRuntime * Cpu :=
  match cl_runtime (cpu_local c) with
  | None => (DispatchFailed (CpuBinding BindNull), None, c)
  | Some pointer =>
      let '(d, k, c) := dispatch_begin (request_reschedule (runtimes pointer)) c in (d, Some k, c)
  end.

(** ** Correctness *)

(** The runtime between dispatches: the owner, if any, runs and has a live context. *)
Record dispatchable (k : KernelRuntime) (c : Cpu) : Prop := mk_dispatchable {
  di_sched : sched_inv (ktm_scheduler (kr_manager k));
  di_running : forall p, current (ktm_scheduler (kr_manager k)) = Some p ->
                 state (ktm_scheduler (kr_manager k)) p = Some Running /\
                 exists b, er_get (ktm_executions (kr_manager k)) p = Some b /\ is_initialized (xb_context b) = true;
  di_rsp0 : is_Some (cpu_rsp0 c);
  di_stacks : stacks_ok (ktm_executions (kr_manager k));
}.

Definition leaving_ref (owner : option TaskId) : ContextRef :=
  match owner with Some p => TaskContext p | None => BootContext end.

(** The successor owns the CPU, the scheduler and the entry stack, and is a cooperative
    kernel task with a live context. *)
Record switched (k k' : KernelRuntime) (c c' : Cpu) (x : TaskId) : Prop := mk_switched {
  sw_head : next_ready (ktm_scheduler (kr_manager k)) = Some x;
  sw_other : current (ktm_scheduler (kr_manager k)) <> Some x;
  sw_current : current (ktm_scheduler (kr_manager k')) = Some x;
  sw_running : state (ktm_scheduler (kr_manager k')) x = Some Running;
  sw_previous : forall p, current (ktm_scheduler (kr_manager k)) = Some p ->
                  state (ktm_scheduler (kr_manager k')) p = Some Ready;
  sw_inv : sched_inv (ktm_scheduler (kr_manager k'));
  sw_executions : ktm_executions (kr_manager k') = ktm_executions (kr_manager k);
  sw_kernel : task_kind (ktm_scheduler (kr_manager k')) x <> Some Userspace;
  sw_context : is_initialized (context_at k (TaskContext x)) = true;
  sw_cooperative : forall t st, preemption_plan (ktm_executions (kr_manager k)) x <> Some (IretKernel t st);
  sw_cpu : cl_current_task (cpu_local c') = Some x;
  sw_manager : kr_manager k' = ktm_set_scheduler (kr_manager k) (schedule_next (ktm_scheduler (kr_manager k))).2;
  sw_entry : is_Some (cpu_rsp0 c');
  sw_local : cpu_local c' = set_current_task (cpu_local c) (Some x);
  sw_stack : cpu_rsp0 c' = er_kernel_stack_top (ktm_executions (kr_manager k)) x;
  sw_back : cl_current_task (cpu_local (dispatch_end (current (ktm_scheduler (kr_manager k))) c')) =
            current (ktm_scheduler (kr_manager k));
}.

Lemma prepare_dispatch_commits m c x :
  let s := ktm_scheduler m in
  sched_inv s -> (forall p, current s = Some p -> state s p = Some Running) -> next_ready s = Some x -> current s <> Some x ->
  is_Some (cpu_rsp0 c) -> stacks_ok (ktm_executions m) ->
  match prepare_dispatch m c with
  | (Ok d, m', c') =>
      next d = Some x /\ previous d = current s /\ m' = ktm_set_scheduler m (schedule_next s).2 /\
      cpu_local c' = cpu_local c /\ cpu_rsp0 c' = er_kernel_stack_top (ktm_executions m) x /\
      exists b, er_get (ktm_executions m) x = Some b /\ is_ok (xb_validate b) = true
  | (Err _, m', c') => m' = m /\ c' = c
  | (Panic, _, _) => False
  end.
Proof using Type.
  intros s Hi Hrun Hx Hne [r0 Hr0] Hst. unfold prepare_dispatch. fold s. rewrite Hx.
  rewrite bool_decide_false by congruence. unfold validate_transition.
  destruct (er_get (ktm_executions m) x) as [b|] eqn:Hb; [cbn [ok_or]|done].
  destruct (is_ok (binding_validate b)) eqn:Hv; cbn [negb]; [|done].
  rewrite bool_decide_false by done.
  destruct (er_kernel_stack_top _ x) as [top|] eqn:Htop; [|done].
  pose proof (schedule_next_runs_head s x Hi Hrun Hx) as Hs.
  destruct (schedule_next s) as [d s']. destruct Hs as (Hd & Hp & _).
  rewrite Hd, bool_decide_true by done. cbn [negb]. unfold set_kernel_stack_top. rewrite Hr0, (Hst x top Htop).
  split_and!; try done. eauto.
Qed.
Lemma validated_initialized b : is_ok (xb_validate b) = true -> is_initialized (xb_context b) = true.
Proof using Type. unfold xb_validate. case_if; [done|]. intros _. by to_prop. Qed.

Lemma validated_top b : is_ok (xb_validate b) = true -> is_Some (xb_stack_top b).
Proof using Type. unfold xb_validate. case_if; [done|]. intros _. by to_prop. Qed.

(** With live bindings on both sides the handover switches. *)
Lemma handover_switches k c prev nxt b :
  er_get (ktm_executions (kr_manager k)) nxt = Some b -> is_initialized (xb_context b) = true -> prev <> Some nxt ->
  (forall p, prev = Some p -> exists b, er_get (ktm_executions (kr_manager k)) p = Some b /\ is_initialized (xb_context b) = true) ->
  dispatch_handover k c prev nxt =
  (DispatchSwitch (leaving_ref prev) (TaskContext nxt) prev, k, set_cpu_task c (Some nxt)).
Proof using Type.
  intros Hb Hinit Hne Hp. unfold dispatch_handover. destruct prev as [p|].
  - destruct (Hp p eq_refl) as (bp & Hbp & Hip). rewrite context_pair_spec, bool_decide_false by congruence.
    rewrite Hbp, Hb. unfold yield_validate. rewrite bool_decide_false by congruence.
    cbn [context_at]. rewrite Hbp, Hb. cbn [fmap option_fmap option_map default from_option id]. by rewrite Hip, Hinit.
  - rewrite Hb. unfold activate_first_check. rewrite bool_decide_false by done. cbn [context_at].
    rewrite Hb. cbn [fmap option_fmap option_map default from_option id]. by rewrite Hinit.
Qed.

Lemma dispatch_commit_switched k c c' x b :
  dispatchable k c -> let s := ktm_scheduler (kr_manager k) in
  next_ready s = Some x -> current s <> Some x -> task_kind s x <> Some Userspace ->
  (forall t st, preemption_plan (ktm_executions (kr_manager k)) x <> Some (IretKernel t st)) ->
  er_get (ktm_executions (kr_manager k)) x = Some b -> is_ok (xb_validate b) = true ->
  cpu_rsp0 c' = er_kernel_stack_top (ktm_executions (kr_manager k)) x -> cpu_local c' = cpu_local c ->
  switched k (kr_set_manager k (ktm_set_scheduler (kr_manager k) (schedule_next s).2)) c (set_cpu_task c' (Some x)) x.
Proof using Type.
  intros [Hi Hrun Hr0 Hst] s Hx Hne Hkind Hplan Hb Hv Hrsp Hl.
  pose proof (schedule_next_runs_head s x Hi (fun p Hp => proj1 (Hrun p Hp)) Hx) as Hs.
  assert (Hreq : forall p, current s = Some p -> state (schedule_next s).2 p = Some Ready).
  { intros p Hp. apply (schedule_next_requeues s p x Hi Hp (proj1 (Hrun p Hp)) Hx). congruence. }
  destruct (schedule_next s) as [d s'] eqn:Hsn. destruct Hs as (_ & _ & Hcur' & Hrun' & Hi' & Hat & _).
  split; cbn; try done.
  - rewrite attrs_kind, Hat, <-attrs_kind. exact Hkind.
  - rewrite Hb. by apply validated_initialized.
  - fold s. by rewrite Hsn.
  - rewrite Hrsp. unfold er_kernel_stack_top. rewrite Hb. by apply validated_top.
  - by rewrite Hl.
Qed.

Lemma dispatch_begin_spec (k : KernelRuntime) (c : Cpu) :
  dispatchable k c ->
  match dispatch_begin k c with
  | (DispatchSwitch leaving entering back, k', c') => exists x,
      leaving = leaving_ref (current (ktm_scheduler (kr_manager k))) /\ entering = TaskContext x /\
      back = current (ktm_scheduler (kr_manager k)) /\ switched k k' c c' x
  | (DispatchFailed _, k', c') => k' = k /\ c' = c
  | (DispatchPanicked, _, _) => False
  end.
Proof using Type.
  intros Hdi. pose proof Hdi as [Hi Hrun Hr0 Hst]. unfold dispatch_begin. set (s := ktm_scheduler (kr_manager k)) in *.
  assert (Hk : kr_set_manager k (kr_manager k) = k) by by destruct k.
  destruct (next_ready s) as [x|] eqn:Hx.
  2: { unfold prepare_dispatch. fold s. rewrite Hx. cbn. by rewrite Hk. }
  case_bool_decide as Hkind; [done|].
  assert (Hp : (exists t st, preemption_plan (ktm_executions (kr_manager k)) x = Some (IretKernel t st)) \/
    (forall t st, preemption_plan (ktm_executions (kr_manager k)) x <> Some (IretKernel t st)) /\
    (match preemption_plan (ktm_executions (kr_manager k)) x with
     | Some (IretKernel _ _) => Some InterruptedTaskRequiresIret | _ => None end) = None).
  { destruct (preemption_plan _ _) as [[]|]; [right|left|right]; eauto; (split; [congruence|done]). }
  destruct Hp as [(t & st & ->)|[Hplan Hp]]; [done|].
  rewrite Hp. destruct (decide (current s = Some x)) as [Hcur|Hne].
  { unfold prepare_dispatch. fold s. rewrite Hx, bool_decide_true by done. cbn. by rewrite Hk. }
  pose proof (prepare_dispatch_commits (kr_manager k) c x Hi (fun p Hp => proj1 (Hrun p Hp)) Hx Hne Hr0 Hst) as Hd.
  destruct (prepare_dispatch (kr_manager k) c) as [[[d|e|] m'] c']; [|destruct Hd as [-> ->]; by rewrite Hk|done].
  destruct Hd as (Hnext & Hprev & -> & Hl & Hrsp & b & Hb & Hv). rewrite Hnext.
  pose proof (validated_initialized b Hv) as Hinit.
  pose proof (dispatch_commit_switched k c c' x b Hdi Hx Hne Hkind Hplan Hb Hv Hrsp Hl) as Hsw.
  rewrite bool_decide_false by exact (sw_kernel _ _ _ _ _ Hsw).
  rewrite (handover_switches _ _ _ x b); [|done|done|by rewrite Hprev|].
  - exists x. rewrite Hprev. fold s. done.
  - rewrite Hprev. intros p Hpp. exact (proj2 (Hrun p Hpp)).
Qed.

(** A voluntary dispatch either fails and leaves the scheduler, the bindings and the
    CPU as they were, or hands the CPU over completely: the head of the ready queue, a
    kernel task without a pending snapshot and with a live context, becomes current in
    the scheduler and on the CPU, its stack is the entry stack, the previous owner is
    queued, and the switch leaves the context of that owner (of the boot code when there
    was none); when the switch comes back the CPU belongs to the owner again.  It never
    panics. *)
Theorem dispatch_once_sound (k : KernelRuntime) (c : Cpu) :
  dispatchable k c ->
  match dispatch_begin k c with
  | (DispatchSwitch leaving entering back, k', c') => exists x,
      leaving = leaving_ref (current (ktm_scheduler (kr_manager k))) /\ entering = TaskContext x /\
      back = current (ktm_scheduler (kr_manager k)) /\ switched k k' c c' x
  | (DispatchFailed _, k', c') => k' = k /\ c' = c
  | (DispatchPanicked, _, _) => False
  end.
Proof using Type. apply dispatch_begin_spec. Qed.

(** A task that once gave up the CPU voluntarily is never dispatched again: the
    switch overwrites the r12 of its context, in which the validation of a binding
    expects the activation record of the first start.  Unless the register happens to
    hold that pointer, every dispatch that finds the task at the head of the ready queue
    fails with nothing changed, so the queue does not move any more. *)
Theorem yielded_task_blocks_queue (k : KernelRuntime) (p : TaskId) (b : X86ExecutionBinding) (saved : Context) :
  let s := ktm_scheduler (kr_manager k) in
  er_get (ktm_executions (kr_manager k)) p = Some b -> xb_interrupted b = None ->
  c_r12 saved <> act_pointer (xb_activation b) ->
  next_ready s = Some p -> current s <> Some p -> task_kind s p <> Some Userspace ->
  let k' := save_context k (TaskContext p) saved in
  forall c, dispatch_begin k' c = (DispatchFailed (RtTask (KtDispatch InvalidExecution)), k', c).
Proof using Type.
  intros s Hb Hint Hr12 Hx Hne Hkind k' c.
  assert (Hb' : er_get (ktm_executions (kr_manager k')) p = Some (with_context b saved)).
  { unfold er_get in Hb. unfold k', save_context, er_get. cbn [kr_manager kr_set_manager ktm_executions ktm_set_executions].
    rewrite reg_find_update by done. rewrite bool_decide_true by done. by rewrite Hb. }
  unfold dispatch_begin. change (ktm_scheduler (kr_manager k')) with s. rewrite Hx.
  rewrite bool_decide_false by done. unfold preemption_plan. rewrite Hb'. cbn [xb_interrupted with_context]. rewrite Hint.
  cbn [xb_context with_context].
  assert (Hp : prepare_dispatch (kr_manager k') c = (Err (KtDispatch InvalidExecution), kr_manager k', c)).
  { unfold prepare_dispatch. change (ktm_scheduler (kr_manager k')) with s. rewrite Hx, bool_decide_false by congruence.
    unfold validate_transition. rewrite Hb'. cbn [ok_or binding_validate x86_binding].
    assert (is_ok (xb_validate (with_context b saved)) = false) as ->; [|done].
    unfold xb_validate. case_if; [done|]. to_prop. done. }
  assert (Hk : kr_set_manager k' (kr_manager k') = k') by by destruct k'.
  case_if; by rewrite Hp, Hk.
Qed.
End Dispatch.

(** ** Examples *)
#[local] Existing Instance canonical_virt_addr.

(** Two kernel tasks; the boot code dispatches the first. *)
Definition demo_boot : KernelRuntime :=
  (kr_spawn demo_memory2 (kr_spawn demo_memory KernelRuntime_new Priority_DEFAULT 77).2 Priority_DEFAULT 88).2.
Definition demo_boot_ops : list SchedOp :=
  [OpCreate Priority_DEFAULT Kernel; OpAttach (mkTaskId 0 1); OpMakeReady (mkTaskId 0 1);
   OpCreate Priority_DEFAULT Kernel; OpAttach (mkTaskId 1 1); OpMakeReady (mkTaskId 1 1)].

Lemma demo_boot_dispatchable : dispatchable demo_boot demo_cpu.
Proof.
  assert (Hs : ktm_scheduler (kr_manager demo_boot) = run_ops demo_boot_ops Scheduler_new) by (vm_compute; reflexivity).
  split.
  - rewrite Hs. assert (Hr : rtc sched_step Scheduler_new (run_ops demo_boot_ops Scheduler_new)).
    { apply run_ops_steps. vm_compute. repeat split; discriminate. }
    exact (sound_inv _ _ (steps_sound _ _ Scheduler_new_inv Hr)).
  - intros p Hp. vm_compute in Hp. discriminate.
  - by eexists.
  - apply stacks_ok_forallb. vm_compute. reflexivity.
Qed.

Lemma dispatch_once_sound_witness :
  exists k' c', dispatch_begin demo_boot demo_cpu =
    (DispatchSwitch BootContext (TaskContext (mkTaskId 0 1)) None, k', c') /\
    switched demo_boot k' demo_cpu c' (mkTaskId 0 1).
Proof.
  pose proof (dispatch_once_sound demo_boot demo_cpu demo_boot_dispatchable) as Hd.
  assert (Hok : (fun d => match d with DispatchSwitch BootContext (TaskContext (mkTaskId 0 1)) None => true | _ => false end)
    (dispatch_begin demo_boot demo_cpu).1.1 = true) by (vm_compute; reflexivity).
  destruct (dispatch_begin demo_boot demo_cpu) as [[d k'] c']. cbn [fst] in Hok.
  destruct d as [e| |l e back]; try discriminate Hok.
  destruct Hd as (x & -> & -> & -> & Hsw). exists k', c'.
  assert (Hx : next_ready (ktm_scheduler (kr_manager demo_boot)) = Some (mkTaskId 0 1)) by (vm_compute; reflexivity).
  pose proof (sw_head _ _ _ _ _ Hsw) as Hh. rewrite Hx in Hh. injection Hh as <-.
  split; [reflexivity|exact Hsw].
Defined.

(** The first task yields to the second with another value in r12, which yields back. *)
Definition demo_saved : Context := mkCtx 1081000 1 2 3 4 5 6 9000.
Definition demo_yielded : KernelRuntime * Cpu :=
  let '(_, k, c) := dispatch_begin demo_boot demo_cpu in
  let '(_, k, c) := dispatch_begin k c in
  (save_context k (TaskContext (mkTaskId 0 1)) demo_saved, c).

Lemma yielded_task_blocks_queue_witness :
  dispatch_begin demo_yielded.1 demo_yielded.2 =
  (DispatchFailed (RtTask (KtDispatch InvalidExecution)), demo_yielded.1, demo_yielded.2).
Proof.
  refine (yielded_task_blocks_queue
    (let '(_, k, c) := dispatch_begin demo_boot demo_cpu in let '(_, k, c) := dispatch_begin k c in k)
    (mkTaskId 0 1) demo_kernel_binding demo_saved _ _ _ _ _ _ demo_yielded.2); vm_compute; (reflexivity || discriminate).
Defined.
