(* ===== verification/SystemRuntime.v ===== *)
(** * The system runtime ([arch/x86_64/system_runtime.rs], [user_successor.rs])

    The owner that keeps the process registry, the scheduler, the kernel execution
    registry and the userspace execution registry in step: spawning a process,
    starting it, and committing the exits and yields its syscalls ask for. *)

From stdpp Require Import base numbers sets relations list options.
From S2P Require Import Prelude Tasks Queues Scheduler SchedulerInv SchedulerSteps.
From S2P Require Import Syscall LoadPlan Process ProcessInv Execution UserExecution.
From S2P Require Import KernelTask Runtime.

Local Open Scope Z_scope.
Local Open Scope rust_scope.

(** ** State *)
Record SystemRuntime := mkSystem {
  sy_processes : ProcessManager;
  sy_runtime : KernelRuntime;
  sy_userspace : UserExecutionRegistry;
  sy_current_process : option ProcessId;
  sy_pending_exit : option (ProcessId * TaskId * Z);
}.

Inductive UserSuccessorError :=
| NoReadyTask | NotUserspace | MissingBinding | ProcessBindingMismatch | SuccTaskNotReady.

Inductive SystemRuntimeError :=
| SysRuntime (e : RuntimeError)
| SysUserBinding (e : UserExecutionRegistryError)
| SysProcess (e : ProcessManagerError)
| SysAddressSpaceMismatch
| SysNoCurrentProcess
| SysTaskBindingMismatch
| SchedulerTaskNotReady
| SysSuccessor (e : UserSuccessorError)
| SysKernelStackUnavailable.

Definition SystemRuntime_new : SystemRuntime :=
  mkSystem ProcessManager_new KernelRuntime_new UserExecutionRegistry_new None None.

Definition sy_scheduler (y : SystemRuntime) : Scheduler := ktm_scheduler (kr_manager (sy_runtime y)).
Definition sy_executions (y : SystemRuntime) : ExecutionRegistry := ktm_executions (kr_manager (sy_runtime y)).

Definition set_processes (y : SystemRuntime) (p : ProcessManager) : SystemRuntime :=
  mkSystem p (sy_runtime y) (sy_userspace y) (sy_current_process y) (sy_pending_exit y).
Definition set_userspace (y : SystemRuntime) (u : UserExecutionRegistry) : SystemRuntime :=
  mkSystem (sy_processes y) (sy_runtime y) u (sy_current_process y) (sy_pending_exit y).
Definition set_runtime (y : SystemRuntime) (k : KernelRuntime) : SystemRuntime :=
  mkSystem (sy_processes y) k (sy_userspace y) (sy_current_process y) (sy_pending_exit y).
Definition set_scheduler (y : SystemRuntime) (s : Scheduler) : SystemRuntime :=
  set_runtime y (kr_set_manager (sy_runtime y) (ktm_set_scheduler (kr_manager (sy_runtime y)) s)).
Definition set_executions (y : SystemRuntime) (r : ExecutionRegistry) : SystemRuntime :=
  set_runtime y (kr_set_manager (sy_runtime y) (ktm_set_executions (kr_manager (sy_runtime y)) r)).
Definition set_current_process (y : SystemRuntime) (p : option ProcessId) : SystemRuntime :=
  mkSystem (sy_processes y) (sy_runtime y) (sy_userspace y) p (sy_pending_exit y).
Definition set_pending_exit (y : SystemRuntime) (p : option (ProcessId * TaskId * Z)) : SystemRuntime :=
  mkSystem (sy_processes y) (sy_runtime y) (sy_userspace y) (sy_current_process y) p.

Definition current_user_binding (y : SystemRuntime) : option UserExecutionBinding :=
  current (sy_scheduler y) ≫= ur_get (sy_userspace y).
Definition take_pending_exit (y : SystemRuntime) : option (ProcessId * TaskId * Z) * SystemRuntime :=
  (sy_pending_exit y, set_pending_exit y None).

(** ** Successor selection ([user_successor.rs]) *)
Record UserSuccessorPlan := mkSuccessor {
  su_process : ProcessId; su_task : TaskId; su_binding : UserExecutionBinding;
}.

Definition select_userspace_successor (y : SystemRuntime) (current_task : option TaskId)
  : result UserSuccessorError UserSuccessorPlan :=
  let? task := ok_or (next_ready (sy_scheduler y)) NoReadyTask in
  if bool_decide (Some task = current_task) then Err SuccTaskNotReady else
  if negb (bool_decide (task_kind (sy_scheduler y) task = Some Userspace)) then Err NotUserspace else
  if negb (bool_decide (state (sy_scheduler y) task = Some Ready)) then Err SuccTaskNotReady else
  let? binding := ok_or (ur_get (sy_userspace y) task) MissingBinding in
  let? found := map_err (fun _ => ProcessBindingMismatch) (pm_binding (sy_processes y) (ub_process binding)) in
  let? process_binding := ok_or found ProcessBindingMismatch in
  if negb (bool_decide (peb_task process_binding = task))
     || negb (bool_decide (peb_address_space process_binding = ub_address_space binding))
     || negb (bool_decide (pm_state (sy_processes y) (ub_process binding) = Ok ProcReady))
  then Err ProcessBindingMismatch
  else Ok (mkSuccessor (ub_process binding) task binding).

(** The chain [binding(process)?.ok_or(TaskBindingMismatch)?]. *)
Definition bound_task (y : SystemRuntime) (process : ProcessId)
  : result SystemRuntimeError ProcessExecutionBinding :=
  let? found := map_err SysProcess (pm_binding (sy_processes y) process) in
  ok_or found SysTaskBindingMismatch.

(** ** Spawning *)
(** The address the linker gives the stub entry of a userspace task. *)
Definition spawn_user_ready (memory : KernelMemory) (userspace_kernel_stub : Z) (y : SystemRuntime)
    (image : ProcessImage) (launch : PreparedUserLaunch) (priority : Priority)
  : result SystemRuntimeError (ProcessId * TaskId) * SystemRuntime :=
  let address_space := spec_id (pi_address_space image) in
  if negb (bool_decide (pl_address_space launch = address_space)) then (Err SysAddressSpaceMismatch, y) else
  match create_user_task (sy_scheduler y) priority with
  | (Err e, s) => (Err e, set_scheduler y s)
  | (Panic, s) => (Panic, set_scheduler y s)
  | (Ok task, s) =>
      match attach_execution s task with
      | (Err error, s) =>
          (Err (SysRuntime (RtTask (KtScheduler error))), set_scheduler y (destroy_created s task).2)
      | (Panic, s) => (Panic, set_scheduler y s)
      | (Ok execution, s) =>
          let destroyed := (destroy_created s task).2 in
          match er_insert memory (sy_executions y) execution userspace_kernel_stub with
          | (Err error, r) =>
              (Err (SysRuntime (RtTask (KtRegistry error))), set_executions (set_scheduler y destroyed) r)
          | (Panic, r) => (Panic, set_executions (set_scheduler y s) r)
          | (Ok _, r) =>
              match spawn_ready (sy_processes y) image task execution address_space with
              | (Err error, p) =>
                  (Err (SysProcess error),
                   set_processes (set_scheduler (set_executions y (er_remove r execution).2) destroyed) p)
              | (Panic, p) => (Panic, set_processes (set_executions (set_scheduler y s) r) p)
              | (Ok spawned, p) =>
                  let unwound :=
                    set_scheduler (set_processes (set_executions y (er_remove r execution).2)
                                     (abort_ready p (sp_id spawned)).2) destroyed in
                  match UserExecutionBinding_new (sp_id spawned) task address_space launch with
                  | Err _ => (Err SysAddressSpaceMismatch, unwound)
                  | Panic => (Panic, set_processes (set_executions (set_scheduler y s) r) p)
                  | Ok binding =>
                      match ur_insert (sy_userspace y) binding with
                      | (Err error, u) => (Err (SysUserBinding error), set_userspace unwound u)
                      | (Panic, u) =>
                          (Panic, set_userspace (set_processes (set_executions (set_scheduler y s) r) p) u)
                      | (Ok _, u) =>
                          let '(ready, s) := make_ready s task in
                          if negb ready
                          then (Err SysTaskBindingMismatch,
                                set_scheduler (set_processes (set_executions
                                  (set_userspace y (ur_remove u task).2) (er_remove r execution).2)
                                  (abort_ready p (sp_id spawned)).2) (destroy_created s task).2)
                          else (Ok (sp_id spawned, task),
                                set_userspace (set_processes (set_executions (set_scheduler y s) r) p) u)
                      end
                  end
              end
          end
      end
  end.

(** ** Syscall control *)
Definition current_binding_checked (y : SystemRuntime) : result SyscallError UserExecutionBinding :=
  if bool_decide (is_Some (sy_pending_exit y)) then Err InvalidArguments else
  let? process := ok_or (sy_current_process y) InvalidArguments in
  let? found := map_err (fun _ => InvalidArguments) (pm_binding (sy_processes y) process) in
  let? binding := ok_or found InvalidArguments in
  let? task := ok_or (current (sy_scheduler y)) InvalidArguments in
  if negb (bool_decide (peb_task binding = task)) then Err InvalidArguments else
  let? st := map_err (fun _ => InvalidArguments) (pm_state (sy_processes y) process) in
  if negb (bool_decide (st = ProcRunning)) then Err InvalidArguments else
  let? user := ok_or (ur_get (sy_userspace y) task) InvalidArguments in
  if negb (bool_decide (ub_process user = process))
     || negb (bool_decide (ub_address_space user = peb_address_space binding))
  then Err InvalidArguments else Ok user.

Definition sy_exit (y : SystemRuntime) (code : Z) : result SyscallError unit * SystemRuntime :=
  match current_binding_checked y with
  | Ok user =>
      (Ok tt, set_runtime (set_pending_exit y (Some (ub_process user, ub_task user, code)))
                (request_reschedule (sy_runtime y)))
  | Err e => (Err e, y)
  | Panic => (Panic, y)
  end.

Definition sy_yield_now (y : SystemRuntime) : result SyscallError unit * SystemRuntime :=
  match current_binding_checked y with
  | Ok _ => (Ok tt, set_runtime y (request_reschedule (sy_runtime y)))
  | Err e => (Err e, y)
  | Panic => (Panic, y)
  end.

#[export] Instance system_control : ProcessSyscallControl SystemRuntime := {|
  control_exit := sy_exit;
  control_yield_now := sy_yield_now;
|}.

Section System.
Context `{VirtAddrCrate}.

(** [bind_cpu]: the kernel runtime first, then the system runtime; the addresses
    of the two boxes are arguments. *)
Definition bind_cpu (c : Cpu) (runtime self : Z) : result SystemRuntimeError unit * Cpu :=
  match kr_bind_cpu c runtime with
  | (Err e, c) => (Err (SysRuntime e), c)
  | (Panic, c) => (Panic, c)
  | (Ok _, c) =>
      let '(r, l) := bind_system_runtime (cpu_local c) self in
      (map_err (fun _ => SysTaskBindingMismatch) r, with_local c l)
  end.

(** ** Starting a process

    On success the CPU leaves for userspace with the returned launch. *)
Definition start_checks (y : SystemRuntime) (process : ProcessId)
  : result SystemRuntimeError (TaskId * UserExecutionBinding * Z) :=
  let? binding := bound_task y process in
  let task := peb_task binding in
  let? user_binding := ok_or (ur_get (sy_userspace y) task) SysTaskBindingMismatch in
  if negb (bool_decide (ub_process user_binding = process))
     || negb (bool_decide (ub_address_space user_binding = peb_address_space binding))
  then Err SysTaskBindingMismatch else
  let? st := map_err SysProcess (pm_state (sy_processes y) process) in
  if negb (bool_decide (st = ProcReady)) then Err (SysProcess InvalidTransition) else
  let? stack_top := ok_or (er_kernel_stack_top (sy_executions y) task) SysKernelStackUnavailable in
  if negb (bool_decide (state (sy_scheduler y) task = Some Ready))
     || negb (bool_decide (next_ready (sy_scheduler y) = Some task))
  then Err SchedulerTaskNotReady
  else Ok (task, user_binding, stack_top).

Definition start_user (y : SystemRuntime) (c : Cpu) (process : ProcessId)
  : result SystemRuntimeError PreparedUserLaunch * SystemRuntime * Cpu :=
  match start_checks y process with
  | Err e => (Err e, y, c)
  | Panic => (Panic, y, c)
  | Ok (task, user_binding, stack_top) =>
      let y := set_pending_exit y None in
      match pm_start (sy_processes y) process with
      | (Err e, p) => (Err (SysProcess e), set_processes y p, c)
      | (Panic, p) => (Panic, set_processes y p, c)
      | (Ok _, p) =>
          let y := set_processes y p in
          let '(decision, s) := schedule_next (sy_scheduler y) in
          let y := set_scheduler y s in
          if negb (bool_decide (next decision = Some task)) || negb (bool_decide (current s = Some task))
          then (Err SysTaskBindingMismatch, y, c)
          else match set_kernel_stack_top c stack_top with
               | (Err e, c) => (Err e, y, c)
               | (Panic, c) => (Panic, y, c)
               | (Ok _, c) =>
                   (Ok (ub_launch user_binding), set_current_process y (Some process),
                    with_local c (set_current_task (cpu_local c) (Some task)))
               end
      end
  end.

(** The common tail of both commits: the successor's resume state is consumed,
    its kernel stack installed, and it becomes the current process. *)
Definition hand_over (y : SystemRuntime) (c : Cpu) (successor : UserSuccessorPlan)
    (transfer : UserReturnTransfer) (stack_top : Z) (drop_pending : bool)
  : result SystemRuntimeError UserReturnTransfer * SystemRuntime * Cpu :=
  let resumed :=
    if bool_decide (is_Some (ut_resume transfer)) then
      match ur_clear_resume (sy_userspace y) (su_task successor) with
      | (Ok _, u) => (Ok tt, set_userspace y u)
      | (_, u) => (Panic, set_userspace y u)
      end
    else (Ok tt, y) in
  match resumed with
  | (Ok _, y) =>
      match set_kernel_stack_top c stack_top with
      | (Err e, c) => (Err e, y, c)
      | (Panic, c) => (Panic, y, c)
      | (Ok _, c) =>
          let y := set_current_process y (Some (su_process successor)) in
          let y := if drop_pending then set_pending_exit y None else y in
          (Ok transfer, y, with_local c (set_current_task (cpu_local c) (Some (su_task successor))))
      end
  | (Err e, y) => (Err e, y, c)
  | (Panic, y) => (Panic, y, c)
  end.

(** ** Committing an exit *)
Definition exit_checks (y : SystemRuntime)
  : result SystemRuntimeError
      (ProcessId * TaskId * UserSuccessorPlan * UserReturnTransfer * ExecutionHandle * Z) :=
  let? pending := ok_or (sy_pending_exit y) SysNoCurrentProcess in
  let '(process, task, _code) := pending in
  if negb (bool_decide (sy_current_process y = Some process))
     || negb (bool_decide (current (sy_scheduler y) = Some task))
  then Err SysTaskBindingMismatch else
  let? successor := map_err SysSuccessor (select_userspace_successor y (Some task)) in
  let? current_binding := bound_task y process in
  if negb (bool_decide (peb_task current_binding = task)) then Err SysTaskBindingMismatch else
  let? st := map_err SysProcess (pm_state (sy_processes y) process) in
  if negb (bool_decide (st = ProcRunning)) then Err SysTaskBindingMismatch else
  let? transfer := map_err (fun _ => SysTaskBindingMismatch)
                     (ut_validate (UserReturnTransfer_new (su_binding successor)) (Some task)) in
  let? current_execution := ok_or (execution (sy_scheduler y) task) SysTaskBindingMismatch in
  let? stack_top := ok_or (er_kernel_stack_top (sy_executions y) (su_task successor))
                      SysKernelStackUnavailable in
  Ok (process, task, successor, transfer, current_execution, stack_top).

Definition commit_pending_exit (y : SystemRuntime) (c : Cpu)
  : result SystemRuntimeError UserReturnTransfer * SystemRuntime * Cpu :=
  match exit_checks y with
  | Err e => (Err e, y, c)
  | Panic => (Panic, y, c)
  | Ok (process, task, successor, transfer, current_execution, stack_top) =>
      match pm_start (sy_processes y) (su_process successor) with
      | (Err e, p) => (Err (SysProcess e), set_processes y p, c)
      | (Panic, p) => (Panic, set_processes y p, c)
      | (Ok _, p) =>
          match pm_exit p process with
          | (Err e, p) => (Err (SysProcess e), set_processes y p, c)
          | (Panic, p) => (Panic, set_processes y p, c)
          | (Ok _, p) =>
              let y := set_processes y p in
              match terminate_current_to (sy_scheduler y) (su_task successor) with
              | (Err _, s) => (Err SysTaskBindingMismatch, set_scheduler y s, c)
              | (Panic, s) => (Panic, set_scheduler y s, c)
              | (Ok _, s) =>
                  let y := set_scheduler y s in
                  match ur_remove (sy_userspace y) task with
                  | (Err e, u) => (Err (SysUserBinding e), set_userspace y u, c)
                  | (Panic, u) => (Panic, set_userspace y u, c)
                  | (Ok _, u) =>
                      let y := set_userspace y u in
                      let y := set_executions y (er_remove (sy_executions y) current_execution).2 in
                      hand_over y c successor transfer stack_top true
                  end
              end
          end
      end
  end.

(** ** Committing a yield *)
Definition yield_checks (y : SystemRuntime)
  : result SystemRuntimeError
      (option (ProcessId * TaskId * UserSuccessorPlan * UserReturnTransfer * Z)) :=
  let? current_process := ok_or (sy_current_process y) SysNoCurrentProcess in
  let? current_task := ok_or (current (sy_scheduler y)) SysNoCurrentProcess in
  let? current_binding := bound_task y current_process in
  if negb (bool_decide (peb_task current_binding = current_task)) then Err SysTaskBindingMismatch else
  let? st := map_err SysProcess (pm_state (sy_processes y) current_process) in
  if negb (bool_decide (st = ProcRunning)) then Err SysTaskBindingMismatch else
  match select_userspace_successor y (Some current_task) with
  | Err NoReadyTask => Ok None
  | Err e => Err (SysSuccessor e)
  | Panic => Panic
  | Ok successor =>
      let? transfer := map_err (fun _ => SysTaskBindingMismatch)
                         (ut_validate (UserReturnTransfer_new (su_binding successor)) (Some current_task)) in
      let? stack_top := ok_or (er_kernel_stack_top (sy_executions y) (su_task successor))
                          SysKernelStackUnavailable in
      Ok (Some (current_process, current_task, successor, transfer, stack_top))
  end.

(** [if let Some((captured_task, state)) = interrupted { ... }] *)
Definition store_snapshot (y : SystemRuntime) (current_task : TaskId)
    (interrupted : option (TaskId * InterruptedState)) : result SystemRuntimeError unit * SystemRuntime :=
  match interrupted with
  | None => (Ok tt, y)
  | Some (captured_task, st) =>
      if negb (bool_decide (captured_task = current_task)) || negb (is_user_valid st)
      then (Err SysTaskBindingMismatch, y)
      else let '(r, u) := ur_install_resume (sy_userspace y) current_task st in
           (map_err SysUserBinding r, set_userspace y u)
  end.

Definition commit_userspace_yield_with_snapshot (y : SystemRuntime) (c : Cpu)
    (interrupted : option (TaskId * InterruptedState))
  : result SystemRuntimeError (option UserReturnTransfer) * SystemRuntime * Cpu :=
  match yield_checks y with
  | Err e => (Err e, y, c)
  | Panic => (Panic, y, c)
  | Ok None => (Ok None, y, c)
  | Ok (Some (current_process, current_task, successor, transfer, stack_top)) =>
      match store_snapshot y current_task interrupted with
      | (Err e, y) => (Err e, y, c)
      | (Panic, y) => (Panic, y, c)
      | (Ok _, y) =>
          match yield_to (sy_processes y) current_process (su_process successor) with
          | (Err e, p) => (Err (SysProcess e), set_processes y p, c)
          | (Panic, p) => (Panic, set_processes y p, c)
          | (Ok _, p) =>
              let y := set_processes y p in
              let '(decision, s) := schedule_next (sy_scheduler y) in
              let y := set_scheduler y s in
              if negb (bool_decide (next decision = Some (su_task successor)))
                 || negb (bool_decide (current s = Some (su_task successor)))
              then (Err SysTaskBindingMismatch, y, c)
              else match hand_over y c successor transfer stack_top false with
                   | (Ok transfer, y, c) => (Ok (Some transfer), y, c)
                   | (Err e, y, c) => (Err e, y, c)
                   | (Panic, y, c) => (Panic, y, c)
                   end
          end
      end
  end.

Definition commit_userspace_yield (y : SystemRuntime) (c : Cpu)
  : result SystemRuntimeError (option UserReturnTransfer) * SystemRuntime * Cpu :=
  commit_userspace_yield_with_snapshot y c None.
End System.
