(* ===== verification/SystemInv.v ===== *)
(** * Invariants of the system runtime

    The invariant that ties the four owners of [SystemRuntime] together, that every
    operation keeps it, and that spawning, exiting and yielding are atomic across
    all of them. *)

From stdpp Require Import base numbers sets relations list options.
From S2P Require Import Prelude Tasks Queues Scheduler SchedulerInv SchedulerSteps.
From S2P Require Import Syscall LoadPlan Process ProcessInv Execution UserExecution.
From S2P Require Import KernelTask Runtime SystemRuntime.

Local Open Scope Z_scope.

(** ** The registry seen from one process *)
Lemma put_slot_other m id slot slot' id' :
  pid_ok id -> pid_ok id' -> pm_slot m id = Ok slot -> sl_generation slot' = sl_generation slot ->
  id' <> id -> pm_slot (put_slot m id slot') id' = pm_slot m id'.
Proof.
  intros Hid Hid' Hs Hg Hne. destruct (decide (pid_slot id' = pid_slot id)) as [He|He];
    [|by apply put_slot_ne].
  pose proof Hs as (Hl & Hgen & _)%pm_slot_Ok.
  assert (Hgne : pid_generation id' <> sl_generation slot).
  { intros Hgeq. apply Hne. destruct id as [i g], id' as [i' g']. unfold pid_slot, pid_ok in *. simpl in *.
    f_equal; [lia|congruence]. }
  unfold pm_slot, put_slot. simpl. rewrite He, list_lookup_insert_eq by (by eapply lookup_lt_Some).
  rewrite Hl. rewrite Hg. rewrite (proj2 (Z.eqb_neq (sl_generation slot) (pid_generation id'))) by congruence.
  done.
Qed.

Lemma pm_state_slot m id st :
  pm_state m id = Ok st <-> exists slot, pm_slot m id = Ok slot /\ sl_state slot = Some st.
Proof.
  unfold pm_state. destruct (pm_slot_cases m id) as [[slot Hs]|Hs]; rewrite Hs.
  - split.
    + intros Hst. exists slot. split; [done|]. by destruct (sl_state slot); simplify_eq/=.
    + intros (s & [= <-] & ->). done.
  - split; [done|]. by intros (s & ? & _).
Qed.

Lemma pm_binding_slot m id b :
  pm_binding m id = Ok b <-> exists slot, pm_slot m id = Ok slot /\ sl_binding slot = b.
Proof.
  unfold pm_binding. destruct (pm_slot_cases m id) as [[slot Hs]|Hs]; rewrite Hs.
  - split; [intros [= <-]; eauto|]. by intros (s & [= <-] & ->).
  - split; [done|]. by intros (s & ? & _).
Qed.

Lemma pm_binding_no_panic m id : pm_binding m id <> Panic.
Proof. unfold pm_binding. by destruct (pm_slot_cases m id) as [[? ->]| ->]. Qed.

Lemma pm_state_no_panic m id : pm_state m id <> Panic.
Proof. unfold pm_state. destruct (pm_slot_cases m id) as [[s ->]| ->]; [|done]. by destruct (sl_state s). Qed.

(** What one process looks like from outside. *)
Record proc_is (m : ProcessManager) (id : ProcessId) (st : ProcessState)
    (b : ProcessExecutionBinding) : Prop := mk_proc_is {
  pi_state : pm_state m id = Ok st;
  pi_binding : pm_binding m id = Ok (Some b);
}.

Lemma proc_is_ext m m' id st b : pm_slot m' id = pm_slot m id -> proc_is m id st b -> proc_is m' id st b.
Proof. intros Hs [H1 H2]. unfold pm_state, pm_binding in *. by split; unfold pm_state, pm_binding; rewrite Hs. Qed.

Lemma proc_is_slot m id st b :
  proc_is m id st b <-> exists slot, pm_slot m id = Ok slot /\ sl_state slot = Some st /\ sl_binding slot = Some b.
Proof.
  split.
  - intros [(s & Hs & Hst)%pm_state_slot (s' & Hs' & Hb)%pm_binding_slot]. exists s.
    rewrite Hs in Hs'. injection Hs' as <-. done.
  - intros (s & Hs & Hst & Hb). split; [apply pm_state_slot|apply pm_binding_slot]; eauto.
Qed.

Lemma start_view m id b :
  pm_wf m -> pid_ok id -> proc_is m id ProcReady b ->
  exists m', pm_start m id = (Ok tt, m') /\ pm_wf m' /\ proc_is m' id ProcRunning b /\
             (forall id', pid_ok id' -> id' <> id -> pm_slot m' id' = pm_slot m id').
Proof.
  intros Hw Hid (slot & Hs & Hst & Hb)%proc_is_slot.
  exists (put_slot m id (with_pstate slot ProcRunning)).
  assert (He : pm_start m id = (Ok tt, put_slot m id (with_pstate slot ProcRunning))).
  { unfold pm_start. rewrite Hs, Hst, Hb. by rewrite bool_decide_true, bool_decide_false. }
  split; [done|]. pose proof (psound_start m id Hw) as [Hw' _ _]. rewrite He in Hw'. split; [done|]. split.
  - apply proc_is_slot. exists (with_pstate slot ProcRunning). split; [by eapply put_slot_eq|done].
  - intros id' Hid' Hne. by eapply put_slot_other.
Qed.

Lemma exit_view m id b :
  pm_wf m -> pid_ok id -> proc_is m id ProcRunning b ->
  exists m', pm_exit m id = (Ok tt, m') /\ pm_wf m' /\ proc_is m' id ProcExited b /\
             pm_exit_code m' id = Ok (Some 0) /\
             (forall id', pid_ok id' -> id' <> id -> pm_slot m' id' = pm_slot m id').
Proof.
  intros Hw Hid (slot & Hs & Hst & Hb)%proc_is_slot.
  set (slot' := mkSlot (sl_generation slot) (sl_image slot) (Some ProcExited) (sl_binding slot) (Some 0)).
  assert (He : pm_exit m id = (Ok tt, put_slot m id slot')).
  { unfold pm_exit, request_exit. by rewrite Hs, Hst. }
  exists (put_slot m id slot'). split; [done|].
  pose proof (psound_exit m id 0 Hw) as [Hw' _ _]. unfold pm_exit in He. rewrite He in Hw'.
  assert (Hs' : pm_slot (put_slot m id slot') id = Ok slot') by by eapply put_slot_eq.
  split; [done|]. split; [apply proc_is_slot; by exists slot'|]. split.
  - unfold pm_exit_code. by rewrite Hs'.
  - intros id' Hid' Hne. by eapply put_slot_other.
Qed.

Lemma yield_view m cur succ cb sb :
  pm_wf m -> pid_ok cur -> pid_ok succ -> cur <> succ ->
  proc_is m cur ProcRunning cb -> proc_is m succ ProcReady sb ->
  exists m', yield_to m cur succ = (Ok tt, m') /\ pm_wf m' /\ proc_is m' cur ProcReady cb /\
             proc_is m' succ ProcRunning sb /\
             (forall id', pid_ok id' -> id' <> cur -> id' <> succ -> pm_slot m' id' = pm_slot m id').
Proof.
  intros Hw Hpc Hps Hne [Hc1 Hc2] [Hs1 Hs2].
  destruct (yield_complete m cur succ cb sb Hpc Hps Hne Hc1 Hs1 Hc2 Hs2) as [m' He].
  exists m'. split; [done|]. pose proof (psound_yield m cur succ Hw Hpc Hps) as [Hw' _ _].
  pose proof (yield_cases m cur succ Hpc Hps) as Hy. rewrite He in Hw', Hy. split; [done|].
  destruct Hy as (cs & ss & _ & Hcs & Hss & Hcst & Hsst & _ & _ & ->).
  apply pm_binding_slot in Hc2 as (cs' & Hcs' & Hcb), Hs2 as (ss' & Hss' & Hsb).
  rewrite Hcs in Hcs'. rewrite Hss in Hss'. injection Hcs' as <-. injection Hss' as <-.
  set (m1 := put_slot m cur (with_pstate cs ProcReady)).
  assert (Hss1 : pm_slot m1 succ = Ok ss).
  { unfold m1. by rewrite (put_slot_other m cur cs). }
  assert (Hcs1 : pm_slot m1 cur = Ok (with_pstate cs ProcReady)) by by eapply put_slot_eq.
  split_and!.
  - apply proc_is_slot. exists (with_pstate cs ProcReady). by rewrite (put_slot_other m1 succ ss).
  - apply proc_is_slot. exists (with_pstate ss ProcRunning). split; [by eapply put_slot_eq|done].
  - intros id' Hid' H1 H2. rewrite (put_slot_other m1 succ ss) by done. by apply (put_slot_other m cur cs).
Qed.

Lemma spawn_view m image task :
  pm_wf m ->
  match spawn_ready m image task (ExecutionHandle_for_task task) (spec_id (pi_address_space image)) with
  | (Ok sp, m') =>
      pm_wf m' /\ pid_ok (sp_id sp) /\ pm_contains m (sp_id sp) = false /\
      proc_is m' (sp_id sp) ProcReady
        (mkBinding (sp_id sp) task (ExecutionHandle_for_task task) (spec_id (pi_address_space image))) /\
      pm_image m' (sp_id sp) = Ok image /\
      (forall id', pm_contains m id' = true -> pm_slot m' id' = pm_slot m id')
  | (Err _, m') => m' = m
  | (Panic, _) => False
  end.
Proof.
  intros Hw.
  pose proof (psound_spawn m image task (ExecutionHandle_for_task task) (spec_id (pi_address_space image)) Hw)
    as [Hw' _ _].
  unfold spawn_ready in *. pose proof (register_ready_spec m image Hw) as Hr.
  destruct (register_ready m image) as [[id|e|] m1]; [|by destruct Hr|done].
  destruct Hr as (index & slot & Hidx & Hsl & Hst & Hgen & -> & ->).
  set (id := mkProcessId (Z.of_nat index) (sl_generation slot + 1)) in *.
  set (m1 := mkManager _ _) in *. set (fs := fresh_slot (sl_generation slot + 1) image) in *.
  assert (Hpid : pid_slot id = index) by (unfold pid_slot, id; simpl; lia).
  assert (Hs1 : pm_slot m1 id = Ok fs).
  { apply pm_slot_Ok. rewrite Hpid. simpl. rewrite list_lookup_insert_eq by (by eapply lookup_lt_Some). done. }
  assert (Hat : pm_attach_execution m1 id task (ExecutionHandle_for_task task)
                  (spec_id (pi_address_space image)) =
    (Ok (mkBinding id task (ExecutionHandle_for_task task) (spec_id (pi_address_space image))),
     put_slot m1 id (mkSlot (sl_generation fs) (sl_image fs) (sl_state fs)
       (Some (mkBinding id task (ExecutionHandle_for_task task) (spec_id (pi_address_space image))))
       (sl_exit_code fs)))).
  { unfold pm_attach_execution. rewrite Hs1. cbn [sl_binding sl_image fs fresh_slot].
    rewrite bool_decide_false by tauto. rewrite bool_decide_true by done. cbn [negb].
    unfold ProcessExecutionBinding_new. cbn [handle_task_id]. rewrite !Z.eqb_refl. done. }
  rewrite Hat in *. cbn [snd] in Hw'. set (m' := put_slot _ _ _) in *.
  set (slot' := mkSlot (sl_generation fs) (sl_image fs) (sl_state fs) _ (sl_exit_code fs)) in m'.
  assert (Hs' : pm_slot m' id = Ok slot') by (by eapply put_slot_eq).
  cbn [sp_id]. split_and!; [done|unfold pid_ok; simpl; lia| | | |].
  - unfold pm_contains. destruct (pm_slot_cases m id) as [[s' Hs2]| ->]; [|done]. exfalso.
    apply pm_slot_Ok in Hs2 as (Hl & _ & Hlive). rewrite Hpid, Hsl in Hl. congruence.
  - apply proc_is_slot. by exists slot'.
  - unfold pm_image. by rewrite Hs'.
  - intros id' (s' & Hs2)%pm_contains_true.
    assert (Hd : pid_slot id' <> index).
    { intros He. apply pm_slot_Ok in Hs2 as (Hl & _ & Hlive). rewrite He, Hsl in Hl. congruence. }
    unfold m'. rewrite put_slot_ne by congruence. unfold pm_slot, m1. cbn [pm_slots].
    by rewrite list_lookup_insert_ne by done.
Qed.

(** ** The invariant *)
Section SystemInv.
Context `{VirtAddrCrate}.

(** A userspace binding agrees with the scheduler, the process registry and the
    kernel execution registry. *)
Record user_bound (y : SystemRuntime) (t : TaskId) (b : UserExecutionBinding) : Prop := mk_user_bound {
  ubd_live : attrs (sy_scheduler y) t = Some (Userspace, Some (ExecutionHandle_for_task t));
  ubd_pid : pid_ok (ub_process b);
  ubd_proc : pm_binding (sy_processes y) (ub_process b) =
    Ok (Some (mkBinding (ub_process b) t (ExecutionHandle_for_task t) (ub_address_space b)));
  ubd_stack : exists top, er_kernel_stack_top (sy_executions y) t = Some top /\ virt_addr_new_ok top = true;
  ubd_frame : frame_ok (pl_frame (ub_launch b));
  ubd_resume : forall st, ub_resume b = Some st -> is_user_valid st = true;
}.

Record sys_inv (y : SystemRuntime) : Prop := mk_sys_inv {
  si_sched : sched_inv (sy_scheduler y);
  si_running : forall t, current (sy_scheduler y) = Some t -> state (sy_scheduler y) t = Some Running;
  si_pm : pm_wf (sy_processes y);
  si_er : er_wf (sy_executions y);
  si_er_live : forall t, is_Some (er_get (sy_executions y) t) -> is_Some (task (sy_scheduler y) t);
  si_ur : ur_wf (sy_userspace y);
  si_user : forall t b, ur_get (sy_userspace y) t = Some b -> user_bound y t b;
  si_current : forall p, sy_current_process y = Some p ->
    exists t b, current (sy_scheduler y) = Some t /\ ur_get (sy_userspace y) t = Some b /\
                ub_process b = p /\ pm_state (sy_processes y) p = Ok ProcRunning;
}.

Lemma SystemRuntime_new_inv : sys_inv SystemRuntime_new.
Proof using Type.
  split; [apply Scheduler_new_inv|done|apply ProcessManager_new_wf|constructor| |constructor|done|done].
  by intros t [? ?].
Qed.

Lemma live_attrs s t : is_Some (task s t) <-> is_Some (attrs s t).
Proof using Type. unfold attrs. by rewrite fmap_is_Some. Qed.

(** A binding keeps agreeing when its task's attributes, its process's binding
    and its kernel stack stay the same. *)
Lemma user_bound_top y y' t b :
  user_bound y t b ->
  attrs (sy_scheduler y') t = attrs (sy_scheduler y) t ->
  pm_binding (sy_processes y') (ub_process b) = pm_binding (sy_processes y) (ub_process b) ->
  er_kernel_stack_top (sy_executions y') t = er_kernel_stack_top (sy_executions y) t ->
  user_bound y' t b.
Proof using Type.
  intros [H1 H2 H3 H4 H5 H6] Ha Hp He. split; [congruence|done|congruence|by rewrite He|done|done].
Qed.

Lemma user_bound_ext y y' t b :
  user_bound y t b ->
  attrs (sy_scheduler y') t = attrs (sy_scheduler y) t ->
  pm_binding (sy_processes y') (ub_process b) = pm_binding (sy_processes y) (ub_process b) ->
  er_get (sy_executions y') t = er_get (sy_executions y) t ->
  user_bound y' t b.
Proof using Type. intros Hb Ha Hp He. apply (user_bound_top y); try done. unfold er_kernel_stack_top. by rewrite He. Qed.

Lemma user_bound_resume y t b r :
  user_bound y t b -> (forall st, r = Some st -> is_user_valid st = true) -> user_bound y t (with_resume b r).
Proof using Type. intros [H1 H2 H3 H4 H5 H6] Hr. by split. Qed.

(** *** Selecting a successor *)
Lemma select_successor_Ok y cur su :
  sys_inv y -> select_userspace_successor y cur = Ok su ->
  next_ready (sy_scheduler y) = Some (su_task su) /\ Some (su_task su) <> cur /\
  state (sy_scheduler y) (su_task su) = Some Ready /\
  ur_get (sy_userspace y) (su_task su) = Some (su_binding su) /\ su_process su = ub_process (su_binding su) /\
  pm_state (sy_processes y) (su_process su) = Ok ProcReady /\
  user_bound y (su_task su) (su_binding su) /\ ub_task (su_binding su) = su_task su.
Proof using Type.
  intros Hi. unfold select_userspace_successor.
  destruct (next_ready (sy_scheduler y)) as [t|]; [|done]. cbn [ok_or].
  case_bool_decide as H1; [done|]. destruct (negb (bool_decide (task_kind _ _ = _))); [done|].
  destruct (negb (bool_decide (state _ _ = _))) eqn:H2; [done|]. to_prop.
  destruct (ur_get (sy_userspace y) t) as [b|] eqn:Hb; [|done]. cbn [ok_or].
  destruct (pm_binding _ _) as [[pb|]|e|]; cbn [map_err ok_or]; [|done..].
  destruct (negb _ || negb _ || negb _) eqn:H3; [done|]. to_prop. intros [= <-]. cbn.
  split_and!; try done; [by apply Hi|by apply ur_get_task in Hb].
Qed.

Lemma select_successor_no_panic y cur : select_userspace_successor y cur <> Panic.
Proof using Type.
  unfold select_userspace_successor. destruct (next_ready _) as [t|]; [|done]. cbn [ok_or].
  repeat (case_if; [done|]). destruct (ur_get _ t) as [b|]; [|done]. cbn [ok_or].
  pose proof (pm_binding_no_panic (sy_processes y) (ub_process b)).
  destruct (pm_binding _ _) as [[pb|]|e|]; cbn [map_err ok_or]; [|done..]. by case_if.
Qed.
(** *** The common hand-over *)
Lemma hand_over_spec y c su top drop :
  ur_wf (sy_userspace y) -> ur_get (sy_userspace y) (su_task su) = Some (su_binding su) ->
  is_Some (cpu_rsp0 c) -> virt_addr_new_ok top = true ->
  exists u c',
    hand_over y c su (UserReturnTransfer_new (su_binding su)) top drop =
      (Ok (UserReturnTransfer_new (su_binding su)),
       mkSystem (sy_processes y) (sy_runtime y) u (Some (su_process su))
         (if drop then None else sy_pending_exit y), c') /\
    ur_wf u /\
    (forall t, ur_get u t = if bool_decide (t = su_task su) then Some (with_resume (su_binding su) None)
                            else ur_get (sy_userspace y) t) /\
    cpu_rsp0 c' = Some top /\ cl_current_task (cpu_local c') = Some (su_task su) /\
    cl_interrupted (cpu_local c') = cl_interrupted (cpu_local c).
Proof using Type.
  intros Hw Hb [r0 Hr0] Hok. unfold hand_over, set_kernel_stack_top. rewrite Hr0, Hok.
  pose proof (ur_get_task _ _ _ Hb) as Ht. unfold ut_resume. cbn [ut_binding UserReturnTransfer_new].
  case_bool_decide as Hres.
  - unfold ur_clear_resume. rewrite Hb. unfold ub_clear_resume.
    exists (reg_update ub_task (sy_userspace y) (su_task su) (fun _ => with_resume (su_binding su) None)).
    eexists. split; [destruct drop; reflexivity|]. split.
    { by apply (reg_wf_set _ _ _ (su_binding su)). }
    split; [|done]. intros t. by apply (reg_find_set _ _ _ (su_binding su)).
  - exists (sy_userspace y). eexists. split; [destruct drop, y; reflexivity|]. split; [done|]. split; [|done].
    intros t. case_bool_decide as Hd; [|done]. subst t. rewrite Hb. f_equal.
    destruct (su_binding su) as [q1 q2 q3 q4 [st|]]; [by destruct Hres|done].
Qed.
(** *** Committing an exit *)
Lemma bound_task_Ok y p b : bound_task y p = Ok b <-> pm_binding (sy_processes y) p = Ok (Some b).
Proof using Type.
  unfold bound_task. destruct (pm_binding (sy_processes y) p) as [[b'|]|e|]; simpl; split; congruence.
Qed.

Lemma bound_task_no_panic y p : bound_task y p <> Panic.
Proof using Type.
  unfold bound_task. pose proof (pm_binding_no_panic (sy_processes y) p).
  destruct (pm_binding _ _) as [[b|]|e|]; done.
Qed.

Lemma exit_checks_cases y :
  sys_inv y ->
  match exit_checks y with
  | Ok (p, t, su, tr, h, top) =>
      (exists code, sy_pending_exit y = Some (p, t, code)) /\ sy_current_process y = Some p /\
      current (sy_scheduler y) = Some t /\ select_userspace_successor y (Some t) = Ok su /\
      tr = UserReturnTransfer_new (su_binding su) /\ h = ExecutionHandle_for_task t /\
      er_kernel_stack_top (sy_executions y) (su_task su) = Some top
  | Err _ => True
  | Panic => False
  end.
Proof using Type.
  intros Hi. unfold exit_checks. destruct (sy_pending_exit y) as [[[p t] code]|]; [|done]. cbn [ok_or].
  destruct (negb _ || negb _) eqn:H1; [done|]. to_prop.
  pose proof (select_successor_no_panic y (Some t)).
  destruct (select_userspace_successor y (Some t)) as [su|e|] eqn:Hsu; cbn [map_err]; [|done|done].
  pose proof (bound_task_no_panic y p).
  destruct (bound_task y p) as [b|e|] eqn:Hb; [|done|done].
  case_if; [done|]. pose proof (pm_state_no_panic (sy_processes y) p).
  destruct (pm_state (sy_processes y) p) as [st|e|]; cbn [map_err]; [|done|done].
  case_if; [done|].
  destruct (ut_validate_cases (UserReturnTransfer_new (su_binding su)) (Some t)) as [[e ->]|[-> _]];
    cbn [map_err]; [done|].
  destruct (execution (sy_scheduler y) t) as [h|] eqn:Hh; cbn [ok_or]; [|done].
  destruct (er_kernel_stack_top _ _) as [top|] eqn:Htop; cbn [ok_or]; [|done].
  destruct (si_current y Hi p) as (t' & b' & Hc & Hub & _ & _); [done|].
  split_and!; try done; [eauto|].
  assert (t' = t) as -> by congruence. pose proof (ubd_live _ _ _ (si_user y Hi _ _ Hub)) as Hl.
  rewrite attrs_execution, Hl in Hh. by injection Hh as <-.
Qed.

(** What an exit does to the scheduler, seen from every task. *)
Lemma terminate_view s t x :
  sched_inv s -> current s = Some t -> state s t = Some Running -> next_ready s = Some x ->
  state s x = Some Ready -> x <> t ->
  exists s', terminate_current_to s x = (Ok x, s') /\ sched_inv s' /\ current s' = Some x /\
    state s' x = Some Running /\ task s' t = None /\ ready s' = tail (ready s) /\
    (forall t', t' <> t -> attrs s' t' = attrs s t') /\
    (forall t', t' <> t -> t' <> x -> task s' t' = task s t').
Proof using Type.
  intros Hi Hc Hrun Hx Hrdy Hne. pose proof (terminate_current_to_cases s x) as Ht.
  pose proof (terminate_inv s x Hi) as Hi'.
  assert (Hok : exists s', terminate_current_to s x = (Ok x, s')).
  { unfold terminate_current_to. rewrite Hc, bool_decide_false by done.
    unfold next_ready in Hx. rewrite Hx, Hrdy, !bool_decide_true by done. cbn [negb orb].
    rewrite (proj2 (slot_is_spec s t Running) Hrun), (proj2 (slot_is_spec s x Ready) Hrdy). cbn [negb].
    apply state_Some in Hrun as (tc & Htc & Hsc), Hrdy as (ts & Hts & Hss).
    pose proof Htc as [Hlc _]%task_Some. rewrite Hlc. unfold transition at 1. rewrite Hsc.
    cbn [transition_valid negb]. rewrite put_put, clear_put.
    destruct (ready s) as [|z q] eqn:Hq; [done|]. simplify_eq/=. rewrite Hq. simpl.
    rewrite bool_decide_true by done. cbn [negb].
    assert (Hts' : task (clear_task s t) x = Some ts)
      by (rewrite (task_clear s t tc) by done; by rewrite decide_False).
    pose proof Hts' as [Hls _]%task_Some. simpl in Hls. rewrite Hls. unfold transition. rewrite Hss.
    simpl. eauto. }
  destruct Hok as [s' Hok]. rewrite Hok in Ht, Hi'. exists s'.
  destruct Ht as (_ & cur & tc & ts & q & Hcur & Hcx & Htc & Hsc & Hts & Hss & Hq & ->).
  assert (cur = t) as -> by congruence. split; [done|]. split; [done|]. split; [done|].
  assert (Htask : forall t', task (set_current (put_task (set_ready (clear_task s t) q) x
      (with_state ts Running)) (Some x)) t' =
    if decide (t' = x) then Some (with_state ts Running) else if decide (t' = t) then None else task s t').
  { intros t'. rewrite task_set_current, (task_put _ x ts).
    - case_decide; [done|]. by rewrite task_set_ready, (task_clear s t tc) by done.
    - rewrite task_set_ready, (task_clear s t tc) by done. by rewrite decide_False.
    - by eapply with_state_tcb_id. }
  split_and!.
  - apply state_Some. eexists. rewrite Htask, decide_True by done. done.
  - rewrite Htask, decide_False by done. by rewrite decide_True.
  - simpl. by rewrite Hq.
  - intros t' Hne'. unfold attrs. rewrite Htask. case_decide as Hd; [subst; by rewrite Hts|].
    by rewrite decide_False.
  - intros t' H1 H2. rewrite Htask. by rewrite !decide_False by done.
Qed.
(** The CPU is handed to the successor a transfer describes: it was the ready head,
    it now runs, its process runs, its kernel stack is installed and its saved
    state has been consumed by the transfer. *)
Record handed_to (y y' : SystemRuntime) (c' : Cpu) (tr : UserReturnTransfer) : Prop := mk_handed {
  ht_head : next_ready (sy_scheduler y) = Some (ut_task tr);
  ht_binding : ur_get (sy_userspace y) (ut_task tr) = Some (ut_binding tr);
  ht_process : ut_process tr = ub_process (ut_binding tr);
  ht_was_ready : pm_state (sy_processes y) (ut_process tr) = Ok ProcReady;
  ht_current : current (sy_scheduler y') = Some (ut_task tr);
  ht_running : state (sy_scheduler y') (ut_task tr) = Some Running;
  ht_now_running : pm_state (sy_processes y') (ut_process tr) = Ok ProcRunning;
  ht_current_process : sy_current_process y' = Some (ut_process tr);
  ht_resumed : ur_get (sy_userspace y') (ut_task tr) = Some (with_resume (ut_binding tr) None);
  ht_cpu : cl_current_task (cpu_local c') = Some (ut_task tr);
  ht_stack : cpu_rsp0 c' = er_kernel_stack_top (sy_executions y) (ut_task tr);
}.

(** The two parties of a hand-over: the current process [p] on task [t] with its
    binding [b], and the selected successor. *)
Definition binding_of (t : TaskId) (b : UserExecutionBinding) : ProcessExecutionBinding :=
  mkBinding (ub_process b) t (ExecutionHandle_for_task t) (ub_address_space b).

Record parties (y : SystemRuntime) (p : ProcessId) (t : TaskId) (b : UserExecutionBinding)
    (su : UserSuccessorPlan) : Prop := mk_parties {
  pt_current : current (sy_scheduler y) = Some t;
  pt_binding : ur_get (sy_userspace y) t = Some b;
  pt_pid : pid_ok p;
  pt_process : ub_process b = p;
  pt_running : proc_is (sy_processes y) p ProcRunning (binding_of t b);
  pt_head : next_ready (sy_scheduler y) = Some (su_task su);
  pt_ready : state (sy_scheduler y) (su_task su) = Some Ready;
  pt_next : ur_get (sy_userspace y) (su_task su) = Some (su_binding su);
  pt_next_pid : pid_ok (su_process su);
  pt_next_process : su_process su = ub_process (su_binding su);
  pt_next_ready : proc_is (sy_processes y) (su_process su) ProcReady (binding_of (su_task su) (su_binding su));
  pt_tasks : su_task su <> t;
  pt_processes : su_process su <> p;
}.

Lemma parties_of y p t su :
  sys_inv y -> sy_current_process y = Some p -> current (sy_scheduler y) = Some t ->
  select_userspace_successor y (Some t) = Ok su -> exists b, parties y p t b su.
Proof using Type.
  intros Hi Hcp Hct Hsel.
  destruct (select_successor_Ok y _ su Hi Hsel) as (Hx & Hne & Hrdy & Hsb & Hsp & Hsst & Hsu & Hst).
  destruct (si_current y Hi p Hcp) as (t0 & b & Hct' & Hub & Hbp & Hprun).
  assert (t0 = t) as -> by congruence. pose proof (si_user y Hi t b Hub) as Hb. exists b. split; try done.
  - rewrite <- Hbp. apply Hb.
  - split; [done|]. rewrite <- Hbp. apply Hb.
  - rewrite Hsp. apply Hsu.
  - split; [done|]. rewrite Hsp. apply Hsu.
  - congruence.
  - intros He. rewrite He, Hprun in Hsst. done.
Qed.

(** What a hand-over leaves: the successor owns the CPU with its snapshot consumed; the
    previous task is gone, or keeps its binding with the resume state of [kept];
    everything else is as before. *)
Record handed_over (y y' : SystemRuntime) (t : TaskId) (b : UserExecutionBinding) (su : UserSuccessorPlan)
    (kept : option (option InterruptedState)) : Prop := mk_handed_over {
  ho_sched : sched_inv (sy_scheduler y');
  ho_current : current (sy_scheduler y') = Some (su_task su);
  ho_running : state (sy_scheduler y') (su_task su) = Some Running;
  ho_attrs : forall t', (kept = None -> t' <> t) -> attrs (sy_scheduler y') t' = attrs (sy_scheduler y) t';
  ho_pm : pm_wf (sy_processes y');
  ho_bindings : forall q, pid_ok q -> pm_binding (sy_processes y') q = pm_binding (sy_processes y) q;
  ho_next_running : pm_state (sy_processes y') (su_process su) = Ok ProcRunning;
  ho_er : er_wf (sy_executions y');
  ho_er_kept : forall t', (kept = None -> t' <> t) -> er_get (sy_executions y') t' = er_get (sy_executions y) t';
  ho_er_gone : kept = None -> er_get (sy_executions y') t = None;
  ho_ur : ur_wf (sy_userspace y');
  ho_user : forall t', ur_get (sy_userspace y') t' =
    if bool_decide (t' = su_task su) then Some (with_resume (su_binding su) None)
    else if bool_decide (t' = t) then with_resume b <$> kept else ur_get (sy_userspace y) t';
  ho_resume : forall st, kept = Some (Some st) -> is_user_valid st = true;
  ho_process : sy_current_process y' = Some (su_process su);
}.

Lemma handed_over_inv y y' p t b su kept :
  sys_inv y -> parties y p t b su -> handed_over y y' t b su kept -> sys_inv y'.
Proof using Type.
  intros Hi Hp Ho. pose proof (pt_tasks _ _ _ _ _ Hp) as Hne.
  assert (Hkeep : forall t' b', (kept = None -> t' <> t) -> user_bound y t' b' -> user_bound y' t' b').
  { intros t' b' Hd Hb'. apply (user_bound_ext y); [done|by apply Ho|apply Ho, Hb'|by apply Ho]. }
  split; [apply Ho| |apply (ho_pm _ _ _ _ _ _ Ho)|apply (ho_er _ _ _ _ _ _ Ho)| |apply (ho_ur _ _ _ _ _ _ Ho)| |].
  - intros t'. rewrite (ho_current _ _ _ _ _ _ Ho). intros [= <-]. apply (ho_running _ _ _ _ _ _ Ho).
  - intros t' Hs'. apply live_attrs. destruct (decide (kept = None /\ t' = t)) as [[Hk ->]|Hd].
    + rewrite (ho_er_gone _ _ _ _ _ _ Ho Hk) in Hs'. by destruct Hs'.
    + rewrite (ho_attrs _ _ _ _ _ _ Ho) by tauto. apply live_attrs, (si_er_live y Hi).
      rewrite <- (ho_er_kept _ _ _ _ _ _ Ho) by tauto. done.
  - intros t' b'. rewrite (ho_user _ _ _ _ _ _ Ho). case_bool_decide as Hd1; [|case_bool_decide as Hd2].
    + intros [= <-]. subst t'. apply user_bound_resume; [|done].
      apply Hkeep; [done|]. apply (si_user y Hi), (pt_next _ _ _ _ _ Hp).
    + subst t'. destruct kept as [r|]; [|done]. intros [= <-]. apply user_bound_resume.
      * apply Hkeep; [done|]. apply (si_user y Hi), (pt_binding _ _ _ _ _ Hp).
      * intros st ->. by apply (ho_resume _ _ _ _ _ _ Ho).
    + intros Hb'. apply Hkeep; [done|]. by apply (si_user y Hi).
  - intros q Hq. rewrite (ho_process _ _ _ _ _ _ Ho) in Hq. injection Hq as <-.
    exists (su_task su), (with_resume (su_binding su) None). rewrite (ho_user _ _ _ _ _ _ Ho), bool_decide_true by done.
    split_and!; [apply (ho_current _ _ _ _ _ _ Ho)|done|by rewrite (pt_next_process _ _ _ _ _ Hp)|apply (ho_next_running _ _ _ _ _ _ Ho)].
Qed.

Lemma handed_over_to y y' c' p t b su kept :
  sys_inv y -> parties y p t b su -> handed_over y y' t b su kept ->
  cl_current_task (cpu_local c') = Some (su_task su) ->
  cpu_rsp0 c' = er_kernel_stack_top (sy_executions y) (su_task su) ->
  handed_to y y' c' (UserReturnTransfer_new (su_binding su)).
Proof using Type.
  intros Hi Hp Ho Hcl Hrsp. pose proof (ur_get_task _ _ _ (pt_next _ _ _ _ _ Hp)) as Hst.
  pose proof (pt_next_process _ _ _ _ _ Hp) as Hsp.
  split; cbn [ut_task ut_process ut_binding UserReturnTransfer_new]; rewrite ?Hst, <- ?Hsp; try done;
    [apply Hp..|by destruct Ho|by destruct Ho|by destruct Ho|by destruct Ho|].
  by rewrite (ho_user _ _ _ _ _ _ Ho), bool_decide_true.
Qed.

(** Two changed processes keep their bindings, and so do all others. *)
Lemma two_bindings_kept m m' p q sp sq sp' sq' bp bq :
  proc_is m p sp bp -> proc_is m q sq bq -> proc_is m' p sp' bp -> proc_is m' q sq' bq ->
  (forall r, pid_ok r -> r <> p -> r <> q -> pm_slot m' r = pm_slot m r) ->
  forall r, pid_ok r -> pm_binding m' r = pm_binding m r.
Proof using Type.
  intros Hp Hq Hp' Hq' Hoth r Hr. destruct (decide (r = p)) as [->|H1].
  { by rewrite (pi_binding _ _ _ _ Hp), (pi_binding _ _ _ _ Hp'). }
  destruct (decide (r = q)) as [->|H2]; [by rewrite (pi_binding _ _ _ _ Hq), (pi_binding _ _ _ _ Hq')|].
  unfold pm_binding. by rewrite Hoth.
Qed.

(** Starting the successor and ending the current process. *)
Lemma exit_processes m p q bp bq :
  pm_wf m -> pid_ok p -> pid_ok q -> q <> p -> proc_is m p ProcRunning bp -> proc_is m q ProcReady bq ->
  exists m1 m2, pm_start m q = (Ok tt, m1) /\ pm_exit m1 p = (Ok tt, m2) /\ pm_wf m2 /\
    proc_is m2 p ProcExited bp /\ pm_exit_code m2 p = Ok (Some 0) /\ proc_is m2 q ProcRunning bq /\
    (forall r, pid_ok r -> r <> p -> r <> q -> pm_slot m2 r = pm_slot m r).
Proof using Type.
  intros Hw Hp Hq Hne Hpp Hqq.
  destruct (start_view _ _ bq Hw Hq Hqq) as (m1 & H1 & Hw1 & Hrun1 & Hoth1).
  assert (Hpp1 : proc_is m1 p ProcRunning bp) by (apply (proc_is_ext m); [by apply Hoth1|done]).
  destruct (exit_view m1 p bp Hw1 Hp Hpp1) as (m2 & H2 & Hw2 & Hex2 & Hcode2 & Hoth2).
  exists m1, m2. split_and!; try done.
  - apply (proc_is_ext m1); [by apply Hoth2|done].
  - intros r Hr Hrp Hrq. rewrite Hoth2 by done. by apply Hoth1.
Qed.

Lemma stack_top_ok y su top :
  sys_inv y -> ur_get (sy_userspace y) (su_task su) = Some (su_binding su) ->
  er_kernel_stack_top (sy_executions y) (su_task su) = Some top -> virt_addr_new_ok top = true.
Proof using Type.
  intros Hi Hb Htop. destruct (ubd_stack _ _ _ (si_user y Hi _ _ Hb)) as (top' & Htop' & Hok). congruence.
Qed.

Lemma commit_exit_spec y c :
  sys_inv y -> is_Some (cpu_rsp0 c) ->
  match commit_pending_exit y c with
  | (Ok tr, y', c') => exists p t code,
      sy_pending_exit y = Some (p, t, code) /\ sy_current_process y = Some p /\
      current (sy_scheduler y) = Some t /\ handed_to y y' c' tr /\ ut_task tr <> t /\
      task (sy_scheduler y') t = None /\ er_get (sy_executions y') t = None /\
      ur_get (sy_userspace y') t = None /\ ready (sy_scheduler y') = tail (ready (sy_scheduler y)) /\
      pm_state (sy_processes y') p = Ok ProcExited /\ pm_exit_code (sy_processes y') p = Ok (Some 0) /\
      sy_pending_exit y' = None /\
      (forall t', t' <> t -> t' <> ut_task tr ->
         task (sy_scheduler y') t' = task (sy_scheduler y) t' /\
         er_get (sy_executions y') t' = er_get (sy_executions y) t' /\
         ur_get (sy_userspace y') t' = ur_get (sy_userspace y) t') /\
      (forall q, pid_ok q -> q <> p -> q <> ut_process tr ->
         pm_slot (sy_processes y') q = pm_slot (sy_processes y) q) /\
      sys_inv y'
  | (Err _, y', c') => y' = y /\ c' = c /\ is_ok (exit_checks y) = false
  | (Panic, _, _) => False
  end.
Proof using Type.
  intros Hi Hcpu. unfold commit_pending_exit. pose proof (exit_checks_cases y Hi) as Hx.
  destruct (exit_checks y) as [[[[[[p t] su] tr] h] top]|e|]; [|done|done].
  destruct Hx as ((code & Hpend) & Hcp & Hct & Hsel & -> & -> & Htop).
  destruct (parties_of y p t su Hi Hcp Hct Hsel) as (b & Hp).
  pose proof Hp as [_ Hub Hpok Hbp Hprun Hx Hrdy Hnext Hsok Hsp Hsready Hxt Hps].
  destruct (exit_processes _ _ _ _ _ (si_pm y Hi) Hpok Hsok Hps Hprun Hsready)
    as (m1 & m2 & -> & -> & Hw2 & Hex2 & Hcode2 & Hsrun2 & Hproc).
  change (sy_scheduler (set_processes y m2)) with (sy_scheduler y).
  destruct (terminate_view (sy_scheduler y) t (su_task su) (si_sched y Hi) Hct (si_running y Hi t Hct)
              Hx Hrdy Hxt) as (s' & -> & Hi' & Hcur' & Hrun' & Hgone & Hr' & Hat' & Htk').
  change (sy_userspace (set_scheduler (set_processes y m2) s')) with (sy_userspace y).
  rewrite ur_remove_clear, Hub, er_remove_clear. cbn [ok_or snd handle_task_id].
  change (sy_executions (set_userspace _ _)) with (sy_executions y).
  set (u1 := reg_clear ub_task (sy_userspace y) t). set (e1 := reg_clear xb_task_id (sy_executions y) t).
  set (y1 := set_executions _ e1).
  assert (Hu1 : forall t', ur_get u1 t' = if bool_decide (t' = t) then None else ur_get (sy_userspace y) t')
    by (intros; apply reg_find_clear, Hi).
  assert (He1 : forall t', er_get e1 t' = if bool_decide (t' = t) then None else er_get (sy_executions y) t')
    by (intros; apply reg_find_clear, Hi).
  destruct (hand_over_spec y1 c su top true) as (u & c' & -> & Hwu & Hu & Hrsp & Hcl & _);
    [apply reg_wf_clear, Hi|cbn; by rewrite Hu1, bool_decide_false|done|by apply (stack_top_ok y su top)|].
  cbn in Hu. set (y' := mkSystem _ _ _ _ _).
  assert (Ho : handed_over y y' t b su None).
  { split; try done; cbn.
    - intros t' Ht'. by apply Hat', Ht'.
    - by apply (two_bindings_kept _ _ _ _ _ _ _ _ _ _ Hprun Hsready Hex2 Hsrun2).
    - apply Hsrun2.
    - apply reg_wf_clear, Hi.
    - intros t' Ht'. by rewrite He1, bool_decide_false by auto.
    - intros _. by rewrite He1, bool_decide_true.
    - intros t'. rewrite Hu. case_bool_decide; [done|]. apply Hu1. }
  pose proof (ur_get_task _ _ _ Hnext) as Hst. exists p, t, code. cbn [ut_task ut_process UserReturnTransfer_new].
  rewrite Hst, <- Hsp. split_and!; try done; [|by rewrite He1, bool_decide_true| |apply Hex2| |by apply (handed_over_inv y y' p t b su None)].
  - apply (handed_over_to y y' c' p t b su None); [done..|congruence].
  - rewrite (ho_user _ _ _ _ _ _ Ho), bool_decide_false, bool_decide_true by congruence. done.
  - intros t' H1 H2. rewrite (ho_user _ _ _ _ _ _ Ho), !bool_decide_false by done.
    split_and!; [by apply Htk'|by apply (ho_er_kept _ _ _ _ _ _ Ho)|done].
Qed.
(** *** Committing a yield *)
Lemma yield_checks_cases y :
  sys_inv y ->
  match yield_checks y with
  | Ok (Some (p, t, su, tr, top)) =>
      sy_current_process y = Some p /\ current (sy_scheduler y) = Some t /\
      select_userspace_successor y (Some t) = Ok su /\ tr = UserReturnTransfer_new (su_binding su) /\
      er_kernel_stack_top (sy_executions y) (su_task su) = Some top
  | Ok None => next_ready (sy_scheduler y) = None
  | Err _ => True
  | Panic => False
  end.
Proof using Type.
  intros Hi. unfold yield_checks. destruct (sy_current_process y) as [p|]; [|done]. cbn [ok_or].
  destruct (current (sy_scheduler y)) as [t|] eqn:Hc; [|done]. cbn [ok_or].
  pose proof (bound_task_no_panic y p). destruct (bound_task y p) as [b|e|]; [|done|done].
  case_if; [done|]. pose proof (pm_state_no_panic (sy_processes y) p).
  destruct (pm_state (sy_processes y) p) as [st|e|]; cbn [map_err]; [|done|done].
  case_if; [done|]. pose proof (select_successor_no_panic y (Some t)).
  destruct (select_userspace_successor y (Some t)) as [su|e|] eqn:Hsu; [| |done].
  - destruct (ut_validate_cases (UserReturnTransfer_new (su_binding su)) (Some t)) as [[e ->]|[-> _]];
      cbn [map_err]; [done|].
    by destruct (er_kernel_stack_top _ _) as [top|] eqn:Htop; cbn [ok_or].
  - destruct e; try done. unfold select_userspace_successor in Hsu.
    destruct (next_ready (sy_scheduler y)); [|done]. cbn [ok_or] in Hsu.
    repeat (case_if; [done|]). destruct (ur_get _ _) as [b'|]; [|done]. cbn [ok_or] in Hsu.
    destruct (pm_binding _ _) as [[pb|]|e|]; cbn [map_err ok_or] in Hsu; [|done..]. by case_if.
Qed.

(** Storing the yielding task's snapshot: done completely or not at all. *)
Lemma store_snapshot_cases y t b interrupted :
  ur_wf (sy_userspace y) -> ur_get (sy_userspace y) t = Some b ->
  match store_snapshot y t interrupted with
  | (Ok _, y') => exists u r, y' = set_userspace y u /\ ur_wf u /\
      (forall t', ur_get u t' = if bool_decide (t' = t) then Some (with_resume b r)
                                else ur_get (sy_userspace y) t') /\
      match interrupted with
      | None => r = ub_resume b
      | Some (t', st) => t' = t /\ is_user_valid st = true /\ ub_resume b = None /\ r = Some st
      end
  | (Err _, y') => y' = y /\ exists t' st, interrupted = Some (t', st) /\
      (t' <> t \/ is_user_valid st = false \/ ub_resume b <> None)
  | (Panic, _) => False
  end.
Proof using Type.
  intros Hw Hb. unfold store_snapshot. pose proof (ur_get_task _ _ _ Hb) as Ht.
  assert (Hsame : set_userspace y (sy_userspace y) = y) by by destruct y.
  destruct interrupted as [[t' st]|].
  - destruct (negb _ || negb _) eqn:Hc.
    { split; [done|]. exists t', st. split; [done|]. apply orb_true_iff in Hc as [Hc|Hc]; to_prop; auto. }
    to_prop. subst t'.
    unfold ur_install_resume. rewrite Hb. unfold ub_install_resume.
    case_bool_decide as Hr; cbn [map_err].
    { rewrite reg_update_same by done. split; [done|]. exists t, st. split; [done|]. right; right.
      by destruct (ub_resume b), Hr. }
    destruct (negb (is_user_valid st)) eqn:Hv; cbn [map_err].
    { rewrite reg_update_same by done. split; [done|]. exists t, st. split; [done|]. to_prop. auto. }
    exists (reg_update ub_task (sy_userspace y) t (fun _ => with_resume b (Some st))), (Some st).
    apply negb_false_iff in Hv.
    split; [done|]. split; [by apply (reg_wf_set _ _ _ b)|]. split; [|split_and!; try done].
    + intros t'. by apply (reg_find_set _ _ _ b).
    + destruct (ub_resume b); [by destruct Hr|done].
  - exists (sy_userspace y), (ub_resume b). split_and!; [done|done| |done].
    intros t'. case_bool_decide; [|done]. subst. rewrite Hb. by destruct b.
Qed.

Lemma commit_yield_spec y c interrupted :
  sys_inv y -> is_Some (cpu_rsp0 c) ->
  match commit_userspace_yield_with_snapshot y c interrupted with
  | (Ok (Some tr), y', c') => exists p t b r,
      sy_current_process y = Some p /\ current (sy_scheduler y) = Some t /\
      ur_get (sy_userspace y) t = Some b /\ handed_to y y' c' tr /\ ut_task tr <> t /\
      ready (sy_scheduler y') = tail (ready (sy_scheduler y)) ++ [t] /\
      state (sy_scheduler y') t = Some Ready /\ pm_state (sy_processes y') p = Ok ProcReady /\
      ur_get (sy_userspace y') t = Some (with_resume b r) /\
      match interrupted with
      | None => r = ub_resume b
      | Some (t', st) => t' = t /\ ub_resume b = None /\ r = Some st
      end /\
      (forall t', t' <> t -> t' <> ut_task tr ->
         state (sy_scheduler y') t' = state (sy_scheduler y) t' /\
         ur_get (sy_userspace y') t' = ur_get (sy_userspace y) t') /\
      sy_executions y' = sy_executions y /\ sy_pending_exit y' = sy_pending_exit y /\
      (forall q, pid_ok q -> q <> p -> q <> ut_process tr ->
         pm_slot (sy_processes y') q = pm_slot (sy_processes y) q) /\
      sys_inv y'
  | (Ok None, y', c') => y' = y /\ c' = c /\ ready (sy_scheduler y) = []
  | (Err _, y', c') => y' = y /\ c' = c /\
      (is_ok (yield_checks y) = false \/
       exists t b t' st, current (sy_scheduler y) = Some t /\ ur_get (sy_userspace y) t = Some b /\
         interrupted = Some (t', st) /\ (t' <> t \/ is_user_valid st = false \/ ub_resume b <> None))
  | (Panic, _, _) => False
  end.
Proof using Type.
  intros Hi Hcpu. unfold commit_userspace_yield_with_snapshot. pose proof (yield_checks_cases y Hi) as Hx.
  destruct (yield_checks y) as [[[[[[p t] su] tr] top]|]|e|]; [| |by auto|done].
  2: { split_and!; try done. unfold next_ready, run_peek in Hx. by destruct (ready (sy_scheduler y)). }
  destruct Hx as (Hcp & Hct & Hsel & -> & Htop).
  destruct (parties_of y p t su Hi Hcp Hct Hsel) as (b & Hp).
  pose proof Hp as [_ Hub Hpok Hbp Hprun Hx Hrdy Hnext Hsok Hsp Hsready Hxt Hps].
  pose proof (store_snapshot_cases y t b interrupted (si_ur y Hi) Hub) as Hstore.
  destruct (store_snapshot y t interrupted) as [[[]|e|] y0]; [| |done].
  2: { destruct Hstore as (-> & t' & st & Hint & Hwhy). split_and!; [done|done|]. right. by exists t, b, t', st. }
  destruct Hstore as (u0 & r & -> & Hwu0 & Hu0 & Hr).
  change (sy_processes (set_userspace y u0)) with (sy_processes y).
  destruct (yield_view _ p (su_process su) _ _ (si_pm y Hi) Hpok Hsok (not_eq_sym Hps) Hprun Hsready)
    as (m2 & -> & Hw2 & Hp2 & Hs2 & Hproc).
  change (sy_scheduler (set_processes (set_userspace y u0) m2)) with (sy_scheduler y).
  pose proof (schedule_next_runs_head (sy_scheduler y) (su_task su) (si_sched y Hi)
                (fun q Hq => si_running y Hi q Hq) Hx) as Hsch.
  assert (Htr : state (schedule_next (sy_scheduler y)).2 t = Some Ready)
    by (apply (schedule_next_requeues _ t (su_task su) (si_sched y Hi) Hct (si_running y Hi t Hct) Hx); congruence).
  destruct (schedule_next (sy_scheduler y)) as [d s']. cbn [snd] in Htr.
  destruct Hsch as (Hd & _ & Hcur' & Hrun' & Hi' & Hat' & Hr' & Hoth').
  rewrite Hd, Hcur', !bool_decide_true by done. cbn [negb orb]. set (y1 := set_scheduler _ s').
  destruct (hand_over_spec y1 c su top false) as (u & c' & -> & Hwu & Hu & Hrsp & Hcl & _);
    [done|cbn; by rewrite Hu0, bool_decide_false|done|by apply (stack_top_ok y su top)|].
  cbn in Hu. set (y' := mkSystem _ _ _ _ _).
  assert (Ho : handed_over y y' t b su (Some r)).
  { split; try done; cbn.
    - by apply (two_bindings_kept _ _ _ _ _ _ _ _ _ _ Hprun Hsready Hp2 Hs2).
    - apply Hs2.
    - apply Hi.
    - intros t'. rewrite Hu. case_bool_decide; [done|]. apply Hu0.
    - intros st [= ->]. destruct interrupted as [[t' st']|]; [naive_solver|]. by apply (ubd_resume _ _ _ (si_user y Hi t b Hub)). }
  pose proof (ur_get_task _ _ _ Hnext) as Hst. exists p, t, b, r. cbn [ut_task ut_process UserReturnTransfer_new].
  rewrite Hst, <- Hsp. rewrite Hct in Hr', Hoth'.
  split_and!; try done; [|apply Hp2| |destruct interrupted as [[t' st]|]; naive_solver| |by apply (handed_over_inv y y' p t b su (Some r))].
  - apply (handed_over_to y y' c' p t b su (Some r)); [done..|congruence].
  - rewrite (ho_user _ _ _ _ _ _ Ho), bool_decide_false, bool_decide_true by congruence. done.
  - intros t' H1 H2. rewrite (ho_user _ _ _ _ _ _ Ho), !bool_decide_false by done. split; [apply Hoth'; congruence|done].
Qed.
(** *** Starting a process *)
Lemma start_checks_cases y process :
  sys_inv y ->
  match start_checks y process with
  | Ok (t, b, top) =>
      ur_get (sy_userspace y) t = Some b /\ ub_process b = process /\
      pm_state (sy_processes y) process = Ok ProcReady /\
      er_kernel_stack_top (sy_executions y) t = Some top /\ next_ready (sy_scheduler y) = Some t
  | Err _ => True
  | Panic => False
  end.
Proof using Type.
  intros Hi. unfold start_checks. pose proof (bound_task_no_panic y process).
  destruct (bound_task y process) as [pb|e|]; [|done|done].
  destruct (ur_get (sy_userspace y) (peb_task pb)) as [b|] eqn:Hb; [|done]. cbn [ok_or].
  destruct (negb _ || negb _) eqn:H1; [done|]. to_prop.
  pose proof (pm_state_no_panic (sy_processes y) process).
  destruct (pm_state (sy_processes y) process) as [st|e|] eqn:Hst; cbn [map_err]; [|done|done].
  case_bool_decide; cbn [negb]; [|done].
  destruct (er_kernel_stack_top _ _) as [top|] eqn:Htop; [|done]. cbn [ok_or].
  destruct (negb _ || negb _) eqn:Hready; [done|]. to_prop. by subst.
Qed.

Lemma start_user_spec y c process :
  sys_inv y -> is_Some (cpu_rsp0 c) ->
  match start_user y c process with
  | (Ok launch, y', c') => exists t b,
      next_ready (sy_scheduler y) = Some t /\ ur_get (sy_userspace y) t = Some b /\
      ub_process b = process /\ launch = ub_launch b /\
      pm_state (sy_processes y) process = Ok ProcReady /\
      current (sy_scheduler y') = Some t /\ state (sy_scheduler y') t = Some Running /\
      pm_state (sy_processes y') process = Ok ProcRunning /\ sy_current_process y' = Some process /\
      sy_pending_exit y' = None /\ sy_userspace y' = sy_userspace y /\
      cl_current_task (cpu_local c') = Some t /\
      cpu_rsp0 c' = er_kernel_stack_top (sy_executions y) t /\ sys_inv y'
  | (Err _, y', c') => y' = y /\ c' = c
  | (Panic, _, _) => False
  end.
Proof using Type.
  intros Hi [r0 Hr0]. unfold start_user. pose proof (start_checks_cases y process Hi) as Hx.
  destruct (start_checks y process) as [[[t b] top]|e|]; [|done|done].
  destruct Hx as (Hub & Hbp & Hst & Htop & Hx). pose proof (si_user y Hi t b Hub) as Hb.
  assert (Hpok : pid_ok process) by (rewrite <- Hbp; apply Hb).
  set (pb := mkBinding process t (ExecutionHandle_for_task t) (ub_address_space b)).
  assert (Hp : proc_is (sy_processes y) process ProcReady pb).
  { split; [done|]. unfold pb. rewrite <- Hbp. apply Hb. }
  change (sy_processes (set_pending_exit y None)) with (sy_processes y).
  destruct (start_view _ _ pb (si_pm y Hi) Hpok Hp) as (m1 & -> & Hw1 & Hrun1 & Hoth1).
  change (sy_scheduler (set_processes (set_pending_exit y None) m1)) with (sy_scheduler y).
  pose proof (schedule_next_runs_head (sy_scheduler y) t (si_sched y Hi)
                (fun q Hq => si_running y Hi q Hq) Hx) as Hsch.
  destruct (schedule_next (sy_scheduler y)) as [d s'].
  destruct Hsch as (Hd & _ & Hcur' & Hrun' & Hi' & Hat' & _ & _).
  rewrite Hd, Hcur', !bool_decide_true by done. cbn [negb orb].
  destruct (ubd_stack _ _ _ Hb) as (top' & Htop' & Hok). assert (top' = top) as -> by congruence.
  unfold set_kernel_stack_top. rewrite Hr0, Hok. set (y' := set_current_process _ _).
  exists t, b. do 9 (split; [done || apply Hrun1|]). split; [done|]. split; [done|]. split; [done|].
  split; [by rewrite Htop|].
  assert (Hbind : forall q, pid_ok q -> pm_binding m1 q = pm_binding (sy_processes y) q).
  { intros q Hq. destruct (decide (q = process)) as [->|H1].
    - by rewrite (pi_binding _ _ _ _ Hrun1), (pi_binding _ _ _ _ Hp).
    - unfold pm_binding. by rewrite Hoth1. }
  split.
  - done.
  - intros t' Hc'. change (current s' = Some t') in Hc'. rewrite Hcur' in Hc'. by injection Hc' as <-.
  - done.
  - apply Hi.
  - intros t' Hs'. change (is_Some (task s' t')). apply live_attrs. rewrite Hat'. apply live_attrs.
    by apply (si_er_live y Hi).
  - apply Hi.
  - intros t' b' Hb'. pose proof (si_user y Hi t' b' Hb') as Hub'.
    apply (user_bound_ext y); [done|by apply Hat'|apply Hbind, Hub'|done].
  - intros q [= <-]. exists t, b. split_and!; [done|done|done|apply Hrun1].
Qed.

(** *** Spawning *)
(** What the caller provides: memory for a kernel stack at an address the TSS
    accepts, and a launch whose frame returns to ring 3. *)
Record spawn_ok (memory : KernelMemory) (launch : PreparedUserLaunch) : Prop := mk_spawn_ok {
  sk_memory : memory_ok memory;
  sk_stack : forall base, km_stack memory = Some base -> virt_addr_new_ok (base + KERNEL_STACK_SIZE) = true;
  sk_frame : frame_ok (pl_frame launch);
}.

(** The four owners hold what they held before. *)
Record same_system (y y' : SystemRuntime) : Prop := mk_same_system {
  sm_tasks : same_tasks (sy_scheduler y) (sy_scheduler y');
  sm_executions : forall t, er_get (sy_executions y') t = er_get (sy_executions y) t;
  sm_wf : er_wf (sy_executions y');
  sm_userspace : sy_userspace y' = sy_userspace y;
  sm_processes : sy_processes y' = sy_processes y;
  sm_current : sy_current_process y' = sy_current_process y;
}.

Lemma same_system_inv y y' : same_system y y' -> sys_inv y -> sys_inv y'.
Proof using Type.
  intros [[Hi' Htk Hr Hc] He Hwe Hu Hp Hcp] Hi.
  assert (Hst : forall t, state (sy_scheduler y') t = state (sy_scheduler y) t)
    by (intros t; unfold state; by rewrite Htk).
  split.
  - done.
  - intros t. rewrite Hc, Hst. apply Hi.
  - rewrite Hp. apply Hi.
  - done.
  - intros t. rewrite He, Htk. apply Hi.
  - rewrite Hu. apply Hi.
  - intros t b. rewrite Hu. intros Hb. apply (user_bound_ext y); [by apply Hi| | |done].
    + unfold attrs. by rewrite Htk.
    + by rewrite Hp.
  - intros p. rewrite Hcp, Hc, Hu, Hp. apply Hi.
Qed.

Lemma fresh_unbound y t :
  sys_inv y -> task (sy_scheduler y) t = None ->
  er_get (sy_executions y) t = None /\ ur_get (sy_userspace y) t = None.
Proof using Type.
  intros Hi Hn. split.
  - destruct (er_get (sy_executions y) t) eqn:He; [|done].
    destruct (si_er_live y Hi t) as [? ?]; [by rewrite He|congruence].
  - destruct (ur_get (sy_userspace y) t) eqn:Hu; [|done].
    pose proof (ubd_live _ _ _ (si_user y Hi _ _ Hu)) as Hl. unfold attrs in Hl. by rewrite Hn in Hl.
Qed.

(** Filling a slot and clearing it again. *)
Lemma fill_then_remove r b t :
  er_wf r -> xb_task_id b = t -> er_get r t = None ->
  er_wf (er_remove (reg_fill r b) (ExecutionHandle_for_task t)).2 /\
  forall t', er_get (er_remove (reg_fill r b) (ExecutionHandle_for_task t)).2 t' = er_get r t'.
Proof using Type.
  intros Hw <- Hn. rewrite er_remove_clear. cbn [snd handle_task_id].
  assert (Hwf : er_wf (reg_fill r b)) by by apply reg_wf_fill.
  split; [by apply reg_wf_clear|]. intros t'. unfold er_get in *. rewrite reg_find_clear by done.
  rewrite reg_find_fill by done. case_bool_decide; [by subst|done].
Qed.

(** The state after a successful spawn satisfies the invariant. *)
Lemma spawned_inv y s3 b m' t pid launch space :
  sys_inv y -> task (sy_scheduler y) t = None ->
  sched_inv s3 -> attrs s3 t = Some (Userspace, Some (ExecutionHandle_for_task t)) ->
  (forall t', t' <> t -> task s3 t' = task (sy_scheduler y) t') -> current s3 = current (sy_scheduler y) ->
  xb_task_id b = t -> (exists top, xb_stack_top b = Some top /\ virt_addr_new_ok top = true) ->
  pm_wf m' -> pid_ok pid -> pm_contains (sy_processes y) pid = false ->
  pm_binding m' pid = Ok (Some (mkBinding pid t (ExecutionHandle_for_task t) space)) ->
  (forall q, pm_contains (sy_processes y) q = true -> pm_slot m' q = pm_slot (sy_processes y) q) ->
  frame_ok (pl_frame launch) ->
  sys_inv (set_userspace (set_processes (set_executions (set_scheduler y s3)
             (reg_fill (sy_executions y) b)) m')
             (sy_userspace y ++ [Some (mkUserBinding pid t space launch None)])).
Proof using Type.
  intros Hi Hn Hi3 Hat Hoth Hcur Hbt (top & Htop & Hok) Hwm Hpid Hnew Hbind Hpoth Hframe.
  destruct (fresh_unbound y t Hi Hn) as [Hen Hun]. set (y' := set_userspace _ _).
  set (ub := mkUserBinding pid t space launch None).
  assert (Heg : forall t', er_get (sy_executions y') t' =
                           if bool_decide (t' = t) then Some b else er_get (sy_executions y) t').
  { intros t'. rewrite <- Hbt. apply reg_find_fill. by rewrite Hbt. }
  assert (Hug : forall t', ur_get (sy_userspace y') t' =
                           if bool_decide (t' = t) then Some ub else ur_get (sy_userspace y) t').
  { intros t'. by apply (reg_find_snoc ub_task). }
  assert (Hlive : forall t', is_Some (task (sy_scheduler y) t') -> t' <> t) by (intros t' [? ?] ->; congruence).
  assert (Hold : forall t' b', ur_get (sy_userspace y) t' = Some b' -> user_bound y' t' b').
  { intros t' b' Hb'. pose proof (si_user y Hi _ _ Hb') as Hub'.
    assert (Hne : t' <> t). { apply Hlive, live_attrs. rewrite (ubd_live _ _ _ Hub'). eauto. }
    apply (user_bound_ext y); [done| | |by rewrite Heg, bool_decide_false].
    - apply attrs_task. by apply Hoth.
    - unfold pm_binding. rewrite Hpoth; [done|]. pose proof (ubd_proc _ _ _ Hub') as Hp.
      apply pm_binding_slot in Hp as (sl & Hsl & _). apply pm_contains_true. eauto. }
  split.
  - done.
  - intros t'. change (current s3 = Some t' -> state s3 t' = Some Running). rewrite Hcur. intros Hc.
    pose proof (si_running y Hi t' Hc) as Hr. unfold state in *. rewrite Hoth; [done|].
    apply Hlive. destruct (task (sy_scheduler y) t'); [eauto|done].
  - done.
  - apply reg_wf_fill; [by rewrite Hbt|apply Hi].
  - intros t'. rewrite Heg. change (is_Some (task (sy_scheduler y') t')) with (is_Some (task s3 t')).
    case_bool_decide as Hd.
    + intros _. subst t'. apply live_attrs. rewrite Hat. eauto.
    + rewrite Hoth by done. apply Hi.
  - apply (reg_wf_snoc ub_task); [done|apply Hi].
  - intros t' b'. rewrite Hug. case_bool_decide as Hd; [|by apply Hold]. intros [= <-]. subst t'.
    split; [done|done|done| |done|done]. exists top. unfold er_kernel_stack_top.
    by rewrite Heg, bool_decide_true.
  - intros q Hq. destruct (si_current y Hi q Hq) as (t' & b' & Hc & Hb' & Hbq & Hst).
    exists t', b'. split; [change (current s3 = Some t'); by rewrite Hcur|]. split.
    + rewrite Hug. case_bool_decide; [|done]. subst t'. congruence.
    + split; [done|]. change (pm_state m' q = Ok ProcRunning). unfold pm_state in *. rewrite Hpoth; [done|].
      apply pm_contains_true. destruct (pm_slot_cases (sy_processes y) q) as [?|Hs]; [done|].
      by rewrite Hs in Hst.
Qed.

Lemma spawn_user_spec memory stub y image launch prio :
  sys_inv y -> spawn_ok memory launch -> Z.of_nat (length (tasks (sy_scheduler y))) <= U32_MAX ->
  match spawn_user_ready memory stub y image launch prio with
  | (Ok (pid, t), y') =>
      sys_inv y' /\ task (sy_scheduler y) t = None /\ pm_contains (sy_processes y) pid = false /\
      state (sy_scheduler y') t = Some Ready /\ task_kind (sy_scheduler y') t = Some Userspace /\
      ready (sy_scheduler y') = ready (sy_scheduler y) ++ [t] /\
      current (sy_scheduler y') = current (sy_scheduler y) /\
      pm_state (sy_processes y') pid = Ok ProcReady /\ pm_image (sy_processes y') pid = Ok image /\
      ur_get (sy_userspace y') t =
        Some (mkUserBinding pid t (spec_id (pi_address_space image)) launch None) /\
      er_is_valid (sy_executions y') (ExecutionHandle_for_task t) = true /\
      (forall t', t' <> t -> task (sy_scheduler y') t' = task (sy_scheduler y) t' /\
         ur_get (sy_userspace y') t' = ur_get (sy_userspace y) t' /\
         er_get (sy_executions y') t' = er_get (sy_executions y) t') /\
      (forall q, pm_contains (sy_processes y) q = true -> pm_slot (sy_processes y') q = pm_slot (sy_processes y) q)
  | (Err _, y') => same_system y y'
  | (Panic, _) => False
  end.
Proof using Type.
  intros Hi [Hmem Hstack Hframe] Hroom. unfold spawn_user_ready. cbv zeta.
  case_bool_decide as Hspace; cbn [negb].
  2: { split; try done; [apply same_tasks_refl, Hi|apply Hi]. }
  unfold create_user_task.
  destruct (created_attached (E := SystemRuntimeError) (sy_scheduler y) prio Userspace (si_sched y Hi) Hroom)
    as (t & s1 & s2 & -> & -> & Hf).
  destruct (fresh_unbound y t Hi (fi_new _ _ _ _ _ Hf)) as [Hen Hun].
  destruct (destroy_fresh _ _ _ _ _ Hf) as (sd & -> & Hsd). cbn [snd].
  pose proof (er_insert_spec memory (sy_executions y) (ExecutionHandle_for_task t) stub Hmem) as Hins.
  destruct (er_insert _ _ _ _) as [[[]|[]|] r]; cbn [handle_task_id] in Hins; [| | |done].
  2: { exfalso. destruct Hins as [_ [? ?]]. congruence. }
  2: { destruct Hins as [-> _]. split; try done. apply Hi. }
  destruct Hins as (_ & [base Hbase] & b & _ & -> & Hbt & Hval & _ & Htop).
  destruct (fill_then_remove (sy_executions y) b t (si_er y Hi) Hbt Hen) as [Hwr Hgr].
  pose proof (spawn_view (sy_processes y) image t (si_pm y Hi)) as Hspawn.
  destruct (spawn_ready _ _ _ _ _) as [[sp|e|] m']; [| |done].
  2: { subst m'. split; try done. }
  destruct Hspawn as (Hwm & Hpid & Hnew & [Hps Hpb] & Himg & Hpoth).
  unfold UserExecutionBinding_new. rewrite bool_decide_true by done. cbn [negb].
  unfold ur_insert. cbn [ub_task]. rewrite Hun, bool_decide_false by (by intros [? ?]).
  destruct (ready_fresh _ _ _ _ _ Hf) as (s3 & -> & Hi3 & Ht3 & Hoth3 & Hr3 & Hc3). cbn [negb].
  assert (Hattr : attrs s3 t = Some (Userspace, Some (ExecutionHandle_for_task t))) by (unfold attrs; by rewrite Ht3).
  split.
  { apply (spawned_inv y s3 b m' t (sp_id sp) launch (spec_id (pi_address_space image))); try done.
    - apply Hf.
    - exists (base + KERNEL_STACK_SIZE). rewrite Htop, Hbase. split; [done|]. by apply Hstack. }
  split; [apply Hf|]. split; [done|]. split; [apply state_Some; eexists; by split|].
  split; [rewrite attrs_kind; cbn; change (fst <$> attrs s3 t = Some Userspace); by rewrite Hattr|].
  split; [done|]. split; [done|]. split; [done|]. split; [done|].
  assert (Hug : forall t', ur_get (sy_userspace y ++ [Some (mkUserBinding (sp_id sp) t
      (spec_id (pi_address_space image)) launch None)]) t' = if bool_decide (t' = t) then Some (mkUserBinding
      (sp_id sp) t (spec_id (pi_address_space image)) launch None) else ur_get (sy_userspace y) t').
  { intros t'. by apply (reg_find_snoc ub_task). }
  assert (Heg : forall t', er_get (reg_fill (sy_executions y) b) t' =
                           if bool_decide (t' = t) then Some b else er_get (sy_executions y) t').
  { intros t'. rewrite <- Hbt. apply reg_find_fill. by rewrite Hbt. }
  split; [cbn; by rewrite Hug, bool_decide_true|].
  split; [unfold er_is_valid; cbn; rewrite Heg, bool_decide_true by done; cbn; by rewrite Hval|].
  split; [|done]. intros t' Hne. split; [by apply Hoth3|]. cbn. by rewrite Hug, Heg, !bool_decide_false.
Qed.

(** *** When a commit succeeds *)
Lemma select_complete y t x b :
  sys_inv y -> current (sy_scheduler y) = Some t -> next_ready (sy_scheduler y) = Some x ->
  ur_get (sy_userspace y) x = Some b -> pm_state (sy_processes y) (ub_process b) = Ok ProcReady ->
  select_userspace_successor y (Some t) = Ok (mkSuccessor (ub_process b) x b) /\ x <> t.
Proof using Type.
  intros Hi Hc Hx Hb Hst. pose proof (si_user y Hi x b Hb) as Hub.
  assert (Hrdy : state (sy_scheduler y) x = Some Ready).
  { apply (inv_ready _ (proj2 (si_sched y Hi))). unfold next_ready, run_peek in Hx. simpl.
    destruct (ready (sy_scheduler y)); [done|]. injection Hx as ->. left. }
  assert (Hne : x <> t).
  { intros ->. rewrite (si_running y Hi t Hc) in Hrdy. done. }
  split; [|done]. unfold select_userspace_successor. rewrite Hx. cbn [ok_or].
  rewrite bool_decide_false by congruence. rewrite attrs_kind, (ubd_live _ _ _ Hub). cbn [fmap option_fmap option_map fst].
  rewrite Hrdy, Hb, !bool_decide_true by done. cbn [negb ok_or].
  rewrite (ubd_proc _ _ _ Hub). cbn [map_err ok_or peb_task peb_address_space].
  rewrite Hst, !bool_decide_true by done. done.
Qed.

Lemma exit_checks_complete y p t code x b :
  sys_inv y -> sy_pending_exit y = Some (p, t, code) -> sy_current_process y = Some p ->
  current (sy_scheduler y) = Some t -> next_ready (sy_scheduler y) = Some x ->
  ur_get (sy_userspace y) x = Some b -> pm_state (sy_processes y) (ub_process b) = Ok ProcReady ->
  is_ok (exit_checks y) = true.
Proof using Type.
  intros Hi Hpe Hcp Hc Hx Hb Hst. pose proof (si_user y Hi x b Hb) as Hub.
  destruct (select_complete y t x b Hi Hc Hx Hb Hst) as [Hsel Hne].
  destruct (si_current y Hi p Hcp) as (t0 & bt & Hc' & Hbt & Hbp & Hrun).
  assert (t0 = t) as -> by congruence. pose proof (si_user y Hi t bt Hbt) as Hubt.
  unfold exit_checks. rewrite Hpe, Hcp, Hc. cbn [ok_or]. rewrite !bool_decide_true by done. cbn [negb orb].
  rewrite Hsel. cbn [map_err].
  assert (Hbound : bound_task y p = Ok (mkBinding p t (ExecutionHandle_for_task t) (ub_address_space bt))).
  { apply bound_task_Ok. rewrite <- Hbp. apply Hubt. }
  rewrite Hbound. cbn [peb_task]. rewrite bool_decide_true by done. cbn [negb].
  rewrite Hrun. cbn [map_err]. rewrite bool_decide_true by done. cbn [negb su_binding su_task].
  rewrite ut_validate_fresh; [|apply Hub|apply Hub|rewrite (ur_get_task _ _ _ Hb); congruence]. cbn [map_err].
  rewrite attrs_execution, (ubd_live _ _ _ Hubt). cbn [mbind option_bind snd ok_or].
  destruct (ubd_stack _ _ _ Hub) as (top & -> & _). done.
Qed.

Lemma yield_checks_complete y p t x b :
  sys_inv y -> sy_current_process y = Some p -> current (sy_scheduler y) = Some t ->
  next_ready (sy_scheduler y) = Some x -> ur_get (sy_userspace y) x = Some b ->
  pm_state (sy_processes y) (ub_process b) = Ok ProcReady ->
  exists top, yield_checks y =
    Ok (Some (p, t, mkSuccessor (ub_process b) x b, UserReturnTransfer_new b, top)).
Proof using Type.
  intros Hi Hcp Hc Hx Hb Hst. pose proof (si_user y Hi x b Hb) as Hub.
  destruct (select_complete y t x b Hi Hc Hx Hb Hst) as [Hsel Hne].
  destruct (si_current y Hi p Hcp) as (t0 & bt & Hc' & Hbt & Hbp & Hrun).
  assert (t0 = t) as -> by congruence. pose proof (si_user y Hi t bt Hbt) as Hubt.
  unfold yield_checks. rewrite Hcp, Hc. cbn [ok_or].
  assert (Hbound : bound_task y p = Ok (mkBinding p t (ExecutionHandle_for_task t) (ub_address_space bt))).
  { apply bound_task_Ok. rewrite <- Hbp. apply Hubt. }
  rewrite Hbound. cbn [peb_task]. rewrite bool_decide_true by done. cbn [negb].
  rewrite Hrun. cbn [map_err]. rewrite bool_decide_true by done. cbn [negb].
  rewrite Hsel. cbn [su_binding su_task].
  rewrite ut_validate_fresh; [|apply Hub|apply Hub|rewrite (ur_get_task _ _ _ Hb); congruence]. cbn [map_err].
  destruct (ubd_stack _ _ _ Hub) as (top & -> & _). by exists top.
Qed.

(** *** The system as a transition system *)
Inductive sys_step : SystemRuntime * Cpu -> SystemRuntime * Cpu -> Prop :=
| step_spawn memory stub image launch prio y c :
    spawn_ok memory launch -> Z.of_nat (length (tasks (sy_scheduler y))) <= U32_MAX ->
    sys_step (y, c) ((spawn_user_ready memory stub y image launch prio).2, c)
| step_start process y c :
    sys_step (y, c) ((start_user y c process).1.2, (start_user y c process).2)
| step_exit code y c : sys_step (y, c) ((sy_exit y code).2, c)
| step_yield_now y c : sys_step (y, c) ((sy_yield_now y).2, c)
| step_commit_exit y c :
    sys_step (y, c) ((commit_pending_exit y c).1.2, (commit_pending_exit y c).2)
| step_commit_yield snapshot y c :
    sys_step (y, c) ((commit_userspace_yield_with_snapshot y c snapshot).1.2,
                     (commit_userspace_yield_with_snapshot y c snapshot).2).

(** Only the pending exit and the reschedule flag change in a syscall. *)
Lemma sys_inv_flags y pending k :
  kr_manager k = kr_manager (sy_runtime y) -> sys_inv y ->
  sys_inv (mkSystem (sy_processes y) k (sy_userspace y) (sy_current_process y) pending).
Proof using Type.
  intros Hk Hi. set (y' := mkSystem _ _ _ _ _).
  assert (Hs : sy_scheduler y' = sy_scheduler y) by (unfold sy_scheduler; simpl; by rewrite Hk).
  assert (He : sy_executions y' = sy_executions y) by (unfold sy_executions; simpl; by rewrite Hk).
  apply (same_system_inv y); [|done]. split; [|by intros t; rewrite He| |done|done|done].
  - rewrite Hs. apply same_tasks_refl, Hi.
  - rewrite He. apply Hi.
Qed.

Lemma current_binding_checked_Ok y user :
  current_binding_checked y = Ok user ->
  sy_pending_exit y = None /\ sy_current_process y = Some (ub_process user) /\
  current (sy_scheduler y) = Some (ub_task user) /\
  ur_get (sy_userspace y) (ub_task user) = Some user /\
  pm_state (sy_processes y) (ub_process user) = Ok ProcRunning.
Proof using Type.
  unfold current_binding_checked. case_bool_decide as Hp; [done|].
  destruct (sy_current_process y) as [p|]; [|done]. cbn [ok_or].
  destruct (pm_binding _ _) as [[pb|]|e|]; cbn [map_err ok_or]; [|done..].
  destruct (current (sy_scheduler y)) as [t|]; [|done]. cbn [ok_or].
  case_if; [done|]. destruct (pm_state (sy_processes y) p) as [st|e|] eqn:Hst; cbn [map_err]; [|done|done].
  case_if; [done|]. destruct (ur_get (sy_userspace y) t) as [b|] eqn:Hb; [|done]. cbn [ok_or].
  destruct (negb _ || negb _) eqn:Hc; [done|]. to_prop. intros [= <-]. subst.
  pose proof (ur_get_task _ _ _ Hb) as Hbt. split; [destruct (sy_pending_exit y); [by destruct Hp|done]|].
  split; [done|]. by rewrite Hbt.
Qed.

Lemma current_binding_checked_no_panic y : current_binding_checked y <> Panic.
Proof using Type.
  unfold current_binding_checked. case_if; [done|]. destruct (sy_current_process y) as [p|]; [|done].
  cbn [ok_or]. pose proof (pm_binding_no_panic (sy_processes y) p).
  destruct (pm_binding _ _) as [[pb|]|e|]; cbn [map_err ok_or]; [|done..].
  destruct (current _) as [t|]; [|done]. cbn [ok_or]. case_if; [done|].
  pose proof (pm_state_no_panic (sy_processes y) p).
  destruct (pm_state (sy_processes y) p) as [st|e|]; cbn [map_err]; [|done|done].
  case_if; [done|]. destruct (ur_get _ t) as [b|]; [|done]. cbn [ok_or]. by case_if.
Qed.

Lemma sys_step_inv y c y' c' :
  sys_step (y, c) (y', c') -> sys_inv y -> is_Some (cpu_rsp0 c) -> sys_inv y' /\ is_Some (cpu_rsp0 c').
Proof using Type.
  intros Hstep Hi Hc. inversion Hstep; subst; clear Hstep.
  - split; [|done]. pose proof (spawn_user_spec memory stub y image launch prio Hi ltac:(done) ltac:(done)) as Hs.
    destruct (spawn_user_ready _ _ _ _ _ _) as [[[pid t]|e|] y1]; simpl; [apply Hs| |done].
    by apply (same_system_inv y).
  - pose proof (start_user_spec y c process Hi Hc) as Hs.
    destruct (start_user y c process) as [[[l|e|] y1] c1]; simpl; [|by destruct Hs as [-> ->]|done].
    destruct Hs as (t & b & _ & Hub & _ & _ & _ & _ & _ & _ & _ & _ & _ & _ & Hrsp & Hi').
    split; [exact Hi'|]. rewrite Hrsp. destruct (ubd_stack _ _ _ (si_user y Hi _ _ Hub)) as (top & -> & _). eauto.
  - split; [|done]. unfold sy_exit. destruct (current_binding_checked y) as [u|e|]; simpl; try done.
    by apply (sys_inv_flags y).
  - split; [|done]. unfold sy_yield_now. destruct (current_binding_checked y) as [u|e|]; simpl; try done.
    by apply (sys_inv_flags y).
  - pose proof (commit_exit_spec y c Hi Hc) as Hs.
    destruct (commit_pending_exit y c) as [[[tr|e|] y1] c1]; simpl; [|by destruct Hs as (-> & -> & _)|done].
    destruct Hs as (p & t & code & _ & _ & _ & Hh & _ & _ & _ & _ & _ & _ & _ & _ & _ & _ & Hi').
    split; [done|]. rewrite (ht_stack _ _ _ _ Hh).
    destruct (ubd_stack _ _ _ (si_user y Hi _ _ (ht_binding _ _ _ _ Hh))) as (top & -> & _). eauto.
  - pose proof (commit_yield_spec y c snapshot Hi Hc) as Hs.
    destruct (commit_userspace_yield_with_snapshot y c snapshot) as [[[[tr|]|e|] y1] c1]; simpl;
      [|by destruct Hs as (-> & -> & _)|by destruct Hs as (-> & -> & _)|done].
    destruct Hs as (p & t & b & r & _ & _ & _ & Hh & Hs). split; [apply Hs|].
    rewrite (ht_stack _ _ _ _ Hh).
    destruct (ubd_stack _ _ _ (si_user y Hi _ _ (ht_binding _ _ _ _ Hh))) as (top & -> & _). eauto.
Qed.

Lemma sys_steps_inv p p' :
  rtc sys_step p p' -> sys_inv p.1 -> is_Some (cpu_rsp0 p.2) -> sys_inv p'.1 /\ is_Some (cpu_rsp0 p'.2).
Proof using Type.
  induction 1 as [|[y1 c1] [y2 c2] [y3 c3] Hstep _ IH]; [done|]. simpl in *. intros Hi Hc.
  destruct (sys_step_inv _ _ _ _ Hstep Hi Hc). auto.
Qed.
End SystemInv.
