(* ===== verification/SystemProps.v ===== *)
(** * What the system runtime guarantees

    The theorems about [SystemRuntime]: the invariant of every reachable state,
    transactional spawning, the exit and yield protocols from syscall to commit,
    and that a process that yields resumes where it left off. *)

From stdpp Require Import base numbers sets relations list options.
From S2P Require Import Prelude Tasks Queues Scheduler SchedulerInv SchedulerSteps.
From S2P Require Import Syscall LoadPlan Process ProcessInv Execution UserExecution.
From S2P Require Import KernelTask Runtime SystemRuntime SystemInv.

Local Open Scope Z_scope.

(** ** A concrete system *)
#[local] Existing Instance canonical_virt_addr.

Definition demo_launch : PreparedUserLaunch :=
  mkLaunch (spec_id (pi_address_space any_image)) (mkRoot 4096) (mkUserFrame 4198400 27 514 140737488351232 19).

Lemma demo_spawn_ok : spawn_ok demo_memory demo_launch.
Proof.
  split; [apply demo_memory_ok| |by vm_compute].
  intros base [= <-]. reflexivity.
Qed.

Definition demo_spawn (y : SystemRuntime) : SystemRuntime :=
  (spawn_user_ready demo_memory 77 y any_image demo_launch Priority_DEFAULT).2.

(** Two processes, the first of them running. *)
Definition demo_two : SystemRuntime := demo_spawn (demo_spawn SystemRuntime_new).
Definition demo_started : SystemRuntime := (start_user demo_two demo_cpu (mkProcessId 0 1)).1.2.
Definition demo_started_cpu : Cpu := (start_user demo_two demo_cpu (mkProcessId 0 1)).2.

Lemma demo_started_reachable :
  rtc sys_step (SystemRuntime_new, demo_cpu) (demo_started, demo_started_cpu).
Proof.
  eapply rtc_l; [|eapply rtc_l; [|apply rtc_once]].
  - apply (step_spawn demo_memory 77 any_image demo_launch Priority_DEFAULT);
      [apply demo_spawn_ok|by vm_compute].
  - apply (step_spawn demo_memory 77 any_image demo_launch Priority_DEFAULT);
      [apply demo_spawn_ok|by vm_compute].
  - apply step_start.
Qed.

Lemma demo_started_inv : sys_inv demo_started /\ is_Some (cpu_rsp0 demo_started_cpu).
Proof.
  apply (sys_steps_inv _ _ demo_started_reachable); [apply SystemRuntime_new_inv|].
  by exists 0.
Qed.

(** In every state the system runtime can reach, the four owners agree: the
    scheduler and process registry keep their own invariants, the CPU owner is the
    running task, every userspace binding names a live userspace task, the process
    whose registered binding is that task and address space, a kernel stack the TSS
    accepts and a frame (or saved state) that returns to ring 3, and the current
    process is the running process of the CPU owner. *)
Theorem system_runtime_inv `{VirtAddrCrate} c0 y c :
  is_Some (cpu_rsp0 c0) -> rtc sys_step (SystemRuntime_new, c0) (y, c) ->
  sys_inv y /\ is_Some (cpu_rsp0 c).
Proof. intros Hc Hs. apply (sys_steps_inv _ _ Hs); [apply SystemRuntime_new_inv|done]. Qed.

Lemma system_runtime_inv_witness :
  sys_inv demo_started /\ sy_current_process demo_started = Some (mkProcessId 0 1).
Proof.
  split; [|vm_compute; reflexivity].
  apply (system_runtime_inv demo_cpu demo_started demo_started_cpu ltac:(by exists 0) demo_started_reachable).
Defined.

(** C15: spawning a userspace process is all or nothing across the four owners.  On
    success the process and the task are new, the process is ready with its image,
    the task is a ready userspace task queued last with a valid kernel execution
    binding and the given launch, and everything else is unchanged.  On any failure
    (no stack memory, a full process table, mismatched address spaces) every owner
    holds exactly what it held before.  It never panics. *)
Theorem spawn_user_transactional `{VirtAddrCrate} memory stub y image launch prio :
  sys_inv y -> spawn_ok memory launch -> Z.of_nat (length (tasks (sy_scheduler y))) <= U32_MAX ->
  match spawn_user_ready memory stub y image launch prio with
  | (Ok (pid, t), y') =>
      sys_inv y' /\ task (sy_scheduler y) t = None /\ pm_contains (sy_processes y) pid = false /\
      state (sy_scheduler y') t = Some Ready /\ task_kind (sy_scheduler y') t = Some Userspace /\
      ready (sy_scheduler y') = ready (sy_scheduler y) ++ [t] /\
      current (sy_scheduler y') = current (sy_scheduler y) /\
      pm_state (sy_processes y') pid = Ok ProcReady /\ pm_image (sy_processes y') pid = Ok image /\
      ur_get (sy_userspace y') t =
        Some (mkUserBinding pid t (spec_id (pi_address_space image)) launch None) /\
      er_is_valid (sy_executions y') (ExecutionHandle_for_task t) = true /\
      (forall t', t' <> t -> task (sy_scheduler y') t' = task (sy_scheduler y) t' /\
         ur_get (sy_userspace y') t' = ur_get (sy_userspace y) t' /\
         er_get (sy_executions y') t' = er_get (sy_executions y) t') /\
      (forall q, pm_contains (sy_processes y) q = true -> pm_slot (sy_processes y') q = pm_slot (sy_processes y) q)
  | (Err _, y') =>
      (forall t, task (sy_scheduler y') t = task (sy_scheduler y) t) /\
      ready (sy_scheduler y') = ready (sy_scheduler y) /\
      current (sy_scheduler y') = current (sy_scheduler y) /\
      (forall t, er_get (sy_executions y') t = er_get (sy_executions y) t) /\
      sy_userspace y' = sy_userspace y /\ sy_processes y' = sy_processes y /\ sys_inv y'
  | (Panic, _) => False
  end.
Proof.
  intros Hi Hok Hroom. pose proof (spawn_user_spec memory stub y image launch prio Hi Hok Hroom) as Hs.
  destruct (spawn_user_ready _ _ _ _ _ _) as [[[pid t]|e|] y']; [done| |done].
  pose proof (same_system_inv _ _ Hs Hi). destruct Hs as [[? ? ? ?] ? ? ? ? ?]. done.
Qed.

Lemma spawn_user_transactional_witness :
  exists pid t y', spawn_user_ready demo_memory 77 SystemRuntime_new any_image demo_launch Priority_DEFAULT
    = (Ok (pid, t), y') /\ ready (sy_scheduler y') = [t].
Proof.
  pose proof (spawn_user_transactional demo_memory 77 SystemRuntime_new any_image demo_launch Priority_DEFAULT
                SystemRuntime_new_inv demo_spawn_ok ltac:(vm_compute; discriminate)) as Hs.
  assert (Hok : is_ok (spawn_user_ready demo_memory 77 SystemRuntime_new any_image demo_launch
                         Priority_DEFAULT).1 = true) by (vm_compute; reflexivity).
  destruct (spawn_user_ready demo_memory 77 SystemRuntime_new any_image demo_launch Priority_DEFAULT)
    as [[[pid t]|e|] y']; [|discriminate..].
  exists pid, t, y'. split; [reflexivity|]. apply Hs.
Defined.

(** C11: the exit protocol.  When the [exit] syscall of the current process is
    accepted, committing it either hands the CPU to the userspace process at the head
    of the ready queue, with the exiting task gone from the scheduler and from both
    execution registries and its process exited, and nothing else touched; or it
    fails and changes nothing at all.  It succeeds exactly when the head of the queue
    is a userspace task of a ready process.  The recorded exit code is 0 whatever
    code the process passed. *)
Theorem exit_protocol_atomic `{VirtAddrCrate} y c code y1 :
  sys_inv y -> is_Some (cpu_rsp0 c) -> sy_exit y code = (Ok tt, y1) ->
  exists p t, sy_current_process y = Some p /\ current (sy_scheduler y) = Some t /\
    sy_pending_exit y1 = Some (p, t, code) /\
    match commit_pending_exit y1 c with
    | (Ok tr, y2, c2) =>
        handed_to y1 y2 c2 tr /\ ut_task tr <> t /\ task (sy_scheduler y2) t = None /\
        er_get (sy_executions y2) t = None /\ ur_get (sy_userspace y2) t = None /\
        ready (sy_scheduler y2) = tail (ready (sy_scheduler y)) /\
        pm_state (sy_processes y2) p = Ok ProcExited /\
        pm_exit_code (sy_processes y2) p = Ok (Some 0) /\ sy_pending_exit y2 = None /\
        (forall t', t' <> t -> t' <> ut_task tr ->
           task (sy_scheduler y2) t' = task (sy_scheduler y) t' /\
           er_get (sy_executions y2) t' = er_get (sy_executions y) t' /\
           ur_get (sy_userspace y2) t' = ur_get (sy_userspace y) t') /\
        (forall q, pid_ok q -> q <> p -> q <> ut_process tr ->
           pm_slot (sy_processes y2) q = pm_slot (sy_processes y) q) /\
        sys_inv y2
    | (Err _, y2, c2) => y2 = y1 /\ c2 = c /\
        ~ (exists x b, next_ready (sy_scheduler y) = Some x /\ ur_get (sy_userspace y) x = Some b /\
             pm_state (sy_processes y) (ub_process b) = Ok ProcReady)
    | (Panic, _, _) => False
    end.
Proof.
  intros Hi Hc He. unfold sy_exit in He.
  destruct (current_binding_checked y) as [user|e|] eqn:Hb; [|done|done]. injection He as <-.
  apply current_binding_checked_Ok in Hb as (_ & Hcp & Hct & _ & _).
  exists (ub_process user), (ub_task user). split; [done|]. split; [done|]. split; [done|].
  set (y1 := set_runtime _ _). assert (Hi1 : sys_inv y1) by by apply (sys_inv_flags y).
  pose proof (commit_exit_spec y1 c Hi1 Hc) as Hs.
  destruct (commit_pending_exit y1 c) as [[[tr|e|] y2] c2]; [| |done].
  - destruct Hs as (p & t & code' & Hpe & _ & _ & Hs). injection Hpe as <- <- _. exact Hs.
  - destruct Hs as (-> & -> & Hno). split_and!; [done|done|]. intros (x & b & Hx & Hbx & Hst).
    rewrite (exit_checks_complete y1 (ub_process user) (ub_task user) code x b) in Hno; done.
Qed.

Lemma exit_protocol_atomic_witness :
  exists tr y2 c2, commit_pending_exit (sy_exit demo_started 42).2 demo_started_cpu = (Ok tr, y2, c2) /\
    ut_process tr = mkProcessId 1 1 /\ pm_exit_code (sy_processes y2) (mkProcessId 0 1) = Ok (Some 0).
Proof.
  destruct (exit_protocol_atomic demo_started demo_started_cpu 42 (sy_exit demo_started 42).2
              (proj1 demo_started_inv) (proj2 demo_started_inv) ltac:(vm_compute; reflexivity))
    as (p & t & Hp & _ & _ & Hs).
  assert (Hq : sy_current_process demo_started = Some (mkProcessId 0 1)) by (vm_compute; reflexivity).
  rewrite Hq in Hp. injection Hp as Hpa.
  assert (Hok : (fun r => match r with Ok tr => bool_decide (ut_process tr = mkProcessId 1 1) | _ => false end)
      (commit_pending_exit (sy_exit demo_started 42).2 demo_started_cpu).1.1 = true)
    by (vm_compute; reflexivity).
  destruct (commit_pending_exit (sy_exit demo_started 42).2 demo_started_cpu) as [[[tr|e|] y2] c2];
    [|discriminate..].
  exists tr, y2, c2. split; [reflexivity|]. split; [exact (bool_decide_eq_true_1 _ Hok)|].
  rewrite Hpa. apply Hs.
Defined.

(** C14: a yield is atomic across the four owners.  Committing it either hands the
    CPU to the ready userspace process at the head of the queue and puts the yielding
    task, with its snapshot as its resume state, at the back; or reports that nobody
    else is ready; or fails; in the last two cases nothing changes.  When the
    head of the queue is a userspace task of a ready process, it fails only for its
    snapshot: one of another task, one that is not a valid user state, or one given while
    a resume state is still stored for the task. *)
Theorem userspace_yield_atomic `{VirtAddrCrate} y c interrupted :
  sys_inv y -> is_Some (cpu_rsp0 c) ->
  match commit_userspace_yield_with_snapshot y c interrupted with
  | (Ok (Some tr), y', c') => exists p t b r,
      sy_current_process y = Some p /\ current (sy_scheduler y) = Some t /\
      ur_get (sy_userspace y) t = Some b /\ handed_to y y' c' tr /\ ut_task tr <> t /\
      ready (sy_scheduler y') = tail (ready (sy_scheduler y)) ++ [t] /\
      state (sy_scheduler y') t = Some Ready /\ pm_state (sy_processes y') p = Ok ProcReady /\
      ur_get (sy_userspace y') t = Some (with_resume b r) /\
      match interrupted with
      | None => r = ub_resume b
      | Some (t', st) => t' = t /\ ub_resume b = None /\ r = Some st
      end /\
      (forall t', t' <> t -> t' <> ut_task tr ->
         state (sy_scheduler y') t' = state (sy_scheduler y) t' /\
         ur_get (sy_userspace y') t' = ur_get (sy_userspace y) t') /\
      sys_inv y'
  | (Ok None, y', c') => y' = y /\ c' = c /\ ready (sy_scheduler y) = []
  | (Err _, y', c') => y' = y /\ c' = c /\
      (forall p t b x bx, sy_current_process y = Some p -> current (sy_scheduler y) = Some t ->
         ur_get (sy_userspace y) t = Some b -> next_ready (sy_scheduler y) = Some x ->
         ur_get (sy_userspace y) x = Some bx -> pm_state (sy_processes y) (ub_process bx) = Ok ProcReady ->
         exists t' st, interrupted = Some (t', st) /\
           (t' <> t \/ is_user_valid st = false \/ ub_resume b <> None))
  | (Panic, _, _) => False
  end.
Proof.
  intros Hi Hc. pose proof (commit_yield_spec y c interrupted Hi Hc) as Hs.
  destruct (commit_userspace_yield_with_snapshot y c interrupted) as [[[[tr|]|e|] y'] c']; [|done| |done].
  - destruct Hs as (p & t & b & r & Hs). exists p, t, b, r. naive_solver.
  - destruct Hs as (-> & -> & Hwhy). split_and!; [done|done|]. intros p t b x bx Hp Ht Hb Hx Hbx Hst.
    destruct (yield_checks_complete y p t x bx Hi Hp Ht Hx Hbx Hst) as [top Hyc].
    destruct Hwhy as [Hno|(t0 & b0 & t' & st & Ht0 & Hb0 & Hint & Hwhy)]; [by rewrite Hyc in Hno|].
    exists t', st. split; [done|]. assert (t0 = t) as -> by congruence.
    assert (b0 = b) as -> by congruence. done.
Qed.

Definition demo_regs : SavedRegisters := mkRegs 1 2 3 4 5 6 7 8 9 10 11 12 13 14 15.
Definition demo_snapshot : InterruptedState :=
  mkInterrupted demo_regs (mkReturnState 4198404 27 514 8192 (Some 140737488351000) (Some 19)).

Lemma userspace_yield_atomic_witness :
  exists tr y' c', commit_userspace_yield_with_snapshot demo_started demo_started_cpu
      (Some (mkTaskId 0 1, demo_snapshot)) = (Ok (Some tr), y', c') /\
    ready (sy_scheduler y') = [mkTaskId 0 1].
Proof.
  pose proof (userspace_yield_atomic demo_started demo_started_cpu (Some (mkTaskId 0 1, demo_snapshot))
                (proj1 demo_started_inv) (proj2 demo_started_inv)) as Hs.
  assert (Hok : (fun r => match r with Ok (Some _) => true | _ => false end)
    (commit_userspace_yield_with_snapshot demo_started demo_started_cpu
       (Some (mkTaskId 0 1, demo_snapshot))).1.1 = true) by (vm_compute; reflexivity).
  destruct (commit_userspace_yield_with_snapshot demo_started demo_started_cpu
              (Some (mkTaskId 0 1, demo_snapshot))) as [[[[tr|]|e|] y'] c']; [|discriminate..].
  exists tr, y', c'. split; [reflexivity|].
  destruct Hs as (p & t & b & r & _ & _ & _ & _ & _ & Hr & _ & _ & _ & [Ht _] & _). rewrite Hr, <- Ht.
  vm_compute. reflexivity.
Defined.

Definition demo_yield (st : SystemRuntime * Cpu) (t : TaskId) : SystemRuntime * Cpu :=
  let '(_, y, c) := commit_userspace_yield_with_snapshot st.1 st.2 (Some (t, demo_snapshot)) in (y, c).

(** The last failure is one a running process can meet: a process that yielded and is then
    started again, instead of being handed the CPU, keeps the resume state stored at its
    yield, so its next yield with a snapshot is refused although another process is ready. *)
Example restarted_process_cannot_yield :
  let y := (start_user (demo_spawn demo_two) demo_cpu (mkProcessId 0 1)).1.2 in
  let c := (start_user (demo_spawn demo_two) demo_cpu (mkProcessId 0 1)).2 in
  let '(y, c) := demo_yield (demo_yield (y, c) (mkTaskId 0 1)) (mkTaskId 1 1) in
  let '(started, y, c) := start_user y c (mkProcessId 0 1) in
  is_ok started = true /\ next_ready (sy_scheduler y) = Some (mkTaskId 1 1) /\
  pm_state (sy_processes y) (mkProcessId 1 1) = Ok ProcReady /\
  (commit_userspace_yield_with_snapshot y c (Some (mkTaskId 0 1, demo_snapshot))).1.1
    = Err (SysUserBinding (UserBindingError ResumeStateAlreadyPresent)).
Proof. vm_compute. done. Qed.

(** C16: a process that yields resumes exactly where it left off.  If a process
    yields with snapshot [st] to the only other ready process, then when that one
    yields in turn, the CPU goes back to the first process with [st] (every saved
    register and its return frame) as the state to resume, once: it is not left behind
    for a later switch. *)
Theorem yield_round_trip `{VirtAddrCrate} y c t st tr y1 c1 second :
  sys_inv y -> is_Some (cpu_rsp0 c) ->
  commit_userspace_yield_with_snapshot y c (Some (t, st)) = (Ok (Some tr), y1, c1) ->
  ready (sy_scheduler y) = [ut_task tr] ->
  match commit_userspace_yield_with_snapshot y1 c1 second with
  | (Ok (Some tr2), y2, c2) =>
      ut_task tr2 = t /\ Some (ut_process tr2) = sy_current_process y /\ ut_resume tr2 = Some st /\
      ready (sy_scheduler y2) = [ut_task tr] /\
      (ub_resume <$> ur_get (sy_userspace y2) t) = Some None
  | (Ok None, _, _) => False
  | (Err _, y2, c2) => y2 = y1 /\ c2 = c1
  | (Panic, _, _) => False
  end.
Proof.
  intros Hi Hc He Hr. pose proof (commit_yield_spec y c (Some (t, st)) Hi Hc) as Hs. rewrite He in Hs.
  destruct Hs as (p & t0 & b & r & Hp & Ht & Hb & Hh & Hne & Hr1 & _ & _ & Hub & (<- & _ & ->) & _ & _ & _ & _ & Hi1).
  rewrite Hr in Hr1. simpl in Hr1.
  assert (Hc1 : is_Some (cpu_rsp0 c1)).
  { rewrite (ht_stack _ _ _ _ Hh).
    destruct (ubd_stack _ _ _ (si_user y Hi _ _ (ht_binding _ _ _ _ Hh))) as (top & -> & _). eauto. }
  pose proof (commit_yield_spec y1 c1 second Hi1 Hc1) as Hs2.
  destruct (commit_userspace_yield_with_snapshot y1 c1 second) as [[[[tr2|]|e|] y2] c2]; [| | |done].
  - destruct Hs2 as (p2 & t2 & b2 & r2 & Hp2 & Ht2 & _ & Hh2 & _ & Hr2 & _).
    pose proof (ht_head _ _ _ _ Hh2) as Hhd. unfold next_ready, run_peek in Hhd. rewrite Hr1 in Hhd.
    injection Hhd as Htt. pose proof (ht_binding _ _ _ _ Hh2) as Hb2. rewrite <- Htt, Hub in Hb2.
    injection Hb2 as Hb2. rewrite Hr1 in Hr2. rewrite (ht_current _ _ _ _ Hh) in Ht2. injection Ht2 as <-.
    split_and!; [done| | |done|].
    + rewrite (ht_process _ _ _ _ Hh2), <- Hb2. cbn [ub_process with_resume].
      destruct (si_current y Hi p Hp) as (t' & b' & Ht' & Hb' & <- & _). congruence.
    + unfold ut_resume. by rewrite <- Hb2.
    + rewrite Htt, (ht_resumed _ _ _ _ Hh2). done.
  - destruct Hs2 as (_ & _ & Hs2). by rewrite Hr1 in Hs2.
  - by destruct Hs2 as (-> & -> & _).
Qed.

Lemma yield_round_trip_witness :
  exists tr y1 c1, commit_userspace_yield_with_snapshot demo_started demo_started_cpu
      (Some (mkTaskId 0 1, demo_snapshot)) = (Ok (Some tr), y1, c1) /\
  exists tr2 y2 c2, commit_userspace_yield_with_snapshot y1 c1 None = (Ok (Some tr2), y2, c2) /\
    ut_resume tr2 = Some demo_snapshot.
Proof.
  destruct (commit_userspace_yield_with_snapshot demo_started demo_started_cpu
              (Some (mkTaskId 0 1, demo_snapshot))) as [[[[tr|]|e|] y1] c1] eqn:He;
    [|vm_compute in He; discriminate..].
  exists tr, y1, c1. split; [reflexivity|].
  assert (Hr : ready (sy_scheduler demo_started) = [ut_task tr]).
  { vm_compute in He. injection He as <- _ _. vm_compute. reflexivity. }
  pose proof (yield_round_trip demo_started demo_started_cpu (mkTaskId 0 1) demo_snapshot tr y1 c1 None
                (proj1 demo_started_inv) (proj2 demo_started_inv) He Hr) as Hs.
  assert (Hok : (fun r => match r with Ok (Some _) => true | _ => false end)
    (commit_userspace_yield_with_snapshot y1 c1 None).1.1 = true).
  { vm_compute in He. injection He as _ <- <-. vm_compute. reflexivity. }
  destruct (commit_userspace_yield_with_snapshot y1 c1 None) as [[[[tr2|]|e|] y2] c2]; [|discriminate..].
  exists tr2, y2, c2. split; [reflexivity|]. apply Hs.
Defined.
