(* ===== verification/ProcessRuntime.v ===== *)
(** * The process and kernel runtime bridge ([arch/x86_64/process_runtime.rs])

    The adapter that lets system calls act on the process registry and the kernel
    runtime: spawning a userspace process with its scheduler task, binding the current
    process, and its exit and yield. *)

From stdpp Require Import base numbers sets relations list options.
From S2P Require Import Prelude Tasks Queues Scheduler SchedulerInv SchedulerSteps.
From S2P Require Import Syscall LoadPlan Process ProcessInv Execution UserExecution.
From S2P Require Import KernelTask Runtime SystemRuntime SystemInv SystemProps.

Local Open Scope Z_scope.
Local Open Scope rust_scope.

Record ProcessRuntimeOwner := mkOwner {
  po_processes : ProcessManager;
  po_runtime : KernelRuntime;
  po_current_process : option ProcessId;
}.

Inductive ProcessRuntimeError :=
| PoNoCurrentProcess
| PoProcess (e : ProcessManagerError)
| PoRuntime (e : RuntimeError)
| PoTaskBindingMismatch
| PoProcessNotRunning.

Inductive UserSpawnError :=
| UsAddressSpaceMismatch
| UsProcess (e : ProcessManagerError)
| UsScheduler (e : SchedulerError)
| UsReadyQueueRejected.

Definition po_new (processes : ProcessManager) (runtime : KernelRuntime) : ProcessRuntimeOwner :=
  mkOwner processes runtime None.

Definition po_syscall_error (e : ProcessRuntimeError) : SyscallError := InvalidArguments.

(** [spawn_user_ready]: the identities first, the ready queue last; every failure takes
    back what was created. *)
Definition po_spawn_user_ready (processes : ProcessManager) (scheduler : Scheduler) (image : ProcessImage)
    (launch : PreparedUserLaunch) (priority : Priority)
  : result UserSpawnError (ProcessId * TaskId * UserExecutionBinding) * ProcessManager * Scheduler :=
  let address_space := spec_id (pi_address_space image) in
  if negb (bool_decide (pl_address_space launch = address_space)) then (Err UsAddressSpaceMismatch, processes, scheduler) else
  match create_user_task scheduler priority with
  | (Err e, s) => (Err e, processes, s)
  | (Panic, s) => (Panic, processes, s)
  | (Ok task, s) =>
      match attach_execution s task with
      | (Err error, s) => (Err (UsScheduler error), processes, (destroy_created s task).2)
      | (Panic, s) => (Panic, processes, s)
      | (Ok execution, s) =>
          match spawn_ready processes image task execution address_space with
          | (Err error, p) => (Err (UsProcess error), p, (destroy_created s task).2)
          | (Panic, p) => (Panic, p, s)
          | (Ok spawned, p) =>
              match UserExecutionBinding_new (sp_id spawned) task address_space launch with
              | Err _ => (Err UsAddressSpaceMismatch, (abort_ready p (sp_id spawned)).2, (destroy_created s task).2)
              | Panic => (Panic, p, s)
              | Ok binding =>
                  let '(ready, s) := make_ready s task in
                  if negb ready
                  then (Err UsReadyQueueRejected, (abort_ready p (sp_id spawned)).2, (destroy_created s task).2)
                  else (Ok (sp_id spawned, task, binding), p, s)
              end
          end
      end
  end.

Definition po_scheduler (o : ProcessRuntimeOwner) : Scheduler := ktm_scheduler (kr_manager (po_runtime o)).

(** The checks shared by [bind_current], [exit_current] and [request_yield]. *)
Definition po_check_running (o : ProcessRuntimeOwner) (process : ProcessId) : result ProcessRuntimeError unit :=
  let? found := map_err PoProcess (pm_binding (po_processes o) process) in
  let? binding := ok_or found PoTaskBindingMismatch in
  let? task := ok_or (current (po_scheduler o)) PoTaskBindingMismatch in
  if negb (bool_decide (peb_task binding = task)) then Err PoTaskBindingMismatch else
  let? st := map_err PoProcess (pm_state (po_processes o) process) in
  if negb (bool_decide (st = ProcRunning)) then Err PoProcessNotRunning else Ok tt.

Definition po_bind_current (o : ProcessRuntimeOwner) (process : ProcessId)
  : result ProcessRuntimeError unit * ProcessRuntimeOwner :=
  match po_check_running o process with
  | Ok _ => (Ok tt, mkOwner (po_processes o) (po_runtime o) (Some process))
  | Err e => (Err e, o)
  | Panic => (Panic, o)
  end.

Definition po_current_task (o : ProcessRuntimeOwner) : option TaskId :=
  process ← po_current_process o;
  match pm_binding (po_processes o) process with Ok (Some binding) => Some (peb_task binding) | _ => None end.

Definition po_exit_current (o : ProcessRuntimeOwner) (code : Z) : result ProcessRuntimeError unit * ProcessRuntimeOwner :=
  match po_current_process o with
  | None => (Err PoNoCurrentProcess, o)
  | Some process =>
      match po_check_running o process with
      | Err e => (Err e, o)
      | Panic => (Panic, o)
      | Ok _ =>
          match pm_exit (po_processes o) process with
          | (Err e, p) => (Err (PoProcess e), mkOwner p (po_runtime o) (po_current_process o))
          | (Panic, p) => (Panic, mkOwner p (po_runtime o) (po_current_process o))
          | (Ok _, p) =>
              let '(exited, m) := ktm_exit_current (kr_manager (po_runtime o)) in
              let k := kr_set_manager (po_runtime o) m in
              if negb exited then (Err PoTaskBindingMismatch, mkOwner p k (po_current_process o))
              else (Ok tt, mkOwner p k None)
          end
      end
  end.

Definition po_request_yield (o : ProcessRuntimeOwner) : result ProcessRuntimeError unit * ProcessRuntimeOwner :=
  match po_current_process o with
  | None => (Err PoNoCurrentProcess, o)
  | Some process =>
      match po_check_running o process with
      | Ok _ => (Ok tt, mkOwner (po_processes o) (request_reschedule (po_runtime o)) (po_current_process o))
      | Err e => (Err e, o)
      | Panic => (Panic, o)
      end
  end.

#[export] Instance process_runtime_control : ProcessSyscallControl ProcessRuntimeOwner := {|
  control_exit := fun o code => map_err_st po_syscall_error (po_exit_current o code);
  control_yield_now := fun o => map_err_st po_syscall_error (po_request_yield o);
|}.

(** ** Exit *)

(** The owner with its process running on the CPU. *)
Record po_running (o : ProcessRuntimeOwner) (pid : ProcessId) (b : ProcessExecutionBinding) : Prop := mk_po_running {
  pr_pm : pm_wf (po_processes o);
  pr_sched : sched_inv (po_scheduler o);
  pr_pid : pid_ok pid;
  pr_current : po_current_process o = Some pid;
  pr_proc : proc_is (po_processes o) pid ProcRunning b;
  pr_task : current (po_scheduler o) = Some (peb_task b);
  pr_state : state (po_scheduler o) (peb_task b) = Some Running;
  pr_handle : execution (po_scheduler o) (peb_task b) = Some (ExecutionHandle_for_task (peb_task b));
}.

Lemma po_check_running_ok o pid b : po_running o pid b -> po_check_running o pid = Ok tt.
Proof.
  intros [_ _ _ _ [Hst Hb] Ht _ _]. unfold po_check_running. rewrite Hb. cbn. rewrite Ht. cbn.
  rewrite bool_decide_true by done. cbn. rewrite Hst. cbn. done.
Qed.

(** The exit of the bound process ends it on both sides: its record is exited with
    code 0, whatever code it passed, its task has left the scheduler and nobody owns the
    CPU.  But success is reported, and the owner forgets the process, only when the
    task also had an entry in the kernel execution registry, which a process spawned
    through this adapter never gets; without one, the completed exit is reported as a
    binding mismatch. *)
Theorem owner_exit_effect (o : ProcessRuntimeOwner) (pid : ProcessId) (b : ProcessExecutionBinding) (code : Z) :
  po_running o pid b ->
  let registered := bool_decide (is_Some (er_get (ktm_executions (kr_manager (po_runtime o))) (peb_task b))) in
  let '(r, o') := po_exit_current o code in
  r = (if registered then Ok tt else Err PoTaskBindingMismatch) /\
  po_current_process o' = (if registered then None else Some pid) /\
  proc_is (po_processes o') pid ProcExited b /\ pm_exit_code (po_processes o') pid = Ok (Some 0) /\
  current (po_scheduler o') = None /\ task (po_scheduler o') (peb_task b) = None /\
  (forall t, t <> peb_task b -> task (po_scheduler o') t = task (po_scheduler o) t).
Proof.
  intros Hr registered. pose proof Hr as [Hw Hi Hid Hcp Hp Ht Hst Hh]. unfold po_exit_current. rewrite Hcp.
  rewrite (po_check_running_ok o pid b Hr).
  destruct (exit_view (po_processes o) pid b Hw Hid Hp) as (p' & -> & _ & Hex & Hcode & _).
  unfold ktm_exit_current. fold (po_scheduler o). rewrite Ht, Hh.
  destruct (exit_current_running (po_scheduler o) (peb_task b) Hi Ht Hst) as (s' & -> & Hc' & Hg & Hother). cbn [negb].
  rewrite er_remove_clear. cbn [handle_task_id]. fold registered.
  destruct registered; cbn [negb]; split_and!; done.
Qed.

Lemma po_spawn_spec (m : ProcessManager) (s : Scheduler) (image : ProcessImage) (launch : PreparedUserLaunch)
    (priority : Priority) :
  pm_wf m -> sched_inv s -> Z.of_nat (length (tasks s)) <= U32_MAX ->
  match po_spawn_user_ready m s image launch priority with
  | (Ok (pid, t, b), m', s') =>
      pm_wf m' /\ sched_inv s' /\ pm_contains m pid = false /\ task s t = None /\
      proc_is m' pid ProcReady (mkBinding pid t (ExecutionHandle_for_task t) (spec_id (pi_address_space image))) /\
      pm_image m' pid = Ok image /\ state s' t = Some Ready /\ task_kind s' t = Some Userspace /\
      ready s' = ready s ++ [t] /\ current s' = current s /\
      b = mkUserBinding pid t (spec_id (pi_address_space image)) launch None /\
      (forall t', t' <> t -> task s' t' = task s t') /\
      (forall q, pm_contains m q = true -> pm_slot m' q = pm_slot m q)
  | (Err _, m', s') => m' = m /\ same_tasks s s'
  | (Panic, _, _) => False
  end.
Proof.
  intros Hw Hi Hroom. unfold po_spawn_user_ready. cbv zeta. case_bool_decide as Hspace; cbn [negb].
  2: { split; [done|by apply same_tasks_refl]. }
  unfold create_user_task.
  destruct (created_attached (E := UserSpawnError) s priority Userspace Hi Hroom) as (t & s1 & s2 & -> & -> & Hf).
  destruct (destroy_fresh _ _ _ _ _ Hf) as (sd & -> & Hsd). cbn [snd].
  pose proof (spawn_view m image t Hw) as Hspawn.
  destruct (spawn_ready _ _ _ _ _) as [[sp|e|] m']; [|by subst m'|done].
  destruct Hspawn as (Hwm & Hpid & Hnew & Hp & Himg & Hpoth).
  unfold UserExecutionBinding_new. rewrite bool_decide_true by done. cbn [negb].
  destruct (ready_fresh _ _ _ _ _ Hf) as (s3 & -> & Hi3 & Ht3 & Hoth3 & Hr3 & Hc3). cbn [negb].
  split_and!; try done; [apply Hf|apply state_Some; eexists; by split|]. unfold task_kind. by rewrite Ht3.
Qed.

(** Spawning through the adapter is all or nothing: on success the process is new and
    ready with its image, bound to a new ready userspace task queued last, and the
    returned binding names both with the given launch; on any failure the process
    registry is unchanged and the scheduler holds the same tasks, queue and owner. *)
Theorem po_spawn_transactional (m : ProcessManager) (s : Scheduler) (image : ProcessImage) (launch : PreparedUserLaunch)
    (priority : Priority) :
  pm_wf m -> sched_inv s -> Z.of_nat (length (tasks s)) <= U32_MAX ->
  match po_spawn_user_ready m s image launch priority with
  | (Ok (pid, t, b), m', s') =>
      pm_wf m' /\ sched_inv s' /\ pm_contains m pid = false /\ task s t = None /\
      proc_is m' pid ProcReady (mkBinding pid t (ExecutionHandle_for_task t) (spec_id (pi_address_space image))) /\
      pm_image m' pid = Ok image /\ state s' t = Some Ready /\ task_kind s' t = Some Userspace /\
      ready s' = ready s ++ [t] /\ current s' = current s /\
      b = mkUserBinding pid t (spec_id (pi_address_space image)) launch None /\
      (forall t', t' <> t -> task s' t' = task s t') /\
      (forall q, pm_contains m q = true -> pm_slot m' q = pm_slot m q)
  | (Err _, m', s') => m' = m /\ same_tasks s s'
  | (Panic, _, _) => False
  end.
Proof. apply po_spawn_spec. Qed.

(** ** Examples *)
Definition demo_po_spawn : result UserSpawnError (ProcessId * TaskId * UserExecutionBinding) * ProcessManager * Scheduler :=
  po_spawn_user_ready ProcessManager_new Scheduler_new any_image demo_launch Priority_DEFAULT.

Lemma po_spawn_transactional_witness :
  exists pid t b m' s', demo_po_spawn = (Ok (pid, t, b), m', s') /\ ready s' = [t].
Proof.
  pose proof (po_spawn_transactional ProcessManager_new Scheduler_new any_image demo_launch Priority_DEFAULT
    ProcessManager_new_wf Scheduler_new_inv ltac:(vm_compute; discriminate)) as Hs. fold demo_po_spawn in Hs.
  assert (Hok : is_ok demo_po_spawn.1.1 = true) by (vm_compute; reflexivity).
  destruct demo_po_spawn as [[[[[pid t] b]|e|] m'] s']; [|discriminate..].
  exists pid, t, b, m', s'. split; [reflexivity|]. destruct Hs as (_ & _ & _ & _ & _ & _ & _ & _ & Hr & _). exact Hr.
Defined.

(** The spawned process dispatched and bound: nothing registered it for kernel execution. *)
Definition demo_owner : ProcessRuntimeOwner :=
  let s := (schedule_next demo_po_spawn.2).2 in
  let m := (pm_start demo_po_spawn.1.2 (mkProcessId 0 1)).2 in
  mkOwner m (kr_set_manager KernelRuntime_new (ktm_set_scheduler KernelTaskManager_new s)) (Some (mkProcessId 0 1)).
Definition demo_owner_ops : list SchedOp :=
  [OpCreate Priority_DEFAULT Userspace; OpAttach (mkTaskId 0 1); OpMakeReady (mkTaskId 0 1); OpSchedule].

Lemma owner_exit_effect_witness :
  (po_exit_current demo_owner 42).1 = Err PoTaskBindingMismatch /\
  pm_exit_code (po_processes (po_exit_current demo_owner 42).2) (mkProcessId 0 1) = Ok (Some 0) /\
  task (po_scheduler (po_exit_current demo_owner 42).2) (mkTaskId 0 1) = None.
Proof.
  pose proof (owner_exit_effect demo_owner (mkProcessId 0 1)
    (mkBinding (mkProcessId 0 1) (mkTaskId 0 1) (ExecutionHandle_for_task (mkTaskId 0 1)) (spec_id (pi_address_space any_image))) 42)
    as He.
  destruct (po_exit_current demo_owner 42) as [r o']. cbn [fst snd]. cbv zeta in He.
  destruct He as (Hr & _ & _ & Hc & _ & Ht & _).
  - split; try (vm_compute; reflexivity).
    + assert (Hm : po_processes demo_owner = (pm_start demo_po_spawn.1.2 (mkProcessId 0 1)).2) by reflexivity. rewrite Hm.
      apply psound_start. pose proof (po_spawn_spec ProcessManager_new Scheduler_new any_image demo_launch Priority_DEFAULT
        ProcessManager_new_wf Scheduler_new_inv ltac:(vm_compute; discriminate)) as Hs. fold demo_po_spawn in Hs.
      assert (Hok : is_ok demo_po_spawn.1.1 = true) by (vm_compute; reflexivity).
      destruct demo_po_spawn as [[[[[pid t] b]|e|] m'] s']; [|discriminate..]. apply Hs.
    + assert (Hsch : po_scheduler demo_owner = run_ops demo_owner_ops Scheduler_new) by (vm_compute; reflexivity).
      rewrite Hsch. assert (Hst : rtc sched_step Scheduler_new (run_ops demo_owner_ops Scheduler_new)).
      { apply run_ops_steps. vm_compute. repeat split; discriminate. }
      exact (sound_inv _ _ (steps_sound _ _ Scheduler_new_inv Hst)).
    + vm_compute. reflexivity || (intros; discriminate).
    + split; vm_compute; reflexivity.
  - split; [|split; [exact Hc|exact Ht]]. rewrite Hr. reflexivity.
Defined.
