(* ===== verification/Apic.v ===== *)
(** * Interrupt controllers

    [interrupts.rs] and [interrupt_controller.rs]: interrupt events and the vector
    policy; [arch/x86_64/apic.rs]: capability detection, mode selection and the vector
    allocator; [ioapic.rs]: redirection entries and the register window; [local_apic.rs]:
    the end-of-interrupt backend; [pic.rs]: masking the legacy controllers.

    Device accesses are recorded in order; what a read returns is a function of the
    accesses before it. *)

From stdpp Require Import base numbers list options.
From S2P Require Import Prelude Memory.

Local Open Scope Z_scope.
Local Open Scope rust_scope.

(** ** Device accesses *)
Inductive Access :=
| MmioWrite (address value : Z)
| MmioRead (address : Z)
| MsrWrite (msr value : Z)
| MsrRead (msr : Z)
| ApicBaseWrite (frame flags : Z)
| PortOut (port value : Z)
| PortIn (port : Z).

Global Instance Access_eq_dec : EqDecision Access.
Proof. solve_decision. Defined.

(** The machine as the drivers see it: the answer of a read after a history of accesses,
    and the [cpuid] leaves as (eax, ebx, ecx, edx). *)
Class Hardware := {
  answer : list Access -> Access -> Z;
  cpuid : Z -> Z -> Z * Z * Z * Z;
}.

(** [ApicBase] of the x86_64 crate: the frame and flags of the base register after a
    history, and the two enable flags. *)
Class ApicBaseCrate := {
  ApicBase_read : list Access -> Z * Z;
  LAPIC_ENABLE : Z;
  X2APIC_ENABLE : Z;
}.

(** ** Interrupt events ([interrupts.rs]) *)
Definition EXCEPTION_VECTOR_MAX : Z := 31.
Definition TIMER_VECTOR : Z := 32.
Definition EXTERNAL_VECTOR_BASE : Z := 33.
Definition VECTOR_MAX : Z := 255.

Inductive InterruptSource := Exception (v : Z) | Timer | External (v : Z) | InterProcessor (v : Z) | Spurious.

Definition source_vector (s : InterruptSource) : Z :=
  match s with
  | Exception v | External v | InterProcessor v => v
  | Timer => TIMER_VECTOR
  | Spurious => VECTOR_MAX
  end.

Record InterruptEvent := mkEvent { ev_source : InterruptSource; ev_vector : Z }.

Definition InterruptEvent_new (source : InterruptSource) : option InterruptEvent :=
  let vector := source_vector source in
  match source with
  | Exception _ => if EXCEPTION_VECTOR_MAX <? vector then None else Some (mkEvent source vector)
  | External _ | InterProcessor _ => if vector <? EXTERNAL_VECTOR_BASE then None else Some (mkEvent source vector)
  | _ => Some (mkEvent source vector)
  end.

(** ** The controller contract ([interrupt_controller.rs]) *)
Inductive InterruptControllerError := Unsupported | InvalidVector | NotInitialized.

Definition supports_vector (vector : Z) : bool := (EXTERNAL_VECTOR_BASE <=? vector) && (vector <? VECTOR_MAX).

(** ** Capabilities, mode and vectors ([apic.rs]) *)
Inductive ApicMode := XApic | X2Apic.
Record ApicCapabilities := mkCaps { cap_apic : bool; cap_x2apic : bool }.

Definition detect `{Hardware} : ApicCapabilities :=
  let '(_, _, ecx, edx) := cpuid 1 0 in
  let apic := negb (Z.land edx (Z.shiftl 1 9) =? 0) in
  let x2apic := apic && negb (Z.land ecx (Z.shiftl 1 21) =? 0) in
  mkCaps apic x2apic.

Definition preferred_mode (c : ApicCapabilities) : option ApicMode :=
  if cap_x2apic c then Some X2Apic else if cap_apic c then Some XApic else None.

Record VectorAllocator := mkVectors { va_next : Z }.
Definition VectorAllocator_new : VectorAllocator := mkVectors EXTERNAL_VECTOR_BASE.
Definition va_allocate (a : VectorAllocator) : option Z * VectorAllocator :=
  if VECTOR_MAX <=? va_next a then (None, a) else (Some (va_next a), mkVectors (va_next a + 1)).

Definition apic_base `{ApicBaseCrate} (h : list Access) : Z * Z := ApicBase_read h.

Definition enable_preferred_mode `{ApicBaseCrate} (c : ApicCapabilities) (h : list Access)
  : option ApicMode * list Access :=
  match preferred_mode c with
  | None => (None, h)
  | Some mode =>
      let '(frame, flags) := ApicBase_read h in
      let new_flags := Z.lor flags LAPIC_ENABLE in
      let new_flags := match mode with X2Apic => Z.lor new_flags X2APIC_ENABLE | XApic => new_flags end in
      (Some mode, h ++ [ApicBaseWrite frame new_flags])
  end.

(** ** The I/O APIC ([ioapic.rs]) *)
Definition IOREGSEL : Z := 0.
Definition IOWIN : Z := 16.
Definition IOAPIC_VERSION : Z := 1.
Definition REDIRECTION_TABLE_BASE : Z := 16.

Record RedirectionEntry := mkRedirection {
  re_vector : Z;
  re_delivery_mode : Z;
  re_destination_mode_logical : bool;
  re_delivery_pending : bool;
  re_active_low : bool;
  re_level_triggered : bool;
  re_masked : bool;
  re_destination : Z;
}.

Definition RedirectionEntry_masked (vector destination : Z) : RedirectionEntry :=
  mkRedirection vector 0 false false false false true destination.

Definition encode (e : RedirectionEntry) : Z * Z :=
  let low := re_vector e in
  let low := Z.lor low (as_u32 (Z.shiftl (Z.land (re_delivery_mode e) 7) 8)) in
  let low := if re_destination_mode_logical e then Z.lor low (Z.shiftl 1 11) else low in
  let low := if re_delivery_pending e then Z.lor low (Z.shiftl 1 12) else low in
  let low := if re_active_low e then Z.lor low (Z.shiftl 1 13) else low in
  let low := if re_level_triggered e then Z.lor low (Z.shiftl 1 15) else low in
  let low := if re_masked e then Z.lor low (Z.shiftl 1 16) else low in
  (low, as_u32 (Z.shiftl (re_destination e) 24)).

Record IoApic := mkIoApic { io_mapping : PhysicalMemoryMapping; io_physical_base : Z }.

Section IoApicOps.
Context `{Hardware}.

(** The two window addresses that [read_register] and [write_register] compute. *)
Definition window (self : IoApic) : option (Z * Z) :=
  select_address ← checked_add (io_physical_base self) IOREGSEL;
  data_address ← checked_add (io_physical_base self) IOWIN;
  select ← phys_translate (io_mapping self) select_address;
  data ← phys_translate (io_mapping self) data_address;
  Some (select, data).

Definition read_register (self : IoApic) (register : Z) (h : list Access) : option Z * list Access :=
  match window self with
  | None => (None, h)
  | Some (select, data) =>
      let h := h ++ [MmioWrite select register] in
      (Some (answer h (MmioRead data)), h ++ [MmioRead data])
  end.

Definition write_register (self : IoApic) (register value : Z) (h : list Access) : bool * list Access :=
  match window self with
  | None => (false, h)
  | Some (select, data) => (true, h ++ [MmioWrite select register; MmioWrite data value])
  end.

Definition max_redirection_index (self : IoApic) (h : list Access) : option Z * list Access :=
  match read_register self IOAPIC_VERSION h with
  | (None, h) => (None, h)
  | (Some version, h) => (Some (Z.shiftr version 16 mod 256), h)
  end.

Definition write_redirection (self : IoApic) (index : Z) (entry : RedirectionEntry) (h : list Access)
  : bool * list Access :=
  match max_redirection_index self h with
  | (None, h) => (false, h)
  | (Some max_index, h) =>
      if max_index <? index then (false, h) else
      match checked_mul_u8 index 2 with
      | None => (false, h)
      | Some offset =>
          match checked_add_u8 REDIRECTION_TABLE_BASE offset with
          | None => (false, h)
          | Some register =>
              let '(low, high) := encode entry in
              match write_register self register low h with
              | (false, h) => (false, h)
              | (true, h) => write_register self (register + 1) high h
              end
          end
      end
  end.
End IoApicOps.

(** ** End of interrupt ([local_apic.rs]) *)
Definition LOCAL_APIC_EOI_OFFSET : Z := 176.
Definition IA32_X2APIC_EOI : Z := 2059.
Definition MODE_UNINITIALIZED : Z := 0.
Definition MODE_XAPIC : Z := 1.
Definition MODE_X2APIC : Z := 2.

Inductive LocalApicError := UnsupportedMode | InvalidMmioAddress | AlreadyInitialized.

(** The two atomics. *)
Record LocalApic := mkLocal { lo_mode : Z; lo_offset : Z }.
Definition LocalApic_initial : LocalApic := mkLocal MODE_UNINITIALIZED 0.

Section LocalApicOps.
Context `{ApicBaseCrate}.

Definition lapic_initialize (mode : ApicMode) (mapping : option PhysicalMemoryMapping) (h : list Access) (s : LocalApic)
  : result LocalApicError unit * LocalApic :=
  if negb (lo_mode s =? MODE_UNINITIALIZED) then (Err AlreadyInitialized, s) else
  let prepared : result LocalApicError LocalApic :=
    match mode with
    | XApic =>
        let? mapping := ok_or mapping UnsupportedMode in
        let? physical := ok_or (checked_add (ApicBase_read h).1 LOCAL_APIC_EOI_OFFSET) InvalidMmioAddress in
        let? _ := ok_or (phys_translate mapping physical) InvalidMmioAddress in
        Ok (mkLocal (lo_mode s) (mapping_offset mapping))
    | X2Apic => Ok s
    end in
  match prepared with
  | Ok s => (Ok tt, mkLocal (match mode with XApic => MODE_XAPIC | X2Apic => MODE_X2APIC end) (lo_offset s))
  | Err e => (Err e, s)
  | Panic => (Panic, s)
  end.

Definition lapic_mode (s : LocalApic) : option ApicMode :=
  if lo_mode s =? MODE_XAPIC then Some XApic else if lo_mode s =? MODE_X2APIC then Some X2Apic else None.

Definition end_of_interrupt (event : InterruptEvent) (s : LocalApic) (h : list Access) : list Access :=
  match ev_source event with
  | Exception _ => h
  | External _ | Timer | InterProcessor _ | Spurious =>
      if lo_mode s =? MODE_XAPIC then
        match checked_add (ApicBase_read h).1 LOCAL_APIC_EOI_OFFSET with
        | None => h
        | Some physical =>
            match checked_add (lo_offset s) physical with
            | None => h
            | Some virtual_address => h ++ [MmioWrite virtual_address 0]
            end
        end
      else if lo_mode s =? MODE_X2APIC then h ++ [MsrWrite IA32_X2APIC_EOI 0]
      else h
  end.
End LocalApicOps.

(** ** The legacy controllers ([pic.rs]) *)
Definition MASTER_DATA : Z := 33.
Definition SLAVE_DATA : Z := 161.
Definition mask_all (h : list Access) : list Access := h ++ [PortOut MASTER_DATA 255; PortOut SLAVE_DATA 255].

(** ** Vectors *)

(** The values of [n] calls of the allocator. *)
Fixpoint allocate_n (n : nat) (a : VectorAllocator) : list (option Z) * VectorAllocator :=
  match n with
  | O => ([], a)
  | S n => let '(v, a) := va_allocate a in let '(vs, a) := allocate_n n a in (v :: vs, a)
  end.

Lemma allocate_n_next n a : allocate_n (S n) a =
  ((va_allocate a).1 :: (allocate_n n (va_allocate a).2).1, (allocate_n n (va_allocate a).2).2).
Proof. cbn. destruct (va_allocate a) as [v b]. cbn. by destruct (allocate_n n b). Qed.

Lemma allocate_n_exact n a i :
  va_next a <= VECTOR_MAX -> (i < n)%nat ->
  (allocate_n n a).1 !! i =
  Some (if va_next a + Z.of_nat i <? VECTOR_MAX then Some (va_next a + Z.of_nat i) else None).
Proof.
  revert a i. induction n as [|n IH]; intros a i Ha Hi; [lia|]. rewrite allocate_n_next. cbn [fst].
  unfold va_allocate. unfold VECTOR_MAX in *. destruct (255 <=? va_next a) eqn:Hc; to_prop; cbn [fst snd].
  - destruct i as [|i]; cbn [lookup list_lookup].
    + by rewrite (proj2 (Z.ltb_ge _ _)) by lia.
    + rewrite IH by lia. by rewrite !(proj2 (Z.ltb_ge _ _)) by lia.
  - destruct i as [|i]; cbn [lookup list_lookup].
    + rewrite (proj2 (Z.ltb_lt _ _)) by lia. do 2 f_equal. lia.
    + rewrite IH by (cbn; lia). cbn [va_next].
      by replace (va_next a + 1 + Z.of_nat i) with (va_next a + Z.of_nat (S i)) by lia.
Qed.

Lemma allocate_n_type n a :
  EXTERNAL_VECTOR_BASE <= va_next a <= VECTOR_MAX ->
  EXTERNAL_VECTOR_BASE <= va_next (allocate_n n a).2 <= VECTOR_MAX.
Proof.
  revert a. induction n as [|n IH]; intros a Ha; [done|]. rewrite allocate_n_next. apply IH.
  unfold va_allocate. case_if; to_prop; cbn; lia.
Qed.

(** C33: The vector allocator: its counter stays a byte of the external range, so the
    increment never overflows; call number [i] returns vector [33 + i] while that is
    below the spurious vector 255 and nothing afterwards.  Every vector it hands out is
    one the controller contract supports and makes a valid external event, no two calls
    return the same one, and every supported vector is handed out. *)
Theorem vectors_allocated_once (n : nat) :
  let '(vectors, a) := allocate_n n VectorAllocator_new in
  EXTERNAL_VECTOR_BASE <= va_next a <= U8_MAX /\
  length vectors = n /\
  (forall i v, vectors !! i = Some (Some v) ->
     v = EXTERNAL_VECTOR_BASE + Z.of_nat i /\ supports_vector v = true /\ v <> TIMER_VECTOR /\
     InterruptEvent_new (External v) = Some (mkEvent (External v) v)) /\
  (forall i j v, vectors !! i = Some (Some v) -> vectors !! j = Some (Some v) -> i = j) /\
  (forall v, supports_vector v = true -> v < EXTERNAL_VECTOR_BASE + Z.of_nat n -> Some v ∈ vectors).
Proof.
  pose proof (allocate_n_type n VectorAllocator_new ltac:(done)) as Ht.
  pose proof (fun i => allocate_n_exact n VectorAllocator_new i ltac:(done)) as Hl.
  assert (Hlen : forall n a, length (allocate_n n a).1 = n).
  { intros m. induction m as [|m IH]; intros a; [done|]. rewrite allocate_n_next. cbn. by rewrite IH. }
  specialize (Hlen n VectorAllocator_new).
  destruct (allocate_n n VectorAllocator_new) as [vs a]. cbn [fst snd] in *.
  assert (Hv : forall i v, vs !! i = Some (Some v) ->
     v = EXTERNAL_VECTOR_BASE + Z.of_nat i /\ EXTERNAL_VECTOR_BASE + Z.of_nat i < VECTOR_MAX).
  { intros i v Hi. pose proof (lookup_lt_Some _ _ _ Hi) as Hlt. rewrite Hl in Hi by lia. cbn [VectorAllocator_new va_next] in Hi.
    case_if; [|done]. injection Hi as <-. to_prop. done. }
  split; [done|]. split; [done|]. split; [|split].
  - intros i v Hi. destruct (Hv i v Hi) as [-> Hb].
    unfold supports_vector, InterruptEvent_new, TIMER_VECTOR. cbn [source_vector].
    unfold EXTERNAL_VECTOR_BASE, VECTOR_MAX in *. repeat split; try lia.
    by rewrite (proj2 (Z.ltb_ge _ _)) by lia.
  - intros i j v Hi Hj. apply Hv in Hi, Hj. lia.
  - unfold supports_vector. intros v Hs Hn. to_prop. apply list_elem_of_lookup.
    exists (Z.to_nat (v - EXTERNAL_VECTOR_BASE)). rewrite Hl by lia. cbn [VectorAllocator_new va_next].
    rewrite (proj2 (Z.ltb_lt _ _)) by lia. do 2 f_equal. lia.
Qed.

(** ** Redirection entries *)

(** The fields of a redirection register pair. *)
Definition redirection_of (low high : Z) : RedirectionEntry :=
  mkRedirection (Z.land low 255) (Z.land (Z.shiftr low 8) 7) (Z.testbit low 11) (Z.testbit low 12) (Z.testbit low 13)
    (Z.testbit low 15) (Z.testbit low 16) (Z.shiftr high 24).

Lemma lor_high a b n : 0 <= n -> 0 <= a < 2 ^ n -> Z.lor a (Z.shiftl b n) = a + b * 2 ^ n.
Proof.
  intros Hn Ha. rewrite <-Z.shiftl_mul_pow2, <-(Z.add_lor_land a (Z.shiftl b n)) by done.
  enough (Z.land a (Z.shiftl b n) = 0) as -> by lia. apply Z.bits_inj'. intros i Hi.
  rewrite Z.land_spec, Z.bits_0. destruct (decide (i < n)) as [Hlt|Hge].
  - rewrite Z.shiftl_spec_low by done. apply andb_false_r.
  - destruct (decide (a = 0)) as [->|]; [by rewrite Z.bits_0|]. rewrite (Z.bits_above_log2 a i); [done|lia|].
    apply Z.log2_lt_pow2; [lia|]. eapply Z.lt_le_trans; [apply Ha|]. apply Z.pow_le_mono_r; lia.
Qed.

(** A flag put in above the bits already there. *)
Lemma set_flag (b : bool) low n :
  0 <= n -> 0 <= low < 2 ^ n -> (if b then Z.lor low (Z.shiftl 1 n) else low) = low + Z.b2z b * 2 ^ n.
Proof. intros Hn Hl. destruct b; [rewrite lor_high by done|]; cbn [Z.b2z]; lia. Qed.

Lemma testbit_eq low n (b : bool) : 0 <= n -> (low / 2 ^ n) mod 2 = Z.b2z b -> Z.testbit low n = b.
Proof. intros Hn Hb. apply Z.b2z_inj. by rewrite Z.testbit_spec' by done. Qed.

Definition redirection_wf (e : RedirectionEntry) : Prop :=
  is_u8 (re_vector e) /\ 0 <= re_delivery_mode e < 8 /\ is_u8 (re_destination e).

Lemma encode_value e :
  redirection_wf e ->
  encode e = (re_vector e + re_delivery_mode e * 256 + Z.b2z (re_destination_mode_logical e) * 2048 +
              Z.b2z (re_delivery_pending e) * 4096 + Z.b2z (re_active_low e) * 8192 +
              Z.b2z (re_level_triggered e) * 32768 + Z.b2z (re_masked e) * 65536, re_destination e * 16777216).
Proof.
  intros (Hv & Hd & Hdst). unfold encode.
  assert (Hb : forall b, 0 <= Z.b2z b <= 1) by (intros []; cbn; lia).
  pose proof (Hb (re_destination_mode_logical e)). pose proof (Hb (re_delivery_pending e)).
  pose proof (Hb (re_active_low e)). pose proof (Hb (re_level_triggered e)). pose proof (Hb (re_masked e)).
  change 7 with (Z.ones 3). rewrite Z.land_ones, (Z.mod_small (re_delivery_mode e)) by (cbn; lia).
  unfold as_u32. rewrite (Z.mod_small (Z.shiftl (re_delivery_mode e) 8)) by (rewrite Z.shiftl_mul_pow2 by lia; ulia).
  rewrite (lor_high (re_vector e) (re_delivery_mode e)) by (cbn; ulia).
  rewrite (set_flag (re_destination_mode_logical e)) by (cbn; ulia).
  rewrite (set_flag (re_delivery_pending e)) by (cbn -[Z.b2z]; ulia).
  rewrite (set_flag (re_active_low e)) by (cbn -[Z.b2z]; ulia).
  rewrite (set_flag (re_level_triggered e)) by (cbn -[Z.b2z]; ulia).
  rewrite (set_flag (re_masked e)) by (cbn -[Z.b2z]; ulia).
  rewrite Z.mod_small by (rewrite Z.shiftl_mul_pow2 by lia; ulia). rewrite Z.shiftl_mul_pow2 by lia.
  f_equal; reflexivity.
Qed.

(** The two words of a redirection entry are 32-bit values whose fields are exactly
    the entry's: reading vector, delivery mode, the five flags and the destination back
    at their register positions gives the entry, and the remote-IRR bit and the reserved
    bits are zero. *)
Theorem redirection_roundtrip (e : RedirectionEntry) :
  redirection_wf e ->
  let '(low, high) := encode e in
  is_u32 low /\ is_u32 high /\ redirection_of low high = e /\
  Z.testbit low 14 = false /\ Z.shiftr low 17 = 0 /\ high mod 2 ^ 24 = 0.
Proof.
  intros Hwf. rewrite encode_value by done. destruct Hwf as (Hv & Hd & Hdst).
  assert (Hb : forall b, 0 <= Z.b2z b <= 1) by (intros []; cbn; lia).
  pose proof (Hb (re_destination_mode_logical e)). pose proof (Hb (re_delivery_pending e)).
  pose proof (Hb (re_active_low e)). pose proof (Hb (re_level_triggered e)). pose proof (Hb (re_masked e)).
  split; [ulia|]. split; [ulia|]. split; [|split; [|split]].
  - unfold redirection_of. destruct e as [v d b1 b2 b3 b4 b5 dst]. cbn [re_vector re_delivery_mode
      re_destination_mode_logical re_delivery_pending re_active_low re_level_triggered re_masked re_destination] in *.
    change 255 with (Z.ones 8). change 7 with (Z.ones 3). rewrite !Z.land_ones, !Z.shiftr_div_pow2 by lia.
    f_equal; try (apply testbit_eq; [lia|]); change (2 ^ 8) with 256; change (2 ^ 3) with 8; change (2 ^ 11) with 2048;
      change (2 ^ 12) with 4096; change (2 ^ 13) with 8192; change (2 ^ 15) with 32768; change (2 ^ 16) with 65536;
      change (2 ^ 24) with 16777216; unfold_ints; Z.to_euclidean_division_equations; lia.
  - apply testbit_eq; [lia|]. change (2 ^ 14) with 16384. cbn [Z.b2z]. unfold_ints. Z.to_euclidean_division_equations; lia.
  - rewrite Z.shiftr_div_pow2 by lia. apply Z.div_small. ulia.
  - apply Z.mod_mul. lia.
Qed.

Lemma redirection_roundtrip_witness :
  let e := mkRedirection 48 1 true false true true false 3 in
  let '(low, high) := encode e in
  is_u32 low /\ is_u32 high /\ redirection_of low high = e /\
  Z.testbit low 14 = false /\ Z.shiftr low 17 = 0 /\ high mod 2 ^ 24 = 0.
Proof.
  apply (redirection_roundtrip (mkRedirection 48 1 true false true true false 3)).
  unfold redirection_wf, is_u8, U8_MAX. cbn. lia.
Defined.

(** ** The register window *)

(** The registers an access sequence writes through the window, with their values. *)
Fixpoint window_writes (select data : Z) (current : option Z) (h : list Access) : list (Z * Z) :=
  match h with
  | [] => []
  | MmioWrite a v :: h =>
      if a =? select then window_writes select data (Some v) h
      else if a =? data then
        match current with
        | Some register => (register, v) :: window_writes select data current h
        | None => window_writes select data current h
        end
      else window_writes select data current h
  | _ :: h => window_writes select data current h
  end.

Section Window.
Context `{Hardware}.

Lemma window_Some self select data :
  window self = Some (select, data) ->
  select = mapping_offset (io_mapping self) + io_physical_base self /\ data = select + 16.
Proof using Type.
  unfold window, phys_translate, IOREGSEL, IOWIN. intros Hw.
  apply bind_Some in Hw as (a & Ha & Hw). apply bind_Some in Hw as (b & Hb & Hw).
  apply bind_Some in Hw as (c & Hc & Hw). apply bind_Some in Hw as (d & Hd & Hw). injection Hw as -> ->.
  apply checked_add_Some in Ha as [-> _], Hb as [-> _], Hc as [-> _], Hd as [-> _]. lia.
Qed.

(** Programming a redirection entry: the redirection count is read from the version
    register, and exactly when the index is within it (and its registers have byte
    numbers, below index 120) the entry's two words reach its register pair, the low one
    first; in every other case the call reports failure and no register is written.  An
    unmappable window is reported before any access. *)
Theorem write_redirection_exact (self : IoApic) (index : Z) (entry : RedirectionEntry) (h : list Access) :
  0 <= index ->
  exists t, (write_redirection self index entry h).2 = h ++ t /\
  match window self with
  | None => (write_redirection self index entry h).1 = false /\ t = []
  | Some (select, data) =>
      let version := answer (h ++ [MmioWrite select IOAPIC_VERSION]) (MmioRead data) in
      let ok := (index <=? Z.shiftr version 16 mod 256) && (index <? 120) in
      (write_redirection self index entry h).1 = ok /\
      window_writes select data None t =
        if ok then [(16 + 2 * index, (encode entry).1); (17 + 2 * index, (encode entry).2)] else []
  end.
Proof using Type.
  intros Hi. unfold write_redirection, max_redirection_index, read_register, write_register.
  destruct (window self) as [[select data]|] eqn:Hw; cbv zeta; [|exists []; by rewrite app_nil_r].
  apply window_Some in Hw as [Hs Hd].
  set (version := answer _ _).
  assert (Hd1 : data <> select) by lia.
  assert (Hread : window_writes select data None [MmioWrite select IOAPIC_VERSION; MmioRead data] = []).
  { cbn. by rewrite Z.eqb_refl. }
  rewrite <-app_assoc. cbn [app].
  destruct (index <=? _) eqn:Hmax; to_prop; cycle 1.
  { rewrite (proj2 (Z.ltb_lt _ _)) by lia. eexists. split; [reflexivity|]. done. }
  rewrite (proj2 (Z.ltb_ge _ _)) by lia. unfold checked_mul_u8, checked_add_u8, REDIRECTION_TABLE_BASE, U8_MAX.
  destruct (index <? 120) eqn:Hlt; to_prop; cbn [andb].
  - rewrite (proj2 (Z.leb_le (index * 2) _)), (proj2 (Z.leb_le (16 + index * 2) _)) by lia.
    destruct (encode entry) as [low high]. cbn [fst snd]. rewrite <-!app_assoc. cbn [app].
    eexists. split; [reflexivity|]. split; [done|]. cbn [window_writes]. rewrite !Z.eqb_refl, !(proj2 (Z.eqb_neq data select) Hd1).
    replace (16 + index * 2 + 1) with (17 + 2 * index) by lia.
    by replace (16 + index * 2) with (16 + 2 * index) by lia.
  - destruct (index * 2 <=? 255) eqn:Hm; to_prop.
    + rewrite (proj2 (Z.leb_gt (16 + index * 2) _)) by lia. eexists. split; [reflexivity|]. done.
    + eexists. split; [reflexivity|]. done.
Qed.
End Window.

(** A device whose version register reports 24 redirection entries. *)
Definition example_hardware : Hardware := {|
  answer := fun _ _ => Z.shiftl 23 16;
  cpuid := fun _ _ => (0, 0, Z.shiftl 1 21, Z.shiftl 1 9);
|}.

Lemma write_redirection_exact_witness :
  0 <= 3 /\
  exists t, (write_redirection (H := example_hardware) (mkIoApic (mkMapping 4096) 4273995776) 3 (RedirectionEntry_masked 35 0) []).2
            = [] ++ t /\
            window_writes 4273999872 4273999888 None t = [(22, 65571); (23, 0)].
Proof.
  split; [lia|].
  destruct (write_redirection_exact (H := example_hardware) (mkIoApic (mkMapping 4096) 4273995776) 3
    (RedirectionEntry_masked 35 0) [] ltac:(lia)) as (t & Ht & Hw).
  exists t. split; [exact Ht|]. vm_compute in Hw. exact (proj2 Hw).
Defined.

(** ** End of interrupt *)
Definition is_exception (event : InterruptEvent) : bool :=
  match ev_source event with Exception _ => true | _ => false end.

Section Eoi.
Context `{ApicBaseCrate}.

(** The end-of-interrupt access of each mode. *)
Definition eoi_access (mode : ApicMode) (mapping : option PhysicalMemoryMapping) (base : Z) : Access :=
  match mode with
  | XApic => MmioWrite (default 0 (mapping_offset <$> mapping) + (base + 176)) 0
  | X2Apic => MsrWrite 2059 0
  end.

(** Initialization of the end-of-interrupt backend happens once: when it succeeds
    the mode is the requested one, a second call is refused and changes nothing, and from
    then on, as long as the local APIC stays at its base, every event except a processor
    exception is acknowledged by exactly one write to the register of that mode.  When
    it fails (only in xAPIC mode) nothing was stored and no event is ever acknowledged. *)
Theorem eoi_once_initialized (mode : ApicMode) (mapping : option PhysicalMemoryMapping) (h0 : list Access) :
  match lapic_initialize mode mapping h0 LocalApic_initial with
  | (Ok _, s) =>
      lapic_mode s = Some mode /\
      (forall mode' mapping' h, lapic_initialize mode' mapping' h s = (Err AlreadyInitialized, s)) /\
      (forall event h, (ApicBase_read h).1 = (ApicBase_read h0).1 ->
         end_of_interrupt event s h =
         h ++ (if is_exception event then [] else [eoi_access mode mapping (ApicBase_read h0).1]))
  | (Err e, s) => mode = XApic /\ s = LocalApic_initial /\ forall event h, end_of_interrupt event s h = h
  | (Panic, _) => False
  end.
Proof using Type.
  assert (Hinit : forall event h, end_of_interrupt event LocalApic_initial h = h)
    by (intros [[] ?] h; reflexivity).
  unfold lapic_initialize at 1. cbn [LocalApic_initial lo_mode]. change (negb (MODE_UNINITIALIZED =? MODE_UNINITIALIZED)) with false.
  cbv iota. destruct mode.
  - destruct mapping as [m|]; [cbn [ok_or]|done].
    destruct (checked_add _ _) as [physical|] eqn:Hp; [cbn [ok_or]|done].
    destruct (phys_translate m physical) as [v|] eqn:Hv; [cbn [ok_or]|done].
    split; [done|]. split; [done|]. intros event h Hb. unfold end_of_interrupt, is_exception. cbn [lo_mode lo_offset].
    rewrite Hb, Hp. unfold phys_translate in Hv. rewrite Hv.
    apply checked_add_Some in Hp as [-> _], Hv as [-> _].
    destruct (ev_source event); [by rewrite app_nil_r|reflexivity..].
  - split; [done|]. split; [done|]. intros event h _. unfold end_of_interrupt, is_exception.
    destruct (ev_source event); [by rewrite app_nil_r|reflexivity..].
Qed.

(** Mode selection writes the base register once, keeping the frame and every flag
    already set and adding the enable bits of the preferred mode; without an APIC it
    writes nothing. *)
Theorem enable_preserves_base (c : ApicCapabilities) (h : list Access) :
  match enable_preferred_mode c h with
  | (None, h') => cap_apic c = false /\ cap_x2apic c = false /\ h' = h
  | (Some mode, h') => preferred_mode c = Some mode /\ exists flags,
      h' = h ++ [ApicBaseWrite (ApicBase_read h).1 flags] /\
      Z.land flags (ApicBase_read h).2 = (ApicBase_read h).2 /\ Z.land flags LAPIC_ENABLE = LAPIC_ENABLE /\
      (mode = X2Apic -> Z.land flags X2APIC_ENABLE = X2APIC_ENABLE)
  end.
Proof using Type.
  unfold enable_preferred_mode.
  assert (Hl : forall a b c, Z.land a c = c -> Z.land (Z.lor a b) c = c).
  { intros a b d Hd. apply Z.bits_inj'. intros i _. rewrite <-Hd, !Z.land_spec, Z.lor_spec.
    by destruct (Z.testbit a i), (Z.testbit b i), (Z.testbit d i). }
  assert (Hr : forall a b, Z.land (Z.lor a b) b = b).
  { intros a b. rewrite Z.lor_comm. apply Hl. apply Z.land_diag. }
  destruct (preferred_mode c) as [mode|] eqn:Hp.
  - destruct (ApicBase_read h) as [frame flags]. cbn [fst snd]. split; [done|].
    eexists. split; [reflexivity|]. destruct mode; repeat split; eauto using Z.land_diag; done.
  - unfold preferred_mode in Hp. by destruct (cap_x2apic c), (cap_apic c).
Qed.
End Eoi.
