(* ===== verification/InterruptEntry.v ===== *)
(** * Kernel entry ([arch/x86_64/interrupt_entry.rs])

    The Rust handlers behind the two naked entry stubs: the system-call trap and
    the timer interrupt, from the saved registers to the way the CPU leaves the
    kernel, and the transition system they form together with spawning and
    starting processes.

    The stubs hand the handlers the saved registers and the CPU's return frame;
    the page-table view of the trapped process and the physical direct map are
    arguments.  Both pointers of the CPU's local state lead to one object: the
    system runtime, and the kernel runtime inside it ([SystemRuntime::bind_cpu]). *)

From stdpp Require Import base numbers sets relations list strings options.
From S2P Require Import Apic.
From S2P Require Import Prelude Abi Tasks Queues Scheduler SchedulerInv SchedulerSteps.
From S2P Require Import Memory UserCopy Syscall LoadPlan Process ProcessInv.
From S2P Require Import Execution UserExecution KernelTask Runtime SystemRuntime SystemInv.
From S2P Require Import SystemProps.

Local Open Scope Z_scope.
Local Open Scope rust_scope.

(** ** State *)

(** What the handlers read and write: the saved registers on the entry stack, the
    CPU, the system runtime, the bytes sent to the serial port, the counters of
    [idt.rs], the test flag [PREEMPT_IRET_RETURNED] of [main.rs], and the events handed to
    [end_of_interrupt] of the local APIC. *)
Record Kernel := mkKernel {
  kn_registers : SavedRegisters;
  kn_cpu : Cpu;
  kn_system : SystemRuntime;
  kn_serial : list Z;
  kn_user_trap_count : Z;
  kn_user_syscall_ok_count : Z;
  kn_preempt_iret_returned : bool;
  kn_acknowledged : list InterruptEvent;
}.

Definition kn_set_rax (k : Kernel) (v : Z) : Kernel :=
  let r := kn_registers k in
  mkKernel (mkRegs v (sr_rcx r) (sr_rdx r) (sr_rbx r) (sr_rbp r) (sr_rsi r) (sr_rdi r) (sr_r8 r) (sr_r9 r)
              (sr_r10 r) (sr_r11 r) (sr_r12 r) (sr_r13 r) (sr_r14 r) (sr_r15 r))
    (kn_cpu k) (kn_system k) (kn_serial k) (kn_user_trap_count k) (kn_user_syscall_ok_count k)
    (kn_preempt_iret_returned k) (kn_acknowledged k).
Definition kn_set_cpu (k : Kernel) (c : Cpu) : Kernel :=
  mkKernel (kn_registers k) c (kn_system k) (kn_serial k) (kn_user_trap_count k)
    (kn_user_syscall_ok_count k) (kn_preempt_iret_returned k) (kn_acknowledged k).
Definition kn_set_system (k : Kernel) (y : SystemRuntime) : Kernel :=
  mkKernel (kn_registers k) (kn_cpu k) y (kn_serial k) (kn_user_trap_count k)
    (kn_user_syscall_ok_count k) (kn_preempt_iret_returned k) (kn_acknowledged k).
Definition kn_set_serial (k : Kernel) (s : list Z) : Kernel :=
  mkKernel (kn_registers k) (kn_cpu k) (kn_system k) s (kn_user_trap_count k)
    (kn_user_syscall_ok_count k) (kn_preempt_iret_returned k) (kn_acknowledged k).
Definition kn_store_iret_returned (k : Kernel) : Kernel :=
  mkKernel (kn_registers k) (kn_cpu k) (kn_system k) (kn_serial k) (kn_user_trap_count k)
    (kn_user_syscall_ok_count k) true (kn_acknowledged k).

Definition kn_acknowledge (k : Kernel) (event : InterruptEvent) : Kernel :=
  mkKernel (kn_registers k) (kn_cpu k) (kn_system k) (kn_serial k) (kn_user_trap_count k)
    (kn_user_syscall_ok_count k) (kn_preempt_iret_returned k) (kn_acknowledged k ++ [event]).

(** How the CPU leaves the handler: back through the entry stub, into a process
    (its address space, and its first frame or its saved state), or into a kernel
    task. *)
Inductive UserEntry :=
| EnterUser (frame : UserReturnFrame)
| ResumeUser (state : InterruptedState).

Inductive Departure :=
| ReturnToStub
| ToUser (root : AddressSpaceRoot) (entry : UserEntry)
| ToContext (context : Context)
| ToKernelState (state : InterruptedState).

(** ** Helpers of the handlers *)

(** [SerialWriteSink]: every byte goes to the serial port. *)
Record SerialWriteSink := mkSerialSink { serial_bytes : list Z }.
#[export] Instance serial_write_sink : WriteSink SerialWriteSink :=
  {| sink_write s bytes := (Ok tt, mkSerialSink (serial_bytes s ++ bytes)) |}.
#[export] Instance serial_append_sink : AppendSink SerialWriteSink serial_bytes.
Proof. split. intros s bytes. by eexists. Qed.

Definition ascii_bytes (s : string) : list Z := (fun a => Z.of_nat (Ascii.nat_of_ascii a)) <$> String.list_ascii_of_string s.
Definition USER_TRAP_MESSAGE : list Z := ascii_bytes "X11-OS: userspace int 0x80 trap reached" ++ [13; 10].

(** The atomic counters wrap around. *)
Definition fetch_add_u64 (v : Z) : Z := (v + 1) mod 2 ^ 64.

Definition record_user_trap (k : Kernel) (dispatch_succeeded : bool) : Kernel :=
  mkKernel (kn_registers k) (kn_cpu k) (kn_system k) (kn_serial k ++ USER_TRAP_MESSAGE)
    (fetch_add_u64 (kn_user_trap_count k))
    (if dispatch_succeeded then fetch_add_u64 (kn_user_syscall_ok_count k) else kn_user_syscall_ok_count k)
    (kn_preempt_iret_returned k) (kn_acknowledged k).

(** Whether and how the local APIC is written is [Apic.end_of_interrupt]. *)
Definition record_timer_interrupt (k : Kernel) : Kernel :=
  let c := kn_cpu k in
  let k := kn_set_cpu k (mkCpu (cpu_local c) (cpu_rsp0 c) (fetch_add_u64 (cpu_timer_ticks c)) true) in
  match InterruptEvent_new Timer with
  | Some event => kn_acknowledge k event
  | None => k
  end.

(** The exception handlers of [idt.rs] work on the serial port and the last faulting
    address; a breakpoint returns, a fault spins for good. *)
Record Faults := mkFaults { ft_serial : list Z; ft_last_page_fault_address : Z }.
Inductive FaultEnd := FaultReturns | FaultSpins.

Definition fault_line (message : string) : list Z := ascii_bytes message ++ [10].
Definition breakpoint_handler (f : Faults) : FaultEnd * Faults :=
  (FaultReturns, mkFaults (ft_serial f ++ fault_line "[x11-os] breakpoint exception") (ft_last_page_fault_address f)).
Definition page_fault_handler (cr2 : Z) (f : Faults) : FaultEnd * Faults :=
  (FaultSpins, mkFaults (ft_serial f ++ fault_line "[x11-os] page fault") cr2).
Definition double_fault_handler (f : Faults) : FaultEnd * Faults :=
  (FaultSpins, mkFaults (ft_serial f ++ fault_line "[x11-os] double fault") (ft_last_page_fault_address f)).

(** [execute_user_transfer] of [user_transfer.rs]: the switch of address space and
    the [iretq] are the departure. *)
Definition execute_user_transfer {E} (transfer : UserReturnTransfer) : result E Departure :=
  match ut_validate transfer None with
  | Ok _ =>
      Ok (ToUser (ut_root transfer)
            (match ut_resume transfer with
             | Some state => ResumeUser state
             | None => EnterUser (ut_frame transfer)
             end))
  | _ => Panic
  end.

Section Entry.
Context `{VirtAddrCrate}.

(** ** The system-call trap *)
Definition request_of (r : SavedRegisters) : SyscallRequest :=
  mkRequest (sr_rax r) (sr_rdi r) (sr_rsi r) (sr_rdx r).

Section SyscallEntry.
Context {M : Type} `{UserMemoryView M}.

(** The dispatch of the request, through the system runtime if one is bound. *)
Definition entry_dispatch (mapping : option PhysicalMemoryMapping) (view : M) (kernel_memory : Z -> Z)
    (k : Kernel) : SyscallDispatch * Kernel :=
  let request := request_of (kn_registers k) in
  match mapping with
  | None => (SyscallDispatch_returned (Err NotImplemented), k)
  | Some mapping =>
      let backend := mkX86Copy view mapping kernel_memory in
      let sink := mkSerialSink (kn_serial k) in
      match cl_system_runtime (cpu_local (kn_cpu k)) with
      | Some _ =>
          let '(d, sink, system) :=
            dispatch_with_memory_and_control_action request view backend sink (kn_system k) in
          (d, kn_set_system (kn_set_serial k (serial_bytes sink)) system)
      | None =>
          let '(r, sink) := dispatch_with_memory request view backend sink in
          (SyscallDispatch_returned r, kn_set_serial k (serial_bytes sink))
      end
  end.

Definition syscall_entry_rust {E} (mapping : option PhysicalMemoryMapping) (view : M)
    (kernel_memory : Z -> Z) (k : Kernel) (frame : InterruptReturnFrame) : result E Departure * Kernel :=
  if negb (Z.land (irf_cs frame) 3 =? 3) then (Ok ReturnToStub, k) else
  let '(d, k) := entry_dispatch mapping view kernel_memory k in
  match syscall_result_abi_value (sd_result d) with
  | None => (Panic, k)
  | Some value =>
      let k := record_user_trap (kn_set_rax k value) (is_ok (sd_result d)) in
      match sd_action d with
      | Terminate =>
          match cl_system_runtime (cpu_local (kn_cpu k)) with
          | None => (Ok ReturnToStub, k)
          | Some _ =>
              match commit_pending_exit (kn_system k) (kn_cpu k) with
              | (Ok transfer, y, c) =>
                  (execute_user_transfer transfer, kn_set_cpu (kn_set_system k y) c)
              | (Err _, y, c) => (Ok ReturnToStub, kn_set_cpu (kn_set_system k y) c)
              | (Panic, y, c) => (Panic, kn_set_cpu (kn_set_system k y) c)
              end
          end
      | action =>
          (Ok ReturnToStub,
           kn_set_cpu k (with_local (kn_cpu k) (publish_syscall_action (cpu_local (kn_cpu k)) action)))
      end
  end.
End SyscallEntry.

(** ** The timer interrupt *)

(** The branch for an interrupted process: the published action decides. *)
Definition timer_entry_user {E} (k : Kernel) : result E Departure * Kernel :=
  let '(action, l) := take_syscall_action (cpu_local (kn_cpu k)) in
  let c := with_local (kn_cpu k) l in
  match action with
  | Some Reschedule =>
      match commit_userspace_yield_with_snapshot (kn_system k) c (cl_interrupted (cpu_local c)) with
      | (Ok (Some transfer), y, c) =>
          (execute_user_transfer transfer, kn_set_cpu (kn_set_system k y) (discard_interrupted_state c))
      | (Panic, y, c) => (Panic, kn_set_cpu (kn_set_system k y) c)
      | (_, y, c) => (Ok ReturnToStub, kn_set_cpu (kn_set_system k y) (discard_interrupted_state c))
      end
  | Some Return | None => (Ok ReturnToStub, kn_set_cpu k (discard_interrupted_state c))
  | Some Terminate => (Panic, kn_set_cpu k c)
  end.

(** The branch for an interrupted kernel task. *)
Definition timer_entry_kernel {E} (k : Kernel) : result E Departure * Kernel :=
  match cl_runtime (cpu_local (kn_cpu k)) with
  | None => (Ok ReturnToStub, k)
  | Some _ =>
      let '(outcome, r, c) := handle_timer_preemption (sy_runtime (kn_system k)) (kn_cpu k) in
      let k := kn_set_cpu (kn_set_system k (set_runtime (kn_system k) r)) c in
      match outcome with
      | Ok (PreemptToContext context) => (Ok (ToContext context), k)
      | Ok (PreemptToKernel state) => (Ok (ToKernelState state), kn_store_iret_returned k)
      | Ok ResumeCurrent | Err _ => (Ok ReturnToStub, k)
      | Panic => (Panic, k)
      end
  end.

Definition timer_entry_rust {E} (k : Kernel) (frame : InterruptReturnFrame) : result E Departure * Kernel :=
  match irf_resume_rsp frame with
  | None => (Ok ReturnToStub, k)
  | Some resume_rsp =>
      match cl_capture_interrupted (cpu_local (kn_cpu k)) (kn_registers k) frame resume_rsp with
      | (Panic, l) => (Panic, kn_set_cpu k (with_local (kn_cpu k) l))
      | (capture_result, l) =>
          let k := record_timer_interrupt (kn_set_cpu k (with_local (kn_cpu k) l)) in
          if negb (is_ok capture_result) then (Ok ReturnToStub, k)
          else if bool_decide (is_Some (cl_system_runtime (cpu_local (kn_cpu k)))) &&
                  bool_decide (is_Some (current_user_binding (kn_system k)))
          then timer_entry_user k
          else timer_entry_kernel k
      end
  end.
End Entry.

(** ** The CPU state a hand-over touches *)

(** Only the current task and the kernel entry stack differ. *)
Definition cpu_kept (c c' : Cpu) : Prop :=
  cl_runtime (cpu_local c') = cl_runtime (cpu_local c) /\
  cl_system_runtime (cpu_local c') = cl_system_runtime (cpu_local c) /\
  cl_syscall_action (cpu_local c') = cl_syscall_action (cpu_local c) /\
  cl_interrupted (cpu_local c') = cl_interrupted (cpu_local c) /\
  cpu_timer_ticks c' = cpu_timer_ticks c /\ cpu_timer_pending c' = cpu_timer_pending c.

Section EntryProofs.
Context `{VirtAddrCrate}.

Lemma cpu_kept_refl c : cpu_kept c c.
Proof using Type. done. Qed.

Lemma hand_over_cpu y c su tr top drop : cpu_kept c (hand_over y c su tr top drop).2.
Proof using Type. unfold hand_over, set_kernel_stack_top. repeat case_match; simplify_eq; done. Qed.

Lemma commit_exit_cpu y c : cpu_kept c (commit_pending_exit y c).2.
Proof using Type.
  unfold commit_pending_exit. repeat case_match; try done; apply hand_over_cpu.
Qed.

Lemma commit_yield_cpu y c snapshot : cpu_kept c (commit_userspace_yield_with_snapshot y c snapshot).2.
Proof using Type.
  unfold commit_userspace_yield_with_snapshot. repeat case_match; try done;
    match goal with Hh : hand_over ?y ?c ?su ?tr ?top ?d = _ |- _ =>
      pose proof (hand_over_cpu y c su tr top d) as Hk; rewrite Hh in Hk end; done.
Qed.

Lemma start_user_cpu y c p : cpu_kept c (start_user y c p).2.
Proof using Type. unfold start_user, set_kernel_stack_top. repeat case_match; simplify_eq; done. Qed.

(** ** The invariant between entries *)
Record entry_inv (k : Kernel) : Prop := mk_entry_inv {
  ei_sys : sys_inv (kn_system k);
  ei_rsp0 : is_Some (cpu_rsp0 (kn_cpu k));
  ei_bound : is_Some (cl_system_runtime (cpu_local (kn_cpu k)));
  ei_task : cl_current_task (cpu_local (kn_cpu k)) = current (sy_scheduler (kn_system k));
  ei_user : forall t, current (sy_scheduler (kn_system k)) = Some t ->
                      is_Some (ur_get (sy_userspace (kn_system k)) t);
  ei_action : cl_syscall_action (cpu_local (kn_cpu k)) <> Some Terminate;
  ei_slot : cl_interrupted (cpu_local (kn_cpu k)) = None;
}.

(** The part of it that does not depend on which kind of task owns the CPU.  When the
    scheduler has no current task the CPU may still name one: a kernel task that went to
    sleep or exited and has not been switched away from yet. *)
Record core_inv (k : Kernel) : Prop := mk_core_inv {
  co_sys : sys_inv (kn_system k);
  co_rsp0 : is_Some (cpu_rsp0 (kn_cpu k));
  co_bound : is_Some (cl_system_runtime (cpu_local (kn_cpu k)));
  co_task : forall t, current (sy_scheduler (kn_system k)) = Some t -> cl_current_task (cpu_local (kn_cpu k)) = Some t;
  co_action : cl_syscall_action (cpu_local (kn_cpu k)) <> Some Terminate;
}.

Lemma entry_core k : entry_inv k -> core_inv k.
Proof using Type. intros [? ? ? Ht ? ? ?]. split; try done. by rewrite Ht. Qed.

Lemma core_entry k :
  core_inv k -> cl_current_task (cpu_local (kn_cpu k)) = current (sy_scheduler (kn_system k)) ->
  (forall t, current (sy_scheduler (kn_system k)) = Some t -> is_Some (ur_get (sy_userspace (kn_system k)) t)) ->
  cl_interrupted (cpu_local (kn_cpu k)) = None -> entry_inv k.
Proof using Type. by intros []. Qed.

(** A hand-over to the process of [tr] keeps it. *)
Lemma handed_core_inv k y c tr :
  core_inv k -> handed_to (kn_system k) y c tr -> cpu_kept (kn_cpu k) c -> sys_inv y ->
  core_inv (kn_set_cpu (kn_set_system k y) c).
Proof using Type.
  intros [Hi Hr Hb Ht Ha] Hh (_ & K2 & K3 & _) Hi'. split; cbn; rewrite ?K2, ?K3; try done.
  - rewrite (ht_stack _ _ _ _ Hh).
    destruct (ubd_stack _ _ _ (si_user _ Hi _ _ (ht_binding _ _ _ _ Hh))) as (top & -> & _). eauto.
  - intros t. by rewrite (ht_cpu _ _ _ _ Hh), (ht_current _ _ _ _ Hh).
Qed.

Lemma handed_entry_inv k y c tr :
  entry_inv k -> handed_to (kn_system k) y c tr -> cpu_kept (kn_cpu k) c -> sys_inv y ->
  entry_inv (kn_set_cpu (kn_set_system k y) c).
Proof using Type.
  intros Hk Hh Hc Hi. apply core_entry; [by apply (handed_core_inv k y c tr); [apply entry_core|..]| | |].
  - cbn. by rewrite (ht_cpu _ _ _ _ Hh), (ht_current _ _ _ _ Hh).
  - intros t. cbn. rewrite (ht_current _ _ _ _ Hh). intros [= <-]. rewrite (ht_resumed _ _ _ _ Hh). eauto.
  - destruct Hc as (_ & _ & _ & K4 & _). cbn. rewrite K4. apply Hk.
Qed.

(** The transfer of a hand-over passes the last check before the [iretq]. *)
Lemma handed_departs {E} y y' c tr :
  sys_inv y -> handed_to y y' c tr ->
  execute_user_transfer (E := E) tr =
    Ok (ToUser (pl_root (ub_launch (ut_binding tr)))
          (match ub_resume (ut_binding tr) with
           | Some st => ResumeUser st
           | None => EnterUser (pl_frame (ub_launch (ut_binding tr)))
           end)).
Proof using Type.
  intros Hi Hh. pose proof (si_user _ Hi _ _ (ht_binding _ _ _ _ Hh)) as Hb.
  unfold execute_user_transfer, ut_validate, ut_root, ut_resume, ut_frame.
  rewrite bool_decide_false by done. destruct (ubd_frame _ _ _ Hb) as (Hcs & Hss & Hr1 & Hr2).
  destruct (ub_resume (ut_binding tr)) as [st|] eqn:Hst; [by rewrite (ubd_resume _ _ _ Hb st Hst)|].
  by rewrite Hcs, Hss, (proj2 (Z.eqb_neq _ _) Hr1), (proj2 (Z.eqb_neq _ _) Hr2).
Qed.

(** ** Dispatch *)
Section Dispatch.
Context {M : Type} `{UserMemoryView M}.

(** The argument registers hold 64-bit values, and a write names a slice on whose
    pages the page-table view returns (see [noncanonical_write_panics] for others). *)
Record args_ok (view : M) (r : SavedRegisters) : Prop := mk_args_ok {
  ao_rdi : is_u64 (sr_rdi r);
  ao_rsi : is_u64 (sr_rsi r);
  ao_write : req_syscall (request_of r) = Some Write -> is_ok (validate_slice (mkUserSlice (sr_rdi r) (sr_rsi r))) = true ->
             slice_returns view (mkUserSlice (sr_rdi r) (sr_rsi r));
}.

(** The contract of the page-table view (see [x86_view_ok]). *)
Definition view_ok (mapping : option PhysicalMemoryMapping) (view : M) (kernel_memory : Z -> Z) : Prop :=
  forall m, mapping = Some m -> exists umem, x86_view_ok (mkX86Copy view m kernel_memory) umem.

Lemma sys_write_no_panic mapping (view : M) kernel_memory umem slice sink :
  x86_view_ok (mkX86Copy view mapping kernel_memory) umem -> is_u64 (slice_ptr slice) ->
  is_u64 (slice_len slice) -> (is_ok (validate_slice slice) = true -> slice_returns view slice) ->
  (sys_write_with_memory slice view (mkX86Copy view mapping kernel_memory) (sink : SerialWriteSink)).1 <> Panic.
Proof using Type.
  intros Hv Hp Hl Hret. pose proof (x86_copies_user_memory _ _ Hv) as Hc. cbn in Hc.
  destruct (is_ok (validate_slice slice)) eqn:Hok.
  - destruct (sys_write_spec view (mkX86Copy view mapping kernel_memory) umem serial_bytes slice sink Hp Hl Hok (Hret eq_refl))
      as (r & s' & n & -> & _ & _ & _ & [[-> _]|(e & -> & _)]); done.
  - pose proof (validate_slice_cases slice Hp Hl). unfold sys_write_with_memory.
    by destruct (validate_slice slice).
Qed.

Lemma entry_dispatch_spec mapping (view : M) kernel_memory k :
  is_Some (cl_system_runtime (cpu_local (kn_cpu k))) -> args_ok view (kn_registers k) ->
  view_ok mapping view kernel_memory ->
  let '(d, k') := entry_dispatch mapping view kernel_memory k in
  sd_result d <> Panic /\ kn_registers k' = kn_registers k /\ kn_cpu k' = kn_cpu k /\
  match sd_action d with
  | Return => kn_system k' = kn_system k
  | Reschedule => sy_yield_now (kn_system k) = (Ok tt, kn_system k')
  | Terminate => sy_exit (kn_system k) (sr_rdi (kn_registers k)) = (Ok tt, kn_system k')
  end.
Proof using Type.
  intros [sp Hsp] [Hdi Hsi Hwr] Hv. unfold entry_dispatch. destruct mapping as [m|]; [|done].
  destruct (Hv m eq_refl) as [umem Hum]. rewrite Hsp.
  unfold dispatch_with_memory_and_control_action, dispatch_exit, dispatch_yield, sy_exit, sy_yield_now.
  cbn [control_exit control_yield_now system_control]. unfold sy_exit, sy_yield_now.
  pose proof (current_binding_checked_no_panic (kn_system k)) as Hnp.
  destruct (req_syscall _) as [[]|] eqn:Hreq; [| | |done].
  - destruct (negb _); [done|].
    pose proof (sys_write_no_panic m view kernel_memory umem (req_user_slice (request_of (kn_registers k)))
                  (mkSerialSink (kn_serial k)) Hum Hdi Hsi (Hwr eq_refl)) as Hw.
    destruct (sys_write_with_memory _ _ _ _) as [r s]. done.
  - by destruct (current_binding_checked (kn_system k)).
  - by destruct (current_binding_checked (kn_system k)).
Qed.
End Dispatch.

(** ** What a trap does *)

(** The owners of tasks and bindings are the same, and so is the current process. *)
Record owners_kept (y y' : SystemRuntime) : Prop := mk_owners_kept {
  ok_manager : kr_manager (sy_runtime y') = kr_manager (sy_runtime y);
  ok_userspace : sy_userspace y' = sy_userspace y;
  ok_process : sy_current_process y' = sy_current_process y;
}.

Lemma owners_kept_tables y y' :
  owners_kept y y' -> sy_scheduler y' = sy_scheduler y /\ sy_executions y' = sy_executions y.
Proof using Type. intros [Hm _ _]. unfold sy_scheduler, sy_executions. by rewrite Hm. Qed.

(** An accepted request changes only the pending exit and the reschedule flag. *)
Lemma sy_exit_kept y code y1 :
  sy_exit y code = (Ok tt, y1) -> owners_kept y y1 /\ (sys_inv y -> sys_inv y1).
Proof using Type.
  unfold sy_exit. destruct (current_binding_checked y) as [u|e|]; [|done|done]. intros [= <-].
  split; [done|]. by apply (sys_inv_flags y).
Qed.

Lemma sy_yield_kept y y1 :
  sy_yield_now y = (Ok tt, y1) -> owners_kept y y1 /\ (sys_inv y -> sys_inv y1).
Proof using Type.
  unfold sy_yield_now. destruct (current_binding_checked y) as [u|e|]; [|done|done]. intros [= <-].
  split; [done|]. by apply (sys_inv_flags y).
Qed.

Lemma publish_core_inv k action :
  core_inv k -> action <> Terminate ->
  core_inv (kn_set_cpu k (with_local (kn_cpu k) (publish_syscall_action (cpu_local (kn_cpu k)) action))).
Proof using Type. intros [H1 H2 H3 H4 H5] Ha. split; try done. by intros [= ->]. Qed.

Lemma publish_entry_inv k action :
  entry_inv k -> action <> Terminate ->
  entry_inv (kn_set_cpu k (with_local (kn_cpu k) (publish_syscall_action (cpu_local (kn_cpu k)) action))).
Proof using Type. intros [H1 H2 H3 H4 H5 H6 H7] Ha. split; try done. by intros [= ->]. Qed.

Section Trap.
Context {M : Type} `{UserMemoryView M}.

(** The three ways out of a user trap, whichever task owns the CPU. *)
Lemma syscall_core_cases {E} mapping (view : M) kernel_memory k frame :
  core_inv k -> args_ok view (kn_registers k) -> view_ok mapping view kernel_memory ->
  Z.land (irf_cs frame) 3 = 3 ->
  let d := (entry_dispatch mapping view kernel_memory k).1 in
  let k0 := (entry_dispatch mapping view kernel_memory k).2 in
  exists value, syscall_result_abi_value (sd_result d) = Some value /\
  let k1 := record_user_trap (kn_set_rax k0 value) (is_ok (sd_result d)) in
  core_inv k1 /\ kn_cpu k1 = kn_cpu k /\ kn_registers k0 = kn_registers k /\
  owners_kept (kn_system k) (kn_system k0) /\
  match sd_action d with
  | Terminate =>
      match commit_pending_exit (kn_system k0) (kn_cpu k) with
      | (Ok tr, y, c) =>
          syscall_entry_rust (E := E) mapping view kernel_memory k frame =
            (execute_user_transfer tr, kn_set_cpu (kn_set_system k1 y) c) /\
          handed_to (kn_system k0) y c tr /\ cpu_kept (kn_cpu k) c /\ sys_inv y
      | (Err _, _, _) =>
          syscall_entry_rust (E := E) mapping view kernel_memory k frame = (Ok ReturnToStub, k1)
      | (Panic, _, _) => False
      end
  | action =>
      syscall_entry_rust (E := E) mapping view kernel_memory k frame =
        (Ok ReturnToStub,
         kn_set_cpu k1 (with_local (kn_cpu k) (publish_syscall_action (cpu_local (kn_cpu k)) action)))
  end.
Proof using Type.
  intros Hk Hargs Hv Hcs. unfold syscall_entry_rust. rewrite Hcs. cbn [Z.eqb negb].
  pose proof (entry_dispatch_spec mapping view kernel_memory k (co_bound _ Hk) Hargs Hv) as Hd.
  destruct (entry_dispatch mapping view kernel_memory k) as [d k0]. cbn [fst snd].
  destruct Hd as (Hnp & Hregs & Hcpu & Hact).
  assert (Hval : exists value, syscall_result_abi_value (sd_result d) = Some value)
    by (destruct (sd_result d); cbn; eauto; done).
  destruct Hval as [value Hval]. exists value. split; [done|]. rewrite Hval. cbv zeta.
  set (k1 := record_user_trap (kn_set_rax k0 value) (is_ok (sd_result d))).
  assert (Hkept : owners_kept (kn_system k) (kn_system k0) /\ (sys_inv (kn_system k) -> sys_inv (kn_system k0))).
  { destruct (sd_action d); [by rewrite Hact|by apply sy_yield_kept|by eapply sy_exit_kept]. }
  destruct Hkept as [Hkept Hi1]. destruct (owners_kept_tables _ _ Hkept) as [Hsch _].
  assert (Hk1 : core_inv k1).
  { destruct Hk as [Hi Hr Hb Ht Ha]. split; cbn; rewrite ?Hcpu, ?Hsch; auto. }
  split; [done|]. split; [done|]. split; [done|]. split; [done|].
  assert (Hc1 : kn_cpu k1 = kn_cpu k) by done. assert (Hs1 : kn_system k1 = kn_system k0) by done.
  destruct (sd_action d); rewrite ?Hc1; [done|done|].
  destruct (co_bound k Hk) as [sp ->]. rewrite Hs1.
  pose proof (commit_exit_spec (kn_system k0) (kn_cpu k) (co_sys _ Hk1) (co_rsp0 _ Hk)) as Hce.
  pose proof (commit_exit_cpu (kn_system k0) (kn_cpu k)) as Hck.
  destruct (commit_pending_exit (kn_system k0) (kn_cpu k)) as [[[tr|e|] y] c]; [| |done].
  - destruct Hce as (p & t & code & _ & _ & _ & Hh & Hrest). split_and!; [done|done|done|apply Hrest].
  - destruct Hce as (-> & -> & _). f_equal. unfold k1. by destruct k0; cbn in *; subst.
Qed.

(** The same for a trap of a process. *)
Lemma syscall_entry_cases {E} mapping (view : M) kernel_memory k frame :
  entry_inv k -> args_ok view (kn_registers k) -> view_ok mapping view kernel_memory ->
  Z.land (irf_cs frame) 3 = 3 ->
  let d := (entry_dispatch mapping view kernel_memory k).1 in
  let k0 := (entry_dispatch mapping view kernel_memory k).2 in
  exists value, syscall_result_abi_value (sd_result d) = Some value /\
  let k1 := record_user_trap (kn_set_rax k0 value) (is_ok (sd_result d)) in
  entry_inv k1 /\ kn_cpu k1 = kn_cpu k /\ kn_registers k0 = kn_registers k /\
  match sd_action d with
  | Terminate =>
      match commit_pending_exit (kn_system k0) (kn_cpu k) with
      | (Ok tr, y, c) =>
          syscall_entry_rust (E := E) mapping view kernel_memory k frame =
            (execute_user_transfer tr, kn_set_cpu (kn_set_system k1 y) c) /\
          handed_to (kn_system k0) y c tr /\ entry_inv (kn_set_cpu (kn_set_system k1 y) c)
      | (Err _, _, _) =>
          syscall_entry_rust (E := E) mapping view kernel_memory k frame = (Ok ReturnToStub, k1)
      | (Panic, _, _) => False
      end
  | action =>
      syscall_entry_rust (E := E) mapping view kernel_memory k frame =
        (Ok ReturnToStub,
         kn_set_cpu k1 (with_local (kn_cpu k) (publish_syscall_action (cpu_local (kn_cpu k)) action)))
  end.
Proof using Type.
  intros Hk Hargs Hv Hcs d k0.
  destruct (syscall_core_cases (E := E) mapping view kernel_memory k frame (entry_core _ Hk) Hargs Hv Hcs)
    as (value & Hval & Hc1 & Hcpu & Hregs & Hkept & Hact). fold d k0 in Hval, Hc1, Hcpu, Hregs, Hkept, Hact.
  exists value. split; [done|]. cbv zeta in *. set (k1 := record_user_trap _ _) in *.
  assert (Hk1 : entry_inv k1).
  { destruct (owners_kept_tables _ _ Hkept) as [Hs _].
    apply core_entry; [done|rewrite Hcpu; cbn; rewrite Hs; apply Hk| |rewrite Hcpu; apply Hk].
    intros t. change (kn_system k1) with (kn_system k0). rewrite Hs, (ok_userspace _ _ Hkept). apply Hk. }
  split; [done|]. split; [done|]. split; [done|]. destruct (sd_action d); [done|done|].
  destruct (commit_pending_exit _ _) as [[[tr|e|] y] c]; [|done|done].
  destruct Hact as (Heq & Hh & Hck & Hi). split; [done|]. split; [done|].
  apply (handed_entry_inv k1 y c tr); [done|done|by rewrite Hcpu|done].
Qed.

Lemma syscall_entry_inv {E} mapping (view : M) kernel_memory k frame :
  entry_inv k -> args_ok view (kn_registers k) -> view_ok mapping view kernel_memory ->
  (syscall_entry_rust (E := E) mapping view kernel_memory k frame).1 <> Panic /\
  entry_inv (syscall_entry_rust (E := E) mapping view kernel_memory k frame).2.
Proof using Type.
  intros Hk Hargs Hv. destruct (decide (Z.land (irf_cs frame) 3 = 3)) as [Hcs|Hcs].
  2: { unfold syscall_entry_rust. by rewrite (proj2 (Z.eqb_neq _ _) Hcs). }
  destruct (syscall_entry_cases (E := E) mapping view kernel_memory k frame Hk Hargs Hv Hcs)
    as (value & _ & Hk1 & Hc1 & _ & Hact).
  destruct (sd_action _); [rewrite Hact, <- Hc1; split; [done|by apply publish_entry_inv]..|].
  destruct (commit_pending_exit _ _) as [[[tr|e|] y] c]; [|by rewrite Hact|done].
  destruct Hact as (-> & Hh & Hinv). split; [|done]. by rewrite (handed_departs _ _ _ _ (ei_sys _ Hk1) Hh).
Qed.
End Trap.

(** ** What a timer interrupt does to a process *)

(** The CPU while the handler looks at the captured snapshot, and after it has
    dropped the snapshot. *)
Definition ticked_cpu (c : Cpu) (snapshot : option (TaskId * InterruptedState)) : Cpu :=
  let l := cpu_local c in
  mkCpu (mkCpuLocal (cl_current_task l) (cl_runtime l) (cl_system_runtime l) None snapshot)
    (cpu_rsp0 c) (fetch_add_u64 (cpu_timer_ticks c)) true.

(** The kernel with the tick acknowledged. *)
Definition kn_acked (k : Kernel) : Kernel := kn_acknowledge k (mkEvent Timer TIMER_VECTOR).

Definition snapshot_of (k : Kernel) (rs : ReturnState) : InterruptedState := mkInterrupted (kn_registers k) rs.

Lemma ticked_entry_inv k : entry_inv k -> entry_inv (kn_set_cpu (kn_acked k) (ticked_cpu (kn_cpu k) None)).
Proof using Type. intros [H1 H2 H3 H4 H5 H6 H7]. by split. Qed.

(** With nothing captured the handler only counts the tick. *)
Lemma timer_entry_refused {E} k frame :
  entry_inv k ->
  (forall t rs, current (sy_scheduler (kn_system k)) = Some t -> ReturnState_capture frame = Some rs ->
     is_valid (snapshot_of k rs) = false) ->
  (timer_entry_rust (E := E) k frame).1 = Ok ReturnToStub /\
  kn_system (timer_entry_rust (E := E) k frame).2 = kn_system k /\
  entry_inv (timer_entry_rust (E := E) k frame).2.
Proof using Type.
  intros Hk Hno. pose proof Hk as [H1 H2 H3 H4 H5 H6 H7]. unfold timer_entry_rust.
  destruct (irf_resume_rsp frame) as [rr|] eqn:Hrr; [|done].
  unfold cl_capture_interrupted. rewrite H4, H7.
  destruct (current (sy_scheduler (kn_system k))) as [t|];
    [|split_and!; [done|done|by destruct Hk; split]].
  rewrite bool_decide_false by (by intros [? ?]). unfold InterruptedState_capture.
  destruct (ReturnState_capture frame) as [rs|] eqn:Hrs; [|unfold ReturnState_capture in Hrs; by rewrite Hrr in Hrs].
  unfold snapshot_of in Hno. rewrite (Hno t rs eq_refl eq_refl). split_and!; [done|done|by destruct Hk; split].
Qed.

Lemma timer_entry_captured {E} k frame t rs :
  entry_inv k -> current (sy_scheduler (kn_system k)) = Some t -> ReturnState_capture frame = Some rs ->
  is_valid (snapshot_of k rs) = true ->
  let c := ticked_cpu (kn_cpu k) (Some (t, snapshot_of k rs)) in
  match cl_syscall_action (cpu_local (kn_cpu k)) with
  | Some Reschedule =>
      match commit_userspace_yield_with_snapshot (kn_system k) c (Some (t, snapshot_of k rs)) with
      | (Ok (Some tr), y, c') =>
          timer_entry_rust (E := E) k frame =
            (execute_user_transfer tr, kn_set_cpu (kn_set_system (kn_acked k) y) (discard_interrupted_state c')) /\
          handed_to (kn_system k) y c' tr /\
          entry_inv (kn_set_cpu (kn_set_system (kn_acked k) y) (discard_interrupted_state c'))
      | (Panic, _, _) => False
      | _ => timer_entry_rust (E := E) k frame = (Ok ReturnToStub, kn_set_cpu (kn_acked k) (ticked_cpu (kn_cpu k) None))
      end
  | _ => timer_entry_rust (E := E) k frame = (Ok ReturnToStub, kn_set_cpu (kn_acked k) (ticked_cpu (kn_cpu k) None))
  end.
Proof using Type.
  intros Hk Hcur Hrs Hv c. pose proof Hk as [H1 H2 H3 H4 H5 H6 H7].
  assert (Heq : timer_entry_rust (E := E) k frame =
    timer_entry_user (kn_set_cpu (kn_acked k) (mkCpu (mkCpuLocal (Some t) (cl_runtime (cpu_local (kn_cpu k)))
      (cl_system_runtime (cpu_local (kn_cpu k))) (cl_syscall_action (cpu_local (kn_cpu k)))
      (Some (t, snapshot_of k rs))) (cpu_rsp0 (kn_cpu k)) (fetch_add_u64 (cpu_timer_ticks (kn_cpu k))) true))).
  { unfold timer_entry_rust.
    assert (Hrr : is_Some (irf_resume_rsp frame))
      by (unfold ReturnState_capture in Hrs; destruct (irf_resume_rsp frame); [eauto|done]).
    destruct Hrr as [rr ->]. unfold cl_capture_interrupted. rewrite H4, Hcur, H7.
    rewrite bool_decide_false by (by intros [? ?]). unfold InterruptedState_capture. rewrite Hrs.
    unfold snapshot_of in Hv. rewrite Hv. cbn.
    rewrite bool_decide_true by done. rewrite bool_decide_true; [done|].
    unfold current_user_binding. rewrite Hcur. cbn. by apply H5. }
  rewrite Heq. unfold timer_entry_user, take_syscall_action, ticked_cpu in *. cbn in c |- *.
  assert (Hcl : cl_current_task (cpu_local (kn_cpu k)) = Some t) by congruence. subst c.
  unfold discard_interrupted_state, with_local. cbn. rewrite Hcl.
  destruct (cl_syscall_action (cpu_local (kn_cpu k))) as [[]|]; [done| |done|done].
  set (c := mkCpu _ _ _ _).
  pose proof (commit_yield_spec (kn_system k) c (Some (t, snapshot_of k rs)) H1 H2) as Hs.
  pose proof (commit_yield_cpu (kn_system k) c (Some (t, snapshot_of k rs))) as Hkept.
  destruct (commit_userspace_yield_with_snapshot (kn_system k) c _) as [[[[tr|]|e|] y] c']; cbn [snd] in Hkept.
  - destruct Hs as (p & t0 & b & r & Hcp & Hct & Hub & Hh & Hrest). split; [done|]. split; [done|].
    destruct Hkept as (K1 & K2 & K3 & K4 & _).
    split; cbn; [apply Hrest| |by rewrite K2| | |by rewrite K3|done].
    + rewrite (ht_stack _ _ _ _ Hh).
      destruct (ubd_stack _ _ _ (si_user _ H1 _ _ (ht_binding _ _ _ _ Hh))) as (top & -> & _). eauto.
    + by rewrite (ht_cpu _ _ _ _ Hh), (ht_current _ _ _ _ Hh).
    + intros t'. rewrite (ht_current _ _ _ _ Hh). intros [= <-]. rewrite (ht_resumed _ _ _ _ Hh). eauto.
  - destruct Hs as (-> & -> & _). by destruct k.
  - destruct Hs as (-> & -> & _). by destruct k.
  - done.
Qed.

Lemma timer_entry_inv {E} k frame :
  entry_inv k ->
  (timer_entry_rust (E := E) k frame).1 <> Panic /\ entry_inv (timer_entry_rust (E := E) k frame).2.
Proof using Type.
  intros Hk. destruct (current (sy_scheduler (kn_system k))) as [t|] eqn:Hc.
  2: { destruct (timer_entry_refused (E := E) k frame Hk) as (-> & _ & ?); [congruence|done]. }
  destruct (ReturnState_capture frame) as [rs|] eqn:Hrs.
  2: { destruct (timer_entry_refused (E := E) k frame Hk) as (-> & _ & ?); [congruence|done]. }
  destruct (is_valid (snapshot_of k rs)) eqn:Hv.
  2: { destruct (timer_entry_refused (E := E) k frame Hk) as (-> & _ & ?); [congruence|done]. }
  pose proof (timer_entry_captured (E := E) k frame t rs Hk Hc Hrs Hv) as Ht. cbv zeta in Ht.
  pose proof (ticked_entry_inv k Hk).
  destruct (cl_syscall_action _) as [[]|]; [by rewrite Ht| |by rewrite Ht|by rewrite Ht].
  destruct (commit_userspace_yield_with_snapshot _ _ _) as [[[[tr|]|e|] y] c]; [|by rewrite Ht|by rewrite Ht|done].
  destruct Ht as (-> & Hh & Hi). split; [|done]. by rewrite (handed_departs _ _ _ _ (ei_sys _ Hk) Hh).
Qed.

(** ** The kernel as a transition system

    The entry stubs save the registers the CPU arrives with. *)
Definition kn_enter (k : Kernel) (regs : SavedRegisters) : Kernel :=
  mkKernel regs (kn_cpu k) (kn_system k) (kn_serial k) (kn_user_trap_count k)
    (kn_user_syscall_ok_count k) (kn_preempt_iret_returned k) (kn_acknowledged k).

Lemma kn_enter_inv k regs : entry_inv k -> entry_inv (kn_enter k regs).
Proof using Type. intros []. by split. Qed.

Inductive entry_step (k : Kernel) : Kernel -> Prop :=
| es_spawn memory stub image launch prio :
    spawn_ok memory launch -> Z.of_nat (length (tasks (sy_scheduler (kn_system k)))) <= U32_MAX ->
    entry_step k (kn_set_system k (spawn_user_ready memory stub (kn_system k) image launch prio).2)
| es_start process :
    entry_step k (kn_set_cpu (kn_set_system k (start_user (kn_system k) (kn_cpu k) process).1.2)
                    (start_user (kn_system k) (kn_cpu k) process).2)
| es_syscall {M} `{UserMemoryView M} mapping (view : M) kernel_memory regs frame :
    args_ok view regs -> view_ok mapping view kernel_memory ->
    entry_step k (syscall_entry_rust (E := Empty_set) mapping view kernel_memory (kn_enter k regs) frame).2
| es_timer regs frame :
    entry_step k (timer_entry_rust (E := Empty_set) (kn_enter k regs) frame).2.

Lemma spawn_entry_inv k memory stub image launch prio :
  spawn_ok memory launch -> Z.of_nat (length (tasks (sy_scheduler (kn_system k)))) <= U32_MAX ->
  entry_inv k -> entry_inv (kn_set_system k (spawn_user_ready memory stub (kn_system k) image launch prio).2).
Proof using Type.
  intros Hok Hroom [H1 H2 H3 H4 H5 H6 H7].
  pose proof (spawn_user_spec memory stub (kn_system k) image launch prio H1 Hok Hroom) as Hs.
  destruct (spawn_user_ready _ _ _ _ _ _) as [[[pid t]|e|] y]; [| |done].
  - destruct Hs as (Hi & _ & _ & _ & _ & _ & Hc & _ & _ & Hb & _ & Hoth & _).
    split; cbn [kn_set_system kn_cpu kn_system snd]; rewrite ?Hc; try done.
    intros t' Ht'. destruct (decide (t' = t)) as [->|Hne]; [by rewrite Hb|].
    destruct (Hoth t' Hne) as (_ & -> & _). by apply H5.
  - pose proof (same_system_inv _ _ Hs H1). destruct Hs as [[_ _ _ Hc] _ _ Hu _ _].
    split; cbn [kn_set_system kn_cpu kn_system snd]; rewrite ?Hc, ?Hu; done.
Qed.

Lemma start_entry_inv k process :
  entry_inv k ->
  entry_inv (kn_set_cpu (kn_set_system k (start_user (kn_system k) (kn_cpu k) process).1.2)
               (start_user (kn_system k) (kn_cpu k) process).2).
Proof using Type.
  intros Hk. pose proof Hk as [H1 H2 H3 H4 H5 H6 H7].
  pose proof (start_user_spec (kn_system k) (kn_cpu k) process H1 H2) as Hs.
  pose proof (start_user_cpu (kn_system k) (kn_cpu k) process) as (_ & K2 & K3 & K4 & _).
  destruct (start_user _ _ _) as [[[l|e|] y] c]; [| |done]; cbn [fst snd] in *.
  - destruct Hs as (t & b & _ & Hb & _ & _ & _ & Hc & _ & _ & _ & _ & Hu & Hct & Hrsp & Hi).
    split; cbn; rewrite ?K2, ?K3, ?K4, ?Hc, ?Hu; try done.
    + rewrite Hrsp. destruct (ubd_stack _ _ _ (si_user _ H1 _ _ Hb)) as (top & -> & _). eauto.
    + intros t' [= <-]. eauto.
  - destruct Hs as [-> ->]. by destruct k.
Qed.

Lemma entry_steps_inv k k' : rtc entry_step k k' -> entry_inv k -> entry_inv k'.
Proof using Type.
  induction 1 as [|k k1 k2 Hstep _ IH]; [done|]. intros Hk. apply IH. destruct Hstep.
  - by apply spawn_entry_inv.
  - by apply start_entry_inv.
  - apply syscall_entry_inv; [by apply kn_enter_inv|done|done].
  - apply timer_entry_inv. by apply kn_enter_inv.
Qed.

(** The kernel after [SystemRuntime::bind_cpu]. *)
Definition kernel_bound (r0 runtime self : Z) (k : Kernel) : Prop :=
  kn_system k = SystemRuntime_new /\
  bind_cpu (mkCpu CpuLocalState_new (Some r0) 0 false) runtime self = (Ok tt, kn_cpu k).

Lemma kernel_bound_inv r0 runtime self k : kernel_bound r0 runtime self k -> entry_inv k.
Proof using Type.
  intros [Hy Hb]. unfold bind_cpu, kr_bind_cpu, bind_runtime, bind_system_runtime in Hb.
  rewrite bool_decide_false in Hb by (by intros [? ?]). cbn in Hb.
  destruct (runtime =? 0); [done|]. cbn in Hb. destruct (self =? 0); [done|].
  injection Hb as Hc.
  split; rewrite ?Hy, <- ?Hc; cbn; eauto; try done. apply SystemRuntime_new_inv.
Qed.

(** *** Accepted requests *)
Lemma current_binding_complete y p :
  sys_inv y -> sy_current_process y = Some p -> sy_pending_exit y = None ->
  exists t b, current (sy_scheduler y) = Some t /\ ur_get (sy_userspace y) t = Some b /\ ub_process b = p /\
    ub_task b = t /\ current_binding_checked y = Ok b.
Proof using Type.
  intros Hi Hp Hpe. destruct (si_current y Hi p Hp) as (t & b & Hc & Hb & Hbp & Hrun). exists t, b.
  pose proof (si_user y Hi t b Hb) as Hub. split_and!; [done|done|done|by eapply ur_get_task|].
  unfold current_binding_checked. rewrite Hpe, bool_decide_false by (by intros [? ?]). rewrite Hp, Hc. cbn [ok_or].
  rewrite <- Hbp, (ubd_proc _ _ _ Hub). cbn [map_err ok_or peb_task peb_address_space].
  rewrite bool_decide_true by done. cbn [negb]. rewrite Hbp, Hrun. cbn [map_err].
  rewrite bool_decide_true by done. cbn [negb]. rewrite Hb. cbn [ok_or]. rewrite Hbp.
  by rewrite !bool_decide_true.
Qed.

Lemma exit_accepted y p code :
  sys_inv y -> sy_current_process y = Some p -> sy_pending_exit y = None ->
  exists t, current (sy_scheduler y) = Some t /\
    sy_exit y code = (Ok tt, set_runtime (set_pending_exit y (Some (p, t, code)))
                               (request_reschedule (sy_runtime y))).
Proof using Type.
  intros Hi Hp Hpe. destruct (current_binding_complete y p Hi Hp Hpe) as (t & b & Hc & _ & Hbp & Hbt & Hcheck).
  exists t. split; [done|]. unfold sy_exit. by rewrite Hcheck, Hbp, Hbt.
Qed.

Section Requests.
Context {M : Type} `{UserMemoryView M}.

Lemma dispatch_exit_request m (view : M) kernel_memory k r y :
  is_Some (cl_system_runtime (cpu_local (kn_cpu k))) ->
  req_syscall (request_of (kn_registers k)) = Some Exit ->
  sy_exit (kn_system k) (sr_rdi (kn_registers k)) = (r, y) -> r <> Panic ->
  entry_dispatch (Some m) view kernel_memory k =
    (match r with Err e => SyscallDispatch_returned (Err e) | _ => SyscallDispatch_terminate 0 end,
     kn_set_system k y).
Proof using Type.
  intros [sp Hsp] Hreq Hex Hnp. unfold entry_dispatch. rewrite Hsp.
  unfold dispatch_with_memory_and_control_action, dispatch_exit. rewrite Hreq.
  cbn [control_exit system_control]. change (req_arg0 (request_of (kn_registers k))) with (sr_rdi (kn_registers k)).
  rewrite Hex. destruct r as [[]|e|]; [by destruct k|by destruct k|done].
Qed.

Lemma dispatch_yield_request m (view : M) kernel_memory k r y :
  is_Some (cl_system_runtime (cpu_local (kn_cpu k))) ->
  req_syscall (request_of (kn_registers k)) = Some Yield ->
  sy_yield_now (kn_system k) = (r, y) -> r <> Panic ->
  entry_dispatch (Some m) view kernel_memory k =
    (match r with Err e => SyscallDispatch_returned (Err e) | _ => SyscallDispatch_reschedule 0 end,
     kn_set_system k y).
Proof using Type.
  intros [sp Hsp] Hreq Hex Hnp. unfold entry_dispatch. rewrite Hsp.
  unfold dispatch_with_memory_and_control_action, dispatch_yield. rewrite Hreq.
  cbn [control_yield_now system_control]. rewrite Hex.
  destruct r as [[]|e|]; [by destruct k|by destruct k|done].
Qed.

(** While an exit is pending every further exit or yield is refused. *)
Lemma pending_refused {E} m (view : M) kernel_memory k frame :
  entry_inv k -> args_ok view (kn_registers k) -> view_ok (Some m) view kernel_memory ->
  Z.land (irf_cs frame) 3 = 3 -> is_Some (sy_pending_exit (kn_system k)) ->
  (req_syscall (request_of (kn_registers k)) = Some Exit \/
   req_syscall (request_of (kn_registers k)) = Some Yield) ->
  exists k', syscall_entry_rust (E := E) (Some m) view kernel_memory k frame = (Ok ReturnToStub, k') /\
    from_return_value (sr_rax (kn_registers k')) = Some AbiInvalidArguments /\
    kn_system k' = kn_system k /\ entry_inv k'.
Proof using Type.
  intros Hk Hargs Hv Hcs Hp Hreq.
  pose proof (syscall_entry_inv (E := E) (Some m) view kernel_memory k frame Hk Hargs Hv) as [_ Hinv].
  destruct (syscall_entry_cases (E := E) (Some m) view kernel_memory k frame Hk Hargs Hv Hcs)
    as (value & Hval & _ & _ & _ & Hact).
  assert (Hd : entry_dispatch (Some m) view kernel_memory k =
               (SyscallDispatch_returned (Err InvalidArguments), kn_set_system k (kn_system k))).
  { destruct Hreq as [Hreq|Hreq].
    - apply (dispatch_exit_request m view kernel_memory k (Err InvalidArguments)); [apply Hk|done| |done].
      unfold sy_exit, current_binding_checked. by rewrite bool_decide_true.
    - apply (dispatch_yield_request m view kernel_memory k (Err InvalidArguments)); [apply Hk|done| |done].
      unfold sy_yield_now, current_binding_checked. by rewrite bool_decide_true. }
  rewrite Hd in Hval, Hact. cbn [fst snd sd_action sd_result SyscallDispatch_returned] in Hval, Hact.
  rewrite Hact in Hinv |- *. eexists. split; [reflexivity|]. split; [|done].
  cbn in Hval. injection Hval as <-. cbn. reflexivity.
Qed.

(** What the serial port received grows by every entry. *)
Lemma dispatch_serial mapping (view : M) kernel_memory k :
  args_ok view (kn_registers k) -> view_ok mapping view kernel_memory ->
  exists o, kn_serial (entry_dispatch mapping view kernel_memory k).2 = kn_serial k ++ o.
Proof using Type.
  intros [Hdi Hsi Hwr] Hv. unfold entry_dispatch. destruct mapping as [m|]; [|exists []; by rewrite app_nil_r].
  destruct (Hv m eq_refl) as [umem Hum]. pose proof (x86_copies_user_memory _ _ Hum) as Hc. cbn in Hc.
  assert (Hw : req_syscall (request_of (kn_registers k)) = Some Write ->
    exists o, serial_bytes (sys_write_with_memory (req_user_slice (request_of (kn_registers k))) view
                (mkX86Copy view m kernel_memory) (mkSerialSink (kn_serial k))).2 = kn_serial k ++ o).
  { intros Hreq. specialize (Hwr Hreq). change (mkUserSlice _ _) with (req_user_slice (request_of (kn_registers k))) in Hwr.
    destruct (is_ok (validate_slice (req_user_slice (request_of (kn_registers k))))) eqn:Hok.
    - destruct (sys_write_spec view (mkX86Copy view m kernel_memory) umem serial_bytes
                  (req_user_slice (request_of (kn_registers k))) (mkSerialSink (kn_serial k)) Hdi Hsi Hok (Hwr eq_refl)) as (r & s' & n & -> & _ & Hlog & _). eauto.
    - exists []. rewrite app_nil_r. unfold sys_write_with_memory. by destruct (validate_slice _). }
  assert (Hnil : exists o, kn_serial k = kn_serial k ++ o) by (exists []; by rewrite app_nil_r).
  destruct (cl_system_runtime _).
  - unfold dispatch_with_memory_and_control_action. destruct (req_syscall _) as [[]|]; [| | |done].
    + destruct (negb _); [done|]. destruct (Hw eq_refl) as [o Ho]. destruct (sys_write_with_memory _ _ _ _). by exists o.
    + by destruct (dispatch_exit _ _).
    + by destruct (dispatch_yield _).
  - unfold dispatch_with_memory. destruct (req_syscall _) as [[]|]; [|done..].
    destruct (negb _); [done|]. destruct (Hw eq_refl) as [o Ho]. destruct (sys_write_with_memory _ _ _ _). by exists o.
Qed.

Lemma syscall_serial {E} mapping (view : M) kernel_memory k frame :
  args_ok view (kn_registers k) -> view_ok mapping view kernel_memory ->
  kn_serial k `prefix_of` kn_serial (syscall_entry_rust (E := E) mapping view kernel_memory k frame).2.
Proof using Type.
  intros Hargs Hv. unfold syscall_entry_rust. destruct (negb _); [done|].
  destruct (dispatch_serial mapping view kernel_memory k Hargs Hv) as [o Ho].
  destruct (entry_dispatch mapping view kernel_memory k) as [d k0]. cbn in Ho.
  destruct (syscall_result_abi_value _) as [value|]; [|by exists o].
  destruct (sd_action d); [| |destruct (cl_system_runtime _); [destruct (commit_pending_exit _ _) as [[[]]]|]];
    cbn; rewrite Ho, <- ?app_assoc; by eexists.
Qed.

(** A request with an unknown number is refused, with the code of that error. *)
Lemma unknown_trap_spec m (view : M) kernel_memory k frame :
  entry_inv k -> args_ok view (kn_registers k) -> view_ok (Some m) view kernel_memory ->
  Z.land (irf_cs frame) 3 = 3 -> req_syscall (request_of (kn_registers k)) = None ->
  exists k', syscall_entry_rust (E := Empty_set) (Some m) view kernel_memory k frame = (Ok ReturnToStub, k') /\
    kn_serial k' = kn_serial k ++ USER_TRAP_MESSAGE /\ kn_system k' = kn_system k /\
    sr_rax (kn_registers k') = return_value AbiUnknownSyscall.
Proof using Type.
  intros Hk Hargs Hv Hcs Hreq.
  destruct (syscall_entry_cases (E := Empty_set) (Some m) view kernel_memory k frame Hk Hargs Hv Hcs)
    as (value & Hval & _ & _ & _ & Hact).
  assert (Hd : entry_dispatch (Some m) view kernel_memory k =
               (SyscallDispatch_returned (Err UnknownNumber), kn_set_system (kn_set_serial k (kn_serial k)) (kn_system k))).
  { unfold entry_dispatch. destruct (ei_bound k Hk) as [sp ->].
    unfold dispatch_with_memory_and_control_action. by rewrite Hreq. }
  rewrite Hd in Hval, Hact. cbn [fst snd sd_action sd_result SyscallDispatch_returned] in Hval, Hact.
  eexists. split; [exact Hact|]. cbn in Hval. injection Hval as <-. done.
Qed.

(** The kernel after a trap that sent [out] and returns [value] to its process: the trap
    is counted and announced, and [action] replaces whatever the CPU had published. *)
Definition trap_returned (k : Kernel) (out : list Z) (value : Z) (succeeded : bool) (action : SyscallReturnAction) : Kernel :=
  kn_set_cpu (record_user_trap (kn_set_rax (kn_set_serial k (kn_serial k ++ out)) value) succeeded)
    (with_local (kn_cpu k) (publish_syscall_action (cpu_local (kn_cpu k)) action)).

(** A write request sends what is readable of its slice, from its start. *)
Lemma write_trap_spec m (view : M) kernel_memory umem k frame :
  let r := kn_registers k in
  let slice := mkUserSlice (sr_rdi r) (sr_rsi r) in
  entry_inv k -> x86_view_ok (mkX86Copy view m kernel_memory) umem -> args_ok view r ->
  Z.land (irf_cs frame) 3 = 3 -> req_syscall (request_of r) = Some Write -> sr_rdx r = 0 ->
  is_ok (validate_slice slice) = true ->
  exists n value succeeded,
    syscall_entry_rust (E := Empty_set) (Some m) view kernel_memory k frame =
      (Ok ReturnToStub, trap_returned k (bytes_at umem (sr_rdi r) (Z.to_nat n)) value succeeded Return) /\ 0 <= n <= sr_rsi r /\
    (all_readable view (sr_rdi r) (sr_rdi r + sr_rsi r) -> n = sr_rsi r /\ value = sr_rsi r /\ succeeded = true) /\
    (~ all_readable view (sr_rdi r) (sr_rdi r + sr_rsi r) ->
       n < sr_rsi r /\ from_return_value value = Some AbiInvalidUserMemory /\ succeeded = false /\
       all_readable view (sr_rdi r) (sr_rdi r + n)).
Proof using Type.
  intros r slice Hk Hv Hargs Hcs Hreq Hdx Hok.
  assert (Hvo : view_ok (Some m) view kernel_memory) by (intros ? [= <-]; eauto).
  destruct (syscall_entry_cases (E := Empty_set) (Some m) view kernel_memory k frame Hk Hargs Hvo Hcs)
    as (value & Hval & _ & _ & Hregs & Hact).
  pose proof (x86_copies_user_memory _ _ Hv) as Hc. cbn in Hc.
  destruct (sys_write_spec view (mkX86Copy view m kernel_memory) umem serial_bytes slice
              (mkSerialSink (kn_serial k)) (ao_rdi _ _ Hargs) (ao_rsi _ _ Hargs) Hok (ao_write _ _ Hargs Hreq Hok))
    as (res & s' & n & Heq & Hn & Hlog & Hall & Hr).
  assert (Hd : entry_dispatch (Some m) view kernel_memory k =
               (SyscallDispatch_returned res, kn_set_system (kn_set_serial k (serial_bytes s')) (kn_system k))).
  { unfold entry_dispatch. destruct (ei_bound k Hk) as [sp ->].
    unfold dispatch_with_memory_and_control_action. fold r. rewrite Hreq. cbn [req_arg2 request_of].
    rewrite Hdx. cbn [Z.eqb negb]. change (req_user_slice (request_of r)) with slice. by rewrite Heq. }
  rewrite Hd in Hval, Hact. cbn [fst snd sd_action sd_result SyscallDispatch_returned] in Hval, Hact.
  cbn in Hlog. rewrite Hlog in Hact. cbn [slice_ptr slice slice_len] in *.
  exists n, value, (is_ok res). split; [exact Hact|]. split; [done|]. split; intros Hrd.
  - destruct Hr as [[-> ->]|(e & _ & _ & Hnr)]; [|done]. cbn in Hval. by injection Hval as <-.
  - destruct Hr as [[_ ->]|(e & -> & Hlt & _)]; [done|]. cbn in Hval. injection Hval as <-. done.
Qed.
End Requests.

Lemma timer_serial {E} k frame : kn_serial (timer_entry_rust (E := E) k frame).2 = kn_serial k.
Proof using Type.
  unfold timer_entry_rust, timer_entry_user, timer_entry_kernel. repeat (case_match; simplify_eq; try done).
Qed.

Lemma entry_steps_serial k k' : rtc entry_step k k' -> kn_serial k `prefix_of` kn_serial k'.
Proof using Type.
  induction 1 as [|k k1 k2 Hstep _ IH]; [done|]. etrans; [|exact IH]. destruct Hstep; [done|done| |].
  - by apply (syscall_serial mapping view kernel_memory (kn_enter k regs)).
  - by rewrite timer_serial.
Qed.

(** *** Departures *)
(** The departure that continues the process of a userspace binding. *)
Definition continue_user (b : UserExecutionBinding) : Departure :=
  ToUser (pl_root (ub_launch b))
    (match ub_resume b with Some st => ResumeUser st | None => EnterUser (pl_frame (ub_launch b)) end).

(** A hand-over out of a system that differs from [y] only in its flags. *)
Lemma handed_binding y y' c tr x b :
  handed_to y y' c tr -> next_ready (sy_scheduler y) = Some x -> ur_get (sy_userspace y) x = Some b ->
  x = ut_task tr /\ b = ut_binding tr.
Proof using Type.
  intros Hh Hx Hb. pose proof (ht_head _ _ _ _ Hh). pose proof (ht_binding _ _ _ _ Hh).
  assert (x = ut_task tr) as -> by congruence. split; congruence.
Qed.

(** An accepted yield is published for the timer. *)
Lemma yield_trap_spec {E} {M} `{UserMemoryView M} m (view : M) kernel_memory k frame p :
  entry_inv k -> view_ok (Some m) view kernel_memory -> args_ok view (kn_registers k) ->
  Z.land (irf_cs frame) 3 = 3 -> req_syscall (request_of (kn_registers k)) = Some Yield ->
  sy_current_process (kn_system k) = Some p -> sy_pending_exit (kn_system k) = None ->
  exists k1, syscall_entry_rust (E := E) (Some m) view kernel_memory k frame = (Ok ReturnToStub, k1) /\
    kn_registers k1 = kn_registers (kn_set_rax k 0) /\
    kn_system k1 = set_runtime (kn_system k) (request_reschedule (sy_runtime (kn_system k))) /\
    cl_syscall_action (cpu_local (kn_cpu k1)) = Some Reschedule /\ entry_inv k1.
Proof using Type.
  intros Hk Hv Hargs Hcs Hreq Hp Hpe.
  destruct (syscall_entry_cases (E := E) (Some m) view kernel_memory k frame Hk Hargs Hv Hcs)
    as (value & Hvalue & Hk1 & Hcpu1 & _ & Hact).
  destruct (current_binding_complete (kn_system k) p (ei_sys _ Hk) Hp Hpe) as (t' & bt' & _ & _ & _ & _ & Hcheck).
  set (y1 := set_runtime (kn_system k) (request_reschedule (sy_runtime (kn_system k)))).
  assert (Hex : sy_yield_now (kn_system k) = (Ok tt, y1)) by (unfold sy_yield_now; by rewrite Hcheck).
  rewrite (dispatch_yield_request m view kernel_memory k (Ok tt) y1 (ei_bound _ Hk) Hreq Hex)
    in Hvalue, Hact, Hk1, Hcpu1 by done.
  cbn [fst snd sd_action sd_result SyscallDispatch_reschedule] in Hvalue, Hact. cbn in Hvalue.
  injection Hvalue as <-. rewrite <- Hcpu1 in Hact. eexists. split; [exact Hact|].
  split_and!; [done..|by apply publish_entry_inv].
Qed.

(** A timer interrupt of a process whose yield is published. *)
Lemma timer_yields {E} k tick rs p t bt x b :
  entry_inv k -> cl_syscall_action (cpu_local (kn_cpu k)) = Some Reschedule ->
  sy_current_process (kn_system k) = Some p -> current (sy_scheduler (kn_system k)) = Some t ->
  ur_get (sy_userspace (kn_system k)) t = Some bt -> ub_resume bt = None ->
  next_ready (sy_scheduler (kn_system k)) = Some x -> ur_get (sy_userspace (kn_system k)) x = Some b ->
  pm_state (sy_processes (kn_system k)) (ub_process b) = Ok ProcReady ->
  ReturnState_capture tick = Some rs -> is_user_valid (snapshot_of k rs) = true ->
  exists k2, timer_entry_rust (E := E) k tick = (Ok (continue_user b), k2) /\
    current (sy_scheduler (kn_system k2)) = Some x /\
    sy_current_process (kn_system k2) = Some (ub_process b) /\
    ready (sy_scheduler (kn_system k2)) = tail (ready (sy_scheduler (kn_system k))) ++ [t] /\
    pm_state (sy_processes (kn_system k2)) p = Ok ProcReady /\
    ur_get (sy_userspace (kn_system k2)) t = Some (with_resume bt (Some (snapshot_of k rs))) /\
    entry_inv k2.
Proof using Type.
  intros Hk Ha Hp Hc Hbt Hres Hx Hb Hst Hrs Hval.
  assert (Hisv : is_valid (snapshot_of k rs) = true).
  { unfold is_user_valid in Hval. by destruct (is_valid (snapshot_of k rs)). }
  pose proof (timer_entry_captured (E := E) k tick t rs Hk Hc Hrs Hisv) as Htm. cbv zeta in Htm.
  rewrite Ha in Htm. set (c := ticked_cpu _ _) in Htm.
  pose proof (commit_yield_spec (kn_system k) c (Some (t, snapshot_of k rs)) (ei_sys _ Hk) (ei_rsp0 _ Hk)) as Hy.
  destruct (yield_checks_complete (kn_system k) p t x b (ei_sys _ Hk) Hp Hc Hx Hb Hst) as [top Hyc].
  destruct (commit_userspace_yield_with_snapshot (kn_system k) c _) as [[[[tr|]|e|] y] c']; [| | |done].
  - destruct Htm as (Htm & Hh & Hinv).
    destruct Hy as (p0 & t0 & b0 & r & Hp0 & Ht0 & Hb0 & _ & _ & Hr & _ & Hps & Hur & Hsnap & _).
    assert (p0 = p) as -> by congruence. assert (t0 = t) as -> by congruence. assert (b0 = bt) as -> by congruence.
    destruct Hsnap as (_ & _ & ->). destruct (handed_binding _ _ _ _ _ _ Hh Hx Hb) as [-> ->].
    eexists. split; [rewrite Htm, (handed_departs _ _ _ _ (ei_sys _ Hk) Hh); reflexivity|].
    destruct Hh. cbn. split_and!; try done. congruence.
  - destruct Hy as (_ & _ & Hemp). unfold next_ready, run_peek in Hx. by rewrite Hemp in Hx.
  - destruct Hy as (_ & _ & [Hno|(t0 & b0 & t1 & st & Ht0 & Hb0 & Hs & Hwhy)]); [by rewrite Hyc in Hno|].
    injection Hs as <- <-. assert (b0 = bt) as -> by congruence. destruct Hwhy as [?|[?|?]]; congruence.
Qed.
End EntryProofs.

(** In every state the kernel reaches by spawning and starting processes and
    by taking system-call traps and timer interrupts with arbitrary 64-bit registers
    and return frames (a write must name pages on which the view of the page tables
    returns, as it does on canonical addresses), the system invariant holds, the CPU's current task is the
    scheduler's, that task belongs to a process, no terminate action is left for the
    timer and the capture slot is free; and neither handler can panic on the next
    such trap or any interrupt. *)
Theorem kernel_entry_safe `{VirtAddrCrate} r0 runtime self k0 k :
  kernel_bound r0 runtime self k0 -> rtc entry_step k0 k ->
  entry_inv k /\
  (forall M `{UserMemoryView M} mapping (view : M) kernel_memory regs frame,
     args_ok view regs -> view_ok mapping view kernel_memory ->
     (syscall_entry_rust (E := Empty_set) mapping view kernel_memory (kn_enter k regs) frame).1 <> Panic) /\
  (forall regs frame, (timer_entry_rust (E := Empty_set) (kn_enter k regs) frame).1 <> Panic).
Proof.
  intros Hb Hs. pose proof (entry_steps_inv _ _ Hs (kernel_bound_inv _ _ _ _ Hb)) as Hk.
  split; [done|]. split; intros.
  - apply syscall_entry_inv; [by apply kn_enter_inv|done|done].
  - apply timer_entry_inv. by apply kn_enter_inv.
Qed.

(** C22: a write trap delivers the user's bytes.  For a write request with a valid
    slice, on whose pages the view of the page tables returns, the trap returns to the
    process; the serial port receives exactly the first [n] bytes of the slice and the
    trap message.  If the whole slice is readable [n] is its length, which is returned;
    otherwise [rax] decodes as an invalid-memory error and the [n] bytes are a readable
    proper prefix, sent before the error was found.  Of the rest of the kernel exactly
    three things change: [rax] of the saved registers, the trap counters, and the action
    published on the CPU, which becomes that of a plain return. *)
Theorem write_trap_delivers `{VirtAddrCrate} {M} `{UserMemoryView M} m (view : M) kernel_memory umem k frame :
  let r := kn_registers k in
  let slice := mkUserSlice (sr_rdi r) (sr_rsi r) in
  entry_inv k -> x86_view_ok (mkX86Copy view m kernel_memory) umem -> args_ok view r ->
  Z.land (irf_cs frame) 3 = 3 -> req_syscall (request_of r) = Some Write -> sr_rdx r = 0 ->
  is_ok (validate_slice slice) = true ->
  exists n value succeeded,
    syscall_entry_rust (E := Empty_set) (Some m) view kernel_memory k frame =
      (Ok ReturnToStub, trap_returned k (bytes_at umem (sr_rdi r) (Z.to_nat n)) value succeeded Return) /\ 0 <= n <= sr_rsi r /\
    (all_readable view (sr_rdi r) (sr_rdi r + sr_rsi r) -> n = sr_rsi r /\ value = sr_rsi r /\ succeeded = true) /\
    (~ all_readable view (sr_rdi r) (sr_rdi r + sr_rsi r) ->
       n < sr_rsi r /\ from_return_value value = Some AbiInvalidUserMemory /\ succeeded = false /\
       all_readable view (sr_rdi r) (sr_rdi r + n)).
Proof. apply write_trap_spec. Qed.

(** An exit trap does not return to the process that made it when another is
    ready.  If the head of the ready queue is a task of a ready process, the CPU
    leaves for that process, in its address space, at its saved state or its first
    frame; the exiting process is exited, its task and bindings are gone, the
    successor runs and the invariant holds. *)
Theorem exit_trap_departs `{VirtAddrCrate} {M} `{UserMemoryView M} m (view : M) kernel_memory k frame p x b :
  entry_inv k -> view_ok (Some m) view kernel_memory -> args_ok view (kn_registers k) ->
  Z.land (irf_cs frame) 3 = 3 -> req_syscall (request_of (kn_registers k)) = Some Exit ->
  sy_current_process (kn_system k) = Some p -> sy_pending_exit (kn_system k) = None ->
  next_ready (sy_scheduler (kn_system k)) = Some x -> ur_get (sy_userspace (kn_system k)) x = Some b ->
  pm_state (sy_processes (kn_system k)) (ub_process b) = Ok ProcReady ->
  exists k' t, syscall_entry_rust (E := Empty_set) (Some m) view kernel_memory k frame
      = (Ok (continue_user b), k') /\
    current (sy_scheduler (kn_system k)) = Some t /\ task (sy_scheduler (kn_system k')) t = None /\
    ur_get (sy_userspace (kn_system k')) t = None /\ er_get (sy_executions (kn_system k')) t = None /\
    pm_state (sy_processes (kn_system k')) p = Ok ProcExited /\
    current (sy_scheduler (kn_system k')) = Some x /\ sy_pending_exit (kn_system k') = None /\
    sy_current_process (kn_system k') = Some (ub_process b) /\ entry_inv k'.
Proof.
  intros Hk Hv Hargs Hcs Hreq Hp Hpe Hx Hb Hst.
  destruct (syscall_entry_cases (E := Empty_set) (Some m) view kernel_memory k frame Hk Hargs Hv Hcs)
    as (value & Hval & Hk1 & _ & _ & Hact).
  destruct (exit_accepted (kn_system k) p (sr_rdi (kn_registers k)) (ei_sys _ Hk) Hp Hpe) as (t & Hc & Hex).
  set (y1 := set_runtime _ _) in Hex.
  rewrite (dispatch_exit_request m view kernel_memory k (Ok tt) y1 (ei_bound _ Hk) Hreq Hex) in Hval, Hact, Hk1 by done.
  cbn [fst snd sd_action sd_result SyscallDispatch_terminate kn_system kn_set_system] in Hval, Hact.
  pose proof (commit_exit_spec y1 (kn_cpu k) (ei_sys _ Hk1) (ei_rsp0 _ Hk)) as Hce.
  pose proof (exit_checks_complete y1 p t (sr_rdi (kn_registers k)) x b (ei_sys _ Hk1) eq_refl Hp Hc Hx Hb Hst) as Hok.
  destruct (commit_pending_exit y1 (kn_cpu k)) as [[[tr|e|] y] c]; [| |done].
  2: { destruct Hce as (_ & _ & Hno). congruence. }
  destruct Hact as (Heq & Hh & Hinv). destruct Hce as (p' & t' & code & Hpend & _ & _ & _ & _ & Ht & He & Hu & _ & Hps & _ & Hpe' & _).
  injection Hpend as <- <- _.
  destruct (handed_binding y1 _ _ _ _ _ Hh Hx Hb) as [-> ->].
  eexists _, t. split; [rewrite Heq, (handed_departs _ _ _ _ (ei_sys _ Hk1) Hh); reflexivity|].
  cbn. destruct Hh. split_and!; try done. congruence.
Qed.

(** C13: what becomes of an accepted yield.  The yield trap returns 0 to the process.
    If the next entry is a timer interrupt taken in user mode, while no resume state is
    stored for the process, the CPU continues the process at the head of the ready queue,
    and the interrupted one is ready, queued last, with the registers and the return frame
    of that interrupt as its resume state.  If the process makes a write call first, the
    yield is lost: the interrupt after it returns to the process, and nothing has changed
    in the system. *)
Theorem yield_then_timer `{VirtAddrCrate} {M} `{UserMemoryView M} m (view : M) kernel_memory umem k frame
    regs tick rs p t bt x b :
  entry_inv k -> x86_view_ok (mkX86Copy view m kernel_memory) umem -> args_ok view (kn_registers k) ->
  Z.land (irf_cs frame) 3 = 3 -> req_syscall (request_of (kn_registers k)) = Some Yield ->
  sy_current_process (kn_system k) = Some p -> sy_pending_exit (kn_system k) = None ->
  current (sy_scheduler (kn_system k)) = Some t -> ur_get (sy_userspace (kn_system k)) t = Some bt ->
  ub_resume bt = None ->
  next_ready (sy_scheduler (kn_system k)) = Some x -> ur_get (sy_userspace (kn_system k)) x = Some b ->
  pm_state (sy_processes (kn_system k)) (ub_process b) = Ok ProcReady ->
  ReturnState_capture tick = Some rs -> is_user_valid (mkInterrupted regs rs) = true ->
  exists k1 k2,
    syscall_entry_rust (E := Empty_set) (Some m) view kernel_memory k frame = (Ok ReturnToStub, k1) /\
    kn_registers k1 = kn_registers (kn_set_rax k 0) /\
    timer_entry_rust (E := Empty_set) (kn_enter k1 regs) tick = (Ok (continue_user b), k2) /\
    current (sy_scheduler (kn_system k2)) = Some x /\
    sy_current_process (kn_system k2) = Some (ub_process b) /\
    ready (sy_scheduler (kn_system k2)) = tail (ready (sy_scheduler (kn_system k))) ++ [t] /\
    pm_state (sy_processes (kn_system k2)) p = Ok ProcReady /\
    ur_get (sy_userspace (kn_system k2)) t = Some (with_resume bt (Some (mkInterrupted regs rs))) /\
    entry_inv k2 /\
    forall wregs wframe, args_ok view wregs -> Z.land (irf_cs wframe) 3 = 3 ->
      req_syscall (request_of wregs) = Some Write -> sr_rdx wregs = 0 ->
      is_ok (validate_slice (mkUserSlice (sr_rdi wregs) (sr_rsi wregs))) = true ->
      exists kw k2', syscall_entry_rust (E := Empty_set) (Some m) view kernel_memory (kn_enter k1 wregs) wframe = (Ok ReturnToStub, kw) /\
        timer_entry_rust (E := Empty_set) (kn_enter kw regs) tick = (Ok ReturnToStub, k2') /\
        kn_system k2' = kn_system k1 /\ cl_syscall_action (cpu_local (kn_cpu k2')) = None.
Proof.
  intros Hk Hv Hargs Hcs Hreq Hp Hpe Hc Hbt Hres Hx Hb Hst Hrs Hval.
  assert (Hvo : view_ok (Some m) view kernel_memory) by (intros ? [= <-]; eauto).
  destruct (yield_trap_spec (E := Empty_set) m view kernel_memory k frame p Hk Hvo Hargs Hcs Hreq Hp Hpe)
    as (k1 & Heq & Hregs & Hy & Ha & Hk1).
  destruct (timer_yields (E := Empty_set) (kn_enter k1 regs) tick rs p t bt x b) as (k2 & Ht & Hrest);
    [by apply kn_enter_inv|cbn; rewrite ?Hy; done..|].
  change (kn_system (kn_enter k1 regs)) with (kn_system k1) in Hrest. rewrite Hy in Hrest.
  exists k1, k2. split; [done|]. split; [done|]. split; [done|].
  destruct Hrest as (R1 & R2 & R3 & R4 & R5 & R6). do 6 (split; [done|]).
  intros wregs wframe Hwa Hwc Hwq Hwd Hwv.
  pose proof (kn_enter_inv k1 wregs Hk1) as Hke.
  destruct (write_trap_spec m view kernel_memory umem (kn_enter k1 wregs) wframe Hke Hv Hwa Hwc Hwq Hwd Hwv)
    as (n & value & ok & Hw & _). eexists. pose proof (syscall_entry_inv (E := Empty_set) (Some m) view kernel_memory
    (kn_enter k1 wregs) wframe Hke Hwa Hvo) as [_ Hkw]. rewrite Hw in Hkw. cbn [snd] in Hkw. set (kw := trap_returned _ _ _ _ _) in *.
  pose proof (timer_entry_captured (E := Empty_set) (kn_enter kw regs) tick t rs (kn_enter_inv _ _ Hkw)) as Htm.
  cbv zeta in Htm. specialize (Htm ltac:(cbn; by rewrite Hy) Hrs).
  eexists. split; [exact Hw|]. split; [apply Htm|done].
  unfold is_user_valid in Hval. by destruct (is_valid (mkInterrupted regs rs)) eqn:E.
Qed.

(** C37: the exit of the only process is not carried out.  With an empty ready
    queue the exit trap returns into the process that asked to exit, with 0 in [rax]:
    the process is still the running one, its exit stays pending, and every later exit
    or yield it asks for is refused as invalid. *)
Theorem exit_alone_returns `{VirtAddrCrate} {M} `{UserMemoryView M} m (view : M) kernel_memory k frame p :
  entry_inv k -> view_ok (Some m) view kernel_memory -> args_ok view (kn_registers k) ->
  Z.land (irf_cs frame) 3 = 3 -> req_syscall (request_of (kn_registers k)) = Some Exit ->
  sy_current_process (kn_system k) = Some p -> sy_pending_exit (kn_system k) = None ->
  ready (sy_scheduler (kn_system k)) = [] ->
  exists k1, syscall_entry_rust (E := Empty_set) (Some m) view kernel_memory k frame = (Ok ReturnToStub, k1) /\
    kn_registers k1 = kn_registers (kn_set_rax k 0) /\
    sy_current_process (kn_system k1) = Some p /\
    pm_state (sy_processes (kn_system k1)) p = Ok ProcRunning /\ is_Some (sy_pending_exit (kn_system k1)) /\
    forall regs frame', args_ok view regs -> Z.land (irf_cs frame') 3 = 3 ->
      req_syscall (request_of regs) = Some Exit \/ req_syscall (request_of regs) = Some Yield ->
      exists k2, syscall_entry_rust (E := Empty_set) (Some m) view kernel_memory (kn_enter k1 regs) frame'
          = (Ok ReturnToStub, k2) /\
        from_return_value (sr_rax (kn_registers k2)) = Some AbiInvalidArguments /\
        kn_system k2 = kn_system k1.
Proof.
  intros Hk Hv Hargs Hcs Hreq Hp Hpe Hempty.
  destruct (syscall_entry_cases (E := Empty_set) (Some m) view kernel_memory k frame Hk Hargs Hv Hcs)
    as (value & Hval & Hk1 & _ & _ & Hact).
  destruct (exit_accepted (kn_system k) p (sr_rdi (kn_registers k)) (ei_sys _ Hk) Hp Hpe) as (t & Hc & Hex).
  set (y1 := set_runtime _ _) in Hex.
  rewrite (dispatch_exit_request m view kernel_memory k (Ok tt) y1 (ei_bound _ Hk) Hreq Hex) in Hval, Hact, Hk1 by done.
  cbn [fst snd sd_action sd_result SyscallDispatch_terminate kn_system kn_set_system] in Hval, Hact.
  cbn in Hval. injection Hval as <-. set (k1 := record_user_trap _ _) in *.
  pose proof (commit_exit_spec y1 (kn_cpu k) (ei_sys _ Hk1) (ei_rsp0 _ Hk)) as Hce.
  destruct (commit_pending_exit y1 (kn_cpu k)) as [[[tr|e|] y] c]; [| |done].
  { destruct Hce as (p' & t' & code & _ & _ & _ & Hh & _). pose proof (ht_head _ _ _ _ Hh) as Hx.
    unfold next_ready, run_peek in Hx. change (sy_scheduler y1) with (sy_scheduler (kn_system k)) in Hx.
    by rewrite Hempty in Hx. }
  exists k1. split; [exact Hact|]. split; [done|]. split; [done|].
  destruct (si_current _ (ei_sys _ Hk) p Hp) as (_ & _ & _ & _ & _ & Hrun).
  split; [exact Hrun|]. split; [by eexists|]. intros regs frame' Hr Hcs' Hreq'.
  destruct (pending_refused (E := Empty_set) m view kernel_memory (kn_enter k1 regs) frame'
              (kn_enter_inv _ _ Hk1) Hr Hv Hcs' ltac:(by eexists) Hreq') as (k2 & ? & ? & ? & _). eauto.
Qed.

(** ** A concrete kernel: two processes, the first running *)
#[local] Existing Instance canonical_virt_addr.

Definition demo_bound : Kernel :=
  mkKernel demo_regs (bind_cpu (mkCpu CpuLocalState_new (Some 0) 0 false) 4096 8192).2
    SystemRuntime_new [] 0 0 false [].
Definition kn_spawn (k : Kernel) : Kernel :=
  kn_set_system k (spawn_user_ready demo_memory 77 (kn_system k) any_image demo_launch Priority_DEFAULT).2.
Definition kn_start (k : Kernel) (p : ProcessId) : Kernel :=
  kn_set_cpu (kn_set_system k (start_user (kn_system k) (kn_cpu k) p).1.2) (start_user (kn_system k) (kn_cpu k) p).2.

Definition demo_one : Kernel := kn_start (kn_spawn demo_bound) (mkProcessId 0 1).
Definition demo_pair : Kernel := kn_start (kn_spawn (kn_spawn demo_bound)) (mkProcessId 0 1).

Lemma demo_bound_ok : kernel_bound 0 4096 8192 demo_bound.
Proof. by split. Qed.

Lemma demo_one_reachable : rtc entry_step demo_bound demo_one.
Proof.
  eapply rtc_l; [|apply rtc_once, es_start].
  apply (es_spawn _ demo_memory 77 any_image demo_launch Priority_DEFAULT); [apply demo_spawn_ok|by vm_compute].
Qed.

Lemma demo_pair_reachable : rtc entry_step demo_bound demo_pair.
Proof.
  eapply rtc_l; [|eapply rtc_l; [|apply rtc_once, es_start]];
    (apply (es_spawn _ demo_memory 77 any_image demo_launch Priority_DEFAULT);
     [apply demo_spawn_ok|by vm_compute]).
Qed.

Lemma demo_one_inv : entry_inv demo_one.
Proof. exact (entry_steps_inv _ _ demo_one_reachable (kernel_bound_inv _ _ _ _ demo_bound_ok)). Qed.
Lemma demo_pair_inv : entry_inv demo_pair.
Proof. exact (entry_steps_inv _ _ demo_pair_reachable (kernel_bound_inv _ _ _ _ demo_bound_ok)). Qed.

Definition demo_mapping : PhysicalMemoryMapping := mkMapping 1048576.
Definition demo_kernel_memory : Z -> Z := fun a => a mod 251.
Lemma demo_view_contract : view_ok (Some demo_mapping) demo_view demo_kernel_memory.
Proof. intros m [= <-]. exists demo_umem. apply demo_view_ok. Qed.

(** A trap from ring 3 with the given request. *)
Definition demo_frame : InterruptReturnFrame := mkReturnFrame 4096 (fun i => nth i [4198404; 27; 514; 140737488351000; 19] 0).
Definition demo_request (k : Kernel) (number a0 a1 : Z) : Kernel :=
  kn_enter k (mkRegs number 2 0 4 5 a1 a0 8 9 10 11 12 13 14 15).

Lemma kernel_entry_safe_witness :
  (timer_entry_rust (E := Empty_set) (kn_enter demo_pair demo_regs) demo_frame).1 <> Panic /\
  (timer_entry_rust (E := Empty_set) (kn_enter demo_pair demo_regs) demo_frame).1 = Ok ReturnToStub.
Proof.
  split; [|vm_compute; reflexivity].
  exact (proj2 (proj2 (kernel_entry_safe 0 4096 8192 demo_bound demo_pair demo_bound_ok demo_pair_reachable))
           demo_regs demo_frame).
Defined.

Lemma write_trap_delivers_witness :
  exists k', syscall_entry_rust (E := Empty_set) (Some demo_mapping) demo_view demo_kernel_memory
      (demo_request demo_pair (Syscall_number Write) 69630 4) demo_frame = (Ok ReturnToStub, k') /\
    kn_serial k' = bytes_at demo_umem 69630 4 ++ USER_TRAP_MESSAGE /\ sr_rax (kn_registers k') = 4.
Proof.
  destruct (write_trap_delivers demo_mapping demo_view demo_kernel_memory demo_umem
              (demo_request demo_pair (Syscall_number Write) 69630 4) demo_frame)
    as (n & value & succeeded & Heq & _ & Hall & _).
  - apply kn_enter_inv, demo_pair_inv.
  - exact demo_view_ok.
  - split; [vm_compute; split; discriminate..|by intros _ _ a _].
  - reflexivity.
  - reflexivity.
  - reflexivity.
  - reflexivity.
  - destruct Hall as (Hn & Hrax & _).
    { intros a Ha. apply demo_readable. cbn in Ha. lia. }
    eexists. split; [exact Heq|]. rewrite Hn, Hrax. split; reflexivity.
Defined.

Lemma exit_trap_departs_witness :
  exists k', syscall_entry_rust (E := Empty_set) (Some demo_mapping) demo_view demo_kernel_memory
      (demo_request demo_pair (Syscall_number Exit) 42 0) demo_frame
      = (Ok (ToUser (mkRoot 4096) (EnterUser (pl_frame demo_launch))), k') /\
    pm_state (sy_processes (kn_system k')) (mkProcessId 0 1) = Ok ProcExited.
Proof.
  destruct (exit_trap_departs demo_mapping demo_view demo_kernel_memory
              (demo_request demo_pair (Syscall_number Exit) 42 0) demo_frame (mkProcessId 0 1) (mkTaskId 1 1)
              (mkUserBinding (mkProcessId 1 1) (mkTaskId 1 1) (spec_id (pi_address_space any_image)) demo_launch None))
    as (k' & t & Heq & _ & _ & _ & _ & Hp & _).
  - apply kn_enter_inv, demo_pair_inv.
  - exact demo_view_contract.
  - split; [vm_compute; split; discriminate..|by intros _ _ a _].
  - reflexivity.
  - reflexivity.
  - vm_compute; reflexivity.
  - vm_compute; reflexivity.
  - vm_compute; reflexivity.
  - vm_compute; reflexivity.
  - vm_compute; reflexivity.
  - exists k'. split; [exact Heq|exact Hp].
Defined.

Definition demo_return : ReturnState := mkReturnState 4198404 27 514 4136 (Some 140737488351000) (Some 19).

Lemma yield_then_timer_witness :
  exists k1 k2, syscall_entry_rust (E := Empty_set) (Some demo_mapping) demo_view demo_kernel_memory
      (demo_request demo_pair (Syscall_number Yield) 0 0) demo_frame = (Ok ReturnToStub, k1) /\
    timer_entry_rust (E := Empty_set) (kn_enter k1 demo_regs) demo_frame
      = (Ok (ToUser (mkRoot 4096) (EnterUser (pl_frame demo_launch))), k2) /\
    ready (sy_scheduler (kn_system k2)) = [mkTaskId 0 1].
Proof.
  destruct (yield_then_timer demo_mapping demo_view demo_kernel_memory demo_umem
              (demo_request demo_pair (Syscall_number Yield) 0 0) demo_frame demo_regs demo_frame demo_return
              (mkProcessId 0 1) (mkTaskId 0 1)
              (mkUserBinding (mkProcessId 0 1) (mkTaskId 0 1) (spec_id (pi_address_space any_image)) demo_launch None)
              (mkTaskId 1 1)
              (mkUserBinding (mkProcessId 1 1) (mkTaskId 1 1) (spec_id (pi_address_space any_image)) demo_launch None))
    as (k1 & k2 & Heq & _ & Ht & _ & _ & Hr & _).
  - apply kn_enter_inv, demo_pair_inv.
  - exact demo_view_ok.
  - split; [vm_compute; split; discriminate..|by intros _ _ a _].
  - reflexivity.
  - reflexivity.
  - vm_compute; reflexivity.
  - vm_compute; reflexivity.
  - vm_compute; reflexivity.
  - vm_compute; reflexivity.
  - reflexivity.
  - vm_compute; reflexivity.
  - vm_compute; reflexivity.
  - vm_compute; reflexivity.
  - reflexivity.
  - reflexivity.
  - exists k1, k2. split; [exact Heq|]. split; [exact Ht|]. rewrite Hr. vm_compute. reflexivity.
Defined.

Lemma exit_alone_returns_witness :
  exists k1, syscall_entry_rust (E := Empty_set) (Some demo_mapping) demo_view demo_kernel_memory
      (demo_request demo_one (Syscall_number Exit) 42 0) demo_frame = (Ok ReturnToStub, k1) /\
    pm_state (sy_processes (kn_system k1)) (mkProcessId 0 1) = Ok ProcRunning.
Proof.
  destruct (exit_alone_returns demo_mapping demo_view demo_kernel_memory
              (demo_request demo_one (Syscall_number Exit) 42 0) demo_frame (mkProcessId 0 1))
    as (k1 & Heq & _ & _ & Hrun & _).
  - apply kn_enter_inv, demo_one_inv.
  - exact demo_view_contract.
  - split; [vm_compute; split; discriminate..|by intros _ _ a _].
  - reflexivity.
  - reflexivity.
  - vm_compute; reflexivity.
  - vm_compute; reflexivity.
  - vm_compute; reflexivity.
  - exists k1. split; [exact Heq|exact Hrun].
Defined.
