(* ===== verification/Hello.v ===== *)
(** * The first user program ([userspace/hello/src/main.rs])

    The program traps four times with [int 0x80] and compares each result with what the
    system-call ABI promises; it spins at the first difference, and after the last trap.
    Its traps are entries of the modelled kernel, between which the rest of the system
    may do anything: take timer interrupts, run other processes, start new ones. *)

From stdpp Require Import base numbers sets relations list strings options.
From S2P Require Import Prelude Abi Memory UserCopy Syscall Execution KernelTask.
From S2P Require Import SystemRuntime SystemInv SystemProps InterruptEntry.

Local Open Scope Z_scope.
Local Open Scope rust_scope.

(** ** The program *)

Definition hello_message : list Z := ascii_bytes "Hello from X11-OS userspace!" ++ [13; 10].
Definition hello_passed : list Z := ascii_bytes "X11-OS: syscall ABI return contract verified" ++ [13; 10].

(** Where the program ends: in the spin loop behind its [checks] passed checks, or in a
    trap that does not come back. *)
Inductive ProgramEnd :=
| Spins (checks : nat)
| NoReturn (checks : nat).

Section Program.
Context `{VirtAddrCrate} {M : Type} `{UserMemoryView M}.
(** The direct map, the page tables of the process and the memory behind them. *)
Context (mapping : PhysicalMemoryMapping) (view : M) (kernel_memory : Z -> Z).
(** Where the linker placed the two messages, what the rest of the system does before
    each trap, and what the trap finds in the other registers and in the CPU's frame. *)
Context (message_ptr passed_ptr : Z) (world : nat -> Kernel -> Kernel).
Context (regs : nat -> SavedRegisters) (frame : nat -> InterruptReturnFrame).

(** The operands of the [asm!] blocks. *)
Definition trap_operands (r : SavedRegisters) (number arg0 arg1 arg2 : Z) : SavedRegisters :=
  mkRegs number (sr_rcx r) arg2 (sr_rbx r) (sr_rbp r) arg1 arg0 (sr_r8 r) (sr_r9 r)
    (sr_r10 r) (sr_r11 r) (sr_r12 r) (sr_r13 r) (sr_r14 r) (sr_r15 r).

(** Trap number [i]: the result register, when the trap comes back. *)
Definition int_0x80 (i : nat) (k : Kernel) (number arg0 arg1 arg2 : Z) : option Z * Kernel :=
  match syscall_entry_rust (E := Empty_set) (Some mapping) view kernel_memory
          (kn_enter (world i k) (trap_operands (regs i) number arg0 arg1 arg2)) (frame i) with
  | (Ok ReturnToStub, k) => (Some (sr_rax (kn_registers k)), k)
  | (_, k) => (None, k)
  end.

Definition _start (k : Kernel) : ProgramEnd * Kernel :=
  let len := Z.of_nat (length hello_message) in
  let '(first_write, k) := int_0x80 0 k (Syscall_number Write) message_ptr len 0 in
  match first_write with None => (NoReturn 0, k) | Some first_write =>
  if negb (first_write =? len) then (Spins 0, k) else
  let '(second_write, k) := int_0x80 1 k (Syscall_number Write) message_ptr len 0 in
  match second_write with None => (NoReturn 1, k) | Some second_write =>
  if negb (second_write =? len) then (Spins 1, k) else
  let '(invalid_syscall, k) := int_0x80 2 k U64_MAX 0 0 0 in
  match invalid_syscall with None => (NoReturn 2, k) | Some invalid_syscall =>
  if negb (invalid_syscall =? return_value AbiUnknownSyscall) then (Spins 2, k) else
  let len := Z.of_nat (length hello_passed) in
  let '(abi_check_write, k) := int_0x80 3 k (Syscall_number Write) passed_ptr len 0 in
  match abi_check_write with None => (NoReturn 3, k) | Some abi_check_write =>
  if negb (abi_check_write =? len) then (Spins 3, k) else
  (Spins 4, k)
  end end end end.

(** ** What it needs *)

(** [bytes] lie at [ptr] in readable user memory. *)
Record placed (umem : Z -> Z) (ptr : Z) (bytes : list Z) : Prop := mk_placed {
  pc_ptr : is_u64 ptr;
  pc_range : is_ok (validate_slice (mkUserSlice ptr (Z.of_nat (length bytes)))) = true;
  pc_readable : all_readable view ptr (ptr + Z.of_nat (length bytes));
  pc_bytes : bytes_at umem ptr (length bytes) = bytes;
}.

Lemma readable_returns a : user_readable view a -> ~ view_panics view a.
Proof using Type. unfold user_readable, view_panics. intros (acc & Ha & _). by rewrite Ha. Qed.

Context (umem : Z -> Z).
Context (Hworld : forall i k, rtc entry_step k (world i k)).
Context (Hframe : forall i, Z.land (irf_cs (frame i)) 3 = 3).
Context (Hview : x86_view_ok (mkX86Copy view mapping kernel_memory) umem).

Lemma hello_view_ok : view_ok (Some mapping) view kernel_memory.
Proof using Hview. intros ? [= <-]. eauto. Qed.

(** A write of placed bytes returns their number and sends exactly them. *)
Lemma int_0x80_write i k ptr bytes :
  entry_inv k -> placed umem ptr bytes -> Z.of_nat (length bytes) <= U64_MAX ->
  exists k', int_0x80 i k (Syscall_number Write) ptr (Z.of_nat (length bytes)) 0
             = (Some (Z.of_nat (length bytes)), k') /\
    entry_inv k' /\ kn_serial k' = kn_serial (world i k) ++ bytes ++ USER_TRAP_MESSAGE.
Proof using Hworld Hframe Hview.
  intros Hk [Hp Hr Hrd Hb] Hlen. set (n := Z.of_nat (length bytes)) in *.
  set (k0 := kn_enter (world i k) (trap_operands (regs i) (Syscall_number Write) ptr n 0)).
  assert (Hk0 : entry_inv k0) by (apply kn_enter_inv, (entry_steps_inv k); [apply Hworld|done]).
  assert (Hargs : args_ok view (kn_registers k0)).
  { split; [done|unfold n; cbn; ulia|]. intros _ _ a Ha. by apply readable_returns, Hrd. }
  destruct (write_trap_spec mapping view kernel_memory umem k0 (frame i) Hk0 Hview Hargs (Hframe i) eq_refl eq_refl Hr)
    as (m & value & ok & Heq & _ & Hall & _).
  destruct (Hall Hrd) as (-> & -> & ->).
  pose proof (syscall_entry_inv (E := Empty_set) _ _ _ _ (frame i) Hk0 Hargs hello_view_ok) as [_ Hinv].
  rewrite Heq in Hinv. eexists. split; [|split; [exact Hinv|]].
  - unfold int_0x80. fold k0. by rewrite Heq.
  - cbn -[USER_TRAP_MESSAGE bytes_at]. unfold n. rewrite Nat2Z.id, Hb. by rewrite <- app_assoc.
Qed.

(** An unknown number returns the code the ABI names for it. *)
Lemma int_0x80_unknown i k :
  entry_inv k ->
  exists k', int_0x80 i k U64_MAX 0 0 0 = (Some (return_value AbiUnknownSyscall), k') /\
    entry_inv k' /\ kn_serial k' = kn_serial (world i k) ++ USER_TRAP_MESSAGE.
Proof using Hworld Hframe Hview.
  intros Hk. set (k0 := kn_enter (world i k) (trap_operands (regs i) U64_MAX 0 0 0)).
  assert (Hk0 : entry_inv k0) by (apply kn_enter_inv, (entry_steps_inv k); [apply Hworld|done]).
  assert (Hargs : args_ok view (kn_registers k0)) by (split; [cbn; ulia..|done]).
  destruct (unknown_trap_spec mapping view kernel_memory k0 (frame i) Hk0 Hargs hello_view_ok (Hframe i) eq_refl)
    as (k' & Heq & Hser & _ & Hrax).
  pose proof (syscall_entry_inv (E := Empty_set) _ _ _ _ (frame i) Hk0 Hargs hello_view_ok) as [_ Hinv].
  rewrite Heq in Hinv. exists k'. split; [|done]. unfold int_0x80. fold k0. rewrite Heq. by rewrite Hrax.
Qed.
End Program.

(** ** The program finds the ABI as documented *)

(** C12: The user program runs to its last line: with its messages in readable user memory,
    on a kernel that satisfies its invariant, and whatever else the system does before
    each of its four traps, every trap comes back, every result is the one the program
    expects, and the serial port receives, between the output of others, the trap message
    four times: after the first message, after the first message again, by itself for the
    call with an unknown number, and after the confirmation; alone on the system, it
    receives exactly that. *)
Theorem hello_verifies_abi `{VirtAddrCrate} {M} `{UserMemoryView M} mapping (view : M) kernel_memory umem
    message_ptr passed_ptr world regs frame k :
  (forall i k, rtc entry_step k (world i k)) -> (forall i, Z.land (irf_cs (frame i)) 3 = 3) ->
  x86_view_ok (mkX86Copy view mapping kernel_memory) umem ->
  placed view umem message_ptr hello_message -> placed view umem passed_ptr hello_passed -> entry_inv k ->
  exists k' o0 o1 o2 o3,
    _start mapping view kernel_memory message_ptr passed_ptr world regs frame k = (Spins 4, k') /\ entry_inv k' /\
    kn_serial k' = kn_serial k ++ o0 ++ (hello_message ++ USER_TRAP_MESSAGE) ++ o1 ++ (hello_message ++ USER_TRAP_MESSAGE)
                     ++ o2 ++ USER_TRAP_MESSAGE ++ o3 ++ (hello_passed ++ USER_TRAP_MESSAGE) /\
    ((forall i k, kn_serial (world i k) = kn_serial k) -> o0 = [] /\ o1 = [] /\ o2 = [] /\ o3 = []).
Proof.
  intros Hw Hf Hv Hm Hp Hk. pose proof (fun i k => entry_steps_serial _ _ (Hw i k)) as Hpre.
  unfold _start.
  destruct (int_0x80_write mapping view kernel_memory world regs frame umem Hw Hf Hv 0 k _ _ Hk Hm ltac:(done))
    as (k1 & -> & Hk1 & S1).
  rewrite Z.eqb_refl. cbn [negb].
  destruct (int_0x80_write mapping view kernel_memory world regs frame umem Hw Hf Hv 1 k1 _ _ Hk1 Hm ltac:(done))
    as (k2 & -> & Hk2 & S2).
  rewrite Z.eqb_refl. cbn [negb].
  destruct (int_0x80_unknown mapping view kernel_memory world regs frame umem Hw Hf Hv 2 k2 Hk2) as (k3 & -> & Hk3 & S3).
  rewrite Z.eqb_refl. cbn [negb].
  destruct (int_0x80_write mapping view kernel_memory world regs frame umem Hw Hf Hv 3 k3 _ _ Hk3 Hp ltac:(done))
    as (k4 & -> & Hk4 & S4).
  rewrite Z.eqb_refl. cbn [negb].
  destruct (Hpre 0%nat k) as [o0 E0], (Hpre 1%nat k1) as [o1 E1], (Hpre 2%nat k2) as [o2 E2], (Hpre 3%nat k3) as [o3 E3].
  exists k4, o0, o1, o2, o3. split; [done|]. split; [done|]. split.
  - rewrite S4, E3, S3, E2, S2, E1, S1, E0. by rewrite <- !app_assoc.
  - intros Hq. rewrite Hq in E0, E1, E2, E3. split_and!; by eapply app_inv_head; rewrite app_nil_r.
Qed.

(** ** The program on a small kernel *)
#[local] Existing Instance canonical_virt_addr.

(** Both messages in the first readable page, at its start and 64 bytes behind it. *)
Definition hello_memory : Z -> Z := fun a =>
  let i := a - (1048576 + 20480) in
  if i <? 64 then nth (Z.to_nat i) hello_message 0 else nth (Z.to_nat (i - 64)) hello_passed 0.
Definition hello_umem (a : Z) : Z :=
  hello_memory (1048576 + (if a / PAGE_SIZE_4K * PAGE_SIZE_4K =? 65536 then 20480 else 8192) + a mod PAGE_SIZE_4K).

Lemma hello_placed : placed demo_view hello_umem 65536 hello_message /\ placed demo_view hello_umem 65600 hello_passed.
Proof.
  split; (split; [ulia|vm_compute; reflexivity|intros a Ha; apply demo_readable; cbn in Ha; lia|vm_compute; reflexivity]).
Qed.

Lemma hello_verifies_abi_witness :
  exists k', _start demo_mapping demo_view hello_memory 65536 65600 (fun _ k => k) (fun _ => demo_regs) (fun _ => demo_frame)
               demo_one = (Spins 4, k') /\
    kn_serial k' = hello_message ++ USER_TRAP_MESSAGE ++ hello_message ++ USER_TRAP_MESSAGE ++ USER_TRAP_MESSAGE
                     ++ hello_passed ++ USER_TRAP_MESSAGE.
Proof.
  destruct (hello_verifies_abi demo_mapping demo_view hello_memory hello_umem 65536 65600 (fun _ k => k)
              (fun _ => demo_regs) (fun _ => demo_frame) demo_one)
    as (k' & o0 & o1 & o2 & o3 & Heq & _ & Hser & Hnil).
  - intros i k. apply rtc_refl.
  - reflexivity.
  - apply demo_view_memory_ok.
  - apply hello_placed.
  - apply hello_placed.
  - exact demo_one_inv.
  - exists k'. split; [exact Heq|]. rewrite Hser. destruct Hnil as (-> & -> & -> & ->); [reflexivity|]. vm_compute. reflexivity.
Defined.
