(* ===== verification/Contracts.v ===== *)
(** * Contracts beside the runtime

    Small modules of [arch/x86_64] that state what a context, a frame or a request must
    satisfy: [user_context.rs], [preemption.rs], [preemption_contract.rs],
    [interrupt_frame.rs] and [user_activation.rs].  The runtime checks the same things
    elsewhere; the theorems relate the two. *)

From stdpp Require Import base numbers list options.
From S2P Require Import Prelude Tasks Queues LoadPlan Execution UserExecution InterruptEntry.

Local Open Scope Z_scope.
Local Open Scope rust_scope.

(** ** User contexts *)
Record UserContext := mkUserContext { uc_rip : Z; uc_rsp : Z; uc_rflags : Z; uc_cs : Z; uc_ss : Z }.

Inductive UserContextError := InvalidSelectors.

Definition UserContext_new (rip rsp cs ss : Z) : UserContext := mkUserContext rip rsp 514 cs ss.

Definition UserContext_from_initial (context : InitialContext) (user_code user_data : Z)
  : result UserContextError UserContext :=
  if negb (Z.land user_code 3 =? 3) || negb (Z.land user_data 3 =? 3) then Err InvalidSelectors
  else Ok (UserContext_new (ctx_entry context) (ctx_stack_pointer context) user_code user_data).

Definition is_user_selectors (self : UserContext) (user_code user_data : Z) : bool :=
  (uc_cs self =? user_code) && (uc_ss self =? user_data) && (Z.land (uc_cs self) 3 =? 3) && (Z.land (uc_ss self) 3 =? 3).

(** ** The preemption request *)
Inductive PreemptionError := PreemptionDisabled | NoRequest | NoRunnableTask.

Record PreemptionController := mkController { pc_request : RescheduleRequest }.
Definition PreemptionController_new : PreemptionController := mkController RescheduleRequest_new.
Definition pc_request_now (self : PreemptionController) : PreemptionController :=
  mkController (resched_request (pc_request self)).

Definition take_request (self : PreemptionController) (enabled : bool)
  : result PreemptionError unit * PreemptionController :=
  if negb enabled then (Err PreemptionDisabled, self)
  else let '(taken, request) := resched_take (pc_request self) in
       (if taken then Ok tt else Err NoRequest, mkController request).

(** ** The kernel-preemption contract *)
Inductive BootstrapPreemptionContractError := MissingCurrentContext | InvalidInterruptedState.

Definition validate_interrupted_state (state : option InterruptedState)
  : result BootstrapPreemptionContractError unit :=
  match state with
  | None => Err MissingCurrentContext
  | Some state =>
      if negb (is_valid state) || negb (bool_decide (is_Some (kernel_iret_words (is_return_state state))))
      then Err InvalidInterruptedState else Ok tt
  end.

(** [validate_kernel_state] of [preempt_return.rs] *)
Definition validate_kernel_state (state : InterruptedState) : bool :=
  is_valid state && bool_decide (is_Some (kernel_iret_words (is_return_state state))).

Definition context_is_initialized (context : Context) : bool := negb (c_rip context =? 0) && negb (c_rsp context =? 0).

(** ** Frames *)
Record KernelInterruptFrame := mkKernelFrame { kf_rip : Z; kf_cs : Z; kf_rflags : Z }.
Record PrivilegeTransitionFrame := mkTransitionFrame { tf_rsp : Z; tf_ss : Z }.
Record UserInterruptFrame := mkUserInterruptFrame { uif_base : KernelInterruptFrame; uif_transition : PrivilegeTransitionFrame }.

Definition interrupt_enabled (self : KernelInterruptFrame) : bool := negb (Z.land (kf_rflags self) (Z.shiftl 1 9) =? 0).

(** ** Activation

    The root is loaded and the frame consumed by the [iretq] of [enter_user]. *)
Definition activate_and_enter_user (prepared : PreparedUserLaunch) : Departure :=
  ToUser (pl_root prepared) (EnterUser (pl_frame prepared)).

(** ** The contracts and the runtime agree *)

(** Both constructors of a first user context accept the same selectors and put the
    same values in the fields the CPU loads; an accepted context is a ring-3 one. *)
Theorem user_context_matches_frame (context : InitialContext) (user_code user_data : Z) :
  match UserContext_from_initial context user_code user_data, UserReturnFrame_from_initial context user_code user_data with
  | Ok c, Ok f =>
      is_user_selectors c user_code user_data = true /\
      f = mkUserFrame (uc_rip c) (uc_cs c) (uc_rflags c) (uc_rsp c) (uc_ss c)
  | Err InvalidSelectors, Err KernelSelector => True
  | _, _ => False
  end.
Proof.
  unfold UserContext_from_initial, UserReturnFrame_from_initial, is_user_selectors.
  destruct (Z.land user_code 3 =? 3) eqn:E1; cbn; [|done].
  destruct (Z.land user_data 3 =? 3) eqn:E2; cbn; [|done]. by rewrite !Z.eqb_refl, E1, E2.
Qed.

(** A request is granted once: it survives refusals while preemption is disabled, is
    consumed by the first call with preemption enabled, and then is gone. *)
Theorem request_granted_once (c : PreemptionController) (refusals : nat) :
  let c1 := Nat.iter refusals (fun c => (take_request c false).2) (pc_request_now c) in
  (take_request c1 true).1 = Ok tt /\ (take_request (take_request c1 true).2 true).1 = Err NoRequest.
Proof.
  assert (Hc1 : Nat.iter refusals (fun c => (take_request c false).2) (pc_request_now c) = pc_request_now c)
    by (induction refusals as [|n IH]; [done|exact IH]).
  by rewrite Hc1.
Qed.

(** The contract accepts the pending snapshot of a task exactly when the runtime plans
    to resume the task from it, and refuses every snapshot of a process. *)
Theorem contract_is_plan (r : ExecutionRegistry) (t : TaskId) (b : X86ExecutionBinding) (s : InterruptedState) :
  er_get r t = Some b -> xb_interrupted b = Some s ->
  (validate_interrupted_state (Some s) = Ok tt <-> preemption_plan r t = Some (IretKernel t s)) /\
  (rs_is_user (is_return_state s) = true -> validate_interrupted_state (Some s) = Err InvalidInterruptedState).
Proof.
  intros Hb Hs. unfold validate_interrupted_state, preemption_plan. rewrite Hb, Hs.
  unfold is_valid, kernel_iret_words, rs_is_user, rs_is_kernel. split.
  - destruct (Z.land (rs_cs _) 3 =? 0), (rs_rip _ =? 0), (Z.land (rs_rflags _) 2 =? 0), (rs_resume_rsp _ =? 0);
      cbn; rewrite ?orb_true_r; cbn; destruct (is_initialized (xb_context b)); (split; done).
  - intros Hu%Z.eqb_eq. rewrite Hu. cbn. by rewrite orb_true_r.
Qed.

(** Entering a process directly is what the transfer of a first run does. *)
Theorem activation_is_transfer (b : UserExecutionBinding) (d : Departure) :
  ub_resume b = None -> execute_user_transfer (E := Empty_set) (UserReturnTransfer_new b) = Ok d ->
  d = activate_and_enter_user (ub_launch b).
Proof.
  intros Hr. unfold execute_user_transfer. destruct (ut_validate _ _); [|done|done].
  unfold ut_resume. cbn. rewrite Hr. by intros [= <-].
Qed.
