(* ===== verification/KernelManager.v ===== *)
(** * Working on the kernel runtime

    What the operations of the kernel runtime do to the task manager it owns: voluntary
    dispatch, the timer handler, the storing of snapshots, sleeping and exiting.  The
    lemmas say what each of them leaves alone, in the form the invariant of the whole
    kernel ([KernelSystem]) needs. *)

From stdpp Require Import base numbers sets relations list options.
From S2P Require Import Prelude Tasks Queues Scheduler SchedulerInv SchedulerSteps.
From S2P Require Import Syscall Execution KernelTask Runtime Dispatch.

Local Open Scope Z_scope.
Local Open Scope rust_scope.

(** ** Changes of the kernel execution registry *)
Section Registry.

Definition contexts_ok (r : ExecutionRegistry) : Prop :=
  forall t b, er_get r t = Some b -> is_initialized (xb_context b) = true.

(** The same tasks with the same stacks, every context still live. *)
Record er_kept (r r' : ExecutionRegistry) : Prop := mk_er_kept {
  ek_wf : er_wf r';
  ek_tops : forall t, er_kernel_stack_top r' t = er_kernel_stack_top r t;
  ek_live : forall t, is_Some (er_get r' t) <-> is_Some (er_get r t);
  ek_contexts : contexts_ok r -> contexts_ok r';
}.

Lemma er_kept_refl r : er_wf r -> er_kept r r.
Proof using Type. by split. Qed.

Lemma er_kept_trans r1 r2 r3 : er_kept r1 r2 -> er_kept r2 r3 -> er_kept r1 r3.
Proof using Type.
  intros [W1 T1 L1 C1] [W2 T2 L2 C2]. split; [done|..|auto].
  - intros t. by rewrite T2, T1.
  - intros t. by rewrite L2, L1.
Qed.

(** One binding changes, but not its stack, and its context stays live. *)
Lemma er_kept_one r r' t :
  er_wf r' -> (forall t', t' <> t -> er_get r' t' = er_get r t') ->
  match er_get r t, er_get r' t with
  | Some b, Some b' => xb_stack_top b' = xb_stack_top b /\
                       (is_initialized (xb_context b) = true -> is_initialized (xb_context b') = true)
  | None, None => True
  | _, _ => False
  end -> er_kept r r'.
Proof using Type.
  intros Hw Hoth Hone. split; [done|..].
  - intros t'. unfold er_kernel_stack_top. destruct (decide (t' = t)) as [->|Hne]; [|by rewrite Hoth].
    destruct (er_get r t), (er_get r' t); try done. apply Hone.
  - intros t'. destruct (decide (t' = t)) as [->|Hne]; [|by rewrite Hoth].
    by destruct (er_get r t), (er_get r' t).
  - intros Hc t' b'. destruct (decide (t' = t)) as [->|Hne]; [|rewrite Hoth by done; apply Hc].
    intros Hb'. rewrite Hb' in Hone. destruct (er_get r t) as [b|] eqn:Hb; [|done]. apply Hone. by eapply Hc.
Qed.

Lemma er_kept_set r t b b' :
  er_wf r -> er_get r t = Some b -> xb_task_id b' = t -> xb_stack_top b' = xb_stack_top b ->
  xb_context b' = xb_context b -> er_kept r (reg_update xb_task_id r t (fun _ => b')).
Proof using Type.
  intros Hw Hb Hk Htop Hc.
  assert (Hg : forall t', er_get (reg_update xb_task_id r t (fun _ => b')) t' =
                          if bool_decide (t' = t) then Some b' else er_get r t').
  { intros t'. by apply (reg_find_set _ _ _ b). }
  apply (er_kept_one _ _ t); [by apply (reg_wf_set _ _ _ b)| |].
  - intros t' Hne. by rewrite Hg, bool_decide_false.
  - rewrite Hb, Hg, bool_decide_true by done. by rewrite Hc.
Qed.

Lemma er_kept_save r t saved :
  er_wf r -> is_initialized saved = true -> er_kept r (reg_update xb_task_id r t (fun b => with_context b saved)).
Proof using Type.
  intros Hw Hs.
  assert (Hg : forall t', er_get (reg_update xb_task_id r t (fun b => with_context b saved)) t' =
             if bool_decide (t' = t) then (fun b => with_context b saved) <$> er_get r t else er_get r t').
  { intros t'. by apply reg_find_update. }
  apply (er_kept_one _ _ t); [by apply reg_wf_update| |].
  - intros t' Hne. by rewrite Hg, bool_decide_false.
  - rewrite Hg, bool_decide_true by done. by destruct (er_get r t).
Qed.
End Registry.

(** ** Changes of the kernel runtime *)
Section Runtimes.
Context `{VirtAddrCrate}.

(** What the runtime may change of its tasks: who runs and what is saved for whom. *)
Record manager_kept (m m' : KernelTaskManager) : Prop := mk_manager_kept {
  mk_sched : sched_inv (ktm_scheduler m');
  mk_running : forall t, current (ktm_scheduler m') = Some t -> state (ktm_scheduler m') t = Some Running;
  mk_attrs : forall t, attrs (ktm_scheduler m') t = attrs (ktm_scheduler m) t;
  mk_er : er_kept (ktm_executions m) (ktm_executions m');
  mk_sleep : sleep_inv (ktm_sleepers m');
  mk_owner : forall t, current (ktm_scheduler m') = Some t ->
    current (ktm_scheduler m) = Some t \/
    is_Some (er_get (ktm_executions m) t) /\ task_kind (ktm_scheduler m) t <> Some Userspace;
}.

(** A manager that can be worked on. *)
Record manager_ok (m : KernelTaskManager) : Prop := mk_manager_ok {
  mo_sched : sched_inv (ktm_scheduler m);
  mo_running : forall t, current (ktm_scheduler m) = Some t -> state (ktm_scheduler m) t = Some Running;
  mo_er : er_wf (ktm_executions m);
  mo_sleep : sleep_inv (ktm_sleepers m);
  mo_stacks : stacks_ok (ktm_executions m);
  mo_contexts : contexts_ok (ktm_executions m);
}.

Lemma manager_kept_refl m : manager_ok m -> manager_kept m m.
Proof using Type. intros []. split; auto. by apply er_kept_refl. Qed.

Lemma manager_kept_ok m m' : manager_ok m -> manager_kept m m' -> manager_ok m'.
Proof using Type.
  intros Ho Hk. destruct Hk as [Hs Hr _ He Hq _]. split; try done; [apply He| |by apply He, Ho].
  intros t top. rewrite (ek_tops _ _ He). apply Ho.
Qed.

Lemma manager_kept_trans m1 m2 m3 : manager_kept m1 m2 -> manager_kept m2 m3 -> manager_kept m1 m3.
Proof using Type.
  intros H1 H2. destruct H2 as [Hs Hr Ha He Hq Ho]. split; try done.
  - intros t. by rewrite Ha, (mk_attrs _ _ H1).
  - by eapply er_kept_trans; [apply H1|].
  - intros t [Hc|[Hl Hk]]%Ho; [by apply H1|]. right. split; [by apply (ek_live _ _ (mk_er _ _ H1))|].
    by rewrite attrs_kind, (mk_attrs _ _ H1), <- attrs_kind in Hk.
Qed.

Lemma expire_kept m now :
  manager_ok m -> manager_kept m (ktm_expire_sleepers m now).2 /\
  current (ktm_scheduler (ktm_expire_sleepers m now).2) = current (ktm_scheduler m).
Proof using Type.
  intros Ho. pose proof (expire_sleepers_spec _ now _ (mo_sched _ Ho) (mo_sleep _ Ho)) as He.
  assert (Ha : forall t, attrs (expire_sleepers (ktm_scheduler m) now (ktm_sleepers m)).1.2 t = attrs (ktm_scheduler m) t).
  { intros t. unfold expire_sleepers. destruct (sleep_expire_until _ _) as [ex q].
    destruct (wake_expired _ _ _) as [w s'] eqn:Hw. cbn. change s' with (w, s').2. rewrite <- Hw. apply wake_expired_attrs. }
  unfold ktm_expire_sleepers.
  destruct (expire_sleepers (ktm_scheduler m) now (ktm_sleepers m)) as [[woken s'] q'].
  destruct He as (Hw & _ & _ & Hc & Hs & Hi & Hq). cbn in Ha |- *. split; [|done].
  split; cbn; try done; [|apply er_kept_refl, Ho|left; congruence].
  intros t. rewrite Hc. intros Ht%(mo_running _ Ho). rewrite Hs, decide_False; [done|].
  intros Hin. rewrite Hw in Hin. apply list_elem_of_filter in Hin as [Hbl _]. congruence.
Qed.

(** The CPU names the [owner] of the scheduler; the other fields are left alone. *)
Record cpu_serves (c c' : Cpu) (owner : option TaskId) : Prop := mk_cpu_serves {
  cs_rsp0 : is_Some (cpu_rsp0 c');
  cs_task : forall t, owner = Some t -> cl_current_task (cpu_local c') = Some t;
  cs_system : cl_system_runtime (cpu_local c') = cl_system_runtime (cpu_local c);
  cs_action : cl_syscall_action (cpu_local c') = cl_syscall_action (cpu_local c);
}.

Lemma cpu_serves_owner c c' named owner :
  cpu_serves c c' named -> (forall t, owner = Some t -> named = Some t) -> cpu_serves c c' owner.
Proof using Type. intros [] Hn. split; auto. Qed.

(** Storing the captured snapshot, or refusing to. *)
Lemma commit_interrupted_kept k c :
  manager_ok (kr_manager k) -> is_Some (cpu_rsp0 c) ->
  let '(r, k', c') := commit_interrupted_state k c in
  r <> Panic /\ manager_kept (kr_manager k) (kr_manager k') /\
  ktm_scheduler (kr_manager k') = ktm_scheduler (kr_manager k) /\ cpu_serves c c' (cl_current_task (cpu_local c)) /\
  forall t, cl_current_task (cpu_local c) <> Some t ->
    er_get (ktm_executions (kr_manager k')) t = er_get (ktm_executions (kr_manager k)) t.
Proof using Type.
  intros Ho Hr. pose proof (manager_kept_refl _ Ho) as Hrefl. unfold commit_interrupted_state.
  assert (Hsame : cpu_serves c c (cl_current_task (cpu_local c))) by done.
  destruct (cl_current_task (cpu_local c)) as [t|] eqn:Ht; [|split_and!; try done; by case_bool_decide].
  destruct (er_get (ktm_executions (kr_manager k)) t) as [b|] eqn:Hb; [|done].
  case_bool_decide as Hfree; [done|].
  destruct (cl_interrupted (cpu_local c)) as [[t' snap]|] eqn:Hslot; cbn; [|done].
  destruct (negb (bool_decide (t' = t))) eqn:Ht'; [done|]. unfold cl_take_interrupted. rewrite Hslot, Ht'.
  unfold install_interrupted. rewrite bool_decide_false by done.
  assert (Hset : forall i, manager_kept (kr_manager k) (ktm_set_executions (kr_manager k)
            (reg_update xb_task_id (ktm_executions (kr_manager k)) t (fun _ => with_interrupted b i)))).
  { intros i. split; cbn; try apply Ho; auto. apply (er_kept_set _ _ b); [apply Ho|done|by apply reg_find_key in Hb|done|done]. }
  assert (Hb0 : b = with_interrupted b (xb_interrupted b)) by by destruct b.
  assert (Hoth : forall i t0, t <> t0 -> er_get (reg_update xb_task_id (ktm_executions (kr_manager k)) t
            (fun _ => with_interrupted b i)) t0 = er_get (ktm_executions (kr_manager k)) t0).
  { intros i t0 Hne. unfold er_get in *. rewrite (reg_find_set _ _ _ b), bool_decide_false by (done || by apply reg_find_key in Hb). done. }
  assert (Htaken : cpu_serves c (with_local c (cl_take_interrupted (cpu_local c)).2) (Some t))
    by (split; cbn; try done; by rewrite Ht).
  destruct (negb (is_valid snap)); cbn; (split_and!; [done| |done|exact Htaken|]);
    [|intros t0 H0|by apply Hset|intros t0 H0; apply Hoth; congruence].
  2: { pose proof (Hoth (xb_interrupted b) t0 ltac:(congruence)) as Hs. by rewrite <- Hb0 in Hs. }
  pose proof (Hset (xb_interrupted b)) as Hs. by rewrite <- Hb0 in Hs.
Qed.

(** A stored kernel snapshot is there to be taken. *)
Lemma planned_taken r x st :
  preemption_plan r x = Some (IretKernel x st) ->
  exists b, er_get r x = Some b /\ xb_interrupted b = Some st /\
    take_kernel_preempt_state r x = (Some st, reg_update xb_task_id r x (fun _ => with_interrupted b None)).
Proof using Type.
  unfold preemption_plan, take_kernel_preempt_state. destruct (er_get r x) as [b|]; [|done].
  destruct (xb_interrupted b) as [st'|] eqn:Hi; [|by case_match].
  destruct (kernel_iret_words _); [|by case_match]. intros [= ->]. exists b. unfold take_interrupted. by rewrite Hi.
Qed.

Lemma plan_task r x plan :
  preemption_plan r x = Some plan ->
  is_Some (er_get r x) /\ ((exists ctx, plan = ReturnToContext x ctx) \/ (exists st, plan = IretKernel x st)).
Proof using Type.
  unfold preemption_plan. destruct (er_get r x) as [b|]; [|done]. intros Hp. split; [eauto|].
  repeat (case_match; simplify_eq); eauto.
Qed.

Lemma dispatch_kept m x :
  manager_ok m -> next_ready (ktm_scheduler m) = Some x -> task_kind (ktm_scheduler m) x <> Some Userspace ->
  is_Some (er_get (ktm_executions m) x) ->
  manager_kept m (ktm_set_scheduler m (schedule_next (ktm_scheduler m)).2) /\
  current (schedule_next (ktm_scheduler m)).2 = Some x.
Proof using Type.
  intros Ho Hx Hk Hl. pose proof (schedule_next_runs_head _ x (mo_sched _ Ho) (mo_running _ Ho) Hx) as Hs.
  destruct (schedule_next (ktm_scheduler m)) as [d s']. destruct Hs as (_ & _ & Hc & Hr & Hi & Ha & _).
  split; [|done]. split; cbn; try done; [|apply er_kept_refl, Ho|apply Ho|].
  - intros t. rewrite Hc. by intros [= <-].
  - intros t. rewrite Hc. intros [= <-]. by right.
Qed.

(** The plan made before the snapshot was stored can still be carried out. *)
Definition plan_open (r : ExecutionRegistry) (x : TaskId) (plan : PreemptionPlan) : Prop :=
  match plan with
  | ReturnToContext _ _ => is_Some (er_get r x)
  | IretKernel _ _ => preemption_plan r x = Some plan
  end.

Lemma plan_open_task r x plan : plan_open r x plan -> is_Some (er_get r x).
Proof using Type. destruct plan; [done|]. by intros [? _]%plan_task. Qed.

Lemma commit_preemption_kept k c x plan :
  manager_ok (kr_manager k) -> is_Some (cpu_rsp0 c) ->
  (forall t, current (ktm_scheduler (kr_manager k)) = Some t -> cl_current_task (cpu_local c) = Some t) ->
  next_ready (ktm_scheduler (kr_manager k)) = Some x -> current (ktm_scheduler (kr_manager k)) <> Some x ->
  task_kind (ktm_scheduler (kr_manager k)) x <> Some Userspace ->
  plan_open (ktm_executions (kr_manager k)) x plan ->
  let '(r, k', c') := commit_preemption k c x plan in
  r <> Panic /\ manager_kept (kr_manager k) (kr_manager k') /\ cpu_serves c c' (current (ktm_scheduler (kr_manager k'))).
Proof using Type.
  intros Ho Hr Hct Hx Hne Hk Hplan. unfold commit_preemption.
  pose proof (plan_open_task _ _ _ Hplan) as Hl.
  destruct (dispatch_kept _ x Ho Hx Hk Hl) as [Hkept Hcur].
  pose proof (prepare_dispatch_commits (kr_manager k) c x (mo_sched _ Ho) (mo_running _ Ho) Hx Hne Hr (mo_stacks _ Ho)) as Hd.
  destruct (prepare_dispatch (kr_manager k) c) as [[[d|e|] m'] c']; [| |done].
  2: { destruct Hd as [-> ->]. cbn. split; [done|]. split; [by apply manager_kept_refl|done]. }
  destruct Hd as (Hn & _ & -> & Hloc & Hrsp & b & Hb & Hv). rewrite Hn, bool_decide_true by done. cbn [negb].
  assert (Htop : is_Some (er_kernel_stack_top (ktm_executions (kr_manager k)) x)).
  { unfold er_kernel_stack_top. rewrite Hb. by apply validated_top. }
  destruct plan as [y ctx|y st].
  - split; [done|]. split; [done|]. split; cbn; rewrite ?Hloc, ?Hrsp, ?Hcur; try done; by intros t [= <-].
  - destruct (plan_task _ _ _ Hplan) as [_ [[? [=]]|[? [= -> <-]]]].
    destruct (planned_taken _ _ _ Hplan) as (b' & Hb' & _ & Ht). cbn. rewrite Ht. split; [done|]. split.
    + eapply manager_kept_trans; [exact Hkept|]. pose proof (manager_kept_ok _ _ Ho Hkept) as Ho'.
      split; cbn; try apply Ho'; auto.
      apply (er_kept_set _ _ b'); [apply Ho|done|by apply reg_find_key in Hb'|done|done].
    + split; cbn; rewrite ?Hloc, ?Hrsp, ?Hcur; try done; by intros t [= <-].
Qed.

(** A plan survives the storing of a snapshot: for the planned task itself only when
    the plan is to return to its saved context. *)
Lemma plan_stays_open k c k2 c2 x plan :
  preemption_plan (ktm_executions (kr_manager k)) x = Some plan ->
  commit_interrupted_state k c = (Ok tt, k2, c2) ->
  er_kept (ktm_executions (kr_manager k)) (ktm_executions (kr_manager k2)) ->
  (forall t, cl_current_task (cpu_local c) <> Some t ->
     er_get (ktm_executions (kr_manager k2)) t = er_get (ktm_executions (kr_manager k)) t) ->
  plan_open (ktm_executions (kr_manager k2)) x plan.
Proof using Type.
  intros Hplan Hc Hk Hoth. destruct (plan_task _ _ _ Hplan) as [Hl [[ctx ->]|[st ->]]]; [by apply Hk|].
  cbn. unfold preemption_plan in *. rewrite Hoth; [done|]. intros Ht.
  destruct (planned_taken _ _ _ Hplan) as (b & Hb & Hst & _).
  unfold commit_interrupted_state in Hc. by rewrite Ht, Hb, Hst in Hc.
Qed.

(** The timer handler of kernel tasks. *)
Lemma handle_timer_kept k c :
  manager_ok (kr_manager k) -> is_Some (cpu_rsp0 c) ->
  (forall t, current (ktm_scheduler (kr_manager k)) = Some t -> cl_current_task (cpu_local c) = Some t) ->
  let '(r, k', c') := handle_timer_preemption k c in
  r <> Panic /\ manager_kept (kr_manager k) (kr_manager k') /\ cpu_serves c c' (current (ktm_scheduler (kr_manager k'))).
Proof using Type.
  intros Ho Hr Hct. unfold handle_timer_preemption. set (c0 := (take_timer_pending c).2).
  assert (Hserves : forall c' owner, cpu_rsp0 c' = cpu_rsp0 c0 ->
    (forall t, owner = Some t -> cl_current_task (cpu_local c) = Some t) ->
    cl_current_task (cpu_local c') = cl_current_task (cpu_local c0) ->
    cl_system_runtime (cpu_local c') = cl_system_runtime (cpu_local c0) ->
    cl_syscall_action (cpu_local c') = cl_syscall_action (cpu_local c0) -> cpu_serves c c' owner).
  { intros c' owner H1 H2 H3 H4 H5. split; [by rewrite H1|intros t; rewrite H3; apply H2|exact H4|exact H5]. }
  destruct (negb _); [split; [done|]; split; [by apply manager_kept_refl|by apply Hserves]|].
  destruct (expire_kept (kr_manager k) (cpu_timer_ticks c0) Ho) as [Hk1 Hc1].
  set (k1 := kr_set_manager k (ktm_expire_sleepers (kr_manager k) (cpu_timer_ticks c0)).2) in *.
  change (ktm_expire_sleepers _ _).2 with (kr_manager k1) in Hk1, Hc1.
  pose proof (manager_kept_ok _ _ Ho Hk1) as Ho1. rewrite <- Hc1 in Hct.
  destruct (next_ready (ktm_scheduler (kr_manager k1))) as [x|] eqn:Hx; [|split; [done|]; split; [done|by apply Hserves]].
  case_bool_decide as Hkind; [split; [done|]; split; [done|by apply Hserves]|].
  case_bool_decide as Hcur; [split; [done|]; split; [done|by apply Hserves]|].
  destruct (preemption_plan _ x) as [plan|] eqn:Hplan; [|split; [done|]; split; [done|by apply Hserves]].
  pose proof (commit_interrupted_kept k1 c0 Ho1 Hr) as Hc. pose proof (plan_stays_open k1 c0) as Hopen.
  destruct (commit_interrupted_state k1 c0) as [[[[]|e|] k2] c2]; destruct Hc as (Hnp & Hk2 & Hs2 & [R2 T2 S2 A2] & Hoth); [| |done].
  2: { split; [done|]. split; [by eapply manager_kept_trans|]. cbn. rewrite Hs2. split; auto. }
  specialize (Hopen k2 c2 x plan Hplan eq_refl (mk_er _ _ Hk2) Hoth).
  pose proof (commit_preemption_kept k2 c2 x plan) as Hp. rewrite Hs2 in Hp.
  destruct (commit_preemption k2 c2 x plan) as [[r k'] c'].
  destruct Hp as (Hnp' & Hk' & [R3 T3 S3 A3]); [by eapply manager_kept_ok|done|by auto|done|congruence|done|done|].
  split; [done|]. split; [|split; [done|done|by rewrite S3|by rewrite A3]].
  eapply manager_kept_trans; [exact Hk1|]. by eapply manager_kept_trans.
Qed.

(** A voluntary dispatch, up to the switch and with what the switch saves. *)
Definition dispatch_switch (k : KernelRuntime) (c : Cpu) (saved : Context) : Dispatched * KernelRuntime * Cpu :=
  match dispatch_begin k c with
  | (DispatchSwitch leaving entering back, k, c) =>
      (DispatchSwitch leaving entering back, save_context k leaving saved, c)
  | other => other
  end.

Lemma dispatch_switch_kept k c saved :
  manager_ok (kr_manager k) -> is_Some (cpu_rsp0 c) ->
  (forall t, current (ktm_scheduler (kr_manager k)) = Some t -> cl_current_task (cpu_local c) = Some t) ->
  (forall t, current (ktm_scheduler (kr_manager k)) = Some t -> is_Some (er_get (ktm_executions (kr_manager k)) t)) ->
  is_initialized saved = true ->
  let '(d, k', c') := dispatch_switch k c saved in
  d <> DispatchPanicked /\ manager_kept (kr_manager k) (kr_manager k') /\
  cpu_serves c c' (current (ktm_scheduler (kr_manager k'))).
Proof using Type.
  intros Ho Hr Hct Hown Hsaved. unfold dispatch_switch.
  assert (Hdi : dispatchable k c).
  { split; [apply Ho| |done|apply Ho]. intros p Hp. split; [by apply Ho|]. destruct (Hown p Hp) as [b Hb].
    exists b. split; [done|]. by eapply (mo_contexts _ Ho). }
  pose proof (dispatch_begin_spec k c Hdi) as Hd.
  destruct (dispatch_begin k c) as [[[e| |leaving entering back] k'] c']; [|done|].
  { destruct Hd as [-> ->]. split; [done|]. split; [by apply manager_kept_refl|done]. }
  destruct Hd as (x & -> & _ & _ & Hsw). split; [done|].
  assert (Hlx : exists b, er_get (ktm_executions (kr_manager k)) x = Some b).
  { pose proof (sw_context _ _ _ _ _ Hsw) as Hcx. cbn in Hcx. destruct (er_get _ x); [eauto|done]. }
  assert (Hkind : task_kind (ktm_scheduler (kr_manager k)) x <> Some Userspace).
  { pose proof (sw_kernel _ _ _ _ _ Hsw) as Hk. rewrite (sw_manager _ _ _ _ _ Hsw) in Hk. cbn in Hk.
    by rewrite attrs_kind, schedule_next_attrs, <- attrs_kind in Hk. }
  destruct (dispatch_kept _ x Ho (sw_head _ _ _ _ _ Hsw) Hkind Hlx) as [Hkept Hcur].
  rewrite <- (sw_manager _ _ _ _ _ Hsw) in Hkept.
  assert (Hsave : manager_kept (kr_manager k') (kr_manager (save_context k' (leaving_ref (current (ktm_scheduler (kr_manager k)))) saved)) /\
            ktm_scheduler (kr_manager (save_context k' (leaving_ref (current (ktm_scheduler (kr_manager k)))) saved)) =
            ktm_scheduler (kr_manager k')).
  { pose proof (manager_kept_ok _ _ Ho Hkept) as Ho'. destruct (current _) as [p|]; cbn; (split; [|done]).
    - split; cbn; try apply Ho'; auto. apply er_kept_save; [apply Ho'|done].
    - by apply manager_kept_refl. }
  destruct Hsave as [Hs1 Hs2]. split; [by eapply manager_kept_trans|]. rewrite Hs2, (sw_current _ _ _ _ _ Hsw).
  pose proof (sw_local _ _ _ _ _ Hsw) as Hl. split; [|intros t [= <-]; by rewrite Hl|by rewrite Hl|by rewrite Hl].
  apply (sw_entry _ _ _ _ _ Hsw).
Qed.
(** ** Giving the CPU up without a successor *)

(** The owner of the CPU blocked. *)
Lemma blocked_kept m s' q id :
  manager_ok m -> blocked_from (ktm_scheduler m) s' id -> sleep_inv q ->
  manager_kept m (mkTaskManager s' (ktm_executions m) q) /\ current s' = None /\ state s' id = Some Blocked.
Proof using Type.
  intros Ho Hb Hq. destruct (blocked_from_inv _ _ _ (mo_sched _ Ho) Hb) as (Hi & [Hs Hc] & _).
  assert (Hn : current s' = None) by apply Hc. split; [|split; [done|]].
  - split; cbn; try done; [|by intros t; eapply blocked_from_attrs|apply er_kept_refl, Ho|]; intros t; by rewrite Hn.
  - pose proof (Hs id) as Hst. cbn in Hst. by rewrite Hst, a_set_eq.
Qed.

Lemma block_on_kept m waiters :
  manager_ok m ->
  manager_kept m (ktm_set_scheduler m (block_current_on (ktm_scheduler m) waiters).1.2) /\
  (current (block_current_on (ktm_scheduler m) waiters).1.2 = None \/
   (block_current_on (ktm_scheduler m) waiters).1.2 = ktm_scheduler m).
Proof using Type.
  intros Ho. pose proof (block_current_on_cases (ktm_scheduler m) waiters) as Hb.
  destruct (block_current_on _ _) as [[[id|e|] s'] q]; [| |done].
  - destruct Hb as [Hb _]. destruct (blocked_kept m s' (ktm_sleepers m) id Ho Hb (mo_sleep _ Ho)) as (Hk & Hc & _).
    split; [exact Hk|by left].
  - destruct Hb as [-> _]. destruct m. split; [by apply manager_kept_refl|by right].
Qed.

(** Waking a waiter leaves the owner of the CPU alone. *)
Lemma wake_one_kept m waiters :
  manager_ok m ->
  manager_kept m (ktm_set_scheduler m (wake_one (ktm_scheduler m) waiters).1.2) /\
  current (wake_one (ktm_scheduler m) waiters).1.2 = current (ktm_scheduler m).
Proof using Type.
  intros Ho. pose proof (wake_one_spec (ktm_scheduler m) waiters (mo_sched _ Ho)) as Hw.
  destruct (wake_one _ _) as [[[id|] s'] q]; cbn in *.
  2: { destruct Hw as [-> _]. destruct m. split; [by apply manager_kept_refl|done]. }
  destruct Hw as [Hw _]. destruct (woken_from_inv _ _ _ (mo_sched _ Ho) Hw) as [Hi [Hs _]].
  assert (Hc : current s' = current (ktm_scheduler m)) by (by destruct Hw as (? & _ & _ & ->)).
  split; [|done]. split; cbn; try done; [|by intros t; eapply woken_from_attrs|apply er_kept_refl, Ho|apply Ho|left; congruence].
  intros t. rewrite Hc. intros Ht. pose proof (mo_running _ Ho t Ht) as Hr. specialize (Hs t). cbn in Hs. rewrite Hs.
  rewrite a_set_ne; [done|]. intros ->. destruct Hw as (tcb & Htk & Hbl & _). apply state_Some in Hr as (? & ? & ?). congruence.
Qed.

(** Going to sleep: the task is blocked and waits with its deadline, and its saved
    context is still the one of its last dispatch. *)
Lemma ktm_sleep_kept m deadline :
  manager_ok m ->
  match ktm_sleep_current_until m deadline with
  | (Ok t, m') =>
      current (ktm_scheduler m) = Some t /\ manager_kept m m' /\ current (ktm_scheduler m') = None /\
      state (ktm_scheduler m') t = Some Blocked /\ SleepEntry_new deadline t ∈ ktm_sleepers m' /\
      ktm_executions m' = ktm_executions m
  | (Err _, m') => m' = m
  | (Panic, _) => False
  end.
Proof using Type.
  intros Ho. pose proof (sleep_current_until_cases (ktm_scheduler m) deadline (ktm_sleepers m) (mo_sleep _ Ho)) as Hc.
  unfold ktm_sleep_current_until. destruct (sleep_current_until _ _ _) as [[[t|e|] s'] q]; cbn; [| |done].
  2: { destruct Hc as [-> ->]. by destruct m. }
  destruct Hc as (Hb & Hn & ->).
  assert (Hq : sleep_inv (sorted_insert (SleepEntry_new deadline t) (ktm_sleepers m))).
  { pose proof (sleep_insert_inv _ (SleepEntry_new deadline t) (mo_sleep _ Ho)) as Hq.
    rewrite sleep_insert_eq in Hq by apply Ho. cbn in Hq. by rewrite bool_decide_false in Hq. }
  destruct (blocked_kept m s' _ t Ho Hb Hq) as (Hk & Hc & Hst). split_and!; try done.
  - by destruct Hb as (? & ? & _).
  - rewrite sorted_insert_perm. apply list_elem_of_here.
Qed.

(** ** Leaving for good *)

(** The task [t] and its binding are gone, and nobody owns the CPU. *)
Record manager_dropped (m m' : KernelTaskManager) (t : TaskId) : Prop := mk_manager_dropped {
  md_owner : current (ktm_scheduler m) = Some t;
  md_sched : sched_inv (ktm_scheduler m');
  md_idle : current (ktm_scheduler m') = None;
  md_gone : task (ktm_scheduler m') t = None;
  md_tasks : forall t', t' <> t -> task (ktm_scheduler m') t' = task (ktm_scheduler m) t';
  md_er : er_wf (ktm_executions m');
  md_bindings : forall t', er_get (ktm_executions m') t' =
    if bool_decide (t' = t) then None else er_get (ktm_executions m) t';
  md_sleep : sleep_inv (ktm_sleepers m');
  md_awake : t ∉ entry_task <$> ktm_sleepers m';
}.

Lemma ktm_exit_spec m :
  manager_ok m ->
  let '(r, m') := ktm_exit_current m in
  (r = false /\ m' = m) \/
  exists t, manager_dropped m m' t /\ r = bool_decide (is_Some (er_get (ktm_executions m) t)).
Proof using Type.
  intros Ho. unfold ktm_exit_current. destruct (current (ktm_scheduler m)) as [t|] eqn:Hc; [|by left].
  destruct (execution (ktm_scheduler m) t) as [h|] eqn:Hh; [|by left].
  assert (h = ExecutionHandle_for_task t) as ->.
  { unfold execution in Hh. destruct (task (ktm_scheduler m) t) as [tcb|] eqn:Ht; [|done].
    by apply (tw_handle _ (proj1 (mo_sched _ Ho)) t tcb). }
  destruct (exit_current_running _ t (mo_sched _ Ho) Hc (mo_running _ Ho t Hc)) as (s' & Hx & Hn & Hg & Hoth).
  destruct (exit_current_inv _ _ (mo_sched _ Ho) Hx) as (_ & _ & _ & _ & Hi).
  rewrite Hx, er_remove_clear. cbn [negb handle_task_id]. right. exists t. split; [|done].
  split; cbn; try done.
  - apply reg_wf_clear, Ho.
  - intros t'. unfold er_get. apply reg_find_clear, Ho.
  - apply sleep_remove_inv, Ho.
  - by apply sleep_remove_contains, Ho.
Qed.
End Runtimes.
