(* ===== verification/KernelSleep.v ===== *)
(** * Kernel tasks that go to sleep or exit

    What becomes of a kernel task that calls [sleep_current_until] or [exit_current] of
    [arch/x86_64/kernel_task.rs] and is then interrupted, or dispatches voluntarily
    ([arch/x86_64/runtime.rs]).  Both calls leave the scheduler without a current task
    while the task goes on executing, so its CPU state has to be saved on its behalf. *)

From stdpp Require Import base numbers sets relations list options.
From S2P Require Import Prelude Tasks Queues Scheduler SchedulerInv SchedulerSteps.
From S2P Require Import Syscall Execution KernelTask Runtime Dispatch KernelManager.

Local Open Scope Z_scope.
Local Open Scope rust_scope.

Section Handover.
Context `{VirtAddrCrate}.

(** A dispatch of a task with a valid binding succeeds. *)
Lemma prepare_dispatch_ok m c x b :
  manager_ok m -> is_Some (cpu_rsp0 c) ->
  next_ready (ktm_scheduler m) = Some x -> current (ktm_scheduler m) <> Some x ->
  er_get (ktm_executions m) x = Some b -> is_ok (xb_validate b) = true ->
  prepare_dispatch m c =
    (Ok (schedule_next (ktm_scheduler m)).1, ktm_set_scheduler m (schedule_next (ktm_scheduler m)).2,
     mkCpu (cpu_local c) (xb_stack_top b) (cpu_timer_ticks c) (cpu_timer_pending c)) /\
  next (schedule_next (ktm_scheduler m)).1 = Some x.
Proof using Type.
  intros Ho [r0 Hr0] Hx Hne Hb Hv. unfold prepare_dispatch. rewrite Hx, bool_decide_false by congruence.
  unfold validate_transition. rewrite Hb. cbn [ok_or]. change (binding_validate b) with (xb_validate b).
  rewrite Hv. cbn [negb]. rewrite bool_decide_false by done.
  assert (Htop : er_kernel_stack_top (ktm_executions m) x = xb_stack_top b) by (unfold er_kernel_stack_top; by rewrite Hb).
  destruct (validated_top b Hv) as [top Ht]. rewrite Htop, Ht.
  pose proof (schedule_next_runs_head _ x (mo_sched _ Ho) (mo_running _ Ho) Hx) as Hs.
  destruct (schedule_next (ktm_scheduler m)) as [d s']. destruct Hs as (Hd & _). cbn [fst snd].
  rewrite Hd, bool_decide_true by done. cbn [negb]. unfold set_kernel_stack_top.
  rewrite Hr0, (mo_stacks _ Ho x top) by congruence. done.
Qed.

(** What the interrupt handler returns to. *)
Definition continuation (b : X86ExecutionBinding) : InterruptPreemption :=
  match xb_interrupted b with Some st => PreemptToKernel st | None => PreemptToContext (xb_context b) end.

(** The stored snapshot, if any, is one of the kernel. *)
Definition resumable (b : X86ExecutionBinding) : Prop :=
  is_ok (xb_validate b) = true /\
  forall st, xb_interrupted b = Some st -> is_Some (kernel_iret_words (is_return_state st)).

Lemma resumable_plan r x b :
  er_get r x = Some b -> resumable b ->
  preemption_plan r x = Some (match xb_interrupted b with
                              | Some st => IretKernel x st | None => ReturnToContext x (xb_context b) end).
Proof using Type.
  intros Hb [Hv Hk]. unfold preemption_plan. rewrite Hb.
  destruct (xb_interrupted b) as [st|]; [by destruct (Hk st eq_refl) as [w ->]|].
  by rewrite (validated_initialized b Hv).
Qed.

Lemma stored_validates b st :
  is_ok (xb_validate b) = true -> is_valid st = true -> is_ok (xb_validate (with_interrupted b (Some st))) = true.
Proof using Type.
  unfold xb_validate. change (xb_stack_top (with_interrupted b (Some st))) with (xb_stack_top b). cbn.
  destruct (_ || _) eqn:Hb; [done|]. apply orb_false_iff in Hb as [Hb ->]. apply orb_false_iff in Hb as [-> _].
  by intros _ ->.
Qed.

Lemma cleared_validates b : is_ok (xb_validate b) = true -> is_ok (xb_validate (with_interrupted b None)) = true.
Proof using Type.
  unfold xb_validate. change (xb_stack_top (with_interrupted b None)) with (xb_stack_top b). cbn.
  destruct (_ || _) eqn:Hb; [done|]. apply orb_false_iff in Hb as [Hb ->]. by apply orb_false_iff in Hb as [-> _].
Qed.

Lemma ktm_expire_executions m now : ktm_executions (ktm_expire_sleepers m now).2 = ktm_executions m.
Proof using Type. unfold ktm_expire_sleepers. by destruct (expire_sleepers (ktm_scheduler m) now (ktm_sleepers m)) as [[? ?] ?]. Qed.

(** The timer handler with a task [x] to run after waking the sleepers, up to the
    storing of the snapshot of [p]. *)
Lemma timer_reaches_commit k c p snap bp x bx :
  let k1 := kr_set_manager k (ktm_expire_sleepers (kr_manager k) (cpu_timer_ticks c)).2 in
  manager_ok (kr_manager k) -> gate_is_enabled (kr_preemption k) = true ->
  captured k c p snap bp -> next_ready (ktm_scheduler (kr_manager k1)) = Some x ->
  task_kind (ktm_scheduler (kr_manager k1)) x <> Some Userspace -> current (ktm_scheduler (kr_manager k1)) <> Some x ->
  er_get (ktm_executions (kr_manager k)) x = Some bx -> resumable bx ->
  let k2 := kr_set_manager k1 (ktm_set_executions (kr_manager k1)
              (reg_update xb_task_id (ktm_executions (kr_manager k1)) p (fun _ => with_interrupted bp (Some snap)))) in
  manager_ok (kr_manager k2) /\ exists c2,
    handle_timer_preemption k c =
      commit_preemption k2 c2 x (match xb_interrupted bx with
                                 | Some st => IretKernel x st | None => ReturnToContext x (xb_context bx) end) /\
    (forall t, er_get (ktm_executions (kr_manager k2)) t =
       if bool_decide (t = p) then Some (with_interrupted bp (Some snap)) else er_get (ktm_executions (kr_manager k)) t) /\
    cl_current_task (cpu_local c2) = Some p /\ cl_interrupted (cpu_local c2) = None /\ cpu_rsp0 c2 = cpu_rsp0 c.
Proof using Type.
  intros k1 Ho Hg Hca Hx Hkind Hne Hbx Hres k2.
  assert (He : ktm_executions (kr_manager k1) = ktm_executions (kr_manager k)) by apply ktm_expire_executions.
  split.
  { destruct (expire_kept (kr_manager k) (cpu_timer_ticks c) Ho) as [Hk1 _]. pose proof (manager_kept_ok _ _ Ho Hk1) as Ho1.
    apply (manager_kept_ok _ _ Ho1). split; cbn; try apply Ho1; auto. destruct Hca as [_ _ _ Hb _].
    apply (er_kept_set _ _ bp); [apply Ho1|by rewrite <- He in Hb|by apply reg_find_key in Hb|done|done]. }
  unfold handle_timer_preemption. rewrite Hg. cbn [negb].
  change (cpu_timer_ticks (take_timer_pending c).2) with (cpu_timer_ticks c). fold k1.
  rewrite Hx, !bool_decide_false by congruence. rewrite He, (resumable_plan _ _ bx) by done.
  assert (Hca1 : captured k1 (take_timer_pending c).2 p snap bp) by (destruct Hca; split; try done; by rewrite He).
  destruct (commit_interrupted_spec _ _ _ _ _ Hca1) as (k' & c2 & -> & -> & Heg & Hcl & Hci & Hrsp).
  exists c2. split; [by unfold k2; rewrite He|]. split_and!; try done. intros t. by rewrite Heg, He.
Qed.

(** The CPU goes from [p], interrupted with the snapshot [snap], to [x]. *)
Record handed (k k' : KernelRuntime) (c c' : Cpu) (s : Scheduler) (q : SleepQueue) (x : TaskId) : Prop := mk_handed {
  hd_scheduler : ktm_scheduler (kr_manager k') = (schedule_next s).2;
  hd_sleepers : ktm_sleepers (kr_manager k') = q;
  hd_gate : kr_preemption k' = kr_preemption k;
  hd_cpu : cl_current_task (cpu_local c') = Some x;
  hd_free : cl_interrupted (cpu_local c') = None;
}.

(** ... when [x] is another task. *)
Lemma timer_hands_to_other k c p snap bp x bx :
  let m1 := (ktm_expire_sleepers (kr_manager k) (cpu_timer_ticks c)).2 in
  manager_ok (kr_manager k) -> is_Some (cpu_rsp0 c) -> gate_is_enabled (kr_preemption k) = true ->
  captured k c p snap bp -> next_ready (ktm_scheduler m1) = Some x ->
  task_kind (ktm_scheduler m1) x <> Some Userspace -> current (ktm_scheduler m1) <> Some x ->
  er_get (ktm_executions (kr_manager k)) x = Some bx -> resumable bx -> x <> p ->
  exists k' c', handle_timer_preemption k c = (Ok (continuation bx), k', c') /\
    handed k k' c c' (ktm_scheduler m1) (ktm_sleepers m1) x /\
    forall t, er_get (ktm_executions (kr_manager k')) t =
      if bool_decide (t = x) then Some (with_interrupted bx None)
      else if bool_decide (t = p) then Some (with_interrupted bp (Some snap)) else er_get (ktm_executions (kr_manager k)) t.
Proof using Type.
  intros m1 Ho Hr Hg Hca Hx Hkind Hne Hbx Hres Hxp.
  destruct (timer_reaches_commit k c p snap bp x bx Ho Hg Hca Hx Hkind Hne Hbx Hres) as (Ho2 & c2 & -> & Heg & Hcl & Hci & Hrsp).
  fold m1 in Ho2, Heg |- *.
  set (k1 := kr_set_manager k m1) in *. set (k2 := kr_set_manager k1 _) in *.
  assert (Hb2 : er_get (ktm_executions (kr_manager k2)) x = Some bx) by (by rewrite Heg, bool_decide_false).
  destruct (prepare_dispatch_ok (kr_manager k2) c2 x bx Ho2 ltac:(by rewrite Hrsp) Hx Hne Hb2 (proj1 Hres)) as [Hd Hn].
  unfold commit_preemption. rewrite Hd, Hn, bool_decide_true by done. cbn [negb]. unfold continuation.
  destruct (xb_interrupted bx) as [st|] eqn:Hst.
  - change (take_kernel_preempt_state _ x) with (take_kernel_preempt_state (ktm_executions (kr_manager k2)) x).
    unfold take_kernel_preempt_state. rewrite Hb2, Hst. destruct (proj2 Hres st Hst) as [w ->].
    unfold take_interrupted. rewrite Hst. eexists _, _. split; [done|]. split; [done|]. cbn. intros t. unfold er_get.
    rewrite (reg_find_set _ _ _ bx); [|by apply reg_find_key in Hbx|done]. case_bool_decide; [done|]. apply Heg.
  - eexists _, _. split; [done|]. split; [done|]. cbn. intros t. rewrite Heg. destruct (decide (t = x)) as [->|Hd1].
    + rewrite bool_decide_false, bool_decide_true by done. rewrite Hbx. f_equal. destruct bx; cbn in *. by subst.
    + by rewrite (bool_decide_false (t = x)).
Qed.

(** ... when [x] is the interrupted task itself, which was woken up while it was still
    executing: the handler returns to the context of its last dispatch. *)
Lemma timer_hands_to_self k c p snap bp :
  let m1 := (ktm_expire_sleepers (kr_manager k) (cpu_timer_ticks c)).2 in
  manager_ok (kr_manager k) -> is_Some (cpu_rsp0 c) -> gate_is_enabled (kr_preemption k) = true ->
  captured k c p snap bp -> next_ready (ktm_scheduler m1) = Some p ->
  task_kind (ktm_scheduler m1) p <> Some Userspace -> current (ktm_scheduler m1) <> Some p ->
  is_ok (xb_validate bp) = true ->
  exists k' c', handle_timer_preemption k c = (Ok (PreemptToContext (xb_context bp)), k', c') /\
    handed k k' c c' (ktm_scheduler m1) (ktm_sleepers m1) p /\
    er_get (ktm_executions (kr_manager k')) p = Some (with_interrupted bp (Some snap)).
Proof using Type.
  intros m1 Ho Hr Hg Hca Hx Hkind Hne Hv. pose proof Hca as [_ _ Hval Hb Hfree].
  assert (Hres : resumable bp) by (split; [done|by rewrite Hfree]).
  destruct (timer_reaches_commit k c p snap bp p bp Ho Hg Hca Hx Hkind Hne Hb Hres) as (Ho2 & c2 & -> & Heg & Hcl & Hci & Hrsp).
  fold m1 in Ho2, Heg |- *.
  set (k1 := kr_set_manager k m1) in *. set (k2 := kr_set_manager k1 _) in *.
  assert (Hb2 : er_get (ktm_executions (kr_manager k2)) p = Some (with_interrupted bp (Some snap)))
    by (by rewrite Heg, bool_decide_true).
  destruct (prepare_dispatch_ok (kr_manager k2) c2 p _ Ho2 ltac:(by rewrite Hrsp) Hx Hne Hb2 (stored_validates _ _ Hv Hval)) as [Hd Hn].
  unfold commit_preemption. rewrite Hfree, Hd, Hn, bool_decide_true by done. cbn [negb].
  eexists _, _. split; [done|]. split; [done|]. exact Hb2.
Qed.

(** ** One sleeper *)

(** [t] sleeps until [deadline], and nobody else does. *)
Record sleeps (m : KernelTaskManager) (t : TaskId) (deadline : Z) : Prop := mk_sleeps {
  sl_blocked : state (ktm_scheduler m) t = Some Blocked;
  sl_queue : ktm_sleepers m = [SleepEntry_new deadline t];
}.

Lemma owner_falls_asleep m t deadline :
  manager_ok m -> current (ktm_scheduler m) = Some t -> ktm_sleepers m = [] ->
  exists m', ktm_sleep_current_until m deadline = (Ok t, m') /\ manager_kept m m' /\ sleeps m' t deadline /\
    current (ktm_scheduler m') = None /\ ready (ktm_scheduler m') = ready (ktm_scheduler m) /\
    ktm_executions m' = ktm_executions m.
Proof using Type.
  intros Ho Hc Hq. pose proof (ktm_sleep_kept m deadline Ho) as Hs.
  pose proof (mo_running _ Ho t Hc) as Hr. apply state_Some in Hr as (tcb & Ht & Hst).
  assert (Heq : ktm_sleep_current_until m deadline =
    (Ok t, mkTaskManager (set_current (put_task (ktm_scheduler m) t (with_state tcb Blocked)) None) (ktm_executions m)
             [SleepEntry_new deadline t])).
  { unfold ktm_sleep_current_until, sleep_current_until. rewrite Hc, Hq. cbn [sleep_contains existsb]. rewrite Ht.
    unfold transition at 1. rewrite Hst. done. }
  rewrite Heq in Hs |- *. destruct Hs as (_ & Hk & _ & Hbl & _). eexists. split; [done|]. split; [exact Hk|]. by split; [split|].
Qed.

Lemma one_sleeper_expires m t deadline now :
  manager_ok m -> sleeps m t deadline ->
  let m' := (ktm_expire_sleepers m now).2 in
  current (ktm_scheduler m') = current (ktm_scheduler m) /\
  (forall t', task_kind (ktm_scheduler m') t' = task_kind (ktm_scheduler m) t') /\
  if decide (deadline <= now) then
    ready (ktm_scheduler m') = ready (ktm_scheduler m) ++ [t] /\ ktm_sleepers m' = []
  else ready (ktm_scheduler m') = ready (ktm_scheduler m) /\ sleeps m' t deadline.
Proof using Type.
  intros Ho [Hbl Hq] m'. destruct (expire_kept m now Ho) as [Hk Hc]. fold m' in Hk, Hc.
  pose proof (expire_sleepers_spec _ now _ (mo_sched _ Ho) (mo_sleep _ Ho)) as He.
  split; [done|]. split; [intros t'; by rewrite !attrs_kind, (mk_attrs _ _ Hk)|].
  unfold m', ktm_expire_sleepers in *. rewrite Hq in He |- *.
  destruct (expire_sleepers (ktm_scheduler m) now [SleepEntry_new deadline t]) as [[woken s'] q']. destruct He as (Hw & -> & Hr & _ & Hst & _).
  cbn in Hc |- *. rewrite !filter_cons, !filter_nil in *. cbn [entry_deadline] in *.
  case_decide as Hd.
  - rewrite decide_False by lia. cbn [fmap list_fmap entry_task] in Hw. rewrite filter_cons, filter_nil, decide_True in Hw by done. by subst woken.
  - rewrite decide_True by lia. cbn [fmap list_fmap] in Hw. rewrite filter_nil in Hw. subst woken. rewrite app_nil_r in Hr.
    split; [done|]. split; cbn; [|done]. rewrite Hst, decide_False; [done|apply not_elem_of_nil].
Qed.
End Handover.

(** ** Theorems *)

(** C39: A kernel task that goes to sleep while no other task is ready or asleep, and whose
    deadline the tick that interrupts it finds passed, starts over.  That tick makes the
    handler plan the continuation of the task before it stores the snapshot just captured
    from that same task, so it returns to the context of the last dispatch (the saved one
    of the binding) instead of the interrupted instruction; the task is current again, and
    the snapshot stays in its binding, where it has the storing of the next one refused. *)
Theorem lone_sleeper_restarts `{VirtAddrCrate} k c t b snap deadline :
  let m := kr_manager k in
  manager_ok m -> is_Some (cpu_rsp0 c) -> gate_is_enabled (kr_preemption k) = true ->
  current (ktm_scheduler m) = Some t -> ready (ktm_scheduler m) = [] -> ktm_sleepers m = [] ->
  task_kind (ktm_scheduler m) t <> Some Userspace ->
  captured k c t snap b -> is_ok (xb_validate b) = true -> deadline <= cpu_timer_ticks c ->
  exists m' k1 c1, ktm_sleep_current_until m deadline = (Ok t, m') /\
    handle_timer_preemption (kr_set_manager k m') c = (Ok (PreemptToContext (xb_context b)), k1, c1) /\
    current (ktm_scheduler (kr_manager k1)) = Some t /\
    er_get (ktm_executions (kr_manager k1)) t = Some (with_interrupted b (Some snap)) /\
    forall c2, cl_current_task (cpu_local c2) = Some t ->
      commit_interrupted_state k1 c2 = (Err (RtInterruptedState InterruptedStateAlreadyPresent), k1, c2).
Proof.
  intros m Ho Hr Hg Hc Hq Hsl Hkt Hca Hv Hle.
  destruct (owner_falls_asleep m t deadline Ho Hc Hsl) as (m' & Hs & Hk & Hsleeps & Hidle & Hready & Hexe).
  pose proof (manager_kept_ok _ _ Ho Hk) as Ho'. rewrite Hq in Hready.
  destruct (one_sleeper_expires m' t deadline (cpu_timer_ticks c) Ho' Hsleeps) as (Hc1 & Hk1 & Hcase).
  rewrite decide_True in Hcase by lia. destruct Hcase as [Hr1 _]. rewrite Hready in Hr1.
  destruct (expire_kept m' (cpu_timer_ticks c) Ho') as [He1 _]. pose proof (manager_kept_ok _ _ Ho' He1) as Hoe.
  set (m1 := (ktm_expire_sleepers m' (cpu_timer_ticks c)).2) in *.
  assert (Hx : next_ready (ktm_scheduler m1) = Some t) by (unfold next_ready; by rewrite Hr1).
  destruct (timer_hands_to_self (kr_set_manager k m') c t snap b) as (k1 & c1 & Ht & Hh & Heg); try done.
  { destruct Hca. split; try done. cbn. by rewrite Hexe. }
  { change (task_kind (ktm_scheduler m1) t <> Some Userspace). rewrite Hk1, attrs_kind, (mk_attrs _ _ Hk). by rewrite <- attrs_kind. }
  { change (current (ktm_scheduler m1) <> Some t). by rewrite Hc1, Hidle. }
  exists m', k1, c1. split; [done|]. split; [done|]. rewrite (hd_scheduler _ _ _ _ _ _ _ Hh). split; [|split; [done|]].
  - pose proof (schedule_next_runs_head _ t (mo_sched _ Hoe) (mo_running _ Hoe) Hx) as Hsn.
    change (ktm_expire_sleepers _ _).2 with m1. destruct (schedule_next (ktm_scheduler m1)) as [d s'].
    by destruct Hsn as (_ & _ & Hcur & _).
  - intros c2 Hc2. unfold commit_interrupted_state. by rewrite Hc2, Heg.
Qed.

(** Nor does a task that goes to sleep and then gives the CPU up voluntarily keep its
    place: the dispatch finds no current task and has the switch save into the boot
    context, so the context under which the sleeper will be dispatched again is still
    the one of its last dispatch, and the boot context is overwritten. *)
Theorem sleeper_context_not_saved `{VirtAddrCrate} k c t b deadline :
  let m := kr_manager k in
  manager_ok m -> is_Some (cpu_rsp0 c) -> current (ktm_scheduler m) = Some t -> ktm_sleepers m = [] ->
  er_get (ktm_executions m) t = Some b ->
  exists m', ktm_sleep_current_until m deadline = (Ok t, m') /\
  match dispatch_begin (kr_set_manager k m') c with
  | (DispatchSwitch leaving entering back, k', _) =>
      leaving = BootContext /\ back = None /\ entering <> TaskContext t /\
      forall saved, kr_boot_context (save_context k' leaving saved) = saved /\
        context_at (save_context k' leaving saved) (TaskContext t) = xb_context b
  | (DispatchFailed _, k', c') => k' = kr_set_manager k m' /\ c' = c
  | (DispatchPanicked, _, _) => False
  end.
Proof.
  intros m Ho Hr Hc Hsl Hb.
  destruct (owner_falls_asleep m t deadline Ho Hc Hsl) as (m' & Hs & Hk & Hsleeps & Hidle & Hready & Hexe).
  pose proof (manager_kept_ok _ _ Ho Hk) as Ho'. exists m'. split; [done|].
  pose proof (dispatch_begin_spec (kr_set_manager k m') c) as Hd.
  destruct (dispatch_begin _ _) as [[[e| |leaving entering back] k'] c']; [apply Hd|apply Hd|];
    try (split; [apply Ho'|intros p; cbn; by rewrite Hidle|done|apply Ho']).
  destruct Hd as (x & -> & -> & -> & Hsw); [split; [apply Ho'|intros p; cbn; by rewrite Hidle|done|apply Ho']|].
  cbn [kr_set_manager kr_manager]. rewrite Hidle. split; [done|]. split; [done|]. split.
  - intros [= ->]. pose proof (sw_head _ _ _ _ _ Hsw) as Hx. cbn in Hx.
    assert (Hin : t ∈ ready (ktm_scheduler m')).
    { unfold next_ready, run_peek in Hx. destruct (ready _); [done|]. simplify_eq/=. left. }
    apply (inv_ready _ (proj2 (mo_sched _ Ho'))) in Hin. cbn in Hin. rewrite (sl_blocked _ _ _ Hsleeps) in Hin. done.
  - intros saved. split; [done|]. cbn. rewrite (sw_executions _ _ _ _ _ Hsw). cbn. by rewrite Hexe, Hb.
Qed.

(** A task that exits and is interrupted before it is switched away stops preemption for
    good: its binding is gone, so the snapshot just captured cannot be stored and stays in
    the capture slot, and every later capture, of any task, is refused. *)
Theorem exited_task_stops_preemption `{VirtAddrCrate} k c t snap x bx :
  let m := kr_manager k in
  manager_ok m -> gate_is_enabled (kr_preemption k) = true ->
  current (ktm_scheduler m) = Some t -> execution (ktm_scheduler m) t = Some (ExecutionHandle_for_task t) ->
  next_ready (ktm_scheduler m) = Some x -> ktm_sleepers m = [] -> task_kind (ktm_scheduler m) x <> Some Userspace ->
  er_get (ktm_executions m) x = Some bx -> resumable bx ->
  cl_current_task (cpu_local c) = Some t -> cl_interrupted (cpu_local c) = Some (t, snap) ->
  exists removed m', ktm_exit_current m = (removed, m') /\ current (ktm_scheduler m') = None /\
  exists k1 c1, handle_timer_preemption (kr_set_manager k m') c = (Err MissingExecutionPair, k1, c1) /\
    forall t' registers frame rsp, exists e,
      (cl_capture_interrupted (set_current_task (cpu_local c1) t') registers frame rsp).1 = Err e.
Proof.
  intros m Ho Hg Hc Hh Hx Hsl Hkx Hbx Hres Hct Hslot.
  assert (Hne : x <> t).
  { intros ->. assert (Hin : t ∈ ready (ktm_scheduler m)).
    { unfold next_ready, run_peek in Hx. destruct (ready _); [done|]. simplify_eq/=. left. }
    apply (inv_ready _ (proj2 (mo_sched _ Ho))) in Hin. cbn in Hin. by rewrite (mo_running _ Ho t Hc) in Hin. }
  destruct (exit_current_running _ t (mo_sched _ Ho) Hc (mo_running _ Ho t Hc)) as (s' & He & Hn & _ & Hoth).
  assert (Hready : ready s' = ready (ktm_scheduler m)).
  { pose proof (exit_current_cases (ktm_scheduler m)) as Hcs. rewrite He in Hcs. by destruct Hcs as (? & ? & _ & _ & _ & ->). }
  unfold ktm_exit_current. rewrite Hc, Hh, He, er_remove_clear, Hsl. cbn [negb handle_task_id sleep_remove position snd].
  eexists _, _. split; [done|]. split; [done|]. unfold handle_timer_preemption.
  change (gate_is_enabled _) with (gate_is_enabled (kr_preemption k)). rewrite Hg. cbn [negb kr_set_manager kr_manager].
  unfold ktm_expire_sleepers, expire_sleepers. cbn [ktm_scheduler ktm_sleepers sleep_expire_until].
  cbn [partition_point take drop fmap list_fmap wake_expired snd ktm_scheduler ktm_executions].
  assert (Hget : forall t', er_get (reg_clear xb_task_id (ktm_executions m) t) t' =
                            if bool_decide (t' = t) then None else er_get (ktm_executions m) t')
    by (intros t'; unfold er_get; apply reg_find_clear, Ho).
  assert (next_ready s' = Some x) as -> by (unfold next_ready; by rewrite Hready).
  rewrite bool_decide_false by (unfold task_kind in *; by rewrite Hoth). rewrite bool_decide_false by (by rewrite Hn).
  rewrite (resumable_plan _ _ bx) by (done || by rewrite Hget, bool_decide_false).
  unfold commit_interrupted_state. cbn [take_timer_pending snd cpu_local]. rewrite Hct. cbn [kr_set_manager kr_manager ktm_executions].
  rewrite Hget, bool_decide_true by done. eexists _, _. split; [done|]. intros [t'|] registers frame rsp; cbn; [|eauto].
  rewrite Hslot, bool_decide_true by eauto. by exists AlreadyPending.
Qed.

(** ** One and two kernel tasks *)
#[local] Existing Instance canonical_virt_addr.

Lemma contexts_ok_forallb r :
  forallb (fun e => match e with Some b => is_initialized (xb_context b) | None => true end) r = true -> contexts_ok r.
Proof.
  intros Hall t b. unfold er_get. induction r as [|[b'|] r IH]; [done|..]; cbn [forallb reg_find] in *; to_prop; [|by auto].
  case_bool_decide; [by intros [= <-]|by auto].
Qed.

(** The runtime of [Runtime.demo_kernel] with its scheduler after [ops]. *)
Definition demo_after (ops : list SchedOp) : KernelRuntime :=
  kr_set_manager demo_kernel.1 (ktm_set_scheduler (kr_manager demo_kernel.1) (run_ops ops Scheduler_new)).
Definition demo_lone_ops : list SchedOp :=
  [OpCreate Priority_DEFAULT Tasks.Kernel; OpAttach (mkTaskId 0 1); OpMakeReady (mkTaskId 0 1); OpSchedule].
Definition demo_binding2 : X86ExecutionBinding :=
  mkXBinding (mkTaskId 1 1) 2097152 KERNEL_STACK_SIZE (mkActivation (mkTaskId 1 1) 88 4160)
    (mkCtx 2129912 0 0 4160 0 0 0 8192) None.

Lemma demo_after_ok ops :
  ops_enabled ops Scheduler_new ->
  (forall t, current (run_ops ops Scheduler_new) = Some t -> state (run_ops ops Scheduler_new) t = Some Running) ->
  manager_ok (kr_manager (demo_after ops)).
Proof.
  intros Hops Hrun. split; cbn.
  - exact (sound_inv _ _ (steps_sound _ _ Scheduler_new_inv (run_ops_steps _ _ Hops))).
  - exact Hrun.
  - apply (bool_decide_unpack _). vm_compute. exact I.
  - split; constructor.
  - apply stacks_ok_forallb. vm_compute. reflexivity.
  - apply contexts_ok_forallb. vm_compute. reflexivity.
Qed.

Lemma demo_lone_ok : manager_ok (kr_manager (demo_after demo_lone_ops)).
Proof.
  apply demo_after_ok; [vm_compute; repeat split; discriminate|]. intros t Ht. vm_compute in Ht. injection Ht as <-.
  vm_compute. reflexivity.
Qed.

Lemma demo_pair_ok : manager_ok (kr_manager (demo_after demo_kernel_ops)).
Proof.
  apply demo_after_ok; [vm_compute; repeat split; discriminate|]. intros t Ht. vm_compute in Ht. injection Ht as <-.
  vm_compute. reflexivity.
Qed.

Lemma demo_captured ops : captured (demo_after ops) demo_kernel.2 (mkTaskId 0 1) demo_kernel_snap demo_kernel_binding.
Proof. split; vm_compute; reflexivity. Qed.

Lemma demo_resumable : resumable demo_binding2.
Proof. split; [vm_compute; reflexivity|done]. Qed.

Lemma lone_sleeper_restarts_witness :
  exists m' k1 c1, ktm_sleep_current_until (kr_manager (demo_after demo_lone_ops)) 0 = (Ok (mkTaskId 0 1), m') /\
    handle_timer_preemption (kr_set_manager (demo_after demo_lone_ops) m') demo_kernel.2
      = (Ok (PreemptToContext (xb_context demo_kernel_binding)), k1, c1).
Proof.
  destruct (lone_sleeper_restarts (demo_after demo_lone_ops) demo_kernel.2 (mkTaskId 0 1) demo_kernel_binding
              demo_kernel_snap 0) as (m' & k1 & c1 & Hs & Ht & _);
    [exact demo_lone_ok|vm_compute; eauto|vm_compute; reflexivity..|vm_compute; discriminate|apply demo_captured
    |vm_compute; reflexivity|vm_compute; discriminate|].
  exists m', k1, c1. split; [exact Hs|exact Ht].
Defined.

Lemma sleeper_context_not_saved_witness :
  exists m', ktm_sleep_current_until (kr_manager (demo_after demo_kernel_ops)) 5 = (Ok (mkTaskId 0 1), m') /\
    (dispatch_begin (kr_set_manager (demo_after demo_kernel_ops) m') demo_kernel.2).1.1
      = DispatchSwitch BootContext (TaskContext (mkTaskId 1 1)) None.
Proof.
  destruct (sleeper_context_not_saved (demo_after demo_kernel_ops) demo_kernel.2 (mkTaskId 0 1) demo_kernel_binding 5)
    as (m' & Hs & _); [exact demo_pair_ok|vm_compute; eauto|vm_compute; reflexivity..|].
  exists m'. split; [exact Hs|]. vm_compute in Hs. injection Hs as <-. vm_compute. reflexivity.
Defined.

Lemma exited_task_stops_preemption_witness :
  exists removed m', ktm_exit_current (kr_manager (demo_after demo_kernel_ops)) = (removed, m') /\
  exists k1 c1, handle_timer_preemption (kr_set_manager (demo_after demo_kernel_ops) m') demo_kernel.2
                  = (Err MissingExecutionPair, k1, c1).
Proof.
  destruct (exited_task_stops_preemption (demo_after demo_kernel_ops) demo_kernel.2 (mkTaskId 0 1) demo_kernel_snap
              (mkTaskId 1 1) demo_binding2) as (removed & m' & He & _ & k1 & c1 & Ht & _);
    [exact demo_pair_ok|vm_compute; reflexivity..|vm_compute; discriminate|vm_compute; reflexivity|exact demo_resumable
    |vm_compute; reflexivity|vm_compute; reflexivity|].
  exists removed, m'. split; [exact He|]. exists k1, c1. exact Ht.
Defined.
