(* ===== verification/Rotation.v ===== *)
(** * Preemptive round robin of kernel tasks

    Kernel tasks that only compute, as the two tasks boot starts, share the CPU through
    the timer interrupt alone.  The abstract picture is a queue of continuations: a tick
    leaves the handler through the head of the queue and puts the interrupted state at its
    end.  The theorem says that the handler of [arch/x86_64/interrupt_entry.rs] over the
    runtime of [arch/x86_64/runtime.rs] is that queue, for any number of tasks and ticks. *)

From stdpp Require Import base numbers sets relations list options.
From S2P Require Import Apic.
From S2P Require Import Prelude Tasks Queues Scheduler SchedulerInv SchedulerSteps.
From S2P Require Import Syscall Execution KernelTask Runtime Dispatch SystemRuntime InterruptEntry.
From S2P Require Import KernelManager KernelSleep SystemProps.

Local Open Scope Z_scope.
Local Open Scope rust_scope.

(** ** The abstract queue *)
Fixpoint rotate (queue : list Departure) (snapshots : list InterruptedState) : list Departure :=
  match snapshots, queue with
  | s :: snapshots, d :: queue => d :: rotate (queue ++ [ToKernelState s]) snapshots
  | _, _ => []
  end.

(** The tasks in the order they have the CPU, after [n] ticks. *)
Fixpoint rotated {A} (n : nat) (l : list A) : list A :=
  match n, l with
  | S n, x :: l => rotated n (l ++ [x])
  | _, _ => l
  end.

(** ** Ticks *)

(** The state the CPU arrives with: the registers and the frame it pushed. *)
Definition Tick : Type := SavedRegisters * InterruptReturnFrame.

(** A frame the CPU pushes for interrupted kernel code. *)
Record kernel_frame (f : InterruptReturnFrame) : Prop := mk_kernel_frame {
  kf_ring : Z.land (irf_cs f) 3 = 0;
  kf_code : irf_rip f <> 0;
  kf_flags : Z.land (irf_rflags f) 2 <> 0;
  kf_stack : 0 <= irf_raw f <= U64_MAX - SAME_CPL_FRAME_BYTES;
}.

(** What the interrupt saves of it. *)
Definition tick_snapshot (t : Tick) : InterruptedState :=
  mkInterrupted t.1
    (mkReturnState (irf_rip t.2) (irf_cs t.2) (irf_rflags t.2) (irf_raw t.2 + SAME_CPL_FRAME_BYTES) None None).

Section Rotation.
Context `{VirtAddrCrate}.

(** The handler on one tick after the other; [None] if it panics. *)
Fixpoint run_ticks (k : Kernel) (ticks : list Tick) : option (list Departure * Kernel) :=
  match ticks with
  | [] => Some ([], k)
  | (registers, frame) :: ticks =>
      match timer_entry_rust (E := Empty_set) (kn_enter k registers) frame with
      | (Ok d, k) => '(ds, k) ← run_ticks k ticks; Some (d :: ds, k)
      | _ => None
      end
  end.

Lemma tick_captured f :
  kernel_frame f ->
  ReturnState_capture f = Some (mkReturnState (irf_rip f) (irf_cs f) (irf_rflags f) (irf_raw f + SAME_CPL_FRAME_BYTES) None None).
Proof using Type.
  intros [Hr _ _ Hs]. unfold ReturnState_capture, irf_resume_rsp, irf_rsp, irf_ss.
  rewrite Hr. cbn [Z.eqb].
  assert (checked_add (irf_raw f) SAME_CPL_FRAME_BYTES = Some (irf_raw f + SAME_CPL_FRAME_BYTES)) as -> by (apply checked_add_Some; lia).
  done.
Qed.

Lemma tick_valid t :
  kernel_frame t.2 ->
  is_valid (tick_snapshot t) = true /\ is_Some (kernel_iret_words (is_return_state (tick_snapshot t))).
Proof using Type.
  intros [Hr Hc Hf Hs]. unfold is_valid, kernel_iret_words, rs_is_kernel. cbn. rewrite Hr.
  rewrite (proj2 (Z.eqb_neq _ _) Hc), (proj2 (Z.eqb_neq _ _) Hf), (proj2 (Z.eqb_neq (irf_raw t.2 + _) 0));
    [done|unfold SAME_CPL_FRAME_BYTES; lia].
Qed.

(** ** The tasks in rotation *)

(** A waiting task [x.1] with its execution binding [x.2]. *)
Definition waiting (m : KernelTaskManager) (x : TaskId * X86ExecutionBinding) : Prop :=
  er_get (ktm_executions m) x.1 = Some x.2 /\ resumable x.2 /\ task_kind (ktm_scheduler m) x.1 <> Some Userspace.

(** The task [p] with the binding [bp] has the CPU, and [rest] waits, in that order. *)
Record rotation (k : KernelRuntime) (c : Cpu) (p : TaskId) (bp : X86ExecutionBinding)
    (rest : list (TaskId * X86ExecutionBinding)) : Prop := mk_rotation {
  ro_manager : manager_ok (kr_manager k);
  ro_gate : gate_is_enabled (kr_preemption k) = true;
  ro_current : current (ktm_scheduler (kr_manager k)) = Some p;
  ro_ready : ready (ktm_scheduler (kr_manager k)) = rest.*1;
  ro_sleepers : ktm_sleepers (kr_manager k) = [];
  ro_distinct : NoDup (p :: rest.*1);
  ro_owner : waiting (kr_manager k) (p, bp);
  ro_fresh : xb_interrupted bp = None;
  ro_waiting : Forall (waiting (kr_manager k)) rest;
  ro_cpu : cl_current_task (cpu_local c) = Some p;
  ro_slot : cl_interrupted (cpu_local c) = None;
  ro_rsp0 : is_Some (cpu_rsp0 c);
  ro_runtime : is_Some (cl_runtime (cpu_local c));
  ro_system : cl_system_runtime (cpu_local c) = None;
}.

(** The timer handler keeps the runtime the CPU is bound to. *)
Lemma commit_interrupted_runtime k c :
  cl_runtime (cpu_local (commit_interrupted_state k c).2) = cl_runtime (cpu_local c).
Proof using Type. unfold commit_interrupted_state. repeat (case_match; simplify_eq/=; try done). Qed.

Lemma prepare_dispatch_local m c : cpu_local (prepare_dispatch m c).2 = cpu_local c.
Proof using Type.
  unfold prepare_dispatch, set_kernel_stack_top. repeat (case_match; simplify_eq/=; try done).
Qed.

Lemma handle_timer_runtime k c :
  cl_runtime (cpu_local (handle_timer_preemption k c).2) = cl_runtime (cpu_local c).
Proof using Type.
  unfold handle_timer_preemption. set (c0 := (take_timer_pending c).2).
  assert (H0 : cl_runtime (cpu_local c0) = cl_runtime (cpu_local c)) by done. rewrite <- H0. clearbody c0.
  destruct (negb _); [done|]. set (k1 := kr_set_manager k _). clearbody k1.
  destruct (next_ready _) as [x|]; [|done]. case_bool_decide; [done|]. case_bool_decide; [done|].
  destruct (preemption_plan _ x) as [plan|]; [|done].
  pose proof (commit_interrupted_runtime k1 c0) as Hc. destruct (commit_interrupted_state k1 c0) as [[[[]|e|] k2] c2]; try done.
  cbn in Hc. rewrite <- Hc. unfold commit_preemption.
  pose proof (prepare_dispatch_local (kr_manager k2) c2) as Hl.
  destruct (prepare_dispatch (kr_manager k2) c2) as [[[d|e|] m] c']; cbn in Hl |- *; rewrite <- Hl; try done.
  repeat (case_match; simplify_eq/=; try done).
Qed.

Lemma expire_nobody m now : ktm_sleepers m = [] -> (ktm_expire_sleepers m now).2 = m.
Proof using Type. intros Hq. unfold ktm_expire_sleepers, expire_sleepers. rewrite Hq. cbn. rewrite <- Hq. by destruct m. Qed.

(** How the handler leaves for a waiting task. *)
Definition leave_for (b : X86ExecutionBinding) : Departure :=
  match xb_interrupted b with Some st => ToKernelState st | None => ToContext (xb_context b) end.

(** The part of a tick that works on the runtime. *)
Lemma handler_rotates k c p bp x bx rest snap :
  rotation k c p bp ((x, bx) :: rest) ->
  is_valid snap = true -> is_Some (kernel_iret_words (is_return_state snap)) ->
  let c1 := mkCpu (mkCpuLocal (Some p) (cl_runtime (cpu_local c)) None (cl_syscall_action (cpu_local c)) (Some (p, snap)))
              (cpu_rsp0 c) (fetch_add_u64 (cpu_timer_ticks c)) true in
  exists k' c', handle_timer_preemption k c1 = (Ok (continuation bx), k', c') /\
    rotation k' c' x (with_interrupted bx None) (rest ++ [(p, with_interrupted bp (Some snap))]).
Proof using Type.
  intros [Hm Hg Hc Hq Hsl Hnd [Hbp [[Hvp _] Hkp]] Hfr Hw Hcpu Hslot Hrsp Hrt Hsys] Hv Hi c1.
  apply Forall_cons in Hw as [(Hbx & Hres & Hkx) Hw]. cbn [fst snd] in *.
  apply NoDup_cons in Hnd as [Hp Hnd]. rewrite fmap_cons in Hp, Hq, Hnd. cbn [fst] in *.
  apply not_elem_of_cons in Hp as [Hpx Hpr]. apply NoDup_cons in Hnd as [Hxr Hnd].
  assert (Hca : captured k c1 p snap bp) by by split.
  assert (Hx : next_ready (ktm_scheduler (kr_manager k)) = Some x) by (unfold next_ready; by rewrite Hq).
  pose proof (timer_hands_to_other k c1 p snap bp x bx) as Hh. rewrite (expire_nobody _ _ Hsl) in Hh.
  destruct Hh as (k' & c' & Heq & [Hs Hsl' Hg' Hcpu' Hfree] & Heg); [done|done|done|done|done|done|congruence|done|done|done|].
  pose proof (handle_timer_kept k c1 Hm Hrsp) as Hkept. pose proof (handle_timer_runtime k c1) as Hrt'.
  rewrite Heq in Hkept, Hrt'. destruct Hkept as (_ & Hkept & [Hrsp' _ Hsys' _]); [intros t; rewrite Hc; by intros [= <-]|].
  pose proof (schedule_next_runs_head _ x (mo_sched _ Hm) (mo_running _ Hm) Hx) as Hsn. rewrite Hq, Hc in Hsn.
  destruct (schedule_next (ktm_scheduler (kr_manager k))) as [d s']. cbn [snd] in Hs.
  destruct Hsn as (_ & _ & Hcur & _ & _ & Hat & Hready & _). cbn [tail] in Hready.
  assert (Hkind : forall t, task_kind (ktm_scheduler (kr_manager k')) t = task_kind (ktm_scheduler (kr_manager k)) t).
  { intros t. by rewrite !attrs_kind, (mk_attrs _ _ Hkept). }
  exists k', c'. split; [exact Heq|]. split; try done; cbn [fst snd].
  - by apply (manager_kept_ok (kr_manager k)).
  - by rewrite Hg'.
  - by rewrite Hs.
  - by rewrite Hs, Hready, fmap_app.
  - congruence.
  - rewrite fmap_app. cbn. apply NoDup_cons. split; [|by apply NoDup_snoc].
    apply not_elem_of_app. split; [done|]. apply not_elem_of_cons. split; [congruence|apply not_elem_of_nil].
  - split; cbn [fst snd]; [by rewrite Heg, bool_decide_true|]. split; [|by rewrite Hkind].
    split; [by apply cleared_validates, Hres|done].
  - apply Forall_app. split; [|apply Forall_cons; split; [|by apply Forall_nil]].
    + apply Forall_forall. intros [t b] Hin. pose proof (proj1 (Forall_forall _ _) Hw _ Hin) as (Hb & Hr & Hk).
      assert (Ht : t ∈ rest.*1) by (apply list_elem_of_fmap; by exists (t, b)).
      split; cbn [fst snd] in *; [|split; [done|by rewrite Hkind]].
      rewrite Heg, !bool_decide_false; [done|intros ->; by apply Hpr|intros ->; by apply Hxr].
    + split; cbn [fst snd]; [|split; [split; [by apply stored_validates|]|by rewrite Hkind]].
      * rewrite Heg, bool_decide_false, bool_decide_true by congruence. done.
      * by intros st [= <-].
  - cbn in Hrt'. by rewrite Hrt'.
Qed.

(** The CPU when the handler has captured a tick of the task [p]. *)
Definition captured_cpu (c : Cpu) (p : TaskId) (t : Tick) : Cpu :=
  mkCpu (mkCpuLocal (Some p) (cl_runtime (cpu_local c)) None (cl_syscall_action (cpu_local c)) (Some (p, tick_snapshot t)))
    (cpu_rsp0 c) (fetch_add_u64 (cpu_timer_ticks c)) true.

(** A tick of a kernel task is captured and reaches the kernel runtime. *)
Lemma tick_reaches_runtime {E} k p t :
  kernel_frame t.2 -> cl_current_task (cpu_local (kn_cpu k)) = Some p -> cl_interrupted (cpu_local (kn_cpu k)) = None ->
  cl_system_runtime (cpu_local (kn_cpu k)) = None ->
  timer_entry_rust (E := E) (kn_enter k t.1) t.2 =
  timer_entry_kernel (kn_set_cpu (kn_acked (kn_enter k t.1)) (captured_cpu (kn_cpu k) p t)).
Proof using Type.
  intros Hf Hcpu Hslot Hsys. pose proof (tick_captured _ Hf) as Hcap. destruct (tick_valid _ Hf) as [Hv _]. unfold timer_entry_rust.
  assert (is_Some (irf_resume_rsp t.2)) as [rsp ->] by (unfold ReturnState_capture in Hcap; destruct (irf_resume_rsp t.2); [eauto|done]).
  unfold cl_capture_interrupted. cbn [kn_cpu kn_enter]. rewrite Hcpu, Hslot, bool_decide_false by (by intros [? ?]).
  unfold InterruptedState_capture. rewrite Hcap. cbn [kn_registers kn_enter].
  change (mkInterrupted t.1 _) with (tick_snapshot t). rewrite Hv. cbn [negb is_ok]. rewrite Hsys.
  rewrite bool_decide_false by (by intros [? ?]). cbn [andb]. done.
Qed.

Lemma tick_rotates k p bp x bx rest t :
  rotation (sy_runtime (kn_system k)) (kn_cpu k) p bp ((x, bx) :: rest) -> kernel_frame t.2 ->
  exists k', timer_entry_rust (E := Empty_set) (kn_enter k t.1) t.2 = (Ok (leave_for bx), k') /\
    rotation (sy_runtime (kn_system k')) (kn_cpu k') x (with_interrupted bx None)
      (rest ++ [(p, with_interrupted bp (Some (tick_snapshot t)))]).
Proof using Type.
  intros Hro Hf. destruct (tick_valid _ Hf) as [Hv Hi].
  destruct (handler_rotates _ _ _ _ _ _ _ _ Hro Hv Hi) as (r & c' & Hh & Hro').
  destruct Hro as [_ _ _ _ _ _ _ _ _ Hcpu Hslot _ [pointer Hrt] Hsys].
  rewrite (tick_reaches_runtime k p t) by done. unfold timer_entry_kernel, captured_cpu.
  cbn [kn_cpu kn_system kn_acked kn_acknowledge kn_set_cpu kn_enter cpu_local cl_runtime]. rewrite Hrt in Hh |- *.
  rewrite Hh. unfold leave_for, continuation. destruct (xb_interrupted bx); eexists; by split.
Qed.

(** The queue of continuations the waiting tasks stand for. *)
Definition queue_of (rest : list (TaskId * X86ExecutionBinding)) : list Departure := (fun x => leave_for x.2) <$> rest.

Lemma ticks_rotate ticks : forall k p bp rest,
  rotation (sy_runtime (kn_system k)) (kn_cpu k) p bp rest -> rest <> [] -> Forall (fun t => kernel_frame t.2) ticks ->
  exists k' p' bp' rest', run_ticks k ticks = Some (rotate (queue_of rest) (tick_snapshot <$> ticks), k') /\
    rotation (sy_runtime (kn_system k')) (kn_cpu k') p' bp' rest' /\
    p' :: rest'.*1 = rotated (length ticks) (p :: rest.*1).
Proof using Type.
  induction ticks as [|t ticks IH]; intros k p bp rest Hro Hne Hf.
  { exists k, p, bp, rest. by destruct rest. }
  apply Forall_cons in Hf as [Ht Hf]. destruct rest as [|[x bx] rest]; [done|].
  destruct (tick_rotates k p bp x bx rest t Hro Ht) as (k1 & E & Hro1).
  destruct (IH k1 _ _ _ Hro1 ltac:(by destruct rest) Hf) as (k' & p' & bp' & rest' & Er & Hro' & Hp').
  exists k', p', bp', rest'. split; [|split; [done|]].
  - destruct t as [registers frame]. cbn [run_ticks]. cbn [fst snd] in E. rewrite E, Er. cbn [mbind option_bind].
    unfold queue_of. rewrite fmap_app. done.
  - rewrite Hp'. cbn [length rotated]. by rewrite fmap_app.
Qed.
End Rotation.

(** ** Theorem *)

(** C3: Kernel tasks that are only ever interrupted by the timer share the CPU as a queue of
    continuations, without losing a register, for as long as ticks are delivered ([Masking]
    says when they are): with a task on the CPU and at
    least one other waiting, every tick leaves the handler through the continuation at the
    head of the queue (the first context of a task that never ran, the snapshot of one that
    was interrupted) and appends the state it interrupted; no tick panics, none returns to
    the interrupted task, and after each of them the next task of the round owns the CPU,
    in the scheduler and on the CPU alike. *)
Theorem kernel_tasks_rotate `{VirtAddrCrate} k p bp rest ticks :
  rotation (sy_runtime (kn_system k)) (kn_cpu k) p bp rest -> rest <> [] ->
  Forall (fun t => kernel_frame t.2) ticks ->
  exists k', run_ticks k ticks = Some (rotate (queue_of rest) (tick_snapshot <$> ticks), k') /\
    current (sy_scheduler (kn_system k')) = head (rotated (length ticks) (p :: rest.*1)) /\
    ready (sy_scheduler (kn_system k')) = tail (rotated (length ticks) (p :: rest.*1)) /\
    cl_current_task (cpu_local (kn_cpu k')) = head (rotated (length ticks) (p :: rest.*1)) /\
    cl_interrupted (cpu_local (kn_cpu k')) = None.
Proof.
  intros Hro Hne Hf. destruct (ticks_rotate ticks k p bp rest Hro Hne Hf) as (k' & p' & bp' & rest' & Er & Hro' & Hp').
  exists k'. split; [done|]. rewrite <- Hp'. destruct Hro'. by split_and!.
Qed.

(** ** Two tasks, three ticks *)
#[local] Existing Instance canonical_virt_addr.

Definition demo_rotation : Kernel :=
  mkKernel demo_regs (mkCpu (mkCpuLocal (Some (mkTaskId 0 1)) (Some 4096) None (cl_syscall_action CpuLocalState_new) None) (Some 0) 0 false)
    (set_runtime SystemRuntime_new (demo_after demo_kernel_ops)) [] 0 0 false [].
Definition demo_tick (i : Z) : Tick := (demo_regs, mkReturnFrame 8192 (fun n => nth n [4160 + i; 8; 514] 0)).

Lemma demo_in_rotation :
  rotation (sy_runtime (kn_system demo_rotation)) (kn_cpu demo_rotation) (mkTaskId 0 1) demo_kernel_binding
    [(mkTaskId 1 1, demo_binding2)].
Proof.
  apply mk_rotation.
  - exact demo_pair_ok.
  - vm_compute; reflexivity.
  - vm_compute; reflexivity.
  - vm_compute; reflexivity.
  - vm_compute; reflexivity.
  - apply (bool_decide_unpack _). vm_compute. exact I.
  - split; [vm_compute; reflexivity|]. split; [split; [vm_compute; reflexivity|done]|vm_compute; discriminate].
  - reflexivity.
  - apply Forall_singleton. split; [vm_compute; reflexivity|]. split; [exact demo_resumable|vm_compute; discriminate].
  - reflexivity.
  - reflexivity.
  - by exists 0.
  - by exists 4096.
  - reflexivity.
Qed.

Lemma kernel_tasks_rotate_witness :
  exists k', run_ticks demo_rotation (demo_tick <$> [1; 2; 3]) =
      Some ([ToContext (xb_context demo_binding2); ToKernelState (tick_snapshot (demo_tick 1));
             ToKernelState (tick_snapshot (demo_tick 2))], k') /\
    current (sy_scheduler (kn_system k')) = Some (mkTaskId 1 1) /\
    cl_current_task (cpu_local (kn_cpu k')) = Some (mkTaskId 1 1).
Proof.
  destruct (kernel_tasks_rotate demo_rotation (mkTaskId 0 1) demo_kernel_binding [(mkTaskId 1 1, demo_binding2)]
              (demo_tick <$> [1; 2; 3])) as (k' & Hr & Hc & _ & Hl & _); [exact demo_in_rotation|discriminate| |].
  - repeat (apply Forall_cons; split; [split; vm_compute; try split; try discriminate; reflexivity|]). by apply Forall_nil.
  - exists k'. split; [exact Hr|]. split; [exact Hc|exact Hl].
Defined.
