(* ===== verification/Acknowledge.v ===== *)
(** * Acknowledging the timer

    The timer handler of [arch/x86_64/interrupt_entry.rs] over the local APIC of
    [local_apic.rs]: [docs/PREEMPTION_ABI.md] asks for exactly one end of interrupt per
    delivered tick, whatever the handler then decides and wherever it leaves for. *)

From stdpp Require Import base numbers sets list options.
From S2P Require Import Apic.
From S2P Require Import Prelude Abi Memory UserCopy Syscall Execution UserExecution KernelTask SystemRuntime InterruptEntry SystemProps.

Local Open Scope Z_scope.

(** ** What the handlers acknowledge *)
Definition timer_event : InterruptEvent := mkEvent Timer TIMER_VECTOR.

(** What a tick with this frame acknowledges: the handler returns at once when the stack
    pointer behind the frame does not fit a machine word. *)
Definition tick_events (frame : InterruptReturnFrame) : list InterruptEvent :=
  match irf_resume_rsp frame with Some _ => [timer_event] | None => [] end.

Section Handlers.
Context `{VirtAddrCrate}.

Lemma timer_user_acknowledged {E} k : kn_acknowledged (timer_entry_user (E := E) k).2 = kn_acknowledged k.
Proof using Type. unfold timer_entry_user. repeat (case_match; simplify_eq/=; try done). Qed.

Lemma timer_kernel_acknowledged {E} k : kn_acknowledged (timer_entry_kernel (E := E) k).2 = kn_acknowledged k.
Proof using Type. unfold timer_entry_kernel. repeat (case_match; simplify_eq/=; try done). Qed.

(** The capture of the interrupted state does not panic on a frame whose stack pointer is
    representable. *)
Lemma capture_returns l registers frame rsp :
  is_Some (irf_resume_rsp frame) -> (cl_capture_interrupted l registers frame rsp).1 <> Panic.
Proof using Type.
  intros [r Hr]. unfold cl_capture_interrupted, InterruptedState_capture, ReturnState_capture. rewrite Hr.
  by repeat case_match.
Qed.

Lemma timer_acknowledges {E} k frame :
  kn_acknowledged (timer_entry_rust (E := E) k frame).2 = kn_acknowledged k ++ tick_events frame.
Proof using Type.
  unfold timer_entry_rust, tick_events. destruct (irf_resume_rsp frame) as [rsp|] eqn:Hr; [|by rewrite app_nil_r].
  pose proof (capture_returns (cpu_local (kn_cpu k)) (kn_registers k) frame rsp ltac:(eauto)) as Hc.
  destruct (cl_capture_interrupted _ _ _ _) as [[t|e|] l]; [|done|done]. cbn [is_ok negb].
  case_match; [by rewrite timer_user_acknowledged|by rewrite timer_kernel_acknowledged].
Qed.

Lemma syscall_acknowledges {M E} `{UserMemoryView M} mapping (view : M) kernel_memory k frame :
  kn_acknowledged (syscall_entry_rust (E := E) mapping view kernel_memory k frame).2 = kn_acknowledged k.
Proof using Type.
  unfold syscall_entry_rust, entry_dispatch. repeat (case_match; simplify_eq/=; try done).
Qed.
End Handlers.

(** ** Any sequence of arrivals *)

(** An interrupt that reaches one of the two handlers. *)
Inductive Arrival :=
| Trap (registers : SavedRegisters) (frame : InterruptReturnFrame)
| Tick (registers : SavedRegisters) (frame : InterruptReturnFrame).

Definition is_tick (a : Arrival) : bool := match a with Tick _ _ => true | Trap _ _ => false end.

(** The frame of a tick lies where the machine's addresses go on behind it. *)
Definition tick_fits (a : Arrival) : Prop :=
  match a with Tick _ frame => is_Some (irf_resume_rsp frame) | Trap _ _ => True end.

Section Arrivals.
Context `{VirtAddrCrate} `{ApicBaseCrate} {M : Type} `{UserMemoryView M}.
Context (mapping : option PhysicalMemoryMapping) (view : M) (kernel_memory : Z -> Z).

Definition arrive (k : Kernel) (a : Arrival) : Kernel :=
  match a with
  | Trap registers frame => (syscall_entry_rust (E := Empty_set) mapping view kernel_memory (kn_enter k registers) frame).2
  | Tick registers frame => (timer_entry_rust (E := Empty_set) (kn_enter k registers) frame).2
  end.

(** The accesses the events make, in order, after [h]. *)
Definition acknowledge_all (s : LocalApic) (h : list Access) (events : list InterruptEvent) : list Access :=
  foldl (fun h event => end_of_interrupt event s h) h events.

Lemma arrivals_acknowledged arrivals : forall k,
  Forall tick_fits arrivals ->
  kn_acknowledged (foldl arrive k arrivals) = kn_acknowledged k ++ ((fun _ => timer_event) <$> filter (fun a => is_tick a = true) arrivals).
Proof using Type.
  induction arrivals as [|a arrivals IH]; intros k Hf; [by rewrite app_nil_r|].
  apply Forall_cons in Hf as [Ha Hf]. cbn [foldl]. rewrite (IH _ Hf). destruct a as [r f|r f]; cbn [arrive].
  - by rewrite syscall_acknowledges.
  - rewrite timer_acknowledges. unfold tick_events. destruct Ha as [rsp ->]. cbn [kn_acknowledged kn_enter].
    rewrite <- app_assoc. f_equal.
Qed.
End Arrivals.

(** ** Theorem *)

(** C7: Every delivered tick is acknowledged exactly once: after the local APIC backend was
    initialized in either mode, and while the APIC stays at its base, any sequence of system
    calls and timer interrupts, in any state of the kernel and wherever each of them leaves
    for, makes one end-of-interrupt access per timer interrupt and none per system call.
    The frame of a tick must not end at the last bytes of the address space, where the
    handler returns before it acknowledges. *)
Theorem eoi_exactly_once `{VirtAddrCrate} `{ApicBaseCrate} {M} `{UserMemoryView M} mode apic_mapping h0 s
    mapping (view : M) kernel_memory k arrivals h :
  lapic_initialize mode apic_mapping h0 LocalApic_initial = (Ok tt, s) ->
  (forall h, (ApicBase_read h).1 = (ApicBase_read h0).1) ->
  kn_acknowledged k = [] -> Forall tick_fits arrivals ->
  acknowledge_all s h (kn_acknowledged (foldl (arrive mapping view kernel_memory) k arrivals)) =
  h ++ replicate (length (filter (fun a => is_tick a = true) arrivals)) (eoi_access mode apic_mapping (ApicBase_read h0).1).
Proof.
  intros Hi Hb Hk Hf. rewrite arrivals_acknowledged, Hk by done. cbn [app].
  pose proof (eoi_once_initialized mode apic_mapping h0) as He. rewrite Hi in He. destruct He as (_ & _ & He).
  generalize (filter (fun a => is_tick a = true) arrivals). intros l. revert h. unfold acknowledge_all.
  induction l as [|a l IH]; intros h; cbn [fmap list_fmap foldl length replicate]; [by rewrite app_nil_r|].
  rewrite (He timer_event h (Hb h)), IH, <- app_assoc. done.
Qed.

(** A tick whose frame ends at the last bytes of the address space is not acknowledged:
    the handler returns before it reaches the timer bookkeeping. *)
Theorem tick_unacknowledged `{VirtAddrCrate} {E} k frame :
  U64_MAX - SAME_CPL_FRAME_BYTES < irf_raw frame -> Z.land (irf_cs frame) 3 = 0 ->
  timer_entry_rust (E := E) k frame = (Ok ReturnToStub, k).
Proof.
  intros Hr Hc. unfold timer_entry_rust, irf_resume_rsp. rewrite Hc. cbn [Z.eqb].
  destruct (checked_add _ _) as [r|] eqn:Ha; [|done]. apply checked_add_Some in Ha. lia.
Qed.

(** ** A write, a tick and a yield of a process, and a second tick *)
#[local] Existing Instance canonical_virt_addr.

Definition fixed_base : ApicBaseCrate := {| ApicBase_read := fun _ => (4276092928, 0); LAPIC_ENABLE := 2048; X2APIC_ENABLE := 1024 |}.
Definition demo_arrivals : list Arrival :=
  [Trap (kn_registers (demo_request demo_pair (Syscall_number Write) 69630 4)) demo_frame; Tick demo_regs demo_frame;
   Trap (kn_registers (demo_request demo_pair (Syscall_number Yield) 0 0)) demo_frame; Tick demo_regs demo_frame].

Lemma eoi_exactly_once_witness :
  let k := foldl (arrive (Some demo_mapping) demo_view demo_kernel_memory) demo_pair demo_arrivals in
  acknowledge_all (H0 := fixed_base) (mkLocal MODE_XAPIC 4096) [] (kn_acknowledged k) =
    [MmioWrite 4276097200 0; MmioWrite 4276097200 0].
Proof.
  cbv zeta. rewrite (eoi_exactly_once (H0 := fixed_base) XApic (Some (mkMapping 4096)) [] (mkLocal MODE_XAPIC 4096)
    (Some demo_mapping) demo_view demo_kernel_memory demo_pair demo_arrivals []); [reflexivity|reflexivity|reflexivity|reflexivity|].
  repeat (apply Forall_cons; split; [first [exact I|vm_compute; eexists; reflexivity]|]). by apply Forall_nil.
Defined.
