(* ===== verification/CriticalSection.v ===== *)
(** * Critical sections

    A kernel task turns preemption off with the guard of [KernelRuntime::preemption_disable]
    ([arch/x86_64/runtime.rs], over the gate of [scheduler/reschedule.rs]).  Ticks still
    arrive; the theorem says that they change nothing but the tick counter and the
    reschedule request, and that the first one after the guard is dropped preempts the
    task as if the others had not been. *)

From stdpp Require Import base numbers sets relations list options.
From S2P Require Import Apic.
From S2P Require Import Prelude Tasks Queues Scheduler SchedulerInv SchedulerSteps.
From S2P Require Import Syscall Execution KernelTask Runtime Dispatch SystemRuntime InterruptEntry.
From S2P Require Import KernelManager KernelSleep SystemProps Acknowledge Rotation.

Local Open Scope Z_scope.
Local Open Scope rust_scope.

(** ** The guard *)
Definition kr_set_gate (k : KernelRuntime) (g : PreemptionGate) : KernelRuntime :=
  mkRuntime (kr_manager k) (kr_boot_context k) (kr_reschedule k) g.

(** [preemption_disable]: the guard borrows the runtime, so it is the runtime with the
    gate closed. *)
Definition preemption_disable (k : KernelRuntime) : KernelRuntime := kr_set_gate k (gate_disable (kr_preemption k)).

(** Dropping the guard drops the guard of the gate inside it. *)
Definition drop_guard {E} (k : KernelRuntime) : result E KernelRuntime :=
  match gate_enable_one (kr_preemption k) with
  | Ok g => Ok (kr_set_gate k g)
  | Err e => Err e
  | Panic => Panic
  end.

Definition is_reschedule_pending (k : KernelRuntime) : bool := resched_is_pending (kr_reschedule k).

Section Section_.
Context `{VirtAddrCrate}.

(** A kernel task [p] runs, no capture is outstanding, and the gate is closed. *)
Record in_section (k : Kernel) (p : TaskId) : Prop := mk_section {
  se_gate : gate_is_enabled (kr_preemption (sy_runtime (kn_system k))) = false;
  se_cpu : cl_current_task (cpu_local (kn_cpu k)) = Some p;
  se_slot : cl_interrupted (cpu_local (kn_cpu k)) = None;
  se_runtime : is_Some (cl_runtime (cpu_local (kn_cpu k)));
  se_system : cl_system_runtime (cpu_local (kn_cpu k)) = None;
}.

(** The kernel after a tick that found the gate closed. *)
Definition deferred (k : Kernel) (registers : SavedRegisters) : Kernel :=
  let c := kn_cpu k in
  kn_set_cpu (kn_set_system (kn_acked (kn_enter k registers))
                (set_runtime (kn_system k) (request_reschedule (sy_runtime (kn_system k)))))
    (mkCpu (cpu_local c) (cpu_rsp0 c) (fetch_add_u64 (cpu_timer_ticks c)) false).

Lemma section_tick {E} k p t :
  in_section k p -> kernel_frame t.2 ->
  timer_entry_rust (E := E) (kn_enter k t.1) t.2 = (Ok ReturnToStub, deferred k t.1).
Proof using Type.
  intros [Hg Hcpu Hslot [pointer Hrt] Hsys] Hf. rewrite (tick_reaches_runtime k p t) by done.
  unfold timer_entry_kernel, captured_cpu, handle_timer_preemption. cbn. rewrite Hrt, Hg. cbn.
  unfold deferred, discard_interrupted_state, with_local. cbn. destruct (kn_cpu k) as [[] ? ? ?]. cbn in *. by subst.
Qed.

(** What [n] such ticks leave. *)
Record deferred_by (n : nat) (k k' : Kernel) : Prop := mk_deferred {
  df_system : kn_system k' = set_runtime (kn_system k)
                (if bool_decide (n = 0%nat) then sy_runtime (kn_system k) else request_reschedule (sy_runtime (kn_system k)));
  df_local : cpu_local (kn_cpu k') = cpu_local (kn_cpu k);
  df_stack : cpu_rsp0 (kn_cpu k') = cpu_rsp0 (kn_cpu k);
  df_ticks : cpu_timer_ticks (kn_cpu k') = Nat.iter n fetch_add_u64 (cpu_timer_ticks (kn_cpu k));
  df_acknowledged : kn_acknowledged k' = kn_acknowledged k ++ replicate n (mkEvent Timer TIMER_VECTOR);
}.

Lemma section_ticks ticks : forall k p,
  in_section k p -> Forall (fun t => kernel_frame t.2) ticks ->
  exists k', run_ticks k ticks = Some (replicate (length ticks) ReturnToStub, k') /\ deferred_by (length ticks) k k'.
Proof using Type.
  induction ticks as [|t ticks IH]; intros k p Hs Hf.
  { exists k. split; [done|]. split; try done; [by destruct (kn_system k)|cbn; by rewrite app_nil_r]. }
  apply Forall_cons in Hf as [Ht Hf]. pose proof (section_tick (E := Empty_set) k p t Hs Ht) as He.
  destruct (IH (deferred k t.1) p) as (k' & Hr & [D1 D2 D3 D4 D5]); [destruct Hs; by split|done|].
  exists k'. destruct t as [registers frame]. cbn [fst snd] in *. cbn [run_ticks length replicate]. rewrite He, Hr.
  split; [done|]. split; rewrite ?D1, ?D2, ?D3, ?D4, ?D5; cbn [kn_system kn_cpu kn_acknowledged deferred]; try done.
  - cbn. by case_bool_decide.
  - apply Nat.iter_swap.
  - cbn. by rewrite <- app_assoc.
Qed.

(** A tick that leaves for another task consumes the reschedule request. *)
Lemma preemption_consumes k c o k' c' :
  handle_timer_preemption k c = (Ok o, k', c') -> o <> ResumeCurrent -> kr_reschedule k' = mkReschedule false.
Proof using Type.
  unfold handle_timer_preemption, commit_preemption. intros Hh Ho. repeat (case_match; simplify_eq/=; try done).
Qed.

Lemma kernel_departure_consumes {E} k d k' :
  timer_entry_kernel (E := E) k = (Ok d, k') -> d <> ReturnToStub -> kr_reschedule (sy_runtime (kn_system k')) = mkReschedule false.
Proof using Type.
  unfold timer_entry_kernel. destruct (cl_runtime _); [|by intros [= <- <-]].
  destruct (handle_timer_preemption _ _) as [[o r] c] eqn:Hh. destruct o as [[]|e|]; intros [= <- <-] Hd; try done;
    exact (preemption_consumes _ _ _ _ _ Hh ltac:(done)).
Qed.

Lemma kernel_frame_resumes f : kernel_frame f -> irf_resume_rsp f = Some (irf_raw f + SAME_CPL_FRAME_BYTES).
Proof using Type.
  intros [Hr _ _ Hs]. unfold irf_resume_rsp. rewrite Hr. cbn [Z.eqb]. apply checked_add_Some. lia.
Qed.

(** The rotation does not depend on the reschedule request. *)
Lemma rotation_reschedule r c c' p bp rest q :
  rotation r c p bp rest -> cpu_local c' = cpu_local c -> cpu_rsp0 c' = cpu_rsp0 c ->
  rotation (mkRuntime (kr_manager r) (kr_boot_context r) q (kr_preemption r)) c' p bp rest.
Proof using Type. intros [] Hl Hs. split; rewrite ?Hl, ?Hs; done. Qed.
End Section_.

(** ** Theorem *)

(** C6: Preemption is off exactly as long as the guard is held.  A kernel task that shares
    the CPU with others closes the gate; every tick that then arrives is acknowledged,
    counted and remembered as a reschedule request, and returns to the task, with
    everything else of the system runtime (the scheduler, the executions, the sleepers, the
    processes) and the CPU's owner as they were.  Dropping the guard restores the gate, and
    the next tick, acknowledged as well, leaves for the next task of the round and consumes
    the request. *)
Theorem critical_section_defers `{VirtAddrCrate} k p bp x bx rest ticks t :
  let r := sy_runtime (kn_system k) in
  rotation r (kn_cpu k) p bp ((x, bx) :: rest) -> Forall (fun t => kernel_frame t.2) ticks -> kernel_frame t.2 ->
  exists k2 r2 k3,
    run_ticks (kn_set_system k (set_runtime (kn_system k) (preemption_disable r))) ticks
      = Some (replicate (length ticks) ReturnToStub, k2) /\
    kn_system k2 = set_runtime (kn_system k) (mkRuntime (kr_manager r) (kr_boot_context r)
                     (if bool_decide (ticks = []) then kr_reschedule r else mkReschedule true) (gate_disable (kr_preemption r))) /\
    cpu_local (kn_cpu k2) = cpu_local (kn_cpu k) /\
    kn_acknowledged k2 = kn_acknowledged k ++ replicate (length ticks) (mkEvent Timer TIMER_VECTOR) /\
    cpu_timer_ticks (kn_cpu k2) = Nat.iter (length ticks) fetch_add_u64 (cpu_timer_ticks (kn_cpu k)) /\
    (ticks <> [] -> is_reschedule_pending (sy_runtime (kn_system k2)) = true) /\
    drop_guard (E := Empty_set) (sy_runtime (kn_system k2)) = Ok r2 /\ kr_preemption r2 = kr_preemption r /\
    timer_entry_rust (E := Empty_set) (kn_enter (kn_set_system k2 (set_runtime (kn_system k2) r2)) t.1) t.2
      = (Ok (leave_for bx), k3) /\
    current (sy_scheduler (kn_system k3)) = Some x /\ is_reschedule_pending (sy_runtime (kn_system k3)) = false /\
    kn_acknowledged k3 = kn_acknowledged k2 ++ [mkEvent Timer TIMER_VECTOR].
Proof.
  intros r Hro Hf Ht. pose proof Hro as [_ Hg _ _ _ _ _ _ _ Hcpu Hslot _ Hrt Hsys].
  set (k1 := kn_set_system k _). assert (Hd : disabled_depth (kr_preemption r) = 0) by (by apply Z.eqb_eq).
  destruct (section_ticks ticks k1 p) as (k2 & Hrun & [D1 D2 D3 D4 D5]); [|done|].
  { split; try done. cbn. unfold gate_is_enabled, gate_disable. fold r. by rewrite Hd. }
  assert (Hr2 : sy_runtime (kn_system k2) = mkRuntime (kr_manager r) (kr_boot_context r)
                  (kr_reschedule (sy_runtime (kn_system k2))) (gate_disable (kr_preemption r)))
    by (rewrite D1; by case_bool_decide).
  set (r2 := mkRuntime (kr_manager r) (kr_boot_context r) (kr_reschedule (sy_runtime (kn_system k2))) (kr_preemption r)).
  set (k2' := kn_set_system k2 (set_runtime (kn_system k2) r2)).
  destruct (tick_rotates k2' p bp x bx rest t) as (k3 & Htick & Hro3); [by apply (rotation_reschedule r (kn_cpu k))|done|].
  exists k2, r2, k3. split; [done|]. split; [rewrite D1; by destruct ticks|]. split; [done|]. split; [done|].
  split; [done|]. split.
  { intros Hne. unfold is_reschedule_pending. rewrite D1. destruct ticks; [done|]. done. }
  split. { rewrite Hr2. unfold drop_guard, gate_enable_one, gate_disable. cbn. rewrite Hd. cbn. unfold kr_set_gate. cbn. by destruct (kr_preemption r); simplify_eq/=. }
  split; [done|]. split; [done|]. split; [exact (ro_current _ _ _ _ _ Hro3)|].
  pose proof (timer_acknowledges (E := Empty_set) (kn_enter k2' t.1) t.2) as Hack.
  unfold tick_events in Hack. rewrite (kernel_frame_resumes _ Ht), Htick in Hack. split; [|exact Hack]. clear Hack.
  rewrite (tick_reaches_runtime k2' p t) in Htick by (done || (change (kn_cpu k2') with (kn_cpu k2); by rewrite D2)). unfold is_reschedule_pending, resched_is_pending.
  by rewrite (kernel_departure_consumes _ _ _ Htick) by (unfold leave_for; by destruct (xb_interrupted bx)).
Qed.

(** ** Two tasks: three ticks inside a section, one after it *)
#[local] Existing Instance canonical_virt_addr.

Lemma critical_section_defers_witness :
  exists k2 r2 k3,
    run_ticks (kn_set_system demo_rotation (set_runtime (kn_system demo_rotation) (preemption_disable (sy_runtime (kn_system demo_rotation)))))
      (demo_tick <$> [1; 2; 3]) = Some ([ReturnToStub; ReturnToStub; ReturnToStub], k2) /\
    drop_guard (E := Empty_set) (sy_runtime (kn_system k2)) = Ok r2 /\
    timer_entry_rust (E := Empty_set) (kn_enter (kn_set_system k2 (set_runtime (kn_system k2) r2)) (demo_tick 4).1) (demo_tick 4).2
      = (Ok (ToContext (xb_context demo_binding2)), k3) /\
    current (sy_scheduler (kn_system k3)) = Some (mkTaskId 1 1).
Proof.
  assert (Hk : forall i, 0 < 4160 + i -> kernel_frame (demo_tick i).2).
  { intros i Hi. split; [reflexivity|cbn; lia|discriminate|vm_compute; split; discriminate]. }
  destruct (critical_section_defers demo_rotation (mkTaskId 0 1) demo_kernel_binding (mkTaskId 1 1) demo_binding2 []
              (demo_tick <$> [1; 2; 3]) (demo_tick 4)) as (k2 & r2 & k3 & H1 & _ & _ & _ & _ & _ & H2 & _ & H3 & H4 & _).
  - exact demo_in_rotation.
  - repeat (apply Forall_cons; split; [by apply Hk|]). by apply Forall_nil.
  - by apply Hk.
  - exists k2, r2, k3. split; [exact H1|]. split; [exact H2|]. split; [exact H3|exact H4].
Defined.
