(* ===== verification/KernelSystem.v ===== *)
(** * Kernel tasks and processes in one system

    The transition system of [InterruptEntry] extended with kernel tasks: they are
    spawned, dispatched voluntarily from the boot code or from each other, resumed,
    preempted by the timer, put to sleep, blocked on a wait queue, woken and ended, beside
    the processes.  The invariant covers both kinds of
    task, and shows how the two share the CPU. *)

From stdpp Require Import base numbers sets relations list options.
From S2P Require Import Prelude Tasks Queues Scheduler SchedulerInv SchedulerSteps.
From S2P Require Import Memory UserCopy Syscall LoadPlan Process ProcessInv.
From S2P Require Import Execution UserExecution KernelTask Runtime Dispatch SystemRuntime SystemInv.
From S2P Require Import SystemProps InterruptEntry KernelManager.

Local Open Scope Z_scope.
Local Open Scope rust_scope.

(** ** The invariant *)
Section Invariant.
Context `{VirtAddrCrate}.

(** The invariant of all entries, a manager that can be worked on, and an execution
    binding for a kernel task that owns the CPU. *)
Record kernel_inv (k : Kernel) : Prop := mk_kernel_inv {
  ki_core : core_inv k;
  ki_sleep : sleep_inv (ktm_sleepers (kr_manager (sy_runtime (kn_system k))));
  ki_stacks : stacks_ok (sy_executions (kn_system k));
  ki_contexts : contexts_ok (sy_executions (kn_system k));
  ki_owner : forall t, current (sy_scheduler (kn_system k)) = Some t ->
    is_Some (ur_get (sy_userspace (kn_system k)) t) \/ is_Some (er_get (sy_executions (kn_system k)) t);
}.

Lemma kernel_manager_ok k : kernel_inv k -> manager_ok (kr_manager (sy_runtime (kn_system k))).
Proof using Type. intros [[Hi _ _ _ _] Hq Hs Hc _]. split; try done; apply Hi. Qed.

(** The runtime may work while no process is current. *)
Lemma manager_kept_sys y r :
  sys_inv y -> sy_current_process y = None -> manager_kept (kr_manager (sy_runtime y)) (kr_manager r) ->
  sys_inv (set_runtime y r).
Proof using Type.
  intros Hi Hp [Hs Hr Ha He Hq Ho]. split; try done; cbn.
  - apply Hi.
  - apply He.
  - intros t Ht%(ek_live _ _ He). apply live_attrs. unfold sy_scheduler. cbn. rewrite Ha. apply live_attrs.
    by apply (si_er_live y Hi).
  - apply Hi.
  - intros t b Hb. pose proof (si_user y Hi t b Hb) as Hub.
    apply (user_bound_top y); [done|apply Ha|done|apply (ek_tops _ _ He)].
  - intros p. by rewrite Hp.
Qed.

(** No process is current while a kernel task, or nobody, owns the CPU. *)
Lemma kernel_owner_idle y :
  sys_inv y -> (forall t, current (sy_scheduler y) = Some t -> ur_get (sy_userspace y) t = None) ->
  sy_current_process y = None.
Proof using Type.
  intros Hi Hno. destruct (sy_current_process y) as [p|] eqn:Hp; [|done].
  destruct (si_current y Hi p Hp) as (t & b & Hc & Hb & _). rewrite (Hno t Hc) in Hb. done.
Qed.

(** A kernel task has no userspace binding. *)
Lemma kernel_kind_unbound y t :
  sys_inv y -> task_kind (sy_scheduler y) t <> Some Userspace -> ur_get (sy_userspace y) t = None.
Proof using Type.
  intros Hi Hk. destruct (ur_get (sy_userspace y) t) as [b|] eqn:Hb; [|done].
  pose proof (ubd_live _ _ _ (si_user y Hi t b Hb)) as Hl. rewrite attrs_kind, Hl in Hk. done.
Qed.

(** A step of the runtime on behalf of the boot code or a kernel task. *)
Lemma runtime_step_inv k r c :
  kernel_inv k ->
  (forall t, current (sy_scheduler (kn_system k)) = Some t -> ur_get (sy_userspace (kn_system k)) t = None) ->
  manager_kept (kr_manager (sy_runtime (kn_system k))) (kr_manager r) ->
  cpu_serves (kn_cpu k) c (current (ktm_scheduler (kr_manager r))) ->
  kernel_inv (kn_set_cpu (kn_set_system k (set_runtime (kn_system k) r)) c).
Proof using Type.
  intros Hk Hno Hm [Hr Ht Hs Ha]. pose proof Hk as [[Hi _ Hb _ Hact] _ _ _ Hown].
  pose proof (manager_kept_ok _ _ (kernel_manager_ok k Hk) Hm) as Ho'.
  split; [|apply Ho'|apply Ho'|apply Ho'|].
  - split; cbn; [|done|by rewrite Hs|done|by rewrite Ha].
    apply manager_kept_sys; [done|by apply kernel_owner_idle|done].
  - intros t Hc. right. apply (ek_live _ _ (mk_er _ _ Hm)). destruct (mk_owner _ _ Hm t Hc) as [Hc'|[Hl _]]; [|done].
    destruct (Hown t Hc') as [[b Hub]|Hl]; [|done]. pose proof (Hno t Hc') as Hn. congruence.
Qed.

(** *** Spawning *)

(** A new kernel task, or nothing new. *)
Lemma ktm_spawn_spec memory y prio entry :
  let m := kr_manager (sy_runtime y) in
  sys_inv y -> memory_ok memory -> Z.of_nat (length (tasks (ktm_scheduler m))) <= U32_MAX ->
  match ktm_spawn memory m prio entry with
  | (Ok t, m') => exists b base,
      task (ktm_scheduler m) t = None /\ sched_inv (ktm_scheduler m') /\
      attrs (ktm_scheduler m') t = Some (Tasks.Kernel, Some (ExecutionHandle_for_task t)) /\
      (forall t', t' <> t -> task (ktm_scheduler m') t' = task (ktm_scheduler m) t') /\
      current (ktm_scheduler m') = current (ktm_scheduler m) /\
      ktm_sleepers m' = ktm_sleepers m /\ ktm_executions m' = reg_fill (ktm_executions m) b /\
      xb_task_id b = t /\ is_ok (xb_validate b) = true /\
      km_stack memory = Some base /\ xb_stack_top b = Some (base + KERNEL_STACK_SIZE)
  | (Err _, m') =>
      same_tasks (ktm_scheduler m) (ktm_scheduler m') /\ ktm_sleepers m' = ktm_sleepers m /\
      er_wf (ktm_executions m') /\ (forall t, er_get (ktm_executions m') t = er_get (ktm_executions m) t)
  | (Panic, _) => False
  end.
Proof using Type.
  intros m Hi Hmem Hroom. unfold ktm_spawn, create_task.
  destruct (created_attached (E := KernelTaskError) (ktm_scheduler m) prio Tasks.Kernel (si_sched y Hi) Hroom)
    as (t & s1 & s2 & -> & -> & Hf).
  destruct (fresh_unbound y t Hi (fi_new _ _ _ _ _ Hf)) as [Hen _].
  destruct (destroy_fresh _ _ _ _ _ Hf) as (sd & -> & Hsd). cbn [snd].
  pose proof (er_insert_spec memory (ktm_executions m) (ExecutionHandle_for_task t) entry Hmem) as Hins.
  destruct (er_insert _ _ _ _) as [[[]|[]|] r]; cbn [handle_task_id] in Hins; [| | |done].
  2: { exfalso. destruct Hins as [_ [? Hs]]. unfold sy_executions in Hen. fold m in Hen. congruence. }
  2: { destruct Hins as [-> _]. split_and!; try done. apply (si_er y Hi). }
  destruct Hins as (_ & [base Hbase] & b & _ & -> & Hbt & Hval & _ & Htop).
  destruct (ready_fresh _ _ _ _ _ Hf) as (s3 & -> & Hi3 & Ht3 & Hoth3 & Hr3 & Hc3). cbn [negb].
  exists b, base. split_and!; try done; [apply Hf|unfold attrs; cbn; by rewrite Ht3|by rewrite Hval|].
  by rewrite Htop, Hbase.
Qed.

Lemma er_fill_ok r b :
  er_get r (xb_task_id b) = None -> stacks_ok r -> contexts_ok r ->
  (forall top, xb_stack_top b = Some top -> virt_addr_new_ok top = true) -> is_initialized (xb_context b) = true ->
  stacks_ok (reg_fill r b) /\ contexts_ok (reg_fill r b).
Proof using Type.
  intros Hn Hs Hc Htop Hini.
  assert (Hg : forall t, er_get (reg_fill r b) t = if bool_decide (t = xb_task_id b) then Some b else er_get r t)
    by (intros t; by apply reg_find_fill).
  split.
  - intros t top. unfold er_kernel_stack_top. rewrite Hg. case_bool_decide; [apply Htop|apply Hs].
  - intros t b'. rewrite Hg. case_bool_decide; [by intros [= <-]|apply Hc].
Qed.

(** A system that grew by one task, which is not current. *)
Lemma grown_sys y m t b :
  sys_inv y -> task (sy_scheduler y) t = None -> sched_inv (ktm_scheduler m) ->
  (forall t', t' <> t -> task (ktm_scheduler m) t' = task (sy_scheduler y) t') ->
  is_Some (task (ktm_scheduler m) t) -> current (ktm_scheduler m) = current (sy_scheduler y) ->
  ktm_executions m = reg_fill (sy_executions y) b -> xb_task_id b = t ->
  sys_inv (set_runtime y (kr_set_manager (sy_runtime y) m)).
Proof using Type.
  intros Hi Hn Hs Hoth Hlive Hcur He Hb. destruct (fresh_unbound y t Hi Hn) as [Hen Hun].
  assert (Hg : forall t', er_get (ktm_executions m) t' = if bool_decide (t' = t) then Some b else er_get (sy_executions y) t')
    by (intros t'; rewrite He, <- Hb; apply reg_find_fill; by rewrite Hb).
  assert (Hold : forall t', is_Some (task (sy_scheduler y) t') -> t' <> t) by (intros t' [? ?] ->; congruence).
  split; cbn; try apply Hi; try done.
  - intros t' Hc. change (current (ktm_scheduler m) = Some t') in Hc. rewrite Hcur in Hc.
    pose proof (si_running y Hi t' Hc) as Hr. unfold state in *. change (sy_scheduler (set_runtime _ _)) with (ktm_scheduler m).
    rewrite Hoth; [done|]. apply Hold. destruct (task (sy_scheduler y) t'); [eauto|done].
  - change (er_wf (ktm_executions m)). rewrite He. apply reg_wf_fill; [by rewrite Hb|apply Hi].
  - intros t'. change (is_Some (er_get (ktm_executions m) t') -> is_Some (task (ktm_scheduler m) t')). rewrite Hg.
    case_bool_decide as Hd; [by subst|]. rewrite Hoth by done. apply Hi.
  - intros t' b' Hb'. pose proof (si_user y Hi t' b' Hb') as Hub.
    change (ur_get (sy_userspace y) t' = Some b') in Hb'. assert (Hne : t' <> t) by congruence.
    apply (user_bound_ext y); [done|apply attrs_task; by apply Hoth|done|]. change (er_get (ktm_executions m) t' = er_get (sy_executions y) t').
    by rewrite Hg, bool_decide_false.
  - intros p Hp. destruct (si_current y Hi p Hp) as (t' & b' & Hc & Hrest). exists t', b'.
    split; [|done]. change (current (ktm_scheduler m) = Some t'). by rewrite Hcur.
Qed.

Lemma kernel_spawn_inv k memory prio entry :
  memory_ok memory -> (forall base, km_stack memory = Some base -> virt_addr_new_ok (base + KERNEL_STACK_SIZE) = true) ->
  Z.of_nat (length (tasks (sy_scheduler (kn_system k)))) <= U32_MAX -> kernel_inv k ->
  (kr_spawn memory (sy_runtime (kn_system k)) prio entry).1 <> Panic /\
  kernel_inv (kn_set_system k (set_runtime (kn_system k) (kr_spawn memory (sy_runtime (kn_system k)) prio entry).2)).
Proof using Type.
  intros Hmem Hstk Hroom [[Hi Hr Hb Ht Ha] Hq Hs Hc Hown].
  pose proof (ktm_spawn_spec memory (kn_system k) prio entry Hi Hmem Hroom) as Hsp. unfold kr_spawn.
  destruct (ktm_spawn _ _ _ _) as [[t|e|] m']; [| |done]; (split; [done|]); cbn [snd].
  - destruct Hsp as (b & base & Hn & Hs' & Hat & Hoth & Hcur & Hsl & He & Hbt & Hv & Hbase & Htop).
    destruct (fresh_unbound _ t Hi Hn) as [Hen Hun].
    destruct (er_fill_ok (sy_executions (kn_system k)) b) as [Hs2 Hc2];
      [by rewrite Hbt|done|done|intros top; rewrite Htop; intros [= <-]; by apply Hstk|by apply validated_initialized|].
    split; cbn; [|by rewrite Hsl|unfold sy_executions; cbn; by rewrite He|unfold sy_executions; cbn; by rewrite He|].
    + split; cbn; try done; [|unfold sy_scheduler; cbn; by rewrite Hcur].
      apply (grown_sys _ m' t b); try done. apply live_attrs. rewrite Hat. eauto.
    + intros t' Hc'. change (current (ktm_scheduler m') = Some t') in Hc'. rewrite Hcur in Hc'.
      destruct (Hown t' Hc') as [?|Hl]; [by left|right]. change (is_Some (er_get (ktm_executions m') t')).
      rewrite He, <- Hbt in *. unfold er_get in *. rewrite reg_find_fill by done. case_bool_decide; [eauto|done].
  - destruct Hsp as (Hsame & Hsl & Hwf & Heq).
    assert (Hsys : same_system (kn_system k) (set_runtime (kn_system k) (kr_set_manager (sy_runtime (kn_system k)) m')))
      by (by split).
    destruct Hsame as [_ _ _ Hcur].
    split; cbn; [|by rewrite Hsl| | |].
    + split; cbn; try done; [by eapply same_system_inv|unfold sy_scheduler; cbn; by rewrite Hcur].
    + intros t top. unfold er_kernel_stack_top, sy_executions. cbn. rewrite Heq. apply Hs.
    + intros t b. unfold sy_executions. cbn. rewrite Heq. apply Hc.
    + intros t Hc'. unfold sy_scheduler, sy_executions in *. cbn in *. rewrite Heq. apply Hown. by rewrite <- Hcur.
Qed.

(** *** Operations of the system runtime *)

(** No binding appears or changes in the kernel registry, and the sleepers stay. *)
Record rest_kept (y y' : SystemRuntime) : Prop := mk_rest_kept {
  rk_executions : forall t b, er_get (sy_executions y') t = Some b -> er_get (sy_executions y) t = Some b;
  rk_sleepers : ktm_sleepers (kr_manager (sy_runtime y')) = ktm_sleepers (kr_manager (sy_runtime y));
}.

Lemma rest_kept_same y y' : kr_manager (sy_runtime y') = kr_manager (sy_runtime y) -> rest_kept y y'.
Proof using Type. intros Hm. split; unfold sy_executions; by rewrite Hm. Qed.

Lemma rest_kept_trans y1 y2 y3 : rest_kept y1 y2 -> rest_kept y2 y3 -> rest_kept y1 y3.
Proof using Type. intros [E1 S1] [E2 S2]. split; [auto|congruence]. Qed.

Lemma hand_over_runtime y c su tr top drop : sy_runtime (hand_over y c su tr top drop).1.2 = sy_runtime y.
Proof using Type. unfold hand_over. repeat (case_match; simplify_eq; try done). Qed.

Lemma commit_exit_rest y c : sys_inv y -> rest_kept y (commit_pending_exit y c).1.2.
Proof using Type.
  intros Hi. unfold commit_pending_exit.
  destruct (exit_checks y) as [[[[[[p t] su] tr] h] top]|e|]; [|by apply rest_kept_same..].
  destruct (pm_start _ _) as [[]]; [|by apply rest_kept_same..].
  destruct (pm_exit _ _) as [[]]; [|by apply rest_kept_same..].
  destruct (terminate_current_to _ _) as [[]]; [|by split..].
  destruct (ur_remove _ _) as [[]]; [|by split..]. cbv zeta.
  set (y1 := set_executions _ _). apply (rest_kept_trans _ y1).
  - split; [|done]. intros t' b. unfold y1. rewrite er_remove_clear. cbn. unfold er_get, sy_executions. cbn.
    rewrite reg_find_clear by apply (si_er y Hi). by case_bool_decide.
  - apply rest_kept_same. by rewrite hand_over_runtime.
Qed.

Lemma commit_yield_rest y c i : rest_kept y (commit_userspace_yield_with_snapshot y c i).1.2.
Proof using Type.
  unfold commit_userspace_yield_with_snapshot.
  destruct (yield_checks y) as [[[[[[p t] su] tr] top]|]|e|]; [|by apply rest_kept_same..].
  assert (Hst : sy_runtime (store_snapshot y t i).2 = sy_runtime y)
    by (unfold store_snapshot; repeat (case_match; simplify_eq; try done)).
  destruct (store_snapshot y t i) as [[] y0]; cbn in Hst; [|apply rest_kept_same; cbn; by rewrite ?Hst..].
  destruct (yield_to _ _ _) as [[] q]; [|apply rest_kept_same; cbn; by rewrite ?Hst..].
  destruct (schedule_next _) as [d s']. cbv zeta.
  assert (H1 : rest_kept y (set_scheduler (set_processes y0 q) s')).
  { split; [intros t' b|]; unfold sy_executions; cbn; by rewrite Hst. }
  destruct (_ || _); [done|].
  pose proof (hand_over_runtime (set_scheduler (set_processes y0 q) s') c su tr top false) as Hh.
  destruct (hand_over _ _ _ _ _ _) as [[[] y3] c']; cbn in Hh;
    (eapply rest_kept_trans; [exact H1|apply rest_kept_same; cbn; by rewrite ?Hh]).
Qed.

Lemma start_user_rest y c p : rest_kept y (start_user y c p).1.2.
Proof using Type.
  unfold start_user. destruct (start_checks y p) as [[[t b] top]|e|]; [|by apply rest_kept_same..].
  destruct (pm_start _ _) as [[]]; [|by apply rest_kept_same..].
  destruct (schedule_next _) as [d s']. cbv zeta. destruct (_ || _); [by split|].
  by destruct (set_kernel_stack_top _ _) as [[]].
Qed.

Lemma timer_user_rest {E} k : rest_kept (kn_system k) (kn_system (timer_entry_user (E := E) k).2).
Proof using Type.
  unfold timer_entry_user. destruct (take_syscall_action _) as [[[]|] l]; try by apply rest_kept_same.
  pose proof (commit_yield_rest (kn_system k) (with_local (kn_cpu k) l) (cl_interrupted (cpu_local (with_local (kn_cpu k) l)))) as Hr.
  by destruct (commit_userspace_yield_with_snapshot _ _ _) as [[[[]| |] y] c].
Qed.

(** The invariant after such an operation. *)
Lemma rest_kernel_inv k k' :
  kernel_inv k -> core_inv k' -> rest_kept (kn_system k) (kn_system k') ->
  (forall t, current (sy_scheduler (kn_system k')) = Some t ->
     is_Some (ur_get (sy_userspace (kn_system k')) t) \/ is_Some (er_get (sy_executions (kn_system k')) t)) ->
  kernel_inv k'.
Proof using Type.
  intros [_ Hq Hs Hc _] Hcore [He Hsl] Hown. split; [done|by rewrite Hsl| |by intros t b Hb%He; apply (Hc t)|done].
  intros t top. unfold er_kernel_stack_top. destruct (er_get (sy_executions (kn_system k')) t) as [b|] eqn:Hb; [|done].
  apply He in Hb. intros Htop. apply (Hs t). unfold er_kernel_stack_top. by rewrite Hb.
Qed.

Lemma kernel_same_inv k k' :
  kernel_inv k -> core_inv k' -> owners_kept (kn_system k) (kn_system k') -> kernel_inv k'.
Proof using Type.
  intros Hk Hc Ho. destruct (owners_kept_tables _ _ Ho) as [Hs He].
  apply (rest_kernel_inv k); [done|done|by apply rest_kept_same, Ho|].
  rewrite Hs, He, (ok_userspace _ _ Ho). apply Hk.
Qed.

Lemma owners_kept_refl y : owners_kept y y.
Proof using Type. done. Qed.

Lemma handed_kernel_inv k k' y c tr :
  kernel_inv k -> core_inv k' -> handed_to (kn_system k) y c tr -> kn_system k' = y ->
  rest_kept (kn_system k) y -> kernel_inv k'.
Proof using Type.
  intros Hk Hc Hh Hy Hr. apply (rest_kernel_inv k); [done|done|by rewrite Hy|]. rewrite Hy. intros t.
  rewrite (ht_current _ _ _ _ Hh). intros [= <-]. left. rewrite (ht_resumed _ _ _ _ Hh). eauto.
Qed.

(** ** Who owns the CPU *)
Definition user_mode (k : Kernel) : Prop := is_Some (current_user_binding (kn_system k)).
Definition kernel_owned (k : Kernel) : Prop :=
  forall t, current (sy_scheduler (kn_system k)) = Some t -> ur_get (sy_userspace (kn_system k)) t = None.

Lemma user_mode_handed k y c tr : handed_to (kn_system k) y c tr -> is_Some (current_user_binding y).
Proof using Type.
  intros Hh. unfold current_user_binding. rewrite (ht_current _ _ _ _ Hh). cbn. rewrite (ht_resumed _ _ _ _ Hh). eauto.
Qed.

Lemma user_mode_same y y' : owners_kept y y' -> current_user_binding y' = current_user_binding y.
Proof using Type.
  intros Ho. unfold current_user_binding. destruct (owners_kept_tables _ _ Ho) as [-> _]. by rewrite (ok_userspace _ _ Ho).
Qed.

Lemma user_mode_owned k : user_mode k -> kernel_owned k -> False.
Proof using Type.
  unfold user_mode, current_user_binding. destruct (current _) as [t|] eqn:Hc; cbn; [|by intros [? ?]].
  intros [b Hb] Ho. by rewrite (Ho t Hc) in Hb.
Qed.

(** ** Steps *)

(** A step is safe: no panic, the invariant again, and a process gives the CPU up only
    to a process. *)
Definition step_safe (k k' : Kernel) : Prop := kernel_inv k' /\ (user_mode k -> user_mode k').

Lemma syscall_kernel_safe {E} {M} `{UserMemoryView M} mapping (view : M) kernel_memory k frame :
  kernel_inv k -> args_ok view (kn_registers k) -> view_ok mapping view kernel_memory ->
  (syscall_entry_rust (E := E) mapping view kernel_memory k frame).1 <> Panic /\
  step_safe k (syscall_entry_rust (E := E) mapping view kernel_memory k frame).2.
Proof using Type.
  intros Hk Hargs Hv. destruct (decide (Z.land (irf_cs frame) 3 = 3)) as [Hcs|Hcs].
  2: { unfold syscall_entry_rust. by rewrite (proj2 (Z.eqb_neq _ _) Hcs). }
  destruct (syscall_core_cases (E := E) mapping view kernel_memory k frame (ki_core _ Hk) Hargs Hv Hcs)
    as (value & _ & Hc1 & Hcpu & _ & Hkept & Hact). cbv zeta in *.
  set (k0 := (entry_dispatch mapping view kernel_memory k).2) in *. set (k1 := record_user_trap _ _) in *.
  assert (Hstay : forall c, core_inv (kn_set_cpu k1 c) -> step_safe k (kn_set_cpu k1 c)).
  { intros c Hc. split; [by apply (kernel_same_inv k)|]. unfold user_mode. cbn. by rewrite (user_mode_same _ _ Hkept). }
  assert (Hk1 : k1 = kn_set_cpu k1 (kn_cpu k1)) by by destruct k1.
  destruct (sd_action _); [rewrite Hact, <- Hcpu; (split; [done|]); apply Hstay; by apply publish_core_inv..|].
  pose proof (commit_exit_rest (kn_system k0) (kn_cpu k) (co_sys _ Hc1)) as Hrest.
  destruct (commit_pending_exit _ _) as [[[tr|e|] y] c]; [| |done].
  2: { rewrite Hact. split; [done|]. cbn [snd]. rewrite Hk1. apply Hstay. by rewrite <- Hk1. }
  destruct Hact as (-> & Hh & Hck & Hi). cbn [fst snd] in *. split.
  { by rewrite (handed_departs _ _ _ _ (co_sys _ Hc1) Hh). }
  split; [|intros _; by apply (user_mode_handed k1 y c tr)].
  apply (handed_kernel_inv k1 _ y c tr); [by apply (kernel_same_inv k)| |done|done|done].
  apply (handed_core_inv k1 y c tr); [done|done|by rewrite Hcpu|done].
Qed.

(** A timer interrupt of a process changes the system only by a hand-over. *)
Lemma timer_user_cases {E} k frame :
  entry_inv k ->
  let k' := (timer_entry_rust (E := E) k frame).2 in
  kn_system k' = kn_system k \/ exists c tr, handed_to (kn_system k) (kn_system k') c tr.
Proof using Type.
  intros Hk. cbv zeta. destruct (current (sy_scheduler (kn_system k))) as [t|] eqn:Hc.
  2: { left. apply (timer_entry_refused (E := E) k frame Hk). congruence. }
  destruct (ReturnState_capture frame) as [rs|] eqn:Hrs.
  2: { left. apply (timer_entry_refused (E := E) k frame Hk). congruence. }
  destruct (is_valid (snapshot_of k rs)) eqn:Hv.
  2: { left. apply (timer_entry_refused (E := E) k frame Hk). congruence. }
  pose proof (timer_entry_captured (E := E) k frame t rs Hk Hc Hrs Hv) as Ht. cbv zeta in Ht.
  destruct (cl_syscall_action _) as [[]|]; [left; by rewrite Ht| |left; by rewrite Ht..].
  destruct (commit_userspace_yield_with_snapshot _ _ _) as [[[[tr|]|e|] y] c]; [|left; by rewrite Ht..|done].
  right. destruct Ht as (-> & Hh & _). by exists c, tr.
Qed.

Lemma timer_rest_user {E} k frame :
  user_mode k -> is_Some (cl_system_runtime (cpu_local (kn_cpu k))) ->
  rest_kept (kn_system k) (kn_system (timer_entry_rust (E := E) k frame).2).
Proof using Type.
  intros Hu Hb. unfold timer_entry_rust. destruct (irf_resume_rsp frame); [|by apply rest_kept_same].
  assert (Hl : cl_system_runtime (cl_capture_interrupted (cpu_local (kn_cpu k)) (kn_registers k) frame z).2
               = cl_system_runtime (cpu_local (kn_cpu k)))
    by (unfold cl_capture_interrupted; repeat (case_match; simplify_eq; try done)).
  destruct (cl_capture_interrupted _ _ _ _) as [[t|e|] l]; [|by apply rest_kept_same..].
  cbn [snd] in Hl. cbn [is_ok negb]. set (k1 := record_timer_interrupt _).
  assert (bool_decide (is_Some (cl_system_runtime (cpu_local (kn_cpu k1)))) &&
          bool_decide (is_Some (current_user_binding (kn_system k1))) = true) as ->.
  { apply andb_true_iff. split; apply bool_decide_eq_true_2; [cbn; by rewrite Hl|exact Hu]. }
  exact (timer_user_rest k1).
Qed.

(** With a kernel task on the CPU, the handler works on the kernel runtime. *)
Lemma timer_kernel_cases {E} k frame :
  kernel_inv k -> ~ (user_mode k /\ cl_interrupted (cpu_local (kn_cpu k)) = None) ->
  let out := timer_entry_rust (E := E) k frame in
  (out.1 = Ok ReturnToStub /\ kn_system out.2 = kn_system k /\ core_inv out.2) \/
  (kernel_owned k /\ exists c, core_inv (kn_set_cpu (kn_acked k) c) /\ out = timer_entry_kernel (kn_set_cpu (kn_acked k) c)).
Proof using Type.
  intros Hk Hne. pose proof Hk as [[Hi Hr Hb Ht Ha] _ _ _ _]. unfold timer_entry_rust.
  destruct (irf_resume_rsp frame) as [rr|] eqn:Hrr; [|by left]. unfold cl_capture_interrupted.
  assert (Htick : forall l, cl_current_task l = cl_current_task (cpu_local (kn_cpu k)) ->
    is_Some (cl_system_runtime l) -> cl_syscall_action l <> Some Terminate ->
    core_inv (record_timer_interrupt (kn_set_cpu k (with_local (kn_cpu k) l)))) by (intros l H1 H2 H3; split; cbn; try done; by rewrite H1).
  destruct (cl_current_task (cpu_local (kn_cpu k))) as [t|] eqn:Hct; [|left; split_and!; [done|done|by apply Htick]].
  case_bool_decide as Hslot; [left; split_and!; [done|done|by apply Htick]|].
  unfold InterruptedState_capture. destruct (ReturnState_capture frame) as [rs|] eqn:Hrs.
  2: { unfold ReturnState_capture in Hrs. by rewrite Hrr in Hrs. }
  destruct (negb (is_valid _)) eqn:Hv; [left; split_and!; [done|done|by apply Htick]|].
  assert (Hnu : kernel_owned k).
  { intros t' Hc. destruct (ur_get (sy_userspace (kn_system k)) t') as [b|] eqn:Hu; [|done]. exfalso. apply Hne.
    split; [unfold user_mode, current_user_binding; rewrite Hc; cbn; by rewrite Hu|].
    by destruct (cl_interrupted _); [destruct Hslot|]. }
  right. split; [done|].
  set (l := cpu_local (kn_cpu k)) in *.
  exists (mkCpu (mkCpuLocal (Some t) (cl_runtime l) (cl_system_runtime l) (cl_syscall_action l)
            (Some (t, mkInterrupted (kn_registers k) rs))) (cpu_rsp0 (kn_cpu k)) (fetch_add_u64 (cpu_timer_ticks (kn_cpu k))) true).
  split; [by apply Htick|]. cbn [is_ok negb].
  rewrite (bool_decide_false (is_Some (current_user_binding _))), andb_false_r; [done|].
    unfold current_user_binding. cbn. destruct (current _) as [t'|] eqn:Hc; cbn; [rewrite (Hnu t' Hc)|]; by intros [? ?].
Qed.

Lemma timer_kernel_safe {E} k frame :
  kernel_inv k ->
  (timer_entry_rust (E := E) k frame).1 <> Panic /\ step_safe k (timer_entry_rust (E := E) k frame).2.
Proof using Type.
  intros Hk. pose proof Hk as [Hcore _ _ _ _].
  destruct (decide (user_mode k /\ cl_interrupted (cpu_local (kn_cpu k)) = None)) as [[Hu Hslot]|Hno].
  - assert (He : entry_inv k).
    { unfold user_mode, current_user_binding in Hu.
      destruct (current (sy_scheduler (kn_system k))) as [t|] eqn:Ht; [|by destruct Hu].
      apply core_entry; rewrite ?Ht; [done|by apply (co_task _ Hcore)|by intros t' [= <-]|done]. }
    destruct (timer_entry_inv (E := E) k frame He) as [Hnp He']. split; [done|].
    pose proof (timer_rest_user (E := E) k frame Hu (co_bound _ Hcore)) as Hr. split.
    + apply (rest_kernel_inv k); [done|by apply entry_core|done|]. intros t Ht. left. by apply He'.
    + intros _. unfold user_mode. destruct (timer_user_cases (E := E) k frame He) as [->|(c & tr & Hh)]; [done|].
      by apply (user_mode_handed k _ c tr).
  - pose proof (timer_kernel_cases (E := E) k frame Hk Hno) as Hc. cbv zeta in Hc.
    destruct Hc as [(-> & Hy & Hc')|(Hown & c & Hc' & ->)].
    { split; [done|]. split; [|unfold user_mode; by rewrite Hy].
      apply (kernel_same_inv k); [done|done|by rewrite Hy]. }
    unfold timer_entry_kernel. set (k1 := kn_set_cpu (kn_acked k) c) in *.
    assert (Hk1 : kernel_inv k1) by (by apply (kernel_same_inv k)).
    assert (Hmode : forall k', user_mode k -> user_mode k') by (intros k' Hu; destruct (user_mode_owned k Hu Hown)).
    destruct (cl_runtime _); [|done].
    pose proof (handle_timer_kept (sy_runtime (kn_system k1)) (kn_cpu k1) (kernel_manager_ok k1 Hk1)
                  (co_rsp0 _ Hc') (co_task _ Hc')) as Hh.
    destruct (handle_timer_preemption _ _) as [[r rt] c']. destruct Hh as (Hnp & Hm & Hs).
    pose proof (runtime_step_inv k1 rt c' Hk1 Hown Hm Hs) as Hk2.
    assert (Hk3 : kernel_inv (kn_store_iret_returned (kn_set_cpu (kn_set_system k1 (set_runtime (kn_system k1) rt)) c')))
      by (by apply (kernel_same_inv _ _ Hk2); [destruct Hk2 as [[] _ _ _ _]|]).
    destruct r as [[]| |]; cbn [fst snd]; by (split; [|split; [|apply Hmode]]).
Qed.

Lemma dispatch_kernel_safe k saved :
  kernel_inv k -> kernel_owned k -> is_initialized saved = true ->
  let '(d, r, c) := dispatch_switch (sy_runtime (kn_system k)) (kn_cpu k) saved in
  d <> DispatchPanicked /\ kernel_inv (kn_set_cpu (kn_set_system k (set_runtime (kn_system k) r)) c).
Proof using Type.
  intros Hk Hown Hs. pose proof Hk as [[Hi Hr Hb Ht Ha] _ _ _ Ho].
  pose proof (dispatch_switch_kept (sy_runtime (kn_system k)) (kn_cpu k) saved (kernel_manager_ok k Hk) Hr Ht) as Hd.
  destruct (dispatch_switch _ _ _) as [[d r] c]. destruct Hd as (Hnp & Hm & Hc); [|done|].
  { intros t Hc. destruct (Ho t Hc) as [[b Hu]|?]; [|done]. rewrite (Hown t Hc) in Hu. done. }
  split; [done|]. by apply runtime_step_inv.
Qed.

Lemma spawn_user_sleepers memory stub y image launch prio :
  ktm_sleepers (kr_manager (sy_runtime (spawn_user_ready memory stub y image launch prio).2)) =
  ktm_sleepers (kr_manager (sy_runtime y)).
Proof using Type. unfold spawn_user_ready. repeat (case_match; simplify_eq; try done). Qed.

Lemma spawn_user_safe k memory stub image launch prio :
  spawn_ok memory launch -> Z.of_nat (length (tasks (sy_scheduler (kn_system k)))) <= U32_MAX -> kernel_inv k ->
  (spawn_user_ready memory stub (kn_system k) image launch prio).1 <> Panic /\
  step_safe k (kn_set_system k (spawn_user_ready memory stub (kn_system k) image launch prio).2).
Proof using Type.
  intros Hok Hroom [[Hi Hr Hb Ht Ha] Hq Hs Hc Hown].
  pose proof (spawn_user_spec memory stub (kn_system k) image launch prio Hi Hok Hroom) as Hsp.
  pose proof (spawn_user_sleepers memory stub (kn_system k) image launch prio) as Hsl.
  destruct (spawn_user_ready _ _ _ _ _ _) as [[[pid t]|e|] y]; [| |done]; (split; [done|]); cbn [snd] in *.
  - destruct Hsp as (Hi' & Hn & _ & _ & _ & _ & Hcur & _ & _ & Hu & Hv & Hoth & _).
    assert (Hlive : forall t', current (sy_scheduler (kn_system k)) = Some t' -> t' <> t).
    { intros t' Hc' ->. pose proof (si_running _ Hi t Hc') as Hrun. unfold state in Hrun. by rewrite Hn in Hrun. }
    split; [split; cbn; [by split; cbn; rewrite ?Hcur|by rewrite Hsl|..]|].
    + intros t' top. destruct (decide (t' = t)) as [->|Hne].
      * destruct (ubd_stack _ _ _ (si_user _ Hi' _ _ Hu)) as (top' & Htop' & Hok'). congruence.
      * destruct (Hoth t' Hne) as (_ & _ & He). unfold er_kernel_stack_top. rewrite He. apply Hs.
    + intros t' b. destruct (decide (t' = t)) as [->|Hne].
      * unfold er_is_valid in Hv. cbn in Hv. intros He. unfold er_get in *. rewrite He in Hv. by apply validated_initialized.
      * destruct (Hoth t' Hne) as (_ & _ & He). rewrite He. apply Hc.
    + intros t'. rewrite Hcur. intros Hc'. destruct (Hoth t' (Hlive t' Hc')) as (_ & -> & ->). by apply Hown.
    + unfold user_mode, current_user_binding. cbn. rewrite Hcur.
      destruct (current (sy_scheduler (kn_system k))) as [t'|] eqn:Hc'; [|done]. cbn.
      by destruct (Hoth t' (Hlive t' eq_refl)) as (_ & -> & _).
  - pose proof (same_system_inv _ _ Hsp Hi) as Hi'. destruct Hsp as [[_ _ _ Hcur] He _ Hu _ _].
    split; [split; cbn; [by split; cbn; rewrite ?Hcur|by rewrite Hsl|..]|].
    + intros t' top. unfold er_kernel_stack_top. rewrite He. apply Hs.
    + intros t' b. rewrite He. apply Hc.
    + intros t'. rewrite Hcur, Hu, He. apply Hown.
    + unfold user_mode, current_user_binding. cbn. by rewrite Hcur, Hu.
Qed.

Lemma start_user_safe k p :
  kernel_inv k ->
  (start_user (kn_system k) (kn_cpu k) p).1.1 <> Panic /\
  step_safe k (kn_set_cpu (kn_set_system k (start_user (kn_system k) (kn_cpu k) p).1.2)
                 (start_user (kn_system k) (kn_cpu k) p).2).
Proof using Type.
  intros Hk. pose proof Hk as [[Hi Hr Hb Ht Ha] _ _ _ _].
  pose proof (start_user_spec (kn_system k) (kn_cpu k) p Hi Hr) as Hs.
  pose proof (start_user_cpu (kn_system k) (kn_cpu k) p) as (_ & K2 & K3 & _).
  pose proof (start_user_rest (kn_system k) (kn_cpu k) p) as Hrest.
  destruct (start_user _ _ _) as [[[l|e|] y] c]; [| |done]; cbn [fst snd] in *; (split; [done|]).
  - destruct Hs as (t & b & _ & Hub & _ & _ & _ & Hc & _ & _ & _ & _ & Hu & Hct & Hrsp & Hi').
    split; [|intros _; unfold user_mode, current_user_binding; cbn; rewrite Hc; cbn; by rewrite Hu, Hub].
    apply (rest_kernel_inv k); [done| |done|].
    + split; cbn; rewrite ?K2, ?K3, ?Hc, ?Hct; try done.
      rewrite Hrsp. destruct (ubd_stack _ _ _ (si_user _ Hi _ _ Hub)) as (top & -> & _). eauto.
    + intros t'. cbn. rewrite Hc, Hu. intros [= <-]. left. by rewrite Hub.
  - destruct Hs as [-> ->]. by destruct k.
Qed.

(** [safe_reschedule_point] up to the switch, with what the switch saves. *)
Definition reschedule_switch (k : KernelRuntime) (c : Cpu) (saved : Context) : option Dispatched * KernelRuntime * Cpu :=
  match safe_reschedule_point k c with
  | (Some (DispatchSwitch leaving entering back), k, c) =>
      (Some (DispatchSwitch leaving entering back), save_context k leaving saved, c)
  | other => other
  end.

Lemma reschedule_kernel_safe k saved :
  kernel_inv k -> kernel_owned k -> is_initialized saved = true ->
  let '(d, r, c) := reschedule_switch (sy_runtime (kn_system k)) (kn_cpu k) saved in
  d <> Some DispatchPanicked /\ kernel_inv (kn_set_cpu (kn_set_system k (set_runtime (kn_system k) r)) c).
Proof using Type.
  intros Hk Hown Hsv. pose proof Hk as [[Hi Hr Hb Ht Ha] _ _ _ Ho]. pose proof (kernel_manager_ok k Hk) as Hok.
  set (rt := sy_runtime (kn_system k)) in *.
  assert (Hstay : forall r, kr_manager r = kr_manager rt ->
    kernel_inv (kn_set_cpu (kn_set_system k (set_runtime (kn_system k) r)) (kn_cpu k))).
  { intros r Hrm. apply runtime_step_inv; [done|done|rewrite Hrm; by apply manager_kept_refl|]. rewrite Hrm. by split. }
  unfold reschedule_switch, safe_reschedule_point. destruct (negb _); [split; [done|by apply Hstay]|].
  destruct (negb _); [split; [done|by apply Hstay]|].
  pose proof (commit_interrupted_kept (clear_reschedule rt) (kn_cpu k) Hok Hr) as Hc.
  destruct (commit_interrupted_state _ _) as [[[[]|e|] k2] c2]; destruct Hc as (Hnp & Hm2 & Hs2 & Hc2 & _); [| |done].
  2: { split; [done|]. apply runtime_step_inv; [done|done|done|]. rewrite Hs2. by apply (cpu_serves_owner _ _ _ _ Hc2). }
  assert (Hk2 : kernel_inv (kn_set_cpu (kn_set_system k (set_runtime (kn_system k) k2)) c2)).
  { apply runtime_step_inv; [done|done|done|]. rewrite Hs2. by apply (cpu_serves_owner _ _ _ _ Hc2). }
  pose proof (dispatch_kernel_safe _ saved Hk2) as Hd. cbn [kn_set_cpu kn_set_system set_runtime sy_runtime kn_system kn_cpu] in Hd.
  unfold dispatch_switch in Hd.
  assert (Hown2 : kernel_owned (kn_set_cpu (kn_set_system k (set_runtime (kn_system k) k2)) c2)).
  { intros t. unfold kernel_owned, sy_scheduler. cbn. rewrite Hs2. apply Hown. }
  specialize (Hd Hown2 Hsv).
  destruct (dispatch_begin k2 c2) as [[[e| |l x b] k3] c3]; destruct Hd as [Hnp3 Hk3]; [|done|].
  - destruct e; (split; [done|]); try exact Hk3.
    apply (kernel_same_inv _ _ Hk3); [|done]. destruct Hk3 as [[Hi3 R3 B3 T3 A3] _ _ _ _]. split; try done.
    by apply (sys_inv_flags (set_runtime (kn_system k) k3)).
  - split; [done|exact Hk3].
Qed.

(** *** Kernel tasks that sleep, wait and exit *)
Definition kn_manager (k : Kernel) : KernelTaskManager := kr_manager (sy_runtime (kn_system k)).
Definition kn_set_manager (k : Kernel) (m : KernelTaskManager) : Kernel :=
  kn_set_system k (set_runtime (kn_system k) (kr_set_manager (sy_runtime (kn_system k)) m)).

(** A change of the manager that leaves nobody, or the same task, on the CPU. *)
Lemma manager_step_inv k m :
  kernel_inv k -> kernel_owned k -> manager_kept (kn_manager k) m ->
  current (ktm_scheduler m) = None \/ current (ktm_scheduler m) = current (ktm_scheduler (kn_manager k)) ->
  kernel_inv (kn_set_manager k m).
Proof using Type.
  intros Hk Hown Hm Hc. apply (runtime_step_inv k (kr_set_manager (sy_runtime (kn_system k)) m) (kn_cpu k)) in Hm; [done|done|done|].
  destruct Hk as [[_ Hr _ Ht _] _ _ _ _]. split; try done. cbn. destruct Hc as [->| ->]; [done|exact Ht].
Qed.

Lemma kn_set_manager_same k : kn_set_manager k (kn_manager k) = k.
Proof using Type. by destruct k as [? ? [? [] ? ? ?] ? ? ? ?]. Qed.

Lemma sleep_kernel_inv k deadline :
  kernel_inv k -> kernel_owned k ->
  (ktm_sleep_current_until (kn_manager k) deadline).1 <> Panic /\
  kernel_inv (kn_set_manager k (ktm_sleep_current_until (kn_manager k) deadline).2).
Proof using Type.
  intros Hk Hown. pose proof (ktm_sleep_kept (kn_manager k) deadline (kernel_manager_ok k Hk)) as Hs.
  destruct (ktm_sleep_current_until _ _) as [[t|e|] m]; cbn [fst snd]; [| |done]; (split; [done|]).
  - destruct Hs as (_ & Hm & Hc & _). apply manager_step_inv; auto.
  - subst m. by rewrite kn_set_manager_same.
Qed.

Lemma wait_kernel_inv k waiters :
  kernel_inv k -> kernel_owned k ->
  kernel_inv (kn_set_manager k (ktm_set_scheduler (kn_manager k) (block_current_on (ktm_scheduler (kn_manager k)) waiters).1.2)).
Proof using Type.
  intros Hk Hown. destruct (block_on_kept (kn_manager k) waiters (kernel_manager_ok k Hk)) as [Hm Hc].
  apply manager_step_inv; [done|done|done|]. cbn. destruct Hc as [?|Hc]; [by left|right; by rewrite Hc].
Qed.

Lemma wake_kernel_inv k waiters :
  kernel_inv k -> kernel_owned k ->
  kernel_inv (kn_set_manager k (ktm_set_scheduler (kn_manager k) (wake_one (ktm_scheduler (kn_manager k)) waiters).1.2)).
Proof using Type.
  intros Hk Hown. destruct (wake_one_kept (kn_manager k) waiters (kernel_manager_ok k Hk)) as [Hm Hc].
  apply manager_step_inv; [done|done|done|]. cbn. by right.
Qed.

Lemma service_kernel_inv k now n r c :
  kernel_inv k -> kernel_owned k -> service_pending_timer (sy_runtime (kn_system k)) (kn_cpu k) now = (n, r, c) ->
  kernel_inv (kn_set_cpu (kn_set_system k (set_runtime (kn_system k) r)) c).
Proof using Type.
  intros Hk Hown. pose proof (kernel_manager_ok k Hk) as Hok. pose proof Hk as [[Hi Hr Hb Ht Ha] _ _ _ _].
  assert (Hserves : forall owner, (forall t, owner = Some t -> current (sy_scheduler (kn_system k)) = Some t) ->
    cpu_serves (kn_cpu k) (take_timer_pending (kn_cpu k)).2 owner) by (intros owner H'; split; cbn; auto).
  unfold service_pending_timer. destruct (take_timer_pending (kn_cpu k)) as [[] c0]; cbn in Hserves.
  - destruct (expire_kept (kr_manager (sy_runtime (kn_system k))) now Hok) as [Hm Hc].
    unfold service_timer. destruct (ktm_expire_sleepers _ _) as [w m]. intros [= <- <- <-].
    apply runtime_step_inv; [done|done|done|]. apply Hserves. cbn in Hc |- *. by rewrite Hc.
  - intros [= <- <- <-]. apply runtime_step_inv; [done|done|by apply manager_kept_refl|by apply Hserves].
Qed.

(** A kernel task gone, nothing else of the system is lost. *)
Lemma dropped_sys y m t :
  sys_inv y -> sy_current_process y = None -> ur_get (sy_userspace y) t = None ->
  manager_dropped (kr_manager (sy_runtime y)) m t ->
  sys_inv (set_runtime y (kr_set_manager (sy_runtime y) m)).
Proof using Type.
  intros Hi Hp Hu [Howner Hs Hidle Hgone Hoth Hw Hg Hq _].
  split; cbn; try done; try apply Hi.
  - intros t'. change (current (ktm_scheduler m) = Some t' -> state (ktm_scheduler m) t' = Some Running). by rewrite Hidle.
  - intros t'. change (is_Some (er_get (ktm_executions m) t') -> is_Some (task (ktm_scheduler m) t')). rewrite Hg.
    case_bool_decide as Hd; [by intros [? ?]|]. rewrite Hoth by done. apply Hi.
  - intros t' b Hb. pose proof (si_user y Hi t' b Hb) as Hub.
    change (ur_get (sy_userspace y) t' = Some b) in Hb. assert (Hne : t' <> t) by congruence.
    apply (user_bound_ext y); [done|apply attrs_task; by apply Hoth|done|].
    change (er_get (ktm_executions m) t' = er_get (sy_executions y) t'). by rewrite Hg, bool_decide_false.
  - intros p. by rewrite Hp.
Qed.

Lemma exit_kernel_inv k :
  kernel_inv k -> kernel_owned k -> kernel_inv (kn_set_manager k (ktm_exit_current (kn_manager k)).2).
Proof using Type.
  intros Hk Hown. pose proof (ktm_exit_spec (kn_manager k) (kernel_manager_ok k Hk)) as Hx.
  destruct (ktm_exit_current _) as [r m]. cbn [snd].
  destruct Hx as [[_ ->]|(t & Hd & _)]; [by rewrite kn_set_manager_same|].
  pose proof Hk as [[Hi Hr Hb Ht Ha] Hq Hs Hc Ho]. pose proof (dropped_sys (kn_system k) m t Hi) as Hi'.
  destruct Hd as [Howner Hs' Hidle Hgone Hoth Hw Hg Hq' Haw].
  assert (Hget : forall t' b, er_get (ktm_executions m) t' = Some b -> er_get (sy_executions (kn_system k)) t' = Some b).
  { intros t' b. rewrite Hg. by case_bool_decide. }
  split; [split; cbn; try done|done| | |].
  - apply Hi'; [by apply kernel_owner_idle|by apply Hown|done].
  - intros t'. unfold sy_scheduler. cbn. by rewrite Hidle.
  - intros t' top. unfold er_kernel_stack_top. change (sy_executions _) with (ktm_executions m).
    destruct (er_get (ktm_executions m) t') as [b|] eqn:Hb'; [|done]. apply Hget in Hb'.
    intros Htop. apply (Hs t'). unfold er_kernel_stack_top. by rewrite Hb'.
  - intros t' b Hb'. apply (Hc t'). by apply Hget.
  - intros t'. unfold sy_scheduler. cbn. by rewrite Hidle.
Qed.

(** ** The whole kernel as a transition system

    The steps of [InterruptEntry], and for the kernel tasks: spawning, a voluntary
    dispatch or a reschedule point by the owner of the CPU (the switch saves some live
    context), the return of a switch to the task that called it, going to sleep until a
    deadline, waiting in a queue and waking a waiter, serving a pending tick outside
    the interrupt handler, and exiting. *)
Inductive kernel_step (k : Kernel) : Kernel -> Prop :=
| ks_entry k' : entry_step k k' -> kernel_step k k'
| ks_spawn memory prio entry :
    memory_ok memory -> (forall base, km_stack memory = Some base -> virt_addr_new_ok (base + KERNEL_STACK_SIZE) = true) ->
    Z.of_nat (length (tasks (sy_scheduler (kn_system k)))) <= U32_MAX ->
    kernel_step k (kn_set_system k (set_runtime (kn_system k) (kr_spawn memory (sy_runtime (kn_system k)) prio entry).2))
| ks_dispatch saved d r c :
    kernel_owned k -> is_initialized saved = true ->
    dispatch_switch (sy_runtime (kn_system k)) (kn_cpu k) saved = (d, r, c) ->
    kernel_step k (kn_set_cpu (kn_set_system k (set_runtime (kn_system k) r)) c)
| ks_reschedule saved d r c :
    kernel_owned k -> is_initialized saved = true ->
    reschedule_switch (sy_runtime (kn_system k)) (kn_cpu k) saved = (d, r, c) ->
    kernel_step k (kn_set_cpu (kn_set_system k (set_runtime (kn_system k) r)) c)
| ks_resumed :
    kernel_owned k ->
    kernel_step k (kn_set_cpu k (dispatch_end (current (sy_scheduler (kn_system k))) (kn_cpu k)))
| ks_sleep deadline :
    kernel_owned k -> kernel_step k (kn_set_manager k (ktm_sleep_current_until (kn_manager k) deadline).2)
| ks_wait waiters :
    kernel_owned k ->
    kernel_step k (kn_set_manager k (ktm_set_scheduler (kn_manager k)
                     (block_current_on (ktm_scheduler (kn_manager k)) waiters).1.2))
| ks_wake waiters :
    kernel_owned k ->
    kernel_step k (kn_set_manager k (ktm_set_scheduler (kn_manager k)
                     (wake_one (ktm_scheduler (kn_manager k)) waiters).1.2))
| ks_service now n r c :
    kernel_owned k -> service_pending_timer (sy_runtime (kn_system k)) (kn_cpu k) now = (n, r, c) ->
    kernel_step k (kn_set_cpu (kn_set_system k (set_runtime (kn_system k) r)) c)
| ks_exit :
    kernel_owned k -> kernel_step k (kn_set_manager k (ktm_exit_current (kn_manager k)).2).

Lemma kernel_step_safe k k' : kernel_step k k' -> kernel_inv k -> step_safe k k'.
Proof using Type.
  intros Hstep Hk.
  assert (Howned : kernel_owned k -> kernel_inv k' -> step_safe k k').
  { intros Ho Hi. split; [done|]. intros Hu. by destruct (user_mode_owned k Hu Ho). }
  destruct Hstep as [k' Hs|memory prio entry Hm Hst Hroom|saved d r c Ho Hs Hd|saved d r c Ho Hs Hd|Ho
    |deadline Ho|waiters Ho|waiters Ho|now n r c Ho Hd|Ho].
  - assert (Henter : forall regs, kernel_inv (kn_enter k regs)).
    { intros regs. apply (kernel_same_inv k); [done| |done]. destruct Hk as [[] _ _ _ _]. by split. }
    destruct Hs as [memory stub image launch prio Hok Hroom|p|M HM mapping view kernel_memory regs frame Hargs Hv|regs frame].
    + by apply spawn_user_safe.
    + by apply start_user_safe.
    + destruct (syscall_kernel_safe (E := Empty_set) mapping view kernel_memory (kn_enter k regs) frame) as [_ Hs]; done.
    + destruct (timer_kernel_safe (E := Empty_set) (kn_enter k regs) frame) as [_ Hs]; done.
  - split; [by apply kernel_spawn_inv|]. unfold user_mode, current_user_binding. cbn.
    pose proof (ktm_spawn_spec memory (kn_system k) prio entry (co_sys _ (ki_core _ Hk)) Hm Hroom) as Hsp.
    unfold kr_spawn. destruct (ktm_spawn _ _ _ _) as [[t|e|] m']; [| |done]; unfold sy_scheduler; cbn.
    + by destruct Hsp as (b & base & _ & _ & _ & _ & -> & _).
    + by destruct Hsp as ([_ _ _ ->] & _).
  - apply Howned; [done|]. pose proof (dispatch_kernel_safe k saved Hk Ho Hs) as Hd'. rewrite Hd in Hd'. apply Hd'.
  - apply Howned; [done|]. pose proof (reschedule_kernel_safe k saved Hk Ho Hs) as Hd'. rewrite Hd in Hd'. apply Hd'.
  - apply Howned; [done|]. apply (kernel_same_inv k); [done| |done]. destruct Hk as [[] _ _ _ _]. by split.
  - apply Howned; [done|]. by apply sleep_kernel_inv.
  - apply Howned; [done|]. by apply wait_kernel_inv.
  - apply Howned; [done|]. by apply wake_kernel_inv.
  - apply Howned; [done|]. by apply (service_kernel_inv k now n).
  - apply Howned; [done|]. by apply exit_kernel_inv.
Qed.

Lemma kernel_steps_safe k k' : rtc kernel_step k k' -> kernel_inv k -> step_safe k k'.
Proof using Type.
  induction 1 as [|k k1 k2 Hstep _ IH]; [done|]. intros Hk.
  destruct (kernel_step_safe _ _ Hstep Hk) as [Hk1 Hu1]. destruct (IH Hk1) as [Hk2 Hu2]. split; auto.
Qed.

Lemma bound_kernel_inv r0 runtime self k : kernel_bound r0 runtime self k -> kernel_inv k.
Proof using Type.
  intros Hb. pose proof (kernel_bound_inv _ _ _ _ Hb) as He. destruct Hb as [Hy _].
  split; [by apply entry_core|rewrite Hy; split; constructor|by rewrite Hy|by rewrite Hy|by rewrite Hy].
Qed.
End Invariant.

(** ** Theorems *)

(** C1: the whole kernel, kernel tasks and processes together, keeps its invariant.  From
    the bound runtime, in every state reached by spawning and starting processes,
    spawning kernel tasks, dispatching them voluntarily with any live context saved,
    kernel tasks going to sleep, waiting, waking others and exiting, and taking
    system-call traps and timer interrupts with arbitrary 64-bit registers and frames (a
    write must name pages on which the page-table view returns): scheduler, process
    registry and both execution registries agree, the scheduler's current task is the
    CPU's, and it is a process with its binding or a kernel task with a kernel stack and
    a live context; and no trap, timer interrupt, dispatch, reschedule point or sleep can
    panic from there. *)
Theorem kernel_system_safe `{VirtAddrCrate} r0 runtime self k0 k :
  kernel_bound r0 runtime self k0 -> rtc kernel_step k0 k ->
  kernel_inv k /\
  (forall M (UM : UserMemoryView M) mapping (view : M) kernel_memory regs frame,
     args_ok view regs -> view_ok mapping view kernel_memory ->
     (syscall_entry_rust (E := Empty_set) mapping view kernel_memory (kn_enter k regs) frame).1 <> Panic) /\
  (forall regs frame, (timer_entry_rust (E := Empty_set) (kn_enter k regs) frame).1 <> Panic) /\
  (forall saved, kernel_owned k -> is_initialized saved = true ->
     (dispatch_switch (sy_runtime (kn_system k)) (kn_cpu k) saved).1.1 <> DispatchPanicked /\
     (reschedule_switch (sy_runtime (kn_system k)) (kn_cpu k) saved).1.1 <> Some DispatchPanicked) /\
  (forall deadline, kernel_owned k -> (ktm_sleep_current_until (kn_manager k) deadline).1 <> Panic).
Proof.
  intros Hb Hs. destruct (kernel_steps_safe _ _ Hs (bound_kernel_inv _ _ _ _ Hb)) as [Hk _].
  assert (Henter : forall regs, kernel_inv (kn_enter k regs)).
  { intros regs. apply (kernel_same_inv k); [done| |done]. destruct Hk as [[] _ _ _ _]. by split. }
  split; [done|]. split_and!.
  - intros. by apply syscall_kernel_safe.
  - intros. by apply timer_kernel_safe.
  - intros saved Ho Hi. pose proof (dispatch_kernel_safe k saved Hk Ho Hi) as Hd.
    pose proof (reschedule_kernel_safe k saved Hk Ho Hi) as Hr.
    destruct (dispatch_switch _ _ _) as [[]], (reschedule_switch _ _ _) as [[]]. split; [apply Hd|apply Hr].
  - intros deadline Ho. by apply sleep_kernel_inv.
Qed.

(** C2: processes keep the CPU among themselves.  Once a process owns the CPU, in every
    later state of the whole kernel a process owns it: neither traps nor the timer ever
    hand it to a kernel task, whatever kernel tasks are ready. *)
Theorem processes_keep_cpu `{VirtAddrCrate} k k' :
  kernel_inv k -> user_mode k -> rtc kernel_step k k' ->
  exists t b, current (sy_scheduler (kn_system k')) = Some t /\ ur_get (sy_userspace (kn_system k')) t = Some b /\
    task_kind (sy_scheduler (kn_system k')) t = Some Userspace.
Proof.
  intros Hk Hu Hs. destruct (kernel_steps_safe _ _ Hs Hk) as [Hk' Hu'].
  destruct (Hu' Hu) as [b Hb]. unfold current_user_binding in Hb.
  destruct (current (sy_scheduler (kn_system k'))) as [t|]; [|done]. exists t, b. split; [done|]. split; [done|].
  by rewrite attrs_kind, (ubd_live _ _ _ (si_user _ (co_sys _ (ki_core _ Hk')) t b Hb)).
Qed.

(** ** Two kernel tasks and a process *)
#[local] Existing Instance canonical_virt_addr.

Definition kn_spawn_task (k : Kernel) : Kernel :=
  kn_set_system k (set_runtime (kn_system k) (kr_spawn demo_memory (sy_runtime (kn_system k)) Priority_DEFAULT 77).2).
Definition demo_saved : Context := mkCtx 65536 0 0 0 0 0 0 4096.
Definition kn_dispatch (k : Kernel) : Kernel :=
  let '(_, r, c) := dispatch_switch (sy_runtime (kn_system k)) (kn_cpu k) demo_saved in
  kn_set_cpu (kn_set_system k (set_runtime (kn_system k) r)) c.

(** Both kernel tasks, the first of them dispatched by the boot code. *)
Definition demo_tasks : Kernel := kn_dispatch (kn_spawn_task (kn_spawn_task demo_bound)).

(** A process in front of a kernel task, started. *)
Definition demo_mixed : Kernel := kn_start (kn_spawn_task (kn_spawn demo_bound)) (mkProcessId 0 1).

Lemma spawn_task_step k :
  Z.of_nat (length (tasks (sy_scheduler (kn_system k)))) <= U32_MAX -> kernel_step k (kn_spawn_task k).
Proof. intros Hroom. apply ks_spawn; [apply demo_memory_ok|apply demo_spawn_ok|done]. Qed.

Lemma dispatch_step k : kernel_owned k -> kernel_step k (kn_dispatch k).
Proof.
  intros Ho. unfold kn_dispatch. destruct (dispatch_switch _ _ _) as [[d r] c] eqn:Hd.
  by apply (ks_dispatch _ demo_saved d).
Qed.

Lemma demo_room k :
  (length (tasks (sy_scheduler (kn_system k))) <? 10)%nat = true -> kernel_step k (kn_spawn_task k).
Proof. intros Hl%Nat.ltb_lt. apply spawn_task_step. ulia. Qed.

Lemma demo_tasks_reachable : rtc kernel_step demo_bound demo_tasks.
Proof.
  apply (rtc_l _ _ (kn_spawn_task demo_bound)); [apply demo_room; vm_compute; reflexivity|].
  apply (rtc_l _ _ (kn_spawn_task (kn_spawn_task demo_bound))); [apply demo_room; vm_compute; reflexivity|].
  apply rtc_once, dispatch_step. intros t Ht. vm_compute in Ht. discriminate Ht.
Qed.

Lemma demo_mixed_reachable : rtc kernel_step demo_bound demo_mixed.
Proof.
  apply (rtc_l _ _ (kn_spawn demo_bound)).
  { apply ks_entry, (es_spawn _ demo_memory 77 any_image demo_launch Priority_DEFAULT); [apply demo_spawn_ok|by vm_compute]. }
  apply (rtc_l _ _ (kn_spawn_task (kn_spawn demo_bound))); [apply demo_room; vm_compute; reflexivity|].
  apply rtc_once, ks_entry, es_start.
Qed.

(** A timer interrupt of the first task hands the CPU to the second. *)
Definition demo_task_frame : InterruptReturnFrame := mkReturnFrame 1060000 (fun i => nth i [4660; 8; 514] 0).

Lemma kernel_system_safe_witness :
  kernel_inv demo_tasks /\
  (timer_entry_rust (E := Empty_set) (kn_enter demo_tasks demo_regs) demo_task_frame).1 <> Panic /\
  current (sy_scheduler (kn_system (timer_entry_rust (E := Empty_set) (kn_enter demo_tasks demo_regs) demo_task_frame).2))
    = Some (mkTaskId 1 1).
Proof.
  destruct (kernel_system_safe 0 4096 8192 demo_bound demo_tasks demo_bound_ok demo_tasks_reachable)
    as (Hi & _ & Ht & _).
  split; [exact Hi|]. split; [apply Ht|vm_compute; reflexivity].
Defined.

Lemma processes_keep_cpu_witness :
  exists t b, current (sy_scheduler (kn_system (timer_entry_rust (E := Empty_set) (kn_enter demo_mixed demo_regs) demo_frame).2)) = Some t /\
    ur_get (sy_userspace (kn_system (timer_entry_rust (E := Empty_set) (kn_enter demo_mixed demo_regs) demo_frame).2)) t = Some b.
Proof.
  destruct (processes_keep_cpu demo_mixed
              (timer_entry_rust (E := Empty_set) (kn_enter demo_mixed demo_regs) demo_frame).2)
    as (t & b & Hc & Hb & _).
  - apply (kernel_steps_safe _ _ demo_mixed_reachable), (bound_kernel_inv _ _ _ _ demo_bound_ok).
  - vm_compute. eauto.
  - apply rtc_once, ks_entry, es_timer.
  - exists t, b. split; [exact Hc|exact Hb].
Defined.
