(* ===== verification/Sleeper.v ===== *)
(** * A sleeping kernel task, from its call to its return

    A kernel task calls [sleep_current_until] of [arch/x86_64/kernel_task.rs] and runs on
    until the timer interrupts it.  This file follows every interrupt from there to the
    deadline through the handler of [arch/x86_64/interrupt_entry.rs]: the one that takes
    the CPU from the sleeper, those that find it asleep, and the one that wakes it. *)

From stdpp Require Import base numbers sets relations list options.
From S2P Require Import Apic.
From S2P Require Import Prelude Tasks Queues Scheduler SchedulerInv SchedulerSteps.
From S2P Require Import Syscall Execution KernelTask Runtime Dispatch SystemRuntime InterruptEntry.
From S2P Require Import KernelManager KernelSleep SystemProps Rotation KernelSystem.

Local Open Scope Z_scope.
Local Open Scope rust_scope.

Section Sleeper.
Context `{VirtAddrCrate}.

(** ** What a tick keeps *)
Lemma commit_interrupted_ticks k c : cpu_timer_ticks (commit_interrupted_state k c).2 = cpu_timer_ticks c.
Proof using Type. unfold commit_interrupted_state. repeat (case_match; simplify_eq/=; try done). Qed.

Lemma prepare_dispatch_ticks m c : cpu_timer_ticks (prepare_dispatch m c).2 = cpu_timer_ticks c.
Proof using Type. unfold prepare_dispatch, set_kernel_stack_top. repeat (case_match; simplify_eq/=; try done). Qed.

Lemma handle_timer_ticks k c : cpu_timer_ticks (handle_timer_preemption k c).2 = cpu_timer_ticks c.
Proof using Type.
  unfold handle_timer_preemption. set (c0 := (take_timer_pending c).2).
  assert (H0 : cpu_timer_ticks c0 = cpu_timer_ticks c) by done. rewrite <- H0. clearbody c0.
  destruct (negb _); [done|]. set (k1 := kr_set_manager k _). clearbody k1.
  destruct (next_ready _) as [x|]; [|done]. case_bool_decide; [done|]. case_bool_decide; [done|].
  destruct (preemption_plan _ x) as [plan|]; [|done].
  pose proof (commit_interrupted_ticks k1 c0) as Hc. destruct (commit_interrupted_state k1 c0) as [[[[]|e|] k2] c2]; try done.
  cbn in Hc. rewrite <- Hc. unfold commit_preemption.
  pose proof (prepare_dispatch_ticks (kr_manager k2) c2) as Hl.
  destruct (prepare_dispatch (kr_manager k2) c2) as [[[d|e|] m] c']; cbn in Hl |- *; rewrite <- Hl; try done.
  repeat (case_match; simplify_eq/=; try done).
Qed.

Lemma tick_counts v : 0 <= v < U64_MAX -> fetch_add_u64 v = v + 1.
Proof using Type. intros Hv. apply Z.mod_small. unfold U64_MAX in Hv. lia. Qed.

(** How the handler leaves after what the runtime decided. *)
Definition departure_of (o : InterruptPreemption) : Departure :=
  match o with
  | PreemptToContext context => ToContext context
  | PreemptToKernel state => ToKernelState state
  | ResumeCurrent => ReturnToStub
  end.

Lemma departure_of_continuation b : departure_of (continuation b) = leave_for b.
Proof using Type. unfold continuation, leave_for. by destruct (xb_interrupted b). Qed.

Lemma tick_outcome k p t o r c' :
  kernel_frame t.2 -> cl_current_task (cpu_local (kn_cpu k)) = Some p -> cl_interrupted (cpu_local (kn_cpu k)) = None ->
  cl_system_runtime (cpu_local (kn_cpu k)) = None -> is_Some (cl_runtime (cpu_local (kn_cpu k))) ->
  handle_timer_preemption (sy_runtime (kn_system k)) (captured_cpu (kn_cpu k) p t) = (Ok o, r, c') ->
  exists k', timer_entry_rust (E := Empty_set) (kn_enter k t.1) t.2 = (Ok (departure_of o), k') /\
    sy_runtime (kn_system k') = r /\ kn_cpu k' = c'.
Proof using Type.
  intros Hf Hcpu Hslot Hsys [pointer Hrt] Hh. rewrite (tick_reaches_runtime k p t) by done.
  unfold timer_entry_kernel. cbn [kn_cpu kn_system kn_acked kn_acknowledge kn_set_cpu kn_enter].
  change (cl_runtime (cpu_local (captured_cpu _ _ _))) with (cl_runtime (cpu_local (kn_cpu k))). rewrite Hrt, Hh. destruct o; eexists; by split.
Qed.

(** ** Between two ticks *)

(** [x] with the binding [bx] has the CPU, and [t] sleeps until [deadline] with the
    snapshot [snap] stored in its binding [b]; [now] ticks were counted. *)
Record dozing (k : Kernel) (x : TaskId) (bx : X86ExecutionBinding) (t : TaskId) (b : X86ExecutionBinding)
    (snap : InterruptedState) (deadline now : Z) : Prop := mk_dozing {
  do_manager : manager_ok (kn_manager k);
  do_gate : gate_is_enabled (kr_preemption (sy_runtime (kn_system k))) = true;
  do_current : current (ktm_scheduler (kn_manager k)) = Some x;
  do_ready : ready (ktm_scheduler (kn_manager k)) = [];
  do_sleeps : sleeps (kn_manager k) t deadline;
  do_other : x <> t;
  do_owner : waiting (kn_manager k) (x, bx);
  do_fresh : xb_interrupted bx = None;
  do_sleeper : waiting (kn_manager k) (t, with_interrupted b (Some snap));
  do_free : xb_interrupted b = None;
  do_cpu : cl_current_task (cpu_local (kn_cpu k)) = Some x;
  do_slot : cl_interrupted (cpu_local (kn_cpu k)) = None;
  do_rsp0 : is_Some (cpu_rsp0 (kn_cpu k));
  do_runtime : is_Some (cl_runtime (cpu_local (kn_cpu k)));
  do_system : cl_system_runtime (cpu_local (kn_cpu k)) = None;
  do_now : cpu_timer_ticks (kn_cpu k) = now;
}.

(** A tick hands the CPU from [p], which may have gone to sleep, to the first task that
    is ready once the sleepers are woken; the facts the two hand-overs share. *)
Lemma tick_hands_over k m now p bp x bx t :
  let m1 := (ktm_expire_sleepers m now).2 in
  kn_manager k = m -> fetch_add_u64 (cpu_timer_ticks (kn_cpu k)) = now ->
  manager_ok m -> is_Some (cpu_rsp0 (kn_cpu k)) -> gate_is_enabled (kr_preemption (sy_runtime (kn_system k))) = true ->
  (forall q, current (ktm_scheduler m) = Some q -> q = p) ->
  er_get (ktm_executions m) p = Some bp -> xb_interrupted bp = None ->
  next_ready (ktm_scheduler m1) = Some x -> task_kind (ktm_scheduler m1) x <> Some Userspace -> x <> p ->
  er_get (ktm_executions m) x = Some bx -> resumable bx -> kernel_frame t.2 ->
  cl_current_task (cpu_local (kn_cpu k)) = Some p -> cl_interrupted (cpu_local (kn_cpu k)) = None ->
  cl_system_runtime (cpu_local (kn_cpu k)) = None -> is_Some (cl_runtime (cpu_local (kn_cpu k))) ->
  exists k', timer_entry_rust (E := Empty_set) (kn_enter k t.1) t.2 = (Ok (leave_for bx), k') /\
    manager_ok (kn_manager k') /\ (forall u, task_kind (ktm_scheduler (kn_manager k')) u = task_kind (ktm_scheduler m) u) /\
    gate_is_enabled (kr_preemption (sy_runtime (kn_system k'))) = true /\
    ktm_scheduler (kn_manager k') = (schedule_next (ktm_scheduler m1)).2 /\ ktm_sleepers (kn_manager k') = ktm_sleepers m1 /\
    (forall u, er_get (ktm_executions (kn_manager k')) u =
      if bool_decide (u = x) then Some (with_interrupted bx None)
      else if bool_decide (u = p) then Some (with_interrupted bp (Some (tick_snapshot t)))
      else er_get (ktm_executions m) u) /\
    cl_current_task (cpu_local (kn_cpu k')) = Some x /\ cl_interrupted (cpu_local (kn_cpu k')) = None /\
    is_Some (cpu_rsp0 (kn_cpu k')) /\ is_Some (cl_runtime (cpu_local (kn_cpu k'))) /\
    cl_system_runtime (cpu_local (kn_cpu k')) = None /\ cpu_timer_ticks (kn_cpu k') = now.
Proof using Type.
  intros m1 <- <- Hm Hr Hg Hown Hbp Hfree Hx Hkind Hxp Hbx Hres Hf Hcpu Hslot Hsys Hrt. destruct (tick_valid _ Hf) as [Hv _].
  set (c := captured_cpu (kn_cpu k) p t).
  assert (Hca : captured (sy_runtime (kn_system k)) c p (tick_snapshot t) bp) by by split.
  destruct (expire_kept (kn_manager k) (cpu_timer_ticks c) Hm) as [_ Hc1].
  assert (Hne : current (ktm_scheduler m1) <> Some x) by (intros Heq; by apply Hxp, Hown; rewrite <- Hc1).
  destruct (timer_hands_to_other (sy_runtime (kn_system k)) c p (tick_snapshot t) bp x bx Hm Hr Hg Hca Hx Hkind Hne Hbx Hres Hxp)
    as (r & c' & Hh & [Hs Hsl Hg' Hc' Hci] & Heg).
  pose proof (handle_timer_kept _ c Hm Hr) as Hkept. pose proof (handle_timer_runtime (sy_runtime (kn_system k)) c) as Hrt'.
  pose proof (handle_timer_ticks (sy_runtime (kn_system k)) c) as Hticks. rewrite Hh in Hkept, Hrt', Hticks.
  destruct Hkept as (_ & Hkept & [Hr' _ Hsys' _]); [intros q Hq; by rewrite (Hown q Hq)|].
  destruct (tick_outcome k p t _ _ _ Hf Hcpu Hslot Hsys Hrt Hh) as (k' & Ht & Hsy & Hcp). exists k'.
  rewrite departure_of_continuation in Ht. split; [exact Ht|]. unfold kn_manager. rewrite Hsy, Hcp.
  cbn [snd] in Hrt', Hticks. split_and!; try done.
  - by apply (manager_kept_ok (kn_manager k)).
  - intros u. by rewrite !attrs_kind, (mk_attrs _ _ Hkept).
  - by rewrite Hg'.
  - by rewrite Hrt'.
Qed.

(** The tick that takes the CPU from a task that has gone to sleep. *)
Lemma sleep_tick k t b x bx tick deadline m :
  rotation (sy_runtime (kn_system k)) (kn_cpu k) t b [(x, bx)] -> kernel_frame tick.2 ->
  0 <= cpu_timer_ticks (kn_cpu k) -> cpu_timer_ticks (kn_cpu k) + 1 < deadline <= U64_MAX ->
  ktm_sleep_current_until (kn_manager k) deadline = (Ok t, m) ->
  exists k', timer_entry_rust (E := Empty_set) (kn_enter (kn_set_manager k m) tick.1) tick.2 = (Ok (leave_for bx), k') /\
    dozing k' x (with_interrupted bx None) t b (tick_snapshot tick) deadline (cpu_timer_ticks (kn_cpu k) + 1).
Proof using Type.
  intros [Hm Hg Hc Hq Hsl Hnd [Hb [[Hvb _] Hkt]] Hfr Hw Hcpu Hslot Hrsp Hrt Hsys] Hf H0 Hd Hs. cbn [fst snd] in *.
  apply Forall_singleton in Hw as (Hbx & Hres & Hkx). cbn [fst snd] in *. fold (kn_manager k) in *.
  destruct (owner_falls_asleep (kn_manager k) t deadline Hm Hc Hsl) as (m' & Hs' & Hk & Hsleeps & Hidle & Hready & Hexe).
  rewrite Hs in Hs'. injection Hs' as <-. pose proof (manager_kept_ok _ _ Hm Hk) as Hm'.
  assert (Hxt : x <> t) by (apply NoDup_cons in Hnd as [Hnd _]; intros ->; apply Hnd; left).
  assert (Hkind : forall u, task_kind (ktm_scheduler m) u = task_kind (ktm_scheduler (kn_manager k)) u)
    by (intros u; by rewrite !attrs_kind, (mk_attrs _ _ Hk)).
  destruct (one_sleeper_expires m t deadline (cpu_timer_ticks (kn_cpu k) + 1) Hm' Hsleeps) as (Hc1 & Hk1 & Hcase).
  rewrite decide_False in Hcase by lia. destruct Hcase as [Hr1 Hs1]. rewrite Hready, Hq in Hr1. cbn [fmap list_fmap fst] in Hr1.
  destruct (expire_kept m (cpu_timer_ticks (kn_cpu k) + 1) Hm') as [He1 _]. pose proof (manager_kept_ok _ _ Hm' He1) as Hoe.
  set (m1 := (ktm_expire_sleepers m (cpu_timer_ticks (kn_cpu k) + 1)).2) in *.
  assert (Hx : next_ready (ktm_scheduler m1) = Some x) by (unfold next_ready; by rewrite Hr1).
  pose proof (schedule_next_runs_head _ x (mo_sched _ Hoe) (mo_running _ Hoe) Hx) as Hsn. rewrite Hr1, Hc1, Hidle in Hsn.
  destruct (tick_hands_over (kn_set_manager k m) m (cpu_timer_ticks (kn_cpu k) + 1) t b x bx tick) as
    (k' & Ht & Hok & Hkind' & Hg' & Hsch & Hq' & Heg & Hcpu' & Hslot' & Hrsp' & Hrt' & Hsys' & Hnow); try done.
  - apply tick_counts. lia.
  - by rewrite Hidle.
  - by rewrite Hexe.
  - by rewrite Hk1, Hkind.
  - by rewrite Hexe.
  - exists k'. split; [exact Ht|]. fold m1 in Hsch, Hq'.
    destruct (schedule_next (ktm_scheduler m1)) as [d s']. cbn [snd] in Hsch.
    destruct Hsn as (_ & _ & Hcur & _ & _ & _ & Hrdy & Hst). destruct (tick_valid _ Hf) as [Hv Hi].
    split; try done.
    + by rewrite Hsch.
    + by rewrite Hsch.
    + split; [rewrite Hsch, Hst by done; apply Hs1|by rewrite Hq'; apply Hs1].
    + split; cbn [fst snd]; [by rewrite Heg, bool_decide_true|]. split; [|by rewrite Hkind', Hkind].
      split; [by apply cleared_validates, Hres|done].
    + split; cbn [fst snd]; [by rewrite Heg, bool_decide_false, bool_decide_true|]. split; [|by rewrite Hkind', Hkind].
      split; [by apply stored_validates|by intros st [= <-]].
Qed.

(** A tick that finds the sleeper's deadline still ahead. *)
Lemma doze_tick k x bx t b snap deadline now tick :
  dozing k x bx t b snap deadline now -> kernel_frame tick.2 -> 0 <= now -> now + 1 < deadline <= U64_MAX ->
  exists k', timer_entry_rust (E := Empty_set) (kn_enter k tick.1) tick.2 = (Ok ReturnToStub, k') /\
    dozing k' x bx t b snap deadline (now + 1).
Proof using Type.
  intros [Hm Hg Hc Hq Hsl Hne [Hbx [Hres Hkx]] Hfr [Hbt [Hrest Hkt]] Hbf Hcpu Hslot Hrsp Hrt Hsys Hnow] Hf H0 Hd. cbn [fst snd] in *.
  destruct (one_sleeper_expires (kn_manager k) t deadline (now + 1) Hm Hsl) as (Hc1 & Hk1 & Hcase).
  rewrite decide_False in Hcase by lia. destruct Hcase as [Hr1 Hs1]. rewrite Hq in Hr1.
  destruct (expire_kept (kn_manager k) (now + 1) Hm) as [He1 _]. pose proof (manager_kept_ok _ _ Hm He1) as Hoe.
  pose proof (ktm_expire_executions (kn_manager k) (now + 1)) as Hexe.
  set (m1 := (ktm_expire_sleepers (kn_manager k) (now + 1)).2) in *.
  destruct (tick_outcome k x tick ResumeCurrent (request_reschedule (kr_set_manager (sy_runtime (kn_system k)) m1))
              (discard_interrupted_state (take_timer_pending (captured_cpu (kn_cpu k) x tick)).2)) as (k' & Ht & Hsy & Hcp); try done.
  { unfold handle_timer_preemption. rewrite Hg. cbn [negb].
    change (cpu_timer_ticks _) with (fetch_add_u64 (cpu_timer_ticks (kn_cpu k))). rewrite Hnow, tick_counts by lia.
    change (kr_manager (sy_runtime (kn_system k))) with (kn_manager k). fold m1. cbn [kr_set_manager kr_manager].
    unfold next_ready. by rewrite Hr1. }
  exists k'. split; [exact Ht|].
  assert (Hm1 : kn_manager k' = m1) by (unfold kn_manager; by rewrite Hsy).
  split; rewrite ?Hm1, ?Hsy, ?Hcp; try done.
  - by rewrite Hc1.
  - split; cbn [fst snd]; [by rewrite Hexe|]. split; [done|by rewrite Hk1].
  - split; cbn [fst snd]; [by rewrite Hexe|]. split; [done|by rewrite Hk1].
  - cbn. rewrite Hnow. apply tick_counts. lia.
Qed.

Lemma doze_ticks (ticks : list Tick) : forall k x bx t b snap deadline now,
  dozing k x bx t b snap deadline now -> Forall (fun t => kernel_frame t.2) ticks -> 0 <= now ->
  now + Z.of_nat (length ticks) < deadline <= U64_MAX ->
  exists k', run_ticks k ticks = Some (replicate (length ticks) ReturnToStub, k') /\
    dozing k' x bx t b snap deadline (now + Z.of_nat (length ticks)).
Proof using Type.
  induction ticks as [|tick ticks IH]; intros k x bx t b snap deadline now Hdo Hf H0 Hd.
  { exists k. split; [done|]. by replace (now + Z.of_nat (length (@nil Tick))) with now by (cbn; lia). }
  apply Forall_cons in Hf as [Ht Hf]. cbn [length] in *.
  destruct (doze_tick _ _ _ _ _ _ _ _ tick Hdo Ht H0 ltac:(lia)) as (k1 & Et & Hdo1).
  destruct (IH _ _ _ _ _ _ _ _ Hdo1 Hf ltac:(lia) ltac:(lia)) as (k' & Er & Hdo').
  exists k'. destruct tick as [registers frame]. cbn [fst snd] in Et. cbn [run_ticks]. rewrite Et, Er. split; [done|].
  by replace (now + Z.of_nat (S (length ticks))) with (now + 1 + Z.of_nat (length ticks)) by lia.
Qed.

(** The tick at the deadline. *)
Lemma wake_tick k x bx t b snap deadline now tick :
  dozing k x bx t b snap deadline now -> kernel_frame tick.2 -> 0 <= now -> now + 1 = deadline -> deadline <= U64_MAX ->
  exists k', timer_entry_rust (E := Empty_set) (kn_enter k tick.1) tick.2 = (Ok (ToKernelState snap), k') /\
    rotation (sy_runtime (kn_system k')) (kn_cpu k') t b [(x, with_interrupted bx (Some (tick_snapshot tick)))].
Proof using Type.
  intros [Hm Hg Hc Hq Hsl Hne [Hbx [Hres Hkx]] Hfr [Hbt [Hrest Hkt]] Hbf Hcpu Hslot Hrsp Hrt Hsys Hnow] Hf H0 Hd Hmax. cbn [fst snd] in *.
  destruct (one_sleeper_expires (kn_manager k) t deadline (now + 1) Hm Hsl) as (Hc1 & Hk1 & Hcase).
  rewrite decide_True in Hcase by lia. destruct Hcase as [Hr1 Hs1]. rewrite Hq in Hr1. cbn [app] in Hr1.
  destruct (expire_kept (kn_manager k) (now + 1) Hm) as [He1 _]. pose proof (manager_kept_ok _ _ Hm He1) as Hoe.
  assert (Hx : next_ready (ktm_scheduler (ktm_expire_sleepers (kn_manager k) (now + 1)).2) = Some t) by (unfold next_ready; by rewrite Hr1).
  pose proof (schedule_next_runs_head _ t (mo_sched _ Hoe) (mo_running _ Hoe) Hx) as Hsn. rewrite Hr1, Hc1, Hc in Hsn.
  destruct (tick_hands_over k (kn_manager k) (now + 1) x bx t (with_interrupted b (Some snap)) tick) as
    (k' & Ht & Hok & Hkind' & Hg' & Hsch & Hq' & Heg & Hcpu' & Hslot' & Hrsp' & Hrt' & Hsys' & Hnow'); try done.
  - rewrite Hnow. apply tick_counts. lia.
  - rewrite Hc. by intros q [= <-].
  - by rewrite Hk1.
  - exists k'. split; [exact Ht|].
    destruct (schedule_next _) as [d s']. cbn [snd] in Hsch. destruct Hsn as (_ & _ & Hcur & _ & _ & _ & Hrdy & _). cbn in Hrdy.
    assert (Hb : with_interrupted (with_interrupted b (Some snap)) None = b) by (destruct b; cbn in *; by subst).
    destruct (tick_valid _ Hf) as [Hv Hi]. unfold kn_manager in *.
    split; try done; rewrite ?Hsch, ?Hq'; try done.
    + cbn. apply NoDup_cons. split; [|apply NoDup_singleton]. apply not_elem_of_cons. split; [congruence|apply not_elem_of_nil].
    + split; cbn [fst snd]; [by rewrite Heg, bool_decide_true, Hb|]. split; [|by rewrite Hkind'].
      split; [|by rewrite Hbf]. rewrite <- Hb. apply cleared_validates, Hrest.
    + apply Forall_singleton. split; cbn [fst snd]; [by rewrite Heg, bool_decide_false, bool_decide_true|].
      split; [|by rewrite Hkind']. split; [apply stored_validates; [apply Hres|done]|by intros st [= <-]].
Qed.
End Sleeper.

(** ** Theorem *)

(** C9: A kernel task that goes to sleep while another kernel task waits, with preemption
    enabled, sleeps until its deadline and then continues exactly where it was interrupted.
    The deadline is at least two ticks ahead of the counter.  The first tick, wherever it finds the sleeper,
    hands the CPU to the waiting task; every further tick before the deadline returns to
    that task and leaves the sleeper blocked, in the sleep queue and with its snapshot
    stored; the tick that reaches the deadline returns into the snapshot of the first
    tick, and leaves the two tasks sharing the CPU as before the call, with the sleeper
    running and the interrupted state of the other one stored. *)
Theorem sleeper_resumes `{VirtAddrCrate} k t b x bx deadline (first : Tick) (early : list Tick) :
  rotation (sy_runtime (kn_system k)) (kn_cpu k) t b [(x, bx)] ->
  0 <= cpu_timer_ticks (kn_cpu k) -> cpu_timer_ticks (kn_cpu k) + 1 + Z.of_nat (length early) < deadline <= U64_MAX ->
  kernel_frame first.2 -> Forall (fun tick => kernel_frame tick.2) early ->
  exists m k1, ktm_sleep_current_until (kn_manager k) deadline = (Ok t, m) /\
    run_ticks (kn_set_manager k m) (first :: early) = Some (leave_for bx :: replicate (length early) ReturnToStub, k1) /\
    current (sy_scheduler (kn_system k1)) = Some x /\ cl_current_task (cpu_local (kn_cpu k1)) = Some x /\
    state (sy_scheduler (kn_system k1)) t = Some Blocked /\
    ktm_sleepers (kn_manager k1) = [SleepEntry_new deadline t] /\
    er_get (ktm_executions (kn_manager k1)) t = Some (with_interrupted b (Some (tick_snapshot first))) /\
    forall last, kernel_frame last.2 -> cpu_timer_ticks (kn_cpu k) + 2 + Z.of_nat (length early) = deadline ->
      exists k2, run_ticks k1 [last] = Some ([ToKernelState (tick_snapshot first)], k2) /\
        rotation (sy_runtime (kn_system k2)) (kn_cpu k2) t b [(x, with_interrupted bx (Some (tick_snapshot last)))].
Proof.
  intros Hro H0 Hd Hf He.
  destruct (owner_falls_asleep _ t deadline (ro_manager _ _ _ _ _ Hro) (ro_current _ _ _ _ _ Hro) (ro_sleepers _ _ _ _ _ Hro))
    as (m & Hs & _). fold (kn_manager k) in Hs.
  destruct (sleep_tick k t b x bx first deadline m Hro Hf H0 ltac:(lia) Hs) as (k0 & Et & Hdo).
  destruct (doze_ticks early _ _ _ _ _ _ _ _ Hdo He ltac:(lia) ltac:(lia)) as (k1 & Er & Hdo1).
  exists m, k1. split; [exact Hs|]. split.
  { destruct first as [registers frame]. cbn [fst snd] in Et. cbn [run_ticks]. by rewrite Et, Er. }
  pose proof Hdo1 as [_ _ Hc _ [Hbl Hq] _ _ _ [Hbt _] _ Hcpu _ _ _ _ _]. split_and!; try done.
  intros last Hl Hdl.
  destruct (wake_tick _ _ _ _ _ _ _ _ last Hdo1 Hl ltac:(lia) ltac:(lia) ltac:(lia)) as (k2 & El & Hro2).
  exists k2. split; [destruct last; cbn [fst snd] in El; cbn [run_ticks]; by rewrite El|]. by destruct bx.
Qed.

(** ** Two tasks, five ticks *)
#[local] Existing Instance canonical_virt_addr.

Lemma sleeper_resumes_witness :
  exists m k1 k2, ktm_sleep_current_until (kn_manager demo_rotation) 5 = (Ok (mkTaskId 0 1), m) /\
    run_ticks (kn_set_manager demo_rotation m) (demo_tick <$> [1; 2; 3; 4]) =
      Some ([ToContext (xb_context demo_binding2); ReturnToStub; ReturnToStub; ReturnToStub], k1) /\
    run_ticks k1 [demo_tick 5] = Some ([ToKernelState (tick_snapshot (demo_tick 1))], k2).
Proof.
  assert (Hk : forall i, 0 <= i -> kernel_frame (demo_tick i).2).
  { intros i Hi. split; cbn; unfold SAME_CPL_FRAME_BYTES, U64_MAX; try done; lia. }
  destruct (sleeper_resumes demo_rotation (mkTaskId 0 1) demo_kernel_binding (mkTaskId 1 1) demo_binding2 5
              (demo_tick 1) (demo_tick <$> [2; 3; 4])) as (m & k1 & Hs & Hr & _ & _ & _ & _ & _ & Hlast);
    [exact demo_in_rotation|vm_compute; discriminate|vm_compute; split; [reflexivity|discriminate]|by apply Hk| |].
  { repeat (apply Forall_cons; split; [by apply Hk|]). by apply Forall_nil. }
  destruct (Hlast (demo_tick 5)) as (k2 & Hw & _); [by apply Hk|vm_compute; reflexivity|].
  exists m, k1, k2. split; [exact Hs|]. split; [exact Hr|exact Hw].
Defined.
