(* ===== verification/PageWalk.v ===== *)
(** * The active page tables ([arch/x86_64/user_memory.rs])

    [X86ActiveUserMemory], the view of the current address space behind the
    user-copy code: a walk over the four levels of page tables in the kernel's own
    memory, with large pages at the second and third level.

    The [x86_64] crate is a parameter: the bits of a table entry ([PagingCrate], with
    the laws [PagingLaws] of its documentation), and on which addresses
    [VirtAddr::new] returns ([VirtAddrLaw]: exactly the canonical ones). *)

From stdpp Require Import base numbers sets list options.
From S2P Require Import Prelude Abi Tasks Memory UserCopy Syscall Process Execution UserExecution KernelTask.
From S2P Require Import SystemRuntime InterruptEntry.

Local Open Scope Z_scope.
Local Open Scope rust_scope.

(** ** The crate *)
Class PagingCrate := {
  (** [entry.flags().contains(..)] *)
  entry_present : Z -> bool;
  entry_user : Z -> bool;
  entry_writable : Z -> bool;
  entry_no_execute : Z -> bool;
  entry_huge : Z -> bool;
  (** [entry.addr().as_u64()] *)
  entry_addr : Z -> Z;
  (** [page.p4_index()] to [page.p1_index()], of a page number *)
  page_index : nat -> Z -> Z;
}.

Class PagingLaws `{PagingCrate} : Prop := {
  entry_addr_range : forall e, 0 <= entry_addr e < 2 ^ 52;
  entry_addr_aligned : forall e, entry_addr e mod PAGE_SIZE_4K = 0;
}.

(** An address whose bits 47 to 63 are equal. *)
Definition is_canonical (a : Z) : bool := (a <? 2 ^ 47) || (2 ^ 64 - 2 ^ 47 <=? a).

Class VirtAddrLaw `{VirtAddrCrate} : Prop := {
  virt_addr_canonical : forall a, is_u64 a -> virt_addr_new_ok a = is_canonical a;
}.

(** ** The view *)

(** [xu_table] is the kernel address of the level-4 table, [xu_memory] the kernel's
    memory, through which every table is read. *)
Record X86ActiveUserMemory := mkActive {
  xu_table : Z;
  xu_physical_offset : Z;
  xu_address_space : VirtRange;
  xu_memory : Z -> Z;
}.

Definition X86ActiveUserMemory_current {E} (cr3 : Z) (memory : Z -> Z) (physical_offset : Z)
  : result E X86ActiveUserMemory :=
  match checked_add cr3 physical_offset, VirtRange_new USER_SPACE_START KERNEL_SPACE_START with
  | Some table_address, Some range => Ok (mkActive table_address physical_offset range memory)
  | _, _ => Panic
  end.

(** [&table\[index\]]: entries are little-endian 64-bit words. *)
Definition entry_at (memory : Z -> Z) (table index : Z) : Z :=
  from_le_bytes (bytes_at memory (table + 8 * index) 8).

(** The flags [flags] collects; it always sets [PRESENT]. *)
Record WalkFlags := mkWalkFlags { wf_user : bool; wf_writable : bool; wf_no_execute : bool }.

Definition LEVELS : list nat := [0%nat; 1%nat; 2%nat; 3%nat].

Section Walk.
Context `{PagingCrate}.

(** A leaf of the walk: the last level, or a large page. *)
Definition is_leaf (level : nat) (entry : Z) : bool :=
  bool_decide (level = 3%nat) ||
  ((bool_decide (level = 1%nat) || bool_decide (level = 2%nat)) && entry_huge entry).

Fixpoint flags_loop (levels : list nat) (v : X86ActiveUserMemory) (page table : Z)
    (user writable nx : bool) : option WalkFlags :=
  match levels with
  | [] => None
  | level :: levels =>
      let entry := entry_at (xu_memory v) table (page_index level page) in
      if negb (entry_present entry) then None else
      let user := user && entry_user entry in
      let writable := writable && entry_writable entry in
      let nx := nx || entry_no_execute entry in
      if is_leaf level entry then Some (mkWalkFlags user writable nx)
      else
        next ← checked_add (xu_physical_offset v) (entry_addr entry);
        flags_loop levels v page next user writable nx
  end.

Fixpoint translate_loop (levels : list nat) (v : X86ActiveUserMemory) (virtual_address page table : Z)
  : option Z :=
  match levels with
  | [] => None
  | level :: levels =>
      let entry := entry_at (xu_memory v) table (page_index level page) in
      if negb (entry_present entry) then None else
      if bool_decide (level = 3%nat)
      then checked_add (entry_addr entry) (Z.land virtual_address 4095)
      else if (bool_decide (level = 1%nat) || bool_decide (level = 2%nat)) && entry_huge entry
      then
        let page_size := if bool_decide (level = 1%nat) then Z.shiftl 1 30 else Z.shiftl 1 21 in
        let mask := page_size - 1 in
        checked_add (entry_addr entry) (Z.land virtual_address mask)
      else
        next ← checked_add (xu_physical_offset v) (entry_addr entry);
        translate_loop levels v virtual_address page next
  end.

Context `{VirtAddrCrate}.

Definition xu_flags (v : X86ActiveUserMemory) (virtual_address : Z) : result Empty_set (option WalkFlags) :=
  if negb (vr_contains (xu_address_space v) virtual_address) then Ok None
  else if virt_addr_new_ok virtual_address
  then Ok (flags_loop LEVELS v (virtual_address / PAGE_SIZE_4K) (xu_table v) true true false)
  else Panic.

Definition xu_translate (v : X86ActiveUserMemory) (virtual_address : Z) : result Empty_set (option Z) :=
  if negb (vr_contains (xu_address_space v) virtual_address) then Ok None
  else if virt_addr_new_ok virtual_address
  then Ok (translate_loop LEVELS v virtual_address (virtual_address / PAGE_SIZE_4K) (xu_table v))
  else Panic.

Definition xu_page_access (v : X86ActiveUserMemory) (virtual_address : Z) : result Empty_set PageAccess :=
  let? flags := xu_flags v virtual_address in
  match flags with
  | None => Ok PageAccess_unmapped
  | Some flags => Ok (mkAccess true (wf_user flags) true (wf_writable flags) (negb (wf_no_execute flags)))
  end.

#[export] Instance x86_active_user_memory : UserMemoryView X86ActiveUserMemory := {|
  um_translate := xu_translate;
  um_page_access := xu_page_access;
  um_address_space := xu_address_space;
|}.
End Walk.

(** ** The walk as a path

    The entries met from the root table to the leaf, all present. *)
Section Path.
Context `{PagingCrate}.

Fixpoint walk_path (levels : list nat) (v : X86ActiveUserMemory) (page table : Z) : option (list (nat * Z)) :=
  match levels with
  | [] => None
  | level :: levels =>
      let entry := entry_at (xu_memory v) table (page_index level page) in
      if negb (entry_present entry) then None
      else if is_leaf level entry then Some [(level, entry)]
      else next ← checked_add (xu_physical_offset v) (entry_addr entry);
           path ← walk_path levels v page next; Some ((level, entry) :: path)
  end.

(** The bytes a leaf maps. *)
Definition leaf_size (level : nat) : Z :=
  match level with 1%nat => 2 ^ 30 | 2%nat => 2 ^ 21 | _ => 2 ^ 12 end.

Definition path_flags (path : list (nat * Z)) : WalkFlags :=
  mkWalkFlags (forallb (fun x => entry_user x.2) path) (forallb (fun x => entry_writable x.2) path)
    (existsb (fun x => entry_no_execute x.2) path).

Definition path_address (path : list (nat * Z)) (virtual_address : Z) : option Z :=
  '(level, entry) ← last path;
  checked_add (entry_addr entry) (virtual_address mod leaf_size level).

Lemma flags_loop_path levels v page table user writable nx :
  flags_loop levels v page table user writable nx =
  (fun path => mkWalkFlags (user && wf_user (path_flags path)) (writable && wf_writable (path_flags path))
                 (nx || wf_no_execute (path_flags path))) <$> walk_path levels v page table.
Proof using Type.
  revert table user writable nx. induction levels as [|level levels IH]; intros table user writable nx; [done|].
  cbn [flags_loop walk_path]. set (entry := entry_at _ _ _).
  destruct (entry_present entry); cbn [negb]; [|done].
  destruct (is_leaf level entry).
  - cbn. by rewrite !andb_true_r, orb_false_r.
  - destruct (checked_add _ _) as [next|]; [|done]. cbn [mbind option_bind]. rewrite IH.
    destruct (walk_path levels v page next) as [path|]; [|done]. cbn.
    by rewrite !andb_assoc, orb_assoc.
Qed.

Lemma walk_path_nonempty levels v page table path : walk_path levels v page table = Some path -> path <> [].
Proof using Type.
  destruct levels as [|level levels]; [done|]. cbn [walk_path].
  destruct (negb _); [done|]. destruct (is_leaf _ _); [by intros [= <-]|].
  destruct (checked_add _ _) as [next|]; [|done]. cbn [mbind option_bind].
  destruct (walk_path levels v page next); [|done]. by intros [= <-].
Qed.

Lemma translate_loop_path levels v a page table :
  translate_loop levels v a page table = path ← walk_path levels v page table; path_address path a.
Proof using Type.
  revert table. induction levels as [|level levels IH]; intros table; [done|].
  cbn [translate_loop walk_path]. set (entry := entry_at _ _ _).
  destruct (entry_present entry); cbn [negb]; [|done]. unfold is_leaf.
  case_bool_decide as H3; [subst level|]; cbn [orb].
  - cbn [mbind option_bind path_address last leaf_size]. change 4095 with (Z.ones 12).
    by rewrite Z.land_ones by lia.
  - destruct ((bool_decide (level = 1%nat) || bool_decide (level = 2%nat)) && entry_huge entry) eqn:Hh.
    + cbn [mbind option_bind path_address last]. apply andb_true_iff in Hh as [Hl _].
      case_bool_decide as H1; [subst level|].
      * change (Z.shiftl 1 30 - 1) with (Z.ones 30). by rewrite Z.land_ones by lia.
      * apply bool_decide_eq_true in Hl as ->. change (Z.shiftl 1 21 - 1) with (Z.ones 21).
        by rewrite Z.land_ones by lia.
    + destruct (checked_add _ _) as [next|]; [|done]. cbn [mbind option_bind]. rewrite IH.
      destruct (walk_path levels v page next) as [path|] eqn:Hp; [|done]. cbn [mbind option_bind].
      unfold path_address. apply walk_path_nonempty in Hp. by destruct path.
Qed.
End Path.

(** ** What the view promises to the copy code *)
Section View.
Context `{PagingLaws} `{VirtAddrLaw}.

Lemma canonical_page a : is_u64 a -> is_canonical (a / PAGE_SIZE_4K * PAGE_SIZE_4K) = is_canonical a.
Proof using Type.
  intros Ha. unfold is_canonical, PAGE_SIZE_4K. pose proof (Z.div_mod a 4096 ltac:(lia)).
  pose proof (Z.mod_pos_bound a 4096 ltac:(lia)).
  destruct (Z.ltb_spec (a / 4096 * 4096) (2 ^ 47)), (Z.ltb_spec a (2 ^ 47)),
    (Z.leb_spec (2 ^ 64 - 2 ^ 47) (a / 4096 * 4096)), (Z.leb_spec (2 ^ 64 - 2 ^ 47) a); done || lia.
Qed.

(** The user address space, as [current] sets it. *)
Definition user_view (v : X86ActiveUserMemory) : Prop :=
  xu_address_space v = mkVirtRange USER_SPACE_START KERNEL_SPACE_START /\ 0 <= xu_physical_offset v.

Lemma current_user_view {E} cr3 memory offset v :
  0 <= offset -> X86ActiveUserMemory_current (E := E) cr3 memory offset = Ok v ->
  user_view v /\ xu_memory v = memory /\ xu_physical_offset v = offset /\ xu_table v = cr3 + offset.
Proof using Type.
  unfold X86ActiveUserMemory_current. intros Ho.
  destruct (checked_add cr3 offset) as [t|] eqn:Ht; [|done]. apply checked_add_Some in Ht as [-> _].
  cbn. by intros [= <-].
Qed.

(** In the address space, the view follows the walk or panics. *)
Lemma xu_page_access_cases v a :
  user_view v -> is_u64 a -> USER_SPACE_START <= a < KERNEL_SPACE_START ->
  xu_page_access v a =
    if is_canonical a
    then Ok (match walk_path LEVELS v (a / PAGE_SIZE_4K) (xu_table v) with
             | None => PageAccess_unmapped
             | Some path =>
                 mkAccess true (wf_user (path_flags path)) true (wf_writable (path_flags path))
                   (negb (wf_no_execute (path_flags path)))
             end)
    else Panic.
Proof using Type*.
  intros [Hr _] Ha Hin. unfold xu_page_access, xu_flags. rewrite Hr.
  assert (vr_contains (mkVirtRange USER_SPACE_START KERNEL_SPACE_START) a = true) as ->
    by (apply vr_contains_spec; exact Hin). cbn [negb].
  rewrite virt_addr_canonical by done. destruct (is_canonical a); [|done].
  rewrite flags_loop_path. by destruct (walk_path _ _ _ _).
Qed.

Lemma xu_translate_cases v a :
  user_view v -> is_u64 a -> USER_SPACE_START <= a < KERNEL_SPACE_START ->
  xu_translate v a =
    if is_canonical a
    then Ok (path ← walk_path LEVELS v (a / PAGE_SIZE_4K) (xu_table v); path_address path a)
    else Panic.
Proof using Type*.
  intros [Hr _] Ha Hin. unfold xu_translate. rewrite Hr.
  assert (vr_contains (mkVirtRange USER_SPACE_START KERNEL_SPACE_START) a = true) as ->
    by (apply vr_contains_spec; exact Hin). cbn [negb].
  rewrite virt_addr_canonical by done. destruct (is_canonical a); [|done]. by rewrite translate_loop_path.
Qed.

(** Outside the address space nothing is mapped. *)
Lemma xu_outside v a :
  user_view v -> ~ (USER_SPACE_START <= a < KERNEL_SPACE_START) ->
  xu_page_access v a = Ok PageAccess_unmapped /\ xu_translate v a = Ok None.
Proof using Type.
  intros [Hr _] Hout. unfold xu_page_access, xu_flags, xu_translate. rewrite Hr.
  assert (vr_contains (mkVirtRange USER_SPACE_START KERNEL_SPACE_START) a = false) as ->; [|done].
  apply not_true_iff_false. by rewrite vr_contains_spec.
Qed.

Lemma leaf_size_page level : exists k, 12 <= k <= 30 /\ leaf_size level = 2 ^ k.
Proof using Type. destruct level as [|[|[|level]]]; [exists 12|exists 30|exists 21|exists 12]; (split; [lia|done]). Qed.

(** Within a page of 4 KiB the translation moves along. *)
Lemma path_address_shift path a j pa :
  0 <= a -> 0 <= j -> a mod PAGE_SIZE_4K + j < PAGE_SIZE_4K ->
  path_address path a = Some pa -> path_address path (a + j) = Some (pa + j) /\ 0 <= pa.
Proof using Type*.
  unfold path_address, PAGE_SIZE_4K. intros Ha Hj Hlt. destruct (last path) as [[level entry]|]; [|done].
  cbn [mbind option_bind]. destruct (leaf_size_page level) as (k & Hk & ->).
  intros [-> Hle]%checked_add_Some. pose proof (entry_addr_range entry) as Hr.
  assert (Hm : (a + j) mod 2 ^ k = a mod 2 ^ k + j).
  { assert (Hsplit : 2 ^ k = 2 ^ (k - 12) * 4096) by (change 4096 with (2 ^ 12); rewrite <- Z.pow_add_r by lia; f_equal; lia).
    pose proof (Z.pow_pos_nonneg 2 (k - 12) ltac:(lia) ltac:(lia)) as Hpos.
    pose proof (Z.div_mod a (2 ^ k) ltac:(lia)) as Hd. pose proof (Z.mod_pos_bound a (2 ^ k) ltac:(lia)) as Hb.
    symmetry. apply (Z.mod_unique_pos _ _ (a / 2 ^ k)); [|lia]. split; [lia|].
    set (r := a mod 2 ^ k) in *. assert (Hrm : r mod 4096 = a mod 4096).
    { rewrite Hd. rewrite Hsplit at 1. replace (2 ^ (k - 12) * 4096 * (a / 2 ^ k) + r) with (r + 2 ^ (k - 12) * (a / 2 ^ k) * 4096) by lia.
      by rewrite Z.mod_add by lia. }
    pose proof (Z.div_mod r 4096 ltac:(lia)) as Hdr.
    assert (r / 4096 < 2 ^ (k - 12)) by (apply Z.div_lt_upper_bound; lia). nia. }
  pose proof (Z.mod_pos_bound a (2 ^ k) ltac:(lia)). pose proof (Z.mod_pos_bound (a + j) (2 ^ k) ltac:(lia)).
  assert (2 ^ k <= 2 ^ 30) by (apply Z.pow_le_mono_r; lia).
  split; [|lia]. apply checked_add_Some. split; [lia|]. ulia.
Qed.

Lemma path_address_leaf path a : path <> [] -> is_Some (path_address path a).
Proof using Type*.
  intros Hne. unfold path_address. destruct (last path) as [[level entry]|] eqn:Hl.
  - cbn [mbind option_bind]. destruct (leaf_size_page level) as (k & Hk & ->).
    pose proof (entry_addr_range entry). pose proof (Z.mod_pos_bound a (2 ^ k) ltac:(lia)).
    assert (2 ^ k <= 2 ^ 30) by (apply Z.pow_le_mono_r; lia).
    eexists. apply checked_add_Some. split; [done|]. ulia.
  - by apply last_None in Hl.
Qed.

(** The bytes of user memory, through the direct map. *)
Definition user_bytes (v : X86ActiveUserMemory) (a : Z) : Z :=
  match xu_translate v a with Ok (Some pa) => xu_memory v (xu_physical_offset v + pa) | _ => 0 end.

Lemma page_in_space a :
  USER_SPACE_START <= a < KERNEL_SPACE_START ->
  USER_SPACE_START <= a / PAGE_SIZE_4K * PAGE_SIZE_4K < KERNEL_SPACE_START /\ is_u64 a /\
  is_u64 (a / PAGE_SIZE_4K * PAGE_SIZE_4K).
Proof using Type.
  unfold USER_SPACE_START, KERNEL_SPACE_START, PAGE_SIZE_4K. intros Ha.
  pose proof (Z.div_mod a 4096 ltac:(lia)). pose proof (Z.mod_pos_bound a 4096 ltac:(lia)). ulia.
Qed.

Lemma page_outside a :
  ~ (USER_SPACE_START <= a < KERNEL_SPACE_START) ->
  ~ (USER_SPACE_START <= a / PAGE_SIZE_4K * PAGE_SIZE_4K < KERNEL_SPACE_START).
Proof using Type.
  unfold USER_SPACE_START, KERNEL_SPACE_START, PAGE_SIZE_4K. intros Ha.
  pose proof (Z.div_mod a 4096 ltac:(lia)). pose proof (Z.mod_pos_bound a 4096 ltac:(lia)). lia.
Qed.

(** What is readable through the view, and where it panics. *)
Lemma active_readable v a :
  user_view v ->
  (user_readable v a <->
   USER_SPACE_START <= a < KERNEL_SPACE_START /\ is_canonical a = true /\
   exists path, walk_path LEVELS v (a / PAGE_SIZE_4K) (xu_table v) = Some path /\
     forallb (fun x => entry_user x.2) path = true) /\
  (view_panics v a <-> USER_SPACE_START <= a < KERNEL_SPACE_START /\ is_canonical a = false).
Proof using Type*.
  intros Hv. unfold user_readable, view_panics. cbn [um_page_access x86_active_user_memory].
  destruct (decide (USER_SPACE_START <= a < KERNEL_SPACE_START)) as [Hin|Hout].
  - destruct (page_in_space a Hin) as (Hpin & Hu & Hpu). rewrite xu_page_access_cases by done.
    rewrite canonical_page, Z.div_mul by done. destruct (is_canonical a).
    + split; [|split; [done|by intros [_ ?]]].
      destruct (walk_path _ _ _ _) as [path|]; split.
      * intros (x & [= <-] & _ & Hus & _). split; [done|]. split; [done|]. eauto.
      * intros (_ & _ & p & [= <-] & Hus). eexists. split; [done|]. split; [done|]. split; [exact Hus|done].
      * by intros (x & [= <-] & ? & _).
      * by intros (_ & _ & p & ? & _).
    + split; [|done]. split; [by intros (? & ? & _)|by intros (_ & ? & _)].
  - destruct (xu_outside v _ Hv (page_outside a Hout)) as [-> _]. split.
    + split; [by intros (x & [= <-] & ? & _)|tauto].
    + split; [done|tauto].
Qed.

(** The contract of the copy code ([x86_view_ok]) from the laws of the crate. *)
Lemma active_view_ok v m :
  user_view v -> mapping_offset m = xu_physical_offset v ->
  (forall a pa, xu_translate v a = Ok (Some pa) -> xu_physical_offset v + pa <= U64_MAX - PAGE_SIZE_4K) ->
  x86_view_ok (mkX86Copy v m (xu_memory v)) (user_bytes v).
Proof using Type*.
  intros Hv Hoff Hmap. split; cbn [x86_mapper x86_physical_memory x86_kernel_memory]; [|rewrite Hoff; apply Hv].
  intros a Hr. apply active_readable in Hr as (Hin & Hc & path & Hpath & _); [|done].
  destruct (page_in_space a Hin) as (_ & Hu & _).
  destruct (path_address_leaf path a (walk_path_nonempty _ _ _ _ _ Hpath)) as [pa Hpa].
  assert (Htr : xu_translate v a = Ok (Some pa))
    by (rewrite xu_translate_cases by done; rewrite Hc, Hpath; cbn; by rewrite Hpa).
  exists pa. cbn [um_translate x86_active_user_memory].
  destruct (path_address_shift path a 0 pa) as [_ Hpos];
    [unfold USER_SPACE_START in *; lia|lia|pose proof (Z.mod_pos_bound a PAGE_SIZE_4K ltac:(done)); lia|done|].
  split; [done|]. split; [done|]. intros j Hj Hlt. rewrite Hoff.
  pose proof (Hmap a pa Htr) as Hle. pose proof (Z.mod_pos_bound a PAGE_SIZE_4K ltac:(done)) as Hm.
  split; [lia|].
  destruct (path_address_shift path a j pa) as [Hsh _]; [unfold USER_SPACE_START in *; lia|done|done|done|].
  assert (Hpage : (a + j) / PAGE_SIZE_4K = a / PAGE_SIZE_4K).
  { pose proof (Z.div_mod a PAGE_SIZE_4K ltac:(done)). symmetry.
    apply (Z.div_unique _ _ _ (a mod PAGE_SIZE_4K + j)); [left; lia|lia]. }
  assert (Hin' : USER_SPACE_START <= a + j < KERNEL_SPACE_START).
  { split; [lia|]. pose proof (Z.div_mod a PAGE_SIZE_4K ltac:(done)) as Hd.
    assert (a / PAGE_SIZE_4K < KERNEL_SPACE_START / PAGE_SIZE_4K).
    { apply Z.div_lt_upper_bound; [done|].
      change (PAGE_SIZE_4K * (KERNEL_SPACE_START / PAGE_SIZE_4K)) with KERNEL_SPACE_START. apply Hin. }
    change KERNEL_SPACE_START with (PAGE_SIZE_4K * (KERNEL_SPACE_START / PAGE_SIZE_4K)).
    unfold PAGE_SIZE_4K in *. lia. }
  unfold user_bytes. rewrite xu_translate_cases; [|done|apply page_in_space; exact Hin'|done].
  destruct (page_in_space (a + j) Hin') as (_ & Hu' & _).
  assert (is_canonical (a + j) = true) as ->.
  { rewrite <- (canonical_page (a + j) Hu'), Hpage, canonical_page by done. exact Hc. }
  rewrite Hpage, Hpath. cbn [mbind option_bind]. rewrite Hsh. f_equal. lia.
Qed.
End View.

(** C23: what a process can read through the page tables.  A byte is reported
    readable exactly when its address lies in user space, is canonical, and every
    entry from the level-4 table down to its leaf, at the last level or at a large
    page, is present and user accessible; it then translates to the leaf's frame plus
    its offset in a page of the leaf's size.  Access panics exactly on the
    non-canonical addresses of user space. *)
Theorem active_view_exact `{PagingLaws} `{VirtAddrLaw} {E} cr3 memory offset v a :
  0 <= offset -> X86ActiveUserMemory_current (E := E) cr3 memory offset = Ok v ->
  (user_readable v a <->
   USER_SPACE_START <= a < KERNEL_SPACE_START /\ is_canonical a = true /\
   exists path, walk_path LEVELS v (a / PAGE_SIZE_4K) (cr3 + offset) = Some path /\
     forallb (fun x => entry_user x.2) path = true) /\
  (view_panics v a <-> USER_SPACE_START <= a < KERNEL_SPACE_START /\ is_canonical a = false) /\
  (user_readable v a -> exists path level entry,
     walk_path LEVELS v (a / PAGE_SIZE_4K) (cr3 + offset) = Some path /\ last path = Some (level, entry) /\
     um_translate v a = Ok (Some (entry_addr entry + a mod leaf_size level))).
Proof.
  intros Ho Hcur. apply current_user_view in Hcur as (Hv & _ & _ & <-); [|done].
  destruct (active_readable v a Hv) as [Hr Hp]. split; [done|]. split; [done|].
  intros (Hin & Hc & path & Hpath & _)%Hr. destruct (page_in_space a Hin) as (_ & Hu & _).
  pose proof (walk_path_nonempty _ _ _ _ _ Hpath) as Hne.
  destruct (path_address_leaf path a Hne) as [pa Hpa]. pose proof Hpa as Hpa'. unfold path_address in Hpa.
  destruct (last path) as [[level entry]|] eqn:Hl; [|done]. cbn [mbind option_bind] in Hpa.
  apply checked_add_Some in Hpa as [-> _]. exists path, level, entry. split; [done|]. split; [done|].
  cbn [um_translate x86_active_user_memory]. rewrite xu_translate_cases by done. rewrite Hc, Hpath.
  cbn [mbind option_bind]. by rewrite Hpa'.
Qed.

(** The page walk keeps the contract of the user-copy code.  The view of the
    active tables, read through the direct map the copies go through, satisfies
    [x86_view_ok] whenever every frame it translates to lies inside the direct map: so
    the theorems on copies and on the write system call hold of it. *)
Theorem active_view_contract `{PagingLaws} `{VirtAddrLaw} {E} cr3 memory m v :
  0 <= mapping_offset m -> X86ActiveUserMemory_current (E := E) cr3 memory (mapping_offset m) = Ok v ->
  (forall a pa, xu_translate v a = Ok (Some pa) -> mapping_offset m + pa <= U64_MAX - PAGE_SIZE_4K) ->
  x86_view_ok (mkX86Copy v m memory) (user_bytes v).
Proof.
  intros Ho Hcur Hmap. apply current_user_view in Hcur as (Hv & <- & Hoff & _); [|done].
  apply active_view_ok; [done|done|by rewrite Hoff].
Qed.

(** A process can panic the kernel with one system call.  A write request whose
    slice lies in the non-canonical part of what the kernel takes for user space
    passes the range check, and the page check then panics inside the trap. *)
Theorem noncanonical_write_panics `{PagingLaws} `{VirtAddrLaw} {E} cr3 m kernel_memory v k frame :
  let r := kn_registers k in
  entry_inv k -> 0 <= mapping_offset m ->
  X86ActiveUserMemory_current (E := Empty_set) cr3 kernel_memory (mapping_offset m) = Ok v ->
  Z.land (irf_cs frame) 3 = 3 -> req_syscall (request_of r) = Some Write -> sr_rdx r = 0 ->
  2 ^ 47 <= sr_rdi r -> 0 < sr_rsi r -> sr_rdi r + sr_rsi r <= KERNEL_SPACE_START ->
  (syscall_entry_rust (E := E) (Some m) v kernel_memory k frame).1 = Panic.
Proof.
  intros r Hk Ho Hcur Hcs Hreq Hdx Hlo Hlen Hhi.
  apply current_user_view in Hcur as (Hv & _); [|done].
  assert (HK : KERNEL_SPACE_START < U64_MAX) by done.
  assert (Hw : (sys_write_with_memory (mkUserSlice (sr_rdi r) (sr_rsi r)) v (mkX86Copy v m kernel_memory)
                  (mkSerialSink (kn_serial k))).1 = Panic).
  { unfold sys_write_with_memory.
    rewrite validate_slice_ok; cbn [slice_ptr slice_len]; [|ulia|ulia|right; unfold USER_SPACE_START; lia].
    unfold UserSlice_is_empty. cbn [slice_len]. rewrite (proj2 (Z.eqb_neq _ _)) by lia.
    cbn [write_loop slice_ptr slice_len]. rewrite (proj2 (Z.ltb_lt 0 _)) by lia.
    assert (checked_add (sr_rdi r) 0 = Some (sr_rdi r)) as -> by (apply checked_add_Some; ulia). cbv zeta.
    set (c := Z.to_nat _). assert (Hc : 0 < Z.of_nat c <= sr_rsi r) by (unfold c; rewrite length_replicate; unfold BUFFER_LEN; lia).
    unfold copy_from_user. cbn [slice_len].
    assert (length (take c (replicate BUFFER_LEN 0)) = c) as ->
      by (rewrite length_take, length_replicate; unfold c; rewrite length_replicate; lia).
    rewrite Z.eqb_refl. cbn [negb].
    assert (validate_readable_range v (mkUserSlice (sr_rdi r) (Z.of_nat c)) = Panic) as ->; [|done].
    apply validate_readable_range_spec; cbn [slice_ptr slice_len]; [ulia|ulia|]. split.
    - rewrite validate_slice_ok; cbn [slice_ptr slice_len]; [done|ulia|ulia|right; unfold USER_SPACE_START; lia].
    - exists (sr_rdi r). split; [lia|]. split.
      + apply (active_readable v _ Hv). split; [unfold USER_SPACE_START; lia|]. unfold is_canonical.
        rewrite (proj2 (Z.ltb_ge _ _)), (proj2 (Z.leb_gt _ _)); [done| |lia].
        unfold KERNEL_SPACE_START in Hhi. lia.
      + intros b Hb. pose proof (Z.mul_div_le (sr_rdi r) PAGE_SIZE_4K ltac:(done)). lia. }
  unfold syscall_entry_rust. rewrite Hcs. cbn [Z.eqb negb].
  unfold entry_dispatch. destruct (ei_bound k Hk) as [sp ->].
  unfold dispatch_with_memory_and_control_action. fold r. rewrite Hreq. cbn [req_arg2 request_of].
  rewrite Hdx. cbn [Z.eqb negb]. change (req_user_slice (request_of r)) with (mkUserSlice (sr_rdi r) (sr_rsi r)).
  destruct (sys_write_with_memory _ _ _ _) as [res s']. cbn in Hw. by subst res.
Qed.

(** ** Concrete tables

    The architecture's entry format, and one page of user memory at 0x400000. *)
Definition x86_paging : PagingCrate := {|
  entry_present e := Z.testbit e 0;
  entry_writable e := Z.testbit e 1;
  entry_user e := Z.testbit e 2;
  entry_huge e := Z.testbit e 7;
  entry_no_execute e := Z.testbit e 63;
  entry_addr e := e / 4096 mod 2 ^ 40 * 4096;
  page_index level page := page / 512 ^ (3 - Z.of_nat level) mod 512;
|}.

Lemma x86_paging_laws : @PagingLaws x86_paging.
Proof.
  split; cbn; intros e.
  - pose proof (Z.mod_pos_bound (e / 4096) (2 ^ 40) ltac:(lia)). lia.
  - by apply Z.mod_mul.
Qed.

Lemma canonical_virt_addr_law : @VirtAddrLaw canonical_virt_addr.
Proof. by split. Qed.

#[local] Existing Instance x86_paging.
#[local] Existing Instance x86_paging_laws.
#[local] Existing Instance canonical_virt_addr.
#[local] Existing Instance canonical_virt_addr_law.

(** The tables lie at physical 4096, 8192, 12288 and 16384; the page at 32768. *)
Definition walk_word (a : Z) : Z :=
  if a =? 4096 then 8192 + 7 else if a =? 8192 then 12288 + 7 else if a =? 12288 + 16 then 16384 + 7
  else if a =? 16384 then 32768 + 5 else 0.
Definition walk_memory (a : Z) : Z :=
  let p := a - 1048576 in walk_word (p / 8 * 8) / 256 ^ (p mod 8) mod 256.
Definition walk_view : X86ActiveUserMemory :=
  mkActive (4096 + 1048576) 1048576 (mkVirtRange USER_SPACE_START KERNEL_SPACE_START) walk_memory.

Lemma active_view_exact_witness :
  user_readable walk_view 4194305 /\ um_translate walk_view 4194305 = Ok (Some 32769) /\
  ~ user_readable walk_view 8388608 /\ view_panics walk_view (2 ^ 47).
Proof.
  destruct (active_view_exact (E := Empty_set) 4096 walk_memory 1048576 walk_view 4194305) as (Hr & _ & _);
    [discriminate|reflexivity|].
  split; [apply Hr|].
  - split; [unfold USER_SPACE_START, KERNEL_SPACE_START; lia|]. split; [reflexivity|].
    eexists. split; [vm_compute; reflexivity|reflexivity].
  - split; [vm_compute; reflexivity|]. split.
    + intros (x & Hx & Hm & _). vm_compute in Hx. injection Hx as <-. discriminate.
    + vm_compute. reflexivity.
Defined.

Lemma walk_translates a pa : xu_translate walk_view a = Ok (Some pa) -> pa < 2 ^ 53.
Proof.
  unfold xu_translate. destruct (negb _); [done|]. destruct (virt_addr_new_ok a); [|done].
  rewrite translate_loop_path. destruct (walk_path _ _ _ _) as [path|]; [|done]. cbn [mbind option_bind].
  unfold path_address. destruct (last path) as [[level entry]|]; [|done]. cbn [mbind option_bind].
  destruct (leaf_size_page level) as (k & Hk & ->). destruct (checked_add _ _) as [x|] eqn:Hx; [|done].
  apply checked_add_Some in Hx as [-> _]. intros [= <-].
  pose proof (entry_addr_range entry) as Hr. cbn in Hr. pose proof (Z.mod_pos_bound a (2 ^ k) ltac:(lia)).
  assert (2 ^ k <= 2 ^ 30) by (apply Z.pow_le_mono_r; lia). lia.
Qed.

Lemma active_view_contract_witness : x86_view_ok (mkX86Copy walk_view (mkMapping 1048576) walk_memory) (user_bytes walk_view).
Proof.
  apply (active_view_contract (E := Empty_set) 4096 walk_memory (mkMapping 1048576) walk_view);
    [discriminate|reflexivity|].
  intros a pa Hpa. apply walk_translates in Hpa. cbn [mapping_offset]. unfold U64_MAX, PAGE_SIZE_4K. lia.
Defined.

Lemma noncanonical_write_panics_witness :
  (syscall_entry_rust (E := Empty_set) (Some (mkMapping 1048576)) walk_view walk_memory
     (demo_request demo_pair (Syscall_number Write) (2 ^ 47) 1) demo_frame).1 = Panic.
Proof.
  apply (noncanonical_write_panics 4096 (mkMapping 1048576) walk_memory walk_view).
  - apply kn_enter_inv, demo_pair_inv.
  - discriminate.
  - reflexivity.
  - reflexivity.
  - reflexivity.
  - reflexivity.
  - discriminate.
  - reflexivity.
  - discriminate.
Defined.
