(* ===== verification/PageTable.v ===== *)
(** * The page-table backend and process loading

    [arch/x86_64/page_table.rs] over the [x86_64] crate's [OffsetPageTable], the
    level-4 roots of [arch/x86_64/address_space.rs], and
    [arch/x86_64/process_loader.rs], which composes root, mapper, builder and
    population under a checkpoint of the frame allocator.

    The crate's table operations are the class [OffsetPageTable] with the laws
    [OffsetLaws]; [PhysAddrCrate] says on which addresses [PhysAddr::new] returns. *)

From stdpp Require Import base numbers gmap sets list options.
From S2P Require Import Prelude Memory Frames UserCopy Elf LoadPlan Loader AddressSpaceBuilder Populate.
From S2P Require Import Execution UserExecution KernelTask PageWalk.

Local Open Scope Z_scope.
Local Open Scope rust_scope.

(** ** The crate *)
Class PhysAddrCrate := { phys_addr_new_ok : Z -> bool }.

Inductive MapToError := MapFrameAllocationFailed | MapParentEntryHugePage | PageAlreadyMapped (frame : Z).
Inductive UnmapError := UnmapParentEntryHugePage | PageNotMapped | InvalidFrameAddress (address : Z).

(** [OffsetPageTable]: pages are named by their start address.  [map_to] may call the
    frame allocator it is given, whose state it passes through. *)
Class OffsetPageTable (T : Type) := {
  ot_new : (Z -> Z) -> Z -> Z -> T;
  ot_level_4_table : T -> Z;
  ot_phys_offset : T -> Z;
  ot_memory : T -> Z -> Z;
  ot_map_to : forall {A}, (A -> result Empty_set (option Z) * A) -> T -> Z -> Z -> WalkFlags -> A ->
              result MapToError unit * T * A;
  ot_unmap : T -> Z -> result UnmapError Z * T;
  ot_translate_addr : T -> Z -> option Z;
}.

(** The 4 KiB pages a table maps, with their frames and flags.  A failed mapping may
    leave intermediate tables behind, which map nothing.  The crate documents this for
    frame allocators that return unused frames, as the early allocator does
    ([frame_allocator_sound]); the laws leave that condition to their user. *)
Class OffsetLaws (T : Type) `{OffsetPageTable T} (pages : T -> gmap Z (Z * WalkFlags)) : Prop := {
  ol_map_ok : forall A (alloc : A -> result Empty_set (option Z) * A) t page frame flags a t' a',
    ot_map_to alloc t page frame flags a = (Ok tt, t', a') ->
    pages t !! page = None /\ pages t' = <[page := (frame, flags)]> (pages t);
  ol_map_err : forall A (alloc : A -> result Empty_set (option Z) * A) t page frame flags a e t' a',
    ot_map_to alloc t page frame flags a = (Err e, t', a') -> pages t' = pages t;
  ol_unmap : forall t page frame flags, pages t !! page = Some (frame, flags) ->
    exists t', ot_unmap t page = (Ok frame, t') /\ pages t' = delete page (pages t);
}.

Definition map_to_error (e : MapToError) : MappingError :=
  match e with
  | MapFrameAllocationFailed => FrameAllocationFailed
  | MapParentEntryHugePage => ParentEntryHugePage
  | PageAlreadyMapped _ => AlreadyMapped
  end.

Definition unmap_error (e : UnmapError) : MappingError :=
  match e with
  | UnmapParentEntryHugePage => ParentEntryHugePage
  | PageNotMapped => NotMapped
  | InvalidFrameAddress _ => InvalidMappedFrame
  end.

(** ** The mapper *)
Record X86PageTableMapper (T R : Type) := mkMapper {
  xm_inner : T;
  xm_frame_allocator : EarlyFrameAllocator R;
  xm_address_space : VirtRange;
}.
Arguments mkMapper {T R}.
Arguments xm_inner {T R}.
Arguments xm_frame_allocator {T R}.
Arguments xm_address_space {T R}.

Section Mapper.
Context {T R : Type} `{OffsetPageTable T} `{BootRegion R}.
Context `{PagingCrate} `{VirtAddrCrate} `{PhysAddrCrate}.

(** [self.inner.allocate_frame()]; the fuel of the loop is enough, see [Frames]. *)
Definition early_allocate (a : EarlyFrameAllocator R) : option Z * EarlyFrameAllocator R :=
  match allocate_frame a with
  | Some (frame, a) => (frame_start <$> frame, a)
  | None => (None, a)
  end.

(** [PhysFrame::from_start_address(PhysAddr::new(address))]: [PhysAddr::new] may
    panic, and an unaligned address is an error. *)
Definition phys_frame {E} (address : Z) : result E (option Z) :=
  if phys_addr_new_ok address
  then Ok (if address mod PAGE_SIZE_4K =? 0 then Some address else None)
  else Panic.

(** [FrameAllocatorAdapter::allocate_frame] *)
Definition adapter_allocate (a : EarlyFrameAllocator R)
  : result Empty_set (option Z) * EarlyFrameAllocator R :=
  match early_allocate a with
  | (Some frame, a) => (phys_frame frame, a)
  | (None, a) => (Ok None, a)
  end.

Definition new_for_root (memory : Z -> Z) (physical_memory_offset root : Z)
    (allocator : EarlyFrameAllocator R) (address_space : VirtRange) : result MappingError (X86PageTableMapper T R) :=
  let? root_virtual := ok_or (checked_add root physical_memory_offset) BackendFailure in
  if virt_addr_new_ok physical_memory_offset
  then Ok (mkMapper (ot_new memory root_virtual physical_memory_offset) allocator address_space)
  else Panic.

(** The walk is the one of [X86ActiveUserMemory], from this table. *)
Definition mapper_walk (m : X86PageTableMapper T R) : X86ActiveUserMemory :=
  mkActive (ot_level_4_table (xm_inner m)) (ot_phys_offset (xm_inner m)) (xm_address_space m)
    (ot_memory (xm_inner m)).

Definition mapped_flags (m : X86PageTableMapper T R) (virtual_address : Z) : result Empty_set (option WalkFlags) :=
  if negb (vr_contains (xm_address_space m) virtual_address) then Ok None
  else if virt_addr_new_ok virtual_address
  then Ok (flags_loop LEVELS (mapper_walk m) (virtual_address / PAGE_SIZE_4K)
             (ot_level_4_table (xm_inner m)) true true false)
  else Panic.

Definition translate_flags (flags : MappingFlags) (user : bool) : WalkFlags :=
  mkWalkFlags user (flags_writable flags) (negb (flags_executable flags)).

Definition xm_translate (m : X86PageTableMapper T R) (virtual_address : Z) : result Empty_set (option Z) :=
  if negb (vr_contains (xm_address_space m) virtual_address) then Ok None
  else if virt_addr_new_ok virtual_address
  then Ok (ot_translate_addr (xm_inner m) virtual_address)
  else Panic.

Definition xm_page_access (m : X86PageTableMapper T R) (virtual_address : Z) : result Empty_set PageAccess :=
  let? flags := mapped_flags m virtual_address in
  match flags with
  | None => Ok PageAccess_unmapped
  | Some flags => Ok (mkAccess true (wf_user flags) true (wf_writable flags) (negb (wf_no_execute flags)))
  end.

Definition xm_allocate_frame (m : X86PageTableMapper T R) : option Z * X86PageTableMapper T R :=
  let '(frame, a) := early_allocate (xm_frame_allocator m) in
  (frame, mkMapper (xm_inner m) a (xm_address_space m)).

(** The checks [map_page] and [unmap_page] share. *)
Definition page_in_range (m : X86PageTableMapper T R) (page : Page4K) : result MappingError unit :=
  let? range := ok_or (page_range page) InvalidVirtualAddress in
  if (vr_start range <? vr_start (xm_address_space m)) || (vr_end (xm_address_space m) <? vr_end range)
  then Err OutsideAddressSpace else Ok tt.

Definition map_page (m : X86PageTableMapper T R) (page : Page4K) (physical_address : Z) (mapping_flags : MappingFlags)
  : result MappingError unit * X86PageTableMapper T R :=
  match page_in_range m page with
  | Err e => (Err e, m)
  | Panic => (Panic, m)
  | Ok _ =>
      if is_writable_executable mapping_flags then (Err BackendFailure, m) else
      match phys_frame physical_address with
      | Err e => (Err e, m)
      | Panic => (Panic, m)
      | Ok None => (Err InvalidPhysicalAddress, m)
      | Ok (Some frame) =>
          if negb (virt_addr_new_ok (page_start page)) then (Panic, m) else
          let flags := translate_flags mapping_flags (vr_is_user (xm_address_space m)) in
          let '(r, inner, a) :=
            ot_map_to adapter_allocate (xm_inner m) (page_start page) frame flags (xm_frame_allocator m) in
          (map_err map_to_error r, mkMapper inner a (xm_address_space m))
      end
  end.

Definition unmap_page (m : X86PageTableMapper T R) (page : Page4K) : result MappingError Z * X86PageTableMapper T R :=
  match page_in_range m page with
  | Err e => (Err e, m)
  | Panic => (Panic, m)
  | Ok _ =>
      if negb (virt_addr_new_ok (page_start page)) then (Panic, m) else
      let '(r, inner) := ot_unmap (xm_inner m) (page_start page) in
      (map_err unmap_error r, mkMapper inner (xm_frame_allocator m) (xm_address_space m))
  end.

#[export] Instance x86_mapper_view : UserMemoryView (X86PageTableMapper T R) := {|
  um_translate := xm_translate;
  um_page_access := xm_page_access;
  um_address_space := xm_address_space;
|}.

#[export] Instance x86_page_table_mapper : PageTableMapper (X86PageTableMapper T R) := {|
  ptm_allocate_frame := xm_allocate_frame;
  ptm_map_page := map_page;
  ptm_unmap_page := unmap_page;
|}.
End Mapper.



Section Lawful.
Context {T R : Type} `{OffsetLaws T pages} `{BootRegion R}.
Context `{PagingCrate} `{VirtAddrCrate} `{PhysAddrCrate}.

(** A page the mapper can work on. *)
Definition in_reach (range : VirtRange) (page : Z) : Prop :=
  vr_start range <= page /\ page + PAGE_SIZE_4K <= vr_end range /\ page + PAGE_SIZE_4K <= U64_MAX /\
  virt_addr_new_ok page = true.

#[export] Instance in_reach_dec range : forall x : Z * (Z * WalkFlags), Decision (in_reach range x.1).
Proof. intros x. unfold in_reach. apply _. Defined.





End Lawful.

(** ** Level-4 roots ([address_space.rs], [paging.rs]) *)
Inductive AddressSpaceRootError := RootUnaligned | RootAllocationFailed | PhysicalAddressOverflow.

Definition KERNEL_P4_START : Z := 256.
Definition KERNEL_P4_END : Z := 512.

(** [for index in start..end { root\[index\] = active\[index\].clone() }], [n] entries
    from [index] on. *)
Fixpoint copy_entries (n : nat) (index : Z) (memory : Z -> Z) (root active : Z) : Z -> Z :=
  match n with
  | O => memory
  | S n => copy_entries n (index + 1)
             (overwrite memory (root + 8 * index) (bytes_at memory (active + 8 * index) 8)) root active
  end.

Section Roots.
Context {T R : Type} `{OffsetPageTable T} `{BootRegion R}.
Context `{VirtAddrCrate} `{PhysAddrCrate}.

Definition from_physical_address (address : Z) : result AddressSpaceRootError AddressSpaceRoot :=
  let? frame := phys_frame address in
  match frame with Some frame => Ok (mkRoot frame) | None => Err RootUnaligned end.

Definition new_user_root (cr3 : Z) (physical_memory_offset : Z) (allocator : EarlyFrameAllocator R)
    (memory : Z -> Z) : result AddressSpaceRootError AddressSpaceRoot * EarlyFrameAllocator R * (Z -> Z) :=
  match adapter_allocate allocator with
  | (Panic, a) => (Panic, a, memory)
  | (Err e, a) => match e with end
  | (Ok None, a) => (Err RootAllocationFailed, a, memory)
  | (Ok (Some frame), a) =>
      match checked_add frame physical_memory_offset, checked_add cr3 physical_memory_offset with
      | Some root_virtual, Some active_virtual =>
          let memory := overwrite memory root_virtual (replicate 4096 0) in
          (Ok (mkRoot frame), a,
           copy_entries (Z.to_nat (KERNEL_P4_END - KERNEL_P4_START)) KERNEL_P4_START memory root_virtual active_virtual)
      | _, _ => (Err PhysicalAddressOverflow, a, memory)
      end
  end.

(** [paging::init] over the active root, as [X86PageTableMapper::new] calls it. *)
Definition paging_init {E} (cr3 : Z) (memory : Z -> Z) (physical_memory_offset : Z) : result E T :=
  if virt_addr_new_ok physical_memory_offset then
    match checked_add cr3 physical_memory_offset with
    | Some table => Ok (ot_new memory table physical_memory_offset)
    | None => Panic
    end
  else Panic.

Definition X86PageTableMapper_new {E} (cr3 : Z) (memory : Z -> Z) (physical_memory_offset : Z)
    (allocator : EarlyFrameAllocator R) (address_space : VirtRange) : result E (X86PageTableMapper T R) :=
  let? inner := paging_init cr3 memory physical_memory_offset in
  Ok (mkMapper inner allocator address_space).
End Roots.

(** ** Loading a process ([process_loader.rs]) *)
Inductive ProcessLoadError :=
| LoadRoot (e : AddressSpaceRootError)
| LoadMappingFailed (e : MappingError)
| LoadImage (e : PopulationError).

Section Load.
Context {T R : Type} `{OffsetPageTable T} `{BootRegion R}.
Context `{PagingCrate} `{VirtAddrCrate} `{PhysAddrCrate}.

(** The closure: everything before the rollback decision. *)
Definition load_attempt (cr3 : Z) (physical_memory : PhysicalMemoryMapping) (allocator : EarlyFrameAllocator R)
    (memory : Z -> Z) (image : ProcessImage) (elf_bytes : ElfImage)
  : result ProcessLoadError (AddressSpaceRoot * BuiltAddressSpace) * EarlyFrameAllocator R * (Z -> Z) :=
  match new_user_root cr3 (mapping_offset physical_memory) allocator memory with
  | (Err e, a, memory) => (Err (LoadRoot e), a, memory)
  | (Panic, a, memory) => (Panic, a, memory)
  | (Ok root, a, memory) =>
      let spec := pi_address_space image in
      match new_for_root (T := T) memory (mapping_offset physical_memory) (root_physical_address root) a
              (layout_user (spec_layout spec)) with
      | Err e => (Err (LoadMappingFailed e), a, memory)
      | Panic => (Panic, a, memory)
      | Ok mapper =>
          match build_address_space mapper spec image with
          | (Err _, m) => (Err (LoadMappingFailed BackendFailure), xm_frame_allocator m, ot_memory (xm_inner m))
          | (Panic, m) => (Panic, xm_frame_allocator m, ot_memory (xm_inner m))
          | (Ok built, m) =>
              let writer := mkX86Writer physical_memory (ot_memory (xm_inner m)) in
              match PopulatedAddressSpace_populate writer elf_bytes built with
              | (Ok populated, w) => (Ok (root, populated), xm_frame_allocator m, xw_memory w)
              | (Err e, w) => (Err (LoadImage e), xm_frame_allocator m, xw_memory w)
              | (Panic, w) => (Panic, xm_frame_allocator m, xw_memory w)
              end
          end
      end
  end.

Definition load_process_image (cr3 : Z) (physical_memory : PhysicalMemoryMapping)
    (allocator : EarlyFrameAllocator R) (memory : Z -> Z) (image : ProcessImage) (elf_bytes : ElfImage)
  : result ProcessLoadError (AddressSpaceRoot * BuiltAddressSpace) * EarlyFrameAllocator R * (Z -> Z) :=
  let checkpoint := fa_checkpoint allocator in
  match load_attempt cr3 physical_memory allocator memory image elf_bytes with
  | (Err e, a, memory) => (Err e, fa_rollback a checkpoint, memory)
  | (r, a, memory) => (r, a, memory)
  end.
End Load.

(** ** New roots share the kernel half only *)
Lemma bytes_at_lookup mem src n i : (i < n)%nat -> bytes_at mem src n !! i = Some (mem (src + Z.of_nat i)).
Proof.
  revert src i. induction n as [|n IH]; intros src [|i] Hi; [lia|lia|cbn; by rewrite Z.add_0_r|].
  cbn. rewrite IH by lia. do 2 f_equal. lia.
Qed.

Lemma overwrite_copy mem start src n a :
  overwrite mem start (bytes_at mem src n) a =
  if (start <=? a) && (a <? start + Z.of_nat n) then mem (src + (a - start)) else mem a.
Proof.
  unfold overwrite. rewrite bytes_at_length. destruct (_ && _) eqn:Hc; [|done]. to_prop.
  rewrite bytes_at_lookup by lia. cbn. f_equal. lia.
Qed.

Lemma between_spec lo hi a : BoolSpec (lo <= a < hi) (~ (lo <= a < hi)) ((lo <=? a) && (a <? hi)).
Proof. destruct (Z.leb_spec lo a), (Z.ltb_spec a hi); constructor; lia. Qed.

Lemma copy_entries_spec n index mem root active a :
  0 <= index -> root + 4096 <= active \/ active + 4096 <= root -> index + Z.of_nat n <= 512 ->
  copy_entries n index mem root active a =
  if (root + 8 * index <=? a) && (a <? root + 8 * (index + Z.of_nat n)) then mem (active + (a - root)) else mem a.
Proof.
  revert index mem. induction n as [|n IH]; intros index mem Hi Hdis Hle; cbn [copy_entries].
  { destruct (between_spec (root + 8 * index) (root + 8 * (index + Z.of_nat 0)) a); [lia|done]. }
  rewrite IH by lia. rewrite !overwrite_copy.
  destruct (between_spec (root + 8 * (index + 1)) (root + 8 * (index + 1 + Z.of_nat n)) a) as [H1|H1],
    (between_spec (root + 8 * index) (root + 8 * (index + Z.of_nat (S n))) a) as [H2|H2]; try lia.
  - destruct (between_spec (root + 8 * index) (root + 8 * index + Z.of_nat 8) (active + (a - root))); [lia|done].
  - destruct (between_spec (root + 8 * index) (root + 8 * index + Z.of_nat 8) a); [f_equal; lia|lia].
  - destruct (between_spec (root + 8 * index) (root + 8 * index + Z.of_nat 8) a); [lia|done].
Qed.

Lemma entry_at_ext mem mem' table table' i :
  (forall k, 0 <= k < 8 -> mem (table + 8 * i + k) = mem' (table' + 8 * i + k)) ->
  entry_at mem table i = entry_at mem' table' i.
Proof. intros Hk. unfold entry_at. f_equal. apply bytes_at_ext. intros j Hj. apply Hk. lia. Qed.

(** C25: a new address space shares the kernel half and nothing else.  The root that
    [new_user_root] builds in a frame of its own has every user entry empty, every
    kernel entry equal to that of the active root, and no byte outside that frame has
    changed. *)
Theorem new_user_root_isolated {R} `{BootRegion R} `{PhysAddrCrate} cr3 offset (allocator a : EarlyFrameAllocator R)
    memory memory' root :
  new_user_root cr3 offset allocator memory = (Ok root, a, memory') ->
  root_physical_address root + PAGE_SIZE_4K <= cr3 \/ cr3 + PAGE_SIZE_4K <= root_physical_address root ->
  let new := root_physical_address root + offset in
  (forall i, 0 <= i < 256 -> entry_at memory' new i = 0) /\
  (forall i, 256 <= i < 512 -> entry_at memory' new i = entry_at memory (cr3 + offset) i) /\
  (forall x, x < new \/ new + PAGE_SIZE_4K <= x -> memory' x = memory x).
Proof.
  intros Heq Hdis new. unfold new_user_root in Heq.
  destruct (adapter_allocate allocator) as [[[frame|]|[]|] a1]; try done.
  destruct (checked_add frame offset) as [rv|] eqn:Hrv; [|done].
  destruct (checked_add cr3 offset) as [av|] eqn:Hav; [|done].
  apply checked_add_Some in Hrv as [-> _], Hav as [-> _].
  remember (copy_entries _ _ _ _ _) as mem2 eqn:Hcopy. injection Heq as <- _ <-.
  cbn [root_physical_address] in *. unfold PAGE_SIZE_4K in *. subst new.
  assert (Hz : forall x, overwrite memory (frame + offset) (replicate 4096 0) x =
            if (frame + offset <=? x) && (x <? frame + offset + 4096) then 0 else memory x)
    by (intros x; exact (overwrite_zero memory (frame + offset) 4096 x ltac:(lia))).
  set (mem1 := overwrite _ _ _) in *.
  assert (Hall : forall x, mem2 x =
            if (frame + offset + 2048 <=? x) && (x <? frame + offset + 4096)
            then memory (cr3 + offset + (x - (frame + offset))) else mem1 x).
  { intros x. rewrite Hcopy, copy_entries_spec by (unfold KERNEL_P4_START, KERNEL_P4_END; lia).
    change (8 * KERNEL_P4_START) with 2048.
    change (8 * (KERNEL_P4_START + Z.of_nat (Z.to_nat (KERNEL_P4_END - KERNEL_P4_START)))) with 4096.
    destruct (between_spec (frame + offset + 2048) (frame + offset + 4096) x); [|done]. rewrite Hz.
    destruct (between_spec (frame + offset) (frame + offset + 4096) (cr3 + offset + (x - (frame + offset)))); [lia|done]. }
  clear Hcopy. clearbody mem1.
  split; [|split].
  - intros i Hi. unfold entry_at. rewrite (bytes_at_ext _ (fun _ => 0) _ 0); [done|]. intros j Hj.
    rewrite Hall, Hz.
    destruct (between_spec (frame + offset + 2048) (frame + offset + 4096) (frame + offset + 8 * i + Z.of_nat j)); [lia|].
    by destruct (between_spec (frame + offset) (frame + offset + 4096) (frame + offset + 8 * i + Z.of_nat j)); [|lia].
  - intros i Hi. apply entry_at_ext. intros k Hk. rewrite Hall.
    destruct (between_spec (frame + offset + 2048) (frame + offset + 4096) (frame + offset + 8 * i + k)); [|lia].
    f_equal. lia.
  - intros x Hx. rewrite Hall, Hz.
    destruct (between_spec (frame + offset + 2048) (frame + offset + 4096) x); [lia|].
    by destruct (between_spec (frame + offset) (frame + offset + 4096) x); [lia|].
Qed.


(** ** No process can be loaded *)
Section NeverLoads.
Context {M : Type} `{PageTableMapper M}.

Lemma fail_build_not_ok {A} (m : M) load pages count e : is_ok (fail_build (A := A) m load pages count e).1 = false.
Proof using Type.
  unfold fail_build. destruct (rollback_stack m pages count) as [[[]|e'|] m1]; [|done|done].
  by destruct (rollback_load m1 load) as [[[]|e'|] m2].
Qed.

(** A stack whose first page cannot be mapped is never built. *)
Lemma map_stack_not_ok n (m : M) stack load pages count page :
  usp_page stack 0 = Some page ->
  (forall (m : M) frame flags, is_ok (ptm_map_page m page frame flags).1 = false) ->
  is_ok (map_stack (S n) 0 m stack load pages count).1 = false.
Proof using Type.
  intros Hp Hno. cbn [map_stack]. rewrite Hp. destruct (ptm_allocate_frame m) as [[frame|] m1].
  - specialize (Hno m1 frame flags_read_write).
    destruct (ptm_map_page m1 page frame flags_read_write) as [[[]|e|] m2]; [done|apply fail_build_not_ok|done].
  - apply fail_build_not_ok.
Qed.

Lemma build_not_ok (m : M) spec id bytes image :
  build_process_image bytes (AddressSpaceSpec_new id) = Ok image ->
  (forall (m : M) page frame flags, page_start page = vr_start STACK_RANGE ->
     is_ok (ptm_map_page m page frame flags).1 = false) ->
  is_ok (build_address_space m spec image).1 = false.
Proof using Type.
  intros Himg Hno.
  destruct (process_image_parts id bytes image Himg) as (entry & maps & ps & _ & _ & _ & Hstack & Hlen & Hps & _).
  unfold build_address_space. destruct (negb _); [done|].
  destruct (map_load_plan m _) as [[load|e|] m1]; [|done|done]. cbv zeta. rewrite Hstack.
  change (usp_count (mkStackPlan (filled 16 ps) 16 USER_STACK_TOP)) with 16%nat.
  pose proof (map_stack_not_ok 15 m1 (mkStackPlan (filled 16 ps) 16 USER_STACK_TOP) load
                (replicate STACK_PAGES None) 0 (mkPage (vr_start STACK_RANGE))) as Hms.
  destruct (map_stack 16 0 m1 _ load _ 0) as [[[pages count]|e|] m2]; [|done|done].
  exfalso. assert (true = false) as Hx; [|done]. apply Hms.
  - unfold usp_page. cbn [usp_count usp_pages]. rewrite bool_decide_false by lia.
    rewrite filled_lookup by lia. rewrite (Hps 0%nat) by lia. done.
  - intros m' frame flags. by apply Hno.
Qed.
End NeverLoads.

Lemma load_fails {T R} `{OffsetPageTable T} `{BootRegion R} `{PagingCrate} `{VirtAddrLaw}
    `{PhysAddrCrate} cr3 m (allocator : EarlyFrameAllocator R) memory id bytes image elf :
  build_process_image bytes (AddressSpaceSpec_new id) = Ok image ->
  let r := load_process_image (T := T) cr3 m allocator memory image elf in
  is_ok r.1.1 = false /\ (forall e, r.1.1 = Err e -> r.1.2 = allocator).
Proof.
  intros Himg r. unfold r, load_process_image, fa_checkpoint, fa_rollback.
  assert (Hno : is_ok (load_attempt (T := T) cr3 m allocator memory image elf).1.1 = false).
  { unfold load_attempt. destruct (new_user_root _ _ _ _) as [[[root|e|] a] mem]; [|done|done].
    destruct (new_for_root _ _ _ _ _) as [mapper|e|]; [|done|done].
    pose proof (build_not_ok mapper (pi_address_space image) id bytes image Himg) as Hb.
    destruct (build_address_space mapper _ image) as [[built|e|] m1]; [|done|done].
    exfalso. assert (true = false) as Hx; [|done]. apply Hb. intros m' page frame flags Hpage.
    cbn [ptm_map_page x86_page_table_mapper]. unfold map_page.
    destruct (page_in_range m' page) as [[]|e|]; [|done|done].
    destruct (is_writable_executable flags); [done|].
    destruct (phys_frame frame) as [[f|]|e|]; [|done..].
    rewrite Hpage, virt_addr_canonical by (vm_compute; split; discriminate). done. }
  destruct (load_attempt cr3 m allocator memory image elf) as [[[x|e|] a] mem]; [done| |].
  - split; [done|]. by intros e' [= ->].
  - split; [done|]. by intros e'.
Qed.

(** C38: no process image can be loaded, and a failed load gives its frames back.
    Every validated image asks for a stack at the top of user space, in the
    non-canonical hole; mapping its first page panics or fails, so
    [load_process_image] never succeeds on any memory; and when it returns an error
    the frame allocator is exactly as before the call. *)
Theorem load_process_image_never_loads {T R} `{OffsetPageTable T} `{BootRegion R} `{PagingCrate} `{VirtAddrLaw}
    `{PhysAddrCrate} cr3 m (allocator : EarlyFrameAllocator R) memory id bytes image elf :
  build_process_image bytes (AddressSpaceSpec_new id) = Ok image ->
  let r := load_process_image (T := T) cr3 m allocator memory image elf in
  is_ok r.1.1 = false /\ (forall e, r.1.1 = Err e -> r.1.2 = allocator).
Proof. apply load_fails. Qed.

(** ** A concrete table, for evaluation *)
Record FlatTable := mkFlat {
  ft_memory : Z -> Z; ft_level_4 : Z; ft_offset : Z; ft_pages : gmap Z (Z * WalkFlags);
}.

Definition flat_table : OffsetPageTable FlatTable := {|
  ot_new memory table offset := mkFlat memory table offset ∅;
  ot_level_4_table := ft_level_4;
  ot_phys_offset := ft_offset;
  ot_memory := ft_memory;
  ot_map_to A alloc t page frame flags a :=
    match ft_pages t !! page with
    | Some (f, _) => (Err (PageAlreadyMapped f), t, a)
    | None => (Ok tt, mkFlat (ft_memory t) (ft_level_4 t) (ft_offset t) (<[page := (frame, flags)]> (ft_pages t)), a)
    end;
  ot_unmap t page :=
    match ft_pages t !! page with
    | Some (f, _) => (Ok f, mkFlat (ft_memory t) (ft_level_4 t) (ft_offset t) (delete page (ft_pages t)))
    | None => (Err PageNotMapped, t)
    end;
  ot_translate_addr t a := (fun x : Z * WalkFlags => x.1 + a mod 4096) <$> ft_pages t !! (a / 4096 * 4096);
|}.

#[local] Existing Instance flat_table.

Lemma flat_table_laws : OffsetLaws FlatTable ft_pages.
Proof.
  split; cbn.
  - intros A alloc t page frame flags a t' a' Heq. destruct (ft_pages t !! page) as [[f fl]|]; by simplify_eq.
  - intros A alloc t page frame flags a e t' a' Heq. destruct (ft_pages t !! page) as [[f fl]|]; by simplify_eq.
  - intros t page frame flags ->. by eexists.
Qed.

#[local] Existing Instance flat_table_laws.
#[local] Existing Instance x86_paging.
#[local] Existing Instance canonical_virt_addr.
#[local] Existing Instance canonical_virt_addr_law.
Definition phys_addr_52 : PhysAddrCrate := {| phys_addr_new_ok a := a <? 2 ^ 52 |}.
#[local] Existing Instance phys_addr_52.



Definition demo_root_result : result AddressSpaceRootError AddressSpaceRoot * EarlyFrameAllocator DemoRegion * (Z -> Z) :=
  new_user_root 1048576 65536 (EarlyFrameAllocator_new demo_map) (fun a => a mod 97).

Lemma new_user_root_isolated_witness :
  match demo_root_result with
  | (Ok root, _, memory') =>
      entry_at memory' (root_physical_address root + 65536) 255 = 0 /\
      entry_at memory' (root_physical_address root + 65536) 256 = entry_at (fun a => a mod 97) 1114112 256
  | _ => False
  end.
Proof.
  destruct demo_root_result as [[[root|e|] a] memory'] eqn:Heq.
  - destruct (new_user_root_isolated 1048576 65536 (EarlyFrameAllocator_new demo_map) a (fun a => a mod 97) memory' root Heq)
      as (H1 & H2 & _).
    + assert (Hr : match demo_root_result.1.1 with Ok r => root_physical_address r | _ => 0 end <= 65536)
        by (vm_compute; discriminate).
      rewrite Heq in Hr. cbn [fst] in Hr. left. unfold PAGE_SIZE_4K. lia.
    + split; [apply H1; lia|apply (H2 256); lia].
  - apply (f_equal (fun x => is_ok x.1.1)) in Heq. vm_compute in Heq. discriminate.
  - apply (f_equal (fun x => is_ok x.1.1)) in Heq. vm_compute in Heq. discriminate.
Defined.

Definition demo_load (image : ProcessImage) (elf : ElfImage) :=
  load_process_image (T := FlatTable) 1048576 (mkMapping 65536) (EarlyFrameAllocator_new demo_map) (fun a => a mod 97)
    image elf.

Lemma load_process_image_never_loads_witness :
  match demo_image, ElfImage_parse demo_bytes with
  | Ok image, Ok elf => is_ok (demo_load image elf).1.1 = false
  | _, _ => False
  end.
Proof.
  destruct demo_image as [image|e|] eqn:Himg; [|vm_compute in Himg; discriminate..].
  destruct (ElfImage_parse demo_bytes) as [elf|e|] eqn:Helf; [|vm_compute in Helf; discriminate..].
  exact (proj1 (load_process_image_never_loads (T := FlatTable) 1048576 (mkMapping 65536)
                  (EarlyFrameAllocator_new demo_map) (fun a => a mod 97) (mkAsId 1) demo_bytes image elf Himg)).
Defined.
