(* ===== verification/Acpi.v ===== *)
(** * ACPI tables and interrupt routing

    [arch/x86_64/acpi.rs]: the search from the RSDP over the XSDT to the MADT, with
    their checksums, and the MADT parser; [arch/x86_64/irq_routing.rs]: from an ISA
    interrupt to its global system interrupt and I/O APIC.  Firmware tables are bytes
    of the kernel's memory behind the direct map. *)

From stdpp Require Import base numbers sets list sorting options.
From S2P Require Import Prelude Memory UserCopy.

Local Open Scope Z_scope.
Local Open Scope rust_scope.

(** ** Topology *)
Record LocalApicInfo := mkLapic { la_processor_id : Z; la_apic_id : Z; la_flags : Z }.
Record LocalX2ApicInfo := mkX2apic { lx_uid : Z; lx_x2apic_id : Z; lx_flags : Z }.
Record IoApicInfo := mkIoApicInfo { ia_id : Z; ia_address : Z; ia_gsi_base : Z }.
Record InterruptSourceOverride := mkOverride { so_bus : Z; so_source : Z; so_gsi : Z; so_flags : Z }.

Definition la_enabled (a : LocalApicInfo) : bool := negb (Z.land (la_flags a) 1 =? 0).
Definition lx_enabled (a : LocalX2ApicInfo) : bool := negb (Z.land (lx_flags a) 1 =? 0).

Inductive AcpiError :=
| MissingRsdp | InvalidRsdpSignature | InvalidRsdpChecksum | InvalidExtendedChecksum | InvalidTableAddress
| InvalidTableHeader | InvalidTableChecksum | XsdtNotFound | MadtNotFound | TruncatedMadtEntry.

Record ApicTopology := mkTopology {
  at_local_apic_address : Z;
  at_local_apics : list (option LocalApicInfo);
  at_local_x2apics : list (option LocalX2ApicInfo);
  at_io_apics : list (option IoApicInfo);
  at_source_overrides : list (option InterruptSourceOverride);
  at_local_apic_count : nat;
  at_local_x2apic_count : nat;
  at_io_apic_count : nat;
  at_source_override_count : nat;
}.

Definition ApicTopology_empty : ApicTopology :=
  mkTopology 0 (replicate 256 None) (replicate 256 None) (replicate 32 None) (replicate 24 None) 0 0 0 0.

(** ** Reading tables *)

(** [checksum]: the wrapping sum of the bytes. *)
Definition checksum (bytes : list Z) : Z := foldl (fun sum byte => (sum + byte) mod 256) 0 bytes.

Section Read.
Context (memory : Z -> Z) (mapping : PhysicalMemoryMapping).

Definition read_bytes (physical_address length : Z) : result AcpiError (list Z) :=
  let? virtual_address := ok_or (phys_translate mapping physical_address) InvalidTableAddress in
  let? end_ := ok_or (checked_add virtual_address length) InvalidTableAddress in
  if end_ <=? virtual_address then Err InvalidTableAddress
  else Ok (bytes_at memory virtual_address (Z.to_nat length)).
End Read.

(** Indexing and slicing of byte slices; out of bounds is the panic. *)
Definition byte_at {E} (bytes : list Z) (i : Z) : result E Z :=
  match bytes !! Z.to_nat i with Some b => Ok b | None => Panic end.
Definition sub_slice {E} (bytes : list Z) (a b : Z) : result E (list Z) :=
  match slice_getZ bytes a b with Some s => Ok s | None => Panic end.
Definition le_at {E} (bytes : list Z) (a b : Z) : result E Z :=
  let? s := sub_slice bytes a b in Ok (from_le_bytes s).

Definition RSDP_SIGNATURE : list Z := [82; 83; 68; 32; 80; 84; 82; 32].
Definition XSDT_SIGNATURE : list Z := [88; 83; 68; 84].
Definition MADT_SIGNATURE : list Z := [65; 80; 73; 67].
Definition MADT_TYPE_LOCAL_APIC : Z := 0.
Definition MADT_TYPE_IO_APIC : Z := 1.
Definition MADT_TYPE_INTERRUPT_SOURCE_OVERRIDE : Z := 2.
Definition MADT_TYPE_LOCAL_X2APIC : Z := 9.

(** ** The MADT parser *)

(** [if count < array.len() { array\[count\] = Some(x); count += 1 }] *)
Definition array_push {E A} (array : list (option A)) (count : nat) (x : A) : result E (list (option A) * nat) :=
  if bool_decide (count < length array)%nat
  then let? array := array_set array count x in Ok (array, S count)
  else Ok (array, count).

(** The [match entry_type] of the loop body; [entry] is the bytes of the entry. *)
Definition add_entry {E} (t : ApicTopology) (entry_type : Z) (entry : list Z) : result E ApicTopology :=
  let entry_length := Z.of_nat (length entry) in
  if (entry_type =? MADT_TYPE_LOCAL_APIC) && (8 <=? entry_length) then
    let? processor_id := byte_at entry 2 in
    let? apic_id := byte_at entry 3 in
    let? flags := le_at entry 4 8 in
    let? (array, count) := array_push (at_local_apics t) (at_local_apic_count t) (mkLapic processor_id apic_id flags) in
    Ok (mkTopology (at_local_apic_address t) array (at_local_x2apics t) (at_io_apics t) (at_source_overrides t)
          count (at_local_x2apic_count t) (at_io_apic_count t) (at_source_override_count t))
  else if (entry_type =? MADT_TYPE_IO_APIC) && (12 <=? entry_length) then
    let? id := byte_at entry 2 in
    let? address := le_at entry 4 8 in
    let? base := le_at entry 8 12 in
    let? (array, count) := array_push (at_io_apics t) (at_io_apic_count t) (mkIoApicInfo id address base) in
    Ok (mkTopology (at_local_apic_address t) (at_local_apics t) (at_local_x2apics t) array (at_source_overrides t)
          (at_local_apic_count t) (at_local_x2apic_count t) count (at_source_override_count t))
  else if (entry_type =? MADT_TYPE_INTERRUPT_SOURCE_OVERRIDE) && (10 <=? entry_length) then
    let? bus := byte_at entry 2 in
    let? source := byte_at entry 3 in
    let? gsi := le_at entry 4 8 in
    let? flags := le_at entry 8 10 in
    let? (array, count) := array_push (at_source_overrides t) (at_source_override_count t) (mkOverride bus source gsi flags) in
    Ok (mkTopology (at_local_apic_address t) (at_local_apics t) (at_local_x2apics t) (at_io_apics t) array
          (at_local_apic_count t) (at_local_x2apic_count t) (at_io_apic_count t) count)
  else if (entry_type =? MADT_TYPE_LOCAL_X2APIC) && (16 <=? entry_length) then
    let? x2apic_id := le_at entry 4 8 in
    let? flags := le_at entry 8 12 in
    let? uid := le_at entry 12 16 in
    let? (array, count) := array_push (at_local_x2apics t) (at_local_x2apic_count t) (mkX2apic uid x2apic_id flags) in
    Ok (mkTopology (at_local_apic_address t) (at_local_apics t) array (at_io_apics t) (at_source_overrides t)
          (at_local_apic_count t) count (at_io_apic_count t) (at_source_override_count t))
  else Ok t.

(** The [while] loop; every round moves at least two bytes on. *)
Fixpoint madt_loop (fuel : nat) (table : list Z) (offset : Z) (t : ApicTopology) : result AcpiError ApicTopology :=
  match fuel with
  | O => Panic
  | S fuel =>
      let len := Z.of_nat (length table) in
      if offset <? len then
        if len - offset <? 2 then Err TruncatedMadtEntry else
        let? entry_type := byte_at table offset in
        let? entry_length := byte_at table (offset + 1) in
        if (entry_length <? 2) || (len <? offset + entry_length) then Err TruncatedMadtEntry else
        let? entry := sub_slice table offset (offset + entry_length) in
        let? t := add_entry t entry_type entry in
        madt_loop fuel table (offset + entry_length) t
      else Ok t
  end.

Definition parse_madt (table : list Z) : result AcpiError ApicTopology :=
  let? address := le_at table 36 40 in
  let e := ApicTopology_empty in
  madt_loop (S (length table)) table 44
    (mkTopology address (at_local_apics e) (at_local_x2apics e) (at_io_apics e) (at_source_overrides e) 0 0 0 0).

(** ** Discovery *)
Section Discover.
Context (memory : Z -> Z) (mapping : PhysicalMemoryMapping).

(** The loop over the XSDT entries, [n] left from [index] on. *)
Fixpoint xsdt_loop (n : nat) (index : Z) (xsdt : list Z) : result AcpiError ApicTopology :=
  match n with
  | O => Err MadtNotFound
  | S n =>
      let offset := 36 + index * 8 in
      let? table_address := le_at xsdt offset (offset + 8) in
      if table_address =? 0 then xsdt_loop n (index + 1) xsdt else
      let? header := read_bytes memory mapping table_address 36 in
      let? signature := sub_slice header 0 4 in
      if negb (bool_decide (signature = MADT_SIGNATURE)) then xsdt_loop n (index + 1) xsdt else
      let? madt_length := le_at header 4 8 in
      if madt_length <? 44 then Err InvalidTableHeader else
      let? madt := read_bytes memory mapping table_address madt_length in
      if negb (checksum madt =? 0) then Err InvalidTableChecksum else
      parse_madt madt
  end.

Definition discover (rsdp_physical_address : Z) : result AcpiError ApicTopology :=
  if rsdp_physical_address =? 0 then Err MissingRsdp else
  let? rsdp := read_bytes memory mapping rsdp_physical_address 36 in
  let? signature := sub_slice rsdp 0 8 in
  if negb (bool_decide (signature = RSDP_SIGNATURE)) then Err InvalidRsdpSignature else
  let? head := sub_slice rsdp 0 20 in
  if negb (checksum head =? 0) then Err InvalidRsdpChecksum else
  let? revision := byte_at rsdp 15 in
  if revision =? 0 then Err XsdtNotFound else
  let? xsdt_address := le_at rsdp 24 32 in
  if negb (checksum rsdp =? 0) then Err InvalidExtendedChecksum else
  let? xsdt_header := read_bytes memory mapping xsdt_address 36 in
  let? xsdt_signature := sub_slice xsdt_header 0 4 in
  if negb (bool_decide (xsdt_signature = XSDT_SIGNATURE)) then Err InvalidTableHeader else
  let? xsdt_length := le_at xsdt_header 4 8 in
  if xsdt_length <? 36 then Err InvalidTableHeader else
  let? xsdt := read_bytes memory mapping xsdt_address xsdt_length in
  if negb (checksum xsdt =? 0) then Err InvalidTableChecksum else
  xsdt_loop (Z.to_nat ((xsdt_length - 36) / 8)) 0 xsdt.
End Discover.

(** ** Routing *)
Inductive Polarity := PolarityConforms | ActiveHigh | ActiveLow.
Inductive TriggerMode := TriggerConforms | Edge | Level.
Record IrqRoute := mkRoute { ir_isa_irq : Z; ir_gsi : Z; ir_polarity : Polarity; ir_trigger : TriggerMode }.
Inductive IrqRoutingError := UnsupportedBus | InvalidOverrideFlags | NoIoApicForGsi.

Definition IrqRoute_identity (isa_irq : Z) : IrqRoute := mkRoute isa_irq isa_irq PolarityConforms TriggerConforms.

Definition decode_polarity (bits : Z) : option Polarity :=
  if bits =? 0 then Some PolarityConforms else if bits =? 1 then Some ActiveHigh
  else if bits =? 3 then Some ActiveLow else None.
Definition decode_trigger (bits : Z) : option TriggerMode :=
  if bits =? 0 then Some TriggerConforms else if bits =? 1 then Some Edge
  else if bits =? 3 then Some Level else None.

Definition decode_flags (entry : InterruptSourceOverride) : result IrqRoutingError (Polarity * TriggerMode) :=
  let? polarity := ok_or (decode_polarity (Z.land (so_flags entry) 3)) InvalidOverrideFlags in
  let? trigger := ok_or (decode_trigger (Z.land (Z.shiftr (so_flags entry) 2) 3)) InvalidOverrideFlags in
  Ok (polarity, trigger).

(** [max_by_key]: the last of the maximal elements. *)
Fixpoint max_base (best : option (nat * Z)) (l : list (nat * Z)) : option (nat * Z) :=
  match l with
  | [] => best
  | x :: l => max_base (match best with Some b => if x.2 <? b.2 then Some b else Some x | None => Some x end) l
  end.

(** [enumerate().filter_map(..).filter(base <= gsi)] *)
Fixpoint candidates (index : nat) (l : list (option IoApicInfo)) (gsi : Z) : list (nat * Z) :=
  match l with
  | [] => []
  | Some a :: l => if ia_gsi_base a <=? gsi then (index, ia_gsi_base a) :: candidates (S index) l gsi
                   else candidates (S index) l gsi
  | None :: l => candidates (S index) l gsi
  end.

Definition io_apic_index_for_gsi {E} (t : ApicTopology) (gsi : Z) : result E (option nat) :=
  if bool_decide (at_io_apic_count t <= length (at_io_apics t))%nat
  then Ok (fst <$> max_base None (candidates 0 (take (at_io_apic_count t) (at_io_apics t)) gsi))
  else Panic.

(** The [for] loop with its [break]. *)
Fixpoint find_override (l : list InterruptSourceOverride) (isa_irq : Z) : option InterruptSourceOverride :=
  match l with
  | [] => None
  | e :: l => if negb (so_bus e =? 0) || negb (so_source e =? isa_irq) then find_override l isa_irq else Some e
  end.

Definition resolve_isa_irq (t : ApicTopology) (isa_irq : Z) : result IrqRoutingError IrqRoute :=
  if bool_decide (at_source_override_count t <= length (at_source_overrides t))%nat then
    let overrides := array_flatten (take (at_source_override_count t) (at_source_overrides t)) in
    let? route :=
      match find_override overrides isa_irq with
      | None => Ok (IrqRoute_identity isa_irq)
      | Some e => let? (polarity, trigger) := decode_flags e in Ok (mkRoute isa_irq (so_gsi e) polarity trigger)
      end in
    let? index := io_apic_index_for_gsi t (ir_gsi route) in
    match index with None => Err NoIoApicForGsi | Some _ => Ok route end
  else Panic.

(** ** What the parser builds

    The entries of a MADT, their encoding, and what each adds to the topology. *)
Inductive MadtEntry :=
| MLocalApic (a : LocalApicInfo)
| MIoApic (a : IoApicInfo)
| MOverride (o : InterruptSourceOverride)
| MLocalX2Apic (a : LocalX2ApicInfo)
| MOther (entry_type : Z) (payload : list Z).

Fixpoint to_le_bytes (n : nat) (v : Z) : list Z :=
  match n with O => [] | S n => v mod 256 :: to_le_bytes n (v / 256) end.

Definition encode_entry (e : MadtEntry) : list Z :=
  match e with
  | MLocalApic a => [0; 8; la_processor_id a; la_apic_id a] ++ to_le_bytes 4 (la_flags a)
  | MIoApic a => [1; 12; ia_id a; 0] ++ to_le_bytes 4 (ia_address a) ++ to_le_bytes 4 (ia_gsi_base a)
  | MOverride o => [2; 10; so_bus o; so_source o] ++ to_le_bytes 4 (so_gsi o) ++ to_le_bytes 2 (so_flags o)
  | MLocalX2Apic a =>
      [9; 16; 0; 0] ++ to_le_bytes 4 (lx_x2apic_id a) ++ to_le_bytes 4 (lx_flags a) ++ to_le_bytes 4 (lx_uid a)
  | MOther ty payload => [ty; Z.of_nat (length payload) + 2] ++ payload
  end.

Definition entry_wf (e : MadtEntry) : Prop :=
  match e with
  | MLocalApic a => is_u32 (la_flags a)
  | MIoApic a => is_u32 (ia_address a) /\ is_u32 (ia_gsi_base a)
  | MOverride o => is_u32 (so_gsi o) /\ 0 <= so_flags o <= U16_MAX
  | MLocalX2Apic a => is_u32 (lx_x2apic_id a) /\ is_u32 (lx_flags a) /\ is_u32 (lx_uid a)
  | MOther ty payload => ty <> 0 /\ ty <> 1 /\ ty <> 2 /\ ty <> 9
  end.

Definition as_lapic (e : MadtEntry) : option LocalApicInfo := match e with MLocalApic a => Some a | _ => None end.
Definition as_ioapic (e : MadtEntry) : option IoApicInfo := match e with MIoApic a => Some a | _ => None end.
Definition as_override (e : MadtEntry) : option InterruptSourceOverride := match e with MOverride o => Some o | _ => None end.
Definition as_x2apic (e : MadtEntry) : option LocalX2ApicInfo := match e with MLocalX2Apic a => Some a | _ => None end.

(** An array of capacity [n] after the elements [l] were pushed: the first [n]. *)
Definition pushed {A} (n : nat) (l : list A) : list (option A) := filled n (take n l).

(** The topology that the entries [es] of a table with this address describe. *)
Definition topology_of (address : Z) (es : list MadtEntry) : ApicTopology :=
  mkTopology address (pushed 256 (omap as_lapic es)) (pushed 256 (omap as_x2apic es))
    (pushed 32 (omap as_ioapic es)) (pushed 24 (omap as_override es))
    (length (take 256 (omap as_lapic es))) (length (take 256 (omap as_x2apic es)))
    (length (take 32 (omap as_ioapic es))) (length (take 24 (omap as_override es))).

Lemma filled_length {A} n (l : list A) : (length l <= n)%nat -> length (filled n l) = n.
Proof. intros Hl. unfold filled. rewrite length_app, length_fmap, length_replicate. lia. Qed.

Lemma array_push_pushed {E A} n (l : list A) x :
  array_push (E := E) (pushed n l) (length (take n l)) x = Ok (pushed n (l ++ [x]), length (take n (l ++ [x]))).
Proof.
  unfold array_push, pushed. rewrite filled_length by (rewrite length_take; lia).
  rewrite length_take. case_bool_decide as Hc.
  - rewrite (take_ge l) by lia. replace (n `min` length l)%nat with (length l) by lia.
    rewrite filled_set by lia. rewrite take_ge by (rewrite length_app; cbn; lia). f_equal. f_equal.
    rewrite length_app. cbn. lia.
  - assert (take n (l ++ [x]) = take n l) as -> by (rewrite take_app_le; [done|lia]). by rewrite length_take.
Qed.

Lemma from_to_le_bytes n v : 0 <= v < 256 ^ Z.of_nat n -> from_le_bytes (to_le_bytes n v) = v.
Proof.
  revert v. induction n as [|n IH]; intros v Hv; [cbn in *; lia|].
  cbn [to_le_bytes from_le_bytes]. rewrite Nat2Z.inj_succ, Z.pow_succ_r in Hv by lia.
  rewrite IH; [|split; [apply Z.div_pos; lia|apply Z.div_lt_upper_bound; lia]].
  pose proof (Z.div_mod v 256 ltac:(lia)). lia.
Qed.

Lemma to_le_bytes_length n v : length (to_le_bytes n v) = n.
Proof. revert v. induction n as [|n IH]; intros v; cbn; [done|]. by rewrite IH. Qed.

(** Fields of an entry written out byte by byte. *)
Lemma le_at_literal {E} (pre mid post : list Z) (a b : Z) :
  a = Z.of_nat (length pre) -> b = Z.of_nat (length pre + length mid) ->
  le_at (E := E) (pre ++ mid ++ post) a b = Ok (from_le_bytes mid).
Proof.
  intros -> ->. unfold le_at, sub_slice, slice_getZ. rewrite !length_app.
  rewrite (proj2 (Z.leb_le _ _)), (proj2 (Z.leb_le _ _)) by lia. cbn [andb].
  replace (Z.to_nat (Z.of_nat (length pre + length mid) - Z.of_nat (length pre))) with (length mid) by lia.
  by rewrite Nat2Z.id, drop_app_length, take_app_length.
Qed.

(** *** Arbitrary tables *)

(** The bytes of one entry: its second byte is its length. *)
Definition chunk_ok (c : list Z) : Prop := c !! 1%nat = Some (Z.of_nat (length c)).

(** What the parser reads in an entry's bytes. *)
Definition field (c : list Z) (a b : nat) : Z := from_le_bytes (take (b - a) (drop a c)).
Definition decode_entry (c : list Z) : MadtEntry :=
  let ty := c !!! 0%nat in
  if (ty =? 0) && (8 <=? Z.of_nat (length c)) then MLocalApic (mkLapic (c !!! 2%nat) (c !!! 3%nat) (field c 4 8))
  else if (ty =? 1) && (12 <=? Z.of_nat (length c)) then MIoApic (mkIoApicInfo (c !!! 2%nat) (field c 4 8) (field c 8 12))
  else if (ty =? 2) && (10 <=? Z.of_nat (length c))
  then MOverride (mkOverride (c !!! 2%nat) (c !!! 3%nat) (field c 4 8) (field c 8 10))
  else if (ty =? 9) && (16 <=? Z.of_nat (length c)) then MLocalX2Apic (mkX2apic (field c 12 16) (field c 4 8) (field c 8 12))
  else MOther ty (drop 2 c).

Lemma le_at_field {E} c (a b : nat) za zb :
  za = Z.of_nat a -> zb = Z.of_nat b -> (a <= b <= length c)%nat -> le_at (E := E) c za zb = Ok (field c a b).
Proof.
  intros -> -> Hl. unfold le_at, sub_slice, slice_getZ.
  rewrite !(proj2 (Z.leb_le _ _)) by lia. cbn [andb]. unfold field.
  by replace (Z.to_nat (Z.of_nat b - Z.of_nat a)) with (b - a)%nat by lia; rewrite Nat2Z.id.
Qed.

Lemma byte_at_total {E} c (i : nat) zi :
  zi = Z.of_nat i -> (i < length c)%nat -> byte_at (E := E) c zi = Ok (c !!! i).
Proof. intros -> Hl. unfold byte_at. by rewrite Nat2Z.id, (list_lookup_lookup_total_lt c i Hl). Qed.

Lemma topology_of_snoc address es e :
  topology_of address (es ++ [e]) =
  mkTopology address (pushed 256 (omap as_lapic es ++ omap as_lapic [e]))
     (pushed 256 (omap as_x2apic es ++ omap as_x2apic [e]))
     (pushed 32 (omap as_ioapic es ++ omap as_ioapic [e])) (pushed 24 (omap as_override es ++ omap as_override [e]))
     (length (take 256 (omap as_lapic es ++ omap as_lapic [e])))
     (length (take 256 (omap as_x2apic es ++ omap as_x2apic [e])))
     (length (take 32 (omap as_ioapic es ++ omap as_ioapic [e])))
     (length (take 24 (omap as_override es ++ omap as_override [e]))).
Proof. unfold topology_of. by rewrite !omap_app. Qed.

Lemma add_entry_decode {E} address es c :
  add_entry (E := E) (topology_of address es) (c !!! 0%nat) c = Ok (topology_of address (es ++ [decode_entry c])).
Proof.
  rewrite topology_of_snoc. unfold add_entry, decode_entry, MADT_TYPE_LOCAL_APIC, MADT_TYPE_IO_APIC,
    MADT_TYPE_INTERRUPT_SOURCE_OVERRIDE, MADT_TYPE_LOCAL_X2APIC.
  destruct (_ && (8 <=? _)) eqn:H0; [|destruct (_ && (12 <=? _)) eqn:H1;
    [|destruct (_ && (10 <=? _)) eqn:H2; [|destruct (_ && (16 <=? _)) eqn:H9]]]; to_prop;
    rewrite ?(byte_at_total c 2), ?(byte_at_total c 3), ?(le_at_field c 4 8), ?(le_at_field c 8 12),
      ?(le_at_field c 8 10), ?(le_at_field c 12 16) by lia;
    cbn [omap list_omap as_lapic as_ioapic as_override as_x2apic]; rewrite ?app_nil_r; try done;
    unfold topology_of; cbn [at_local_apics at_local_apic_count at_local_x2apics at_local_x2apic_count at_io_apics
      at_io_apic_count at_source_overrides at_source_override_count at_local_apic_address];
    by rewrite array_push_pushed.
Qed.

Lemma decode_encode e : entry_wf e -> decode_entry (encode_entry e) = e.
Proof.
  destruct e as [a|a|o|a|ty payload]; cbn [entry_wf]; intros Hwf.
  - transitivity (MLocalApic (mkLapic (la_processor_id a) (la_apic_id a) (from_le_bytes (to_le_bytes 4 (la_flags a)))));
      [reflexivity|]. rewrite from_to_le_bytes by ulia. by destruct a.
  - transitivity (MIoApic (mkIoApicInfo (ia_id a) (from_le_bytes (to_le_bytes 4 (ia_address a)))
      (from_le_bytes (to_le_bytes 4 (ia_gsi_base a))))); [reflexivity|].
    rewrite !from_to_le_bytes by ulia. by destruct a.
  - transitivity (MOverride (mkOverride (so_bus o) (so_source o) (from_le_bytes (to_le_bytes 4 (so_gsi o)))
      (from_le_bytes (to_le_bytes 2 (so_flags o))))); [reflexivity|].
    rewrite !from_to_le_bytes by ulia. by destruct o.
  - transitivity (MLocalX2Apic (mkX2apic (from_le_bytes (to_le_bytes 4 (lx_uid a)))
      (from_le_bytes (to_le_bytes 4 (lx_x2apic_id a))) (from_le_bytes (to_le_bytes 4 (lx_flags a)))));
      [reflexivity|]. rewrite !from_to_le_bytes by ulia. by destruct a.
  - destruct Hwf as (H0 & H1 & H2 & H9). unfold decode_entry. cbn [encode_entry].
    change (([ty; Z.of_nat (length payload) + 2] ++ payload) !!! 0%nat) with ty.
    by rewrite !(proj2 (Z.eqb_neq ty _)).
Qed.

Lemma encode_chunk e : chunk_ok (encode_entry e).
Proof. destruct e; unfold chunk_ok; cbn; try done. f_equal. lia. Qed.

Lemma sub_slice_literal {E} (pre mid post : list Z) (a b : Z) :
  a = Z.of_nat (length pre) -> b = Z.of_nat (length pre + length mid) ->
  sub_slice (E := E) (pre ++ mid ++ post) a b = Ok mid.
Proof.
  intros -> ->. unfold sub_slice, slice_getZ. rewrite !length_app.
  rewrite (proj2 (Z.leb_le _ _)), (proj2 (Z.leb_le _ _)) by lia. cbn [andb].
  replace (Z.to_nat (Z.of_nat (length pre + length mid) - Z.of_nat (length pre))) with (length mid) by lia.
  by rewrite Nat2Z.id, drop_app_length, take_app_length.
Qed.

Lemma byte_at_mid {E} (pre mid post : list Z) i x :
  mid !! i = Some x -> byte_at (E := E) (pre ++ mid ++ post) (Z.of_nat (length pre + i)) = Ok x.
Proof.
  intros Hi. unfold byte_at. rewrite Nat2Z.id, lookup_app_r by lia.
  replace (length pre + i - length pre)%nat with i by lia. by rewrite (lookup_app_l_Some _ _ _ _ Hi).
Qed.

Lemma chunk_length c : chunk_ok c -> (2 <= length c)%nat.
Proof. intros Hc. apply lookup_lt_Some in Hc. lia. Qed.

Lemma chunks_count cs : Forall chunk_ok cs -> (length cs <= length (concat cs))%nat.
Proof.
  induction 1 as [|c cs Hc _ IH]; [done|]. cbn [concat length]. rewrite length_app.
  apply chunk_length in Hc. lia.
Qed.

(** One round of the loop on a table whose rest starts with an entry. *)
Lemma madt_loop_step fuel address pre c rest es :
  chunk_ok c ->
  madt_loop (S fuel) (pre ++ c ++ rest) (Z.of_nat (length pre)) (topology_of address es) =
  madt_loop fuel ((pre ++ c) ++ rest) (Z.of_nat (length (pre ++ c))) (topology_of address (es ++ [decode_entry c])).
Proof.
  intros Hc. pose proof (chunk_length c Hc). cbn [madt_loop]. rewrite !length_app.
  rewrite (proj2 (Z.ltb_lt _ _)), (proj2 (Z.ltb_ge _ 2)) by lia.
  pose proof (byte_at_mid (E := AcpiError) pre c rest 0 (c !!! 0%nat)
    (list_lookup_lookup_total_lt c 0 ltac:(lia))) as Hb0.
  pose proof (byte_at_mid (E := AcpiError) pre c rest _ _ Hc) as Hb1.
  rewrite Nat.add_0_r in Hb0. replace (Z.of_nat (length pre + 1)) with (Z.of_nat (length pre) + 1) in Hb1 by lia.
  rewrite Hb0, Hb1. cbv iota. rewrite !(proj2 (Z.ltb_ge _ _)) by lia. cbn [orb].
  rewrite sub_slice_literal by lia. cbv iota. rewrite add_entry_decode. cbv iota.
  by rewrite <-!app_assoc, Nat2Z.inj_add.
Qed.

Lemma madt_loop_chunks fuel address pre es cs :
  Forall chunk_ok cs -> (length cs < fuel)%nat ->
  madt_loop fuel (pre ++ concat cs) (Z.of_nat (length pre)) (topology_of address es) =
  Ok (topology_of address (es ++ (decode_entry <$> cs))).
Proof.
  intros Hcs. revert fuel pre es. induction Hcs as [|c cs Hc Hcs IH]; intros [|fuel] pre es Hf; cbn in Hf; try lia.
  - cbn [madt_loop concat fmap list_fmap]. rewrite !app_nil_r. by rewrite (proj2 (Z.ltb_ge _ _)) by lia.
  - cbn [concat]. rewrite madt_loop_step by done. rewrite IH by lia. by rewrite <-app_assoc.
Qed.

(** Bytes that do not split into entries are rejected. *)
Lemma madt_loop_reject fuel address pre es rest :
  (length rest < fuel)%nat -> ~ (exists cs, rest = concat cs /\ Forall chunk_ok cs) ->
  madt_loop fuel (pre ++ rest) (Z.of_nat (length pre)) (topology_of address es) = Err TruncatedMadtEntry.
Proof.
  revert pre es rest. induction fuel as [|fuel IH]; intros pre es rest Hf Hn; [lia|].
  destruct (decide (chunk_ok (take (Z.to_nat (rest !!! 1%nat)) rest))) as [Hc|Hc].
  - rewrite <-(take_drop (Z.to_nat (rest !!! 1%nat)) rest). rewrite madt_loop_step by done. apply IH.
    + rewrite length_drop. apply chunk_length in Hc. rewrite length_take in Hc. lia.
    + intros (cs & Hr & Hcs). apply Hn. eexists (_ :: cs). split; [|by constructor].
      cbn [concat]. by rewrite <-Hr, take_drop.
  - cbn [madt_loop]. rewrite length_app. destruct rest as [|a [|b rest]].
    + destruct Hn. by exists [].
    + cbn [length]. by rewrite (proj2 (Z.ltb_lt _ _)), (proj2 (Z.ltb_lt _ 2)) by lia.
    + pose proof (byte_at_mid (E := AcpiError) pre (a :: b :: rest) [] 0 a eq_refl) as Hb0.
      pose proof (byte_at_mid (E := AcpiError) pre (a :: b :: rest) [] 1 b eq_refl) as Hb1.
      rewrite app_nil_r, Nat.add_0_r in Hb0. rewrite app_nil_r in Hb1.
      replace (Z.of_nat (length pre + 1)) with (Z.of_nat (length pre) + 1) in Hb1 by lia. rewrite Hb0, Hb1.
      set (n := length rest). cbn [length]. fold n.
      rewrite (proj2 (Z.ltb_lt _ _)), (proj2 (Z.ltb_ge _ 2)) by lia. cbv iota.
      destruct (_ || _) eqn:Hg; [done|]. to_prop. exfalso. apply Hc.
      change ((a :: b :: rest) !!! 1%nat) with b. unfold chunk_ok. rewrite lookup_take_lt by lia.
      rewrite length_take. cbn [length]. fold n. cbn. f_equal. lia.
Qed.

Lemma topology_of_nil address :
  topology_of address [] =
  mkTopology address (at_local_apics ApicTopology_empty) (at_local_x2apics ApicTopology_empty)
    (at_io_apics ApicTopology_empty) (at_source_overrides ApicTopology_empty) 0 0 0 0.
Proof. reflexivity. Qed.

(** The table seen as its 44-byte head and the rest. *)
Lemma parse_madt_split table :
  (44 <= length table)%nat ->
  parse_madt table =
  madt_loop (S (length table)) (take 44 table ++ drop 44 table) (Z.of_nat (length (take 44 table)))
    (topology_of (field table 36 40) []).
Proof.
  intros Hl. unfold parse_madt. rewrite (le_at_field table 36 40) by lia. cbv iota.
  rewrite topology_of_nil, take_drop. f_equal. rewrite length_take. lia.
Qed.

Lemma parse_madt_chunks table cs :
  (44 <= length table)%nat -> drop 44 table = concat cs -> Forall chunk_ok cs ->
  parse_madt table = Ok (topology_of (field table 36 40) (decode_entry <$> cs)).
Proof.
  intros Hl Hd Hcs. rewrite parse_madt_split, Hd by done.
  rewrite madt_loop_chunks; [done..|].
  apply chunks_count in Hcs. rewrite <-Hd, length_drop in Hcs. lia.
Qed.

(** C32: Reading back the MADT of any sequence of well-formed entries gives exactly the
    topology they describe: the local APIC address of the header, and for each of the
    four kinds of entry the records in table order up to the array's capacity, with
    entries of other kinds skipped. *)
Theorem madt_roundtrip (head reserved : list Z) (address : Z) (es : list MadtEntry) :
  length head = 36%nat -> length reserved = 4%nat -> is_u32 address -> Forall entry_wf es ->
  parse_madt (head ++ to_le_bytes 4 address ++ reserved ++ concat (encode_entry <$> es)) =
  Ok (topology_of address es).
Proof.
  intros Hh Hr Ha Hwf.
  rewrite (parse_madt_chunks _ (encode_entry <$> es)).
  - f_equal. f_equal.
    + unfold field. rewrite drop_app_length' by done. rewrite take_app_length' by (by rewrite to_le_bytes_length).
      apply from_to_le_bytes. ulia.
    + rewrite <-list_fmap_compose. rewrite <-(list_fmap_id es) at 2. apply Forall_fmap_ext.
      eapply Forall_impl; [exact Hwf|]. intros e He. by apply decode_encode.
  - rewrite !length_app, to_le_bytes_length. lia.
  - rewrite !app_assoc. rewrite drop_app_length'; [done|]. rewrite !length_app, to_le_bytes_length. lia.
  - apply Forall_fmap, Forall_true. intros e. apply encode_chunk.
Qed.

(** The first entry is determined by its length byte. *)
Lemma chunks_first rest cs :
  rest = concat cs -> Forall chunk_ok cs -> rest <> [] ->
  chunk_ok (take (Z.to_nat (rest !!! 1%nat)) rest) /\
  exists cs', drop (Z.to_nat (rest !!! 1%nat)) rest = concat cs' /\ Forall chunk_ok cs'.
Proof.
  intros -> Hcs Hne. destruct Hcs as [|c cs Hc Hcs]; [done|]. cbn [concat].
  pose proof (chunk_length c Hc).
  assert ((c ++ concat cs) !!! 1%nat = Z.of_nat (length c)) as ->.
  { rewrite lookup_total_app_l by lia. by apply list_lookup_total_correct. }
  rewrite Nat2Z.id, take_app_length, drop_app_length. eauto.
Qed.

Lemma chunks_decidable n rest :
  (length rest < n)%nat ->
  (exists cs, rest = concat cs /\ Forall chunk_ok cs) \/ ~ (exists cs, rest = concat cs /\ Forall chunk_ok cs).
Proof.
  revert rest. induction n as [|n IH]; intros rest Hn; [lia|].
  destruct (decide (rest = [])) as [->|Hne]; [left; by exists []|].
  destruct (decide (chunk_ok (take (Z.to_nat (rest !!! 1%nat)) rest))) as [Hc|Hc].
  - destruct (IH (drop (Z.to_nat (rest !!! 1%nat)) rest)) as [(cs & Hd & Hcs)|Hno].
    + rewrite length_drop. apply chunk_length in Hc. rewrite length_take in Hc. lia.
    + left. exists (take (Z.to_nat (rest !!! 1%nat)) rest :: cs). split; [|by constructor].
      cbn [concat]. by rewrite <-Hd, take_drop.
    + right. intros (cs & Hr & Hcs). by destruct (chunks_first rest cs Hr Hcs Hne).
  - right. intros (cs & Hr & Hcs). by destruct (chunks_first rest cs Hr Hcs Hne).
Qed.

Lemma parse_madt_cases (table : list Z) :
  (44 <= length table)%nat ->
  match parse_madt table with
  | Ok t => exists cs, drop 44 table = concat cs /\ Forall chunk_ok cs /\
                       t = topology_of (field table 36 40) (decode_entry <$> cs)
  | Err e => e = TruncatedMadtEntry /\ ~ (exists cs, drop 44 table = concat cs /\ Forall chunk_ok cs)
  | Panic => False
  end.
Proof.
  intros Hl. destruct (chunks_decidable _ (drop 44 table) (Nat.lt_succ_diag_r _)) as [(cs & Hd & Hcs)|Hno].
  - rewrite (parse_madt_chunks table cs) by done. by exists cs.
  - rewrite parse_madt_split, madt_loop_reject; [done|rewrite length_drop; lia|done|done].
Qed.

(** The parser terminates on every table that has its 44-byte head, without a
    panic: the bytes behind the head either split into entries, and then the result is
    the topology of what was read in them, in order and cut at the capacities; or they
    do not, and then the table is rejected as truncated. *)
Theorem parse_madt_total (table : list Z) :
  (44 <= length table)%nat ->
  match parse_madt table with
  | Ok t => exists cs, drop 44 table = concat cs /\ Forall chunk_ok cs /\
                       t = topology_of (field table 36 40) (decode_entry <$> cs)
  | Err e => e = TruncatedMadtEntry /\ ~ (exists cs, drop 44 table = concat cs /\ Forall chunk_ok cs)
  | Panic => False
  end.
Proof. apply parse_madt_cases. Qed.

(** ** Discovery *)
Section DiscoverSpec.
Context (memory : Z -> Z) (mapping : PhysicalMemoryMapping).

(** A system description table at a physical address: its bytes are readable, the length
    field of its head is their number, and they sum to zero. *)
Record acpi_table (physical_address : Z) (signature bytes : list Z) : Prop := mkTable {
  tb_read : read_bytes memory mapping physical_address (Z.of_nat (length bytes)) = Ok bytes;
  tb_signature : take 4 bytes = signature;
  tb_length : field bytes 4 8 = Z.of_nat (length bytes);
  tb_checksum : checksum bytes = 0;
}.

Definition xsdt_entry (xsdt : list Z) (i : nat) : Z := field xsdt (36 + i * 8) (36 + i * 8 + 8).

(** An entry the search passes over: empty, or the head of another table. *)
Definition skipped (p : Z) : Prop :=
  p = 0 \/ exists header, read_bytes memory mapping p 36 = Ok header /\ take 4 header <> MADT_SIGNATURE.

Definition found (p : Z) (t : ApicTopology) : Prop :=
  p <> 0 /\ exists madt, acpi_table p MADT_SIGNATURE madt /\ (44 <= length madt)%nat /\ parse_madt madt = Ok t.

Lemma read_bytes_cases p n :
  0 <= n ->
  match read_bytes memory mapping p n with
  | Ok bytes => length bytes = Z.to_nat n /\
      forall m, n <= m -> forall bytes', read_bytes memory mapping p m = Ok bytes' -> take (Z.to_nat n) bytes' = bytes
  | Err e => e = InvalidTableAddress
  | Panic => False
  end.
Proof using Type.
  intros Hn. unfold read_bytes. destruct (phys_translate mapping p) as [v|]; [cbn [ok_or]|done].
  destruct (checked_add v n) as [e|]; [cbn [ok_or]|done]. case_if; [done|].
  split; [apply bytes_at_length|]. intros m Hm bytes'.
  destruct (checked_add v m); [cbn [ok_or]|done]. case_if; [done|]. intros [= <-].
  replace (Z.to_nat m) with (Z.to_nat n + (Z.to_nat m - Z.to_nat n))%nat by lia.
  rewrite bytes_at_app. apply take_app_length'. by rewrite bytes_at_length.
Qed.

Lemma sub_slice_take {E} bytes (n : nat) :
  (n <= length bytes)%nat -> sub_slice (E := E) bytes 0 (Z.of_nat n) = Ok (take n bytes).
Proof using Type.
  intros Hl. unfold sub_slice, slice_getZ. rewrite !(proj2 (Z.leb_le _ _)) by lia. cbn [andb].
  change (Z.to_nat 0) with 0%nat. by rewrite drop_0, Z.sub_0_r, Nat2Z.id.
Qed.

(** The bytes of a head are those of the table. *)
Lemma field_take bytes n a b : (a <= b <= n)%nat -> field (take n bytes) a b = field bytes a b.
Proof using Type.
  intros Hb. unfold field. f_equal. rewrite take_drop_commute, take_take, take_drop_commute. do 3 f_equal. lia.
Qed.

(** Case analysis on a read: its failure is an [InvalidTableAddress]. *)
Ltac read_step p n bytes Hb Hl :=
  let e := fresh "e" in let Hc := fresh "Hc" in
  pose proof (read_bytes_cases p n ltac:(lia)) as Hc;
  destruct (read_bytes memory mapping p n) as [bytes|e|] eqn:Hb; [destruct Hc as [Hl _]|by subst e|done];
  change (Z.to_nat 36) with 36%nat in Hl.

(** A table read whole behind its head. *)
Lemma table_read p header signature n bytes :
  read_bytes memory mapping p 36 = Ok header -> take 4 header = signature -> field header 4 8 = n -> 36 <= n ->
  read_bytes memory mapping p n = Ok bytes -> checksum bytes = 0 -> acpi_table p signature bytes.
Proof using Type.
  intros Hh Hs Hf Hn Hb Hc. pose proof (read_bytes_cases p 36 ltac:(lia)) as H1. rewrite Hh in H1.
  pose proof (read_bytes_cases p n ltac:(lia)) as H2. rewrite Hb in H2. destruct H1 as [Hl1 Hp], H2 as [Hl2 _].
  specialize (Hp n Hn bytes Hb). change (Z.to_nat 36) with 36%nat in *. split.
  - by rewrite Hl2, Z2Nat.id by lia.
  - rewrite <-Hs, <-Hp, take_take. f_equal.
  - rewrite <-Hp, field_take in Hf by lia. rewrite Hf, Hl2. lia.
  - done.
Qed.

Lemma xsdt_loop_cases n (i : nat) xsdt :
  (36 + (i + n) * 8 <= length xsdt)%nat ->
  match xsdt_loop memory mapping n (Z.of_nat i) xsdt with
  | Ok t => exists k, (i <= k < i + n)%nat /\ found (xsdt_entry xsdt k) t /\
                      forall j, (i <= j < k)%nat -> skipped (xsdt_entry xsdt j)
  | Err MadtNotFound => forall j, (i <= j < i + n)%nat -> skipped (xsdt_entry xsdt j)
  | Err _ => True
  | Panic => False
  end.
Proof using Type.
  revert i. induction n as [|n IH]; intros i Hl; cbn [xsdt_loop]; [intros; lia|].
  rewrite (le_at_field xsdt (36 + i * 8) (36 + i * 8 + 8)) by lia. cbv iota. fold (xsdt_entry xsdt i).
  set (p := xsdt_entry xsdt i).
  specialize (IH (S i) ltac:(lia)). replace (Z.of_nat (S i)) with (Z.of_nat i + 1) in IH by lia.
  assert (Hskip : skipped p -> match xsdt_loop memory mapping n (Z.of_nat i + 1) xsdt with
    | Ok t => exists k, (i <= k < i + S n)%nat /\ found (xsdt_entry xsdt k) t /\
                      forall j, (i <= j < k)%nat -> skipped (xsdt_entry xsdt j)
    | Err MadtNotFound => forall j, (i <= j < i + S n)%nat -> skipped (xsdt_entry xsdt j)
    | Err _ => True
    | Panic => False
    end).
  { intros Hs. assert (Hext : forall m j, (i <= j < m)%nat -> (forall j, (S i <= j < m)%nat -> skipped (xsdt_entry xsdt j)) ->
      skipped (xsdt_entry xsdt j)).
    { intros m j Hj Hall. destruct (decide (j = i)) as [->|]; [done|]. apply Hall. lia. }
    destruct (xsdt_loop _ _ _ _ _) as [t|[]|]; try done.
    - destruct IH as (k & Hk & Hf & Hall). exists k. split; [lia|]. split; [done|]. eauto.
    - intros j Hj. eapply Hext; [done|]. intros j' Hj'. apply IH. lia. }
  clear IH. case_if.
  { apply Hskip. left. lia. }
  read_step p 36 header Hh Hhl.
  rewrite (sub_slice_take header 4 ltac:(lia)). cbv iota.
  destruct (bool_decide (take 4 header = MADT_SIGNATURE)) eqn:Hsig; cbn [negb];
    [apply bool_decide_eq_true in Hsig|apply bool_decide_eq_false in Hsig; apply Hskip; right; by exists header].
  clear Hskip. rewrite (le_at_field header 4 8) by lia. cbv iota. set (len := field header 4 8). case_if; [done|].
  read_step p len madt Hm Hml. case_if; [done|]. pose proof (parse_madt_cases madt ltac:(lia)) as Hp.
  destruct (parse_madt madt) as [t|e|] eqn:Hpm; [|by destruct Hp as [-> _]|done].
  exists i. split; [lia|]. split; [|intros; lia]. split; [lia|]. exists madt.
  split; [|split; [lia|done]]. eapply table_read; [exact Hh|done|reflexivity|lia|done|lia].
Qed.

(** The root pointer: its signature, its two checksums, its revision. *)
Record rsdp_valid (p xsdt_address : Z) (rsdp : list Z) : Prop := mkRsdp {
  rp_nonnull : p <> 0;
  rp_read : read_bytes memory mapping p 36 = Ok rsdp;
  rp_signature : take 8 rsdp = RSDP_SIGNATURE;
  rp_checksum : checksum (take 20 rsdp) = 0;
  rp_extended : checksum rsdp = 0;
  rp_revision : rsdp !!! 15%nat <> 0;
  rp_xsdt : xsdt_address = field rsdp 24 32;
}.

Definition xsdt_count (xsdt : list Z) : nat := (length xsdt - 36) / 8.

Lemma xsdt_fits xsdt : (36 <= length xsdt)%nat -> (36 + xsdt_count xsdt * 8 <= length xsdt)%nat.
Proof using Type.
  intros Hl. unfold xsdt_count. pose proof (Nat.Div0.mul_div_le (length xsdt - 36) 8). lia.
Qed.

(** Discovery never panics, whatever bytes the firmware left in memory.  A topology
    comes only from a root pointer, an XSDT and a MADT that carry their signatures and
    lengths and sum to zero, and it is the one of the first MADT of the XSDT; when the
    search ends without one, every entry of a valid XSDT was empty or another table. *)
Theorem discover_sound (p : Z) :
  match discover memory mapping p with
  | Ok t => exists xa rsdp xsdt k,
      rsdp_valid p xa rsdp /\ acpi_table xa XSDT_SIGNATURE xsdt /\ (k < xsdt_count xsdt)%nat /\
      found (xsdt_entry xsdt k) t /\ forall j, (j < k)%nat -> skipped (xsdt_entry xsdt j)
  | Err MadtNotFound => exists xa rsdp xsdt,
      rsdp_valid p xa rsdp /\ acpi_table xa XSDT_SIGNATURE xsdt /\
      forall j, (j < xsdt_count xsdt)%nat -> skipped (xsdt_entry xsdt j)
  | Err _ => True
  | Panic => False
  end.
Proof using Type.
  unfold discover. case_if; [done|].
  read_step p 36 rsdp Hr Hrl.
  rewrite (sub_slice_take rsdp 8 ltac:(lia)), (sub_slice_take rsdp 20 ltac:(lia)),
    (byte_at_total rsdp 15), (le_at_field rsdp 24 32) by lia. cbv iota.
  do 4 (case_if; [done|]). set (xa := field rsdp 24 32).
  read_step xa 36 header Hh Hhl.
  rewrite (sub_slice_take header 4 ltac:(lia)), (le_at_field header 4 8) by lia. cbv iota.
  do 2 (case_if; [done|]).
  set (len := field header 4 8) in *.
  read_step xa len xsdt Hx Hxl. case_if; [done|]. to_prop.
  assert (Hrsdp : rsdp_valid p xa rsdp) by (split; try done; try lia; by apply dec_stable).
  assert (Hxsdt : acpi_table xa XSDT_SIGNATURE xsdt).
  { eapply table_read; [exact Hh| |reflexivity|lia|done|done]. done. }
  assert (Hcount : Z.to_nat ((len - 36) / 8) = xsdt_count xsdt).
  { unfold xsdt_count. rewrite Hxl. apply Nat2Z.inj. rewrite Nat2Z.inj_div, Nat2Z.inj_sub by lia.
    rewrite !Z2Nat.id; [done|lia|apply Z.div_pos; lia]. }
  rewrite Hcount. pose proof (xsdt_loop_cases (xsdt_count xsdt) 0 xsdt) as Hloop.
  change (Z.of_nat 0) with 0 in Hloop. cbn [Nat.add] in Hloop. destruct (xsdt_loop _ _ _ _ _) as [t|[]|]; try done.
  - destruct Hloop as (k & Hk & Hf & Hs); [apply xsdt_fits; lia|]. exists xa, rsdp, xsdt, k.
    do 3 (split; [done || lia|]). split; [done|]. intros j Hj. apply Hs. lia.
  - exists xa, rsdp, xsdt. do 2 (split; [done|]). intros j Hj. apply Hloop; [apply xsdt_fits; lia|lia].
  - apply Hloop, xsdt_fits. lia.
Qed.
End DiscoverSpec.

(** ** Routing *)

Lemma pushed_prefix {A} n (l : list A) : take (length (take n l)) (pushed n l) = Some <$> take n l.
Proof. unfold pushed, filled. by rewrite take_app_length' by (by rewrite length_fmap). Qed.

Lemma flatten_some {A} (l : list A) : array_flatten (Some <$> l) = l.
Proof. unfold array_flatten. induction l as [|x l IH]; cbn; [done|]. by f_equal. Qed.

Lemma pushed_count {A} n (l : list A) : (length (take n l) <= length (pushed n l))%nat.
Proof. unfold pushed, filled. rewrite length_app, length_fmap. lia. Qed.

Lemma candidates_spec index (l : list IoApicInfo) gsi i b :
  (i, b) ∈ candidates index (Some <$> l) gsi <->
  exists k a, (i = index + k)%nat /\ l !! k = Some a /\ b = ia_gsi_base a /\ b <= gsi.
Proof.
  revert index. induction l as [|x l IH]; intros index; cbn [fmap list_fmap candidates].
  - split; [by intros ?%elem_of_nil|]. intros (k & a & _ & Hk & _). done.
  - transitivity ((i, b) = (index, ia_gsi_base x) /\ ia_gsi_base x <= gsi \/ (i, b) ∈ candidates (S index) (Some <$> l) gsi).
    { case_if; [rewrite elem_of_cons|]; to_prop; intuition lia. }
    rewrite IH. split.
    + intros [[[= -> ->] Hle]|(k & a & -> & Hk & -> & Hle)]; [exists 0%nat, x|exists (S k), a]; repeat split; lia || done.
    + intros ([|k] & a & -> & Hk & -> & Hle); [left; injection Hk as ->; split; [f_equal; lia|done]|].
      right. exists k, a. repeat split; lia || done.
Qed.

(** Positions of the candidates grow. *)
Lemma candidates_sorted index (l : list IoApicInfo) gsi :
  StronglySorted (fun x y => (x.1 < y.1)%nat) (candidates index (Some <$> l) gsi).
Proof.
  revert index. induction l as [|x l IH]; intros index; cbn [fmap list_fmap candidates]; [constructor|].
  case_if; [|apply IH]. constructor; [apply IH|]. apply Forall_forall. intros [i b] Hin.
  apply candidates_spec in Hin as (k & a & -> & _). cbn. lia.
Qed.

(** The last of the maximal elements. *)
Definition is_last_max (b : nat * Z) (l : list (nat * Z)) : Prop :=
  b ∈ l /\ forall x, x ∈ l -> x.2 < b.2 \/ (x.2 = b.2 /\ (x.1 <= b.1)%nat).

Lemma max_base_spec pre l best :
  StronglySorted (fun x y => (x.1 < y.1)%nat) (pre ++ l) ->
  match best with Some b => is_last_max b pre | None => pre = [] end ->
  match max_base best l with Some b => is_last_max b (pre ++ l) | None => pre ++ l = [] end.
Proof.
  revert pre best. induction l as [|x l IH]; intros pre best Hs Hb; cbn [max_base].
  { by rewrite app_nil_r. }
  replace (pre ++ x :: l) with ((pre ++ [x]) ++ l) in * by by rewrite <-app_assoc. apply IH; [done|].
  assert (Hlt : forall y, y ∈ pre -> (y.1 < x.1)%nat).
  { intros y Hy. rewrite <-app_assoc in Hs.
    apply (StronglySorted_app_1_elem_of _ _ _ y x Hs); [done|]. cbn. by left. }
  destruct best as [b|]; [|subst pre; split; [by left|]; intros y [->|?%elem_of_nil]%elem_of_cons; [by right|done]].
  destruct Hb as [Hin Hmax]. case_if; to_prop.
  - split; [apply elem_of_app; by left|]. intros y [Hy| ->%list_elem_of_singleton]%elem_of_app; [by apply Hmax|]. lia.
  - split; [apply elem_of_app; right; by left|]. intros y [Hy| ->%list_elem_of_singleton]%elem_of_app; [|by right].
    specialize (Hlt y Hy). destruct (Hmax y Hy) as [?|[? ?]]; lia.
Qed.

(** The I/O APIC responsible for an interrupt: the greatest base not above it, the last
    of those with the same base. *)
Definition serves (io : list IoApicInfo) (gsi : Z) (k : nat) (a : IoApicInfo) : Prop :=
  io !! k = Some a /\ ia_gsi_base a <= gsi /\
  forall j b, io !! j = Some b -> ia_gsi_base b <= gsi ->
    ia_gsi_base b < ia_gsi_base a \/ (ia_gsi_base b = ia_gsi_base a /\ (j <= k)%nat).

Definition io_apics_of (es : list MadtEntry) : list IoApicInfo := take 32 (omap as_ioapic es).
Definition overrides_of (es : list MadtEntry) : list InterruptSourceOverride := take 24 (omap as_override es).

Lemma io_apic_index_exact {E} address es gsi :
  match io_apic_index_for_gsi (E := E) (topology_of address es) gsi with
  | Ok (Some k) => exists a, serves (io_apics_of es) gsi k a
  | Ok None => forall k a, io_apics_of es !! k = Some a -> gsi < ia_gsi_base a
  | _ => False
  end.
Proof.
  unfold io_apic_index_for_gsi. cbn [topology_of at_io_apic_count at_io_apics].
  rewrite bool_decide_eq_true_2 by apply pushed_count. rewrite pushed_prefix. fold (io_apics_of es).
  set (io := io_apics_of es).
  pose proof (max_base_spec [] (candidates 0 (Some <$> io) gsi) None (candidates_sorted _ _ _) eq_refl) as Hm.
  cbn [app] in Hm. destruct (max_base None _) as [[k b]|]; cbn [fmap option_fmap option_map fst].
  - destruct Hm as [Hin Hmax]. apply candidates_spec in Hin as (k' & a & -> & Hk & -> & Hle). exists a.
    do 2 (split; [done|]). intros j c Hj Hc.
    apply (Hmax (j, ia_gsi_base c)). apply candidates_spec. by exists j, c.
  - intros k a Hk. apply Z.nle_gt. intros Hle.
    assert ((k, ia_gsi_base a) ∈ candidates 0 (Some <$> io) gsi) as Hin by (apply candidates_spec; by exists k, a).
    rewrite Hm in Hin. by apply elem_of_nil in Hin.
Qed.

Definition isa_override (irq : Z) (o : InterruptSourceOverride) : Prop := so_bus o = 0 /\ so_source o = irq.

Lemma find_override_spec l irq :
  match find_override l irq with
  | Some o => exists l1 l2, l = l1 ++ o :: l2 /\ isa_override irq o /\ Forall (fun o => ~ isa_override irq o) l1
  | None => Forall (fun o => ~ isa_override irq o) l
  end.
Proof.
  induction l as [|o l IH]; cbn [find_override]; [constructor|].
  destruct (negb (so_bus o =? 0) || negb (so_source o =? irq)) eqn:Hc.
  - assert (~ isa_override irq o) by (unfold isa_override; apply orb_true_iff in Hc; rewrite !negb_true_iff in Hc; lia).
    destruct (find_override l irq) as [o'|]; [|by constructor].
    destruct IH as (l1 & l2 & -> & Ho & Hl1). exists (o :: l1), l2. split; [done|]. split; [done|]. by constructor.
  - to_prop. exists [], l. repeat split; lia || constructor.
Qed.

(** The route an ISA interrupt must take: that of the first override for it, or identity. *)
Definition route_of (es : list MadtEntry) (irq : Z) (route : option IrqRoute) : Prop :=
  (Forall (fun o => ~ isa_override irq o) (overrides_of es) /\ route = Some (IrqRoute_identity irq)) \/
  exists l1 o l2, overrides_of es = l1 ++ o :: l2 /\ isa_override irq o /\ Forall (fun o => ~ isa_override irq o) l1 /\
    route = (p ← decode_polarity (Z.land (so_flags o) 3); t ← decode_trigger (Z.land (Z.shiftr (so_flags o) 2) 3);
             Some (mkRoute irq (so_gsi o) p t)).

(** Routing an ISA interrupt on any parsed topology never panics.  The route is the
    one of the first ISA override for it, with the polarity and trigger of its flags, or
    the identity when there is none; it is returned exactly when some I/O APIC serves its
    interrupt (the one with the greatest base not above it), and a reserved flag
    encoding is an error. *)
Theorem isa_routing_exact (address : Z) (es : list MadtEntry) (irq : Z) :
  exists route, route_of es irq route /\
  match resolve_isa_irq (topology_of address es) irq with
  | Ok r => route = Some r /\ exists k a, io_apic_index_for_gsi (E := IrqRoutingError) (topology_of address es) (ir_gsi r) = Ok (Some k) /\
                                          serves (io_apics_of es) (ir_gsi r) k a
  | Err InvalidOverrideFlags => route = None
  | Err NoIoApicForGsi => exists r, route = Some r /\ forall k a, io_apics_of es !! k = Some a -> ir_gsi r < ia_gsi_base a
  | _ => False
  end.
Proof.
  unfold resolve_isa_irq.
  change (at_source_override_count (topology_of address es)) with (length (take 24 (omap as_override es))).
  change (at_source_overrides (topology_of address es)) with (pushed 24 (omap as_override es)).
  rewrite bool_decide_eq_true_2 by apply pushed_count. rewrite pushed_prefix, flatten_some.
  fold (overrides_of es). pose proof (find_override_spec (overrides_of es) irq) as Hf.
  assert (Hend : forall r, match
      (let? index := io_apic_index_for_gsi (E := IrqRoutingError) (topology_of address es) (ir_gsi r) in
       match index with None => Err NoIoApicForGsi | Some _ => Ok r end) with
    | Ok r' => Some r = Some r' /\ exists k a, io_apic_index_for_gsi (E := IrqRoutingError) (topology_of address es) (ir_gsi r') = Ok (Some k) /\
                                          serves (io_apics_of es) (ir_gsi r') k a
    | Err InvalidOverrideFlags => Some r = None
    | Err NoIoApicForGsi => exists r', Some r = Some r' /\ forall k a, io_apics_of es !! k = Some a -> ir_gsi r' < ia_gsi_base a
    | _ => False
    end).
  { intros r. pose proof (io_apic_index_exact (E := IrqRoutingError) address es (ir_gsi r)) as Hi.
    destruct (io_apic_index_for_gsi _ _) as [[k|]| |] eqn:Hio; [|by exists r|done..].
    split; [done|]. destruct Hi as [a Ha]. by exists k, a. }
  destruct (find_override _ _) as [o|].
  - destruct Hf as (l1 & l2 & Hl & Ho & Hl1). eexists. split; [right; exists l1, o, l2; repeat split; [done|apply Ho..|done]|].
    unfold decode_flags. destruct (decode_polarity _) as [pol|]; [|done]. cbn [ok_or mbind option_bind].
    destruct (decode_trigger _) as [tr|]; [|done]. cbn [ok_or mbind option_bind]. apply Hend.
  - exists (Some (IrqRoute_identity irq)). split; [by left|]. apply Hend.
Qed.

(** ** Witnesses *)

Definition example_entries : list MadtEntry :=
  [MLocalApic (mkLapic 0 0 1); MIoApic (mkIoApicInfo 1 4273995776 0); MOverride (mkOverride 0 0 2 0);
   MOther 4 [255; 0; 0; 1]; MOverride (mkOverride 0 9 9 13); MLocalX2Apic (mkX2apic 7 300 1)].

Lemma madt_roundtrip_witness :
  parse_madt (replicate 36 0 ++ to_le_bytes 4 4276092928 ++ replicate 4 0 ++ concat (encode_entry <$> example_entries)) =
  Ok (topology_of 4276092928 example_entries).
Proof.
  apply madt_roundtrip; [reflexivity..| |]; [split; vm_compute; discriminate|].
  repeat constructor; try (vm_compute; discriminate).
Defined.

Lemma parse_madt_total_witness :
  match parse_madt (replicate 46 0) with
  | Ok t => exists cs, drop 44 (replicate 46 0) = concat cs /\ Forall chunk_ok cs /\
                       t = topology_of (field (replicate 46 0) 36 40) (decode_entry <$> cs)
  | Err e => e = TruncatedMadtEntry /\ ~ (exists cs, drop 44 (replicate 46 0) = concat cs /\ Forall chunk_ok cs)
  | Panic => False
  end.
Proof. apply (parse_madt_total (replicate 46 0)). vm_compute. lia. Defined.

(** A machine whose tables are found: root pointer at 1000, XSDT at 2000, MADT at 3000. *)
Definition sealed (at_ : nat) (bytes : list Z) : list Z := <[at_ := (- checksum bytes) mod 256]> bytes.
Definition example_rsdp : list Z :=
  sealed 32 (sealed 8 (RSDP_SIGNATURE ++ replicate 7 0 ++ [2] ++ replicate 4 0) ++ to_le_bytes 4 36 ++
             to_le_bytes 8 2000 ++ replicate 4 0).
Definition example_xsdt : list Z :=
  sealed 9 (XSDT_SIGNATURE ++ to_le_bytes 4 52 ++ replicate 28 0 ++ to_le_bytes 8 0 ++ to_le_bytes 8 3000).
Definition example_madt : list Z :=
  let body := to_le_bytes 4 4276092928 ++ replicate 4 0 ++ concat (encode_entry <$> example_entries) in
  sealed 9 (MADT_SIGNATURE ++ to_le_bytes 4 (36 + Z.of_nat (length body)) ++ replicate 28 0 ++ body).
Definition example_memory (a : Z) : Z :=
  if a <? 2000 then default 0 (example_rsdp !! Z.to_nat (a - 1000))
  else if a <? 3000 then default 0 (example_xsdt !! Z.to_nat (a - 2000))
  else default 0 (example_madt !! Z.to_nat (a - 3000)).

Example discover_finds :
  discover example_memory (mkMapping 0) 1000 = Ok (topology_of 4276092928 example_entries) /\
  discover example_memory (mkMapping 0) 0 = Err MissingRsdp /\
  discover (fun a => if a =? 3050 then 7 else example_memory a) (mkMapping 0) 1000 = Err InvalidTableChecksum /\
  resolve_isa_irq (topology_of 4276092928 example_entries) 0 = Ok (mkRoute 0 2 PolarityConforms TriggerConforms) /\
  resolve_isa_irq (topology_of 4276092928 example_entries) 9 = Ok (mkRoute 9 9 ActiveHigh Level).
Proof. repeat split; vm_compute; reflexivity. Qed.
