(* ===== verification/Timers.v ===== *)
(** * Timekeeping and the local APIC timer

    [timer.rs]: time values and the clocksource and timer-device contracts;
    [arch/x86_64/tsc.rs]: the TSC clocksource; [arch/x86_64/lapic_timer.rs]: calibration,
    periodic and deadline programming of the local APIC timer.

    What [RDTSC] returns is a parameter: a value where the code reads it once, a sequence
    of readings where it reads it in a loop. *)

From stdpp Require Import base numbers list options.
From S2P Require Import Prelude Memory Apic.

Local Open Scope Z_scope.
Local Open Scope rust_scope.

(** ** Contracts ([timer.rs]) *)
Record MonotonicTime := mkTime { as_nanos : Z }.
Definition MonotonicTime_ZERO : MonotonicTime := mkTime 0.
Definition time_saturating_add (t : MonotonicTime) (delta_nanos : Z) : MonotonicTime :=
  mkTime (saturating_add (as_nanos t) delta_nanos).

Record TimerInterval := mkInterval { interval_nanos : Z }.
Definition TimerInterval_new (nanos : Z) : option TimerInterval :=
  if nanos =? 0 then None else Some (mkInterval nanos).

Record TimerDeadline := mkDeadline { deadline_time : MonotonicTime }.

(** [Clocksource]: what time it is when the hardware counter reads [ticks]. *)
Class Clocksource (C E : Type) := { now : C -> Z -> result E MonotonicTime }.

(** [TimerDevice]: programming the next event; the accesses made are added to the history. *)
Class TimerDevice (T E : Type) := {
  set_periodic : T -> TimerInterval -> list Access -> result E unit * list Access;
  set_deadline : T -> TimerDeadline -> list Access -> result E unit * list Access;
  disable : T -> list Access -> result E unit * list Access;
}.

(** ** The TSC clocksource ([tsc.rs]) *)
Definition INVARIANT_TSC_BIT : Z := Z.shiftl 1 8.
Definition CPUID_EXTENDED_MAX : Z := 2147483648.
Definition CPUID_TSC_RATIO : Z := 21.
Definition CPUID_PROCESSOR_FREQ : Z := 22.
Definition CPUID_EXTENDED_FEATURES : Z := 2147483655.

Inductive TscError := TscUnsupported | FrequencyUnavailable | TscFrequencyOverflow | TimeOverflow.

Record TscClocksource := mkTsc { tsc_start_ticks : Z; tsc_frequency : Z }.

Definition ticks_to_nanos (ticks frequency_hz : Z) : option Z :=
  if frequency_hz =? 0 then None else
  let seconds := ticks / frequency_hz in
  let remainder := ticks mod frequency_hz in
  whole_nanos ← checked_mul seconds 1000000000;
  let fractional_nanos := (remainder * 1000000000 / frequency_hz) mod 2 ^ 64 in
  checked_add whole_nanos fractional_nanos.

Section Tsc.
Context `{Hardware}.

Definition eax (r : Z * Z * Z * Z) : Z := r.1.1.1.
Definition ebx (r : Z * Z * Z * Z) : Z := r.1.1.2.
Definition ecx (r : Z * Z * Z * Z) : Z := r.1.2.
Definition edx (r : Z * Z * Z * Z) : Z := r.2.

Definition invariant_tsc_supported : bool :=
  let max_extended := eax (cpuid CPUID_EXTENDED_MAX 0) in
  if max_extended <? CPUID_EXTENDED_FEATURES then false
  else negb (Z.land (edx (cpuid CPUID_EXTENDED_FEATURES 0)) INVARIANT_TSC_BIT =? 0).

(** The second half of [detect_frequency], reached when leaf 15H gives no frequency. *)
Definition nominal_frequency (max_basic : Z) : result TscError Z :=
  if CPUID_PROCESSOR_FREQ <=? max_basic then
    let mhz := eax (cpuid CPUID_PROCESSOR_FREQ 0) in
    if negb (mhz =? 0) then ok_or (checked_mul mhz 1000000) TscFrequencyOverflow
    else Err FrequencyUnavailable
  else Err FrequencyUnavailable.

Definition detect_frequency : result TscError Z :=
  let max_basic := eax (cpuid 0 0) in
  if CPUID_TSC_RATIO <=? max_basic then
    let ratio := cpuid CPUID_TSC_RATIO 0 in
    let denominator := eax ratio in
    let numerator := ebx ratio in
    let crystal_hz := ecx ratio in
    if negb (denominator =? 0) && negb (numerator =? 0) && negb (crystal_hz =? 0) then
      match checked_mul crystal_hz numerator with
      | Some value =>
          let hz := value / denominator in
          if negb (hz =? 0) then Ok hz else nominal_frequency max_basic
      | None => Err TscFrequencyOverflow
      end
    else nominal_frequency max_basic
  else nominal_frequency max_basic.

(** [ticks] is the counter when it is read. *)
Definition try_new (ticks : Z) : result TscError TscClocksource :=
  if negb invariant_tsc_supported then Err TscUnsupported else
  let? frequency := detect_frequency in
  Ok (mkTsc ticks frequency).
End Tsc.

Definition tsc_now (self : TscClocksource) (ticks : Z) : result TscError MonotonicTime :=
  let? elapsed := ok_or (checked_sub ticks (tsc_start_ticks self)) TimeOverflow in
  ok_or (mkTime <$> ticks_to_nanos elapsed (tsc_frequency self)) TimeOverflow.

Global Instance tsc_clocksource : Clocksource TscClocksource TscError := {| now := tsc_now |}.

(** ** The local APIC timer ([lapic_timer.rs]) *)
Definition LVT_TIMER_OFFSET : Z := 800.
Definition TIMER_INIT_COUNT_OFFSET : Z := 896.
Definition TIMER_CURRENT_COUNT_OFFSET : Z := 912.
Definition TIMER_DIVIDE_OFFSET : Z := 992.
Definition X2APIC_LVT_TIMER : Z := 2098.
Definition X2APIC_INIT_COUNT : Z := 2104.
Definition X2APIC_CURRENT_COUNT : Z := 2105.
Definition X2APIC_DIVIDE_CONFIG : Z := 2110.
Definition IA32_TSC_DEADLINE : Z := 1760.
Definition CPUID_TSC_DEADLINE : Z := 1.
Definition TSC_DEADLINE_BIT : Z := Z.shiftl 1 24.
Definition LVT_MASKED : Z := Z.shiftl 1 16.
Definition LVT_PERIODIC : Z := Z.shiftl 1 17.
Definition MAX_INITIAL_COUNT : Z := U32_MAX.
Definition DIVIDE_BY_16_ENCODING : Z := 3.
Definition CALIBRATION_TSC_NANOS : Z := 10000000.

Inductive LapicTimerError :=
| LtUnsupportedMode | UnsupportedTscDeadline | InvalidMapping | CalibrationFailed | FrequencyOverflow
| NotCalibrated | IntervalTooLarge | DeadlineOverflow.

Record LapicTimer := mkLapicTimer {
  lt_mode : ApicMode;
  lt_mmio_base : option Z;
  lt_frequency : option Z;
  lt_tsc_deadline_supported : bool;
  lt_tsc_start_ticks : option Z;
  lt_tsc_frequency_hz : option Z;
  lt_lvt_timer : option Z;
  lt_init_count : option Z;
  lt_current_count : option Z;
  lt_divide_config : option Z;
  lt_tsc_deadline : Z;
}.

Definition tsc_deadline_supported `{Hardware} : bool :=
  negb (Z.land (ecx (cpuid CPUID_TSC_DEADLINE 0)) TSC_DEADLINE_BIT =? 0).

Definition LapicTimer_new `{Hardware} `{ApicBaseCrate} (mode : ApicMode) (mapping : option PhysicalMemoryMapping) (h : list Access)
  : result LapicTimerError LapicTimer :=
  let supported := tsc_deadline_supported in
  match mode with
  | XApic =>
      let? mapping := ok_or mapping LtUnsupportedMode in
      let base := (ApicBase_read h).1 in
      let? mapped := ok_or (phys_translate mapping base) InvalidMapping in
      Ok (mkLapicTimer mode (Some mapped) None supported None None None None None None IA32_TSC_DEADLINE)
  | X2Apic =>
      Ok (mkLapicTimer mode None None supported None None (Some X2APIC_LVT_TIMER) (Some X2APIC_INIT_COUNT)
            (Some X2APIC_CURRENT_COUNT) (Some X2APIC_DIVIDE_CONFIG) IA32_TSC_DEADLINE)
  end.

Definition lt_write_register (mode : ApicMode) (mmio_base : option Z) (offset : Z) (msr : option Z) (value : Z)
  (h : list Access) : result LapicTimerError unit * list Access :=
  match mode with
  | XApic =>
      match mmio_base with
      | None => (Err InvalidMapping, h)
      | Some base =>
          match checked_add base offset with
          | None => (Err InvalidMapping, h)
          | Some address => (Ok tt, h ++ [MmioWrite address value])
          end
      end
  | X2Apic =>
      match msr with
      | None => (Err LtUnsupportedMode, h)
      | Some msr => (Ok tt, h ++ [MsrWrite msr value])
      end
  end.

Definition lt_read_register `{Hardware} (mode : ApicMode) (mmio_base : option Z) (offset : Z) (msr : option Z)
  (h : list Access) : result LapicTimerError Z * list Access :=
  match mode with
  | XApic =>
      match mmio_base with
      | None => (Err InvalidMapping, h)
      | Some base =>
          match checked_add base offset with
          | None => (Err InvalidMapping, h)
          | Some address => (Ok (answer h (MmioRead address)), h ++ [MmioRead address])
          end
      end
  | X2Apic =>
      match msr with
      | None => (Err LtUnsupportedMode, h)
      | Some msr => (Ok (as_u32 (answer h (MsrRead msr))), h ++ [MsrRead msr])
      end
  end.

Definition write_lvt (self : LapicTimer) (value : Z) : list Access -> result LapicTimerError unit * list Access :=
  lt_write_register (lt_mode self) (lt_mmio_base self) LVT_TIMER_OFFSET (lt_lvt_timer self) value.
Definition write_initial (self : LapicTimer) (value : Z) : list Access -> result LapicTimerError unit * list Access :=
  lt_write_register (lt_mode self) (lt_mmio_base self) TIMER_INIT_COUNT_OFFSET (lt_init_count self) value.
Definition write_divide (self : LapicTimer) (value : Z) : list Access -> result LapicTimerError unit * list Access :=
  lt_write_register (lt_mode self) (lt_mmio_base self) TIMER_DIVIDE_OFFSET (lt_divide_config self) value.
Definition read_current `{Hardware} (self : LapicTimer) : list Access -> result LapicTimerError Z * list Access :=
  lt_read_register (lt_mode self) (lt_mmio_base self) TIMER_CURRENT_COUNT_OFFSET (lt_current_count self).

(** The busy-wait: [tsc i] is the [i]-th reading of the counter. *)
Fixpoint spin (fuel : nat) (tsc : nat -> Z) (i : nat) (start target_ticks : Z) : option nat :=
  match fuel with
  | O => None
  | S fuel => if target_ticks <=? wrapping_sub (tsc i) start then Some (S i) else spin fuel tsc (S i) start target_ticks
  end.

Definition with_calibration (self : LapicTimer) (frequency start tsc_hz : Z) : LapicTimer :=
  mkLapicTimer (lt_mode self) (lt_mmio_base self) (Some frequency) (lt_tsc_deadline_supported self) (Some start)
    (Some tsc_hz) (lt_lvt_timer self) (lt_init_count self) (lt_current_count self) (lt_divide_config self)
    (lt_tsc_deadline self).

(** [calibrate]; the readings of the counter start at [tsc 0].  Running out of fuel in
    the busy-wait is [Panic]. *)
Definition calibrate `{Hardware} (fuel : nat) (tsc : nat -> Z) (clock : TscClocksource) (self : LapicTimer)
  (h : list Access) : result LapicTimerError Z * (LapicTimer * list Access) :=
  let measured : result LapicTimerError (Z * Z) * list Access :=
    let! _, h := write_divide self DIVIDE_BY_16_ENCODING h in
    let! _, h := write_lvt self (Z.lor TIMER_VECTOR LVT_MASKED) h in
    let! _, h := write_initial self MAX_INITIAL_COUNT h in
    let tsc_hz := tsc_frequency clock in
    match checked_mul tsc_hz CALIBRATION_TSC_NANOS with
    | None => (Err FrequencyOverflow, h)
    | Some value =>
        let target_ticks := value / 1000000000 in
        if target_ticks =? 0 then (Err CalibrationFailed, h) else
        let start := tsc 0%nat in
        match spin fuel tsc 1 start target_ticks with
        | None => (Panic, h)
        | Some _ =>
            let! current_count, h := read_current self h in
            let elapsed_count := saturating_sub MAX_INITIAL_COUNT current_count in
            if elapsed_count =? 0 then (Err CalibrationFailed, h) else
            match checked_mul elapsed_count 1000000000 with
            | None => (Err FrequencyOverflow, h)
            | Some value =>
                let frequency_hz := value / CALIBRATION_TSC_NANOS in
                if frequency_hz =? 0 then (Err CalibrationFailed, h) else (Ok (frequency_hz, start), h)
            end
        end
    end in
  match measured with
  | (Ok (frequency, start), h) =>
      let self := with_calibration self frequency start (tsc_frequency clock) in
      let stopped :=
        let! _, h := write_initial self 0 h in
        let! _, h := write_lvt self (Z.lor TIMER_VECTOR LVT_MASKED) h in
        (Ok frequency, h) in
      (stopped.1, (self, stopped.2))
  | (Err e, h) => (Err e, (self, h))
  | (Panic, h) => (Panic, (self, h))
  end.

Definition deadline_to_tsc (self : LapicTimer) (deadline : MonotonicTime) : result LapicTimerError Z :=
  let? start := ok_or (lt_tsc_start_ticks self) NotCalibrated in
  let? frequency := ok_or (lt_tsc_frequency_hz self) NotCalibrated in
  let nanos := as_nanos deadline in
  if nanos * frequency <? 2 ^ 128 then
    let delta := nanos * frequency / 1000000000 in
    if start + delta <? 2 ^ 128 then
      if start + delta <=? U64_MAX then Ok (start + delta) else Err DeadlineOverflow
    else Err DeadlineOverflow
  else Err DeadlineOverflow.

Definition lapic_set_periodic (self : LapicTimer) (interval : TimerInterval) (h : list Access)
  : result LapicTimerError unit * list Access :=
  match lt_frequency self with
  | None => (Err NotCalibrated, h)
  | Some frequency =>
      match checked_mul frequency (interval_nanos interval) with
      | None => (Err IntervalTooLarge, h)
      | Some value =>
          let initial := value / 1000000000 in
          if U32_MAX <? initial then (Err IntervalTooLarge, h)
          else if initial =? 0 then (Err IntervalTooLarge, h)
          else
            let! _, h := write_lvt self (Z.lor TIMER_VECTOR LVT_PERIODIC) h in
            let! _, h := write_initial self initial h in
            (Ok tt, h)
      end
  end.

Definition lapic_set_deadline (self : LapicTimer) (deadline : TimerDeadline) (h : list Access)
  : result LapicTimerError unit * list Access :=
  if negb (lt_tsc_deadline_supported self) then (Err UnsupportedTscDeadline, h) else
  match deadline_to_tsc self (deadline_time deadline) with
  | Err e => (Err e, h)
  | Panic => (Panic, h)
  | Ok tsc_deadline =>
      let! _, h := write_initial self 0 h in
      let! _, h := write_lvt self TIMER_VECTOR h in
      (Ok tt, h ++ [MsrWrite (lt_tsc_deadline self) tsc_deadline])
  end.

Definition lapic_disable (self : LapicTimer) (h : list Access) : result LapicTimerError unit * list Access :=
  let h := h ++ [MsrWrite (lt_tsc_deadline self) 0] in
  let! _, h := write_initial self 0 h in
  let! _, h := write_lvt self (Z.lor TIMER_VECTOR LVT_MASKED) h in
  (Ok tt, h).

Global Instance lapic_timer_device : TimerDevice LapicTimer LapicTimerError := {|
  set_periodic := lapic_set_periodic;
  set_deadline := lapic_set_deadline;
  disable := lapic_disable;
|}.

(** ** The clock *)

(** Conversion is the exact quotient, or nothing when it does not fit. *)
Lemma ticks_to_nanos_exact ticks hz :
  0 <= ticks -> 0 < hz ->
  ticks_to_nanos ticks hz =
  if ticks * 1000000000 / hz <=? U64_MAX then Some (ticks * 1000000000 / hz) else None.
Proof.
  intros Ht Hh. unfold ticks_to_nanos. rewrite (proj2 (Z.eqb_neq hz 0)) by lia.
  set (r := ticks mod hz * 1000000000 / hz).
  assert (Heq : ticks * 1000000000 / hz = ticks / hz * 1000000000 + r).
  { unfold r. rewrite <-Z.div_add_l by lia. f_equal. pose proof (Z.div_mod ticks hz). lia. }
  assert (Hr : 0 <= r < 1000000000).
  { pose proof (Z.mod_pos_bound ticks hz Hh). unfold r. split; [apply Z.div_pos; lia|].
    apply Z.div_lt_upper_bound; nia. }
  pose proof (Z.div_pos ticks hz Ht Hh).
  rewrite Heq, (Z.mod_small r) by lia. unfold checked_mul, checked_add.
  destruct (ticks / hz * 1000000000 <=? U64_MAX) eqn:H1; cbn [mbind option_bind]; to_prop; [done|].
  by rewrite (proj2 (Z.leb_gt _ _)) by lia.
Qed.

(** The clocksource: once the counter has passed its start, the time is exactly the
    elapsed ticks in nanoseconds, rounded down, and is refused only when it does not fit
    64 bits; a counter behind the start is an error, never a wrapped time; and time never
    runs backwards between two readings. *)
Theorem clock_exact (clock : TscClocksource) (ticks later : Z) (t : MonotonicTime) :
  0 < tsc_frequency clock -> ticks <= later ->
  now clock ticks =
    (if ticks <? tsc_start_ticks clock then Err TimeOverflow else
     let n := (ticks - tsc_start_ticks clock) * 1000000000 / tsc_frequency clock in
     if n <=? U64_MAX then Ok (mkTime n) else Err TimeOverflow) /\
  (now clock ticks = Ok t -> forall t', now clock later = Ok t' -> as_nanos t <= as_nanos t').
Proof.
  intros Hf Hle.
  assert (Hexact : forall k, now clock k =
    if k <? tsc_start_ticks clock then Err TimeOverflow else
     let n := (k - tsc_start_ticks clock) * 1000000000 / tsc_frequency clock in
     if n <=? U64_MAX then Ok (mkTime n) else Err TimeOverflow).
  { intros k. cbn [now tsc_clocksource]. unfold tsc_now, checked_sub. destruct (k <? _) eqn:Hk; to_prop.
    - by rewrite (proj2 (Z.leb_gt _ _)) by lia.
    - rewrite (proj2 (Z.leb_le _ _)) by lia. cbn [ok_or]. rewrite ticks_to_nanos_exact by lia. cbv zeta. by case_if. }
  split; [apply Hexact|]. rewrite !Hexact. intros Ht t' Ht'. cbv zeta in *.
  repeat (case_if; [done || idtac|try done]); simplify_eq; cbn [as_nanos] in *; to_prop; try done;
    apply Z.div_le_mono; lia.
Qed.

Lemma clock_exact_witness :
  let clock := mkTsc 100 3000000000 in
  now clock 3000000100 = Ok (mkTime 1000000000) /\ as_nanos (mkTime 1000000000) <= as_nanos (mkTime 2000000000).
Proof.
  destruct (clock_exact (mkTsc 100 3000000000) 3000000100 6000000100 (mkTime 1000000000)) as [H1 H2]; [cbn; lia|lia|].
  split; [rewrite H1; reflexivity|]. apply H2; [rewrite H1; reflexivity|vm_compute; reflexivity].
Defined.

Section Frequency.
Context `{Hardware}.

Definition cpuid_u32 : Prop :=
  forall leaf sub, let r := cpuid leaf sub in is_u32 (eax r) /\ is_u32 (ebx r) /\ is_u32 (ecx r) /\ is_u32 (edx r).

Lemma nominal_bounds max_basic :
  cpuid_u32 ->
  match nominal_frequency max_basic with
  | Ok hz => 0 < hz <= U64_MAX /\ hz = eax (cpuid CPUID_PROCESSOR_FREQ 0) * 1000000
  | Err e => e = FrequencyUnavailable
  | Panic => False
  end.
Proof using Type.
  intros Hc. destruct (Hc CPUID_PROCESSOR_FREQ 0) as (Ha & _). unfold nominal_frequency, checked_mul.
  case_if; [|done]. case_if; to_prop; [|done]. rewrite (proj2 (Z.leb_le _ _)) by ulia. cbn [ok_or]. ulia.
Qed.

(** The frequency leaf 15H gives, 0 when it is absent or incomplete. *)
Definition ratio_hz : Z :=
  let r := cpuid CPUID_TSC_RATIO 0 in
  if (CPUID_TSC_RATIO <=? eax (cpuid 0 0)) && negb (eax r =? 0) then ecx r * ebx r / eax r else 0.

Lemma detect_frequency_cases :
  cpuid_u32 ->
  detect_frequency = if ratio_hz =? 0 then nominal_frequency (eax (cpuid 0 0)) else Ok ratio_hz.
Proof using Type.
  intros Hc. destruct (Hc CPUID_TSC_RATIO 0) as (Ha & Hb & He & _). unfold detect_frequency, ratio_hz.
  set (r := cpuid CPUID_TSC_RATIO 0) in *. destruct (CPUID_TSC_RATIO <=? _); cbn [andb]; [|done].
  destruct (eax r =? 0) eqn:H1; cbn [negb andb]; [done|]. to_prop.
  destruct (ebx r =? 0) eqn:H2; cbn [negb andb]; to_prop; [by rewrite H2, Z.mul_0_r|].
  destruct (ecx r =? 0) eqn:H3; cbn [negb andb]; to_prop; [by rewrite H3|].
  unfold checked_mul. rewrite (proj2 (Z.leb_le _ U64_MAX)) by (unfold_ints; nia). by destruct (_ =? 0).
Qed.

Lemma ratio_bounds : cpuid_u32 -> 0 <= ratio_hz <= U64_MAX.
Proof using Type.
  intros Hc. destruct (Hc CPUID_TSC_RATIO 0) as (Ha & Hb & He & _). unfold ratio_hz. case_if; [|ulia]. to_prop.
  split; [apply Z.div_pos|apply Z.div_le_upper_bound]; unfold_ints; nia.
Qed.

(** Frequency detection: the products it forms from 32-bit leaves never overflow, so
    the overflow error cannot occur; a detected frequency is positive and fits 64 bits,
    and is the crystal ratio of leaf 15H whenever that gives one, the nominal frequency
    of leaf 16H otherwise.  A clock is created only on an invariant counter. *)
Theorem frequency_detected (ticks : Z) :
  cpuid_u32 ->
  match try_new ticks with
  | Ok clock =>
      invariant_tsc_supported = true /\ tsc_start_ticks clock = ticks /\ 0 < tsc_frequency clock <= U64_MAX /\
      tsc_frequency clock = (if ratio_hz =? 0 then eax (cpuid CPUID_PROCESSOR_FREQ 0) * 1000000 else ratio_hz)
  | Err e => (e = TscUnsupported /\ invariant_tsc_supported = false) \/ (e = FrequencyUnavailable /\ ratio_hz = 0)
  | Panic => False
  end.
Proof using Type.
  intros Hc. unfold try_new. destruct invariant_tsc_supported; cbn [negb]; [|by left].
  rewrite detect_frequency_cases by done. pose proof (nominal_bounds (eax (cpuid 0 0)) Hc) as Hn.
  pose proof (ratio_bounds Hc). destruct (ratio_hz =? 0) eqn:Hr; to_prop; [|cbn; lia].
  destruct (nominal_frequency _) as [hz|e|]; [cbn; intuition|by right|done].
Qed.
End Frequency.

(** A processor with a 24 MHz crystal and a 3 GHz invariant counter. *)
Definition example_cpu : Hardware := {|
  answer := fun _ _ => 4294342295;
  cpuid := fun leaf _ =>
    if leaf =? 0 then (22, 0, 0, 0) else if leaf =? 1 then (0, 0, Z.shiftl 1 24, 0)
    else if leaf =? 21 then (2, 250, 24000000, 0) else if leaf =? 2147483648 then (2147483656, 0, 0, 0)
    else if leaf =? 2147483655 then (0, 0, 0, 256) else (0, 0, 0, 0);
|}.

Lemma example_cpu_u32 : @cpuid_u32 example_cpu.
Proof. intros leaf sub. cbn. repeat case_if; vm_compute; intuition discriminate. Qed.

Lemma frequency_detected_witness :
  @cpuid_u32 example_cpu /\
  match @try_new example_cpu 5 with Ok clock => 0 < tsc_frequency clock <= U64_MAX | _ => False end.
Proof.
  split; [exact example_cpu_u32|].
  pose proof (frequency_detected (H := example_cpu) 5 example_cpu_u32) as Hf.
  change (@try_new example_cpu 5) with (Ok (E := TscError) (mkTsc 5 3000000000)) in *.
  destruct Hf as (_ & _ & Hb & _). exact Hb.
Defined.

(** ** The timer *)

(** The timer's registers and where each mode finds them. *)
Inductive TimerReg := RLvt | RInit | RCurrent | RDivide.
Definition reg_offset (r : TimerReg) : Z := match r with RLvt => 800 | RInit => 896 | RCurrent => 912 | RDivide => 992 end.
Definition reg_msr (r : TimerReg) : Z := match r with RLvt => 2098 | RInit => 2104 | RCurrent => 2105 | RDivide => 2110 end.

(** What a timer built by [LapicTimer_new] keeps, its registers below the end of memory. *)
Definition timer_ready (self : LapicTimer) : Prop :=
  lt_tsc_deadline self = IA32_TSC_DEADLINE /\
  match lt_mode self with
  | XApic => exists base, lt_mmio_base self = Some base /\ 0 <= base /\ base + 992 <= U64_MAX
  | X2Apic => lt_lvt_timer self = Some 2098 /\ lt_init_count self = Some 2104 /\ lt_current_count self = Some 2105 /\
              lt_divide_config self = Some 2110
  end.

Definition reg_write (self : LapicTimer) (r : TimerReg) (v : Z) : Access :=
  match lt_mode self with
  | XApic => MmioWrite (default 0 (lt_mmio_base self) + reg_offset r) v
  | X2Apic => MsrWrite (reg_msr r) v
  end.
Definition reg_read (self : LapicTimer) (r : TimerReg) : Access :=
  match lt_mode self with
  | XApic => MmioRead (default 0 (lt_mmio_base self) + reg_offset r)
  | X2Apic => MsrRead (reg_msr r)
  end.

Lemma write_reg_ready self r msr v h :
  timer_ready self ->
  msr = match r with RLvt => lt_lvt_timer self | RInit => lt_init_count self | RCurrent => lt_current_count self
                   | RDivide => lt_divide_config self end ->
  lt_write_register (lt_mode self) (lt_mmio_base self) (reg_offset r) msr v h = (Ok tt, h ++ [reg_write self r v]).
Proof.
  intros [_ Hr] ->. unfold lt_write_register, reg_write. destruct (lt_mode self).
  - destruct Hr as (base & -> & Hb & Hl). unfold checked_add.
    rewrite (proj2 (Z.leb_le _ _)) by (destruct r; cbn; lia). done.
  - destruct Hr as (H1 & H2 & H3 & H4). destruct r; [rewrite H1|rewrite H2|rewrite H3|rewrite H4]; done.
Qed.

Lemma write_lvt_ready self v h : timer_ready self -> write_lvt self v h = (Ok tt, h ++ [reg_write self RLvt v]).
Proof. intros Hr. by apply (write_reg_ready self RLvt). Qed.
Lemma write_initial_ready self v h : timer_ready self -> write_initial self v h = (Ok tt, h ++ [reg_write self RInit v]).
Proof. intros Hr. by apply (write_reg_ready self RInit). Qed.
Lemma write_divide_ready self v h : timer_ready self -> write_divide self v h = (Ok tt, h ++ [reg_write self RDivide v]).
Proof. intros Hr. by apply (write_reg_ready self RDivide). Qed.

(** Periodic programming is exact: with a calibrated frequency, the count written is
    the interval in timer ticks, rounded down, and the call succeeds precisely when that
    is between one tick and the 32-bit register's maximum; every other interval is
    refused before any register is touched.  The intermediate 64-bit product never
    refuses an interval that would fit. *)
Theorem set_periodic_exact (self : LapicTimer) (frequency nanos : Z) (h : list Access) :
  timer_ready self -> lt_frequency self = Some frequency -> 0 <= frequency -> 0 <= nanos ->
  let n := frequency * nanos / 1000000000 in
  set_periodic self (mkInterval nanos) h =
    if (1 <=? n) && (n <=? U32_MAX)
    then (Ok tt, h ++ [reg_write self RLvt 131104; reg_write self RInit n])
    else (Err IntervalTooLarge, h).
Proof.
  intros Hr Hf Hf0 Hn. cbn [set_periodic lapic_timer_device]. unfold lapic_set_periodic. rewrite Hf.
  cbn [interval_nanos]. set (n := frequency * nanos / 1000000000).
  assert (Hn0 : 0 <= n) by (apply Z.div_pos; nia).
  unfold checked_mul. destruct (frequency * nanos <=? U64_MAX) eqn:Hm; to_prop.
  - fold n. destruct (n <=? U32_MAX) eqn:H1; to_prop.
    + rewrite (proj2 (Z.ltb_ge _ _)) by lia. destruct (1 <=? n) eqn:H2; to_prop.
      * rewrite (proj2 (Z.eqb_neq n 0)) by lia. cbn [andb]. rewrite write_lvt_ready, write_initial_ready by done.
        by rewrite <-app_assoc.
      * by rewrite (proj2 (Z.eqb_eq n 0)) by lia.
    + rewrite (proj2 (Z.ltb_lt _ _)) by lia. by rewrite andb_false_r.
  - assert (U32_MAX < n) by (apply Z.lt_le_trans with (U64_MAX / 1000000000); [reflexivity|]; apply Z.div_le_mono; lia).
    rewrite (proj2 (Z.leb_gt n U32_MAX)) by lia. by rewrite andb_false_r.
Qed.

(** A calibrated timer in each mode. *)
Definition example_timer (mode : ApicMode) : LapicTimer :=
  match mode with
  | XApic => mkLapicTimer XApic (Some 4276092928) (Some 62500000) true (Some 7000) (Some 3000000000) None None None None 1760
  | X2Apic => mkLapicTimer X2Apic None (Some 62500000) true (Some 7000) (Some 3000000000)
                (Some 2098) (Some 2104) (Some 2105) (Some 2110) 1760
  end.

Lemma example_timer_ready mode : timer_ready (example_timer mode).
Proof.
  destruct mode; split; [done| |done|done]. exists 4276092928. split; [done|]. ulia.
Qed.

Lemma set_periodic_exact_witness :
  set_periodic (example_timer X2Apic) (mkInterval 10000000) [] =
  (Ok tt, [] ++ [MsrWrite 2098 131104; MsrWrite 2104 625000]).
Proof.
  rewrite (set_periodic_exact (example_timer X2Apic) 62500000 10000000 [] (example_timer_ready X2Apic) eq_refl)
    by lia. reflexivity.
Defined.

(** *** Calibration *)

(** Readings of a counter that advances, by less than half its range, from each reading
    to the next; the register shows the count modulo 2^64. *)
Definition advancing (count : nat -> Z) (tsc : nat -> Z) : Prop :=
  forall i, 1 <= count (S i) - count i <= 2 ^ 63 /\ tsc i = count i mod (U64_MAX + 1).

Lemma advancing_lower count tsc i : advancing count tsc -> count 0%nat + Z.of_nat i <= count i.
Proof. intros Ha. induction i as [|i IH]; [lia|]. destruct (Ha i) as [? _]. lia. Qed.

Lemma spin_ends fuel count tsc i target :
  advancing count tsc -> 0 <= target <= 2 ^ 63 -> (i = 0%nat \/ count i - count 0%nat < target) ->
  (Z.to_nat target < i + fuel)%nat ->
  exists k, spin fuel tsc (S i) (tsc 0%nat) target = Some k.
Proof.
  intros Ha Ht. revert i. induction fuel as [|fuel IH]; intros i Hi Hf.
  { pose proof (advancing_lower count tsc i Ha). destruct Hi; lia. }
  cbn [spin]. destruct (target <=? wrapping_sub (tsc (S i)) (tsc 0%nat)) eqn:Hc; [by eexists|]. to_prop.
  apply IH; [|lia]. right. unfold wrapping_sub in Hc. destruct (Ha (S i)) as [_ H1], (Ha 0%nat) as [_ H0], (Ha i) as [Hs _].
  rewrite H1, H0, <-Zminus_mod in Hc. pose proof (advancing_lower count tsc (S i) Ha).
  destruct (decide (count (S i) - count 0%nat < target)) as [|Hge]; [done|]. exfalso.
  rewrite Z.mod_small in Hc; [lia|]. unfold U64_MAX. destruct Hi as [->|Hi]; lia.
Qed.

Section Calibration.
Context `{Hardware}.

(** The history after the count was set running, and the count read there. *)
Definition running (self : LapicTimer) (h : list Access) : list Access :=
  h ++ [reg_write self RDivide 3; reg_write self RLvt 65568; reg_write self RInit U32_MAX].
Definition count_read (self : LapicTimer) (h : list Access) : Z :=
  match lt_mode self with
  | XApic => answer (running self h) (reg_read self RCurrent)
  | X2Apic => as_u32 (answer (running self h) (reg_read self RCurrent))
  end.

Lemma read_current_ready self h :
  timer_ready self ->
  read_current self h =
  (Ok (match lt_mode self with XApic => answer h (reg_read self RCurrent)
       | X2Apic => as_u32 (answer h (reg_read self RCurrent)) end), h ++ [reg_read self RCurrent]).
Proof using Type.
  intros [_ Hr]. unfold read_current, lt_read_register, reg_read. destruct (lt_mode self).
  - destruct Hr as (base & -> & Hb & Hl). unfold checked_add, TIMER_CURRENT_COUNT_OFFSET.
    rewrite (proj2 (Z.leb_le _ _)) by lia. done.
  - destruct Hr as (_ & _ & -> & _). done.
Qed.

Lemma with_calibration_ready self f s z : timer_ready self -> timer_ready (with_calibration self f s z).
Proof using Type. done. Qed.

(** C34: Calibration terminates whenever the counter advances, through a wrap-around too:
    fuel for one reading per target tick is enough.  It fails only for a counter
    frequency out of range or a timer that did not count; then the timer is as before.
    Otherwise the frequency is a hundred times the ticks counted, it is recorded with the
    start reading and the counter frequency, and the registers are left with the count
    stopped and the interrupt masked. *)
Theorem calibrate_terminates (fuel : nat) (count : nat -> Z) (tsc : nat -> Z) (clock : TscClocksource)
  (self : LapicTimer) (h : list Access) :
  timer_ready self -> advancing count tsc -> 0 <= tsc_frequency clock -> (forall h x, 0 <= answer h x) ->
  (Z.to_nat (tsc_frequency clock / 100) < fuel)%nat ->
  let elapsed := Z.max 0 (U32_MAX - count_read self h) in
  match calibrate fuel tsc clock self h with
  | (Ok f, (self', h')) =>
      f = elapsed * 100 /\ 0 < elapsed /\
      self' = with_calibration self f (tsc 0%nat) (tsc_frequency clock) /\ timer_ready self' /\
      h' = running self h ++ [reg_read self RCurrent; reg_write self RInit 0; reg_write self RLvt 65568]
  | (Err e, (self', h')) =>
      self' = self /\
      (e = FrequencyOverflow /\ U64_MAX < tsc_frequency clock * CALIBRATION_TSC_NANOS \/
       e = CalibrationFailed /\ (tsc_frequency clock < 100 \/ elapsed = 0))
  | (Panic, _) => False
  end.
Proof using Type.
  intros Hr Ha Hf Hans Hfuel elapsed. unfold calibrate.
  rewrite write_divide_ready, write_lvt_ready, write_initial_ready by done. rewrite <-!app_assoc. cbn [app].
  change (Z.lor TIMER_VECTOR LVT_MASKED) with 65568. change DIVIDE_BY_16_ENCODING with 3.
  change MAX_INITIAL_COUNT with U32_MAX. fold (running self h). set (hz := tsc_frequency clock) in *.
  unfold checked_mul at 1. destruct (hz * CALIBRATION_TSC_NANOS <=? U64_MAX) eqn:Hm; to_prop; [|by split; [|left]].
  unfold CALIBRATION_TSC_NANOS in *.
  assert (Htarget : hz * 10000000 / 1000000000 = hz / 100).
  { replace 1000000000 with (100 * 10000000) by lia. rewrite Z.div_mul_cancel_r by lia. done. }
  rewrite Htarget. destruct (hz / 100 =? 0) eqn:Hz; to_prop.
  { split; [done|]. right. split; [done|]. left. Z.to_euclidean_division_equations; lia. }
  destruct (spin_ends fuel count tsc 0 (hz / 100)) as [k ->]; [done| |by left|lia|].
  { unfold U64_MAX in *. Z.to_euclidean_division_equations; lia. }
  rewrite read_current_ready by done. fold (count_read self h).
  assert (Hcr : 0 <= count_read self h).
  { unfold count_read. destruct (lt_mode self); [apply Hans|]. unfold as_u32. apply Z.mod_pos_bound. ulia. }
  replace (saturating_sub U32_MAX (count_read self h)) with elapsed by (unfold elapsed, saturating_sub; lia).
  assert (He : 0 <= elapsed <= U32_MAX) by (unfold elapsed; ulia).
  destruct (elapsed =? 0) eqn:H0; to_prop; [by split; [|right; split; [|right]]|].
  unfold checked_mul. rewrite (proj2 (Z.leb_le _ _)) by ulia.
  assert (Hq : elapsed * 1000000000 / 10000000 = elapsed * 100).
  { replace (elapsed * 1000000000) with (elapsed * 100 * 10000000) by lia. apply Z.div_mul. lia. }
  rewrite Hq, (proj2 (Z.eqb_neq (elapsed * 100) 0)) by lia.
  rewrite write_initial_ready, write_lvt_ready by (by apply with_calibration_ready). cbn [fst snd].
  rewrite <-!app_assoc. cbn [app]. repeat split; try lia; try done; apply Hr.
Qed.
End Calibration.

(** A 10 kHz counter that gains 7 ticks between readings and wraps around meanwhile. *)
Lemma calibrate_terminates_witness :
  exists self' h',
  calibrate (H := example_cpu) 200 (fun i => (18446744073709551600 + 7 * Z.of_nat i) mod (U64_MAX + 1))
    (mkTsc 0 10000) (example_timer XApic) [] = (Ok 62500000, (self', h')).
Proof.
  pose proof (calibrate_terminates (H := example_cpu) 200 (fun i => 18446744073709551600 + 7 * Z.of_nat i)
    (fun i => (18446744073709551600 + 7 * Z.of_nat i) mod (U64_MAX + 1))
    (mkTsc 0 10000) (example_timer XApic) [] (example_timer_ready XApic)) as Hc.
  cbv zeta in Hc. destruct (calibrate _ _ _ _ _) as [[f|e|] [self' h']].
  - destruct Hc as (-> & _); [intros i; split; [lia|done]|cbn; lia|intros; cbn; lia|vm_compute; lia|].
    exists self', h'. reflexivity.
  - destruct Hc as (_ & [[_ Hc]|[_ [Hc|Hc]]]); [intros i; split; [lia|done]|cbn; lia|intros; cbn; lia|vm_compute; lia|..];
      vm_compute in Hc; discriminate.
  - destruct Hc; [intros i; split; [lia|done]|cbn; lia|intros; cbn; lia|vm_compute; lia].
Defined.

(** *** What the registers do

    The timer of the architecture: bits 17 and 18 of the LVT entry select one-shot (0),
    periodic (1) or TSC-deadline (2) mode and bit 16 masks it; changing the mode disarms
    it; the initial count counts in the first two modes only, and a write of the deadline
    register takes effect in the third only. *)
Record TimerHw := mkHw { th_lvt : Z; th_init : Z; th_deadline : Z }.
Definition timer_mode (lvt : Z) : Z := Z.land (Z.shiftr lvt 17) 3.

Definition hw_write (hw : TimerHw) (r : option TimerReg) (v : Z) : TimerHw :=
  match r with
  | Some RLvt => if timer_mode v =? timer_mode (th_lvt hw) then mkHw v (th_init hw) (th_deadline hw) else mkHw v 0 0
  | Some RInit => if timer_mode (th_lvt hw) =? 2 then hw else mkHw (th_lvt hw) v (th_deadline hw)
  | Some _ => hw
  | None => if timer_mode (th_lvt hw) =? 2 then mkHw (th_lvt hw) (th_init hw) v else hw
  end.

(** The register an access writes; the deadline register is [Some None]. *)
Definition timer_register (self : LapicTimer) (x : Access) : option (option TimerReg * Z) :=
  match x, lt_mode self with
  | MmioWrite a v, XApic =>
      let offset := a - default 0 (lt_mmio_base self) in
      if offset =? 800 then Some (Some RLvt, v) else if offset =? 896 then Some (Some RInit, v) else None
  | MsrWrite r v, mode =>
      if r =? 1760 then Some (None, v)
      else match mode with
           | X2Apic => if r =? 2098 then Some (Some RLvt, v) else if r =? 2104 then Some (Some RInit, v) else None
           | XApic => None
           end
  | _, _ => None
  end.
Definition hw_after (self : LapicTimer) : TimerHw -> list Access -> TimerHw :=
  foldl (fun hw x => match timer_register self x with Some (r, v) => hw_write hw r v | None => hw end).

(** The timer will interrupt. *)
Definition armed (hw : TimerHw) : bool :=
  negb (Z.testbit (th_lvt hw) 16) &&
  (if timer_mode (th_lvt hw) =? 2 then negb (th_deadline hw =? 0)
   else (timer_mode (th_lvt hw) <? 2) && negb (th_init hw =? 0)).

Lemma register_lvt self v : timer_register self (reg_write self RLvt v) = Some (Some RLvt, v).
Proof.
  unfold timer_register, reg_write. destruct (lt_mode self) eqn:Hm; [|done]. cbn [reg_offset].
  by replace (_ + 800 - _) with 800 by lia.
Qed.
Lemma register_init self v : timer_register self (reg_write self RInit v) = Some (Some RInit, v).
Proof.
  unfold timer_register, reg_write. destruct (lt_mode self) eqn:Hm; [|done]. cbn [reg_offset].
  by replace (_ + 896 - _) with 896 by lia.
Qed.
Lemma register_deadline self v : timer_register self (MsrWrite IA32_TSC_DEADLINE v) = Some (None, v).
Proof. unfold timer_register. by destruct (lt_mode self). Qed.

(** From any state of the timer's registers: a successful periodic programming leaves
    the timer armed in periodic mode with the count of the interval, and disabling it
    always succeeds and leaves it disarmed and masked. *)
Theorem periodic_arms_disable_disarms (self : LapicTimer) (interval : TimerInterval) (hw : TimerHw) (h : list Access) :
  timer_ready self ->
  (forall h', set_periodic self interval h = (Ok tt, h') -> exists t f, h' = h ++ t /\ lt_frequency self = Some f /\
     let hw' := hw_after self hw t in
     armed hw' = true /\ timer_mode (th_lvt hw') = 1 /\ th_init hw' = f * interval_nanos interval / 1000000000) /\
  (exists t, disable self h = (Ok tt, h ++ t) /\ armed (hw_after self hw t) = false /\
             Z.testbit (th_lvt (hw_after self hw t)) 16 = true).
Proof.
  intros Hr. split.
  - cbn [set_periodic lapic_timer_device]. unfold lapic_set_periodic. intros h' Hs.
    destruct (lt_frequency self) as [f|]; [|done]. unfold checked_mul in Hs. case_if; [|done]. cbv zeta in Hs.
    case_if; [done|]. case_if; [done|]. to_prop. rewrite write_lvt_ready, write_initial_ready in Hs by done.
    injection Hs as <-. rewrite <-app_assoc. eexists _, f. split; [reflexivity|]. split; [done|].
    set (n := f * interval_nanos interval / 1000000000) in *.
    cbn [app hw_after foldl]. rewrite register_lvt, register_init. cbv zeta.
    cbn [hw_write]. change (timer_mode (Z.lor TIMER_VECTOR LVT_PERIODIC)) with 1.
    assert (Hn : negb (n =? 0) = true) by (apply negb_true_iff, Z.eqb_neq; done).
    assert (Harm : forall d, armed (mkHw (Z.lor TIMER_VECTOR LVT_PERIODIC) n d) = true).
    { intros d. unfold armed. cbn [th_lvt th_init]. by rewrite Hn. }
    destruct (1 =? timer_mode (th_lvt hw)); cbn [th_lvt]; (split; [apply Harm|done]).
  - cbn [disable lapic_timer_device]. unfold lapic_disable. rewrite write_initial_ready, write_lvt_ready by done.
    rewrite <-!app_assoc. eexists. split; [reflexivity|]. destruct Hr as [-> _].
    cbn [app hw_after foldl]. rewrite register_lvt, register_init, register_deadline.
    set (hw1 := hw_write _ (Some RInit) 0). cbn [hw_write].
    case_if; cbn [th_lvt armed]; done.
Qed.

Lemma periodic_arms_disable_disarms_witness :
  exists t, disable (example_timer XApic) [] = (Ok tt, [] ++ t) /\
    armed (hw_after (example_timer XApic) (mkHw 131104 625000 0) t) = false /\
    Z.testbit (th_lvt (hw_after (example_timer XApic) (mkHw 131104 625000 0) t)) 16 = true.
Proof.
  apply (periodic_arms_disable_disarms (example_timer XApic) (mkInterval 10000000) (mkHw 131104 625000 0) []).
  apply example_timer_ready.
Defined.

(** Deadline programming never arms the timer: its LVT write selects one-shot mode,
    in which the deadline register ignores writes, and the initial count was just set to
    zero.  Whenever the call reports success, from any state of the registers, no
    interrupt will come. *)
Theorem deadline_never_arms (self : LapicTimer) (deadline : TimerDeadline) (hw : TimerHw) (h h' : list Access) :
  timer_ready self -> set_deadline self deadline h = (Ok tt, h') ->
  exists t, h' = h ++ t /\ armed (hw_after self hw t) = false.
Proof.
  intros Hr. cbn [set_deadline lapic_timer_device]. unfold lapic_set_deadline. case_if; [done|].
  destruct (deadline_to_tsc _ _) as [target|e|]; [|done|done].
  rewrite write_initial_ready, write_lvt_ready by done. intros [= <-]. rewrite <-!app_assoc. eexists. split; [reflexivity|].
  destruct Hr as [-> _]. cbn [app hw_after foldl]. rewrite register_lvt, register_init, register_deadline.
  cbn [hw_write]. change (timer_mode TIMER_VECTOR) with 0.
  destruct (timer_mode (th_lvt hw) =? 2) eqn:Hm; to_prop; cbn [th_lvt th_init th_deadline].
  - rewrite Hm. done.
  - destruct (0 =? timer_mode (th_lvt hw)); done.
Qed.

Lemma deadline_never_arms_witness :
  exists h' t, set_deadline (example_timer X2Apic) (mkDeadline (mkTime 1000000)) [] = (Ok tt, h') /\ h' = [] ++ t /\
    armed (hw_after (example_timer X2Apic) (mkHw 65568 0 0) t) = false.
Proof.
  eexists. destruct (deadline_never_arms (example_timer X2Apic) (mkDeadline (mkTime 1000000)) (mkHw 65568 0 0) []
    _ (example_timer_ready X2Apic) eq_refl) as (t & Ht & Ha).
  exists t. split; [reflexivity|]. split; [exact Ht|exact Ha].
Defined.

(** The deadline's place on the counter is exact in its own time base (the quotient,
    or the overflow error when it passes 64 bits, the 128-bit products never overflowing),
    but that base starts at calibration: when the counter gets there, the clock shows the
    deadline plus the time between the clock's creation and calibration, less a tick. *)
Theorem deadline_late (self : LapicTimer) (clock : TscClocksource) (start nanos : Z) :
  lt_tsc_start_ticks self = Some start -> lt_tsc_frequency_hz self = Some (tsc_frequency clock) ->
  is_u64 start -> is_u64 nanos -> 0 < tsc_frequency clock <= U64_MAX -> tsc_start_ticks clock <= start ->
  let target := start + nanos * tsc_frequency clock / 1000000000 in
  deadline_to_tsc self (mkTime nanos) = (if target <=? U64_MAX then Ok target else Err DeadlineOverflow) /\
  forall t, now clock target = Ok t ->
    nanos + (start - tsc_start_ticks clock - 1) * 1000000000 / tsc_frequency clock <= as_nanos t.
Proof.
  intros Hs Hf Hsr Hn Hfr Hc target. set (hz := tsc_frequency clock) in *.
  assert (Hd : 0 <= nanos * hz / 1000000000 <= U64_MAX * U64_MAX).
  { split; [apply Z.div_pos; unfold_ints; nia|]. apply Z.div_le_upper_bound; unfold_ints; nia. }
  split.
  - unfold deadline_to_tsc. rewrite Hs, Hf. cbn [ok_or as_nanos].
    rewrite (proj2 (Z.ltb_lt (nanos * hz) _)) by (unfold_ints; nia). fold target.
    rewrite (proj2 (Z.ltb_lt target _)); [done|]. unfold target.
    assert (nanos * hz / 1000000000 <= nanos * hz) by (apply Z.div_le_upper_bound; unfold_ints; nia).
    unfold_ints. nia.
  - intros t. cbn [now tsc_clocksource]. unfold tsc_now, checked_sub. rewrite (proj2 (Z.leb_le _ _)) by (unfold target; lia).
    cbn [ok_or]. fold hz. rewrite ticks_to_nanos_exact by (unfold target; lia). case_if; [|done]. intros [= <-]. cbn [as_nanos].
    rewrite Z.add_comm, <-Z.div_add by lia. apply Z.div_le_mono; [lia|]. unfold target.
    pose proof (Z.div_mod (nanos * hz) 1000000000 ltac:(lia)). pose proof (Z.mod_pos_bound (nanos * hz) 1000000000 ltac:(lia)).
    lia.
Qed.

Lemma deadline_late_witness :
  deadline_to_tsc (example_timer XApic) (mkTime 1000000) = Ok 3007000 /\
  1000000 + (7000 - 1000 - 1) * 1000000000 / 3000000000 <= as_nanos (mkTime 1002000).
Proof.
  destruct (deadline_late (example_timer XApic) (mkTsc 1000 3000000000) 7000 1000000 eq_refl eq_refl) as [H1 H2];
    [ulia|ulia|cbn; ulia|cbn; lia|].
  split; [rewrite H1; reflexivity|]. apply H2. vm_compute. reflexivity.
Defined.
