(* ===== verification/Descriptors.v ===== *)
(** * Segment and interrupt descriptors, CPU initialization

    [arch/x86_64/gdt.rs]: the task state segment and the global descriptor table;
    [arch/x86_64/idt.rs] [init]: the interrupt gates; [arch/x86_64/mod.rs] [init]: the
    no-execute feature, then the two tables.  The table types of the x86_64 crate are
    the classes below. *)

From stdpp Require Import base numbers sets list options.
From S2P Require Import Prelude UserExecution KernelTask Apic Timers.

Local Open Scope Z_scope.
Local Open Scope rust_scope.

Definition DOUBLE_FAULT_IST_INDEX : Z := 0.
Definition KERNEL_ENTRY_STACK_SIZE : Z := 32 * 1024.
Definition DOUBLE_FAULT_STACK_SIZE : Z := 32 * 1024.

(** The descriptors the table is built from; the system segment of the TSS takes two
    entries, the others one. *)
Inductive Descriptor := KernelCodeSegment | KernelDataSegment | UserDataSegment | UserCodeSegment | TssSegment.

(** [GlobalDescriptorTable] of the crate: [append] returns the index of the selector. *)
Class GdtCrate := {
  gdt_table : Type;
  gdt_new : gdt_table;
  gdt_append : gdt_table -> Descriptor -> result Empty_set (Z * gdt_table);
}.

(** As documented: a new table holds the null descriptor, a segment is appended behind
    the entries there are, and there is room for eight. *)
Class GdtLaws `{GdtCrate} := {
  gdt_len : gdt_table -> Z;
  gdt_new_len : gdt_len gdt_new = 1;
  gdt_append_segment t d :
    d <> TssSegment -> gdt_len t < 8 ->
    exists t', gdt_append t d = Ok (gdt_len t, t') /\ gdt_len t' = gdt_len t + 1;
  gdt_append_system t :
    gdt_len t < 7 -> exists t', gdt_append t TssSegment = Ok (gdt_len t, t') /\ gdt_len t' = gdt_len t + 2;
}.

Record TaskStateSegment := mkTss { tss_rsp0 : Z; tss_double_fault : Z }.

Record GdtState `{GdtCrate} := mkGdt {
  gs_table : gdt_table;
  gs_kernel_code : Z;
  gs_kernel_data : Z;
  gs_user_data : Z;
  gs_user_code : Z;
  gs_tss_selector : Z;
}.

(** A gate of the interrupt table. *)
Record Gate := mkGate { gate_vector : Z; gate_handler : Z; gate_dpl : Z; gate_ist : option Z }.

(** Addresses the linker chose. *)
Record LinkedSymbols := mkSymbols {
  ls_kernel_entry_stack : Z;
  ls_double_fault_stack : Z;
  ls_breakpoint_handler : Z;
  ls_page_fault_handler : Z;
  ls_double_fault_handler : Z;
  ls_syscall_entry : Z;
  ls_timer_entry : Z;
}.

(** The processor state the initialization sets: the [Once] cells, what was loaded, and
    the no-execute enable of EFER. *)
Record CpuTables `{GdtCrate} := mkTables {
  ct_tss : option TaskStateSegment;
  ct_gdt : option GdtState;
  ct_segments : option (Z * Z * Z);
  ct_idt : option (list Gate);
  ct_nxe : bool;
}.

Section Init.
Context `{GdtCrate} `{VirtAddrCrate} `{Hardware}.

Definition virt_addr_end {E} (start size : Z) : result E Z :=
  if virt_addr_new_ok start && virt_addr_new_ok (start + size) then Ok (start + size) else Panic.

(** The closure of [TSS.call_once]. *)
Definition tss_build (ls : LinkedSymbols) : result Empty_set TaskStateSegment :=
  let? kernel_stack_end := virt_addr_end (ls_kernel_entry_stack ls) KERNEL_ENTRY_STACK_SIZE in
  let? stack_end := virt_addr_end (ls_double_fault_stack ls) DOUBLE_FAULT_STACK_SIZE in
  Ok (mkTss kernel_stack_end stack_end).

(** The closure of [GDT.call_once]; a failed [assert_eq!] is the panic. *)
Definition gdt_build : result Empty_set GdtState :=
  let table := gdt_new in
  let? (kernel_code, table) := gdt_append table KernelCodeSegment in
  let? (kernel_data, table) := gdt_append table KernelDataSegment in
  let? (user_data, table) := gdt_append table UserDataSegment in
  let? (user_code, table) := gdt_append table UserCodeSegment in
  let? (tss_selector, table) := gdt_append table TssSegment in
  let actual_user_data := Z.lor (Z.shiftl user_data 3) 3 in
  let actual_user_code := Z.lor (Z.shiftl user_code 3) 3 in
  if negb (actual_user_data =? USER_DATA_SELECTOR) then Panic
  else if negb (actual_user_code =? USER_CODE_SELECTOR) then Panic
  else Ok (mkGdt _ table kernel_code kernel_data user_data user_code tss_selector).

Definition gdt_init (ls : LinkedSymbols) (t : CpuTables) : result Empty_set CpuTables :=
  let? tss := match ct_tss t with Some tss => Ok tss | None => tss_build ls end in
  let? state := match ct_gdt t with Some state => Ok state | None => gdt_build end in
  Ok (mkTables _ (Some tss) (Some state)
        (Some (gs_kernel_code state, gs_kernel_data state, gs_tss_selector state)) (ct_idt t) (ct_nxe t)).

Definition kernel_code_selector (t : CpuTables) : option Z := (fun s => Z.shiftl (gs_kernel_code s) 3) <$> ct_gdt t.
Definition user_code_selector (t : CpuTables) : option Z := (fun s => Z.lor (Z.shiftl (gs_user_code s) 3) 3) <$> ct_gdt t.
Definition user_data_selector (t : CpuTables) : option Z := (fun s => Z.lor (Z.shiftl (gs_user_data s) 3) 3) <$> ct_gdt t.

Definition USER_TRAP_VECTOR : Z := 128.

(** The closure of [IDT.call_once]: breakpoint, page fault and double fault by their
    architectural vectors. *)
Definition idt_build (ls : LinkedSymbols) : result Empty_set (list Gate) :=
  if virt_addr_new_ok (ls_syscall_entry ls) && virt_addr_new_ok (ls_timer_entry ls) then
    Ok [mkGate 3 (ls_breakpoint_handler ls) 0 None; mkGate 14 (ls_page_fault_handler ls) 0 None;
        mkGate USER_TRAP_VECTOR (ls_syscall_entry ls) 3 None;
        mkGate 8 (ls_double_fault_handler ls) 0 (Some DOUBLE_FAULT_IST_INDEX);
        mkGate TIMER_VECTOR (ls_timer_entry ls) 0 None]
  else Panic.

Definition idt_init (ls : LinkedSymbols) (t : CpuTables) : result Empty_set CpuTables :=
  let? gates := match ct_idt t with Some gates => Ok gates | None => idt_build ls end in
  Ok (mkTables _ (ct_tss t) (ct_gdt t) (ct_segments t) (Some gates) (ct_nxe t)).

Definition enable_nxe (t : CpuTables) : result Empty_set CpuTables :=
  if eax (cpuid 2147483648 0) <? 2147483649 then Panic
  else if Z.land (edx (cpuid 2147483649 0)) (Z.shiftl 1 20) =? 0 then Panic
  else Ok (mkTables _ (ct_tss t) (ct_gdt t) (ct_segments t) (ct_idt t) true).

Definition arch_init (ls : LinkedSymbols) (t : CpuTables) : result Empty_set CpuTables :=
  let? t := enable_nxe t in
  let? t := gdt_init ls t in
  idt_init ls t.
End Init.

Definition CpuTables_initial `{GdtCrate} : CpuTables := mkTables _ None None None None false.

(** ** The user selectors *)
Section Selectors.
Context `{GdtLaws} `{VirtAddrCrate} `{Hardware}.

Lemma gdt_build_panics : gdt_build = Panic.
Proof using Type*.
  unfold gdt_build.
  destruct (gdt_append_segment gdt_new KernelCodeSegment) as (t1 & -> & L1); [done|rewrite gdt_new_len; lia|].
  rewrite gdt_new_len in L1 |- *. cbv iota.
  destruct (gdt_append_segment t1 KernelDataSegment) as (t2 & -> & L2); [done|lia|]. rewrite L1 in L2 |- *. cbv iota.
  destruct (gdt_append_segment t2 UserDataSegment) as (t3 & -> & L3); [done|lia|]. rewrite L2 in L3 |- *. cbv iota.
  destruct (gdt_append_segment t3 UserCodeSegment) as (t4 & -> & L4); [done|lia|]. rewrite L3 in L4 |- *. cbv iota.
  destruct (gdt_append_system t4) as (t5 & -> & L5); [lia|]. reflexivity.
Qed.

Lemma arch_init_fails (ls : LinkedSymbols) : arch_init ls CpuTables_initial = Panic.
Proof using Type*.
  unfold arch_init, enable_nxe. repeat case_if; try done. cbv iota. unfold gdt_init. cbn [ct_tss ct_gdt CpuTables_initial].
  destruct (tss_build ls) as [tss|[]|]; [|done]. by rewrite gdt_build_panics.
Qed.

(** CPU initialization panics on every machine.  The fourth and fifth entries of the
    table are the user segments, so their selectors are 0x1b and 0x23, while the
    assertions demand the constants 0x13 and 0x1b. *)
Theorem arch_init_panics (ls : LinkedSymbols) : arch_init ls CpuTables_initial = Panic.
Proof using Type*. apply arch_init_fails. Qed.
End Selectors.

(** A table that counts its entries is a model of the crate. *)
Definition counting_gdt : GdtCrate := {|
  gdt_table := Z;
  gdt_new := 1;
  gdt_append := fun n d =>
    match d with
    | TssSegment => if n <? 7 then Ok (n, n + 2) else Panic
    | _ => if n <? 8 then Ok (n, n + 1) else Panic
    end;
|}.

#[export] Program Instance counting_gdt_laws : @GdtLaws counting_gdt := {| gdt_len := fun n => n |}.
Next Obligation. done. Qed.
Next Obligation.
  intros t d Hd Hl. exists (t + 1). split; [|done]. cbn in *. destruct d; try done; by rewrite (proj2 (Z.ltb_lt _ _)).
Qed.
Next Obligation. intros t Hl. exists (t + 2). split; [|done]. cbn in *. by rewrite (proj2 (Z.ltb_lt _ _)). Qed.

(** A processor with no-execute support. *)
Definition nx_cpu : Hardware := {|
  answer := fun _ _ => 0;
  cpuid := fun leaf _ => if leaf =? 2147483648 then (2147483656, 0, 0, 0) else (0, 0, 0, Z.shiftl 1 20);
|}.

Lemma arch_init_panics_witness :
  is_ok (enable_nxe (H := counting_gdt) (H1 := nx_cpu) CpuTables_initial) = true /\
  arch_init (H := counting_gdt) (H0 := canonical_virt_addr) (H1 := nx_cpu)
    (mkSymbols 1048576 2097152 4096 4160 4224 4288 4352) CpuTables_initial = Panic.
Proof. split; [reflexivity|]. apply (arch_init_panics (H := counting_gdt)). Defined.

(** The interrupt table: only the system-call vector can be raised from user mode,
    the double fault runs on its own stack, no vector has two gates, and the timer gate
    is the vector the local APIC timer is programmed with. *)
Theorem idt_gates_sound `{VirtAddrCrate} (ls : LinkedSymbols) (gates : list Gate) :
  idt_build ls = Ok gates ->
  NoDup (gate_vector <$> gates) /\
  (forall g, g ∈ gates -> (gate_dpl g = 3 <-> gate_vector g = USER_TRAP_VECTOR) /\
                          (is_Some (gate_ist g) <-> gate_vector g = 8)) /\
  mkGate TIMER_VECTOR (ls_timer_entry ls) 0 None ∈ gates /\
  mkGate USER_TRAP_VECTOR (ls_syscall_entry ls) 3 None ∈ gates.
Proof.
  unfold idt_build. case_if; [|done]. intros [= <-]. split; [|split; [|split]].
  - apply (bool_decide_unpack _). vm_compute. exact I.
  - intros g Hg. repeat (apply elem_of_cons in Hg as [->|Hg]; [cbn; split; split; try (intros [? ?]); try done; eauto|]).
    by apply elem_of_nil in Hg.
  - set_solver.
  - set_solver.
Qed.

Lemma idt_gates_sound_witness :
  exists gates, idt_build (H0 := canonical_virt_addr) (mkSymbols 1048576 2097152 4096 4160 4224 4288 4352) = Ok gates /\
    NoDup (gate_vector <$> gates).
Proof.
  eexists. split; [reflexivity|].
  apply (idt_gates_sound (H := canonical_virt_addr) (mkSymbols 1048576 2097152 4096 4160 4224 4288 4352)). reflexivity.
Defined.
