(* ===== verification/Serial.v ===== *)
(** * The serial console ([serial.rs])

    The UART driver: one-time initialization, the polled transmitter, and the decimal and
    hexadecimal printers. *)

From stdpp Require Import base numbers list options.
From S2P Require Import Prelude Apic.

Local Open Scope Z_scope.
Local Open Scope rust_scope.

Definition COM1 : Z := 1016.
Inductive SerialState := Uninitialized | Initializing | Ready.

Global Instance SerialState_eq_dec : EqDecision SerialState.
Proof. solve_decision. Defined.

(** The port writes of [init]. *)
Definition uart_setup : list Access :=
  [PortOut (COM1 + 1) 0; PortOut (COM1 + 3) 128; PortOut COM1 3; PortOut (COM1 + 1) 0; PortOut (COM1 + 3) 3;
   PortOut (COM1 + 2) 199; PortOut (COM1 + 4) 11].

(** [init]: on one processor the [INITIALIZING] state is never seen from outside; found
    there, the function would wait for ever, which is [None]. *)
Definition serial_init (st : SerialState) (h : list Access) : option (SerialState * list Access) :=
  match st with
  | Uninitialized => Some (Ready, h ++ uart_setup)
  | Ready => Some (Ready, h)
  | Initializing => None
  end.

Section Transmit.
Context `{Hardware}.

(** The poll of the line status register; [None] is out of fuel. *)
Fixpoint wait_empty (fuel : nat) (h : list Access) : option (list Access) :=
  match fuel with
  | O => None
  | S fuel =>
      let status := answer h (PortIn (COM1 + 5)) in
      let h := h ++ [PortIn (COM1 + 5)] in
      if Z.land status 32 =? 0 then wait_empty fuel h else Some h
  end.

Definition write_byte (fuel : nat) (byte : Z) (st : SerialState) (h : list Access) : option (SerialState * list Access) :=
  '(st, h) ← (if bool_decide (st = Ready) then Some (st, h) else serial_init st h);
  h ← wait_empty fuel h;
  Some (st, h ++ [PortOut COM1 byte]).

Fixpoint write_bytes (fuel : nat) (bytes : list Z) (st : SerialState) (h : list Access) : option (SerialState * list Access) :=
  match bytes with
  | [] => Some (st, h)
  | byte :: bytes => '(st, h) ← write_byte fuel byte st h; write_bytes fuel bytes st h
  end.
End Transmit.

(** ** Numbers

    The [while] loop over the digit buffer of [write_usize] and [write_hex]: [index] moves
    down from the end; writing in front of the buffer is the panic.  The result is
    [digits\[index..\]]. *)
Fixpoint digit_loop (fuel : nat) (base : Z) (digit : Z -> Z) (digits : list Z) (index : nat) (value : Z)
  : result Empty_set (list Z) :=
  match fuel with
  | O => Panic
  | S fuel =>
      if value =? 0 then Ok (drop index digits)
      else match index with
           | O => Panic
           | S index => digit_loop fuel base digit (<[index := digit (value mod base)]> digits) index (value / base)
           end
  end.

(** [b'0' + d] and the table of [write_hex]. *)
Definition decimal_digit (d : Z) : Z := 48 + d.
Definition hex_digit (d : Z) : Z := if d <? 10 then 48 + d else 97 + (d - 10).

(** The bytes [write_usize] sends. *)
Definition usize_bytes (value : Z) : result Empty_set (list Z) :=
  if value =? 0 then Ok [48] else digit_loop 21 10 decimal_digit (replicate 20 0) 20 value.

(** The bytes [write_hex] sends; [value & 0xf] and [value >>= 4] are the remainder and the
    quotient by 16. *)
Definition hex_bytes (value : Z) : result Empty_set (list Z) :=
  if value =? 0 then Ok [48] else digit_loop 17 16 hex_digit (replicate 16 48) 16 value.

(** ** Printing is exact *)

(** The number a digit string denotes. *)
Definition digits_value (base : Z) (value_of : Z -> Z) (bytes : list Z) : Z :=
  foldl (fun acc b => acc * base + value_of b) 0 bytes.

Lemma digits_value_cons base value_of b bytes :
  digits_value base value_of (b :: bytes) = value_of b * base ^ Z.of_nat (length bytes) + digits_value base value_of bytes.
Proof.
  unfold digits_value. cbn [foldl]. rewrite Z.mul_0_l, Z.add_0_l. generalize (value_of b) as acc.
  induction bytes as [|c bytes IH]; intros acc; cbn [foldl length]; [cbn; lia|].
  rewrite IH, (IH (0 * base + value_of c)), Nat2Z.inj_succ, Z.pow_succ_r by lia. lia.
Qed.

Section Printing.
Context (base : Z) (digit value_of : Z -> Z).
Hypothesis Hbase : 2 <= base.
Hypothesis Hdigit : forall d, 0 <= d < base -> value_of (digit d) = d.

(** One iteration writes in front of the digits already there. *)
Lemma drop_insert_front (l : list Z) (i : nat) x : (i < length l)%nat -> drop i (<[i := x]> l) = x :: drop (S i) l.
Proof using Type.
  revert i. induction l as [|y l IH]; intros [|i] Hi; cbn in Hi; [lia|lia|done|].
  change (drop i (<[i := x]> l) = x :: drop (S i) l). apply IH. lia.
Qed.

Lemma digit_loop_exact fuel digits index value :
  0 <= value < base ^ Z.of_nat index -> (index <= length digits)%nat -> (index < fuel)%nat ->
  exists front, digit_loop fuel base digit digits index value = Ok (front ++ drop index digits) /\
    (length front <= index)%nat /\ digits_value base value_of front = value /\
    Forall (fun b => exists d, 0 <= d < base /\ b = digit d) front /\
    (value = 0 -> front = []) /\ (value <> 0 -> exists d, head front = Some (digit d) /\ 0 < d < base).
Proof using Hbase Hdigit.
  revert digits index value. induction fuel as [|fuel IH]; intros digits index value Hv Hl Hf; [lia|].
  cbn [digit_loop]. destruct (value =? 0) eqn:Hz; to_prop.
  { exists []. subst value. split; [done|]. split; [cbn; lia|]. split; [done|]. split; [constructor|]. done. }
  destruct index as [|index]; [cbn in Hv; lia|]. rewrite Nat2Z.inj_succ, Z.pow_succ_r in Hv by lia.
  assert (Hm : 0 <= value mod base < base) by (apply Z.mod_pos_bound; lia).
  assert (Hdm := Z.div_mod value base ltac:(lia)).
  destruct (IH (<[index := digit (value mod base)]> digits) index (value / base)) as (front & -> & Hlen & Hval & Hall & Hnil & Hhd).
  - split; [apply Z.div_pos; lia|]. apply Z.div_lt_upper_bound; lia.
  - rewrite length_insert. lia.
  - lia.
  - exists (front ++ [digit (value mod base)]). split; [|split; [|split; [|split; [|split]]]].
    + rewrite drop_insert_front by lia. by rewrite <-app_assoc.
    + rewrite length_app. cbn. lia.
    + unfold digits_value in *. rewrite foldl_app. cbn [foldl]. rewrite Hval, Hdigit by done. lia.
    + apply Forall_app. split; [done|]. constructor; [|constructor]. eauto.
    + done.
    + intros _. destruct (decide (value / base = 0)) as [Hq|Hq].
      * rewrite (Hnil Hq). cbn. exists (value mod base). split; [done|]. lia.
      * destruct (Hhd Hq) as (d & Hh & Hd). exists d. split; [|done]. destruct front; [done|done].
Qed.
End Printing.

(** ** The two printers *)
Lemma decimal_digit_value d : 0 <= d < 10 -> decimal_digit d - 48 = d.
Proof. unfold decimal_digit. lia. Qed.

Definition hex_value (b : Z) : Z := if b <? 97 then b - 48 else b - 97 + 10.
Lemma hex_digit_value d : 0 <= d < 16 -> hex_value (hex_digit d) = d.
Proof. unfold hex_digit, hex_value. intros Hd. repeat case_if; to_prop; lia. Qed.

(** Printed numbers are right: for every 64-bit value the decimal printer stays inside
    its 20-byte buffer and sends decimal digits that denote the value, without a leading
    zero (a zero is the single digit 0); the hexadecimal printer does the same with its
    16-byte buffer. *)
Theorem numbers_printed_exactly (value : Z) :
  is_u64 value ->
  (exists bytes, usize_bytes value = Ok bytes /\ digits_value 10 (fun b => b - 48) bytes = value /\
     Forall (fun b => 48 <= b <= 57) bytes /\ (length bytes = 1%nat \/ head bytes <> Some 48)) /\
  (exists bytes, hex_bytes value = Ok bytes /\ digits_value 16 hex_value bytes = value /\
     Forall (fun b => 48 <= b <= 57 \/ 97 <= b <= 102) bytes /\ (length bytes = 1%nat \/ head bytes <> Some 48)).
Proof.
  intros Hv. unfold usize_bytes, hex_bytes. destruct (value =? 0) eqn:Hz; to_prop.
  { subst value. split; exists [48]; (split; [done|]; split; [done|]; split; [repeat constructor; lia|by left]). }
  split.
  - destruct (digit_loop_exact 10 decimal_digit (fun b => b - 48) ltac:(lia) decimal_digit_value 21 (replicate 20 0) 20 value)
      as (front & -> & Hlen & Hval & Hall & _ & Hhd); [unfold_ints; cbn; lia|rewrite length_replicate; lia|lia|].
    exists front. rewrite drop_replicate, app_nil_r. split; [done|]. split; [done|]. split.
    + eapply Forall_impl; [exact Hall|]. intros b (d & Hd & ->). unfold decimal_digit. lia.
    + right. destruct (Hhd Hz) as (d & -> & Hd). unfold decimal_digit. intros [= Heq]. lia.
  - destruct (digit_loop_exact 16 hex_digit hex_value ltac:(lia) hex_digit_value 17 (replicate 16 48) 16 value)
      as (front & -> & Hlen & Hval & Hall & _ & Hhd); [unfold_ints; cbn; lia|rewrite length_replicate; lia|lia|].
    exists front. rewrite drop_replicate, app_nil_r. split; [done|]. split; [done|]. split.
    + eapply Forall_impl; [exact Hall|]. intros b (d & Hd & ->). unfold hex_digit. case_if; to_prop; lia.
    + right. destruct (Hhd Hz) as (d & -> & Hd). unfold hex_digit. intros [= Heq]. case_if; to_prop; lia.
Qed.

Lemma numbers_printed_exactly_witness :
  exists bytes, usize_bytes U64_MAX = Ok bytes /\ digits_value 10 (fun b => b - 48) bytes = U64_MAX.
Proof.
  destruct (numbers_printed_exactly U64_MAX) as [(bytes & Hb & Hv & _) _]; [ulia|].
  exists bytes. split; [exact Hb|exact Hv].
Defined.

(** ** Transmission *)

(** The bytes an access sequence sends: writes to the data port while the line control
    register does not select the divisor latch. *)
Fixpoint transmitted (latch : bool) (h : list Access) : list Z :=
  match h with
  | [] => []
  | PortOut port v :: h =>
      if port =? COM1 + 3 then transmitted (Z.testbit v 7) h
      else if (port =? COM1) && negb latch then v :: transmitted latch h
      else transmitted latch h
  | _ :: h => transmitted latch h
  end.

Section Transmission.
Context `{Hardware}.

(** After any history, the transmitter is found empty within [fuel] polls. *)
Definition drains (fuel : nat) : Prop :=
  forall h, exists k, (k < fuel)%nat /\
    Z.land (answer (h ++ replicate k (PortIn (COM1 + 5))) (PortIn (COM1 + 5))) 32 <> 0.

Lemma wait_empty_ends fuel h :
  (exists k, (k < fuel)%nat /\ Z.land (answer (h ++ replicate k (PortIn (COM1 + 5))) (PortIn (COM1 + 5))) 32 <> 0) ->
  exists n, wait_empty fuel h = Some (h ++ replicate n (PortIn (COM1 + 5))).
Proof using Type.
  revert h. induction fuel as [|fuel IH]; intros h (k & Hk & Hr); [lia|]. cbn [wait_empty].
  destruct (Z.land (answer h (PortIn (COM1 + 5))) 32 =? 0) eqn:Hz; to_prop; [|by exists 1%nat].
  destruct k as [|k]; [cbn [replicate] in Hr; rewrite app_nil_r in Hr; done|].
  destruct (IH (h ++ [PortIn (COM1 + 5)])) as [n ->].
  - exists k. split; [lia|]. by rewrite <-app_assoc.
  - exists (S n). by rewrite <-app_assoc.
Qed.

Lemma transmitted_polls latch n h : transmitted latch (replicate n (PortIn (COM1 + 5)) ++ h) = transmitted latch h.
Proof using Type. induction n as [|n IH]; [done|]. exact IH. Qed.

Lemma write_byte_exact fuel byte st h :
  drains fuel -> st <> Initializing ->
  exists t, write_byte fuel byte st h = Some (Ready, h ++ t) /\
            forall rest, transmitted false (t ++ rest) = byte :: transmitted false rest.
Proof using Type.
  intros Hd Hst. unfold write_byte. case_bool_decide as Hr.
  - subst st. cbn [mbind option_bind]. destruct (wait_empty_ends fuel h (Hd h)) as [n ->]. cbn.
    exists (replicate n (PortIn (COM1 + 5)) ++ [PortOut COM1 byte]). split; [by rewrite app_assoc|].
    intros rest. by rewrite <-app_assoc, transmitted_polls.
  - destruct st; [|done..]. cbn [serial_init mbind option_bind].
    destruct (wait_empty_ends fuel (h ++ uart_setup) (Hd _)) as [n ->]. cbn.
    exists (uart_setup ++ replicate n (PortIn (COM1 + 5)) ++ [PortOut COM1 byte]). split; [by rewrite !app_assoc|].
    intros rest. rewrite <-!app_assoc. change (transmitted false (replicate n (PortIn (COM1 + 5)) ++ [PortOut COM1 byte] ++ rest) =
      byte :: transmitted false rest). by rewrite transmitted_polls.
Qed.

(** The console sends exactly the bytes it is given, in order, and terminates as long
    as the transmitter drains: from an uninitialized or ready port (with the divisor
    latch closed) every byte waits for an empty transmitter, the port is set up first if
    it was not, and the set-up itself sends nothing. *)
Theorem console_sends_exactly (fuel : nat) (bytes : list Z) (st : SerialState) (h : list Access) :
  drains fuel -> st <> Initializing ->
  exists t, write_bytes fuel bytes st h = Some (if bool_decide (bytes = []) then st else Ready, h ++ t) /\
            transmitted false t = bytes.
Proof using Type.
  intros Hd Hst.
  enough (exists t, write_bytes fuel bytes st h = Some (if bool_decide (bytes = []) then st else Ready, h ++ t) /\
            forall rest, transmitted false (t ++ rest) = bytes ++ transmitted false rest) as (t & Ht & Hs).
  { exists t. split; [done|]. specialize (Hs []). by rewrite !app_nil_r in Hs. }
  revert st h Hst. induction bytes as [|byte bytes IH]; intros st h Hst.
  { exists []. cbn. by rewrite app_nil_r. }
  cbn [write_bytes]. destruct (write_byte_exact fuel byte st h Hd Hst) as (t1 & -> & Hs1). cbn [mbind option_bind].
  destruct (IH Ready (h ++ t1) ltac:(done)) as (t2 & -> & Hs2). exists (t1 ++ t2). split.
  - rewrite (bool_decide_eq_false_2 (byte :: bytes = [])) by done. rewrite <-app_assoc. by case_bool_decide.
  - intros rest. rewrite <-app_assoc, Hs1, Hs2. done.
Qed.
End Transmission.

(** A port that needs three polls between bytes. *)
Definition example_uart : Hardware := {|
  answer := fun h _ => if bool_decide (suffix [PortIn 1021; PortIn 1021] h) then 96 else 64;
  cpuid := fun _ _ => (0, 0, 0, 0);
|}.

Lemma console_sends_exactly_witness :
  exists t, write_bytes (H := example_uart) 3 [72; 105] Uninitialized [] = Some (Ready, [] ++ t) /\ transmitted false t = [72; 105].
Proof.
  apply (console_sends_exactly (H := example_uart) 3 [72; 105] Uninitialized []); [|discriminate].
  intros h. exists 2%nat. split; [lia|]. cbn. rewrite bool_decide_eq_true_2 by (by exists h). discriminate.
Defined.
