(* ===== verification/Heap.v ===== *)
(** * The kernel heap ([heap/mod.rs])

    The boundary around the linked-list allocator: region validation, one-time
    initialization, and the global allocator.  The allocator itself is a crate; what it
    documents is the class [HeapLaws]. *)

From stdpp Require Import base numbers sets relations list options.
From S2P Require Import Prelude Memory.

Local Open Scope Z_scope.
Local Open Scope rust_scope.

Definition INITIAL_HEAP_FRAMES : Z := 256.
Definition INITIAL_HEAP_SIZE : Z := INITIAL_HEAP_FRAMES * PAGE_SIZE_4K.

Record HeapRegion := mkHeapRegion { hr_start : Z; hr_size : Z }.

Definition HeapRegion_new (start size : Z) : option HeapRegion :=
  if negb (start mod PAGE_SIZE_4K =? 0) || (size =? 0) || negb (size mod PAGE_SIZE_4K =? 0)
     || bool_decide (checked_add start size = None)
  then None else Some (mkHeapRegion start size).

Definition hr_end (r : HeapRegion) : option Z := checked_add (hr_start r) (hr_size r).

Inductive HeapInitError := HeapAlreadyInitialized.

Record HeapStats := mkStats { hs_capacity : Z; hs_used : Z; hs_free : Z }.

(** [core::alloc::Layout]: a size and a power-of-two alignment. *)
Record Layout := mkLayout { lay_size : Z; lay_align : Z }.

Global Instance Layout_eq_dec : EqDecision Layout.
Proof. solve_decision. Defined.

(** ** The allocator crate ([linked_list_allocator::Heap]) *)
Class HeapCrate (H : Type) := {
  heap_empty : H;
  heap_init : H -> Z -> Z -> H;
  allocate_first_fit : H -> Layout -> option Z * H;
  deallocate : H -> Z -> Layout -> H;
  heap_size : H -> Z;
  heap_used : H -> Z;
  heap_free : H -> Z;
}.

(** An allocated block: its address and the layout it was requested with. *)
Definition block : Type := Z * Layout.

(** What the crate documents: [manages h start size live] says that [h] serves the region
    with the blocks [live] handed out. *)
Class HeapLaws (H : Type) `{HeapCrate H} := {
  manages : H -> Z -> Z -> list block -> Prop;
  manages_init start size : 0 < size -> manages (heap_init heap_empty start size) start size [];
  manages_alloc h start size live layout :
    manages h start size live ->
    match allocate_first_fit h layout with
    | (Some p, h') =>
        manages h' start size ((p, layout) :: live) /\ p mod lay_align layout = 0 /\
        start <= p /\ p + lay_size layout <= start + size /\
        (forall q l, (q, l) ∈ live -> p + lay_size layout <= q \/ q + lay_size l <= p)
    | (None, h') => manages h' start size live
    end;
  manages_dealloc h start size live1 p layout live2 :
    manages h start size (live1 ++ (p, layout) :: live2) ->
    manages (deallocate h p layout) start size (live1 ++ live2);
  manages_stats h start size live : manages h start size live -> heap_used h + heap_free h = heap_size h;
}.

(** ** The global allocator *)
Record KernelHeap (H : Type) := mkKernelHeap { kh_heap : H; kh_initialized : bool }.
Arguments mkKernelHeap {H} _ _.
Arguments kh_heap {H} _.
Arguments kh_initialized {H} _.

Section KernelHeapOps.
Context {H : Type} `{HeapCrate H}.

Definition KernelHeap_empty : KernelHeap H := mkKernelHeap heap_empty false.

Definition kh_init (self : KernelHeap H) (region : HeapRegion) : result HeapInitError unit * KernelHeap H :=
  if kh_initialized self then (Err HeapAlreadyInitialized, self)
  else (Ok tt, mkKernelHeap (heap_init (kh_heap self) (hr_start region) (hr_size region)) true).

Definition kh_stats (self : KernelHeap H) : HeapStats :=
  mkStats (heap_size (kh_heap self)) (heap_used (kh_heap self)) (heap_free (kh_heap self)).
Definition kh_used (self : KernelHeap H) : Z := hs_used (kh_stats self).
Definition kh_free (self : KernelHeap H) : Z := hs_free (kh_stats self).

(** [GlobalAlloc]; 0 is the null pointer. *)
Definition kh_alloc (self : KernelHeap H) (layout : Layout) : Z * KernelHeap H :=
  if negb (kh_initialized self) then (0, self) else
  let '(p, heap) := allocate_first_fit (kh_heap self) layout in
  (default 0 p, mkKernelHeap heap (kh_initialized self)).

Definition kh_dealloc (self : KernelHeap H) (ptr : Z) (layout : Layout) : KernelHeap H :=
  if (ptr =? 0) || negb (kh_initialized self) then self
  else mkKernelHeap (deallocate (kh_heap self) ptr layout) (kh_initialized self).

(** ** Use of the heap

    A client holds blocks; it may initialize the heap with a valid region, allocate, free
    a block it holds with its layout, or free the null pointer. *)
Inductive heap_step : KernelHeap H * list block -> KernelHeap H * list block -> Prop :=
| HsInit self held start size region :
    0 < start -> 0 <= size -> HeapRegion_new start size = Some region ->
    heap_step (self, held) ((kh_init self region).2, held)
| HsAllocFail self held layout :
    (kh_alloc self layout).1 = 0 -> heap_step (self, held) ((kh_alloc self layout).2, held)
| HsAlloc self held layout :
    (kh_alloc self layout).1 <> 0 ->
    heap_step (self, held) ((kh_alloc self layout).2, ((kh_alloc self layout).1, layout) :: held)
| HsDealloc self held1 p layout held2 :
    heap_step (self, held1 ++ (p, layout) :: held2) (kh_dealloc self p layout, held1 ++ held2)
| HsDeallocNull self held layout : heap_step (self, held) (kh_dealloc self 0 layout, held).

Definition disjoint_blocks (b1 b2 : block) : Prop := b1.1 + lay_size b1.2 <= b2.1 \/ b2.1 + lay_size b2.2 <= b1.1.

(** Blocks in hand lie in one page-aligned region, aligned and apart from each other. *)
Definition held_ok (start size : Z) (held : list block) : Prop :=
  (forall p l, (p, l) ∈ held -> p <> 0 /\ p mod lay_align l = 0 /\ start <= p /\ p + lay_size l <= start + size) /\
  (forall i j b1 b2, held !! i = Some b1 -> held !! j = Some b2 -> i <> j -> disjoint_blocks b1 b2).
End KernelHeapOps.

Lemma HeapRegion_new_Some start size r :
  HeapRegion_new start size = Some r ->
  r = mkHeapRegion start size /\ start mod PAGE_SIZE_4K = 0 /\ size mod PAGE_SIZE_4K = 0 /\ size <> 0 /\
  start + size <= U64_MAX.
Proof.
  unfold HeapRegion_new. destruct (checked_add start size) as [e|] eqn:He.
  - apply checked_add_Some in He. rewrite (bool_decide_eq_false_2 (Some e = None)) by done.
    case_if; [done|]. to_prop. intros [= <-]. tauto.
  - rewrite (bool_decide_eq_true_2 (None = None)) by done. rewrite orb_true_r. done.
Qed.

Section HeapSafety.
Context {H : Type} `{HeapLaws H}.

(** The heap serves the region from [start] on, and [held] is what is handed out. *)
Record heap_at (start size : Z) (st : KernelHeap H * list block) : Prop := mk_heap_at {
  ha_initialized : kh_initialized st.1 = true;
  ha_manages : manages (kh_heap st.1) start size st.2;
  ha_held : held_ok start size st.2;
}.

Lemma held_ok_cons start size p l held :
  held_ok start size held -> p <> 0 -> p mod lay_align l = 0 -> start <= p -> p + lay_size l <= start + size ->
  (forall q lq, (q, lq) ∈ held -> p + lay_size l <= q \/ q + lay_size lq <= p) ->
  held_ok start size ((p, l) :: held).
Proof using Type.
  intros [Hb Hd] Hp Ha Hs He Hdis. split.
  - intros q lq [[= -> ->]|Hq]%elem_of_cons; [done|by apply Hb].
  - assert (Hnew : forall k b, held !! k = Some b -> disjoint_blocks (p, l) b).
    { intros k [q lq] Hk. unfold disjoint_blocks. cbn. apply Hdis. by apply list_elem_of_lookup_2 in Hk. }
    intros [|i] [|j] b1 b2 Hx Hy Hne; cbn in Hx, Hy; [done| | |by apply (Hd i j); [..|congruence]].
    + injection Hx as <-. by apply (Hnew j).
    + injection Hy as <-. destruct (Hnew i b1 Hx); [by right|by left].
Qed.

Lemma held_ok_remove start size held1 b held2 :
  held_ok start size (held1 ++ b :: held2) -> held_ok start size (held1 ++ held2).
Proof using Type.
  intros [Hb Hd]. split.
  - intros p l Hin. apply Hb. set_solver.
  - set (f := fun i => if decide (i < length held1)%nat then i else S i).
    assert (Hf : forall i x, (held1 ++ held2) !! i = Some x -> (held1 ++ b :: held2) !! f i = Some x).
    { intros i x Hi. unfold f. case_decide as Hl.
      - rewrite lookup_app_l in Hi |- * by done. done.
      - rewrite lookup_app_r in Hi by lia. rewrite lookup_app_r by lia.
        by replace (S i - length held1)%nat with (S (i - length held1)) by lia. }
    intros i j b1 b2 Hx Hy Hne. apply (Hd (f i) (f j)); [by apply Hf..|]. unfold f. repeat case_decide; lia.
Qed.

(** The first initialization decides the region, *)
Lemma heap_init_at region :
  0 < hr_size region ->
  heap_at (hr_start region) (hr_size region) ((kh_init KernelHeap_empty region).2, []).
Proof using Type.
  intros Hs. split; cbn; [done|by apply manages_init|]. split; [by intros p l ?%elem_of_nil|done].
Qed.

(** and no use of the heap that frees only what it holds changes it. *)
Lemma heap_step_at start size st st' : 0 < start -> heap_step st st' -> heap_at start size st -> heap_at start size st'.
Proof using Type*.
  intros Hpos Hs [Hin Hm Hh]. destruct Hs as [self held rs rz region Hrp Hsz Hr|self held layout Hz|self held layout Hnz
    |self held1 p layout held2|self held layout]; cbn [fst snd] in *.
  - unfold kh_init. by rewrite Hin.
  - unfold kh_alloc in *. rewrite Hin in *. cbn [negb snd fst] in *.
    pose proof (manages_alloc (kh_heap self) start size held layout Hm) as Hal.
    destruct (allocate_first_fit (kh_heap self) layout) as [[p|] h']; cbn in *; [|by split].
    destruct Hal as (_ & _ & Hle & _). lia.
  - unfold kh_alloc in *. rewrite Hin in *. cbn [negb snd fst] in *.
    pose proof (manages_alloc (kh_heap self) start size held layout Hm) as Hal.
    destruct (allocate_first_fit (kh_heap self) layout) as [[p|] h']; cbn in *; [|done].
    destruct Hal as (Hm' & Hal & Hle & Hend & Hdis). split; [done|done|]. by apply held_ok_cons.
  - unfold kh_dealloc. assert (Hp : p <> 0) by (apply (proj1 Hh p layout); set_solver).
    rewrite Hin, (proj2 (Z.eqb_neq p 0)) by done. cbn.
    split; [done|by apply manages_dealloc|by eapply held_ok_remove].
  - unfold kh_dealloc. cbn. by split.
Qed.

Lemma heap_steps_at start size st st' : 0 < start -> rtc heap_step st st' -> heap_at start size st -> heap_at start size st'.
Proof using Type*. intros Hpos Hr. induction Hr; eauto using heap_step_at. Qed.
End HeapSafety.

(** ** A concrete allocator

    A bump allocator satisfies the laws: it keeps the region and the next free address,
    and never reuses memory. *)
Record Bump := mkBump { bu_start : Z; bu_size : Z; bu_next : Z }.

#[export] Instance bump_heap : HeapCrate Bump := {|
  heap_empty := mkBump 0 0 0;
  heap_init := fun _ start size => mkBump start size start;
  allocate_first_fit := fun h layout =>
    let p := (bu_next h + lay_align layout - 1) / lay_align layout * lay_align layout in
    if (0 <? lay_align layout) && (0 <=? lay_size layout) && (p + lay_size layout <=? bu_start h + bu_size h)
    then (Some p, mkBump (bu_start h) (bu_size h) (p + lay_size layout)) else (None, h);
  deallocate := fun h _ _ => h;
  heap_size := bu_size;
  heap_used := fun h => bu_next h - bu_start h;
  heap_free := fun h => bu_size h - (bu_next h - bu_start h);
|}.

#[export] Program Instance bump_laws : HeapLaws Bump := {|
  manages := fun h start size live =>
    bu_start h = start /\ bu_size h = size /\ start <= bu_next h /\
    forall q l, (q, l) ∈ live -> q + lay_size l <= bu_next h;
|}.
Next Obligation. intros start size Hs. cbn. split_and!; try done. by intros q l ?%elem_of_nil. Qed.
Next Obligation.
  intros h start size live layout (<- & <- & Hn & Hl). cbn. case_if; [|done]. to_prop.
  set (p := (bu_next h + lay_align layout - 1) / lay_align layout * lay_align layout) in *.
  assert (Hp : bu_next h <= p).
  { unfold p. pose proof (Z.mod_pos_bound (bu_next h + lay_align layout - 1) (lay_align layout)).
    pose proof (Z.div_mod (bu_next h + lay_align layout - 1) (lay_align layout)). nia. }
  split; [|split; [apply Z.mod_mul; lia|split; [lia|split; [done|]]]].
  - cbn. split_and!; try done; [lia|]. intros q l [[= -> ->]|Hq]%elem_of_cons; [lia|]. specialize (Hl q l Hq). lia.
  - intros q l Hq. right. specialize (Hl q l Hq). lia.
Qed.
Next Obligation.
  intros h start size live1 p layout live2 (<- & <- & Hn & Hl). cbn. split_and!; try done. set_solver.
Qed.
Next Obligation. intros h start size live _. cbn. lia. Qed.
