(* ===== verification/Boot.v ===== *)
(** * Booting ([main.rs], [ramdisk.rs], [hello.rs], [memory/physical.rs])

    [kernel_main] as a composition of the components: the userspace image from the
    ramdisk, CPU initialization, clock, interrupt controllers and timer, the heap, the
    load of the userspace process, and the start of the first task.  The console output
    is a list of texts and numbers.  What the boot loader hands over, the linker chose
    and the hardware answers are parameters. *)

From Stdlib Require Import String.
From stdpp Require Import base numbers list options.
From S2P Require Import Prelude Tasks Scheduler Memory Frames UserCopy Elf LoadPlan Loader AddressSpaceBuilder Populate.
From S2P Require Import Process Execution UserExecution KernelTask Runtime Dispatch SystemRuntime.
From S2P Require Import PageWalk PageTable Acpi Apic Timers Descriptors Heap.

Local Open Scope Z_scope.
Local Open Scope rust_scope.

(** ** What the boot loader hands over *)
Record BootInfo (R : Type) := mkBootInfo {
  bi_ramdisk_addr : option Z;
  bi_ramdisk_len : Z;
  bi_physical_memory_offset : option Z;
  bi_rsdp_addr : option Z;
  bi_memory_regions : list R;
}.
Arguments bi_ramdisk_addr {R} _.
Arguments bi_ramdisk_len {R} _.
Arguments bi_physical_memory_offset {R} _.
Arguments bi_rsdp_addr {R} _.
Arguments bi_memory_regions {R} _.

(** [PhysicalMemoryMapping::from_boot_info] *)
Definition from_boot_info {R} (bi : BootInfo R) : option PhysicalMemoryMapping := mkMapping <$> bi_physical_memory_offset bi.

(** ** The ramdisk ([ramdisk.rs]) *)
Inductive RamdiskError := RdMissing | RdEmpty | RdLengthOverflow | RdAddressOverflow.

Definition ramdisk_bytes {R} (memory : Z -> Z) (bi : BootInfo R) : result RamdiskError (list Z) :=
  let? address := ok_or (bi_ramdisk_addr bi) RdMissing in
  let length := bi_ramdisk_len bi in
  if U64_MAX <? length then Err RdLengthOverflow else
  if length =? 0 then Err RdEmpty else
  let? _ := ok_or (checked_add address length) RdAddressOverflow in
  Ok (bytes_at memory address (Z.to_nat length)).

(** ** Console *)
(** [Eol] is the carriage return and line feed. *)
Inductive Line := Text (s : string) | Number (n : Z) | Eol.

(** [hello.rs] *)
Definition HELLO_MESSAGE : string := "Hello World from X11-OS!".
Definition hello_print : list Line := [Text HELLO_MESSAGE; Eol].

(** ** Stages of [kernel_main] *)

(** Lines 46 to 63: the image of the userspace program. *)
Definition prepare_userspace {R} (memory : Z -> Z) (bi : BootInfo R) : result Empty_set (option (list Z * ProcessImage) * list Line) :=
  match ramdisk_bytes memory bi with
  | Ok bytes =>
      let said := [Text "X11-OS: userspace ramdisk loaded bytes = "; Number (Z.of_nat (length bytes)); Eol] in
      match AddressSpaceId_new 1 with
      | None => Panic
      | Some id =>
          match build_process_image bytes (AddressSpaceSpec_new id) with
          | Ok image =>
              Ok (Some (bytes, image),
                  said ++ [Text "X11-OS: userspace ELF validated segments = "; Number (Z.of_nat (plan_count (pi_load_plan image)));
                           Eol; Text "X11-OS: userspace process image prepared"; Eol])
          | Err _ => Ok (None, said ++ [Text "X11-OS: userspace process image preparation failed"; Eol])
          | Panic => Panic
          end
      end
  | Err _ => Ok (None, [Text "X11-OS: userspace ramdisk unavailable"; Eol])
  | Panic => Panic
  end.

Section Stages.
Context `{Hardware} `{ApicBaseCrate}.

(** Lines 68 to 71. *)
Definition clock_stage (ticks : Z) : option TscClocksource * list Line :=
  match try_new ticks with
  | Ok clock => (Some clock, [Text "X11-OS: invariant TSC clocksource available"; Eol; Text "X11-OS: TSC frequency Hz = ";
                              Number (tsc_frequency clock); Eol])
  | _ => (None, [Text "X11-OS: invariant TSC clocksource unavailable"; Eol])
  end.

Definition supported (b : bool) : string := if b then "supported" else "unsupported".

(** Lines 73 to 80. *)
Definition report_stage {R} `{BootRegion R} (apic : ApicCapabilities) (bi : BootInfo R) : list Line :=
  let memory := summarize (bi_memory_regions bi) in
  [Text "X11-OS: local APIC = "; Text (supported (cap_apic apic)); Eol; Text "X11-OS: x2APIC = "; Text (supported (cap_x2apic apic)); Eol;
   Text "X11-OS: usable memory bytes = "; Number (usable_bytes memory); Eol;
   Text "X11-OS: reserved memory bytes = "; Number (reserved_bytes memory); Eol;
   Text "X11-OS: malformed memory regions = "; Number (malformed_regions memory); Eol].

Definition mode_name (mode : ApicMode) : string := match mode with XApic => "xAPIC" | X2Apic => "x2APIC" end.

#[global] Instance ApicMode_eq_dec : EqDecision ApicMode.
Proof using Type. solve_decision. Defined.

(** The state of the interrupt hardware during boot. *)
Record Controllers := mkControllers { co_ready : bool; co_local : LocalApic; co_trace : list Access }.

(** Lines 95 to 104: a topology with an I/O APIC takes over from the legacy controllers. *)
Definition apic_takeover (apic : ApicCapabilities) (mapping : PhysicalMemoryMapping) (topology : ApicTopology) (s : Controllers)
  : Controllers * list Line :=
  if bool_decide (0 < at_io_apic_count topology)%nat then
    let h := mask_all (co_trace s) in
    match preferred_mode apic with
    | None => (mkControllers (co_ready s) (co_local s) h, [])
    | Some mode =>
        let '(enabled, h) := enable_preferred_mode apic h in
        if bool_decide (enabled = Some mode) then
            let '(r, l) := lapic_initialize mode (Some mapping) h (co_local s) in
            (mkControllers (is_ok r) l h,
             [Text "X11-OS: local APIC mode = "; Text (mode_name mode); Eol;
              Text (if is_ok r then "X11-OS: Local APIC EOI initialized" else "X11-OS: Local APIC EOI initialization failed"); Eol])
        else (mkControllers (co_ready s) (co_local s) h, [])
    end
  else (s, []).

(** Lines 87 to 108. *)
Definition apic_stage (memory : Z -> Z) (apic : ApicCapabilities) (mapping : option PhysicalMemoryMapping) (rsdp : option Z)
  (s : Controllers) : result Empty_set (Controllers * list Line) :=
  match mapping, rsdp with
  | Some mapping, Some rsdp_address =>
      match discover memory mapping rsdp_address with
      | Ok topology =>
          let '(s, said) := apic_takeover apic mapping topology s in
          Ok (s, [Text "X11-OS: ACPI MADT discovered"; Eol;
                  Text "X11-OS: local APIC records = "; Number (Z.of_nat (at_local_apic_count topology)); Eol;
                  Text "X11-OS: local x2APIC records = "; Number (Z.of_nat (at_local_x2apic_count topology)); Eol;
                  Text "X11-OS: I/O APIC records = "; Number (Z.of_nat (at_io_apic_count topology)); Eol] ++ said)
      | Err _ => Ok (s, [Text "X11-OS: ACPI MADT discovery failed"; Eol])
      | Panic => Panic
      end
  | _, _ => Ok (s, [Text "X11-OS: ACPI RSDP unavailable"; Eol])
  end.

(** Lines 110 to 118. *)
Definition timer_stage (fuel : nat) (tsc : nat -> Z) (apic : ApicCapabilities) (mapping : option PhysicalMemoryMapping)
  (clock : option TscClocksource) (s : Controllers) : result Empty_set (list Access * list Line) :=
  match co_ready s, mapping, clock with
  | true, Some mapping, Some clock =>
      match preferred_mode apic with
      | None => Panic
      | Some mode =>
          match LapicTimer_new mode (Some mapping) (co_trace s) with
          | Ok device =>
              match calibrate fuel tsc clock device (co_trace s) with
              | (Ok frequency, (device, h)) =>
                  match TimerInterval_new 10000000 with
                  | None => Panic
                  | Some interval =>
                      Ok ((set_periodic device interval h).2,
                          [Text "X11-OS: LAPIC timer calibrated Hz = "; Number frequency; Eol])
                  end
              | (Err _, (_, h)) => Ok (h, [Text "X11-OS: LAPIC timer calibration failed"; Eol])
              | (Panic, _) => Panic
              end
          | Err _ => Ok (co_trace s, [Text "X11-OS: LAPIC timer backend unavailable"; Eol])
          | Panic => Panic
          end
      end
  | _, _, _ => Ok (co_trace s, [])
  end.
End Stages.

Section Kernel.
Context {T R H : Type} `{OffsetPageTable T} `{BootRegion R} `{PagingCrate} `{VirtAddrCrate} `{PhysAddrCrate}.
Context `{Hardware} `{ApicBaseCrate} `{GdtCrate} `{HeapCrate H}.

(** [Vec::with_capacity(64)] of [u64]s, pushed, compared and dropped; the vector keeps
    what is pushed, so the comparison holds. *)
Definition probe_heap (heap : KernelHeap H) : result Empty_set (KernelHeap H * list Line) :=
  let layout := mkLayout 512 8 in
  let '(p, heap) := kh_alloc heap layout in
  if p =? 0 then Panic else
  let probe := (fun i => Z.of_nat i * 3) <$> seq 0 64 in
  let valid := bool_decide (length probe = 64%nat) &&
    forallb (fun '(i, v) => v =? Z.of_nat i * 3) (zip (seq 0 (length probe)) probe) in
  Ok (kh_dealloc heap p layout,
      [Text (if valid then "X11-OS: heap allocation verified" else "X11-OS: heap allocation verification failed"); Eol]).

(** Lines 120 to 138. *)
Definition heap_stage (mapping : option PhysicalMemoryMapping) (allocator : EarlyFrameAllocator R) (heap : KernelHeap H)
  : result Empty_set (EarlyFrameAllocator R * KernelHeap H * list Line) :=
  match mapping with
  | None => Ok (allocator, heap, [])
  | Some mapping =>
      match allocate_contiguous INITIAL_HEAP_FRAMES allocator with
      | None => Panic
      | Some (None, allocator) => Ok (allocator, heap, [])
      | Some (Some frames, allocator) =>
          let region :=
            physical_range ← cf_physical_range frames;
            size ← cf_byte_len frames;
            virtual_range ← translate_range mapping physical_range;
            region ← HeapRegion_new (vr_start virtual_range) INITIAL_HEAP_SIZE;
            if (size =? INITIAL_HEAP_SIZE) && (vr_end virtual_range - vr_start virtual_range =? size) then Some region else None in
          match region with
          | None => Ok (allocator, heap, [])
          | Some region =>
              match kh_init heap region with
              | (Ok _, heap) =>
                  let? (heap, said) := probe_heap heap in
                  Ok (allocator, heap, [Text "X11-OS: heap initialized"; Eol] ++ said)
              | (_, heap) => Ok (allocator, heap, [])
              end
          end
      end
  end.

(** Lines 140 to 158. *)
Definition load_stage (cr3 : Z) (userspace : option (list Z * ProcessImage)) (mapping : option PhysicalMemoryMapping)
  (allocator : EarlyFrameAllocator R) (memory : Z -> Z)
  : result Empty_set (option (ProcessImage * PreparedUserLaunch) * EarlyFrameAllocator R * (Z -> Z) * list Line) :=
  match userspace, mapping with
  | Some (bytes, image), Some mapping =>
      match ElfImage_parse bytes with
      | Ok elf =>
          match load_process_image (T := T) cr3 mapping allocator memory image elf with
          | (Ok (root, populated), allocator, memory) =>
              match UserLaunchPlan_from_populated populated with
              | Ok plan =>
                  match prepare_launch root plan with
                  | Ok prepared =>
                      Ok (Some (bas_image populated, prepared), allocator, memory,
                          [Text "X11-OS: userspace address space populated"; Eol; Text "X11-OS: userspace launch prepared"; Eol])
                  | Err _ => Ok (None, allocator, memory, [Text "X11-OS: userspace launch preparation failed"; Eol])
                  | Panic => Panic
                  end
              | Err _ => Ok (None, allocator, memory, [Text "X11-OS: userspace launch plan validation failed"; Eol])
              | Panic => Panic
              end
          | (Err _, allocator, memory) =>
              Ok (None, allocator, memory, [Text "X11-OS: userspace address-space construction failed"; Eol])
          | (Panic, _, _) => Panic
          end
      | Err _ => Ok (None, allocator, memory, [Text "X11-OS: userspace ELF re-parse failed"; Eol])
      | Panic => Panic
      end
  | _, _ => Ok (None, allocator, memory, [])
  end.

(** How boot ends: the transfer to the first userspace process, or the switch to the
    first of two kernel tasks. *)
Inductive BootEnd :=
| UserspaceStarted (launch : PreparedUserLaunch) (system : SystemRuntime) (cpu : Cpu)
| KernelTasksStarted (entering : ContextRef) (runtime : KernelRuntime) (cpu : Cpu).

(** Addresses and layouts the allocator and the linker contribute to the start. *)
Record StartParameters := mkStart {
  sp_runtime_layout : Layout;
  sp_system_layout : Layout;
  sp_memory_user : KernelMemory;
  sp_memory_a : KernelMemory;
  sp_memory_b : KernelMemory;
  sp_userspace_kernel_stub : Z;
  sp_task_a : Z;
  sp_task_b : Z;
}.

(** [Box::new]: a failed allocation panics. *)
Definition box_new (heap : KernelHeap H) (layout : Layout) : result Empty_set (Z * KernelHeap H) :=
  let '(p, heap) := kh_alloc heap layout in if p =? 0 then Panic else Ok (p, heap).

(** [expect] *)
Definition expect {E A} (r : result E A) : result Empty_set A := match r with Ok a => Ok a | _ => Panic end.

(** Lines 160 to 180. *)
Definition start_stage (sp : StartParameters) (prepared : option (ProcessImage * PreparedUserLaunch)) (heap : KernelHeap H) (c : Cpu)
  : result Empty_set (BootEnd * list Line) :=
  match prepared with
  | Some (image, launch) =>
      let? (runtime, heap) := box_new heap (sp_runtime_layout sp) in
      let? (system, heap) := box_new heap (sp_system_layout sp) in
      let '(bound, c) := bind_cpu c runtime system in
      let? _ := expect bound in
      let '(spawned, y) := spawn_user_ready (sp_memory_user sp) (sp_userspace_kernel_stub sp) SystemRuntime_new image launch Priority_DEFAULT in
      let? (process, _) := expect spawned in
      let '(started, y, c) := start_user y c process in
      let? launch := expect started in
      Ok (UserspaceStarted launch y c, [Text "X11-OS: userspace process bound to scheduler"; Eol])
  | None =>
      let? (runtime, heap) := box_new heap (sp_runtime_layout sp) in
      let '(bound, c) := kr_bind_cpu c runtime in
      let? _ := expect bound in
      let '(a, k) := kr_spawn (sp_memory_a sp) KernelRuntime_new Priority_DEFAULT (sp_task_a sp) in
      let? _ := expect a in
      let '(b, k) := kr_spawn (sp_memory_b sp) k Priority_DEFAULT (sp_task_b sp) in
      let? _ := expect b in
      match dispatch_begin k c with
      | (DispatchSwitch _ entering _, k, c) =>
          Ok (KernelTasksStarted entering k c, [Text "X11-OS: userspace activation skipped"; Eol])
      | _ => Panic
      end
  end.

(** Everything a boot depends on besides the memory contents. *)
Record BootEnvironment := mkEnvironment {
  be_symbols : LinkedSymbols;
  be_ticks : Z;
  be_tsc : nat -> Z;
  be_fuel : nat;
  be_cr3 : Z;
  be_start : StartParameters;
}.

(** The processor the runtimes find: nothing bound, the entry stack of the TSS. *)
Definition boot_cpu (tables : CpuTables) : Cpu := mkCpu CpuLocalState_new (tss_rsp0 <$> ct_tss tables) 0 false.

(** [kernel_main] after CPU initialization: lines 66 to 180. *)
Definition boot_after_init (env : BootEnvironment) (memory : Z -> Z) (bi : BootInfo R)
  (userspace : option (list Z * ProcessImage)) (tables : CpuTables)
  : result Empty_set (BootEnd * option PhysicalMemoryMapping * list Line) :=
  let '(clock, said1) := clock_stage (be_ticks env) in
  let apic := detect in
  let said2 := report_stage apic bi in
  let mapping := from_boot_info bi in
  let global := mapping ≫= fun m => (install_global m None).2 in
  let? (controllers, said3) := apic_stage memory apic mapping (bi_rsdp_addr bi) (mkControllers false LocalApic_initial []) in
  let? (_, said4) := timer_stage (be_fuel env) (be_tsc env) apic mapping clock controllers in
  let? (allocator, heap, said5) := heap_stage mapping (EarlyFrameAllocator_new (bi_memory_regions bi)) KernelHeap_empty in
  let? (prepared, allocator, memory, said6) := load_stage (be_cr3 env) userspace mapping allocator memory in
  let? (ended, said7) := start_stage (be_start env) prepared heap (boot_cpu tables) in
  Ok (ended, global, [Text "X11-OS: CPU foundation initialized"; Eol] ++ said1 ++ said2 ++ said3 ++ said4 ++ said5 ++ said6 ++ said7).

Definition kernel_main (env : BootEnvironment) (memory : Z -> Z) (bi : BootInfo R)
  : result Empty_set (BootEnd * option PhysicalMemoryMapping * list Line) :=
  let said0 := hello_print ++ [Text "X11-OS: kernel entry reached"; Eol] in
  let? (userspace, said1) := prepare_userspace memory bi in
  let? tables := arch_init (be_symbols env) CpuTables_initial in
  let? (ended, global, said2) := boot_after_init env memory bi userspace tables in
  Ok (ended, global, said0 ++ said1 ++ said2).
End Kernel.

(** ** How boot ends *)

(** C40: On every machine and with every boot loader input, [kernel_main] panics: the
    userspace image is prepared from the ramdisk or found missing, and then CPU
    initialization fails. *)
Theorem kernel_main_panics {T R H : Type} `{OffsetPageTable T} `{BootRegion R} `{PagingCrate} `{VirtAddrCrate} `{PhysAddrCrate}
    `{Hardware} `{ApicBaseCrate} `{GdtLaws} `{HeapCrate H} (env : BootEnvironment) (memory : Z -> Z) (bi : BootInfo R) :
  kernel_main (T := T) (H := H) env memory bi = Panic.
Proof.
  unfold kernel_main. destruct (prepare_userspace memory bi) as [[userspace said]|[]|]; [|done].
  by rewrite arch_init_fails.
Qed.

Lemma prepared_image {R} memory (bi : BootInfo R) bytes image said :
  prepare_userspace memory bi = Ok (Some (bytes, image), said) ->
  exists id, build_process_image bytes (AddressSpaceSpec_new id) = Ok image.
Proof.
  unfold prepare_userspace. destruct (ramdisk_bytes memory bi) as [bs| |]; [|done..].
  destruct (AddressSpaceId_new 1) as [id|]; [|done].
  destruct (build_process_image bs _) as [im| |] eqn:Hb; [|done..]. intros [= -> -> _]. by exists id.
Qed.

(** Boot prepares no launch, because no validated image can be loaded. *)
Lemma load_stage_prepares_nothing {T R : Type} `{OffsetPageTable T} `{BootRegion R} `{PagingCrate} `{VirtAddrLaw} `{PhysAddrCrate}
    cr3 memory (bi : BootInfo R) userspace said allocator :
  prepare_userspace memory bi = Ok (userspace, said) ->
  match load_stage (T := T) cr3 userspace (from_boot_info bi) allocator memory with Ok (Some _, _, _, _) => False | _ => True end.
Proof.
  intros Hp. unfold load_stage. destruct userspace as [[bytes image]|]; [|done]. destruct (from_boot_info bi) as [m|]; [|done].
  destruct (prepared_image _ _ _ _ _ Hp) as [id Hb]. destruct (ElfImage_parse bytes) as [elf| |]; [|done..].
  destruct (load_fails (T := T) cr3 m allocator memory id bytes image elf Hb) as [Hno _].
  destruct (load_process_image _ _ _ _ _ _) as [[[x| |] a] mem]; done.
Qed.

(** Past CPU initialization, boot never reaches userspace: whatever image the ramdisk
    holds, no launch is prepared, because no validated image can be loaded; if boot gets
    through, it ends in the switch to a kernel task. *)
Theorem boot_skips_userspace {T R H : Type} `{OffsetPageTable T} `{BootRegion R} `{PagingCrate} `{VirtAddrLaw} `{PhysAddrCrate}
    `{Hardware} `{ApicBaseCrate} `{GdtCrate} `{HeapCrate H} (env : BootEnvironment) (memory : Z -> Z) (bi : BootInfo R)
    (userspace : option (list Z * ProcessImage)) (said : list Line) (tables : CpuTables) :
  prepare_userspace memory bi = Ok (userspace, said) ->
  match boot_after_init (T := T) (H := H) env memory bi userspace tables with
  | Ok (UserspaceStarted _ _ _, _, _) => False
  | _ => True
  end.
Proof.
  intros Hp. unfold boot_after_init. destruct (clock_stage (be_ticks env)) as [clock said1].
  destruct (apic_stage _ _ _ _ _) as [[controllers said3]|[]|]; [|done].
  destruct (timer_stage _ _ _ _ _ _) as [[h said4]|[]|]; [|done].
  destruct (heap_stage _ _ _) as [[[allocator heap] said5]|[]|]; [|done].
  pose proof (load_stage_prepares_nothing (T := T) (be_cr3 env) memory bi userspace said allocator Hp) as Hload.
  destruct (load_stage _ _ _ _ _) as [[[[[prepared|] a] mem] said6]|[]|]; [done| |done].
  unfold start_stage. destruct (box_new _ _) as [[p heap']|[]|]; [|done]. destruct (kr_bind_cpu _ _) as [bound c].
  destruct (expect bound); [|done..]. destruct (kr_spawn _ _ _ _) as [ra ka]. destruct (expect ra); [|done..].
  destruct (kr_spawn (sp_memory_b _) _ _ _) as [rb kb]. destruct (expect rb); [|done..].
  by destruct (dispatch_begin kb c) as [[[] ?] ?].
Qed.

(** ** A boot, evaluated

    A machine with the tables of [Acpi], a 3 GHz counter and an x2APIC; identity-mapped
    memory and no ramdisk. *)
Definition demo_hardware : Hardware := {|
  answer := fun _ _ => 4294342295;
  cpuid := fun leaf _ =>
    if leaf =? 0 then (22, 0, 0, 0) else if leaf =? 1 then (0, 0, Z.shiftl 1 24 + Z.shiftl 1 21, Z.shiftl 1 9)
    else if leaf =? 21 then (2, 250, 24000000, 0) else if leaf =? 2147483648 then (2147483656, 0, 0, 0)
    else if leaf =? 2147483655 then (0, 0, 0, 256) else (0, 0, 0, Z.shiftl 1 20);
|}.
Definition demo_apic_base : ApicBaseCrate := {|
  ApicBase_read := fun _ => (4276092928, 0); LAPIC_ENABLE := 2048; X2APIC_ENABLE := 1024;
|}.
Definition demo_boot_info : BootInfo DemoRegion :=
  mkBootInfo _ None 0 (Some 0) (Some 1000) [mkRegion 1048576 16777216 true].
Definition demo_start : StartParameters :=
  mkStart (mkLayout 1000 8) (mkLayout 1000 8) demo_memory demo_memory demo_memory2 77 77 88.
Definition demo_environment : BootEnvironment :=
  mkEnvironment (mkSymbols 1048576 2097152 4096 4160 4224 4288 4352) 5 (fun i => 40000000 * Z.of_nat i) 10 1048576 demo_start.

#[local] Existing Instance flat_table.
#[local] Existing Instance x86_paging.
#[local] Existing Instance canonical_virt_addr.
#[local] Existing Instance phys_addr_52.
#[local] Existing Instance demo_hardware.
#[local] Existing Instance demo_apic_base.
#[local] Existing Instance counting_gdt.
#[local] Existing Instance bump_heap.
#[local] Existing Instance canonical_virt_addr_law.

Definition demo_tables : CpuTables := mkTables _ (Some (mkTss 1081344 2129920)) None None None true.
Definition demo_boot_result : result Empty_set (BootEnd * option PhysicalMemoryMapping * list Line) :=
  boot_after_init (T := FlatTable) (H := Bump) demo_environment example_memory demo_boot_info None demo_tables.

Example boot_console :
  match demo_boot_result with
  | Ok (KernelTasksStarted (TaskContext t) k c, global, said) =>
      t = mkTaskId 0 1 /\ cl_current_task (cpu_local c) = Some t /\ current (ktm_scheduler (kr_manager k)) = Some t /\
      global = Some (mkMapping 0) /\
      drop 22 said =
        [Text "X11-OS: ACPI MADT discovered"; Eol; Text "X11-OS: local APIC records = "; Number 1; Eol;
         Text "X11-OS: local x2APIC records = "; Number 1; Eol; Text "X11-OS: I/O APIC records = "; Number 1; Eol;
         Text "X11-OS: local APIC mode = "; Text "x2APIC"; Eol; Text "X11-OS: Local APIC EOI initialized"; Eol;
         Text "X11-OS: LAPIC timer calibrated Hz = "; Number 62500000; Eol; Text "X11-OS: heap initialized"; Eol;
         Text "X11-OS: heap allocation verified"; Eol; Text "X11-OS: userspace activation skipped"; Eol]
  | _ => False
  end.
Proof. vm_compute. repeat split; reflexivity. Qed.

Lemma kernel_main_panics_witness :
  kernel_main (T := FlatTable) (H := Bump) demo_environment example_memory demo_boot_info = Panic.
Proof. apply kernel_main_panics. Defined.

Lemma boot_skips_userspace_witness :
  match demo_boot_result with
  | Ok (UserspaceStarted _ _ _, _, _) => False
  | _ => True
  end.
Proof.
  apply (boot_skips_userspace (T := FlatTable) (H := Bump) demo_environment example_memory demo_boot_info None
    [Text "X11-OS: userspace ramdisk unavailable"; Eol] demo_tables). reflexivity.
Defined.
