(* ===== verification/BootHeap.v ===== *)
(** * The heap among the frames

    Boot takes a run of frames from the early allocator, finds it in the physical window and
    gives it to the heap ([main.rs], lines 120 to 138); the frames of page tables and of
    processes come from the same allocator later.  The heap and the frame allocator never
    speak to each other again, so that they do not hand out the same memory has to follow
    from how boot splits it. *)

From Stdlib Require Import String.
From stdpp Require Import base numbers sets relations list options.
From S2P Require Import Prelude Memory Frames Heap Boot.

Local Open Scope Z_scope.
Local Open Scope rust_scope.

(** ** Pages *)
Lemma aligned_apart a b : a mod FRAME_SIZE = 0 -> b mod FRAME_SIZE = 0 -> a <> b -> a + FRAME_SIZE <= b \/ b + FRAME_SIZE <= a.
Proof.
  intros Ha Hb Hne. pose proof (Z.div_mod a FRAME_SIZE ltac:(done)). pose proof (Z.div_mod b FRAME_SIZE ltac:(done)).
  unfold FRAME_SIZE in *. lia.
Qed.

(** A page outside a run of pages lies before or behind it. *)
Lemma run_apart n start f :
  start mod FRAME_SIZE = 0 -> f mod FRAME_SIZE = 0 -> f ∉ pages_from n start ->
  f + FRAME_SIZE <= start \/ start + Z.of_nat n * FRAME_SIZE <= f.
Proof.
  revert start. induction n as [|n IH]; intros start Hs Hf Hn; cbn [pages_from] in Hn.
  - pose proof (Z.div_mod start FRAME_SIZE ltac:(done)). pose proof (Z.div_mod f FRAME_SIZE ltac:(done)).
    unfold FRAME_SIZE in *. lia.
  - apply not_elem_of_cons in Hn as [Hne Hn]. destruct (aligned_apart start f Hs Hf ltac:(congruence)) as [Hd|Hd]; [|by left].
    destruct (IH (start + FRAME_SIZE)) as [Hc|Hc]; [|done|done|unfold FRAME_SIZE in *; lia|right; lia].
    by rewrite <- Z.add_mod_idemp_l, Hs.
Qed.

Section BootHeap.
Context {R H : Type} `{BootRegion R} `{HeapLaws H}.

(** What the stage leaves of the heap: nothing, or the heap on a run of 256 frames that
    the allocator will not give again. *)
Lemma heap_stage_region mapping (a a' : EarlyFrameAllocator R) heap said :
  fa_wf a -> 0 < mapping_offset mapping ->
  heap_stage (H := H) (Some mapping) a KernelHeap_empty = Ok (a', heap, said) ->
  fa_wf a' /\
  ((heap = KernelHeap_empty /\ said = []) \/
   exists start skipped, start mod FRAME_SIZE = 0 /\ 0 <= start /\
     free_frames a = skipped ++ pages_from 256 start ++ free_frames a' /\
     heap_at (mapping_offset mapping + start) INITIAL_HEAP_SIZE (heap, [])).
Proof using Type*.
  intros Hw Hoff. unfold heap_stage.
  destruct (allocate_contiguous_loop_spec (alloc_fuel a) INITIAL_HEAP_FRAMES a Hw) as (r & a1 & Hal & Hw1 & Hr);
    [unfold alloc_fuel; lia|done|].
  assert (allocate_contiguous INITIAL_HEAP_FRAMES a = Some (r, a1)) as -> by exact Hal.
  destruct r as [[start count]|]; [|intros [= <- <- <-]; by split; [|left]]. cbn [cf_start cf_count] in Hr.
  destruct Hr as (-> & skipped & Hff & Hal0 & Hpos). cbv zeta.
  destruct (_ ≫= _) as [region|] eqn:Hreg; [|intros [= <- <- <-]; by split; [|left]].
  assert (Hregion : region = mkHeapRegion (mapping_offset mapping + start) INITIAL_HEAP_SIZE).
  { apply bind_Some in Hreg as (pr & Hpr & Hreg). apply bind_Some in Hreg as (size & Hsize & Hreg).
    apply bind_Some in Hreg as (vr & Hvr & Hreg). apply bind_Some in Hreg as (region' & Hnew & Hreg).
    case_if; [|done]. injection Hreg as <-. apply HeapRegion_new_Some in Hnew as (-> & _).
    unfold cf_physical_range in Hpr. apply bind_Some in Hpr as (e & _ & Hpr). unfold PhysRange_new in Hpr. case_if; [|done].
    injection Hpr as <-. unfold translate_range in Hvr. cbn [pr_start pr_end cf_start] in Hvr.
    apply bind_Some in Hvr as (vs & Hvs & Hvr). apply bind_Some in Hvr as (ve & _ & Hvr).
    unfold VirtRange_new in Hvr. case_if; [|done]. injection Hvr as <-. unfold phys_translate in Hvs.
    apply checked_add_Some in Hvs as [-> _]. done. }
  pose proof (heap_init_at (H := H) region) as Hat. rewrite Hregion in Hat |- *. specialize (Hat ltac:(done)).
  unfold kh_init in Hat |- *. cbn [kh_initialized KernelHeap_empty snd hr_start hr_size] in Hat |- *.
  set (heap1 := mkKernelHeap _ true) in *. unfold probe_heap.
  destruct (kh_alloc heap1 (mkLayout 512 8)) as [p heap2] eqn:Hp. destruct (p =? 0) eqn:Hz; [done|]. to_prop.
  intros [= <- <- <-]. split; [done|]. right. exists start, skipped. split_and!; [done|done|done|].
  apply (heap_step_at _ _ (heap2, [(p, mkLayout 512 8)])); [lia|exact (HsDealloc heap2 [] p (mkLayout 512 8) [])|].
  apply (heap_step_at _ _ (heap1, [])); [lia| |exact Hat].
  pose proof (HsAlloc heap1 [] (mkLayout 512 8)) as Hs. rewrite Hp in Hs. by apply Hs.
Qed.
End BootHeap.

(** ** Theorem *)

(** C35: The heap and the frame allocator never hand out the same memory.  On a memory map
    whose regions end at least a page below 2^64 and whose usable ones do not overlap, with
    the physical window at an offset above zero, the heap stage of boot leaves the heap without
    memory, and then no allocation succeeds, or on 1 MiB of the physical window whose pages
    all start in usable regions.  In the second case, whatever clients then do with the
    heap, further initializations with other regions included (as long as they free only
    what they hold), and however many frames are taken from the allocator: every block in
    hand is aligned as requested, lies inside that megabyte, is apart from the other blocks,
    and its memory is apart from every one of those frames.  That the allocator crate keeps
    its blocks inside the region it is given, aligned and apart, is its documented
    contract. *)
Theorem boot_heap_apart {R H} `{BootRegion R} `{HeapLaws H} mapping (regions : list R) allocator (heap : KernelHeap H) said :
  Forall region_ok regions -> ForallOrdPairs usable_disjoint regions -> 0 < mapping_offset mapping ->
  heap_stage (H := H) (Some mapping) (EarlyFrameAllocator_new regions) KernelHeap_empty = Ok (allocator, heap, said) ->
  (heap = KernelHeap_empty /\ forall layout, (kh_alloc heap layout).1 = 0) \/
  exists start,
    (forall f, f ∈ pages_from 256 start -> exists r, r ∈ regions /\ region_usable r = true /\ region_start r <= f < region_end r) /\
    forall self held n, rtc heap_step (heap, []) (self, held) ->
    exists fs a', allocate_frames n allocator = Some (fs, a') /\
      held_ok (mapping_offset mapping + start) INITIAL_HEAP_SIZE held /\
      forall p l f, (p, l) ∈ held -> f ∈ fs ->
        p - mapping_offset mapping + lay_size l <= f \/ f + FRAME_SIZE <= p - mapping_offset mapping.
Proof.
  intros Hok Hd Hoff Hs. pose proof (EarlyFrameAllocator_new_wf regions Hok) as Hw.
  destruct (heap_stage_region mapping _ allocator heap said Hw Hoff Hs) as [Hw' [[-> _]|(start & skipped & Hal & Hpos & Hff & Hat)]];
    [by left|right].
  assert (Hall : concat (region_pages <$> regions) = skipped ++ pages_from 256 start ++ free_frames allocator) by exact Hff.
  pose proof (all_pages_NoDup regions Hok Hd) as Hnd. rewrite Hall in Hnd.
  assert (Hpage : forall f, f ∈ pages_from 256 start ++ free_frames allocator -> exists r, r ∈ regions /\ region_usable r = true /\
            region_start r <= f < region_end r /\ f mod FRAME_SIZE = 0).
  { intros f Hf. apply elem_of_all_pages; [done|]. rewrite Hall. apply elem_of_app. by right. }
  exists start. split.
  { intros f Hf. destruct (Hpage f) as (r & ? & ? & ? & _); [apply elem_of_app; by left|]. by exists r. }
  intros self held n Hr. destruct (allocate_frames_spec n allocator Hw') as (a' & Heq & _ & _).
  assert (Hne : 0 < mapping_offset mapping + start) by lia. pose proof (heap_steps_at _ _ _ _ Hne Hr Hat) as [_ _ Hh].
  eexists _, a'. split; [exact Heq|]. split; [exact Hh|]. intros p l f Hp Hf.
  destruct (proj1 Hh p l Hp) as (_ & _ & Hlo & Hhi).
  assert (Hfree : f ∈ free_frames allocator) by (eapply elem_of_sublist; [exact Hf|apply sublist_take]).
  apply NoDup_app in Hnd as (_ & _ & (_ & Hno & _)%NoDup_app).
  destruct (run_apart 256 start f Hal) as [Hc|Hc].
  - destruct (Hpage f) as (_ & _ & _ & _ & Hm); [apply elem_of_app; by right|done].
  - intros Hin. by apply (Hno f).
  - right. lia.
  - left. unfold INITIAL_HEAP_SIZE, INITIAL_HEAP_FRAMES, PAGE_SIZE_4K, FRAME_SIZE in *. lia.
Qed.

(** ** Two megabytes of memory behind an offset *)
Definition demo_regions : list DemoRegion := [mkRegion 0 4096 false; mkRegion 4096 2097152 true].
Definition demo_heap_stage := heap_stage (H := Bump) (Some (mkMapping 1073741824)) (EarlyFrameAllocator_new demo_regions) KernelHeap_empty.

Lemma boot_heap_apart_witness :
  exists allocator heap said, demo_heap_stage = Ok (allocator, heap, said) /\ kh_initialized heap = true /\
    exists p fs a', kh_alloc heap (mkLayout 64 16) = (p, (kh_alloc heap (mkLayout 64 16)).2) /\ p <> 0 /\
      allocate_frames 3 allocator = Some (fs, a') /\ length fs = 3%nat /\
      forall f, f ∈ fs -> p - 1073741824 + 64 <= f \/ f + FRAME_SIZE <= p - 1073741824.
Proof.
  destruct demo_heap_stage as [[[allocator heap] said]|[]|] eqn:Hs; [|vm_compute in Hs; discriminate Hs].
  pose proof Hs as Hv. vm_compute in Hv. exists allocator, heap, said. split; [reflexivity|].
  split; [injection Hv as _ <- _; reflexivity|].
  destruct (boot_heap_apart (H := Bump) (mkMapping 1073741824) demo_regions allocator heap said) as [[He _]|(start & _ & Hall)].
  - repeat constructor; vm_compute; discriminate.
  - repeat constructor; discriminate.
  - reflexivity.
  - exact Hs.
  - exfalso. injection Hv as _ <- _. discriminate He.
  - set (p := (kh_alloc heap (mkLayout 64 16)).1).
    assert (Hp : p <> 0) by (unfold p; injection Hv as _ <- _; vm_compute; discriminate).
    destruct (Hall (kh_alloc heap (mkLayout 64 16)).2 [(p, mkLayout 64 16)] 3%nat) as (fs & a' & Hf & _ & Hd).
    + apply rtc_once. exact (HsAlloc heap [] (mkLayout 64 16) Hp).
    + exists p, fs, a'. split; [apply surjective_pairing|]. split; [exact Hp|]. split; [exact Hf|]. split.
      * injection Hv as <- _ _. vm_compute in Hf. injection Hf as <- _. reflexivity.
      * intros f Hin. exact (Hd p (mkLayout 64 16) f ltac:(left) Hin).
Defined.
