(* ===== verification/BootTasks.v ===== *)
(** * The kernel tasks boot starts

    Boot ends in [main.rs] with two kernel tasks and a dispatch.  The theorem connects the
    stages of [Boot] with the queue of [Rotation]: when boot gets through, what it leaves
    behind is the start of a rotation, so the two tasks alternate for as long as the timer
    ticks. *)

From Stdlib Require Import String.
From stdpp Require Import base numbers sets relations list options.
From S2P Require Import Prelude Tasks Queues Scheduler SchedulerInv SchedulerSteps Memory Frames LoadPlan.
From S2P Require Import Process Execution UserExecution KernelTask Runtime Dispatch SystemRuntime InterruptEntry.
From S2P Require Import KernelManager KernelSleep Rotation SystemProps.
From S2P Require Import PageWalk PageTable Acpi Apic Timers Descriptors Heap Boot.

Local Open Scope Z_scope.
Local Open Scope rust_scope.

(** With one task waiting, a tick resumes what the tick before it interrupted. *)
Lemma rotate_pair d snaps : rotate [d] snaps = take (length snaps) (d :: (ToKernelState <$> snaps)).
Proof. revert d. induction snaps as [|s snaps IH]; intros d; [done|]. cbn. by rewrite IH. Qed.

Lemma rotated_pair {A} (x y : A) n : rotated n [x; y] = if Nat.even n then [x; y] else [y; x].
Proof.
  revert x y. induction n as [|n IH]; intros x y; [done|]. cbn [rotated app]. rewrite IH, Nat.even_succ, <- Nat.negb_even.
  by destruct (Nat.even n).
Qed.

Section BootTasks.
Context `{VirtAddrCrate}.

(** What the allocator and the linker promise of a task's memory. *)
Record task_memory_ok (memory : KernelMemory) : Prop := mk_task_memory {
  tm_memory : memory_ok memory;
  tm_top : forall base, km_stack memory = Some base -> virt_addr_new_ok (base + KERNEL_STACK_SIZE) = true;
}.

(** The manager after two tasks were spawned with the bindings [ba] and [bb]. *)
Definition spawned (ba bb : X86ExecutionBinding) : KernelTaskManager :=
  mkTaskManager (run_ops (take 6 demo_kernel_ops) Scheduler_new) [Some ba; Some bb] [].

(** A binding made for a new task. *)
Definition made (memory : KernelMemory) (t : TaskId) (entry : Z) (b : X86ExecutionBinding) : Prop :=
  X86ExecutionBinding_new memory t entry = Ok b.

Lemma first_spawn memory entry :
  match kr_spawn memory KernelRuntime_new Priority_DEFAULT entry with
  | (Ok t, k) => exists b, made memory (mkTaskId 0 1) entry b /\
      k = kr_set_manager KernelRuntime_new (mkTaskManager (run_ops (take 3 demo_kernel_ops) Scheduler_new) [Some b] [])
  | _ => True
  end.
Proof using Type.
  unfold kr_spawn, made. change (kr_manager KernelRuntime_new) with KernelTaskManager_new. unfold ktm_spawn.
  destruct (create_task _ _) as [r s] eqn:Hc. vm_compute in Hc. injection Hc as <- <-.
  destruct (attach_execution _ _) as [r s] eqn:Hat. vm_compute in Hat. injection Hat as <- <-.
  unfold er_insert. rewrite bool_decide_false by (by intros [? ?]). cbn [handle_task_id].
  destruct (X86ExecutionBinding_new _ _ _) as [b| |] eqn:Hb; [|done..].
  destruct (make_ready _ _) as [r s] eqn:Hm. vm_compute in Hm. injection Hm as <- <-. cbn.
  exists b. split; [done|]. vm_compute. done.
Qed.

Lemma second_spawn memory entry ba :
  xb_task_id ba = mkTaskId 0 1 ->
  match kr_spawn memory (kr_set_manager KernelRuntime_new
          (mkTaskManager (run_ops (take 3 demo_kernel_ops) Scheduler_new) [Some ba] [])) Priority_DEFAULT entry with
  | (Ok t, k) => exists b, made memory (mkTaskId 1 1) entry b /\ k = kr_set_manager KernelRuntime_new (spawned ba b)
  | _ => True
  end.
Proof using Type.
  intros Ha. unfold kr_spawn, made, spawned, ktm_spawn. cbn [kr_manager kr_set_manager ktm_scheduler ktm_executions ktm_sleepers].
  destruct (create_task _ _) as [r s] eqn:Hc. vm_compute in Hc. injection Hc as <- <-.
  destruct (attach_execution _ _) as [r s] eqn:Hat. vm_compute in Hat. injection Hat as <- <-.
  unfold er_insert. cbn [handle_task_id]. unfold er_get. cbn [reg_find]. rewrite Ha.
  rewrite bool_decide_false by (by intros [? ?]).
  destruct (X86ExecutionBinding_new _ _ _) as [b| |] eqn:Hb; [|done..].
  destruct (make_ready _ _) as [r s] eqn:Hm. vm_compute in Hm. injection Hm as <- <-. cbn.
  exists b. split; [done|]. vm_compute. done.
Qed.

Lemma made_ok memory t entry b :
  task_memory_ok memory -> made memory t entry b ->
  xb_task_id b = t /\ resumable b /\ xb_interrupted b = None /\ is_initialized (xb_context b) = true /\
  (forall top, xb_stack_top b = Some top -> virt_addr_new_ok top = true).
Proof using Type.
  intros [Hm Ht] Hb. pose proof (binding_new_valid memory t entry Hm) as Hv. rewrite Hb in Hv.
  destruct Hv as (Hid & Hv & Hi & Htop & [base Hbase]). assert (Hok : is_ok (xb_validate b) = true) by by rewrite Hv.
  split; [done|]. split; [split; [done|by rewrite Hi]|]. split; [done|]. split; [by apply validated_initialized|].
  rewrite Htop, Hbase. cbn. intros top [= <-]. by apply Ht.
Qed.

(** Two bindings in the registry, with the scheduler in any sound state. *)
Lemma pair_manager_ok s ba bb :
  sched_inv s -> (forall t, current s = Some t -> state s t = Some Running) -> xb_task_id ba <> xb_task_id bb ->
  Forall (fun b => is_initialized (xb_context b) = true /\ forall top, xb_stack_top b = Some top -> virt_addr_new_ok top = true) [ba; bb] ->
  manager_ok (mkTaskManager s [Some ba; Some bb] []).
Proof using Type.
  intros Hs Hr Hne Hb. apply Forall_cons in Hb as [[Hia Hta] Hb]. apply Forall_cons in Hb as [[Hib Htb] _].
  split; cbn [ktm_scheduler ktm_executions ktm_sleepers]; try done.
  - apply NoDup_cons. split; [|apply NoDup_singleton]. cbn. by intros ?%list_elem_of_singleton.
  - split; constructor.
  - apply stacks_ok_forallb. cbn. destruct (xb_stack_top ba) as [ta|] eqn:Ea, (xb_stack_top bb) as [tb|] eqn:Eb; cbn;
      rewrite ?(Hta _ eq_refl), ?(Htb _ eq_refl); done.
  - apply contexts_ok_forallb. cbn. by rewrite Hia, Hib.
Qed.

(** The bindings boot's two tasks get. *)
Record boot_bindings (sp : StartParameters) (ba bb : X86ExecutionBinding) : Prop := mk_boot_bindings {
  bb_memory_a : task_memory_ok (sp_memory_a sp);
  bb_memory_b : task_memory_ok (sp_memory_b sp);
  bb_a : made (sp_memory_a sp) (mkTaskId 0 1) (sp_task_a sp) ba;
  bb_b : made (sp_memory_b sp) (mkTaskId 1 1) (sp_task_b sp) bb;
}.

Lemma spawned_ok sp ba bb ops :
  boot_bindings sp ba bb -> ops_enabled ops Scheduler_new ->
  (forall t, current (run_ops ops Scheduler_new) = Some t -> state (run_ops ops Scheduler_new) t = Some Running) ->
  manager_ok (mkTaskManager (run_ops ops Scheduler_new) [Some ba; Some bb] []).
Proof using Type.
  intros [Hma Hmb Ha Hb] Hops Hr. destruct (made_ok _ _ _ _ Hma Ha) as (Hia & _ & _ & Hca & Hta).
  destruct (made_ok _ _ _ _ Hmb Hb) as (Hib & _ & _ & Hcb & Htb). apply pair_manager_ok; [|done|by rewrite Hia, Hib|].
  - exact (sound_inv _ _ (steps_sound _ _ Scheduler_new_inv (run_ops_steps _ _ Hops))).
  - repeat (apply Forall_cons; split; [done|]). by apply Forall_nil.
Qed.

Lemma dispatch_begin_gate k c : kr_preemption (dispatch_begin k c).1.2 = kr_preemption k.
Proof using Type.
  unfold dispatch_begin, dispatch_handover. repeat (case_match; simplify_eq/=; try done).
Qed.

Lemma boot_dispatch_rotation sp ba bb c pointer :
  boot_bindings sp ba bb -> is_Some (cpu_rsp0 c) ->
  cpu_local c = mkCpuLocal None (Some pointer) None (cl_syscall_action (cpu_local c)) None ->
  match dispatch_begin (kr_set_manager KernelRuntime_new (spawned ba bb)) c with
  | (DispatchSwitch _ entering _, k', c') => entering = TaskContext (mkTaskId 0 1) /\
      forall saved, rotation (save_context k' BootContext saved) c' (mkTaskId 0 1) ba [(mkTaskId 1 1, bb)]
  | _ => True
  end.
Proof using Type.
  intros Hbb Hr0 Hl. pose proof Hbb as [Hma Hmb Ha Hb].
  destruct (made_ok _ _ _ _ Hma Ha) as (Hia & Hra & Hfa & _). destruct (made_ok _ _ _ _ Hmb Hb) as (Hib & Hrb & Hfb & _).
  set (k := kr_set_manager _ _). assert (Hm0 : manager_ok (kr_manager k)).
  { apply (spawned_ok sp); [done|vm_compute; repeat split; discriminate|by vm_compute]. }
  assert (Hdi : dispatchable k c) by (split; [apply Hm0|by vm_compute|done|apply Hm0]).
  pose proof (dispatch_begin_spec k c Hdi) as Hd. pose proof (dispatch_begin_gate k c) as Hg. destruct (dispatch_begin k c) as [[[e| |leaving entering back] k'] c']; [done..|].
  destruct Hd as (x & _ & -> & _ & Hsw). pose proof (sw_head _ _ _ _ _ Hsw) as Hx. vm_compute in Hx. injection Hx as <-.
  split; [done|]. intros saved.
  assert (Hm : kr_manager k' = mkTaskManager (run_ops demo_kernel_ops Scheduler_new) [Some ba; Some bb] [])
    by (rewrite (sw_manager _ _ _ _ _ Hsw); vm_compute; reflexivity).
  pose proof (sw_local _ _ _ _ _ Hsw) as Hl'. rewrite Hl in Hl'. cbn [save_context].
  apply mk_rotation; cbn [kr_manager kr_preemption]; rewrite ?Hm, ?Hl'; try reflexivity.
  - apply (spawned_ok sp); [done|vm_compute; repeat split; discriminate|]. intros t Ht. vm_compute in Ht. injection Ht as <-.
    by vm_compute.
  - cbn [fst snd] in Hg. by rewrite Hg.
  - apply (bool_decide_unpack _). vm_compute. exact I.
  - split; [unfold er_get; cbn; by rewrite Hia|]. split; [done|vm_compute; discriminate].
  - done.
  - apply Forall_singleton. split; [unfold er_get; cbn; by rewrite Hia, Hib|]. split; [done|vm_compute; discriminate].
  - by apply (sw_entry _ _ _ _ _ Hsw).
  - by exists pointer.
Qed.

(** When boot reaches the switch to a kernel task, its tasks are at the start of a rotation. *)
Lemma start_stage_rotation {H0 : Type} `{HeapCrate H0} sp heap c ended said :
  task_memory_ok (sp_memory_a sp) -> task_memory_ok (sp_memory_b sp) ->
  is_Some (cpu_rsp0 c) -> cpu_local c = CpuLocalState_new ->
  start_stage (H := H0) sp None heap c = Ok (ended, said) ->
  exists ba bb k' c', boot_bindings sp ba bb /\ ended = KernelTasksStarted (TaskContext (mkTaskId 0 1)) k' c' /\
    forall saved, rotation (save_context k' BootContext saved) c' (mkTaskId 0 1) ba [(mkTaskId 1 1, bb)].
Proof using Type.
  intros Hma Hmb Hr0 Hl. unfold start_stage. destruct (box_new _ _) as [[p heap']|[]|]; [|done].
  unfold kr_bind_cpu, bind_runtime. rewrite Hl. cbn [cl_runtime CpuLocalState_new].
  rewrite bool_decide_false by (by intros [? ?]). destruct (p =? 0); [done|]. cbn [expect map_err].
  pose proof (first_spawn (sp_memory_a sp) (sp_task_a sp)) as Ha. destruct (kr_spawn _ KernelRuntime_new _ _) as [[ta| |] k1]; [|done..].
  destruct Ha as (ba & Ha & ->). destruct (made_ok _ _ _ _ Hma Ha) as [Hia _]. cbn [expect].
  pose proof (second_spawn (sp_memory_b sp) (sp_task_b sp) ba Hia) as Hb. destruct (kr_spawn _ _ _ _) as [[tb| |] k2]; [|done..].
  destruct Hb as (bb & Hb & ->). cbn [expect]. assert (Hbb : boot_bindings sp ba bb) by done.
  set (c1 := with_local c _). pose proof (boot_dispatch_rotation sp ba bb c1 p Hbb Hr0 eq_refl) as Hd.
  destruct (dispatch_begin _ c1) as [[[e| |leaving entering back] k'] c']; [done..|]. destruct Hd as [-> Hro].
  intros [= <- _]. by exists ba, bb, k', c'.
Qed.
End BootTasks.

(** Past CPU initialization, what boot leaves behind is the start of a rotation. *)
Lemma boot_rotation {T R H : Type} `{OffsetPageTable T} `{BootRegion R} `{PagingCrate} `{VirtAddrLaw} `{PhysAddrCrate}
    `{Hardware} `{ApicBaseCrate} `{GdtCrate} `{HeapCrate H} (env : BootEnvironment) (memory : Z -> Z) (bi : BootInfo R)
    (userspace : option (list Z * ProcessImage)) (said : list Line) (tables : CpuTables) ended global printed :
  prepare_userspace memory bi = Ok (userspace, said) -> is_Some (ct_tss tables) ->
  task_memory_ok (sp_memory_a (be_start env)) -> task_memory_ok (sp_memory_b (be_start env)) ->
  boot_after_init (T := T) (H := H) env memory bi userspace tables = Ok (ended, global, printed) ->
  exists ba bb k c, boot_bindings (be_start env) ba bb /\ ended = KernelTasksStarted (TaskContext (mkTaskId 0 1)) k c /\
    forall saved, rotation (save_context k BootContext saved) c (mkTaskId 0 1) ba [(mkTaskId 1 1, bb)].
Proof.
  intros Hp [tss Htss] Hma Hmb. unfold boot_after_init. destruct (clock_stage (be_ticks env)) as [clock said1].
  destruct (apic_stage _ _ _ _ _) as [[controllers said3]|[]|]; [|done].
  destruct (timer_stage _ _ _ _ _ _) as [[h said4]|[]|]; [|done].
  destruct (heap_stage _ _ _) as [[[allocator heap] said5]|[]|]; [|done].
  pose proof (load_stage_prepares_nothing (T := T) (be_cr3 env) memory bi userspace said allocator Hp) as Hload.
  destruct (load_stage _ _ _ _ _) as [[[[[prepared|] a] mem] said6]|[]|]; [done| |done].
  destruct (start_stage _ _ _ _) as [[ended' said7]|[]|] eqn:Hs; [|done]. intros [= <- _ _].
  assert (Hr0 : is_Some (cpu_rsp0 (boot_cpu tables))) by (cbn; rewrite Htss; eauto).
  exact (start_stage_rotation _ _ _ _ _ Hma Hmb Hr0 eq_refl Hs).
Qed.

(** ** Theorem *)

(** Past CPU initialization, boot either panics or leaves two kernel tasks that share the
    CPU for as long as ticks are delivered ([Masking] says when they are): it ends in the switch to task A, the first tick starts task B with the
    context its spawn made, and from then on every tick resumes exactly the state that the
    tick before interrupted, so the tasks alternate and neither loses a register. *)
Theorem boot_tasks_rotate {T R H : Type} `{OffsetPageTable T} `{BootRegion R} `{PagingCrate} `{VirtAddrLaw} `{PhysAddrCrate}
    `{Hardware} `{ApicBaseCrate} `{GdtCrate} `{HeapCrate H} (env : BootEnvironment) (memory : Z -> Z) (bi : BootInfo R)
    (userspace : option (list Z * ProcessImage)) (said : list Line) (tables : CpuTables) ended global printed :
  prepare_userspace memory bi = Ok (userspace, said) -> is_Some (ct_tss tables) ->
  task_memory_ok (sp_memory_a (be_start env)) -> task_memory_ok (sp_memory_b (be_start env)) ->
  boot_after_init (T := T) (H := H) env memory bi userspace tables = Ok (ended, global, printed) ->
  exists bb k c, made (sp_memory_b (be_start env)) (mkTaskId 1 1) (sp_task_b (be_start env)) bb /\
    ended = KernelTasksStarted (TaskContext (mkTaskId 0 1)) k c /\
    forall kn saved ticks,
      sy_runtime (kn_system kn) = save_context k BootContext saved -> kn_cpu kn = c ->
      Forall (fun t => kernel_frame t.2) ticks ->
      exists kn', run_ticks kn ticks =
          Some (take (length ticks) (ToContext (xb_context bb) :: (ToKernelState ∘ tick_snapshot <$> ticks)), kn') /\
        cl_current_task (cpu_local (kn_cpu kn')) = Some (mkTaskId (if Nat.even (length ticks) then 0 else 1) 1) /\
        current (sy_scheduler (kn_system kn')) = cl_current_task (cpu_local (kn_cpu kn')).
Proof.
  intros Hp Htss Hma Hmb Hboot.
  destruct (boot_rotation (T := T) (H := H) env memory bi userspace said tables ended global printed)
    as (ba & bb & k & c & [_ _ _ Hb] & -> & Hro); [done..|].
  destruct (made_ok _ _ _ _ Hmb Hb) as (_ & _ & Hfresh & _).
  exists bb, k, c. split; [done|]. split; [done|]. intros kn saved ticks Hk Hc Hf.
  specialize (Hro saved). rewrite <- Hk, <- Hc in Hro.
  destruct (ticks_rotate ticks kn _ _ _ Hro ltac:(done) Hf) as (kn' & p' & bp' & rest' & Hrun & Hro' & Hhead).
  exists kn'. rewrite (ro_cpu _ _ _ _ _ Hro'), Hrun. unfold queue_of, leave_for. cbn. rewrite Hfresh, rotate_pair, length_fmap, <- list_fmap_compose.
  cbn in Hhead. rewrite rotated_pair in Hhead. split; [done|].
  split; [|exact (ro_current _ _ _ _ _ Hro')]. destruct (Nat.even _); injection Hhead as -> _; done.
Qed.

(** ** The boot of [Boot], followed by three ticks *)
#[local] Existing Instance flat_table.
#[local] Existing Instance x86_paging.
#[local] Existing Instance canonical_virt_addr.
#[local] Existing Instance phys_addr_52.
#[local] Existing Instance demo_hardware.
#[local] Existing Instance demo_apic_base.
#[local] Existing Instance counting_gdt.
#[local] Existing Instance bump_heap.
#[local] Existing Instance canonical_virt_addr_law.

Lemma demo_task_memory base activation :
  base = 1048576 \/ base = 2097152 -> task_memory_ok (mkKernelMemory (Some base) activation 8192).
Proof.
  intros Hbase. split; [split; [|done]|]; intros b [= <-]; [unfold KERNEL_STACK_SIZE; destruct Hbase as [-> | ->]; ulia|].
  by destruct Hbase as [-> | ->].
Qed.

Definition demo_started_tasks : KernelRuntime * Cpu :=
  match demo_boot_result with Ok (KernelTasksStarted _ k c, _, _) => (k, c) | _ => (KernelRuntime_new, demo_cpu) end.
Definition demo_running : Kernel :=
  mkKernel demo_regs demo_started_tasks.2 (set_runtime SystemRuntime_new (save_context demo_started_tasks.1 BootContext Context_empty))
    [] 0 0 false [].

Lemma boot_tasks_rotate_witness :
  exists kn', option_map (fun r => (tail r.1, r.2)) (run_ticks demo_running (demo_tick <$> [1; 2; 3])) =
      Some ([ToKernelState (tick_snapshot (demo_tick 1)); ToKernelState (tick_snapshot (demo_tick 2))], kn') /\
    current (sy_scheduler (kn_system kn')) = Some (mkTaskId 1 1).
Proof.
  destruct demo_boot_result as [[[ended global] printed]|e|] eqn:Hb; [|vm_compute in Hb; discriminate Hb..].
  destruct (boot_tasks_rotate (T := FlatTable) (H := Bump) demo_environment example_memory demo_boot_info None
    [Text "X11-OS: userspace ramdisk unavailable"%string; Eol] demo_tables ended global printed) as (bb & k & c & _ & He & Hrun);
    [reflexivity|by eexists|apply demo_task_memory; by left|apply demo_task_memory; by right|exact Hb|].
  assert (Hs : demo_started_tasks = (k, c)) by (unfold demo_started_tasks; rewrite Hb, He; reflexivity).
  destruct (Hrun demo_running Context_empty (demo_tick <$> [1; 2; 3])) as (kn' & Ht & Hc & Hs').
  - unfold demo_running. rewrite Hs. reflexivity.
  - unfold demo_running. rewrite Hs. reflexivity.
  - repeat (apply Forall_cons; split; [split; vm_compute; try split; try discriminate; reflexivity|]). by apply Forall_nil.
  - exists kn'. rewrite Ht. split; [reflexivity|]. rewrite Hs'. exact Hc.
Defined.
