(* ===== verification/Asm.v ===== *)
(** * The naked assembly of the kernel

    An executable semantics of the instructions the kernel's [naked_asm!] bodies use,
    and those bodies: the entry stubs of [arch/x86_64/interrupt_entry.rs], [switch]
    and the task trampoline of [context_switch.rs], [enter_user] and [resume_user] of
    [user_entry.rs], [return_to_kernel] and [return_to_context] of
    [preempt_return.rs].  The delivery of an interrupt by the CPU in 64-bit mode is
    part of the machine.

    Memory is read and written in aligned 64-bit words, all the code uses; an
    unaligned access has no result.  Segment and privilege checks of [iretq] and the
    values arithmetic leaves in the status flags are not modelled: the flags after
    [sub] and [and] are an argument, and every body that uses them reloads the flags
    before it leaves. *)

From stdpp Require Import base numbers list options.
From S2P Require Import Prelude Tasks Execution UserExecution.

Local Open Scope Z_scope.

(** ** The machine *)
Inductive reg :=
| RAX | RCX | RDX | RBX | RSP | RBP | RSI | RDI
| R8 | R9 | R10 | R11 | R12 | R13 | R14 | R15.

#[export] Instance reg_eq_dec : EqDecision reg.
Proof. solve_decision. Defined.

Record machine := mkMachine {
  m_regs : reg -> Z;
  m_rip : Z;
  m_rflags : Z;
  m_cs : Z;
  m_ss : Z;
  m_mem : Z -> Z;
}.

Definition upd_reg (f : reg -> Z) (r : reg) (v : Z) : reg -> Z :=
  fun r' => if bool_decide (r' = r) then v else f r'.
Definition upd_mem (f : Z -> Z) (a : Z) (v : Z) : Z -> Z :=
  fun a' => if a' =? a then v else f a'.

Definition wrap64 (x : Z) : Z := x mod 2 ^ 64.
Definition selector (x : Z) : Z := x mod 2 ^ 16.

Definition set_reg (m : machine) (r : reg) (v : Z) : machine :=
  mkMachine (upd_reg (m_regs m) r v) (m_rip m) (m_rflags m) (m_cs m) (m_ss m) (m_mem m).
Definition set_mem (m : machine) (a v : Z) : machine :=
  mkMachine (m_regs m) (m_rip m) (m_rflags m) (m_cs m) (m_ss m) (upd_mem (m_mem m) a v).
Definition set_rip (m : machine) (rip : Z) : machine :=
  mkMachine (m_regs m) rip (m_rflags m) (m_cs m) (m_ss m) (m_mem m).
Definition set_rflags (m : machine) (rflags : Z) : machine :=
  mkMachine (m_regs m) (m_rip m) rflags (m_cs m) (m_ss m) (m_mem m).

Definition load (m : machine) (a : Z) : option Z :=
  if a mod 8 =? 0 then Some (m_mem m a) else None.
Definition store (m : machine) (a v : Z) : option machine :=
  if a mod 8 =? 0 then Some (set_mem m a v) else None.

Definition push_word (m : machine) (v : Z) : option machine :=
  let sp := wrap64 (m_regs m RSP - 8) in store (set_reg m RSP sp) sp v.
Definition pop_word (m : machine) : option (Z * machine) :=
  v ← load m (m_regs m RSP); Some (v, set_reg m RSP (wrap64 (m_regs m RSP + 8))).

(** ** Instructions

    [Call f] is a call of compiled code: [f] gives the machine when it returns, or
    nothing when it never does. *)
Inductive instr :=
| MovRR (d s : reg)
| MovRM (d base : reg) (off : Z)
| MovMR (base : reg) (off : Z) (s : reg)
| Lea (d base : reg) (off : Z)
| Push (r : reg)
| PushM (base : reg) (off : Z)
| Pop (r : reg)
| SubI (r : reg) (imm : Z)
| AndI (r : reg) (imm : Z)
| Call (f : machine -> option machine)
| Jmp (target : Z)
| Ret
| Iretq.

Definition is_transfer (i : instr) : bool :=
  match i with Jmp _ | Ret | Iretq => true | _ => false end.

Section Machine.
(** The flags after an arithmetic instruction, from the old flags and the result. *)
Context (alu_flags : Z -> Z -> Z).

Definition addr (m : machine) (base : reg) (off : Z) : Z := wrap64 (m_regs m base + off).

Definition set_alu (m : machine) (r : reg) (v : Z) : machine :=
  set_rflags (set_reg m r v) (alu_flags (m_rflags m) v).

(** [iretq] in 64-bit mode takes all five words, whatever the privilege change. *)
Definition iretq (m : machine) : option machine :=
  '(rip, m1) ← pop_word m;
  '(cs, m2) ← pop_word m1;
  '(rflags, m3) ← pop_word m2;
  '(rsp, m4) ← pop_word m3;
  '(ss, m5) ← pop_word m4;
  Some (mkMachine (upd_reg (m_regs m5) RSP rsp) rip rflags (selector cs) (selector ss) (m_mem m5)).

Definition exec (i : instr) (m : machine) : option machine :=
  match i with
  | MovRR d s => Some (set_reg m d (m_regs m s))
  | MovRM d b off => v ← load m (addr m b off); Some (set_reg m d v)
  | MovMR b off s => store m (addr m b off) (m_regs m s)
  | Lea d b off => Some (set_reg m d (addr m b off))
  | Push r => push_word m (m_regs m r)
  | PushM b off => v ← load m (addr m b off); push_word m v
  | Pop r => '(v, m') ← pop_word m; Some (set_reg m' r v)
  | SubI r imm => Some (set_alu m r (wrap64 (m_regs m r - imm)))
  | AndI r imm => Some (set_alu m r (Z.land (m_regs m r) (wrap64 imm)))
  | Call f => f m
  | Jmp target => Some (set_rip m target)
  | Ret => '(v, m') ← pop_word m; Some (set_rip m' v)
  | Iretq => iretq m
  end.

(** A body runs to its transfer of control. *)
Fixpoint run (p : list instr) (m : machine) : option machine :=
  match p with
  | [] => Some m
  | i :: p => m' ← exec i m; if is_transfer i then Some m' else run p m'
  end.

(** *** Delivery of an interrupt through a gate, in 64-bit mode: the stack is the
    TSS one when the privilege changes, it is aligned, and all five words are pushed. *)
Definition IF_FLAG : Z := 9.

Definition push_words (m : machine) (vs : list Z) : option machine :=
  foldl (fun om v => m ← om; push_word m v) (Some m) vs.

Definition entry_stack (rsp0 : Z) (m : machine) : Z :=
  Z.land (if Z.land (m_cs m) 3 =? 0 then m_regs m RSP else rsp0) (not_u64 15).

Definition deliver (rsp0 kernel_cs handler : Z) (m : machine) : option machine :=
  m' ← push_words (set_reg m RSP (entry_stack rsp0 m)) [m_ss m; m_regs m RSP; m_rflags m; m_cs m; m_rip m];
  Some (mkMachine (m_regs m') handler (Z.clearbit (m_rflags m) IF_FLAG) kernel_cs
          (if Z.land (m_cs m) 3 =? 0 then m_ss m else 0) (m_mem m')).
End Machine.

(** ** The bodies *)

(** [syscall_entry] *)
Definition syscall_entry (syscall_entry_rust : machine -> option machine) : list instr :=
  [ Push R15; Push R14; Push R13; Push R12; Push R11; Push R10; Push R9; Push R8;
    Push RDI; Push RSI; Push RBP; Push RBX; Push RDX; Push RCX; Push RAX;
    MovRR RAX RSP; AndI RSP (-16); SubI RSP 16; MovMR RSP 0 RAX;
    MovRR RDI RAX; Lea RSI RAX 120; Call syscall_entry_rust;
    MovRM RAX RSP 0; MovRR RSP RAX;
    Pop RAX; Pop RCX; Pop RDX; Pop RBX; Pop RBP; Pop RSI; Pop RDI;
    Pop R8; Pop R9; Pop R10; Pop R11; Pop R12; Pop R13; Pop R14; Pop R15;
    Iretq ].

(** [timer_entry] *)
Definition timer_entry (timer_entry_rust : machine -> option machine) : list instr :=
  [ Push R15; Push R14; Push R13; Push R12; Push R11; Push R10; Push R9; Push R8;
    Push RDI; Push RSI; Push RBP; Push RBX; Push RDX; Push RCX; Push RAX;
    MovRR RAX RSP; AndI RSP (-16); SubI RSP 16; MovMR RSP 0 RAX;
    MovRR RDI RAX; Lea RSI RAX 120; Call timer_entry_rust;
    MovRM RAX RSP 0; MovRR RSP RAX;
    Pop RAX; Pop RCX; Pop RDX; Pop RBX; Pop RBP; Pop RSI; Pop RDI;
    Pop R8; Pop R9; Pop R10; Pop R11; Pop R12; Pop R13; Pop R14; Pop R15;
    Iretq ].

Definition switch : list instr :=
  [ MovMR RDI 0 RSP; MovMR RDI 8 RBP; MovMR RDI 16 RBX; MovMR RDI 24 R12;
    MovMR RDI 32 R13; MovMR RDI 40 R14; MovMR RDI 48 R15;
    MovRM RAX RSP 0; MovMR RDI 56 RAX;
    MovRM RSP RSI 0; MovRM RBP RSI 8; MovRM RBX RSI 16; MovRM R12 RSI 24;
    MovRM R13 RSI 32; MovRM R14 RSI 40; MovRM R15 RSI 48;
    PushM RSI 56; Ret ].

Definition task_trampoline (task_entry_dispatch : Z) : list instr :=
  [ MovRR RDI R12; Jmp task_entry_dispatch ].

Definition enter_user : list instr := [ MovRR RSP RDI; Iretq ].

Definition resume_user : list instr :=
  [ MovRR R11 RDI;
    MovRM RAX R11 168; Push RAX; MovRM RAX R11 152; Push RAX; MovRM RAX R11 136; Push RAX;
    MovRM RAX R11 128; Push RAX; MovRM RAX R11 120; Push RAX;
    MovRM RAX R11 0; MovRM RCX R11 8; MovRM RDX R11 16; MovRM RBX R11 24; MovRM RBP R11 32;
    MovRM RSI R11 40; MovRM RDI R11 48; MovRM R8 R11 56; MovRM R9 R11 64; MovRM R10 R11 72;
    MovRM R12 R11 88; MovRM R13 R11 96; MovRM R14 R11 104; MovRM R15 R11 112;
    MovRM R11 R11 80; Iretq ].

Definition return_to_kernel : list instr :=
  [ MovRR R11 RDI; MovRM R10 R11 144; SubI R10 24;
    MovRM RAX R11 120; MovMR R10 0 RAX; MovRM RAX R11 128; MovMR R10 8 RAX;
    MovRM RAX R11 136; MovMR R10 16 RAX; MovRR RSP R10;
    MovRM RAX R11 0; MovRM RCX R11 8; MovRM RDX R11 16; MovRM RBX R11 24; MovRM RBP R11 32;
    MovRM RSI R11 40; MovRM RDI R11 48; MovRM R8 R11 56; MovRM R9 R11 64; MovRM R10 R11 72;
    MovRM R12 R11 88; MovRM R13 R11 96; MovRM R14 R11 104; MovRM R15 R11 112;
    MovRM R11 R11 80; Iretq ].

Definition return_to_context : list instr :=
  [ MovRM RSP RDI 0; MovRM RBP RDI 8; MovRM RBX RDI 16; MovRM R12 RDI 24;
    MovRM R13 RDI 32; MovRM R14 RDI 40; MovRM R15 RDI 48; PushM RDI 56; Ret ].

(** ** Layout of the structures the bodies reach by offset *)

(** [SavedRegisters], [repr(C)], at the offsets asserted in [interrupt_entry.rs]. *)
Definition saved_words (r : SavedRegisters) : list Z :=
  [sr_rax r; sr_rcx r; sr_rdx r; sr_rbx r; sr_rbp r; sr_rsi r; sr_rdi r; sr_r8 r; sr_r9 r; sr_r10 r;
   sr_r11 r; sr_r12 r; sr_r13 r; sr_r14 r; sr_r15 r].

Definition context_words (c : Context) : list Z :=
  [c_rsp c; c_rbp c; c_rbx c; c_r12 c; c_r13 c; c_r14 c; c_r15 c; c_rip c].

Definition frame_words (f : UserReturnFrame) : list Z :=
  [uf_rip f; uf_cs f; uf_rflags f; uf_rsp f; uf_ss f].

(** [InterruptedState]: the two [Option<u64>] fields take two words each, in an
    encoding the compiler chooses. *)
Definition interrupted_words (option_words : option Z -> Z * Z) (s : InterruptedState) : list Z :=
  let r := is_return_state s in
  saved_words (is_registers s) ++
  [rs_rip r; rs_cs r; rs_rflags r; rs_resume_rsp r;
   (option_words (rs_rsp r)).1; (option_words (rs_rsp r)).2;
   (option_words (rs_ss r)).1; (option_words (rs_ss r)).2].

(** The registers as the entry stub saves them. *)
Definition saved_of (f : reg -> Z) : SavedRegisters :=
  mkRegs (f RAX) (f RCX) (f RDX) (f RBX) (f RBP) (f RSI) (f RDI) (f R8) (f R9) (f R10) (f R11)
    (f R12) (f R13) (f R14) (f R15).

Definition context_of (rip : Z) (f : reg -> Z) : Context :=
  mkCtx (f RSP) (f RBP) (f RBX) (f R12) (f R13) (f R14) (f R15) rip.

(** The words [ws] lie in memory from [a] on. *)
Definition holds (mem : Z -> Z) (a : Z) (ws : list Z) : Prop :=
  forall i w, ws !! i = Some w -> mem (a + 8 * Z.of_nat i) = w.

#[global] Arguments holds : simpl never.

(** A pointer to [n] words. *)
Definition points (a : Z) (n : Z) : Prop := a mod 8 = 0 /\ 0 <= a /\ a + 8 * n <= 2 ^ 64.

(** ** Running code *)
Lemma wrap64_small x : 0 <= x < 2 ^ 64 -> wrap64 x = x.
Proof. intros. by apply Z.mod_small. Qed.

Lemma upd_reg_same f r v : upd_reg f r v r = v.
Proof. unfold upd_reg. by rewrite bool_decide_true. Qed.

Lemma upd_reg_other f r v r' : r' <> r -> upd_reg f r v r' = f r'.
Proof. intros. unfold upd_reg. by rewrite bool_decide_false. Qed.

Lemma upd_mem_same f a v : upd_mem f a v a = v.
Proof. unfold upd_mem. by rewrite Z.eqb_refl. Qed.

Lemma upd_mem_other f a v a' : a' <> a -> upd_mem f a v a' = f a'.
Proof. intros. unfold upd_mem. by rewrite (proj2 (Z.eqb_neq _ _)). Qed.

(** Looks up registers in an updated register file. *)
Ltac reg_simpl :=
  repeat (progress cbn [set_reg set_mem set_rip set_rflags set_alu m_regs m_rip m_rflags m_cs m_ss m_mem mbind option_bind Z.eqb]
          || rewrite upd_reg_same || rewrite upd_reg_other by discriminate).

(** Looks up addresses in an updated memory. *)
Ltac mem_simpl := repeat (rewrite upd_mem_same || rewrite upd_mem_other by lia).

Section MachineLemmas.
Context (alu_flags : Z -> Z -> Z).

Lemma load_points m a n off :
  points a n -> 0 <= off < 8 * n -> off mod 8 = 0 -> load m (wrap64 (a + off)) = Some (m_mem m (a + off)).
Proof using Type.
  intros (Ha & Hlo & Hhi) Ho Hm. rewrite wrap64_small by lia. unfold load.
  rewrite Zplus_mod, Ha, Hm. done.
Qed.

Lemma store_points m a n off v :
  points a n -> 0 <= off < 8 * n -> off mod 8 = 0 ->
  store m (wrap64 (a + off)) v = Some (set_mem m (a + off) v).
Proof using Type.
  intros (Ha & Hlo & Hhi) Ho Hm. rewrite wrap64_small by lia. unfold store.
  rewrite Zplus_mod, Ha, Hm. done.
Qed.

Lemma run_app p q m :
  forallb (fun i => negb (is_transfer i)) p = true ->
  run alu_flags (p ++ q) m = m' ← run alu_flags p m; run alu_flags q m'.
Proof using Type.
  revert m. induction p as [|i p IH]; intros m Hp; [done|]. cbn in Hp |- *.
  apply andb_true_iff in Hp as [Hi Hp]. apply negb_true_iff in Hi. rewrite Hi.
  destruct (exec alu_flags i m); [|done]. cbn. by apply IH.
Qed.

Lemma points_sub a n k : points a n -> 0 <= k <= n -> points (a + 8 * k) (n - k).
Proof using Type.
  intros (Ha & ? & ?) ?. split_and!; [|lia..].
  rewrite (Z.mul_comm 8), Z.mod_add by lia. done.
Qed.

Lemma points_in j a n b k : points a n -> b = a + 8 * j -> 0 <= j -> j + k <= n -> points b k.
Proof using Type.
  intros (Ha & ? & ?) -> ? ?. split_and!; [|lia..]. rewrite (Z.mul_comm 8), Z.mod_add by lia. done.
Qed.

Lemma holds_app mem a ws ws' :
  holds mem a (ws ++ ws') <-> holds mem a ws /\ holds mem (a + 8 * Z.of_nat (length ws)) ws'.
Proof using Type.
  split.
  - intros Hh. split.
    + intros i w Hi. apply Hh. by rewrite lookup_app_l by (by eapply lookup_lt_Some).
    + intros i w Hi. replace (_ + _) with (a + 8 * Z.of_nat (length ws + i)) by lia.
      apply Hh. rewrite lookup_app_r by lia. by replace (_ + i - _)%nat with i by lia.
  - intros [H1 H2] i w [Hi|[Hl Hi]]%lookup_app_Some; [by apply H1|].
    replace (a + _) with (a + 8 * Z.of_nat (length ws) + 8 * Z.of_nat (i - length ws)) by lia. by apply H2.
Qed.

Lemma holds_ext mem mem' a ws :
  (forall b, a <= b < a + 8 * Z.of_nat (length ws) -> mem' b = mem b) -> holds mem a ws -> holds mem' a ws.
Proof using Type.
  intros Hext Hh i w Hi. rewrite Hext; [by apply Hh|]. apply lookup_lt_Some in Hi. lia.
Qed.

Lemma holds_single mem a w : holds mem a [w] <-> mem a = w.
Proof using Type.
  split; [intros H; specialize (H O w eq_refl); by rewrite Z.add_0_r in H|].
  intros H [|i] w' Hi; [|done]. injection Hi as <-. by rewrite Z.add_0_r.
Qed.

(** Everything but the general registers and memory. *)
Definition same_control (m m' : machine) : Prop :=
  m_rip m' = m_rip m /\ m_rflags m' = m_rflags m /\ m_cs m' = m_cs m /\ m_ss m' = m_ss m.

(** The machine after [vs] was pushed onto the stack at [sp]. *)
Record pushed (m m' : machine) (vs : list Z) : Prop := mk_pushed {
  pd_regs : forall r, r <> RSP -> m_regs m' r = m_regs m r;
  pd_rsp : m_regs m' RSP = m_regs m RSP - 8 * Z.of_nat (length vs);
  pd_control : same_control m m';
  pd_words : holds (m_mem m') (m_regs m' RSP) (reverse vs);
  pd_other : forall a, a < m_regs m' RSP \/ m_regs m RSP <= a -> m_mem m' a = m_mem m a;
}.

Lemma push_word_spec m v :
  points (m_regs m RSP - 8) 1 -> exists m', push_word m v = Some m' /\ pushed m m' [v].
Proof using Type.
  intros (Ha & Hlo & Hhi). unfold push_word. rewrite wrap64_small by lia. unfold store. rewrite Ha. cbn.
  eexists. split; [done|]. split; cbn.
  - intros r Hr. by apply upd_reg_other.
  - rewrite upd_reg_same. lia.
  - done.
  - apply holds_single. by rewrite upd_reg_same, upd_mem_same.
  - rewrite upd_reg_same. intros a Hr. apply upd_mem_other. lia.
Qed.

Lemma push_words_spec vs m :
  points (m_regs m RSP - 8 * Z.of_nat (length vs)) (Z.of_nat (length vs)) ->
  exists m', push_words m vs = Some m' /\ pushed m m' vs.
Proof using Type.
  revert m. unfold push_words. induction vs as [|v vs IH] using rev_ind; intros m Hp.
  - exists m. split; [done|]. split; cbn; try done. lia.
  - rewrite length_app in Hp. cbn in Hp. destruct (IH m) as (m1 & Heq & P1).
    { pose proof (points_sub _ _ 1 Hp ltac:(lia)) as Hp'.
      replace (m_regs m RSP - 8 * Z.of_nat (length vs))
        with (m_regs m RSP - 8 * Z.of_nat (length vs + 1) + 8 * 1) by lia.
      by replace (Z.of_nat (length vs)) with (Z.of_nat (length vs + 1) - 1) by lia. }
    rewrite foldl_app, Heq. cbn. pose proof P1 as [Hr Hs Hc Hw Ho].
    destruct (push_word_spec m1 v) as (m2 & -> & P2).
    { rewrite Hs. destruct Hp as (? & ? & ?).
      replace (_ - 8) with (m_regs m RSP - 8 * Z.of_nat (length vs + 1)) by lia. split_and!; [done|lia..]. }
    destruct P2 as [Hr2 Hs2 Hc2 Hw2 Ho2]. cbn in Hs2. exists m2. split; [done|]. split.
    + intros r Hne. by rewrite Hr2, Hr.
    + rewrite Hs2, Hs, length_app. cbn. lia.
    + destruct Hc as (? & ? & ? & ?), Hc2 as (? & ? & ? & ?). split_and!; congruence.
    + rewrite reverse_app. apply holds_app. split; [done|].
      replace (m_regs m2 RSP + _) with (m_regs m1 RSP) by (cbn; lia).
      apply (holds_ext (m_mem m1)); [|done]. intros b Hb. apply Ho2. lia.
    + intros a Ha. rewrite Ho2 by lia. apply Ho. lia.
Qed.

Lemma run_pushes rs m :
  RSP ∉ rs ->
  points (m_regs m RSP - 8 * Z.of_nat (length rs)) (Z.of_nat (length rs)) ->
  exists m', run alu_flags (Push <$> rs) m = Some m' /\ pushed m m' (m_regs m <$> rs).
Proof using Type.
  intros Hn Hp.
  destruct (push_words_spec (m_regs m <$> rs) m) as (m' & Heq & HP); [by rewrite length_fmap|].
  exists m'. split; [|done]. rewrite <- Heq. clear Heq HP. unfold push_words.
  assert (Hgen : forall f m, (forall r, r <> RSP -> m_regs m r = f r) ->
            run alu_flags (Push <$> rs) m = foldl (fun om v => m ← om; push_word m v) (Some m) (f <$> rs)).
  { clear Hp m m'. intros f. induction rs as [|r rs IH]; intros m Hf; [reflexivity|].
    apply not_elem_of_cons in Hn as [Hr Hn]. cbn. rewrite Hf by done.
    destruct (push_word m (f r)) as [m1|] eqn:Hpw.
    - cbn. apply IH; [done|]. intros r' Hr'. rewrite <- Hf by done.
      unfold push_word, store in Hpw. case_match; [|done]. injection Hpw as <-. cbn. by rewrite upd_reg_other.
    - cbn. clear. induction rs as [|r' rs IH]; [done|exact IH]. }
  by apply Hgen.
Qed.

(** The machine after registers [rs] were popped. *)
Record popped (m m' : machine) (rs : list reg) : Prop := mk_popped {
  pp_regs : forall i r, rs !! i = Some r -> m_regs m' r = m_mem m (m_regs m RSP + 8 * Z.of_nat i);
  pp_other : forall r, r ∉ rs -> r <> RSP -> m_regs m' r = m_regs m r;
  pp_rsp : m_regs m' RSP = m_regs m RSP + 8 * Z.of_nat (length rs);
  pp_control : same_control m m';
  pp_mem : m_mem m' = m_mem m;
}.

Lemma run_pops rs m :
  NoDup rs -> RSP ∉ rs -> points (m_regs m RSP) (Z.of_nat (length rs) + 1) ->
  exists m', run alu_flags (Pop <$> rs) m = Some m' /\ popped m m' rs.
Proof using Type.
  revert m. induction rs as [|r rs IH]; intros m Hd Hn Hp.
  - exists m. split; [done|]. split; try done. cbn. lia.
  - apply NoDup_cons in Hd as [Hr Hd]. apply not_elem_of_cons in Hn as [Hrsp Hn].
    pose proof Hp as (Ha & Hlo & Hhi). cbn [length] in *.
    cbn [fmap list_fmap run exec is_transfer]. unfold pop_word, load. rewrite Ha. cbn [mbind option_bind Z.eqb].
    rewrite wrap64_small by lia. set (m1 := set_reg _ _ _).
    assert (H1 : m_regs m1 RSP = m_regs m RSP + 8) by (cbn; by rewrite upd_reg_other, upd_reg_same).
    destruct (IH m1 Hd Hn) as (m2 & -> & [H2 Ho H3 H4 H5]).
    { rewrite H1. pose proof (points_sub _ _ 1 Hp ltac:(lia)) as Hp'.
      by replace (Z.of_nat (length rs) + 1) with (Z.of_nat (S (length rs)) + 1 - 1) by lia. }
    exists m2. split; [done|]. split.
    + intros [|i] r' Hi; cbn in Hi.
      * injection Hi as <-. rewrite Z.add_0_r.
        rewrite Ho by done. cbn. by rewrite upd_reg_same.
      * rewrite (H2 i r' Hi), H1. cbn [m1 set_reg m_mem]. f_equal. lia.
    + intros r' [Hne Hr']%not_elem_of_cons Hsp. rewrite Ho by done. cbn. by rewrite !upd_reg_other.
    + rewrite H3, H1. cbn [length]. lia.
    + destruct H4 as (? & ? & ? & ?). done.
    + by rewrite H5.
Qed.
End MachineLemmas.
