(* ===== verification/AsmProps.v ===== *)
(** * What the naked assembly does

    The entry stubs around their Rust handlers, the two ways back to an interrupted
    task, the entry to userspace and the context switch, on the machine of [Asm]. *)

From stdpp Require Import base numbers list options.
From S2P Require Import Prelude Abi Tasks Memory UserCopy Syscall Process Execution UserExecution KernelTask.
From S2P Require Import SystemRuntime InterruptEntry Asm.

Local Open Scope Z_scope.

(** ** Entry stubs *)

(** The register file a [SavedRegisters] stands for, with a stack pointer. *)
Definition restored (s : SavedRegisters) (rsp : Z) (r : reg) : Z :=
  match r with
  | RAX => sr_rax s | RCX => sr_rcx s | RDX => sr_rdx s | RBX => sr_rbx s | RSP => rsp | RBP => sr_rbp s
  | RSI => sr_rsi s | RDI => sr_rdi s | R8 => sr_r8 s | R9 => sr_r9 s | R10 => sr_r10 s | R11 => sr_r11 s
  | R12 => sr_r12 s | R13 => sr_r13 s | R14 => sr_r14 s | R15 => sr_r15 s
  end.

(** What the handler behind a stub finds, when the stub was entered in [m] with the
    CPU's frame on top of the stack: the saved registers below the frame, pointers to
    both, and a stack aligned for a call. *)
Record called_with (m m0 : machine) : Prop := mk_called {
  cw_rdi : m_regs m0 RDI = m_regs m RSP - 120;
  cw_rsi : m_regs m0 RSI = m_regs m RSP;
  cw_align : m_regs m0 RSP mod 16 = 0;
  cw_rsp : m_regs m RSP - 152 < m_regs m0 RSP <= m_regs m RSP - 136;
  cw_saved : holds (m_mem m0) (m_regs m RSP - 120) (saved_words (saved_of (m_regs m)));
  cw_above : forall a, m_regs m RSP <= a -> m_mem m0 a = m_mem m a;
}.

(** What the calling convention promises about a handler that returns: the stack
    pointer is back, the words of its caller above it are kept, and the registers it
    was handed a pointer to are now [s]. *)
Record returned_with (m0 m1 : machine) (s : SavedRegisters) : Prop := mk_returned {
  rw_rsp : m_regs m1 RSP = m_regs m0 RSP;
  rw_slot : m_mem m1 (m_regs m0 RSP) = m_mem m0 (m_regs m0 RSP);
  rw_saved : holds (m_mem m1) (m_regs m0 RDI) (saved_words s);
  rw_frame : forall a, m_regs m0 RSI <= a < m_regs m0 RSI + 40 -> m_mem m1 a = m_mem m0 a;
}.

Definition save_order : list reg := [R15; R14; R13; R12; R11; R10; R9; R8; RDI; RSI; RBP; RBX; RDX; RCX; RAX].
Definition restore_order : list reg := [RAX; RCX; RDX; RBX; RBP; RSI; RDI; R8; R9; R10; R11; R12; R13; R14; R15].

(** The whole CPU state, registers pointwise. *)
Record cpu_is (m : machine) (f : reg -> Z) (rip rflags cs ss : Z) : Prop := mk_cpu_is {
  ci_regs : forall r, m_regs m r = f r;
  ci_rip : m_rip m = rip;
  ci_rflags : m_rflags m = rflags;
  ci_cs : m_cs m = cs;
  ci_ss : m_ss m = ss;
}.

(** The two machines agree but for memory. *)
Definition same_cpu (m m' : machine) : Prop := cpu_is m' (m_regs m) (m_rip m) (m_rflags m) (m_cs m) (m_ss m).

Section Stub.
Context (alu_flags : Z -> Z -> Z).

Lemma iretq_spec m rip cs rflags rsp ss :
  points (m_regs m RSP) 5 -> holds (m_mem m) (m_regs m RSP) [rip; cs; rflags; rsp; ss] ->
  exists mf, iretq m = Some mf /\ m_mem mf = m_mem m /\
    cpu_is mf (upd_reg (m_regs m) RSP rsp) rip rflags (selector cs) (selector ss).
Proof using Type.
  intros Hp Hh. pose proof Hp as (Ha & Hlo & Hhi).
  assert (Hw : forall (i : nat) w, [rip; cs; rflags; rsp; ss] !! i = Some w ->
            forall f, f RSP = m_regs m RSP + 8 * Z.of_nat i ->
            pop_word (mkMachine f (m_rip m) (m_rflags m) (m_cs m) (m_ss m) (m_mem m)) =
              Some (w, mkMachine (upd_reg f RSP (wrap64 (f RSP + 8))) (m_rip m) (m_rflags m) (m_cs m) (m_ss m) (m_mem m))).
  { intros i w Hi f Hf. unfold pop_word, load. cbn [m_regs m_mem]. rewrite Hf, (Hh i w Hi), Z.mul_comm, Z.mod_add, Ha by lia.
    cbn. unfold set_reg. cbn. by rewrite Z.mul_comm. }
  assert (Hn : forall (i : nat) f, (i < 4)%nat -> f RSP = m_regs m RSP + 8 * Z.of_nat i ->
            upd_reg f RSP (wrap64 (f RSP + 8)) RSP = m_regs m RSP + 8 * Z.of_nat (S i)).
  { intros i f Hi Hf. rewrite upd_reg_same, Hf, wrap64_small; lia. }
  unfold iretq. destruct m as [f mrip mfl mcs mss mem]. cbn [m_regs m_rip m_rflags m_cs m_ss m_mem] in *.
  assert (F0 : f RSP = f RSP + 8 * Z.of_nat 0) by lia.
  rewrite (Hw 0%nat rip eq_refl f F0). pose proof (Hn 0%nat f ltac:(lia) F0) as F1. cbn [mbind option_bind].
  rewrite (Hw 1%nat cs eq_refl _ F1). pose proof (Hn 1%nat _ ltac:(lia) F1) as F2. cbn [mbind option_bind].
  rewrite (Hw 2%nat rflags eq_refl _ F2). pose proof (Hn 2%nat _ ltac:(lia) F2) as F3. cbn [mbind option_bind].
  rewrite (Hw 3%nat rsp eq_refl _ F3). pose proof (Hn 3%nat _ ltac:(lia) F3) as F4. cbn [mbind option_bind].
  rewrite (Hw 4%nat ss eq_refl _ F4). cbn [mbind option_bind].
  eexists. split; [done|]. split; [done|]. split; try done.
  intros r. cbn [m_regs]. unfold upd_reg. by case_bool_decide.
Qed.

Definition stub_prologue : list instr :=
  [MovRR RAX RSP; AndI RSP (-16); SubI RSP 16; MovMR RSP 0 RAX; MovRR RDI RAX; Lea RSI RAX 120].

Lemma entry_stub_split hook :
  syscall_entry hook =
    (Push <$> save_order) ++ stub_prologue ++ [Call hook; MovRM RAX RSP 0; MovRR RSP RAX] ++
    (Pop <$> restore_order) ++ [Iretq] /\
  timer_entry hook = syscall_entry hook.
Proof using Type. done. Qed.

Lemma align_down x : 0 <= x < 2 ^ 64 -> Z.land x (wrap64 (-16)) = x - x mod 16.
Proof using Type. intros Hx. change (wrap64 (-16)) with (not_u64 (Z.ones 4)). apply (land_mask x 4); ulia. Qed.

(** The prologue saves the stack pointer below an aligned one. *)
Lemma stub_prologue_spec m sp :
  m_regs m RSP = sp -> points (sp - 32) 24 ->
  exists m0, run alu_flags stub_prologue m = Some m0 /\
    m_regs m0 RDI = sp /\ m_regs m0 RSI = sp + 120 /\
    m_regs m0 RSP = sp - sp mod 16 - 16 /\ m_mem m0 (sp - sp mod 16 - 16) = sp /\
    (forall a, sp <= a -> m_mem m0 a = m_mem m a).
Proof using Type.
  intros Hsp (Ha & Hlo & Hhi). pose proof (Z.mod_pos_bound sp 16 ltac:(lia)) as Hm.
  assert (Hal : (sp - sp mod 16 - 16) mod 8 = 0).
  { pose proof (Z.div_mod sp 16 ltac:(lia)) as Hd.
    replace (_ - 16) with ((2 * (sp / 16) - 2) * 8) by lia. by apply Z.mod_mul. }
  unfold stub_prologue. cbn [run exec is_transfer]. reg_simpl. rewrite Hsp, align_down by lia.
  rewrite wrap64_small by lia. unfold store, addr. reg_simpl. rewrite Z.add_0_r, wrap64_small, Hal by lia.
  reg_simpl. eexists. split; [done|]. reg_simpl. rewrite wrap64_small by lia.
  split_and!; try done.
  - apply upd_mem_same.
  - intros a Hge. apply upd_mem_other. lia.
Qed.

Lemma prologue_called m m1 m0 :
  pushed m m1 (m_regs m <$> save_order) -> points (m_regs m RSP - 152) 24 ->
  run alu_flags stub_prologue m1 = Some m0 -> called_with m m0 /\ m_mem m0 (m_regs m0 RSP) = m_regs m RSP - 120.
Proof using Type.
  intros [Hr Hs Hc Hw Ho] Hp Hrun. cbn in Hs.
  destruct (stub_prologue_spec m1 (m_regs m RSP - 120)) as (m0' & Hrun' & Hdi & Hsi & Hsp & Hsl & Hab);
    [done|by replace (_ - 32) with (m_regs m RSP - 152) by lia|].
  rewrite Hrun in Hrun'. injection Hrun' as <-.
  pose proof (Z.mod_pos_bound (m_regs m RSP - 120) 16 ltac:(lia)) as Hm.
  assert (H8 : (m_regs m RSP - 120) mod 16 <= 8).
  { destruct Hp as (Hal & _). pose proof (Z.div_mod (m_regs m RSP - 120) 16 ltac:(lia)).
    pose proof (Z.div_mod (m_regs m RSP - 152) 8 ltac:(lia)). lia. }
  split; [|by rewrite Hsp]. split; [done|lia| |lia| |].
  - rewrite Hsp. pose proof (Z.div_mod (m_regs m RSP - 120) 16 ltac:(lia)) as Hd.
    replace (_ - 16) with (((m_regs m RSP - 120) / 16 - 1) * 16) by lia. by apply Z.mod_mul.
  - apply (holds_ext (m_mem m1)).
    + intros b [Hb _]. by apply Hab.
    + rewrite Hs in Hw. exact Hw.
  - intros a Ha. rewrite Hab by lia. apply Ho. lia.
Qed.

(** A stub around a handler that returns: the registers are what the handler left,
    everything else comes from the frame. *)
Lemma entry_stub_spec hook m s rip cs rflags rsp ss :
  points (m_regs m RSP - 152) 24 -> holds (m_mem m) (m_regs m RSP) [rip; cs; rflags; rsp; ss] ->
  (forall m0, called_with m m0 -> exists m1, hook m0 = Some m1 /\ returned_with m0 m1 s) ->
  exists mf, run alu_flags (syscall_entry hook) m = Some mf /\
    cpu_is mf (restored s rsp) rip rflags (selector cs) (selector ss).
Proof using Type.
  intros Hp Hframe Hhook. destruct (entry_stub_split hook) as [-> _].
  pose proof Hp as (Hal & Hlo & Hhi).
  destruct (run_pushes alu_flags save_order m) as (m1 & Hpush & P1);
    [by apply (bool_decide_unpack _)|apply (points_in 4 _ _ _ _ Hp); cbn; lia|].
  rewrite run_app, Hpush by done. cbn [mbind option_bind].
  destruct (stub_prologue_spec m1 (m_regs m RSP - 120)) as (m0 & Hrun & _).
  { by rewrite (pd_rsp _ _ _ P1). }
  { by replace (_ - 32) with (m_regs m RSP - 152) by lia. }
  destruct (prologue_called m m1 m0 P1 Hp Hrun) as [Hcall Hslot].
  rewrite run_app, Hrun by done. cbn [mbind option_bind].
  destruct (Hhook m0 Hcall) as (m2 & Hm2 & [Hr2 Hs2 Hsv Hfr]). destruct Hcall as [Hdi Hsi Hal0 Hsp0 _ Hab].
  rewrite run_app by done. cbn [run exec is_transfer]. rewrite Hm2. cbn [mbind option_bind].
  unfold load, addr. rewrite Z.add_0_r, Hr2, wrap64_small by lia.
  assert (m_regs m0 RSP mod 8 = 0) as ->.
  { pose proof (Z.div_mod (m_regs m0 RSP) 16 ltac:(lia)) as Hd.
    replace (m_regs m0 RSP) with (2 * (m_regs m0 RSP / 16) * 8) by lia. by apply Z.mod_mul. }
  rewrite Hs2, Hslot. reg_simpl. set (m3 := set_reg _ RSP _).
  assert (H3 : m_regs m3 RSP = m_regs m RSP - 120) by done.
  destruct (run_pops alu_flags restore_order m3) as (m4 & Hpop & [Hr4 _ Hs4 _ Hm4]);
    [by apply (bool_decide_unpack _)..|rewrite H3; apply (points_in 4 _ _ _ _ Hp); cbn; lia|].
  rewrite run_app, Hpop by done. cbn [mbind option_bind run exec is_transfer].
  rewrite H3 in Hs4, Hr4. cbn in Hs4. change (m_mem m3) with (m_mem m2) in *.
  destruct (iretq_spec m4 rip cs rflags rsp ss) as (mf & -> & Hmem & Hcpu).
  { apply (points_in 19 _ _ _ _ Hp); lia. }
  { rewrite Hm4. replace (m_regs m4 RSP) with (m_regs m RSP) by lia. rewrite Hsi in Hfr.
    apply (holds_ext (m_mem m)); [|done]. cbn. intros b Hb. rewrite Hfr by lia. apply Hab. lia. }
  exists mf. split; [done|]. destruct Hcpu as [Hcr ? ? ? ?]. split; try done. intros r. rewrite Hcr.
  rewrite Hdi in Hsv.
  assert (Hreg : forall i r v, restore_order !! i = Some r -> saved_words s !! i = Some v -> m_regs m4 r = v).
  { intros i r' v Hi Hv. rewrite (Hr4 i r' Hi). by apply Hsv. }
  destruct r; reg_simpl; cbn [restored];
    [apply (Hreg 0%nat)|apply (Hreg 1%nat)|apply (Hreg 2%nat)|apply (Hreg 3%nat)| |apply (Hreg 4%nat)
    |apply (Hreg 5%nat)|apply (Hreg 6%nat)|apply (Hreg 7%nat)|apply (Hreg 8%nat)|apply (Hreg 9%nat)
    |apply (Hreg 10%nat)|apply (Hreg 11%nat)|apply (Hreg 12%nat)|apply (Hreg 13%nat)|apply (Hreg 14%nat)]; done.
Qed.

(** The machine [m'] at the first instruction of a handler, interrupted in [m]. *)
Record delivered (rsp0 : Z) (m m' : machine) : Prop := mk_delivered {
  dl_rsp : m_regs m' RSP = entry_stack rsp0 m - 40;
  dl_regs : forall r, r <> RSP -> m_regs m' r = m_regs m r;
  dl_frame : holds (m_mem m') (m_regs m' RSP) [m_rip m; m_cs m; m_rflags m; m_regs m RSP; m_ss m];
  dl_other : forall a, a < m_regs m' RSP \/ entry_stack rsp0 m <= a -> m_mem m' a = m_mem m a;
}.

Lemma deliver_spec rsp0 kernel_cs handler m :
  points (entry_stack rsp0 m - 40) 5 ->
  exists m', deliver rsp0 kernel_cs handler m = Some m' /\ delivered rsp0 m m' /\ m_rip m' = handler.
Proof using Type.
  intros Hp. unfold deliver.
  destruct (push_words_spec [m_ss m; m_regs m RSP; m_rflags m; m_cs m; m_rip m]
              (set_reg m RSP (entry_stack rsp0 m))) as (m' & -> & [Hr Hs Hc Hw Ho]); [by reg_simpl|].
  cbn [mbind option_bind]. eexists. split; [done|]. split; [|done].
  cbn [length] in Hs. split; reg_simpl.
  - rewrite Hs. by reg_simpl.
  - intros r Hne. rewrite Hr by done. reg_simpl. by apply upd_reg_other.
  - exact Hw.
  - intros a Ha. rewrite Ho; [done|]. reg_simpl. exact Ha.
Qed.

Lemma delivered_words rsp0 m m' : delivered rsp0 m m' -> saved_of (m_regs m') = saved_of (m_regs m).
Proof using Type. intros [_ Hr _ _]. unfold saved_of. by rewrite !Hr. Qed.

(** Delivery and stub together. *)
Lemma interrupt_returns rsp0 kernel_cs handler hook m m' s :
  points (entry_stack rsp0 m - 192) 24 -> deliver rsp0 kernel_cs handler m = Some m' ->
  (forall m0, called_with m' m0 -> exists m1, hook m0 = Some m1 /\ returned_with m0 m1 s) ->
  exists mf, run alu_flags (syscall_entry hook) m' = Some mf /\
    cpu_is mf (restored s (m_regs m RSP)) (m_rip m) (m_rflags m) (selector (m_cs m)) (selector (m_ss m)).
Proof using Type.
  intros Hp Hd Hh.
  destruct (deliver_spec rsp0 kernel_cs handler m) as (m'' & Hd' & [Hsp _ Hf _] & _).
  { apply (points_in 19 _ _ _ _ Hp); lia. }
  rewrite Hd in Hd'. injection Hd' as <-.
  apply entry_stub_spec; [rewrite Hsp; apply (points_in 0 _ _ _ _ Hp); lia|done|done].
Qed.
End Stub.

Definition is_selector (x : Z) : Prop := 0 <= x < 2 ^ 16.

Lemma selector_id x : is_selector x -> selector x = x.
Proof. intros. by apply Z.mod_small. Qed.

(** The frame the handler finds, as [InterruptReturnFrame::from_raw] reads it. *)
Definition frame_at (mem : Z -> Z) (raw : Z) : InterruptReturnFrame :=
  mkReturnFrame raw (fun i => mem (raw + 8 * Z.of_nat i)).

(** What the handler finds after an interrupt taken in [m]: pointers to the
    registers of [m] and to the frame with the rest of its state, on an aligned stack. *)
Record handler_view (rsp0 : Z) (m m0 : machine) : Prop := mk_view {
  hv_rdi : m_regs m0 RDI = entry_stack rsp0 m - 160;
  hv_rsi : m_regs m0 RSI = entry_stack rsp0 m - 40;
  hv_align : m_regs m0 RSP mod 16 = 0;
  hv_rsp : entry_stack rsp0 m - 192 < m_regs m0 RSP <= entry_stack rsp0 m - 176;
  hv_saved : holds (m_mem m0) (m_regs m0 RDI) (saved_words (saved_of (m_regs m)));
  hv_frame : holds (m_mem m0) (m_regs m0 RSI) [m_rip m; m_cs m; m_rflags m; m_regs m RSP; m_ss m];
}.

Lemma called_view rsp0 m m' m0 : delivered rsp0 m m' -> called_with m' m0 -> handler_view rsp0 m m0.
Proof.
  intros Hd [Hdi Hsi Hal Hsp Hsv Hab]. pose proof (delivered_words _ _ _ Hd) as Hw.
  destruct Hd as [Hrsp Hr Hf Ho]. rewrite Hrsp in *. split; try lia.
  - rewrite Hdi, <- Hw. by replace (_ - 40 - 120) with (entry_stack rsp0 m - 160) in * by lia.
  - rewrite Hsi. apply (holds_ext (m_mem m')); [|done]. intros b Hb. apply Hab. lia.
Qed.

(** A handler that reads the registers and the frame through its pointers and writes
    the registers back. *)
Fixpoint store_words (mem : Z -> Z) (a : Z) (ws : list Z) : Z -> Z :=
  match ws with [] => mem | w :: ws => upd_mem (store_words mem (a + 8) ws) a w end.

Definition saved_at (mem : Z -> Z) (a : Z) : SavedRegisters :=
  mkRegs (mem a) (mem (a + 8)) (mem (a + 16)) (mem (a + 24)) (mem (a + 32)) (mem (a + 40)) (mem (a + 48))
    (mem (a + 56)) (mem (a + 64)) (mem (a + 72)) (mem (a + 80)) (mem (a + 88)) (mem (a + 96)) (mem (a + 104))
    (mem (a + 112)).

Definition pointer_handler (handler : SavedRegisters -> InterruptReturnFrame -> option SavedRegisters)
    (m0 : machine) : option machine :=
  s ← handler (saved_at (m_mem m0) (m_regs m0 RDI)) (frame_at (m_mem m0) (m_regs m0 RSI));
  Some (mkMachine (m_regs m0) (m_rip m0) (m_rflags m0) (m_cs m0) (m_ss m0)
          (store_words (m_mem m0) (m_regs m0 RDI) (saved_words s))).

Lemma store_words_other mem a ws b :
  b < a \/ a + 8 * Z.of_nat (length ws) <= b -> store_words mem a ws b = mem b.
Proof.
  revert a. induction ws as [|w ws IH]; intros a Hb; [done|]. cbn [store_words length] in *.
  rewrite upd_mem_other by lia. apply IH. lia.
Qed.

Lemma store_words_holds mem a ws : holds (store_words mem a ws) a ws.
Proof.
  revert a. induction ws as [|w ws IH]; intros a [|i] v Hi; cbn in Hi; [done|done| |].
  - injection Hi as <-. rewrite Z.add_0_r. apply upd_mem_same.
  - cbn [store_words]. rewrite upd_mem_other by lia.
    replace (a + 8 * Z.of_nat (S i)) with (a + 8 + 8 * Z.of_nat i) by lia. by apply IH.
Qed.

Lemma saved_at_holds mem a s : holds mem a (saved_words s) -> saved_at mem a = s.
Proof.
  intros Hh. assert (Hi : forall i w, saved_words s !! i = Some w -> mem (a + 8 * Z.of_nat i) = w) by exact Hh.
  destruct s. unfold saved_at. f_equal;
    [rewrite <- (Z.add_0_r a); exact (Hi 0%nat _ eq_refl)|exact (Hi 1%nat _ eq_refl)|exact (Hi 2%nat _ eq_refl)
    |exact (Hi 3%nat _ eq_refl)|exact (Hi 4%nat _ eq_refl)|exact (Hi 5%nat _ eq_refl)|exact (Hi 6%nat _ eq_refl)
    |exact (Hi 7%nat _ eq_refl)|exact (Hi 8%nat _ eq_refl)|exact (Hi 9%nat _ eq_refl)|exact (Hi 10%nat _ eq_refl)
    |exact (Hi 11%nat _ eq_refl)|exact (Hi 12%nat _ eq_refl)|exact (Hi 13%nat _ eq_refl)|exact (Hi 14%nat _ eq_refl)].
Qed.

Lemma pointer_handler_returns rsp0 m m0 handler s :
  handler_view rsp0 m m0 ->
  handler (saved_of (m_regs m)) (frame_at (m_mem m0) (m_regs m0 RSI)) = Some s ->
  exists m1, pointer_handler handler m0 = Some m1 /\ returned_with m0 m1 s.
Proof.
  intros [Hdi Hsi Hal Hsp Hsv Hfr] Hh. unfold pointer_handler. rewrite (saved_at_holds _ _ _ Hsv), Hh.
  cbn [mbind option_bind]. eexists. split; [done|]. split; cbn [m_regs m_mem]; [done| |apply store_words_holds|].
  - apply store_words_other. lia.
  - intros a Ha. apply store_words_other. cbn. lia.
Qed.

(** C10: an interrupt is transparent up to what its handler does to the saved
    registers.  For an interrupt taken in any CPU state, at either privilege, with
    room on the entry stack, the stub calls the handler with the stack aligned, a
    pointer to all fifteen registers and one to the CPU's frame; and when the handler
    returns having left the registers [s] there, the CPU is back at the interrupted
    instruction, with the registers [s] and the interrupted stack pointer, flags and
    segments.  Both stubs do so. *)
Theorem interrupt_transparent alu_flags rsp0 kernel_cs handler hook m s :
  points (entry_stack rsp0 m - 192) 24 -> is_selector (m_cs m) -> is_selector (m_ss m) ->
  (forall m0, handler_view rsp0 m m0 -> exists m1, hook m0 = Some m1 /\ returned_with m0 m1 s) ->
  exists m', deliver rsp0 kernel_cs handler m = Some m' /\ m_rip m' = handler /\
    forall stub, stub = syscall_entry hook \/ stub = timer_entry hook ->
    exists mf, run alu_flags stub m' = Some mf /\
      cpu_is mf (restored s (m_regs m RSP)) (m_rip m) (m_rflags m) (m_cs m) (m_ss m).
Proof.
  intros Hp Hcs Hss Hh.
  destruct (deliver_spec rsp0 kernel_cs handler m) as (m' & Hd & Hdl & Hrip);
    [apply (points_in 19 _ _ _ _ Hp); lia|].
  exists m'. split; [done|]. split; [done|]. intros stub Hstub.
  assert (stub = syscall_entry hook) as -> by (by destruct Hstub).
  rewrite <- (selector_id _ Hcs), <- (selector_id _ Hss).
  apply (interrupt_returns alu_flags rsp0 kernel_cs handler); [done|done|].
  intros m0 Hc. apply Hh. by apply (called_view rsp0 m m').
Qed.

(** ** Ways back to an interrupted task *)
Section Restore.
Context (alu_flags : Z -> Z -> Z).

(** The block both return paths end with. *)
Definition restore_block : list instr :=
  [MovRM RAX R11 0; MovRM RCX R11 8; MovRM RDX R11 16; MovRM RBX R11 24; MovRM RBP R11 32;
   MovRM RSI R11 40; MovRM RDI R11 48; MovRM R8 R11 56; MovRM R9 R11 64; MovRM R10 R11 72;
   MovRM R12 R11 88; MovRM R13 R11 96; MovRM R14 R11 104; MovRM R15 R11 112; MovRM R11 R11 80].

(** A run of loads through one base register, one destination each. *)
Definition loads (base : reg) (ds : list (reg * Z)) : list instr := (fun '(d, off) => MovRM d base off) <$> ds.

Lemma run_loads base ds m p n :
  m_regs m base = p -> points p n -> Forall (fun '(d, off) => 0 <= off < 8 * n /\ off mod 8 = 0) ds ->
  base ∉ ds.*1 -> NoDup ds.*1 ->
  exists m', run alu_flags (loads base ds) m = Some m' /\ m_mem m' = m_mem m /\ same_control m m' /\
    (forall d off, (d, off) ∈ ds -> m_regs m' d = m_mem m (p + off)) /\
    (forall r, r ∉ ds.*1 -> m_regs m' r = m_regs m r).
Proof using Type.
  revert m. induction ds as [|[d off] ds IH]; intros m Hb Hp Ho Hn Hd.
  { exists m. split_and!; try done. intros d off Hin. by apply not_elem_of_nil in Hin. }
  cbn in Hn, Hd. apply not_elem_of_cons in Hn as [Hbd Hn]. apply NoDup_cons in Hd as [Hdn Hd].
  apply Forall_cons in Ho as [[Hr1 Hr2] Ho].
  cbn [loads fmap list_fmap run exec is_transfer]. unfold addr. rewrite Hb, (load_points _ p n) by done.
  cbn [mbind option_bind].
  destruct (IH (set_reg m d (m_mem m (p + off)))) as (m' & Hrun & Hm & Hc & Hin & Hout);
    [by reg_simpl; rewrite upd_reg_other|done..|].
  exists m'. split; [done|]. split; [done|]. split; [done|]. split.
  - intros d' off' [[= -> ->]|Hin']%elem_of_cons; [|by apply Hin].
    rewrite Hout by done. by reg_simpl.
  - intros r [Hrd Hr]%not_elem_of_cons. rewrite Hout by done. reg_simpl. by apply upd_reg_other.
Qed.

Definition restore_loads : list (reg * Z) :=
  [(RAX, 0); (RCX, 8); (RDX, 16); (RBX, 24); (RBP, 32); (RSI, 40); (RDI, 48); (R8, 56); (R9, 64); (R10, 72);
   (R12, 88); (R13, 96); (R14, 104); (R15, 112)].

Lemma restore_block_spec m p s :
  m_regs m R11 = p -> points p 15 -> holds (m_mem m) p (saved_words s) ->
  exists m', run alu_flags restore_block m = Some m' /\ m_mem m' = m_mem m /\ same_control m m' /\
    forall r, m_regs m' r = restored s (m_regs m RSP) r.
Proof using Type.
  intros Hr Hp Hh. change restore_block with (loads R11 restore_loads ++ [MovRM R11 R11 80]).
  destruct (run_loads R11 restore_loads m p 15) as (m1 & Hrun & Hm & Hc & Hin & Hout);
    [done|done|repeat (constructor; [done|]); constructor|by apply (bool_decide_unpack _)..|].
  rewrite run_app, Hrun by done. cbn [mbind option_bind run exec is_transfer].
  assert (H11 : m_regs m1 R11 = p) by (rewrite Hout; [done|by apply (bool_decide_unpack _)]).
  unfold addr. rewrite H11, (load_points _ p 15) by done. reg_simpl.
  eexists. split; [done|]. split; [done|]. split; [done|]. intros r. reg_simpl.
  rewrite <- (saved_at_holds _ _ _ Hh).
  destruct r; reg_simpl; try (rewrite Hout by (by apply (bool_decide_unpack _))); cbn [restored saved_at
    sr_rax sr_rcx sr_rdx sr_rbx sr_rbp sr_rsi sr_rdi sr_r8 sr_r9 sr_r10 sr_r11 sr_r12 sr_r13 sr_r14 sr_r15];
    rewrite ?Hm; try done;
    (erewrite Hin by (unfold restore_loads; repeat constructor)); by rewrite ?Z.add_0_r.
Qed.

Definition kernel_frame_block : list instr :=
  [MovRR R11 RDI; MovRM R10 R11 144; SubI R10 24;
   MovRM RAX R11 120; MovMR R10 0 RAX; MovRM RAX R11 128; MovMR R10 8 RAX;
   MovRM RAX R11 136; MovMR R10 16 RAX; MovRR RSP R10].

Lemma copy_word_spec m p sp n k off d :
  m_regs m R11 = p -> m_regs m R10 = sp -> points p n -> 0 <= off < 8 * n -> off mod 8 = 0 ->
  points sp k -> 0 <= d < 8 * k -> d mod 8 = 0 ->
  exists m', run alu_flags [MovRM RAX R11 off; MovMR R10 d RAX] m = Some m' /\
    m_regs m' R11 = p /\ m_regs m' R10 = sp /\ m_mem m' = upd_mem (m_mem m) (sp + d) (m_mem m (p + off)).
Proof using Type.
  intros H11 H10 Hp Ho1 Ho2 Hs Hd1 Hd2. cbn [run exec is_transfer]. unfold addr.
  rewrite H11, (load_points _ p n) by done. reg_simpl. rewrite H10, (store_points _ sp k) by done.
  reg_simpl. eexists. split; [done|]. by reg_simpl.
Qed.

Lemma kernel_frame_spec m p sp :
  m_regs m RDI = p -> points p 23 -> m_mem m (p + 144) = sp + 24 -> points sp 4 ->
  p + 184 <= sp \/ sp + 24 <= p ->
  exists m1, run alu_flags kernel_frame_block m = Some m1 /\ m_regs m1 R11 = p /\ m_regs m1 RSP = sp /\
    holds (m_mem m1) sp [m_mem m (p + 120); m_mem m (p + 128); m_mem m (p + 136)] /\
    (forall a, a < sp \/ sp + 24 <= a -> m_mem m1 a = m_mem m a).
Proof using Type.
  intros Hdi Hp Hsp Hs Hdis. pose proof Hs as (Ha & Hlo & Hhi). pose proof Hp as (_ & Hplo & Hphi).
  change kernel_frame_block with
    ([MovRR R11 RDI; MovRM R10 R11 144; SubI R10 24] ++ [MovRM RAX R11 120; MovMR R10 0 RAX] ++
     [MovRM RAX R11 128; MovMR R10 8 RAX] ++ [MovRM RAX R11 136; MovMR R10 16 RAX] ++ [MovRR RSP R10]).
  rewrite run_app by done. cbn [run exec is_transfer]. unfold addr.
  reg_simpl. rewrite Hdi, (load_points _ p 23) by (done || lia). reg_simpl.
  rewrite Hsp. replace (sp + 24 - 24) with sp by lia. rewrite (wrap64_small sp) by lia. set (m1 := set_alu _ _ _ _).
  destruct (copy_word_spec m1 p sp 23 4 120 0) as (m2 & Hr2 & A2 & B2 & M2); [by unfold m1; reg_simpl|by unfold m1; reg_simpl|done || lia..|].
  rewrite run_app, Hr2 by done. cbn [mbind option_bind].
  destruct (copy_word_spec m2 p sp 23 4 128 8) as (m3 & Hr3 & A3 & B3 & M3); [done || lia..|].
  rewrite run_app, Hr3 by done. cbn [mbind option_bind].
  destruct (copy_word_spec m3 p sp 23 4 136 16) as (m4 & Hr4 & A4 & B4 & M4); [done || lia..|].
  rewrite run_app, Hr4 by done. cbn [mbind option_bind run exec is_transfer].
  eexists. split; [done|]. reg_simpl. rewrite A4, B4, M4, M3, M2. split; [done|]. split; [done|].
  change (m_mem m1) with (m_mem m).
  rewrite Z.add_0_r. mem_simpl. split.
  - intros [|[|[|i]]] w Hi; cbn in Hi; simplify_eq; cbn; rewrite ?Z.add_0_r; by mem_simpl.
  - intros a Hr. by mem_simpl.
Qed.
End Restore.

(** The words of a snapshot, by offset. *)
Lemma interrupted_layout option_words s mem p :
  holds mem p (interrupted_words option_words s) ->
  holds mem p (saved_words (is_registers s)) /\
  mem (p + 120) = rs_rip (is_return_state s) /\ mem (p + 128) = rs_cs (is_return_state s) /\
  mem (p + 136) = rs_rflags (is_return_state s) /\ mem (p + 144) = rs_resume_rsp (is_return_state s) /\
  mem (p + 152) = (option_words (rs_rsp (is_return_state s))).1 /\
  mem (p + 168) = (option_words (rs_ss (is_return_state s))).1.
Proof.
  intros Hh. unfold interrupted_words in Hh. split; [by apply holds_app in Hh as [? _]|].
  split_and!; [exact (Hh 15%nat _ eq_refl)|exact (Hh 16%nat _ eq_refl)|exact (Hh 17%nat _ eq_refl)
    |exact (Hh 18%nat _ eq_refl)|exact (Hh 19%nat _ eq_refl)|exact (Hh 21%nat _ eq_refl)].
Qed.

(** What the handler captures of an interrupt. *)
Lemma captured_state {E} rsp0 m m0 s :
  handler_view rsp0 m m0 ->
  InterruptedState_capture (E := E) (saved_of (m_regs m)) (frame_at (m_mem m0) (m_regs m0 RSI)) = Ok s ->
  s = mkInterrupted (saved_of (m_regs m))
        (mkReturnState (m_rip m) (m_cs m) (m_rflags m)
           (entry_stack rsp0 m - if Z.land (m_cs m) 3 =? 0 then 16 else 0)
           (if Z.land (m_cs m) 3 =? 0 then None else Some (m_regs m RSP))
           (if Z.land (m_cs m) 3 =? 0 then None else Some (m_ss m))).
Proof.
  intros [_ Hsi _ _ _ Hfr] Hcap.
  assert (Hw : forall i w, [m_rip m; m_cs m; m_rflags m; m_regs m RSP; m_ss m] !! i = Some w ->
            m_mem m0 (m_regs m0 RSI + 8 * Z.of_nat i) = w) by exact Hfr.
  unfold InterruptedState_capture, ReturnState_capture, irf_resume_rsp, irf_rsp, irf_ss, irf_rip, irf_cs,
    irf_rflags, frame_at in Hcap. cbn [irf_raw irf_word] in Hcap.
  rewrite (Hw 0%nat _ eq_refl), (Hw 1%nat _ eq_refl), (Hw 2%nat _ eq_refl), (Hw 3%nat _ eq_refl),
    (Hw 4%nat _ eq_refl), Hsi in Hcap.
  destruct (checked_add _ _) as [r|] eqn:Hadd; [|done]. apply checked_add_Some in Hadd as [-> _].
  injection Hcap as <-. unfold SAME_CPL_FRAME_BYTES, CROSS_CPL_FRAME_BYTES. do 2 f_equal. case_match; lia.
Qed.

(** A preempted kernel task resumes exactly where it was.  A timer interrupt
    taken in kernel mode in state [m] makes the handler capture [s]; whenever
    [return_to_kernel] is later given that snapshot, with the two upper words of the
    interrupt frame still on the task's stack, the CPU has every general register, the
    instruction and stack pointers, the flags and the segments of [m] again: the frame
    [return_to_kernel] builds is the one the CPU had pushed, and [iretq] takes its
    upper two words from there. *)
Theorem preempted_task_resumes alu_flags option_words rsp0 m m0 m2 p (s : InterruptedState) :
  points (entry_stack rsp0 m - 192) 24 -> is_selector (m_cs m) -> is_selector (m_ss m) ->
  Z.land (m_cs m) 3 = 0 -> handler_view rsp0 m m0 ->
  InterruptedState_capture (E := Empty_set) (saved_of (m_regs m)) (frame_at (m_mem m0) (m_regs m0 RSI)) = Ok s ->
  m_regs m2 RDI = p -> points p 23 -> holds (m_mem m2) p (interrupted_words option_words s) ->
  p + 184 <= entry_stack rsp0 m - 40 \/ entry_stack rsp0 m - 16 <= p ->
  holds (m_mem m2) (entry_stack rsp0 m - 16) [m_regs m RSP; m_ss m] ->
  exists mf, run alu_flags return_to_kernel m2 = Some mf /\ same_cpu m mf.
Proof.
  intros Hp Hcs Hss Hk Hview Hcap Hdi Hpp Hst Hdis Hup.
  apply (captured_state _ _ _ _ Hview) in Hcap. rewrite Hk in Hcap. cbn [Z.eqb] in Hcap. subst s.
  apply interrupted_layout in Hst as (Hregs & R0 & R1 & R2 & R3 & _).
  cbn [is_registers is_return_state rs_rip rs_cs rs_rflags rs_resume_rsp] in *.
  set (sp := entry_stack rsp0 m - 40).
  destruct (kernel_frame_spec alu_flags m2 p sp) as (m3 & Hrun & H11 & Hsp & Hf3 & Ho3);
    [done|done|rewrite R3; unfold sp; lia|apply (points_in 19 _ _ _ _ Hp); unfold sp; lia|lia|].
  rewrite R0, R1, R2 in Hf3.
  change return_to_kernel with (kernel_frame_block ++ restore_block ++ [Iretq]).
  rewrite run_app, Hrun by done. cbn [mbind option_bind].
  destruct (restore_block_spec alu_flags m3 p (saved_of (m_regs m))) as (m4 & Hrun4 & Hm4 & _ & Hr4); [done| | |].
  { apply (points_in 0 _ _ _ _ Hpp); lia. }
  { apply (holds_ext (m_mem m2)); [|done]. cbn. intros b Hb. apply Ho3. unfold sp. lia. }
  rewrite run_app, Hrun4 by done. cbn [mbind option_bind run exec is_transfer].
  destruct (iretq_spec m4 (m_rip m) (m_cs m) (m_rflags m) (m_regs m RSP) (m_ss m)) as (mf & -> & _ & Hcpu).
  { rewrite Hr4. cbn [restored]. rewrite Hsp. apply (points_in 19 _ _ _ _ Hp); unfold sp; lia. }
  { rewrite Hr4, Hm4. cbn [restored]. rewrite Hsp.
    change [m_rip m; m_cs m; m_rflags m; m_regs m RSP; m_ss m]
      with ([m_rip m; m_cs m; m_rflags m] ++ [m_regs m RSP; m_ss m]).
    apply holds_app. split; [done|].
    replace (sp + _) with (entry_stack rsp0 m - 16) by (unfold sp; cbn; lia).
    apply (holds_ext (m_mem m2)); [|done]. cbn. intros b Hb. apply Ho3. unfold sp. lia. }
  exists mf. split; [done|]. rewrite (selector_id _ Hcs), (selector_id _ Hss) in Hcpu.
  destruct Hcpu as [Hr ? ? ? ?]. split; try done. intros r. rewrite Hr. by destruct r; reg_simpl; rewrite ?Hr4.
Qed.

(** ** Entering userspace *)
Section UserEntry.
Context (alu_flags : Z -> Z -> Z).

(** The block of [resume_user] that builds the frame. *)
Definition user_frame_block : list instr :=
  [MovRR R11 RDI;
   MovRM RAX R11 168; Push RAX; MovRM RAX R11 152; Push RAX; MovRM RAX R11 136; Push RAX;
   MovRM RAX R11 128; Push RAX; MovRM RAX R11 120; Push RAX].

Lemma push_field_spec m p n off :
  m_regs m R11 = p -> points p n -> 0 <= off < 8 * n -> off mod 8 = 0 -> points (m_regs m RSP - 8) 1 ->
  exists m', run alu_flags [MovRM RAX R11 off; Push RAX] m = Some m' /\
    m_regs m' R11 = p /\ m_regs m' RSP = m_regs m RSP - 8 /\
    m_mem m' (m_regs m RSP - 8) = m_mem m (p + off) /\
    (forall a, a <> m_regs m RSP - 8 -> m_mem m' a = m_mem m a).
Proof using Type.
  intros H11 Hp Ho1 Ho2 (Ha & Hlo & Hhi). cbn [run exec is_transfer]. unfold addr, push_word, store.
  rewrite H11, (load_points _ p n) by done. reg_simpl. rewrite wrap64_small, Ha by lia. reg_simpl.
  eexists. split; [done|]. reg_simpl. split; [done|]. split; [done|]. mem_simpl. split; [done|].
  intros a Hne. by apply upd_mem_other.
Qed.

Lemma user_frame_spec m p sp :
  m_regs m RDI = p -> points p 23 -> m_regs m RSP = sp -> points (sp - 40) 5 -> p + 184 <= sp - 40 \/ sp <= p ->
  exists m1, run alu_flags user_frame_block m = Some m1 /\ m_regs m1 R11 = p /\ m_regs m1 RSP = sp - 40 /\
    holds (m_mem m1) (sp - 40)
      [m_mem m (p + 120); m_mem m (p + 128); m_mem m (p + 136); m_mem m (p + 152); m_mem m (p + 168)] /\
    (forall a, a < sp - 40 \/ sp <= a -> m_mem m1 a = m_mem m a).
Proof using Type.
  intros Hdi Hp Hsp Hs Hdis. pose proof Hp as (_ & Hplo & Hphi).
  change user_frame_block with
    ([MovRR R11 RDI] ++ [MovRM RAX R11 168; Push RAX] ++ [MovRM RAX R11 152; Push RAX] ++
     [MovRM RAX R11 136; Push RAX] ++ [MovRM RAX R11 128; Push RAX] ++ [MovRM RAX R11 120; Push RAX]).
  rewrite run_app by done. cbn [run exec is_transfer mbind option_bind]. set (m0 := set_reg _ _ _).
  destruct (push_field_spec m0 p 23 168) as (m1 & E1 & A1 & B1 & W1 & O1); [by unfold m0; reg_simpl|done|lia|done| |].
  { unfold m0; reg_simpl. rewrite Hsp. apply (points_in 4 _ _ _ _ Hs); lia. }
  change (m_regs m0 RSP) with (m_regs m RSP) in *. change (m_mem m0) with (m_mem m) in *. rewrite Hsp in *.
  rewrite run_app, E1 by done. cbn [mbind option_bind].
  destruct (push_field_spec m1 p 23 152) as (m2 & E2 & A2 & B2 & W2 & O2); [done|done|lia|done| |].
  { rewrite B1. apply (points_in 3 _ _ _ _ Hs); lia. }
  rewrite run_app, E2 by done. cbn [mbind option_bind]. rewrite B1 in *.
  destruct (push_field_spec m2 p 23 136) as (m3 & E3 & A3 & B3 & W3 & O3); [done|done|lia|done| |].
  { rewrite B2. apply (points_in 2 _ _ _ _ Hs); lia. }
  rewrite run_app, E3 by done. cbn [mbind option_bind]. rewrite B2 in *.
  destruct (push_field_spec m3 p 23 128) as (m4 & E4 & A4 & B4 & W4 & O4); [done|done|lia|done| |].
  { rewrite B3. apply (points_in 1 _ _ _ _ Hs); lia. }
  rewrite run_app, E4 by done. cbn [mbind option_bind]. rewrite B3 in *.
  destruct (push_field_spec m4 p 23 120) as (m5 & E5 & A5 & B5 & W5 & O5); [done|done|lia|done| |].
  { rewrite B4. apply (points_in 0 _ _ _ _ Hs); lia. }
  rewrite E5. rewrite B4 in *. exists m5. split; [done|]. split; [done|]. split; [lia|].
  replace (sp - 8 - 8 - 8 - 8 - 8) with (sp - 40) in * by lia.
  replace (sp - 8 - 8 - 8 - 8) with (sp - 32) in * by lia.
  replace (sp - 8 - 8 - 8) with (sp - 24) in * by lia.
  replace (sp - 8 - 8) with (sp - 16) in * by lia.
  split.
  - intros [|[|[|[|[|i]]]]] w Hi; cbn in Hi; [injection Hi as <-..|done].
    + replace (sp - 40 + _) with (sp - 40) by lia. rewrite W5. by rewrite O4, O3, O2, O1 by lia.
    + replace (sp - 40 + _) with (sp - 32) by lia. rewrite O5, W4 by lia. by rewrite O3, O2, O1 by lia.
    + replace (sp - 40 + _) with (sp - 24) by lia. rewrite O5, O4, W3 by lia. by rewrite O2, O1 by lia.
    + replace (sp - 40 + _) with (sp - 16) by lia. rewrite O5, O4, O3, W2 by lia. by rewrite O1 by lia.
    + replace (sp - 40 + _) with (sp - 8) by lia. by rewrite O5, O4, O3, O2, W1 by lia.
  - intros a Ha. by rewrite O5, O4, O3, O2, O1 by lia.
Qed.

Lemma resume_user_spec option_words m p sp s :
  m_regs m RDI = p -> points p 23 -> m_regs m RSP = sp -> points (sp - 40) 5 -> p + 184 <= sp - 40 \/ sp <= p ->
  holds (m_mem m) p (interrupted_words option_words s) ->
  exists mf, run alu_flags resume_user m = Some mf /\
    let r := is_return_state s in
    cpu_is mf (restored (is_registers s) (option_words (rs_rsp r)).1) (rs_rip r) (rs_rflags r)
      (selector (rs_cs r)) (selector (option_words (rs_ss r)).1).
Proof using Type.
  intros Hdi Hp Hsp Hs Hdis Hst. apply interrupted_layout in Hst as (Hregs & R0 & R1 & R2 & _ & R4 & R5).
  destruct (user_frame_spec m p sp) as (m1 & E1 & A1 & B1 & W1 & O1); [done..|].
  rewrite R0, R1, R2, R4, R5 in W1.
  change resume_user with (user_frame_block ++ restore_block ++ [Iretq]).
  rewrite run_app, E1 by done. cbn [mbind option_bind].
  destruct (restore_block_spec alu_flags m1 p (is_registers s)) as (m2 & E2 & M2 & _ & Hr2);
    [done|apply (points_in 0 _ _ _ _ Hp); lia| |].
  { apply (holds_ext (m_mem m)); [|done]. cbn. intros b Hb. apply O1. lia. }
  rewrite run_app, E2 by done. cbn [mbind option_bind run exec is_transfer].
  assert (Hsp2 : m_regs m2 RSP = sp - 40) by (rewrite Hr2; exact B1).
  edestruct (iretq_spec m2) as (mf & -> & _ & Hcpu); [by rewrite Hsp2|rewrite Hsp2, M2; exact W1|].
  exists mf. split; [done|]. destruct Hcpu as [Hr ? ? ? ?]. split; try done.
  intros r. rewrite Hr. by destruct r; reg_simpl; rewrite ?Hr2.
Qed.

Lemma enter_user_spec m p f :
  m_regs m RDI = p -> points p 5 -> holds (m_mem m) p (frame_words f) ->
  exists mf, run alu_flags enter_user m = Some mf /\
    cpu_is mf (upd_reg (m_regs m) RSP (uf_rsp f)) (uf_rip f) (uf_rflags f) (selector (uf_cs f)) (selector (uf_ss f)).
Proof using Type.
  intros Hdi Hp Hf. unfold enter_user. cbn [run exec is_transfer mbind option_bind]. set (m1 := set_reg _ _ _).
  assert (Hs : m_regs m1 RSP = p) by (unfold m1; by reg_simpl).
  edestruct (iretq_spec m1) as (mf & -> & _ & Hcpu); [by rewrite Hs|rewrite Hs; exact Hf|].
  exists mf. split; [done|]. destruct Hcpu as [Hr ? ? ? ?]. split; try done. intros r. rewrite Hr.
  unfold m1. reg_simpl. unfold upd_reg. by case_bool_decide.
Qed.
End UserEntry.

(** What [resume_user] restores of a process.  After an interrupt taken outside
    kernel mode in state [m], [resume_user] on the captured snapshot restores every
    general register, the instruction pointer, the flags and the code segment; the
    stack pointer and the stack segment it loads are the first words of the two
    [Option<u64>] fields, so the process resumes as it was exactly when these words
    are the saved values. *)
Theorem resume_user_restores alu_flags option_words rsp0 m m0 m2 p sp (s : InterruptedState) :
  is_selector (m_cs m) -> is_selector (m_ss m) -> Z.land (m_cs m) 3 <> 0 -> handler_view rsp0 m m0 ->
  InterruptedState_capture (E := Empty_set) (saved_of (m_regs m)) (frame_at (m_mem m0) (m_regs m0 RSI)) = Ok s ->
  m_regs m2 RDI = p -> points p 23 -> holds (m_mem m2) p (interrupted_words option_words s) ->
  m_regs m2 RSP = sp -> points (sp - 40) 5 -> p + 184 <= sp - 40 \/ sp <= p ->
  exists mf, run alu_flags resume_user m2 = Some mf /\
    (forall r, r <> RSP -> m_regs mf r = m_regs m r) /\
    m_rip mf = m_rip m /\ m_rflags mf = m_rflags m /\ m_cs mf = m_cs m /\
    m_regs mf RSP = (option_words (Some (m_regs m RSP))).1 /\
    m_ss mf = selector (option_words (Some (m_ss m))).1 /\
    (same_cpu m mf <->
       (option_words (Some (m_regs m RSP))).1 = m_regs m RSP /\
       selector (option_words (Some (m_ss m))).1 = m_ss m).
Proof.
  intros Hcs Hss Hu Hview Hcap Hdi Hp Hst Hsp Hs Hdis.
  apply (captured_state _ _ _ _ Hview) in Hcap. rewrite (proj2 (Z.eqb_neq _ _) Hu) in Hcap.
  destruct (resume_user_spec alu_flags option_words m2 p sp s) as (mf & Hrun & [Hr H1 H2 H3 H4]); [done..|].
  subst s. cbn [is_registers is_return_state rs_rip rs_cs rs_rflags rs_rsp rs_ss] in *.
  rewrite (selector_id _ Hcs) in H3. exists mf. split; [done|].
  assert (Hreg : forall r, r <> RSP -> m_regs mf r = m_regs m r) by (intros r Hne; rewrite Hr; by destruct r).
  split; [done|]. do 3 (split; [done|]). split; [by rewrite Hr|]. split; [done|].
  split.
  - intros [Hr' _ _ _ Hs']. rewrite <- H4, Hs'. split; [|done].
    transitivity (m_regs mf RSP); [by rewrite Hr|apply Hr'].
  - intros [E1 E2]. split; try done; [|by rewrite H4].
    intros r. destruct (decide (r = RSP)) as [->|Hne]; [by rewrite Hr|by apply Hreg].
Qed.

(** ** The context switch *)
Section Switch.
Context (alu_flags : Z -> Z -> Z).

(** A run of stores through one base register. *)
Lemma run_stores base (ds : list (reg * Z)) m p n :
  m_regs m base = p -> points p n -> Forall (fun '(d, off) => 0 <= off < 8 * n /\ off mod 8 = 0) ds ->
  run alu_flags ((fun '(d, off) => MovMR base off d) <$> ds) m =
    Some (mkMachine (m_regs m) (m_rip m) (m_rflags m) (m_cs m) (m_ss m)
            (foldl (fun mem '(d, off) => upd_mem mem (p + off) (m_regs m d)) (m_mem m) ds)).
Proof using Type.
  revert m. induction ds as [|[d off] ds IH]; intros m Hb Hp Ho; [by destruct m|].
  apply Forall_cons in Ho as [[Hr1 Hr2] Ho]. cbn [fmap list_fmap run exec is_transfer].
  unfold addr. rewrite Hb, (store_points _ p n) by done. cbn [mbind option_bind].
  specialize (IH (set_mem m (p + off) (m_regs m d))). cbn [set_mem m_regs m_rip m_rflags m_cs m_ss m_mem] in IH.
  by rewrite IH.
Qed.

Definition callee_saved : list (reg * Z) :=
  [(RSP, 0); (RBP, 8); (RBX, 16); (R12, 24); (R13, 32); (R14, 40); (R15, 48)].

(** The register file after a context was loaded through a base register. *)
Definition switched (f : reg -> Z) (c : Context) (r : reg) : Z :=
  match r with
  | RSP => c_rsp c | RBP => c_rbp c | RBX => c_rbx c | R12 => c_r12 c | R13 => c_r13 c | R14 => c_r14 c
  | R15 => c_r15 c | r => f r
  end.

(** The second half of [switch], and the whole of [return_to_context]. *)
Lemma load_context_spec m base p c :
  m_regs m base = p -> base ∉ callee_saved.*1 -> points p 8 -> holds (m_mem m) p (context_words c) ->
  points (c_rsp c - 8) 2 ->
  exists mf, run alu_flags (loads base callee_saved ++ [PushM base 56; Ret]) m = Some mf /\
    cpu_is mf (switched (m_regs m) c) (c_rip c) (m_rflags m) (m_cs m) (m_ss m) /\
    (forall a, m_mem mf a = if a =? c_rsp c - 8 then c_rip c else m_mem m a).
Proof using Type.
  intros Hb Hnb Hp Hc Hs. pose proof Hs as (Ha & Hlo & Hhi).
  destruct (run_loads alu_flags base callee_saved m p 8) as (m1 & E1 & M1 & C1 & Hin & Hout);
    [done|done|repeat (constructor; [done|]); constructor|done|by apply (bool_decide_unpack _)|].
  rewrite run_app, E1 by (by destruct base). cbn [mbind option_bind run exec is_transfer].
  assert (Hw : forall i w, context_words c !! i = Some w -> m_mem m (p + 8 * Z.of_nat i) = w) by exact Hc.
  assert (Hb1 : m_regs m1 base = p) by (by rewrite Hout).
  unfold addr. rewrite Hb1, (load_points _ p 8), M1 by done. cbn [mbind option_bind].
  replace (p + 56) with (p + 8 * Z.of_nat 7) by lia. rewrite (Hw 7%nat (c_rip c) eq_refl).
  assert (Hsp : m_regs m1 RSP = c_rsp c).
  { rewrite (Hin RSP 0) by (unfold callee_saved; repeat constructor). exact (Hw 0%nat _ eq_refl). }
  unfold push_word, store. rewrite Hsp, wrap64_small, Ha by lia. reg_simpl.
  unfold pop_word, load. reg_simpl. rewrite Ha. reg_simpl. mem_simpl.
  rewrite wrap64_small by lia. replace (c_rsp c - 8 + 8) with (c_rsp c) by lia.
  eexists. split; [done|]. destruct C1 as (C1a & C1b & C1c & C1d). split.
  - split; reg_simpl; try done.
    intros r. destruct r; reg_simpl; cbn [switched]; try (by rewrite Hout by (by apply (bool_decide_unpack _)));
      try done; (erewrite Hin by (unfold callee_saved; repeat constructor));
      [exact (Hw 2%nat _ eq_refl)|exact (Hw 1%nat _ eq_refl)|exact (Hw 3%nat _ eq_refl)|exact (Hw 4%nat _ eq_refl)
      |exact (Hw 5%nat _ eq_refl)|exact (Hw 6%nat _ eq_refl)].
  - intros a. reg_simpl. by rewrite M1.
Qed.

(** The first half saves the context of the caller of [switch]. *)
Lemma save_context_spec m a :
  m_regs m RDI = a -> points a 8 -> points (m_regs m RSP) 1 -> m_regs m RSP < a \/ a + 64 <= m_regs m RSP ->
  exists m1, run alu_flags (((fun '(d, off) => MovMR RDI off d) <$> callee_saved) ++
                           [MovRM RAX RSP 0; MovMR RDI 56 RAX]) m = Some m1 /\
    cpu_is m1 (upd_reg (m_regs m) RAX (m_mem m (m_regs m RSP))) (m_rip m) (m_rflags m) (m_cs m) (m_ss m) /\
    holds (m_mem m1) a (context_words (context_of (m_mem m (m_regs m RSP)) (m_regs m))) /\
    (forall b, b < a \/ a + 64 <= b -> m_mem m1 b = m_mem m b).
Proof using Type.
  intros Hdi Ha (Hs & Hslo & Hshi) Hdis. pose proof Ha as (Haa & Hlo & Hhi).
  rewrite run_app by done. erewrite (run_stores RDI callee_saved m a 8);
    [|done|done|repeat (constructor; [done|]); constructor].
  cbn [mbind option_bind run exec is_transfer callee_saved foldl]. unfold addr, load.
  reg_simpl. rewrite (Z.add_0_r (m_regs m RSP)), wrap64_small, Hs by lia. reg_simpl. mem_simpl.
  rewrite Hdi, (store_points _ a 8) by done. reg_simpl. eexists. split; [done|]. split; [by split|].
  reg_simpl. rewrite !Z.add_0_r. split.
  - intros i w Hi. do 8 (destruct i as [|i]; [cbn in Hi; injection Hi as <-; rewrite ?Z.add_0_r; by mem_simpl|]). done.
  - intros b Hb. by mem_simpl.
Qed.

Lemma switch_spec m a b c :
  m_regs m RDI = a -> m_regs m RSI = b -> points a 8 -> points b 8 -> a + 64 <= b \/ b + 64 <= a ->
  points (m_regs m RSP) 1 -> m_regs m RSP < a \/ a + 64 <= m_regs m RSP ->
  holds (m_mem m) b (context_words c) -> points (c_rsp c - 8) 2 -> c_rsp c - 8 < a \/ a + 64 <= c_rsp c - 8 ->
  exists mf, run alu_flags switch m = Some mf /\
    cpu_is mf (switched (upd_reg (m_regs m) RAX (m_mem m (m_regs m RSP))) c) (c_rip c) (m_rflags m) (m_cs m) (m_ss m) /\
    holds (m_mem mf) a (context_words (context_of (m_mem m (m_regs m RSP)) (m_regs m))) /\
    (forall x, x < a \/ a + 64 <= x -> x <> c_rsp c - 8 -> m_mem mf x = m_mem m x).
Proof using Type.
  intros Hdi Hsi Ha Hb Hab Hs Hsa Hc Hcs Hca.
  change switch with ((((fun '(d, off) => MovMR RDI off d) <$> callee_saved) ++ [MovRM RAX RSP 0; MovMR RDI 56 RAX])
                      ++ (loads RSI callee_saved ++ [PushM RSI 56; Ret])).
  destruct (save_context_spec m a) as (m1 & E1 & [Hr1 _ Hf1 Hc1 Hs1] & H1 & O1); [done..|].
  rewrite run_app, E1 by done. cbn [mbind option_bind].
  destruct (load_context_spec m1 RSI b c) as (mf & E2 & [Hr2 Hi2 Hf2 Hc2 Hs2] & M2);
    [rewrite Hr1; by reg_simpl|by apply (bool_decide_unpack _)|done| |done|].
  { apply (holds_ext (m_mem m)); [|done]. cbn. intros x Hx. apply O1. lia. }
  exists mf. split; [done|]. split; [|split].
  - split; try congruence. intros r. rewrite Hr2. destruct r; cbn [switched]; try done; apply Hr1.
  - apply (holds_ext (m_mem m1)); [|done]. cbn. intros x Hx. rewrite M2.
    by rewrite (proj2 (Z.eqb_neq x (c_rsp c - 8))) by lia.
  - intros x Hx Hne. rewrite M2, (proj2 (Z.eqb_neq _ _)) by done. by apply O1.
Qed.
End Switch.

(** The registers a function must preserve for its caller, but the stack pointer. *)
Definition callee_preserved (f g : reg -> Z) : Prop :=
  f RBP = g RBP /\ f RBX = g RBX /\ f R12 = g R12 /\ f R13 = g R13 /\ f R14 = g R14 /\ f R15 = g R15.

(** A task that calls [switch] comes back with its callee-saved registers, at its
    return address, but with the stack pointer 8 too low.  A call of [switch] in state
    [m] leaves for the context [c] of the next task and saves one for [m]; when any
    task later switches to that saved context, the CPU continues at the return address
    of the call with the preserved registers of [m], and the stack pointer is the one
    inside the call, 8 bytes below what a return from it leaves. *)
Theorem switch_back_low_stack alu_flags m a b c m2 a2 :
  m_regs m RDI = a -> m_regs m RSI = b -> points a 8 -> points b 8 -> a + 64 <= b \/ b + 64 <= a ->
  points (m_regs m RSP - 8) 3 -> m_regs m RSP < a \/ a + 72 <= m_regs m RSP ->
  holds (m_mem m) b (context_words c) -> points (c_rsp c - 8) 2 -> c_rsp c - 8 < a \/ a + 64 <= c_rsp c - 8 ->
  (* the machine that switches back, with the saved context of [m] in place *)
  m_regs m2 RDI = a2 -> m_regs m2 RSI = a -> points a2 8 -> a2 + 64 <= a \/ a + 64 <= a2 ->
  points (m_regs m2 RSP) 1 -> m_regs m2 RSP < a2 \/ a2 + 64 <= m_regs m2 RSP ->
  m_regs m RSP - 8 < a2 \/ a2 + 64 <= m_regs m RSP - 8 ->
  exists m1, run alu_flags switch m = Some m1 /\
    m_rip m1 = c_rip c /\ m_regs m1 RSP = c_rsp c /\
    ((forall x, a <= x < a + 64 -> m_mem m2 x = m_mem m1 x) ->
     exists mf mr, run alu_flags switch m2 = Some mf /\ exec alu_flags Ret m = Some mr /\
       m_rip mf = m_rip mr /\ callee_preserved (m_regs mf) (m_regs mr) /\
       m_regs mr RSP = m_regs m RSP + 8 /\ m_regs mf RSP = m_regs m RSP).
Proof.
  intros Hdi Hsi Ha Hb Hab Hs Hsa Hc Hcs Hca Hdi2 Hsi2 Ha2 Haa2 Hs2 Hsa2 Hma2.
  pose proof Hs as (Hal & Hlo & Hhi).
  assert (Hs1 : points (m_regs m RSP) 1) by (apply (points_in 1 _ _ _ _ Hs); lia).
  destruct (switch_spec alu_flags m a b c) as (m1 & E1 & [Hr1 Hi1 _ _ _] & H1 & _); [done || lia..|].
  exists m1. split; [done|]. split; [done|]. split; [by rewrite Hr1|]. intros Hkeep.
  set (c1 := context_of (m_mem m (m_regs m RSP)) (m_regs m)) in *.
  destruct (switch_spec alu_flags m2 a2 a c1) as (mf & E2 & [Hr2 Hi2 _ _ _] & _);
    [done || lia..| |apply (points_in 0 _ _ _ _ Hs); cbn; lia|done|].
  { apply (holds_ext (m_mem m1)); [|done]. cbn. intros x Hx. apply Hkeep. lia. }
  destruct Hs1 as (Hal1 & _).
  exists mf. eexists. split; [done|]. split.
  { cbn [exec]. unfold pop_word, load. by rewrite Hal1. }
  reg_simpl. split; [done|]. split; [|split].
  - unfold callee_preserved. rewrite !Hr2. reg_simpl. done.
  - apply wrap64_small. lia.
  - by rewrite Hr2.
Qed.

(** A new kernel task starts in the dispatcher with its own activation record.
    The context [bootstrap_context] builds, entered by [return_to_context] or by
    [switch] from any task, reaches the trampoline, which enters the dispatcher with
    the activation pointer as its argument, on the task's stack, aligned as the calling
    convention asks of a function entry. *)
Theorem bootstrap_reaches_dispatch alu_flags stack_top activation trampoline dispatch c m p (via : bool) :
  is_u64 stack_top -> 16 <= stack_top -> bootstrap_context stack_top activation trampoline = Some c ->
  m_regs m (if via then RDI else RSI) = p -> points p 8 -> holds (m_mem m) p (context_words c) ->
  (* through [return_to_context], or through [switch] from a task with context area [a] *)
  (if via then True else
     let a := m_regs m RDI in
     points a 8 /\ (a + 64 <= p \/ p + 64 <= a) /\ points (m_regs m RSP) 1 /\
     (m_regs m RSP < a \/ a + 64 <= m_regs m RSP) /\ (stack_top <= a \/ a + 64 <= stack_top - 24)) ->
  exists m1 mf, run alu_flags (if via then return_to_context else switch) m = Some m1 /\
    m_rip m1 = trampoline /\ run alu_flags (task_trampoline dispatch) m1 = Some mf /\
    m_rip mf = dispatch /\ m_regs mf RDI = act_pointer activation /\
    m_regs mf RSP mod 16 = 8 /\ stack_top - 24 < m_regs mf RSP <= stack_top.
Proof.
  intros Ht Ht16 Hb Hr Hp Hc Hvia. unfold bootstrap_context in Hb.
  destruct (checked_sub stack_top 8) as [below|] eqn:Hsub; [|done].
  apply checked_sub_Some in Hsub as [-> Hsub].
  assert (Hal : Z.land (stack_top - 8) (not_u64 15) = stack_top - 8 - (stack_top - 8) mod 16)
    by (apply (land_mask _ 4); ulia).
  rewrite Hal in Hb. set (x := stack_top - 8 - (stack_top - 8) mod 16) in *.
  pose proof (Z.mod_pos_bound (stack_top - 8) 16 ltac:(lia)) as Hm.
  pose proof (Z.div_mod (stack_top - 8) 16 ltac:(lia)) as Hd.
  assert (Hx : x = 16 * ((stack_top - 8) / 16)) by (unfold x; lia).
  destruct (checked_add x 8) as [e|] eqn:Hadd; [|done]. apply checked_add_Some in Hadd as [-> _].
  match type of Hb with context [if ?b then _ else _] => destruct b eqn:Hcond end; [done|].
  injection Hb as <-. to_prop.
  assert (Hp8 : (x + 8) mod 16 = 8) by (rewrite Hx, Z.mul_comm, Z.add_comm, Z.mod_add by lia; done).
  assert (Hpt : points (x + 8 - 8) 2).
  { replace (x + 8 - 8) with x by lia. split_and!; [|unfold x; lia|unfold x; ulia].
    rewrite Hx. replace (16 * _) with (2 * ((stack_top - 8) / 16) * 8) by lia. by apply Z.mod_mul. }
  assert (Hgo : exists m1, run alu_flags (if via then return_to_context else switch) m = Some m1 /\
            m_rip m1 = trampoline /\ m_regs m1 RSP = x + 8 /\ m_regs m1 R12 = act_pointer activation).
  { destruct via.
    - destruct (load_context_spec alu_flags m RDI p _ Hr ltac:(by apply (bool_decide_unpack _)) Hp Hc Hpt)
        as (m1 & E1 & [Hr1 Hi1 _ _ _] & _). exists m1. split; [exact E1|]. by rewrite !Hr1.
    - destruct Hvia as (Ha & Hap & Hs & Hsa & Hst).
      destruct (switch_spec alu_flags m (m_regs m RDI) p _ eq_refl Hr Ha Hp Hap Hs Hsa Hc Hpt)
        as (m1 & E1 & [Hr1 Hi1 _ _ _] & _); [cbn; unfold x in *; lia|].
      exists m1. split; [exact E1|]. by rewrite !Hr1. }
  destruct Hgo as (m1 & E1 & Hrip & Hsp & H12). exists m1. eexists. split; [done|]. split; [done|].
  split; [done|]. reg_simpl. rewrite Hsp. split_and!; try done; unfold x in *; lia.
Qed.

(** ** A system call, from the trap to the instruction after it *)
Section Trap.
Context `{VirtAddrCrate} {M : Type} `{UserMemoryView M}.

(** A trap that returns has changed no register but [rax]. *)
Lemma trap_registers {E} mapping (view : M) kernel_memory k frame k' :
  entry_inv k -> args_ok view (kn_registers k) -> view_ok mapping view kernel_memory ->
  Z.land (irf_cs frame) 3 = 3 ->
  syscall_entry_rust (E := E) mapping view kernel_memory k frame = (Ok ReturnToStub, k') ->
  kn_registers k' = kn_registers (kn_set_rax k (sr_rax (kn_registers k'))).
Proof using Type.
  intros Hk Hargs Hv Hcs Heq.
  destruct (syscall_entry_cases (E := E) mapping view kernel_memory k frame Hk Hargs Hv Hcs)
    as (value & _ & Hk1 & _ & Hregs & Hact).
  destruct (sd_action _); [rewrite Hact in Heq; injection Heq as <-; cbn; by rewrite Hregs..|].
  destruct (commit_pending_exit _ _) as [[[tr|e|] y] c]; [|rewrite Hact in Heq; injection Heq as <-; cbn; by rewrite Hregs|done].
  destruct Hact as (Hd & Hh & _). rewrite Hd in Heq.
  by rewrite (handed_departs _ _ _ _ (ei_sys _ Hk1) Hh) in Heq.
Qed.

Lemma syscall_entry_frame {E} mapping (view : M) kernel_memory k frame frame' :
  irf_cs frame = irf_cs frame' ->
  syscall_entry_rust (E := E) mapping view kernel_memory k frame =
  syscall_entry_rust mapping view kernel_memory k frame'.
Proof using Type. intros Heq. unfold syscall_entry_rust. by rewrite Heq. Qed.
End Trap.

(** C17: a system call returns to the process with nothing changed but [rax].  For a
    trap from ring 3 in any machine state over a kernel that satisfies its invariant,
    whose handler's machine code does to the saved registers what [syscall_entry_rust]
    does: if the request returns, the process continues after the trap with its stack
    pointer, flags, segments and every register but [rax] unchanged, and [rax] is the
    value the handler computed. *)
Theorem syscall_trap_machine `{VirtAddrCrate} {M} `{UserMemoryView M} alu_flags rsp0 kernel_cs entry hook
    mapping (view : M) kernel_memory k m frame k' :
  entry_inv k -> args_ok view (saved_of (m_regs m)) -> view_ok mapping view kernel_memory ->
  points (entry_stack rsp0 m - 192) 24 -> is_selector (m_cs m) -> is_selector (m_ss m) ->
  Z.land (m_cs m) 3 = 3 -> irf_cs frame = m_cs m ->
  (forall m0, handler_view rsp0 m m0 ->
     forall k1, syscall_entry_rust (E := Empty_set) mapping view kernel_memory
                  (kn_enter k (saved_at (m_mem m0) (m_regs m0 RDI)))
                  (frame_at (m_mem m0) (m_regs m0 RSI)) = (Ok ReturnToStub, k1) ->
     exists m1, hook m0 = Some m1 /\ returned_with m0 m1 (kn_registers k1)) ->
  syscall_entry_rust (E := Empty_set) mapping view kernel_memory (kn_enter k (saved_of (m_regs m))) frame
    = (Ok ReturnToStub, k') ->
  exists m' mf, deliver rsp0 kernel_cs entry m = Some m' /\ run alu_flags (syscall_entry hook) m' = Some mf /\
    cpu_is mf (upd_reg (m_regs m) RAX (sr_rax (kn_registers k'))) (m_rip m) (m_rflags m) (m_cs m) (m_ss m).
Proof.
  intros Hk Hargs Hv Hp Hcs Hss Hu Hfr Hhook Hret.
  destruct (deliver_spec rsp0 kernel_cs entry m) as (m' & Hd & Hdl & _); [apply (points_in 19 _ _ _ _ Hp); lia|].
  destruct (interrupt_returns alu_flags rsp0 kernel_cs entry hook m m' (kn_registers k') Hp Hd) as (mf & Hrun & Hcpu).
  { intros m0 Hcall. pose proof (called_view _ _ _ _ Hdl Hcall) as Hview. apply Hhook; [done|].
    rewrite (saved_at_holds _ _ _ (hv_saved _ _ _ Hview)), <- Hret. apply syscall_entry_frame.
    rewrite Hfr. exact (hv_frame _ _ _ Hview 1%nat _ eq_refl). }
  exists m', mf. split; [done|]. split; [done|].
  rewrite (selector_id _ Hcs), (selector_id _ Hss) in Hcpu. destruct Hcpu as [Hr ? ? ? ?]. split; try done.
  intros r. rewrite Hr. rewrite (trap_registers mapping view kernel_memory _ frame k' (kn_enter_inv _ _ Hk)
    Hargs Hv ltac:(by rewrite Hfr) Hret). by destruct r.
Qed.

(** ** Concrete machines *)
Definition demo_alu : Z -> Z -> Z := fun flags v => if v =? 0 then Z.lor flags 64 else Z.land flags (not_u64 64).
Definition demo_file : reg -> Z := restored (mkRegs 2 3 4 5 6 7 8 9 10 11 12 13 14 15 16) 140000.
Definition demo_kernel_machine : machine := mkMachine demo_file 5000 514 8 16 (fun a => a mod 977).
Definition demo_user_machine : machine :=
  mkMachine (restored (mkRegs (Syscall_number Write) 2 0 4 5 4 69630 8 9 10 11 12 13 14 15) 140737488351000)
    4198404 514 27 19 (fun _ => 0).

(** A handler that answers 42 in [rax]. *)
Definition answer (s : SavedRegisters) (_ : InterruptReturnFrame) : option SavedRegisters :=
  Some (saved_of (upd_reg (restored s 0) RAX 42)).

Lemma interrupt_transparent_witness :
  exists m' mf, deliver 0 8 7000 demo_kernel_machine = Some m' /\
    run demo_alu (timer_entry (pointer_handler answer)) m' = Some mf /\
    m_rip mf = 5000 /\ m_regs mf RAX = 42 /\ m_regs mf RSP = 140000.
Proof.
  destruct (interrupt_transparent demo_alu 0 8 7000 (pointer_handler answer) demo_kernel_machine
              (saved_of (upd_reg demo_file RAX 42))) as (m' & Hd & _ & Hrun).
  - vm_compute; split_and!; [reflexivity|discriminate|discriminate].
  - vm_compute; split; [discriminate|reflexivity].
  - vm_compute; split; [discriminate|reflexivity].
  - intros m0 Hv. apply (pointer_handler_returns _ _ _ _ _ Hv). reflexivity.
  - destruct (Hrun _ (or_intror eq_refl)) as (mf & Hmf & [Hr Hrip _ _ _]).
    exists m', mf. split; [exact Hd|]. split; [exact Hmf|]. rewrite Hrip, !Hr. split_and!; reflexivity.
Defined.

(** The machine at the handler's entry, computed. *)
Definition at_handler (rsp0 : Z) (m : machine) : machine :=
  default m (m' ← deliver rsp0 8 7000 m;
             m1 ← run demo_alu (Push <$> save_order) m'; run demo_alu stub_prologue m1).

Lemma at_handler_view rsp0 m :
  points (entry_stack rsp0 m - 192) 24 -> handler_view rsp0 m (at_handler rsp0 m).
Proof.
  intros Hp. unfold at_handler.
  destruct (deliver_spec rsp0 8 7000 m) as (m' & -> & Hdl & _); [apply (points_in 19 _ _ _ _ Hp); lia|].
  cbn [mbind option_bind]. pose proof (dl_rsp _ _ _ Hdl) as Hsp.
  destruct (run_pushes demo_alu save_order m') as (m1 & -> & P1);
    [by apply (bool_decide_unpack _)|apply (points_in 4 _ _ _ _ Hp); cbn; lia|].
  cbn [mbind option_bind].
  destruct (stub_prologue_spec demo_alu m1 (m_regs m' RSP - 120)) as (m0 & Hrun & _);
    [by rewrite (pd_rsp _ _ _ P1)|apply (points_in 0 _ _ _ _ Hp); lia|].
  rewrite Hrun. cbn [default]. apply (called_view rsp0 m m'); [done|].
  apply (prologue_called demo_alu m' m1 m0); [done|apply (points_in 0 _ _ _ _ Hp); lia|done].
Qed.

(** Memory with a structure laid out at an address. *)
Definition tag_first (o : option Z) : Z * Z := match o with Some v => (1, v) | None => (0, 0) end.
Definition value_first (o : option Z) : Z * Z := match o with Some v => (v, 1) | None => (0, 0) end.

Definition demo_snapshot (m : machine) (rsp0 : Z) : InterruptedState :=
  let m0 := at_handler rsp0 m in
  match InterruptedState_capture (E := Empty_set) (saved_of (m_regs m)) (frame_at (m_mem m0) (m_regs m0 RSI)) with
  | Ok s => s
  | _ => mkInterrupted (saved_of (m_regs m)) (mkReturnState 0 0 0 0 None None)
  end.

(** A machine about to run a return path on the snapshot of [m] at [p]. *)
Definition demo_return_machine (m : machine) (rsp0 p sp : Z) (option_words : option Z -> Z * Z) : machine :=
  let m0 := at_handler rsp0 m in
  mkMachine (upd_reg (upd_reg (fun _ => 77) RDI p) RSP sp) 1 2 8 16
    (store_words (m_mem m0) p (interrupted_words option_words (demo_snapshot m rsp0))).

Lemma preempted_task_resumes_witness :
  exists mf, run demo_alu return_to_kernel (demo_return_machine demo_kernel_machine 0 8192 9000 tag_first) = Some mf /\
    same_cpu demo_kernel_machine mf.
Proof.
  apply (preempted_task_resumes demo_alu tag_first 0 demo_kernel_machine (at_handler 0 demo_kernel_machine) _ 8192
           (demo_snapshot demo_kernel_machine 0)).
  - vm_compute; split_and!; [reflexivity|discriminate|discriminate].
  - vm_compute; split; [discriminate|reflexivity].
  - vm_compute; split; [discriminate|reflexivity].
  - reflexivity.
  - apply at_handler_view. vm_compute; split_and!; [reflexivity|discriminate|discriminate].
  - vm_compute; reflexivity.
  - reflexivity.
  - vm_compute; split_and!; [reflexivity|discriminate|discriminate].
  - apply store_words_holds.
  - left. vm_compute. discriminate.
  - intros [|[|i]] w Hi; [injection Hi as <-; vm_compute; reflexivity..|discriminate Hi].
Defined.

Lemma resume_user_restores_witness :
  exists mf, run demo_alu resume_user (demo_return_machine demo_user_machine 200000 8192 160000 tag_first) = Some mf /\
    m_rip mf = m_rip demo_user_machine /\ m_regs mf RSP = 1 /\ m_ss mf = 1 /\ ~ same_cpu demo_user_machine mf.
Proof.
  destruct (resume_user_restores demo_alu tag_first 200000 demo_user_machine (at_handler 200000 demo_user_machine)
              (demo_return_machine demo_user_machine 200000 8192 160000 tag_first) 8192 160000
              (demo_snapshot demo_user_machine 200000)) as (mf & Hrun & _ & Hrip & _ & _ & Hsp & Hss & Hiff).
  - vm_compute; split; [discriminate|reflexivity].
  - vm_compute; split; [discriminate|reflexivity].
  - discriminate.
  - apply at_handler_view. vm_compute; split_and!; [reflexivity|discriminate|discriminate].
  - vm_compute; reflexivity.
  - reflexivity.
  - vm_compute; split_and!; [reflexivity|discriminate|discriminate].
  - apply store_words_holds.
  - reflexivity.
  - vm_compute; split_and!; [reflexivity|discriminate|discriminate].
  - left. vm_compute. discriminate.
  - exists mf. split; [exact Hrun|]. split; [exact Hrip|]. split; [exact Hsp|]. split; [exact Hss|].
    intros Hs. apply Hiff in Hs as [Hs _]. vm_compute in Hs. discriminate.
Defined.

(** Two tasks that switch to each other: contexts at 8192 and 8320. *)
Definition demo_switch_machine : machine :=
  mkMachine (upd_reg (upd_reg demo_file RDI 8192) RSI 8320) 5000 514 8 16
    (store_words (fun a => a mod 977) 8320 (context_words (mkCtx 90000 1 2 3 4 5 6 6000))).
Definition demo_switched : machine := default demo_switch_machine (run demo_alu switch demo_switch_machine).
Definition demo_switch_back : machine :=
  mkMachine (upd_reg (upd_reg (m_regs demo_switched) RDI 8320) RSI 8192) 6100 514 8 16 (m_mem demo_switched).

Lemma switch_back_low_stack_witness :
  exists mf mr, run demo_alu switch demo_switch_back = Some mf /\ exec demo_alu Ret demo_switch_machine = Some mr /\
    m_rip mf = m_rip mr /\ m_regs mr RSP = 140008 /\ m_regs mf RSP = 140000.
Proof.
  destruct (switch_back_low_stack demo_alu demo_switch_machine 8192 8320 (mkCtx 90000 1 2 3 4 5 6 6000)
              demo_switch_back 8320) as (m1 & Hrun & _ & _ & Hback).
  - reflexivity.
  - reflexivity.
  - vm_compute; split_and!; [reflexivity|discriminate|discriminate].
  - vm_compute; split_and!; [reflexivity|discriminate|discriminate].
  - left. vm_compute. discriminate.
  - vm_compute; split_and!; [reflexivity|discriminate|discriminate].
  - right. vm_compute. discriminate.
  - apply store_words_holds.
  - vm_compute; split_and!; [reflexivity|discriminate|discriminate].
  - right. vm_compute. discriminate.
  - reflexivity.
  - reflexivity.
  - vm_compute; split_and!; [reflexivity|discriminate|discriminate].
  - right. vm_compute. discriminate.
  - vm_compute; split_and!; [reflexivity|discriminate|discriminate].
  - right. vm_compute. discriminate.
  - right. vm_compute. discriminate.
  - destruct Hback as (mf & mr & Hmf & Hmr & Hrip & _ & Hr1 & Hr2).
    { intros x _. unfold demo_switch_back, demo_switched. rewrite Hrun. reflexivity. }
    exists mf, mr. split; [exact Hmf|]. split; [exact Hmr|]. split; [exact Hrip|]. split; [exact Hr1|exact Hr2].
Defined.

Definition demo_activation : ActivationRecord := mkActivation (mkTaskId 0 1) 7777 12288.

Lemma bootstrap_reaches_dispatch_witness :
  exists m1 mf, run demo_alu return_to_context
      (mkMachine (upd_reg demo_file RDI 8192) 5000 514 8 16
         (store_words (fun _ => 0) 8192 (context_words (mkCtx 1048568 0 0 12288 0 0 0 6500)))) = Some m1 /\
    run demo_alu (task_trampoline 6600) m1 = Some mf /\ m_rip mf = 6600 /\ m_regs mf RDI = 12288.
Proof.
  destruct (bootstrap_reaches_dispatch demo_alu 1048576 demo_activation 6500 6600
              (mkCtx 1048568 0 0 12288 0 0 0 6500)
              (mkMachine (upd_reg demo_file RDI 8192) 5000 514 8 16
                 (store_words (fun _ => 0) 8192 (context_words (mkCtx 1048568 0 0 12288 0 0 0 6500)))) 8192 true)
    as (m1 & mf & H1 & _ & H2 & Hrip & Hdi & _).
  - vm_compute; split; discriminate.
  - discriminate.
  - reflexivity.
  - reflexivity.
  - vm_compute; split_and!; [reflexivity|discriminate|discriminate].
  - apply store_words_holds.
  - exact I.
  - exists m1, mf. split; [exact H1|]. split; [exact H2|]. split; [exact Hrip|exact Hdi].
Defined.

#[local] Existing Instance canonical_virt_addr.

(** The model of the handler as machine code. *)
Definition demo_syscall_hook (k : Kernel) : machine -> option machine :=
  pointer_handler (fun s frame =>
    match syscall_entry_rust (E := Empty_set) (Some demo_mapping) demo_view demo_kernel_memory (kn_enter k s) frame with
    | (Ok ReturnToStub, k1) => Some (kn_registers k1)
    | _ => None
    end).

Lemma syscall_trap_machine_witness :
  exists m' mf, deliver 200000 8 7000 demo_user_machine = Some m' /\
    run demo_alu (syscall_entry (demo_syscall_hook demo_pair)) m' = Some mf /\
    m_rip mf = 4198404 /\ m_regs mf RAX = 4 /\ m_regs mf RDI = 69630.
Proof.
  destruct (syscall_trap_machine demo_alu 200000 8 7000 (demo_syscall_hook demo_pair) (Some demo_mapping) demo_view
              demo_kernel_memory demo_pair demo_user_machine demo_frame
              (syscall_entry_rust (E := Empty_set) (Some demo_mapping) demo_view demo_kernel_memory
                 (kn_enter demo_pair (saved_of (m_regs demo_user_machine))) demo_frame).2)
    as (m' & mf & Hd & Hrun & [Hr Hrip _ _ _]).
  - apply demo_pair_inv.
  - split; [vm_compute; split; discriminate..|by intros _ _ a _].
  - exact demo_view_contract.
  - vm_compute; split_and!; [reflexivity|discriminate|discriminate].
  - vm_compute; split; [discriminate|reflexivity].
  - vm_compute; split; [discriminate|reflexivity].
  - reflexivity.
  - reflexivity.
  - intros m0 Hv k1 Heq. apply (pointer_handler_returns _ _ _ _ _ Hv).
    rewrite (saved_at_holds _ _ _ (hv_saved _ _ _ Hv)) in Heq. by rewrite Heq.
  - vm_compute. reflexivity.
  - exists m', mf. split; [exact Hd|]. split; [exact Hrun|]. rewrite Hrip, !Hr. split_and!; vm_compute; reflexivity.
Defined.
