(* ===== verification/Masking.v ===== *)
(** * The interrupt flag and preemption

    [docs/CONTEXT_SWITCH_ABI.md] leaves the interrupt-enable state out of a voluntary
    context, and no code of the kernel sets the flag: it comes back only with the flags an
    [iretq] loads.  The handlers are entered with the flag clear, so how a handler leaves
    decides whether the next tick can arrive.  Here is what the bodies of [Asm] do to the
    flag, and what a task finds that a tick starts; [BootMasking] follows the tasks boot
    starts. *)

From stdpp Require Import base numbers sets relations list options.
From S2P Require Import Prelude Tasks Queues Scheduler SchedulerInv SchedulerSteps Memory Frames LoadPlan.
From S2P Require Import Process Execution UserExecution KernelTask Runtime Dispatch SystemRuntime InterruptEntry.
From S2P Require Import Asm AsmProps.

Local Open Scope Z_scope.
Local Open Scope rust_scope.

(** ** The flag on the machine *)

(** Whether the CPU takes maskable interrupts. *)
Definition enabled (m : machine) : bool := Z.testbit (m_rflags m) IF_FLAG.
#[local] Arguments enabled : simpl never.

(** Code that leaves the flag as it is, on every path on which it ends. *)
Definition keeps_flag (f : machine -> option machine) : Prop := forall m m', f m = Some m' -> enabled m' = enabled m.

(** Instructions that do not load the flags; a call of compiled code is judged apart. *)
Definition loads_no_flags (i : instr) : bool := match i with Iretq | Call _ => false | _ => true end.

Section Flag.
Context (alu_flags : Z -> Z -> Z).
Context (alu_keeps : forall flags v, Z.testbit (alu_flags flags v) IF_FLAG = Z.testbit flags IF_FLAG).

Lemma store_flag m a v m' : store m a v = Some m' -> enabled m' = enabled m.
Proof using Type. unfold store. case_match; [|done]. by intros [= <-]. Qed.

Lemma push_flag m v m' : push_word m v = Some m' -> enabled m' = enabled m.
Proof using Type. unfold push_word. intros H%store_flag. done. Qed.

Lemma pop_flag m v m' : pop_word m = Some (v, m') -> enabled m' = enabled m.
Proof using Type. unfold pop_word, load. case_match; [|done]. cbn. by intros [= _ <-]. Qed.

Lemma exec_flag i : loads_no_flags i = true -> keeps_flag (exec alu_flags i).
Proof using alu_keeps.
  intros Hi m m'. destruct i; cbn [exec loads_no_flags] in *; try done.
  - by intros [= <-].
  - destruct (load _ _); [|done]. by intros [= <-].
  - apply store_flag.
  - by intros [= <-].
  - apply push_flag.
  - destruct (load _ _); [|done]. apply push_flag.
  - destruct (pop_word m) as [[v m1]|] eqn:Hp; [|done]. apply pop_flag in Hp. by intros [= <-].
  - intros [= <-]. apply alu_keeps.
  - intros [= <-]. apply alu_keeps.
  - by intros [= <-].
  - destruct (pop_word m) as [[v m1]|] eqn:Hp; [|done]. apply pop_flag in Hp. by intros [= <-].
Qed.

Lemma run_flag p : forallb loads_no_flags p = true -> keeps_flag (run alu_flags p).
Proof using alu_keeps.
  induction p as [|i p IH]; intros Hp m m'; [by intros [= <-]|]. cbn in Hp |- *. to_prop.
  destruct (exec alu_flags i m) as [m1|] eqn:He; [|done]. apply exec_flag in He; [|done]. cbn. rewrite <- He.
  destruct (is_transfer i); [by intros [= <-]|by apply IH].
Qed.

(** Delivery through an interrupt gate clears the flag. *)
Lemma deliver_masks rsp0 kernel_cs handler m m' : deliver rsp0 kernel_cs handler m = Some m' -> enabled m' = false.
Proof using Type.
  unfold deliver. destruct (push_words _ _); [|done]. cbn [mbind option_bind]. intros [= <-]. unfold enabled. cbn [m_rflags].
  by apply Z.clearbit_eq.
Qed.
End Flag.

(** The bodies of the two tasks boot starts: [loop { spin_loop(); }] at their entry. *)
Definition preemption_task_a (entry : Z) : list instr := [Jmp entry].
Definition preemption_task_b (entry : Z) : list instr := [Jmp entry].

(** [n] rounds of a body. *)
Definition rounds (alu_flags : Z -> Z -> Z) (body : list instr) (n : nat) (m : machine) : option machine :=
  Nat.iter n (fun om => m ← om; run alu_flags body m) (Some m).

Lemma spin_rounds alu_flags entry n m :
  m_rip m = entry -> rounds alu_flags (preemption_task_b entry) n m = Some m.
Proof.
  intros Hm. induction n as [|n IH]; [done|]. change (rounds alu_flags (preemption_task_b entry) (S n) m) with
    (m' ← rounds alu_flags (preemption_task_b entry) n m; run alu_flags (preemption_task_b entry) m').
  rewrite IH. cbn. rewrite <- Hm. by destruct m.
Qed.

(** C8: A task that a tick starts for the first time runs with interrupts off, for good.
    A tick in any state [m] enters the timer stub; the handler, which as compiled code
    leaves the flag alone, decides for a task that has never run and calls
    [return_to_context] with its first context.  The CPU then reaches the dispatcher with
    the task's activation record and the flag clear; once the dispatcher has called the
    entry of a task such as [preemption_task_b], the flag is clear after every round. *)
Theorem started_task_masked alu_flags rsp0 kernel_cs handler m m' m0 m2 stack_top activation trampoline dispatch c p :
  (forall flags v, Z.testbit (alu_flags flags v) IF_FLAG = Z.testbit flags IF_FLAG) ->
  deliver rsp0 kernel_cs handler m = Some m' ->
  run alu_flags ((Push <$> save_order) ++ stub_prologue) m' = Some m0 -> enabled m2 = enabled m0 ->
  is_u64 stack_top -> 16 <= stack_top -> bootstrap_context stack_top activation trampoline = Some c ->
  m_regs m2 RDI = p -> points p 8 -> holds (m_mem m2) p (context_words c) ->
  exists m1 mf, run alu_flags return_to_context m2 = Some m1 /\ m_rip m1 = trampoline /\
    run alu_flags (task_trampoline dispatch) m1 = Some mf /\
    m_rip mf = dispatch /\ m_regs mf RDI = act_pointer activation /\ enabled mf = false /\
    forall me n, m_rip me = act_entry activation -> enabled me = enabled mf ->
      exists mn, rounds alu_flags (preemption_task_b (act_entry activation)) n me = Some mn /\ enabled mn = false.
Proof.
  intros Halu Hd Hpro Hh Ht Ht16 Hb Hr Hp Hc.
  destruct (bootstrap_reaches_dispatch alu_flags stack_top activation trampoline dispatch c m2 p true)
    as (m1 & mf & E1 & Hrip & E2 & Hrf & Hdi & _); [done..|].
  assert (Hmf : enabled mf = false).
  { apply (run_flag alu_flags Halu) in E1, E2, Hpro; [|done..]. apply deliver_masks in Hd. congruence. }
  exists m1, mf. split_and!; try done. intros me n Hme He. exists me. split; [by apply spin_rounds|congruence].
Qed.

Section UserEntryFlag.
Context `{VirtAddrCrate}.

(** Entering a process for the first time sets the flag. *)
Lemma user_entry_enables {E} transfer root frame :
  execute_user_transfer (E := E) transfer = Ok (ToUser root (EnterUser frame)) ->
  Z.testbit (uf_rflags frame) IF_FLAG = true.
Proof using Type.
  unfold execute_user_transfer. destruct (ut_validate transfer None) as [u| |] eqn:Hv; [|done..].
  destruct (ut_resume transfer) eqn:Hr; [done|]. intros [= _ <-]. unfold ut_validate in Hv. rewrite Hr in Hv.
  destruct (Z.testbit (uf_rflags (ut_frame transfer)) IF_FLAG) eqn:Ht; [done|]. exfalso.
  assert (Z.land (uf_rflags (ut_frame transfer)) (2 ^ 9) = 0) as Hz.
  { apply Z.bits_inj'. intros i Hi. rewrite Z.land_spec, Z.pow2_bits_eqb, Z.bits_0 by lia.
    destruct (Z.eqb_spec 9 i) as [<-|]; [|by rewrite andb_false_r]. change 9 with IF_FLAG. by rewrite Ht. }
  rewrite Hz, orb_true_r in Hv. repeat (case_match; try done).
Qed.
End UserEntryFlag.

(** ** A machine *)
Lemma demo_alu_keeps flags v : Z.testbit (demo_alu flags v) IF_FLAG = Z.testbit flags IF_FLAG.
Proof.
  unfold demo_alu. case_match; [rewrite Z.lor_spec|rewrite Z.land_spec].
  - by rewrite orb_false_r.
  - by rewrite andb_true_r.
Qed.

(** The machine when the handler calls [return_to_context] on the context of a new task. *)
Definition demo_leaving : machine :=
  let m0 := at_handler 0 demo_kernel_machine in
  mkMachine (upd_reg (m_regs m0) RDI 8192) 7100 (m_rflags m0) 8 16
    (store_words (m_mem m0) 8192 (context_words (mkCtx 1048568 0 0 12288 0 0 0 6500))).

Lemma at_handler_runs rsp0 m :
  points (entry_stack rsp0 m - 192) 24 ->
  exists m', deliver rsp0 8 7000 m = Some m' /\ run demo_alu ((Push <$> save_order) ++ stub_prologue) m' = Some (at_handler rsp0 m).
Proof.
  intros Hp. unfold at_handler.
  destruct (deliver_spec rsp0 8 7000 m) as (m' & -> & Hdl & _); [apply (points_in 19 _ _ _ _ Hp); lia|].
  exists m'. split; [done|]. pose proof (dl_rsp _ _ _ Hdl) as Hsp. cbn [mbind option_bind]. rewrite run_app by done.
  destruct (run_pushes demo_alu save_order m') as (m1 & -> & P1);
    [by apply (bool_decide_unpack _)|apply (points_in 4 _ _ _ _ Hp); cbn; lia|].
  cbn [mbind option_bind].
  destruct (stub_prologue_spec demo_alu m1 (m_regs m' RSP - 120)) as (m0 & -> & _);
    [by rewrite (pd_rsp _ _ _ P1)|apply (points_in 0 _ _ _ _ Hp); lia|done].
Qed.

Lemma started_task_masked_witness :
  enabled demo_kernel_machine = true /\
  exists m1 mf, run demo_alu return_to_context demo_leaving = Some m1 /\
    run demo_alu (task_trampoline 6600) m1 = Some mf /\ m_rip mf = 6600 /\ enabled mf = false /\
    exists mn, rounds demo_alu (preemption_task_b 7777) 1000 (set_rip mf 7777) = Some mn /\ enabled mn = false.
Proof.
  split; [reflexivity|].
  destruct (at_handler_runs 0 demo_kernel_machine) as (m' & Hd & Hrun); [vm_compute; split_and!; [reflexivity|discriminate|discriminate]|].
  destruct (started_task_masked demo_alu 0 8 7000 demo_kernel_machine m' (at_handler 0 demo_kernel_machine) demo_leaving
              1048576 demo_activation 6500 6600 (mkCtx 1048568 0 0 12288 0 0 0 6500) 8192)
    as (m1 & mf & E1 & _ & E2 & Hrip & _ & Hmask & Hspin).
  - exact demo_alu_keeps.
  - exact Hd.
  - exact Hrun.
  - reflexivity.
  - vm_compute; split; discriminate.
  - discriminate.
  - reflexivity.
  - reflexivity.
  - vm_compute; split_and!; [reflexivity|discriminate|discriminate].
  - apply store_words_holds.
  - exists m1, mf. split; [exact E1|]. split; [exact E2|]. split; [exact Hrip|]. split; [exact Hmask|].
    exact (Hspin (set_rip mf 7777) 1000%nat eq_refl eq_refl).
Defined.
