(* ===== verification/BootMasking.v ===== *)
(** * What becomes of the tasks boot starts

    [boot_tasks_rotate] says how the two tasks of [main.rs] share the CPU under the ticks
    the handler is called for.  This file asks for which ticks it is called.  It runs
    kernel and machine together: the timer raises its line at any moment, the CPU delivers
    the request if its interrupt flag is set and leaves it pending if not, the stub of
    [interrupt_entry.rs] calls the handler on the registers and the frame it finds in
    memory, and the handler leaves through the assembly of [preempt_return.rs],
    [user_entry.rs] or the stub; the tasks run their own instructions in between.  The
    flag is what these instructions make of it.

    What the compiler makes of the Rust code between two pieces of assembly is an argument
    ([KernelCode]) with a contract ([kernel_code_ok]). *)

From Stdlib Require Import String.
From stdpp Require Import base numbers sets relations list options.
From S2P Require Import Prelude Tasks Queues Scheduler SchedulerInv SchedulerSteps Memory Frames LoadPlan.
From S2P Require Import Process Execution UserExecution KernelTask Runtime Dispatch SystemRuntime InterruptEntry.
From S2P Require Import KernelManager KernelSleep Rotation SystemProps Asm AsmProps Masking.
From S2P Require Import PageWalk PageTable Acpi Apic Timers Descriptors Heap Boot BootTasks.

Local Open Scope Z_scope.
Local Open Scope rust_scope.
#[local] Arguments enabled : simpl never.

(** The stub behind the call of its handler. *)
Definition stub_epilogue : list instr := [MovRM RAX RSP 0; MovRR RSP RAX] ++ (Pop <$> restore_order) ++ [Iretq].

Lemma timer_entry_parts hook :
  timer_entry hook = ((Push <$> save_order) ++ stub_prologue) ++ Call hook :: stub_epilogue.
Proof. done. Qed.

(** Where the linker put the code, and the code segment of the interrupt gate. *)
Record Linked := mkLinked {
  im_timer_entry : Z;
  im_kernel_cs : Z;
  im_trampoline : Z;
  im_dispatch : Z;
  im_task_a : Z;
  im_task_b : Z;
}.

(** The compiled Rust code. *)
Record KernelCode := mkKernelCode {
  (** [timer_entry_rust] from its call to the body it leaves through, or to its return. *)
  kc_handler : Departure -> machine -> machine;
  (** [task_entry_dispatch] from its entry to the call of the task's entry. *)
  kc_dispatch : Z -> machine -> machine;
  (** The activation records in memory. *)
  kc_activation : Z -> option ActivationRecord;
}.

Section World.
Context `{VirtAddrCrate} (alu_flags : Z -> Z -> Z) (im : Linked) (code : KernelCode).

(** ** Code *)

(** [task_entry_dispatch]: it spins on a null pointer, else calls the entry. *)
Definition dispatcher (m : machine) : option machine :=
  if m_regs m RDI =? 0 then None
  else activation ← kc_activation code (m_regs m RDI); Some (kc_dispatch code (act_entry activation) m).

(** From where a context was loaded: the trampoline, for a task that never ran. *)
Definition enter_context (m : machine) : option machine :=
  if m_rip m =? im_trampoline im
  then m ← run alu_flags (task_trampoline (im_dispatch im)) m; dispatcher m
  else Some m.

(** The assembly the handler leaves through. *)
Definition depart (d : Departure) (m : machine) : option machine :=
  match d with
  | ReturnToStub => run alu_flags stub_epilogue m
  | ToContext _ => m ← run alu_flags return_to_context m; enter_context m
  | ToKernelState _ => run alu_flags return_to_kernel m
  | ToUser _ (EnterUser _) => run alu_flags enter_user m
  | ToUser _ (ResumeUser _) => run alu_flags resume_user m
  end.

(** A timer interrupt: delivery, stub, handler, departure.  [None] if the handler panics
    or the machine faults. *)
Definition take_tick (k : Kernel) (m : machine) : option (Departure * Kernel * machine) :=
  m ← deliver (default 0 (cpu_rsp0 (kn_cpu k))) (im_kernel_cs im) (im_timer_entry im) m;
  m ← run alu_flags ((Push <$> save_order) ++ stub_prologue) m;
  match timer_entry_rust (E := Empty_set) (kn_enter k (saved_at (m_mem m) (m_regs m RDI))) (frame_at (m_mem m) (m_regs m RSI)) with
  | (Ok d, k) => m ← depart d (kc_handler code d m); Some (d, k, m)
  | _ => None
  end.

(** One round of the task that has the CPU. *)
Definition task_round (m : machine) : option machine :=
  if m_rip m =? im_task_a im then run alu_flags (preemption_task_a (im_task_a im)) m
  else if m_rip m =? im_task_b im then run alu_flags (preemption_task_b (im_task_b im)) m
  else None.

(** ** Kernel, machine and the line of the timer *)
Record World := mkWorld {
  w_kernel : Kernel;
  w_machine : machine;
  w_pending : bool;
  w_delivered : list Departure;
}.

Inductive Event := TimerRaises | TaskRound.

#[export] Instance event_eq_dec : EqDecision Event.
Proof. solve_decision. Defined.

(** A pending request is delivered when the flag is set. *)
Definition settle (w : World) : option World :=
  if w_pending w && enabled (w_machine w)
  then '(d, k, m) ← take_tick (w_kernel w) (w_machine w); Some (mkWorld k m false (w_delivered w ++ [d]))
  else Some w.

Definition world_step (w : World) (e : Event) : option World :=
  w ← match e with
      | TimerRaises => Some (mkWorld (w_kernel w) (w_machine w) true (w_delivered w))
      | TaskRound => m ← task_round (w_machine w); Some (mkWorld (w_kernel w) m (w_pending w) (w_delivered w))
      end;
  settle w.

Fixpoint world_run (w : World) (es : list Event) : option World :=
  match es with
  | [] => Some w
  | e :: es => w ← world_step w e; world_run w es
  end.

(** How often the line is raised. *)
Definition raised (es : list Event) : nat := length (filter (eq TimerRaises) es).

(** ** What the compiled code does *)
Record kernel_code_ok : Prop := mk_kernel_code_ok {
  (** The handler runs with the flag clear and has no instruction that sets it; it calls
      [return_to_context] with a pointer to the context. *)
  ko_flag : forall d m, enabled m = false -> enabled (kc_handler code d m) = false;
  ko_context : forall c m, points (m_regs (kc_handler code (ToContext c) m) RDI) 8 /\
    holds (m_mem (kc_handler code (ToContext c) m)) (m_regs (kc_handler code (ToContext c) m) RDI) (context_words c);
  (** The dispatcher calls the entry within a page of stack and leaves the interrupt flag
      and the reserved one alone. *)
  ko_entry : forall e m, m_rip (kc_dispatch code e m) = e /\ m_cs (kc_dispatch code e m) = m_cs m;
  ko_dispatch_flags : forall e m bit, bit = IF_FLAG \/ bit = 1 ->
    Z.testbit (m_rflags (kc_dispatch code e m)) bit = Z.testbit (m_rflags m) bit;
  ko_stack : forall e m, m_regs m RSP - 4096 <= m_regs (kc_dispatch code e m) RSP <= m_regs m RSP;
}.

(** ** Runs *)
Context (alu_keeps : forall flags v, Z.testbit (alu_flags flags v) IF_FLAG = Z.testbit flags IF_FLAG).

(** The CPU is at the start of a round of one of the two tasks. *)
Definition at_task (m : machine) : Prop := m_rip m = im_task_a im \/ m_rip m = im_task_b im.

Lemma round_stays m : at_task m -> task_round m = Some m.
Proof using Type.
  intros Ht. unfold task_round. destruct (Z.eqb_spec (m_rip m) (im_task_a im)) as [Ha|Ha].
  - cbn. rewrite <- Ha. by destruct m.
  - destruct Ht as [Ht|Ht]; [done|]. rewrite (proj2 (Z.eqb_eq _ _) Ht). cbn. rewrite <- Ht. by destruct m.
Qed.

Lemma round_step k m p ds :
  at_task m -> p && enabled m = false -> world_step (mkWorld k m p ds) TaskRound = Some (mkWorld k m p ds).
Proof using Type.
  intros Ht He. unfold world_step. cbn [w_machine w_kernel w_pending w_delivered]. rewrite (round_stays m Ht).
  cbn [mbind option_bind]. unfold settle. cbn [w_machine w_pending]. by rewrite He.
Qed.

Lemma masked_tick k m p ds :
  enabled m = false -> world_step (mkWorld k m p ds) TimerRaises = Some (mkWorld k m true ds).
Proof using Type. intros He. unfold world_step, settle. cbn. by rewrite He. Qed.

(** With the flag clear the task runs on, and requests stay pending. *)
Lemma masked_run es : forall k m p ds,
  at_task m -> enabled m = false ->
  world_run (mkWorld k m p ds) es = Some (mkWorld k m (p || bool_decide (raised es <> 0%nat)) ds).
Proof using Type.
  induction es as [|[] es IH]; intros k m p ds Ht He; cbn [world_run].
  - by rewrite orb_false_r.
  - rewrite masked_tick by done. cbn [mbind option_bind]. rewrite IH by done. by destruct p.
  - rewrite round_step by (done || by rewrite He, andb_false_r). by apply IH.
Qed.

(** With the flag set the task runs on until the first request; if that one leaves a task
    running with the flag clear, it is the last one delivered. *)
Lemma one_tick_run k m d k' m' ds es :
  at_task m -> enabled m = true -> take_tick k m = Some (d, k', m') -> at_task m' -> enabled m' = false ->
  world_run (mkWorld k m false ds) es =
    Some (match raised es with
          | O => mkWorld k m false ds
          | S later => mkWorld k' m' (bool_decide (later <> 0%nat)) (ds ++ [d])
          end).
Proof using Type.
  intros Ht He Htick Ht' He'. induction es as [|[] es IH]; [done|..]; cbn [world_run].
  - unfold world_step at 1. cbn [mbind option_bind w_kernel w_machine w_delivered]. unfold settle.
    cbn [w_machine w_pending w_kernel w_delivered]. rewrite He. cbn [andb]. rewrite Htick. cbn [mbind option_bind].
    rewrite masked_run by done. done.
  - rewrite round_step by done. exact IH.
Qed.

(** ** A tick of kernel code *)
Lemma stub_reached rsp0 m :
  points (entry_stack rsp0 m - 192) 24 ->
  exists m1 m0, deliver rsp0 (im_kernel_cs im) (im_timer_entry im) m = Some m1 /\
    run alu_flags ((Push <$> save_order) ++ stub_prologue) m1 = Some m0 /\ handler_view rsp0 m m0 /\ enabled m0 = false.
Proof using alu_keeps.
  intros Hp. destruct (deliver_spec rsp0 (im_kernel_cs im) (im_timer_entry im) m) as (m1 & Hd & Hdl & _);
    [apply (points_in 19 _ _ _ _ Hp); lia|].
  pose proof (dl_rsp _ _ _ Hdl) as Hsp.
  destruct (run_pushes alu_flags save_order m1) as (m2 & Hpush & P1);
    [by apply (bool_decide_unpack _)|apply (points_in 4 _ _ _ _ Hp); cbn; lia|].
  destruct (stub_prologue_spec alu_flags m2 (m_regs m1 RSP - 120)) as (m0 & Hrun & _);
    [by rewrite (pd_rsp _ _ _ P1)|apply (points_in 0 _ _ _ _ Hp); lia|].
  assert (Hall : run alu_flags ((Push <$> save_order) ++ stub_prologue) m1 = Some m0) by (rewrite run_app, Hpush by done; exact Hrun).
  exists m1, m0. split; [done|]. split; [done|]. split.
  - apply (called_view rsp0 m m1); [done|]. apply (prologue_called alu_flags m1 m2 m0); [done|apply (points_in 0 _ _ _ _ Hp); lia|done].
  - apply (run_flag alu_flags alu_keeps) in Hall; [|done]. rewrite Hall. by apply deliver_masks in Hd.
Qed.

(** Kernel code that can be interrupted: ring 0, the reserved flag set, room on the stack. *)
Record interruptible (m : machine) : Prop := mk_interruptible {
  in_ring : Z.land (m_cs m) 3 = 0;
  in_code : m_rip m <> 0;
  in_reserved : Z.testbit (m_rflags m) 1 = true;
  in_stack : 4096 <= m_regs m RSP <= U64_MAX;
}.

Lemma interruptible_stack rsp0 m :
  interruptible m -> points (entry_stack rsp0 m - 192) 24 /\ 0 <= entry_stack rsp0 m - 40 <= U64_MAX - SAME_CPL_FRAME_BYTES.
Proof using Type.
  intros [Hr _ _ Hs]. unfold entry_stack. rewrite Hr. cbn [Z.eqb].
  change (not_u64 15) with (not_u64 (Z.ones 4)). rewrite (land_mask (m_regs m RSP) 4) by (unfold is_u64; lia). change (2 ^ 4) with 16.
  pose proof (Z.mod_pos_bound (m_regs m RSP) 16 ltac:(lia)) as Hm. pose proof (Z.div_mod (m_regs m RSP) 16 ltac:(lia)) as Hd.
  unfold SAME_CPL_FRAME_BYTES, points, U64_MAX in *. split; [|lia]. split; [|lia].
  replace (_ - 192) with ((2 * (m_regs m RSP / 16) - 24) * 8) by lia. by apply Z.mod_mul.
Qed.

Lemma interruptible_frame rsp0 m m0 :
  interruptible m -> handler_view rsp0 m m0 -> kernel_frame (frame_at (m_mem m0) (m_regs m0 RSI)).
Proof using Type.
  intros Hi [_ Hrsi _ _ _ Hf]. destruct (interruptible_stack rsp0 m Hi) as [_ Hraw]. destruct Hi as [Hr Hc Hb _].
  pose proof (Hf 0%nat _ eq_refl) as H0. pose proof (Hf 1%nat _ eq_refl) as H1. pose proof (Hf 2%nat _ eq_refl) as H2.
  split; unfold irf_cs, irf_rip, irf_rflags, frame_at; cbn [irf_raw irf_word]; [by rewrite H1|by rewrite H0| |by rewrite Hrsi].
  rewrite H2. intros Hz. apply (f_equal (fun z => Z.testbit z 1)) in Hz. by rewrite Z.land_spec, Hb in Hz.
Qed.

Context (Hcode : kernel_code_ok).

(** A new task whose activation record is in memory. *)
Record startable (b : X86ExecutionBinding) (entry top : Z) : Prop := mk_startable {
  st_top : 4096 + 24 <= top - 4096 /\ top <= U64_MAX;
  st_context : exists act, bootstrap_context top act (im_trampoline im) = Some (xb_context b) /\ act_entry act = entry /\
    act_pointer act <> 0 /\ kc_activation code (act_pointer act) = Some act;
}.

Lemma startable_stack b entry top :
  startable b entry top -> points (c_rsp (xb_context b) - 8) 2 /\ top - 16 < c_rsp (xb_context b) <= top.
Proof using Type.
  intros [Ht (act & Hb & _)].
  destruct (bootstrap_context_spec top act (im_trampoline im)) as (c & Hb' & Hal & Hsp & _); [lia|].
  rewrite Hb in Hb'. injection Hb' as <-. split; [|done]. unfold points. unfold U64_MAX in Ht.
  pose proof (Z.div_mod (c_rsp (xb_context b)) 16 ltac:(lia)) as Hd. split_and!; [|lia..].
  replace (c_rsp (xb_context b) - 8) with (2 * (c_rsp (xb_context b) / 16) * 8) by lia. by apply Z.mod_mul.
Qed.

(** The context of a new task is loaded, and its trampoline and the dispatcher run. *)
Lemma context_entered b entry top m m1 f :
  startable b entry top -> cpu_is m1 (switched f (xb_context b)) (c_rip (xb_context b)) (m_rflags m) (m_cs m) (m_ss m) ->
  exists m', enter_context m1 = Some m' /\ m_rip m' = entry /\ enabled m' = enabled m /\ 4096 <= m_regs m' RSP <= U64_MAX /\
    Z.testbit (m_rflags m') 1 = Z.testbit (m_rflags m) 1 /\ m_cs m' = m_cs m.
Proof using Hcode.
  intros [Ht (act & Hb & He & Hnull & Hlive)] [Hr Hi Hf Hc _].
  destruct (bootstrap_context_spec top act (im_trampoline im)) as (c & Hb' & _ & Hsp & Hrip & H12); [lia|].
  rewrite Hb in Hb'. injection Hb' as <-. unfold enter_context. rewrite Hi, Hrip, Z.eqb_refl.
  cbn [task_trampoline run exec is_transfer mbind option_bind]. unfold dispatcher. set (m2 := set_rip _ _).
  assert (H2 : m_regs m2 RDI = act_pointer act) by (unfold m2; reg_simpl; rewrite Hr; exact H12).
  assert (Hs2 : m_regs m2 RSP = c_rsp (xb_context b)) by (unfold m2; reg_simpl; by rewrite Hr).
  rewrite H2, (proj2 (Z.eqb_neq _ _) Hnull), Hlive. cbn [mbind option_bind]. eexists. split; [done|]. rewrite He.
  destruct (ko_entry Hcode entry m2) as [-> ->]. pose proof (ko_stack Hcode entry m2) as Hst. rewrite Hs2 in Hst.
  split; [done|]. split; [|split; [lia|]].
  - unfold enabled. rewrite (ko_dispatch_flags Hcode) by auto. cbn. by rewrite Hf.
  - rewrite (ko_dispatch_flags Hcode) by auto. cbn. by rewrite Hf.
Qed.

(** A tick that reaches a task that never ran starts it, with the flag clear. *)
Lemma tick_starts k p bp x bx rest entry top m :
  rotation (sy_runtime (kn_system k)) (kn_cpu k) p bp ((x, bx) :: rest) -> xb_interrupted bx = None ->
  startable bx entry top -> interruptible m ->
  exists k' m', take_tick k m = Some (ToContext (xb_context bx), k', m') /\
    current (sy_scheduler (kn_system k')) = Some x /\ m_rip m' = entry /\ enabled m' = false.
Proof using alu_keeps Hcode.
  intros Hro Hfresh Hst Hi. unfold take_tick. set (rsp0 := default 0 _).
  destruct (stub_reached rsp0 m (proj1 (interruptible_stack rsp0 m Hi))) as (m1 & m0 & -> & Hrun & Hv & He).
  cbn [mbind option_bind]. rewrite Hrun. cbn [mbind option_bind].
  destruct (tick_rotates k p bp x bx rest (saved_at (m_mem m0) (m_regs m0 RDI), frame_at (m_mem m0) (m_regs m0 RSI)) Hro)
    as (k' & Ht & Hro'); [by apply (interruptible_frame rsp0 m)|]. cbn [fst snd] in Ht. rewrite Ht. clear Ht.
  unfold leave_for. rewrite Hfresh. cbn [depart]. set (m2 := kc_handler code _ m0).
  destruct (ko_context Hcode (xb_context bx) m0) as [Hp Hh]. fold m2 in Hp, Hh.
  destruct (load_context_spec alu_flags m2 RDI (m_regs m2 RDI) (xb_context bx)) as (m3 & E3 & Hcpu & _);
    [done|by apply (bool_decide_unpack _)|done|done|by apply (startable_stack _ _ _ Hst)|].
  change (loads RDI callee_saved ++ [PushM RDI 56; Ret]) with return_to_context in E3. rewrite E3. cbn [mbind option_bind].
  destruct (context_entered bx entry top m2 m3 _ Hst Hcpu) as (m' & E' & Hrip & Hen & _). rewrite E'. cbn [mbind option_bind].
  exists k', m'. split; [done|]. split; [exact (ro_current _ _ _ _ _ Hro')|]. split; [done|].
  rewrite Hen. by apply (ko_flag Hcode).
Qed.

(** Boot calls [switch] to a new task: the context of boot is saved at RDI, the one of the
    task is read at RSI, and neither they nor the two stacks overlap where [switch] writes. *)
Record at_first_switch (b : X86ExecutionBinding) (top : Z) (m : machine) : Prop := mk_first_switch {
  fs_ring : Z.land (m_cs m) 3 = 0;
  fs_reserved : Z.testbit (m_rflags m) 1 = true;
  fs_boot : points (m_regs m RDI) 8;
  fs_task : points (m_regs m RSI) 8;
  fs_apart : m_regs m RDI + 64 <= m_regs m RSI \/ m_regs m RSI + 64 <= m_regs m RDI;
  fs_stack : points (m_regs m RSP) 1;
  fs_stack_apart : m_regs m RSP < m_regs m RDI \/ m_regs m RDI + 64 <= m_regs m RSP;
  fs_task_apart : top <= m_regs m RDI \/ m_regs m RDI + 64 <= top - 24;
  fs_context : holds (m_mem m) (m_regs m RSI) (context_words (xb_context b));
}.

Definition first_dispatch (m : machine) : option machine := m ← run alu_flags switch m; enter_context m.

Lemma first_dispatch_enters b entry top m :
  startable b entry top -> entry <> 0 -> at_first_switch b top m ->
  exists m', first_dispatch m = Some m' /\ m_rip m' = entry /\ enabled m' = enabled m /\ interruptible m'.
Proof using Hcode.
  intros Hst He [Hr Hf Hb Ht Hap Hs Hsa Hta Hc]. destruct (startable_stack _ _ _ Hst) as [Hp Hsp].
  destruct (switch_spec alu_flags m (m_regs m RDI) (m_regs m RSI) (xb_context b)) as (m1 & E1 & Hcpu & _); try done; [lia|].
  destruct (context_entered b entry top m m1 _ Hst Hcpu) as (m' & E' & Hrip & Hen & Hstk & Hbit & Hcs).
  exists m'. unfold first_dispatch. rewrite E1. split; [exact E'|]. split; [done|]. split; [done|].
  split; [by rewrite Hcs|by rewrite Hrip|by rewrite Hbit|done].
Qed.

Lemma made_startable memory t entry b :
  task_memory_ok memory -> made memory t entry b -> km_trampoline memory = im_trampoline im -> km_activation memory <> 0 ->
  kc_activation code (km_activation memory) = Some (mkActivation t entry (km_activation memory)) ->
  startable b entry (xb_stack_base b + xb_stack_len b).
Proof using Type.
  intros [[Hs _] _] Hb Htr Hn Hl. unfold made, X86ExecutionBinding_new in Hb.
  destruct (km_stack memory) as [base|]; [|done]. destruct (Hs base eq_refl) as [H0 Hm]. cbn [ok_or] in Hb.
  destruct (checked_add base KERNEL_STACK_SIZE) as [top|] eqn:Hadd; [|done]. apply checked_add_Some in Hadd as [-> _]. cbn [ok_or] in Hb.
  destruct (bootstrap_context _ _ _) as [c|] eqn:Hc; [|done]. injection Hb as <-. cbn [xb_stack_base xb_stack_len].
  split; [unfold KERNEL_STACK_SIZE in *; lia|]. eexists. cbn [xb_context]. rewrite <- Htr. split; [exact Hc|]. done.
Qed.
End World.

(** The addresses boot gives its tasks are those of the linked kernel, and their activation
    records are in memory. *)
Record linked_ok (im : Linked) (code : KernelCode) (sp : StartParameters) : Prop := mk_linked_ok {
  lk_task_a : im_task_a im = sp_task_a sp;
  lk_task_b : im_task_b im = sp_task_b sp;
  lk_code : sp_task_a sp <> 0;
  lk_trampolines : km_trampoline (sp_memory_a sp) = im_trampoline im /\ km_trampoline (sp_memory_b sp) = im_trampoline im;
  lk_pointers : km_activation (sp_memory_a sp) <> 0 /\ km_activation (sp_memory_b sp) <> 0;
  lk_record_a : kc_activation code (km_activation (sp_memory_a sp)) =
    Some (mkActivation (mkTaskId 0 1) (sp_task_a sp) (km_activation (sp_memory_a sp)));
  lk_record_b : kc_activation code (km_activation (sp_memory_b sp)) =
    Some (mkActivation (mkTaskId 1 1) (sp_task_b sp) (km_activation (sp_memory_b sp)));
}.

(** ** Theorem *)

(** C5: The tasks boot starts do not share the CPU.  Past CPU initialization boot leaves, by
    [switch], for task A, which runs with the interrupt flag boot had.  Whatever rounds the
    tasks then run and however often the timer raises its line: with the flag clear no
    request is delivered, the line stays pending from the first one on, and A keeps the CPU;
    with the flag set the first request is delivered and starts task B, which runs with the
    flag clear, so a later one stays pending and B keeps the CPU.  The flag is the one the entry stub, [switch],
    [return_to_context], the trampoline and the loops of the tasks leave on the machine;
    the compiled handler is assumed not to set it, and the dispatcher to keep it. *)
Theorem boot_tasks_starve {T R H : Type} `{OffsetPageTable T} `{BootRegion R} `{PagingCrate} `{VirtAddrLaw} `{PhysAddrCrate}
    `{Hardware} `{ApicBaseCrate} `{GdtCrate} `{HeapCrate H} (env : BootEnvironment) (memory : Z -> Z) (bi : BootInfo R)
    (userspace : option (list Z * ProcessImage)) (said : list Line) (tables : CpuTables) ended global printed
    (alu_flags : Z -> Z -> Z) (im : Linked) (code : KernelCode) :
  (forall flags v, Z.testbit (alu_flags flags v) IF_FLAG = Z.testbit flags IF_FLAG) ->
  kernel_code_ok code -> linked_ok im code (be_start env) ->
  prepare_userspace memory bi = Ok (userspace, said) -> is_Some (ct_tss tables) ->
  task_memory_ok (sp_memory_a (be_start env)) -> task_memory_ok (sp_memory_b (be_start env)) ->
  boot_after_init (T := T) (H := H) env memory bi userspace tables = Ok (ended, global, printed) ->
  exists ba bb k c, boot_bindings (be_start env) ba bb /\ ended = KernelTasksStarted (TaskContext (mkTaskId 0 1)) k c /\
    forall kn saved m,
      sy_runtime (kn_system kn) = save_context k BootContext saved -> kn_cpu kn = c ->
      at_first_switch ba (xb_stack_base ba + xb_stack_len ba) m ->
      exists ma kn' mb, first_dispatch alu_flags im code m = Some ma /\ m_rip ma = sp_task_a (be_start env) /\
        current (sy_scheduler (kn_system kn')) = Some (mkTaskId 1 1) /\ m_rip mb = sp_task_b (be_start env) /\ enabled mb = false /\
        forall events, world_run alu_flags im code (mkWorld kn ma false []) events =
          Some (match enabled m, raised events with
                | false, requests => mkWorld kn ma (bool_decide (requests <> 0%nat)) []
                | true, O => mkWorld kn ma false []
                | true, S later => mkWorld kn' mb (bool_decide (later <> 0%nat)) [ToContext (xb_context bb)]
                end).
Proof.
  intros Halu Hcode [La Lb Lc [Lta Ltb] [Lpa Lpb] Lra Lrb] Hp Htss Hma Hmb Hboot.
  destruct (boot_rotation (T := T) (H := H) env memory bi userspace said tables ended global printed)
    as (ba & bb & k & c & Hbb & -> & Hro); [done..|]. pose proof Hbb as [_ _ Ha Hb].
  destruct (made_ok _ _ _ _ Hmb Hb) as (_ & _ & Hfresh & _).
  pose proof (made_startable im code _ _ _ _ Hma Ha Lta Lpa Lra) as Hsa.
  pose proof (made_startable im code _ _ _ _ Hmb Hb Ltb Lpb Lrb) as Hsb.
  exists ba, bb, k, c. split; [done|]. split; [done|]. intros kn saved m Hk Hc Hm.
  specialize (Hro saved). rewrite <- Hk, <- Hc in Hro.
  destruct (first_dispatch_enters alu_flags im code Hcode _ _ _ m Hsa Lc Hm) as (ma & Hd & Hrip & Hen & Hi).
  destruct (tick_starts alu_flags im code Halu Hcode kn _ _ _ _ _ _ _ ma Hro Hfresh Hsb Hi) as (kn' & mb & Ht & Hcur & Hripb & Henb).
  exists ma, kn', mb. do 5 (split; [done|]). intros events.
  assert (Ata : at_task im ma) by (left; congruence). assert (Atb : at_task im mb) by (right; congruence).
  rewrite <- Hen. destruct (enabled ma) eqn:He.
  - by rewrite (one_tick_run alu_flags im code kn ma _ kn' mb [] events Ata He Ht Atb Henb).
  - by rewrite masked_run.
Qed.

(** ** The boot of [Boot] on a machine *)
#[local] Existing Instance flat_table.
#[local] Existing Instance x86_paging.
#[local] Existing Instance canonical_virt_addr.
#[local] Existing Instance phys_addr_52.
#[local] Existing Instance demo_hardware.
#[local] Existing Instance demo_apic_base.
#[local] Existing Instance counting_gdt.
#[local] Existing Instance bump_heap.
#[local] Existing Instance canonical_virt_addr_law.

Definition demo_linked : Linked := mkLinked 7000 8 8192 6600 (sp_task_a demo_start) (sp_task_b demo_start).
Definition demo_kernel_code : KernelCode :=
  mkKernelCode
    (fun d m => match d with
                | ToContext c => mkMachine (upd_reg (m_regs m) RDI 400000) (m_rip m) (m_rflags m) (m_cs m) (m_ss m)
                                   (store_words (m_mem m) 400000 (context_words c))
                | _ => m
                end)
    (fun e m => set_rip m e)
    (fun p => if p =? km_activation (sp_memory_a demo_start) then Some (mkActivation (mkTaskId 0 1) (sp_task_a demo_start) p)
              else if p =? km_activation (sp_memory_b demo_start) then Some (mkActivation (mkTaskId 1 1) (sp_task_b demo_start) p)
              else None).

(** Boot at its call of [switch], with the given flags. *)
Definition demo_first_switch (flags : Z) : machine :=
  let c := match X86ExecutionBinding_new (sp_memory_a demo_start) (mkTaskId 0 1) (sp_task_a demo_start) with
           | Ok b => xb_context b | _ => Context_empty end in
  mkMachine (upd_reg (upd_reg (upd_reg (fun _ => 0) RDI 300000) RSI 310000) RSP 500000) 5000 flags 8 16
    (store_words (fun _ => 0) 310000 (context_words c)).

Lemma demo_code_ok : kernel_code_ok demo_kernel_code.
Proof.
  split; try done.
  - by intros [] m.
  - intros c m. cbn [demo_kernel_code kc_handler m_regs m_mem]. split; [vm_compute; split_and!; [reflexivity|discriminate|discriminate]|]. rewrite upd_reg_same. apply store_words_holds.
  - intros e m. cbn. lia.
Qed.

Lemma demo_linked_ok : linked_ok demo_linked demo_kernel_code demo_start.
Proof. split; vm_compute; try split; (reflexivity || discriminate). Qed.

Lemma demo_at_switch flags ba :
  made (sp_memory_a demo_start) (mkTaskId 0 1) (sp_task_a demo_start) ba -> Z.testbit flags 1 = true ->
  at_first_switch ba (xb_stack_base ba + xb_stack_len ba) (demo_first_switch flags).
Proof.
  intros Ha Hf. unfold made in Ha. unfold demo_first_switch. rewrite Ha. vm_compute in Ha. injection Ha as <-.
  split; reg_simpl; try done; cbn [xb_stack_base xb_stack_len]; try (unfold points; lia).
  apply store_words_holds.
Qed.

Definition demo_events : list Event := [TaskRound; TimerRaises; TaskRound; TaskRound; TimerRaises; TaskRound; TimerRaises].

Lemma boot_tasks_starve_witness :
  (exists ma, first_dispatch demo_alu demo_linked demo_kernel_code (demo_first_switch 2) = Some ma /\
     w_delivered <$> world_run demo_alu demo_linked demo_kernel_code (mkWorld demo_running ma false []) demo_events = Some []) /\
  exists ma c, first_dispatch demo_alu demo_linked demo_kernel_code (demo_first_switch 514) = Some ma /\
    w_delivered <$> world_run demo_alu demo_linked demo_kernel_code (mkWorld demo_running ma false []) demo_events = Some [ToContext c].
Proof.
  destruct demo_boot_result as [[[ended global] printed]|e|] eqn:Hb; [|vm_compute in Hb; discriminate Hb..].
  destruct (boot_tasks_starve (T := FlatTable) (H := Bump) demo_environment example_memory demo_boot_info None
    [Text "X11-OS: userspace ramdisk unavailable"%string; Eol] demo_tables ended global printed
    demo_alu demo_linked demo_kernel_code) as (ba & bb & k & c & [_ _ Ha _] & He & Hrun);
    [exact demo_alu_keeps|exact demo_code_ok|exact demo_linked_ok|reflexivity|by eexists
    |apply demo_task_memory; by left|apply demo_task_memory; by right|exact Hb|].
  assert (Hs : demo_started_tasks = (k, c)) by (unfold demo_started_tasks; rewrite Hb, He; reflexivity).
  assert (Hk : sy_runtime (kn_system demo_running) = save_context k BootContext Context_empty) by (unfold demo_running; rewrite Hs; reflexivity).
  assert (Hc : kn_cpu demo_running = c) by (unfold demo_running; rewrite Hs; reflexivity).
  split.
  - destruct (Hrun demo_running Context_empty (demo_first_switch 2) Hk Hc (demo_at_switch 2 ba Ha eq_refl))
      as (ma & kn' & mb & Hd & _ & _ & _ & _ & Hw). exists ma. split; [exact Hd|].
    rewrite (Hw demo_events). reflexivity.
  - destruct (Hrun demo_running Context_empty (demo_first_switch 514) Hk Hc (demo_at_switch 514 ba Ha eq_refl))
      as (ma & kn' & mb & Hd & _ & _ & _ & _ & Hw). exists ma, (xb_context bb). split; [exact Hd|].
    rewrite (Hw demo_events). reflexivity.
Defined.
