(* ===== verification/VoluntarySwitch.v ===== *)
(** * The voluntary-switch self-test

    [arch/x86_64/voluntary_switch.rs]: two tasks A and B and the boot code switch
    A, B, A, boot among themselves, and the test looks at the state byte they leave.
    [task_entry_dispatch], [bootstrap_kernel_context] and [smoke_test] of
    [context_switch.rs] complete the path.

    The test is mostly compiled Rust around the naked [switch], so it is modelled on the
    machine of [Asm].  What the compiler makes of the code between two switches is an
    argument ([Compiled]): a function from the machine that gets control to the machine at
    the next call of [switch], constrained by what the source says there ([compiled_ok]):
    which byte is stored, which contexts are passed, that the locals survive in a register
    the calling convention preserves, and that the code keeps to its own stack. *)

From stdpp Require Import base numbers list options.
From S2P Require Import Prelude Tasks Execution Asm AsmProps.

Local Open Scope Z_scope.

(** ** Constants and layout *)
Definition START : Z := 0.
Definition TASK_A : Z := 1.
Definition TASK_B : Z := 2.
Definition RETURNED_A : Z := 3.

(** [TestState], [repr(C)]: three contexts of 64 bytes and the byte. *)
Definition TS_BOOT : Z := 0.
Definition TS_A : Z := 64.
Definition TS_B : Z := 128.
Definition TS_STATE : Z := 192.
Definition TS_SIZE : Z := 200.

(** The stacks of the two tasks. *)
Definition TEST_STACK : Z := 16 * 1024.

(** Where the loader, the compiler and the heap put things. *)
Record Places := mkPlaces {
  at_state : Z;
  at_top_a : Z;
  at_top_b : Z;
  at_activation_a : Z;
  at_activation_b : Z;
  at_trampoline : Z;
  at_dispatch : Z;
  at_task_a : Z;
  at_task_b : Z;
  (** The return addresses of the calls of [switch] in [run], [task_a] and [task_b]. *)
  at_run_back : Z;
  at_a_back : Z;
  at_a_end : Z;
  at_b_end : Z;
}.

(** The compiled code from a point where it gets control to its next call of [switch]
    (for the dispatcher: to the entry it jumps to). *)
Record Compiled := mkCompiled {
  cd_dispatch : Z -> machine -> machine;
  cd_a_first : machine -> machine;
  cd_a_second : machine -> machine;
  cd_b : machine -> machine;
}.

Section SelfTest.
Context (alu_flags : Z -> Z -> Z) (P : Places) (code : Compiled).

Definition activation_a : ActivationRecord := mkActivation (mkTaskId 0 1) (at_task_a P) (at_activation_a P).
Definition activation_b : ActivationRecord := mkActivation (mkTaskId 1 1) (at_task_b P) (at_activation_b P).

(** The live activation records, by address. *)
Definition live_activation (pointer : Z) : option ActivationRecord :=
  if pointer =? act_pointer activation_a then Some activation_a
  else if pointer =? act_pointer activation_b then Some activation_b else None.

(** [task_entry_dispatch]: the entry it calls; it spins on a null pointer. *)
Definition task_entry_dispatch (activation : Z) : option Z :=
  if activation =? 0 then None else act_entry <$> live_activation activation.

Definition bootstrap_kernel_context (stack_top : Z) (activation : ActivationRecord) : option Context :=
  bootstrap_context stack_top activation (at_trampoline P).

Definition with_r13 (c : Context) (v : Z) : Context :=
  mkCtx (c_rsp c) (c_rbp c) (c_rbx c) (c_r12 c) v (c_r14 c) (c_r15 c) (c_rip c).

(** The contexts [run] stores in the test state. *)
Definition run_contexts : option (Context * Context) :=
  a ← bootstrap_kernel_context (at_top_a P) activation_a;
  b ← bootstrap_kernel_context (at_top_b P) activation_b;
  Some (with_r13 a (at_state P), with_r13 b (at_state P)).

(** The byte [state.state], in the low byte of its word. *)
Definition state_byte (m : machine) : Z := m_mem m (at_state P + TS_STATE) mod 256.

(** One piece of code, with the state byte seen by the calls of [switch]. *)
Definition vs_call (m : machine) : option (list Z * machine) :=
  m' ← run alu_flags switch m; Some ([state_byte m], m').

Definition vs_step (m : machine) : option (list Z * machine) :=
  let at_ a := m_rip m =? a in
  if at_ (at_trampoline P) then m' ← run alu_flags (task_trampoline (at_dispatch P)) m; Some ([], m')
  else if at_ (at_dispatch P) then e ← task_entry_dispatch (m_regs m RDI); Some ([], cd_dispatch code e m)
  else if at_ (at_task_a P) then vs_call (cd_a_first code m)
  else if at_ (at_a_back P) then vs_call (cd_a_second code m)
  else if at_ (at_task_b P) then vs_call (cd_b code m)
  else None.

(** Until the boot code is back behind its call of [switch]. *)
Fixpoint vs_loop (fuel : nat) (m : machine) : option (list Z * machine) :=
  match fuel with
  | O => None
  | S fuel =>
      if m_rip m =? at_run_back P then Some ([], m)
      else '(seen, m') ← vs_step m; '(later, mf) ← vs_loop fuel m'; Some (seen ++ later, mf)
  end.

(** How the compiled [run] addresses its local [state] after the call. *)
Inductive Addressing := ByRegister (r : reg) | ByStack (offset : Z).

Definition state_place (mode : Addressing) (m : machine) : Z :=
  match mode with ByRegister r => m_regs m r | ByStack offset => m_regs m RSP + offset end.

(** [run]; [enter a b] is the machine at its call of [switch], with the contexts stored.
    The result is nothing when the test never comes back. *)
Definition run_test (fuel : nat) (enter : Context -> Context -> machine) (mode : Addressing)
  : option (list Z * bool) :=
  match run_contexts with
  | None => Some ([], false)
  | Some (a, b) =>
      '(seen, m) ← vs_call (enter a b);
      '(later, mf) ← vs_loop fuel m;
      Some (seen ++ later, m_mem mf (state_place mode mf + TS_STATE) mod 256 =? RETURNED_A)
  end.

(** [smoke_test] *)
Definition smoke_test := run_test.

(** ** What the compiled code does *)

(** The registers [switch] preserves, but the stack pointer. *)
Definition preserved_regs : list reg := [RBP; RBX; R12; R13; R14; R15].

(** The code of a task with its stack below [top] moves the stack pointer down by at
    most a frame, at least by the [pushed] bytes of a call, and writes only to its own
    stack and the state byte. *)
Record keeps_to_stack (top pushed : Z) (m m' : machine) : Prop := mk_keeps {
  ks_frame : m_regs m RSP - 1024 <= m_regs m' RSP <= m_regs m RSP - pushed;
  ks_memory : forall x, x < top - TEST_STACK \/ top <= x -> x <> at_state P + TS_STATE -> m_mem m' x = m_mem m x;
}.

(** [m'] is about to execute [switch(current, next)], called with return address [back],
    after the store of [byte]. *)
Record at_switch (m' : machine) (back current next byte : Z) : Prop := mk_at_switch {
  sw_rdi : m_regs m' RDI = current;
  sw_rsi : m_regs m' RSI = next;
  sw_return : m_mem m' (m_regs m' RSP) = back;
  sw_aligned : m_regs m' RSP mod 8 = 0;
  sw_byte : state_byte m' = byte;
}.

(** The stack pointer is in the upper quarter of the stack. *)
Definition on_stack (top : Z) (m : machine) : Prop := top - 4096 <= m_regs m RSP <= top.

Record compiled_ok (keep : reg) : Prop := mk_compiled_ok {
  (** The dispatcher jumps to the entry with R13 as it was. *)
  co_dispatch : forall top e m, m_rip m = at_dispatch P ->
    m_rip (cd_dispatch code e m) = e /\ m_regs (cd_dispatch code e m) R13 = m_regs m R13 /\
    (on_stack top m -> keeps_to_stack top 0 m (cd_dispatch code e m) /\ state_byte (cd_dispatch code e m) = state_byte m);
  (** [task_a] up to its first switch; the local [state_ptr] goes to the register [keep]. *)
  co_a_first : forall m, m_rip m = at_task_a P -> on_stack (at_top_a P) m ->
    keeps_to_stack (at_top_a P) 8 m (cd_a_first code m) /\
    at_switch (cd_a_first code m) (at_a_back P) (m_regs m R13 + TS_A) (m_regs m R13 + TS_B) TASK_A /\
    m_regs (cd_a_first code m) keep = m_regs m R13;
  co_a_second : forall m, m_rip m = at_a_back P -> on_stack (at_top_a P) m ->
    keeps_to_stack (at_top_a P) 8 m (cd_a_second code m) /\
    at_switch (cd_a_second code m) (at_a_end P) (m_regs m keep + TS_A) (m_regs m keep + TS_BOOT) RETURNED_A;
  co_b : forall m, m_rip m = at_task_b P -> on_stack (at_top_b P) m ->
    keeps_to_stack (at_top_b P) 8 m (cd_b code m) /\
    at_switch (cd_b code m) (at_b_end P) (m_regs m R13 + TS_B) (m_regs m R13 + TS_A) TASK_B;
}.

Definition apart (a n b k : Z) : Prop := a + n <= b \/ b + k <= a.

(** The addresses are the ones of a linked program: the code is distinct, the state,
    the stacks and the frame [sp] of [run] do not overlap. *)
Record places_ok (sp : Z) : Prop := mk_places_ok {
  pl_state : points (at_state P) 25;
  pl_top_a : TEST_STACK <= at_top_a P <= U64_MAX;
  pl_top_b : TEST_STACK <= at_top_b P <= U64_MAX;
  pl_sp : points (sp - 8) 2;
  pl_code : NoDup [at_trampoline P; at_dispatch P; at_task_a P; at_task_b P; at_run_back P; at_a_back P];
  pl_activations : at_activation_a P <> 0 /\ at_activation_b P <> 0 /\ at_activation_a P <> at_activation_b P;
  pl_a : apart (at_top_a P - TEST_STACK) TEST_STACK (at_state P) TS_SIZE;
  pl_b : apart (at_top_b P - TEST_STACK) TEST_STACK (at_state P) TS_SIZE;
  pl_ab : apart (at_top_a P - TEST_STACK) TEST_STACK (at_top_b P - TEST_STACK) TEST_STACK;
  pl_sp_state : apart (sp - 8) 16 (at_state P) TS_SIZE;
  pl_sp_a : apart (sp - 8) 16 (at_top_a P - TEST_STACK) TEST_STACK;
  pl_sp_b : apart (sp - 8) 16 (at_top_b P - TEST_STACK) TEST_STACK;
}.

(** [run] at its call of [switch]. *)
Record entered (m : machine) (a b : Context) : Prop := mk_entered {
  en_switch : at_switch m (at_run_back P) (at_state P + TS_BOOT) (at_state P + TS_A) START;
  en_a : holds (m_mem m) (at_state P + TS_A) (context_words a);
  en_b : holds (m_mem m) (at_state P + TS_B) (context_words b);
}.

(** ** Running it *)
Lemma preserved_switched f rip g r : r ∈ preserved_regs -> AsmProps.switched f (context_of rip g) r = g r.
Proof using Type. unfold preserved_regs. rewrite !elem_of_cons. by intros [->|[->|[->|[->|[->|[->|[]%not_elem_of_nil]]]]]]. Qed.

(** A call of [switch] into a context, as a step. *)
Lemma vs_call_spec m back cur nxt byte c :
  at_switch m back cur nxt byte -> points cur 8 -> points nxt 8 -> apart cur 64 nxt 64 ->
  points (m_regs m RSP) 1 -> apart (m_regs m RSP) 8 cur 64 ->
  holds (m_mem m) nxt (context_words c) -> points (c_rsp c - 8) 2 -> apart (c_rsp c - 8) 8 cur 64 ->
  exists mf, vs_call m = Some ([byte], mf) /\ m_rip mf = c_rip c /\
    (forall r, r ∈ RSP :: preserved_regs -> m_regs mf r = AsmProps.switched (m_regs m) c r) /\
    holds (m_mem mf) cur (context_words (context_of back (m_regs m))) /\
    (forall x, x < cur \/ cur + 64 <= x -> x <> c_rsp c - 8 -> m_mem mf x = m_mem m x).
Proof using Type.
  intros [Hdi Hsi Hret _ Hby] Hc Hn Hap Hs Hsa Hh Hcs Hca. unfold apart in *.
  destruct (switch_spec alu_flags m cur nxt c) as (mf & E & [Hr Hi _ _ _] & Hsave & Hmem); [done || lia..|].
  unfold vs_call. rewrite E, Hby, Hret in *. cbn [mbind option_bind]. exists mf. split_and!; try done.
  intros r Hin. rewrite Hr. revert Hin. unfold preserved_regs. rewrite !elem_of_cons.
  by intros [->|[->|[->|[->|[->|[->|[->|[]%not_elem_of_nil]]]]]]].
Qed.

(** The context of a task not started yet. *)
Definition fresh_context (top : Z) (act : ActivationRecord) (c : Context) : Prop :=
  c_rsp c mod 16 = 8 /\ top - 16 < c_rsp c <= top /\ c_rip c = at_trampoline P /\ c_r12 c = act_pointer act /\
  c_r13 c = at_state P.

Lemma bootstrap_fresh top act :
  TEST_STACK <= top <= U64_MAX ->
  exists c, bootstrap_kernel_context top act = Some c /\ fresh_context top act (with_r13 c (at_state P)).
Proof using Type.
  intros Ht. unfold bootstrap_kernel_context, TEST_STACK in *.
  destruct (bootstrap_context_spec top act (at_trampoline P)) as (c & -> & H1 & H2 & H3 & H4); [lia|].
  exists c. split; [done|]. by split.
Qed.

Lemma fresh_points top act c : fresh_context top act c -> TEST_STACK <= top <= U64_MAX -> points (c_rsp c - 8) 2.
Proof using Type.
  intros (Hm & Hr & _) Ht. unfold TEST_STACK in *.
  pose proof (Z.div_mod (c_rsp c) 16 ltac:(lia)) as Hd. split_and!; [|lia|ulia].
  replace (c_rsp c - 8) with (2 * (c_rsp c / 16) * 8) by lia. by apply Z.mod_mul.
Qed.

(** *** Steps by address *)
Section Steps.
Context (sp : Z) (Hpl : places_ok sp).

Lemma step_trampoline m :
  m_rip m = at_trampoline P ->
  exists m', vs_step m = Some ([], m') /\ m_rip m' = at_dispatch P /\ m_regs m' RDI = m_regs m R12 /\
    (forall r, r <> RDI -> m_regs m' r = m_regs m r) /\ m_mem m' = m_mem m.
Proof using Type.
  intros Hr. unfold vs_step. rewrite Hr, Z.eqb_refl. cbn. eexists. split; [done|]. reg_simpl. split; [done|]. split; [done|].
  split; [|done]. intros r Hne. by rewrite upd_reg_other.
Qed.

(** Code addresses are told apart. *)
Lemma step_dispatch m e :
  m_rip m = at_dispatch P -> task_entry_dispatch (m_regs m RDI) = Some e ->
  vs_step m = Some ([], cd_dispatch code e m).
Proof using Type*.
  intros Hr He. pose proof (pl_code _ Hpl) as Hnd. rewrite !NoDup_cons, !not_elem_of_cons in Hnd.
  unfold vs_step. rewrite Hr, Z.eqb_refl, (proj2 (Z.eqb_neq _ _)), He by naive_solver. done.
Qed.

Lemma step_a_first m : m_rip m = at_task_a P -> vs_step m = vs_call (cd_a_first code m).
Proof using Type*.
  intros Hr. pose proof (pl_code _ Hpl) as Hnd. rewrite !NoDup_cons, !not_elem_of_cons in Hnd.
  unfold vs_step. rewrite Hr, Z.eqb_refl, !(proj2 (Z.eqb_neq _ _)) by naive_solver. done.
Qed.

Lemma step_a_second m : m_rip m = at_a_back P -> vs_step m = vs_call (cd_a_second code m).
Proof using Type*.
  intros Hr. pose proof (pl_code _ Hpl) as Hnd. rewrite !NoDup_cons, !not_elem_of_cons in Hnd.
  unfold vs_step. rewrite Hr, Z.eqb_refl, !(proj2 (Z.eqb_neq _ _)) by naive_solver. done.
Qed.

Lemma step_b m : m_rip m = at_task_b P -> vs_step m = vs_call (cd_b code m).
Proof using Type*.
  intros Hr. pose proof (pl_code _ Hpl) as Hnd. rewrite !NoDup_cons, !not_elem_of_cons in Hnd.
  unfold vs_step. rewrite Hr, Z.eqb_refl, !(proj2 (Z.eqb_neq _ _)) by naive_solver. done.
Qed.

Lemma loop_step fuel m seen m' :
  m_rip m <> at_run_back P -> vs_step m = Some (seen, m') ->
  vs_loop (S fuel) m = ('(later, mf) ← vs_loop fuel m'; Some (seen ++ later, mf)).
Proof using Type. intros Hr Hs. cbn [vs_loop]. by rewrite (proj2 (Z.eqb_neq _ _) Hr), Hs. Qed.

Lemma loop_end fuel m : m_rip m = at_run_back P -> vs_loop (S fuel) m = Some ([], m).
Proof using Type. intros Hr. cbn [vs_loop]. by rewrite Hr, Z.eqb_refl. Qed.

(** *** Starting a task *)

(** The machine in the function of a task just started on the stack below [top]: the
    state is in R13, the context of the caller [m] is saved at [cur], and nothing else
    changed but that stack. *)
Record started (top e back cur : Z) (m m3 : machine) : Prop := mk_started {
  sd_rip : m_rip m3 = e;
  sd_r13 : m_regs m3 R13 = at_state P;
  sd_rsp : top - 1040 <= m_regs m3 RSP <= top;
  sd_saved : holds (m_mem m3) cur (context_words (context_of back (m_regs m)));
  sd_byte : state_byte m3 = state_byte m;
  sd_memory : forall x, x < cur \/ cur + 64 <= x -> x < top - TEST_STACK \/ top <= x ->
    x <> at_state P + TS_STATE -> m_mem m3 x = m_mem m x;
}.

Lemma task_starts keep top act m back cur nxt byte c :
  compiled_ok keep -> at_switch m back cur nxt byte -> points cur 8 -> points nxt 8 -> apart cur 64 nxt 64 ->
  points (m_regs m RSP) 1 -> apart (m_regs m RSP) 8 cur 64 ->
  holds (m_mem m) nxt (context_words c) -> fresh_context top act c -> TEST_STACK <= top <= U64_MAX ->
  apart (top - TEST_STACK) TEST_STACK cur 64 -> apart (top - TEST_STACK) TEST_STACK (at_state P) TS_SIZE ->
  apart cur 64 (at_state P + TS_STATE) 8 ->
  task_entry_dispatch (act_pointer act) = Some (act_entry act) -> at_trampoline P <> at_run_back P ->
  at_dispatch P <> at_run_back P ->
  exists m1 m3, vs_call m = Some ([byte], m1) /\ started top (act_entry act) back cur m m3 /\
    forall fuel, vs_loop (S (S fuel)) m1 = vs_loop fuel m3.
Proof using Type*.
  intros Hco Hsw Hc Hn Hap Hs Hsa Hh Hf Ht Hst Hss Hcs He Hne1 Hne2.
  pose proof (fresh_points _ _ _ Hf Ht) as Hfp. destruct Hf as (_ & Hrsp & Hrip & H12 & H13). unfold apart, TEST_STACK, TS_SIZE, TS_STATE in *.
  destruct (vs_call_spec m back cur nxt byte c) as (m1 & E1 & R1 & G1 & S1 & M1); try done; [unfold apart; lia|].
  destruct (step_trampoline m1) as (m2 & E2 & R2 & D2 & G2 & M2); [congruence|].
  assert (Hrdi : m_regs m2 RDI = act_pointer act) by (rewrite D2, G1 by (apply (bool_decide_unpack _); done); done).
  assert (Hsp2 : m_regs m2 RSP = c_rsp c) by (rewrite G2, G1 by (done || apply (bool_decide_unpack _); done); done).
  set (m3 := cd_dispatch code (act_entry act) m2).
  destruct (co_dispatch _ Hco top (act_entry act) m2 R2) as (R3 & K3 & Hstk). fold m3 in R3, K3, Hstk.
  destruct Hstk as [[F3 M3] B3]; [unfold on_stack; lia|]. unfold TEST_STACK, TS_STATE in M3.
  assert (Hall : forall x, x < cur \/ cur + 64 <= x -> x < top - 16384 \/ top <= x ->
    x <> at_state P + 192 -> m_mem m3 x = m_mem m x) by (intros x H1 H2 H3; rewrite M3, M2 by lia; apply M1; lia).
  exists m1, m3. split; [done|]. split; [split|].
  - done.
  - rewrite K3, G2, G1 by (done || apply (bool_decide_unpack _); done). done.
  - lia.
  - apply (holds_ext (m_mem m1)); [|done]. cbn. intros x Hx. rewrite M3, M2 by lia. done.
  - rewrite B3. unfold state_byte, TS_STATE. rewrite M2, M1 by lia. done.
  - exact Hall.
  - intros fuel. rewrite (loop_step (S fuel) m1 [] m2) by (done || congruence).
    rewrite (loop_step fuel m2 [] m3); [|congruence|apply step_dispatch; [done|by rewrite Hrdi]].
    by destruct (vs_loop fuel m3) as [[]|].
Qed.

(** *** The four switches *)
Context (keep : reg) (Hkeep : keep ∈ preserved_regs) (Hco : compiled_ok keep).

Lemma entry_found :
  task_entry_dispatch (act_pointer activation_a) = Some (at_task_a P) /\
  task_entry_dispatch (act_pointer activation_b) = Some (at_task_b P).
Proof using Hpl.
  destruct (pl_activations _ Hpl) as (Ha & Hb & Hab). unfold task_entry_dispatch, live_activation. cbn.
  rewrite !Z.eqb_refl, (proj2 (Z.eqb_neq _ _) Ha), (proj2 (Z.eqb_neq _ _) Hb).
  by rewrite (proj2 (Z.eqb_neq (at_activation_b P) (at_activation_a P))).
Qed.

Lemma code_apart :
  at_trampoline P <> at_run_back P /\ at_dispatch P <> at_run_back P /\ at_task_a P <> at_run_back P /\
  at_task_b P <> at_run_back P /\ at_a_back P <> at_run_back P.
Proof using Hpl. pose proof (pl_code _ Hpl) as Hnd. rewrite !NoDup_cons, !not_elem_of_cons in Hnd. clear -Hnd. naive_solver. Qed.

Lemma state_points off : off = TS_BOOT \/ off = TS_A \/ off = TS_B -> points (at_state P + off) 8.
Proof using Hpl.
  intros Ho. unfold TS_BOOT, TS_A, TS_B in *.
  destruct Ho as [->|[->| ->]]; [eapply (points_in 0)|eapply (points_in 8)|eapply (points_in 16)];
    (apply (pl_state _ Hpl) || lia).
Qed.

(** Boot enters A, which runs to its first switch. *)
Lemma boot_enters_a m0 a b :
  entered m0 a b -> m_regs m0 RSP = sp -> fresh_context (at_top_a P) activation_a a ->
  exists m1 m5, vs_call m0 = Some ([START], m1) /\
    at_switch m5 (at_a_back P) (at_state P + TS_A) (at_state P + TS_B) TASK_A /\ m_regs m5 keep = at_state P /\
    at_top_a P - 2064 <= m_regs m5 RSP <= at_top_a P - 8 /\
    holds (m_mem m5) (at_state P + TS_BOOT) (context_words (context_of (at_run_back P) (m_regs m0))) /\
    holds (m_mem m5) (at_state P + TS_B) (context_words b) /\
    forall fuel, vs_loop (S (S (S fuel))) m1 =
      ('(seen, m') ← vs_call m5; '(later, mf) ← vs_loop fuel m'; Some (seen ++ later, mf)).
Proof using Hpl Hkeep Hco.
  intros [Hsw Ha Hb] Hsp Hf. destruct entry_found as [He _]. destruct code_apart as (N1 & N2 & N3 & _).
  pose proof (pl_sp _ Hpl) as Hpsp. pose proof Hpl as [_ Hta _ _ _ _ Hpa _ _ Hps _ _].
  unfold apart, TS_BOOT, TS_A, TS_B, TS_SIZE, TS_STATE, TEST_STACK in *.
  destruct (task_starts keep (at_top_a P) activation_a m0 (at_run_back P) (at_state P + 0) (at_state P + 64) START a)
    as (m1 & mA & E1 & HA & Hloop); try done; unfold apart, TS_SIZE, TS_STATE, TEST_STACK; try lia;
    [apply (state_points TS_BOOT); auto|apply (state_points TS_A); auto|rewrite Hsp; apply (points_in 1 _ _ _ _ Hpsp); lia|].
  destruct HA as [RA HA13 HAsp HAs _ HAm]. change (act_entry activation_a) with (at_task_a P) in RA. unfold TEST_STACK, TS_STATE in HAm.
  destruct (co_a_first _ Hco mA RA) as ([F5 M5] & Hsw5 & Hk5); [unfold on_stack; lia|].
  rewrite HA13 in Hsw5, Hk5. unfold TEST_STACK, TS_STATE in M5.
  exists m1, (cd_a_first code mA). split; [done|]. split; [done|]. split; [done|]. split; [lia|]. split; [|split].
  - apply (holds_ext (m_mem mA)); [|done]. cbn. intros x Hx. apply M5; lia.
  - apply (holds_ext (m_mem m0)); [|done]. cbn. intros x Hx. rewrite M5, HAm by lia. done.
  - intros fuel. rewrite Hloop. cbn [vs_loop]. rewrite RA, (proj2 (Z.eqb_neq _ _) N3), step_a_first by done. done.
Qed.

(** A enters B, which runs to its switch. *)
Lemma a_enters_b m5 b boot :
  at_switch m5 (at_a_back P) (at_state P + TS_A) (at_state P + TS_B) TASK_A ->
  at_top_a P - 2064 <= m_regs m5 RSP <= at_top_a P - 8 ->
  holds (m_mem m5) (at_state P + TS_BOOT) (context_words boot) ->
  holds (m_mem m5) (at_state P + TS_B) (context_words b) -> fresh_context (at_top_b P) activation_b b ->
  exists m6 m9, vs_call m5 = Some ([TASK_A], m6) /\
    at_switch m9 (at_b_end P) (at_state P + TS_B) (at_state P + TS_A) TASK_B /\
    at_top_b P - 2064 <= m_regs m9 RSP <= at_top_b P - 8 /\
    holds (m_mem m9) (at_state P + TS_BOOT) (context_words boot) /\
    holds (m_mem m9) (at_state P + TS_A) (context_words (context_of (at_a_back P) (m_regs m5))) /\
    forall fuel, vs_loop (S (S (S fuel))) m6 =
      ('(seen, m') ← vs_call m9; '(later, mf) ← vs_loop fuel m'; Some (seen ++ later, mf)).
Proof using Hpl Hkeep Hco.
  intros Hsw Hsp Hboot Hb Hf. destruct entry_found as [_ He]. destruct code_apart as (N1 & N2 & _ & N4 & _).
  pose proof Hpl as [_ Hta Htb _ _ _ Hpa Hpb _ _ _ _]. pose proof (sw_aligned _ _ _ _ _ Hsw) as Hal.
  unfold apart, TS_BOOT, TS_A, TS_B, TS_SIZE, TS_STATE, TEST_STACK in *.
  destruct (task_starts keep (at_top_b P) activation_b m5 (at_a_back P) (at_state P + 64) (at_state P + 128) TASK_A b)
    as (m6 & mB & E1 & HB & Hloop); try done; unfold apart, TS_SIZE, TS_STATE, TEST_STACK; try lia;
    [apply (state_points TS_A); auto|apply (state_points TS_B); auto|split_and!; [done|lia|ulia]|].
  destruct HB as [RB HB13 HBsp HBs _ HBm]. change (act_entry activation_b) with (at_task_b P) in RB.
  unfold TEST_STACK, TS_STATE in HBm.
  destruct (co_b _ Hco mB RB) as ([F9 M9] & Hsw9); [unfold on_stack; lia|].
  rewrite HB13 in Hsw9. unfold TEST_STACK, TS_STATE in M9.
  exists m6, (cd_b code mB). split; [done|]. split; [done|]. split; [lia|]. split; [|split].
  - apply (holds_ext (m_mem m5)); [|done]. cbn. intros x Hx. rewrite M9, HBm by lia. done.
  - apply (holds_ext (m_mem mB)); [|done]. cbn. intros x Hx. apply M9; lia.
  - intros fuel. rewrite Hloop. cbn [vs_loop]. rewrite RB, (proj2 (Z.eqb_neq _ _) N4), step_b by done. done.
Qed.

(** B returns to A, and A to the boot code, whose machine at its call was [m0]. *)
Lemma back_to_boot m0 m5 m9 :
  at_switch m9 (at_b_end P) (at_state P + TS_B) (at_state P + TS_A) TASK_B ->
  m_regs m0 RSP = sp -> m_regs m5 keep = at_state P ->
  at_top_a P - 2064 <= m_regs m5 RSP <= at_top_a P - 8 -> m_regs m5 RSP mod 8 = 0 ->
  at_top_b P - 2064 <= m_regs m9 RSP <= at_top_b P - 8 ->
  holds (m_mem m9) (at_state P + TS_BOOT) (context_words (context_of (at_run_back P) (m_regs m0))) ->
  holds (m_mem m9) (at_state P + TS_A) (context_words (context_of (at_a_back P) (m_regs m5))) ->
  exists m10 mf, vs_call m9 = Some ([TASK_B], m10) /\ vs_loop 2 m10 = Some ([RETURNED_A], mf) /\
    m_rip mf = at_run_back P /\ m_regs mf RSP = sp /\ (forall r, r ∈ preserved_regs -> m_regs mf r = m_regs m0 r) /\
    state_byte mf = RETURNED_A /\ m_mem mf (at_state P + TS_B + 56) = at_b_end P.
Proof using Hpl Hkeep Hco.
  intros Hsw9 Hsp Hk5 Hr5 Hal5 Hr9 Hboot Ha. destruct code_apart as (_ & _ & _ & _ & N5).
  pose proof Hpl as [_ Hta Htb Hpsp _ _ Hpa Hpb Hpab Hps Hpsa Hpsb]. pose proof (sw_aligned _ _ _ _ _ Hsw9) as Hal9.
  unfold apart, TS_BOOT, TS_A, TS_B, TS_SIZE, TS_STATE, TEST_STACK in *.
  destruct (vs_call_spec m9 (at_b_end P) (at_state P + 128) (at_state P + 64) TASK_B (context_of (at_a_back P) (m_regs m5)))
    as (m10 & E10 & R10 & G10 & S10 & M10); try done; unfold apart; cbn [c_rsp context_of]; try lia;
    [apply (state_points TS_B); auto|apply (state_points TS_A); auto|split_and!; [done|lia|ulia]| |].
  { split_and!; [|lia|ulia]. rewrite Zminus_mod, Hal5. done. }
  cbn [c_rip c_rsp context_of] in R10, M10.
  assert (Hk10 : m_regs m10 keep = at_state P) by (rewrite G10 by (by right); by rewrite preserved_switched).
  assert (Hsp10 : m_regs m10 RSP = m_regs m5 RSP) by (by rewrite G10 by left).
  destruct (co_a_second _ Hco m10 R10) as ([F11 M11] & Hsw11); [unfold on_stack; lia|].
  rewrite Hk10 in Hsw11. unfold TEST_STACK, TS_STATE, TS_A, TS_BOOT in *. rewrite Hsp10 in F11.
  set (m11 := cd_a_second code m10) in *. pose proof (sw_aligned _ _ _ _ _ Hsw11) as Hal11.
  destruct (vs_call_spec m11 (at_a_end P) (at_state P + 64) (at_state P + 0) RETURNED_A (context_of (at_run_back P) (m_regs m0)))
    as (mf & E12 & R12 & G12 & S12 & M12); try done; unfold apart; cbn [c_rsp context_of]; rewrite ?Hsp; try lia;
    [apply (state_points TS_A); auto|apply (state_points TS_BOOT); auto|split_and!; [done|lia|ulia]| |done|].
  { apply (holds_ext (m_mem m9)); [|done]. cbn. intros x Hx. rewrite M11, M10 by lia. done. }
  cbn [c_rip c_rsp context_of] in R12, M12. rewrite Hsp in M12.
  exists m10, mf. split; [done|]. split.
  { cbn [vs_loop]. rewrite R10, (proj2 (Z.eqb_neq _ _) N5), step_a_second by done. fold m11. rewrite E12.
    cbn [mbind option_bind]. by rewrite R12, Z.eqb_refl. }
  split; [done|]. split; [by rewrite G12 by left|]. split; [|split].
  - intros r Hr. rewrite G12 by (by right). by apply preserved_switched.
  - unfold state_byte, TS_STATE. rewrite M12 by lia. apply Hsw11.
  - rewrite M12, M11 by lia. apply (S10 7%nat). done.
Qed.
End Steps.
End SelfTest.

(** ** Theorem *)

(** The self-test runs to its end in the order it announces, but its verdict depends on
    the compiler.  Boot, A, B, A and boot get the CPU in turn, with the state byte stepping
    through the four values; every resumed piece of code has its preserved registers and
    its return address.  But each one also continues with the stack pointer of the call
    of [switch], 8 bytes below the one it had before it: a [run] that finds its local
    [state] through a preserved register reads the last byte and reports success, while a
    [run] that addresses it from the stack pointer reads 8 bytes too low, the low byte of
    the continuation saved in the context of B. *)
Theorem self_test_verdict alu_flags P code keep sp enter mode :
  keep ∈ preserved_regs -> compiled_ok P code keep -> places_ok P sp ->
  (forall a b, run_contexts P = Some (a, b) ->
     entered P (enter a b) a b /\ m_regs (enter a b) RSP = sp /\
     match mode with
     | ByRegister r => r ∈ preserved_regs /\ m_regs (enter a b) r = at_state P
     | ByStack offset => sp + 8 + offset = at_state P
     end) ->
  run_test alu_flags P code 8 enter mode =
    Some ([START; TASK_A; TASK_B; RETURNED_A],
          match mode with ByRegister _ => true | ByStack _ => at_b_end P mod 256 =? RETURNED_A end).
Proof.
  intros Hkeep Hco Hpl Hen. unfold run_test.
  destruct (bootstrap_fresh P (at_top_a P) (activation_a P) (pl_top_a _ _ Hpl)) as (ca & Ea & Hfa).
  destruct (bootstrap_fresh P (at_top_b P) (activation_b P) (pl_top_b _ _ Hpl)) as (cb & Eb & Hfb).
  assert (Hrc : run_contexts P = Some (with_r13 ca (at_state P), with_r13 cb (at_state P)))
    by (unfold run_contexts; by rewrite Ea, Eb).
  rewrite Hrc. destruct (Hen _ _ Hrc) as (H0 & Hsp & Hmode). set (m0 := enter _ _) in *.
  destruct (boot_enters_a alu_flags P code sp Hpl keep Hkeep Hco m0 _ _ H0 Hsp Hfa)
    as (m1 & m5 & E1 & Hsw5 & Hk5 & Hr5 & Hb5 & Hc5 & L1).
  destruct (a_enters_b alu_flags P code sp Hpl keep Hkeep Hco m5 _ _ Hsw5 Hr5 Hb5 Hc5 Hfb)
    as (m6 & m9 & E5 & Hsw9 & Hr9 & Hb9 & Ha9 & L2).
  destruct (back_to_boot alu_flags P code sp Hpl keep Hkeep Hco m0 m5 m9 Hsw9 Hsp Hk5 Hr5 (sw_aligned _ _ _ _ _ _ Hsw5) Hr9 Hb9 Ha9)
    as (m10 & mf & E9 & L3 & _ & Hspf & Hpres & Hbyte & Hword).
  rewrite E1. cbn [mbind option_bind]. rewrite (L1 5%nat), E5. cbn [mbind option_bind]. rewrite (L2 2%nat), E9.
  cbn [mbind option_bind]. rewrite L3. cbn [mbind option_bind app]. do 2 f_equal.
  destruct mode as [r|offset]; cbn [state_place].
  - destruct Hmode as [Hr Hat]. rewrite (Hpres r Hr), Hat. unfold state_byte in Hbyte. by rewrite Hbyte.
  - rewrite Hspf. replace (sp + offset + TS_STATE) with (at_state P + TS_B + 56) by (unfold TS_STATE, TS_B; lia).
    by rewrite Hword.
Qed.

(** ** A naive compiler *)
Definition demo_places : Places :=
  mkPlaces 80000 40000 60000 4096 4160 8192 8256 9000 9100 9204 9050 9080 9150.

(** Pushes the return address below a 16-byte frame, stores the byte, passes the
    contexts and keeps the pointer to the state in R13. *)
Definition demo_call (back offset_from offset_to byte : Z) (m : machine) : machine :=
  let sp := (m_regs m RSP - 16) / 8 * 8 in
  mkMachine (upd_reg (upd_reg (upd_reg (m_regs m) RDI (m_regs m R13 + offset_from)) RSI (m_regs m R13 + offset_to)) RSP sp)
    (m_rip m) (m_rflags m) (m_cs m) (m_ss m)
    (upd_mem (upd_mem (m_mem m) sp back) (at_state demo_places + TS_STATE) byte).
Definition demo_code : Compiled :=
  mkCompiled (fun e m => set_rip m e)
    (demo_call 9050 TS_A TS_B TASK_A) (demo_call 9080 TS_A TS_BOOT RETURNED_A) (demo_call 9150 TS_B TS_A TASK_B).

Lemma demo_call_ok top back from to byte m :
  top = 40000 \/ top = 60000 -> 0 <= byte < 256 -> on_stack top m ->
  keeps_to_stack demo_places top 8 m (demo_call back from to byte m) /\
  at_switch demo_places (demo_call back from to byte m) back (m_regs m R13 + from) (m_regs m R13 + to) byte.
Proof.
  intros Htop Hbyte Hs. unfold on_stack in Hs.
  pose proof (Z.div_mod (m_regs m RSP - 16) 8 ltac:(lia)) as Hd. pose proof (Z.mod_pos_bound (m_regs m RSP - 16) 8 ltac:(lia)) as Hm.
  unfold demo_call. set (sp := (m_regs m RSP - 16) / 8 * 8) in *. assert (Hsp : m_regs m RSP - 24 < sp <= m_regs m RSP - 16) by lia.
  split; split; reg_simpl; try done.
  - lia.
  - intros x Hx Hne. unfold TEST_STACK in Hx. rewrite !upd_mem_other by (done || lia). done.
  - unfold TS_STATE. cbn [at_state demo_places]. rewrite upd_mem_other by lia. by mem_simpl.
  - by apply Z.mod_mul.
  - unfold state_byte. reg_simpl. mem_simpl. by apply Z.mod_small.
Qed.

Lemma demo_compiled_ok : compiled_ok demo_places demo_code R13.
Proof.
  split.
  - intros top e m _. split; [done|]. split; [done|]. intros Hs. split; [split; [cbn; lia|done]|done].
  - intros m _ Hs. destruct (demo_call_ok 40000 9050 TS_A TS_B TASK_A m) as [Hk Ha]; [by left|by unfold TASK_A|done|]. done.
  - intros m _ Hs. by apply demo_call_ok; [left|unfold RETURNED_A|].
  - intros m _ Hs. by apply demo_call_ok; [right|unfold TASK_B|].
Qed.

Definition demo_sp : Z := 79000.
Definition demo_enter (a b : Context) : machine :=
  mkMachine (upd_reg (upd_reg (upd_reg (upd_reg (fun _ => 0) RDI 80000) RSI 80064) RBX 80000) RSP demo_sp) 9200 2 8 16
    (fun x => if x =? demo_sp then 9204
              else if (80064 <=? x) && (x <? 80128) then nth (Z.to_nat ((x - 80064) / 8)) (context_words a) 0
              else if (80128 <=? x) && (x <? 80192) then nth (Z.to_nat ((x - 80128) / 8)) (context_words b) 0
              else 0).

Lemma demo_places_ok : places_ok demo_places demo_sp.
Proof.
  split; unfold demo_sp, points, apart, TEST_STACK, TS_SIZE; cbn [demo_places at_state at_top_a at_top_b at_activation_a at_activation_b];
    try ulia; try (split_and!; [done|lia|lia]).
  apply (bool_decide_unpack _). vm_compute. exact I.
Qed.

Lemma demo_entered a b : run_contexts demo_places = Some (a, b) -> entered demo_places (demo_enter a b) a b.
Proof.
  intros _. split; [by split| |]; intros i w Hi;
    do 8 (destruct i as [|i]; [cbn in Hi; injection Hi as <-; reflexivity|]); done.
Qed.

(** The same code passes with a frame pointer and fails without one. *)
Lemma self_test_verdict_witness :
  run_test demo_alu demo_places demo_code 8 demo_enter (ByRegister RBX) = Some ([0; 1; 2; 3], true) /\
  run_test demo_alu demo_places demo_code 8 demo_enter (ByStack 992) = Some ([0; 1; 2; 3], false).
Proof.
  split; (refine (eq_trans (self_test_verdict demo_alu demo_places demo_code R13 demo_sp demo_enter _ _ demo_compiled_ok
            demo_places_ok _) _);
    [apply (bool_decide_unpack _); vm_compute; exact I
    |intros a b Hab; split; [exact (demo_entered a b Hab)|split; [reflexivity|]]
    |reflexivity]).
  - split; [apply (bool_decide_unpack _); vm_compute; exact I|reflexivity].
  - reflexivity.
Defined.
