(* ===== verification/TestKit.v ===== *)
(** * Replaying the unit tests

    Notation for the test functions of the repository, which the [Tests*] files replay in
    the model: a test is a boolean, the conjunction of its assertions in order.  An
    [unwrap] that would panic makes the test false. *)

From stdpp Require Import base numbers list options.
From S2P Require Import Prelude.

Declare Scope test_scope.
Delimit Scope test_scope with test.

(** [assert_eq!(x, y)] *)
Notation "x '=?=' y" := (bool_decide (x = y)) (at level 70, no associativity) : test_scope.

(** [let x = e.unwrap();] *)
Notation "'unwrap' x ':=' e 'in' k" := (match e with Ok x => k | _ => false end)
  (at level 200, x pattern, e at level 200, k at level 200) : test_scope.
Notation "'unwrap_some' x ':=' e 'in' k" := (match e with Some x => k | None => false end)
  (at level 200, x pattern, e at level 200, k at level 200) : test_scope.

(** The same for an operation that also changes the state [s]. *)
Notation "'unwrap!' x ',' s ':=' e 'in' k" := (match e with (Ok x, s) => k | _ => false end)
  (at level 200, x pattern, s pattern, e at level 200, k at level 200) : test_scope.

Definition is_err {E A} (r : result E A) : bool := match r with Err _ => true | _ => false end.
Definition is_none {A} (o : option A) : bool := match o with None => true | Some _ => false end.
Definition is_some {A} (o : option A) : bool := negb (is_none o).

(** A suite evaluated at once. *)
Lemma all_true (suite : list bool) : forallb id suite = true -> Forall (eq true) suite.
Proof. intros H. apply Forall_forall. intros b Hb%list_elem_of_In. exact (eq_sym (proj1 (forallb_forall _ _) H b Hb)). Qed.
Lemma all_false (suite : list bool) : forallb negb suite = true -> Forall (eq false) suite.
Proof.
  intros H. apply Forall_forall. intros b Hb%list_elem_of_In. pose proof (proj1 (forallb_forall _ _) H b Hb). by destruct b.
Qed.
