(* ===== verification/TestsScheduler.v ===== *)
(** * The unit tests of [kernel/src/scheduler/] *)

From stdpp Require Import base numbers list options.
From S2P Require Import Prelude Tasks Queues Scheduler TestKit.

Local Open Scope Z_scope.
Local Open Scope test_scope.

#[export] Instance ExecutionAttachError_eq_dec : EqDecision ExecutionAttachError.
Proof. solve_decision. Defined.
#[export] Instance WaitQueueError_eq_dec : EqDecision WaitQueueError.
Proof. solve_decision. Defined.
#[export] Instance SchedulerError_eq_dec : EqDecision SchedulerError.
Proof. solve_decision. Defined.

(** ** [task.rs] *)
Definition task_state_machine_rejects_illegal_transition : bool :=
  let id := mkTaskId 3 7 in
  let task := TaskControlBlock_new id Priority_DEFAULT in
  let '(moved, task) := transition task Running in
  negb moved && (tcb_state task =?= Created).

Definition task_state_machine_accepts_ready_to_running : bool :=
  let id := mkTaskId 3 7 in
  let task := TaskControlBlock_new id Priority_DEFAULT in
  let '(ready, task) := transition task Ready in
  let '(running, task) := transition task Running in
  ready && running && (tcb_state task =?= Running).

Definition execution_can_only_attach_once : bool :=
  let id := mkTaskId 4 2 in
  let task := TaskControlBlock_new id Priority_DEFAULT in
  unwrap! handle, task := tcb_attach_execution task in
  (tcb_execution task =?= Some handle) && ((tcb_attach_execution task).1 =?= Err AlreadyAttached).

Definition userspace_task_has_explicit_kind_and_no_kernel_execution_assumption : bool :=
  let task := TaskControlBlock_new_userspace (mkTaskId 8 1) Priority_DEFAULT in
  (tcb_kind task =?= Userspace) && is_none (tcb_execution task).

(** ** [execution.rs] *)
Definition execution_handle_is_bound_to_generational_task_id : bool :=
  let task := mkTaskId 4 2 in
  let replacement := mkTaskId 4 3 in
  let handle := ExecutionHandle_for_task task in
  (handle_task_id handle =?= task) && negb (handle_task_id handle =?= replacement).

Definition execution_state_starts_unbootstrapped : bool :=
  let state := ExecutionState_new (mkTaskId 4 2) in
  (binding_task_id state =?= mkTaskId 4 2) && negb (binding_is_bootstrapped state) && is_ok (binding_validate state).

Definition execution_state_can_be_bootstrapped_once : bool :=
  let state := ExecutionState_new (mkTaskId 4 2) in
  negb (binding_is_bootstrapped state) && (let state := mark_bootstrapped state in binding_is_bootstrapped state).

(** ** [run_queue.rs] *)
Definition fifo_order_is_stable : bool :=
  let queue := RunQueue_new in
  let a := mkTaskId 0 1 in
  let b := mkTaskId 1 1 in
  let '(pushed_a, queue) := run_push queue a in
  let '(pushed_b, queue) := run_push queue b in
  let '(first, queue) := run_pop queue in
  let '(second, queue) := run_pop queue in
  pushed_a && pushed_b && (first =?= Some a) && (second =?= Some b).

Definition peek_does_not_mutate_queue : bool :=
  let queue := RunQueue_new in
  let a := mkTaskId 0 1 in
  let b := mkTaskId 1 1 in
  let '(_, queue) := run_push queue a in
  let '(_, queue) := run_push queue b in
  (run_peek queue =?= Some a) && (run_snapshot queue =?= [a; b]).

Definition duplicate_task_is_not_enqueued : bool :=
  let queue := RunQueue_new in
  let id := mkTaskId 0 1 in
  let '(first, queue) := run_push queue id in
  let '(second, queue) := run_push queue id in
  first && negb second && (run_len queue =?= 1%nat).

Definition rotation_moves_current_task_to_back : bool :=
  let queue := RunQueue_new in
  let a := mkTaskId 0 1 in
  let b := mkTaskId 1 1 in
  let c := mkTaskId 2 1 in
  let '(_, queue) := run_push queue a in
  let '(_, queue) := run_push queue b in
  let '(_, queue) := run_push queue c in
  let '(next, queue) := run_rotate queue a in
  (next =?= Some b) && (run_snapshot queue =?= [b; c; a]).

(** ** [wait_queue.rs] *)
Definition preserves_fifo_order : bool :=
  let queue := WaitQueue_new in
  let a := mkTaskId 0 1 in
  let b := mkTaskId 1 1 in
  unwrap! _, queue := wait_enqueue queue a in
  unwrap! _, queue := wait_enqueue queue b in
  let '(first, queue) := wait_dequeue queue in
  let '(second, queue) := wait_dequeue queue in
  (first =?= Some a) && (second =?= Some b).

Definition rejects_duplicate_membership : bool :=
  let queue := WaitQueue_new in
  let task := mkTaskId 2 4 in
  unwrap! _, queue := wait_enqueue queue task in
  let '(again, queue) := wait_enqueue queue task in
  (again =?= Err AlreadyQueued) && (wait_len queue =?= 1%nat).

Definition removes_specific_waiter_without_reordering_remaining_tasks : bool :=
  let queue := WaitQueue_new in
  let a := mkTaskId 0 1 in
  let b := mkTaskId 1 1 in
  let c := mkTaskId 2 1 in
  unwrap! _, queue := wait_enqueue queue a in
  unwrap! _, queue := wait_enqueue queue b in
  unwrap! _, queue := wait_enqueue queue c in
  let '(removed, queue) := wait_remove queue b in
  removed && (wait_snapshot queue =?= [a; c]).

(** ** [sleep_queue.rs] *)
Definition deadlines_are_monotonic : bool :=
  let queue := SleepQueue_new in
  let a := mkTaskId 0 1 in
  let b := mkTaskId 1 1 in
  let '(first, queue) := sleep_insert queue (SleepEntry_new 30 a) in
  let '(second, queue) := sleep_insert queue (SleepEntry_new 10 b) in
  first && second && (sleep_snapshot queue =?= [SleepEntry_new 10 b; SleepEntry_new 30 a]).

Definition equal_deadlines_use_task_id_for_deterministic_order : bool :=
  let queue := SleepQueue_new in
  let a := mkTaskId 2 1 in
  let b := mkTaskId 1 1 in
  let '(first, queue) := sleep_insert queue (SleepEntry_new 10 a) in
  let '(second, queue) := sleep_insert queue (SleepEntry_new 10 b) in
  first && second && (sleep_snapshot queue =?= [SleepEntry_new 10 b; SleepEntry_new 10 a]).

Definition duplicate_sleep_is_rejected : bool :=
  let queue := SleepQueue_new in
  let task := mkTaskId 0 1 in
  let '(first, queue) := sleep_insert queue (SleepEntry_new 10 task) in
  let '(second, queue) := sleep_insert queue (SleepEntry_new 20 task) in
  first && negb second && (sleep_len queue =?= 1%nat).

Definition expiry_is_inclusive : bool :=
  let queue := SleepQueue_new in
  let task := mkTaskId 0 1 in
  let '(inserted, queue) := sleep_insert queue (SleepEntry_new 10 task) in
  let '(early, queue) := sleep_expire_until queue 9 in
  let '(due, queue) := sleep_expire_until queue 10 in
  inserted && (early =?= []) && (due =?= [task]) && sleep_is_empty queue.

Definition remove_deletes_only_the_requested_task : bool :=
  let queue := SleepQueue_new in
  let a := mkTaskId 0 1 in
  let b := mkTaskId 1 1 in
  let '(_, queue) := sleep_insert queue (SleepEntry_new 10 a) in
  let '(_, queue) := sleep_insert queue (SleepEntry_new 20 b) in
  let '(removed, queue) := sleep_remove queue a in
  removed && negb (sleep_contains queue a) && sleep_contains queue b && (sleep_next_deadline queue =?= Some 20) &&
  negb (sleep_remove queue a).1.

(** ** [reschedule.rs] *)
Definition request_is_edge_consumable : bool :=
  let request := RescheduleRequest_new in
  let '(first, request) := resched_take request in
  let request := resched_request request in
  let pending := resched_is_pending request in
  let '(second, request) := resched_take request in
  let '(third, request) := resched_take request in
  negb first && pending && second && negb third.

(** Dropping a guard enables once. *)
Definition nested_preemption_disable_is_balanced : bool :=
  let gate := PreemptionGate_new in
  let outer := gate_disable gate in
  let inner := gate_disable outer in
  gate_is_enabled gate && negb (gate_is_enabled outer) && (gate_depth outer =?= 1) && (gate_depth inner =?= 2) &&
  (unwrap gate := gate_enable_one (E := Empty_set) inner in
   (gate_depth gate =?= 1) &&
   (unwrap gate := gate_enable_one (E := Empty_set) gate in gate_is_enabled gate && (gate_depth gate =?= 0))).

(** ** [mod.rs] *)
Definition userspace_task_creation_is_explicit : bool :=
  unwrap! task, scheduler := create_user_task (E := Empty_set) Scheduler_new Priority_DEFAULT in
  (task_kind scheduler task =?= Some Userspace) && (execution scheduler task =?= None).

Definition scheduler_round_robin_cycles_a_b_a_b : bool :=
  unwrap! a, scheduler := create_task (E := Empty_set) Scheduler_new Priority_DEFAULT in
  unwrap! b, scheduler := create_task (E := Empty_set) scheduler Priority_DEFAULT in
  let '(ready_a, scheduler) := make_ready scheduler a in
  let '(ready_b, scheduler) := make_ready scheduler b in
  let '(d1, scheduler) := schedule_next scheduler in
  let '(d2, scheduler) := schedule_next scheduler in
  let '(d3, scheduler) := schedule_next scheduler in
  let '(d4, scheduler) := schedule_next scheduler in
  ready_a && ready_b && (next d1 =?= Some a) && (next d2 =?= Some b) && (next d3 =?= Some a) && (next d4 =?= Some b) &&
  (state scheduler a =?= Some Ready) && (state scheduler b =?= Some Running) && (current scheduler =?= Some b).

Definition scheduler_does_not_self_dispatch_single_task : bool :=
  unwrap! task, scheduler := create_task (E := Empty_set) Scheduler_new Priority_DEFAULT in
  let '(made, scheduler) := make_ready scheduler task in
  let '(d1, scheduler) := schedule_next scheduler in
  let '(d2, scheduler) := schedule_next scheduler in
  made && (next d1 =?= Some task) && (next d2 =?= None) && (state scheduler task =?= Some Running) &&
  (ready_len scheduler =?= 0%nat).

Definition sleep_blocks_current_then_expiry_makes_task_ready : bool :=
  unwrap! task, scheduler := create_task (E := Empty_set) Scheduler_new Priority_DEFAULT in
  let '(made, scheduler) := make_ready scheduler task in
  let '(d1, scheduler) := schedule_next scheduler in
  let '(slept, scheduler, sleepers) := sleep_current_until scheduler 100 SleepQueue_new in
  let asleep := (current scheduler =?= None) && (state scheduler task =?= Some Blocked) in
  let '(early, scheduler, sleepers) := expire_sleepers scheduler 99 sleepers in
  let still := state scheduler task =?= Some Blocked in
  let '(due, scheduler, sleepers) := expire_sleepers scheduler 100 sleepers in
  made && (next d1 =?= Some task) && (slept =?= Ok task) && asleep && (early =?= []) && still && (due =?= [task]) &&
  (state scheduler task =?= Some Ready) && (next_ready scheduler =?= Some task).

Definition duplicate_sleep_rolls_back_state : bool :=
  unwrap! task, scheduler := create_task (E := Empty_set) Scheduler_new Priority_DEFAULT in
  let '(made, scheduler) := make_ready scheduler task in
  let '(d1, scheduler) := schedule_next scheduler in
  let '(inserted, sleepers) := sleep_insert SleepQueue_new (SleepEntry_new 50 task) in
  let '(slept, scheduler, sleepers) := sleep_current_until scheduler 100 sleepers in
  made && (next d1 =?= Some task) && inserted && (slept =?= Err SleepQueueAlreadyContainsTask) &&
  (current scheduler =?= Some task) && (state scheduler task =?= Some Running).

Definition block_and_wake_preserve_fifo_and_ready_state : bool :=
  unwrap! a, scheduler := create_task (E := Empty_set) Scheduler_new Priority_DEFAULT in
  unwrap! b, scheduler := create_task (E := Empty_set) scheduler Priority_DEFAULT in
  let '(ready_a, scheduler) := make_ready scheduler a in
  let '(ready_b, scheduler) := make_ready scheduler b in
  let '(d1, scheduler) := schedule_next scheduler in
  let '(blocked, scheduler, waiters) := block_current_on scheduler WaitQueue_new in
  let waiting := (current scheduler =?= None) && (state scheduler a =?= Some Blocked) && (wait_peek waiters =?= Some a) in
  let '(d2, scheduler) := schedule_next scheduler in
  let '(woken, scheduler, waiters) := wake_one scheduler waiters in
  ready_a && ready_b && (next d1 =?= Some a) && (blocked =?= Ok a) && waiting && (next d2 =?= Some b) &&
  (woken =?= Some a) && (state scheduler a =?= Some Ready) && (next_ready scheduler =?= Some a).

Definition exit_current_removes_task_and_clears_cpu_owner : bool :=
  unwrap! task, scheduler := create_task (E := Empty_set) Scheduler_new Priority_DEFAULT in
  let '(made, scheduler) := make_ready scheduler task in
  let '(d1, scheduler) := schedule_next scheduler in
  let '(exited, scheduler) := exit_current scheduler in
  made && (next d1 =?= Some task) && exited && (current scheduler =?= None) && (state scheduler task =?= None) &&
  (next_ready scheduler =?= None) && (task_count scheduler =?= 0%nat).

Definition terminate_current_to_expected_successor_is_atomic_at_scheduler_boundary : bool :=
  unwrap! cur, scheduler := create_user_task (E := Empty_set) Scheduler_new Priority_DEFAULT in
  unwrap! successor, scheduler := create_user_task (E := Empty_set) scheduler Priority_DEFAULT in
  let '(ready_c, scheduler) := make_ready scheduler cur in
  let '(ready_s, scheduler) := make_ready scheduler successor in
  let '(d1, scheduler) := schedule_next scheduler in
  let '(terminated, scheduler) := terminate_current_to scheduler successor in
  ready_c && ready_s && (next d1 =?= Some cur) && (terminated =?= Ok successor) && (state scheduler cur =?= None) &&
  (current scheduler =?= Some successor) && (state scheduler successor =?= Some Running) &&
  (next_ready scheduler =?= None).

Definition terminate_rejects_non_ready_successor_without_mutation : bool :=
  unwrap! cur, scheduler := create_user_task (E := Empty_set) Scheduler_new Priority_DEFAULT in
  unwrap! successor, scheduler := create_user_task (E := Empty_set) scheduler Priority_DEFAULT in
  let '(ready_c, scheduler) := make_ready scheduler cur in
  let '(ready_s, scheduler) := make_ready scheduler successor in
  let '(d1, scheduler) := schedule_next scheduler in
  let '(terminated, scheduler) := terminate_current_to scheduler cur in
  ready_c && ready_s && (next d1 =?= Some cur) && (terminated =?= Err CurrentTaskMismatch) &&
  (current scheduler =?= Some cur) && (state scheduler cur =?= Some Running) && (state scheduler successor =?= Some Ready).

Definition retired_generation_slot_is_never_reused : bool :=
  unwrap! first, scheduler := create_task (E := Empty_set) Scheduler_new Priority_DEFAULT in
  let index := Z.to_nat (task_index first) in
  let scheduler := set_tasks scheduler (<[index := None]> (tasks scheduler)) in
  let scheduler := set_generations scheduler (<[index := U32_MAX]> (generations scheduler)) in
  unwrap! replacement, scheduler := create_task (E := Empty_set) scheduler Priority_DEFAULT in
  negb (task_index replacement =?= task_index first) && (task_generation replacement =?= 1) &&
  (generations scheduler !! index =?= Some U32_MAX).
