(* ===== verification/TestsMemory.v ===== *)
(** * The unit tests of [kernel/src/memory/] *)

From stdpp Require Import base numbers list options.
From S2P Require Import Prelude Abi Memory Frames UserCopy TestKit.

Local Open Scope Z_scope.
Local Open Scope test_scope.

#[export] Instance PhysRange_eq_dec : EqDecision PhysRange.
Proof. solve_decision. Defined.
#[export] Instance UserRangeError_eq_dec : EqDecision UserRangeError.
Proof. solve_decision. Defined.
#[export] Instance UserReadError_eq_dec : EqDecision UserReadError.
Proof. solve_decision. Defined.
#[export] Instance ContiguousFrames_eq_dec : EqDecision ContiguousFrames.
Proof. solve_decision. Defined.
#[export] Instance MemorySummary_eq_dec : EqDecision MemorySummary.
Proof. solve_decision. Defined.

(** ** [address_space.rs] *)
Definition rejects_inverted_range : bool := VirtRange_new 2 1 =?= None.

Definition recognizes_user_range : bool :=
  unwrap_some range := VirtRange_new USER_SPACE_START (USER_SPACE_START + 0x4000) in
  vr_is_user range && negb (vr_is_kernel range).

Definition recognizes_kernel_range : bool :=
  unwrap_some range := VirtRange_new KERNEL_SPACE_START (KERNEL_SPACE_START + 0x4000) in
  vr_is_kernel range && negb (vr_is_user range).

Definition default_user_layout_is_disjoint : bool :=
  let layout := UserAddressSpaceLayout_default in
  vr_is_user (layout_user layout) && vr_is_user (layout_stack layout) && vr_is_user (layout_guard layout) &&
  negb (is_guard_address layout (layout_stack_top layout - 1)) &&
  is_guard_address layout (vr_start (layout_guard layout)) &&
  (layout_image_base layout =?= USER_IMAGE_BASE) && (vr_len (layout_stack layout) =?= 16 * 4096) &&
  (vr_len (layout_guard layout) =?= 4096).

Definition stack_is_below_kernel_boundary : bool :=
  let layout := UserAddressSpaceLayout_default in layout_stack_top layout <? KERNEL_SPACE_START.

(** ** [boot.rs] *)
Definition empty_map_is_empty : bool := summarize (R := DemoRegion) [] =?= MemorySummary_default.

(** ** [frame.rs] *)
Definition region (start end_ : Z) (usable : bool) : DemoRegion := mkRegion start end_ usable.

(** [allocator.allocate_frame()] within the fuel of the model. *)
Definition next_frame (a : EarlyFrameAllocator DemoRegion) : option Z * EarlyFrameAllocator DemoRegion :=
  match allocate_frame a with Some (frame, a) => (frame_start <$> frame, a) | None => (None, a) end.
Definition next_frames (a : EarlyFrameAllocator DemoRegion) (count : Z)
  : option ContiguousFrames * EarlyFrameAllocator DemoRegion :=
  match allocate_contiguous count a with Some r => r | None => (None, a) end.

Definition aligned_address_constructs_frame : bool :=
  unwrap_some frame := Frame_from_start_address 0x4000 in frame_start frame =?= 0x4000.

Definition unaligned_address_is_rejected : bool := is_none (Frame_from_start_address 0x4001).

Definition frame_size_is_4k : bool := FRAME_SIZE =?= 4096.

Definition allocator_skips_reserved_regions : bool :=
  let regions := [region 0x0000 0x2000 false; region 0x3000 0x6000 true] in
  let allocator := EarlyFrameAllocator_new regions in
  let '(f1, allocator) := next_frame allocator in
  let '(f2, allocator) := next_frame allocator in
  let '(f3, allocator) := next_frame allocator in
  let '(f4, allocator) := next_frame allocator in
  (f1 =?= Some 0x3000) && (f2 =?= Some 0x4000) && (f3 =?= Some 0x5000) && (f4 =?= None).

Definition allocator_aligns_region_start_up : bool :=
  let regions := [region 0x1001 0x3000 true] in
  let allocator := EarlyFrameAllocator_new regions in
  let '(f1, allocator) := next_frame allocator in
  let '(f2, allocator) := next_frame allocator in
  (f1 =?= Some 0x2000) && (f2 =?= None).

Definition contiguous_allocation_consumes_one_region : bool :=
  let regions := [region 0x4000 0x10000 true] in
  let allocator := EarlyFrameAllocator_new regions in
  let '(frames, allocator) := next_frames allocator 4 in
  let '(after, allocator) := next_frame allocator in
  unwrap_some frames := frames in
  (cf_start frames =?= 0x4000) && (cf_count frames =?= 4) && (cf_byte_len frames =?= Some (4 * FRAME_SIZE)) &&
  (cf_byte_end frames =?= Some 0x8000) && (after =?= Some 0x8000).

Definition contiguous_allocation_does_not_cross_region_boundaries : bool :=
  let regions := [region 0x4000 0x8000 true; region 0x9000 0xB000 true] in
  let allocator := EarlyFrameAllocator_new regions in
  let '(first, allocator) := next_frames allocator 2 in
  let '(second, allocator) := next_frames allocator 2 in
  (first =?= Some (mkContiguous 0x4000 2)) && (second =?= Some (mkContiguous 0x9000 2)).

Definition checkpoint_restores_allocator_cursor : bool :=
  let regions := [region 0x4000 0x8000 true] in
  let allocator := EarlyFrameAllocator_new regions in
  let checkpoint := fa_checkpoint allocator in
  let '(f1, allocator) := next_frame allocator in
  let '(f2, allocator) := next_frame allocator in
  let allocator := fa_rollback allocator checkpoint in
  let '(f3, allocator) := next_frame allocator in
  (f1 =?= Some 0x4000) && (f2 =?= Some 0x5000) && (f3 =?= Some 0x4000).

(** ** [page.rs] *)
Definition accepts_aligned_address : bool :=
  unwrap_some page := Page4K_from_start_address 0x20000 in
  (page_start page =?= 0x20000) && (page_end_address page =?= Some 0x21000).

Definition rejects_unaligned_address : bool := is_none (Page4K_from_start_address 0x20001).

Definition rejects_end_address_overflow : bool :=
  unwrap_some page := Page4K_from_start_address (U64_MAX - PAGE_SIZE_4K + 1) in
  (page_end_address page =?= None) && (page_range page =?= None).

Definition page_size_is_four_kib : bool := PAGE_SIZE_4K =?= 4096.

(** ** [page_table.rs] *)
Definition mapping_flags_are_explicit : bool :=
  flags_readable flags_read_only && negb (flags_writable flags_read_only) && flags_executable flags_read_execute &&
  flags_writable flags_read_write && is_writable_executable flags_read_write_execute &&
  pa_executable PageAccess_user_read_execute.

(** ** [physical.rs] *)
Definition translates_with_checked_addition : bool :=
  let mapping := mkMapping 0xffff000000000000 in
  phys_translate mapping 0x4000 =?= Some 0xffff000000004000.

Definition physical_rejects_overflow : bool :=
  let mapping := mkMapping (U64_MAX - 0x1000) in phys_translate mapping 0x2000 =?= None.

Definition translates_ranges_without_wrapping : bool :=
  let mapping := mkMapping 0x80000000 in
  unwrap_some physical := PhysRange_new 0x1000 0x3000 in
  unwrap_some virtual_range := translate_range mapping physical in
  (vr_start virtual_range =?= 0x80001000) && (vr_end virtual_range =?= 0x80003000).

(** ** [region.rs] *)
Definition accepts_empty_range : bool := pr_len <$> PhysRange_new 0x1000 0x1000 =?= Some 0.

Definition region_rejects_inverted_range : bool := PhysRange_new 0x2000 0x1000 =?= None.

Definition contains_uses_half_open_semantics : bool :=
  unwrap_some range := PhysRange_new 0x1000 0x3000 in
  pr_contains range 0x1000 && pr_contains range 0x2fff && negb (pr_contains range 0x3000).

Definition counts_only_aligned_pages : bool :=
  unwrap_some aligned := PhysRange_new 0 0x3000 in
  unwrap_some unaligned := PhysRange_new 1 0x3000 in
  (page_count_4k aligned =?= Some 3) && (page_count_4k unaligned =?= None).

(** ** [user.rs] *)
Definition accepts_normal_user_buffer : bool :=
  unwrap range := validate_slice (mkUserSlice USER_SPACE_START 4096) in
  (vr_start range =?= USER_SPACE_START) && (vr_end range =?= USER_SPACE_START + 4096).

Definition rejects_null_non_empty_buffer : bool := validate_slice (mkUserSlice 0 1) =?= Err NullPointer.

Definition user_rejects_overflow : bool := validate_slice (mkUserSlice (U64_MAX - 3) 8) =?= Err AddressOverflow.

Definition rejects_kernel_address : bool := validate_slice (mkUserSlice KERNEL_SPACE_START 1) =?= Err OutsideUserSpace.

Definition allows_empty_slice_without_dereference_requirement : bool :=
  unwrap range := validate_slice UserSlice_empty in vr_len range =?= 0.

(** ** [user_copy.rs] *)

(** [FakeMapper]: the same access for every page, no translation. *)
Record FakeMapper := mkFakeMapper { fake_access : PageAccess }.
#[export] Instance FakeMapper_view : UserMemoryView FakeMapper := {|
  um_translate := fun _ _ => Ok None;
  um_page_access := fun m _ => Ok (fake_access m);
  um_address_space := fun _ => mkVirtRange USER_SPACE_START KERNEL_SPACE_START;
|}.

(** [FakeBackend]: fills the destination with [0x41]. *)
Inductive FakeBackend := theFakeBackend.
#[export] Instance FakeBackend_copy : UserCopyBackend FakeBackend := {|
  ucb_copy_from_user := fun _ _ dst => (Ok tt, (fun _ => 0x41) <$> dst);
|}.

Definition accepts_readable_user_page : bool :=
  let mapper := mkFakeMapper PageAccess_user_read_only in
  is_ok (validate_readable_range mapper (mkUserSlice (USER_SPACE_START + 1) 8)).

Definition rejects_unmapped_page : bool :=
  let mapper := mkFakeMapper PageAccess_unmapped in
  validate_readable_range mapper (mkUserSlice USER_SPACE_START 1) =?= Err Unmapped.

Definition rejects_kernel_only_mapping : bool :=
  let mapper := mkFakeMapper (mkAccess true false true true false) in
  validate_readable_range mapper (mkUserSlice USER_SPACE_START 1) =?= Err NotUserAccessible.

Definition rejects_non_readable_user_mapping : bool :=
  let mapper := mkFakeMapper (mkAccess true true false true false) in
  validate_readable_range mapper (mkUserSlice USER_SPACE_START 1) =?= Err NotReadable.

Definition empty_slice_requires_no_mapping : bool :=
  let mapper := mkFakeMapper PageAccess_unmapped in is_ok (validate_readable_range mapper UserSlice_empty).

Definition copy_requires_destination_length_match : bool :=
  let mapper := mkFakeMapper PageAccess_user_read_only in
  let dst := replicate 4 0 in
  match copy_from_user mapper theFakeBackend (mkUserSlice USER_SPACE_START 8) dst with
  | (Err (InvalidRange _), _) => true
  | _ => false
  end.

Definition copy_uses_backend_only_after_validation : bool :=
  let mapper := mkFakeMapper PageAccess_user_read_only in
  let dst := replicate 4 0 in
  unwrap! _, dst := copy_from_user mapper theFakeBackend (mkUserSlice USER_SPACE_START 4) dst in
  dst =?= replicate 4 0x41.

Definition copy_rejects_unmapped_before_backend : bool :=
  let mapper := mkFakeMapper PageAccess_unmapped in
  let dst := replicate 4 0 in
  (copy_from_user mapper theFakeBackend (mkUserSlice USER_SPACE_START 4) dst).1 =?= Err Unmapped.

(** ** [user_stack.rs] *)
Definition stack_is_inside_user_half : bool :=
  unwrap_some range := user_stack_range in
  (USER_SPACE_START <=? vr_start range) && (vr_end range <=? KERNEL_SPACE_START) && (vr_len range =?= USER_STACK_SIZE).

Definition guard_page_sits_below_stack : bool :=
  unwrap_some stack := user_stack_range in
  unwrap_some guard := user_stack_guard_range in
  (vr_end guard =?= vr_start stack) && (vr_len guard =?= USER_STACK_GUARD_SIZE).

Definition stack_pointer_requires_alignment_and_range : bool :=
  unwrap_some stack := user_stack_range in
  is_valid_user_stack_pointer (vr_end stack) && negb (is_valid_user_stack_pointer (vr_end stack - 8)) &&
  negb (is_valid_user_stack_pointer (vr_start stack - 16)).
