(* ===== verification/TestsProcess.v ===== *)
(** * The unit tests of [kernel/src/process/] *)

From stdpp Require Import base numbers list options.
From S2P Require Import Prelude Tasks Queues Scheduler Memory Elf LoadPlan Loader Populate Process Binding TestKit.

Local Open Scope Z_scope.
Local Open Scope test_scope.

#[export] Instance AddressSpaceError_eq_dec : EqDecision AddressSpaceError.
Proof. solve_decision. Defined.
#[export] Instance ElfError_eq_dec : EqDecision ElfError.
Proof. solve_decision. Defined.
#[export] Instance LoadSegment_eq_dec : EqDecision LoadSegment.
Proof. solve_decision. Defined.
#[export] Instance ElfImage_eq_dec : EqDecision ElfImage.
Proof. solve_decision. Defined.
#[export] Instance InitialContext_eq_dec : EqDecision InitialContext.
Proof. solve_decision. Defined.
#[export] Instance InitialContextError_eq_dec : EqDecision InitialContextError.
Proof. solve_decision. Defined.
#[export] Instance SegmentMapping_eq_dec : EqDecision SegmentMapping.
Proof. solve_decision. Defined.
#[export] Instance LoadPlan_eq_dec : EqDecision LoadPlan.
Proof. solve_decision. Defined.
#[export] Instance LoadPlanError_eq_dec : EqDecision LoadPlanError.
Proof. solve_decision. Defined.
#[export] Instance PopulateError_eq_dec : EqDecision PopulateError.
Proof. solve_decision. Defined.

#[export] Instance ProcessExecutionBinding_eq_dec : EqDecision ProcessExecutionBinding.
Proof. solve_decision. Defined.

(** [bytes[at..at + slice.len()].copy_from_slice(slice)] *)
Definition copy_from_slice (at_ : nat) (slice bytes : list Z) : list Z := list_inserts at_ slice bytes.

(** The 120-byte executable the tests build, with its entry point, which is also the start of
    its only segment. *)
Definition minimal_elf (entry : Z) : list Z :=
  let p := 64%nat in
  copy_from_slice (p + 40) (to_le_bytes 8 0x1000)
  (copy_from_slice (p + 32) (to_le_bytes 8 16)
  (copy_from_slice (p + 16) (to_le_bytes 8 entry)
  (copy_from_slice (p + 4) (to_le_bytes 4 5)
  (copy_from_slice p (to_le_bytes 4 1)
  (copy_from_slice 56 (to_le_bytes 2 1)
  (copy_from_slice 54 (to_le_bytes 2 56)
  (copy_from_slice 32 (to_le_bytes 8 64)
  (copy_from_slice 24 (to_le_bytes 8 entry)
  (copy_from_slice 18 (to_le_bytes 2 62)
  (copy_from_slice 16 (to_le_bytes 2 2)
  (copy_from_slice 4 [2; 1]
  (copy_from_slice 0 [0x7f; 69; 76; 70] (replicate 120 0))))))))))))).

(** The fixture [image] of the registry tests. *)
Definition process_image (id : AddressSpaceId) : option ProcessImage :=
  match ElfImage_parse (minimal_elf 0x401000) with
  | Ok parsed =>
      let spec := AddressSpaceSpec_new id in
      match LoadPlan_build spec parsed, UserStackPlan_build with
      | Ok plan, Ok stack =>
          match ProcessImage_build spec plan stack with Ok image => Some image | _ => None end
      | _, _ => None
      end
  | _ => None
  end.

(** ** [address_space.rs] *)
Definition zero_is_not_a_valid_address_space_id : bool := AddressSpaceId_new 0 =?= None.

Definition ids_are_stable_and_specs_use_default_layout : bool :=
  unwrap_some id := AddressSpaceId_new 7 in
  let spec := AddressSpaceSpec_new id in
  (asid_raw (spec_id spec) =?= 7) &&
  (layout_stack_top (spec_layout spec) =?= vr_end (layout_stack (spec_layout spec))).

Definition user_range_must_stay_in_user_half : bool :=
  unwrap_some id := AddressSpaceId_new 1 in
  let spec := AddressSpaceSpec_new id in
  let user := layout_user (spec_layout spec) in
  unwrap_some range := VirtRange_new (vr_start user) (vr_start user + 0x2000) in
  unwrap_some bad := VirtRange_new (vr_end user - 0x1000) (vr_end user + 0x1000) in
  (validate_user_range spec range =?= Ok tt) && (validate_user_range spec bad =?= Err InvalidUserRange).

Definition stack_range_is_valid_but_guard_page_is_not : bool :=
  unwrap_some id := AddressSpaceId_new 2 in
  let spec := AddressSpaceSpec_new id in
  (validate_stack_range spec (layout_stack (spec_layout spec)) =?= Ok tt) &&
  (validate_user_range spec (layout_guard (spec_layout spec)) =?= Err StackOverlapsGuard).

Definition image_must_not_reach_stack : bool :=
  unwrap_some id := AddressSpaceId_new 3 in
  let spec := AddressSpaceSpec_new id in
  let layout := spec_layout spec in
  unwrap_some image := VirtRange_new (layout_image_base layout) (layout_image_base layout + 0x4000) in
  unwrap_some bad := VirtRange_new (vr_start (layout_stack layout)) (vr_end (layout_stack layout)) in
  (validate_image_range spec image =?= Ok tt) && (validate_image_range spec bad =?= Err ImageOutsideUserSpace).

(** ** [identity.rs] *)
Definition binding_keeps_identity_domains_distinct : bool :=
  let process := mkProcessId 1 4 in
  let task := mkTaskId 7 9 in
  let execution := ExecutionHandle_for_task task in
  unwrap_some address_space := AddressSpaceId_new 11 in
  unwrap_some binding := ProcessExecutionBinding_new process task execution address_space in
  (peb_process binding =?= process) && (peb_task binding =?= task) &&
  (peb_execution binding =?= execution) && (peb_address_space binding =?= address_space).

Definition rejects_execution_handle_from_another_task : bool :=
  let process := mkProcessId 1 4 in
  let task := mkTaskId 7 9 in
  let other := mkTaskId 7 10 in
  unwrap_some address_space := AddressSpaceId_new 11 in
  is_none (ProcessExecutionBinding_new process task (ExecutionHandle_for_task other) address_space).

(** ** [image.rs] *)
Definition parses_minimal_x86_64_image : bool :=
  unwrap image := ElfImage_parse (minimal_elf 0x401000) in
  unwrap_some segment := img_segment image 0 in
  (img_entry image =?= 0x401000) && (img_segment_count image =?= 1%nat) && seg_executable segment.

(** The bytes of "not elf". *)
Definition rejects_non_elf_input : bool :=
  ElfImage_parse [110; 111; 116; 32; 101; 108; 102] =?= Err TooSmall.

Definition rejects_dynamic_elf_until_load_bias_exists : bool :=
  let bytes := copy_from_slice 16 (to_le_bytes 2 3) (minimal_elf 0x401000) in
  ElfImage_parse bytes =?= Err UnsupportedType.

Definition rejects_entry_outside_loaded_segment : bool :=
  let bytes := copy_from_slice 24 (to_le_bytes 8 0x900000) (minimal_elf 0x401000) in
  ElfImage_parse bytes =?= Err InvalidEntry.

Definition rejects_segment_larger_than_file : bool :=
  let bytes := copy_from_slice 32 (to_le_bytes 8 80) (minimal_elf 0x401000) in
  ElfImage_parse bytes =?= Err InvalidSegmentRange.

Definition rejects_writable_executable_segment : bool :=
  let bytes := copy_from_slice 68 (to_le_bytes 4 7) (minimal_elf 0x401000) in
  ElfImage_parse bytes =?= Err InvalidSegmentPermissions.

(** ** [image_state.rs] *)
Definition validated_image_contains_consistent_context : bool :=
  unwrap image := ElfImage_parse (minimal_elf 0x401000) in
  unwrap_some id := AddressSpaceId_new 1 in
  let address_space := AddressSpaceSpec_new id in
  unwrap load_plan := LoadPlan_build address_space image in
  unwrap stack_plan := UserStackPlan_build in
  unwrap process := ProcessImage_build address_space load_plan stack_plan in
  (ctx_entry (pi_context process) =?= plan_entry (pi_load_plan process)) &&
  (ctx_stack_pointer (pi_context process) =?= usp_initial_rsp (pi_stack_plan process)) &&
  (spec_id (pi_address_space process) =?= spec_id address_space).

(** ** [initial_context.rs] *)
Definition accepts_valid_user_entry_and_stack : bool :=
  unwrap_some stack := user_stack_range in
  unwrap context := InitialContext_new (USER_SPACE_START + 0x1000) (vr_end stack) in
  (ctx_entry context =?= USER_SPACE_START + 0x1000) && (ctx_stack_pointer context =?= vr_end stack).

Definition rejects_kernel_entry : bool :=
  unwrap_some stack := user_stack_range in
  InitialContext_new KERNEL_SPACE_START (vr_end stack) =?= Err ContextInvalidEntry.

Definition rejects_misaligned_stack : bool :=
  unwrap_some stack := user_stack_range in
  InitialContext_new (USER_SPACE_START + 0x1000) (vr_end stack - 8) =?= Err ContextInvalidStackPointer.

(** ** [load_plan.rs] *)
Definition plans_page_aligned_segment : bool :=
  unwrap image := ElfImage_parse (minimal_elf 0x401001) in
  unwrap_some id := AddressSpaceId_new 1 in
  unwrap plan := LoadPlan_build (AddressSpaceSpec_new id) image in
  unwrap_some segment := plan_segment plan 0 in
  let range := sm_range segment in
  (plan_count plan =?= 1%nat) && (vr_start range =?= 0x401000) && (vr_end range =?= 0x402000) &&
  (plan_entry plan =?= 0x401001).

Definition entry_must_be_in_executable_segment : bool :=
  let bytes := copy_from_slice 68 (to_le_bytes 4 6)
                 (copy_from_slice 24 (to_le_bytes 8 0x401001) (minimal_elf 0x401001)) in
  unwrap parsed := ElfImage_parse bytes in
  unwrap_some id := AddressSpaceId_new 2 in
  LoadPlan_build (AddressSpaceSpec_new id) parsed =?= Err LoadPlanInvalidEntry.

(** ** [loaded_address_space.rs] *)
Definition accepts_matching_address_space_identity : bool :=
  unwrap_some id := AddressSpaceId_new 7 in
  unwrap_some image := process_image id in
  unwrap loaded := LoadedAddressSpace_build (AddressSpaceSpec_new id) image in
  spec_id (las_spec loaded) =?= id.

Definition rejects_mismatched_address_space_identity : bool :=
  unwrap_some id := AddressSpaceId_new 7 in
  unwrap_some other := AddressSpaceId_new 8 in
  unwrap_some image := process_image other in
  match LoadedAddressSpace_build (AddressSpaceSpec_new id) image with
  | Err AddressSpaceMismatch => true
  | _ => false
  end.

(** ** [loader.rs] *)
Definition translates_elf_permissions_without_requiring_pf_r : bool :=
  (flags_from_elf 0 =?= Some flags_read_only) && (flags_from_elf 4 =?= Some flags_read_only) &&
  (flags_from_elf 2 =?= Some flags_read_write) && (flags_from_elf 6 =?= Some flags_read_write) &&
  (flags_from_elf 1 =?= Some flags_read_execute) && (flags_from_elf 5 =?= Some flags_read_execute) &&
  (flags_from_elf 3 =?= None).

(** ** [manager.rs] *)
(** [image()]: an image in address space 1. *)
Definition registry_image : option ProcessImage := id ← AddressSpaceId_new 1; process_image id.

Definition lifecycle_requires_execution_binding_before_running : bool :=
  unwrap_some image := registry_image in
  unwrap! id, manager := register_ready ProcessManager_new image in
  (pm_start manager id).1 =?= Err BindingMismatch.

Definition matching_execution_binding_allows_running : bool :=
  unwrap_some image := registry_image in
  unwrap! id, manager := register_ready ProcessManager_new image in
  let task := mkTaskId 3 1 in
  unwrap_some as_id := AddressSpaceId_new 1 in
  unwrap! _, manager := pm_attach_execution manager id task (ExecutionHandle_for_task task) as_id in
  unwrap! _, manager := pm_start manager id in
  pm_state manager id =?= Ok ProcRunning.

Definition spawn_ready_rolls_back_on_binding_mismatch : bool :=
  unwrap_some image := registry_image in
  let task := mkTaskId 3 1 in
  unwrap_some wrong_as := AddressSpaceId_new 2 in
  match spawn_ready ProcessManager_new image task (ExecutionHandle_for_task task) wrong_as with
  | (Err BindingMismatch, manager) =>
      unwrap! replacement, _ := register_ready manager image in
      (pid_index replacement =?= 0) && (pid_generation replacement =?= 2)
  | _ => false
  end.

Definition abort_ready_releases_transaction_slot : bool :=
  unwrap_some image := registry_image in
  unwrap! id, manager := register_ready ProcessManager_new image in
  unwrap! _, manager := abort_ready manager id in
  unwrap! replacement, _ := register_ready manager image in
  (pid_index replacement =?= 0) && (pid_generation replacement =?= 2).

Definition wrong_address_space_is_rejected : bool :=
  unwrap_some image := registry_image in
  unwrap! id, manager := register_ready ProcessManager_new image in
  let task := mkTaskId 3 1 in
  unwrap_some wrong := AddressSpaceId_new 2 in
  (pm_attach_execution manager id task (ExecutionHandle_for_task task) wrong).1 =?= Err BindingMismatch.

Definition exit_is_terminal_and_reap_preserves_status : bool :=
  unwrap_some image := registry_image in
  unwrap! id, manager := register_ready ProcessManager_new image in
  let task := mkTaskId 3 1 in
  unwrap_some as_id := AddressSpaceId_new 1 in
  unwrap! _, manager := pm_attach_execution manager id task (ExecutionHandle_for_task task) as_id in
  unwrap! _, manager := pm_start manager id in
  unwrap! _, manager := request_exit manager id 42 in
  (pm_state manager id =?= Ok ProcExited) && (pm_exit_code manager id =?= Ok (Some 42)) &&
  (unwrap! reaped, manager := reap manager id in
   (rd_exit_code reaped =?= 42) && negb (pm_contains manager id)).

Definition stale_id_cannot_touch_replacement_slot : bool :=
  unwrap_some image := registry_image in
  unwrap! old, manager := register_ready ProcessManager_new image in
  unwrap! _, manager := request_exit manager old 7 in
  unwrap! _, manager := reap manager old in
  unwrap! new, manager := register_ready manager image in
  (pid_index old =?= pid_index new) && negb (pid_generation old =?= pid_generation new) &&
  (pm_state manager old =?= Err InvalidProcess) && (pm_state manager new =?= Ok ProcReady).

Definition yield_to_switches_running_to_ready_and_successor_to_running : bool :=
  unwrap_some image := registry_image in
  unwrap! current, manager := register_ready ProcessManager_new image in
  unwrap! successor, manager := register_ready manager image in
  let current_task := mkTaskId 1 1 in
  let successor_task := mkTaskId 2 1 in
  unwrap_some as_id := AddressSpaceId_new 1 in
  unwrap! _, manager :=
    pm_attach_execution manager current current_task (ExecutionHandle_for_task current_task) as_id in
  unwrap! _, manager :=
    pm_attach_execution manager successor successor_task (ExecutionHandle_for_task successor_task) as_id in
  unwrap! _, manager := pm_start manager current in
  unwrap! _, manager := yield_to manager current successor in
  (pm_state manager current =?= Ok ProcReady) && (pm_state manager successor =?= Ok ProcRunning).

(** ** [populate.rs] *)
Definition lookup_uses_exact_page_base : bool :=
  let pages := <[0%nat := Some (mkMapped 0x401000 0x9000)]> (replicate MAX_MAPPED_PAGES None) in
  let load := mkLoadResult 1 0x401000 pages in
  (find_mapped_page load 0x401000 =?= Some 0%nat) && (find_mapped_page load 0x401001 =?= None).

Definition zero_copy_errors_are_explicit : bool := negb (MissingMappedPage =?= FileRangeInvalid).

(** ** [ramdisk_image.rs] *)
Definition ramdisk_payload_becomes_validated_process_image : bool :=
  unwrap_some id := AddressSpaceId_new 11 in
  let spec := AddressSpaceSpec_new id in
  unwrap process := build_process_image (minimal_elf 0x401001) spec in
  (spec_id (pi_address_space process) =?= spec_id spec) &&
  (plan_entry (pi_load_plan process) =?= 0x401001) && (usp_count (pi_stack_plan process) =?= 16%nat).

(** ** [scheduler_binding.rs] *)
Definition binds_process_to_created_ready_task : bool :=
  unwrap_some address_space := AddressSpaceId_new 7 in
  unwrap_some image := process_image address_space in
  unwrap! process, manager := register_ready ProcessManager_new image in
  match bind_and_ready manager Scheduler_new process Priority_DEFAULT with
  | (Ok task, manager, scheduler) =>
      (state scheduler task =?= Some Ready) &&
      match pm_binding manager process with Ok (Some b) => peb_task b =?= task | _ => false end
  | _ => false
  end.

Definition binding_failure_does_not_leave_task_ready : bool :=
  unwrap_some address_space := AddressSpaceId_new 7 in
  unwrap_some wrong_process_space := AddressSpaceId_new 8 in
  unwrap_some image := process_image address_space in
  unwrap! process, manager := register_ready ProcessManager_new image in
  unwrap! task, scheduler := create_task (E := SchedulerError) Scheduler_new Priority_DEFAULT in
  unwrap! execution, scheduler := attach_execution scheduler task in
  let '(_, manager) := pm_attach_execution manager process task execution wrong_process_space in
  (task_count scheduler =?= 1%nat) && (state scheduler task =?= Some Created) &&
  (unwrap! _, scheduler := destroy_created scheduler task in task_count scheduler =?= 0%nat).

(** ** [stack.rs] *)
Definition plans_all_stack_pages : bool :=
  unwrap plan := UserStackPlan_build in
  unwrap_some stack := user_stack_range in
  (usp_count plan =?= 16%nat) && (usp_initial_rsp plan =?= vr_end stack).

Definition guard_page_is_not_part_of_plan : bool :=
  unwrap plan := UserStackPlan_build in
  unwrap_some guard := user_stack_guard_range in
  unwrap_some page := usp_page plan 0 in
  vr_end guard <=? page_start page.

(** ** [state.rs] *)
Definition lifecycle_is_explicit_and_one_way : bool :=
  unwrap_some image := registry_image in
  let ready := ReadyProcess_from_image image in
  unwrap running := ready_start ready in
  (rp_state ready =?= ProcReady) && (run_state running =?= ProcRunning) &&
  (ex_state (running_exit running) =?= ProcExited).

(** ** [user_launch.rs] *)
Definition plan_accessors_are_stable : bool :=
  unwrap_some id := AddressSpaceId_new 7 in
  let plan := mkLaunchPlan id 0x401000 0x70000000 in
  (ulp_address_space plan =?= id) && (ulp_entry plan =?= 0x401000) && (ulp_stack_pointer plan =?= 0x70000000).
