(* ===== verification/TestsKernel.v ===== *)
(** * The unit tests of the kernel root, the ABI and the user program library

    [abi/src/lib.rs], [userspace/hello/src/lib.rs] and, in [kernel/src/]: [syscall.rs],
    [timer.rs], [interrupts.rs], [interrupt_controller.rs], [heap/mod.rs], [hello.rs],
    [ramdisk.rs]. *)

From stdpp Require Import base numbers strings list options.
From S2P Require Import Prelude Abi Memory UserCopy Syscall InterruptEntry Apic Timers Serial Heap Boot TestKit TestsMemory.

Local Open Scope Z_scope.
Local Open Scope test_scope.

#[export] Instance SyscallError_eq_dec : EqDecision SyscallError.
Proof. solve_decision. Defined.
#[export] Instance SyscallReturnAction_eq_dec : EqDecision SyscallReturnAction.
Proof. solve_decision. Defined.
#[export] Instance MonotonicTime_eq_dec : EqDecision MonotonicTime.
Proof. solve_decision. Defined.
#[export] Instance RamdiskError_eq_dec : EqDecision RamdiskError.
Proof. solve_decision. Defined.

(** ** [abi/src/lib.rs] *)
Definition syscall_numbers_are_stable : bool :=
  (Syscall_number Write =?= 0) && (Syscall_number Exit =?= 1) && (Syscall_number Yield =?= 2).

Definition syscall_numbers_decode_from_abi_contract : bool :=
  (Syscall_from_number 0 =?= Some Write) && (Syscall_from_number 1 =?= Some Exit) &&
  (Syscall_from_number 2 =?= Some Yield) && (Syscall_from_number U64_MAX =?= None).

Definition error_returns_are_negative_values : bool :=
  forallb (fun error =>
    let value := return_value error in
    (U64_MAX - 16 <? value) && (from_return_value value =?= Some error))
    [AbiUnknownSyscall; AbiNotImplemented; AbiInvalidArguments; AbiInvalidUserRange; AbiInvalidUserMemory;
     AbiWriteFailed].

Definition success_is_not_an_error : bool := from_return_value 0 =?= None.

Definition abi_version_is_explicit : bool := (ABI_MAJOR =?= 0) && (ABI_MINOR =?= 2).

(** The size and alignment assertions are about the compiled layout, which the model has not. *)
Definition user_slice_layout_is_stable : bool := UserSlice_is_empty UserSlice_empty.

(** ** [userspace/hello/src/lib.rs] *)
Definition lib_MESSAGE : list Z := ascii_bytes "Hello World from X11-OS userspace!" ++ [10].
Definition WRITE_SYSCALL : Z := Syscall_number Write.
Definition lib_message : list Z := lib_MESSAGE.

Definition payload_message_is_stable : bool :=
  (lib_MESSAGE =?= ascii_bytes "Hello World from X11-OS userspace!" ++ [10]) && (lib_message =?= lib_MESSAGE).

Definition payload_uses_shared_write_syscall_number : bool := WRITE_SYSCALL =?= Syscall_number Write.

(** ** [syscall.rs]: the doubles *)
Record FakeMapper := mkFakeMapper { fm_access : PageAccess }.

#[export] Instance FakeMapper_view : UserMemoryView FakeMapper := {|
  um_translate _ _ := Ok (Some 0x1000);
  um_page_access m _ := Ok (fm_access m);
  um_address_space _ := mkVirtRange USER_SPACE_START KERNEL_SPACE_START;
|}.

(** [dst.fill(b'A')] *)
Record FakeBackend := mkFakeBackend {}.
#[export] Instance FakeBackend_copy : UserCopyBackend FakeBackend := {|
  ucb_copy_from_user _ _ dst := (Ok tt, replicate (length dst) 65);
|}.

Record Sink := mkSink { sink_bytes : list Z }.
#[export] Instance Sink_write : WriteSink Sink := {|
  sink_write s bytes := (Ok tt, mkSink (sink_bytes s ++ bytes));
|}.
Definition Sink_default : Sink := mkSink [].

Record FailingSink := mkFailingSink {}.
#[export] Instance FailingSink_write : WriteSink FailingSink := {|
  sink_write s _ := (Err WriteFailed, s);
|}.

Record Control := mkControl { exited : option Z; yields : Z }.
#[export] Instance Control_control : ProcessSyscallControl Control := {|
  control_exit c code := (Ok tt, mkControl (Some code) (yields c));
  control_yield_now c := (Ok tt, mkControl (exited c) (yields c + 1));
|}.
Definition Control_default : Control := mkControl None 0.

Record FailingControl := mkFailingControl {}.
#[export] Instance FailingControl_control : ProcessSyscallControl FailingControl := {|
  control_exit c _ := (Err InvalidArguments, c);
  control_yield_now c := (Err InvalidArguments, c);
|}.

Definition user_readable_mapper : FakeMapper := mkFakeMapper PageAccess_user_read_only.

(** ** [syscall.rs]: the tests *)
Definition decodes_shared_syscall_numbers : bool :=
  (req_syscall (mkRequest (Syscall_number Write) 1 2 3) =?= Some Write) &&
  (req_syscall (mkRequest (Syscall_number Exit) 0 0 0) =?= Some Exit) &&
  (req_syscall (mkRequest (Syscall_number Yield) 0 0 0) =?= Some Yield).

Definition exit_and_yield_requests_have_explicit_arguments : bool :=
  (req_arg0 (SyscallRequest_exit 42) =?= 42) && (req_number SyscallRequest_yield_now =?= Syscall_number Yield).

Definition process_control_executes_exit_and_yield_without_global_state : bool :=
  let '(r1, control) := dispatch_with_control (SyscallRequest_exit 42) Control_default in
  let '(r2, control2) := dispatch_with_control SyscallRequest_yield_now control in
  (r1 =?= Ok 0) && (exited control =?= Some 42) && (r2 =?= Ok 0) && (yields control2 =?= 1).

Definition lifecycle_success_selects_actions : bool :=
  let '(exit, sink, control) :=
    dispatch_with_memory_and_control_action (SyscallRequest_exit 42) user_readable_mapper mkFakeBackend
      Sink_default Control_default in
  let '(yield_result, _, _) :=
    dispatch_with_memory_and_control_action SyscallRequest_yield_now user_readable_mapper mkFakeBackend
      sink control in
  (sd_result exit =?= Ok 0) && (sd_action exit =?= Terminate) &&
  (sd_result yield_result =?= Ok 0) && (sd_action yield_result =?= Reschedule).

Definition lifecycle_failure_always_returns : bool :=
  let '(exit, sink, control) :=
    dispatch_with_memory_and_control_action (SyscallRequest_exit 1) user_readable_mapper mkFakeBackend
      Sink_default mkFailingControl in
  let '(yield_result, _, _) :=
    dispatch_with_memory_and_control_action SyscallRequest_yield_now user_readable_mapper mkFakeBackend
      sink control in
  (sd_action exit =?= Return) && (sd_action yield_result =?= Return).

Definition combined_dispatch_routes_write_and_process_control : bool :=
  let '(r1, sink, control) :=
    dispatch_with_memory_and_control (SyscallRequest_write (mkUserSlice USER_SPACE_START 4))
      user_readable_mapper mkFakeBackend Sink_default Control_default in
  let '(r2, sink, control) :=
    dispatch_with_memory_and_control (SyscallRequest_exit 42) user_readable_mapper mkFakeBackend sink control in
  let '(r3, sink, control) :=
    dispatch_with_memory_and_control SyscallRequest_yield_now user_readable_mapper mkFakeBackend sink control in
  (r1 =?= Ok 4) && (r2 =?= Ok 0) && (r3 =?= Ok 0) && (exited control =?= Some 42) && (yields control =?= 1).

Definition write_rejects_nonzero_reserved_argument : bool :=
  let request := mkRequest (Syscall_number Write) USER_SPACE_START 4 1 in
  let '(r, sink) := dispatch_with_memory request user_readable_mapper mkFakeBackend Sink_default in
  (r =?= Err InvalidArguments) && (sink_bytes sink =?= []).

Definition combined_write_rejects_nonzero_reserved_argument_before_copy : bool :=
  let request := mkRequest (Syscall_number Write) USER_SPACE_START 4 1 in
  let '(result, sink, _) :=
    dispatch_with_memory_and_control_action request user_readable_mapper mkFakeBackend Sink_default
      Control_default in
  (sd_result result =?= Err InvalidArguments) && (sd_action result =?= Return) && (sink_bytes sink =?= []).

Definition syscall_errors_encode_to_shared_abi : bool :=
  (abi_return_value UnknownNumber =?= return_value AbiUnknownSyscall) &&
  (abi_return_value NotImplemented =?= return_value AbiNotImplemented) &&
  (abi_return_value WriteFailed =?= return_value AbiWriteFailed).

Definition rejects_unknown_syscall_numbers : bool := dispatch (mkRequest 0xffff 0 0 0) =?= Err UnknownNumber.

Definition write_rejects_kernel_address_before_dereference : bool :=
  dispatch (SyscallRequest_write (mkUserSlice KERNEL_SPACE_START 1))
    =?= Err (InvalidUserRange OutsideUserSpace).

Definition write_executes_through_validated_copy_and_sink : bool :=
  let '(result, sink) :=
    dispatch_with_memory (SyscallRequest_write (mkUserSlice (USER_SPACE_START + 1) 300))
      user_readable_mapper mkFakeBackend Sink_default in
  (result =?= Ok 300) && (length (sink_bytes sink) =?= 300%nat) &&
  forallb (fun byte => byte =?= 65) (sink_bytes sink).

Definition write_propagates_sink_failure_without_claiming_success : bool :=
  (dispatch_with_memory (SyscallRequest_write (mkUserSlice USER_SPACE_START 4))
     user_readable_mapper mkFakeBackend mkFailingSink).1 =?= Err WriteFailed.

Definition write_rejects_unmapped_before_sink : bool :=
  let '(r, sink) :=
    dispatch_with_memory (SyscallRequest_write (mkUserSlice USER_SPACE_START 4))
      (mkFakeMapper PageAccess_unmapped) mkFakeBackend Sink_default in
  (r =?= Err (InvalidUserMemory Unmapped)) && (sink_bytes sink =?= []).

(** ** [timer.rs] *)
Definition monotonic_time_preserves_nanoseconds : bool := as_nanos (mkTime 123456) =?= 123456.

Definition time_addition_saturates : bool :=
  time_saturating_add (mkTime (U64_MAX - 1)) 10 =?= mkTime U64_MAX.

Definition zero_interval_is_rejected : bool := is_none (TimerInterval_new 0).

Definition interval_round_trips : bool :=
  unwrap_some interval := TimerInterval_new 1000000 in interval_nanos interval =?= 1000000.

Definition deadline_preserves_absolute_time : bool :=
  let time := mkTime 9000 in deadline_time (mkDeadline time) =?= time.

(** ** [interrupts.rs] *)
Definition rejects_external_vector_below_external_range : bool :=
  is_none (InterruptEvent_new (External TIMER_VECTOR)).

Definition timer_owns_vector_32 : bool :=
  unwrap_some event := InterruptEvent_new Timer in ev_vector event =?= TIMER_VECTOR.

Definition accepts_external_vector_at_boundary : bool :=
  unwrap_some event := InterruptEvent_new (External EXTERNAL_VECTOR_BASE) in
  ev_vector event =?= EXTERNAL_VECTOR_BASE.

Definition spurious_vector_is_maximum : bool :=
  unwrap_some event := InterruptEvent_new Spurious in ev_vector event =?= VECTOR_MAX.

(** ** [interrupt_controller.rs] *)
Definition vector_policy_excludes_exception_and_timer_space : bool :=
  negb (supports_vector 31) && negb (supports_vector 32) && supports_vector EXTERNAL_VECTOR_BASE.

(** ** [heap/mod.rs] *)
Definition accepts_page_aligned_region : bool :=
  unwrap_some region := HeapRegion_new 0x10000000 INITIAL_HEAP_SIZE in
  (hr_start region =?= 0x10000000) && (hr_size region =?= INITIAL_HEAP_SIZE).

Definition rejects_unaligned_start : bool := is_none (HeapRegion_new 0x1001 PAGE_SIZE_4K).

Definition rejects_non_page_multiple_size : bool := is_none (HeapRegion_new 0x1000 (PAGE_SIZE_4K + 1)).

Definition rejects_overflowing_range : bool := is_none (HeapRegion_new (U64_MAX - 0x1000) PAGE_SIZE_4K).

Definition heap_stats_preserve_capacity_identity : bool :=
  let stats := mkStats 4096 1024 3072 in hs_used stats + hs_free stats =?= hs_capacity stats.

(** ** [hello.rs] *)
Definition hello_message_is_stable : bool := HELLO_MESSAGE =?= "Hello World from X11-OS!"%string.

(** ** [ramdisk.rs] *)
Definition error_contract_is_distinct : bool :=
  negb (RdMissing =?= RdLengthOverflow) && negb (RdEmpty =?= RdAddressOverflow).
