(* ===== verification/TestsArch.v ===== *)
(** * The unit tests of [kernel/src/arch/x86_64/]

    A test process has a heap and a stack of its own: where the tests take the address of a
    local array or allocate, the address is a constant here.  Its CPU never ran [gdt::init]. *)

From stdpp Require Import base numbers list options.
From S2P Require Import Prelude Tasks Queues Scheduler Memory Frames UserCopy Syscall.
From S2P Require Import Elf LoadPlan Populate Process Execution UserExecution KernelTask Runtime Dispatch.
From S2P Require Import SystemRuntime ProcessRuntime InterruptEntry Contracts PageTable Acpi Apic Timers Descriptors.
From S2P Require Import TestKit TestsMemory TestsProcess TestsKernel.

Local Open Scope Z_scope.
Local Open Scope test_scope.

#[export] Instance AddressSpaceRoot_eq_dec : EqDecision AddressSpaceRoot.
Proof. solve_decision. Defined.
#[export] Instance AddressSpaceRootError_eq_dec : EqDecision AddressSpaceRootError.
Proof. solve_decision. Defined.
#[export] Instance UserReturnFrame_eq_dec : EqDecision UserReturnFrame.
Proof. solve_decision. Defined.
#[export] Instance PreparedUserLaunch_eq_dec : EqDecision PreparedUserLaunch.
Proof. solve_decision. Defined.
#[export] Instance UserExecutionBinding_eq_dec : EqDecision UserExecutionBinding.
Proof. solve_decision. Defined.
#[export] Instance UserReturnTransfer_eq_dec : EqDecision UserReturnTransfer.
Proof. solve_decision. Defined.
#[export] Instance UserReturnError_eq_dec : EqDecision UserReturnError.
Proof. solve_decision. Defined.
#[export] Instance UserExecutionBindingError_eq_dec : EqDecision UserExecutionBindingError.
Proof. solve_decision. Defined.
#[export] Instance UserExecutionRegistryError_eq_dec : EqDecision UserExecutionRegistryError.
Proof. solve_decision. Defined.
#[export] Instance UserReturnTransferError_eq_dec : EqDecision UserReturnTransferError.
Proof. solve_decision. Defined.
#[export] Instance CaptureError_eq_dec : EqDecision CaptureError.
Proof. solve_decision. Defined.
#[export] Instance RuntimeBindingError_eq_dec : EqDecision RuntimeBindingError.
Proof. solve_decision. Defined.
#[export] Instance ExecutionError_eq_dec : EqDecision ExecutionError.
Proof. solve_decision. Defined.
#[export] Instance RegistryInsertError_eq_dec : EqDecision RegistryInsertError.
Proof. solve_decision. Defined.
#[export] Instance ImageWriteError_eq_dec : EqDecision ImageWriteError.
Proof. solve_decision. Defined.
#[export] Instance YieldError_eq_dec : EqDecision YieldError.
Proof. solve_decision. Defined.
#[export] Instance PreemptionError_eq_dec : EqDecision PreemptionError.
Proof. solve_decision. Defined.
#[export] Instance ContractError_eq_dec : EqDecision BootstrapPreemptionContractError.
Proof. solve_decision. Defined.
#[export] Instance UserContextError_eq_dec : EqDecision UserContextError.
Proof. solve_decision. Defined.
#[export] Instance UserContext_eq_dec : EqDecision UserContext.
Proof. solve_decision. Defined.
#[export] Instance DispatchDecision_eq_dec : EqDecision DispatchDecision.
Proof. solve_decision. Defined.
#[export] Instance Polarity_eq_dec : EqDecision Polarity.
Proof. solve_decision. Defined.
#[export] Instance TriggerMode_eq_dec : EqDecision TriggerMode.
Proof. solve_decision. Defined.
#[export] Instance Mode_eq_dec : EqDecision Apic.ApicMode.
Proof. solve_decision. Defined.

#[local] Existing Instance canonical_virt_addr.
#[local] Existing Instance phys_addr_52.

(** ** The test process *)
Definition never_returns : Z := 0x5000.
Definition trampoline : Z := 0x6000.
Definition RAW : Z := 0x7000.

(** A heap that places the [n]-th stack and activation record apart from the others. *)
Definition host_memory (n : Z) : KernelMemory := mkKernelMemory (Some (0x100000 + n * 0x10000)) (0x80000 + n * 64) trampoline.
Definition host_cpu : Cpu := mkCpu CpuLocalState_new None 0 false.

(** [SavedRegisters::default()] *)
Definition SavedRegisters_default : SavedRegisters := mkRegs 0 0 0 0 0 0 0 0 0 0 0 0 0 0 0.

(** [InterruptReturnFrame::from_raw(raw.as_mut_ptr())] *)
Definition frame_from (raw : list Z) : InterruptReturnFrame := mkReturnFrame RAW (fun i => nth i raw 0).
Definition snapshot_from (raw : list Z) : option InterruptedState :=
  match InterruptedState_capture (E := Empty_set) SavedRegisters_default (frame_from raw) with
  | Ok s => Some s
  | _ => None
  end.

Definition kernel_snapshot : option InterruptedState := snapshot_from [0x1000; 0x10; 0x202].

(** ** [acpi.rs] *)
Definition checksum_wraps_at_u8 : bool := checksum [255; 1] =?= 0.

Definition source_override_is_copyable : bool :=
  let value := mkOverride 0 0 2 0 in so_gsi value =?= 2.

(** ** [activation.rs] *)
Definition boxed_activation_has_stable_address : bool :=
  let record := mkActivation (mkTaskId 1 1) never_returns 0x80000 in
  let before := act_pointer record in
  let moved := record in
  before =?= act_pointer moved.

(** ** [address_space.rs] *)
Definition accepts_aligned_level4_frame : bool :=
  unwrap root := from_physical_address 0x12345000 in root_physical_address root =?= 0x12345000.

Definition rejects_unaligned_level4_frame : bool := from_physical_address 0x12345001 =?= Err RootUnaligned.

Definition root_error_is_explicit : bool :=
  (RootAllocationFailed =?= RootAllocationFailed) && (PhysicalAddressOverflow =?= PhysicalAddressOverflow).

(** ** [apic.rs] *)
Definition prefers_x2apic : bool := preferred_mode (mkCaps true true) =?= Some Apic.X2Apic.
Definition falls_back_to_xapic : bool := preferred_mode (mkCaps true false) =?= Some Apic.XApic.
Definition refuses_missing_apic : bool := preferred_mode (mkCaps false false) =?= None.
Definition vectors_start_after_exception_space : bool :=
  (va_allocate VectorAllocator_new).1 =?= Some EXTERNAL_VECTOR_BASE.

(** ** [context_switch.rs] *)
Definition context_is_zero_before_initialization : bool := negb (is_initialized Context_empty).

Definition bootstrap_context_carries_activation_pointer : bool :=
  let activation := mkActivation (mkTaskId 1 1) never_returns 0x80000 in
  unwrap_some context := bootstrap_context 0x20000 activation trampoline in
  (Z.land (c_rsp context) 0xf =?= 0x8) && (c_r12 context =?= act_pointer activation) && is_initialized context.

Definition bootstrap_rejects_invalid_stack : bool :=
  let activation := mkActivation (mkTaskId 1 1) never_returns 0x80000 in
  is_none (bootstrap_context 0 activation trampoline).

(** ** [cpu_local.rs] *)
Definition cpu_local_current_task_round_trips : bool :=
  let cpu := set_current_task CpuLocalState_new (Some (mkTaskId 7 3)) in
  let cpu2 := set_current_task cpu None in
  (cl_current_task cpu =?= Some (mkTaskId 7 3)) && (cl_current_task cpu2 =?= None).

Definition syscall_action_mailbox_is_single_shot : bool :=
  let cpu := publish_syscall_action CpuLocalState_new Reschedule in
  let '(first, cpu) := take_syscall_action cpu in
  let '(second, _) := take_syscall_action cpu in
  (first =?= Some Reschedule) && (second =?= None).

Definition capture_requires_current_task : bool :=
  (cl_capture_interrupted CpuLocalState_new SavedRegisters_default (frame_from [0x1000; 0x10; 0x202]) 0x8000).1
    =?= Err NoCurrentTask.

Definition interrupted_snapshot_can_be_peeked_without_consuming : bool :=
  let cpu := set_current_task CpuLocalState_new (Some (mkTaskId 9 4)) in
  unwrap! _, cpu := cl_capture_interrupted cpu SavedRegisters_default (frame_from [0x1000; 0x10; 0x202]) 0x8000 in
  let '(taken, after) := cl_take_interrupted cpu in
  (fst <$> interrupted cpu =?= Some (mkTaskId 9 4)) && has_interrupted cpu &&
  (fst <$> taken =?= Some (mkTaskId 9 4)) && (interrupted_task after =?= None).

Definition runtime_binding_is_stable_and_single_owner : bool :=
  let ptr := 0x9000 in
  unwrap! _, cpu := bind_runtime CpuLocalState_new ptr in
  (runtime_ptr cpu =?= Some ptr) && ((bind_runtime cpu ptr).1 =?= Err BindAlreadyBound) &&
  (runtime_ptr (unbind_runtime cpu) =?= None).

(** ** [execution.rs] *)
Definition execution_binding_owns_stable_stack_and_activation : bool :=
  unwrap binding := X86ExecutionBinding_new (host_memory 0) (mkTaskId 1 1) never_returns in
  (xb_stack_len binding =?= KERNEL_STACK_SIZE) && is_some (xb_stack_top binding) &&
  (act_task_id (xb_activation binding) =?= mkTaskId 1 1) &&
  (c_r12 (xb_context binding) =?= act_pointer (xb_activation binding)) && xb_is_bootstrapped binding &&
  is_ok (xb_validate binding) && is_none (xb_interrupted binding).

Definition interrupted_snapshot_is_owned_once : bool :=
  unwrap binding := X86ExecutionBinding_new (host_memory 0) (mkTaskId 2 1) never_returns in
  unwrap_some snapshot := kernel_snapshot in
  unwrap! _, binding := install_interrupted binding snapshot in
  let '(taken, after) := take_interrupted binding in
  ((install_interrupted binding snapshot).1 =?= Err InterruptedStateAlreadyPresent) && is_some taken &&
  is_none (xb_interrupted after).

(** ** [execution_registry.rs] *)
Definition registry_owns_one_execution_binding_per_handle : bool :=
  let handle := ExecutionHandle_for_task (mkTaskId 1 1) in
  unwrap! _, registry := er_insert (host_memory 0) ExecutionRegistry_new handle never_returns in
  (er_count registry =?= 1%nat) && er_contains registry handle && er_is_valid registry handle &&
  is_some (er_kernel_stack_top registry (handle_task_id handle)).

Definition duplicate_handle_is_rejected : bool :=
  let handle := ExecutionHandle_for_task (mkTaskId 1 1) in
  unwrap! _, registry := er_insert (host_memory 0) ExecutionRegistry_new handle never_returns in
  (er_insert (host_memory 1) registry handle never_returns).1 =?= Err RegAlreadyBound.

Definition stale_generation_does_not_match_reused_index : bool :=
  let old := ExecutionHandle_for_task (mkTaskId 2 1) in
  let new := ExecutionHandle_for_task (mkTaskId 2 2) in
  unwrap! _, registry := er_insert (host_memory 0) ExecutionRegistry_new old never_returns in
  er_contains registry old && negb (er_contains registry new).

Definition removing_execution_is_terminal_for_that_handle : bool :=
  let handle := ExecutionHandle_for_task (mkTaskId 3 9) in
  unwrap! _, registry := er_insert (host_memory 0) ExecutionRegistry_new handle never_returns in
  let '(removed, registry) := er_remove registry handle in
  removed && negb (er_contains registry handle) && (er_count registry =?= 0%nat).

Definition context_pair_rejects_same_task : bool :=
  let handle := ExecutionHandle_for_task (mkTaskId 5 1) in
  unwrap! _, registry := er_insert (host_memory 0) ExecutionRegistry_new handle never_returns in
  context_pair (E := Empty_set) registry (handle_task_id handle) (handle_task_id handle) =?= Ok None.

(** [registry.get_mut(task).unwrap().install_interrupted(snapshot).unwrap()] *)
Definition registry_install (registry : ExecutionRegistry) (task : TaskId) (snapshot : InterruptedState)
  : option ExecutionRegistry :=
  match er_get registry task with
  | Some binding =>
      match install_interrupted binding snapshot with
      | (Ok _, binding) => Some (reg_update xb_task_id registry task (fun _ => binding))
      | _ => None
      end
  | None => None
  end.

Definition non_kernel_preempt_state_is_not_consumed : bool :=
  let handle := ExecutionHandle_for_task (mkTaskId 6 1) in
  let task := handle_task_id handle in
  unwrap! _, registry := er_insert (host_memory 0) ExecutionRegistry_new handle never_returns in
  unwrap_some snapshot := snapshot_from [0x1000; 0x1b; 0x202; 0x8000; 0x23] in
  unwrap_some registry := registry_install registry task snapshot in
  let '(taken, registry) := take_kernel_preempt_state registry task in
  unwrap_some binding := er_get registry task in
  is_none taken && is_some (xb_interrupted binding).

(** ** [gdt.rs] *)
Definition ring3_selector_contract_is_stable : bool :=
  (USER_DATA_SELECTOR =?= 0x13) && (USER_CODE_SELECTOR =?= 0x1b) &&
  (Z.land USER_DATA_SELECTOR 3 =?= 3) && (Z.land USER_CODE_SELECTOR 3 =?= 3).

Definition kernel_entry_stack_has_expected_size : bool := KERNEL_ENTRY_STACK_SIZE =?= 32 * 1024.

(** ** [image_writer.rs] *)
Definition image_writer (offset : Z) : X86ImagePageWriter := mkX86Writer (mkMapping offset) (fun _ => 0).

Definition rejects_empty_write : bool := mapped_address (image_writer 0x80000000) 0x1000 0 0 =?= Err EmptyRange.

Definition translates_page_offset_with_checked_math : bool :=
  mapped_address (image_writer 0x80000000) 0x3000 128 64 =?= Ok 0x80003080.

Definition rejects_translation_overflow : bool :=
  mapped_address (image_writer (U64_MAX - 0x10)) 0x20 0 1 =?= Err ImageAddressOverflow.

(** ** [interrupt_entry.rs] *)
Definition return_frame_sizes_match_same_and_cross_cpl : bool :=
  (SAME_CPL_FRAME_BYTES =?= 24) && (CROSS_CPL_FRAME_BYTES =?= 40).

Definition syscall_success_returns_value_in_rax_contract : bool := syscall_result_abi_value (Ok 300) =?= Some 300.

Definition syscall_failure_returns_negative_abi_value : bool :=
  (syscall_result_abi_value (Err WriteFailed) =?= Some (abi_return_value WriteFailed)) &&
  (unwrap_some value := syscall_result_abi_value (Err WriteFailed) in U64_MAX - 16 <? value).

Definition user_return_frame_reads_rsp_and_ss : bool :=
  let frame := frame_from [0x1000; USER_CODE_SELECTOR; 0x202; 0x8000; USER_DATA_SELECTOR] in
  (irf_rsp frame =?= Some 0x8000) && (irf_ss frame =?= Some USER_DATA_SELECTOR) &&
  (irf_resume_rsp frame =?= Some 0x8000).

(** ** [interrupt_frame.rs] *)
Definition interrupt_flag_is_read_without_mutating_frame : bool :=
  let enabled := mkKernelFrame 0 0 (Z.shiftl 1 9) in
  let disabled := mkKernelFrame 0 0 0 in
  interrupt_enabled enabled && negb (interrupt_enabled disabled).

(** ** [interrupted_state.rs] *)
Definition kernel_return_snapshot_is_valid : bool :=
  unwrap_some snapshot := snapshot_from [0x1000; 0x10; 0x202] in
  let r := is_return_state snapshot in
  is_valid snapshot && negb (is_user_valid snapshot) && (rs_rsp r =?= None) && (rs_ss r =?= None) &&
  (rs_resume_rsp r =?= RAW + 24) && (kernel_iret_words r =?= Some [0x1000; 0x10; 0x202]).

Definition user_return_snapshot_is_valid_only_with_user_stack_pair : bool :=
  let state := mkReturnState 0x1000 0x1b 0x202 0x8000 (Some 0x8000) (Some 0x23) in
  let interrupted := mkInterrupted SavedRegisters_default state in
  negb (rs_is_kernel state) && is_valid interrupted && is_user_valid interrupted &&
  is_none (kernel_iret_words state).

(** ** [ioapic.rs] *)
Definition masked_fixed_entry_encoding : bool :=
  let '(low, high) := encode (RedirectionEntry_masked 48 2) in
  (Z.land low 0xff =?= 48) && (Z.land (Z.shiftr low 16) 1 =?= 1) && (Z.shiftr high 24 =?= 2).

Definition level_trigger_and_active_low_are_independent_bits : bool :=
  let entry := RedirectionEntry_masked 40 0 in
  let entry := mkRedirection (re_vector entry) (re_delivery_mode entry) (re_destination_mode_logical entry)
                 (re_delivery_pending entry) true true (re_masked entry) (re_destination entry) in
  let '(low, _) := encode entry in
  (Z.land (Z.shiftr low 13) 1 =?= 1) && (Z.land (Z.shiftr low 15) 1 =?= 1).

Definition first_redirection_register_is_base : bool := REDIRECTION_TABLE_BASE =?= 0x10.

(** ** [irq_routing.rs] *)
Definition identity_route_preserves_isa_irq : bool :=
  let route := IrqRoute_identity 1 in
  (ir_gsi route =?= 1) && (ir_polarity route =?= PolarityConforms) && (ir_trigger route =?= TriggerConforms).

Definition selects_nearest_lower_ioapic_gsi_base : bool :=
  let topology := ApicTopology_empty in
  let topology :=
    mkTopology (at_local_apic_address topology) (at_local_apics topology) (at_local_x2apics topology)
      (<[0%nat := Some (mkIoApicInfo 1 0xfec00000 0)]> (<[1%nat := Some (mkIoApicInfo 2 0xfec01000 24)]>
         (at_io_apics topology)))
      (at_source_overrides topology) (at_local_apic_count topology) (at_local_x2apic_count topology) 2
      (at_source_override_count topology) in
  (io_apic_index_for_gsi (E := Empty_set) topology 30 =?= Ok (Some 1%nat)) &&
  (io_apic_index_for_gsi (E := Empty_set) topology 10 =?= Ok (Some 0%nat)).

(** ** [kernel_task.rs] *)
Definition spawned_manager : option (TaskId * KernelTaskManager) :=
  match ktm_spawn (host_memory 0) KernelTaskManager_new Priority_DEFAULT never_returns with
  | (Ok task, m) => Some (task, m)
  | _ => None
  end.

Definition spawn_installs_execution_before_ready_state : bool :=
  unwrap_some (task, manager) := spawned_manager in
  is_executable manager task && (state (ktm_scheduler manager) task =?= Some Ready) &&
  (ktm_task_count manager =?= 1%nat).

(** The tests below dispatch on the CPU [c]. *)
Definition prepare_dispatch_validates_registry_backed_execution (c : Cpu) : bool :=
  unwrap_some (task, manager) := spawned_manager in
  match prepare_dispatch manager c with
  | (Ok decision, manager, _) =>
      (previous decision =?= None) && (next decision =?= Some task) &&
      (state (ktm_scheduler manager) task =?= Some Running) &&
      is_some (er_kernel_stack_top (ktm_executions manager) task)
  | _ => false
  end.

Definition prepare_dispatch_returns_noop_without_another_ready_task (c : Cpu) : bool :=
  unwrap_some (task, manager) := spawned_manager in
  match prepare_dispatch manager c with
  | (Ok first, manager, c) =>
      match prepare_dispatch manager c with
      | (Ok second, manager, _) =>
          (first =?= mkDecision None (Some task)) && (second =?= mkDecision (Some task) None) &&
          (state (ktm_scheduler manager) task =?= Some Running)
      | _ => false
      end
  | _ => false
  end.

Definition exit_current_releases_execution_registry_entry (c : Cpu) : bool :=
  unwrap_some (task, manager) := spawned_manager in
  unwrap_some handle := execution (ktm_scheduler manager) task in
  match prepare_dispatch manager c with
  | (Ok _, manager, _) =>
      let '(exited, manager) := ktm_exit_current manager in
      exited && negb (er_contains (ktm_executions manager) handle) &&
      (state (ktm_scheduler manager) task =?= None)
  | _ => false
  end.

Definition sleeping_task_expires_without_switching_in_timer_service (c : Cpu) : bool :=
  unwrap_some (task, manager) := spawned_manager in
  match prepare_dispatch manager c with
  | (Ok _, manager, _) =>
      unwrap! slept, manager := ktm_sleep_current_until manager 100 in
      let '(n99, manager99) := ktm_expire_sleepers manager 99 in
      let '(n100, manager100) := ktm_expire_sleepers manager99 100 in
      (slept =?= task) && (state (ktm_scheduler manager) task =?= Some Blocked) &&
      (current (ktm_scheduler manager) =?= None) && (next_sleep_deadline manager =?= Some 100) &&
      (n99 =?= 0%nat) && (state (ktm_scheduler manager99) task =?= Some Blocked) &&
      (n100 =?= 1%nat) && (state (ktm_scheduler manager100) task =?= Some Ready) &&
      (current (ktm_scheduler manager100) =?= None)
  | _ => false
  end.

Definition sleep_deadline_remains_owned_while_task_is_blocked (c : Cpu) : bool :=
  unwrap_some (task, manager) := spawned_manager in
  match prepare_dispatch manager c with
  | (Ok _, manager, _) =>
      unwrap! slept, manager := ktm_sleep_current_until manager 100 in
      (slept =?= task) && (next_sleep_deadline manager =?= Some 100) &&
      (state (ktm_scheduler manager) task =?= Some Blocked)
  | _ => false
  end.

(** ** [lapic_timer.rs] *)
Definition divide_encoding_is_sixteen : bool := DIVIDE_BY_16_ENCODING =?= 3.

(** ** [page_table.rs] *)
Definition flags_reject_writable_executable_mapping : bool := is_writable_executable flags_read_write_execute.

Definition map_error_mapping_preserves_semantics : bool :=
  (map_to_error MapFrameAllocationFailed =?= FrameAllocationFailed) &&
  (map_to_error MapParentEntryHugePage =?= ParentEntryHugePage) &&
  (map_to_error (PageAlreadyMapped 0x1000) =?= AlreadyMapped).

(** ** [pic.rs] *)
Definition legacy_pic_ports_are_stable : bool := (MASTER_DATA =?= 0x21) && (SLAVE_DATA =?= 0xA1).

(** ** [preempt_return.rs] *)
Definition validates_kernel_return_packet : bool :=
  unwrap_some state := snapshot_from [0x1000; 0x8; 0x202] in validate_kernel_state state.

Definition rejects_user_return_packet : bool :=
  unwrap_some state := snapshot_from [0x1000; 0x1b; 0x202; 0x8000; 0x23] in negb (validate_kernel_state state).

(** ** [preemption.rs] *)
Definition request_is_deferred_until_safe_point : bool :=
  let controller := pc_request_now PreemptionController_new in
  let '(r1, controller) := take_request controller false in
  let '(r2, controller) := take_request controller true in
  let '(r3, _) := take_request controller true in
  (r1 =?= Err PreemptionDisabled) && (r2 =?= Ok tt) && (r3 =?= Err NoRequest).

(** ** [preemption_contract.rs] *)
Definition rejects_missing_interrupted_state : bool :=
  validate_interrupted_state None =?= Err MissingCurrentContext.

Definition rejects_user_return_frame_for_kernel_preemption : bool :=
  unwrap_some state := snapshot_from [0x1000; 0x1b; 0x202; 0x8000; 0x23] in
  validate_interrupted_state (Some state) =?= Err InvalidInterruptedState.

Definition accepts_valid_kernel_interrupted_state : bool :=
  unwrap_some state := snapshot_from [0x1000; 0x08; 0x202] in is_ok (validate_interrupted_state (Some state)).

Definition rejects_uninitialized_context : bool := negb (context_is_initialized Context_empty).

(** ** [process_runtime.rs] *)
(** [launch(address_space)] *)
Definition test_launch (address_space : AddressSpaceId) : option PreparedUserLaunch :=
  match from_physical_address 0x12345000, user_stack_range with
  | Ok root, Some stack =>
      match prepare_launch root (mkLaunchPlan address_space (USER_SPACE_START + 0x1000) (vr_end stack)) with
      | Ok launch => Some launch
      | _ => None
      end
  | _, _ => None
  end.

Definition spawn_user_ready_is_transactional_and_ready_only_at_end : bool :=
  unwrap_some address_space := AddressSpaceId_new 7 in
  unwrap_some image := process_image address_space in
  unwrap_some launch := test_launch address_space in
  match po_spawn_user_ready ProcessManager_new Scheduler_new image launch Priority_DEFAULT with
  | (Ok (process, task, binding), processes, scheduler) =>
      (task_kind scheduler task =?= Some Userspace) && (pm_state processes process =?= Ok ProcReady) &&
      (state scheduler task =?= Some Ready) && (ub_task binding =?= task) &&
      (ub_address_space binding =?= address_space)
  | _ => false
  end.

Definition spawn_user_ready_rejects_address_space_mismatch_without_ready_task : bool :=
  unwrap_some image_space := AddressSpaceId_new 7 in
  unwrap_some launch_space := AddressSpaceId_new 8 in
  unwrap_some image := process_image image_space in
  unwrap_some launch := test_launch launch_space in
  match po_spawn_user_ready ProcessManager_new Scheduler_new image launch Priority_DEFAULT with
  | (Err UsAddressSpaceMismatch, _, scheduler) => task_count scheduler =?= 0%nat
  | _ => false
  end.

Definition bind_current_requires_matching_running_task : bool :=
  unwrap_some image := registry_image in
  unwrap! process, processes := register_ready ProcessManager_new image in
  match po_bind_current (po_new processes KernelRuntime_new) process with
  | (Err PoTaskBindingMismatch, _) => true
  | _ => false
  end.

(** [owner.yield_now()], which maps the errors of [request_yield]. *)
Definition syscall_control_maps_unbound_yield : bool :=
  unwrap_some image := registry_image in
  unwrap! _, processes := register_ready ProcessManager_new image in
  (control_yield_now (po_new processes KernelRuntime_new)).1 =?= Err InvalidArguments.

(** ** [system_runtime.rs] *)
Definition user_ready_transaction_stops_before_running : bool :=
  unwrap_some id := AddressSpaceId_new 7 in
  unwrap_some image := process_image id in
  unwrap_some launch := test_launch id in
  unwrap! (process, task), system :=
    spawn_user_ready (host_memory 0) never_returns SystemRuntime_new image launch Priority_DEFAULT in
  (pm_state (sy_processes system) process =?= Ok ProcReady) &&
  (state (sy_scheduler system) task =?= Some Ready) &&
  is_some (er_kernel_stack_top (sy_executions system) task) && (sy_current_process system =?= None) &&
  (current_user_binding system =?= None) && (sy_pending_exit system =?= None).

(** ** [tsc.rs] *)
Definition converts_exact_second : bool := ticks_to_nanos 3000000000 3000000000 =?= Some 1000000000.
Definition converts_fractional_second : bool := ticks_to_nanos 1500000000 3000000000 =?= Some 500000000.
Definition rejects_zero_frequency : bool := ticks_to_nanos 1 0 =?= None.

(** ** [user_context.rs] *)
Definition builds_ring3_context_from_process_context : bool :=
  unwrap_some stack := user_stack_range in
  unwrap initial := InitialContext_new (USER_SPACE_START + 0x1000) (vr_end stack) in
  unwrap context := UserContext_from_initial initial 0x23 0x1b in
  (uc_rip context =?= USER_SPACE_START + 0x1000) && (uc_rsp context =?= vr_end stack) &&
  (Z.land (uc_rflags context) (Z.shiftl 1 9) =?= Z.shiftl 1 9) && is_user_selectors context 0x23 0x1b.

Definition context_rejects_kernel_selectors : bool :=
  unwrap_some stack := user_stack_range in
  unwrap initial := InitialContext_new (USER_SPACE_START + 0x1000) (vr_end stack) in
  UserContext_from_initial initial 0x08 0x10 =?= Err InvalidSelectors.

(** ** [user_copy.rs] *)
Record CopyMapper := mkCopyMapper { cm_physical : option Z }.
#[export] Instance CopyMapper_view : UserMemoryView CopyMapper := {|
  um_translate m _ := Ok (cm_physical m);
  um_page_access _ _ := Ok PageAccess_user_read_only;
  um_address_space _ := mkVirtRange USER_SPACE_START KERNEL_SPACE_START;
|}.

Definition rejects_direct_map_overflow_before_raw_copy : bool :=
  let backend := mkX86Copy (mkCopyMapper (Some U64_MAX)) (mkMapping 1) (fun _ => 0) in
  (ucb_copy_from_user backend USER_SPACE_START [0]).1 =?= Err CopyBackendFailure.

Definition page_chunk_calculation_never_crosses_a_page : bool :=
  let source := PAGE_SIZE_4K - 3 in
  let page_offset := source mod PAGE_SIZE_4K in
  PAGE_SIZE_4K - page_offset =?= 3.

(** ** [user_entry.rs] *)
Definition return_frame_matches_iretq_field_order : bool :=
  unwrap_some stack := user_stack_range in
  unwrap context := InitialContext_new (USER_SPACE_START + 0x1000) (vr_end stack) in
  unwrap frame := UserReturnFrame_from_initial context USER_CODE_SELECTOR USER_DATA_SELECTOR in
  (uf_rip frame =?= ctx_entry context) && (uf_cs frame =?= USER_CODE_SELECTOR) && (uf_rflags frame =?= 0x202) &&
  (uf_rsp frame =?= ctx_stack_pointer context) && (uf_ss frame =?= USER_DATA_SELECTOR).

(** ** [user_execution.rs] *)
Definition test_binding : option UserExecutionBinding :=
  match AddressSpaceId_new 7 with
  | Some id =>
      match test_launch id with
      | Some launch =>
          match UserExecutionBinding_new (mkProcessId 1 2) (mkTaskId 3 4) id launch with
          | Ok binding => Some binding
          | _ => None
          end
      | None => None
      end
  | None => None
  end.

Definition user_snapshot : option InterruptedState :=
  stack ← user_stack_range; snapshot_from [USER_SPACE_START + 0x2000; 0x1b; 0x202; vr_end stack; 0x13].

Definition binding_rejects_mismatched_address_space : bool :=
  unwrap_some id := AddressSpaceId_new 7 in
  unwrap_some other := AddressSpaceId_new 8 in
  unwrap_some launch := test_launch id in
  (UserExecutionBinding_new (mkProcessId 1 2) (mkTaskId 3 4) other launch =?= Err UserAddressSpaceMismatch) &&
  (pl_address_space launch =?= id).

Definition registry_rejects_duplicate_task : bool :=
  unwrap_some value := test_binding in
  unwrap! _, registry := ur_insert UserExecutionRegistry_new value in
  (ur_insert registry value).1 =?= Err UserAlreadyBound.

Definition registry_removes_exact_task : bool :=
  unwrap_some value := test_binding in
  unwrap! _, registry := ur_insert UserExecutionRegistry_new value in
  let '(first, registry) := ur_remove registry (ub_task value) in
  let '(second, _) := ur_remove registry (ub_task value) in
  (first =?= Ok value) && (second =?= Err UserNotFound).

Definition resume_state_is_owned_and_consumed_explicitly : bool :=
  unwrap_some value := test_binding in
  unwrap! _, registry := ur_insert UserExecutionRegistry_new value in
  unwrap_some state := user_snapshot in
  unwrap! _, registry := ur_install_resume registry (ub_task value) state in
  unwrap! cleared, after := ur_clear_resume registry (ub_task value) in
  ((ub_resume <$> ur_get registry (ub_task value)) =?= Some (Some state)) && (cleared =?= Some state) &&
  ((ub_resume <$> ur_get after (ub_task value)) =?= Some None).

(** ** [user_launch.rs] *)
Definition prepared_launch_keeps_root_and_iret_state_together : bool :=
  unwrap root := from_physical_address 0x12345000 in
  unwrap_some id := AddressSpaceId_new 7 in
  unwrap_some stack := user_stack_range in
  let plan := mkLaunchPlan id (USER_SPACE_START + 0x1000) (vr_end stack) in
  unwrap prepared := prepare_launch root plan in
  (pl_address_space prepared =?= id) && (pl_root prepared =?= root) &&
  (uf_rip (pl_frame prepared) =?= ulp_entry plan) && (uf_rsp (pl_frame prepared) =?= ulp_stack_pointer plan) &&
  (uf_cs (pl_frame prepared) =?= USER_CODE_SELECTOR) && (uf_ss (pl_frame prepared) =?= USER_DATA_SELECTOR).

(** ** [user_return.rs] *)
Definition builds_valid_ring3_iret_state : bool :=
  unwrap_some stack := user_stack_range in
  unwrap context := InitialContext_new (USER_SPACE_START + 0x1000) (vr_end stack) in
  unwrap frame := UserReturnFrame_from_initial context USER_CODE_SELECTOR USER_DATA_SELECTOR in
  (uf_rip frame =?= ctx_entry context) && (uf_rsp frame =?= ctx_stack_pointer context) &&
  (uf_cs frame =?= USER_CODE_SELECTOR) && (uf_ss frame =?= USER_DATA_SELECTOR) &&
  negb (Z.land (uf_rflags frame) 0x2 =?= 0) && negb (Z.land (uf_rflags frame) (Z.shiftl 1 9) =?= 0).

Definition frame_rejects_kernel_selectors : bool :=
  unwrap_some stack := user_stack_range in
  unwrap context := InitialContext_new (USER_SPACE_START + 0x1000) (vr_end stack) in
  UserReturnFrame_from_initial context 0x08 0x10 =?= Err KernelSelector.

(** ** [user_return_transfer.rs] *)
Definition test_transfer (task : TaskId) (process : ProcessId) : option UserReturnTransfer :=
  match AddressSpaceId_new (Z.max (as_u32 (task_index task + 1)) 1) with
  | Some id =>
      match test_launch id with
      | Some prepared =>
          match UserExecutionBinding_new process task id prepared with
          | Ok binding => Some (UserReturnTransfer_new binding)
          | _ => None
          end
      | None => None
      end
  | None => None
  end.

Definition test_user_state (rip rax : Z) : option InterruptedState :=
  stack ← user_stack_range;
  let registers := mkRegs rax 0 0 0 0 0 0 0 0 0 0 0 0 0 0 in
  match InterruptedState_capture (E := Empty_set) registers (frame_from [rip; 0x1b; 0x202; vr_end stack; 0x13]) with
  | Ok s => Some s
  | _ => None
  end.

Definition transfer_rejects_current_task : bool :=
  unwrap_some transfer := test_transfer (mkTaskId 3 4) (mkProcessId 1 2) in
  ut_validate transfer (Some (ut_task transfer)) =?= Err CurrentTask.

Definition transfer_accepts_valid_initial_frame : bool :=
  unwrap_some transfer := test_transfer (mkTaskId 3 4) (mkProcessId 1 2) in
  (ut_validate transfer None =?= Ok transfer) && negb (uf_rip (ut_frame transfer) =?= 0) &&
  negb (uf_rsp (ut_frame transfer) =?= 0).

Definition transfer_accepts_valid_resume_snapshot : bool :=
  unwrap_some transfer := test_transfer (mkTaskId 3 4) (mkProcessId 1 2) in
  unwrap_some state := test_user_state (USER_SPACE_START + 0x5000) 7 in
  unwrap! _, binding := ub_install_resume (ut_binding transfer) state in
  let transfer := UserReturnTransfer_new binding in
  unwrap_some resume := ut_resume transfer in
  (ut_validate transfer None =?= Ok transfer) && (sr_rax (is_registers resume) =?= 7).

Definition userspace_a_b_a_preserves_a_resume_state : bool :=
  unwrap_some a := test_transfer (mkTaskId 10 1) (mkProcessId 10 1) in
  unwrap_some b := test_transfer (mkTaskId 11 1) (mkProcessId 11 1) in
  unwrap_some a_state := test_user_state (USER_SPACE_START + 0x7000) 0xA5 in
  unwrap! _, a_binding := ub_install_resume (ut_binding a) a_state in
  let a_resume := UserReturnTransfer_new a_binding in
  unwrap_some resume := ut_resume a_resume in
  is_none (ut_resume b) && is_ok (ut_validate b (Some (ut_task a_resume))) &&
  (rs_rip (is_return_state resume) =?= USER_SPACE_START + 0x7000) && (sr_rax (is_registers resume) =?= 0xA5) &&
  is_ok (ut_validate a_resume (Some (ut_task b))).

(** ** [user_successor.rs] *)
Definition selector_reports_empty_ready_queue_without_mutation : bool :=
  match select_userspace_successor SystemRuntime_new None with Err NoReadyTask => true | _ => false end.

(** ** [user_transfer.rs] *)
Definition transfer_uses_the_validated_initial_user_frame : bool :=
  unwrap_some id := AddressSpaceId_new 9 in
  unwrap root := from_physical_address 0x12347000 in
  unwrap_some stack := user_stack_range in
  unwrap prepared := prepare_launch root (mkLaunchPlan id (USER_SPACE_START + 0x2000) (vr_end stack)) in
  unwrap binding := UserExecutionBinding_new (mkProcessId 4 5) (mkTaskId 6 7) id prepared in
  let transfer := UserReturnTransfer_new binding in
  (ut_root transfer =?= root) && (uf_rip (ut_frame transfer) =?= USER_SPACE_START + 0x2000) &&
  (uf_rsp (ut_frame transfer) =?= vr_end stack) && is_none (ut_resume transfer).

(** ** [yield_switch.rs] *)
(** Two live contexts: the boot context and that of one task. *)
Definition two_contexts (current next : Context) (ref : ContextRef) : Context :=
  match ref with BootContext => current | TaskContext _ => next end.
Definition NEXT : ContextRef := TaskContext (mkTaskId 1 1).

Definition rejects_null_contexts : bool :=
  yield_validate (two_contexts Context_empty Context_empty) (Some BootContext) None =?= Err NullNext.

Definition rejects_same_context : bool :=
  let current := mkCtx 1 0 0 0 0 0 0 2 in
  yield_validate (two_contexts current Context_empty) (Some BootContext) (Some BootContext) =?= Err SameContext.

Definition rejects_uninitialized_current_context : bool :=
  let next := mkCtx 1 0 0 0 0 0 0 2 in
  yield_validate (two_contexts Context_empty next) (Some BootContext) (Some NEXT) =?= Err CurrentUninitialized.

Definition accepts_two_initialized_contexts : bool :=
  let current := mkCtx 1 0 0 0 0 0 0 2 in
  let next := mkCtx 3 0 0 0 0 0 0 4 in
  yield_validate (two_contexts current next) (Some BootContext) (Some NEXT) =?= Ok tt.

Definition first_activation_rejects_uninitialized_next_context : bool :=
  activate_first_check (two_contexts Context_empty Context_empty) (Some BootContext) (Some NEXT)
    =?= Err NextUninitialized.
