(* ===== verification/Unlinked.v ===== *)
(** * Files outside the module tree

    [arch/x86_64/per_cpu.rs], [preemption_context.rs] and [user_execution_registry.rs]: no
    [mod] declaration reaches them, so they are not part of the kernel.  They are translated
    here with their tests; the registry is an earlier copy of the one in
    [user_execution.rs], and the lemma below says what the two share. *)

From stdpp Require Import base numbers list options.
From S2P Require Import Prelude Tasks Memory LoadPlan Process Execution UserExecution PageTable.
From S2P Require Import TestKit TestsArch.

Local Open Scope Z_scope.
Local Open Scope test_scope.

(** ** [per_cpu.rs] *)
Record CpuId := mkCpuId { cpuid_value : Z }.
Definition CpuId_BOOTSTRAP : CpuId := mkCpuId 0.

Record PerCpuState := mkPerCpu { pcs_cpu_id : CpuId; pcs_current : option TaskId; pcs_interrupt_depth : Z }.

Definition PerCpuState_bootstrap : PerCpuState := mkPerCpu CpuId_BOOTSTRAP None 0.
Definition pcs_set_current (s : PerCpuState) (task : option TaskId) : PerCpuState :=
  mkPerCpu (pcs_cpu_id s) task (pcs_interrupt_depth s).
Definition pcs_enter_interrupt (s : PerCpuState) : PerCpuState :=
  mkPerCpu (pcs_cpu_id s) (pcs_current s) (Z.min (pcs_interrupt_depth s + 1) U32_MAX).
Definition pcs_leave_interrupt (s : PerCpuState) : bool * PerCpuState :=
  if pcs_interrupt_depth s =? 0 then (false, s)
  else (true, mkPerCpu (pcs_cpu_id s) (pcs_current s) (pcs_interrupt_depth s - 1)).

Definition bootstrap_state_starts_idle : bool :=
  let state := PerCpuState_bootstrap in
  (cpuid_value (pcs_cpu_id state) =?= 0) && (pcs_current state =?= None) && (pcs_interrupt_depth state =?= 0).

Definition interrupt_depth_is_balanced : bool :=
  let state := pcs_enter_interrupt (pcs_enter_interrupt PerCpuState_bootstrap) in
  let '(left1, state1) := pcs_leave_interrupt state in
  let '(left2, state2) := pcs_leave_interrupt state1 in
  let '(left3, _) := pcs_leave_interrupt state2 in
  (pcs_interrupt_depth state =?= 2) && left1 && left2 && negb left3.

(** Below the saturation point a nested interrupt is undone exactly. *)
Lemma enter_leave s :
  0 <= pcs_interrupt_depth s < U32_MAX -> pcs_leave_interrupt (pcs_enter_interrupt s) = (true, s).
Proof.
  intros [Hl Hu]. unfold pcs_leave_interrupt, pcs_enter_interrupt. simpl.
  rewrite Z.min_l by lia. destruct (Z.eqb_spec (pcs_interrupt_depth s + 1) 0); [lia|].
  replace (pcs_interrupt_depth s + 1 - 1) with (pcs_interrupt_depth s) by lia. by destruct s.
Qed.

(** ** [preemption_context.rs] *)
Record InterruptContext := mkIntContext {
  ic_rax : Z; ic_rcx : Z; ic_rdx : Z; ic_rsi : Z; ic_rdi : Z; ic_r8 : Z; ic_r9 : Z; ic_r10 : Z; ic_r11 : Z;
  ic_rip : Z; ic_cs : Z; ic_rflags : Z; ic_rsp : Z; ic_ss : Z;
}.
Definition RFLAGS_RESERVED_ONE : Z := Z.shiftl 1 1.
Definition ic_is_valid (c : InterruptContext) : bool :=
  negb (ic_rip c =? 0) && negb (Z.land (ic_rflags c) RFLAGS_RESERVED_ONE =? 0).

Definition interrupted_context_requires_valid_return_frame : bool :=
  let invalid := mkIntContext 0 0 0 0 0 0 0 0 0 0x1000 0 0 0 0 in
  let valid := mkIntContext 0 0 0 0 0 0 0 0 0 0x1000 0 (Z.shiftl 1 1) 0 0 in
  negb (ic_is_valid invalid) && ic_is_valid valid.

(** ** [user_execution_registry.rs] *)
Inductive OldRegistryError := OldAlreadyBound | OldNotFound.

Definition old_get (r : UserExecutionRegistry) (task : TaskId) : option UserExecutionBinding :=
  reg_find ub_task r task.
Definition old_insert (r : UserExecutionRegistry) (binding : UserExecutionBinding)
  : result OldRegistryError unit * UserExecutionRegistry :=
  if bool_decide (is_Some (old_get r (ub_task binding))) then (Err OldAlreadyBound, r)
  else (Ok tt, r ++ [Some binding]).
Definition old_remove (r : UserExecutionRegistry) (task : TaskId)
  : result OldRegistryError UserExecutionBinding * UserExecutionRegistry :=
  match position (slot_matches ub_task task) r with
  | None => (Err OldNotFound, r)
  | Some i =>
      match r !! i with
      | Some (Some binding) => (Ok binding, <[i := None]> r)
      | _ => (Err OldNotFound, r)
      end
  end.
Definition old_count (r : UserExecutionRegistry) : nat := length (filter is_Some r).

(** How the linked registry names the two errors of the copy. *)
Definition linked_error (e : OldRegistryError) : UserExecutionRegistryError :=
  match e with OldAlreadyBound => UserAlreadyBound | OldNotFound => UserNotFound end.

(** The copy and the linked registry agree on every call they share. *)
Lemma registry_copies_agree r binding task :
  old_get r task = ur_get r task /\ old_count r = ur_count r /\
  map_err_st linked_error (old_insert r binding) = ur_insert r binding /\
  map_err_st linked_error (old_remove r task) = ur_remove r task.
Proof.
  unfold old_insert, ur_insert, old_remove, ur_remove, old_get, ur_get. split_and!; [done..| |].
  - by case_bool_decide.
  - destruct (position _ r) as [i|]; [|done]. by destruct (r !! i) as [[]|].
Qed.

Definition old_binding : option UserExecutionBinding :=
  match AddressSpaceId_new 7, @from_physical_address phys_addr_52 0x12345000 with
  | Some id, Ok root =>
      match prepare_launch root (mkLaunchPlan id (USER_SPACE_START + 0x1000) 0x70000000) with
      | Ok launch =>
          match UserExecutionBinding_new (mkProcessId 1 1) (mkTaskId 2 1) id launch with
          | Ok binding => Some binding
          | _ => None
          end
      | _ => None
      end
  | _, _ => None
  end.

Definition registry_rejects_duplicate_task_binding : bool :=
  unwrap_some item := old_binding in
  unwrap! _, registry := old_insert [] item in
  match old_insert registry item with
  | (Err OldAlreadyBound, registry) => old_count registry =?= 1%nat
  | _ => false
  end.

Definition registry_removes_binding_terminally : bool :=
  unwrap_some item := old_binding in
  unwrap! _, registry := old_insert [] item in
  unwrap! removed, registry := old_remove registry (ub_task item) in
  (removed =?= item) && is_none (old_get registry (ub_task item)) && (old_count registry =?= 0%nat).
