(* ===== verification/Conformance.v ===== *)
(** * The model against the repository's unit tests

    The suites collect the tests that the [Tests*] files and [Unlinked] translate.  Not
    translated: assertions on the size, alignment and field offsets of compiled types, tests
    that only name a function to fix its type, and [user_activation_tests.rs], whose launch
    plan lacks a field. *)

From stdpp Require Import base numbers list options.
From S2P Require Import Prelude KernelTask TestKit TestsScheduler TestsMemory TestsProcess TestsKernel.
From S2P Require Import TestsArch Unlinked.

(** [kernel/src/scheduler/] *)
Definition scheduler_suite : list bool :=
  [task_state_machine_rejects_illegal_transition; task_state_machine_accepts_ready_to_running;
   execution_can_only_attach_once; userspace_task_has_explicit_kind_and_no_kernel_execution_assumption;
   execution_handle_is_bound_to_generational_task_id; execution_state_starts_unbootstrapped;
   execution_state_can_be_bootstrapped_once; fifo_order_is_stable; peek_does_not_mutate_queue;
   duplicate_task_is_not_enqueued; rotation_moves_current_task_to_back; preserves_fifo_order;
   rejects_duplicate_membership; removes_specific_waiter_without_reordering_remaining_tasks;
   deadlines_are_monotonic; equal_deadlines_use_task_id_for_deterministic_order; duplicate_sleep_is_rejected;
   expiry_is_inclusive; remove_deletes_only_the_requested_task; request_is_edge_consumable;
   nested_preemption_disable_is_balanced; userspace_task_creation_is_explicit;
   scheduler_round_robin_cycles_a_b_a_b; scheduler_does_not_self_dispatch_single_task;
   sleep_blocks_current_then_expiry_makes_task_ready; duplicate_sleep_rolls_back_state;
   block_and_wake_preserve_fifo_and_ready_state; exit_current_removes_task_and_clears_cpu_owner;
   terminate_current_to_expected_successor_is_atomic_at_scheduler_boundary;
   terminate_rejects_non_ready_successor_without_mutation; retired_generation_slot_is_never_reused].

(** [kernel/src/memory/] *)
Definition memory_suite : list bool :=
  [rejects_inverted_range; recognizes_user_range; recognizes_kernel_range; default_user_layout_is_disjoint;
   stack_is_below_kernel_boundary; empty_map_is_empty; aligned_address_constructs_frame;
   unaligned_address_is_rejected; frame_size_is_4k; allocator_skips_reserved_regions;
   allocator_aligns_region_start_up; contiguous_allocation_consumes_one_region;
   checkpoint_restores_allocator_cursor; accepts_aligned_address; rejects_unaligned_address;
   rejects_end_address_overflow; page_size_is_four_kib; mapping_flags_are_explicit;
   translates_with_checked_addition; physical_rejects_overflow; translates_ranges_without_wrapping;
   accepts_empty_range; region_rejects_inverted_range; contains_uses_half_open_semantics;
   counts_only_aligned_pages; accepts_normal_user_buffer; rejects_null_non_empty_buffer; user_rejects_overflow;
   rejects_kernel_address; allows_empty_slice_without_dereference_requirement; accepts_readable_user_page;
   rejects_unmapped_page; rejects_kernel_only_mapping; rejects_non_readable_user_mapping;
   empty_slice_requires_no_mapping; copy_requires_destination_length_match;
   copy_uses_backend_only_after_validation; copy_rejects_unmapped_before_backend; stack_is_inside_user_half;
   guard_page_sits_below_stack; stack_pointer_requires_alignment_and_range].

(** [kernel/src/process/] *)
Definition process_suite : list bool :=
  [zero_is_not_a_valid_address_space_id; ids_are_stable_and_specs_use_default_layout;
   user_range_must_stay_in_user_half; stack_range_is_valid_but_guard_page_is_not; image_must_not_reach_stack;
   binding_keeps_identity_domains_distinct; rejects_execution_handle_from_another_task;
   parses_minimal_x86_64_image; rejects_non_elf_input; rejects_dynamic_elf_until_load_bias_exists;
   rejects_entry_outside_loaded_segment; rejects_writable_executable_segment;
   validated_image_contains_consistent_context; accepts_valid_user_entry_and_stack; rejects_kernel_entry;
   rejects_misaligned_stack; entry_must_be_in_executable_segment; accepts_matching_address_space_identity;
   rejects_mismatched_address_space_identity; translates_elf_permissions_without_requiring_pf_r;
   lifecycle_requires_execution_binding_before_running; matching_execution_binding_allows_running;
   wrong_address_space_is_rejected; exit_is_terminal_and_reap_preserves_status;
   stale_id_cannot_touch_replacement_slot; yield_to_switches_running_to_ready_and_successor_to_running;
   lookup_uses_exact_page_base; zero_copy_errors_are_explicit; ramdisk_payload_becomes_validated_process_image;
   binds_process_to_created_ready_task; binding_failure_does_not_leave_task_ready; plans_all_stack_pages;
   guard_page_is_not_part_of_plan; lifecycle_is_explicit_and_one_way; plan_accessors_are_stable].

(** The ABI, the user program library and the root of [kernel/src/] *)
Definition kernel_suite : list bool :=
  [syscall_numbers_are_stable; syscall_numbers_decode_from_abi_contract; error_returns_are_negative_values;
   success_is_not_an_error; abi_version_is_explicit; user_slice_layout_is_stable; payload_message_is_stable;
   payload_uses_shared_write_syscall_number; decodes_shared_syscall_numbers;
   exit_and_yield_requests_have_explicit_arguments;
   process_control_executes_exit_and_yield_without_global_state; lifecycle_success_selects_actions;
   lifecycle_failure_always_returns; combined_dispatch_routes_write_and_process_control;
   write_rejects_nonzero_reserved_argument; combined_write_rejects_nonzero_reserved_argument_before_copy;
   syscall_errors_encode_to_shared_abi; rejects_unknown_syscall_numbers;
   write_rejects_kernel_address_before_dereference; write_executes_through_validated_copy_and_sink;
   write_propagates_sink_failure_without_claiming_success; write_rejects_unmapped_before_sink;
   monotonic_time_preserves_nanoseconds; time_addition_saturates; zero_interval_is_rejected;
   interval_round_trips; deadline_preserves_absolute_time; rejects_external_vector_below_external_range;
   timer_owns_vector_32; accepts_external_vector_at_boundary; spurious_vector_is_maximum;
   vector_policy_excludes_exception_and_timer_space; accepts_page_aligned_region; rejects_unaligned_start;
   rejects_non_page_multiple_size; rejects_overflowing_range; heap_stats_preserve_capacity_identity;
   hello_message_is_stable; error_contract_is_distinct].

(** [kernel/src/arch/x86_64/] *)
Definition arch_suite : list bool :=
  [checksum_wraps_at_u8; source_override_is_copyable; boxed_activation_has_stable_address;
   accepts_aligned_level4_frame; rejects_unaligned_level4_frame; root_error_is_explicit; prefers_x2apic;
   falls_back_to_xapic; refuses_missing_apic; vectors_start_after_exception_space;
   context_is_zero_before_initialization; bootstrap_context_carries_activation_pointer;
   bootstrap_rejects_invalid_stack; cpu_local_current_task_round_trips; syscall_action_mailbox_is_single_shot;
   capture_requires_current_task; interrupted_snapshot_can_be_peeked_without_consuming;
   runtime_binding_is_stable_and_single_owner; execution_binding_owns_stable_stack_and_activation;
   interrupted_snapshot_is_owned_once; registry_owns_one_execution_binding_per_handle;
   duplicate_handle_is_rejected; stale_generation_does_not_match_reused_index;
   removing_execution_is_terminal_for_that_handle; context_pair_rejects_same_task;
   non_kernel_preempt_state_is_not_consumed; ring3_selector_contract_is_stable;
   kernel_entry_stack_has_expected_size; rejects_empty_write; translates_page_offset_with_checked_math;
   rejects_translation_overflow; return_frame_sizes_match_same_and_cross_cpl;
   syscall_success_returns_value_in_rax_contract; syscall_failure_returns_negative_abi_value;
   interrupt_flag_is_read_without_mutating_frame; kernel_return_snapshot_is_valid;
   user_return_snapshot_is_valid_only_with_user_stack_pair; masked_fixed_entry_encoding;
   level_trigger_and_active_low_are_independent_bits; first_redirection_register_is_base;
   identity_route_preserves_isa_irq; selects_nearest_lower_ioapic_gsi_base;
   spawn_installs_execution_before_ready_state; divide_encoding_is_sixteen;
   flags_reject_writable_executable_mapping; map_error_mapping_preserves_semantics; legacy_pic_ports_are_stable;
   validates_kernel_return_packet; rejects_user_return_packet; request_is_deferred_until_safe_point;
   rejects_missing_interrupted_state; rejects_user_return_frame_for_kernel_preemption;
   accepts_valid_kernel_interrupted_state; rejects_uninitialized_context;
   spawn_user_ready_is_transactional_and_ready_only_at_end;
   spawn_user_ready_rejects_address_space_mismatch_without_ready_task;
   bind_current_requires_matching_running_task; syscall_control_maps_unbound_yield;
   user_ready_transaction_stops_before_running; converts_exact_second; converts_fractional_second;
   rejects_zero_frequency; builds_ring3_context_from_process_context; context_rejects_kernel_selectors;
   rejects_direct_map_overflow_before_raw_copy; page_chunk_calculation_never_crosses_a_page;
   return_frame_matches_iretq_field_order; binding_rejects_mismatched_address_space;
   registry_rejects_duplicate_task; registry_removes_exact_task; resume_state_is_owned_and_consumed_explicitly;
   prepared_launch_keeps_root_and_iret_state_together; builds_valid_ring3_iret_state;
   frame_rejects_kernel_selectors; transfer_rejects_current_task; transfer_accepts_valid_initial_frame;
   transfer_accepts_valid_resume_snapshot; userspace_a_b_a_preserves_a_resume_state;
   selector_reports_empty_ready_queue_without_mutation; transfer_uses_the_validated_initial_user_frame;
   rejects_null_contexts; rejects_same_context; rejects_uninitialized_current_context;
   accepts_two_initialized_contexts; first_activation_rejects_uninitialized_next_context].

(** Files outside the module tree *)
Definition unlinked_suite : list bool :=
  [bootstrap_state_starts_idle; interrupt_depth_is_balanced; interrupted_context_requires_valid_return_frame].

(** Tests whose expectation the code does not meet. *)
Definition failing_suite : list bool :=
  [contiguous_allocation_does_not_cross_region_boundaries; rejects_segment_larger_than_file;
   plans_page_aligned_segment; spawn_ready_rolls_back_on_binding_mismatch;
   abort_ready_releases_transaction_slot; user_return_frame_reads_rsp_and_ss;
   registry_rejects_duplicate_task_binding; registry_removes_binding_terminally].

(** The tests of [kernel_task.rs] that dispatch, on the CPU they run on. *)
Definition dispatching_suite : list (Cpu -> bool) :=
  [prepare_dispatch_validates_registry_backed_execution;
   prepare_dispatch_returns_noop_without_another_ready_task; exit_current_releases_execution_registry_entry;
   sleeping_task_expires_without_switching_in_timer_service;
   sleep_deadline_remains_owned_while_task_is_blocked].

(** Every translated test of the repository holds of the model, except six of linked files
    (and two of files no module declares) whose expectation contradicts the code they test, and
    the five of [kernel_task.rs] that dispatch: those hold exactly on a CPU whose TSS has been
    installed, which a test process never does, so there they end in the panic of
    [set_kernel_stack_top]. *)
Theorem unit_tests_replayed :
  Forall (eq true) (scheduler_suite ++ memory_suite ++ process_suite ++ kernel_suite ++ arch_suite ++
                    unlinked_suite) /\
  Forall (eq false) failing_suite /\
  forall c, Forall (fun test => test c = bool_decide (is_Some (cpu_rsp0 c))) dispatching_suite.
Proof.
  split; [|split].
  - apply all_true. vm_compute. reflexivity.
  - apply all_false. vm_compute. reflexivity.
  - intros [l [r|] t p]; repeat (apply Forall_cons; split; [vm_compute; reflexivity|]); by apply Forall_nil.
Qed.
